(* ===== verification/_CoqProject ===== *)
-Q . S2P
Prelude.v
GF256.v
PageMem.v
Syndrome.v
Recov.v
EcTables.v
Matrix.v
Mds.v
Gfni.v
GfniCorrect.v
Simd.v
SimdLemmas.v
SimdSyndrome.v
SimdSyndromeCorrect.v
SimdRecov.v
SimdRecovCorrect.v
EcBase.v
RaidIsal.v
IsalRecov.v
Raid6Theorems.v
Algos.v
AlgosCorrect.v
IsalInstall.v
IsalInstallCorrect.v
Boot.v
ErasureTheorems.v
Sectors.v
Raid5Layout.v
Raid5Stripe.v
Raid5Dev.v
Raid5Ops.v
Raid5Handle.v
Raid5Machine.v
Raid5Data.v
Raid5Soft.v
Raid5Copy.v
Raid5Spec.v
Raid5Promise.v
Raid5OpsCorrect.v
Raid5Write.v
Raid5Inv.v
Raid5Init.v
Raid5Example.v
Raid5Analyse.v
Raid5Decide.v
Raid5Failed.v
Raid5Fill.v
Raid5Dirty.v
Raid5Check.v
Raid5Plan.v
Raid5Run.v
Raid5OpsTheorems.v
Raid5Repair.v
Raid5Finish.v
Raid5Step.v
Raid5Event.v
Raid5Refine.v
Raid5Theorems.v
Raid5Defects.v
Raid5Cache.v
Raid5CacheInv.v
Raid5CacheCorrect.v
Raid5CacheSpec.v
Raid5CacheTheorems.v
Raid10Layout.v
Raid10Correct.v
Raid0.v
Raid0Correct.v
