(* ===== verification/Prelude.v ===== *)
(** Verification of the md RAID code of this repository: the RAID-6 parity code of
    src/raid6, the erasure code and GFNI acceleration of src/isa-l, and of src/md the
    RAID-4/5/6 layout, stripe cache and handling of stripes, the RAID-10 layout and RAID-0.

    * The program

    A RAID-4/5/6 array (md/raid5.c) splits its sectors into stripes, one page per
    device.  [raid5_compute_sector] says where a sector is.  A request gets the stripe
    from the stripe cache and is added to it ([add_stripe_bio]); the threads of raid5.c
    handle the stripe ([handle_stripe]) until nothing is left to do and release it.
    Handling looks at the flags of the devices and decides what to read, compute, write
    and check; [raid_run_ops] works on the pages and [ops_run_io] submits requests to the
    members, whose completions set flags and have the stripe handled again.  The parity
    of a stripe is computed through the global [raid6_call], and lost pages are restored
    through [raid6_2data_recov] and [raid6_datap_recov].  raid6/algos.c sets these
    pointers at boot to the best implementation for the processor (raid6/int.uc, mmx.c,
    sse1.c, sse2.c, avx2.c, avx512.c, recov.c, recov_ssse3.c, recov_avx2.c,
    recov_avx512.c), and the module of isa-l/raid6_isal.c replaces them by routines on
    top of the erasure code of isa-l (ec_base.c, the gf_*_gfni.c kernels, gfni_glue.c).
    RAID-10 and RAID-0 arrays have no parity; md/raid10.c and md/raid0.c place the
    sectors.

    * The files

    Shared.
    - Prelude: machine integers, exclusive or, sums, the hint database [md], lists.
    - GF256: raid6/mktables.c and the field GF(2^8); a [field] instance on bytes.
    - PageMem: memory as pages of bytes behind addresses, so that pointer tables can be
      permuted and share pages.

    RAID-6 parity.
    - Syndrome: the specification of P and Q, the contracts [SyndromeGen] and
      [SyndromeXor] of [struct raid6_calls], and raid6/int.uc for every unrolling factor.
    - Recov: the contracts [Recov2Data] and [RecovDataP], and raid6/recov.c.
    - Simd, SimdLemmas: a machine with vector and mask registers; SimdSyndrome and
      SimdRecov: the assembly of mmx.c .. avx512.c and recov_*.c, one instruction of the
      model for one of the source; SimdSyndromeCorrect, SimdRecovCorrect: they meet the
      contracts.
    - Algos, AlgosCorrect: the tables and the selection of raid6/algos.c.
    - Raid6Theorems: recovery and read-modify-write from the contracts alone.

    Erasure code.
    - EcTables, Matrix, Mds, EcBase: the tables of isa-l/ec_base.h, the matrices, their
      inversion and the byte-wise routines of isa-l/ec_base.c.
    - Gfni, GfniCorrect: the GFNI kernels with their blocks and tails, and the dispatch of
      isa-l/gfni_glue.c.
    - ErasureTheorems: encoding, decoding and updates.
    - RaidIsal, IsalRecov: the syndromes and the recovery of isa-l/raid6_isal.c with its
      per-CPU cache of tables.
    - IsalInstall, IsalInstallCorrect: the self-validation, installation and removal.
    - Boot: algos.c and then raid6_isal.c, on one machine.

    RAID-4/5/6 arrays, md/raid5.c.
    - Sectors, Raid5Layout: the map between array sectors and places, and its inverse.
    - Raid5Stripe: the size of the array and the sources of the syndromes.
    - Raid5Dev, Raid5Ops, Raid5Handle, Raid5Machine: one stripe.  The devices with their
      flags, pages and requests, and the members; [raid_run_ops] and the ops_run_*
      functions; [handle_stripe] and all it calls; [init_stripe], [add_stripe_bio], the
      completions, and the events that happen to a stripe as a step function.
    - Raid5Data: encodings, the slots of the syndromes and the contract [AsyncTx] of
      async_tx; Raid5Soft: an instance.  Raid5Copy: the copies between requests and pages.
    - Raid5Spec: what a stripe promises, blocks and pending requests only; Raid5Promise:
      what follows from that.
    - Raid5OpsCorrect, Raid5Write: the operations on the pages.  Raid5Inv: the invariant
      of a stripe between two events; Raid5Init: it holds at the start; Raid5Example: a
      stripe for the witnesses.
    - Raid5Analyse, Raid5Decide, Raid5Fill, Raid5Dirty, Raid5Check, Raid5Plan, Raid5Run,
      Raid5Finish, Raid5Step: [handle_stripe] from its analysis to the submission of
      requests, part by part; Raid5Event, Raid5Refine: the other events, and all together.
    - Raid5OpsTheorems, Raid5Repair, Raid5Failed, Raid5Theorems: the properties.
      Raid5Defects: runs outside of what they assume.
    - Raid5Cache: the stripe cache as threads that interleave at every access no lock
      covers; Raid5CacheInv and Raid5CacheCorrect: its invariant; Raid5CacheSpec: the
      abstract store that it implements; Raid5CacheTheorems: what follows.

    Arrays without parity.
    - Raid10Layout, Raid10Correct: md/raid10.c.  Raid0, Raid0Correct: md/raid0.c.

    * What is shown

    - Parity: every implementation computes the same P and Q, any two lost pages are
      restored, by every implementation the selection can choose and with the GFNI module
      loaded or not ([boot_and_load], [selected_two_data], [two_data_recovered] and those
      next to them); read-modify-write keeps a stripe consistent.  The routines of the
      module compute nothing when they cannot allocate their tables, or for more than 32
      data disks ([isal_gen_agrees], [isal_xor_agrees]), and its recoveries fall back to
      those it replaced ([isal_two_data_recovered]).
    - Erasure code: the matrices invert, any [k] symbols give back the data, all encoders
      agree, updates add up to an encoding.
    - Loading: if it can allocate its buffers and tables, the self-validation accepts every
      correct implementation in place; a failed or undone loading leaves the kernel as it
      was.
    - Stripes: under any sequence of requests, completions, tolerable faults and changes of
      members no [BUG()] is reached ([stripe_safe]), and the stripe implements Raid5Spec
      ([stripe_refines]): reads see the writes ([reads_current]), no request is lost or
      returned twice, writes that are returned are on the members with their parity
      ([writes_durable]), members in sync hold an encoding whenever nothing is under way,
      and a recovery makes it so for spares ([recovery_rebuilds]).  The operations compute
      lost blocks, the two ways to write agree, checks are exact, a wrong parity is repaired
      or only reported, as asked for, and requests to a stripe that lost too much end with
      errors.
    - Stripe cache: no step of any interleaving goes wrong, no deadlock, no stripe is lost
      or freed or re-keyed while in use, the counters are exact, and the whole refines a
      store of keyed stripes ([cache_refines]).
    - Layouts: places are valid, distinct and inside the devices, the inverse maps are
      inverse, sizes are right.
    - Some theorems exhibit defects: [wide_stripe_not_recovered], [far_set_overlap],
      [enough_far_sets_unsound], [raid0_size_odd_chunk], and those of Raid5Defects.

    * Bounds and fuel

    Unsigned integers wrap at their width ([u8] .. [u64]); C ints that the code keeps
    small (disk numbers, copies) are plain [Z].  Loops over pages and tables have the
    number of bytes or entries as fuel, which is enough because every pass advances; the
    walks over disks ([slot_loop], [enough_loop]) have theorems that say they end within
    one turn.  The threads of the stripe cache are a step function under an arbitrary
    schedule, and need no fuel; nor do the events of a stripe, which are a list.

    The events of a stripe are atomic, and the operations of async_tx are done when they
    are called, as they are without a DMA engine.  [enabled] of Raid5Machine says which
    events may come next; it is what the callers of the code and the block layer keep to.
    The theorems about runs are for arrays of up to 255 slots (the disks, and two more in
    the DDF layouts) without replacements, discards and [skip_copy] (Raid5Handle has the code
    for these), with members in sync that hold an encoding at the start, so that they say
    nothing of the first synchronisation of an array, of which Raid5Repair shows the check
    and repair of a stripe.  They assume that the faults are [tolerable]: no more blocks are
    lost than the level allows when the stripe is handled (see Raid5Failed for the others);
    no RAID-6 stripe is handled with a repair decided while a request to a member is in
    flight, and no read fails of a block that is up to date and that the stripe relies on,
    as the code goes wrong then (Raid5Defects); and no spare takes the place of P during a
    check or of a block that is being rewritten.

    Code that is not in this repository is a parameter: the results of [kmalloc] ([None] is
    [NULL]), the features of the processor, the clock of the benchmark, and the functions of
    async_tx that raid5.c calls, of which [AsyncTx] states what their documentation says.

    * Not modelled

    - Of md/raid5.c: [raid5_make_request], which splits requests over stripes, the batches of
      stripes, reshape and the set-up of an array; the bitmap, whose calls have no effect
      on a stripe but [STRIPE_BIT_DELAY].
    - The journal and the partial parity log (raid5-cache.c, raid5-ppl.c) but for the two
      functions that take part in the stripe cache: they log through the block layer.
    - The I/O, resync and takeover paths of raid10.c and raid0.c, and raid1.c: they
      schedule requests of the block layer.
    - md.c, md-bitmap.c, md-cluster.c: array management, sysfs, the distributed lock
      manager.
    - The device mapper, bcache, VDO and the persistent-data library, which are the
      kernel's and are not built here (Kbuild builds raid456, raid0 and isa-l).
    - The RAID-6 routines for ARM, PowerPC, s390 and LoongArch: their intrinsics.
    - The benchmarks, messages and test programs: they print. *)

From stdpp Require Import prelude.
From stdpp Require Export base list gmap numbers tactics.
From Stdlib Require Export ZArith Lia Ring Field Btauto.

#[global] Open Scope Z_scope.

Declare Scope md_scope.
Delimit Scope md_scope with md.
#[global] Open Scope md_scope.

(** * Machine integers *)

(** An [n]-bit unsigned C integer is a [Z] in [0, 2^n); conversion to the type wraps. *)
Definition u8 (x : Z) : Z := x mod 2 ^ 8.
Definition u16 (x : Z) : Z := x mod 2 ^ 16.
Definition u32 (x : Z) : Z := x mod 2 ^ 32.
Definition u64 (x : Z) : Z := x mod 2 ^ 64.

Definition is_u8 (x : Z) : Prop := 0 <= x < 256.

#[global] Instance is_u8_dec x : Decision (is_u8 x).
Proof. unfold is_u8; apply _. Defined.

(** All bytes, for exhaustive checks. *)
Definition all_bytes : list Z := seqZ 0 256.

(** [x ^ y] of C. *)
Infix "⊕" := Z.lxor (at level 50, left associativity) : md_scope.

(** * Arrays *)

(** [a[i]] on an array of integers; an index out of range reads 0 (the theorems
    below only use indices in range, where C defines the access). *)
Definition rd (l : list Z) (i : Z) : Z := default 0 (l !! Z.to_nat i).
Notation "l .[ i ]" := (rd l i) (at level 1, i at level 200, left associativity, format "l .[ i ]") : md_scope.

(** [a[i] = v]. *)
Definition wr (l : list Z) (i v : Z) : list Z := <[Z.to_nat i := v]> l.
Notation "l .[ i <- v ]" := (wr l i v) (at level 1, i at level 200, v at level 200, left associativity) : md_scope.

(** * Exhaustive checks over bytes *)

Lemma elem_of_all_bytes x : is_u8 x -> In x all_bytes.
Proof.
  intros Hx. apply list_elem_of_In. unfold all_bytes. apply elem_of_seqZ.
  unfold is_u8 in Hx; lia.
Qed.

(** A boolean check that evaluates to [true] on every byte holds of every byte. *)
Lemma bytes_check (f : Z -> bool) :
  forallb f all_bytes = true -> forall x, is_u8 x -> f x = true.
Proof.
  intros Hf x Hx. rewrite forallb_forall in Hf. apply Hf, elem_of_all_bytes, Hx.
Qed.

Lemma bytes_check2 (f : Z -> Z -> bool) :
  forallb (fun x => forallb (f x) all_bytes) all_bytes = true ->
  forall x y, is_u8 x -> is_u8 y -> f x y = true.
Proof.
  intros Hf x y Hx Hy. apply bytes_check; [|done].
  apply (bytes_check (fun x => forallb (f x) all_bytes)); done.
Qed.

(** * Bounds of bitwise operations *)

Lemma bits_bound n x : 0 <= n -> (forall i, n <= i -> Z.testbit x i = false) -> 0 <= x < 2 ^ n.
Proof.
  intros Hn H. assert (x = x mod 2 ^ n) as ->; [|apply Z.mod_pos_bound; lia].
  apply Z.bits_inj'; intros i Hi.
  destruct (decide (i < n)); [by rewrite Z.mod_pow2_bits_low|].
  by rewrite Z.mod_pow2_bits_high, H by lia.
Qed.

Lemma bits_above n x i : 0 <= x < 2 ^ n -> 0 <= n <= i -> Z.testbit x i = false.
Proof.
  intros Hx Hi. rewrite <- (Z.mod_small x (2 ^ n)) by done. by apply Z.mod_pow2_bits_high.
Qed.

Lemma lxor_bound n a b :
  0 <= n -> 0 <= a < 2 ^ n -> 0 <= b < 2 ^ n -> 0 <= a ⊕ b < 2 ^ n.
Proof.
  intros Hn Ha Hb. apply bits_bound; [done|]. intros i Hi.
  by rewrite Z.lxor_spec, !(bits_above n) by lia.
Qed.

Lemma land_bound n a b : 0 <= n -> 0 <= a < 2 ^ n -> 0 <= Z.land a b < 2 ^ n.
Proof.
  intros Hn Ha. apply bits_bound; [done|]. intros i Hi.
  by rewrite Z.land_spec, (bits_above n) by lia.
Qed.

Lemma is_u8_lxor a b : is_u8 a -> is_u8 b -> is_u8 (a ⊕ b).
Proof. apply (lxor_bound 8); lia. Qed.

Lemma is_u8_u8 x : is_u8 (u8 x).
Proof. apply Z.mod_pos_bound; lia. Qed.

Lemma is_u8_0 : is_u8 0.
Proof. unfold is_u8; lia. Qed.

Lemma is_u8_1 : is_u8 1.
Proof. unfold is_u8; lia. Qed.

(** Error numbers. *)
Definition ENOMEM := 12.
Definition EINVAL := 22.

Create HintDb md.
#[export] Hint Resolve is_u8_lxor is_u8_u8 is_u8_0 is_u8_1 : md.

(** * Exclusive or as an abelian group of exponent two *)

(** Equations between exclusive ors, bit by bit. *)
Ltac lxor_solve :=
  apply Z.bits_inj'; intros ?i ?Hi;
  rewrite ?Z.lxor_spec, ?Z.testbit_0_l; btauto.

Lemma lxor_cancel_l a b : a ⊕ (a ⊕ b) = b.
Proof. lxor_solve. Qed.

Lemma lxor_swap4 a b c d : (a ⊕ b) ⊕ (c ⊕ d) = (a ⊕ c) ⊕ (b ⊕ d).
Proof. lxor_solve. Qed.

Lemma mod_pow2_lxor n a b : 0 <= n -> (a ⊕ b) mod 2 ^ n = a mod 2 ^ n ⊕ b mod 2 ^ n.
Proof.
  intros Hn. apply Z.bits_inj'; intros i Hi. rewrite Z.lxor_spec.
  destruct (decide (i < n)).
  - by rewrite !Z.mod_pow2_bits_low, Z.lxor_spec.
  - by rewrite !Z.mod_pow2_bits_high by lia.
Qed.

Lemma u8_lxor a b : u8 (a ⊕ b) = u8 a ⊕ u8 b.
Proof. by apply mod_pow2_lxor. Qed.

(** [a & (1 << n)] tests bit [n]. *)
Lemma land_pow2 a n : 0 <= n -> Z.land a (2 ^ n) = if Z.testbit a n then 2 ^ n else 0.
Proof.
  intros Hn. apply Z.bits_inj'; intros i Hi. rewrite Z.land_spec, Z.pow2_bits_eqb by done.
  destruct (Z.eqb_spec n i) as [->|Hne].
  - rewrite andb_true_r. destruct (Z.testbit a i); [by rewrite Z.pow2_bits_true|by rewrite Z.testbit_0_l].
  - rewrite andb_false_r. destruct (Z.testbit a n); [by rewrite Z.pow2_bits_false|by rewrite Z.testbit_0_l].
Qed.

Lemma land_pow2_eqb a n : 0 <= n -> (Z.land a (2 ^ n) =? 0) = negb (Z.testbit a n).
Proof.
  intros Hn. rewrite land_pow2 by done. destruct (Z.testbit a n); simpl; [|done].
  apply Z.eqb_neq. pose proof (Z.pow_pos_nonneg 2 n); lia.
Qed.

(** * Little-endian words *)

(** The integer whose bytes, least significant first, are [bs]. *)
Fixpoint le_combine (bs : list Z) : Z :=
  match bs with
  | [] => 0
  | b :: bs => b + 256 * le_combine bs
  end.

Fixpoint le_split (n : nat) (w : Z) : list Z :=
  match n with
  | O => []
  | S n => w mod 256 :: le_split n (w / 256)
  end.

Lemma length_le_split n w : length (le_split n w) = n.
Proof. revert w. induction n as [|n IH]; intros w; simpl; [done|]. by rewrite IH. Qed.

Lemma le_combine_bound bs :
  Forall is_u8 bs -> 0 <= le_combine bs < 256 ^ Z.of_nat (length bs).
Proof.
  induction 1 as [|b bs Hb _ IH]; [done|].
  cbn [le_combine length]. rewrite Nat2Z.inj_succ, Z.pow_succ_r by lia. unfold is_u8 in Hb. lia.
Qed.

Lemma le_split_combine bs : Forall is_u8 bs -> le_split (length bs) (le_combine bs) = bs.
Proof.
  induction 1 as [|b bs Hb _ IH]; [done|]. cbn [le_combine le_split length].
  unfold is_u8 in Hb. rewrite (Z.mul_comm 256).
  rewrite Z.mod_add, Z.mod_small, Z.div_add, Z.div_small, Z.add_0_l by lia. by rewrite IH.
Qed.

Lemma le_combine_scale c (f : Z -> Z) bs :
  le_combine (map (fun b => c * f b) bs) = c * le_combine (map f bs).
Proof. induction bs as [|b bs IH]; simpl; lia. Qed.

(** Bits of a byte followed by a word. *)
Lemma testbit_cat a x i :
  is_u8 a -> 0 <= i -> Z.testbit (a + 256 * x) i = if decide (i < 8) then Z.testbit a i else Z.testbit x (i - 8).
Proof.
  intros Ha Hi. unfold is_u8 in Ha. change 256 with (2 ^ 8) in *.
  rewrite (Z.mul_comm (2 ^ 8)). case_decide as Hlt.
  - rewrite <- (Z.mod_pow2_bits_low (a + x * 2 ^ 8) 8 i) by done.
    by rewrite Z.mod_add, Z.mod_small by lia.
  - rewrite <- (Z.sub_add 8 i) at 1. rewrite <- Z.shiftr_spec, Z.shiftr_div_pow2 by lia.
    by rewrite Z.div_add, Z.div_small by lia.
Qed.

Lemma is_u8_land a b : is_u8 a -> is_u8 (Z.land a b).
Proof. by apply (land_bound 8). Qed.
#[export] Hint Resolve is_u8_land : md.

Lemma land_cat a b x y :
  is_u8 a -> is_u8 b -> Z.land (a + 256 * x) (b + 256 * y) = Z.land a b + 256 * Z.land x y.
Proof.
  intros Ha Hb. apply Z.bits_inj'; intros i Hi.
  rewrite Z.land_spec, !testbit_cat by auto with md.
  case_decide; by rewrite Z.land_spec.
Qed.

Lemma lxor_cat a b x y :
  is_u8 a -> is_u8 b -> (a + 256 * x) ⊕ (b + 256 * y) = a ⊕ b + 256 * (x ⊕ y).
Proof.
  intros Ha Hb. apply Z.bits_inj'; intros i Hi.
  rewrite Z.lxor_spec, !testbit_cat by auto with md.
  case_decide; by rewrite Z.lxor_spec.
Qed.

Lemma le_combine_lxor {A} (f g : A -> Z) l :
  (forall x, x ∈ l -> is_u8 (f x)) -> (forall x, x ∈ l -> is_u8 (g x)) ->
  le_combine (map (fun x => f x ⊕ g x) l) = le_combine (map f l) ⊕ le_combine (map g l).
Proof.
  induction l as [|x l IH]; intros Hf Hg; simpl; [done|].
  rewrite lxor_cat, IH; [done|set_solver..].
Qed.

Lemma le_combine_land {A} (f g : A -> Z) l :
  (forall x, x ∈ l -> is_u8 (f x)) -> (forall x, x ∈ l -> is_u8 (g x)) ->
  le_combine (map (fun x => Z.land (f x) (g x)) l) = Z.land (le_combine (map f l)) (le_combine (map g l)).
Proof.
  induction l as [|x l IH]; intros Hf Hg; simpl; [done|].
  rewrite land_cat, IH; [done|set_solver..].
Qed.

(** Bits above the width of a mask do not matter. *)
Lemma land_mod_pow2 n x y : 0 <= n -> 0 <= y < 2 ^ n -> Z.land (x mod 2 ^ n) y = Z.land x y.
Proof.
  intros Hn Hy. apply Z.bits_inj'; intros i Hi. rewrite !Z.land_spec.
  destruct (decide (i < n)); [by rewrite Z.mod_pow2_bits_low|].
  rewrite <- (Z.mod_small y (2 ^ n)), (Z.mod_pow2_bits_high y) by lia. by rewrite !andb_false_r.
Qed.

Lemma land_lxor_distr a x y : Z.land a (x ⊕ y) = Z.land a x ⊕ Z.land a y.
Proof.
  apply Z.bits_inj'; intros i Hi. rewrite Z.lxor_spec, !Z.land_spec, Z.lxor_spec. btauto.
Qed.

(** * Loops *)

(** Two nested counted loops over a row-major index are one loop. *)
Lemma fold_left_nested {A} (f : A -> nat -> A) k rows s :
  fold_left (fun s i => fold_left (fun s j => f s (i * k + j)%nat) (seq 0 k) s) (seq 0 rows) s =
  fold_left f (seq 0 (rows * k)) s.
Proof.
  revert s. induction rows as [|rows IH]; intros s; [done|].
  rewrite seq_S, fold_left_app, IH. simpl fold_left at 1.
  replace (S rows * k)%nat with (rows * k + k)%nat by lia. rewrite seq_app, fold_left_app.
  generalize (fold_left f (seq 0 (rows * k)) s). intros s'. simpl plus.
  assert (forall n i s', fold_left (fun s j => f s (rows * k + j)%nat) (seq i n) s' =
    fold_left f (seq (rows * k + i) n) s') as H.
  { induction n as [|n IHn]; intros i s''; simpl; [done|]. by rewrite IHn, Nat.add_succ_r. }
  rewrite H. by rewrite Nat.add_0_r.
Qed.

(** An invariant of a counted loop. *)
Lemma fold_left_inv {A} (P : nat -> A -> Prop) (f : A -> nat -> A) n s :
  P 0%nat s -> (forall i s, (i < n)%nat -> P i s -> P (S i) (f s i)) ->
  P n (fold_left f (seq 0 n) s).
Proof.
  intros H0 HS. induction n as [|n IH]; [done|].
  rewrite seq_S, fold_left_app. simpl. apply HS; [lia|]. apply IH. intros. apply HS; [lia|done].
Qed.

(** Sum in GF(2^8): [s = 0; for (i = 0; i < n; i++) s ^= f(i);] *)
Definition gfsum (n : nat) (f : nat -> Z) : Z := fold_left (fun s i => s ⊕ f i) (seq 0 n) 0.

Lemma gfsum_S n f : gfsum (S n) f = gfsum n f ⊕ f n.
Proof. unfold gfsum. by rewrite seq_S, fold_left_app. Qed.

Lemma gfsum_ext n f g : (forall i, (i < n)%nat -> f i = g i) -> gfsum n f = gfsum n g.
Proof.
  intros H. induction n as [|n IH]; [done|]. rewrite !gfsum_S, IH, H by (lia || auto). done.
Qed.

Lemma gfsum_u8 n f : (forall i, (i < n)%nat -> is_u8 (f i)) -> is_u8 (gfsum n f).
Proof.
  intros H. induction n as [|n IH]; [apply is_u8_0|]. rewrite gfsum_S. apply is_u8_lxor; auto.
Qed.

Lemma gfsum_lxor n f g : gfsum n (fun i => f i ⊕ g i) = gfsum n f ⊕ gfsum n g.
Proof. induction n as [|n IH]; [done|]. rewrite !gfsum_S, IH. apply lxor_swap4. Qed.

Lemma gfsum_0 n f : (forall i, (i < n)%nat -> f i = 0) -> gfsum n f = 0.
Proof.
  intros H. induction n as [|n IH]; [done|]. rewrite gfsum_S, IH, H by (lia || auto). done.
Qed.

(** A sum with one non-zero term. *)
Lemma gfsum_single n f j :
  (j < n)%nat -> (forall i, (i < n)%nat -> i <> j -> f i = 0) -> gfsum n f = f j.
Proof.
  intros Hj H. induction n as [|n IH]; [lia|]. rewrite gfsum_S.
  destruct (decide (j = n)) as [->|].
  - rewrite gfsum_0, Z.lxor_0_l; [done|]. intros i Hi. apply H; lia.
  - rewrite IH, (H n), Z.lxor_0_r by (lia || (intros; apply H; lia)). done.
Qed.

(** Exchanging two sums. *)
Lemma gfsum_swap n k f :
  gfsum n (fun i => gfsum k (fun j => f i j)) = gfsum k (fun j => gfsum n (fun i => f i j)).
Proof.
  induction n as [|n IH]; [symmetry; by apply gfsum_0|].
  rewrite gfsum_S, IH, <- gfsum_lxor. apply gfsum_ext. intros. by rewrite gfsum_S.
Qed.

Lemma fold_left_map {A B C} (f : A -> B -> A) (g : C -> B) l s :
  fold_left f (map g l) s = fold_left (fun s x => f s (g x)) l s.
Proof. revert s. induction l as [|x l IH]; intros s; simpl; [done|]. apply IH. Qed.

Lemma zip_with_map2 {A B C D} (f : B -> C -> D) (g : A -> B) (h : A -> C) l :
  zip_with f (map g l) (map h l) = map (fun x => f (g x) (h x)) l.
Proof. induction l as [|x l IH]; simpl; [done|]. by rewrite IH. Qed.

Lemma replicate_map_seq {A} (x : A) i n : replicate n x = map (fun _ => x) (seq i n).
Proof. revert i. induction n as [|n IH]; intros i; simpl; [done|]. by rewrite <- IH. Qed.
