(* ===== verification/GF256.v ===== *)
(** The field GF(2^8) of the RAID-6 code: the table generator raid6/mktables.c and
    the field laws of the arithmetic it tabulates. *)

From S2P Require Import Prelude.

(** * raid6/mktables.c *)

(** [a = (a << 1) ^ (a & 0x80 ? 0x1d : 0)] on a [uint8_t]. *)
Definition xtime (a : Z) : Z :=
  u8 (Z.shiftl a 1 ⊕ (if Z.land a 0x80 =? 0 then 0 else 0x1d)).

(** The [while (b)] loop of [gfmul]; the fuel bounds the iterations, and 8 of them
    are enough for a [uint8_t] because every iteration shifts [b] right. *)
Fixpoint gfmul_loop (fuel : nat) (v a b : Z) : Z :=
  match fuel with
  | O => v
  | S fuel =>
    if b =? 0 then v
    else gfmul_loop fuel (if Z.land b 1 =? 0 then v else v ⊕ a) (xtime a) (Z.shiftr b 1)
  end.

Definition gfmul (a b : Z) : Z := gfmul_loop 8 0 a b.

Fixpoint gfpow_loop (fuel : nat) (v a b : Z) : Z :=
  match fuel with
  | O => v
  | S fuel =>
    if b =? 0 then v
    else gfpow_loop fuel (if Z.land b 1 =? 0 then v else gfmul v a) (gfmul a a) (Z.shiftr b 1)
  end.

(** C's [%] truncates, hence [Z.rem] and the correction of a negative remainder. *)
Definition gfpow (a b : Z) : Z :=
  let b := Z.rem b 255 in
  let b := if b <? 0 then b + 255 else b in
  gfpow_loop 8 1 a b.

(** The tables [main] prints, in its order of computation. *)
Definition raid6_gfmul : list (list Z) :=
  map (fun i => map (fun j => gfmul i j) all_bytes) all_bytes.

Definition raid6_vgfmul : list (list Z) :=
  map (fun i =>
    map (fun j => gfmul i j) (seqZ 0 16) ++
    map (fun j => gfmul i (u8 (Z.shiftl j 4))) (seqZ 0 16)) all_bytes.

(** The loop that fills [exptbl]; [v] is the running power of 2. *)
Fixpoint exptbl_loop (n : nat) (v : Z) : list Z :=
  match n with
  | O => []
  | S n =>
    let v' := gfmul v 2 in
    v :: exptbl_loop n (if v' =? 1 then 0 else v')
  end.

Definition raid6_gfexp : list Z := exptbl_loop 256 1.

(** The search of [raid6_gflog]: the first [k] with [exptbl[k] == x], else 255. *)
Fixpoint gflog_search (tbl : list Z) (k x : Z) : Z :=
  match tbl with
  | [] => 255
  | e :: tbl => if e =? x then k else gflog_search tbl (k + 1) x
  end.

Definition raid6_gflog : list Z :=
  map (fun i => gflog_search raid6_gfexp 0 i) all_bytes.

Definition raid6_gfinv : list Z := map (fun i => gfpow i 254) all_bytes.

Definition raid6_gfexi : list Z :=
  map (fun i => raid6_gfinv.[raid6_gfexp.[i] ⊕ 1]) all_bytes.

(** * Linearity of multiplication *)

Lemma is_u8_xtime a : is_u8 (xtime a).
Proof. apply is_u8_u8. Qed.
#[export] Hint Resolve is_u8_xtime : md.

(** A map on bytes that respects exclusive or. *)
Definition linear (f : Z -> Z) : Prop :=
  forall x y, is_u8 x -> is_u8 y -> f (x ⊕ y) = f x ⊕ f y.

Lemma linear_0 f : linear f -> f 0 = 0.
Proof.
  intros Hf. specialize (Hf 0 0 is_u8_0 is_u8_0). rewrite Z.lxor_0_l in Hf.
  rewrite <- (Z.lxor_nilpotent (f 0)) at 2. by rewrite Hf at 1; rewrite Z.lxor_nilpotent.
Qed.

(** A byte as the exclusive or of its bits. *)
Definition of_bits (x : Z) (ks : list Z) : Z :=
  foldr (fun i acc => (if Z.testbit x i then 2 ^ i else 0) ⊕ acc) 0 ks.

Lemma byte_of_bits x : is_u8 x -> of_bits x (seqZ 0 8) = x.
Proof.
  intros Hx. apply Z.eqb_eq. revert x Hx.
  apply (bytes_check (fun x => of_bits x (seqZ 0 8) =? x)). by vm_compute.
Qed.

Lemma is_u8_pow2 i : i ∈ seqZ 0 8 -> is_u8 (2 ^ i).
Proof.
  intros Hi%elem_of_seqZ. split; [lia|]. change 256 with (2 ^ 8). apply Z.pow_lt_mono_r; lia.
Qed.

Lemma is_u8_bit (b : bool) i : i ∈ seqZ 0 8 -> is_u8 (if b then 2 ^ i else 0).
Proof. destruct b; auto using is_u8_pow2 with md. Qed.

Lemma of_bits_u8 x ks : (forall i, i ∈ ks -> i ∈ seqZ 0 8) -> is_u8 (of_bits x ks).
Proof.
  induction ks as [|i ks IH]; intros Hks; simpl; [auto with md|].
  apply is_u8_lxor; [|by apply IH; set_solver].
  apply is_u8_bit. set_solver.
Qed.

(** Linear maps that agree on the eight powers of two agree on every byte. *)
Lemma linear_ext f g :
  linear f -> linear g -> (forall i, i ∈ seqZ 0 8 -> f (2 ^ i) = g (2 ^ i)) ->
  forall x, is_u8 x -> f x = g x.
Proof.
  intros Hf Hg Hfg x Hx. rewrite <- (byte_of_bits x Hx).
  assert (forall ks, (forall i, i ∈ ks -> i ∈ seqZ 0 8) -> f (of_bits x ks) = g (of_bits x ks))
    as H; [|by apply H].
  induction ks as [|i ks IH]; intros Hks; simpl; [by rewrite !linear_0|].
  assert (i ∈ seqZ 0 8) as Hi by set_solver.
  assert (is_u8 (of_bits x ks)) by (apply of_bits_u8; set_solver).
  rewrite Hf, Hg by auto using is_u8_bit. f_equal; [|by apply IH; set_solver].
  destruct (Z.testbit x i); [by apply Hfg|by rewrite !linear_0].
Qed.

(** The checks on the basis, by evaluation. *)
Definition basis_check (f g : Z -> Z) : bool :=
  forallb (fun i => f (2 ^ i) =? g (2 ^ i)) (seqZ 0 8).

Lemma forallb_seqZ8 (f : Z -> bool) :
  forallb f (seqZ 0 8) = true -> forall i, i ∈ seqZ 0 8 -> f i = true.
Proof. rewrite forallb_forall. intros Hf i Hi. by apply Hf, list_elem_of_In. Qed.

Lemma linear_ext_check f g :
  linear f -> linear g -> basis_check f g = true -> forall x, is_u8 x -> f x = g x.
Proof.
  intros Hf Hg Hc. apply linear_ext; [done..|]. intros i Hi.
  apply Z.eqb_eq. by apply (forallb_seqZ8 _ Hc).
Qed.

Lemma bilinear_ext_check (f g : Z -> Z -> Z) :
  (forall y, is_u8 y -> linear (fun x => f x y)) -> (forall y, is_u8 y -> linear (fun x => g x y)) ->
  (forall x, is_u8 x -> linear (f x)) -> (forall x, is_u8 x -> linear (g x)) ->
  forallb (fun i => basis_check (f (2 ^ i)) (g (2 ^ i))) (seqZ 0 8) = true ->
  forall x y, is_u8 x -> is_u8 y -> f x y = g x y.
Proof.
  intros Hf1 Hg1 Hf2 Hg2 Hc x y Hx Hy. revert x Hx. apply linear_ext; [auto..|].
  intros i Hi. apply linear_ext_check; auto using is_u8_pow2.
  apply (forallb_seqZ8 _ Hc), Hi.
Qed.

(** Bit 7 of the operand decides the reduction by the polynomial. *)
Lemma xtime_bit a : xtime a = u8 (Z.shiftl a 1 ⊕ (if Z.testbit a 7 then 0x1d else 0)).
Proof.
  unfold xtime. change 0x80 with (2 ^ 7). rewrite land_pow2_eqb by done.
  by destruct (Z.testbit a 7).
Qed.

Lemma xtime_lxor a b : xtime (a ⊕ b) = xtime a ⊕ xtime b.
Proof.
  rewrite !xtime_bit, <- u8_lxor, Z.shiftl_lxor, Z.lxor_spec. f_equal.
  rewrite lxor_swap4. f_equal. by destruct (Z.testbit a 7), (Z.testbit b 7).
Qed.

Lemma gfmul_loop_u8 n v a b : is_u8 v -> is_u8 a -> is_u8 (gfmul_loop n v a b).
Proof.
  revert v a b. induction n as [|n IH]; intros v a b Hv Ha; simpl; [done|].
  destruct (b =? 0); [done|]. apply IH; [destruct (_ =? 0)|]; auto with md.
Qed.

Lemma is_u8_gfmul a b : is_u8 a -> is_u8 (gfmul a b).
Proof. intros. apply gfmul_loop_u8; auto with md. Qed.
#[export] Hint Resolve is_u8_gfmul : md.

Lemma gfmul_loop_lxor n v1 v2 a1 a2 b :
  gfmul_loop n (v1 ⊕ v2) (a1 ⊕ a2) b = gfmul_loop n v1 a1 b ⊕ gfmul_loop n v2 a2 b.
Proof.
  revert v1 v2 a1 a2 b. induction n as [|n IH]; intros v1 v2 a1 a2 b; simpl; [done|].
  destruct (b =? 0); [done|].
  rewrite xtime_lxor, <- IH.
  by destruct (_ =? 0); rewrite 1?lxor_swap4.
Qed.

Lemma gfmul_lxor_l a b c : gfmul (a ⊕ b) c = gfmul a c ⊕ gfmul b c.
Proof. unfold gfmul. by rewrite <- gfmul_loop_lxor. Qed.

(** Shifting [b] bit by bit: the loop adds the multiples of [a] selected by the bits
    of [b], so it is linear in [b] too. *)
Lemma gfmul_loop_acc n v a b : gfmul_loop n v a b = v ⊕ gfmul_loop n 0 a b.
Proof.
  rewrite <- (Z.lxor_0_r v) at 1. rewrite <- (Z.lxor_0_l a) at 1.
  rewrite gfmul_loop_lxor. f_equal.
  revert v b. induction n as [|n IH]; intros v b; simpl; [done|].
  destruct (b =? 0); [done|]. change (xtime 0) with 0.
  by destruct (_ =? 0); rewrite ?Z.lxor_0_r.
Qed.

Lemma gfmul_loop_step n a b :
  gfmul_loop (S n) 0 a b =
  (if Z.testbit b 0 then a else 0) ⊕ gfmul_loop n 0 (xtime a) (Z.shiftr b 1).
Proof.
  cbn [gfmul_loop]. destruct (Z.eqb_spec b 0) as [->|Hb]; [by destruct n|].
  change (Z.land b 1) with (Z.land b (2 ^ 0)). rewrite land_pow2_eqb by done.
  rewrite gfmul_loop_acc. by destruct (Z.testbit b 0).
Qed.

Lemma gfmul_loop_lxor_r n a b c :
  gfmul_loop n 0 a (b ⊕ c) = gfmul_loop n 0 a b ⊕ gfmul_loop n 0 a c.
Proof.
  revert a b c. induction n as [|n IH]; intros a b c; [done|].
  rewrite !gfmul_loop_step, Z.shiftr_lxor, IH, lxor_swap4, Z.lxor_spec. f_equal.
  by destruct (Z.testbit b 0), (Z.testbit c 0); rewrite ?Z.lxor_0_r, ?Z.lxor_nilpotent.
Qed.

Lemma gfmul_lxor_r a b c : gfmul a (b ⊕ c) = gfmul a b ⊕ gfmul a c.
Proof. apply gfmul_loop_lxor_r. Qed.

(** The fuel is enough: after as many iterations as [b] has bits the loop has stopped. *)
Lemma gfmul_loop_fuel n m v a b :
  0 <= b < 2 ^ Z.of_nat n -> gfmul_loop (n + m) v a b = gfmul_loop n v a b.
Proof.
  revert v a b. induction n as [|n IH]; intros v a b Hb.
  - replace b with 0 by lia. by destruct m.
  - simpl. destruct (b =? 0); [done|]. apply IH.
    rewrite Z.shiftr_div_pow2 by lia. rewrite Nat2Z.inj_succ, Z.pow_succ_r in Hb by lia.
    split; [apply Z.div_pos; lia|]. apply Z.div_lt_upper_bound; lia.
Qed.

Lemma linear_gfmul_l c : linear (fun x => gfmul x c).
Proof. intros x y _ _. apply gfmul_lxor_l. Qed.

Lemma linear_gfmul_r c : linear (fun x => gfmul c x).
Proof. intros x y _ _. apply gfmul_lxor_r. Qed.

Lemma linear_comp f g :
  (forall x, is_u8 x -> is_u8 (g x)) -> linear f -> linear g -> linear (fun x => f (g x)).
Proof. intros Hu Hf Hg x y Hx Hy. rewrite Hg, Hf by auto. done. Qed.

(** * The field laws *)

Lemma gfmul_comm a b : is_u8 a -> is_u8 b -> gfmul a b = gfmul b a.
Proof.
  apply (bilinear_ext_check gfmul (fun a b => gfmul b a));
    intros; try apply linear_gfmul_l; try apply linear_gfmul_r.
  by vm_compute.
Qed.

Lemma gfmul_assoc a b c :
  is_u8 a -> is_u8 b -> is_u8 c -> gfmul a (gfmul b c) = gfmul (gfmul a b) c.
Proof.
  intros Ha Hb Hc. revert a Ha. apply linear_ext.
  - apply linear_gfmul_l.
  - intros x y _ _. by rewrite !gfmul_lxor_l.
  - intros i Hi. revert b c Hb Hc.
    apply (bilinear_ext_check (fun b c => gfmul (2 ^ i) (gfmul b c)) (fun b c => gfmul (gfmul (2 ^ i) b) c)).
    + intros c _ x y _ _. by rewrite gfmul_lxor_l, gfmul_lxor_r.
    + intros c _ x y _ _. by rewrite gfmul_lxor_r, gfmul_lxor_l.
    + intros b _ x y _ _. by rewrite !gfmul_lxor_r.
    + intros b _ x y _ _. by rewrite gfmul_lxor_r.
    + revert i Hi. apply forallb_seqZ8. by vm_compute.
Qed.

Lemma gfmul_1_l a : is_u8 a -> gfmul 1 a = a.
Proof.
  intros Ha. apply Z.eqb_eq. revert a Ha.
  apply (bytes_check (fun a => gfmul 1 a =? a)). by vm_compute.
Qed.

Lemma gfmul_1_r a : is_u8 a -> gfmul a 1 = a.
Proof. intros. rewrite gfmul_comm; auto using gfmul_1_l with md. Qed.

Lemma gfmul_0_l a : gfmul 0 a = 0.
Proof. apply (linear_0 (fun x => gfmul x a)), linear_gfmul_l. Qed.

Lemma gfmul_0_r a : gfmul a 0 = 0.
Proof. apply (linear_0 (gfmul a)), linear_gfmul_r. Qed.

Lemma gfmul_2 a : is_u8 a -> gfmul a 2 = xtime a.
Proof.
  intros Ha. apply Z.eqb_eq. revert a Ha.
  apply (bytes_check (fun a => gfmul a 2 =? xtime a)). by vm_compute.
Qed.

Lemma xtime_gfmul a b : is_u8 a -> is_u8 b -> xtime (gfmul a b) = gfmul (xtime a) b.
Proof.
  intros Ha Hb. assert (is_u8 2) by (unfold is_u8; lia).
  rewrite <- (gfmul_2 (gfmul a b)), <- (gfmul_2 a) by auto with md.
  rewrite <- !gfmul_assoc by auto with md. f_equal. by apply gfmul_comm.
Qed.

Lemma gfpow_254_inv a : is_u8 a -> a <> 0 -> gfmul a (gfpow a 254) = 1.
Proof.
  intros Ha Hne. apply Z.eqb_neq in Hne. apply Z.eqb_eq.
  pose proof (bytes_check (fun a => (a =? 0) || (gfmul a (gfpow a 254) =? 1))) as H.
  specialize (H ltac:(by vm_compute) a Ha). apply orb_true_iff in H as [H|H]; [congruence|exact H].
Qed.

Lemma is_u8_gfpow a b : is_u8 a -> is_u8 (gfpow a b).
Proof.
  intros Ha. unfold gfpow. assert (forall n v a b, is_u8 v -> is_u8 a -> is_u8 (gfpow_loop n v a b)) as H;
    [|auto with md].
  induction n as [|n IH]; intros v a' b' Hv Ha'; simpl; [done|].
  destruct (b' =? 0); [done|]. apply IH; [destruct (_ =? 0)|]; auto with md.
Qed.
#[export] Hint Resolve is_u8_gfpow : md.

(** From here on the arithmetic is used through its laws. *)
#[global] Opaque gfmul gfpow xtime.

(** * GF(2^8) as a field type *)

Record gf : Type := GF { gf_z : Z; gf_ok : bool_decide (is_u8 gf_z) }.

Lemma gf_eq (x y : gf) : gf_z x = gf_z y -> x = y.
Proof. destruct x as [x Hx], y as [y Hy]; simpl. intros ->. f_equal. apply proof_irrel. Qed.

Lemma gf_u8 (x : gf) : is_u8 (gf_z x).
Proof. apply (bool_decide_unpack _ (gf_ok x)). Qed.
#[export] Hint Resolve gf_u8 : md.

Definition mkgf (z : Z) (H : is_u8 z) : gf := GF z (bool_decide_pack _ H).

Definition g0 : gf := mkgf 0 is_u8_0.
Definition g1 : gf := mkgf 1 is_u8_1.
Definition gadd (x y : gf) : gf := mkgf (gf_z x ⊕ gf_z y) (is_u8_lxor _ _ (gf_u8 x) (gf_u8 y)).
Definition gmul (x y : gf) : gf := mkgf (gfmul (gf_z x) (gf_z y)) (is_u8_gfmul _ _ (gf_u8 x)).
Definition gopp (x : gf) : gf := x.
Definition ginv (x : gf) : gf := mkgf (gfpow (gf_z x) 254) (is_u8_gfpow _ _ (gf_u8 x)).
Definition gdiv (x y : gf) : gf := gmul x (ginv y).

(** The element a byte denotes; conversion to [u8] outside the range. *)
Definition to_gf (z : Z) : gf := mkgf (u8 z) (is_u8_u8 z).

#[export] Instance gf_eq_dec : EqDecision gf.
Proof.
  intros x y. destruct (decide (gf_z x = gf_z y)); [left; by apply gf_eq|right; congruence].
Defined.

Declare Scope gf_scope.
Delimit Scope gf_scope with gf.
Bind Scope gf_scope with gf.
Infix "+" := gadd : gf_scope.
Infix "*" := gmul : gf_scope.
Infix "/" := gdiv : gf_scope.

Lemma u8_id z : is_u8 z -> u8 z = z.
Proof. intros Hz. by apply Z.mod_small. Qed.

Lemma gf_z_to_gf z : is_u8 z -> gf_z (to_gf z) = z.
Proof. apply u8_id. Qed.

Lemma to_gf_z x : to_gf (gf_z x) = x.
Proof. apply gf_eq. simpl. apply u8_id; auto with md. Qed.

Lemma gf_ring_theory : ring_theory g0 g1 gadd gmul gadd gopp (@eq gf).
Proof.
  split; intros; apply gf_eq; simpl.
  - apply Z.lxor_0_l.
  - apply Z.lxor_comm.
  - by rewrite Z.lxor_assoc.
  - apply gfmul_1_l; auto with md.
  - apply gfmul_comm; auto with md.
  - apply gfmul_assoc; auto with md.
  - apply gfmul_lxor_l.
  - done.
  - apply Z.lxor_nilpotent.
Qed.

Lemma gf_field_theory : field_theory g0 g1 gadd gmul gadd gopp gdiv ginv (@eq gf).
Proof.
  split; [apply gf_ring_theory|discriminate|done|].
  intros p Hp. apply gf_eq. simpl. rewrite gfmul_comm by auto with md.
  apply gfpow_254_inv; auto with md. intros H0. apply Hp, gf_eq, H0.
Qed.

(** Coefficients of the ring normaliser are the booleans, so that it knows the
    characteristic of the field: x + x = 0. *)
Definition gf_of_bool (b : bool) : gf := if b then g1 else g0.

Lemma gf_bool_morph :
  ring_morph g0 g1 gadd gmul gadd gopp (@eq gf) false true xorb andb xorb (fun b => b) Bool.eqb gf_of_bool.
Proof.
  split; try done; intros; try (by repeat match goal with b : bool |- _ => destruct b end; apply gf_eq).
Qed.

Ltac gf_cst t :=
  match t with
  | g0 => constr:(false)
  | g1 => constr:(true)
  | _ => constr:(InitialRing.NotConstant)
  end.

Add Field gf_field : gf_field_theory (morphism gf_bool_morph, constants [gf_cst]).

(** Values of products, powers and tables as field elements. *)
Lemma gf_z_add x y : gf_z (x + y)%gf = gf_z x ⊕ gf_z y.
Proof. done. Qed.

Lemma gf_z_mul x y : gf_z (x * y)%gf = gfmul (gf_z x) (gf_z y).
Proof. done. Qed.

Lemma to_gf_lxor x y : is_u8 x -> is_u8 y -> to_gf (x ⊕ y) = (to_gf x + to_gf y)%gf.
Proof. intros. apply gf_eq. by rewrite gf_z_add, !gf_z_to_gf by auto with md. Qed.

Lemma to_gf_gfmul x y : is_u8 x -> is_u8 y -> to_gf (gfmul x y) = (to_gf x * to_gf y)%gf.
Proof. intros. apply gf_eq. by rewrite gf_z_mul, !gf_z_to_gf by auto with md. Qed.

Lemma to_gf_inj x y : is_u8 x -> is_u8 y -> to_gf x = to_gf y -> x = y.
Proof. intros Hx Hy H. apply (f_equal gf_z) in H. by rewrite !gf_z_to_gf in H. Qed.

(** * The generated tables *)

(** Row [i] of a two-dimensional table. *)
Definition row (t : list (list Z)) (i : Z) : list Z := default [] (t !! Z.to_nat i).

Lemma lookup_all_bytes x : is_u8 x -> all_bytes !! Z.to_nat x = Some x.
Proof.
  intros Hx. unfold all_bytes, is_u8 in *. rewrite lookup_seqZ. lia.
Qed.

Lemma rd_map_bytes (f : Z -> Z) x : is_u8 x -> (map f all_bytes).[x] = f x.
Proof. intros Hx. unfold rd. by rewrite list_lookup_fmap, lookup_all_bytes. Qed.

Lemma row_map_bytes (f : Z -> list Z) x : is_u8 x -> row (map f all_bytes) x = f x.
Proof. intros Hx. unfold row. by rewrite list_lookup_fmap, lookup_all_bytes. Qed.

Lemma raid6_gfmul_lookup a b : is_u8 a -> is_u8 b -> (row raid6_gfmul a).[b] = gfmul a b.
Proof. intros Ha Hb. unfold raid6_gfmul. by rewrite row_map_bytes, rd_map_bytes. Qed.

(** The powers of the generator 2. *)
Definition alpha (n : nat) : Z := Nat.iter n xtime 1.

Lemma alpha_u8 n : is_u8 (alpha n).
Proof. destruct n; simpl; auto with md. Qed.
#[export] Hint Resolve alpha_u8 : md.

Lemma alpha_S n : alpha (S n) = gfmul (alpha n) 2.
Proof. simpl. by rewrite gfmul_2 by auto with md. Qed.

Lemma is_u8_2 : is_u8 2.
Proof. unfold is_u8; lia. Qed.
#[export] Hint Resolve is_u8_2 : md.

Lemma alpha_add m n : alpha (m + n) = gfmul (alpha m) (alpha n).
Proof.
  induction m as [|m IH]; simpl plus; [symmetry; apply gfmul_1_l; auto with md|].
  rewrite !alpha_S, IH. rewrite <- !gfmul_assoc by auto with md. f_equal.
  apply gfmul_comm; auto with md.
Qed.

(** The exponents 0 .. 254 enumerate the non-zero elements once. *)
Lemma forallb_seqZ (f : Z -> bool) a n :
  forallb f (seqZ a n) = true -> forall i, a <= i < a + n -> f i = true.
Proof.
  rewrite forallb_forall. intros Hf i Hi. apply Hf, list_elem_of_In, elem_of_seqZ. lia.
Qed.

Lemma raid6_gfexp_alpha i : 0 <= i < 255 -> raid6_gfexp.[i] = alpha (Z.to_nat i).
Proof.
  intros Hi. apply Z.eqb_eq.
  apply (forallb_seqZ (fun i => raid6_gfexp.[i] =? alpha (Z.to_nat i)) 0 255); [by vm_compute|done].
Qed.

Lemma alpha_ne_1 n : (0 < n < 255)%nat -> alpha n <> 1.
Proof.
  intros Hn. apply Z.eqb_neq. rewrite <- (Nat2Z.id n).
  apply negb_true_iff.
  apply (forallb_seqZ (fun i => negb (alpha (Z.to_nat i) =? 1)) 1 254); [by vm_compute|lia].
Qed.

Lemma gfmul_eq_0 a b : is_u8 a -> is_u8 b -> gfmul a b = 0 -> a = 0 \/ b = 0.
Proof.
  intros Ha Hb H. destruct (decide (a = 0)) as [|Hne]; [by left|right].
  rewrite <- (gfmul_1_l b) by done. rewrite <- (gfpow_254_inv a), (gfmul_comm a) by auto with md.
  by rewrite <- gfmul_assoc, H, gfmul_0_r by auto with md.
Qed.

Lemma alpha_ne_0 n : alpha n <> 0.
Proof.
  induction n as [|n IH]; [done|]. rewrite alpha_S. intros H.
  destruct (gfmul_eq_0 (alpha n) 2); auto with md; lia.
Qed.

Lemma alpha_lxor_ne_0 i j : (i < j < 255)%nat -> alpha i ⊕ alpha j <> 0.
Proof.
  intros Hij H. replace j with (i + (j - i))%nat in H by lia.
  assert (gfmul (alpha i) (1 ⊕ alpha (j - i)) = 0) as Hz
    by (by rewrite gfmul_lxor_r, gfmul_1_r, <- alpha_add by auto with md).
  clear H. rename Hz into H. apply gfmul_eq_0 in H as [H|H]; auto with md.
  - by apply alpha_ne_0 in H.
  - apply Z.lxor_eq in H. by apply (alpha_ne_1 (j - i)); [lia|].
Qed.

Lemma raid6_gfinv_lookup a : is_u8 a -> raid6_gfinv.[a] = gfpow a 254.
Proof. apply (rd_map_bytes (fun i => gfpow i 254)). Qed.

Lemma raid6_gfexi_lookup i :
  (0 < i < 255)%nat -> raid6_gfexi.[Z.of_nat i] = gfpow (alpha i ⊕ 1) 254.
Proof.
  intros Hi. assert (is_u8 (Z.of_nat i)) by (unfold is_u8; lia).
  unfold raid6_gfexi. rewrite rd_map_bytes by done.
  rewrite raid6_gfexp_alpha, Nat2Z.id by lia. apply raid6_gfinv_lookup; auto with md.
Qed.

Lemma xtime_0 : xtime 0 = 0.
Proof. by vm_compute. Qed.

Lemma iter_xtime n x : is_u8 x -> Nat.iter n xtime x = gfmul (alpha n) x.
Proof.
  intros Hx. induction n as [|n IH]; simpl; [symmetry; by apply gfmul_1_l|].
  rewrite IH. apply xtime_gfmul; auto with md.
Qed.

Lemma to_gf_0 : to_gf 0 = g0.
Proof. by apply gf_eq. Qed.

Lemma to_gf_1 : to_gf 1 = g1.
Proof. by apply gf_eq. Qed.

Lemma to_gf_ne_0 z : is_u8 z -> z <> 0 -> to_gf z <> g0.
Proof. rewrite <- to_gf_0. intros Hz Hz0 H. apply Hz0, to_gf_inj; auto with md. Qed.

Lemma to_gf_inv z : is_u8 z -> to_gf (gfpow z 254) = ginv (to_gf z).
Proof. intros Hz. apply gf_eq. simpl. by rewrite !u8_id by auto with md. Qed.

Lemma gfmul_gfsum a n f : gfmul a (gfsum n f) = gfsum n (fun i => gfmul a (f i)).
Proof.
  induction n as [|n IH]; [apply gfmul_0_r|]. by rewrite !gfsum_S, gfmul_lxor_r, IH.
Qed.

Lemma gfmul_gfsum_l n f a : gfmul (gfsum n f) a = gfsum n (fun i => gfmul (f i) a).
Proof.
  induction n as [|n IH]; [apply gfmul_0_l|]. by rewrite !gfsum_S, gfmul_lxor_l, IH.
Qed.

(** The nibble tables of [raid6_vgfmul]. *)
Lemma rd_map_seqZ (f : Z -> Z) n j : 0 <= j < n -> (map f (seqZ 0 n)).[j] = f j.
Proof.
  intros Hj. unfold rd. rewrite list_lookup_fmap, lookup_seqZ_lt by lia. cbn. f_equal. lia.
Qed.

Lemma nibble_split b : is_u8 b -> (b mod 16) ⊕ u8 (Z.shiftl (b / 16) 4) = b.
Proof.
  intros Hb. apply Z.eqb_eq. revert b Hb.
  apply (bytes_check (fun b => (b mod 16) ⊕ u8 (Z.shiftl (b / 16) 4) =? b)). by vm_compute.
Qed.

Lemma raid6_vgfmul_lookup a b :
  is_u8 a -> is_u8 b -> (row raid6_vgfmul a).[b mod 16] ⊕ (row raid6_vgfmul a).[16 + b / 16] = gfmul a b.
Proof.
  intros Ha Hb. unfold raid6_vgfmul. rewrite row_map_bytes by done.
  pose proof (Z.mod_pos_bound b 16 ltac:(lia)). assert (0 <= b / 16 < 16) by (split; [apply Z.div_pos|apply Z.div_lt_upper_bound]; unfold is_u8 in Hb; lia).
  set (lo := map (fun j => gfmul a j) (seqZ 0 16)). set (hi := map (fun j => gfmul a (u8 (Z.shiftl j 4))) (seqZ 0 16)).
  assert (length lo = 16%nat) as Hlen by (unfold lo; rewrite length_map, length_seqZ; lia).
  assert ((lo ++ hi).[b mod 16] = lo.[b mod 16]) as -> by (unfold rd; rewrite lookup_app_l by lia; done).
  assert ((lo ++ hi).[16 + b / 16] = hi.[b / 16]) as ->
    by (unfold rd; rewrite lookup_app_r, Hlen by lia; do 2 f_equal; lia).
  unfold lo, hi. rewrite !rd_map_seqZ by lia. rewrite <- gfmul_lxor_r, nibble_split by done. done.
Qed.
