(* ===== verification/PageMem.v ===== *)
(** Memory as the parity routines see it: pages of bytes reached through pointers, so
    that pointer tables can be permuted, share pages and be restored. *)

From S2P Require Import Prelude.

(** An address names a page; a page is an array of bytes. *)
Abbreviation addr := nat.
Abbreviation mem := (gmap nat (list Z)).

Definition page (m : mem) (a : addr) : list Z := default [] (m !! a).

(** [ptrs[i]] *)
Definition ptr (ptrs : list addr) (i : nat) : addr := default 0%nat (ptrs !! i).

(** [l[b]] with an index of type [int] that counts up from 0. *)
Definition pget (l : list Z) (b : nat) : Z := default 0 (l !! b).

(** [memcpy(l + d, bs, len(bs))], a store inside the array. *)
Definition splice (l : list Z) (d : nat) (bs : list Z) : list Z :=
  take d l ++ bs ++ drop (d + length bs) l.

Definition store (m : mem) (a : addr) (d : nat) (bs : list Z) : mem :=
  <[a := splice (page m a) d bs]> m.

(** The bytes at offset [b] of the pages of [srcs]. *)
Definition column (m : mem) (srcs : list addr) (b : nat) : list Z :=
  map (fun a => pget (page m a) b) srcs.

Lemma page_insert_eq m a l : page (<[a := l]> m) a = l.
Proof. unfold page. by rewrite lookup_insert_eq. Qed.

Lemma page_insert_ne m a b l : a <> b -> page (<[a := l]> m) b = page m b.
Proof. intros. unfold page. by rewrite lookup_insert_ne. Qed.

Lemma page_store_ne m a b d bs : a <> b -> page (store m a d bs) b = page m b.
Proof. apply page_insert_ne. Qed.

Lemma page_store_eq m a d bs : page (store m a d bs) a = splice (page m a) d bs.
Proof. apply page_insert_eq. Qed.

Lemma length_splice l d bs : (d + length bs <= length l)%nat -> length (splice l d bs) = length l.
Proof. intros. unfold splice. rewrite !length_app, length_take, length_drop. lia. Qed.

(** ** Arrays filled up to an offset *)

(** The array [l] whose first [d] bytes have been replaced by [f 0 .. f (d-1)]. *)
Definition filled (f : nat -> Z) (d : nat) (l : list Z) : list Z := map f (seq 0 d) ++ drop d l.

Lemma filled_0 f l : filled f 0 l = l.
Proof. done. Qed.

Lemma length_filled f d l : (d <= length l)%nat -> length (filled f d l) = length l.
Proof. intros. unfold filled. rewrite length_app, length_map, length_seq, length_drop. lia. Qed.

(** Storing the next block extends the filled prefix. *)
Lemma splice_filled f d w l bs :
  (d + w <= length l)%nat -> bs = map f (seq d w) ->
  splice (filled f d l) d bs = filled f (d + w) l.
Proof.
  intros Hlen ->. unfold splice, filled.
  rewrite length_map, length_seq.
  rewrite take_app_length' by (by rewrite length_map, length_seq).
  rewrite seq_app, map_app, <- app_assoc. do 2 f_equal.
  rewrite drop_app_ge by (rewrite length_map, length_seq; lia).
  rewrite length_map, length_seq, drop_drop. f_equal. lia.
Qed.

Lemma pget_filled_lt f d l b : (b < d)%nat -> pget (filled f d l) b = f b.
Proof.
  intros Hb. unfold pget, filled.
  rewrite lookup_app_l by (by rewrite length_map, length_seq).
  by rewrite list_lookup_fmap, lookup_seq_lt.
Qed.

Lemma pget_filled_ge f d l b :
  (d <= b)%nat -> (d <= length l)%nat -> pget (filled f d l) b = pget l b.
Proof.
  intros Hb Hd. unfold pget, filled.
  rewrite lookup_app_r by (by rewrite length_map, length_seq).
  rewrite length_map, length_seq, lookup_drop. by replace (d + (b - d))%nat with b by lia.
Qed.

Lemma filled_ext f g d l : (forall b, (b < d)%nat -> f b = g b) -> filled f d l = filled g d l.
Proof.
  intros H. unfold filled. f_equal. apply map_ext_in. intros b Hb%in_seq. apply H. lia.
Qed.

(** An array is determined by its length and its bytes. *)
Lemma pget_eq l1 l2 :
  length l1 = length l2 -> (forall b, (b < length l1)%nat -> pget l1 b = pget l2 b) -> l1 = l2.
Proof.
  intros Hlen H. apply list_eq_same_length with (length l1); [done..|].
  intros i x y Hi Hx Hy. specialize (H i Hi). unfold pget in H. by rewrite Hx, Hy in H.
Qed.

Lemma column_ext m1 m2 srcs b :
  (forall a, a ∈ srcs -> page m1 a = page m2 a) -> column m1 srcs b = column m2 srcs b.
Proof.
  intros H. apply map_ext_in. intros a Ha%list_elem_of_In. by rewrite H.
Qed.

Lemma length_column m srcs b : length (column m srcs b) = length srcs.
Proof. apply length_map. Qed.

(** Pages of bytes. *)
Definition byte_page (l : list Z) : Prop := Forall is_u8 l.

Lemma pget_u8 l b : byte_page l -> is_u8 (pget l b).
Proof.
  intros Hl. unfold pget. destruct (l !! b) as [x|] eqn:E; simpl; [|auto with md].
  by eapply Forall_lookup_1.
Qed.

Lemma column_u8 m srcs b :
  (forall a, a ∈ srcs -> byte_page (page m a)) -> Forall is_u8 (column m srcs b).
Proof.
  intros H. apply Forall_forall. intros x [a [<- Ha]]%in_map_iff.
  by apply pget_u8, H, list_elem_of_In.
Qed.

Lemma map_ptr_seq ptrs n : (n <= length ptrs)%nat -> map (ptr ptrs) (seq 0 n) = take n ptrs.
Proof.
  intros Hn. apply list_eq. intros i. rewrite list_lookup_fmap.
  destruct (decide (i < n)%nat) as [Hi|Hi].
  - rewrite lookup_seq_lt, lookup_take_lt by lia. simpl. unfold ptr.
    by destruct (lookup_lt_is_Some_2 ptrs i) as [x ->]; [lia|].
  - rewrite lookup_seq_ge, lookup_take_ge by lia. done.
Qed.

Lemma take_S_ptr ptrs n : (n < length ptrs)%nat -> take (S n) ptrs = take n ptrs ++ [ptr ptrs n].
Proof.
  intros Hn. unfold ptr. destruct (lookup_lt_is_Some_2 ptrs n) as [x Hx]; [done|].
  rewrite Hx. by apply take_S_r.
Qed.

Lemma elem_of_ptr ptrs i : (i < length ptrs)%nat -> ptr ptrs i ∈ ptrs.
Proof.
  intros Hi. unfold ptr. destruct (lookup_lt_is_Some_2 ptrs i) as [x Hx]; [done|].
  rewrite Hx. by eapply list_elem_of_lookup_2.
Qed.

Lemma zip_seq_map {B} (f : nat -> B) n i :
  zip (seq i n) (map f (seq i n)) = map (fun k => (k, f k)) (seq i n).
Proof. revert i. induction n as [|n IH]; intros i; simpl; [done|]. by rewrite IH. Qed.

Lemma Forall_map_u8 {A} (f : A -> Z) l : (forall x, is_u8 (f x)) -> Forall is_u8 (map f l).
Proof. intros H. apply Forall_map, Forall_true, H. Qed.

(** A store that completes a filled page, as one update of memory. *)
Lemma store_filled m a f d w l bs :
  (d + w <= length l)%nat -> bs = map f (seq d w) ->
  store (<[a := filled f d l]> m) a d bs = <[a := filled f (d + w) l]> m.
Proof.
  intros. unfold store. rewrite page_insert_eq, insert_insert_eq. f_equal.
  by apply splice_filled.
Qed.

Lemma slice_ptr_seq ptrs start stop :
  (start <= stop < length ptrs)%nat ->
  drop start (take (S stop) ptrs) = map (ptr ptrs) (seq start (stop - start)) ++ [ptr ptrs stop].
Proof.
  intros H. rewrite <- map_ptr_seq by lia.
  replace (S stop) with (start + S (stop - start))%nat by lia.
  rewrite seq_app, map_app, drop_app_length' by (by rewrite length_map, length_seq).
  rewrite seq_S, map_app. simpl. by replace (start + (stop - start))%nat with stop by lia.
Qed.

(** ** Pointer tables *)

Lemma ptr_lookup ptrs i : (i < length ptrs)%nat -> ptrs !! i = Some (ptr ptrs i).
Proof.
  intros Hi. unfold ptr. by destruct (lookup_lt_is_Some_2 ptrs i) as [x ->].
Qed.

Lemma ptr_insert_eq ptrs i a : (i < length ptrs)%nat -> ptr (<[i := a]> ptrs) i = a.
Proof. intros. unfold ptr. by rewrite list_lookup_insert_eq. Qed.

Lemma ptr_insert_ne ptrs i j a : i <> j -> ptr (<[i := a]> ptrs) j = ptr ptrs j.
Proof. intros. unfold ptr. by rewrite list_lookup_insert_ne. Qed.

Lemma ptr_inj ptrs i j :
  NoDup ptrs -> (i < length ptrs)%nat -> (j < length ptrs)%nat -> i <> j -> ptr ptrs i <> ptr ptrs j.
Proof.
  intros Hnd Hi Hj Hij H. apply Hij, (NoDup_lookup ptrs i j (ptr ptrs i)); [done|by apply ptr_lookup|].
  rewrite H. by apply ptr_lookup.
Qed.

(** Two pointer tables of the same length agree when their entries do. *)
Lemma ptrs_eq ptrs1 ptrs2 :
  length ptrs1 = length ptrs2 -> (forall i, (i < length ptrs1)%nat -> ptr ptrs1 i = ptr ptrs2 i) ->
  ptrs1 = ptrs2.
Proof.
  intros Hlen H. apply list_eq_same_length with (length ptrs1); [done..|].
  intros i x y Hi Hx Hy. specialize (H i Hi). unfold ptr in H. by rewrite Hx, Hy in H.
Qed.

Lemma column_insert m srcs i a b :
  column m (<[i := a]> srcs) b = <[i := pget (page m a) b]> (column m srcs b).
Proof. apply (list_fmap_insert (fun a => pget (page m a) b)). Qed.

Lemma column_lookup m srcs b i :
  (i < length srcs)%nat -> column m srcs b !! i = Some (pget (page m (ptr srcs i)) b).
Proof. intros Hi. unfold column. by rewrite list_lookup_fmap, ptr_lookup. Qed.

Lemma ptr_take ptrs n i : (i < n)%nat -> ptr (take n ptrs) i = ptr ptrs i.
Proof. intros. unfold ptr. by rewrite lookup_take_lt. Qed.

Lemma filled_filled f g d l : (d <= length l)%nat -> filled f d (filled g d l) = filled f d l.
Proof.
  intros. unfold filled. f_equal. by rewrite drop_app_length' by (by rewrite length_map, length_seq).
Qed.

Lemma list_elem_of_insert_inv {A} (l : list A) i x y : x ∈ <[i := y]> l -> x = y \/ x ∈ l.
Proof.
  revert i. induction l as [|z l IH]; intros [|i] H; simpl in *; [set_solver..|].
  apply elem_of_cons in H as [->|H]; [set_solver|]. destruct (IH _ H); set_solver.
Qed.

(** ** Reading through stores *)

Lemma pget_splice l d bs x :
  (d + length bs <= length l)%nat ->
  pget (splice l d bs) x = if decide (d <= x < d + length bs)%nat then pget bs (x - d) else pget l x.
Proof.
  intros Hlen. unfold pget, splice. case_decide as Hx.
  - rewrite lookup_app_r by (rewrite length_take; lia).
    rewrite lookup_app_l by (rewrite length_take; lia). rewrite length_take. do 2 f_equal. lia.
  - destruct (decide (x < d)%nat).
    + rewrite lookup_app_l by (rewrite length_take; lia). by rewrite lookup_take_lt.
    + rewrite !lookup_app_r by (rewrite ?length_app, ?length_take; lia).
      rewrite lookup_drop, length_take. do 2 f_equal. lia.
Qed.

Lemma map_seq_shift {B} (f : nat -> B) d w : map (fun j => f (d + j)%nat) (seq 0 w) = map f (seq d w).
Proof.
  revert d f. induction w as [|w IH]; intros d f; simpl; [done|]. rewrite Nat.add_0_r. f_equal.
  rewrite <- seq_shift, map_map. rewrite <- (IH (S d)). apply map_ext. intros. f_equal. lia.
Qed.

Lemma pget_map_seq f n j : (j < n)%nat -> pget (map f (seq 0 n)) j = f j.
Proof. intros. unfold pget. by rewrite list_lookup_fmap, lookup_seq_lt. Qed.

(** Filling a page with what it holds. *)
Lemma filled_same f d l :
  (d <= length l)%nat -> (forall b, (b < d)%nat -> f b = pget l b) -> filled f d l = l.
Proof.
  intros Hd Hf. apply pget_eq; [by apply length_filled|]. intros b Hb. destruct (decide (b < d)%nat).
  - by rewrite pget_filled_lt, Hf.
  - by rewrite pget_filled_ge by lia.
Qed.
