(* ===== verification/Syndrome.v ===== *)
(** The P and Q syndromes of a stripe: their definition over GF(2^8), the interface
    every [raid6_calls] implementation offers, and the portable integer implementation
    raid6/int.uc that computes eight bytes at a time in a machine word. *)

From S2P Require Import Prelude GF256 PageMem.

(** * The syndromes of one byte column *)

(** P is the exclusive or of the data bytes; Q is the polynomial with the data bytes as
    coefficients, evaluated at the generator by Horner's rule. *)
Definition p_syn (ds : list Z) : Z := foldr Z.lxor 0 ds.
Definition q_syn (ds : list Z) : Z := foldr (fun d acc => xtime acc ⊕ d) 0 ds.

Lemma p_syn_u8 ds : Forall is_u8 ds -> is_u8 (p_syn ds).
Proof. induction 1; simpl; auto with md. Qed.

Lemma q_syn_u8 ds : Forall is_u8 ds -> is_u8 (q_syn ds).
Proof. induction 1; simpl; auto with md. Qed.
#[export] Hint Resolve p_syn_u8 q_syn_u8 : md.

(** Changing one data byte changes the syndromes by a multiple of the difference. *)
Lemma p_syn_insert ds i x y :
  ds !! i = Some y -> p_syn (<[i := x]> ds) = p_syn ds ⊕ (y ⊕ x).
Proof.
  revert i. induction ds as [|d ds IH]; intros [|i] H; simplify_eq/=.
  - lxor_solve.
  - by rewrite IH, Z.lxor_assoc.
Qed.

Lemma q_syn_insert ds i x y :
  Forall is_u8 ds -> is_u8 x -> ds !! i = Some y ->
  q_syn (<[i := x]> ds) = q_syn ds ⊕ gfmul (alpha i) (y ⊕ x).
Proof.
  intros Hds Hx. revert i. induction Hds as [|d ds Hd Hds IH]; intros [|i] H; simplify_eq/=.
  - change (alpha 0) with 1. rewrite gfmul_1_l by auto with md. lxor_solve.
  - assert (is_u8 y) by (by eapply Forall_lookup_1).
    rewrite IH, xtime_lxor, xtime_gfmul by auto with md. lxor_solve.
Qed.

(** * The interface of [struct raid6_calls] *)

(** The data pages of a stripe, its P page and its Q page. *)
Definition data_ptrs (disks : nat) (ptrs : list addr) : list addr := take (disks - 2) ptrs.
Definition p_ptr (disks : nat) (ptrs : list addr) : addr := ptr ptrs (disks - 2).
Definition q_ptr (disks : nat) (ptrs : list addr) : addr := ptr ptrs (disks - 1).

(** A stripe the routines may be called on: [disks] pointers, at least one data page,
    parity pages distinct from each other and from every data page, and every page
    holding at least [bytes] bytes.  Data pages may coincide: recovery passes the zero
    page in place of every missing page. *)
Record stripe_ok (disks bytes : nat) (ptrs : list addr) (m : mem) : Prop := {
  so_len : length ptrs = disks;
  so_disks : (3 <= disks)%nat;
  so_p : p_ptr disks ptrs ∉ data_ptrs disks ptrs;
  so_q : q_ptr disks ptrs ∉ data_ptrs disks ptrs;
  so_pq : p_ptr disks ptrs <> q_ptr disks ptrs;
  so_bytes : forall a, a ∈ ptrs ->
    exists l, m !! a = Some l /\ byte_page l /\ (bytes <= length l)%nat;
}.

(** The memory after the syndromes of the first [bytes] bytes have been stored. *)
Definition with_syndromes (disks bytes : nat) (ptrs : list addr) (m : mem) : mem :=
  let cols := column m (data_ptrs disks ptrs) in
  <[q_ptr disks ptrs := filled (fun b => q_syn (cols b)) bytes (page m (q_ptr disks ptrs))]>
  (<[p_ptr disks ptrs := filled (fun b => p_syn (cols b)) bytes (page m (p_ptr disks ptrs))]> m).

(** What [gen_syndrome] of a [raid6_calls] promises on its domain [dom]. *)
Class SyndromeGen (dom : nat -> nat -> Prop) (gen : nat -> nat -> list addr -> mem -> mem) : Prop :=
  gen_syndrome_ok disks bytes ptrs m :
    dom disks bytes -> stripe_ok disks bytes ptrs m ->
    gen disks bytes ptrs m = with_syndromes disks bytes ptrs m.

(** * raid6/int.uc, with 64-bit words *)

Definition NSIZE : nat := 8.
Definition NBYTES (x : Z) : Z := u64 (x * 0x0101010101010101).

Definition SHLBYTE (v : Z) : Z := Z.land (u64 (Z.shiftl v 1)) (NBYTES 0xfe).

Definition MASK (v : Z) : Z :=
  let vv := Z.land v (NBYTES 0x80) in
  u64 (u64 (Z.shiftl vv 1) - Z.shiftr vv 7).

(** [*(unative_t * )&page[d]], a little-endian load. *)
Definition load64 (l : list Z) (d : nat) : Z := le_combine (map (pget l) (seq d NSIZE)).

(** [w2 = MASK(wq); w1 = SHLBYTE(wq); w2 &= NBYTES(0x1d); w1 ^= w2;] *)
Definition word_xtime (wq : Z) : Z :=
  let w2 := MASK wq in
  let w1 := SHLBYTE wq in
  let w2 := Z.land w2 (NBYTES 0x1d) in
  w1 ⊕ w2.

(** One lane of the body of the loop over [d]: the words of P and Q at offset [off]. *)
Definition int_gen_lane (m : mem) (dptr : list addr) (z0 off : nat) : Z * Z :=
  let w := load64 (page m (ptr dptr z0)) off in
  fold_left (fun '(wp, wq) z =>
      let wd := load64 (page m (ptr dptr z)) off in
      (wp ⊕ wd, word_xtime wq ⊕ wd))
    (rev (seq 0 z0)) (w, w).

(** The stores of the [n] unrolled lanes. *)
Definition int_store_lanes (m : mem) (a : addr) (d : nat) (ws : list Z) : mem :=
  fold_left (fun m '(l, w) => store m a (d + NSIZE * l) (le_split NSIZE w))
    (zip (seq 0 (length ws)) ws) m.

(** [raid6_int$#_gen_syndrome] with [$#] = [n]; [bytes] iterations are enough since
    every one advances [d]. *)
Fixpoint int_gen_loop (n z0 bytes : nat) (dptr : list addr) (p q : addr)
    (fuel d : nat) (m : mem) : mem :=
  match fuel with
  | O => m
  | S fuel =>
    if (d <? bytes)%nat then
      let lanes := map (fun l => int_gen_lane m dptr z0 (d + l * NSIZE)) (seq 0 n) in
      let m := int_store_lanes m p d (map fst lanes) in
      let m := int_store_lanes m q d (map snd lanes) in
      int_gen_loop n z0 bytes dptr p q fuel (d + NSIZE * n) m
    else m
  end.

Definition raid6_int_gen_syndrome (n disks bytes : nat) (ptrs : list addr) (m : mem) : mem :=
  let z0 := (disks - 3)%nat in
  let p := ptr ptrs (z0 + 1) in
  let q := ptr ptrs (z0 + 2) in
  int_gen_loop n z0 bytes ptrs p q bytes 0 m.

(** ** Lane-wise meaning of the word operations *)

Lemma NBYTES_const {A} (c : Z) (l : list A) :
  length l = NSIZE -> is_u8 c -> NBYTES c = le_combine (map (fun _ => c) l).
Proof.
  intros Hl Hc. assert (map (fun _ => c) l = replicate NSIZE c) as ->.
  { rewrite <- Hl. clear. induction l; simpl; congruence. }
  unfold NBYTES, u64, is_u8 in *. cbn [replicate NSIZE le_combine].
  rewrite Z.mod_small; lia.
Qed.

Lemma shl_lanes bs c :
  Forall is_u8 bs -> 0 <= c < 2 ->
  Z.land (2 * le_combine bs + c) (le_combine (map (fun _ => 0xfe) bs)) =
  le_combine (map (fun b => u8 (2 * b)) bs).
Proof.
  intros Hbs. revert c. induction Hbs as [|b bs Hb _ IH]; intros c Hc; cbn [le_combine map].
  { by rewrite Z.land_0_r. }
  assert (2 * (b + 256 * le_combine bs) + c =
    u8 (2 * b + c) + 256 * (2 * le_combine bs + (2 * b + c) / 256)) as ->.
  { unfold u8. change (2 ^ 8) with 256. pose proof (Z.div_mod (2 * b + c) 256). lia. }
  rewrite land_cat, IH; [|unfold is_u8 in *|auto with md|unfold is_u8; lia].
  2: { split; [apply Z.div_pos; lia|apply Z.div_lt_upper_bound; lia]. }
  f_equal. apply Z.eqb_eq. revert b Hb.
  assert (c = 0 \/ c = 1) as [-> | ->] by lia;
    [apply (bytes_check (fun b => Z.land (u8 (2 * b + 0)) 254 =? u8 (2 * b)))
    |apply (bytes_check (fun b => Z.land (u8 (2 * b + 1)) 254 =? u8 (2 * b)))]; by vm_compute.
Qed.

Definition top_bit (b : Z) : Z := if Z.testbit b 7 then 1 else 0.

Lemma top_bit_bound b : 0 <= top_bit b <= 1.
Proof. unfold top_bit. destruct (Z.testbit b 7); lia. Qed.

Lemma le_combine_top_bits bs :
  length bs = NSIZE -> 0 <= le_combine (map top_bit bs) <= 0x0101010101010101.
Proof.
  intros H. do 8 (destruct bs as [|? bs]; [done|]). destruct bs; [|done].
  cbn [map le_combine].
  repeat match goal with |- context [top_bit ?b] =>
    pose proof (top_bit_bound b); generalize dependent (top_bit b); intros end.
  lia.
Qed.

Lemma SHLBYTE_lanes bs :
  Forall is_u8 bs -> length bs = NSIZE ->
  SHLBYTE (le_combine bs) = le_combine (map (fun b => u8 (2 * b)) bs).
Proof.
  intros Hbs Hl. unfold SHLBYTE, u64.
  rewrite land_mod_pow2 by (lia || (vm_compute; split; congruence)).
  rewrite Z.shiftl_mul_pow2, Z.mul_comm by lia. change (2 ^ 1) with 2.
  rewrite (NBYTES_const _ bs) by (done || (unfold is_u8; lia)).
  rewrite <- (Z.add_0_r (2 * _)). apply shl_lanes; [done|lia].
Qed.

Lemma MASK_lanes bs :
  Forall is_u8 bs -> length bs = NSIZE ->
  MASK (le_combine bs) = le_combine (map (fun b => 255 * top_bit b) bs).
Proof.
  intros Hbs Hl. unfold MASK.
  assert (Z.land (le_combine bs) (NBYTES 128) = 128 * le_combine (map top_bit bs)) as ->.
  { rewrite (NBYTES_const _ bs), <- (map_id bs) at 1 by (done || (unfold is_u8; lia)).
    rewrite <- (le_combine_land (fun b => b) (fun _ => 128)), <- le_combine_scale.
    - f_equal. apply map_ext. intros b. change 128 with (2 ^ 7) at 1. rewrite land_pow2 by lia.
      unfold top_bit. by destruct (Z.testbit b 7).
    - intros x Hx. by eapply Forall_forall; [|apply list_elem_of_In].
    - intros. unfold is_u8; lia. }
  pose proof (le_combine_top_bits bs Hl) as Hb. rewrite le_combine_scale.
  set (s := le_combine (map top_bit bs)) in *.
  rewrite Z.shiftl_mul_pow2, Z.shiftr_div_pow2 by lia. change (2 ^ 1) with 2. change (2 ^ 7) with 128.
  rewrite (Z.mul_comm 128 s), Z.div_mul by lia. unfold u64.
  rewrite Zminus_mod_idemp_l, Z.mod_small; lia.
Qed.

(** The word expression of the inner loop multiplies every byte of the word by 2. *)
Lemma word_xtime_lanes bs :
  Forall is_u8 bs -> length bs = NSIZE ->
  word_xtime (le_combine bs) = le_combine (map xtime bs).
Proof.
  intros Hbs Hl. unfold word_xtime. rewrite SHLBYTE_lanes, MASK_lanes by done.
  assert (forall b, b ∈ bs -> is_u8 (255 * top_bit b)).
  { intros b _. pose proof (top_bit_bound b). unfold is_u8; lia. }
  rewrite (NBYTES_const 0x1d bs) by (done || (unfold is_u8; lia)).
  rewrite <- le_combine_land by (done || (intros; unfold is_u8; lia)).
  rewrite <- le_combine_lxor by auto with md. f_equal. apply map_ext. intros b.
  rewrite xtime_bit, u8_lxor, Z.shiftl_mul_pow2, Z.mul_comm by lia. f_equal.
  unfold top_bit. by destruct (Z.testbit b 7).
Qed.

(** ** A lane computes the syndromes of its eight byte columns *)

Section IntLane.
Context (m : mem) (off : nat).

Let load (a : addr) : Z := load64 (page m a) off.

Lemma int_lane_fold srcs a :
  (forall a', a' ∈ srcs ++ [a] -> byte_page (page m a')) ->
  foldr (fun a' '(wp, wq) => (wp ⊕ load a', word_xtime wq ⊕ load a')) (load a, load a) srcs =
  (le_combine (map (fun b => p_syn (column m (srcs ++ [a]) b)) (seq off NSIZE)),
   le_combine (map (fun b => q_syn (column m (srcs ++ [a]) b)) (seq off NSIZE))).
Proof.
  intros Hok. induction srcs as [|s srcs IH]; cbn [foldr app].
  - unfold load, load64. f_equal; apply (f_equal le_combine), map_ext; intros b;
      unfold column, p_syn, q_syn; cbn [map foldr]; by rewrite ?Z.lxor_0_r, ?xtime_0.
  - rewrite IH by set_solver. clear IH.
    assert (forall b, is_u8 (pget (page m s) b)) by (intros; apply pget_u8, Hok; set_solver).
    assert (forall b, Forall is_u8 (column m (srcs ++ [a]) b)).
    { intros b. apply column_u8. set_solver. }
    f_equal.
    + rewrite Z.lxor_comm. unfold load, load64. rewrite <- le_combine_lxor by auto with md. done.
    + rewrite word_xtime_lanes; [|apply Forall_map, Forall_forall; auto with md|done].
      rewrite map_map. unfold load, load64. rewrite <- le_combine_lxor by auto with md. done.
Qed.
End IntLane.

(** The descending loop over the slots [zs], as a right fold over their pages. *)
Lemma int_fold_rev m ptrs off zs w :
  fold_left (fun '(wp, wq) z =>
      let wd := load64 (page m (ptr ptrs z)) off in
      (wp ⊕ wd, word_xtime wq ⊕ wd)) (rev zs) w =
  foldr (fun a '(wp, wq) => (wp ⊕ load64 (page m a) off, word_xtime wq ⊕ load64 (page m a) off))
    w (map (ptr ptrs) zs).
Proof.
  rewrite <- fold_left_rev_right, rev_involutive. cbv zeta.
  induction zs as [|z zs IH]; cbn [map foldr]; [done|].
  rewrite IH. clear IH. by destruct (foldr _ _ _).
Qed.

Lemma int_gen_lane_ok m ptrs z0 off :
  (z0 < length ptrs)%nat -> (forall a, a ∈ take (S z0) ptrs -> byte_page (page m a)) ->
  int_gen_lane m ptrs z0 off =
  (le_combine (map (fun b => p_syn (column m (take (S z0) ptrs) b)) (seq off NSIZE)),
   le_combine (map (fun b => q_syn (column m (take (S z0) ptrs) b)) (seq off NSIZE))).
Proof.
  intros Hz Hok. rewrite take_S_ptr in * by done.
  rewrite <- int_lane_fold by done. unfold int_gen_lane.
  by rewrite int_fold_rev, (map_ptr_seq ptrs z0) by lia.
Qed.

(** ** The whole routine *)

(** Storing a block of lanes whose words are the values of [f] extends the prefix of the
    page filled with [f]. *)
Lemma int_store_lanes_ok m a f l n d :
  (forall b, is_u8 (f b)) -> (d + NSIZE * n <= length l)%nat ->
  int_store_lanes (<[a := filled f d l]> m) a d
    (map (fun k => le_combine (map f (seq (d + k * NSIZE) NSIZE))) (seq 0 n)) =
  <[a := filled f (d + NSIZE * n) l]> m.
Proof.
  intros Hf Hlen. unfold int_store_lanes. rewrite length_map, length_seq, zip_seq_map.
  induction n as [|n IH].
  - cbn [seq map fold_left]. by rewrite Nat.mul_0_r, Nat.add_0_r.
  - rewrite seq_S, map_app, fold_left_app, IH by lia. cbn [map fold_left plus].
    rewrite (store_filled _ _ _ _ NSIZE).
    + do 2 f_equal. lia.
    + lia.
    + rewrite <- (length_seq NSIZE (d + n * NSIZE)), <- (length_map f) at 1.
      rewrite le_split_combine by (by apply Forall_map_u8). do 2 f_equal. lia.
Qed.

Section StripeFacts.
Context (disks bytes : nat) (ptrs : list addr) (m : mem) (Hok : stripe_ok disks bytes ptrs m).

Let p := p_ptr disks ptrs.
Let q := q_ptr disks ptrs.

Lemma so_data_in a : a ∈ data_ptrs disks ptrs -> a ∈ ptrs /\ a <> p /\ a <> q.
Proof.
  destruct Hok. intros Ha. split; [by eapply subseteq_take|]. split; intros ->; done.
Qed.

Lemma so_p_in : p ∈ ptrs.
Proof. destruct Hok. apply elem_of_ptr. lia. Qed.

Lemma so_q_in : q ∈ ptrs.
Proof. destruct Hok. apply elem_of_ptr. lia. Qed.

Lemma so_page a : a ∈ ptrs -> m !! a = Some (page m a) /\ byte_page (page m a) /\ (bytes <= length (page m a))%nat.
Proof.
  destruct Hok as [_ _ _ _ _ Hb]. intros Ha. destruct (Hb a Ha) as (l & Hl & H).
  unfold page. by rewrite Hl.
Qed.

Lemma so_column_u8 srcs b :
  (forall a, a ∈ srcs -> a ∈ data_ptrs disks ptrs) -> Forall is_u8 (column m srcs b).
Proof. intros H. apply column_u8. intros a Ha. apply so_page, so_data_in, H, Ha. Qed.

(** The memory in which the parity pages are filled up to an offset. *)
Definition parity_filled (P Q : nat -> Z) (d : nat) : mem :=
  <[q := filled Q d (page m q)]> (<[p := filled P d (page m p)]> m).

Lemma page_parity_filled P Q a d :
  a ∈ data_ptrs disks ptrs -> page (parity_filled P Q d) a = page m a.
Proof.
  intros Ha. destruct (so_data_in a Ha) as (_ & ? & ?). unfold parity_filled.
  by rewrite !page_insert_ne.
Qed.

Lemma parity_filled_0 P Q : parity_filled P Q 0 = m.
Proof.
  destruct (so_page p so_p_in) as [Hp _]. destruct (so_page q so_q_in) as [Hq _].
  unfold parity_filled. rewrite !filled_0. rewrite (insert_id m p) by done. by apply insert_id.
Qed.
End StripeFacts.

Section IntGen.
Context (n disks bytes : nat) (ptrs : list addr) (m : mem).
Context (Hn : (0 < n)%nat) (Hok : stripe_ok disks bytes ptrs m).

Let p := p_ptr disks ptrs.
Let q := q_ptr disks ptrs.
Let P b := p_syn (column m (data_ptrs disks ptrs) b).
Let Q b := q_syn (column m (data_ptrs disks ptrs) b).

(** Memory when the loop is at offset [d]. *)
Let at_offset (d : nat) : mem := parity_filled disks ptrs m P Q d.

Lemma int_gen_lane_at d off :
  int_gen_lane (at_offset d) ptrs (disks - 3) off =
  (le_combine (map P (seq off NSIZE)), le_combine (map Q (seq off NSIZE))).
Proof.
  destruct Hok as [Hlen Hd _ _ _ _].
  rewrite int_gen_lane_ok; replace (S (disks - 3))%nat with (disks - 2)%nat by lia; [|lia|].
  - f_equal; apply (f_equal le_combine), map_ext; intros b; unfold P, Q; f_equal;
      apply column_ext; intros a Ha; by eapply page_parity_filled.
  - intros a Ha. unfold at_offset. erewrite page_parity_filled by done.
    by apply (so_page _ _ _ _ Hok), (so_data_in _ _ _ _ Hok).
Qed.

Lemma int_gen_syndrome_loop fuel j k :
  bytes = (NSIZE * n * k)%nat -> (j <= k)%nat -> (k - j <= fuel)%nat ->
  int_gen_loop n (disks - 3) bytes ptrs p q fuel (NSIZE * n * j) (at_offset (NSIZE * n * j)) =
  at_offset bytes.
Proof.
  intros Hk. revert j. induction fuel as [|fuel IH]; intros j Hj Hf; cbn [int_gen_loop].
  { by replace j with k by lia; rewrite <- Hk. }
  destruct (Nat.ltb_spec (NSIZE * n * j) bytes) as [Hlt|Hge].
  2: { assert (j = k) as -> by (unfold NSIZE in *; nia). by rewrite <- Hk. }
  set (d := (NSIZE * n * j)%nat) in *.
  assert (d + NSIZE * n <= bytes)%nat by (unfold d, NSIZE in *; nia).
  destruct (so_page _ _ _ _ Hok p) as (_ & _ & ?); [by eapply so_p_in|].
  destruct (so_page _ _ _ _ Hok q) as (_ & _ & ?); [by eapply so_q_in|].
  assert (forall b, Forall is_u8 (column m (data_ptrs disks ptrs) b)) as Hu
    by (intros b; by eapply so_column_u8).
  rewrite (map_ext _ (fun l => (le_combine (map P (seq (d + l * NSIZE) NSIZE)),
      le_combine (map Q (seq (d + l * NSIZE) NSIZE))))) by (intros; apply int_gen_lane_at).
  rewrite !map_map. cbn [fst snd]. unfold at_offset, parity_filled at 1. fold p q.
  assert (p <> q) by apply Hok.
  rewrite (insert_insert_ne _ q p), int_store_lanes_ok, (insert_insert_ne _ p q), int_store_lanes_ok;
    [|unfold P, Q; auto with md; lia..].
  assert (j < k)%nat by (unfold d, NSIZE in *; nia).
  specialize (IH (S j)). replace (NSIZE * n * S j)%nat with (d + NSIZE * n)%nat in IH by (unfold d; lia).
  apply IH; lia.
Qed.

Lemma int_gen_syndrome_ok k :
  bytes = (NSIZE * n * k)%nat ->
  raid6_int_gen_syndrome n disks bytes ptrs m = with_syndromes disks bytes ptrs m.
Proof.
  intros Hk. unfold raid6_int_gen_syndrome.
  replace (disks - 3 + 1)%nat with (disks - 2)%nat by (destruct Hok; lia).
  replace (disks - 3 + 2)%nat with (disks - 1)%nat by (destruct Hok; lia).
  rewrite <- (parity_filled_0 _ _ _ _ Hok P Q) at 1. pose proof (int_gen_syndrome_loop bytes 0 k Hk) as H.
  rewrite Nat.mul_0_r in H. apply H; [lia|unfold NSIZE in *; nia].
Qed.
End IntGen.

(** The integer routines are defined for any multiple of their block size. *)
Definition int_dom (n disks bytes : nat) : Prop := (NSIZE * n | bytes)%nat.

#[export] Instance int_gen n : SyndromeGen (fun d b => (0 < n)%nat /\ int_dom n d b) (raid6_int_gen_syndrome n).
Proof.
  intros disks bytes ptrs m [Hn [k Hk]] Hok. apply (int_gen_syndrome_ok n disks bytes ptrs m Hn Hok k). lia.
Qed.

(** * Read-modify-write: [xor_syndrome] *)

(** The data pages of the slots [start .. stop]. *)
Definition slice_ptrs (start stop : nat) (ptrs : list addr) : list addr :=
  drop start (take (S stop) ptrs).

(** P and Q with the contribution of the slots [start .. stop] added. *)
Definition with_xor_syndromes (disks start stop bytes : nat) (ptrs : list addr) (m : mem) : mem :=
  let cols := column m (slice_ptrs start stop ptrs) in
  let p := p_ptr disks ptrs in
  let q := q_ptr disks ptrs in
  <[q := filled (fun b => pget (page m q) b ⊕ gfmul (alpha start) (q_syn (cols b))) bytes (page m q)]>
  (<[p := filled (fun b => pget (page m p) b ⊕ p_syn (cols b)) bytes (page m p)]> m).

(** What [xor_syndrome] of a [raid6_calls] promises. *)
Class SyndromeXor (dom : nat -> nat -> Prop)
    (xor : nat -> nat -> nat -> nat -> list addr -> mem -> mem) : Prop :=
  xor_syndrome_ok disks start stop bytes ptrs m :
    dom disks bytes -> stripe_ok disks bytes ptrs m -> (start <= stop < disks - 2)%nat ->
    xor disks start stop bytes ptrs m = with_xor_syndromes disks start stop bytes ptrs m.

(** One lane: the slots [stop .. start] by Horner's rule, then the multiplications by 2
    for the slots below [start], which are not read. *)
Definition int_xor_lane (m : mem) (dptr : list addr) (start z0 off : nat) : Z * Z :=
  let w := load64 (page m (ptr dptr z0)) off in
  let '(wp, wq) := fold_left (fun '(wp, wq) z =>
      let wd := load64 (page m (ptr dptr z)) off in
      (wp ⊕ wd, word_xtime wq ⊕ wd))
    (rev (seq start (z0 - start))) (w, w) in
  (wp, Nat.iter start word_xtime wq).

(** [*(unative_t * )&p[d+NSIZE*$$] ^= w$$;] *)
Definition int_xor_lanes (m : mem) (a : addr) (d : nat) (ws : list Z) : mem :=
  fold_left (fun m '(l, w) =>
      store m a (d + NSIZE * l) (le_split NSIZE (load64 (page m a) (d + NSIZE * l) ⊕ w)))
    (zip (seq 0 (length ws)) ws) m.

Fixpoint int_xor_loop (n start z0 bytes : nat) (dptr : list addr) (p q : addr)
    (fuel d : nat) (m : mem) : mem :=
  match fuel with
  | O => m
  | S fuel =>
    if (d <? bytes)%nat then
      let lanes := map (fun l => int_xor_lane m dptr start z0 (d + l * NSIZE)) (seq 0 n) in
      let m := int_xor_lanes m p d (map fst lanes) in
      let m := int_xor_lanes m q d (map snd lanes) in
      int_xor_loop n start z0 bytes dptr p q fuel (d + NSIZE * n) m
    else m
  end.

Definition raid6_int_xor_syndrome (n disks start stop bytes : nat) (ptrs : list addr) (m : mem) : mem :=
  let z0 := stop in
  let p := ptr ptrs (disks - 2) in
  let q := ptr ptrs (disks - 1) in
  int_xor_loop n start z0 bytes ptrs p q bytes 0 m.

Lemma iter_word_xtime k (f : nat -> Z) off :
  (forall b, is_u8 (f b)) ->
  Nat.iter k word_xtime (le_combine (map f (seq off NSIZE))) =
  le_combine (map (fun b => gfmul (alpha k) (f b)) (seq off NSIZE)).
Proof.
  intros Hf. rewrite (map_ext (fun b => gfmul (alpha k) (f b)) (fun b => Nat.iter k xtime (f b)))
    by (intros; by rewrite iter_xtime).
  induction k as [|k IH]; [done|]. rewrite Nat.iter_succ, IH.
  rewrite word_xtime_lanes, map_map; [done| |by rewrite length_map].
  apply Forall_map_u8. intros b. rewrite iter_xtime by done. auto with md.
Qed.

Lemma load64_filled f d l off :
  (d <= off)%nat -> (d <= length l)%nat -> load64 (filled f d l) off = load64 l off.
Proof.
  intros. unfold load64. apply (f_equal le_combine), map_ext_in. intros b Hb%in_seq.
  apply pget_filled_ge; lia.
Qed.

(** Lanes that are added to the page. *)
Lemma int_xor_lanes_ok m a f l n d :
  byte_page l -> (forall b, is_u8 (f b)) -> (d + NSIZE * n <= length l)%nat ->
  int_xor_lanes (<[a := filled (fun b => pget l b ⊕ f b) d l]> m) a d
    (map (fun k => le_combine (map f (seq (d + k * NSIZE) NSIZE))) (seq 0 n)) =
  <[a := filled (fun b => pget l b ⊕ f b) (d + NSIZE * n) l]> m.
Proof.
  intros Hl Hf Hlen. unfold int_xor_lanes. rewrite length_map, length_seq, zip_seq_map.
  induction n as [|n IH].
  - cbn [seq map fold_left]. by rewrite Nat.mul_0_r, Nat.add_0_r.
  - rewrite seq_S, map_app, fold_left_app, IH by lia. cbn [map fold_left plus].
    rewrite (store_filled _ _ _ _ NSIZE); [do 2 f_equal; lia|lia|].
    rewrite page_insert_eq, load64_filled by lia. unfold load64.
    rewrite (Nat.mul_comm n), <- le_combine_lxor by (intros; auto using pget_u8).
    rewrite <- (length_seq NSIZE (d + NSIZE * n)), <- (length_map (fun x => pget l x ⊕ f x)) at 1.
    rewrite le_split_combine; [done|]. apply Forall_map_u8. auto using pget_u8 with md.
Qed.

Section IntXor.
Context (n disks start stop bytes : nat) (ptrs : list addr) (m : mem).
Context (Hn : (0 < n)%nat) (Hok : stripe_ok disks bytes ptrs m).
Context (Hrange : (start <= stop < disks - 2)%nat).

Let p := p_ptr disks ptrs.
Let q := q_ptr disks ptrs.
Let slice := slice_ptrs start stop ptrs.
Let dP b := p_syn (column m slice b).
Let dQ b := gfmul (alpha start) (q_syn (column m slice b)).
Let at_offset : nat -> mem :=
  parity_filled disks ptrs m (fun b => pget (page m p) b ⊕ dP b) (fun b => pget (page m q) b ⊕ dQ b).

Lemma slice_data a : a ∈ slice -> a ∈ data_ptrs disks ptrs.
Proof.
  unfold slice, slice_ptrs, data_ptrs. intros Ha%subseteq_drop.
  apply elem_of_take in Ha as (i & Hi & Hlt). apply elem_of_take. exists i. split; [done|lia].
Qed.

Lemma int_xor_lane_at d off :
  int_xor_lane (at_offset d) ptrs start stop off =
  (le_combine (map dP (seq off NSIZE)), le_combine (map dQ (seq off NSIZE))).
Proof.
  assert (length ptrs = disks) by apply Hok.
  assert (forall b, column (at_offset d) slice b = column m slice b) as Hcol.
  { intros b. apply column_ext. intros a Ha%slice_data. by eapply page_parity_filled. }
  assert (forall b, Forall is_u8 (column m slice b))
    by (intros b; eapply so_column_u8; [done|apply slice_data]).
  unfold int_xor_lane. rewrite int_fold_rev, int_lane_fold, <- slice_ptr_seq; [|lia|].
  - fold (slice_ptrs start stop ptrs). fold slice.
    rewrite (iter_word_xtime start (fun b => q_syn (column (at_offset d) slice b))).
    + assert (forall g : list Z -> Z, map (fun b => g (column (at_offset d) slice b)) (seq off NSIZE) =
        map (fun b => g (column m slice b)) (seq off NSIZE)) as Hmap
        by (intros g; apply map_ext; intros b; by rewrite Hcol).
      by rewrite (Hmap p_syn), (Hmap (fun c => gfmul (alpha start) (q_syn c))).
    + intros b. rewrite Hcol. auto with md.
  - rewrite <- slice_ptr_seq by lia. intros a Ha%slice_data.
    unfold at_offset. erewrite page_parity_filled by done.
    by apply (so_page _ _ _ _ Hok), (so_data_in _ _ _ _ Hok).
Qed.

Lemma int_xor_syndrome_loop fuel j k :
  bytes = (NSIZE * n * k)%nat -> (j <= k)%nat -> (k - j <= fuel)%nat ->
  int_xor_loop n start stop bytes ptrs p q fuel (NSIZE * n * j) (at_offset (NSIZE * n * j)) =
  at_offset bytes.
Proof.
  intros Hk. revert j. induction fuel as [|fuel IH]; intros j Hj Hf; cbn [int_xor_loop].
  { by replace j with k by lia; rewrite <- Hk. }
  destruct (Nat.ltb_spec (NSIZE * n * j) bytes) as [Hlt|Hge].
  2: { assert (j = k) as -> by (unfold NSIZE in *; nia). by rewrite <- Hk. }
  set (d := (NSIZE * n * j)%nat) in *.
  assert (d + NSIZE * n <= bytes)%nat by (unfold d, NSIZE in *; nia).
  destruct (so_page _ _ _ _ Hok p) as (_ & ? & ?); [by eapply so_p_in|].
  destruct (so_page _ _ _ _ Hok q) as (_ & ? & ?); [by eapply so_q_in|].
  assert (forall b, Forall is_u8 (column m slice b))
    by (intros b; eapply so_column_u8; [done|apply slice_data]).
  rewrite (map_ext _ (fun l => (le_combine (map dP (seq (d + l * NSIZE) NSIZE)),
      le_combine (map dQ (seq (d + l * NSIZE) NSIZE))))) by (intros; apply int_xor_lane_at).
  rewrite !map_map. cbn [fst snd]. unfold at_offset, parity_filled at 1. fold p q.
  assert (p <> q) by apply Hok.
  rewrite (insert_insert_ne _ q p), int_xor_lanes_ok, (insert_insert_ne _ p q), int_xor_lanes_ok;
    [|unfold dP, dQ; auto with md; lia..].
  assert (j < k)%nat by (unfold d, NSIZE in *; nia).
  specialize (IH (S j)). replace (NSIZE * n * S j)%nat with (d + NSIZE * n)%nat in IH by (unfold d; lia).
  apply IH; lia.
Qed.

Lemma int_xor_syndrome_ok k :
  bytes = (NSIZE * n * k)%nat ->
  raid6_int_xor_syndrome n disks start stop bytes ptrs m = with_xor_syndromes disks start stop bytes ptrs m.
Proof.
  intros Hk. unfold raid6_int_xor_syndrome.
  rewrite <- (parity_filled_0 _ _ _ _ Hok (fun b => pget (page m p) b ⊕ dP b)
                 (fun b => pget (page m q) b ⊕ dQ b)) at 1.
  pose proof (int_xor_syndrome_loop bytes 0 k Hk) as H.
  rewrite Nat.mul_0_r in H. apply H; [lia|unfold NSIZE in *; nia].
Qed.
End IntXor.

#[export] Instance int_xor n : SyndromeXor (fun d b => (0 < n)%nat /\ int_dom n d b) (raid6_int_xor_syndrome n).
Proof.
  intros disks start stop bytes ptrs m [Hn [k Hk]] Hok Hr.
  apply (int_xor_syndrome_ok n disks start stop bytes ptrs m Hn Hok Hr k). lia.
Qed.
