(* ===== verification/Recov.v ===== *)
(** Recovery from two failures in RAID-6, raid6/recov.c: the routines permute the
    pointer table, compute the syndromes of what is left in the dead pages through
    [raid6_call.gen_syndrome], restore the table and solve for the lost bytes. *)

From S2P Require Import Prelude GF256 PageMem Syndrome.

(** * The routines *)

Section Recov.
(** [raid6_call.gen_syndrome] and [raid6_empty_zero_page]. *)
Context (gen : nat -> nat -> list addr -> mem -> mem) (raid6_empty_zero_page : addr).

(** One iteration of the byte loop of the two-data recovery, at byte [i]. *)
Definition recov_2data_byte (p q dp dq : addr) (pbmul qmul : list Z) (m : mem) (i : nat) : mem :=
  let px := pget (page m p) i ⊕ pget (page m dp) i in
  let qx := qmul.[pget (page m q) i ⊕ pget (page m dq) i] in
  let db := pbmul.[px] ⊕ qx in
  let m := store m dq i [db] in
  store m dp i [db ⊕ px].

Definition raid6_2data_recov_intx1 (disks bytes faila failb : nat) (ptrs : list addr) (m : mem)
    : list addr * mem :=
  let p := ptr ptrs (disks - 2) in
  let q := ptr ptrs (disks - 1) in
  let dp := ptr ptrs faila in
  let ptrs := <[faila := raid6_empty_zero_page]> ptrs in
  let ptrs := <[(disks - 2)%nat := dp]> ptrs in
  let dq := ptr ptrs failb in
  let ptrs := <[failb := raid6_empty_zero_page]> ptrs in
  let ptrs := <[(disks - 1)%nat := dq]> ptrs in
  let m := gen disks bytes ptrs m in
  let ptrs := <[faila := dp]> ptrs in
  let ptrs := <[failb := dq]> ptrs in
  let ptrs := <[(disks - 2)%nat := p]> ptrs in
  let ptrs := <[(disks - 1)%nat := q]> ptrs in
  let pbmul := row raid6_gfmul (raid6_gfexi.[Z.of_nat failb - Z.of_nat faila]) in
  let qmul := row raid6_gfmul
    (raid6_gfinv.[raid6_gfexp.[Z.of_nat faila] ⊕ raid6_gfexp.[Z.of_nat failb]]) in
  (ptrs, fold_left (recov_2data_byte p q dp dq pbmul qmul) (seq 0 bytes) m).

(** [*p++ ^= *dq = qmul[*q ^ *dq];] at byte [i]. *)
Definition recov_datap_byte (p q dq : addr) (qmul : list Z) (m : mem) (i : nat) : mem :=
  let v := qmul.[pget (page m q) i ⊕ pget (page m dq) i] in
  let m := store m dq i [v] in
  store m p i [pget (page m p) i ⊕ v].

Definition raid6_datap_recov_intx1 (disks bytes faila : nat) (ptrs : list addr) (m : mem)
    : list addr * mem :=
  let p := ptr ptrs (disks - 2) in
  let q := ptr ptrs (disks - 1) in
  let dq := ptr ptrs faila in
  let ptrs := <[faila := raid6_empty_zero_page]> ptrs in
  let ptrs := <[(disks - 1)%nat := dq]> ptrs in
  let m := gen disks bytes ptrs m in
  let ptrs := <[faila := dq]> ptrs in
  let ptrs := <[(disks - 1)%nat := q]> ptrs in
  let qmul := row raid6_gfmul (raid6_gfinv.[raid6_gfexp.[Z.of_nat faila]]) in
  (ptrs, fold_left (recov_datap_byte p q dq qmul) (seq 0 bytes) m).
End Recov.

(** * Solving for the lost bytes *)

Lemma recov_2data_solve a b x y :
  (a < b < 255)%nat -> is_u8 x -> is_u8 y ->
  gfmul (gfpow (alpha (b - a) ⊕ 1) 254) (x ⊕ y)
    ⊕ gfmul (gfpow (alpha a ⊕ alpha b) 254) (gfmul (alpha a) x ⊕ gfmul (alpha b) y) = y.
Proof.
  intros Hab Hx Hy. apply to_gf_inj; [auto 10 with md..|].
  set (A := to_gf (alpha a)). set (C := to_gf (alpha (b - a))).
  assert (to_gf (alpha b) = A * C)%gf as HB.
  { unfold A, C. rewrite <- to_gf_gfmul, <- alpha_add by auto with md.
    by replace (a + (b - a))%nat with b by lia. }
  rewrite !to_gf_lxor, !to_gf_gfmul, !to_gf_inv, !to_gf_lxor, !to_gf_gfmul, HB by auto 10 with md.
  fold A C. rewrite to_gf_1.
  assert (A <> g0) by (apply to_gf_ne_0; [auto with md|apply alpha_ne_0]).
  assert (C + g1 <> g0)%gf.
  { unfold C. rewrite <- to_gf_1, <- to_gf_lxor by auto with md.
    apply to_gf_ne_0; [auto with md|]. intros Hc%Z.lxor_eq. by apply (alpha_ne_1 (b - a)); [lia|]. }
  assert (A + A * C <> g0)%gf.
  { rewrite <- HB. unfold A. rewrite <- to_gf_lxor by auto with md.
    apply to_gf_ne_0; [auto with md|]. by apply alpha_lxor_ne_0. }
  field. split_and!; done.
Qed.

(** * Correctness *)

(** The parity pages hold the syndromes of the data pages. *)
Definition consistent (disks bytes : nat) (ptrs : list addr) (m : mem) : Prop :=
  forall b, (b < bytes)%nat ->
    pget (page m (p_ptr disks ptrs)) b = p_syn (column m (data_ptrs disks ptrs) b) /\
    pget (page m (q_ptr disks ptrs)) b = q_syn (column m (data_ptrs disks ptrs) b).

(** A usable stripe of distinct pages, and the zero page beside it. *)
Record recov_ok (zero : addr) (disks bytes : nat) (ptrs : list addr) (m : mem) : Prop := {
  ro_stripe : stripe_ok disks bytes ptrs m;
  ro_nodup : NoDup ptrs;
  ro_zero : zero ∉ ptrs;
  ro_zero_page : exists l, m !! zero = Some l /\ byte_page l /\ (bytes <= length l)%nat /\
    forall b, (b < bytes)%nat -> pget l b = 0;
}.

(** A page that has lost its contents: any bytes of the right number. *)
Definition garbage (bytes : nat) (g : list Z) : Prop := byte_page g /\ (bytes <= length g)%nat.

(** The page [g] after its first [bytes] bytes were restored to those of [l]. *)
Definition restored (bytes : nat) (l g : list Z) : list Z := filled (pget l) bytes g.

Section Correct.
Context {dom : nat -> nat -> Prop} {gen : nat -> nat -> list addr -> mem -> mem}.
Context {Hgen : SyndromeGen dom gen}.
Context (zero : addr) (disks bytes : nat) (ptrs : list addr) (m0 : mem).
Context (Hdom : dom disks bytes) (Hok : recov_ok zero disks bytes ptrs m0).
Context (Hcons : consistent disks bytes ptrs m0).

Let Hstripe := ro_stripe _ _ _ _ _ Hok.
Let Hlen := so_len _ _ _ _ Hstripe.
Let Hdisks := so_disks _ _ _ _ Hstripe.
Let cols := column m0 (data_ptrs disks ptrs).
Let byte i b := pget (page m0 (ptr ptrs i)) b.

Lemma cols_lookup i b : (i < disks - 2)%nat -> cols b !! i = Some (byte i b).
Proof.
  intros Hi. unfold cols, data_ptrs, byte. rewrite column_lookup by (rewrite length_take; lia).
  by rewrite ptr_take.
Qed.

Lemma byte_u8 i b : (i < disks)%nat -> is_u8 (byte i b).
Proof.
  intros Hi. apply pget_u8. eapply so_page; [done|]. apply elem_of_ptr. lia.
Qed.

Lemma cols_u8 b : Forall is_u8 (cols b).
Proof. by eapply so_column_u8. Qed.

(** Memory with the pages of the slots in [lost] replaced by garbage, seen through a
    pointer table in which they are the zero page. *)
Lemma column_zeroed2 m a b i :
  (a < disks - 2)%nat -> (b < disks - 2)%nat -> (i < bytes)%nat ->
  (forall x, x ∈ data_ptrs disks ptrs -> x <> ptr ptrs a -> x <> ptr ptrs b -> page m x = page m0 x) ->
  page m zero = page m0 zero ->
  column m (<[b := zero]> (<[a := zero]> (data_ptrs disks ptrs))) i = <[b := 0]> (<[a := 0]> (cols i)).
Proof.
  intros Ha Hb Hi Hm Hz. rewrite !column_insert, Hz.
  destruct (ro_zero_page _ _ _ _ _ Hok) as (l & Hl & _ & _ & Hl0).
  assert (pget (page m0 zero) i = 0) as -> by (unfold page; rewrite Hl; by apply Hl0).
  assert (length (column m (data_ptrs disks ptrs) i) = disks - 2)%nat
    by (unfold data_ptrs; rewrite length_column, length_take; lia).
  apply list_eq. intros j. destruct (decide (j = b)) as [->|Hjb].
  { rewrite !list_lookup_insert_eq; [done|..]; rewrite ?length_insert; unfold cols, data_ptrs in *;
      rewrite ?length_column, ?length_take in *; lia. }
  rewrite !(list_lookup_insert_ne _ b) by done. destruct (decide (j = a)) as [->|Hja].
  { rewrite !list_lookup_insert_eq; [done|..]; unfold cols, data_ptrs in *;
      rewrite ?length_column, ?length_take in *; lia. }
  rewrite !(list_lookup_insert_ne _ a) by done.
  destruct (decide (j < disks - 2)%nat) as [Hj|Hj].
  - rewrite cols_lookup, column_lookup by (unfold data_ptrs; rewrite ?length_take; lia).
    unfold data_ptrs. rewrite ptr_take by done. unfold byte. rewrite Hm; [done|..].
    + apply elem_of_take. exists j. split; [apply ptr_lookup; lia|done].
    + apply ptr_inj; [apply Hok|lia..].
    + apply ptr_inj; [apply Hok|lia..].
  - rewrite !lookup_ge_None_2; [done|..]; unfold cols, data_ptrs in *;
      rewrite ?length_column, ?length_take in *; lia.
Qed.

Lemma ptrs_ne i j : (i < disks)%nat -> (j < disks)%nat -> i <> j -> ptr ptrs i <> ptr ptrs j.
Proof. intros. apply ptr_inj; [apply Hok|lia..]. Qed.

Lemma zero_ne i : (i < disks)%nat -> zero <> ptr ptrs i.
Proof. intros Hi H. apply (ro_zero _ _ _ _ _ Hok). rewrite H. apply elem_of_ptr. lia. Qed.


Section TwoData.
Context (faila failb : nat) (ga gb : list Z).
Context (Hab : (faila < failb < disks - 2)%nat) (Hb255 : (failb < 255)%nat).
Context (Hga : garbage bytes ga) (Hgb : garbage bytes gb).

Let p := ptr ptrs (disks - 2).
Let q := ptr ptrs (disks - 1).
Let da := ptr ptrs faila.
Let db := ptr ptrs failb.

(** The stripe with the two data pages lost, and the table during the syndrome call. *)
Let m : mem := <[da := ga]> (<[db := gb]> m0).
Let ptrs' : list addr :=
  <[(disks - 1)%nat := db]> (<[failb := zero]> (<[(disks - 2)%nat := da]> (<[faila := zero]> ptrs))).

Lemma ptrs'_data : data_ptrs disks ptrs' = <[failb := zero]> (<[faila := zero]> (data_ptrs disks ptrs)).
Proof.
  unfold data_ptrs, ptrs'. rewrite take_insert_ge, take_insert_lt, take_insert_ge, take_insert_lt by lia.
  done.
Qed.

Lemma ptrs'_p : p_ptr disks ptrs' = da.
Proof.
  unfold p_ptr, ptrs'. rewrite !ptr_insert_ne by lia. rewrite ptr_insert_eq; [done|].
  rewrite length_insert; lia.
Qed.

Lemma ptrs'_q : q_ptr disks ptrs' = db.
Proof. unfold q_ptr, ptrs'. apply ptr_insert_eq. rewrite !length_insert; lia. Qed.

(** A lost slot's page is not among the data pages once the zero page stands in. *)
Lemma lost_notin i : i = faila \/ i = failb -> ptr ptrs i ∉ data_ptrs disks ptrs'.
Proof.
  intros Hi. rewrite ptrs'_data. intros [j Hj]%list_elem_of_lookup.
  assert (i < disks)%nat by lia.
  assert (j < disks - 2)%nat.
  { apply lookup_lt_Some in Hj. unfold data_ptrs in Hj. rewrite !length_insert, length_take in Hj. lia. }
  assert (zero <> ptr ptrs i) by (by apply zero_ne).
  destruct (decide (j = failb)) as [->|]; [|destruct (decide (j = faila)) as [->|]].
  - rewrite list_lookup_insert_eq in Hj by (unfold data_ptrs; rewrite length_insert, length_take; lia).
    congruence.
  - rewrite list_lookup_insert_ne, list_lookup_insert_eq in Hj
      by (unfold data_ptrs; rewrite ?length_take; lia). congruence.
  - rewrite !list_lookup_insert_ne in Hj by done. unfold data_ptrs in Hj.
    rewrite lookup_take_lt, ptr_lookup in Hj by lia. apply (inj Some) in Hj.
    apply (ptrs_ne j i) in Hj; [done|lia..].
Qed.

Lemma page_m_other x : x <> da -> x <> db -> page m x = page m0 x.
Proof. intros. unfold m. by rewrite !page_insert_ne. Qed.

Lemma m_pages x : x ∈ ptrs' -> exists l, m !! x = Some l /\ byte_page l /\ (bytes <= length l)%nat.
Proof.
  intros Hx. destruct (decide (x = da)) as [->|Hxa]; [exists ga; split; [apply lookup_insert_eq|done]|].
  destruct (decide (x = db)) as [->|Hxb].
  { exists gb. split; [|done]. unfold m. by rewrite lookup_insert_ne, lookup_insert_eq. }
  unfold m. rewrite !lookup_insert_ne by done.
  assert (x = zero \/ x ∈ ptrs) as [->|Hin].
  { unfold ptrs' in Hx. repeat (apply list_elem_of_insert_inv in Hx as [?|Hx]; [tauto|]). tauto. }
  - destruct (ro_zero_page _ _ _ _ _ Hok) as (l & ? & ? & ? & _). eauto.
  - by apply (so_bytes _ _ _ _ Hstripe).
Qed.

Lemma stripe_ok_2data : stripe_ok disks bytes ptrs' m.
Proof.
  split.
  - unfold ptrs'. by rewrite !length_insert.
  - done.
  - rewrite ptrs'_p. apply lost_notin. auto.
  - rewrite ptrs'_q. apply lost_notin. auto.
  - rewrite ptrs'_p, ptrs'_q. apply ptrs_ne; lia.
  - apply m_pages.
Qed.

(** The syndromes of the surviving data differ from the stored ones by the lost bytes. *)
Lemma syndromes_2data i :
  (i < bytes)%nat ->
  p_syn (column m (data_ptrs disks ptrs') i) = pget (page m0 p) i ⊕ (byte faila i ⊕ byte failb i) /\
  q_syn (column m (data_ptrs disks ptrs') i) =
    pget (page m0 q) i ⊕ (gfmul (alpha faila) (byte faila i) ⊕ gfmul (alpha failb) (byte failb i)).
Proof.
  intros Hi. rewrite ptrs'_data, column_zeroed2; [|lia..|intros; by apply page_m_other|].
  2: { apply page_m_other; apply zero_ne; lia. }
  assert (<[faila := 0]> (cols i) !! failb = Some (byte failb i)) as Hb
    by (rewrite list_lookup_insert_ne by lia; apply cols_lookup; lia).
  assert (cols i !! faila = Some (byte faila i)) as Ha by (apply cols_lookup; lia).
  assert (is_u8 (byte faila i)) by (apply byte_u8; lia).
  assert (Forall is_u8 (<[faila := 0]> (cols i))) by (apply Forall_insert; auto using cols_u8 with md).
  rewrite (p_syn_insert _ _ _ _ Hb), (p_syn_insert _ _ _ _ Ha).
  rewrite (q_syn_insert _ _ _ _ ltac:(done) is_u8_0 Hb), (q_syn_insert _ _ _ _ (cols_u8 i) is_u8_0 Ha).
  destruct (Hcons i Hi) as [HP HQ]. unfold p, q. fold (p_ptr disks ptrs) (q_ptr disks ptrs).
  rewrite HP, HQ. fold cols. rewrite !Z.lxor_0_r. split; lxor_solve.
Qed.

(** Memory after [i] iterations of the byte loop. *)
Let Pf i := pget (page m0 p) i ⊕ (byte faila i ⊕ byte failb i).
Let Qf i := pget (page m0 q) i ⊕ (gfmul (alpha faila) (byte faila i) ⊕ gfmul (alpha failb) (byte failb i)).
Let at_byte (i : nat) : mem :=
  <[da := filled (byte faila) i (filled Pf bytes ga)]>
  (<[db := filled (byte failb) i (filled Qf bytes gb)]> m0).

Lemma gen_2data : gen disks bytes ptrs' m = at_byte 0.
Proof.
  rewrite (gen_syndrome_ok disks bytes ptrs' m Hdom stripe_ok_2data).
  assert (da <> db) by (apply ptrs_ne; lia).
  unfold with_syndromes, at_byte. rewrite ptrs'_p, ptrs'_q, !filled_0.
  rewrite (filled_ext (fun b => p_syn _) Pf), (filled_ext (fun b => q_syn _) Qf)
    by (intros; by apply syndromes_2data).
  unfold m. rewrite page_insert_eq, (page_insert_ne _ da db), page_insert_eq by done.
  rewrite insert_insert_eq, insert_insert_ne, insert_insert_eq by done. done.
Qed.

Lemma recov_2data_step i :
  (i < bytes)%nat ->
  recov_2data_byte p q da db
    (row raid6_gfmul (raid6_gfexi.[Z.of_nat failb - Z.of_nat faila]))
    (row raid6_gfmul (raid6_gfinv.[raid6_gfexp.[Z.of_nat faila] ⊕ raid6_gfexp.[Z.of_nat failb]]))
    (at_byte i) i = at_byte (S i).
Proof.
  intros Hi. assert (da <> db) by (apply ptrs_ne; lia).
  assert (forall x j, x = faila \/ x = failb -> j = disks - 2 \/ j = disks - 1 -> ptr ptrs x <> ptr ptrs j)%nat
    as Hne by (intros; apply ptrs_ne; lia).
  assert (is_u8 (byte faila i)) by (apply byte_u8; lia).
  assert (is_u8 (byte failb i)) by (apply byte_u8; lia).
  destruct Hga, Hgb.
  replace (Z.of_nat failb - Z.of_nat faila) with (Z.of_nat (failb - faila)) by lia.
  rewrite raid6_gfexi_lookup, !raid6_gfexp_alpha, !Nat2Z.id, raid6_gfinv_lookup by (auto with md; lia).
  assert (page (at_byte i) p = page m0 p) as Ep by (unfold at_byte; rewrite !page_insert_ne; unfold da, db, p; auto).
  assert (page (at_byte i) q = page m0 q) as Eq by (unfold at_byte; rewrite !page_insert_ne; unfold da, db, q; auto).
  assert (pget (page (at_byte i) da) i = Pf i) as Ea.
  { unfold at_byte. rewrite page_insert_eq, pget_filled_ge, pget_filled_lt by (rewrite ?length_filled; lia). done. }
  assert (pget (page (at_byte i) db) i = Qf i) as Eb.
  { unfold at_byte. rewrite page_insert_ne, page_insert_eq, pget_filled_ge, pget_filled_lt
      by (rewrite ?length_filled; done || lia). done. }
  unfold recov_2data_byte. rewrite Ep, Eq, Ea, Eb.
  unfold Pf, Qf. rewrite !lxor_cancel_l, !raid6_gfmul_lookup by auto 10 with md.
  rewrite recov_2data_solve by (done || lia).
  replace (byte failb i ⊕ (byte faila i ⊕ byte failb i)) with (byte faila i) by lxor_solve.
  unfold at_byte at 1. rewrite (insert_insert_ne _ da db), (store_filled _ _ _ _ 1) by
    (rewrite ?length_filled by lia; done || lia).
  rewrite (insert_insert_ne _ db da), (store_filled _ _ _ _ 1) by
    (rewrite ?length_filled by lia; done || lia).
  unfold at_byte. by rewrite !Nat.add_1_r.
Qed.

Lemma recov_2data_loop n :
  (n <= bytes)%nat ->
  fold_left (recov_2data_byte p q da db
    (row raid6_gfmul (raid6_gfexi.[Z.of_nat failb - Z.of_nat faila]))
    (row raid6_gfmul (raid6_gfinv.[raid6_gfexp.[Z.of_nat faila] ⊕ raid6_gfexp.[Z.of_nat failb]])))
    (seq 0 n) (at_byte 0) = at_byte n.
Proof.
  induction n as [|n IH]; intros Hn; [done|].
  rewrite seq_S, fold_left_app, IH by lia. apply recov_2data_step. lia.
Qed.

Lemma restore_table_2data :
  <[(disks - 1)%nat := q]> (<[(disks - 2)%nat := p]> (<[failb := db]> (<[faila := da]> ptrs'))) = ptrs.
Proof.
  apply ptrs_eq; unfold ptrs'; rewrite !length_insert; [done|]. intros i Hi.
  repeat match goal with |- ptr (<[?j := _]> _) i = _ =>
    destruct (decide (j = i)) as [<-|];
      [rewrite ptr_insert_eq by (rewrite ?length_insert; lia); done|rewrite ptr_insert_ne by done]
  end. done.
Qed.

Lemma recov_2data_correct :
  raid6_2data_recov_intx1 gen zero disks bytes faila failb ptrs m =
  (ptrs, <[da := restored bytes (page m0 da) ga]> (<[db := restored bytes (page m0 db) gb]> m0)).
Proof.
  unfold raid6_2data_recov_intx1. fold p q da.
  replace (ptr (<[(disks - 2)%nat := da]> (<[faila := zero]> ptrs)) failb) with db
    by (rewrite !ptr_insert_ne by lia; done).
  fold ptrs'. rewrite gen_2data, recov_2data_loop, restore_table_2data by done.
  unfold at_byte, restored. destruct Hga, Hgb. by rewrite !filled_filled.
Qed.
End TwoData.

Section DataP.
Context (faila : nat) (ga gp : list Z).
Context (Ha : (faila < disks - 2)%nat) (Ha255 : (faila < 255)%nat).
Context (Hga : garbage bytes ga) (Hgp : garbage bytes gp).

Let p := ptr ptrs (disks - 2).
Let q := ptr ptrs (disks - 1).
Let da := ptr ptrs faila.
Let m : mem := <[da := ga]> (<[p := gp]> m0).
Let ptrs' : list addr := <[(disks - 1)%nat := da]> (<[faila := zero]> ptrs).

Lemma ptrs'_data_datap : data_ptrs disks ptrs' = <[faila := zero]> (data_ptrs disks ptrs).
Proof. unfold data_ptrs, ptrs'. by rewrite take_insert_ge, take_insert_lt by lia. Qed.

Lemma ptrs'_p_datap : p_ptr disks ptrs' = p.
Proof. unfold p_ptr, ptrs'. by rewrite !ptr_insert_ne by lia. Qed.

Lemma ptrs'_q_datap : q_ptr disks ptrs' = da.
Proof. unfold q_ptr, ptrs'. apply ptr_insert_eq. rewrite !length_insert; lia. Qed.

Lemma da_ne_p : da <> p.
Proof. apply ptrs_ne; lia. Qed.

Lemma lost_notin_datap i :
  i = faila \/ i = (disks - 2)%nat -> ptr ptrs i ∉ data_ptrs disks ptrs'.
Proof.
  intros Hi. rewrite ptrs'_data_datap. intros [j Hj]%list_elem_of_lookup.
  assert (j < disks - 2)%nat.
  { apply lookup_lt_Some in Hj. unfold data_ptrs in Hj. rewrite length_insert, length_take in Hj. lia. }
  assert (zero <> ptr ptrs i) by (apply zero_ne; lia).
  destruct (decide (j = faila)) as [->|].
  - rewrite list_lookup_insert_eq in Hj by (unfold data_ptrs; rewrite length_take; lia). congruence.
  - rewrite list_lookup_insert_ne in Hj by done. unfold data_ptrs in Hj.
    rewrite lookup_take_lt, ptr_lookup in Hj by lia. apply (inj Some) in Hj.
    apply (ptrs_ne j i) in Hj; [done|lia..].
Qed.

Lemma stripe_ok_datap : stripe_ok disks bytes ptrs' m.
Proof.
  pose proof da_ne_p as Hne. split.
  - unfold ptrs'. by rewrite !length_insert.
  - done.
  - rewrite ptrs'_p_datap. apply lost_notin_datap. auto.
  - rewrite ptrs'_q_datap. apply lost_notin_datap. auto.
  - rewrite ptrs'_p_datap, ptrs'_q_datap. auto.
  - intros x Hx. unfold m.
    destruct (decide (x = da)) as [->|Hxa]; [exists ga; by rewrite lookup_insert_eq|].
    destruct (decide (x = p)) as [->|Hxp];
      [exists gp; by rewrite lookup_insert_ne, lookup_insert_eq|].
    rewrite !lookup_insert_ne by done.
    assert (x = zero \/ x ∈ ptrs) as [->|Hin].
    { unfold ptrs' in Hx. repeat (apply list_elem_of_insert_inv in Hx as [?|Hx]; [tauto|]). tauto. }
    + destruct (ro_zero_page _ _ _ _ _ Hok) as (l & ? & ? & ? & _). eauto.
    + by apply (so_bytes _ _ _ _ Hstripe).
Qed.

Let Pf i := pget (page m0 p) i ⊕ byte faila i.
Let Qf i := pget (page m0 q) i ⊕ gfmul (alpha faila) (byte faila i).

Lemma syndromes_datap i :
  (i < bytes)%nat ->
  p_syn (column m (data_ptrs disks ptrs') i) = Pf i /\
  q_syn (column m (data_ptrs disks ptrs') i) = Qf i.
Proof.
  intros Hi. rewrite ptrs'_data_datap.
  assert (forall x : addr, <[faila := x]> (data_ptrs disks ptrs) =
    <[faila := x]> (<[faila := x]> (data_ptrs disks ptrs))) as ->
    by (intros; by rewrite list_insert_insert_eq).
  rewrite column_zeroed2, list_insert_insert_eq; [|lia..| |].
  - assert (cols i !! faila = Some (byte faila i)) as Hc by (apply cols_lookup; lia).
    rewrite (p_syn_insert _ _ _ _ Hc), (q_syn_insert _ _ _ _ (cols_u8 i) is_u8_0 Hc).
    destruct (Hcons i Hi) as [HP HQ]. unfold Pf, Qf, p, q. fold (p_ptr disks ptrs) (q_ptr disks ptrs).
    rewrite HP, HQ. fold cols. by rewrite !Z.lxor_0_r.
  - intros x Hx Hxa _. unfold m. rewrite !page_insert_ne; [done|intros <-|done].
    by apply (so_p _ _ _ _ Hstripe).
  - unfold m. rewrite !page_insert_ne; [done|..]; apply not_eq_sym, zero_ne; lia.
Qed.

Let at_byte (i : nat) : mem :=
  <[da := filled (byte faila) i (filled Qf bytes ga)]>
  (<[p := filled (pget (page m0 p)) i (filled Pf bytes gp)]> m0).

Lemma gen_datap : gen disks bytes ptrs' m = at_byte 0.
Proof.
  rewrite (gen_syndrome_ok disks bytes ptrs' m Hdom stripe_ok_datap). pose proof da_ne_p.
  unfold with_syndromes, at_byte. rewrite ptrs'_p_datap, ptrs'_q_datap, !filled_0.
  rewrite (filled_ext (fun b => p_syn _) Pf), (filled_ext (fun b => q_syn _) Qf)
    by (intros; by apply syndromes_datap).
  unfold m. rewrite page_insert_eq, (page_insert_ne _ da p), page_insert_eq by done.
  rewrite (insert_insert_ne _ p da), insert_insert_eq by done. by rewrite insert_insert_eq.
Qed.

Lemma recov_datap_step i :
  (i < bytes)%nat ->
  recov_datap_byte p q da (row raid6_gfmul (raid6_gfinv.[raid6_gfexp.[Z.of_nat faila]])) (at_byte i) i =
  at_byte (S i).
Proof.
  intros Hi. pose proof da_ne_p. destruct Hga, Hgp.
  assert (da <> q) by (apply ptrs_ne; lia). assert (p <> q) by (apply ptrs_ne; lia).
  assert (is_u8 (byte faila i)) by (apply byte_u8; lia).
  rewrite raid6_gfexp_alpha, Nat2Z.id, raid6_gfinv_lookup by (auto with md; lia).
  assert (page (at_byte i) q = page m0 q) as Eq by (unfold at_byte; by rewrite !page_insert_ne).
  assert (pget (page (at_byte i) da) i = Qf i) as Ea.
  { unfold at_byte. rewrite page_insert_eq, pget_filled_ge, pget_filled_lt by (rewrite ?length_filled; lia). done. }
  unfold recov_datap_byte. rewrite Eq, Ea. unfold Qf. rewrite lxor_cancel_l, raid6_gfmul_lookup by auto with md.
  rewrite gfmul_assoc, (gfmul_comm _ (alpha faila)), gfpow_254_inv, gfmul_1_l
    by (auto using alpha_ne_0 with md).
  unfold at_byte. rewrite !(store_filled _ da _ _ 1) by (rewrite ?length_filled by lia; done || lia).
  rewrite page_insert_ne, page_insert_eq, pget_filled_ge, pget_filled_lt by (rewrite ?length_filled; done || lia).
  replace (Pf i ⊕ byte faila i) with (pget (page m0 p) i) by (unfold Pf; lxor_solve).
  rewrite insert_insert_ne, (store_filled _ _ _ _ 1)
    by (rewrite ?length_filled by lia; done || lia).
  rewrite insert_insert_ne by done. by rewrite !Nat.add_1_r.
Qed.

Lemma recov_datap_loop n :
  (n <= bytes)%nat ->
  fold_left (recov_datap_byte p q da (row raid6_gfmul (raid6_gfinv.[raid6_gfexp.[Z.of_nat faila]])))
    (seq 0 n) (at_byte 0) = at_byte n.
Proof.
  induction n as [|n IH]; intros Hn; [done|].
  rewrite seq_S, fold_left_app, IH by lia. apply recov_datap_step. lia.
Qed.

Lemma recov_datap_correct :
  raid6_datap_recov_intx1 gen zero disks bytes faila ptrs m =
  (ptrs, <[da := restored bytes (page m0 da) ga]> (<[p := restored bytes (page m0 p) gp]> m0)).
Proof.
  unfold raid6_datap_recov_intx1. fold p q da ptrs'. rewrite gen_datap, recov_datap_loop by done.
  f_equal; [|unfold at_byte, restored; destruct Hga, Hgp; by rewrite !filled_filled].
  apply ptrs_eq; unfold ptrs'; rewrite !length_insert; [done|]. intros i Hi.
  repeat match goal with |- ptr (<[?j := _]> _) i = _ =>
    destruct (decide (j = i)) as [<-|];
      [rewrite ptr_insert_eq by (rewrite ?length_insert; lia); done|rewrite ptr_insert_ne by done]
  end. done.
Qed.
End DataP.
End Correct.

(** * The interface of recovery *)

(** Two data pages with lost contents are restored. *)
Class Recov2Data (zero : addr) (dom : nat -> nat -> Prop)
    (recov : nat -> nat -> nat -> nat -> list addr -> mem -> mem) : Prop :=
  recov_2data_ok disks bytes faila failb ptrs m0 ga gb :
    dom disks bytes -> recov_ok zero disks bytes ptrs m0 -> consistent disks bytes ptrs m0 ->
    (faila < failb < disks - 2)%nat -> (failb < 255)%nat -> garbage bytes ga -> garbage bytes gb ->
    recov disks bytes faila failb ptrs (<[ptr ptrs faila := ga]> (<[ptr ptrs failb := gb]> m0)) =
    <[ptr ptrs faila := restored bytes (page m0 (ptr ptrs faila)) ga]>
      (<[ptr ptrs failb := restored bytes (page m0 (ptr ptrs failb)) gb]> m0).

(** One data page and P. *)
Class RecovDataP (zero : addr) (dom : nat -> nat -> Prop)
    (recov : nat -> nat -> nat -> list addr -> mem -> mem) : Prop :=
  recov_datap_ok disks bytes faila ptrs m0 ga gp :
    dom disks bytes -> recov_ok zero disks bytes ptrs m0 -> consistent disks bytes ptrs m0 ->
    (faila < disks - 2)%nat -> (faila < 255)%nat -> garbage bytes ga -> garbage bytes gp ->
    recov disks bytes faila ptrs (<[ptr ptrs faila := ga]> (<[p_ptr disks ptrs := gp]> m0)) =
    <[ptr ptrs faila := restored bytes (page m0 (ptr ptrs faila)) ga]>
      (<[p_ptr disks ptrs := restored bytes (page m0 (p_ptr disks ptrs)) gp]> m0).

(** The in-tree implementation, over any [gen_syndrome]. *)
#[export] Instance intx1_2data zero dom gen `{!SyndromeGen dom gen} :
  Recov2Data zero dom (fun disks bytes faila failb ptrs m =>
    (raid6_2data_recov_intx1 gen zero disks bytes faila failb ptrs m).2).
Proof.
  intros disks bytes faila failb ptrs m0 ga gb Hdom Hok Hcons Hab H255 Hga Hgb.
  by rewrite (recov_2data_correct zero disks bytes ptrs m0 Hdom Hok Hcons).
Qed.

#[export] Instance intx1_datap zero dom gen `{!SyndromeGen dom gen} :
  RecovDataP zero dom (fun disks bytes faila ptrs m => (raid6_datap_recov_intx1 gen zero disks bytes faila ptrs m).2).
Proof.
  intros disks bytes faila ptrs m0 ga gp Hdom Hok Hcons Ha H255 Hga Hgp.
  by rewrite (recov_datap_correct zero disks bytes ptrs m0 Hdom Hok Hcons).
Qed.
