(* ===== verification/EcTables.v ===== *)
(** The constant tables of isa-l/ec_base.h, entry by entry, and the proof that they
    tabulate the field GF(2^8) of [GF256]. *)

From S2P Require Import Prelude GF256.

(** * isa-l/ec_base.h *)

(** [gf_table_gfni]: for every coefficient the 8x8 bit matrix of its multiplication. *)
Definition gf_table_gfni : list Z :=
  [0x0000000000000000; 0x102040810204080; 0x8001828488102040; 0x8103868c983060c0;
   0x408041c2c4881020; 0x418245cad4a850a0; 0xc081c3464c983060; 0xc183c74e5cb870e0;
   0x2040a061e2c48810; 0x2142a469f2e4c890; 0xa04122e56ad4a850; 0xa14326ed7af4e8d0;
   0x60c0e1a3264c9830; 0x61c2e5ab366cd8b0; 0xe0c16327ae5cb870; 0xe1c3672fbe7cf8f0;
   0x102050b071e2c488; 0x112254b861c28408; 0x9021d234f9f2e4c8; 0x9123d63ce9d2a448;
   0x50a01172b56ad4a8; 0x51a2157aa54a9428; 0xd0a193f63d7af4e8; 0xd1a397fe2d5ab468;
   0x3060f0d193264c98; 0x3162f4d983060c18; 0xb06172551b366cd8; 0xb163765d0b162c58;
   0x70e0b11357ae5cb8; 0x71e2b51b478e1c38; 0xf0e13397dfbe7cf8; 0xf1e3379fcf9e3c78;
   0x8810a8d83871e2c4; 0x8912acd02851a244; 0x08112a5cb061c284; 0x09132e54a0418204;
   0xc890e91afcf9f2e4; 0xc992ed12ecd9b264; 0x48916b9e74e9d2a4; 0x49936f9664c99224;
   0xa85008b9dab56ad4; 0xa9520cb1ca952a54; 0x28518a3d52a54a94; 0x29538e3542850a14;
   0xe8d0497b1e3d7af4; 0xe9d24d730e1d3a74; 0x68d1cbff962d5ab4; 0x69d3cff7860d1a34;
   0x9830f8684993264c; 0x9932fc6059b366cc; 0x18317aecc183060c; 0x19337ee4d1a3468c;
   0xd8b0b9aa8d1b366c; 0xd9b2bda29d3b76ec; 0x58b13b2e050b162c; 0x59b33f26152b56ac;
   0xb8705809ab57ae5c; 0xb9725c01bb77eedc; 0x3871da8d23478e1c; 0x3973de853367ce9c;
   0xf8f019cb6fdfbe7c; 0xf9f21dc37ffffefc; 0x78f19b4fe7cf9e3c; 0x79f39f47f7efdebc;
   0xc488d46c1c3871e2; 0xc58ad0640c183162; 0x448956e8942851a2; 0x458b52e084081122;
   0x840895aed8b061c2; 0x850a91a6c8902142; 0x0409172a50a04182; 0x050b132240800102;
   0xe4c8740dfefcf9f2; 0xe5ca7005eedcb972; 0x64c9f68976ecd9b2; 0x65cbf28166cc9932;
   0xa44835cf3a74e9d2; 0xa54a31c72a54a952; 0x2449b74bb264c992; 0x254bb343a2448912;
   0xd4a884dc6ddab56a; 0xd5aa80d47dfaf5ea; 0x54a90658e5ca952a; 0x55ab0250f5ead5aa;
   0x9428c51ea952a54a; 0x952ac116b972e5ca; 0x1429479a2142850a; 0x152b43923162c58a;
   0xf4e824bd8f1e3d7a; 0xf5ea20b59f3e7dfa; 0x74e9a639070e1d3a; 0x75eba231172e5dba;
   0xb468657f4b962d5a; 0xb56a61775bb66dda; 0x3469e7fbc3860d1a; 0x356be3f3d3a64d9a;
   0x4c987cb424499326; 0x4d9a78bc3469d3a6; 0xcc99fe30ac59b366; 0xcd9bfa38bc79f3e6;
   0x0c183d76e0c18306; 0x0d1a397ef0e1c386; 0x8c19bff268d1a346; 0x8d1bbbfa78f1e3c6;
   0x6cd8dcd5c68d1b36; 0x6ddad8ddd6ad5bb6; 0xecd95e514e9d3b76; 0xeddb5a595ebd7bf6;
   0x2c589d1702050b16; 0x2d5a991f12254b96; 0xac591f938a152b56; 0xad5b1b9b9a356bd6;
   0x5cb82c0455ab57ae; 0x5dba280c458b172e; 0xdcb9ae80ddbb77ee; 0xddbbaa88cd9b376e;
   0x1c386dc69123478e; 0x1d3a69ce8103070e; 0x9c39ef42193367ce; 0x9d3beb4a0913274e;
   0x7cf88c65b76fdfbe; 0x7dfa886da74f9f3e; 0xfcf90ee13f7ffffe; 0xfdfb0ae92f5fbf7e;
   0x3c78cda773e7cf9e; 0x3d7ac9af63c78f1e; 0xbc794f23fbf7efde; 0xbd7b4b2bebd7af5e;
   0xe2c46a368e1c3871; 0xe3c66e3e9e3c78f1; 0x62c5e8b2060c1831; 0x63c7ecba162c58b1;
   0xa2442bf44a942851; 0xa3462ffc5ab468d1; 0x2245a970c2840811; 0x2347ad78d2a44891;
   0xc284ca576cd8b061; 0xc386ce5f7cf8f0e1; 0x428548d3e4c89021; 0x43874cdbf4e8d0a1;
   0x82048b95a850a041; 0x83068f9db870e0c1; 0x0205091120408001; 0x03070d193060c081;
   0xf2e43a86fffefcf9; 0xf3e63e8eefdebc79; 0x72e5b80277eedcb9; 0x73e7bc0a67ce9c39;
   0xb2647b443b76ecd9; 0xb3667f4c2b56ac59; 0x3265f9c0b366cc99; 0x3367fdc8a3468c19;
   0xd2a49ae71d3a74e9; 0xd3a69eef0d1a3469; 0x52a51863952a54a9; 0x53a71c6b850a1429;
   0x9224db25d9b264c9; 0x9326df2dc9922449; 0x122559a151a24489; 0x13275da941820409;
   0x6ad4c2eeb66ddab5; 0x6bd6c6e6a64d9a35; 0xead5406a3e7dfaf5; 0xebd744622e5dba75;
   0x2a54832c72e5ca95; 0x2b56872462c58a15; 0xaa5501a8faf5ead5; 0xab5705a0ead5aa55;
   0x4a94628f54a952a5; 0x4b96668744891225; 0xca95e00bdcb972e5; 0xcb97e403cc993265;
   0x0a14234d90214285; 0x0b16274580010205; 0x8a15a1c9183162c5; 0x8b17a5c108112245;
   0x7af4925ec78f1e3d; 0x7bf69656d7af5ebd; 0xfaf510da4f9f3e7d; 0xfbf714d25fbf7efd;
   0x3a74d39c03070e1d; 0x3b76d79413274e9d; 0xba7551188b172e5d; 0xbb7755109b376edd;
   0x5ab4323f254b962d; 0x5bb63637356bd6ad; 0xdab5b0bbad5bb66d; 0xdbb7b4b3bd7bf6ed;
   0x1a3473fde1c3860d; 0x1b3677f5f1e3c68d; 0x9a35f17969d3a64d; 0x9b37f57179f3e6cd;
   0x264cbe5a92244993; 0x274eba5282040913; 0xa64d3cde1a3469d3; 0xa74f38d60a142953;
   0x66ccff9856ac59b3; 0x67cefb90468c1933; 0xe6cd7d1cdebc79f3; 0xe7cf7914ce9c3973;
   0x060c1e3b70e0c183; 0x070e1a3360c08103; 0x860d9cbff8f0e1c3; 0x870f98b7e8d0a143;
   0x468c5ff9b468d1a3; 0x478e5bf1a4489123; 0xc68ddd7d3c78f1e3; 0xc78fd9752c58b163;
   0x366ceeeae3c68d1b; 0x376eeae2f3e6cd9b; 0xb66d6c6e6bd6ad5b; 0xb76f68667bf6eddb;
   0x76ecaf28274e9d3b; 0x77eeab20376eddbb; 0xf6ed2dacaf5ebd7b; 0xf7ef29a4bf7efdfb;
   0x162c4e8b0102050b; 0x172e4a831122458b; 0x962dcc0f8912254b; 0x972fc807993265cb;
   0x56ac0f49c58a152b; 0x57ae0b41d5aa55ab; 0xd6ad8dcd4d9a356b; 0xd7af89c55dba75eb;
   0xae5c1682aa55ab57; 0xaf5e128aba75ebd7; 0x2e5d940622458b17; 0x2f5f900e3265cb97;
   0xeedc57406eddbb77; 0xefde53487efdfbf7; 0x6eddd5c4e6cd9b37; 0x6fdfd1ccf6eddbb7;
   0x8e1cb6e348912347; 0x8f1eb2eb58b163c7; 0x0e1d3467c0810307; 0x0f1f306fd0a14387;
   0xce9cf7218c193367; 0xcf9ef3299c3973e7; 0x4e9d75a504091327; 0x4f9f71ad142953a7;
   0xbe7c4632dbb76fdf; 0xbf7e423acb972f5f; 0x3e7dc4b653a74f9f; 0x3f7fc0be43870f1f;
   0xfefc07f01f3f7fff; 0xfffe03f80f1f3f7f; 0x7efd8574972f5fbf; 0x7fff817c870f1f3f;
   0x9e3ce6533973e7cf; 0x9f3ee25b2953a74f; 0x1e3d64d7b163c78f; 0x1f3f60dfa143870f;
   0xdebca791fdfbf7ef; 0xdfbea399eddbb76f; 0x5ebd251575ebd7af; 0x5fbf211d65cb972f].

(** [gflog_base]: discrete logarithms, with the sentinel 511 at 0. *)
Definition gflog_base : list Z :=
  [0x01ff; 0x0000; 0x0001; 0x0019; 0x0002; 0x0032; 0x001a; 0x00c6; 0x0003; 0x00df; 0x0033;
   0x00ee; 0x001b; 0x0068; 0x00c7; 0x004b; 0x0004; 0x0064; 0x00e0; 0x000e; 0x0034; 0x008d;
   0x00ef; 0x0081; 0x001c; 0x00c1; 0x0069; 0x00f8; 0x00c8; 0x0008; 0x004c; 0x0071; 0x0005;
   0x008a; 0x0065; 0x002f; 0x00e1; 0x0024; 0x000f; 0x0021; 0x0035; 0x0093; 0x008e; 0x00da;
   0x00f0; 0x0012; 0x0082; 0x0045; 0x001d; 0x00b5; 0x00c2; 0x007d; 0x006a; 0x0027; 0x00f9;
   0x00b9; 0x00c9; 0x009a; 0x0009; 0x0078; 0x004d; 0x00e4; 0x0072; 0x00a6; 0x0006; 0x00bf;
   0x008b; 0x0062; 0x0066; 0x00dd; 0x0030; 0x00fd; 0x00e2; 0x0098; 0x0025; 0x00b3; 0x0010;
   0x0091; 0x0022; 0x0088; 0x0036; 0x00d0; 0x0094; 0x00ce; 0x008f; 0x0096; 0x00db; 0x00bd;
   0x00f1; 0x00d2; 0x0013; 0x005c; 0x0083; 0x0038; 0x0046; 0x0040; 0x001e; 0x0042; 0x00b6;
   0x00a3; 0x00c3; 0x0048; 0x007e; 0x006e; 0x006b; 0x003a; 0x0028; 0x0054; 0x00fa; 0x0085;
   0x00ba; 0x003d; 0x00ca; 0x005e; 0x009b; 0x009f; 0x000a; 0x0015; 0x0079; 0x002b; 0x004e;
   0x00d4; 0x00e5; 0x00ac; 0x0073; 0x00f3; 0x00a7; 0x0057; 0x0007; 0x0070; 0x00c0; 0x00f7;
   0x008c; 0x0080; 0x0063; 0x000d; 0x0067; 0x004a; 0x00de; 0x00ed; 0x0031; 0x00c5; 0x00fe;
   0x0018; 0x00e3; 0x00a5; 0x0099; 0x0077; 0x0026; 0x00b8; 0x00b4; 0x007c; 0x0011; 0x0044;
   0x0092; 0x00d9; 0x0023; 0x0020; 0x0089; 0x002e; 0x0037; 0x003f; 0x00d1; 0x005b; 0x0095;
   0x00bc; 0x00cf; 0x00cd; 0x0090; 0x0087; 0x0097; 0x00b2; 0x00dc; 0x00fc; 0x00be; 0x0061;
   0x00f2; 0x0056; 0x00d3; 0x00ab; 0x0014; 0x002a; 0x005d; 0x009e; 0x0084; 0x003c; 0x0039;
   0x0053; 0x0047; 0x006d; 0x0041; 0x00a2; 0x001f; 0x002d; 0x0043; 0x00d8; 0x00b7; 0x007b;
   0x00a4; 0x0076; 0x00c4; 0x0017; 0x0049; 0x00ec; 0x007f; 0x000c; 0x006f; 0x00f6; 0x006c;
   0x00a1; 0x003b; 0x0052; 0x0029; 0x009d; 0x0055; 0x00aa; 0x00fb; 0x0060; 0x0086; 0x00b1;
   0x00bb; 0x00cc; 0x003e; 0x005a; 0x00cb; 0x0059; 0x005f; 0x00b0; 0x009c; 0x00a9; 0x00a0;
   0x0051; 0x000b; 0x00f5; 0x0016; 0x00eb; 0x007a; 0x0075; 0x002c; 0x00d7; 0x004f; 0x00ae;
   0x00d5; 0x00e9; 0x00e6; 0x00e7; 0x00ad; 0x00e8; 0x0074; 0x00d6; 0x00f4; 0x00ea; 0x00a8;
   0x0050; 0x0058; 0x00af].

(** [gff_base]: two periods of the powers of 2, then zeros. *)
Definition gff_base : list Z :=
  [0x01; 0x02; 0x04; 0x08; 0x10; 0x20; 0x40; 0x80; 0x1d; 0x3a; 0x74; 0xe8; 0xcd; 0x87; 0x13;
   0x26; 0x4c; 0x98; 0x2d; 0x5a; 0xb4; 0x75; 0xea; 0xc9; 0x8f; 0x03; 0x06; 0x0c; 0x18; 0x30;
   0x60; 0xc0; 0x9d; 0x27; 0x4e; 0x9c; 0x25; 0x4a; 0x94; 0x35; 0x6a; 0xd4; 0xb5; 0x77; 0xee;
   0xc1; 0x9f; 0x23; 0x46; 0x8c; 0x05; 0x0a; 0x14; 0x28; 0x50; 0xa0; 0x5d; 0xba; 0x69; 0xd2;
   0xb9; 0x6f; 0xde; 0xa1; 0x5f; 0xbe; 0x61; 0xc2; 0x99; 0x2f; 0x5e; 0xbc; 0x65; 0xca; 0x89;
   0x0f; 0x1e; 0x3c; 0x78; 0xf0; 0xfd; 0xe7; 0xd3; 0xbb; 0x6b; 0xd6; 0xb1; 0x7f; 0xfe; 0xe1;
   0xdf; 0xa3; 0x5b; 0xb6; 0x71; 0xe2; 0xd9; 0xaf; 0x43; 0x86; 0x11; 0x22; 0x44; 0x88; 0x0d;
   0x1a; 0x34; 0x68; 0xd0; 0xbd; 0x67; 0xce; 0x81; 0x1f; 0x3e; 0x7c; 0xf8; 0xed; 0xc7; 0x93;
   0x3b; 0x76; 0xec; 0xc5; 0x97; 0x33; 0x66; 0xcc; 0x85; 0x17; 0x2e; 0x5c; 0xb8; 0x6d; 0xda;
   0xa9; 0x4f; 0x9e; 0x21; 0x42; 0x84; 0x15; 0x2a; 0x54; 0xa8; 0x4d; 0x9a; 0x29; 0x52; 0xa4;
   0x55; 0xaa; 0x49; 0x92; 0x39; 0x72; 0xe4; 0xd5; 0xb7; 0x73; 0xe6; 0xd1; 0xbf; 0x63; 0xc6;
   0x91; 0x3f; 0x7e; 0xfc; 0xe5; 0xd7; 0xb3; 0x7b; 0xf6; 0xf1; 0xff; 0xe3; 0xdb; 0xab; 0x4b;
   0x96; 0x31; 0x62; 0xc4; 0x95; 0x37; 0x6e; 0xdc; 0xa5; 0x57; 0xae; 0x41; 0x82; 0x19; 0x32;
   0x64; 0xc8; 0x8d; 0x07; 0x0e; 0x1c; 0x38; 0x70; 0xe0; 0xdd; 0xa7; 0x53; 0xa6; 0x51; 0xa2;
   0x59; 0xb2; 0x79; 0xf2; 0xf9; 0xef; 0xc3; 0x9b; 0x2b; 0x56; 0xac; 0x45; 0x8a; 0x09; 0x12;
   0x24; 0x48; 0x90; 0x3d; 0x7a; 0xf4; 0xf5; 0xf7; 0xf3; 0xfb; 0xeb; 0xcb; 0x8b; 0x0b; 0x16;
   0x2c; 0x58; 0xb0; 0x7d; 0xfa; 0xe9; 0xcf; 0x83; 0x1b; 0x36; 0x6c; 0xd8; 0xad; 0x47; 0x8e;
   0x01; 0x02; 0x04; 0x08; 0x10; 0x20; 0x40; 0x80; 0x1d; 0x3a; 0x74; 0xe8; 0xcd; 0x87; 0x13;
   0x26; 0x4c; 0x98; 0x2d; 0x5a; 0xb4; 0x75; 0xea; 0xc9; 0x8f; 0x03; 0x06; 0x0c; 0x18; 0x30;
   0x60; 0xc0; 0x9d; 0x27; 0x4e; 0x9c; 0x25; 0x4a; 0x94; 0x35; 0x6a; 0xd4; 0xb5; 0x77; 0xee;
   0xc1; 0x9f; 0x23; 0x46; 0x8c; 0x05; 0x0a; 0x14; 0x28; 0x50; 0xa0; 0x5d; 0xba; 0x69; 0xd2;
   0xb9; 0x6f; 0xde; 0xa1; 0x5f; 0xbe; 0x61; 0xc2; 0x99; 0x2f; 0x5e; 0xbc; 0x65; 0xca; 0x89;
   0x0f; 0x1e; 0x3c; 0x78; 0xf0; 0xfd; 0xe7; 0xd3; 0xbb; 0x6b; 0xd6; 0xb1; 0x7f; 0xfe; 0xe1;
   0xdf; 0xa3; 0x5b; 0xb6; 0x71; 0xe2; 0xd9; 0xaf; 0x43; 0x86; 0x11; 0x22; 0x44; 0x88; 0x0d;
   0x1a; 0x34; 0x68; 0xd0; 0xbd; 0x67; 0xce; 0x81; 0x1f; 0x3e; 0x7c; 0xf8; 0xed; 0xc7; 0x93;
   0x3b; 0x76; 0xec; 0xc5; 0x97; 0x33; 0x66; 0xcc; 0x85; 0x17; 0x2e; 0x5c; 0xb8; 0x6d; 0xda;
   0xa9; 0x4f; 0x9e; 0x21; 0x42; 0x84; 0x15; 0x2a; 0x54; 0xa8; 0x4d; 0x9a; 0x29; 0x52; 0xa4;
   0x55; 0xaa; 0x49; 0x92; 0x39; 0x72; 0xe4; 0xd5; 0xb7; 0x73; 0xe6; 0xd1; 0xbf; 0x63; 0xc6;
   0x91; 0x3f; 0x7e; 0xfc; 0xe5; 0xd7; 0xb3; 0x7b; 0xf6; 0xf1; 0xff; 0xe3; 0xdb; 0xab; 0x4b;
   0x96; 0x31; 0x62; 0xc4; 0x95; 0x37; 0x6e; 0xdc; 0xa5; 0x57; 0xae; 0x41; 0x82; 0x19; 0x32;
   0x64; 0xc8; 0x8d; 0x07; 0x0e; 0x1c; 0x38; 0x70; 0xe0; 0xdd; 0xa7; 0x53; 0xa6; 0x51; 0xa2;
   0x59; 0xb2; 0x79; 0xf2; 0xf9; 0xef; 0xc3; 0x9b; 0x2b; 0x56; 0xac; 0x45; 0x8a; 0x09; 0x12;
   0x24; 0x48; 0x90; 0x3d; 0x7a; 0xf4; 0xf5; 0xf7; 0xf3; 0xfb; 0xeb; 0xcb; 0x8b; 0x0b; 0x16;
   0x2c; 0x58; 0xb0; 0x7d; 0xfa; 0xe9; 0xcf; 0x83; 0x1b; 0x36; 0x6c; 0xd8; 0xad; 0x47; 0x8e] ++
  replicate 514 0x00.

(** [gf_inv_table_base]: the inverses, for the build with GF_LARGE_TABLES. *)
Definition gf_inv_table_base : list Z :=
  [0x00; 0x01; 0x8e; 0xf4; 0x47; 0xa7; 0x7a; 0xba; 0xad; 0x9d; 0xdd; 0x98; 0x3d; 0xaa; 0x5d;
   0x96; 0xd8; 0x72; 0xc0; 0x58; 0xe0; 0x3e; 0x4c; 0x66; 0x90; 0xde; 0x55; 0x80; 0xa0; 0x83;
   0x4b; 0x2a; 0x6c; 0xed; 0x39; 0x51; 0x60; 0x56; 0x2c; 0x8a; 0x70; 0xd0; 0x1f; 0x4a; 0x26;
   0x8b; 0x33; 0x6e; 0x48; 0x89; 0x6f; 0x2e; 0xa4; 0xc3; 0x40; 0x5e; 0x50; 0x22; 0xcf; 0xa9;
   0xab; 0x0c; 0x15; 0xe1; 0x36; 0x5f; 0xf8; 0xd5; 0x92; 0x4e; 0xa6; 0x04; 0x30; 0x88; 0x2b;
   0x1e; 0x16; 0x67; 0x45; 0x93; 0x38; 0x23; 0x68; 0x8c; 0x81; 0x1a; 0x25; 0x61; 0x13; 0xc1;
   0xcb; 0x63; 0x97; 0x0e; 0x37; 0x41; 0x24; 0x57; 0xca; 0x5b; 0xb9; 0xc4; 0x17; 0x4d; 0x52;
   0x8d; 0xef; 0xb3; 0x20; 0xec; 0x2f; 0x32; 0x28; 0xd1; 0x11; 0xd9; 0xe9; 0xfb; 0xda; 0x79;
   0xdb; 0x77; 0x06; 0xbb; 0x84; 0xcd; 0xfe; 0xfc; 0x1b; 0x54; 0xa1; 0x1d; 0x7c; 0xcc; 0xe4;
   0xb0; 0x49; 0x31; 0x27; 0x2d; 0x53; 0x69; 0x02; 0xf5; 0x18; 0xdf; 0x44; 0x4f; 0x9b; 0xbc;
   0x0f; 0x5c; 0x0b; 0xdc; 0xbd; 0x94; 0xac; 0x09; 0xc7; 0xa2; 0x1c; 0x82; 0x9f; 0xc6; 0x34;
   0xc2; 0x46; 0x05; 0xce; 0x3b; 0x0d; 0x3c; 0x9c; 0x08; 0xbe; 0xb7; 0x87; 0xe5; 0xee; 0x6b;
   0xeb; 0xf2; 0xbf; 0xaf; 0xc5; 0x64; 0x07; 0x7b; 0x95; 0x9a; 0xae; 0xb6; 0x12; 0x59; 0xa5;
   0x35; 0x65; 0xb8; 0xa3; 0x9e; 0xd2; 0xf7; 0x62; 0x5a; 0x85; 0x7d; 0xa8; 0x3a; 0x29; 0x71;
   0xc8; 0xf6; 0xf9; 0x43; 0xd7; 0xd6; 0x10; 0x73; 0x76; 0x78; 0x99; 0x0a; 0x19; 0x91; 0x14;
   0x3f; 0xe6; 0xf0; 0x86; 0xb1; 0xe2; 0xf1; 0xfa; 0x74; 0xf3; 0xb4; 0x6d; 0x21; 0xb2; 0x6a;
   0xe3; 0xe7; 0xb5; 0xea; 0x03; 0x8f; 0xd3; 0xc9; 0x42; 0xd4; 0xe8; 0x75; 0x7f; 0xff; 0x7e;
   0xfd].

(** * isa-l/ec_base.c: [gf_mul] and [gf_inv] *)

Definition gf_mul (a b : Z) : Z := gff_base.[gflog_base.[a] + gflog_base.[b]].

Definition gf_inv (a : Z) : Z :=
  if a =? 0 then 0 else gff_base.[255 - gflog_base.[a]].

(** * The tables are right *)

Lemma gff_base_exp i : 0 <= i < 510 -> gff_base.[i] = alpha (Z.to_nat i).
Proof.
  intros Hi. apply Z.eqb_eq.
  apply (forallb_seqZ (fun i => gff_base.[i] =? alpha (Z.to_nat i)) 0 510); [by vm_compute|done].
Qed.

Lemma gff_base_tail i : 511 <= i < 1024 -> gff_base.[i] = 0.
Proof.
  intros Hi. apply Z.eqb_eq.
  apply (forallb_seqZ (fun i => gff_base.[i] =? 0) 511 513); [by vm_compute|done].
Qed.

Lemma gflog_base_0 : gflog_base.[0] = 511.
Proof. done. Qed.

Lemma gflog_base_log a :
  is_u8 a -> a <> 0 -> 0 <= gflog_base.[a] < 255 /\ alpha (Z.to_nat (gflog_base.[a])) = a.
Proof.
  unfold is_u8. intros Ha Hne.
  pose proof (forallb_seqZ (fun a => (0 <=? gflog_base.[a]) && (gflog_base.[a] <? 255) &&
    (alpha (Z.to_nat (gflog_base.[a])) =? a)) 1 255) as H.
  specialize (H ltac:(by vm_compute) a ltac:(lia)).
  rewrite !andb_true_iff, Z.leb_le, Z.ltb_lt, Z.eqb_eq in H. tauto.
Qed.

(** The branch-free table multiplication is multiplication in the field, zero included. *)
Lemma gf_mul_gfmul a b : is_u8 a -> is_u8 b -> gf_mul a b = gfmul a b.
Proof.
  intros Ha Hb. unfold gf_mul.
  assert (forall c, is_u8 c -> 0 <= gflog_base.[c] <= 511) as Hlog.
  { intros c Hc. destruct (decide (c = 0)) as [->|]; [rewrite gflog_base_0; lia|].
    destruct (gflog_base_log c); [done..|lia]. }
  destruct (decide (a = 0)) as [->|Ha0].
  { rewrite gfmul_0_l, gflog_base_0. apply gff_base_tail. specialize (Hlog b Hb). lia. }
  destruct (decide (b = 0)) as [->|Hb0].
  { rewrite gfmul_0_r, gflog_base_0. apply gff_base_tail. specialize (Hlog a Ha). lia. }
  destruct (gflog_base_log a) as [? Ea]; [done..|]. destruct (gflog_base_log b) as [? Eb]; [done..|].
  rewrite gff_base_exp by lia. rewrite Z2Nat.inj_add, alpha_add by lia. by rewrite Ea, Eb.
Qed.

Lemma alpha_255 : alpha 255 = 1.
Proof. by vm_compute. Qed.

Lemma gfmul_inv_unique a b : is_u8 a -> is_u8 b -> gfmul a b = 1 -> b = gfpow a 254.
Proof.
  intros Ha Hb H. rewrite <- (gfmul_1_l b), <- (gfmul_1_r (gfpow a 254)), <- H by auto with md.
  assert (a <> 0) by (intros ->; by rewrite gfmul_0_l in H).
  rewrite gfmul_assoc, (gfmul_comm (gfpow a 254)), gfpow_254_inv by auto with md.
  by rewrite H.
Qed.

Lemma gf_inv_gfinv a : is_u8 a -> gf_inv a = gfpow a 254.
Proof.
  intros Ha. unfold gf_inv. destruct (Z.eqb_spec a 0) as [->|Hne]; [by vm_compute|].
  destruct (gflog_base_log a) as [? Ea]; [done..|]. rewrite gff_base_exp by lia.
  apply gfmul_inv_unique; [auto with md..|]. rewrite <- Ea at 1. rewrite <- alpha_add, <- alpha_255.
  f_equal. lia.
Qed.

Lemma is_u8_gf_mul a b : is_u8 a -> is_u8 b -> is_u8 (gf_mul a b).
Proof. intros. rewrite gf_mul_gfmul by done. auto with md. Qed.

Lemma is_u8_gf_inv a : is_u8 a -> is_u8 (gf_inv a).
Proof. intros. rewrite gf_inv_gfinv by done. auto with md. Qed.
#[export] Hint Resolve is_u8_gf_mul is_u8_gf_inv : md.

(** From here on the tables are used through these facts. *)
#[global] Opaque gf_mul gf_inv.

Lemma gf_inv_table_ok a : is_u8 a -> gf_inv_table_base.[a] = gf_inv a.
Proof.
  intros Ha. apply Z.eqb_eq. revert a Ha.
  apply (bytes_check (fun a => gf_inv_table_base.[a] =? gf_inv a)). by vm_compute.
Qed.
