(* ===== verification/Matrix.v ===== *)
(** Matrices over GF(2^8), isa-l/ec_base.c: the Reed-Solomon and Cauchy generator
    matrices and the Gauss-Jordan inversion, on row-major byte arrays as in the source.

    [mat_is] relates an array to the function of its entries; the row operations are
    then reasoned about on functions. *)

From S2P Require Import Prelude GF256 PageMem EcTables.

(** [a[r * n + c]]. *)
Definition mget (n : nat) (a : list Z) (r c : nat) : Z := pget a (r * n + c).
Definition mset (n : nat) (a : list Z) (r c : nat) (v : Z) : list Z := <[(r * n + c)%nat := v]> a.

(** [memset(a, 0, len)]. *)
Definition zero_fill (len : nat) (a : list Z) : list Z := replicate len 0 ++ drop len a.

(** * Generator matrices *)

Definition gf_gen_rs_matrix (a : list Z) (m k : nat) : list Z :=
  let a := zero_fill (k * m) a in
  let a := fold_left (fun a i => mset k a i i 1) (seq 0 k) a in
  let '(a, _) :=
    fold_left (fun '(a, gen) i =>
        let '(a, _) :=
          fold_left (fun '(a, p) j => (mset k a i j p, gf_mul p gen)) (seq 0 k) (a, 1) in
        (a, gf_mul gen 2))
      (seq k (m - k)) (a, 1) in
  a.

(** [*p++ = gf_inv(i ^ j)], the argument cut to a byte. *)
Definition gf_gen_cauchy1_matrix (a : list Z) (m k : nat) : list Z :=
  let a := zero_fill (k * m) a in
  let a := fold_left (fun a i => mset k a i i 1) (seq 0 k) a in
  let '(a, _) :=
    fold_left (fun '(a, p) i =>
        fold_left (fun '(a, p) j => (<[p := gf_inv (u8 (Z.of_nat i ⊕ Z.of_nat j))]> a, S p))
          (seq 0 k) (a, p))
      (seq k (m - k)) (a, (k * k)%nat) in
  a.

(** * Inversion *)

Section Invert.
Context (n : nat).

Definition set_identity (out_mat : list Z) : list Z :=
  let out_mat := fold_left (fun o i => <[i := 0]> o) (seq 0 (n * n)) out_mat in
  fold_left (fun o i => mset n o i i 1) (seq 0 n) out_mat.

(** [for (j = i + 1; j < n; j++) if (in_mat[j * n + i]) break;] [None] stands for [j == n]. *)
Definition find_pivot (in_mat : list Z) (i : nat) : option nat :=
  find (fun j => negb (mget n in_mat j i =? 0)) (seq (S i) (n - S i)).

Definition swap_at (i j : nat) (a : list Z) (k : nat) : list Z :=
  let temp := mget n a i k in
  let a := mset n a i k (mget n a j k) in
  mset n a j k temp.

Definition swap_rows (i j : nat) (st : list Z * list Z) : list Z * list Z :=
  fold_left (fun '(in_mat, out_mat) k => (swap_at i j in_mat k, swap_at i j out_mat k)) (seq 0 n) st.

Definition scale_at (i : nat) (temp : Z) (a : list Z) (k : nat) : list Z :=
  mset n a i k (gf_mul (mget n a i k) temp).

Definition scale_row (i : nat) (st : list Z * list Z) : list Z * list Z :=
  let temp := gf_inv (mget n st.1 i i) in
  fold_left (fun '(in_mat, out_mat) j => (scale_at i temp in_mat j, scale_at i temp out_mat j))
    (seq 0 n) st.

Definition elim_at (i j : nat) (temp : Z) (a : list Z) (k : nat) : list Z :=
  mset n a j k (mget n a j k ⊕ gf_mul temp (mget n a i k)).

Definition elim_row (i j : nat) (st : list Z * list Z) : list Z * list Z :=
  let temp := mget n st.1 j i in
  fold_left (fun '(in_mat, out_mat) k =>
      let out_mat := elim_at i j temp out_mat k in
      let in_mat := elim_at i j temp in_mat k in
      (in_mat, out_mat))
    (seq 0 n) st.

Definition elim_rows (i : nat) (st : list Z * list Z) : list Z * list Z :=
  fold_left (fun st j => if (j =? i)%nat then st else elim_row i j st) (seq 0 n) st.

(** The body of the loop over the pivots; [None] is [return -1]. *)
Definition invert_step (i : nat) (st : list Z * list Z) : option (list Z * list Z) :=
  let st' :=
    if mget n st.1 i i =? 0 then
      match find_pivot st.1 i with
      | None => None
      | Some j => Some (swap_rows i j st)
      end
    else Some st in
  match st' with
  | None => None
  | Some st => Some (elim_rows i (scale_row i st))
  end.

(** The loop from pivot [i] on, [cnt] iterations left. The result is the return code and
    the two matrices as they are left. *)
Fixpoint invert_loop (cnt i : nat) (st : list Z * list Z) : Z * (list Z * list Z) :=
  match cnt with
  | O => (0, st)
  | S cnt =>
    match invert_step i st with
    | None => (-1, st)
    | Some st => invert_loop cnt (S i) st
    end
  end.

Definition gf_invert_matrix (in_mat out_mat : list Z) : Z * (list Z * list Z) :=
  invert_loop n 0 (in_mat, set_identity out_mat).
End Invert.

(** * Arrays as matrices *)

(** The first [rows] rows of [n] entries of [a] are those of [M]. *)
Definition mat_is (rows n : nat) (a : list Z) (M : nat -> nat -> Z) : Prop :=
  (rows * n <= length a)%nat /\
  forall r c, (r < rows)%nat -> (c < n)%nat -> mget n a r c = M r c.

Definition bytes_mat (rows n : nat) (M : nat -> nat -> Z) : Prop :=
  forall r c, (r < rows)%nat -> (c < n)%nat -> is_u8 (M r c).

Lemma index_inj n r c r' c' :
  (c < n)%nat -> (c' < n)%nat -> (r * n + c = r' * n + c')%nat -> r = r' /\ c = c'.
Proof. intros. assert (r = r') by nia. subst. split; [done|lia]. Qed.

Lemma mget_mset rows n a r c v r' c' :
  (rows * n <= length a)%nat -> (r < rows)%nat -> (c < n)%nat -> (c' < n)%nat ->
  mget n (mset n a r c v) r' c' = if decide (r' = r /\ c' = c) then v else mget n a r' c'.
Proof.
  intros Hl Hr Hc Hc'. unfold mget, mset, pget. case_decide as H.
  - destruct H as [-> ->]. rewrite list_lookup_insert_eq by nia. done.
  - rewrite list_lookup_insert_ne; [done|]. intros E. apply H.
    destruct (index_inj n r c r' c') as [-> ->]; done.
Qed.

Lemma mat_is_mset rows n a M r c v :
  mat_is rows n a M -> (r < rows)%nat -> (c < n)%nat ->
  mat_is rows n (mset n a r c v) (fun r' c' => if decide (r' = r /\ c' = c) then v else M r' c').
Proof.
  intros [Hl H] Hr Hc. split; [unfold mset; by rewrite length_insert|].
  intros r' c' Hr' Hc'. rewrite (mget_mset rows) by done. case_decide; auto.
Qed.

Lemma mat_is_ext rows n a M M' :
  (forall r c, (r < rows)%nat -> (c < n)%nat -> M r c = M' r c) -> mat_is rows n a M -> mat_is rows n a M'.
Proof. intros HM [Hl H]. split; [done|]. intros r c Hr Hc. rewrite H, HM by done. done. Qed.

Lemma mat_is_self n a : (n * n <= length a)%nat -> mat_is n n a (mget n a).
Proof. by split. Qed.

(** Loops that rewrite one row from itself and another: [a[j][k] = f(a[i][k], a[j][k])]. *)
Lemma row_loop_ok rows n a M i j (f : Z -> Z -> Z) :
  mat_is rows n a M -> (i < rows)%nat -> (j < rows)%nat ->
  mat_is rows n (fold_left (fun a k => mset n a j k (f (mget n a i k) (mget n a j k))) (seq 0 n) a)
    (fun r c => if decide (r = j) then f (M i c) (M j c) else M r c).
Proof.
  intros Ha Hi Hj.
  eapply mat_is_ext; [|apply (fold_left_inv (fun k a => mat_is rows n a
    (fun r c => if decide (r = j /\ (c < k)%nat) then f (M i c) (M j c) else M r c)))].
  - intros r c Hr Hc. cbn beta. repeat case_decide; first [done|tauto].
  - eapply mat_is_ext; [|exact Ha]. intros r c _ _. case_decide; [lia|done].
  - intros k a' Hk Ha'. eapply mat_is_ext; [|apply mat_is_mset; [exact Ha'|done..]].
    intros r c Hr Hc. cbn beta. rewrite !(proj2 Ha') by done.
    repeat case_decide; subst; first [done|lia|idtac]; destruct_and?; subst; first [done|lia|idtac].
Qed.

Lemma fold_left_pair {A B C} (f : A -> C -> A) (g : B -> C -> B) l a b :
  fold_left (fun '(a, b) x => (f a x, g b x)) l (a, b) = (fold_left f l a, fold_left g l b).
Proof. revert a b. induction l as [|x l IH]; intros a b; simpl; [done|]. apply IH. Qed.

Ltac mat_cases :=
  cbn beta; repeat (case_decide; destruct_and?; subst); first [done|lia|tauto|idtac].

Section RowOps.
Context (rows n : nat).

Lemma swap_loop_ok a M i j :
  mat_is rows n a M -> (i < rows)%nat -> (j < rows)%nat ->
  mat_is rows n (fold_left (swap_at n i j) (seq 0 n) a)
    (fun r c => if decide (r = j) then M i c else if decide (r = i) then M j c else M r c).
Proof.
  intros Ha Hi Hj.
  eapply mat_is_ext; [|apply (fold_left_inv (fun k a => mat_is rows n a
    (fun r c => if decide (c < k)%nat then
      (if decide (r = j) then M i c else if decide (r = i) then M j c else M r c) else M r c)))].
  - intros r c Hr Hc. mat_cases.
  - eapply mat_is_ext; [|exact Ha]. intros r c _ _. mat_cases.
  - intros k a' Hk Ha'. unfold swap_at. rewrite !(proj2 Ha') by done.
    eapply mat_is_ext; [|apply mat_is_mset; [apply mat_is_mset; [exact Ha'|done..]|done..]].
    intros r c Hr Hc. mat_cases.
Qed.

Lemma identity_loop_ok a M k :
  mat_is rows n a M -> (k <= n)%nat -> (k <= rows)%nat ->
  mat_is rows n (fold_left (fun o i => mset n o i i 1) (seq 0 k) a)
    (fun r c => if decide (r = c /\ (r < k)%nat) then 1 else M r c).
Proof.
  intros Ha Hkn Hkr.
  eapply mat_is_ext; [|apply (fold_left_inv (fun k a => mat_is rows n a
    (fun r c => if decide (r = c /\ (r < k)%nat) then 1 else M r c)))].
  - done.
  - eapply mat_is_ext; [|exact Ha]. intros r c _ _. mat_cases.
  - intros i a' Hi Ha'. eapply mat_is_ext; [|apply mat_is_mset; [exact Ha'|lia..]].
    intros r c Hr Hc. mat_cases.
Qed.
End RowOps.

Definition delta (r c : nat) : Z := if decide (r = c) then 1 else 0.

Lemma zero_loop_ok rows n a len :
  (len <= length a)%nat -> (rows * n <= len)%nat ->
  mat_is rows n (fold_left (fun o i => <[i := 0]> o) (seq 0 len) a) (fun _ _ => 0).
Proof.
  intros Hl Hlen.
  enough (length (fold_left (fun o i => <[i := 0]> o) (seq 0 len) a) = length a /\
    forall x, (x < len)%nat -> pget (fold_left (fun o i => <[i := 0]> o) (seq 0 len) a) x = 0) as [H1 H2].
  { split; [lia|]. intros r c Hr Hc. apply H2. nia. }
  apply (fold_left_inv (fun i o => length o = length a /\ forall x, (x < i)%nat -> pget o x = 0)).
  - split; [done|]. lia.
  - intros i o Hi [H1 H2]. split; [by rewrite length_insert|]. intros x Hx. unfold pget.
    destruct (decide (x = i)) as [->|]; [by rewrite list_lookup_insert_eq by lia|].
    rewrite list_lookup_insert_ne by done. apply H2. lia.
Qed.

Lemma set_identity_ok n out : (n * n <= length out)%nat -> mat_is n n (set_identity n out) delta.
Proof.
  intros Hl. unfold set_identity. eapply mat_is_ext; [|apply identity_loop_ok; [by apply zero_loop_ok|done..]].
  intros r c Hr Hc. unfold delta. mat_cases.
Qed.

(** * Elimination *)

(** [O * A], and the product with a column vector. *)
Definition mmul (n : nat) (O A : nat -> nat -> Z) (r c : nat) : Z :=
  gfsum n (fun t => gfmul (O r t) (A t c)).
Definition mvec (n : nat) (A : nat -> nat -> Z) (x : nat -> Z) (r : nat) : Z :=
  gfsum n (fun t => gfmul (A r t) (x t)).

(** A column vector that [A] maps to zero. *)
Definition kernel (n : nat) (A : nat -> nat -> Z) (x : nat -> Z) : Prop :=
  forall r, (r < n)%nat -> mvec n A x r = 0.

Definition bytes_vec (n : nat) (x : nat -> Z) : Prop := forall c, (c < n)%nat -> is_u8 (x c).

(** The invariant of the elimination started on [A]: the output matrix transforms [A]
    into the current matrix, reversibly. *)
Record elim_inv (n : nat) (A I O : nat -> nat -> Z) : Prop := {
  ei_in : bytes_mat n n I;
  ei_out : bytes_mat n n O;
  ei_prod : forall r c, (r < n)%nat -> (c < n)%nat -> mmul n O A r c = I r c;
  ei_kernel : forall x, bytes_vec n x -> kernel n I x -> kernel n A x;
}.

(** The first [i] columns are done. *)
Definition reduced (n i : nat) (I : nat -> nat -> Z) : Prop :=
  forall r c, (r < n)%nat -> (c < i)%nat -> I r c = delta r c.

Definition swap_fun (i j : nat) (M : nat -> nat -> Z) (r c : nat) : Z :=
  if decide (r = j) then M i c else if decide (r = i) then M j c else M r c.
Definition scale_fun (i : nat) (t : Z) (M : nat -> nat -> Z) (r c : nat) : Z :=
  if decide (r = i) then gfmul (M i c) t else M r c.
Definition elim_fun (i j : nat) (t : Z) (M : nat -> nat -> Z) (r c : nat) : Z :=
  if decide (r = j) then M j c ⊕ gfmul t (M i c) else M r c.

Lemma gfmul_eq_0_l a t : is_u8 a -> is_u8 t -> t <> 0 -> gfmul a t = 0 -> a = 0.
Proof. intros Ha Ht Hne H. destruct (gfmul_eq_0 a t); done. Qed.

Lemma mvec_u8 n A x r : bytes_mat n n A -> bytes_vec n x -> (r < n)%nat -> is_u8 (mvec n A x r).
Proof. intros HA Hx Hr. apply gfsum_u8. auto with md. Qed.

Section Elimination.
Context (n : nat) (A : nat -> nat -> Z) (HA : bytes_mat n n A).

Lemma mmul_comb O r c r' s :
  bytes_mat n n O -> (r < n)%nat -> (r' < n)%nat -> (c < n)%nat -> is_u8 s ->
  gfsum n (fun t => gfmul (O r t ⊕ gfmul s (O r' t)) (A t c)) = mmul n O A r c ⊕ gfmul s (mmul n O A r' c).
Proof.
  intros HO Hr Hr' Hc Hs. unfold mmul. rewrite gfmul_gfsum, <- gfsum_lxor. apply gfsum_ext. intros t Ht.
  rewrite gfmul_lxor_l, gfmul_assoc by auto with md. done.
Qed.

Lemma elim_inv_swap I O i j :
  elim_inv n A I O -> (i < n)%nat -> (j < n)%nat -> elim_inv n A (swap_fun i j I) (swap_fun i j O).
Proof.
  intros [HI HO HP HK] Hi Hj. split.
  - intros r c Hr Hc. unfold swap_fun. repeat case_decide; auto.
  - intros r c Hr Hc. unfold swap_fun. repeat case_decide; auto.
  - intros r c Hr Hc. unfold mmul, swap_fun. repeat case_decide; by apply HP.
  - intros x Hx HKx. apply HK; [done|]. intros r Hr.
    destruct (decide (r = j)) as [->|Hrj]; [|destruct (decide (r = i)) as [->|Hri]].
    + pose proof (HKx i Hi) as H. unfold mvec, swap_fun in H.
      repeat case_decide; by subst.
    + pose proof (HKx j Hj) as H. unfold mvec, swap_fun in H. by case_decide.
    + pose proof (HKx r Hr) as H. unfold mvec, swap_fun in H. by repeat case_decide.
Qed.

Lemma elim_inv_scale I O i s :
  elim_inv n A I O -> (i < n)%nat -> is_u8 s -> s <> 0 -> elim_inv n A (scale_fun i s I) (scale_fun i s O).
Proof.
  intros [HI HO HP HK] Hi Hs Hne. split.
  - intros r c Hr Hc. unfold scale_fun. case_decide; auto with md.
  - intros r c Hr Hc. unfold scale_fun. case_decide; auto with md.
  - intros r c Hr Hc. unfold mmul, scale_fun. case_decide; [|by apply HP].
    rewrite <- HP by done. unfold mmul. rewrite gfmul_gfsum_l. apply gfsum_ext. intros t Ht.
    rewrite <- !gfmul_assoc by auto with md. f_equal. apply gfmul_comm; auto.
  - intros x Hx HKx. apply HK; [done|]. intros r Hr. pose proof (HKx r Hr) as H.
    unfold mvec, scale_fun in H. destruct (decide (r = i)) as [->|]; [|done].
    apply (gfmul_eq_0_l _ s); [by apply mvec_u8|done..|]. rewrite <- H. unfold mvec.
    rewrite gfmul_gfsum_l. apply gfsum_ext. intros t Ht.
    rewrite <- !gfmul_assoc by auto with md. f_equal. apply gfmul_comm; auto.
Qed.

Lemma elim_inv_elim I O i j s :
  elim_inv n A I O -> (i < n)%nat -> (j < n)%nat -> i <> j -> is_u8 s ->
  elim_inv n A (elim_fun i j s I) (elim_fun i j s O).
Proof.
  intros [HI HO HP HK] Hi Hj Hij Hs. split.
  - intros r c Hr Hc. unfold elim_fun. case_decide; auto with md.
  - intros r c Hr Hc. unfold elim_fun. case_decide; auto with md.
  - intros r c Hr Hc. unfold elim_fun, mmul. case_decide; [|by apply HP].
    rewrite mmul_comb by done. by rewrite !HP.
  - intros x Hx HKx. apply HK; [done|]. intros r Hr. pose proof (HKx r Hr) as H.
    unfold mvec, elim_fun in H. destruct (decide (r = j)) as [->|]; [|done].
    assert (mvec n I x i = 0) as Hi0.
    { specialize (HKx i Hi). unfold mvec, elim_fun in HKx. by case_decide; [subst|]. }
    rewrite <- H. unfold mvec. rewrite (gfsum_ext n (fun t => gfmul (I j t ⊕ gfmul s (I i t)) (x t))
      (fun t => gfmul (I j t) (x t) ⊕ gfmul s (gfmul (I i t) (x t)))).
    + rewrite gfsum_lxor, <- gfmul_gfsum. unfold mvec in Hi0. by rewrite Hi0, gfmul_0_r, Z.lxor_0_r.
    + intros t Ht. rewrite gfmul_lxor_l, gfmul_assoc by auto with md. done.
Qed.

(** A zero column below the pivot gives a vector of the kernel. *)
Lemma singular_kernel I O i :
  elim_inv n A I O -> reduced n i I -> (i < n)%nat -> (forall r, (i <= r < n)%nat -> I r i = 0) ->
  exists x, bytes_vec n x /\ x i = 1 /\ kernel n A x.
Proof.
  intros HE HR Hi H0.
  exists (fun c => if decide (c = i) then 1 else if decide (c < i)%nat then I c i else 0).
  split; [intros c Hc; repeat case_decide; first [apply is_u8_1|apply is_u8_0|by apply HE]|].
  split; [by rewrite decide_True|]. apply HE; [intros c Hc; repeat case_decide; first [apply is_u8_1|apply is_u8_0|by apply HE]|].
  intros r Hr. unfold mvec.
  rewrite (gfsum_ext n _ (fun c => (if decide (c = i) then I r i else 0) ⊕
    (if decide (c = r /\ (r < i)%nat) then I r i else 0))).
  - rewrite gfsum_lxor, (gfsum_single n _ i), decide_True; [|done..|intros; by rewrite decide_False].
    destruct (decide (r < i)%nat).
    + rewrite (gfsum_single n _ r), decide_True; [by rewrite Z.lxor_nilpotent|done..|].
      intros c Hc Hcr. rewrite decide_False; [done|]. lia.
    + rewrite (H0 r), gfsum_0; [done| |lia]. intros c Hc. rewrite decide_False; [done|lia].
  - intros c Hc. destruct (decide (c = i)) as [->|].
    + rewrite (decide_False (P := (i = r /\ _))) by lia. rewrite gfmul_1_r, Z.lxor_0_r; [done|by apply HE].
    + rewrite Z.lxor_0_l. case_decide as Hci.
      * rewrite (HR r c) by lia. unfold delta. repeat case_decide; destruct_and?; subst; try lia.
        -- apply gfmul_1_l. by apply HE.
        -- apply gfmul_0_l.
      * rewrite gfmul_0_r, decide_False by lia. done.
Qed.
End Elimination.

Section InvertCorrect.
Context (n : nat) (A : nat -> nat -> Z) (HA : bytes_mat n n A).

Definition st_is (st : list Z * list Z) (I O : nat -> nat -> Z) : Prop :=
  mat_is n n st.1 I /\ mat_is n n st.2 O.

Lemma swap_rows_is st I O i j :
  st_is st I O -> (i < n)%nat -> (j < n)%nat -> st_is (swap_rows n i j st) (swap_fun i j I) (swap_fun i j O).
Proof.
  destruct st as [inm outm]. intros [H1 H2] Hi Hj. unfold swap_rows. rewrite fold_left_pair.
  split; by apply swap_loop_ok.
Qed.

Lemma scale_loop_is a M i t :
  mat_is n n a M -> bytes_mat n n M -> (i < n)%nat -> is_u8 t ->
  mat_is n n (fold_left (scale_at n i t) (seq 0 n) a) (scale_fun i t M).
Proof.
  intros Ha HM Hi Ht. eapply mat_is_ext; [|exact (row_loop_ok n n a M i i (fun x _ => gf_mul x t) Ha Hi Hi)].
  intros r c Hr Hc. unfold scale_fun. case_decide; [|done]. apply gf_mul_gfmul; auto.
Qed.

Lemma scale_row_is st I O i :
  st_is st I O -> elim_inv n A I O -> (i < n)%nat ->
  st_is (scale_row n i st) (scale_fun i (gf_inv (I i i)) I) (scale_fun i (gf_inv (I i i)) O).
Proof.
  destruct st as [inm outm]. intros [H1 H2] HE Hi. unfold scale_row. rewrite fold_left_pair.
  cbn [fst]. rewrite (proj2 H1) by done. pose proof (ei_in _ _ _ _ HE). pose proof (ei_out _ _ _ _ HE).
  split; apply scale_loop_is; auto with md.
Qed.

Lemma elim_loop_is a M i j t :
  mat_is n n a M -> bytes_mat n n M -> (i < n)%nat -> (j < n)%nat -> is_u8 t ->
  mat_is n n (fold_left (elim_at n i j t) (seq 0 n) a) (elim_fun i j t M).
Proof.
  intros Ha HM Hi Hj Ht.
  eapply mat_is_ext; [|exact (row_loop_ok n n a M i j (fun x y => y ⊕ gf_mul t x) Ha Hi Hj)].
  intros r c Hr Hc. unfold elim_fun. case_decide; [|done]. f_equal. apply gf_mul_gfmul; auto.
Qed.

Lemma elim_row_is st I O i j :
  st_is st I O -> elim_inv n A I O -> (i < n)%nat -> (j < n)%nat ->
  st_is (elim_row n i j st) (elim_fun i j (I j i) I) (elim_fun i j (I j i) O).
Proof.
  destruct st as [inm outm]. intros [H1 H2] HE Hi Hj. unfold elim_row.
  rewrite (fold_left_pair (elim_at n i j _) (elim_at n i j _)).
  cbn [fst]. rewrite (proj2 H1) by done. pose proof (ei_in _ _ _ _ HE). pose proof (ei_out _ _ _ _ HE).
  split; apply elim_loop_is; auto with md.
Qed.

(** The elimination has reached pivot [i]. *)
Definition inv_at (i : nat) (st : list Z * list Z) : Prop :=
  exists I O, st_is st I O /\ elim_inv n A I O /\ reduced n i I.

Lemma elim_rows_is st I O i :
  st_is st I O -> elim_inv n A I O -> (i < n)%nat -> reduced n i I -> I i i = 1 ->
  inv_at (S i) (elim_rows n i st).
Proof.
  intros Hst HE Hi HR Hp.
  assert (exists I' O', st_is (elim_rows n i st) I' O' /\ elim_inv n A I' O' /\ reduced n i I' /\
    I' i i = 1 /\ forall r, (r < n)%nat -> r <> i -> I' r i = 0) as (I' & O' & ? & ? & HR' & Hp' & Hz').
  2:{ exists I', O'. split; [done|]. split; [done|]. intros r c Hr Hc.
      destruct (decide (c = i)) as [->|]; [|apply HR'; [done|lia]].
      unfold delta. case_decide; [by subst|auto]. }
  unfold elim_rows.
  apply (fold_left_inv (fun j st => exists I' O', st_is st I' O' /\ elim_inv n A I' O' /\ reduced n i I' /\
    I' i i = 1 /\ forall r, (r < j)%nat -> r <> i -> I' r i = 0)); [exists I, O; by auto with lia|].
  intros j st' Hj (I' & O' & Hst' & HE' & HR' & Hp' & Hz').
  destruct (Nat.eqb_spec j i) as [->|Hji].
  { exists I', O'. do 4 (split; [done|]). intros r Hr Hri. apply Hz'; [lia|done]. }
  exists (elim_fun i j (I' j i) I'), (elim_fun i j (I' j i) O').
  split; [by apply elim_row_is|]. split; [apply elim_inv_elim; auto; by apply HE'|].
  unfold elim_fun. split; [|split].
  - intros r c Hr Hc. case_decide; [subst|by apply HR'].
    rewrite (HR' i c), (HR' j c) by done. unfold delta at 2. rewrite decide_False by lia.
    by rewrite gfmul_0_r, Z.lxor_0_r.
  - rewrite decide_False by done. done.
  - intros r Hr Hri. case_decide; [|apply Hz'; [lia|done]].
    rewrite Hp', gfmul_1_r by (by apply HE'). apply Z.lxor_nilpotent.
Qed.

Lemma reduced_row I i r c : reduced n i I -> (c < i)%nat -> (i <= r < n)%nat -> I r c = 0.
Proof. intros HR Hc Hr. rewrite HR by lia. unfold delta. by rewrite decide_False by lia. Qed.

Lemma scale_elim_is st I O i :
  st_is st I O -> elim_inv n A I O -> (i < n)%nat -> reduced n i I -> I i i <> 0 ->
  inv_at (S i) (elim_rows n i (scale_row n i st)).
Proof.
  intros Hst HE Hi HR Hp. assert (is_u8 (I i i)) as H8 by (by apply HE).
  assert (gfmul (I i i) (gf_inv (I i i)) = 1) as Hinv by (rewrite gf_inv_gfinv by done; by apply gfpow_254_inv).
  apply (elim_rows_is _ (scale_fun i (gf_inv (I i i)) I) (scale_fun i (gf_inv (I i i)) O)); [|auto..].
  - by apply scale_row_is.
  - apply elim_inv_scale; auto with md. intros H. by rewrite H, gfmul_0_r in Hinv.
  - intros r c Hr Hc. unfold scale_fun. case_decide; [subst|by apply HR].
    rewrite (reduced_row I i), gfmul_0_l by (done || lia). unfold delta. by rewrite decide_False by lia.
  - unfold scale_fun. by rewrite decide_True.
Qed.

Lemma find_pivot_ok st I O i :
  st_is st I O -> (i < n)%nat ->
  match find_pivot n st.1 i with
  | Some j => (i < j < n)%nat /\ I j i <> 0
  | None => forall r, (i < r < n)%nat -> I r i = 0
  end.
Proof.
  intros [Hst _] Hi. unfold find_pivot. destruct (find _ _) as [j|] eqn:E.
  - apply find_some in E as [Hin Hnz]. apply in_seq in Hin. split; [lia|].
    rewrite <- (proj2 Hst) by lia. by apply Z.eqb_neq, negb_true_iff.
  - intros r Hr. pose proof (find_none _ _ E r) as H. cbn beta in H.
    rewrite (proj2 Hst), negb_false_iff in H by lia. apply Z.eqb_eq, H, in_seq. lia.
Qed.

Lemma invert_step_ok st i :
  inv_at i st -> (i < n)%nat ->
  match invert_step n i st with
  | Some st => inv_at (S i) st
  | None => exists x, bytes_vec n x /\ x i = 1 /\ kernel n A x
  end.
Proof.
  intros (I & O & Hst & HE & HR) Hi. unfold invert_step.
  rewrite (proj2 (proj1 Hst)) by done. destruct (Z.eqb_spec (I i i) 0) as [Hz|Hnz]; [|by apply (scale_elim_is _ I O)].
  pose proof (find_pivot_ok st I O i Hst Hi) as Hp. destruct (find_pivot n st.1 i) as [j|].
  - destruct Hp as [Hj Hnz]. apply (scale_elim_is _ (swap_fun i j I) (swap_fun i j O)); [|auto..|].
    + apply swap_rows_is; [done|lia..].
    + apply elim_inv_swap; [done|lia..].
    + intros r c Hr Hc. unfold swap_fun. repeat case_decide; subst; [..|by apply HR].
      all: rewrite (reduced_row I i) by (done || lia); unfold delta; by rewrite decide_False by lia.
    + unfold swap_fun. rewrite decide_False, decide_True by lia. done.
  - apply (singular_kernel n A I O i HE HR Hi). intros r Hr. destruct (decide (r = i)) as [->|]; [done|apply Hp; lia].
Qed.

Lemma invert_loop_ok cnt i st :
  inv_at i st -> (i + cnt = n)%nat ->
  let '(ret, st') := invert_loop n cnt i st in
  (ret = 0 /\ inv_at n st') \/
  (ret = -1 /\ exists x j, bytes_vec n x /\ (j < n)%nat /\ x j = 1 /\ kernel n A x).
Proof.
  revert i st. induction cnt as [|cnt IH]; intros i st Hst Hn; cbn [invert_loop].
  { left. split; [done|]. by replace n with i by lia. }
  pose proof (invert_step_ok st i Hst ltac:(lia)) as H. destruct (invert_step n i st) as [st1|].
  - apply IH; [done|lia].
  - right. split; [done|]. destruct H as (x & Hx & Hxi & HK). exists x, i. split; [done|]. split; [lia|done].
Qed.
End InvertCorrect.

Lemma elim_inv_init n A : bytes_mat n n A -> elim_inv n A A delta.
Proof.
  intros HA. split; [done| |..].
  - intros r c Hr Hc. unfold delta. case_decide; auto with md.
  - intros r c Hr Hc. unfold mmul. rewrite (gfsum_single n _ r); [|done|].
    + unfold delta. rewrite decide_True by done. apply gfmul_1_l. auto.
    + intros t Ht Hne. unfold delta. rewrite decide_False by done. apply gfmul_0_l.
  - done.
Qed.

(** Inversion of a byte matrix: either it returns 0 with a left inverse, or it returns -1
    and a non-zero vector is mapped to zero. *)
Lemma gf_invert_matrix_ok n in_mat out_mat A :
  mat_is n n in_mat A -> bytes_mat n n A -> (n * n <= length out_mat)%nat ->
  let '(ret, (_, inv)) := gf_invert_matrix n in_mat out_mat in
  (ret = 0 /\ exists O, mat_is n n inv O /\ bytes_mat n n O /\
    forall r c, (r < n)%nat -> (c < n)%nat -> mmul n O A r c = delta r c) \/
  (ret = -1 /\ exists x j, bytes_vec n x /\ (j < n)%nat /\ x j = 1 /\ kernel n A x).
Proof.
  intros Hin HA Hout. unfold gf_invert_matrix.
  pose proof (invert_loop_ok n A HA n 0 (in_mat, set_identity n out_mat)) as H.
  destruct (invert_loop _ _ _ _) as [ret [inm inv]]. destruct H as [[-> (I & O & Hst & HE & HR)]|H]; [|lia|..].
  - exists A, delta. split; [split; [done|by apply set_identity_ok]|].
    split; [by apply elim_inv_init|]. intros r c _ Hc. lia.
  - left. split; [done|]. exists O. split; [apply Hst|]. split; [apply HE|].
    intros r c Hr Hc. rewrite (ei_prod _ _ _ _ HE) by done. by apply HR.
  - by right.
Qed.

(** The arrays keep their sizes. *)
Section InvertLengths.
Context (n : nat).

Definition same_lengths (st st' : list Z * list Z) : Prop :=
  length st'.1 = length st.1 /\ length st'.2 = length st.2.

Lemma fold_left_length {A} (f : list Z -> A -> list Z) l a :
  (forall a x, length (f a x) = length a) -> length (fold_left f l a) = length a.
Proof. intros Hf. revert a. induction l as [|x l IH]; intros a; simpl; [done|]. by rewrite IH, Hf. Qed.

Lemma length_mset k a r c v : length (mset k a r c v) = length a.
Proof. apply length_insert. Qed.

Lemma same_lengths_fold (f g : list Z -> nat -> list Z) l st :
  (forall a x, length (f a x) = length a) -> (forall a x, length (g a x) = length a) ->
  same_lengths st (fold_left (fun '(a, b) x => (f a x, g b x)) l st).
Proof. destruct st. intros Hf Hg. rewrite fold_left_pair. split; by apply fold_left_length. Qed.

Lemma same_lengths_trans st1 st2 st3 : same_lengths st1 st2 -> same_lengths st2 st3 -> same_lengths st1 st3.
Proof. intros [H1 H2] [H3 H4]. split; congruence. Qed.

Lemma elim_rows_lengths i st : same_lengths st (elim_rows n i st).
Proof.
  unfold elim_rows. generalize (seq 0 n) as l. intros l. revert st. induction l as [|j l IH]; intros st; [by split|].
  simpl. eapply same_lengths_trans; [|apply IH]. destruct (j =? i)%nat; [by split|].
  unfold elim_row, elim_at. apply (same_lengths_fold _ _ (seq 0 n)); intros; apply length_mset.
Qed.

Lemma invert_step_lengths i st st' : invert_step n i st = Some st' -> same_lengths st st'.
Proof.
  unfold invert_step. set (o := if mget n st.1 i i =? 0 then _ else _). intros H.
  assert (forall st1, o = Some st1 -> same_lengths st st1) as Ho.
  { intros st1. subst o. destruct (_ =? 0); [|intros [= <-]; by split].
    destruct (find_pivot n st.1 i); [|done]. intros [= <-]. unfold swap_rows.
    apply same_lengths_fold; intros; unfold swap_at; by rewrite !length_mset. }
  destruct o as [st1|]; [|done]. injection H as <-.
  eapply same_lengths_trans; [by apply Ho|]. eapply same_lengths_trans; [|apply elim_rows_lengths].
  unfold scale_row. apply same_lengths_fold; intros; apply length_mset.
Qed.

Lemma invert_loop_lengths cnt i st : same_lengths st (invert_loop n cnt i st).2.
Proof.
  revert i st. induction cnt as [|cnt IH]; intros i st; cbn [invert_loop]; [by split|].
  destruct (invert_step n i st) as [st'|] eqn:E; [|by split].
  eapply same_lengths_trans; [by apply (invert_step_lengths i)|]. apply IH.
Qed.

Lemma length_gf_invert_matrix in_mat out_mat :
  same_lengths (in_mat, out_mat) (gf_invert_matrix n in_mat out_mat).2.
Proof.
  unfold gf_invert_matrix. eapply same_lengths_trans; [|apply invert_loop_lengths]. split; [done|].
  unfold set_identity. cbn [snd]. rewrite fold_left_length by (intros; apply length_mset).
  apply fold_left_length. intros. apply length_insert.
Qed.
End InvertLengths.

(** * The generator matrices *)

Lemma zero_fill_is rows n len a :
  (len <= length a)%nat -> (rows * n <= len)%nat -> mat_is rows n (zero_fill len a) (fun _ _ => 0).
Proof.
  intros Hl Hr. unfold zero_fill. split; [rewrite length_app, length_replicate; lia|].
  intros r c Hr' Hc. unfold mget, pget. rewrite lookup_app_l by (rewrite length_replicate; nia).
  by rewrite lookup_replicate_2 by nia.
Qed.

(** The top: [k] rows of the identity above rows of zeros. *)
Lemma gen_top_is m k a :
  (k * m <= length a)%nat -> (k <= m)%nat ->
  mat_is m k (fold_left (fun a i => mset k a i i 1) (seq 0 k) (zero_fill (k * m) a))
    (fun r c => if decide (r < k)%nat then delta r c else 0).
Proof.
  intros Hl Hk. eapply mat_is_ext; [|apply identity_loop_ok; [apply (zero_fill_is m k); lia|done..]].
  intros r c Hr Hc. unfold delta. mat_cases.
Qed.

Lemma fold_left_seq_shift {S} (f : S -> nat -> S) d n s :
  fold_left f (seq d n) s = fold_left (fun s i => f s (d + i)%nat) (seq 0 n) s.
Proof.
  rewrite <- (fold_left_map f (fun i => (d + i)%nat)). f_equal.
  symmetry. etransitivity; [exact (map_seq_shift (fun i => i) d n)|apply map_id].
Qed.

Definition rs_entry (k r c : nat) : Z :=
  if decide (r < k)%nat then delta r c else alpha ((r - k) * c).

(** One row of powers: [p] runs through the powers of [gen]. *)
Lemma rs_row_is rows k a M i e :
  mat_is rows k a M -> (i < rows)%nat ->
  mat_is rows k (fold_left (fun '(a, p) j => (mset k a i j p, gf_mul p (alpha e))) (seq 0 k) (a, 1)).1
    (fun r c => if decide (r = i) then alpha (e * c) else M r c).
Proof.
  intros Ha Hi.
  pose (P := fun (k' : nat) (st : list Z * Z) => st.2 = alpha (e * k') /\
    mat_is rows k st.1 (fun r c => if decide (r = i /\ (c < k')%nat) then alpha (e * c) else M r c)).
  enough (P k (fold_left (fun '(a, p) j => (mset k a i j p, gf_mul p (alpha e))) (seq 0 k) (a, 1))) as [_ H].
  { eapply mat_is_ext; [|exact H]. intros r c Hr Hc. mat_cases. }
  apply (fold_left_inv P).
  - split; [by rewrite Nat.mul_0_r|]. eapply mat_is_ext; [|exact Ha]. intros r c _ _. mat_cases.
  - intros j [a' p] Hj [Hp Ha']. cbn [fst snd] in Hp, Ha'. subst p. split; cbn [fst snd].
    + rewrite gf_mul_gfmul, <- alpha_add by auto with md. f_equal. lia.
    + eapply mat_is_ext; [|apply mat_is_mset; [exact Ha'|done..]]. intros r c Hr Hc. mat_cases.
Qed.

Lemma gf_gen_rs_matrix_is m k a :
  (k * m <= length a)%nat -> (k <= m)%nat -> mat_is m k (gf_gen_rs_matrix a m k) (rs_entry k).
Proof.
  intros Hl Hk. unfold gf_gen_rs_matrix. rewrite fold_left_seq_shift.
  set (a1 := fold_left _ (seq 0 k) _). pose proof (gen_top_is m k a Hl Hk) as H1. fold a1 in H1.
  pose (P := fun (i : nat) (st : list Z * Z) => st.2 = alpha i /\
    mat_is m k st.1 (fun r c => if decide (r < k + i)%nat then rs_entry k r c else 0)).
  match goal with |- context [fold_left ?f (seq 0 (m - k)) ?s] =>
    assert (P (m - k)%nat (fold_left f (seq 0 (m - k)) s)) as [_ H2]; [apply (fold_left_inv P)|]
  end.
  - split; [done|]. eapply mat_is_ext; [|exact H1]. intros r c Hr Hc. unfold rs_entry. mat_cases.
  - intros i [a' gen] Hi [Hp Ha']. cbn [fst snd] in Hp, Ha'. subst gen.
    pose proof (rs_row_is m k a' _ (k + i) i Ha' ltac:(lia)) as Hrow.
    destruct (fold_left _ (seq 0 k) (a', 1)) as [a2 p]. split; cbn [fst snd].
    + rewrite gf_mul_gfmul, <- alpha_S by auto with md. done.
    + eapply mat_is_ext; [|exact Hrow]. intros r c Hr Hc. cbn beta.
      repeat (case_decide; subst); try lia; try done. unfold rs_entry. rewrite decide_False by lia.
      f_equal. lia.
  - match type of H2 with mat_is _ _ (?x.1) _ => destruct x as [a' gen] end.
    eapply mat_is_ext; [|exact H2]. intros r c Hr Hc. mat_cases.
Qed.

Definition cauchy_entry (k r c : nat) : Z :=
  if decide (r < k)%nat then delta r c else gf_inv (u8 (Z.of_nat r ⊕ Z.of_nat c)).

Lemma cauchy_row_is rows k a M i :
  mat_is rows k a M -> (i < rows)%nat ->
  let st := fold_left (fun '(a, p) j => (<[p := gf_inv (u8 (Z.of_nat i ⊕ Z.of_nat j))]> a, S p))
    (seq 0 k) (a, (i * k)%nat) in
  st.2 = (S i * k)%nat /\
  mat_is rows k st.1 (fun r c => if decide (r = i) then gf_inv (u8 (Z.of_nat i ⊕ Z.of_nat c)) else M r c).
Proof.
  intros Ha Hi st.
  pose (P := fun (k' : nat) (st : list Z * nat) => st.2 = (i * k + k')%nat /\
    mat_is rows k st.1 (fun r c => if decide (r = i /\ (c < k')%nat)
      then gf_inv (u8 (Z.of_nat i ⊕ Z.of_nat c)) else M r c)).
  enough (P k st) as [Hp H].
  { split; [lia|]. eapply mat_is_ext; [|exact H]. intros r c Hr Hc. mat_cases. }
  apply (fold_left_inv P).
  - split; [simpl; lia|]. eapply mat_is_ext; [|exact Ha]. intros r c _ _. mat_cases.
  - intros j [a' p] Hj [Hp Ha']. cbn [fst snd] in Hp, Ha'. subst p. split; cbn [fst snd]; [lia|].
    eapply mat_is_ext; [|exact (mat_is_mset rows k a' _ i j _ Ha' Hi Hj)]. intros r c Hr Hc. mat_cases.
Qed.

Lemma gf_gen_cauchy1_matrix_is m k a :
  (k * m <= length a)%nat -> (k <= m)%nat -> mat_is m k (gf_gen_cauchy1_matrix a m k) (cauchy_entry k).
Proof.
  intros Hl Hk. unfold gf_gen_cauchy1_matrix. rewrite fold_left_seq_shift.
  set (a1 := fold_left _ (seq 0 k) _). pose proof (gen_top_is m k a Hl Hk) as H1. fold a1 in H1.
  pose (P := fun (i : nat) (st : list Z * nat) => st.2 = ((k + i) * k)%nat /\
    mat_is m k st.1 (fun r c => if decide (r < k + i)%nat then cauchy_entry k r c else 0)).
  match goal with |- context [fold_left ?f (seq 0 (m - k)) ?s] =>
    assert (P (m - k)%nat (fold_left f (seq 0 (m - k)) s)) as [_ H2]; [apply (fold_left_inv P)|]
  end.
  - split; [simpl; lia|]. eapply mat_is_ext; [|exact H1]. intros r c Hr Hc. unfold cauchy_entry. mat_cases.
  - intros i [a' p] Hi [Hp Ha']. cbn [fst snd] in Hp, Ha'. subst p.
    destruct (cauchy_row_is m k a' _ (k + i) Ha' ltac:(lia)) as [Hp Hrow]. split; [rewrite Hp; lia|].
    eapply mat_is_ext; [|exact Hrow]. intros r c Hr Hc. cbn beta.
    repeat (case_decide; subst); try lia; try done. unfold cauchy_entry. by rewrite decide_False by lia.
  - match type of H2 with mat_is _ _ (?x.1) _ => destruct x as [a' p] end.
    eapply mat_is_ext; [|exact H2]. intros r c Hr Hc. mat_cases.
Qed.
