(* ===== verification/Mds.v ===== *)
(** Any [k] of the [m] rows of the generator matrices can be inverted: all the [m] = 256
    rows the Cauchy matrix can have, and the two first parity rows of the Reed-Solomon
    matrix, which are the P and Q of RAID-6. *)

From S2P Require Import Prelude GF256 PageMem EcTables Matrix.

(** * Sums of simple fractions *)

Definition csum (l : list (gf * gf)) (t : gf) : gf :=
  foldr (fun '(x, y) acc => (x / (t + y) + acc)%gf) g0 l.

Lemma csum_cons x y l t : csum ((x, y) :: l) t = (x / (t + y) + csum l t)%gf.
Proof. done. Qed.

Lemma gadd_eq_0 (x y : gf) : (x + y)%gf = g0 -> x = y.
Proof.
  intros H. transitivity ((x + y) + y)%gf; [ring|]. rewrite H. ring.
Qed.

Lemma gmul_eq_0 (x y : gf) : (x * y)%gf = g0 -> x <> g0 -> y = g0.
Proof. intros H Hx. transitivity (ginv x * (x * y))%gf; [by field|]. rewrite H. ring. Qed.

Lemma gadd_ne_0 (x y : gf) : x <> y -> (x + y)%gf <> g0.
Proof. intros Hne H. by apply Hne, gadd_eq_0. Qed.

Definition cauchy_reduce (te ye : gf) (l : list (gf * gf)) : list (gf * gf) :=
  map (fun '(x, y) => (x * (y + ye) / (te + y), y)%gf) l.

Lemma csum_reduce l t te ye :
  (forall p, p ∈ l -> t <> p.2 /\ te <> p.2) ->
  ((t + te) * csum (cauchy_reduce te ye l) t = (t + ye) * csum l t + (te + ye) * csum l te)%gf.
Proof.
  induction l as [|[x y] l IH]; intros Hl; simpl; [ring|].
  destruct (Hl (x, y)) as [Ht Hte]; [set_solver|]. cbn in Ht, Hte.
  pose proof (gadd_ne_0 _ _ Ht). pose proof (gadd_ne_0 _ _ Hte).
  transitivity ((t + te) * (x * (y + ye) / (te + y) / (t + y)) +
    (t + te) * csum (cauchy_reduce te ye l) t)%gf; [ring|].
  rewrite IH by set_solver. field. auto.
Qed.

Lemma snd_cauchy_reduce te ye l : map snd (cauchy_reduce te ye l) = map snd l.
Proof. unfold cauchy_reduce. rewrite map_map. apply map_ext. by intros [x y]. Qed.

Lemma elem_of_cauchy_reduce te ye l x y :
  (x, y) ∈ l -> ((x * (y + ye) / (te + y))%gf, y) ∈ cauchy_reduce te ye l.
Proof.
  intros H. apply list_elem_of_In, in_map_iff. exists (x, y). split; [done|by apply list_elem_of_In].
Qed.

Lemma csum_0 l t : (forall p, p ∈ l -> p.1 = g0) -> csum l t = g0.
Proof.
  intros Hl. induction l as [|[x y] l IH]; [done|]. rewrite csum_cons, IH by set_solver.
  assert (x = g0) as -> by (apply (Hl (x, y)); set_solver). unfold gdiv. ring.
Qed.

(** A sum of [n] simple fractions with [n] zeros is identically zero. *)
Lemma csum_vanish l ts :
  length ts = length l -> NoDup (map snd l) -> NoDup ts ->
  (forall t p, t ∈ ts -> p ∈ l -> t <> p.2) -> (forall t, t ∈ ts -> csum l t = g0) ->
  forall p, p ∈ l -> p.1 = g0.
Proof.
  revert l. induction ts as [|te ts IH]; intros [|[xe ye] l] Hlen Hys Hts Hne Hz; try done.
  { intros p Hp. set_solver. }
  cbn [map snd] in Hys. inversion_clear Hys as [|? ? Hye Hys']. inversion_clear Hts as [|? ? Hte Hts'].
  assert (forall t, t ∈ te :: ts -> (t + ye)%gf <> g0) as Hdye
    by (intros t Ht; apply gadd_ne_0, (Hne t (xe, ye)); [done|set_solver]).
  assert (forall p, p ∈ cauchy_reduce te ye l -> p.1 = g0) as Hred.
  { apply IH; [unfold cauchy_reduce; rewrite length_map; simpl in Hlen; lia|by rewrite snd_cauchy_reduce|done|..].
    - intros t p Ht Hp. apply list_elem_of_In, in_map_iff in Hp as ([x y] & <- & Hin%list_elem_of_In).
      apply (Hne t (x, y)); set_solver.
    - intros t Ht. apply (gmul_eq_0 (t + te)); [|apply gadd_ne_0; by intros ->].
      rewrite (csum_reduce l t te ye) by (intros; split; apply Hne; set_solver).
      pose proof (Hz t ltac:(set_solver)) as H1. pose proof (Hz te ltac:(set_solver)) as H2.
      pose proof (Hdye t ltac:(set_solver)). pose proof (Hdye te ltac:(set_solver)).
      rewrite csum_cons in H1, H2. apply gadd_eq_0 in H1, H2. rewrite <- H1, <- H2. by field. }
  assert (forall p, p ∈ l -> p.1 = g0) as Hl.
  { intros [x y] Hp. assert ((te + y)%gf <> g0) by (apply gadd_ne_0, (Hne te (x, y)); set_solver).
    apply (gmul_eq_0 (y + ye)); cbn [fst].
    - transitivity (x * (y + ye) / (te + y) * (te + y))%gf; [by field|].
      pose proof (Hred _ (elem_of_cauchy_reduce te ye l x y Hp)) as H0. cbn [fst] in H0. rewrite H0. ring.
    - apply gadd_ne_0. intros ->. apply Hye, list_elem_of_In, in_map_iff. exists (x, ye).
      split; [done|by apply list_elem_of_In]. }
  intros p [->|Hp]%elem_of_cons; [|auto]. cbn.
  pose proof (Hz te ltac:(set_solver)) as H2. rewrite csum_cons, csum_0 in H2 by done.
  pose proof (Hdye te ltac:(set_solver)). transitivity ((xe / (te + ye) + g0) * (te + ye))%gf; [by field|].
  rewrite H2. ring.
Qed.

Lemma csum_app l1 l2 t : csum (l1 ++ l2) t = (csum l1 t + csum l2 t)%gf.
Proof.
  induction l1 as [|[x y] l1 IH]; [change (csum l2 t = (g0 + csum l2 t)%gf); ring|]. cbn [app]. rewrite !csum_cons, IH. ring.
Qed.

Lemma gfsum_csum n f x t (P : nat -> Prop) `{!forall c, Decision (P c)} :
  (forall c, (c < n)%nat -> is_u8 (f c)) ->
  (forall c, (c < n)%nat -> P c -> to_gf (f c) = (to_gf (x c) / (t + to_gf (Z.of_nat c)))%gf) ->
  (forall c, (c < n)%nat -> ~ P c -> f c = 0) ->
  to_gf (gfsum n f) = csum (map (fun c => (to_gf (x c), to_gf (Z.of_nat c))) (filter P (seq 0 n))) t.
Proof.
  intros H8 HP H0. induction n as [|n IH]; [by apply gf_eq|].
  rewrite gfsum_S, seq_S, list.filter_app, map_app, csum_app, <- IH, to_gf_lxor by auto using gfsum_u8 with lia.
  f_equal. rewrite filter_cons, filter_nil. simpl plus. destruct (decide (P n)) as [Hn|Hn].
  - cbn [map]. rewrite csum_cons, HP by (done || lia). change (csum [] t) with g0. ring.
  - rewrite H0 by (done || lia). by apply gf_eq.
Qed.

(** * Selections of rows *)

Lemma length_filter_split {A} (P : A -> Prop) `{!forall x, Decision (P x)} (l : list A) :
  (length (filter P l) + length (filter (fun x => ~ P x) l) = length l)%nat.
Proof.
  induction l as [|x l IH]; [done|]. rewrite !filter_cons. repeat case_decide; simpl; first [lia|tauto].
Qed.

Section Selection.
Context (k m : nat) (sel : list nat).
Context (Hlen : length sel = k) (Hnd : NoDup sel) (Hm : forall s, s ∈ sel -> (s < m)%nat).

(** The erased data columns and the parity rows that stand in for them. *)
Definition erased : list nat := filter (fun c => c ∉ sel) (seq 0 k).
Definition parity_rows : list nat := filter (fun s => (k <= s)%nat) sel.

Lemma length_erased : length erased = length parity_rows.
Proof.
  pose proof (length_filter_split (fun c => c ∈ sel) (seq 0 k)) as H1. rewrite length_seq in H1.
  pose proof (length_filter_split (fun s => (s < k)%nat) sel) as H2.
  assert (filter (fun c => c ∈ sel) (seq 0 k) ≡ₚ filter (fun s => (s < k)%nat) sel) as Hp.
  { apply NoDup_Permutation; [apply list.NoDup_filter, NoDup_seq|by apply list.NoDup_filter|].
    intros x. rewrite !list_elem_of_filter, elem_of_seq. split; intros []; (split; [|]); done || lia. }
  apply Permutation_length in Hp.
  cbv beta in H1, H2.
  match type of H2 with (_ + length ?l = _)%nat =>
    assert (l = parity_rows) as Hq by (apply list_filter_iff; intros s; lia) end.
  rewrite Hq in H2. unfold erased. cbn beta in *. lia.
Qed.

Lemma erased_nodup : NoDup erased.
Proof. apply list.NoDup_filter, NoDup_seq. Qed.

Lemma parity_rows_nodup : NoDup parity_rows.
Proof. by apply list.NoDup_filter. Qed.

Lemma sel_index s : s ∈ sel -> exists r, (r < k)%nat /\ ptr sel r = s.
Proof.
  intros Hs. apply list_elem_of_lookup_1 in Hs as [r Hr]. exists r. split.
  - rewrite <- Hlen. by eapply lookup_lt_Some.
  - unfold ptr. by rewrite Hr.
Qed.

(** A vector of the kernel is zero on the selected data columns. *)
Lemma kernel_selected entry x c :
  (forall r c, (r < k)%nat -> (c < k)%nat -> entry r c = delta r c) -> bytes_vec k x ->
  kernel k (fun r c => entry (ptr sel r) c) x -> (c < k)%nat -> c ∈ sel -> x c = 0.
Proof.
  intros He Hx HK Hc Hs. destruct (sel_index c Hs) as (r & Hr & Hrc).
  rewrite <- (HK r Hr). unfold mvec. rewrite (gfsum_single k _ c); [|done|].
  - rewrite Hrc, He by done. unfold delta. rewrite decide_True by done. symmetry. apply gfmul_1_l. auto.
  - intros t Ht Hne. rewrite Hrc, He by done. unfold delta. rewrite decide_False by done. apply gfmul_0_l.
Qed.

(** It is zero on all of them if it is zero on the erased ones. *)
Lemma kernel_trivial entry x :
  (forall r c, (r < k)%nat -> (c < k)%nat -> entry r c = delta r c) -> bytes_vec k x ->
  kernel k (fun r c => entry (ptr sel r) c) x -> (forall c, c ∈ erased -> x c = 0) ->
  forall c, (c < k)%nat -> x c = 0.
Proof.
  intros He Hx HK H c Hc. destruct (decide (c ∈ sel)).
  - by apply (kernel_selected entry).
  - apply H. apply list_elem_of_filter. split; [done|]. apply elem_of_seq. lia.
Qed.
End Selection.

Lemma to_gf_eq_0 z : is_u8 z -> to_gf z = g0 -> z = 0.
Proof. intros Hz H. apply (to_gf_inj z 0); auto with md. rewrite H. by apply gf_eq. Qed.

Lemma to_gf_gf_inv z : is_u8 z -> to_gf (gf_inv z) = ginv (to_gf z).
Proof.
  intros Hz. apply gf_eq. rewrite gf_z_to_gf by auto with md. simpl. rewrite u8_id by done.
  by apply gf_inv_gfinv.
Qed.

Lemma is_u8_nat n : (n < 256)%nat -> is_u8 (Z.of_nat n).
Proof. unfold is_u8. lia. Qed.

Lemma to_gf_nat_inj a b : (a < 256)%nat -> (b < 256)%nat -> to_gf (Z.of_nat a) = to_gf (Z.of_nat b) -> a = b.
Proof. intros Ha Hb H. apply to_gf_inj in H; auto using is_u8_nat. lia. Qed.

(** * The Cauchy matrix *)

Lemma cauchy_entry_top k r c : (r < k)%nat -> cauchy_entry k r c = delta r c.
Proof. intros Hr. unfold cauchy_entry. by rewrite decide_True. Qed.

Lemma cauchy_entry_u8 k r c : (r < 256)%nat -> (c < 256)%nat -> is_u8 (cauchy_entry k r c).
Proof.
  intros Hr Hc. unfold cauchy_entry, delta. repeat case_decide; auto with md.
Qed.

Lemma cauchy_entry_gf k t c :
  (k <= t < 256)%nat -> (c < 256)%nat ->
  to_gf (cauchy_entry k t c) = ginv (to_gf (Z.of_nat t) + to_gf (Z.of_nat c)).
Proof.
  intros Ht Hc. unfold cauchy_entry. rewrite decide_False by lia.
  rewrite to_gf_gf_inv by auto with md. f_equal.
  rewrite u8_id, to_gf_lxor by auto using is_u8_nat, is_u8_lxor with lia. done.
Qed.

Lemma NoDup_map_inj {A B} (f : A -> B) l :
  (forall x y, x ∈ l -> y ∈ l -> f x = f y -> x = y) -> NoDup l -> NoDup (map f l).
Proof.
  intros Hf Hnd. induction Hnd as [|x l Hx Hnd IH]; [constructor|]. cbn. constructor.
  - intros (y & Hy & Hin)%list_elem_of_In%in_map_iff. apply list_elem_of_In in Hin.
    apply Hx. rewrite <- (Hf y x); set_solver.
  - apply IH. set_solver.
Qed.

Lemma cauchy_nonsingular k m sel x :
  (m <= 256)%nat -> (k <= m)%nat -> length sel = k -> NoDup sel -> (forall s, s ∈ sel -> (s < m)%nat) ->
  bytes_vec k x -> kernel k (fun r c => cauchy_entry k (ptr sel r) c) x -> forall c, (c < k)%nat -> x c = 0.
Proof.
  intros Hm Hk Hlen Hnd Hsel Hx HK.
  assert (forall r c, (r < k)%nat -> (c < k)%nat -> cauchy_entry k r c = delta r c) as Htop
    by (intros; by apply cauchy_entry_top).
  apply (kernel_trivial k sel Hlen _ x Htop Hx HK).
  set (E := erased k sel). set (T := parity_rows k sel).
  assert (forall c, c ∈ E -> (c < k)%nat) as HE.
  { intros c [_ Hc]%list_elem_of_filter. apply elem_of_seq in Hc. lia. }
  assert (forall t, t ∈ T -> t ∈ sel /\ (k <= t < m)%nat) as HT.
  { intros t [Ht Hin]%list_elem_of_filter. split; [done|]. split; [done|auto]. }
  assert (forall p, p ∈ map (fun c => (to_gf (x c), to_gf (Z.of_nat c))) E -> p.1 = g0) as Hz.
  { apply (csum_vanish _ (map (fun t => to_gf (Z.of_nat t)) T)).
    - rewrite !length_map. symmetry. by apply length_erased.
    - rewrite map_map. cbn [snd]. apply NoDup_map_inj; [|apply erased_nodup].
      intros a b Ha%HE Hb%HE. apply to_gf_nat_inj; lia.
    - apply NoDup_map_inj; [|by apply parity_rows_nodup].
      intros a b Ha%HT Hb%HT. apply to_gf_nat_inj; lia.
    - intros t p (t' & <- & Ht'%list_elem_of_In%HT)%list_elem_of_In%in_map_iff
        (c & <- & Hc%list_elem_of_In%HE)%list_elem_of_In%in_map_iff.
      cbn. intros Heq%to_gf_nat_inj; lia.
    - intros t (t' & <- & Ht'%list_elem_of_In)%list_elem_of_In%in_map_iff.
      destruct (HT t' Ht') as [Hin Hlt]. destruct (sel_index k sel Hlen t' Hin) as (r & Hr & <-).
      unfold E, erased. rewrite <- (gfsum_csum k (fun c => gfmul (cauchy_entry k (ptr sel r) c) (x c)) x _ (fun c => c ∉ sel)).
      + unfold kernel, mvec in HK. rewrite (HK r Hr). by apply gf_eq.
      + intros c Hc. apply is_u8_gfmul, cauchy_entry_u8; lia.
      + intros c Hc _. rewrite to_gf_gfmul by (try apply cauchy_entry_u8; auto with lia).
        rewrite cauchy_entry_gf by lia. unfold gdiv. ring.
      + intros c Hc Hin'. apply dec_stable in Hin'.
        rewrite (kernel_selected k sel Hlen _ x c Htop Hx HK) by done. apply gfmul_0_r. }
  intros c Hc. apply to_gf_eq_0; [apply Hx; auto|].
  apply (Hz (to_gf (x c), to_gf (Z.of_nat c))). apply list_elem_of_In, in_map_iff. exists c.
  split; [done|by apply list_elem_of_In].
Qed.

(** * The Reed-Solomon matrix with P and Q *)

Lemma gfsum_pair n f a b :
  (a < n)%nat -> (b < n)%nat -> a <> b ->
  (forall i, (i < n)%nat -> i <> a -> i <> b -> f i = 0) -> gfsum n f = f a ⊕ f b.
Proof.
  intros Ha Hb Hab H.
  rewrite (gfsum_ext n f (fun i => (if decide (i = a) then f a else 0) ⊕ (if decide (i = b) then f b else 0))).
  - rewrite gfsum_lxor, (gfsum_single n _ a), (gfsum_single n _ b); try done.
    + by rewrite !decide_True.
    + intros. by rewrite decide_False.
    + intros. by rewrite decide_False.
  - intros i Hi. repeat case_decide; subst; rewrite ?Z.lxor_0_r, ?Z.lxor_0_l; auto. done.
Qed.

Lemma rs_entry_top k r c : (r < k)%nat -> rs_entry k r c = delta r c.
Proof. intros Hr. unfold rs_entry. by rewrite decide_True. Qed.

Lemma rs_entry_u8 k r c : is_u8 (rs_entry k r c).
Proof. unfold rs_entry, delta. repeat case_decide; auto with md. Qed.

Lemma rs_entry_p k c : rs_entry k k c = 1.
Proof. unfold rs_entry. rewrite decide_False by lia. by rewrite Nat.sub_diag. Qed.

Lemma rs_entry_q k c : rs_entry k (S k) c = alpha c.
Proof. unfold rs_entry. rewrite decide_False by lia. f_equal. lia. Qed.

(** Two unknowns and the two equations of P and Q. *)
Lemma pq_unique xa xb a b :
  is_u8 xa -> is_u8 xb -> (a < b < 255)%nat -> xa ⊕ xb = 0 ->
  gfmul (alpha a) xa ⊕ gfmul (alpha b) xb = 0 -> xa = 0 /\ xb = 0.
Proof.
  intros Ha Hb Hab Hp Hq. apply Z.lxor_eq in Hp. subst xb. split; [|].
  all: rewrite <- gfmul_lxor_l in Hq; apply gfmul_eq_0 in Hq; auto with md;
    destruct Hq as [Hq|]; [|done]; by apply alpha_lxor_ne_0 in Hq.
Qed.

Section RsPq.
Context (k : nat) (sel : list nat) (x : nat -> Z).
Context (Hk : (k <= 255)%nat) (Hlen : length sel = k) (Hnd : NoDup sel).
Context (Hsel : forall s, s ∈ sel -> (s < k + 2)%nat) (Hx : bytes_vec k x).
Context (HK : kernel k (fun r c => rs_entry k (ptr sel r) c) x).

Lemma rs_kernel_row t : t ∈ sel -> mvec k (rs_entry k) x t = 0.
Proof. intros Ht. destruct (sel_index k sel Hlen t Ht) as (r & Hr & <-). by apply HK. Qed.

Lemma rs_outside c : (c < k)%nat -> c ∉ erased k sel -> x c = 0.
Proof.
  intros Hc Hni. apply (kernel_selected k sel Hlen (rs_entry k) x c); auto using rs_entry_top.
  destruct (decide (c ∈ sel)); [done|]. exfalso. apply Hni, list_elem_of_filter. split; [done|].
  apply elem_of_seq. lia.
Qed.

Lemma rs_erased_lt c : c ∈ erased k sel -> (c < k)%nat.
Proof. intros [_ Hc]%list_elem_of_filter. apply elem_of_seq in Hc. lia. Qed.

Lemma rs_one a t : erased k sel = [a] -> t ∈ sel -> (k <= t)%nat -> x a = 0.
Proof.
  intros HE Ht Hkt. assert (a < k)%nat as Ha by (apply rs_erased_lt; rewrite HE; set_solver).
  pose proof (rs_kernel_row t Ht) as H. unfold mvec in H. rewrite (gfsum_single k _ a) in H; [|done|].
  - apply gfmul_eq_0 in H as [H|]; [|done|apply rs_entry_u8|auto]. exfalso.
    unfold rs_entry in H. rewrite decide_False in H by lia. by apply alpha_ne_0 in H.
  - intros c Hc Hca. rewrite rs_outside; [apply gfmul_0_r|done|]. rewrite HE. set_solver.
Qed.

Lemma rs_two a b : erased k sel = [a; b] -> k ∈ sel -> S k ∈ sel -> x a = 0 /\ x b = 0.
Proof.
  intros HE Hp Hq. pose proof (erased_nodup k sel) as Hndup. rewrite HE in Hndup.
  assert (a <> b) as Hab by (intros ->; inversion_clear Hndup; set_solver).
  assert (a < k)%nat as Ha by (apply rs_erased_lt; rewrite HE; set_solver).
  assert (b < k)%nat as Hb by (apply rs_erased_lt; rewrite HE; set_solver).
  assert (forall t, t ∈ sel -> gfmul (rs_entry k t a) (x a) ⊕ gfmul (rs_entry k t b) (x b) = 0) as Hrow.
  { intros t Ht. rewrite <- (rs_kernel_row t Ht). unfold mvec. symmetry.
    apply (gfsum_pair k (fun c => gfmul (rs_entry k t c) (x c)) a b Ha Hb Hab).
    intros c Hc Hca Hcb. rewrite rs_outside; [apply gfmul_0_r|done|]. rewrite HE. set_solver. }
  pose proof (Hrow k Hp) as H1. rewrite !rs_entry_p, !gfmul_1_l in H1 by auto.
  pose proof (Hrow (S k) Hq) as H2. rewrite !rs_entry_q in H2.
  destruct (decide (a < b)%nat); [apply (pq_unique _ _ a b); auto with lia|].
  rewrite Z.lxor_comm in H1, H2. destruct (pq_unique (x b) (x a) b a); auto with lia.
Qed.

Lemma rs_nonsingular c : (c < k)%nat -> x c = 0.
Proof.
  apply (kernel_trivial k sel Hlen (rs_entry k) x); auto using rs_entry_top.
  pose proof (length_erased k sel Hlen Hnd) as Hlen2. pose proof (parity_rows_nodup k sel Hnd) as HndT.
  assert (forall t, t ∈ parity_rows k sel -> t ∈ sel /\ (t = k \/ t = S k)) as HT.
  { intros t [Ht Hin]%list_elem_of_filter. split; [done|]. apply Hsel in Hin. lia. }
  destruct (parity_rows k sel) as [|t1 [|t2 [|t3 T]]] eqn:ET.
  - apply nil_length_inv in Hlen2. rewrite Hlen2. set_solver.
  - destruct (erased k sel) as [|a [|]] eqn:HE; try done. destruct (HT t1 ltac:(set_solver)) as [Hin Ht].
    intros c' Hc'. assert (c' = a) as -> by set_solver. apply (rs_one a t1); [done|done|lia].
  - destruct (erased k sel) as [|a [|b [|]]] eqn:HE; try done.
    destruct (HT t1 ltac:(set_solver)) as [Hin1 Ht1]. destruct (HT t2 ltac:(set_solver)) as [Hin2 Ht2].
    assert (t1 <> t2) by (intros ->; inversion_clear HndT; set_solver).
    destruct (rs_two a b HE) as [Ha Hb]; [destruct Ht1, Ht2; subst; done..|].
    intros c' Hc'. assert (c' = a \/ c' = b) as [-> | ->] by set_solver; done.
  - exfalso. inversion_clear HndT as [|? ? Hn1 HndT1]. inversion_clear HndT1 as [|? ? Hn2 HndT2].
    destruct (HT t1 ltac:(set_solver)) as [_ H1]. destruct (HT t2 ltac:(set_solver)) as [_ H2].
    destruct (HT t3 ltac:(set_solver)) as [_ H3].
    assert (t1 <> t2) by set_solver. assert (t1 <> t3) by set_solver. assert (t2 <> t3) by set_solver. lia.
Qed.
End RsPq.

(** * Decoding *)

Lemma mvec_mmul n O A d r :
  (forall t, (t < n)%nat -> is_u8 (O r t)) -> bytes_mat n n A -> bytes_vec n d ->
  mvec n O (mvec n A d) r = mvec n (mmul n O A) d r.
Proof.
  intros HO HA Hd. unfold mvec, mmul.
  rewrite (gfsum_ext n _ (fun t => gfsum n (fun j => gfmul (gfmul (O r t) (A t j)) (d j)))).
  - rewrite gfsum_swap. apply gfsum_ext. intros j Hj. by rewrite gfmul_gfsum_l.
  - intros t Ht. rewrite gfmul_gfsum. apply gfsum_ext. intros j Hj. apply gfmul_assoc; auto.
Qed.

Lemma mvec_delta n d r : bytes_vec n d -> (r < n)%nat -> mvec n delta d r = d r.
Proof.
  intros Hd Hr. unfold mvec. rewrite (gfsum_single n _ r); [|done|].
  - unfold delta. rewrite decide_True by done. apply gfmul_1_l. auto.
  - intros t Ht Hne. unfold delta. rewrite decide_False by done. apply gfmul_0_l.
Qed.

Lemma mvec_ext n A B d r :
  (forall c, (c < n)%nat -> A r c = B r c) -> mvec n A d r = mvec n B d r.
Proof. intros H. apply gfsum_ext. intros c Hc. by rewrite H. Qed.

Lemma mvec_inverse n O A d r :
  bytes_mat n n O -> bytes_mat n n A -> bytes_vec n d -> (r < n)%nat ->
  (forall r c, (r < n)%nat -> (c < n)%nat -> mmul n O A r c = delta r c) ->
  mvec n O (mvec n A d) r = d r.
Proof.
  intros HO HA Hd Hr Hinv. rewrite mvec_mmul by auto. rewrite <- (mvec_delta n d r Hd Hr).
  apply mvec_ext. auto.
Qed.

(** A matrix with a trivial kernel is inverted. *)
Lemma gf_invert_matrix_nonsingular n in_mat out_mat A :
  mat_is n n in_mat A -> bytes_mat n n A -> (n * n <= length out_mat)%nat ->
  (forall x, bytes_vec n x -> kernel n A x -> forall c, (c < n)%nat -> x c = 0) ->
  let '(ret, (_, inv)) := gf_invert_matrix n in_mat out_mat in
  ret = 0 /\ exists O, mat_is n n inv O /\ bytes_mat n n O /\
    forall r c, (r < n)%nat -> (c < n)%nat -> mmul n O A r c = delta r c.
Proof.
  intros Hin HA Hout Hker. pose proof (gf_invert_matrix_ok n in_mat out_mat A Hin HA Hout) as H.
  destruct (gf_invert_matrix n in_mat out_mat) as [ret [inm inv]]. destruct H as [H|(_ & x & j & Hx & Hj & H1 & HK)]; [done|].
  rewrite (Hker x Hx HK j Hj) in H1. lia.
Qed.
