(* ===== verification/Gfni.v ===== *)
(** The GFNI kernels of isa-l: dot products and multiply-accumulates over GF(2^8) with
    the vgf2p8affineqb instruction on 256-bit and 512-bit registers, and the dispatchers
    of isa-l/gfni_glue.c built on them. *)

From S2P Require Import Prelude GF256 PageMem EcTables.

(** * Vector registers and instructions *)

(** A register of [w] bytes is a list of [w] bytes. *)

(** [_mm256_loadu_si256] / [_mm512_loadu_si512] at [l + off]. *)
Definition vload (w : nat) (l : list Z) (off : nat) : list Z :=
  map (fun j => pget l (off + j)) (seq 0 w).

(** [rem] bytes copied into a zeroed buffer and loaded, or a zero-masked load. *)
Definition vload_tail (w : nat) (l : list Z) (off rem : nat) : list Z :=
  map (fun j => if (j <? rem)%nat then pget l (off + j) else 0) (seq 0 w).

(** [_mm256_xor_si256], [vpxorq]. *)
Definition vxor (x y : list Z) : list Z := zip_with Z.lxor x y.

(** Parity of the bits of a byte. *)
Definition parity (x : Z) : bool := foldr (fun i acc => xorb (Z.testbit x i) acc) false (seqZ 0 8).

(** Byte [i] of a 64-bit word. *)
Definition qbyte (q : Z) (i : Z) : Z := Z.shiftr q (8 * i) mod 256.

(** The affine transformation of one byte by the bit matrix [q], immediate 0: bit [i] of
    the result is the parity of row [7 - i] and the byte. *)
Definition affine_byte (q x : Z) : Z :=
  foldr (fun i acc => (if parity (Z.land (qbyte q (7 - i)) x) then 2 ^ i else 0) ⊕ acc) 0 (seqZ 0 8).

(** The 64-bit word at offset [off] of an array. *)
Definition qword (l : list Z) (off : nat) : Z := le_combine (map (fun j => pget l (off + j)) (seq 0 8)).

(** [_mm256_gf2p8affine_epi64_epi8(x, g, 0)]: every 64-bit lane has its own matrix. *)
Definition affine256 (x g : list Z) : list Z :=
  imap (fun j b => affine_byte (qword g (8 * (j / 8))) b) x.

(** The same with one matrix broadcast to all lanes: [set1_epi64] or the embedded
    {1to8} broadcast. *)
Definition affine_bcast (x : list Z) (q : Z) : list Z := map (affine_byte q) x.

(** Multiplication of a register by the coefficient whose table is at [off]. *)
Definition mul_avx2 (g_tbls x : list Z) (off : nat) : list Z := affine256 x (vload 32 g_tbls off).
Definition mul_avx512 (g_tbls x : list Z) (off : nat) : list Z := affine_bcast x (qword g_tbls off).

(** * isa-l/gfni_glue.c: tables *)

(** [gf_vect_mul_init_gfni] writes four copies of the matrix. *)
Definition gf_vect_mul_init_gfni (c : Z) (tbl : list Z) (off : nat) : list Z :=
  let val := le_split 8 (gf_table_gfni.[c]) in
  splice tbl off (val ++ val ++ val ++ val).

Definition ec_init_tables_gfni (k rows : nat) (a g_tbls : list Z) : list Z :=
  fold_left (fun tbl i =>
      fold_left (fun tbl j => gf_vect_mul_init_gfni (pget a (i * k + j)) tbl (32 * (i * k + j)))
        (seq 0 k) tbl)
    (seq 0 rows) g_tbls.

(** * Dot products *)

Section DotProd.
(** [mulv] multiplies a register of [w] bytes; [nout] rows, [k] sources. *)
Context (mulv : list Z -> nat -> list Z) (w nout k : nat) (src dest : list addr).

(** The accumulator of row [r]: the loop over the [k] sources, whose tables are 32 bytes
    apart, with the rows [32 * k] bytes apart. *)
Definition dot_acc (m : mem) (ld : list Z -> list Z) (r : nat) : list Z :=
  fold_left (fun p i => vxor p (mulv (ld (page m (ptr src i))) (32 * i + r * (32 * k))))
    (seq 0 k) (replicate w 0).

(** The stores of one vector position: row after row. *)
Definition store_rows (m : mem) (off : nat) (ps : list (list Z)) : mem :=
  fold_left (fun m '(r, p) => store m (ptr dest r) off p) (zip (seq 0 (length ps)) ps) m.

(** A block of [nvec] vectors at [pos]: all accumulators, then all stores. *)
Definition dot_block (nvec pos : nat) (m : mem) : mem :=
  let accs := map (fun x =>
      map (fun r => dot_acc m (fun l => vload w l (pos + w * x)) r) (seq 0 nout)) (seq 0 nvec) in
  fold_left (fun m '(x, ps) => store_rows m (pos + w * x) ps) (zip (seq 0 nvec) accs) m.

(** The last [rem] bytes through a zeroed buffer (or masks). *)
Definition dot_tail (pos rem : nat) (m : mem) : mem :=
  let accs := map (fun r => dot_acc m (fun l => vload_tail w l pos rem) r) (seq 0 nout) in
  store_rows m pos (map (take rem) accs).

(** [for (; pos + w * nvec <= len; pos += w * nvec)]; [len] iterations are enough. *)
Fixpoint dot_loop (nvec len fuel pos : nat) (m : mem) : nat * mem :=
  match fuel with
  | O => (pos, m)
  | S fuel =>
    if (pos + w * nvec <=? len)%nat then dot_loop nvec len fuel (pos + w * nvec) (dot_block nvec pos m)
    else (pos, m)
  end.
End DotProd.

(** The AVX2 kernels: blocks of three registers, then of two, then one, then the rest. *)
Definition dot_prod_avx2 (nout len k : nat) (g_tbls : list Z) (src dest : list addr) (m : mem) : mem :=
  let block := dot_block (mul_avx2 g_tbls) 32 nout k src dest in
  let '(pos, m) := dot_loop (mul_avx2 g_tbls) 32 nout k src dest 3 len len 0 m in
  let '(pos, m) := if (pos + 64 <=? len)%nat then ((pos + 64)%nat, block 2%nat pos m) else (pos, m) in
  let '(pos, m) := if (pos + 32 <=? len)%nat then ((pos + 32)%nat, block 1%nat pos m) else (pos, m) in
  if (pos <? len)%nat then dot_tail (mul_avx2 g_tbls) 32 nout k src dest pos (len - pos) m else m.

(** The AVX-512 kernels: one register at a time, then a masked rest. *)
Definition dot_prod_avx512 (nout len k : nat) (g_tbls : list Z) (src dest : list addr) (m : mem) : mem :=
  let '(pos, m) := dot_loop (mul_avx512 g_tbls) 64 nout k src dest 1 len len 0 m in
  if (pos <? len)%nat then dot_tail (mul_avx512 g_tbls) 64 nout k src dest pos (len - pos) m else m.

Definition gf_vect_dot_prod_avx2_gfni len k g_tbls src (dest : addr) m :=
  dot_prod_avx2 1 len k g_tbls src [dest] m.
Definition gf_2vect_dot_prod_avx2_gfni := dot_prod_avx2 2.
Definition gf_3vect_dot_prod_avx2_gfni := dot_prod_avx2 3.
Definition gf_vect_dot_prod_avx512_gfni len k g_tbls src (dest : addr) m :=
  dot_prod_avx512 1 len k g_tbls src [dest] m.
Definition gf_2vect_dot_prod_avx512_gfni := dot_prod_avx512 2.
Definition gf_3vect_dot_prod_avx512_gfni := dot_prod_avx512 3.
Definition gf_4vect_dot_prod_avx512_gfni := dot_prod_avx512 4.
Definition gf_5vect_dot_prod_avx512_gfni := dot_prod_avx512 5.
Definition gf_6vect_dot_prod_avx512_gfni := dot_prod_avx512 6.

(** * Multiply-accumulate *)

Section Mad.
Context (w nout vec vec_i : nat) (gftbls : list Z) (src : addr) (dest : list addr).

(** [gft] of row [r]: the matrix at [gftbls + vec_i * 32 + r * vec * 32], broadcast. *)
Definition mad_gft (r : nat) : Z := qword gftbls (vec_i * 32 + r * (vec * 32)).

(** One register of the source: load the rows, accumulate, store the rows. *)
Definition mad_vec (m : mem) (x : list Z) (off : nat) : mem :=
  let ds := map (fun r => vxor (vload w (page m (ptr dest r)) off) (affine_bcast x (mad_gft r))) (seq 0 nout) in
  store_rows dest m off ds.

(** A block: the source registers first, then register after register. *)
Definition mad_block (nvec pos : nat) (m : mem) : mem :=
  let xs := map (fun x => vload w (page m src) (pos + w * x)) (seq 0 nvec) in
  fold_left (fun m '(x, xv) => mad_vec m xv (pos + w * x)) (zip (seq 0 nvec) xs) m.

(** The block of the single-row kernel loads all of the destination before it stores. *)
Definition mad_block1 (nvec pos : nat) (m : mem) : mem :=
  let xs := map (fun x => vload w (page m src) (pos + w * x)) (seq 0 nvec) in
  let ds := map (fun x => vload w (page m (ptr dest 0)) (pos + w * x)) (seq 0 nvec) in
  let ds := zip_with (fun d x => vxor d (affine_bcast x (mad_gft 0))) ds xs in
  fold_left (fun m '(x, d) => store m (ptr dest 0) (pos + w * x) d) (zip (seq 0 nvec) ds) m.

(** The rest, row after row through zeroed buffers. *)
Definition mad_tail (pos rem : nat) (m : mem) : mem :=
  let x := vload_tail w (page m src) pos rem in
  fold_left (fun m r =>
      let d := vxor (vload_tail w (page m (ptr dest r)) pos rem) (affine_bcast x (mad_gft r)) in
      store m (ptr dest r) pos (take rem d))
    (seq 0 nout) m.

(** The rest with masked loads and stores. *)
Definition mad_tail_masked (pos rem : nat) (m : mem) : mem :=
  let x := vload_tail w (page m src) pos rem in
  let ds := map (fun r =>
      vxor (vload_tail w (page m (ptr dest r)) pos rem) (affine_bcast x (mad_gft r))) (seq 0 nout) in
  store_rows dest m pos (map (take rem) ds).

Fixpoint mad_loop (block : nat -> nat -> mem -> mem) (nvec len fuel pos : nat) (m : mem) : nat * mem :=
  match fuel with
  | O => (pos, m)
  | S fuel =>
    if (pos + w * nvec <=? len)%nat then mad_loop block nvec len fuel (pos + w * nvec) (block nvec pos m)
    else (pos, m)
  end.
End Mad.

(** The AVX2 kernels share their block schedule with the dot products. *)
Definition mad_avx2 (block : nat -> nat -> mem -> mem) (tail : nat -> nat -> mem -> mem) (len : nat) (m : mem) : mem :=
  let '(pos, m) := mad_loop 32 block 3 len len 0 m in
  let '(pos, m) := if (pos + 64 <=? len)%nat then ((pos + 64)%nat, block 2%nat pos m) else (pos, m) in
  let '(pos, m) := if (pos + 32 <=? len)%nat then ((pos + 32)%nat, block 1%nat pos m) else (pos, m) in
  if (pos <? len)%nat then tail pos (len - pos)%nat m else m.

Definition gf_vect_mad_avx2_gfni (len vec vec_i : nat) (gftbls : list Z) (src dest : addr) (m : mem) : mem :=
  mad_avx2 (mad_block1 32 vec vec_i gftbls src [dest]) (mad_tail 32 1 vec vec_i gftbls src [dest]) len m.

Definition gf_2vect_mad_avx2_gfni (len vec vec_i : nat) (gftbls : list Z) (src : addr) (dest : list addr) (m : mem) : mem :=
  mad_avx2 (mad_block 32 2 vec vec_i gftbls src dest) (mad_tail 32 2 vec vec_i gftbls src dest) len m.

Definition gf_2vect_mad_avx512_gfni (len vec vec_i : nat) (gftbls : list Z) (src : addr) (dest : list addr) (m : mem) : mem :=
  let '(pos, m) := mad_loop 64 (mad_block 64 2 vec vec_i gftbls src dest) 1 len len 0 m in
  if (pos <? len)%nat then mad_tail_masked 64 2 vec vec_i gftbls src dest pos (len - pos) m else m.

(** * isa-l/gfni_glue.c: dispatch over the rows *)

(** [while (rows >= 3) ...; switch (rows)]; [rows] iterations are enough. *)
Fixpoint encode_avx2_loop (fuel len k rows : nat) (g_tbls : list Z) (data coding : list addr) (m : mem) : mem :=
  match fuel with
  | S fuel =>
    if (3 <=? rows)%nat then
      let m := gf_3vect_dot_prod_avx2_gfni len k g_tbls data coding m in
      encode_avx2_loop fuel len k (rows - 3) (drop (3 * k * 32) g_tbls) data (drop 3 coding) m
    else
      match rows with
      | 2%nat => gf_2vect_dot_prod_avx2_gfni len k g_tbls data coding m
      | 1%nat => gf_vect_dot_prod_avx2_gfni len k g_tbls data (ptr coding 0) m
      | _ => m
      end
  | O => m
  end.

Definition ec_encode_data_avx2_gfni len k rows g_tbls data coding m : mem :=
  encode_avx2_loop (S rows) len k rows g_tbls data coding m.

Fixpoint encode_avx512_loop (fuel len k rows : nat) (g_tbls : list Z) (data coding : list addr) (m : mem) : mem :=
  match fuel with
  | S fuel =>
    if (6 <=? rows)%nat then
      let m := gf_6vect_dot_prod_avx512_gfni len k g_tbls data coding m in
      encode_avx512_loop fuel len k (rows - 6) (drop (6 * k * 32) g_tbls) data (drop 6 coding) m
    else
      match rows with
      | 5%nat => gf_5vect_dot_prod_avx512_gfni len k g_tbls data coding m
      | 4%nat => gf_4vect_dot_prod_avx512_gfni len k g_tbls data coding m
      | 3%nat => gf_3vect_dot_prod_avx512_gfni len k g_tbls data coding m
      | 2%nat => gf_2vect_dot_prod_avx512_gfni len k g_tbls data coding m
      | 1%nat => gf_vect_dot_prod_avx512_gfni len k g_tbls data (ptr coding 0) m
      | _ => m
      end
  | O => m
  end.

Definition ec_encode_data_avx512_gfni len k rows g_tbls data coding m : mem :=
  encode_avx512_loop (S rows) len k rows g_tbls data coding m.

(** The incremental updates: pairs of rows, then a single one (always with AVX2). *)
Fixpoint update_loop (mad2 : nat -> nat -> nat -> list Z -> addr -> list addr -> mem -> mem)
    (fuel len k rows vec_i : nat) (g_tbls : list Z) (data : addr) (coding : list addr) (m : mem) : mem :=
  match fuel with
  | S fuel =>
    if (2 <=? rows)%nat then
      let m := mad2 len k vec_i g_tbls data coding m in
      update_loop mad2 fuel len k (rows - 2) vec_i (drop (2 * k * 32) g_tbls) data (drop 2 coding) m
    else if (rows =? 1)%nat then gf_vect_mad_avx2_gfni len k vec_i g_tbls data (ptr coding 0) m
    else m
  | O => m
  end.

Definition ec_encode_data_update_avx2_gfni len k rows vec_i g_tbls data coding m : mem :=
  update_loop gf_2vect_mad_avx2_gfni (S rows) len k rows vec_i g_tbls data coding m.

Definition ec_encode_data_update_avx512_gfni len k rows vec_i g_tbls data coding m : mem :=
  update_loop gf_2vect_mad_avx512_gfni (S rows) len k rows vec_i g_tbls data coding m.

Definition gf_vect_dot_prod_gfni len vec g_tbls src (dest : addr) m : mem :=
  gf_vect_dot_prod_avx2_gfni len vec g_tbls src dest m.
