(* ===== verification/GfniCorrect.v ===== *)
(** Correctness of the GFNI kernels: they compute matrix-vector products over GF(2^8)
    for every length, whatever the split into blocks and tails. *)

From S2P Require Import Prelude GF256 PageMem EcTables Gfni.

(** * The affine instruction multiplies *)

Lemma parity_lxor x y : parity (x ⊕ y) = xorb (parity x) (parity y).
Proof.
  unfold parity. induction (seqZ 0 8) as [|i l IH]; simpl; [done|].
  rewrite IH, Z.lxor_spec. btauto.
Qed.

Lemma affine_byte_linear q : linear (affine_byte q).
Proof.
  intros x y _ _. unfold affine_byte. induction (seqZ 0 8) as [|i l IH]; simpl; [done|].
  rewrite IH, land_lxor_distr, parity_lxor, lxor_swap4. f_equal.
  by destruct (parity _), (parity _); simpl; rewrite ?Z.lxor_0_r, ?Z.lxor_nilpotent.
Qed.

(** Every matrix of the table is the multiplication by its coefficient. *)
Lemma affine_byte_table c x : is_u8 c -> is_u8 x -> affine_byte (gf_table_gfni.[c]) x = gfmul c x.
Proof.
  intros Hc. apply linear_ext_check; [apply affine_byte_linear|apply linear_gfmul_r|].
  revert c Hc. apply (bytes_check (fun c => basis_check (affine_byte (gf_table_gfni.[c])) (gfmul c))).
  by vm_compute.
Qed.

(** * Tables in memory *)

(** The 32 bytes at [off] hold four copies of the matrix of [c]. *)
Definition table_at (g : list Z) (off : nat) (c : Z) : Prop :=
  forall t, (t < 4)%nat -> qword g (off + 8 * t) = gf_table_gfni.[c].

Lemma qword_vload w g off x : (x + 8 <= w)%nat -> qword (vload w g off) x = qword g (off + x).
Proof.
  intros Hx. unfold qword, vload. apply (f_equal le_combine), map_ext_in. intros j Hj%in_seq.
  rewrite pget_map_seq by lia. f_equal. lia.
Qed.

Section MulTable.
Context (g : list Z) (off : nat) (c : Z) (e : nat -> Z).
Context (Ht : table_at g off c) (Hc : is_u8 c) (He : forall j, is_u8 (e j)).

Lemma mul_avx2_ok w :
  (w <= 32)%nat -> mul_avx2 g (map e (seq 0 w)) off = map (fun j => gfmul c (e j)) (seq 0 w).
Proof.
  intros Hw. unfold mul_avx2, affine256. apply list_eq. intros j.
  rewrite list_lookup_imap, !list_lookup_fmap.
  destruct (decide (j < w)%nat); [|by rewrite !lookup_seq_ge by lia].
  rewrite !lookup_seq_lt by done. cbn [fmap option_fmap option_map plus]. f_equal.
  assert (j / 8 < 4)%nat by (apply Nat.Div0.div_lt_upper_bound; lia).
  rewrite qword_vload, Ht by lia. apply affine_byte_table; auto.
Qed.

Lemma mul_avx512_ok w : mul_avx512 g (map e (seq 0 w)) off = map (fun j => gfmul c (e j)) (seq 0 w).
Proof.
  unfold mul_avx512, affine_bcast. rewrite map_map. apply map_ext. intros j.
  specialize (Ht 0%nat ltac:(lia)). rewrite Nat.mul_0_r, Nat.add_0_r in Ht. rewrite Ht.
  apply affine_byte_table; auto.
Qed.
End MulTable.

(** The tables of the coefficients [a]. *)
Definition tables_ok (g a : list Z) (n : nat) : Prop :=
  forall i, (i < n)%nat -> table_at g (32 * i) (pget a i).

Lemma gf_table_gfni_bound c : is_u8 c -> 0 <= gf_table_gfni.[c] < 2 ^ 64.
Proof.
  intros Hc. pose proof (bytes_check (fun c => (0 <=? gf_table_gfni.[c]) && (gf_table_gfni.[c] <? 2 ^ 64))) as H.
  specialize (H ltac:(by vm_compute) c Hc). rewrite andb_true_iff, Z.leb_le, Z.ltb_lt in H. done.
Qed.

Lemma le_combine_split n v : 0 <= v < 256 ^ Z.of_nat n -> le_combine (le_split n v) = v.
Proof.
  revert v. induction n as [|n IH]; intros v Hv; [simpl in *; lia|]. cbn [le_split le_combine].
  rewrite Nat2Z.inj_succ, Z.pow_succ_r in Hv by lia.
  rewrite IH; [pose proof (Z.div_mod v 256); lia|].
  split; [apply Z.div_pos; lia|apply Z.div_lt_upper_bound; lia].
Qed.

(** A 64-bit word read inside, or outside, a stored block. *)
Lemma qword_splice_out l d bs x :
  (d + length bs <= length l)%nat -> (x + 8 <= d \/ d + length bs <= x)%nat ->
  qword (splice l d bs) x = qword l x.
Proof.
  intros Hlen Hx. unfold qword. apply (f_equal le_combine), map_ext_in. intros j Hj%in_seq.
  rewrite pget_splice by done. case_decide; [lia|done].
Qed.

Lemma qword_splice_in l d bs x :
  (d + length bs <= length l)%nat -> (x + 8 <= length bs)%nat ->
  qword (splice l d bs) (d + x) = qword bs x.
Proof.
  intros Hlen Hx. unfold qword. apply (f_equal le_combine), map_ext_in. intros j Hj%in_seq.
  rewrite pget_splice by done. case_decide; [|lia]. f_equal. lia.
Qed.

Lemma qword_copies v t :
  length v = 8%nat -> (t < 4)%nat -> qword (v ++ v ++ v ++ v) (8 * t) = le_combine v.
Proof.
  intros Hv Ht. do 8 (destruct v as [|? v]; [done|]). destruct v; [|done].
  by do 4 (destruct t as [|t]; [reflexivity|]); lia.
Qed.

Lemma gf_vect_mul_init_gfni_ok c tbl off :
  is_u8 c -> (off + 32 <= length tbl)%nat ->
  length (gf_vect_mul_init_gfni c tbl off) = length tbl /\
  table_at (gf_vect_mul_init_gfni c tbl off) off c /\
  (forall x, (x + 8 <= off \/ off + 32 <= x)%nat ->
    qword (gf_vect_mul_init_gfni c tbl off) x = qword tbl x).
Proof.
  intros Hc Hoff. unfold gf_vect_mul_init_gfni.
  set (v := le_split 8 _). assert (length v = 8%nat) by apply length_le_split.
  assert (length (v ++ v ++ v ++ v) = 32%nat) as Hl by (rewrite !length_app; lia).
  split_and!.
  - apply length_splice. lia.
  - intros t Ht. rewrite qword_splice_in, qword_copies by lia.
    apply le_combine_split. by apply gf_table_gfni_bound.
  - intros x Hx. apply qword_splice_out; lia.
Qed.

Lemma length_ec_init_tables_gfni k rows a g :
  (32 * (rows * k) <= length g)%nat -> length (ec_init_tables_gfni k rows a g) = length g.
Proof.
  intros Hg. unfold ec_init_tables_gfni.
  rewrite (fold_left_nested (fun tbl n => gf_vect_mul_init_gfni (pget a n) tbl (32 * n))).
  apply (fold_left_inv (fun n tbl => length tbl = length g)); [done|].
  intros n tbl Hn Hl. unfold gf_vect_mul_init_gfni. rewrite length_splice; [done|].
  rewrite !length_app, length_le_split. lia.
Qed.

Lemma ec_init_tables_gfni_ok k rows a g :
  (forall i, (i < rows * k)%nat -> is_u8 (pget a i)) -> (32 * (rows * k) <= length g)%nat ->
  tables_ok (ec_init_tables_gfni k rows a g) a (rows * k).
Proof.
  intros Ha Hg. unfold ec_init_tables_gfni.
  rewrite (fold_left_nested (fun tbl n => gf_vect_mul_init_gfni (pget a n) tbl (32 * n))).
  apply (fold_left_inv (fun n tbl => length tbl = length g /\ tables_ok tbl a n)).
  - split; [done|]. intros i Hi. lia.
  - intros n tbl Hn [Hlen IH].
    destruct (gf_vect_mul_init_gfni_ok (pget a n) tbl (32 * n)) as (Hl & Htab & Hout); [auto|lia|].
    split; [lia|]. intros i Hi t Ht. destruct (decide (i = n)) as [->|]; [by apply Htab|].
    rewrite Hout by lia. apply IH; lia.
Qed.

(** * Rows being filled *)

(** The kernels fill the destination pages of [nout] rows from the front.  [rows_at D m]
    says that row [r] has been filled with [F r] up to [D r] and nothing else changed. *)
Section Rows.
Context (nout : nat) (dest : list addr) (m0 : mem) (F : nat -> nat -> Z) (len : nat).
Context (Hnout : (nout <= length dest)%nat) (Hnodup : NoDup (take nout dest)).
Context (Hpages : forall r, (r < nout)%nat ->
  exists l, m0 !! ptr dest r = Some l /\ (len <= length l)%nat).

Definition rows_at (D : nat -> nat) (m : mem) : Prop :=
  (forall a, a ∉ take nout dest -> m !! a = m0 !! a) /\
  (forall r, (r < nout)%nat -> m !! ptr dest r = Some (filled (F r) (D r) (page m0 (ptr dest r)))).

Lemma rows_at_page D m r :
  rows_at D m -> (r < nout)%nat -> page m (ptr dest r) = filled (F r) (D r) (page m0 (ptr dest r)).
Proof. intros [_ H] Hr. unfold page at 1. by rewrite H. Qed.

Lemma rows_at_other D m a : rows_at D m -> a ∉ take nout dest -> page m a = page m0 a.
Proof. intros [H _] Ha. unfold page. by rewrite H. Qed.

Lemma rows_at_ext D D' m :
  (forall r, (r < nout)%nat -> D r = D' r) -> rows_at D m -> rows_at D' m.
Proof. intros HD [H1 H2]. split; [done|]. intros r Hr. rewrite <- HD by done. auto. Qed.

Lemma dest_page_len r : (r < nout)%nat -> (len <= length (page m0 (ptr dest r)))%nat.
Proof. intros Hr. destruct (Hpages r Hr) as (l & Hl & ?). unfold page. by rewrite Hl. Qed.

Lemma dest_in r : (r < nout)%nat -> ptr dest r ∈ take nout dest.
Proof. intros Hr. apply elem_of_take. exists r. split; [apply ptr_lookup; lia|done]. Qed.

Lemma dest_ne r r' : (r < nout)%nat -> (r' < nout)%nat -> r <> r' -> ptr dest r <> ptr dest r'.
Proof.
  intros Hr Hr' Hne. rewrite <- (ptr_take dest nout r), <- (ptr_take dest nout r') by done.
  apply ptr_inj; [done|rewrite length_take; lia..|done].
Qed.

Lemma rows_at_0 : rows_at (fun _ => 0%nat) m0.
Proof.
  split; [done|]. intros r Hr. rewrite filled_0. destruct (Hpages r Hr) as (l & Hl & _).
  unfold page. by rewrite Hl.
Qed.

Lemma store_row D m r w p :
  rows_at D m -> (r < nout)%nat -> (D r + w <= len)%nat -> p = map (F r) (seq (D r) w) ->
  rows_at (fun r' => if decide (r' = r) then (D r + w)%nat else D r') (store m (ptr dest r) (D r) p).
Proof.
  intros HD Hr Hw ->. pose proof (rows_at_page _ _ _ HD Hr) as Hp. destruct HD as [H1 H2].
  pose proof (dest_page_len r Hr). unfold store. rewrite Hp. split.
  - intros a Ha. rewrite lookup_insert_ne; [auto|]. intros <-. by apply Ha, dest_in.
  - intros r' Hr'. case_decide as Heq.
    + subst r'. rewrite lookup_insert_eq. f_equal. apply splice_filled; [lia|done].
    + rewrite lookup_insert_ne; [auto|]. apply dest_ne; auto.
Qed.

(** The rows of one vector position advance together. *)
Lemma store_rows_ok m off w :
  rows_at (fun _ => off) m -> (off + w <= len)%nat ->
  rows_at (fun _ => off + w)%nat
    (store_rows dest m off (map (fun r => map (F r) (seq off w)) (seq 0 nout))).
Proof.
  intros Hm Hw. unfold store_rows. rewrite length_map, length_seq, zip_seq_map, fold_left_map.
  eapply rows_at_ext; [|apply (fold_left_inv
    (fun j m => rows_at (fun r => if decide (r < j)%nat then (off + w)%nat else off) m))].
  - intros r Hr. cbn beta. by rewrite decide_True.
  - eapply rows_at_ext; [|done]. intros r Hr. by rewrite decide_False by lia.
  - intros j m' Hj Hm'. pose proof (store_row _ m' j w (map (F j) (seq off w)) Hm' Hj) as H.
    cbn beta in H. rewrite !(decide_False (P := (j < j)%nat)) in H by lia.
    specialize (H Hw eq_refl). eapply rows_at_ext; [|exact H].
    intros r Hr. cbn beta. repeat case_decide; lia.
Qed.
End Rows.

(** * Dot products *)

(** Byte [b] of row [r]: the sum of the products of the coefficients with the sources. *)
Definition dot_spec (coef : nat -> nat -> Z) (k : nat) (m : mem) (src : list addr) (r b : nat) : Z :=
  gfsum k (fun i => gfmul (coef r i) (pget (page m (ptr src i)) b)).

Section DotCorrect.
Context (mulv : list Z -> nat -> list Z) (w nout k len : nat) (src dest : list addr) (m0 : mem).
Context (coef : nat -> nat -> Z).
Context (Hmul : forall r i e, (r < nout)%nat -> (i < k)%nat -> (forall j, is_u8 (e j)) ->
  mulv (map e (seq 0 w)) (32 * i + r * (32 * k)) = map (fun j => gfmul (coef r i) (e j)) (seq 0 w)).
Context (Hw : (0 < w)%nat).
Context (Hnout : (nout <= length dest)%nat) (Hnodup : NoDup (take nout dest)).
Context (Hpages : forall r, (r < nout)%nat ->
  exists l, m0 !! ptr dest r = Some l /\ (len <= length l)%nat).
Context (Hsrc : forall i, (i < k)%nat ->
  (ptr src i ∉ take nout dest) /\ byte_page (page m0 (ptr src i))).

Let F := dot_spec coef k m0 src.
Let at_pos (pos : nat) (m : mem) : Prop := rows_at nout dest m0 F (fun _ => pos) m.

Lemma dot_acc_ok m ld (e : list Z -> nat -> Z) r pos :
  at_pos pos m -> (r < nout)%nat ->
  (forall l, ld l = map (e l) (seq 0 w)) -> (forall l j, byte_page l -> is_u8 (e l j)) ->
  dot_acc mulv w k src m ld r =
  map (fun j => gfsum k (fun i => gfmul (coef r i) (e (page m0 (ptr src i)) j))) (seq 0 w).
Proof.
  intros Hm Hr Hld He. unfold dot_acc.
  apply (fold_left_inv (fun n p => p =
    map (fun j => gfsum n (fun i => gfmul (coef r i) (e (page m0 (ptr src i)) j))) (seq 0 w))).
  - apply (replicate_map_seq 0 0 w).
  - intros i p Hi ->. destruct (Hsrc i Hi) as [Hni Hb].
    rewrite (rows_at_other _ _ _ _ _ _ _ Hm Hni), Hld, Hmul by auto.
    unfold vxor. rewrite zip_with_map2. apply map_ext. intros j. by rewrite gfsum_S.
Qed.

Lemma dot_block_ok nvec pos m :
  at_pos pos m -> (pos + w * nvec <= len)%nat ->
  at_pos (pos + w * nvec) (dot_block mulv w nout k src dest nvec pos m).
Proof.
  intros Hm Hlen. unfold dot_block.
  rewrite (map_ext _ (fun x => map (fun r => map (F r) (seq (pos + w * x) w)) (seq 0 nout))).
  - rewrite zip_seq_map, fold_left_map.
    apply (fold_left_inv (fun x m => at_pos (pos + w * x) m)).
    + by rewrite Nat.mul_0_r, Nat.add_0_r.
    + intros x m' Hx Hm'. replace (pos + w * S x)%nat with (pos + w * x + w)%nat by lia.
      apply (store_rows_ok nout dest m0 F len); auto. nia.
  - intros x. apply map_ext_in. intros r Hr%in_seq.
    rewrite (dot_acc_ok _ _ (fun l j => pget l (pos + w * x + j)) _ _ Hm); [|lia|done|auto using pget_u8].
    exact (map_seq_shift (F r) (pos + w * x) w).
Qed.

Lemma dot_tail_ok pos rem m :
  at_pos pos m -> (rem <= w)%nat -> (pos + rem <= len)%nat ->
  at_pos (pos + rem) (dot_tail mulv w nout k src dest pos rem m).
Proof.
  intros Hm Hrem Hlen. unfold dot_tail. rewrite map_map.
  rewrite (map_ext_in _ (fun r => map (F r) (seq pos rem))).
  - by apply (store_rows_ok nout dest m0 F len).
  - intros r Hr%in_seq.
    rewrite (dot_acc_ok _ _ (fun l j => if (j <? rem)%nat then pget l (pos + j) else 0) _ _ Hm);
      [|lia|done|intros; case_match; auto using pget_u8 with md].
    rewrite firstn_map, take_seq, Nat.min_l by done.
    etransitivity; [|exact (map_seq_shift (F r) pos rem)]. apply map_ext_in. intros j Hj%in_seq. apply gfsum_ext. intros i _.
    by rewrite (proj2 (Nat.ltb_lt j rem)) by lia.
Qed.

End DotCorrect.

(** ** The kernels *)

(** What a dot product over [nout] rows and [k] sources of [len] bytes needs. *)
Record dot_ok (nout len k : nat) (coef : nat -> nat -> Z) (g_tbls : list Z)
    (src dest : list addr) (m : mem) : Prop := {
  do_nout : (nout <= length dest)%nat;
  do_nodup : NoDup (take nout dest);
  do_dest : forall r, (r < nout)%nat -> exists l, m !! ptr dest r = Some l /\ (len <= length l)%nat;
  do_src : forall i, (i < k)%nat -> (ptr src i ∉ take nout dest) /\ byte_page (page m (ptr src i));
  do_tbl : forall r i, (r < nout)%nat -> (i < k)%nat ->
    is_u8 (coef r i) /\ table_at g_tbls (32 * i + r * (32 * k)) (coef r i);
}.

(** What it leaves: every row filled with its products, every other page as it was. *)
Definition dot_done (nout len k : nat) (coef : nat -> nat -> Z) (src dest : list addr) (m m' : mem) : Prop :=
  rows_at nout dest m (dot_spec coef k m src) (fun _ => len) m'.

(** The schedules: an invariant of the position that blocks and the rest advance. *)
Section Schedule.
Context (P : nat -> mem -> Prop) (len : nat) (block tail : nat -> nat -> mem -> mem).

Lemma mad_loop_ok w nvec fuel pos m :
  (forall pos m, P pos m -> (pos + w * nvec <= len)%nat -> P (pos + w * nvec)%nat (block nvec pos m)) ->
  (0 < w * nvec)%nat -> P pos m -> (pos <= len)%nat -> (len - pos <= fuel)%nat ->
  let '(pos', m') := mad_loop w block nvec len fuel pos m in
  P pos' m' /\ (pos' <= len < pos' + w * nvec)%nat.
Proof.
  intros Hb Hn. revert pos m. induction fuel as [|fuel IH]; intros pos m Hm Hpos Hf; simpl.
  { split; [done|lia]. }
  destruct (Nat.leb_spec (pos + w * nvec) len); [|by split; [|lia]].
  apply IH; [by apply Hb|lia..].
Qed.

Lemma mad_avx2_ok m :
  (forall nvec pos m, P pos m -> (pos + 32 * nvec <= len)%nat -> P (pos + 32 * nvec)%nat (block nvec pos m)) ->
  (forall pos rem m, P pos m -> (rem <= 32)%nat -> (pos + rem <= len)%nat -> P (pos + rem)%nat (tail pos rem m)) ->
  P 0%nat m -> P len (mad_avx2 block tail len m).
Proof.
  intros Hb Ht H0. unfold mad_avx2.
  pose proof (mad_loop_ok 32 3 len 0 m (Hb 3%nat) ltac:(lia) H0 ltac:(lia) ltac:(lia)) as Hloop.
  destruct (mad_loop 32 block 3 len len 0 m) as [pos m1]. destruct Hloop as [Hm1 Hpos1].
  assert (exists pos2 m2, (if (pos + 64 <=? len)%nat then ((pos + 64)%nat, block 2%nat pos m1) else (pos, m1)) = (pos2, m2)
    /\ P pos2 m2 /\ (pos2 <= len < pos2 + 64)%nat) as (pos2 & m2 & -> & Hm2 & Hpos2).
  { destruct (Nat.leb_spec (pos + 64) len); eexists _, _; (split; [done|]); split; try lia; [|done].
    by apply (Hb 2%nat). }
  assert (exists pos3 m3, (if (pos2 + 32 <=? len)%nat then ((pos2 + 32)%nat, block 1%nat pos2 m2) else (pos2, m2)) = (pos3, m3)
    /\ P pos3 m3 /\ (pos3 <= len < pos3 + 32)%nat) as (pos3 & m3 & -> & Hm3 & Hpos3).
  { destruct (Nat.leb_spec (pos2 + 32) len); eexists _, _; (split; [done|]); split; try lia; [|done].
    by apply (Hb 1%nat). }
  destruct (Nat.ltb_spec pos3 len); [|by replace len with pos3 by lia].
  pose proof (Ht pos3 (len - pos3)%nat m3 Hm3 ltac:(lia) ltac:(lia)) as H3.
  by replace (pos3 + (len - pos3))%nat with len in H3 by lia.
Qed.

Lemma mad_avx512_ok m :
  (forall pos m, P pos m -> (pos + 64 * 1 <= len)%nat -> P (pos + 64 * 1)%nat (block 1%nat pos m)) ->
  (forall pos rem m, P pos m -> (rem <= 64)%nat -> (pos + rem <= len)%nat -> P (pos + rem)%nat (tail pos rem m)) ->
  P 0%nat m ->
  P len (let '(pos, m) := mad_loop 64 block 1 len len 0 m in
         if (pos <? len)%nat then tail pos (len - pos)%nat m else m).
Proof.
  intros Hb Ht H0.
  pose proof (mad_loop_ok 64 1 len 0 m Hb ltac:(lia) H0 ltac:(lia) ltac:(lia)) as Hloop.
  destruct (mad_loop 64 block 1 len len 0 m) as [pos m1]. destruct Hloop as [Hm1 Hpos1].
  destruct (Nat.ltb_spec pos len); [|by replace len with pos by lia].
  pose proof (Ht pos (len - pos)%nat m1 Hm1 ltac:(lia) ltac:(lia)) as H1.
  by replace (pos + (len - pos))%nat with len in H1 by lia.
Qed.
End Schedule.

Lemma dot_loop_mad_loop mulv w nout k src dest nvec len fuel pos m :
  dot_loop mulv w nout k src dest nvec len fuel pos m =
  mad_loop w (dot_block mulv w nout k src dest) nvec len fuel pos m.
Proof. revert pos m. induction fuel as [|fuel IH]; intros pos m; simpl; [done|]. by rewrite IH. Qed.

Section DotKernels.
Context (nout len k : nat) (coef : nat -> nat -> Z) (g_tbls : list Z) (src dest : list addr) (m : mem).
Context (Hok : dot_ok nout len k coef g_tbls src dest m).

Lemma dot_prod_avx512_ok :
  dot_done nout len k coef src dest m (dot_prod_avx512 nout len k g_tbls src dest m).
Proof.
  destruct Hok as [Hn Hnd Hd Hs Ht]. unfold dot_prod_avx512, dot_done. rewrite dot_loop_mad_loop.
  assert (forall r i e, (r < nout)%nat -> (i < k)%nat -> (forall j, is_u8 (e j)) ->
    mul_avx512 g_tbls (map e (seq 0 64)) (32 * i + r * (32 * k)) =
    map (fun j => gfmul (coef r i) (e j)) (seq 0 64)) as Hmul.
  { intros r i e Hr Hi He. destruct (Ht r i Hr Hi). by apply mul_avx512_ok. }
  refine (mad_avx512_ok (fun pos => rows_at nout dest m (dot_spec coef k m src) (fun _ => pos)) len
    (dot_block (mul_avx512 g_tbls) 64 nout k src dest) (dot_tail (mul_avx512 g_tbls) 64 nout k src dest) m _ _ _).
  - intros. apply (dot_block_ok (mul_avx512 g_tbls) 64 nout k len); first [done|lia].
  - intros. apply (dot_tail_ok (mul_avx512 g_tbls) 64 nout k len); first [done|lia].
  - by apply (rows_at_0 nout dest m _ len).
Qed.

Lemma dot_prod_avx2_ok :
  dot_done nout len k coef src dest m (dot_prod_avx2 nout len k g_tbls src dest m).
Proof.
  destruct Hok as [Hn Hnd Hd Hs Ht]. unfold dot_prod_avx2, dot_done. rewrite dot_loop_mad_loop.
  assert (forall r i e, (r < nout)%nat -> (i < k)%nat -> (forall j, is_u8 (e j)) ->
    mul_avx2 g_tbls (map e (seq 0 32)) (32 * i + r * (32 * k)) =
    map (fun j => gfmul (coef r i) (e j)) (seq 0 32)) as Hmul.
  { intros r i e Hr Hi He. destruct (Ht r i Hr Hi). by apply mul_avx2_ok. }
  refine (mad_avx2_ok (fun pos => rows_at nout dest m (dot_spec coef k m src) (fun _ => pos)) len
    (dot_block (mul_avx2 g_tbls) 32 nout k src dest) (dot_tail (mul_avx2 g_tbls) 32 nout k src dest) m _ _ _).
  - intros. apply (dot_block_ok (mul_avx2 g_tbls) 32 nout k len); first [done|lia].
  - intros. apply (dot_tail_ok (mul_avx2 g_tbls) 32 nout k len); first [done|lia].
  - by apply (rows_at_0 nout dest m _ len).
Qed.
End DotKernels.

(** ** Multiply-accumulate *)

(** What the update with source [vec_i] needs: [coef r] is its coefficient in row [r]. *)
Record mad_ok (nout len vec vec_i : nat) (coef : nat -> Z) (gftbls : list Z)
    (src : addr) (dest : list addr) (m : mem) : Prop := {
  mo_nout : (nout <= length dest)%nat;
  mo_nodup : NoDup (take nout dest);
  mo_dest : forall r, (r < nout)%nat -> exists l, m !! ptr dest r = Some l /\ (len <= length l)%nat;
  mo_src : src ∉ take nout dest;
  mo_src_bytes : byte_page (page m src);
  mo_tbl : forall r, (r < nout)%nat ->
    is_u8 (coef r) /\ table_at gftbls (32 * vec_i + r * (32 * vec)) (coef r);
}.

(** Byte [b] of row [r] after the update. *)
Definition mad_spec (coef : nat -> Z) (m : mem) (src : addr) (dest : list addr) (r b : nat) : Z :=
  pget (page m (ptr dest r)) b ⊕ gfmul (coef r) (pget (page m src) b).

Definition mad_done (nout len : nat) (coef : nat -> Z) (src : addr) (dest : list addr) (m m' : mem) : Prop :=
  rows_at nout dest m (mad_spec coef m src dest) (fun _ => len) m'.

Section MadCorrect.
Context (w nout len vec vec_i : nat) (coef : nat -> Z) (gftbls : list Z).
Context (src : addr) (dest : list addr) (m0 : mem).
Context (Hok : mad_ok nout len vec vec_i coef gftbls src dest m0).

Let F := mad_spec coef m0 src dest.
Let rows_pos (D : nat -> nat) (m : mem) : Prop := rows_at nout dest m0 F D m.
Let at_pos (pos : nat) (m : mem) : Prop := rows_pos (fun _ => pos) m.

Lemma mad_gft_ok r x :
  (r < nout)%nat -> is_u8 x -> affine_byte (mad_gft vec vec_i gftbls r) x = gfmul (coef r) x.
Proof.
  intros Hr Hx. destruct (mo_tbl _ _ _ _ _ _ _ _ _ Hok r Hr) as [Hc Ht].
  specialize (Ht 0%nat ltac:(lia)). unfold mad_gft.
  replace (vec_i * 32 + r * (vec * 32))%nat with (32 * vec_i + r * (32 * vec) + 8 * 0)%nat by lia.
  rewrite Ht. by apply affine_byte_table.
Qed.

(** One register of row [r] read where the row is not yet updated. *)
Lemma mad_row_ok D m r off :
  rows_pos D m -> (r < nout)%nat -> (D r <= off)%nat -> (D r <= len)%nat ->
  vxor (vload w (page m (ptr dest r)) off) (affine_bcast (vload w (page m src) off) (mad_gft vec vec_i gftbls r)) =
  map (F r) (seq off w).
Proof.
  intros Hm Hr Hoff Hlen. unfold vxor, affine_bcast, vload. rewrite map_map, zip_with_map2.
  etransitivity; [|exact (map_seq_shift (F r) off w)]. apply map_ext. intros j. unfold F, mad_spec.
  pose proof (dest_page_len nout dest m0 len (mo_dest _ _ _ _ _ _ _ _ _ Hok) r Hr).
  rewrite (rows_at_page _ _ _ _ _ _ _ Hm Hr), pget_filled_ge by lia.
  rewrite (rows_at_other _ _ _ _ _ _ _ Hm (mo_src _ _ _ _ _ _ _ _ _ Hok)).
  rewrite mad_gft_ok; [done|done|]. apply pget_u8, (mo_src_bytes _ _ _ _ _ _ _ _ _ Hok).
Qed.

Lemma mad_row_tail_ok D m r off rem :
  rows_pos D m -> (r < nout)%nat -> (D r <= off)%nat -> (D r <= len)%nat -> (rem <= w)%nat ->
  take rem (vxor (vload_tail w (page m (ptr dest r)) off rem)
    (affine_bcast (vload_tail w (page m src) off rem) (mad_gft vec vec_i gftbls r))) =
  map (F r) (seq off rem).
Proof.
  intros Hm Hr Hoff Hlen Hrem. unfold vxor, affine_bcast, vload_tail.
  rewrite map_map, zip_with_map2, firstn_map, take_seq, Nat.min_l by done.
  etransitivity; [|exact (map_seq_shift (F r) off rem)]. apply map_ext_in. intros j Hj%in_seq. unfold F, mad_spec.
  rewrite !(proj2 (Nat.ltb_lt j rem)) by lia.
  pose proof (dest_page_len nout dest m0 len (mo_dest _ _ _ _ _ _ _ _ _ Hok) r Hr).
  rewrite (rows_at_page _ _ _ _ _ _ _ Hm Hr), pget_filled_ge by lia.
  rewrite (rows_at_other _ _ _ _ _ _ _ Hm (mo_src _ _ _ _ _ _ _ _ _ Hok)).
  rewrite mad_gft_ok; [done|done|]. apply pget_u8, (mo_src_bytes _ _ _ _ _ _ _ _ _ Hok).
Qed.

Lemma mad_vec_ok pos m :
  at_pos pos m -> (pos + w <= len)%nat ->
  at_pos (pos + w) (mad_vec w nout vec vec_i gftbls dest m (vload w (page m0 src) pos) pos).
Proof.
  intros Hm Hlen. unfold mad_vec. destruct Hok.
  rewrite (map_ext_in _ (fun r => map (F r) (seq pos w))).
  - by apply (store_rows_ok nout dest m0 F len).
  - intros r Hr%in_seq. rewrite <- (rows_at_other _ _ _ _ _ _ _ Hm mo_src0).
    apply (mad_row_ok _ _ _ _ Hm); lia.
Qed.

Lemma mad_block_ok nvec pos m :
  at_pos pos m -> (pos + w * nvec <= len)%nat ->
  at_pos (pos + w * nvec) (mad_block w nout vec vec_i gftbls src dest nvec pos m).
Proof.
  intros Hm Hlen. unfold mad_block. rewrite zip_seq_map, fold_left_map.
  rewrite (rows_at_other _ _ _ _ _ _ _ Hm (mo_src _ _ _ _ _ _ _ _ _ Hok)).
  apply (fold_left_inv (fun x m => at_pos (pos + w * x) m)).
  - by rewrite Nat.mul_0_r, Nat.add_0_r.
  - intros x m' Hx Hm'. replace (pos + w * S x)%nat with (pos + w * x + w)%nat by lia.
    apply mad_vec_ok; [done|nia].
Qed.

Lemma mad_block1_ok nvec pos m :
  nout = 1%nat -> at_pos pos m -> (pos + w * nvec <= len)%nat ->
  at_pos (pos + w * nvec) (mad_block1 w vec vec_i gftbls src dest nvec pos m).
Proof.
  intros H1 Hm Hlen. unfold mad_block1. rewrite zip_with_map2.
  rewrite (map_ext _ (fun x => map (F 0%nat) (seq (pos + w * x) w))).
  - rewrite zip_seq_map, fold_left_map. apply (fold_left_inv (fun x m => at_pos (pos + w * x) m)).
    + by rewrite Nat.mul_0_r, Nat.add_0_r.
    + intros x m' Hx Hm'. destruct Hok.
      eapply rows_at_ext; [|apply (store_row nout dest m0 F len mo_nout0 mo_nodup0 mo_dest0
        (fun _ => pos + w * x)%nat m' 0%nat w); [done|lia|nia|done]].
      intros r Hr. cbn beta. rewrite decide_True by lia. lia.
  - intros x. apply (mad_row_ok _ _ _ _ Hm); lia.
Qed.

Lemma mad_tail_ok pos rem m :
  at_pos pos m -> (rem <= w)%nat -> (pos + rem <= len)%nat ->
  at_pos (pos + rem) (mad_tail w nout vec vec_i gftbls src dest pos rem m).
Proof.
  intros Hm Hrem Hlen. unfold mad_tail.
  eapply rows_at_ext; [|apply (fold_left_inv
    (fun j m => rows_pos (fun r => if decide (r < j)%nat then (pos + rem)%nat else pos) m))].
  - intros r Hr. cbn beta. by rewrite decide_True.
  - eapply rows_at_ext; [|exact Hm]. intros r Hr. by rewrite decide_False by lia.
  - intros j m' Hj Hm'. destruct Hok.
    pose proof (rows_at_other _ _ _ _ _ _ _ Hm mo_src0) as Hs.
    rewrite <- (rows_at_other _ _ _ _ _ _ _ Hm' mo_src0) in Hs. rewrite Hs.
    pose proof (store_row nout dest m0 F len mo_nout0 mo_nodup0 mo_dest0 _ m' j rem
      (map (F j) (seq pos rem)) Hm' Hj) as H.
    rewrite (mad_row_tail_ok _ _ _ _ _ Hm'); [|done|rewrite decide_False; lia..|done].
    cbn beta in H. rewrite !(decide_False (P := (j < j)%nat)) in H by lia.
    specialize (H Hlen eq_refl). eapply rows_at_ext; [|exact H].
    intros r Hr. cbn beta. repeat case_decide; lia.
Qed.

Lemma mad_tail_masked_ok pos rem m :
  at_pos pos m -> (rem <= w)%nat -> (pos + rem <= len)%nat ->
  at_pos (pos + rem) (mad_tail_masked w nout vec vec_i gftbls src dest pos rem m).
Proof.
  intros Hm Hrem Hlen. unfold mad_tail_masked. rewrite map_map. destruct Hok.
  rewrite (map_ext_in _ (fun r => map (F r) (seq pos rem))).
  - by apply (store_rows_ok nout dest m0 F len).
  - intros r Hr%in_seq. apply (mad_row_tail_ok _ _ _ _ _ Hm); lia.
Qed.
End MadCorrect.

Section MadKernels.
Context (len vec vec_i : nat) (coef : nat -> Z) (gftbls : list Z) (src : addr) (m : mem).

Lemma gf_vect_mad_avx2_ok dest :
  mad_ok 1 len vec vec_i coef gftbls src [dest] m ->
  mad_done 1 len coef src [dest] m (gf_vect_mad_avx2_gfni len vec vec_i gftbls src dest m).
Proof.
  intros Hok. unfold gf_vect_mad_avx2_gfni, mad_done.
  refine (mad_avx2_ok (fun pos => rows_at 1 [dest] m (mad_spec coef m src [dest]) (fun _ => pos)) len _ _ m _ _ _).
  - intros. apply (mad_block1_ok 32 1 len vec vec_i); first [done|lia].
  - intros. apply (mad_tail_ok 32 1 len vec vec_i); first [done|lia].
  - apply (rows_at_0 _ _ _ _ len), Hok.
Qed.

Lemma gf_2vect_mad_avx2_ok dest :
  mad_ok 2 len vec vec_i coef gftbls src dest m ->
  mad_done 2 len coef src dest m (gf_2vect_mad_avx2_gfni len vec vec_i gftbls src dest m).
Proof.
  intros Hok. unfold gf_2vect_mad_avx2_gfni, mad_done.
  refine (mad_avx2_ok (fun pos => rows_at 2 dest m (mad_spec coef m src dest) (fun _ => pos)) len _ _ m _ _ _).
  - intros. apply (mad_block_ok 32 2 len vec vec_i); first [done|lia].
  - intros. apply (mad_tail_ok 32 2 len vec vec_i); first [done|lia].
  - apply (rows_at_0 _ _ _ _ len), Hok.
Qed.

Lemma gf_2vect_mad_avx512_ok dest :
  mad_ok 2 len vec vec_i coef gftbls src dest m ->
  mad_done 2 len coef src dest m (gf_2vect_mad_avx512_gfni len vec vec_i gftbls src dest m).
Proof.
  intros Hok. unfold gf_2vect_mad_avx512_gfni, mad_done.
  refine (mad_avx512_ok (fun pos => rows_at 2 dest m (mad_spec coef m src dest) (fun _ => pos)) len _
    (mad_tail_masked 64 2 vec vec_i gftbls src dest) m _ _ _).
  - intros. apply (mad_block_ok 64 2 len vec vec_i); first [done|lia].
  - intros. apply (mad_tail_masked_ok 64 2 len vec vec_i); first [done|lia].
  - apply (rows_at_0 _ _ _ _ len), Hok.
Qed.
End MadKernels.

(** ** The dispatchers: groups of rows, one after the other *)

Lemma qword_drop n g x : qword (drop n g) x = qword g (n + x).
Proof.
  unfold qword. apply (f_equal le_combine), map_ext. intros j. unfold pget.
  rewrite lookup_drop. do 2 f_equal. lia.
Qed.

Lemma table_at_drop n g off c : table_at g (n + off) c -> table_at (drop n g) off c.
Proof. intros H t Ht. rewrite qword_drop, Nat.add_assoc. auto. Qed.

Lemma ptr_drop ptrs n i : ptr (drop n ptrs) i = ptr ptrs (n + i).
Proof. unfold ptr. by rewrite lookup_drop. Qed.

Section Groups.
Context (n rows len : nat) (dest : list addr) (m m1 : mem) (F : nat -> nat -> Z).
Context (Hn : (n <= rows)%nat) (Hrows : (rows <= length dest)%nat) (Hnd : NoDup (take rows dest)).
Context (H1 : rows_at n dest m F (fun _ => len) m1).

Lemma rest_not_in_group r : (n <= r < rows)%nat -> ptr dest r ∉ take n dest.
Proof.
  intros Hr (i & Hi & Hin)%elem_of_take.
  assert (i = r); [|lia]. apply (NoDup_lookup (take rows dest) i r (ptr dest r)); [done|..].
  - by rewrite lookup_take_lt by lia.
  - rewrite lookup_take_lt by lia. apply ptr_lookup. lia.
Qed.

Lemma group_other a : a ∉ take rows dest -> m1 !! a = m !! a.
Proof.
  intros Ha. apply H1. intros Hin. apply Ha.
  destruct (proj1 (elem_of_take _ _ _) Hin) as (i & Hi & Hlt). apply elem_of_take. exists i. split; [done|lia].
Qed.

Lemma group_rest r : (n <= r < rows)%nat -> m1 !! ptr dest r = m !! ptr dest r.
Proof. intros Hr. apply H1. by apply rest_not_in_group. Qed.

Lemma rest_sub a : a ∈ take (rows - n) (drop n dest) -> a ∈ take rows dest.
Proof.
  intros (i & Hi & Hlt)%elem_of_take. rewrite lookup_drop in Hi.
  apply elem_of_take. exists (n + i)%nat. split; [done|lia].
Qed.

Lemma rest_nodup : NoDup (take (rows - n) (drop n dest)).
Proof.
  rewrite take_drop_commute. replace (n + (rows - n))%nat with rows by lia.
  eapply sublist_NoDup; [exact Hnd|]. apply sublist_drop.
Qed.

Lemma group_join F' m2 :
  rows_at (rows - n) (drop n dest) m1 F' (fun _ => len) m2 ->
  (forall r b, (n <= r < rows)%nat -> F' (r - n)%nat b = F r b) ->
  rows_at rows dest m F (fun _ => len) m2.
Proof.
  intros H2 HF. split.
  - intros a Ha. rewrite (proj1 H2) by (intros Hin; by apply Ha, rest_sub). by apply group_other.
  - intros r Hr. destruct (decide (r < n)%nat) as [Hlt|Hge].
    + rewrite (proj1 H2); [by apply H1|]. intros (i & Hi & Hilt)%elem_of_take. rewrite lookup_drop in Hi.
      assert (n + i = r)%nat; [|lia].
      apply (NoDup_lookup (take rows dest) _ _ (ptr dest r)); [done|by rewrite lookup_take_lt by lia|].
      rewrite lookup_take_lt by lia. apply ptr_lookup. lia.
    + pose proof (proj2 H2 (r - n)%nat ltac:(lia)) as H. rewrite ptr_drop in H.
      replace (n + (r - n))%nat with r in H by lia. rewrite H. f_equal.
      unfold page. rewrite group_rest by lia. apply filled_ext. intros b _. apply HF. lia.
Qed.
End Groups.

Lemma take_prefix_sub {A} (l : list A) n rows x : (n <= rows)%nat -> x ∈ take n l -> x ∈ take rows l.
Proof. intros Hn (i & Hi & Hlt)%elem_of_take. apply elem_of_take. exists i. split; [done|lia]. Qed.

Lemma take_prefix_nodup {A} (l : list A) n rows : (n <= rows)%nat -> NoDup (take rows l) -> NoDup (take n l).
Proof.
  intros Hn Hnd. eapply sublist_NoDup; [exact Hnd|].
  replace (take n l) with (take n (take rows l)) by (rewrite take_take; f_equal; lia). apply sublist_take.
Qed.

Lemma take_1_ptr (l : list addr) : (1 <= length l)%nat -> take 1 l = [ptr l 0].
Proof. by destruct l; simpl; [lia|]. Qed.

Lemma rows_at_single (dest : list addr) m F F' D m' :
  (1 <= length dest)%nat -> (forall b, F' 0%nat b = F 0%nat b) ->
  rows_at 1 [ptr dest 0] m F' D m' -> rows_at 1 dest m F D m'.
Proof.
  intros Hl HF [H1 H2]. split.
  - rewrite take_1_ptr by done. exact H1.
  - intros r Hr. assert (r = 0%nat) as -> by lia. etransitivity; [exact (H2 0%nat ltac:(lia))|].
    apply (f_equal Some), filled_ext. auto.
Qed.

Section Encode.
Context (n rows len k : nat) (coef : nat -> nat -> Z) (g_tbls : list Z) (data coding : list addr) (m : mem).
Context (Hok : dot_ok rows len k coef g_tbls data coding m) (Hn : (n <= rows)%nat).

Lemma dot_ok_prefix : dot_ok n len k coef g_tbls data coding m.
Proof.
  destruct Hok as [Hr Hnd Hd Hs Ht]. split.
  - lia.
  - by apply (take_prefix_nodup _ n rows).
  - intros r Hlt. apply Hd. lia.
  - intros i Hi. destruct (Hs i Hi) as [Hni Hb]. split; [|done].
    intros Hin. apply Hni. by apply (take_prefix_sub _ n).
  - intros r i Hlt Hi. apply Ht; [lia|done].
Qed.

Lemma dot_ok_rest m1 :
  dot_done n len k coef data coding m m1 ->
  dot_ok (rows - n) len k (fun r => coef (n + r)%nat) (drop (n * k * 32) g_tbls) data (drop n coding) m1.
Proof.
  intros Hm1. destruct Hok as [Hr Hnd Hd Hs Ht]. split.
  - rewrite length_drop. lia.
  - by apply rest_nodup.
  - intros r Hlt. rewrite ptr_drop, (group_rest n rows len coding m m1 _ Hn Hr Hnd Hm1) by lia. apply Hd. lia.
  - intros i Hi. destruct (Hs i Hi) as [Hni Hb]. split.
    + intros Hin. by apply Hni, (rest_sub n).
    + unfold page. rewrite (group_other n rows len coding m m1 _ Hn Hr Hm1) by done. exact Hb.
  - intros r i Hlt Hi. destruct (Ht (n + r)%nat i ltac:(lia) Hi) as [Hc Htab]. split; [done|].
    apply table_at_drop.
    replace (n * k * 32 + (32 * i + r * (32 * k)))%nat with (32 * i + (n + r) * (32 * k))%nat by lia.
    exact Htab.
Qed.

(** The first [n] rows and then the others are all the rows. *)
Lemma dot_done_join m1 m2 :
  dot_done n len k coef data coding m m1 ->
  dot_done (rows - n) len k (fun r => coef (n + r)%nat) data (drop n coding) m1 m2 ->
  dot_done rows len k coef data coding m m2.
Proof.
  intros Hm1 Hm2. destruct Hok as [Hr Hnd Hd Hs Ht].
  eapply (group_join n rows len coding m m1); [done..|exact Hm1|exact Hm2|].
  intros r b Hlt. unfold dot_spec. replace (n + (r - n))%nat with r by lia.
  apply gfsum_ext. intros i Hi. unfold page. do 3 f_equal. destruct (Hs i Hi).
  by rewrite (group_other n rows len coding m m1 _ Hn Hr Hm1).
Qed.
End Encode.

Section EncodeDispatch.
Context (len k : nat) (data : list addr).

Lemma dot_single_ok (kernel : list addr -> mem -> mem) coef g_tbls coding m :
  (forall dest, dot_ok 1 len k coef g_tbls data dest m -> dot_done 1 len k coef data dest m (kernel dest m)) ->
  dot_ok 1 len k coef g_tbls data coding m ->
  dot_done 1 len k coef data coding m (kernel [ptr coding 0] m).
Proof.
  intros Hk Hok. pose proof (do_nout _ _ _ _ _ _ _ _ Hok).
  eapply rows_at_single; [done|done|]. apply Hk. destruct Hok as [Hr Hnd Hd Hs Ht].
  rewrite take_1_ptr in Hnd, Hs by done. split; [simpl; lia|exact Hnd| |exact Hs|exact Ht].
  intros r Hlt. assert (r = 0%nat) as -> by lia. apply (Hd 0%nat). lia.
Qed.

Lemma dot_done_0 coef coding m : dot_done 0 len k coef data coding m m.
Proof. split; [done|lia]. Qed.

Lemma encode_avx2_loop_ok fuel rows coef g_tbls coding m :
  dot_ok rows len k coef g_tbls data coding m -> (rows < fuel)%nat ->
  dot_done rows len k coef data coding m (encode_avx2_loop fuel len k rows g_tbls data coding m).
Proof.
  revert rows coef g_tbls coding m. induction fuel as [|fuel IH]; intros rows coef g_tbls coding m Hok Hf; [lia|].
  cbn [encode_avx2_loop]. destruct (Nat.leb_spec 3 rows).
  - pose proof (dot_prod_avx2_ok _ _ _ _ _ _ _ _ (dot_ok_prefix 3 _ _ _ _ _ _ _ _ Hok ltac:(lia))) as H3.
    eapply (dot_done_join 3); [exact Hok|lia|exact H3|]. apply IH; [|lia]. by apply (dot_ok_rest 3 rows) with m.
  - destruct rows as [|[|[|]]]; [apply dot_done_0| | |lia].
    + apply (dot_single_ok (dot_prod_avx2 1 len k g_tbls data) coef g_tbls); [intros dest; apply dot_prod_avx2_ok|done].
    + by apply dot_prod_avx2_ok.
Qed.

Lemma encode_avx512_loop_ok fuel rows coef g_tbls coding m :
  dot_ok rows len k coef g_tbls data coding m -> (rows < fuel)%nat ->
  dot_done rows len k coef data coding m (encode_avx512_loop fuel len k rows g_tbls data coding m).
Proof.
  revert rows coef g_tbls coding m. induction fuel as [|fuel IH]; intros rows coef g_tbls coding m Hok Hf; [lia|].
  cbn [encode_avx512_loop]. destruct (Nat.leb_spec 6 rows).
  - pose proof (dot_prod_avx512_ok _ _ _ _ _ _ _ _ (dot_ok_prefix 6 _ _ _ _ _ _ _ _ Hok ltac:(lia))) as H6.
    eapply (dot_done_join 6); [exact Hok|lia|exact H6|]. apply IH; [|lia]. by apply (dot_ok_rest 6 rows) with m.
  - destruct rows as [|[|[|[|[|[|]]]]]]; [apply dot_done_0| | | | | |lia]; try by apply dot_prod_avx512_ok.
    apply (dot_single_ok (dot_prod_avx512 1 len k g_tbls data) coef g_tbls); [intros dest; apply dot_prod_avx512_ok|done].
Qed.
End EncodeDispatch.

Section UpdateGroups.
Context (n rows len k vec_i : nat) (coef : nat -> Z) (g_tbls : list Z) (data : addr) (coding : list addr) (m : mem).
Context (Hok : mad_ok rows len k vec_i coef g_tbls data coding m) (Hn : (n <= rows)%nat).

Lemma mad_ok_prefix : mad_ok n len k vec_i coef g_tbls data coding m.
Proof.
  destruct Hok as [Hr Hnd Hd Hs Hb Ht]. split.
  - lia.
  - by apply (take_prefix_nodup _ n rows).
  - intros r Hlt. apply Hd. lia.
  - intros Hin. by apply Hs, (take_prefix_sub _ n).
  - done.
  - intros r Hlt. apply Ht. lia.
Qed.

Lemma mad_ok_rest m1 :
  mad_done n len coef data coding m m1 ->
  mad_ok (rows - n) len k vec_i (fun r => coef (n + r)%nat) (drop (n * k * 32) g_tbls) data (drop n coding) m1.
Proof.
  intros Hm1. destruct Hok as [Hr Hnd Hd Hs Hb Ht]. split.
  - rewrite length_drop. lia.
  - by apply rest_nodup.
  - intros r Hlt. rewrite ptr_drop, (group_rest n rows len coding m m1 _ Hn Hr Hnd Hm1) by lia. apply Hd. lia.
  - intros Hin. by apply Hs, (rest_sub n).
  - unfold page. rewrite (group_other n rows len coding m m1 _ Hn Hr Hm1) by done. exact Hb.
  - intros r Hlt. destruct (Ht (n + r)%nat ltac:(lia)) as [Hc Htab]. split; [done|].
    apply table_at_drop.
    replace (n * k * 32 + (32 * vec_i + r * (32 * k)))%nat with (32 * vec_i + (n + r) * (32 * k))%nat by lia.
    exact Htab.
Qed.

Lemma mad_done_join m1 m2 :
  mad_done n len coef data coding m m1 ->
  mad_done (rows - n) len (fun r => coef (n + r)%nat) data (drop n coding) m1 m2 ->
  mad_done rows len coef data coding m m2.
Proof.
  intros Hm1 Hm2. destruct Hok as [Hr Hnd Hd Hs Hb Ht].
  eapply (group_join n rows len coding m m1); [done..|exact Hm1|exact Hm2|].
  intros r b Hlt. unfold mad_spec. rewrite ptr_drop. replace (n + (r - n))%nat with r by lia.
  unfold page. rewrite (group_rest n rows len coding m m1 _ Hn Hr Hnd Hm1) by lia.
  by rewrite (group_other n rows len coding m m1 _ Hn Hr Hm1).
Qed.
End UpdateGroups.

Lemma update_loop_ok mad2 len k vec_i data fuel rows coef g_tbls coding m :
  (forall coef g_tbls coding m, mad_ok 2 len k vec_i coef g_tbls data coding m ->
    mad_done 2 len coef data coding m (mad2 len k vec_i g_tbls data coding m)) ->
  mad_ok rows len k vec_i coef g_tbls data coding m -> (rows < fuel)%nat ->
  mad_done rows len coef data coding m (update_loop mad2 fuel len k rows vec_i g_tbls data coding m).
Proof.
  intros Hmad2. revert rows coef g_tbls coding m.
  induction fuel as [|fuel IH]; intros rows coef g_tbls coding m Hok Hf; [lia|].
  cbn [update_loop]. destruct (Nat.leb_spec 2 rows).
  - pose proof (Hmad2 _ _ _ _ (mad_ok_prefix 2 _ _ _ _ _ _ _ _ _ Hok ltac:(lia))) as H2.
    eapply (mad_done_join 2); [exact Hok|lia|exact H2|]. apply IH; [|lia]. by apply (mad_ok_rest 2 rows) with m.
  - destruct rows as [|[|]]; [by split; [|lia]| |lia]. cbn [Nat.eqb].
    destruct Hok as [Hr Hnd Hd Hs Hb Ht]. eapply rows_at_single; [done| |].
    2: rewrite take_1_ptr in Hnd, Hs by done; apply (gf_vect_mad_avx2_ok len k vec_i coef g_tbls data m (ptr coding 0)).
    1: done.
    split; [simpl; lia|exact Hnd| |exact Hs|exact Hb|exact Ht].
    intros r Hlt. assert (r = 0%nat) as -> by lia. apply (Hd 0%nat). lia.
Qed.

(** ** From the coefficient matrix to the tables *)

(** The tables of the [rows] x [k] matrix [a] serve the rows of [a]. *)
Lemma tables_ok_rows g a rows k r i :
  tables_ok g a (rows * k) -> (r < rows)%nat -> (i < k)%nat ->
  table_at g (32 * i + r * (32 * k)) (pget a (r * k + i)).
Proof.
  intros H Hr Hi. replace (32 * i + r * (32 * k))%nat with (32 * (r * k + i))%nat by lia. apply H. nia.
Qed.

(** ** The specification determines the memory *)

Lemma rows_at_unique nout dest m F D m1 m2 :
  rows_at nout dest m F D m1 -> rows_at nout dest m F D m2 -> m1 = m2.
Proof.
  intros [H1 H1'] [H2 H2']. apply map_eq. intros a. destruct (decide (a ∈ take nout dest)) as [Ha|Ha].
  - apply elem_of_take in Ha as (r & Hr & Hlt). assert (a = ptr dest r) as -> by (unfold ptr; by rewrite Hr).
    by rewrite H1', H2'.
  - by rewrite H1, H2.
Qed.
