(* ===== verification/Simd.v ===== *)
(** A machine for the vector code of raid6/: the registers, the mask registers of AVX-512 and the
    memory, with the instructions that the inline assembly uses.  Operands are in the order of the
    assembly: sources first, the destination last; a two-operand instruction of MMX or SSE is the
    three-operand one whose second source is the destination. *)

From S2P Require Import Prelude.
From S2P Require Import GF256.
From S2P Require Import PageMem.
From S2P Require Import Gfni.

(** * State *)

(** A register of [w] bytes is a list of [w] bytes, a mask register a list of [w] bits. *)
Record machine := Mach {
  vreg : nat -> list Z;
  kreg : nat -> list bool;
  mm : mem;
}.

Definition upd {A} (f : nat -> A) (r : nat) (v : A) (r' : nat) : A := if (r' =? r)%nat then v else f r'.

Definition set_vreg (s : machine) (r : nat) (v : list Z) : machine := Mach (upd (vreg s) r v) (kreg s) (mm s).
Definition set_kreg (s : machine) (r : nat) (v : list bool) : machine := Mach (vreg s) (upd (kreg s) r v) (mm s).
Definition set_mm (s : machine) (m : mem) : machine := Mach (vreg s) (kreg s) m.

(** * Operations on registers *)

(** A byte and a word as signed numbers. *)
Definition s8 (x : Z) : Z := if x <? 128 then x else x - 256.
Definition s16 (x : Z) : Z := if x <? 2 ^ 15 then x else x - 2 ^ 16.

Definition vand (x y : list Z) : list Z := zip_with Z.land x y.
Definition vadd (x y : list Z) : list Z := zip_with (fun a b => u8 (a + b)) x y.

(** [x > y] in every byte, signed: as a mask of bits and as bytes 0 and 0xff. *)
Definition vgt (x y : list Z) : list bool := zip_with (fun a b => s8 b <? s8 a) x y.
Definition vmask (k : list bool) : list Z := map (fun b : bool => if b then 0xff else 0) k.

(** Bit [i] of the result is the bit of [imm] that the three bits select. *)
Definition tern_byte (imm a b c : Z) : Z :=
  foldr (fun i acc =>
      let sel := 4 * Z.b2z (Z.testbit a i) + 2 * Z.b2z (Z.testbit b i) + Z.b2z (Z.testbit c i) in
      (if Z.testbit imm sel then 2 ^ i else 0) ⊕ acc) 0 (seqZ 0 8).
Definition vtern (imm : Z) (x y z : list Z) : list Z :=
  zip_with (fun '(a, b) c => tern_byte imm a b c) (zip x y) z.

(** Arithmetic shift of the 16-bit words to the right. *)
Fixpoint vsraw (imm : Z) (x : list Z) : list Z :=
  match x with
  | lo :: hi :: x =>
      let v := Z.shiftr (s16 (lo + 256 * hi)) imm in
      u8 v :: u8 (Z.shiftr v 8) :: vsraw imm x
  | _ => []
  end.

(** In every 16-byte lane, byte [j] is the byte of the table that the low four bits of the index
    select, or 0 where the top bit of the index is set. *)
Definition vshufb (idx tbl : list Z) : list Z :=
  imap (fun j i => if Z.testbit i 7 then 0 else pget tbl (16 * (j / 16) + Z.to_nat (Z.land i 15))) idx.

(** A table of 16 bytes in every 16-byte lane. *)
Definition bcast (w : nat) (l : list Z) (off : nat) : list Z := map (fun j => pget l (off + j mod 16)) (seq 0 w).

(** * Instructions *)

Inductive instr :=
| Pref (a : addr) (off : nat)                (* prefetchnta mem *)
| Ld (a : addr) (off dst : nat)              (* movq, movdqa, vmovdqa, vmovdqa64 mem,reg *)
| St (src : nat) (a : addr) (off : nat)      (* the same and movntq, movntdq, vmovntdq reg,mem *)
| Ldc (l : list Z) (off dst : nat)           (* movq, movdqa, ... from a constant array *)
| Bc16 (l : list Z) (off dst : nat)          (* vbroadcasti128, vbroadcasti64x2 from a table *)
| Bcb (b : Z) (dst : nat)                    (* vpbroadcastb *)
| Mov (src dst : nat)                        (* movq, movdqa, vmovdqa, vmovapd reg,reg *)
| Xor (s1 s2 dst : nat)                      (* pxor, vpxor, vpxorq *)
| XorM (a : addr) (off s2 dst : nat)         (* the same with a memory operand *)
| And (s1 s2 dst : nat)                      (* pand, vpand, vpandq *)
| Add (s1 s2 dst : nat)                      (* paddb, vpaddb *)
| CmpGt (s1 s2 dst : nat)                    (* pcmpgtb, vpcmpgtb: s2 > s1 *)
| CmpGtK (s1 s2 dst : nat)                   (* vpcmpgtb into a mask register *)
| MovM (k dst : nat)                         (* vpmovm2b *)
| Tern (imm : Z) (s3 s2 dst : nat)           (* vpternlogq *)
| Shuf (idx tbl dst : nat)                   (* pshufb, vpshufb *)
| Sra (imm : Z) (src dst : nat)              (* psraw, vpsraw *)
.

(** One instruction on registers of [w] bytes. *)
Definition exec (w : nat) (s : machine) (i : instr) : machine :=
  match i with
  | Pref _ _ => s
  | Ld a off dst => set_vreg s dst (vload w (page (mm s) a) off)
  | St src a off => set_mm s (store (mm s) a off (vreg s src))
  | Ldc l off dst => set_vreg s dst (vload w l off)
  | Bc16 l off dst => set_vreg s dst (bcast w l off)
  | Bcb b dst => set_vreg s dst (replicate w b)
  | Mov src dst => set_vreg s dst (vreg s src)
  | Xor s1 s2 dst => set_vreg s dst (vxor (vreg s s2) (vreg s s1))
  | XorM a off s2 dst => set_vreg s dst (vxor (vreg s s2) (vload w (page (mm s) a) off))
  | And s1 s2 dst => set_vreg s dst (vand (vreg s s2) (vreg s s1))
  | Add s1 s2 dst => set_vreg s dst (vadd (vreg s s2) (vreg s s1))
  | CmpGt s1 s2 dst => set_vreg s dst (vmask (vgt (vreg s s2) (vreg s s1)))
  | CmpGtK s1 s2 dst => set_kreg s dst (vgt (vreg s s2) (vreg s s1))
  | MovM k dst => set_vreg s dst (vmask (kreg s k))
  | Tern imm s3 s2 dst => set_vreg s dst (vtern imm (vreg s dst) (vreg s s2) (vreg s s3))
  | Shuf idx tbl dst => set_vreg s dst (vshufb (vreg s idx) (vreg s tbl))
  | Sra imm src dst => set_vreg s dst (vsraw imm (vreg s src))
  end.

Definition run (w : nat) (prog : list instr) (s : machine) : machine := fold_left (exec w) prog s.

(** * Loops *)

(** [for (z = hi - 1; z >= lo; z--)]. *)
Definition for_down (lo hi : nat) (body : nat -> machine -> machine) (s : machine) : machine :=
  fold_left (fun s z => body z s) (rev (seq lo (hi - lo))) s.

(** [for (d = 0; d < bytes; d += step)]; [bytes] iterations are enough, as [step] is positive. *)
Fixpoint for_up (step bytes fuel d : nat) (body : nat -> machine -> machine) (s : machine) : machine :=
  match fuel with
  | O => s
  | S fuel => if (d <? bytes)%nat then for_up step bytes fuel (d + step) body (body d s) else s
  end.

(** [while (bytes) { ...; bytes -= step; }] with all pointers advanced by [step]; [None]: the
    unsigned count wraps around and the loop runs off the pages. *)
Fixpoint while_bytes (step fuel d bytes : nat) (body : nat -> machine -> machine) (s : machine) : option machine :=
  if (bytes =? 0)%nat then Some s else
  match fuel with
  | O => None
  | S fuel =>
      if (bytes <? step)%nat then None
      else while_bytes step fuel (d + step) (bytes - step) body (body d s)
  end.
