(* ===== verification/SimdLemmas.v ===== *)
(** The vector machine, byte by byte: what the instructions do to registers that hold one value
    per byte of a page, the loops by their invariants, and the tactics that run a program. *)

From S2P Require Import Prelude.
From S2P Require Import GF256.
From S2P Require Import PageMem.
From S2P Require Import Syndrome.
From S2P Require Import Gfni.
From S2P Require Import Simd.

(** Divisibility of numerals. *)
Lemma divide_check n k : (k mod n =? 0)%nat && negb (n =? 0)%nat = true -> (n | k)%nat.
Proof. intros [H%Nat.eqb_eq Hn%negb_true_iff%Nat.eqb_neq]%andb_true_iff. by apply Nat.mod_divide. Qed.

(** * Bytes *)

(** The compare, add, mask and exclusive or of the assembly multiply by 2. *)
Lemma simd_xtime x : is_u8 x -> u8 (x + x) ⊕ Z.land (if s8 x <? s8 0 then 0xff else 0) 0x1d = xtime x.
Proof.
  intros Hx. apply Z.eqb_eq.
  apply (bytes_check (fun x => u8 (x + x) ⊕ Z.land (if s8 x <? s8 0 then 0xff else 0) 0x1d =? xtime x)); [by vm_compute|done].
Qed.

(** The truth table 0x96 is the exclusive or of three bits. *)
Lemma tern_0x96 a b c : is_u8 a -> is_u8 b -> is_u8 c -> tern_byte 0x96 a b c = a ⊕ b ⊕ c.
Proof.
  intros Ha Hb Hc. rewrite <- (byte_of_bits (a ⊕ b ⊕ c)) by auto with md. unfold tern_byte, of_bits.
  generalize (seqZ 0 8) as ks. induction ks as [|i ks IH]; [done|]. cbn [foldr]. rewrite IH. f_equal.
  rewrite !Z.lxor_spec. by destruct (Z.testbit a i), (Z.testbit b i), (Z.testbit c i).
Qed.

(** * Registers *)

(** A register whose bytes are the values of [f] at the offsets from [off]. *)
Definition lane (w : nat) (f : nat -> Z) (off : nat) : list Z := map f (seq off w).

Section Lane.
Context (w : nat).

Lemma length_lane f off : length (lane w f off) = w.
Proof. unfold lane. by rewrite length_map, length_seq. Qed.

Lemma lane_ext f g off : (forall b, f b = g b) -> lane w f off = lane w g off.
Proof. intros H. apply map_ext, H. Qed.

Lemma lane_const c off : replicate w c = lane w (fun _ => c) off.
Proof.
  unfold lane. revert off. induction w as [|n IH]; intros off; [done|]. cbn [replicate seq map]. f_equal. apply IH.
Qed.

Lemma lane_replicate f c off : (forall b, f b = c) -> lane w f off = replicate w c.
Proof. intros H. rewrite (lane_const c off). by apply lane_ext. Qed.

Lemma zip_with_lane {A B C} (op : A -> B -> C) f g off :
  zip_with op (map f (seq off w)) (map g (seq off w)) = map (fun b => op (f b) (g b)) (seq off w).
Proof. generalize (seq off w) as l. intros l. induction l as [|b l IH]; [done|]. cbn. by rewrite IH. Qed.

Lemma vload_lane l off : vload w l off = lane w (pget l) off.
Proof. apply map_seq_shift. Qed.

Lemma vxor_lane f g off : vxor (lane w f off) (lane w g off) = lane w (fun b => f b ⊕ g b) off.
Proof. apply zip_with_lane. Qed.

Lemma vadd_lane f g off : vadd (lane w f off) (lane w g off) = lane w (fun b => u8 (f b + g b)) off.
Proof. apply zip_with_lane. Qed.

Lemma vand_lane f c off : vand (lane w f off) (replicate w c) = lane w (fun b => Z.land (f b) c) off.
Proof. rewrite (lane_const c off). apply zip_with_lane. Qed.

(** The signed comparison of a constant with a register, as bytes. *)
Lemma vmask_vgt f c off :
  vmask (vgt (replicate w c) (lane w f off)) = lane w (fun b => if s8 (f b) <? s8 c then 0xff else 0) off.
Proof. rewrite (lane_const c off). unfold vmask, vgt, lane. by rewrite zip_with_lane, map_map. Qed.

Lemma vtern_lane imm f g h off :
  vtern imm (lane w f off) (lane w g off) (lane w h off) = lane w (fun b => tern_byte imm (f b) (g b) (h b)) off.
Proof. unfold vtern, lane. rewrite zip_with_lane. apply (zip_with_lane (fun '(a, b) c => tern_byte imm a b c)). Qed.

Lemma vxor_self x : length x = w -> vxor x x = replicate w 0.
Proof.
  intros <-. induction x as [|b x IH]; [done|]. cbn. rewrite Z.lxor_nilpotent. f_equal. exact IH.
Qed.
End Lane.

(** * Nibbles *)

(** The nibbles of two bytes after the arithmetic shift of the word they form. *)
Lemma sra_nibbles lo hi : is_u8 lo -> is_u8 hi ->
  let v := Z.shiftr (s16 (lo + 256 * hi)) 4 in
  Z.land (u8 v) 15 = lo / 16 /\ Z.land (u8 (Z.shiftr v 8)) 15 = hi / 16.
Proof.
  intros Hlo Hhi v. unfold is_u8 in *.
  assert (exists c, v = lo / 16 + 16 * hi - 4096 * c) as [c Hv].
  { unfold v, s16. rewrite Z.shiftr_div_pow2 by lia. change (2 ^ 15) with 32768. change (2 ^ 16) with 65536.
    change (2 ^ 4) with 16. destruct (Z.ltb_spec (lo + 256 * hi) 32768); [exists 0|exists 1];
      Z.to_euclidean_division_equations; lia. }
  assert (v / 256 = hi / 16 - 16 * c) as Hv' by (rewrite Hv; Z.to_euclidean_division_equations; lia).
  unfold u8. change 15 with (Z.ones 4). rewrite !Z.land_ones, Z.shiftr_div_pow2 by lia.
  change (2 ^ 8) with 256. change (2 ^ 4) with 16. rewrite Hv', Hv. split; Z.to_euclidean_division_equations; lia.
Qed.

Lemma vand_vsraw x : Nat.even (length x) = true -> Forall is_u8 x ->
  vand (vsraw 4 x) (replicate (length x) 15) = map (fun b => b / 16) x.
Proof.
  revert x. fix IH 1. intros [|lo [|hi x]] Hev Hx; [done|done|].
  inversion Hx as [|?? Hlo Hx']. inversion Hx' as [|?? Hhi Hx'']. destruct (sra_nibbles lo hi Hlo Hhi) as [E1 E2].
  cbn [vsraw length replicate map]. unfold vand. cbn [zip_with]. rewrite E1, E2. do 2 f_equal. by apply IH.
Qed.

Lemma vload_bcast l off : vload 16 l off = bcast 16 l off.
Proof. done. Qed.

Section Nibbles.
Context (w : nat) (Hw : (16 | w)%nat).

Lemma even_16 : Nat.even w = true.
Proof. destruct Hw as [k ->]. rewrite Nat.even_mul. apply orb_true_r. Qed.

Lemma vsraw_lane f off : (forall b, is_u8 (f b)) ->
  vand (vsraw 4 (lane w f off)) (replicate w 15) = lane w (fun b => f b / 16) off.
Proof.
  intros Hf. rewrite <- (length_lane w f off) at 2. rewrite vand_vsraw.
  - unfold lane. by rewrite map_map.
  - rewrite length_lane. apply even_16.
  - by apply Forall_map_u8.
Qed.

Lemma vshufb_lane f l i off : (forall b, 0 <= f b < 16) ->
  vshufb (lane w f off) (bcast w l i) = lane w (fun b => pget l (i + Z.to_nat (f b))) off.
Proof.
  intros Hf. apply list_eq. intros j. unfold vshufb. rewrite list_lookup_imap. unfold lane, bcast. rewrite !list_lookup_fmap.
  destruct (decide (j < w)%nat) as [Hj|Hj]; [|by rewrite (lookup_ge_None_2 (seq off w)) by (rewrite length_seq; lia)].
  rewrite lookup_seq_lt by done. cbn [fmap option_fmap option_map]. f_equal. specialize (Hf (off + j)%nat).
  assert (Z.testbit (f (off + j)%nat) 7 = false) as ->.
  { rewrite <- (Z.mod_small _ (2 ^ 4)) by lia. by apply Z.mod_pow2_bits_high. }
  change 15 with (Z.ones 4). rewrite Z.land_ones, Z.mod_small by lia.
  set (k := Z.to_nat (f (off + j)%nat)). assert (k < 16)%nat by lia.
  assert (16 * (j / 16) + k < w)%nat by (destruct Hw as [n ->]; pose proof (Nat.Div0.div_lt_upper_bound j 16 n); lia).
  rewrite pget_map_seq by done. do 2 f_equal. rewrite Nat.mul_comm, Nat.add_comm, Nat.Div0.mod_add. by apply Nat.mod_small.
Qed.
End Nibbles.

(** A product from the two lookups in a row of [raid6_vgfmul]. *)
Lemma nibble_product c x : is_u8 c -> is_u8 x ->
  pget (row raid6_vgfmul c) (16 + Z.to_nat (x / 16)) ⊕ pget (row raid6_vgfmul c) (0 + Z.to_nat (Z.land x 15)) = gfmul c x.
Proof.
  intros Hc Hx. rewrite <- raid6_vgfmul_lookup by done. unfold rd, pget. rewrite Z.lxor_comm.
  change 15 with (Z.ones 4). rewrite Z.land_ones by lia. unfold is_u8 in Hx.
  assert (0 <= x / 16) by (apply Z.div_pos; lia).
  by replace (Z.to_nat (16 + x / 16)) with (16 + Z.to_nat (x / 16))%nat by lia.
Qed.

(** * Two pages filled side by side *)

Section Pair.
Context (m : mem) (x y : addr) (P Q : nat -> Z).

(** Memory with the page [x] filled up to [dp] and [y] up to [dq]. *)
Definition pf (dp dq : nat) : mem := <[y := filled Q dq (page m y)]> (<[x := filled P dp (page m x)]> m).

Lemma pf_start : m !! x = Some (page m x) -> m !! y = Some (page m y) -> pf 0 0 = m.
Proof. intros Hx Hy. unfold pf. rewrite !filled_0, (insert_id m x) by done. by apply insert_id. Qed.

Lemma page_pf a dp dq : a <> x -> a <> y -> page (pf dp dq) a = page m a.
Proof. intros. unfold pf. by rewrite !page_insert_ne. Qed.

Section Bounds.
Context (Hxy : x <> y) (bytes : nat).
Context (Hx : (bytes <= length (page m x))%nat) (Hy : (bytes <= length (page m y))%nat).

Lemma lane_pf_x w off dp dq :
  (dp <= off)%nat -> (dp <= bytes)%nat -> lane w (pget (page (pf dp dq) x)) off = lane w (pget (page m x)) off.
Proof.
  clear Hy. intros Hd Hb. apply map_ext_in. intros b Hi%in_seq. unfold pf.
  rewrite page_insert_ne, page_insert_eq by done. apply pget_filled_ge; lia.
Qed.

Lemma lane_pf_y w off dp dq :
  (dq <= off)%nat -> (dq <= bytes)%nat -> lane w (pget (page (pf dp dq) y)) off = lane w (pget (page m y)) off.
Proof.
  clear Hxy Hx. intros Hd Hb. apply map_ext_in. intros b Hi%in_seq. unfold pf. rewrite page_insert_eq. apply pget_filled_ge; lia.
Qed.

Lemma store_pf_x w off dp dq : off = dp -> (off + w <= bytes)%nat -> store (pf dp dq) x off (lane w P off) = pf (off + w) dq.
Proof.
  clear Hy. intros -> Hb. unfold pf. rewrite (insert_insert_ne _ y x) by done.
  rewrite (store_filled _ _ _ _ w) by (done || lia). by apply insert_insert_ne.
Qed.

Lemma store_pf_y w off dp dq : off = dq -> (off + w <= bytes)%nat -> store (pf dp dq) y off (lane w Q off) = pf dp (off + w).
Proof. clear Hxy Hx. intros -> Hb. unfold pf. by rewrite (store_filled _ _ _ _ w) by (done || lia). Qed.
End Bounds.
End Pair.

(** * Well-formed machines *)

(** All registers have the width of the machine. *)
Definition wf (w : nat) (s : machine) : Prop :=
  (forall r, length (vreg s r) = w) /\ forall k, length (kreg s k) = w.

Lemma length_vsraw imm x : Nat.even (length x) = true -> length (vsraw imm x) = length x.
Proof.
  revert x. fix IH 1. intros [|lo [|hi x]] H; [done|done|]. cbn [vsraw length]. do 2 f_equal. apply IH, H.
Qed.

Lemma exec_wf w s i : Nat.even w = true -> wf w s -> wf w (exec w s i).
Proof.
  intros Hw [Hv Hk].
  assert (forall r v, length v = w -> wf w (set_vreg s r v)) as Hset.
  { intros r v Hlen. split; [|done]. intros r'. cbn. unfold upd. by destruct (r' =? r)%nat. }
  destruct i; cbn [exec]; try (apply Hset); unfold vload, vxor, vand, vadd, vmask, vgt, vtern, vshufb, bcast;
    rewrite ?length_zip_with, ?length_map, ?length_zip_with, ?length_imap, ?length_seq, ?length_replicate, ?Hv, ?Hk, ?Nat.min_id; try done.
  - split; [done|]. intros k. cbn. unfold upd. destruct (k =? dst)%nat; [|done].
    by rewrite length_zip_with, !Hv, Nat.min_id.
  - rewrite length_vsraw; by rewrite Hv.
Qed.

Lemma run_wf w prog s : Nat.even w = true -> wf w s -> wf w (run w prog s).
Proof.
  intros Hw. unfold run. revert s. induction prog as [|i prog IH]; intros s Hs; [done|]. apply IH. by apply exec_wf.
Qed.

(** What a set of registers holds. *)
Fixpoint regs (s : machine) (l : list (nat * list Z)) : Prop :=
  match l with
  | [] => True
  | (r, v) :: l => vreg s r = v /\ regs s l
  end.

(** * Loops *)

Lemma for_down_inv (I : nat -> machine -> Prop) lo hi body s :
  (lo <= hi)%nat -> I hi s -> (forall z s, (lo <= z < hi)%nat -> I (S z) s -> I z (body z s)) ->
  I lo (for_down lo hi body s).
Proof.
  intros Hle Hs Hstep. unfold for_down. remember (hi - lo)%nat as n eqn:En. revert hi s Hle Hs Hstep En.
  induction n as [|n IH]; intros hi s Hle Hs Hstep En; [by replace lo with hi by lia|].
  rewrite seq_S, rev_app_distr. cbn [rev app fold_left].
  apply (IH (hi - 1)%nat); [lia| |intros; apply Hstep; [lia|done]|lia].
  replace (lo + n)%nat with (hi - 1)%nat by lia. apply Hstep; [lia|]. by replace (S (hi - 1)) with hi by lia.
Qed.

(** A loop over the disks, and the program that follows it. *)
Lemma for_down_then (J : nat -> machine -> Prop) (R : machine -> Prop) lo hi body s :
  (lo <= hi)%nat -> J hi s -> (forall z s, (lo <= z < hi)%nat -> J (S z) s -> J z (body z s)) ->
  (forall s, J lo s -> R s) -> R (for_down lo hi body s).
Proof. intros Hle Hs Hbody HR. apply HR. by apply (for_down_inv J). Qed.

Lemma for_down_run (J : nat -> machine -> Prop) (R : machine -> Prop) w lo hi body post s :
  (lo <= hi)%nat -> J hi s -> (forall z s, (lo <= z < hi)%nat -> J (S z) s -> J z (body z s)) ->
  (forall s, J lo s -> R (run w post s)) -> R (run w post (for_down lo hi body s)).
Proof. apply (for_down_then J (fun s => R (run w post s))). Qed.

Lemma for_up_inv (I : nat -> machine -> Prop) step bytes body s :
  (0 < step)%nat -> (step | bytes)%nat -> I 0%nat s ->
  (forall d s, (d + step <= bytes)%nat -> I d s -> I (d + step)%nat (body d s)) ->
  I bytes (for_up step bytes bytes 0 body s).
Proof.
  intros Hpos [k Hk] Hs Hstep.
  assert (forall fuel j s, (j <= k)%nat -> (k - j <= fuel)%nat -> I (j * step)%nat s ->
    I bytes (for_up step bytes fuel (j * step) body s)) as Hloop; [|apply (Hloop bytes 0%nat); [lia|nia|done]].
  induction fuel as [|fuel IH]; intros j s' Hj Hf Hs'; cbn [for_up].
  { by replace bytes with (j * step)%nat by nia. }
  destruct (Nat.ltb_spec (j * step) bytes) as [Hlt|Hge].
  - assert (j < k)%nat by nia. replace (j * step + step)%nat with (S j * step)%nat by lia.
    apply IH; [lia|lia|]. replace (S j * step)%nat with (j * step + step)%nat by lia. apply Hstep; [nia|done].
  - by replace bytes with (j * step)%nat by nia.
Qed.

Lemma while_bytes_inv (I : nat -> machine -> Prop) step bytes body s :
  (0 < step)%nat -> (step | bytes)%nat -> I 0%nat s ->
  (forall d s, (d + step <= bytes)%nat -> I d s -> I (d + step)%nat (body d s)) ->
  exists s', while_bytes step bytes 0 bytes body s = Some s' /\ I bytes s'.
Proof.
  intros Hpos [k Hk] Hs Hstep.
  assert (forall fuel j s, (j <= k)%nat -> (k - j <= fuel)%nat -> I (j * step)%nat s ->
    exists s', while_bytes step fuel (j * step) (bytes - j * step) body s = Some s' /\ I bytes s') as Hloop.
  2: { destruct (Hloop bytes 0%nat s) as (s' & Hs' & HI); [lia|nia|done|]. exists s'.
       by rewrite Nat.mul_0_l, Nat.sub_0_r in Hs'. }
  induction fuel as [|fuel IH]; intros j s' Hj Hf Hs'; cbn [while_bytes].
  { replace (bytes - j * step)%nat with 0%nat by nia. exists s'. split; [done|]. by replace bytes with (j * step)%nat by nia. }
  destruct (Nat.eqb_spec (bytes - j * step) 0) as [Hz|Hnz].
  { exists s'. split; [done|]. assert (j = k) as -> by nia. by rewrite Hk. }
  assert (j < k)%nat by nia. rewrite (proj2 (Nat.ltb_ge _ _)) by nia.
  replace (j * step + step)%nat with (S j * step)%nat by lia. replace (bytes - j * step - step)%nat with (bytes - S j * step)%nat by lia.
  apply IH; [lia|lia|]. replace (S j * step)%nat with (j * step + step)%nat by lia. apply Hstep; [nia|done].
Qed.

(** * Running a program *)

(** Unfold the instructions of a program and read the registers it leaves. *)
Ltac simd_run :=
  cbn [run fold_left exec set_vreg set_kreg set_mm vreg kreg mm upd Nat.eqb].

Ltac destruct_regs H := repeat lazymatch type of H with _ /\ _ => destruct H as [? H] end.

Ltac rewrite_regs := repeat match goal with H : vreg _ _ = _ |- _ => rewrite !H; clear H end.

Ltac lane_step := first [rewrite vxor_lane | rewrite vadd_lane | rewrite vand_lane | rewrite vmask_vgt | rewrite vtern_lane].
