(* ===== verification/SimdSyndrome.v ===== *)
(** The MMX, SSE, AVX2 and AVX-512 implementations of the RAID-6 syndromes, raid6/mmx.c, sse1.c,
    sse2.c, avx2.c and avx512.c, instruction by instruction.

    A routine starts in a machine with any contents of the registers.  [z0 - 1] below is the
    number of the second data disk from the top: with a single data disk C would read before the
    pointer table, so that the routines that use it need two. [sfence] and the bracket of
    [kernel_fpu_begin] and [kernel_fpu_end] have no effect on the model. *)

From S2P Require Import Prelude.
From S2P Require Import GF256.
From S2P Require Import PageMem.
From S2P Require Import Simd.

(** The arrays [x1d] of 64-bit words, as bytes. *)
Definition x1d_words (n : nat) : list Z := concat (replicate n (le_split 8 0x1d1d1d1d1d1d1d1d)).
Definition raid6_mmx_constants : list Z := x1d_words 1.
Definition raid6_sse_constants : list Z := x1d_words 2.
Definition raid6_avx2_constants : list Z := x1d_words 4.
Definition raid6_avx512_constants : list Z := x1d_words 8.

(** * MMX, raid6/mmx.c *)

(** [raid6_mmx1_gen_syndrome]. *)
Definition raid6_mmx1_gen_syndrome (s : machine) (disks bytes : nat) (ptrs : list addr) : machine :=
  let z0 := (disks - 3)%nat in
  let p := ptr ptrs (z0 + 1) in
  let q := ptr ptrs (z0 + 2) in
  let s := run 8
    [Ldc raid6_mmx_constants 0 0; Xor 5 5 5] s in
  for_up 8 bytes bytes 0 (fun d s =>
    let s := run 8
      [Ld (ptr ptrs z0) d 2; Mov 2 4] s in
    let s := for_down 0 z0 (fun z s => run 8
      [Ld (ptr ptrs z) d 6; CmpGt 4 5 5; Add 4 4 4; And 0 5 5; Xor 5 4 4; Xor 5 5 5; Xor 6 2 2; Xor 6 4 4] s) s in
    run 8
      [St 2 p d; Xor 2 2 2; St 4 q d; Xor 4 4 4] s) s.

(** [raid6_mmx2_gen_syndrome]. *)
Definition raid6_mmx2_gen_syndrome (s : machine) (disks bytes : nat) (ptrs : list addr) : machine :=
  let z0 := (disks - 3)%nat in
  let p := ptr ptrs (z0 + 1) in
  let q := ptr ptrs (z0 + 2) in
  let s := run 8
    [Ldc raid6_mmx_constants 0 0; Xor 5 5 5; Xor 7 7 7] s in
  for_up 16 bytes bytes 0 (fun d s =>
    let s := run 8
      [Ld (ptr ptrs z0) d 2; Ld (ptr ptrs z0) (d + 8) 3; Mov 2 4; Mov 3 6] s in
    let s := for_down 0 z0 (fun z s => run 8
      [CmpGt 4 5 5; CmpGt 6 7 7; Add 4 4 4; Add 6 6 6; And 0 5 5; And 0 7 7; Xor 5 4 4; Xor 7 6 6;
       Ld (ptr ptrs z) d 5; Ld (ptr ptrs z) (d + 8) 7; Xor 5 2 2; Xor 7 3 3; Xor 5 4 4; Xor 7 6 6; Xor 5 5 5;
       Xor 7 7 7] s) s in
    run 8
      [St 2 p d; St 3 p (d + 8); St 4 q d; St 6 q (d + 8)] s) s.

(** * SSE1, raid6/sse1.c *)

(** [raid6_sse11_gen_syndrome]. *)
Definition raid6_sse11_gen_syndrome (s : machine) (disks bytes : nat) (ptrs : list addr) : machine :=
  let z0 := (disks - 3)%nat in
  let p := ptr ptrs (z0 + 1) in
  let q := ptr ptrs (z0 + 2) in
  let s := run 8
    [Ldc raid6_mmx_constants 0 0; Xor 5 5 5] s in
  for_up 8 bytes bytes 0 (fun d s =>
    let s := run 8
      [Pref (ptr ptrs z0) d; Ld (ptr ptrs z0) d 2; Pref (ptr ptrs (z0 - 1)) d; Mov 2 4;
       Ld (ptr ptrs (z0 - 1)) d 6] s in
    let s := for_down 0 (z0 - 1) (fun z s => run 8
      [Pref (ptr ptrs z) d; CmpGt 4 5 5; Add 4 4 4; And 0 5 5; Xor 5 4 4; Xor 5 5 5; Xor 6 2 2; Xor 6 4 4;
       Ld (ptr ptrs z) d 6] s) s in
    run 8
      [CmpGt 4 5 5; Add 4 4 4; And 0 5 5; Xor 5 4 4; Xor 5 5 5; Xor 6 2 2; Xor 6 4 4; St 2 p d; St 4 q d] s) s.

(** [raid6_sse12_gen_syndrome]. *)
Definition raid6_sse12_gen_syndrome (s : machine) (disks bytes : nat) (ptrs : list addr) : machine :=
  let z0 := (disks - 3)%nat in
  let p := ptr ptrs (z0 + 1) in
  let q := ptr ptrs (z0 + 2) in
  let s := run 8
    [Ldc raid6_mmx_constants 0 0; Xor 5 5 5; Xor 7 7 7] s in
  for_up 16 bytes bytes 0 (fun d s =>
    let s := run 8
      [Pref (ptr ptrs z0) d; Ld (ptr ptrs z0) d 2; Ld (ptr ptrs z0) (d + 8) 3; Mov 2 4; Mov 3 6] s in
    let s := for_down 0 z0 (fun z s => run 8
      [Pref (ptr ptrs z) d; CmpGt 4 5 5; CmpGt 6 7 7; Add 4 4 4; Add 6 6 6; And 0 5 5; And 0 7 7; Xor 5 4 4;
       Xor 7 6 6; Ld (ptr ptrs z) d 5; Ld (ptr ptrs z) (d + 8) 7; Xor 5 2 2; Xor 7 3 3; Xor 5 4 4; Xor 7 6 6;
       Xor 5 5 5; Xor 7 7 7] s) s in
    run 8
      [St 2 p d; St 3 p (d + 8); St 4 q d; St 6 q (d + 8)] s) s.

(** * SSE2, raid6/sse2.c *)

(** [raid6_sse21_gen_syndrome]. *)
Definition raid6_sse21_gen_syndrome (s : machine) (disks bytes : nat) (ptrs : list addr) : machine :=
  let z0 := (disks - 3)%nat in
  let p := ptr ptrs (z0 + 1) in
  let q := ptr ptrs (z0 + 2) in
  let s := run 16
    [Ldc raid6_sse_constants 0 0; Xor 5 5 5] s in
  for_up 16 bytes bytes 0 (fun d s =>
    let s := run 16
      [Pref (ptr ptrs z0) d; Ld (ptr ptrs z0) d 2; Pref (ptr ptrs (z0 - 1)) d; Mov 2 4;
       Ld (ptr ptrs (z0 - 1)) d 6] s in
    let s := for_down 0 (z0 - 1) (fun z s => run 16
      [Pref (ptr ptrs z) d; CmpGt 4 5 5; Add 4 4 4; And 0 5 5; Xor 5 4 4; Xor 5 5 5; Xor 6 2 2; Xor 6 4 4;
       Ld (ptr ptrs z) d 6] s) s in
    run 16
      [CmpGt 4 5 5; Add 4 4 4; And 0 5 5; Xor 5 4 4; Xor 5 5 5; Xor 6 2 2; Xor 6 4 4; St 2 p d; Xor 2 2 2;
       St 4 q d; Xor 4 4 4] s) s.

(** [raid6_sse21_xor_syndrome]. *)
Definition raid6_sse21_xor_syndrome (s : machine) (disks start stop bytes : nat) (ptrs : list addr) : machine :=
  let z0 := stop in
  let p := ptr ptrs (disks - 2) in
  let q := ptr ptrs (disks - 1) in
  let s := run 16
    [Ldc raid6_sse_constants 0 0] s in
  for_up 16 bytes bytes 0 (fun d s =>
    let s := run 16
      [Ld (ptr ptrs z0) d 4; Ld p d 2; Xor 4 2 2] s in
    let s := for_down start z0 (fun z s => run 16
      [Xor 5 5 5; CmpGt 4 5 5; Add 4 4 4; And 0 5 5; Xor 5 4 4; Ld (ptr ptrs z) d 5; Xor 5 2 2; Xor 5 4 4] s) s in
    let s := for_down 0 start (fun z s => run 16
      [Xor 5 5 5; CmpGt 4 5 5; Add 4 4 4; And 0 5 5; Xor 5 4 4] s) s in
    run 16
      [XorM q d 4 4; St 4 q d; St 2 p d] s) s.

(** [raid6_sse22_gen_syndrome]. *)
Definition raid6_sse22_gen_syndrome (s : machine) (disks bytes : nat) (ptrs : list addr) : machine :=
  let z0 := (disks - 3)%nat in
  let p := ptr ptrs (z0 + 1) in
  let q := ptr ptrs (z0 + 2) in
  let s := run 16
    [Ldc raid6_sse_constants 0 0; Xor 5 5 5; Xor 7 7 7] s in
  for_up 32 bytes bytes 0 (fun d s =>
    let s := run 16
      [Pref (ptr ptrs z0) d; Ld (ptr ptrs z0) d 2; Ld (ptr ptrs z0) (d + 16) 3; Mov 2 4; Mov 3 6] s in
    let s := for_down 0 z0 (fun z s => run 16
      [Pref (ptr ptrs z) d; CmpGt 4 5 5; CmpGt 6 7 7; Add 4 4 4; Add 6 6 6; And 0 5 5; And 0 7 7; Xor 5 4 4;
       Xor 7 6 6; Ld (ptr ptrs z) d 5; Ld (ptr ptrs z) (d + 16) 7; Xor 5 2 2; Xor 7 3 3; Xor 5 4 4; Xor 7 6 6;
       Xor 5 5 5; Xor 7 7 7] s) s in
    run 16
      [St 2 p d; St 3 p (d + 16); St 4 q d; St 6 q (d + 16)] s) s.

(** [raid6_sse22_xor_syndrome]. *)
Definition raid6_sse22_xor_syndrome (s : machine) (disks start stop bytes : nat) (ptrs : list addr) : machine :=
  let z0 := stop in
  let p := ptr ptrs (disks - 2) in
  let q := ptr ptrs (disks - 1) in
  let s := run 16
    [Ldc raid6_sse_constants 0 0] s in
  for_up 32 bytes bytes 0 (fun d s =>
    let s := run 16
      [Ld (ptr ptrs z0) d 4; Ld (ptr ptrs z0) (d + 16) 6; Ld p d 2; Ld p (d + 16) 3; Xor 4 2 2; Xor 6 3 3] s in
    let s := for_down start z0 (fun z s => run 16
      [Xor 5 5 5; Xor 7 7 7; CmpGt 4 5 5; CmpGt 6 7 7; Add 4 4 4; Add 6 6 6; And 0 5 5; And 0 7 7; Xor 5 4 4;
       Xor 7 6 6; Ld (ptr ptrs z) d 5; Ld (ptr ptrs z) (d + 16) 7; Xor 5 2 2; Xor 7 3 3; Xor 5 4 4; Xor 7 6 6] s) s in
    let s := for_down 0 start (fun z s => run 16
      [Xor 5 5 5; Xor 7 7 7; CmpGt 4 5 5; CmpGt 6 7 7; Add 4 4 4; Add 6 6 6; And 0 5 5; And 0 7 7; Xor 5 4 4;
       Xor 7 6 6] s) s in
    run 16
      [XorM q d 4 4; XorM q (d + 16) 6 6; St 4 q d; St 6 q (d + 16); St 2 p d; St 3 p (d + 16)] s) s.

(** [raid6_sse24_gen_syndrome]. *)
Definition raid6_sse24_gen_syndrome (s : machine) (disks bytes : nat) (ptrs : list addr) : machine :=
  let z0 := (disks - 3)%nat in
  let p := ptr ptrs (z0 + 1) in
  let q := ptr ptrs (z0 + 2) in
  let s := run 16
    [Ldc raid6_sse_constants 0 0; Xor 2 2 2; Xor 3 3 3; Xor 4 4 4; Xor 5 5 5; Xor 6 6 6; Xor 7 7 7;
     Xor 10 10 10; Xor 11 11 11; Xor 12 12 12; Xor 13 13 13; Xor 14 14 14; Xor 15 15 15] s in
  for_up 64 bytes bytes 0 (fun d s =>
    let s := for_down 0 (S z0) (fun z s => run 16
      [Pref (ptr ptrs z) d; Pref (ptr ptrs z) (d + 32); CmpGt 4 5 5; CmpGt 6 7 7; CmpGt 12 13 13;
       CmpGt 14 15 15; Add 4 4 4; Add 6 6 6; Add 12 12 12; Add 14 14 14; And 0 5 5; And 0 7 7; And 0 13 13;
       And 0 15 15; Xor 5 4 4; Xor 7 6 6; Xor 13 12 12; Xor 15 14 14; Ld (ptr ptrs z) d 5;
       Ld (ptr ptrs z) (d + 16) 7; Ld (ptr ptrs z) (d + 32) 13; Ld (ptr ptrs z) (d + 48) 15; Xor 5 2 2;
       Xor 7 3 3; Xor 13 10 10; Xor 15 11 11; Xor 5 4 4; Xor 7 6 6; Xor 13 12 12; Xor 15 14 14; Xor 5 5 5;
       Xor 7 7 7; Xor 13 13 13; Xor 15 15 15] s) s in
    run 16
      [St 2 p d; Xor 2 2 2; St 3 p (d + 16); Xor 3 3 3; St 10 p (d + 32); Xor 10 10 10; St 11 p (d + 48);
       Xor 11 11 11; St 4 q d; Xor 4 4 4; St 6 q (d + 16); Xor 6 6 6; St 12 q (d + 32); Xor 12 12 12;
       St 14 q (d + 48); Xor 14 14 14] s) s.

(** [raid6_sse24_xor_syndrome]. *)
Definition raid6_sse24_xor_syndrome (s : machine) (disks start stop bytes : nat) (ptrs : list addr) : machine :=
  let z0 := stop in
  let p := ptr ptrs (disks - 2) in
  let q := ptr ptrs (disks - 1) in
  let s := run 16
    [Ldc raid6_sse_constants 0 0] s in
  for_up 64 bytes bytes 0 (fun d s =>
    let s := run 16
      [Ld (ptr ptrs z0) d 4; Ld (ptr ptrs z0) (d + 16) 6; Ld (ptr ptrs z0) (d + 32) 12;
       Ld (ptr ptrs z0) (d + 48) 14; Ld p d 2; Ld p (d + 16) 3; Ld p (d + 32) 10; Ld p (d + 48) 11; Xor 4 2 2;
       Xor 6 3 3; Xor 12 10 10; Xor 14 11 11] s in
    let s := for_down start z0 (fun z s => run 16
      [Pref (ptr ptrs z) d; Pref (ptr ptrs z) (d + 32); Xor 5 5 5; Xor 7 7 7; Xor 13 13 13; Xor 15 15 15;
       CmpGt 4 5 5; CmpGt 6 7 7; CmpGt 12 13 13; CmpGt 14 15 15; Add 4 4 4; Add 6 6 6; Add 12 12 12;
       Add 14 14 14; And 0 5 5; And 0 7 7; And 0 13 13; And 0 15 15; Xor 5 4 4; Xor 7 6 6; Xor 13 12 12;
       Xor 15 14 14; Ld (ptr ptrs z) d 5; Ld (ptr ptrs z) (d + 16) 7; Ld (ptr ptrs z) (d + 32) 13;
       Ld (ptr ptrs z) (d + 48) 15; Xor 5 2 2; Xor 7 3 3; Xor 13 10 10; Xor 15 11 11; Xor 5 4 4; Xor 7 6 6;
       Xor 13 12 12; Xor 15 14 14] s) s in
    let s := run 16
      [Pref q d; Pref q (d + 32)] s in
    let s := for_down 0 start (fun z s => run 16
      [Xor 5 5 5; Xor 7 7 7; Xor 13 13 13; Xor 15 15 15; CmpGt 4 5 5; CmpGt 6 7 7; CmpGt 12 13 13;
       CmpGt 14 15 15; Add 4 4 4; Add 6 6 6; Add 12 12 12; Add 14 14 14; And 0 5 5; And 0 7 7; And 0 13 13;
       And 0 15 15; Xor 5 4 4; Xor 7 6 6; Xor 13 12 12; Xor 15 14 14] s) s in
    run 16
      [St 2 p d; St 3 p (d + 16); St 10 p (d + 32); St 11 p (d + 48); XorM q d 4 4; XorM q (d + 16) 6 6;
       XorM q (d + 32) 12 12; XorM q (d + 48) 14 14; St 4 q d; St 6 q (d + 16); St 12 q (d + 32);
       St 14 q (d + 48)] s) s.

(** * AVX2, raid6/avx2.c *)

(** [raid6_avx21_gen_syndrome]. *)
Definition raid6_avx21_gen_syndrome (s : machine) (disks bytes : nat) (ptrs : list addr) : machine :=
  let z0 := (disks - 3)%nat in
  let p := ptr ptrs (z0 + 1) in
  let q := ptr ptrs (z0 + 2) in
  let s := run 32
    [Ldc raid6_avx2_constants 0 0; Xor 3 3 3] s in
  for_up 32 bytes bytes 0 (fun d s =>
    let s := run 32
      [Pref (ptr ptrs z0) d; Ld (ptr ptrs z0) d 2; Pref (ptr ptrs (z0 - 1)) d; Mov 2 4;
       Ld (ptr ptrs (z0 - 1)) d 6] s in
    let s := for_down 0 (z0 - 1) (fun z s => run 32
      [Pref (ptr ptrs z) d; CmpGt 4 3 5; Add 4 4 4; And 0 5 5; Xor 5 4 4; Xor 6 2 2; Xor 6 4 4;
       Ld (ptr ptrs z) d 6] s) s in
    run 32
      [CmpGt 4 3 5; Add 4 4 4; And 0 5 5; Xor 5 4 4; Xor 6 2 2; Xor 6 4 4; St 2 p d; Xor 2 2 2; St 4 q d;
       Xor 4 4 4] s) s.

(** [raid6_avx21_xor_syndrome]. *)
Definition raid6_avx21_xor_syndrome (s : machine) (disks start stop bytes : nat) (ptrs : list addr) : machine :=
  let z0 := stop in
  let p := ptr ptrs (disks - 2) in
  let q := ptr ptrs (disks - 1) in
  let s := run 32
    [Ldc raid6_avx2_constants 0 0] s in
  for_up 32 bytes bytes 0 (fun d s =>
    let s := run 32
      [Ld (ptr ptrs z0) d 4; Ld p d 2; Xor 4 2 2] s in
    let s := for_down start z0 (fun z s => run 32
      [Xor 5 5 5; CmpGt 4 5 5; Add 4 4 4; And 0 5 5; Xor 5 4 4; Ld (ptr ptrs z) d 5; Xor 5 2 2; Xor 5 4 4] s) s in
    let s := for_down 0 start (fun z s => run 32
      [Xor 5 5 5; CmpGt 4 5 5; Add 4 4 4; And 0 5 5; Xor 5 4 4] s) s in
    run 32
      [XorM q d 4 4; St 4 q d; St 2 p d] s) s.

(** [raid6_avx22_gen_syndrome]. *)
Definition raid6_avx22_gen_syndrome (s : machine) (disks bytes : nat) (ptrs : list addr) : machine :=
  let z0 := (disks - 3)%nat in
  let p := ptr ptrs (z0 + 1) in
  let q := ptr ptrs (z0 + 2) in
  let s := run 32
    [Ldc raid6_avx2_constants 0 0; Xor 1 1 1] s in
  for_up 64 bytes bytes 0 (fun d s =>
    let s := run 32
      [Pref (ptr ptrs z0) d; Pref (ptr ptrs z0) (d + 32); Ld (ptr ptrs z0) d 2; Ld (ptr ptrs z0) (d + 32) 3;
       Mov 2 4; Mov 3 6] s in
    let s := for_down 0 z0 (fun z s => run 32
      [Pref (ptr ptrs z) d; Pref (ptr ptrs z) (d + 32); CmpGt 4 1 5; CmpGt 6 1 7; Add 4 4 4; Add 6 6 6;
       And 0 5 5; And 0 7 7; Xor 5 4 4; Xor 7 6 6; Ld (ptr ptrs z) d 5; Ld (ptr ptrs z) (d + 32) 7; Xor 5 2 2;
       Xor 7 3 3; Xor 5 4 4; Xor 7 6 6] s) s in
    run 32
      [St 2 p d; St 3 p (d + 32); St 4 q d; St 6 q (d + 32)] s) s.

(** [raid6_avx22_xor_syndrome]. *)
Definition raid6_avx22_xor_syndrome (s : machine) (disks start stop bytes : nat) (ptrs : list addr) : machine :=
  let z0 := stop in
  let p := ptr ptrs (disks - 2) in
  let q := ptr ptrs (disks - 1) in
  let s := run 32
    [Ldc raid6_avx2_constants 0 0] s in
  for_up 64 bytes bytes 0 (fun d s =>
    let s := run 32
      [Ld (ptr ptrs z0) d 4; Ld (ptr ptrs z0) (d + 32) 6; Ld p d 2; Ld p (d + 32) 3; Xor 4 2 2; Xor 6 3 3] s in
    let s := for_down start z0 (fun z s => run 32
      [Xor 5 5 5; Xor 7 7 7; CmpGt 4 5 5; CmpGt 6 7 7; Add 4 4 4; Add 6 6 6; And 0 5 5; And 0 7 7; Xor 5 4 4;
       Xor 7 6 6; Ld (ptr ptrs z) d 5; Ld (ptr ptrs z) (d + 32) 7; Xor 5 2 2; Xor 7 3 3; Xor 5 4 4; Xor 7 6 6] s) s in
    let s := for_down 0 start (fun z s => run 32
      [Xor 5 5 5; Xor 7 7 7; CmpGt 4 5 5; CmpGt 6 7 7; Add 4 4 4; Add 6 6 6; And 0 5 5; And 0 7 7; Xor 5 4 4;
       Xor 7 6 6] s) s in
    run 32
      [XorM q d 4 4; XorM q (d + 32) 6 6; St 4 q d; St 6 q (d + 32); St 2 p d; St 3 p (d + 32)] s) s.

(** [raid6_avx24_gen_syndrome]. *)
Definition raid6_avx24_gen_syndrome (s : machine) (disks bytes : nat) (ptrs : list addr) : machine :=
  let z0 := (disks - 3)%nat in
  let p := ptr ptrs (z0 + 1) in
  let q := ptr ptrs (z0 + 2) in
  let s := run 32
    [Ldc raid6_avx2_constants 0 0; Xor 1 1 1; Xor 2 2 2; Xor 3 3 3; Xor 4 4 4; Xor 6 6 6; Xor 10 10 10;
     Xor 11 11 11; Xor 12 12 12; Xor 14 14 14] s in
  for_up 128 bytes bytes 0 (fun d s =>
    let s := for_down 0 (S z0) (fun z s => run 32
      [Pref (ptr ptrs z) d; Pref (ptr ptrs z) (d + 32); Pref (ptr ptrs z) (d + 64); Pref (ptr ptrs z) (d + 96);
       CmpGt 4 1 5; CmpGt 6 1 7; CmpGt 12 1 13; CmpGt 14 1 15; Add 4 4 4; Add 6 6 6; Add 12 12 12;
       Add 14 14 14; And 0 5 5; And 0 7 7; And 0 13 13; And 0 15 15; Xor 5 4 4; Xor 7 6 6; Xor 13 12 12;
       Xor 15 14 14; Ld (ptr ptrs z) d 5; Ld (ptr ptrs z) (d + 32) 7; Ld (ptr ptrs z) (d + 64) 13;
       Ld (ptr ptrs z) (d + 96) 15; Xor 5 2 2; Xor 7 3 3; Xor 13 10 10; Xor 15 11 11; Xor 5 4 4; Xor 7 6 6;
       Xor 13 12 12; Xor 15 14 14] s) s in
    run 32
      [St 2 p d; Xor 2 2 2; St 3 p (d + 32); Xor 3 3 3; St 10 p (d + 64); Xor 10 10 10; St 11 p (d + 96);
       Xor 11 11 11; St 4 q d; Xor 4 4 4; St 6 q (d + 32); Xor 6 6 6; St 12 q (d + 64); Xor 12 12 12;
       St 14 q (d + 96); Xor 14 14 14] s) s.

(** [raid6_avx24_xor_syndrome]. *)
Definition raid6_avx24_xor_syndrome (s : machine) (disks start stop bytes : nat) (ptrs : list addr) : machine :=
  let z0 := stop in
  let p := ptr ptrs (disks - 2) in
  let q := ptr ptrs (disks - 1) in
  let s := run 32
    [Ldc raid6_avx2_constants 0 0] s in
  for_up 128 bytes bytes 0 (fun d s =>
    let s := run 32
      [Ld (ptr ptrs z0) d 4; Ld (ptr ptrs z0) (d + 32) 6; Ld (ptr ptrs z0) (d + 64) 12;
       Ld (ptr ptrs z0) (d + 96) 14; Ld p d 2; Ld p (d + 32) 3; Ld p (d + 64) 10; Ld p (d + 96) 11; Xor 4 2 2;
       Xor 6 3 3; Xor 12 10 10; Xor 14 11 11] s in
    let s := for_down start z0 (fun z s => run 32
      [Pref (ptr ptrs z) d; Pref (ptr ptrs z) (d + 64); Xor 5 5 5; Xor 7 7 7; Xor 13 13 13; Xor 15 15 15;
       CmpGt 4 5 5; CmpGt 6 7 7; CmpGt 12 13 13; CmpGt 14 15 15; Add 4 4 4; Add 6 6 6; Add 12 12 12;
       Add 14 14 14; And 0 5 5; And 0 7 7; And 0 13 13; And 0 15 15; Xor 5 4 4; Xor 7 6 6; Xor 13 12 12;
       Xor 15 14 14; Ld (ptr ptrs z) d 5; Ld (ptr ptrs z) (d + 32) 7; Ld (ptr ptrs z) (d + 64) 13;
       Ld (ptr ptrs z) (d + 96) 15; Xor 5 2 2; Xor 7 3 3; Xor 13 10 10; Xor 15 11 11; Xor 5 4 4; Xor 7 6 6;
       Xor 13 12 12; Xor 15 14 14] s) s in
    let s := run 32
      [Pref q d; Pref q (d + 64)] s in
    let s := for_down 0 start (fun z s => run 32
      [Xor 5 5 5; Xor 7 7 7; Xor 13 13 13; Xor 15 15 15; CmpGt 4 5 5; CmpGt 6 7 7; CmpGt 12 13 13;
       CmpGt 14 15 15; Add 4 4 4; Add 6 6 6; Add 12 12 12; Add 14 14 14; And 0 5 5; And 0 7 7; And 0 13 13;
       And 0 15 15; Xor 5 4 4; Xor 7 6 6; Xor 13 12 12; Xor 15 14 14] s) s in
    run 32
      [St 2 p d; St 3 p (d + 32); St 10 p (d + 64); St 11 p (d + 96); XorM q d 4 4; XorM q (d + 32) 6 6;
       XorM q (d + 64) 12 12; XorM q (d + 96) 14 14; St 4 q d; St 6 q (d + 32); St 12 q (d + 64);
       St 14 q (d + 96)] s) s.

(** * AVX-512, raid6/avx512.c *)

(** [raid6_avx5121_gen_syndrome]. *)
Definition raid6_avx5121_gen_syndrome (s : machine) (disks bytes : nat) (ptrs : list addr) : machine :=
  let z0 := (disks - 3)%nat in
  let p := ptr ptrs (z0 + 1) in
  let q := ptr ptrs (z0 + 2) in
  let s := run 64
    [Ldc raid6_avx512_constants 0 0; Xor 1 1 1] s in
  for_up 64 bytes bytes 0 (fun d s =>
    let s := run 64
      [Pref (ptr ptrs z0) d; Ld (ptr ptrs z0) d 2; Pref (ptr ptrs (z0 - 1)) d; Mov 2 4;
       Ld (ptr ptrs (z0 - 1)) d 6] s in
    let s := for_down 0 (z0 - 1) (fun z s => run 64
      [Pref (ptr ptrs z) d; CmpGtK 4 1 1; MovM 1 5; Add 4 4 4; And 0 5 5; Tern 0x96 5 6 4; Xor 6 2 2;
       Ld (ptr ptrs z) d 6] s) s in
    run 64
      [CmpGtK 4 1 1; MovM 1 5; Add 4 4 4; And 0 5 5; Tern 0x96 5 6 4; Xor 6 2 2; St 2 p d; Xor 2 2 2; St 4 q d;
       Xor 4 4 4] s) s.

(** [raid6_avx5121_xor_syndrome]. *)
Definition raid6_avx5121_xor_syndrome (s : machine) (disks start stop bytes : nat) (ptrs : list addr) : machine :=
  let z0 := stop in
  let p := ptr ptrs (disks - 2) in
  let q := ptr ptrs (disks - 1) in
  let s := run 64
    [Ldc raid6_avx512_constants 0 0] s in
  for_up 64 bytes bytes 0 (fun d s =>
    let s := run 64
      [Ld (ptr ptrs z0) d 4; Ld p d 2; Xor 4 2 2] s in
    let s := for_down start z0 (fun z s => run 64
      [Xor 5 5 5; CmpGtK 4 5 1; MovM 1 5; Add 4 4 4; And 0 5 5; Ld (ptr ptrs z) d 6; Xor 6 2 2; Tern 0x96 5 6 4] s) s in
    let s := for_down 0 start (fun z s => run 64
      [Xor 5 5 5; CmpGtK 4 5 1; MovM 1 5; Add 4 4 4; And 0 5 5; Xor 5 4 4] s) s in
    run 64
      [XorM q d 4 4; St 4 q d; St 2 p d] s) s.

(** [raid6_avx5122_gen_syndrome]. *)
Definition raid6_avx5122_gen_syndrome (s : machine) (disks bytes : nat) (ptrs : list addr) : machine :=
  let z0 := (disks - 3)%nat in
  let p := ptr ptrs (z0 + 1) in
  let q := ptr ptrs (z0 + 2) in
  let s := run 64
    [Ldc raid6_avx512_constants 0 0; Xor 1 1 1] s in
  for_up 128 bytes bytes 0 (fun d s =>
    let s := run 64
      [Pref (ptr ptrs z0) d; Pref (ptr ptrs z0) (d + 64); Ld (ptr ptrs z0) d 2; Ld (ptr ptrs z0) (d + 64) 3;
       Mov 2 4; Mov 3 6] s in
    let s := for_down 0 z0 (fun z s => run 64
      [Pref (ptr ptrs z) d; Pref (ptr ptrs z) (d + 64); CmpGtK 4 1 1; CmpGtK 6 1 2; MovM 1 5; MovM 2 7;
       Add 4 4 4; Add 6 6 6; And 0 5 5; And 0 7 7; Ld (ptr ptrs z) d 8; Ld (ptr ptrs z) (d + 64) 9;
       Tern 0x96 5 8 4; Tern 0x96 7 9 6; Xor 8 2 2; Xor 9 3 3] s) s in
    run 64
      [St 2 p d; St 3 p (d + 64); St 4 q d; St 6 q (d + 64)] s) s.

(** [raid6_avx5122_xor_syndrome]. *)
Definition raid6_avx5122_xor_syndrome (s : machine) (disks start stop bytes : nat) (ptrs : list addr) : machine :=
  let z0 := stop in
  let p := ptr ptrs (disks - 2) in
  let q := ptr ptrs (disks - 1) in
  let s := run 64
    [Ldc raid6_avx512_constants 0 0] s in
  for_up 128 bytes bytes 0 (fun d s =>
    let s := run 64
      [Ld (ptr ptrs z0) d 4; Ld (ptr ptrs z0) (d + 64) 6; Ld p d 2; Ld p (d + 64) 3; Xor 4 2 2; Xor 6 3 3] s in
    let s := for_down start z0 (fun z s => run 64
      [Xor 5 5 5; Xor 7 7 7; CmpGtK 4 5 1; CmpGtK 6 7 2; MovM 1 5; MovM 2 7; Add 4 4 4; Add 6 6 6; And 0 5 5;
       And 0 7 7; Ld (ptr ptrs z) d 8; Ld (ptr ptrs z) (d + 64) 9; Xor 8 2 2; Xor 9 3 3; Tern 0x96 5 8 4;
       Tern 0x96 7 9 6] s) s in
    let s := for_down 0 start (fun z s => run 64
      [Xor 5 5 5; Xor 7 7 7; CmpGtK 4 5 1; CmpGtK 6 7 2; MovM 1 5; MovM 2 7; Add 4 4 4; Add 6 6 6; And 0 5 5;
       And 0 7 7; Xor 5 4 4; Xor 7 6 6] s) s in
    run 64
      [XorM q d 4 4; XorM q (d + 64) 6 6; St 4 q d; St 6 q (d + 64); St 2 p d; St 3 p (d + 64)] s) s.

(** [raid6_avx5124_gen_syndrome]. *)
Definition raid6_avx5124_gen_syndrome (s : machine) (disks bytes : nat) (ptrs : list addr) : machine :=
  let z0 := (disks - 3)%nat in
  let p := ptr ptrs (z0 + 1) in
  let q := ptr ptrs (z0 + 2) in
  let s := run 64
    [Ldc raid6_avx512_constants 0 0; Xor 1 1 1; Xor 2 2 2; Xor 3 3 3; Xor 4 4 4; Xor 6 6 6; Xor 10 10 10;
     Xor 11 11 11; Xor 12 12 12; Xor 14 14 14] s in
  for_up 256 bytes bytes 0 (fun d s =>
    let s := for_down 0 (S z0) (fun z s => run 64
      [Pref (ptr ptrs z) d; Pref (ptr ptrs z) (d + 64); Pref (ptr ptrs z) (d + 128);
       Pref (ptr ptrs z) (d + 192); CmpGtK 4 1 1; CmpGtK 6 1 2; CmpGtK 12 1 3; CmpGtK 14 1 4; MovM 1 5;
       MovM 2 7; MovM 3 13; MovM 4 15; Add 4 4 4; Add 6 6 6; Add 12 12 12; Add 14 14 14; And 0 5 5; And 0 7 7;
       And 0 13 13; And 0 15 15; Ld (ptr ptrs z) d 8; Ld (ptr ptrs z) (d + 64) 9; Ld (ptr ptrs z) (d + 128) 16;
       Ld (ptr ptrs z) (d + 192) 17; Tern 0x96 5 8 4; Tern 0x96 7 9 6; Tern 0x96 13 16 12; Tern 0x96 15 17 14;
       Xor 8 2 2; Xor 9 3 3; Xor 16 10 10; Xor 17 11 11] s) s in
    run 64
      [St 2 p d; Xor 2 2 2; St 3 p (d + 64); Xor 3 3 3; St 10 p (d + 128); Xor 10 10 10; St 11 p (d + 192);
       Xor 11 11 11; St 4 q d; Xor 4 4 4; St 6 q (d + 64); Xor 6 6 6; St 12 q (d + 128); Xor 12 12 12;
       St 14 q (d + 192); Xor 14 14 14] s) s.

(** [raid6_avx5124_xor_syndrome]. *)
Definition raid6_avx5124_xor_syndrome (s : machine) (disks start stop bytes : nat) (ptrs : list addr) : machine :=
  let z0 := stop in
  let p := ptr ptrs (disks - 2) in
  let q := ptr ptrs (disks - 1) in
  let s := run 64
    [Ldc raid6_avx512_constants 0 0] s in
  for_up 256 bytes bytes 0 (fun d s =>
    let s := run 64
      [Ld (ptr ptrs z0) d 4; Ld (ptr ptrs z0) (d + 64) 6; Ld (ptr ptrs z0) (d + 128) 12;
       Ld (ptr ptrs z0) (d + 192) 14; Ld p d 2; Ld p (d + 64) 3; Ld p (d + 128) 10; Ld p (d + 192) 11;
       Xor 4 2 2; Xor 6 3 3; Xor 12 10 10; Xor 14 11 11] s in
    let s := for_down start z0 (fun z s => run 64
      [Xor 5 5 5; Xor 7 7 7; Xor 13 13 13; Xor 15 15 15; Pref (ptr ptrs z) d; Pref (ptr ptrs z) (d + 128);
       CmpGtK 4 5 1; CmpGtK 6 7 2; CmpGtK 12 13 3; CmpGtK 14 15 4; MovM 1 5; MovM 2 7; MovM 3 13; MovM 4 15;
       Add 4 4 4; Add 6 6 6; Add 12 12 12; Add 14 14 14; And 0 5 5; And 0 7 7; And 0 13 13; And 0 15 15;
       Ld (ptr ptrs z) d 8; Ld (ptr ptrs z) (d + 64) 9; Ld (ptr ptrs z) (d + 128) 16;
       Ld (ptr ptrs z) (d + 192) 17; Xor 8 2 2; Xor 9 3 3; Xor 16 10 10; Xor 17 11 11; Tern 0x96 5 8 4;
       Tern 0x96 7 9 6; Tern 0x96 13 16 12; Tern 0x96 15 17 14] s) s in
    let s := run 64
      [Pref q d; Pref q (d + 128)] s in
    let s := for_down 0 start (fun z s => run 64
      [Xor 5 5 5; Xor 7 7 7; Xor 13 13 13; Xor 15 15 15; CmpGtK 4 5 1; CmpGtK 6 7 2; CmpGtK 12 13 3;
       CmpGtK 14 15 4; MovM 1 5; MovM 2 7; MovM 3 13; MovM 4 15; Add 4 4 4; Add 6 6 6; Add 12 12 12;
       Add 14 14 14; And 0 5 5; And 0 7 7; And 0 13 13; And 0 15 15; Xor 5 4 4; Xor 7 6 6; Xor 13 12 12;
       Xor 15 14 14] s) s in
    run 64
      [St 2 p d; St 3 p (d + 64); St 10 p (d + 128); St 11 p (d + 192); XorM q d 4 4; XorM q (d + 64) 6 6;
       XorM q (d + 128) 12 12; XorM q (d + 192) 14 14; St 4 q d; St 6 q (d + 64); St 12 q (d + 128);
       St 14 q (d + 192)] s) s.
