(* ===== verification/SimdSyndromeCorrect.v ===== *)
(** The vector implementations of the RAID-6 syndromes meet the contracts of [struct raid6_calls],
    [SyndromeGen] and [SyndromeXor]. *)

From S2P Require Import Prelude.
From S2P Require Import GF256.
From S2P Require Import PageMem.
From S2P Require Import Syndrome.
From S2P Require Import Gfni.
From S2P Require Import Simd.
From S2P Require Import SimdLemmas.
From S2P Require Import SimdSyndrome.

Section Stripe.
Context (disks bytes : nat) (ptrs : list addr) (m : mem) (Hok : stripe_ok disks bytes ptrs m).

Let p := p_ptr disks ptrs.
Let q := q_ptr disks ptrs.

(** The data of slot [i]. *)
Definition dat (i b : nat) : Z := pget (page m (ptr ptrs i)) b.

(** The bytes of the slots [lo .. hi - 1]. *)
Definition cols (lo hi b : nat) : list Z := map (fun i => dat i b) (seq lo (hi - lo)).

Lemma cols_S lo hi b : (lo < hi)%nat -> cols lo hi b = dat lo b :: cols (S lo) hi b.
Proof. intros H. unfold cols. by replace (hi - lo)%nat with (S (hi - S lo)) by lia. Qed.

Lemma dat_u8 i b : (i < disks)%nat -> is_u8 (dat i b).
Proof. intros Hi. apply pget_u8. eapply so_page; [done|]. apply elem_of_ptr. by rewrite (so_len _ _ _ _ Hok). Qed.

Lemma slots_u8 lo hi b : (hi <= disks)%nat -> Forall is_u8 (cols lo hi b).
Proof.
  intros Hh. apply Forall_map, Forall_forall. intros i Hi%list_elem_of_In%elem_of_seq. apply dat_u8. lia.
Qed.

Lemma cols_column lo hi b :
  (lo <= hi)%nat -> (hi <= disks)%nat -> cols lo hi b = column m (drop lo (take hi ptrs)) b.
Proof.
  intros Hl Hh. unfold cols, column, dat. rewrite <- (map_map (ptr ptrs) (fun a => pget (page m a) b)). f_equal.
  pose proof (so_len _ _ _ _ Hok). rewrite <- map_ptr_seq by lia. rewrite skipn_map, skipn_seq. do 2 f_equal; lia.
Qed.

(** Memory with P filled up to [dp] and Q up to [dq]. *)
#[local] Abbreviation pf := (SimdLemmas.pf m p q).

Lemma p_ne_q : p <> q.
Proof. apply Hok. Qed.

Lemma p_len : (bytes <= length (page m p))%nat.
Proof. apply (so_page _ _ _ _ Hok). by eapply so_p_in. Qed.

Lemma q_len : (bytes <= length (page m q))%nat.
Proof. apply (so_page _ _ _ _ Hok). by eapply so_q_in. Qed.

Section Pf.
Context (P Q : nat -> Z).

Lemma pf_0 : pf P Q 0 0 = m.
Proof. by apply (parity_filled_0 _ _ _ _ Hok). Qed.

Lemma pf_data i dp dq : (i < disks - 2)%nat -> pget (page (pf P Q dp dq) (ptr ptrs i)) = dat i.
Proof.
  intros Hi. change (dat i) with (pget (page m (ptr ptrs i))). f_equal. assert (ptr ptrs i ∈ data_ptrs disks ptrs) as Hin.
  { apply elem_of_take. exists i. split; [apply ptr_lookup; rewrite (so_len _ _ _ _ Hok); lia|done]. }
  destruct (so_data_in _ _ _ _ Hok _ Hin) as (_ & Hp & Hq). by apply page_pf.
Qed.

Lemma lane_pf_p w off dp dq :
  (dp <= off)%nat -> (dp <= bytes)%nat -> lane w (pget (page (pf P Q dp dq) p)) off = lane w (pget (page m p)) off.
Proof. apply (lane_pf_x m p q P Q p_ne_q bytes p_len). Qed.

Lemma lane_pf_q w off dp dq :
  (dq <= off)%nat -> (dq <= bytes)%nat -> lane w (pget (page (pf P Q dp dq) q)) off = lane w (pget (page m q)) off.
Proof. apply (lane_pf_y m p q P Q bytes q_len). Qed.

Lemma store_pf_p w off dp dq :
  off = dp -> (off + w <= bytes)%nat -> store (pf P Q dp dq) p off (lane w P off) = pf P Q (off + w) dq.
Proof. apply (store_pf_x m p q P Q p_ne_q bytes p_len). Qed.

Lemma store_pf_q w off dp dq :
  off = dq -> (off + w <= bytes)%nat -> store (pf P Q dp dq) q off (lane w Q off) = pf P Q dp (off + w).
Proof. apply (store_pf_y m p q P Q bytes q_len). Qed.

(** The state in which the block at [d] runs: the syndrome pages are complete below [d], the
    registers of [l] hold what it says. *)
Definition at_block (w : nat) (l : list (nat * list Z)) (d : nat) (s : machine) : Prop :=
  wf w s /\ regs s l /\ mm s = pf P Q d d.

(** The loop over the blocks of a routine, by what it does to one block; [K] are the registers
    that a block relies on and leaves. *)
Lemma block_loop w step K setup block s :
  Nat.even w = true -> (0 < step)%nat -> (step | bytes)%nat -> wf w s ->
  mm (run w setup s) = m -> regs (run w setup s) K ->
  (forall d s, (d + step <= bytes)%nat -> at_block w K d s -> at_block w K (d + step) (block d s)) ->
  mm (for_up step bytes bytes 0 block (run w setup s)) = pf P Q bytes bytes.
Proof.
  intros Hw Hs Hb Hwf Hm HK Hblock. apply (for_up_inv (at_block w K)); [done|done| |done].
  split; [by apply run_wf|]. by rewrite pf_0.
Qed.
End Pf.

(** * Horner's rule *)

(** The syndromes of the slots [z .. hi - 1]. *)
Definition PS (hi z b : nat) : Z := p_syn (cols z hi b).
Definition QS (hi z b : nat) : Z := q_syn (cols z hi b).

Section Horner.
Context (hi z b : nat).

Lemma QS_u8 : (hi <= disks)%nat -> is_u8 (QS hi z b).
Proof. intros Hh. by apply q_syn_u8, slots_u8. Qed.

Lemma PS_step : (z < hi)%nat -> PS hi z b = PS hi (S z) b ⊕ dat z b.
Proof. intros Hz. unfold PS. rewrite (cols_S z) by done. apply Z.lxor_comm. Qed.

Lemma QS_step : (z < hi <= disks)%nat ->
  let q := QS hi (S z) b in QS hi z b = (u8 (q + q) ⊕ Z.land (if s8 q <? s8 0 then 0xff else 0) 0x1d) ⊕ dat z b.
Proof.
  intros Hz q'. rewrite simd_xtime by (apply q_syn_u8, slots_u8; lia). unfold q', QS. by rewrite (cols_S z) by lia.
Qed.

Lemma PS_top : (hi <= z)%nat -> PS hi z b = 0.
Proof. intros Hz. unfold PS, cols. by replace (hi - z)%nat with 0%nat by lia. Qed.

Lemma QS_top : (hi <= z)%nat -> QS hi z b = 0.
Proof. intros Hz. unfold QS, cols. by replace (hi - z)%nat with 0%nat by lia. Qed.

Lemma PS_last : S z = hi -> PS hi z b = dat z b.
Proof. intros Hz. unfold PS. rewrite (cols_S z) by lia. unfold cols. replace (hi - S z)%nat with 0%nat by lia. apply Z.lxor_0_r. Qed.

Lemma QS_last : S z = hi -> QS hi z b = dat z b.
Proof. intros Hz. unfold QS. rewrite (cols_S z) by lia. unfold cols. by replace (hi - S z)%nat with 0%nat by lia. Qed.
End Horner.

(** The multiplications by 2 below the slot [start] of a range. *)
Definition YS (start hi z b : nat) : Z := Nat.iter (start - z) xtime (QS hi start b).

Lemma YS_u8 start hi z b : (hi <= disks)%nat -> is_u8 (YS start hi z b).
Proof. intros Hh. unfold YS. rewrite iter_xtime by (by apply QS_u8). auto using QS_u8 with md. Qed.

Lemma YS_start start hi b : YS start hi start b = QS hi start b.
Proof. unfold YS. by rewrite Nat.sub_diag. Qed.

Lemma YS_step start hi z b : (z < start)%nat -> (hi <= disks)%nat ->
  let q := YS start hi (S z) b in YS start hi z b = u8 (q + q) ⊕ Z.land (if s8 q <? s8 0 then 0xff else 0) 0x1d.
Proof.
  intros Hz Hh q'. rewrite simd_xtime by (by apply YS_u8). unfold q', YS.
  by replace (start - z)%nat with (S (start - S z)) by lia.
Qed.

(** * Tactics for the blocks *)

Lemma mask_u8 (b : bool) : is_u8 (Z.land (if b then 0xff else 0) 0x1d).
Proof. by destruct b. Qed.

Ltac u8_solve := first [apply is_u8_u8 | apply mask_u8 | apply dat_u8; lia].

(** One byte of a register after a step. *)
Ltac byte_solve :=
  intros ?b; cbv beta; rewrite ?tern_0x96 by u8_solve;
  try lazymatch goal with |- _ = ?r =>
    lazymatch r with
    | context [PS ?hi ?z _] =>
        first [rewrite (PS_last hi z) by lia | rewrite (PS_top hi z) by lia | rewrite (PS_step hi z) by lia]
    | context [QS ?hi ?z _] =>
        first [rewrite (QS_last hi z) by lia | rewrite (QS_top hi z) by lia | rewrite (QS_step hi z) by lia]
    | YS ?start ?hi ?z _ =>
        first [rewrite (YS_step start hi z) by lia | rewrite (YS_start start hi)]
    end
  end; first [done | f_equal; lia | lxor_solve].

Ltac reg_solve :=
  lazymatch goal with
  | |- lane _ _ _ = replicate _ _ => apply lane_replicate; byte_solve
  | |- replicate _ _ = lane _ _ _ =>
      symmetry; apply lane_replicate; intros ?b; first [apply PS_top | apply QS_top]; lia
  | |- lane _ _ _ = lane _ _ _ => apply lane_ext; byte_solve
  | |- _ => done
  end.

(** A load that the stores of the block do not reach. *)
Ltac load_step := first [rewrite vload_lane | rewrite pf_data by lia | rewrite lane_pf_p by lia | rewrite lane_pf_q by lia].

(** A store that extends P or Q. *)
Ltac store_step :=
  match goal with
  | |- context [store (pf ?P ?Q ?dp ?dq) p ?o (lane ?w ?f ?o)] =>
      try rewrite (lane_ext w f P o) by byte_solve; rewrite (store_pf_p P Q w o dp dq) by lia
  | |- context [store (pf ?P ?Q ?dp ?dq) q ?o (lane ?w ?f ?o)] =>
      try rewrite (lane_ext w f Q o) by byte_solve; rewrite (store_pf_q P Q w o dp dq) by lia
  end.

(** Run a program in a state that the invariant describes. *)
Ltac simd_block w :=
  let Hwf := fresh in let Hr := fresh in let Hm := fresh in
  intros (Hwf & Hr & Hm); cbn [regs app] in Hr; destruct_regs Hr;
  split; [by apply run_wf|]; cbn [regs app]; simd_run;
  rewrite ?(vxor_self w (vreg _ _)) by apply Hwf; rewrite_regs; rewrite ?Hm;
  repeat first [load_step | store_step | lane_step];
  split_and!; first [reg_solve | f_equal; lia].

(** The same where there is no program between two loops. *)
Ltac simd_keep :=
  intros (? & Hr & ?); cbn [regs app] in Hr; destruct_regs Hr; split; [done|]; cbn [regs app]; rewrite_regs;
  split_and!; reg_solve.

(** * Generation *)

Lemma pf_with_syndromes : pf (PS (disks - 2) 0) (QS (disks - 2) 0) bytes bytes = with_syndromes disks bytes ptrs m.
Proof.
  unfold SimdLemmas.pf, with_syndromes, PS, QS, data_ptrs. fold p q.
  f_equal; [|f_equal]; apply filled_ext; intros b _; by rewrite cols_column by lia.
Qed.

(** A routine whose blocks keep the registers [K] and leave the registers [Z], by the registers
    [J d z] of the block at [d] after the disks from [z] on. *)
Ltac gen_proof w step K Z J :=
  intros Hwf Hm Hb Hd; cbv zeta; rewrite <- pf_with_syndromes;
  replace (ptr ptrs (disks - 3 + 1)) with p by (unfold p, p_ptr; f_equal; lia);
  replace (ptr ptrs (disks - 3 + 2)) with q by (unfold q, q_ptr; f_equal; lia);
  apply (block_loop _ _ w step (K ++ Z)); [done|lia|done|done|done| |];
  [cbn [regs app]; simd_run; rewrite ?(vxor_self w) by apply Hwf; by vm_compute|];
  clear Hwf Hm; intros d s' Hstep HI; cbv beta;
  apply (for_down_run (fun z => at_block (PS (disks - 2) 0) (QS (disks - 2) 0) w (K ++ J d z) d));
    [lia|revert HI; first [simd_block w|simd_keep]|intros ?z ? ?Hz; simd_block w|intros ?; simd_block w].

Section Gen.
Context (s : machine).

Lemma mmx1_gen_ok :
  wf 8 s -> mm s = m -> (8 | bytes)%nat -> (3 <= disks)%nat ->
  mm (raid6_mmx1_gen_syndrome s disks bytes ptrs) = with_syndromes disks bytes ptrs m.
Proof.
  unfold raid6_mmx1_gen_syndrome.
  gen_proof 8%nat 8%nat
    [(0%nat, replicate 8 0x1d); (5%nat, replicate 8 0)]
    (@nil (nat * list Z))
    (fun d z => [(2%nat, lane 8 (PS (disks - 2) z) d); (4%nat, lane 8 (QS (disks - 2) z) d)]).
Qed.

Lemma mmx2_gen_ok :
  wf 8 s -> mm s = m -> (16 | bytes)%nat -> (3 <= disks)%nat ->
  mm (raid6_mmx2_gen_syndrome s disks bytes ptrs) = with_syndromes disks bytes ptrs m.
Proof.
  unfold raid6_mmx2_gen_syndrome.
  gen_proof 8%nat 16%nat
    [(0%nat, replicate 8 0x1d); (5%nat, replicate 8 0); (7%nat, replicate 8 0)]
    (@nil (nat * list Z))
    (fun d z => [(2%nat, lane 8 (PS (disks - 2) z) d); (3%nat, lane 8 (PS (disks - 2) z) (d + 8)); (4%nat, lane 8 (QS (disks - 2) z) d);
      (6%nat, lane 8 (QS (disks - 2) z) (d + 8))]).
Qed.

Lemma sse11_gen_ok :
  wf 8 s -> mm s = m -> (8 | bytes)%nat -> (4 <= disks)%nat ->
  mm (raid6_sse11_gen_syndrome s disks bytes ptrs) = with_syndromes disks bytes ptrs m.
Proof.
  unfold raid6_sse11_gen_syndrome.
  gen_proof 8%nat 8%nat
    [(0%nat, replicate 8 0x1d); (5%nat, replicate 8 0)]
    (@nil (nat * list Z))
    (fun d z => [(2%nat, lane 8 (PS (disks - 2) (S z)) d); (4%nat, lane 8 (QS (disks - 2) (S z)) d); (6%nat, lane 8 (dat z) d)]).
Qed.

Lemma sse12_gen_ok :
  wf 8 s -> mm s = m -> (16 | bytes)%nat -> (3 <= disks)%nat ->
  mm (raid6_sse12_gen_syndrome s disks bytes ptrs) = with_syndromes disks bytes ptrs m.
Proof.
  unfold raid6_sse12_gen_syndrome.
  gen_proof 8%nat 16%nat
    [(0%nat, replicate 8 0x1d); (5%nat, replicate 8 0); (7%nat, replicate 8 0)]
    (@nil (nat * list Z))
    (fun d z => [(2%nat, lane 8 (PS (disks - 2) z) d); (3%nat, lane 8 (PS (disks - 2) z) (d + 8)); (4%nat, lane 8 (QS (disks - 2) z) d);
      (6%nat, lane 8 (QS (disks - 2) z) (d + 8))]).
Qed.

Lemma sse21_gen_ok :
  wf 16 s -> mm s = m -> (16 | bytes)%nat -> (4 <= disks)%nat ->
  mm (raid6_sse21_gen_syndrome s disks bytes ptrs) = with_syndromes disks bytes ptrs m.
Proof.
  unfold raid6_sse21_gen_syndrome.
  gen_proof 16%nat 16%nat
    [(0%nat, replicate 16 0x1d); (5%nat, replicate 16 0)]
    (@nil (nat * list Z))
    (fun d z => [(2%nat, lane 16 (PS (disks - 2) (S z)) d); (4%nat, lane 16 (QS (disks - 2) (S z)) d); (6%nat, lane 16 (dat z) d)]).
Qed.

Lemma sse22_gen_ok :
  wf 16 s -> mm s = m -> (32 | bytes)%nat -> (3 <= disks)%nat ->
  mm (raid6_sse22_gen_syndrome s disks bytes ptrs) = with_syndromes disks bytes ptrs m.
Proof.
  unfold raid6_sse22_gen_syndrome.
  gen_proof 16%nat 32%nat
    [(0%nat, replicate 16 0x1d); (5%nat, replicate 16 0); (7%nat, replicate 16 0)]
    (@nil (nat * list Z))
    (fun d z => [(2%nat, lane 16 (PS (disks - 2) z) d); (3%nat, lane 16 (PS (disks - 2) z) (d + 16)); (4%nat, lane 16 (QS (disks - 2) z) d);
      (6%nat, lane 16 (QS (disks - 2) z) (d + 16))]).
Qed.

Lemma sse24_gen_ok :
  wf 16 s -> mm s = m -> (64 | bytes)%nat -> (3 <= disks)%nat ->
  mm (raid6_sse24_gen_syndrome s disks bytes ptrs) = with_syndromes disks bytes ptrs m.
Proof.
  unfold raid6_sse24_gen_syndrome.
  gen_proof 16%nat 64%nat
    [(0%nat, replicate 16 0x1d); (5%nat, replicate 16 0); (7%nat, replicate 16 0);
      (13%nat, replicate 16 0); (15%nat, replicate 16 0)]
    [(2%nat, replicate 16 0); (3%nat, replicate 16 0); (10%nat, replicate 16 0);
      (11%nat, replicate 16 0); (4%nat, replicate 16 0); (6%nat, replicate 16 0);
      (12%nat, replicate 16 0); (14%nat, replicate 16 0)]
    (fun d z => [(2%nat, lane 16 (PS (disks - 2) z) d); (3%nat, lane 16 (PS (disks - 2) z) (d + 16)); (10%nat, lane 16 (PS (disks - 2) z) (d + 32));
      (11%nat, lane 16 (PS (disks - 2) z) (d + 48)); (4%nat, lane 16 (QS (disks - 2) z) d); (6%nat, lane 16 (QS (disks - 2) z) (d + 16));
      (12%nat, lane 16 (QS (disks - 2) z) (d + 32)); (14%nat, lane 16 (QS (disks - 2) z) (d + 48))]).
Qed.

Lemma avx21_gen_ok :
  wf 32 s -> mm s = m -> (32 | bytes)%nat -> (4 <= disks)%nat ->
  mm (raid6_avx21_gen_syndrome s disks bytes ptrs) = with_syndromes disks bytes ptrs m.
Proof.
  unfold raid6_avx21_gen_syndrome.
  gen_proof 32%nat 32%nat
    [(0%nat, replicate 32 0x1d); (3%nat, replicate 32 0)]
    (@nil (nat * list Z))
    (fun d z => [(2%nat, lane 32 (PS (disks - 2) (S z)) d); (4%nat, lane 32 (QS (disks - 2) (S z)) d); (6%nat, lane 32 (dat z) d)]).
Qed.

Lemma avx22_gen_ok :
  wf 32 s -> mm s = m -> (64 | bytes)%nat -> (3 <= disks)%nat ->
  mm (raid6_avx22_gen_syndrome s disks bytes ptrs) = with_syndromes disks bytes ptrs m.
Proof.
  unfold raid6_avx22_gen_syndrome.
  gen_proof 32%nat 64%nat
    [(0%nat, replicate 32 0x1d); (1%nat, replicate 32 0)]
    (@nil (nat * list Z))
    (fun d z => [(2%nat, lane 32 (PS (disks - 2) z) d); (3%nat, lane 32 (PS (disks - 2) z) (d + 32)); (4%nat, lane 32 (QS (disks - 2) z) d);
      (6%nat, lane 32 (QS (disks - 2) z) (d + 32))]).
Qed.

Lemma avx24_gen_ok :
  wf 32 s -> mm s = m -> (128 | bytes)%nat -> (3 <= disks)%nat ->
  mm (raid6_avx24_gen_syndrome s disks bytes ptrs) = with_syndromes disks bytes ptrs m.
Proof.
  unfold raid6_avx24_gen_syndrome.
  gen_proof 32%nat 128%nat
    [(0%nat, replicate 32 0x1d); (1%nat, replicate 32 0)]
    [(2%nat, replicate 32 0); (3%nat, replicate 32 0); (10%nat, replicate 32 0);
      (11%nat, replicate 32 0); (4%nat, replicate 32 0); (6%nat, replicate 32 0);
      (12%nat, replicate 32 0); (14%nat, replicate 32 0)]
    (fun d z => [(2%nat, lane 32 (PS (disks - 2) z) d); (3%nat, lane 32 (PS (disks - 2) z) (d + 32)); (10%nat, lane 32 (PS (disks - 2) z) (d + 64));
      (11%nat, lane 32 (PS (disks - 2) z) (d + 96)); (4%nat, lane 32 (QS (disks - 2) z) d); (6%nat, lane 32 (QS (disks - 2) z) (d + 32));
      (12%nat, lane 32 (QS (disks - 2) z) (d + 64)); (14%nat, lane 32 (QS (disks - 2) z) (d + 96))]).
Qed.

Lemma avx5121_gen_ok :
  wf 64 s -> mm s = m -> (64 | bytes)%nat -> (4 <= disks)%nat ->
  mm (raid6_avx5121_gen_syndrome s disks bytes ptrs) = with_syndromes disks bytes ptrs m.
Proof.
  unfold raid6_avx5121_gen_syndrome.
  gen_proof 64%nat 64%nat
    [(0%nat, replicate 64 0x1d); (1%nat, replicate 64 0)]
    (@nil (nat * list Z))
    (fun d z => [(2%nat, lane 64 (PS (disks - 2) (S z)) d); (4%nat, lane 64 (QS (disks - 2) (S z)) d); (6%nat, lane 64 (dat z) d)]).
Qed.

Lemma avx5122_gen_ok :
  wf 64 s -> mm s = m -> (128 | bytes)%nat -> (3 <= disks)%nat ->
  mm (raid6_avx5122_gen_syndrome s disks bytes ptrs) = with_syndromes disks bytes ptrs m.
Proof.
  unfold raid6_avx5122_gen_syndrome.
  gen_proof 64%nat 128%nat
    [(0%nat, replicate 64 0x1d); (1%nat, replicate 64 0)]
    (@nil (nat * list Z))
    (fun d z => [(2%nat, lane 64 (PS (disks - 2) z) d); (3%nat, lane 64 (PS (disks - 2) z) (d + 64)); (4%nat, lane 64 (QS (disks - 2) z) d);
      (6%nat, lane 64 (QS (disks - 2) z) (d + 64))]).
Qed.

Lemma avx5124_gen_ok :
  wf 64 s -> mm s = m -> (256 | bytes)%nat -> (3 <= disks)%nat ->
  mm (raid6_avx5124_gen_syndrome s disks bytes ptrs) = with_syndromes disks bytes ptrs m.
Proof.
  unfold raid6_avx5124_gen_syndrome.
  gen_proof 64%nat 256%nat
    [(0%nat, replicate 64 0x1d); (1%nat, replicate 64 0)]
    [(2%nat, replicate 64 0); (3%nat, replicate 64 0); (10%nat, replicate 64 0);
      (11%nat, replicate 64 0); (4%nat, replicate 64 0); (6%nat, replicate 64 0);
      (12%nat, replicate 64 0); (14%nat, replicate 64 0)]
    (fun d z => [(2%nat, lane 64 (PS (disks - 2) z) d); (3%nat, lane 64 (PS (disks - 2) z) (d + 64)); (10%nat, lane 64 (PS (disks - 2) z) (d + 128));
      (11%nat, lane 64 (PS (disks - 2) z) (d + 192)); (4%nat, lane 64 (QS (disks - 2) z) d); (6%nat, lane 64 (QS (disks - 2) z) (d + 64));
      (12%nat, lane 64 (QS (disks - 2) z) (d + 128)); (14%nat, lane 64 (QS (disks - 2) z) (d + 192))]).
Qed.
End Gen.

(** * Update of a range of slots *)

Section Xor.
Context (start stop : nat) (Hrange : (start <= stop < disks - 2)%nat).

(** P and Q with the slots from [z] on added. *)
#[local] Abbreviation XP z := (fun b => pget (page m p) b ⊕ PS (S stop) z b).
#[local] Abbreviation XQ z := (fun b => pget (page m q) b ⊕ YS start (S stop) z b).

Lemma pf_with_xor : pf (XP start) (XQ 0) bytes bytes = with_xor_syndromes disks start stop bytes ptrs m.
Proof.
  unfold SimdLemmas.pf, with_xor_syndromes, YS, PS, QS, slice_ptrs. fold p q.
  f_equal; [|f_equal]; apply filled_ext; intros b _.
  - rewrite Nat.sub_0_r, iter_xtime by (apply q_syn_u8, slots_u8; lia). by rewrite cols_column by lia.
  - by rewrite cols_column by lia.
Qed.

(** A routine with the constant in register 0, by the registers of the first loop over the disks,
    [J1 d z], and of the second, [J2 d z]. *)
Ltac xor_proof w step J1 J2 :=
  intros Hwf Hm Hb; cbv zeta; rewrite <- pf_with_xor;
  change (ptr ptrs (disks - 2)) with p; change (ptr ptrs (disks - 1)) with q;
  apply (block_loop _ _ w step [(0%nat, replicate w 0x1d)]); [done|lia|done|done|done| |];
  [cbn [regs]; simd_run; by vm_compute|];
  clear Hwf Hm; intros d s' Hstep HI; cbv beta;
  apply (for_down_run (fun z => at_block (XP start) (XQ 0) w ((0%nat, replicate w 0x1d) :: J2 d z) d));
    [lia| |intros ?z ? ?Hz; simd_block w|intros ?; simd_block w];
  lazymatch goal with
  | |- at_block _ _ _ _ _ (run _ _ _) =>
      apply (for_down_run (fun z => at_block (XP start) (XQ 0) w ((0%nat, replicate w 0x1d) :: J1 d z) d))
  | |- _ => apply (for_down_then (fun z => at_block (XP start) (XQ 0) w ((0%nat, replicate w 0x1d) :: J1 d z) d))
  end;
    [lia|revert HI; simd_block w|intros ?z ? ?Hz; simd_block w|intros ?; first [simd_block w|simd_keep]].

Context (s : machine).

Lemma sse21_xor_ok :
  wf 16 s -> mm s = m -> (16 | bytes)%nat ->
  mm (raid6_sse21_xor_syndrome s disks start stop bytes ptrs) = with_xor_syndromes disks start stop bytes ptrs m.
Proof.
  unfold raid6_sse21_xor_syndrome.
  xor_proof 16%nat 16%nat
    (fun d z => [(2%nat, lane 16 (XP z) d); (4%nat, lane 16 (QS (S stop) z) d)])
    (fun d z => [(2%nat, lane 16 (XP start) d); (4%nat, lane 16 (YS start (S stop) z) d)]).
Qed.

Lemma sse22_xor_ok :
  wf 16 s -> mm s = m -> (32 | bytes)%nat ->
  mm (raid6_sse22_xor_syndrome s disks start stop bytes ptrs) = with_xor_syndromes disks start stop bytes ptrs m.
Proof.
  unfold raid6_sse22_xor_syndrome.
  xor_proof 16%nat 32%nat
    (fun d z => [(2%nat, lane 16 (XP z) d); (3%nat, lane 16 (XP z) (d + 16)); (4%nat, lane 16 (QS (S stop) z) d);
      (6%nat, lane 16 (QS (S stop) z) (d + 16))])
    (fun d z => [(2%nat, lane 16 (XP start) d); (3%nat, lane 16 (XP start) (d + 16));
      (4%nat, lane 16 (YS start (S stop) z) d); (6%nat, lane 16 (YS start (S stop) z) (d + 16))]).
Qed.

Lemma sse24_xor_ok :
  wf 16 s -> mm s = m -> (64 | bytes)%nat ->
  mm (raid6_sse24_xor_syndrome s disks start stop bytes ptrs) = with_xor_syndromes disks start stop bytes ptrs m.
Proof.
  unfold raid6_sse24_xor_syndrome.
  xor_proof 16%nat 64%nat
    (fun d z => [(2%nat, lane 16 (XP z) d); (3%nat, lane 16 (XP z) (d + 16)); (10%nat, lane 16 (XP z) (d + 32));
      (11%nat, lane 16 (XP z) (d + 48)); (4%nat, lane 16 (QS (S stop) z) d);
      (6%nat, lane 16 (QS (S stop) z) (d + 16)); (12%nat, lane 16 (QS (S stop) z) (d + 32));
      (14%nat, lane 16 (QS (S stop) z) (d + 48))])
    (fun d z => [(2%nat, lane 16 (XP start) d); (3%nat, lane 16 (XP start) (d + 16));
      (10%nat, lane 16 (XP start) (d + 32)); (11%nat, lane 16 (XP start) (d + 48));
      (4%nat, lane 16 (YS start (S stop) z) d); (6%nat, lane 16 (YS start (S stop) z) (d + 16));
      (12%nat, lane 16 (YS start (S stop) z) (d + 32)); (14%nat, lane 16 (YS start (S stop) z) (d + 48))]).
Qed.

Lemma avx21_xor_ok :
  wf 32 s -> mm s = m -> (32 | bytes)%nat ->
  mm (raid6_avx21_xor_syndrome s disks start stop bytes ptrs) = with_xor_syndromes disks start stop bytes ptrs m.
Proof.
  unfold raid6_avx21_xor_syndrome.
  xor_proof 32%nat 32%nat
    (fun d z => [(2%nat, lane 32 (XP z) d); (4%nat, lane 32 (QS (S stop) z) d)])
    (fun d z => [(2%nat, lane 32 (XP start) d); (4%nat, lane 32 (YS start (S stop) z) d)]).
Qed.

Lemma avx22_xor_ok :
  wf 32 s -> mm s = m -> (64 | bytes)%nat ->
  mm (raid6_avx22_xor_syndrome s disks start stop bytes ptrs) = with_xor_syndromes disks start stop bytes ptrs m.
Proof.
  unfold raid6_avx22_xor_syndrome.
  xor_proof 32%nat 64%nat
    (fun d z => [(2%nat, lane 32 (XP z) d); (3%nat, lane 32 (XP z) (d + 32)); (4%nat, lane 32 (QS (S stop) z) d);
      (6%nat, lane 32 (QS (S stop) z) (d + 32))])
    (fun d z => [(2%nat, lane 32 (XP start) d); (3%nat, lane 32 (XP start) (d + 32));
      (4%nat, lane 32 (YS start (S stop) z) d); (6%nat, lane 32 (YS start (S stop) z) (d + 32))]).
Qed.

Lemma avx24_xor_ok :
  wf 32 s -> mm s = m -> (128 | bytes)%nat ->
  mm (raid6_avx24_xor_syndrome s disks start stop bytes ptrs) = with_xor_syndromes disks start stop bytes ptrs m.
Proof.
  unfold raid6_avx24_xor_syndrome.
  xor_proof 32%nat 128%nat
    (fun d z => [(2%nat, lane 32 (XP z) d); (3%nat, lane 32 (XP z) (d + 32)); (10%nat, lane 32 (XP z) (d + 64));
      (11%nat, lane 32 (XP z) (d + 96)); (4%nat, lane 32 (QS (S stop) z) d);
      (6%nat, lane 32 (QS (S stop) z) (d + 32)); (12%nat, lane 32 (QS (S stop) z) (d + 64));
      (14%nat, lane 32 (QS (S stop) z) (d + 96))])
    (fun d z => [(2%nat, lane 32 (XP start) d); (3%nat, lane 32 (XP start) (d + 32));
      (10%nat, lane 32 (XP start) (d + 64)); (11%nat, lane 32 (XP start) (d + 96));
      (4%nat, lane 32 (YS start (S stop) z) d); (6%nat, lane 32 (YS start (S stop) z) (d + 32));
      (12%nat, lane 32 (YS start (S stop) z) (d + 64)); (14%nat, lane 32 (YS start (S stop) z) (d + 96))]).
Qed.

Lemma avx5121_xor_ok :
  wf 64 s -> mm s = m -> (64 | bytes)%nat ->
  mm (raid6_avx5121_xor_syndrome s disks start stop bytes ptrs) = with_xor_syndromes disks start stop bytes ptrs m.
Proof.
  unfold raid6_avx5121_xor_syndrome.
  xor_proof 64%nat 64%nat
    (fun d z => [(2%nat, lane 64 (XP z) d); (4%nat, lane 64 (QS (S stop) z) d)])
    (fun d z => [(2%nat, lane 64 (XP start) d); (4%nat, lane 64 (YS start (S stop) z) d)]).
Qed.

Lemma avx5122_xor_ok :
  wf 64 s -> mm s = m -> (128 | bytes)%nat ->
  mm (raid6_avx5122_xor_syndrome s disks start stop bytes ptrs) = with_xor_syndromes disks start stop bytes ptrs m.
Proof.
  unfold raid6_avx5122_xor_syndrome.
  xor_proof 64%nat 128%nat
    (fun d z => [(2%nat, lane 64 (XP z) d); (3%nat, lane 64 (XP z) (d + 64)); (4%nat, lane 64 (QS (S stop) z) d);
      (6%nat, lane 64 (QS (S stop) z) (d + 64))])
    (fun d z => [(2%nat, lane 64 (XP start) d); (3%nat, lane 64 (XP start) (d + 64));
      (4%nat, lane 64 (YS start (S stop) z) d); (6%nat, lane 64 (YS start (S stop) z) (d + 64))]).
Qed.

Lemma avx5124_xor_ok :
  wf 64 s -> mm s = m -> (256 | bytes)%nat ->
  mm (raid6_avx5124_xor_syndrome s disks start stop bytes ptrs) = with_xor_syndromes disks start stop bytes ptrs m.
Proof.
  unfold raid6_avx5124_xor_syndrome.
  xor_proof 64%nat 256%nat
    (fun d z => [(2%nat, lane 64 (XP z) d); (3%nat, lane 64 (XP z) (d + 64)); (10%nat, lane 64 (XP z) (d + 128));
      (11%nat, lane 64 (XP z) (d + 192)); (4%nat, lane 64 (QS (S stop) z) d);
      (6%nat, lane 64 (QS (S stop) z) (d + 64)); (12%nat, lane 64 (QS (S stop) z) (d + 128));
      (14%nat, lane 64 (QS (S stop) z) (d + 192))])
    (fun d z => [(2%nat, lane 64 (XP start) d); (3%nat, lane 64 (XP start) (d + 64));
      (10%nat, lane 64 (XP start) (d + 128)); (11%nat, lane 64 (XP start) (d + 192));
      (4%nat, lane 64 (YS start (S stop) z) d); (6%nat, lane 64 (YS start (S stop) z) (d + 64));
      (12%nat, lane 64 (YS start (S stop) z) (d + 128));
      (14%nat, lane 64 (YS start (S stop) z) (d + 192))]).
Qed.
End Xor.
End Stripe.
