(* ===== verification/SimdRecov.v ===== *)
(** The SSSE3, AVX2 and AVX-512 implementations of the recovery from two failures,
    raid6/recov_ssse3.c, recov_avx2.c and recov_avx512.c, instruction by instruction.

    [x86_64] is [CONFIG_X86_64].  The registers of [s] are what [kernel_fpu_begin] leaves; the
    pointers [p], [q], [dp] and [dq] advance together, so that an operand [p[16]] of the pass that
    starts at [d] is the byte [d + 16] of the page. *)

From S2P Require Import Prelude.
From S2P Require Import GF256.
From S2P Require Import PageMem.
From S2P Require Import Simd.

Section SimdRecov.
(** [raid6_call.gen_syndrome] and [raid6_empty_zero_page]. *)
Context (gen : nat -> nat -> list addr -> mem -> mem) (raid6_empty_zero_page : addr).

(** [raid6_2data_recov_ssse3]. *)
Definition raid6_2data_recov_ssse3 (x86_64 : bool) (s : machine) (disks bytes faila failb : nat) (ptrs : list addr)
    : option (list addr * machine) :=
  let x0f := replicate 16 0x0f in
  let p := ptr ptrs (disks - 2) in
  let q := ptr ptrs (disks - 1) in
  let dp := ptr ptrs faila in
  let ptrs := <[faila := raid6_empty_zero_page]> ptrs in
  let ptrs := <[(disks - 2)%nat := dp]> ptrs in
  let dq := ptr ptrs failb in
  let ptrs := <[failb := raid6_empty_zero_page]> ptrs in
  let ptrs := <[(disks - 1)%nat := dq]> ptrs in
  let s := set_mm s (gen disks bytes ptrs (mm s)) in
  let ptrs := <[faila := dp]> ptrs in
  let ptrs := <[failb := dq]> ptrs in
  let ptrs := <[(disks - 2)%nat := p]> ptrs in
  let ptrs := <[(disks - 1)%nat := q]> ptrs in
  let pbmul := row raid6_vgfmul (raid6_gfexi.[Z.of_nat failb - Z.of_nat faila]) in
  let qmul := row raid6_vgfmul
    (raid6_gfinv.[raid6_gfexp.[Z.of_nat faila] ⊕ raid6_gfexp.[Z.of_nat failb]]) in
  let s := run 16
    [Ldc x0f 0 7] s in
  let s := if x86_64 then run 16
    [Ldc qmul 0 6; Ldc pbmul 0 14; Ldc pbmul 16 15] s else s in
  let r := if x86_64
    then while_bytes 32 bytes 0 bytes (fun d s => run 16
      [Ld q d 1; Ld q (d + 16) 9; Ld p d 0; Ld p (d + 16) 8; XorM dq d 1 1; XorM dq (d + 16) 9 9;
       XorM dp d 0 0; XorM dp (d + 16) 8 8; Mov 6 4; Ldc qmul 16 5; Mov 6 12; Mov 5 13; Mov 1 3; Mov 9 11;
       Mov 0 2; Mov 8 10; Sra 4 1 1; Sra 4 9 9; And 7 3 3; And 7 11 11; And 7 1 1; And 7 9 9; Shuf 3 4 4;
       Shuf 11 12 12; Shuf 1 5 5; Shuf 9 13 13; Xor 4 5 5; Xor 12 13 13; Mov 14 4; Mov 15 1; Mov 14 12;
       Mov 15 9; Mov 2 3; Mov 10 11; Sra 4 2 2; Sra 4 10 10; And 7 3 3; And 7 11 11; And 7 2 2; And 7 10 10;
       Shuf 3 4 4; Shuf 11 12 12; Shuf 2 1 1; Shuf 10 9 9; Xor 4 1 1; Xor 12 9 9; Xor 5 1 1; Xor 13 9 9;
       St 1 dq d; St 9 dq (d + 16); Xor 1 0 0; Xor 9 8 8; St 0 dp d; St 8 dp (d + 16)] s) s
    else while_bytes 16 bytes 0 bytes (fun d s => run 16
      [Ld q d 1; Ld p d 0; XorM dq d 1 1; XorM dp d 0 0; Ldc qmul 0 4; Ldc qmul 16 5; Mov 1 3; Sra 4 1 1;
       And 7 3 3; And 7 1 1; Shuf 3 4 4; Shuf 1 5 5; Xor 4 5 5; Mov 0 2; Ldc pbmul 0 4; Ldc pbmul 16 1;
       Mov 2 3; Sra 4 2 2; And 7 3 3; And 7 2 2; Shuf 3 4 4; Shuf 2 1 1; Xor 4 1 1; Xor 5 1 1; St 1 dq d;
       Xor 1 0 0; St 0 dp d] s) s in
  match r with
  | Some s => Some (ptrs, s)
  | None => None
  end.

(** [raid6_datap_recov_ssse3]. *)
Definition raid6_datap_recov_ssse3 (x86_64 : bool) (s : machine) (disks bytes faila : nat) (ptrs : list addr)
    : option (list addr * machine) :=
  let x0f := replicate 16 0x0f in
  let p := ptr ptrs (disks - 2) in
  let q := ptr ptrs (disks - 1) in
  let dq := ptr ptrs faila in
  let ptrs := <[faila := raid6_empty_zero_page]> ptrs in
  let ptrs := <[(disks - 1)%nat := dq]> ptrs in
  let s := set_mm s (gen disks bytes ptrs (mm s)) in
  let ptrs := <[faila := dq]> ptrs in
  let ptrs := <[(disks - 1)%nat := q]> ptrs in
  let qmul := row raid6_vgfmul (raid6_gfinv.[raid6_gfexp.[Z.of_nat faila]]) in
  let s := run 16
    [Ldc x0f 0 7] s in
  let r := if x86_64
    then while_bytes 32 bytes 0 bytes (fun d s => run 16
      [Ld dq d 3; Ld dq (d + 16) 4; XorM q d 3 3; Ldc qmul 0 0; XorM q (d + 16) 4 4; Ldc qmul 16 1; Mov 3 6;
       Mov 4 8; Sra 4 3 3; And 7 6 6; And 7 3 3; Shuf 6 0 0; Shuf 3 1 1; Ldc qmul 0 10; Xor 0 1 1;
       Ldc qmul 16 11; Sra 4 4 4; And 7 8 8; And 7 4 4; Shuf 8 10 10; Shuf 4 11 11; Ld p d 2; Xor 10 11 11;
       Ld p (d + 16) 12; Xor 1 2 2; Xor 11 12 12; St 1 dq d; St 11 dq (d + 16); St 2 p d; St 12 p (d + 16)] s) s
    else while_bytes 16 bytes 0 bytes (fun d s => run 16
      [Ld dq d 3; Ldc qmul 0 0; XorM q d 3 3; Ldc qmul 16 1; Mov 3 6; Ld p d 2; Sra 4 3 3; And 7 6 6;
       And 7 3 3; Shuf 6 0 0; Shuf 3 1 1; Xor 0 1 1; Xor 1 2 2; St 1 dq d; St 2 p d] s) s in
  match r with
  | Some s => Some (ptrs, s)
  | None => None
  end.

(** [raid6_2data_recov_avx2]. *)
Definition raid6_2data_recov_avx2 (x86_64 : bool) (s : machine) (disks bytes faila failb : nat) (ptrs : list addr)
    : option (list addr * machine) :=
  let x0f := 0x0f in
  let p := ptr ptrs (disks - 2) in
  let q := ptr ptrs (disks - 1) in
  let dp := ptr ptrs faila in
  let ptrs := <[faila := raid6_empty_zero_page]> ptrs in
  let ptrs := <[(disks - 2)%nat := dp]> ptrs in
  let dq := ptr ptrs failb in
  let ptrs := <[failb := raid6_empty_zero_page]> ptrs in
  let ptrs := <[(disks - 1)%nat := dq]> ptrs in
  let s := set_mm s (gen disks bytes ptrs (mm s)) in
  let ptrs := <[faila := dp]> ptrs in
  let ptrs := <[failb := dq]> ptrs in
  let ptrs := <[(disks - 2)%nat := p]> ptrs in
  let ptrs := <[(disks - 1)%nat := q]> ptrs in
  let pbmul := row raid6_vgfmul (raid6_gfexi.[Z.of_nat failb - Z.of_nat faila]) in
  let qmul := row raid6_vgfmul
    (raid6_gfinv.[raid6_gfexp.[Z.of_nat faila] ⊕ raid6_gfexp.[Z.of_nat failb]]) in
  let s := run 32
    [Bcb x0f 7] s in
  let r := if x86_64
    then while_bytes 64 bytes 0 bytes (fun d s => run 32
      [Ld q d 1; Ld q (d + 32) 9; Ld p d 0; Ld p (d + 32) 8; XorM dq d 1 1; XorM dq (d + 32) 9 9;
       XorM dp d 0 0; XorM dp (d + 32) 8 8; Bc16 qmul 0 4; Bc16 qmul 16 5; Sra 4 1 3; Sra 4 9 12; And 7 1 1;
       And 7 9 9; And 7 3 3; And 7 12 12; Shuf 9 4 14; Shuf 1 4 4; Shuf 12 5 15; Shuf 3 5 5; Xor 14 15 15;
       Xor 4 5 5; Bc16 pbmul 0 4; Bc16 pbmul 16 1; Sra 4 0 2; Sra 4 8 6; And 7 0 3; And 7 8 14; And 7 2 2;
       And 7 6 6; Shuf 14 4 12; Shuf 3 4 4; Shuf 6 1 13; Shuf 2 1 1; Xor 4 1 1; Xor 12 13 13; Xor 5 1 1;
       Xor 15 13 13; St 1 dq d; St 13 dq (d + 32); Xor 1 0 0; Xor 13 8 8; St 0 dp d; St 8 dp (d + 32)] s) s
    else while_bytes 32 bytes 0 bytes (fun d s => run 32
      [Ld q d 1; Ld p d 0; XorM dq d 1 1; XorM dp d 0 0; Bc16 qmul 0 4; Bc16 qmul 16 5; Sra 4 1 3; And 7 1 1;
       And 7 3 3; Shuf 1 4 4; Shuf 3 5 5; Xor 4 5 5; Bc16 pbmul 0 4; Bc16 pbmul 16 1; Sra 4 0 2; And 7 0 3;
       And 7 2 2; Shuf 3 4 4; Shuf 2 1 1; Xor 4 1 1; Xor 5 1 1; St 1 dq d; Xor 1 0 0; St 0 dp d] s) s in
  match r with
  | Some s => Some (ptrs, s)
  | None => None
  end.

(** [raid6_datap_recov_avx2]. *)
Definition raid6_datap_recov_avx2 (x86_64 : bool) (s : machine) (disks bytes faila : nat) (ptrs : list addr)
    : option (list addr * machine) :=
  let x0f := 0x0f in
  let p := ptr ptrs (disks - 2) in
  let q := ptr ptrs (disks - 1) in
  let dq := ptr ptrs faila in
  let ptrs := <[faila := raid6_empty_zero_page]> ptrs in
  let ptrs := <[(disks - 1)%nat := dq]> ptrs in
  let s := set_mm s (gen disks bytes ptrs (mm s)) in
  let ptrs := <[faila := dq]> ptrs in
  let ptrs := <[(disks - 1)%nat := q]> ptrs in
  let qmul := row raid6_vgfmul (raid6_gfinv.[raid6_gfexp.[Z.of_nat faila]]) in
  let s := run 32
    [Bcb x0f 7] s in
  let r := if x86_64
    then while_bytes 64 bytes 0 bytes (fun d s => run 32
      [Ld dq d 3; Ld dq (d + 32) 8; XorM q d 3 3; XorM q (d + 32) 8 8; Bc16 qmul 0 0; Mov 0 13; Bc16 qmul 16 1;
       Mov 1 14; Sra 4 3 6; Sra 4 8 12; And 7 3 3; And 7 8 8; And 7 6 6; And 7 12 12; Shuf 3 0 0; Shuf 8 13 13;
       Shuf 6 1 1; Shuf 12 14 14; Xor 0 1 1; Xor 13 14 14; Ld p d 2; Ld p (d + 32) 12; Xor 1 2 2; Xor 14 12 12;
       St 1 dq d; St 14 dq (d + 32); St 2 p d; St 12 p (d + 32)] s) s
    else while_bytes 32 bytes 0 bytes (fun d s => run 32
      [Ld dq d 3; XorM q d 3 3; Bc16 qmul 0 0; Bc16 qmul 16 1; Sra 4 3 6; And 7 3 3; And 7 6 6; Shuf 3 0 0;
       Shuf 6 1 1; Xor 0 1 1; Ld p d 2; Xor 1 2 2; St 1 dq d; St 2 p d] s) s in
  match r with
  | Some s => Some (ptrs, s)
  | None => None
  end.

(** [raid6_2data_recov_avx512]. *)
Definition raid6_2data_recov_avx512 (x86_64 : bool) (s : machine) (disks bytes faila failb : nat) (ptrs : list addr)
    : option (list addr * machine) :=
  let x0f := 0x0f in
  let p := ptr ptrs (disks - 2) in
  let q := ptr ptrs (disks - 1) in
  let dp := ptr ptrs faila in
  let ptrs := <[faila := raid6_empty_zero_page]> ptrs in
  let ptrs := <[(disks - 2)%nat := dp]> ptrs in
  let dq := ptr ptrs failb in
  let ptrs := <[failb := raid6_empty_zero_page]> ptrs in
  let ptrs := <[(disks - 1)%nat := dq]> ptrs in
  let s := set_mm s (gen disks bytes ptrs (mm s)) in
  let ptrs := <[faila := dp]> ptrs in
  let ptrs := <[failb := dq]> ptrs in
  let ptrs := <[(disks - 2)%nat := p]> ptrs in
  let ptrs := <[(disks - 1)%nat := q]> ptrs in
  let pbmul := row raid6_vgfmul (raid6_gfexi.[Z.of_nat failb - Z.of_nat faila]) in
  let qmul := row raid6_vgfmul
    (raid6_gfinv.[raid6_gfexp.[Z.of_nat faila] ⊕ raid6_gfexp.[Z.of_nat failb]]) in
  let s := run 64
    [Bcb x0f 7] s in
  let r := if x86_64
    then while_bytes 128 bytes 0 bytes (fun d s => run 64
      [Ld q d 1; Ld q (d + 64) 9; Ld p d 0; Ld p (d + 64) 8; XorM dq d 1 1; XorM dq (d + 64) 9 9;
       XorM dp d 0 0; XorM dp (d + 64) 8 8; Bc16 qmul 0 4; Bc16 qmul 16 5; Sra 4 1 3; Sra 4 9 12; And 7 1 1;
       And 7 9 9; And 7 3 3; And 7 12 12; Shuf 9 4 14; Shuf 1 4 4; Shuf 12 5 15; Shuf 3 5 5; Xor 14 15 15;
       Xor 4 5 5; Bc16 pbmul 0 4; Bc16 pbmul 16 1; Sra 4 0 2; Sra 4 8 6; And 7 0 3; And 7 8 14; And 7 2 2;
       And 7 6 6; Shuf 14 4 12; Shuf 3 4 4; Shuf 6 1 13; Shuf 2 1 1; Xor 4 1 1; Xor 12 13 13; Xor 5 1 1;
       Xor 15 13 13; St 1 dq d; St 13 dq (d + 64); Xor 1 0 0; Xor 13 8 8; St 0 dp d; St 8 dp (d + 64)] s) s
    else while_bytes 64 bytes 0 bytes (fun d s => run 64
      [Ld q d 1; Ld p d 0; XorM dq d 1 1; XorM dp d 0 0; Bc16 qmul 0 4; Bc16 qmul 16 5; Sra 4 1 3; And 7 1 1;
       And 7 3 3; Shuf 1 4 4; Shuf 3 5 5; Xor 4 5 5; Bc16 pbmul 0 4; Bc16 pbmul 16 1; Sra 4 0 2; And 7 0 3;
       And 7 2 2; Shuf 3 4 4; Shuf 2 1 1; Xor 4 1 1; Xor 5 1 1; St 1 dq d; Xor 1 0 0; St 0 dp d] s) s in
  match r with
  | Some s => Some (ptrs, s)
  | None => None
  end.

(** [raid6_datap_recov_avx512]. *)
Definition raid6_datap_recov_avx512 (x86_64 : bool) (s : machine) (disks bytes faila : nat) (ptrs : list addr)
    : option (list addr * machine) :=
  let x0f := 0x0f in
  let p := ptr ptrs (disks - 2) in
  let q := ptr ptrs (disks - 1) in
  let dq := ptr ptrs faila in
  let ptrs := <[faila := raid6_empty_zero_page]> ptrs in
  let ptrs := <[(disks - 1)%nat := dq]> ptrs in
  let s := set_mm s (gen disks bytes ptrs (mm s)) in
  let ptrs := <[faila := dq]> ptrs in
  let ptrs := <[(disks - 1)%nat := q]> ptrs in
  let qmul := row raid6_vgfmul (raid6_gfinv.[raid6_gfexp.[Z.of_nat faila]]) in
  let s := run 64
    [Bcb x0f 7] s in
  let r := if x86_64
    then while_bytes 128 bytes 0 bytes (fun d s => run 64
      [Ld dq d 3; Ld dq (d + 64) 8; XorM q d 3 3; XorM q (d + 64) 8 8; Bc16 qmul 0 0; Mov 0 13; Bc16 qmul 16 1;
       Mov 1 14; Sra 4 3 6; Sra 4 8 12; And 7 3 3; And 7 8 8; And 7 6 6; And 7 12 12; Shuf 3 0 0; Shuf 8 13 13;
       Shuf 6 1 1; Shuf 12 14 14; Xor 0 1 1; Xor 13 14 14; Ld p d 2; Ld p (d + 64) 12; Xor 1 2 2; Xor 14 12 12;
       St 1 dq d; St 14 dq (d + 64); St 2 p d; St 12 p (d + 64)] s) s
    else while_bytes 64 bytes 0 bytes (fun d s => run 64
      [Ld dq d 3; XorM q d 3 3; Bc16 qmul 0 0; Bc16 qmul 16 1; Sra 4 3 6; And 7 3 3; And 7 6 6; Shuf 3 0 0;
       Shuf 6 1 1; Xor 0 1 1; Ld p d 2; Xor 1 2 2; St 1 dq d; St 2 p d] s) s in
  match r with
  | Some s => Some (ptrs, s)
  | None => None
  end.

End SimdRecov.
