(* ===== verification/SimdRecovCorrect.v ===== *)
(** The vector implementations of the recovery from two failures compute what the byte loops of
    raid6/recov.c compute, and so meet the contracts [Recov2Data] and [RecovDataP]. *)

From S2P Require Import Prelude.
From S2P Require Import GF256.
From S2P Require Import PageMem.
From S2P Require Import Syndrome.
From S2P Require Import Recov.
From S2P Require Import Gfni.
From S2P Require Import Simd.
From S2P Require Import SimdLemmas.
From S2P Require Import SimdRecov.

(** * Nibbles as indices *)

Lemma nibble_lo x : 0 <= Z.land x 15 < 16.
Proof. change 15 with (Z.ones 4). rewrite Z.land_ones by lia. by apply Z.mod_pos_bound. Qed.

Lemma nibble_hi x : is_u8 x -> 0 <= x / 16 < 16.
Proof. intros Hx. unfold is_u8 in Hx. Z.to_euclidean_division_equations. lia. Qed.

(** A memory whose page at [a] has [bytes] bytes. *)
Definition page_ok (m : mem) (bytes : nat) (a : addr) : Prop :=
  m !! a = Some (page m a) /\ byte_page (page m a) /\ (bytes <= length (page m a))%nat.

(** * The loops *)

Section Loop.
Context (m : mem) (bytes : nat) (x y : addr) (P Q : nat -> Z).
Context (Hxy : x <> y) (Hx : page_ok m bytes x) (Hy : page_ok m bytes y).

#[local] Abbreviation pf := (SimdLemmas.pf m x y P Q).

Definition at_pass (w : nat) (K : list (nat * list Z)) (d : nat) (s : machine) : Prop :=
  wf w s /\ regs s K /\ mm s = pf d d.

Lemma pass_loop w step K body s (ptrs : list addr) :
  (0 < step)%nat -> (step | bytes)%nat -> wf w s -> regs s K -> mm s = m ->
  (forall d s, (d + step <= bytes)%nat -> at_pass w K d s -> at_pass w K (d + step) (body d s)) ->
  exists s', match while_bytes step bytes 0 bytes body s with Some s => Some (ptrs, s) | None => None end = Some (ptrs, s')
    /\ mm s' = pf bytes bytes.
Proof.
  intros Hs Hb Hwf HK Hm Hbody.
  destruct (while_bytes_inv (at_pass w K) step bytes body s) as (s' & -> & _ & _ & Hs'); [done|done| |done|by exists s'].
  split; [done|]. split; [done|]. rewrite Hm. symmetry. apply pf_start; [apply Hx|apply Hy].
Qed.
End Loop.

(** One rewriting step in a pass: [u8] proves that a value is a byte, [byte] that the byte to be
    stored is the one of [P] or [Q]. *)
Ltac pass_step m bytes x y P Q Hxy Hx Hy w u8 byte :=
  match goal with
  | |- context [page (SimdLemmas.pf m x y P Q ?dx ?dy) ?a] => rewrite (page_pf m x y P Q a dx dy) by done
  | |- context [vload w (page ?mm ?a) ?o] => rewrite (vload_lane w (page mm a) o)
  | |- context [vload _ (row _ _) _] => rewrite vload_bcast
  | |- context [lane w (pget (page (SimdLemmas.pf m x y P Q ?dx ?dy) x)) ?o] =>
      rewrite (lane_pf_x m x y P Q Hxy bytes (proj2 (proj2 Hx)) w o dx dy) by lia
  | |- context [lane w (pget (page (SimdLemmas.pf m x y P Q ?dx ?dy) y)) ?o] =>
      rewrite (lane_pf_y m x y P Q bytes (proj2 (proj2 Hy)) w o dx dy) by lia
  | |- context [store (SimdLemmas.pf m x y P Q ?dx ?dy) x ?o (lane w ?f ?o)] =>
      rewrite (lane_ext w f P o) by byte;
      rewrite (store_pf_x m x y P Q Hxy bytes (proj2 (proj2 Hx)) w o dx dy) by lia
  | |- context [store (SimdLemmas.pf m x y P Q ?dx ?dy) y ?o (lane w ?f ?o)] =>
      rewrite (lane_ext w f Q o) by byte;
      rewrite (store_pf_y m x y P Q bytes (proj2 (proj2 Hy)) w o dx dy) by lia
  | |- _ => rewrite (vsraw_lane w) by first [u8 | by apply divide_check]
  | |- _ => rewrite (vshufb_lane w) by
      first [by apply divide_check | intros; cbv beta; first [apply nibble_lo | apply nibble_hi; u8]]
  | |- _ => lane_step
  end.

(** A loop of passes with the registers [K]. *)
Ltac passes m bytes x y P Q Hxy Hx Hy w step K u8 byte :=
  apply (pass_loop m bytes x y P Q Hx Hy w step K);
    [lia|done|by repeat apply run_wf| |done|];
    [cbn [regs]; simd_run; split_and!; first [apply vload_bcast | by vm_compute]|];
  let Hr := fresh in let Hm := fresh in
  intros ?d ?s ?Hd (? & Hr & Hm); cbn [regs] in Hr; destruct_regs Hr;
  split; [by apply run_wf|]; cbn [regs]; simd_run; rewrite_regs; rewrite ?Hm;
  repeat pass_step m bytes x y P Q Hxy Hx Hy w u8 byte;
  split_and!; first [done | f_equal; lia].

(** ** Two data pages *)

Section TwoData.
Context (m : mem) (bytes : nat) (p q dp dq : addr) (c1 c2 : Z).
Context (Hdd : dp <> dq) (Hpp : p <> dp) (Hpq : p <> dq) (Hqp : q <> dp) (Hqq : q <> dq).
Context (Hp : page_ok m bytes p) (Hq : page_ok m bytes q) (Hdp : page_ok m bytes dp) (Hdq : page_ok m bytes dq).
Context (Hc1 : is_u8 c1) (Hc2 : is_u8 c2).

Definition px (b : nat) : Z := pget (page m p) b ⊕ pget (page m dp) b.
Definition qx (b : nat) : Z := pget (page m q) b ⊕ pget (page m dq) b.
Definition db (b : nat) : Z := gfmul c1 (px b) ⊕ gfmul c2 (qx b).
Definition da (b : nat) : Z := db b ⊕ px b.

Lemma px_u8 b : is_u8 (px b).
Proof. apply is_u8_lxor; apply pget_u8; [apply Hp|apply Hdp]. Qed.

Lemma qx_u8 b : is_u8 (qx b).
Proof. apply is_u8_lxor; apply pget_u8; [apply Hq|apply Hdq]. Qed.

#[local] Abbreviation pf := (SimdLemmas.pf m dp dq da db).

(** The byte loop. *)
Lemma int_2data n : (n <= bytes)%nat ->
  fold_left (recov_2data_byte p q dp dq (row raid6_gfmul c1) (row raid6_gfmul c2)) (seq 0 n) m = pf n n.
Proof.
  destruct Hdp as (Edp & _ & Ldp), Hdq as (Edq & _ & Ldq).
  induction n as [|n IH]; intros Hn; [symmetry; by apply pf_start|].
  rewrite seq_S, fold_left_app, IH by lia. cbn [fold_left Nat.add]. unfold recov_2data_byte.
  rewrite !(page_pf _ _ _ _ _ p), !(page_pf _ _ _ _ _ q) by done.
  assert (pget (page (pf n n) dp) n = pget (page m dp) n) as ->.
  { unfold SimdLemmas.pf. rewrite page_insert_ne, page_insert_eq by done. apply pget_filled_ge; lia. }
  assert (pget (page (pf n n) dq) n = pget (page m dq) n) as ->.
  { unfold SimdLemmas.pf. rewrite page_insert_eq. apply pget_filled_ge; lia. }
  fold (px n) (qx n). rewrite !raid6_gfmul_lookup by auto using px_u8, qx_u8. fold (db n) (da n).
  change [db n] with (lane 1 db n). change [da n] with (lane 1 da n).
  rewrite <- (Nat.add_1_r n). rewrite (store_pf_y m dp dq da db bytes Ldq 1 n n n) by (done || lia).
  by rewrite (store_pf_x m dp dq da db Hdd bytes Ldp 1 n n (n + 1)) by (done || lia).
Qed.

#[local] Opaque lane vload bcast vshufb vsraw.

Ltac px_qx :=
  repeat match goal with
  | |- context [pget (page m p) ?b ⊕ pget (page m dp) ?b] => change (pget (page m p) b ⊕ pget (page m dp) b) with (px b)
  | |- context [pget (page m q) ?b ⊕ pget (page m dq) ?b] => change (pget (page m q) b ⊕ pget (page m dq) b) with (qx b)
  end.

Ltac pass_u8 := intros; cbv beta; px_qx; first [apply px_u8 | apply qx_u8].

Ltac pass_byte :=
  intros ?b; cbv beta; px_qx; rewrite ?nibble_product by auto using px_u8, qx_u8; unfold da, db; lxor_solve.

Ltac pass_proof w step K :=
  passes m bytes dp dq da db Hdd Hdp Hdq w step K pass_u8 pass_byte.

(** The routines, where the variables above are what they compute before the passes. *)
Context (gen : nat -> nat -> list addr -> mem -> mem) (zero : addr).
Context (x86_64 : bool) (s : machine) (disks faila failb : nat) (ptrs : list addr).
Context (Ep : ptr ptrs (disks - 2) = p) (Eq : ptr ptrs (disks - 1) = q) (Edp : ptr ptrs faila = dp).
Context (Edq : ptr (<[(disks - 2)%nat := dp]> (<[faila := zero]> ptrs)) failb = dq).
Context (Em : gen disks bytes
  (<[(disks - 1)%nat := dq]> (<[failb := zero]> (<[(disks - 2)%nat := dp]> (<[faila := zero]> ptrs)))) (mm s) = m).
Context (Ec1 : raid6_gfexi.[Z.of_nat failb - Z.of_nat faila] = c1).
Context (Ec2 : raid6_gfinv.[raid6_gfexp.[Z.of_nat faila] ⊕ raid6_gfexp.[Z.of_nat failb]] = c2).

(** The recovery runs to its end and leaves the pointers and the memory of the byte loop. *)
Definition same_2data (r : option (list addr * machine)) : Prop :=
  exists s', r = Some ((raid6_2data_recov_intx1 gen zero disks bytes faila failb ptrs (mm s)).1, s') /\
    mm s' = (raid6_2data_recov_intx1 gen zero disks bytes faila failb ptrs (mm s)).2.

Ltac routine_proof w step K64 K32 :=
  intros Hwf Hb; unfold same_2data, raid6_2data_recov_intx1; cbv zeta;
  rewrite Ep, Eq, Edp, Edq, Em, Ec1, Ec2, (int_2data bytes) by lia; cbn [fst snd];
  assert (wf w (set_mm s m)) by exact Hwf;
  destruct x86_64; [pass_proof w (2 * step)%nat K64|pass_proof w step K32].

Lemma ssse3_2data_same :
  wf 16 s -> ((if x86_64 then 32 else 16) | bytes)%nat ->
  same_2data (raid6_2data_recov_ssse3 gen zero x86_64 s disks bytes faila failb ptrs).
Proof.
  unfold raid6_2data_recov_ssse3.
  routine_proof 16%nat 16%nat
    [(7%nat, replicate 16 15); (6%nat, bcast 16 (row raid6_vgfmul c2) 0);
     (14%nat, bcast 16 (row raid6_vgfmul c1) 0); (15%nat, bcast 16 (row raid6_vgfmul c1) 16)]
    [(7%nat, replicate 16 15)].
Qed.

Lemma avx2_2data_same :
  wf 32 s -> ((if x86_64 then 64 else 32) | bytes)%nat ->
  same_2data (raid6_2data_recov_avx2 gen zero x86_64 s disks bytes faila failb ptrs).
Proof. unfold raid6_2data_recov_avx2. routine_proof 32%nat 32%nat [(7%nat, replicate 32 15)] [(7%nat, replicate 32 15)]. Qed.

Lemma avx512_2data_same :
  wf 64 s -> ((if x86_64 then 128 else 64) | bytes)%nat ->
  same_2data (raid6_2data_recov_avx512 gen zero x86_64 s disks bytes faila failb ptrs).
Proof. unfold raid6_2data_recov_avx512. routine_proof 64%nat 64%nat [(7%nat, replicate 64 15)] [(7%nat, replicate 64 15)]. Qed.
End TwoData.

(** ** A data page and P *)

Section DataP.
Context (m : mem) (bytes : nat) (p q dq : addr) (c : Z).
Context (Hdp : dq <> p) (Hqd : q <> dq) (Hqp : q <> p).
Context (Hp : page_ok m bytes p) (Hq : page_ok m bytes q) (Hdq : page_ok m bytes dq) (Hc : is_u8 c).

Definition qd (b : nat) : Z := pget (page m dq) b ⊕ pget (page m q) b.
Definition dv (b : nat) : Z := gfmul c (qd b).
Definition pv (b : nat) : Z := pget (page m p) b ⊕ dv b.

Lemma qd_u8 b : is_u8 (qd b).
Proof. apply is_u8_lxor; apply pget_u8; [apply Hdq|apply Hq]. Qed.

#[local] Abbreviation pf := (SimdLemmas.pf m dq p dv pv).

Lemma int_datap n : (n <= bytes)%nat ->
  fold_left (recov_datap_byte p q dq (row raid6_gfmul c)) (seq 0 n) m = pf n n.
Proof.
  destruct Hp as (Ep & _ & Lp), Hdq as (Edq & _ & Ldq).
  induction n as [|n IH]; intros Hn; [symmetry; by apply pf_start|].
  rewrite seq_S, fold_left_app, IH by lia. cbn [fold_left Nat.add]. unfold recov_datap_byte.
  rewrite !(page_pf _ _ _ _ _ q), (page_store_ne _ dq p) by done.
  assert (pget (page (pf n n) dq) n = pget (page m dq) n) as ->.
  { unfold SimdLemmas.pf. rewrite page_insert_ne, page_insert_eq by done. apply pget_filled_ge; lia. }
  assert (pget (page (pf n n) p) n = pget (page m p) n) as ->.
  { unfold SimdLemmas.pf. rewrite page_insert_eq. apply pget_filled_ge; lia. }
  rewrite (Z.lxor_comm (pget (page m q) n)). fold (qd n). rewrite raid6_gfmul_lookup by auto using qd_u8.
  fold (dv n) (pv n). change [dv n] with (lane 1 dv n). change [pv n] with (lane 1 pv n).
  rewrite <- (Nat.add_1_r n). rewrite (store_pf_x m dq p dv pv Hdp bytes Ldq 1 n n n) by (done || lia).
  by rewrite (store_pf_y m dq p dv pv bytes Lp 1 n (n + 1) n) by (done || lia).
Qed.

#[local] Opaque lane vload bcast vshufb vsraw.

Ltac fold_qd :=
  repeat match goal with
  | |- context [pget (page m dq) ?b ⊕ pget (page m q) ?b] => change (pget (page m dq) b ⊕ pget (page m q) b) with (qd b)
  end.

Ltac datap_u8 := intros; cbv beta; fold_qd; apply qd_u8.
Ltac datap_byte := intros ?b; cbv beta; fold_qd; rewrite ?nibble_product by auto using qd_u8; done.

Context (gen : nat -> nat -> list addr -> mem -> mem) (zero : addr).
Context (x86_64 : bool) (s : machine) (disks faila : nat) (ptrs : list addr).
Context (Ep : ptr ptrs (disks - 2) = p) (Eq : ptr ptrs (disks - 1) = q) (Edq : ptr ptrs faila = dq).
Context (Em : gen disks bytes (<[(disks - 1)%nat := dq]> (<[faila := zero]> ptrs)) (mm s) = m).
Context (Ec : raid6_gfinv.[raid6_gfexp.[Z.of_nat faila]] = c).

Definition same_datap (r : option (list addr * machine)) : Prop :=
  exists s', r = Some ((raid6_datap_recov_intx1 gen zero disks bytes faila ptrs (mm s)).1, s') /\
    mm s' = (raid6_datap_recov_intx1 gen zero disks bytes faila ptrs (mm s)).2.

Ltac datap_proof w step K :=
  intros Hwf Hb; unfold same_datap, raid6_datap_recov_intx1; cbv zeta;
  rewrite Ep, Eq, Edq, Em, Ec, (int_datap bytes) by lia; cbn [fst snd];
  assert (wf w (set_mm s m)) by exact Hwf;
  destruct x86_64;
    [passes m bytes dq p dv pv Hdp Hdq Hp w (2 * step)%nat K datap_u8 datap_byte
    |passes m bytes dq p dv pv Hdp Hdq Hp w step K datap_u8 datap_byte].

Lemma ssse3_datap_same :
  wf 16 s -> ((if x86_64 then 32 else 16) | bytes)%nat ->
  same_datap (raid6_datap_recov_ssse3 gen zero x86_64 s disks bytes faila ptrs).
Proof. unfold raid6_datap_recov_ssse3. datap_proof 16%nat 16%nat [(7%nat, replicate 16 15)]. Qed.

Lemma avx2_datap_same :
  wf 32 s -> ((if x86_64 then 64 else 32) | bytes)%nat ->
  same_datap (raid6_datap_recov_avx2 gen zero x86_64 s disks bytes faila ptrs).
Proof. unfold raid6_datap_recov_avx2. datap_proof 32%nat 32%nat [(7%nat, replicate 32 15)]. Qed.

Lemma avx512_datap_same :
  wf 64 s -> ((if x86_64 then 128 else 64) | bytes)%nat ->
  same_datap (raid6_datap_recov_avx512 gen zero x86_64 s disks bytes faila ptrs).
Proof. unfold raid6_datap_recov_avx512. datap_proof 64%nat 64%nat [(7%nat, replicate 64 15)]. Qed.
End DataP.

(** * Recovery *)

Lemma filled_byte_page f d l : (forall b, is_u8 (f b)) -> byte_page l -> byte_page (filled f d l).
Proof. intros Hf Hl. apply Forall_app. split; [by apply Forall_map_u8|by apply Forall_drop]. Qed.

Lemma insert_page_ok m bytes a b l :
  byte_page l -> (bytes <= length l)%nat -> (b <> a -> page_ok m bytes b) -> page_ok (<[a := l]> m) bytes b.
Proof.
  intros Hl Hlen Hb. unfold page_ok, page. destruct (decide (a = b)) as [<-|Hne].
  - by rewrite lookup_insert_eq.
  - rewrite lookup_insert_ne by done. apply Hb. done.
Qed.

(** Computing syndromes leaves pages of bytes. *)
Lemma with_syndromes_page_ok disks bytes ptrs m a :
  stripe_ok disks bytes ptrs m -> page_ok m bytes a -> page_ok (with_syndromes disks bytes ptrs m) bytes a.
Proof.
  intros Hok Ha. unfold with_syndromes.
  assert (forall b, Forall is_u8 (column m (data_ptrs disks ptrs) b)) by (intros; by eapply so_column_u8).
  assert (forall x f, x ∈ ptrs -> (forall b, is_u8 (f b)) ->
    byte_page (filled f bytes (page m x)) /\ (bytes <= length (filled f bytes (page m x)))%nat) as Hfill.
  { intros x f Hx Hf. destruct (so_page _ _ _ _ Hok x Hx) as (_ & Hb & Hl). split; [by apply filled_byte_page|].
    by rewrite length_filled. }
  assert (p_ptr disks ptrs ∈ ptrs) by (by eapply so_p_in). assert (q_ptr disks ptrs ∈ ptrs) by (by eapply so_q_in).
  apply insert_page_ok; [apply Hfill; auto with md..|]. intros _.
  apply insert_page_ok; [apply Hfill; auto with md..|]. done.
Qed.

Lemma stripe_page_ok disks bytes ptrs m i : stripe_ok disks bytes ptrs m -> (i < disks)%nat -> page_ok m bytes (ptr ptrs i).
Proof. intros Hok Hi. apply (so_page _ _ _ _ Hok), elem_of_ptr. by rewrite (so_len _ _ _ _ Hok). Qed.

(** The implementations, with the width of their registers. *)
Definition simd_2data gen zero : list (nat * (bool -> machine -> nat -> nat -> nat -> nat -> list addr -> option (list addr * machine))) :=
  [(16%nat, raid6_2data_recov_ssse3 gen zero); (32%nat, raid6_2data_recov_avx2 gen zero);
   (64%nat, raid6_2data_recov_avx512 gen zero)].

Definition simd_datap gen zero : list (nat * (bool -> machine -> nat -> nat -> nat -> list addr -> option (list addr * machine))) :=
  [(16%nat, raid6_datap_recov_ssse3 gen zero); (32%nat, raid6_datap_recov_avx2 gen zero);
   (64%nat, raid6_datap_recov_avx512 gen zero)].

Section Recovery.
Context {dom : nat -> nat -> Prop} {gen : nat -> nat -> list addr -> mem -> mem} {Hgen : SyndromeGen dom gen}.
Context (zero : addr) (disks bytes : nat) (ptrs : list addr) (m0 : mem).
Context (Hdom : dom disks bytes) (Hok : recov_ok zero disks bytes ptrs m0) (Hcons : consistent disks bytes ptrs m0).
Context (w : nat) (x86_64 : bool) (s : machine) (Hwf : wf w s) (Hb : ((if x86_64 then 2 * w else w) | bytes)%nat).

Let Hstripe := ro_stripe _ _ _ _ _ Hok.

#[local] Abbreviation p := (ptr ptrs (disks - 2)).
#[local] Abbreviation q := (ptr ptrs (disks - 1)).

Lemma slots_ne i j : (i < disks)%nat -> (j < disks)%nat -> i <> j -> ptr ptrs i <> ptr ptrs j.
Proof. intros. apply ptr_inj; [apply Hok|rewrite (so_len _ _ _ _ Hstripe)..|]; done. Qed.

Section Two.
Context (faila failb : nat) (ga gb : list Z).
Context (Hab : (faila < failb < disks - 2)%nat) (Hb255 : (failb < 255)%nat).
Context (Hga : garbage bytes ga) (Hgb : garbage bytes gb).
Context (Hm : mm s = <[ptr ptrs faila := ga]> (<[ptr ptrs failb := gb]> m0)).

Let ptrs1 : list addr :=
  <[(disks - 1)%nat := ptr ptrs failb]> (<[failb := zero]> (<[(disks - 2)%nat := ptr ptrs faila]> (<[faila := zero]> ptrs))).
Let m1 : mem := gen disks bytes ptrs1 (mm s).

Lemma after_gen_2data i : (i < disks)%nat -> page_ok m1 bytes (ptr ptrs i).
Proof.
  intros Hi. destruct Hga, Hgb. unfold m1.
  assert (stripe_ok disks bytes ptrs1 (mm s)) as Hs by (rewrite Hm; by apply (stripe_ok_2data zero disks bytes ptrs m0 Hok)).
  rewrite (gen_syndrome_ok _ _ _ _ Hdom Hs).
  apply with_syndromes_page_ok; [done|]. rewrite Hm.
  apply insert_page_ok; [done..|]. intros _. apply insert_page_ok; [done..|]. intros _. by apply (stripe_page_ok disks).
Qed.

Lemma simd_2data_ok recov : (w, recov) ∈ simd_2data gen zero ->
  exists s', recov x86_64 s disks bytes faila failb ptrs = Some (ptrs, s') /\
    mm s' = <[ptr ptrs faila := restored bytes (page m0 (ptr ptrs faila)) ga]>
      (<[ptr ptrs failb := restored bytes (page m0 (ptr ptrs failb)) gb]> m0).
Proof.
  intros Hr.
  assert (same_2data bytes gen zero s disks faila failb ptrs (recov x86_64 s disks bytes faila failb ptrs)) as (s' & E1 & E2).
  2: { rewrite Hm, (recov_2data_correct zero disks bytes ptrs m0 Hdom Hok Hcons faila failb ga gb Hab Hb255 Hga Hgb) in E1, E2.
       by exists s'. }
  assert (ptr (<[(disks - 2)%nat := ptr ptrs faila]> (<[faila := zero]> ptrs)) failb = ptr ptrs failb) as Edq
    by (rewrite !ptr_insert_ne by lia; done).
  assert (is_u8 (raid6_gfexi.[Z.of_nat failb - Z.of_nat faila])).
  { replace (Z.of_nat failb - Z.of_nat faila) with (Z.of_nat (failb - faila)) by lia.
    rewrite raid6_gfexi_lookup by lia. auto with md. }
  assert (is_u8 (raid6_gfinv.[raid6_gfexp.[Z.of_nat faila] ⊕ raid6_gfexp.[Z.of_nat failb]])).
  { rewrite !raid6_gfexp_alpha, raid6_gfinv_lookup by (auto with md; lia). auto with md. }
  repeat (apply elem_of_cons in Hr as [[= Ew ->]|Hr]); [..|by apply elem_of_nil in Hr]; subst w;
    match goal with H1 : is_u8 ?c1, H2 : is_u8 ?c2 |- _ =>
      first [apply (ssse3_2data_same m1 bytes p q (ptr ptrs faila) (ptr ptrs failb) c1 c2)
            |apply (avx2_2data_same m1 bytes p q (ptr ptrs faila) (ptr ptrs failb) c1 c2)
            |apply (avx512_2data_same m1 bytes p q (ptr ptrs faila) (ptr ptrs failb) c1 c2)]
    end; solve [apply slots_ne; lia | apply after_gen_2data; lia | assumption | reflexivity].
Qed.
End Two.

Section One.
Context (faila : nat) (ga gp : list Z).
Context (Ha : (faila < disks - 2)%nat) (Ha255 : (faila < 255)%nat).
Context (Hga : garbage bytes ga) (Hgp : garbage bytes gp).
Context (Hm : mm s = <[ptr ptrs faila := ga]> (<[p_ptr disks ptrs := gp]> m0)).

Let ptrs1 : list addr := <[(disks - 1)%nat := ptr ptrs faila]> (<[faila := zero]> ptrs).
Let m1 : mem := gen disks bytes ptrs1 (mm s).

Lemma after_gen_datap i : (i < disks)%nat -> page_ok m1 bytes (ptr ptrs i).
Proof.
  intros Hi. destruct Hga, Hgp. unfold m1.
  assert (stripe_ok disks bytes ptrs1 (mm s)) as Hs by (rewrite Hm; by apply (stripe_ok_datap zero disks bytes ptrs m0 Hok)).
  rewrite (gen_syndrome_ok _ _ _ _ Hdom Hs).
  apply with_syndromes_page_ok; [done|]. rewrite Hm.
  apply insert_page_ok; [done..|]. intros _. apply insert_page_ok; [done..|]. intros _. by apply (stripe_page_ok disks).
Qed.

Lemma simd_datap_ok recov : (w, recov) ∈ simd_datap gen zero ->
  exists s', recov x86_64 s disks bytes faila ptrs = Some (ptrs, s') /\
    mm s' = <[ptr ptrs faila := restored bytes (page m0 (ptr ptrs faila)) ga]>
      (<[p_ptr disks ptrs := restored bytes (page m0 (p_ptr disks ptrs)) gp]> m0).
Proof.
  intros Hr.
  assert (same_datap bytes gen zero s disks faila ptrs (recov x86_64 s disks bytes faila ptrs)) as (s' & E1 & E2).
  2: { unfold p_ptr in *. rewrite Hm, (recov_datap_correct zero disks bytes ptrs m0 Hdom Hok Hcons faila ga gp Ha Ha255 Hga Hgp) in E1, E2.
       by exists s'. }
  assert (is_u8 (raid6_gfinv.[raid6_gfexp.[Z.of_nat faila]])).
  { rewrite raid6_gfexp_alpha, raid6_gfinv_lookup by (auto with md; lia). auto with md. }
  repeat (apply elem_of_cons in Hr as [[= Ew ->]|Hr]); [..|by apply elem_of_nil in Hr]; subst w;
    match goal with H : is_u8 ?c |- _ =>
      first [apply (ssse3_datap_same m1 bytes p q (ptr ptrs faila) c)
            |apply (avx2_datap_same m1 bytes p q (ptr ptrs faila) c)
            |apply (avx512_datap_same m1 bytes p q (ptr ptrs faila) c)]
    end; solve [apply slots_ne; lia | apply after_gen_datap; lia | assumption | reflexivity].
Qed.
End One.
End Recovery.
