(* ===== verification/EcBase.v ===== *)
(** The portable erasure-code routines, isa-l/ec_base.c: the 32-byte nibble tables, and
    encoding, dot product, multiply-accumulate and multiplication of byte regions, with
    their short (scalar) and long (256-entry table) paths.

    The routines meet the same specification as the GFNI kernels, so that the two
    implementations leave the same memory. *)

From S2P Require Import Prelude GF256 PageMem EcTables Matrix Gfni GfniCorrect.

Definition GF_REGION_TBL_MIN_LEN : nat := 256.

(** * Tables *)

(** [for (b = 0; b < 256; b++) tbl[b] = gf_mul(c, b);] *)
Definition build_mul_tbl (c : Z) : list Z := map (fun b => gf_mul c b) (seqZ 0 256).

(** [gf_vect_mul_init_base] on a 64-bit little-endian machine. *)
Definition nibble_words (c : Z) : list Z :=
  let c2 := xtime c in
  let c4 := xtime c2 in
  let c8 := xtime c4 in
  let v1 := u64 (c * 0x0100010001000100) in
  let v2 := u64 (c2 * 0x0101000001010000) in
  let v4 := u64 (c4 * 0x0101010100000000) in
  let v8 := u64 (c8 * 0x0101010101010101) in
  let v4 := v1 ⊕ v2 ⊕ v4 in
  let t0 := v4 in
  let t1 := v8 ⊕ v4 in
  let c17 := xtime c8 in
  let c18 := xtime c17 in
  let c20 := xtime c18 in
  let c24 := xtime c20 in
  let v10 := u64 (c17 * 0x0100010001000100) in
  let v20 := u64 (c18 * 0x0101000001010000) in
  let v40 := u64 (c20 * 0x0101010100000000) in
  let v80 := u64 (c24 * 0x0101010101010101) in
  let v40 := v10 ⊕ v20 ⊕ v40 in
  [t0; t1; v40; v80 ⊕ v40].

Definition gf_vect_mul_init_base (c : Z) (tbl : list Z) (off : nat) : list Z :=
  splice tbl off (concat (map (le_split 8) (nibble_words c))).

(** The other variant of the source, byte by byte. *)
Definition nibble_bytes (c : Z) : list Z :=
  let c2 := xtime c in
  let c4 := xtime c2 in
  let c8 := xtime c4 in
  let c3 := c2 ⊕ c in
  let c5 := c4 ⊕ c in
  let c6 := c4 ⊕ c2 in
  let c7 := c4 ⊕ c3 in
  let c9 := c8 ⊕ c in
  let c10 := c8 ⊕ c2 in
  let c11 := c8 ⊕ c3 in
  let c12 := c8 ⊕ c4 in
  let c13 := c8 ⊕ c5 in
  let c14 := c8 ⊕ c6 in
  let c15 := c8 ⊕ c7 in
  let c17 := xtime c8 in
  let c18 := xtime c17 in
  let c19 := c18 ⊕ c17 in
  let c20 := xtime c18 in
  let c21 := c20 ⊕ c17 in
  let c22 := c20 ⊕ c18 in
  let c23 := c20 ⊕ c19 in
  let c24 := xtime c20 in
  let c25 := c24 ⊕ c17 in
  let c26 := c24 ⊕ c18 in
  let c27 := c24 ⊕ c19 in
  let c28 := c24 ⊕ c20 in
  let c29 := c24 ⊕ c21 in
  let c30 := c24 ⊕ c22 in
  let c31 := c24 ⊕ c23 in
  [0; c; c2; c3; c4; c5; c6; c7; c8; c9; c10; c11; c12; c13; c14; c15;
   0; c17; c18; c19; c20; c21; c22; c23; c24; c25; c26; c27; c28; c29; c30; c31].

Definition gf_vect_mul_init_base32 (c : Z) (tbl : list Z) (off : nat) : list Z :=
  splice tbl off (nibble_bytes c).

Definition ec_init_tables_base (k rows : nat) (a g_tbls : list Z) : list Z :=
  fold_left (fun tbl i =>
      fold_left (fun tbl j => gf_vect_mul_init_base (pget a (i * k + j)) tbl (32 * (i * k + j)))
        (seq 0 k) tbl)
    (seq 0 rows) g_tbls.

(** * Regions *)

(** [for (i = 0; i < len; i++) dest[i] = g(i);], [g] reading the memory of its iteration. *)
Definition byte_loop (len : nat) (dest : addr) (g : mem -> nat -> Z) (m : mem) : mem :=
  fold_left (fun m i => store m dest i [g m i]) (seq 0 len) m.

Definition gf_vect_dot_prod_base (len vlen : nat) (v : list Z) (src : list addr) (dest : addr) (m : mem) : mem :=
  if (len <? GF_REGION_TBL_MIN_LEN)%nat then
    byte_loop len dest (fun m i =>
      fold_left (fun s j => s ⊕ gf_mul (pget (page m (ptr src j)) i) (pget v (j * 32 + 1))) (seq 0 vlen) 0) m
  else
    let tbl := build_mul_tbl (pget v 1) in
    let m := byte_loop len dest (fun m i => tbl.[pget (page m (ptr src 0)) i]) m in
    fold_left (fun m j =>
        let tbl := build_mul_tbl (pget v (j * 32 + 1)) in
        byte_loop len dest (fun m i => pget (page m dest) i ⊕ tbl.[pget (page m (ptr src j)) i]) m)
      (seq 1 (vlen - 1)) m.

Definition gf_vect_mad_base (len vec vec_i : nat) (v : list Z) (src dest : addr) (m : mem) : mem :=
  let c := pget v (vec_i * 32 + 1) in
  if (len <? GF_REGION_TBL_MIN_LEN)%nat then
    byte_loop len dest (fun m i => pget (page m dest) i ⊕ gf_mul (pget (page m src) i) c) m
  else
    let tbl := build_mul_tbl c in
    byte_loop len dest (fun m i => pget (page m dest) i ⊕ tbl.[pget (page m src) i]) m.

Definition ec_encode_data_base (len srcs dests : nat) (v : list Z) (src dest : list addr) (m : mem) : mem :=
  if (len <? GF_REGION_TBL_MIN_LEN)%nat then
    fold_left (fun m l =>
        byte_loop len (ptr dest l) (fun m i =>
          fold_left (fun s j => s ⊕ gf_mul (pget (page m (ptr src j)) i) (pget v (j * 32 + l * srcs * 32 + 1)))
            (seq 0 srcs) 0) m)
      (seq 0 dests) m
  else
    fold_left (fun m l =>
        let d := ptr dest l in
        let tbl := build_mul_tbl (pget v (l * srcs * 32 + 1)) in
        let m := byte_loop len d (fun m i => tbl.[pget (page m (ptr src 0)) i]) m in
        fold_left (fun m j =>
            let tbl := build_mul_tbl (pget v (j * 32 + l * srcs * 32 + 1)) in
            byte_loop len d (fun m i => pget (page m d) i ⊕ tbl.[pget (page m (ptr src j)) i]) m)
          (seq 1 (srcs - 1)) m)
      (seq 0 dests) m.

Definition ec_encode_data_update_base (len k rows vec_i : nat) (v : list Z) (data : addr) (dest : list addr)
    (m : mem) : mem :=
  if (len <? GF_REGION_TBL_MIN_LEN)%nat then
    fold_left (fun m l =>
        let c := pget v (vec_i * 32 + l * k * 32 + 1) in
        let d := ptr dest l in
        byte_loop len d (fun m i => pget (page m d) i ⊕ gf_mul (pget (page m data) i) c) m)
      (seq 0 rows) m
  else
    fold_left (fun m l =>
        let tbl := build_mul_tbl (pget v (vec_i * 32 + l * k * 32 + 1)) in
        let d := ptr dest l in
        byte_loop len d (fun m i => pget (page m d) i ⊕ tbl.[pget (page m data) i]) m)
      (seq 0 rows) m.

(** The return code and the memory. *)
Definition gf_vect_mul_base (len : nat) (a : list Z) (src dest : addr) (m : mem) : Z * mem :=
  let c := pget a 1 in
  if negb (len mod 32 =? 0)%nat then (-1, m)
  else if (len <? GF_REGION_TBL_MIN_LEN)%nat then
    (0, byte_loop len dest (fun m i => gf_mul c (pget (page m src) i)) m)
  else
    let tbl := build_mul_tbl c in
    (0, byte_loop len dest (fun m i => tbl.[pget (page m src) i]) m).

(** * Correctness *)

(** Byte 1 of every table is its coefficient; the rest are its multiples of the nibbles. *)
Definition nibble_table (c : Z) : list Z :=
  map (fun j => gfmul c j) (seqZ 0 16) ++ map (fun j => gfmul c (16 * j)) (seqZ 0 16).

Lemma nibble_words_ok c : is_u8 c -> concat (map (le_split 8) (nibble_words c)) = nibble_table c.
Proof.
  intros Hc. eapply bool_decide_eq_true_1. revert c Hc.
  apply (bytes_check (fun c => bool_decide (concat (map (le_split 8) (nibble_words c)) = nibble_table c))).
  by vm_compute.
Qed.

Lemma nibble_bytes_ok c : is_u8 c -> nibble_bytes c = nibble_table c.
Proof.
  intros Hc. eapply bool_decide_eq_true_1. revert c Hc.
  apply (bytes_check (fun c => bool_decide (nibble_bytes c = nibble_table c))). by vm_compute.
Qed.

Lemma build_mul_tbl_ok c x : is_u8 c -> is_u8 x -> (build_mul_tbl c).[x] = gfmul c x.
Proof. intros Hc Hx. unfold build_mul_tbl. rewrite rd_map_bytes by done. by apply gf_mul_gfmul. Qed.

(** A loop over the bytes of a page that computes [F]. *)
Lemma byte_loop_ok len dest g m l F :
  m !! dest = Some l -> (len <= length l)%nat ->
  (forall i, (i < len)%nat -> g (<[dest := filled F i l]> m) i = F i) ->
  byte_loop len dest g m = <[dest := filled F len l]> m.
Proof.
  intros Hl Hlen Hg. unfold byte_loop.
  apply (fold_left_inv (fun i m' => m' = <[dest := filled F i l]> m)).
  - by rewrite filled_0, insert_id.
  - intros i m' Hi ->. rewrite Hg by done. rewrite (store_filled m dest F i 1) by (done || lia).
    by rewrite Nat.add_1_r.
Qed.

(** One destination page and the sources it is computed from. *)
Section Row.
Context (len k : nat) (src : list addr) (dest : addr) (m : mem) (l : list Z) (co : nat -> Z).
Context (Hl : m !! dest = Some l) (Hlen : (len <= length l)%nat).
Context (Hsrc : forall j, (j < k)%nat -> ptr src j <> dest /\ byte_page (page m (ptr src j))).
Context (Hco : forall j, (j < k)%nat -> is_u8 (co j)).

Definition row_dot (n b : nat) : Z := gfsum n (fun j => gfmul (co j) (pget (page m (ptr src j)) b)).

Lemma row_src l' j i : (j < k)%nat ->
  pget (page (<[dest := l']> m) (ptr src j)) i = pget (page m (ptr src j)) i /\
  is_u8 (pget (page m (ptr src j)) i).
Proof.
  intros Hj. destruct (Hsrc j Hj) as [Hne Hb]. rewrite page_insert_ne by done.
  split; [done|by apply pget_u8].
Qed.

Lemma row_short_ok :
  byte_loop len dest (fun m i =>
    fold_left (fun s j => s ⊕ gf_mul (pget (page m (ptr src j)) i) (co j)) (seq 0 k) 0) m =
  <[dest := filled (row_dot k) len l]> m.
Proof.
  apply byte_loop_ok; [done..|]. intros i Hi. apply gfsum_ext. intros j Hj.
  destruct (row_src (filled (row_dot k) i l) j i Hj) as [-> H8].
  rewrite gf_mul_gfmul, gfmul_comm; auto.
Qed.

(** The first source initialises the page. *)
Lemma row_first_ok :
  (0 < k)%nat ->
  byte_loop len dest (fun m i => (build_mul_tbl (co 0)).[pget (page m (ptr src 0)) i]) m =
  <[dest := filled (row_dot 1) len l]> m.
Proof.
  intros Hk. apply byte_loop_ok; [done..|]. intros i Hi.
  destruct (row_src (filled (row_dot 1) i l) 0 i Hk) as [-> H8].
  rewrite build_mul_tbl_ok by auto. unfold row_dot. by rewrite gfsum_S.
Qed.

(** Every other source is added to it. *)
Lemma row_next_ok j :
  (j < k)%nat ->
  byte_loop len dest (fun m i => pget (page m dest) i ⊕ (build_mul_tbl (co j)).[pget (page m (ptr src j)) i])
    (<[dest := filled (row_dot j) len l]> m) =
  <[dest := filled (row_dot (S j)) len l]> m.
Proof.
  intros Hj.
  rewrite (byte_loop_ok len dest _ _ (filled (row_dot j) len l) (row_dot (S j)));
    [|apply lookup_insert_eq|by rewrite length_filled|].
  - by rewrite insert_insert_eq, filled_filled.
  - intros i Hi. rewrite insert_insert_eq, page_insert_eq.
    destruct (row_src (filled (row_dot (S j)) i (filled (row_dot j) len l)) j i Hj) as [-> H8].
    rewrite pget_filled_ge by (rewrite ?length_filled; lia).
    rewrite pget_filled_lt, build_mul_tbl_ok by auto. unfold row_dot. by rewrite gfsum_S.
Qed.

Lemma row_long_ok :
  (0 < k)%nat ->
  fold_left (fun m j =>
      byte_loop len dest (fun m i => pget (page m dest) i ⊕ (build_mul_tbl (co j)).[pget (page m (ptr src j)) i]) m)
    (seq 1 (k - 1))
    (byte_loop len dest (fun m i => (build_mul_tbl (co 0)).[pget (page m (ptr src 0)) i]) m) =
  <[dest := filled (row_dot k) len l]> m.
Proof.
  intros Hk. rewrite row_first_ok by done. rewrite fold_left_seq_shift.
  replace (row_dot k) with (row_dot (1 + (k - 1))) by (f_equal; lia).
  apply (fold_left_inv (fun j m' => m' = <[dest := filled (row_dot (1 + j)) len l]> m)); [done|].
  intros j m' Hj ->. by apply row_next_ok; lia.
Qed.

(** The update of the page by one source. *)
Lemma row_mad_ok (c : Z) (s : addr) (g : Z -> Z) :
  s <> dest -> byte_page (page m s) -> (forall x, is_u8 x -> g x = gfmul c x) ->
  byte_loop len dest (fun m i => pget (page m dest) i ⊕ g (pget (page m s) i)) m =
  <[dest := filled (fun b => pget l b ⊕ gfmul c (pget (page m s) b)) len l]> m.
Proof.
  intros Hs Hb Hg. apply byte_loop_ok; [done..|]. intros i Hi.
  rewrite page_insert_eq, page_insert_ne, pget_filled_ge by (done || lia).
  by rewrite Hg by (by apply pget_u8).
Qed.
End Row.

(** * Several rows *)

(** What encoding needs of the arguments: [coef r j] is the coefficient in the tables. *)
Record base_ok (nout len k : nat) (coef : nat -> nat -> Z) (v : list Z)
    (src dest : list addr) (m : mem) : Prop := {
  bo_nout : (nout <= length dest)%nat;
  bo_nodup : NoDup (take nout dest);
  bo_dest : forall r, (r < nout)%nat -> exists l, m !! ptr dest r = Some l /\ (len <= length l)%nat;
  bo_src : forall i, (i < k)%nat -> (ptr src i ∉ take nout dest) /\ byte_page (page m (ptr src i));
  bo_tbl : forall r i, (r < nout)%nat -> (i < k)%nat ->
    is_u8 (coef r i) /\ pget v (i * 32 + r * k * 32 + 1) = coef r i;
}.

(** Rows written one after the other, each from memory where it is still untouched. *)
Section RowByRow.
Context (nout len : nat) (dest : list addr) (m0 : mem) (F : nat -> nat -> Z).
Context (Hnout : (nout <= length dest)%nat) (Hnd : NoDup (take nout dest)).
Context (Hpages : forall r, (r < nout)%nat -> exists l, m0 !! ptr dest r = Some l /\ (len <= length l)%nat).

Definition rows_done (n : nat) : mem -> Prop :=
  rows_at nout dest m0 F (fun r => if decide (r < n)%nat then len else 0%nat).

Lemma rows_done_next n m :
  rows_done n m -> (n < nout)%nat ->
  rows_done (S n) (<[ptr dest n := filled (F n) len (page m0 (ptr dest n))]> m).
Proof.
  intros [H1 H2] Hn. split.
  - intros a Ha. rewrite lookup_insert_ne; [auto|]. intros <-. by apply Ha, (dest_in nout).
  - intros r Hr. destruct (decide (r = n)) as [->|Hne].
    + rewrite lookup_insert_eq, decide_True by lia. done.
    + rewrite lookup_insert_ne by (apply (dest_ne nout); auto). rewrite H2 by done.
      do 2 f_equal. repeat case_decide; lia.
Qed.

Lemma rows_done_page n m r :
  rows_done n m -> (n <= r < nout)%nat ->
  m !! ptr dest r = Some (page m0 (ptr dest r)) /\ (len <= length (page m0 (ptr dest r)))%nat.
Proof.
  intros [_ H2] Hr. rewrite H2, decide_False by lia. rewrite filled_0. split; [done|].
  apply (dest_page_len nout dest m0 len); [done|lia].
Qed.

Lemma rows_loop (f : mem -> nat -> mem) :
  (forall n m, (n < nout)%nat -> rows_done n m ->
    f m n = <[ptr dest n := filled (F n) len (page m0 (ptr dest n))]> m) ->
  rows_at nout dest m0 F (fun _ => len) (fold_left f (seq 0 nout) m0).
Proof.
  intros Hf. eapply rows_at_ext; [|apply (fold_left_inv rows_done)].
  - intros r Hr. cbn beta. by rewrite decide_True.
  - eapply rows_at_ext; [|by apply (rows_at_0 nout dest m0 F len)]. intros r _. by rewrite decide_False by lia.
  - intros n m Hn Hm. rewrite Hf by done. by apply rows_done_next.
Qed.
End RowByRow.

Section EncodeBase.
Context (nout len k : nat) (coef : nat -> nat -> Z) (v : list Z) (src dest : list addr) (m : mem).
Context (Hok : base_ok nout len k coef v src dest m).

(** Where row [n] is computed, the sources and the coefficients are those of the start. *)
Lemma base_row n m' :
  (n < nout)%nat -> rows_done nout len dest m (dot_spec coef k m src) n m' ->
  (forall j, (j < k)%nat -> ptr src j <> ptr dest n /\ byte_page (page m' (ptr src j))) /\
  (forall l, filled (row_dot src m' (fun j => pget v (j * 32 + n * k * 32 + 1)) k) len l =
    filled (dot_spec coef k m src n) len l) /\
  (forall j, (j < k)%nat -> is_u8 (pget v (j * 32 + n * k * 32 + 1))).
Proof.
  destruct Hok as [Hn Hnd Hd Hs Ht]. intros Hlt Hm'.
  assert (forall j, (j < k)%nat -> page m' (ptr src j) = page m (ptr src j)) as Hp.
  { intros j Hj. destruct (Hs j Hj). by apply (rows_at_other _ _ _ _ _ _ _ Hm'). }
  split; [|split].
  - intros j Hj. destruct (Hs j Hj) as [Hni Hb]. rewrite Hp by done. split; [|done].
    intros Heq. apply Hni. rewrite Heq. by apply dest_in.
  - intros l. apply filled_ext. intros b _. apply gfsum_ext. intros j Hj. rewrite Hp by done.
    by destruct (Ht n j Hlt Hj) as [_ ->].
  - intros j Hj. by destruct (Ht n j Hlt Hj) as [? ->].
Qed.

(** The encoder meets the specification of the kernels. *)
Lemma ec_encode_data_base_ok :
  (0 < k)%nat -> dot_done nout len k coef src dest m (ec_encode_data_base len k nout v src dest m).
Proof.
  intros Hk. pose proof base_row as Hrow. destruct Hok as [Hn Hnd Hd Hs Ht].
  unfold dot_done, ec_encode_data_base. destruct (Nat.ltb_spec len GF_REGION_TBL_MIN_LEN).
  - apply (rows_loop nout len dest m _ Hn Hnd Hd). intros n m' Hlt Hm'.
    destruct (Hrow n m' Hlt Hm') as (Hs' & HF & H8).
    destruct (rows_done_page nout len dest m _ Hn Hd n m' n Hm' ltac:(lia)) as [Hl Hlen].
    rewrite <- HF. exact (row_short_ok len k src (ptr dest n) m' _ _ Hl Hlen Hs' H8).
  - apply (rows_loop nout len dest m _ Hn Hnd Hd). intros n m' Hlt Hm'.
    destruct (Hrow n m' Hlt Hm') as (Hs' & HF & H8).
    destruct (rows_done_page nout len dest m _ Hn Hd n m' n Hm' ltac:(lia)) as [Hl Hlen].
    rewrite <- HF. exact (row_long_ok len k src (ptr dest n) m' _ _ Hl Hlen Hs' H8 Hk).
Qed.
End EncodeBase.

(** * The other routines *)

Section SinglePage.
Context (len : nat) (d : addr) (m : mem) (l : list Z) (Hl : m !! d = Some l) (Hlen : (len <= length l)%nat).

Lemma gf_vect_dot_prod_base_ok k v src co :
  (0 < k)%nat -> (forall j, (j < k)%nat -> ptr src j <> d /\ byte_page (page m (ptr src j))) ->
  (forall j, (j < k)%nat -> is_u8 (co j) /\ pget v (j * 32 + 1) = co j) ->
  gf_vect_dot_prod_base len k v src d m =
  <[d := filled (fun b => gfsum k (fun j => gfmul (co j) (pget (page m (ptr src j)) b))) len l]> m.
Proof.
  intros Hk Hs Hco. transitivity (<[d := filled (row_dot src m (fun j => pget v (j * 32 + 1)) k) len l]> m).
  - assert (forall j, (j < k)%nat -> is_u8 (pget v (j * 32 + 1))) as H8 by (intros j Hj; by destruct (Hco j Hj) as [? ->]).
    unfold gf_vect_dot_prod_base. destruct (Nat.ltb_spec len GF_REGION_TBL_MIN_LEN).
    + exact (row_short_ok len k src d m l _ Hl Hlen Hs H8).
    + exact (row_long_ok len k src d m l _ Hl Hlen Hs H8 Hk).
  - apply (f_equal (fun p => <[d := p]> m)), filled_ext. intros b _. apply gfsum_ext. intros j Hj.
    by destruct (Hco j Hj) as [_ ->].
Qed.

Lemma gf_vect_mad_base_ok vec vec_i v src c :
  src <> d -> byte_page (page m src) -> is_u8 c -> pget v (vec_i * 32 + 1) = c ->
  gf_vect_mad_base len vec vec_i v src d m =
  <[d := filled (fun b => pget l b ⊕ gfmul c (pget (page m src) b)) len l]> m.
Proof.
  intros Hs Hb Hc Hv. unfold gf_vect_mad_base. rewrite Hv. destruct (Nat.ltb_spec len GF_REGION_TBL_MIN_LEN).
  - apply (row_mad_ok len d m l Hl Hlen c src (fun x => gf_mul x c)); [done..|].
    intros x Hx. rewrite gf_mul_gfmul by done. by apply gfmul_comm.
  - apply (row_mad_ok len d m l Hl Hlen c src (fun x => (build_mul_tbl c).[x])); [done..|].
    intros x Hx. by apply build_mul_tbl_ok.
Qed.

Lemma gf_vect_mul_base_ok a src :
  src <> d -> byte_page (page m src) -> is_u8 (pget a 1) -> (32 | len)%nat ->
  gf_vect_mul_base len a src d m =
  (0, <[d := filled (fun b => gfmul (pget a 1) (pget (page m src) b)) len l]> m).
Proof.
  intros Hs Hb Hc Hdiv%Nat.Lcm0.mod_divide. unfold gf_vect_mul_base. rewrite Hdiv. cbn [Nat.eqb negb].
  destruct (Nat.ltb_spec len GF_REGION_TBL_MIN_LEN).
  - f_equal. apply byte_loop_ok; [done..|]. intros i Hi. rewrite page_insert_ne by done.
    apply gf_mul_gfmul; [done|by apply pget_u8].
  - f_equal. apply byte_loop_ok; [done..|]. intros i Hi. rewrite page_insert_ne by done.
    apply build_mul_tbl_ok; [done|by apply pget_u8].
Qed.

Lemma gf_vect_mul_base_err a src : ~ (32 | len)%nat -> gf_vect_mul_base len a src d m = (-1, m).
Proof.
  intros Hdiv. unfold gf_vect_mul_base. destruct (Nat.eqb_spec (len mod 32) 0) as [H|]; [|done].
  by apply Nat.Lcm0.mod_divide in H.
Qed.
End SinglePage.

(** The update of several rows by one source. *)
Lemma ec_encode_data_update_base_ok nout len k vec_i coef v data dest m :
  (nout <= length dest)%nat -> NoDup (take nout dest) ->
  (forall r, (r < nout)%nat -> exists l, m !! ptr dest r = Some l /\ (len <= length l)%nat) ->
  (data ∉ take nout dest) -> byte_page (page m data) ->
  (forall r, (r < nout)%nat -> is_u8 (coef r) /\ pget v (vec_i * 32 + r * k * 32 + 1) = coef r) ->
  mad_done nout len coef data dest m (ec_encode_data_update_base len k nout vec_i v data dest m).
Proof.
  intros Hn Hnd Hd Hs Hb Ht. unfold mad_done, ec_encode_data_update_base.
  assert (forall n m', (n < nout)%nat -> rows_done nout len dest m (mad_spec coef m data dest) n m' ->
    forall g, (forall x, is_u8 x -> g x = gfmul (coef n) x) ->
    byte_loop len (ptr dest n) (fun m i => pget (page m (ptr dest n)) i ⊕ g (pget (page m data) i)) m' =
    <[ptr dest n := filled (mad_spec coef m data dest n) len (page m (ptr dest n))]> m') as Hrow.
  { intros n m' Hlt Hm' g Hg. pose proof (rows_at_other _ _ _ _ _ _ _ Hm' Hs) as Hp.
    destruct (rows_done_page nout len dest m _ Hn Hd n m' n Hm' ltac:(lia)) as [Hl Hlen].
    rewrite (row_mad_ok len (ptr dest n) m' _ Hl Hlen (coef n) data g); [by rewrite Hp| |by rewrite Hp|done].
    intros ->. by apply Hs, dest_in. }
  destruct (Nat.ltb_spec len GF_REGION_TBL_MIN_LEN);
    apply (rows_loop nout len dest m _ Hn Hnd Hd); intros n m' Hlt Hm'; destruct (Ht n Hlt) as [H8 Hv]; rewrite Hv.
  - apply (Hrow n m' Hlt Hm' (fun x => gf_mul x (coef n))). intros x Hx. rewrite gf_mul_gfmul by done. by apply gfmul_comm.
  - apply (Hrow n m' Hlt Hm' (fun x => (build_mul_tbl (coef n)).[x])). intros x Hx. by apply build_mul_tbl_ok.
Qed.

(** * The tables in memory *)

Definition base_table_at (g : list Z) (off : nat) (c : Z) : Prop :=
  forall x, (x < 32)%nat -> pget g (off + x) = pget (nibble_table c) x.

Lemma length_nibble_table c : length (nibble_table c) = 32%nat.
Proof. unfold nibble_table. by rewrite length_app, !length_map, !length_seqZ. Qed.

Lemma nibble_table_1 c : is_u8 c -> pget (nibble_table c) 1 = c.
Proof. apply gfmul_1_r. Qed.

Lemma base_table_coef g off c : is_u8 c -> base_table_at g off c -> pget g (off + 1) = c.
Proof. intros Hc H. rewrite H by lia. by apply nibble_table_1. Qed.

Lemma gf_vect_mul_init_base_ok c tbl off :
  is_u8 c -> (off + 32 <= length tbl)%nat ->
  length (gf_vect_mul_init_base c tbl off) = length tbl /\
  base_table_at (gf_vect_mul_init_base c tbl off) off c /\
  (forall x, (x < off \/ off + 32 <= x)%nat -> pget (gf_vect_mul_init_base c tbl off) x = pget tbl x).
Proof.
  intros Hc Hoff. unfold gf_vect_mul_init_base. rewrite nibble_words_ok by done.
  pose proof (length_nibble_table c) as Hl. split; [apply length_splice; lia|]. split.
  - intros x Hx. rewrite pget_splice, decide_True by lia. f_equal. lia.
  - intros x Hx. rewrite pget_splice, decide_False by lia. done.
Qed.

Lemma ec_init_tables_base_ok k rows a g :
  (forall i, (i < rows * k)%nat -> is_u8 (pget a i)) -> (32 * (rows * k) <= length g)%nat ->
  forall i, (i < rows * k)%nat -> base_table_at (ec_init_tables_base k rows a g) (32 * i) (pget a i).
Proof.
  intros Ha Hg. unfold ec_init_tables_base.
  rewrite (fold_left_nested (fun tbl n => gf_vect_mul_init_base (pget a n) tbl (32 * n))).
  apply (fold_left_inv (fun n tbl => length tbl = length g /\
    forall i, (i < n)%nat -> base_table_at tbl (32 * i) (pget a i))).
  - split; [done|]. lia.
  - intros n tbl Hn [Hlen IH].
    destruct (gf_vect_mul_init_base_ok (pget a n) tbl (32 * n)) as (Hl & Htab & Hout); [auto|lia|].
    split; [lia|]. intros i Hi. destruct (decide (i = n)) as [->|]; [done|].
    intros x Hx. rewrite Hout by lia. apply IH; lia.
Qed.

(** Both encoders, each with its tables of the matrix [a]. *)
Section SameEncoding.
Context (len k rows : nat) (a tb tg : list Z) (data coding : list addr) (m : mem).
Context (Hk : (0 < k)%nat) (Ha : forall i, (i < rows * k)%nat -> is_u8 (pget a i)).
Context (Htb : (32 * (rows * k) <= length tb)%nat) (Htg : (32 * (rows * k) <= length tg)%nat).
Context (Hrows : (rows <= length coding)%nat) (Hnd : NoDup (take rows coding)).
Context (Hd : forall r, (r < rows)%nat -> exists l, m !! ptr coding r = Some l /\ (len <= length l)%nat).
Context (Hs : forall i, (i < k)%nat -> (ptr data i ∉ take rows coding) /\ byte_page (page m (ptr data i))).

Let coef (r i : nat) : Z := pget a (r * k + i).

Lemma base_encoding :
  dot_done rows len k coef data coding m
    (ec_encode_data_base len k rows (ec_init_tables_base k rows a tb) data coding m).
Proof.
  apply ec_encode_data_base_ok; [|done]. split; [done..|]. intros r i Hr Hi.
  assert (r * k + i < rows * k)%nat as Hlt by nia. split; [by apply Ha|].
  etransitivity; [|exact (base_table_coef _ _ _ (Ha _ Hlt) (ec_init_tables_base_ok k rows a tb Ha Htb _ Hlt))].
  f_equal. lia.
Qed.

Lemma gfni_dot_ok : dot_ok rows len k coef (ec_init_tables_gfni k rows a tg) data coding m.
Proof.
  split; [done..|]. intros r i Hr Hi. split; [apply Ha; nia|].
  apply (tables_ok_rows _ a rows k r i); [by apply ec_init_tables_gfni_ok|done..].
Qed.

Lemma avx2_encoding :
  dot_done rows len k coef data coding m
    (ec_encode_data_avx2_gfni len k rows (ec_init_tables_gfni k rows a tg) data coding m).
Proof. apply encode_avx2_loop_ok; [apply gfni_dot_ok|lia]. Qed.

Lemma avx512_encoding :
  dot_done rows len k coef data coding m
    (ec_encode_data_avx512_gfni len k rows (ec_init_tables_gfni k rows a tg) data coding m).
Proof. apply encode_avx512_loop_ok; [apply gfni_dot_ok|lia]. Qed.
End SameEncoding.
