(* ===== verification/RaidIsal.v ===== *)
(** isa-l/raid6_isal.c: the GFNI implementation of the RAID-6 syndromes and of recovery
    that replaces the in-tree one.

    Recovery inverts the matrix that maps the data to the surviving symbols, and caches
    the resulting tables per CPU, keyed by the failure pattern.  Results of [kmalloc] are
    arguments of the model: [None] is NULL, [Some] a buffer of the size asked for. *)

From S2P Require Import Prelude GF256 PageMem Syndrome Recov EcTables Matrix Mds Gfni GfniCorrect.

(** [(int)bytes] as the kernels see it: a negative length is an empty one. *)
Definition as_int (bytes : nat) : nat :=
  Z.to_nat ((Z.of_nat bytes + 2 ^ 31) mod 2 ^ 32 - 2 ^ 31).

(** [r = 1; while (e--) r = gf_mul(r, 2);] *)
Definition alpha_pow (e : nat) : Z := Nat.iter e (fun r => gf_mul r 2) 1.

(** The coefficients of P and of Q; the array has [2 * 32] entries. *)
Definition pq_coefs (k : nat) : list Z :=
  fold_left (fun coefs d => <[(k + d)%nat := alpha_pow d]> (<[d := 1]> coefs)) (seq 0 k) (replicate 64 0).

Section Isal.
Context (use_avx512 : bool).

Definition dot_prod2 (len k : nat) (tbls : list Z) (src dest : list addr) (m : mem) : mem :=
  if use_avx512 then gf_2vect_dot_prod_avx512_gfni len k tbls src dest m
  else gf_2vect_dot_prod_avx2_gfni len k tbls src dest m.

Definition mad2 (len k z : nat) (tbls : list Z) (src : addr) (dest : list addr) (m : mem) : mem :=
  if use_avx512 then gf_2vect_mad_avx512_gfni len k z tbls src dest m
  else gf_2vect_mad_avx2_gfni len k z tbls src dest m.

Definition isal_gen_syndrome (kmalloc : nat -> option (list Z)) (disks bytes : nat) (ptrs : list addr) (m : mem) : mem :=
  let k := (disks - 2)%nat in
  if ((k <=? 0) || (32 <? k))%nat then m
  else
    match kmalloc (2 * k * 32)%nat with
    | None => m
    | Some tbls =>
      let tbls := ec_init_tables_gfni k 2 (pq_coefs k) tbls in
      let dests := [ptr ptrs k; ptr ptrs (k + 1)] in
      dot_prod2 (as_int bytes) k tbls ptrs dests m
    end.

Definition isal_xor_syndrome (kmalloc : nat -> option (list Z)) (disks start stop bytes : nat)
    (ptrs : list addr) (m : mem) : mem :=
  let k := (disks - 2)%nat in
  if ((k <=? 0) || (32 <? k) || (k <=? stop) || (stop <? start))%nat then m
  else
    match kmalloc (2 * k * 32)%nat with
    | None => m
    | Some tbls =>
      let tbls := ec_init_tables_gfni k 2 (pq_coefs k) tbls in
      let dests := [ptr ptrs k; ptr ptrs (k + 1)] in
      fold_left (fun m z => mad2 (as_int bytes) k z tbls (ptr ptrs z) dests m)
        (seq start (stop + 1 - start)) m
    end.

(** * Recovery *)

Definition ISAL_RECOV_MAX_K : nat := 64.
Definition ISAL_CACHE_MAX_K : nat := 32.

Inductive recov_mode := ISAL_RECOV_2DATA | ISAL_RECOV_DATAP.

#[export] Instance recov_mode_eq_dec : EqDecision recov_mode.
Proof. solve_decision. Defined.

(** [mode == ISAL_RECOV_2DATA]. *)
Definition is_2data (mode : recov_mode) : bool :=
  match mode with ISAL_RECOV_2DATA => true | ISAL_RECOV_DATAP => false end.

(** The pattern of a failure; [failb] is -1 in the data-and-P mode. *)
Record isal_cpu_cache := {
  cc_valid : bool;
  cc_mode : recov_mode;
  cc_k : nat;
  cc_faila : nat;
  cc_failb : Z;
  cc_tbls : list Z;
  cc_enc : list Z;
  cc_inv : list Z;
}.

(** [j == faila || (mode == ISAL_RECOV_2DATA && j == failb)]. *)
Definition is_lost (mode : recov_mode) (faila : nat) (failb : Z) (j : nat) : bool :=
  (j =? faila)%nat || (is_2data mode && (Z.of_nat j =? failb)).

Definition isal_build_srcs (mode : recov_mode) (k faila : nat) (failb : Z) (ptrs : list addr) : list addr :=
  let srcs := fold_left (fun srcs j => if is_lost mode faila failb j then srcs else srcs ++ [ptr ptrs j])
    (seq 0 k) [] in
  let srcs := if is_2data mode then srcs ++ [ptr ptrs k] else srcs in
  srcs ++ [ptr ptrs (k + 1)].

(** The rows of the survivors: unit vectors, ones for P, powers for Q. *)
Definition build_enc (mode : recov_mode) (k faila : nat) (failb : Z) (enc : list Z) : list Z :=
  let '(enc, r) := fold_left (fun '(enc, r) j =>
      if is_lost mode faila failb j then (enc, r)
      else (mset k (splice enc (r * k) (replicate k 0)) r j 1, S r))
    (seq 0 k) (enc, 0%nat) in
  let '(enc, r) :=
    if is_2data mode then
      (fold_left (fun enc j => mset k enc r j 1) (seq 0 k) enc, S r)
    else (enc, r) in
  fold_left (fun enc j => mset k enc r j (alpha_pow j)) (seq 0 k) enc.

(** A unit vector and the vector of ones, the rows of the lost symbols. *)
Definition unit_row (k i : nat) : list Z := <[i := 1]> (replicate k 0).
Definition ones_row (k : nat) : list Z := replicate k 1.

(** [dec = [out0; out1] * inv]. *)
Definition dec_row (k : nat) (out inv : list Z) (i : nat) : Z :=
  fold_left (fun a j => a ⊕ gf_mul (pget out j) (pget inv (j * k + i))) (seq 0 k) 0.

Definition build_dec (k : nat) (out0 out1 inv : list Z) : list Z :=
  map (dec_row k out0 inv) (seq 0 k) ++ map (dec_row k out1 inv) (seq 0 k).

(** Returns the code and the scratch matrices and tables as they are left. *)
Definition isal_build_tbls (mode : recov_mode) (k faila : nat) (failb : Z) (enc inv tbls : list Z)
    : Z * (list Z * list Z * list Z) :=
  let enc := build_enc mode k faila failb enc in
  let '(ret, (enc, inv)) := gf_invert_matrix k enc inv in
  if ret <? 0 then (-1, (enc, inv, tbls))
  else
    let out0 := unit_row k faila in
    let out1 := if is_2data mode then unit_row k (Z.to_nat failb) else ones_row k in
    (0, (enc, inv, ec_init_tables_gfni k 2 (build_dec k out0 out1 inv) tbls)).

(** The cached path: whether it handled the call, the cache and the memory. *)
Definition isal_recov_cached (mode : recov_mode) (k faila : nat) (failb : Z) (bytes : nat)
    (ptrs : list addr) (d0 d1 : addr) (cc : isal_cpu_cache) (m : mem) : bool * isal_cpu_cache * mem :=
  if (ISAL_CACHE_MAX_K <? k)%nat then (false, cc, m)
  else
    let srcs := isal_build_srcs mode k faila failb ptrs in
    let hit := cc_valid cc && bool_decide (cc_mode cc = mode) && (cc_k cc =? k)%nat &&
      (cc_faila cc =? faila)%nat && (cc_failb cc =? failb) in
    let '(ok, cc) :=
      if hit then (true, cc)
      else
        let '(ret, (enc, inv, tbls)) := isal_build_tbls mode k faila failb (cc_enc cc) (cc_inv cc) (cc_tbls cc) in
        if ret <? 0 then
          (false, {| cc_valid := false; cc_mode := cc_mode cc; cc_k := cc_k cc; cc_faila := cc_faila cc;
                     cc_failb := cc_failb cc; cc_tbls := tbls; cc_enc := enc; cc_inv := inv |})
        else
          (true, {| cc_valid := true; cc_mode := mode; cc_k := k; cc_faila := faila;
                    cc_failb := failb; cc_tbls := tbls; cc_enc := enc; cc_inv := inv |}) in
    if ok then (true, cc, dot_prod2 (as_int bytes) k (cc_tbls cc) srcs [d0; d1] m)
    else (false, cc, m).

(** The plain path; [None] stands for an error code. *)
Definition isal_recov_finish (inv_alloc tbls_alloc : option (list Z)) (k bytes : nat) (srcs : list addr)
    (enc out0 out1 : list Z) (d0 d1 : addr) (m : mem) : option mem :=
  match inv_alloc, tbls_alloc with
  | Some inv, Some tbls =>
    let '(ret, (_, inv)) := gf_invert_matrix k enc inv in
    if ret <? 0 then None
    else
      let tbls := ec_init_tables_gfni k 2 (build_dec k out0 out1 inv) tbls in
      Some (dot_prod2 (as_int bytes) k tbls srcs [d0; d1] m)
  | _, _ => None
  end.

(** Two data disks.  The plain path builds the survivors and their rows with the same
    loops as [isal_build_srcs] and [isal_build_tbls]. *)
Definition isal_2data_recov (saved_2data_recov : nat -> nat -> nat -> nat -> list addr -> mem -> mem)
    (enc_alloc inv_alloc tbls_alloc : option (list Z)) (disks bytes faila failb : nat)
    (ptrs : list addr) (cc : isal_cpu_cache) (m : mem) : isal_cpu_cache * mem :=
  let k := (disks - 2)%nat in
  let fallback cc m := (cc, saved_2data_recov disks bytes faila failb ptrs m) in
  if (k <? 2)%nat then fallback cc m
  else
    let '(ok, cc, m) := isal_recov_cached ISAL_RECOV_2DATA k faila (Z.of_nat failb) bytes ptrs
      (ptr ptrs faila) (ptr ptrs failb) cc m in
    if ok then (cc, m)
    else if (ISAL_RECOV_MAX_K <? k)%nat then fallback cc m
    else
      match enc_alloc with
      | None => fallback cc m
      | Some enc =>
        let srcs := isal_build_srcs ISAL_RECOV_2DATA k faila (Z.of_nat failb) ptrs in
        let enc := build_enc ISAL_RECOV_2DATA k faila (Z.of_nat failb) enc in
        match isal_recov_finish inv_alloc tbls_alloc k bytes srcs enc
          (unit_row k faila) (unit_row k failb) (ptr ptrs faila) (ptr ptrs failb) m with
        | Some m => (cc, m)
        | None => fallback cc m
        end
      end.

(** One data disk and P. *)
Definition isal_datap_recov (saved_datap_recov : nat -> nat -> nat -> list addr -> mem -> mem)
    (enc_alloc inv_alloc tbls_alloc : option (list Z)) (disks bytes faila : nat)
    (ptrs : list addr) (cc : isal_cpu_cache) (m : mem) : isal_cpu_cache * mem :=
  let k := (disks - 2)%nat in
  let fallback cc m := (cc, saved_datap_recov disks bytes faila ptrs m) in
  if (k <? 1)%nat then fallback cc m
  else
    let '(ok, cc, m) := isal_recov_cached ISAL_RECOV_DATAP k faila (-1) bytes ptrs
      (ptr ptrs faila) (ptr ptrs k) cc m in
    if ok then (cc, m)
    else if (ISAL_RECOV_MAX_K <? k)%nat then fallback cc m
    else
      match enc_alloc with
      | None => fallback cc m
      | Some enc =>
        let srcs := isal_build_srcs ISAL_RECOV_DATAP k faila (-1) ptrs in
        let enc := build_enc ISAL_RECOV_DATAP k faila (-1) enc in
        match isal_recov_finish inv_alloc tbls_alloc k bytes srcs enc
          (unit_row k faila) (ones_row k) (ptr ptrs faila) (ptr ptrs k) m with
        | Some m => (cc, m)
        | None => fallback cc m
        end
      end.
End Isal.

(** * Coefficients and syndromes *)

Lemma alpha_pow_ok e : alpha_pow e = alpha e.
Proof.
  induction e as [|e IH]; [done|]. unfold alpha_pow. rewrite Nat.iter_succ. fold (alpha_pow e).
  rewrite IH, gf_mul_gfmul, <- alpha_S by auto with md. done.
Qed.

Lemma pq_coefs_is k : (k <= 32)%nat -> mat_is 2 k (pq_coefs k) (fun r c => rs_entry k (k + r) c).
Proof.
  intros Hk. unfold pq_coefs.
  eapply mat_is_ext; [|apply (fold_left_inv (fun d a => mat_is 2 k a
    (fun r c => if decide (c < d)%nat then rs_entry k (k + r) c else 0)))].
  - intros r c Hr Hc. mat_cases.
  - split; [rewrite length_replicate; lia|]. intros r c Hr Hc. unfold mget, pget.
    rewrite lookup_replicate_2 by nia. mat_cases.
  - intros d a Hd Ha. rewrite alpha_pow_ok.
    replace (k + d)%nat with (1 * k + d)%nat by lia.
    eapply mat_is_ext; [|exact (mat_is_mset 2 k _ _ 1 d _ (mat_is_mset 2 k a _ 0 d 1 Ha ltac:(lia) Hd) ltac:(lia) Hd)].
    intros r c Hr Hc. cbn beta. repeat (case_decide; destruct_and?; subst); try lia; try done.
    + rewrite Nat.add_1_r. by rewrite rs_entry_q.
    + rewrite Nat.add_0_r. by rewrite rs_entry_p.
Qed.

Lemma gfsum_S_l n f : gfsum (S n) f = f 0%nat ⊕ gfsum n (fun i => f (S i)).
Proof.
  induction n as [|n IH]; [cbn; by rewrite Z.lxor_0_r|].
  rewrite gfsum_S, IH, (gfsum_S n), Z.lxor_assoc. done.
Qed.

Lemma p_syn_gfsum ds : p_syn ds = gfsum (length ds) (pget ds).
Proof.
  induction ds as [|d ds IH]; [done|]. cbn [length]. rewrite gfsum_S_l. cbn [p_syn foldr]. f_equal. apply IH.
Qed.

Lemma q_syn_gfsum ds :
  Forall is_u8 ds -> q_syn ds = gfsum (length ds) (fun j => gfmul (alpha j) (pget ds j)).
Proof.
  induction 1 as [|d ds Hd Hds IH]; [done|]. cbn [length]. rewrite gfsum_S_l.
  change (q_syn (d :: ds)) with (xtime (q_syn ds) ⊕ d). rewrite Z.lxor_comm. f_equal.
  - symmetry. by apply gfmul_1_l.
  - rewrite <- gfmul_2 by auto with md. rewrite IH, gfmul_gfsum_l. apply gfsum_ext. intros i Hi.
    assert (is_u8 (pget ds i)) by (by apply pget_u8).
    rewrite alpha_S. change (pget (d :: ds) (S i)) with (pget ds i).
    rewrite <- !gfmul_assoc by auto with md. f_equal. apply gfmul_comm; auto with md.
Qed.

Lemma pget_column m srcs b j : (j < length srcs)%nat -> pget (column m srcs b) j = pget (page m (ptr srcs j)) b.
Proof. intros Hj. unfold pget at 1. by rewrite column_lookup. Qed.

(** * The kernels on two rows *)

Lemma dot_prod2_ok avx len k coef tbls src dest m :
  dot_ok 2 len k coef tbls src dest m ->
  dot_done 2 len k coef src dest m (dot_prod2 avx len k tbls src dest m).
Proof. intros H. unfold dot_prod2. destruct avx; [by apply dot_prod_avx512_ok|by apply dot_prod_avx2_ok]. Qed.

Lemma mad2_ok avx len k z coef tbls src dest m :
  mad_ok 2 len k z coef tbls src dest m ->
  mad_done 2 len coef src dest m (mad2 avx len k z tbls src dest m).
Proof. intros H. unfold mad2. destruct avx; [by apply gf_2vect_mad_avx512_ok|by apply gf_2vect_mad_avx2_ok]. Qed.

(** The tables of a 2 x k matrix. *)
Lemma init_tables2_ok k a M tbls :
  mat_is 2 k a M -> bytes_mat 2 k M -> (2 * k * 32 <= length tbls)%nat ->
  forall r i, (r < 2)%nat -> (i < k)%nat ->
  is_u8 (M r i) /\ table_at (ec_init_tables_gfni k 2 a tbls) (32 * i + r * (32 * k)) (M r i).
Proof.
  intros [Hl Ha] HM Ht r i Hr Hi. split; [auto|]. rewrite <- Ha by done.
  apply (tables_ok_rows _ a 2 k r i); [|done..]. apply ec_init_tables_gfni_ok; [|lia].
  intros j Hj. assert (j mod k < k)%nat as Hmod by (apply Nat.mod_upper_bound; lia).
  assert (j / k < 2)%nat as Hdiv by (apply Nat.Div0.div_lt_upper_bound; lia).
  pose proof (HM (j / k)%nat (j mod k)%nat Hdiv Hmod) as H8. rewrite <- Ha in H8 by done. unfold mget in H8.
  by rewrite (Nat.mul_comm (j / k)), <- Nat.div_mod_eq in H8.
Qed.

(** Two distinct pages filled, as one update of memory. *)
Lemma rows_at_two p q m F len :
  p <> q -> rows_at 2 [p; q] m F (fun _ => len)
    (<[q := filled (F 1%nat) len (page m q)]> (<[p := filled (F 0%nat) len (page m p)]> m)).
Proof.
  intros Hpq. split.
  - intros a Ha. cbn in Ha. rewrite !lookup_insert_ne; set_solver.
  - intros [|[|r]] Hr; [| |lia].
    + change (ptr [p; q] 0) with p. rewrite lookup_insert_ne, lookup_insert_eq by done. done.
    + change (ptr [p; q] 1) with q. by rewrite lookup_insert_eq.
Qed.

Lemma as_int_id bytes : Z.of_nat bytes < 2 ^ 31 -> as_int bytes = bytes.
Proof. intros H. unfold as_int. rewrite Z.mod_small; lia. Qed.

Section GenSyndrome.
Context (avx : bool) (kmalloc : nat -> option (list Z)).
Context (Halloc : forall n, exists l, kmalloc n = Some l /\ length l = n).
Context (disks bytes : nat) (ptrs : list addr) (m : mem).
Context (Hdisks : (disks <= 34)%nat) (Hbytes : Z.of_nat bytes < 2 ^ 31) (Hok : stripe_ok disks bytes ptrs m).

Let k := (disks - 2)%nat.
Let coef (r c : nat) : Z := rs_entry k (k + r) c.
Let p := p_ptr disks ptrs.
Let q := q_ptr disks ptrs.

Lemma isal_dests : [ptr ptrs k; ptr ptrs (k + 1)] = [p; q].
Proof. destruct Hok. unfold p, q, p_ptr, q_ptr. do 2 f_equal. f_equal. lia. Qed.

Lemma isal_src_page i : (i < k)%nat -> (ptr ptrs i ∉ take 2 [p; q]) /\ byte_page (page m (ptr ptrs i)).
Proof.
  intros Hi. assert (ptr ptrs i ∈ data_ptrs disks ptrs) as Hin.
  { apply elem_of_take. exists i. split; [apply ptr_lookup; destruct Hok; lia|done]. }
  destruct (so_data_in disks bytes ptrs m Hok _ Hin) as (Hin' & Hp & Hq).
  split; [set_solver|]. by apply (so_page disks bytes ptrs m Hok).
Qed.

Lemma isal_dest_page r : (r < 2)%nat -> exists l, m !! ptr [p; q] r = Some l /\ (bytes <= length l)%nat.
Proof.
  intros Hr. destruct (so_page disks bytes ptrs m Hok p) as (Hp & _ & Hlp); [by eapply so_p_in|].
  destruct (so_page disks bytes ptrs m Hok q) as (Hq & _ & Hlq); [by eapply so_q_in|].
  destruct r as [|[|]]; [eexists; by split..|lia].
Qed.

Lemma isal_tables tbls r i :
  (2 * k * 32 <= length tbls)%nat -> (r < 2)%nat -> (i < k)%nat ->
  is_u8 (coef r i) /\ table_at (ec_init_tables_gfni k 2 (pq_coefs k) tbls) (32 * i + r * (32 * k)) (coef r i).
Proof.
  intros Ht. apply (init_tables2_ok k _ coef); [apply pq_coefs_is; lia| |done].
  intros r' c Hr' Hc. apply rs_entry_u8.
Qed.

(** The rows of the kernel are the syndromes. *)
Lemma isal_p_syn b : dot_spec coef k m ptrs 0 b = p_syn (column m (data_ptrs disks ptrs) b).
Proof.
  destruct Hok. rewrite p_syn_gfsum, length_column. unfold data_ptrs. rewrite length_take, Nat.min_l by lia.
  apply gfsum_ext. intros i Hi. rewrite pget_column, ptr_take by (rewrite ?length_take; lia).
  unfold coef. rewrite Nat.add_0_r, rs_entry_p. apply gfmul_1_l, pget_u8. by apply isal_src_page.
Qed.

Lemma isal_q_syn b : dot_spec coef k m ptrs 1 b = q_syn (column m (data_ptrs disks ptrs) b).
Proof.
  pose proof (so_column_u8 disks bytes ptrs m Hok (data_ptrs disks ptrs) b ltac:(done)) as H8.
  destruct Hok. rewrite q_syn_gfsum, length_column by done. unfold data_ptrs. rewrite length_take, Nat.min_l by lia.
  apply gfsum_ext. intros i Hi. rewrite pget_column, ptr_take by (rewrite ?length_take; lia).
  unfold coef. by rewrite Nat.add_1_r, rs_entry_q.
Qed.

Lemma isal_gen_syndrome_ok :
  isal_gen_syndrome avx kmalloc disks bytes ptrs m = with_syndromes disks bytes ptrs m.
Proof.
  unfold isal_gen_syndrome. fold k. pose proof (so_disks _ _ _ _ Hok).
  destruct (Nat.leb_spec k 0); [lia|]. destruct (Nat.ltb_spec 32 k); [lia|]. cbn [orb].
  destruct (Halloc (2 * k * 32)%nat) as (tbls & -> & Ht%eq_sym%Nat.eq_le_incl). rewrite isal_dests, as_int_id by done.
  eapply rows_at_unique; [apply dot_prod2_ok; split|].
  - done.
  - cbn. constructor; [|apply NoDup_singleton]. destruct Hok. set_solver.
  - apply isal_dest_page.
  - apply isal_src_page.
  - intros r i Hr Hi. by apply isal_tables.
  - unfold with_syndromes. fold p q.
    pose proof (rows_at_two p q m (dot_spec coef k m ptrs) bytes (so_pq _ _ _ _ Hok)) as H2.
    rewrite (filled_ext (dot_spec coef k m ptrs 1) (fun b => q_syn (column m (data_ptrs disks ptrs) b))) in H2
      by (intros; apply isal_q_syn).
    rewrite (filled_ext (dot_spec coef k m ptrs 0) (fun b => p_syn (column m (data_ptrs disks ptrs) b))) in H2
      by (intros; apply isal_p_syn).
    exact H2.
Qed.

(** The update of the syndromes, slot after slot. *)
Section XorSyndrome.
Context (start stop : nat) (Hrange : (start <= stop < k)%nat).

Definition xor_acc (n r b : nat) : Z :=
  pget (page m (ptr [p; q] r)) b ⊕
  gfsum n (fun i => gfmul (coef r (start + i)) (pget (page m (ptr ptrs (start + i))) b)).

Lemma isal_xor_step n tbls m' :
  (2 * k * 32 <= length tbls)%nat -> (n <= stop - start)%nat ->
  rows_at 2 [p; q] m (xor_acc n) (fun _ => bytes) m' ->
  rows_at 2 [p; q] m (xor_acc (S n)) (fun _ => bytes)
    (mad2 avx bytes k (start + n) (ec_init_tables_gfni k 2 (pq_coefs k) tbls) (ptr ptrs (start + n)) [p; q] m').
Proof.
  intros Ht Hn Hm'. destruct (isal_src_page (start + n)) as [Hni Hb]; [lia|].
  assert (page m' (ptr ptrs (start + n)) = page m (ptr ptrs (start + n))) as Hsp
    by (by apply (rows_at_other _ _ _ _ _ _ _ Hm')).
  pose proof (dest_page_len 2 [p; q] m bytes isal_dest_page) as Hdl.
  assert (mad_done 2 bytes (fun r => coef r (start + n)) (ptr ptrs (start + n)) [p; q] m'
    (mad2 avx bytes k (start + n) (ec_init_tables_gfni k 2 (pq_coefs k) tbls) (ptr ptrs (start + n)) [p; q] m')) as [H1 H2].
  { apply mad2_ok. split; [done| | |done|by rewrite Hsp|].
    - cbn. constructor; [|apply NoDup_singleton]. destruct Hok. set_solver.
    - intros r Hr. eexists. split; [by apply Hm'|]. rewrite length_filled by auto. auto.
    - intros r Hr. apply isal_tables; [done..|lia]. }
  split.
  - intros a Ha. rewrite H1 by done. by apply Hm'.
  - intros r Hr. rewrite H2 by done. f_equal.
    rewrite (filled_ext (mad_spec _ m' _ _ r) (xor_acc (S n) r)).
    + rewrite (rows_at_page _ _ _ _ _ _ _ Hm' Hr), filled_filled by auto. done.
    + intros b Hlt. unfold mad_spec. rewrite Hsp, (rows_at_page _ _ _ _ _ _ _ Hm' Hr), pget_filled_lt by done.
      unfold xor_acc. by rewrite gfsum_S, Z.lxor_assoc.
Qed.

Lemma xor_acc_p b : xor_acc (stop + 1 - start) 0 b = pget (page m p) b ⊕ p_syn (column m (slice_ptrs start stop ptrs) b).
Proof.
  pose proof (so_len _ _ _ _ Hok) as Hl. unfold xor_acc. change (ptr [p; q] 0) with p. f_equal.
  rewrite p_syn_gfsum, length_column. unfold slice_ptrs. rewrite length_drop, length_take, Nat.min_l by lia.
  replace (S stop - start)%nat with (stop + 1 - start)%nat by lia. apply gfsum_ext. intros i Hi.
  rewrite pget_column, ptr_drop, ptr_take by (rewrite ?length_drop, ?length_take; lia).
  unfold coef. rewrite Nat.add_0_r, rs_entry_p. apply gfmul_1_l, pget_u8. apply isal_src_page. lia.
Qed.

Lemma xor_acc_q b :
  xor_acc (stop + 1 - start) 1 b =
  pget (page m q) b ⊕ gfmul (alpha start) (q_syn (column m (slice_ptrs start stop ptrs) b)).
Proof.
  pose proof (so_len _ _ _ _ Hok) as Hl. unfold xor_acc. change (ptr [p; q] 1) with q. f_equal.
  assert (Forall is_u8 (column m (slice_ptrs start stop ptrs) b)) as H8.
  { apply (so_column_u8 disks bytes ptrs m Hok). intros a Ha. unfold slice_ptrs in Ha.
    apply list_elem_of_lookup_1 in Ha as [i Hi]. rewrite lookup_drop in Hi.
    apply lookup_take_Some in Hi as [Hi Hlt]. apply elem_of_take. exists (start + i)%nat. split; [done|lia]. }
  rewrite q_syn_gfsum, length_column, gfmul_gfsum by done. unfold slice_ptrs in *.
  rewrite length_drop, length_take, Nat.min_l by lia.
  replace (S stop - start)%nat with (stop + 1 - start)%nat by lia. apply gfsum_ext. intros i Hi.
  rewrite pget_column, ptr_drop, ptr_take by (rewrite ?length_drop, ?length_take; lia).
  unfold coef. rewrite Nat.add_1_r, rs_entry_q, alpha_add. symmetry. apply gfmul_assoc; auto with md.
  apply pget_u8, isal_src_page. lia.
Qed.

Lemma isal_xor_syndrome_ok :
  isal_xor_syndrome avx kmalloc disks start stop bytes ptrs m = with_xor_syndromes disks start stop bytes ptrs m.
Proof.
  unfold isal_xor_syndrome. fold k. destruct (Nat.leb_spec k 0); [lia|]. destruct (Nat.ltb_spec 32 k); [lia|].
  destruct (Nat.leb_spec k stop); [lia|]. destruct (Nat.ltb_spec stop start); [lia|]. cbn [orb].
  destruct (Halloc (2 * k * 32)%nat) as (tbls & -> & Ht%eq_sym%Nat.eq_le_incl). rewrite isal_dests, as_int_id by done.
  apply (rows_at_unique 2 [p; q] m (xor_acc (stop + 1 - start)) (fun _ => bytes)).
  - rewrite fold_left_seq_shift.
    apply (fold_left_inv (fun n m' => rows_at 2 [p; q] m (xor_acc n) (fun _ => bytes) m')).
    + split; [done|]. intros r Hr. destruct (isal_dest_page r Hr) as (l & Hl & Hlen).
      rewrite Hl. f_equal. unfold xor_acc, page. rewrite Hl. symmetry. apply filled_same; [done|].
      intros c Hc. apply Z.lxor_0_r.
    + intros n m' Hn Hm'. by apply isal_xor_step; [|lia|].
  - unfold with_xor_syndromes. fold p q.
    pose proof (rows_at_two p q m (xor_acc (stop + 1 - start)) bytes (so_pq _ _ _ _ Hok)) as Htwo.
    rewrite (filled_ext _ (fun b => pget (page m q) b ⊕ gfmul (alpha start) (q_syn (column m (slice_ptrs start stop ptrs) b))) _ (page m q)) in Htwo
      by (intros; apply xor_acc_q).
    rewrite (filled_ext _ (fun b => pget (page m p) b ⊕ p_syn (column m (slice_ptrs start stop ptrs) b)) _ (page m p)) in Htwo
      by (intros; apply xor_acc_p).
    exact Htwo.
Qed.
End XorSyndrome.
End GenSyndrome.
