(* ===== verification/IsalRecov.v ===== *)
(** Recovery through the inverse of the survivors' matrix, isa-l/raid6_isal.c: the
    decode tables of a failure pattern, the invariant of the per-CPU cache, and the
    restoration of the lost pages on every path. *)

From S2P Require Import Prelude GF256 PageMem Syndrome Recov EcTables Matrix Mds Gfni GfniCorrect RaidIsal.

(** The instances of the interfaces, where allocation succeeds. *)
#[export] Instance isal_gen avx kmalloc (Halloc : forall n, exists l, kmalloc n = Some l /\ length l = n) :
  SyndromeGen (fun disks bytes => (disks <= 34)%nat /\ Z.of_nat bytes < 2 ^ 31) (isal_gen_syndrome avx kmalloc).
Proof. intros disks bytes ptrs m [Hd Hb] Hok. by apply isal_gen_syndrome_ok. Qed.

#[export] Instance isal_xor avx kmalloc (Halloc : forall n, exists l, kmalloc n = Some l /\ length l = n) :
  SyndromeXor (fun disks bytes => (disks <= 34)%nat /\ Z.of_nat bytes < 2 ^ 31) (isal_xor_syndrome avx kmalloc).
Proof. intros disks start stop bytes ptrs m [Hd Hb] Hok Hr. by apply isal_xor_syndrome_ok. Qed.

(** * Failure patterns *)

(** The slots that are lost, and the symbols that survive, in the order of the source. *)
Definition lost_slots (mode : recov_mode) (k faila : nat) (failb : Z) : list nat :=
  match mode with
  | ISAL_RECOV_2DATA => [faila; Z.to_nat failb]
  | ISAL_RECOV_DATAP => [faila; k]
  end.

Definition surviving_data (mode : recov_mode) (k faila : nat) (failb : Z) : list nat :=
  filter (fun j => is_lost mode faila failb j = false) (seq 0 k).

Definition survivors (mode : recov_mode) (k faila : nat) (failb : Z) : list nat :=
  surviving_data mode k faila failb ++
  (if is_2data mode then [k] else []) ++ [(k + 1)%nat].

Definition pattern_ok (mode : recov_mode) (k faila : nat) (failb : Z) : Prop :=
  (faila < k)%nat /\ (k <= 64)%nat /\
  match mode with
  | ISAL_RECOV_2DATA => Z.of_nat faila < failb < Z.of_nat k
  | ISAL_RECOV_DATAP => failb = -1
  end.

Lemma is_lost_spec mode k faila failb j :
  pattern_ok mode k faila failb -> (j < k)%nat ->
  is_lost mode faila failb j = bool_decide (j ∈ lost_slots mode k faila failb).
Proof.
  intros (Ha & Hk & Hb) Hj. unfold is_lost. apply Bool.eq_iff_eq_true.
  rewrite bool_decide_eq_true, orb_true_iff, andb_true_iff, Nat.eqb_eq, Z.eqb_eq.
  destruct mode; cbn [lost_slots is_2data].
  - rewrite !elem_of_cons, elem_of_nil. split.
    + intros [->|[_ H]]; [by left|right; left; lia].
    + intros [->|[->|[]]]; [by left|right]. split; [done|lia].
  - rewrite !elem_of_cons, elem_of_nil. split.
    + intros [->|[? _]]; [by left|done].
    + intros [->|[->|[]]]; [by left|lia].
Qed.

Section Pattern.
Context (mode : recov_mode) (k faila : nat) (failb : Z) (Hp : pattern_ok mode k faila failb).

Lemma elem_of_surviving_data j :
  j ∈ surviving_data mode k faila failb <-> (j < k)%nat /\ j ∉ lost_slots mode k faila failb.
Proof.
  unfold surviving_data. rewrite list_elem_of_filter, elem_of_seq. split.
  - intros [Hl Hj]. split; [lia|]. rewrite (is_lost_spec mode k) in Hl by (done || lia).
    by apply bool_decide_eq_false in Hl.
  - intros [Hj Hl]. split; [|lia]. rewrite (is_lost_spec mode k) by done. by apply bool_decide_eq_false.
Qed.

(** Two of the [k + 2] symbols are lost. *)
Lemma length_survivors : length (survivors mode k faila failb) = k.
Proof.
  pose proof (length_filter_split (fun j => is_lost mode faila failb j = false) (seq 0 k)) as H.
  rewrite length_seq in H. cbv beta in H. fold (surviving_data mode k faila failb) in H.
  unfold survivors. rewrite !length_app. destruct Hp as (Ha & Hk & Hb).
  match type of H with (_ + length ?l = _)%nat =>
    assert (l ≡ₚ match mode with ISAL_RECOV_2DATA => [faila; Z.to_nat failb] | _ => [faila] end) as Hl end.
  { apply list.NoDup_Permutation; [apply list.NoDup_filter, NoDup_seq| |].
    - destruct mode; [|apply NoDup_singleton]. constructor; [|apply NoDup_singleton]. set_unfold. lia.
    - intros j. rewrite list_elem_of_filter, elem_of_seq. destruct mode; set_unfold; split.
      + intros [Hl Hj]. rewrite (is_lost_spec ISAL_RECOV_2DATA k) in Hl by (done || lia).
        apply not_false_is_true, bool_decide_eq_true in Hl. set_solver.
      + intros Hj. rewrite (is_lost_spec ISAL_RECOV_2DATA k) by (done || lia).
        rewrite bool_decide_eq_false. split; [set_solver|lia].
      + intros [Hl Hj]. rewrite (is_lost_spec ISAL_RECOV_DATAP k) in Hl by (done || lia).
        apply not_false_is_true, bool_decide_eq_true in Hl. set_unfold in Hl. lia.
      + intros Hj. rewrite (is_lost_spec ISAL_RECOV_DATAP k) by (done || lia).
        rewrite bool_decide_eq_false. split; [set_solver|lia]. }
  apply Permutation_length in Hl. rewrite Hl in H. revert H. generalize (length (surviving_data mode k faila failb)).
  clear Hl Hb. destruct mode; cbn; lia.
Qed.

Lemma survivors_lt s : s ∈ survivors mode k faila failb -> (s < k + 2)%nat.
Proof.
  unfold survivors. rewrite !elem_of_app, elem_of_surviving_data. destruct mode; cbn; set_unfold; lia.
Qed.

Lemma survivors_nodup : NoDup (survivors mode k faila failb).
Proof.
  unfold survivors. apply list.NoDup_app. split; [apply list.NoDup_filter, NoDup_seq|]. split.
  - intros j [Hj _]%elem_of_surviving_data. destruct mode; cbn; set_unfold; lia.
  - destruct mode; cbn; [|apply NoDup_singleton]. constructor; [set_unfold; lia|apply NoDup_singleton].
Qed.

Lemma survivors_not_lost s : s ∈ survivors mode k faila failb -> s ∉ lost_slots mode k faila failb.
Proof.
  destruct Hp as (Ha & Hk & Hb). unfold survivors. rewrite !elem_of_app, elem_of_surviving_data.
  intros [[_ Hs]|[Hs|Hs]]; [done|..]; destruct mode; cbn in *; set_unfold; lia.
Qed.
End Pattern.

(** * Building the survivors and their matrix *)

Lemma fold_left_filter {A} (f : nat -> A) (lost : nat -> bool) l acc :
  fold_left (fun srcs j => if lost j then srcs else srcs ++ [f j]) l acc =
  acc ++ map f (filter (fun j => lost j = false) l).
Proof.
  revert acc. induction l as [|j l IH]; intros acc; simpl; [by rewrite app_nil_r|].
  rewrite IH, filter_cons. destruct (lost j) eqn:E; case_decide; try done.
  by rewrite <- app_assoc.
Qed.

Lemma isal_build_srcs_ok mode k faila failb ptrs :
  isal_build_srcs mode k faila failb ptrs = map (ptr ptrs) (survivors mode k faila failb).
Proof.
  unfold isal_build_srcs, survivors. rewrite fold_left_filter. fold (surviving_data mode k faila failb).
  rewrite !map_app. destruct mode; simpl; by rewrite <- ?app_assoc.
Qed.

(** A loop that writes a whole row. *)
Lemma write_row_ok rows n a M r (f : nat -> Z) :
  mat_is rows n a M -> (r < rows)%nat ->
  mat_is rows n (fold_left (fun a j => mset n a r j (f j)) (seq 0 n) a)
    (fun r' c => if decide (r' = r) then f c else M r' c).
Proof.
  intros Ha Hr.
  eapply mat_is_ext; [|apply (fold_left_inv (fun k a => mat_is rows n a
    (fun r' c => if decide (r' = r /\ (c < k)%nat) then f c else M r' c)))].
  - intros r' c Hr' Hc. mat_cases.
  - eapply mat_is_ext; [|exact Ha]. intros r' c _ _. mat_cases.
  - intros j a' Hj Ha'. eapply mat_is_ext; [|exact (mat_is_mset rows n a' _ r j (f j) Ha' Hr Hj)].
    intros r' c Hr' Hc. mat_cases.
Qed.

(** A unit vector written over a zeroed row. *)
Lemma write_unit_ok n a M r j :
  mat_is n n a M -> (r < n)%nat -> (j < n)%nat ->
  mat_is n n (mset n (splice a (r * n) (replicate n 0)) r j 1)
    (fun r' c => if decide (r' = r) then delta j c else M r' c).
Proof.
  intros [Hl Ha] Hr Hj.
  assert (mat_is n n (splice a (r * n) (replicate n 0)) (fun r' c => if decide (r' = r) then 0 else M r' c)) as Hz.
  { split; [rewrite length_splice; rewrite ?length_replicate; nia|]. intros r' c Hr' Hc. unfold mget.
    rewrite pget_splice by (rewrite length_replicate; nia). rewrite length_replicate.
    repeat case_decide; subst; try nia.
    - unfold pget. by rewrite lookup_replicate_2 by lia.
    - by apply Ha. }
  eapply mat_is_ext; [|exact (mat_is_mset n n _ _ r j 1 Hz Hr Hj)].
  intros r' c Hr' Hc. unfold delta. mat_cases.
Qed.

Section BuildEnc.
Context (mode : recov_mode) (k faila : nat) (failb : Z) (Hp : pattern_ok mode k faila failb).
Let surv := survivors mode k faila failb.

Definition enc_rows_is (l : list nat) (enc : list Z) : Prop :=
  exists M, mat_is k k enc M /\ forall r c, (r < length l)%nat -> (c < k)%nat -> M r c = rs_entry k (ptr l r) c.

Lemma ptr_app_l l1 l2 r : (r < length l1)%nat -> ptr (l1 ++ l2) r = ptr l1 r.
Proof. intros. unfold ptr. by rewrite lookup_app_l. Qed.

Lemma ptr_app_last l s : ptr (l ++ [s]) (length l) = s.
Proof. unfold ptr. by rewrite lookup_app_r, Nat.sub_diag by lia. Qed.

(** One more row. *)
Lemma enc_rows_snoc l s enc enc' :
  enc_rows_is l enc -> (length l < k)%nat ->
  (forall M, mat_is k k enc M -> mat_is k k enc'
    (fun r c => if decide (r = length l) then rs_entry k s c else M r c)) ->
  enc_rows_is (l ++ [s]) enc'.
Proof.
  intros (M & HM & Hrows) Hl Hw. eexists. split; [by apply Hw|]. cbn beta.
  intros r c Hr Hc. rewrite length_app in Hr. simpl in Hr. case_decide; [subst; by rewrite ptr_app_last|].
  rewrite Hrows, ptr_app_l by lia. done.
Qed.

Lemma enc_data_rows enc :
  (k * k <= length enc)%nat ->
  let '(enc', r) := fold_left (fun '(enc, r) j =>
      if is_lost mode faila failb j then (enc, r)
      else (mset k (splice enc (r * k) (replicate k 0)) r j 1, S r)) (seq 0 k) (enc, 0%nat) in
  r = length (surviving_data mode k faila failb) /\ enc_rows_is (surviving_data mode k faila failb) enc'.
Proof.
  intros Hl. unfold surviving_data.
  pose (P := fun (n : nat) (st : list Z * nat) =>
    st.2 = length (filter (fun j => is_lost mode faila failb j = false) (seq 0 n)) /\
    enc_rows_is (filter (fun j => is_lost mode faila failb j = false) (seq 0 n)) st.1).
  match goal with |- let '(_, _) := ?x in _ => enough (P k x) as H; [by destruct x|] end.
  apply (fold_left_inv P).
  - split; [done|]. exists (mget k enc). split; [by apply mat_is_self|]. simpl. lia.
  - intros j [enc1 r] Hj [Hr Henc]. cbn [fst snd] in Hr, Henc. unfold P.
    rewrite seq_S, list.filter_app, filter_cons, filter_nil. simpl plus.
    destruct (is_lost mode faila failb j) eqn:E; case_decide; try done; cbn [fst snd].
    { by rewrite app_nil_r. }
    assert (r < k)%nat as Hrk.
    { subst r. eapply Nat.le_lt_trans; [apply length_filter|]. by rewrite length_seq. }
    split; [rewrite length_app; simpl; lia|]. apply enc_rows_snoc with enc1; [done|by subst r|].
    intros M HM. subst r. eapply mat_is_ext; [|by apply write_unit_ok].
    intros r c Hr Hc. cbn beta. by rewrite rs_entry_top by lia.
Qed.

Lemma build_enc_ok enc :
  (k * k <= length enc)%nat ->
  mat_is k k (build_enc mode k faila failb enc) (fun r c => rs_entry k (ptr surv r) c).
Proof.
  intros Hl. pose proof (length_survivors mode k faila failb Hp) as Hlen.
  enough (enc_rows_is surv (build_enc mode k faila failb enc)) as (M & HM & Hrows).
  { eapply mat_is_ext; [|exact HM]. intros r c Hr Hc. apply Hrows; [unfold surv; by rewrite Hlen|done]. }
  pose proof (enc_data_rows enc Hl) as Hdata. unfold build_enc, surv in *. unfold survivors in Hlen |- *.
  destruct (fold_left _ (seq 0 k) (enc, 0%nat)) as [enc1 r]. destruct Hdata as [-> Henc].
  rewrite !length_app in Hlen. destruct (is_2data mode); simpl app in *; simpl length in Hlen.
  - change [k; (k + 1)%nat] with ([k] ++ [(k + 1)%nat]). rewrite app_assoc.
    set (sd := surviving_data mode k faila failb) in *.
    assert (S (length sd) = length (sd ++ [k])) as Hlk by (rewrite length_app; simpl; lia).
    assert (enc_rows_is (sd ++ [k]) (fold_left (fun enc j => mset k enc (length sd) j 1) (seq 0 k) enc1)) as Henc2.
    { apply enc_rows_snoc with enc1; [done|lia|]. intros M HM.
      eapply mat_is_ext; [|apply (write_row_ok k k enc1 M _ (fun _ => 1) HM); lia].
      intros r c Hr Hc. cbn beta. by rewrite rs_entry_p. }
    eapply enc_rows_snoc; [exact Henc2|lia|]. intros M HM. rewrite <- Hlk.
    eapply mat_is_ext; [|apply (write_row_ok k k _ M _ alpha_pow HM); lia].
    intros r c Hr Hc. cbn beta. by rewrite Nat.add_1_r, rs_entry_q, alpha_pow_ok.
  - eapply enc_rows_snoc; [exact Henc|lia|]. intros M HM.
    eapply mat_is_ext; [|apply (write_row_ok k k enc1 M _ alpha_pow HM); lia].
    intros r c Hr Hc. cbn beta. by rewrite Nat.add_1_r, rs_entry_q, alpha_pow_ok.
Qed.
End BuildEnc.

(** * The decode tables *)

Lemma dec_row_ok k out inv L O i :
  mat_is k k inv O -> bytes_mat k k O -> (forall j, (j < k)%nat -> pget out j = L j /\ is_u8 (L j)) ->
  (i < k)%nat -> dec_row k out inv i = gfsum k (fun j => gfmul (L j) (O j i)).
Proof.
  intros Hinv HO HL Hi. apply gfsum_ext. intros j Hj. destruct (HL j Hj) as [-> H8].
  rewrite <- (proj2 Hinv j i Hj Hi). apply gf_mul_gfmul; [done|].
  pose proof (HO j i Hj Hi) as H. by rewrite <- (proj2 Hinv j i Hj Hi) in H.
Qed.

Lemma build_dec_ok k out0 out1 inv (L O : nat -> nat -> Z) :
  mat_is k k inv O -> bytes_mat k k O ->
  (forall j, (j < k)%nat -> pget out0 j = L 0%nat j /\ is_u8 (L 0%nat j)) ->
  (forall j, (j < k)%nat -> pget out1 j = L 1%nat j /\ is_u8 (L 1%nat j)) ->
  mat_is 2 k (build_dec k out0 out1 inv) (mmul k L O).
Proof.
  intros Hinv HO H0 H1. unfold build_dec. split; [rewrite length_app, !length_map, !length_seq; lia|].
  intros r c Hr Hc. unfold mget, pget. destruct r as [|[|]]; [| |lia].
  - rewrite lookup_app_l by (rewrite length_map, length_seq; lia).
    rewrite list_lookup_fmap, lookup_seq_lt by lia. by apply dec_row_ok.
  - rewrite lookup_app_r by (rewrite length_map, length_seq; lia). rewrite length_map, length_seq.
    replace (1 * k + c - k)%nat with c by lia. rewrite list_lookup_fmap, lookup_seq_lt by lia. by apply dec_row_ok.
Qed.

Lemma unit_row_ok k i j : (i < k)%nat -> (j < k)%nat -> pget (unit_row k i) j = rs_entry k i j.
Proof.
  intros Hi Hj. rewrite rs_entry_top by done. unfold unit_row, pget, delta. case_decide; subst.
  - by rewrite list_lookup_insert_eq by (by rewrite length_replicate).
  - rewrite list_lookup_insert_ne by done. by rewrite lookup_replicate_2.
Qed.

Lemma ones_row_ok k j : (j < k)%nat -> pget (ones_row k) j = rs_entry k k j.
Proof. intros Hj. rewrite rs_entry_p. unfold ones_row, pget. by rewrite lookup_replicate_2. Qed.

(** The rows of the survivors and of the lost symbols over the data. *)
Definition enc_mat (mode : recov_mode) (k faila : nat) (failb : Z) (r c : nat) : Z :=
  rs_entry k (ptr (survivors mode k faila failb) r) c.
Definition lost_mat (mode : recov_mode) (k faila : nat) (failb : Z) (r c : nat) : Z :=
  rs_entry k (ptr (lost_slots mode k faila failb) r) c.

(** [tbls] decode the pattern: they hold the lost rows times a left inverse. *)
Definition decode_tables (mode : recov_mode) (k faila : nat) (failb : Z) (tbls : list Z) : Prop :=
  exists O, bytes_mat k k O /\
    (forall r c, (r < k)%nat -> (c < k)%nat -> mmul k O (enc_mat mode k faila failb) r c = delta r c) /\
    forall r i, (r < 2)%nat -> (i < k)%nat ->
      is_u8 (mmul k (lost_mat mode k faila failb) O r i) /\
      table_at tbls (32 * i + r * (32 * k)) (mmul k (lost_mat mode k faila failb) O r i).

Section BuildTbls.
Context (mode : recov_mode) (k faila : nat) (failb : Z) (Hp : pattern_ok mode k faila failb).

(** The survivors' matrix is never singular. *)
Lemma invert_enc enc inv :
  (k * k <= length enc)%nat -> (k * k <= length inv)%nat ->
  let '(ret, (_, inv')) := gf_invert_matrix k (build_enc mode k faila failb enc) inv in
  ret = 0 /\ exists O, mat_is k k inv' O /\ bytes_mat k k O /\
    forall r c, (r < k)%nat -> (c < k)%nat -> mmul k O (enc_mat mode k faila failb) r c = delta r c.
Proof.
  intros He Hi. apply gf_invert_matrix_nonsingular; [by apply build_enc_ok|intros r c _ _; apply rs_entry_u8|done|].
  intros x Hx HK c Hc. destruct Hp as (_ & Hk & _).
  apply (rs_nonsingular k (survivors mode k faila failb) x); [lia|by apply length_survivors| | |done..].
  - by apply survivors_nodup.
  - by apply survivors_lt.
Qed.

Lemma lost_row_ok out0 out1 :
  out0 = unit_row k faila ->
  out1 = (if is_2data mode then unit_row k (Z.to_nat failb) else ones_row k) ->
  forall j, (j < k)%nat ->
  (pget out0 j = lost_mat mode k faila failb 0 j /\ is_u8 (lost_mat mode k faila failb 0 j)) /\
  (pget out1 j = lost_mat mode k faila failb 1 j /\ is_u8 (lost_mat mode k faila failb 1 j)).
Proof.
  intros -> -> j Hj. unfold lost_mat. destruct Hp as (Ha & Hk & Hb).
  destruct mode; cbn; (split; [split; [by apply unit_row_ok|apply rs_entry_u8]|split; [|apply rs_entry_u8]]).
  - apply unit_row_ok; lia.
  - by apply ones_row_ok.
Qed.

Lemma decode_tables_init inv O out0 out1 tbls :
  mat_is k k inv O -> bytes_mat k k O ->
  (forall r c, (r < k)%nat -> (c < k)%nat -> mmul k O (enc_mat mode k faila failb) r c = delta r c) ->
  out0 = unit_row k faila -> out1 = (if is_2data mode then unit_row k (Z.to_nat failb) else ones_row k) ->
  (2 * k * 32 <= length tbls)%nat ->
  decode_tables mode k faila failb (ec_init_tables_gfni k 2 (build_dec k out0 out1 inv) tbls).
Proof.
  intros Hinv HO Hid H0 H1 Ht. exists O. split; [done|]. split; [done|].
  pose proof (lost_row_ok out0 out1 H0 H1) as HL.
  intros r i Hr Hi. apply (init_tables2_ok k _ (mmul k (lost_mat mode k faila failb) O)); [| |done..].
  - apply build_dec_ok; [done|done| |]; intros j Hj; by apply HL.
  - intros r' c Hr' Hc. apply gfsum_u8. intros j Hj. apply is_u8_gfmul, rs_entry_u8.
Qed.

(** The build never fails and keeps the sizes of the arrays. *)
Lemma isal_build_tbls_ok enc inv tbls :
  (k * k <= length enc)%nat -> (k * k <= length inv)%nat -> (2 * k * 32 <= length tbls)%nat ->
  exists enc' inv' tbls', isal_build_tbls mode k faila failb enc inv tbls = (0, (enc', inv', tbls')) /\
    decode_tables mode k faila failb tbls' /\
    length inv' = length inv /\ length tbls' = length tbls /\
    length enc' = length (build_enc mode k faila failb enc).
Proof.
  intros He Hi Ht. unfold isal_build_tbls.
  pose proof (invert_enc enc inv He Hi) as H.
  pose proof (length_gf_invert_matrix k (build_enc mode k faila failb enc) inv) as Hlen.
  destruct (gf_invert_matrix k _ inv) as [ret [enc1 inv1]]. destruct H as [-> (O & HO & H8 & Hid)].
  destruct Hlen as [Hl1 Hl2]. cbn [Z.ltb Z.compare fst snd] in *. do 3 eexists. split; [done|].
  split; [by apply decode_tables_init with O|]. split; [done|]. split; [|done].
  apply length_ec_init_tables_gfni. lia.
Qed.

Lemma length_build_enc enc : (k * k <= length enc)%nat -> length (build_enc mode k faila failb enc) = length enc.
Proof.
  intros Hl. unfold build_enc.
  pose (P := fun (n : nat) (st : list Z * nat) => length st.1 = length enc /\ (st.2 <= n)%nat).
  assert (P k (fold_left (fun '(enc, r) j =>
      if is_lost mode faila failb j then (enc, r)
      else (mset k (splice enc (r * k) (replicate k 0)) r j 1, S r)) (seq 0 k) (enc, 0%nat))) as HP.
  { apply (fold_left_inv P); [by split; [|simpl; lia]|]. intros j [e r] Hj [H1 H2]. cbn [fst snd] in *.
    destruct (is_lost _ _ _ j); (split; cbn [fst snd]; [|lia]); [done|].
    rewrite length_mset, length_splice; [done|]. rewrite length_replicate. nia. }
  destruct (fold_left _ (seq 0 k) (enc, 0%nat)) as [e r]. destruct HP as [H1 _]. cbn [fst snd] in *.
  destruct (is_2data mode); rewrite !fold_left_length by (intros; apply length_mset); done.
Qed.
End BuildTbls.

(** * Restoring the pages *)

Section Restore.
Context (disks bytes : nat) (ptrs : list addr) (m0 : mem).
Context (Hok : stripe_ok disks bytes ptrs m0) (Hnd : NoDup ptrs) (Hcons : consistent disks bytes ptrs m0).
Context (mode : recov_mode) (faila : nat) (failb : Z) (g0 g1 : list Z).
Let k := (disks - 2)%nat.
Context (Hp : pattern_ok mode k faila failb) (Hg0 : garbage bytes g0) (Hg1 : garbage bytes g1).

Let data (b j : nat) : Z := pget (page m0 (ptr ptrs j)) b.
Let s0 := ptr (lost_slots mode k faila failb) 0.
Let s1 := ptr (lost_slots mode k faila failb) 1.
Let d0 := ptr ptrs s0.
Let d1 := ptr ptrs s1.
Let m := <[d0 := g0]> (<[d1 := g1]> m0).

Lemma data_u8 b : bytes_vec k (data b).
Proof.
  intros j Hj. apply pget_u8. apply (so_page disks bytes ptrs m0 Hok). apply elem_of_ptr. destruct Hok. lia.
Qed.

(** Every symbol of a consistent stripe is its row of the generator matrix applied to the data. *)
Lemma symbol_row s b :
  (s < k + 2)%nat -> (b < bytes)%nat -> pget (page m0 (ptr ptrs s)) b = mvec k (rs_entry k) (data b) s.
Proof.
  intros Hs Hb. pose proof (so_len _ _ _ _ Hok) as Hl. pose proof (so_disks _ _ _ _ Hok).
  destruct (Hcons b Hb) as [HP HQ].
  assert (length (data_ptrs disks ptrs) = k) as Hlk by (unfold data_ptrs; rewrite length_take; lia).
  destruct (decide (s < k)%nat) as [Hsk|].
  { unfold mvec. rewrite (gfsum_single k _ s); [|done|].
    - rewrite rs_entry_top by done. unfold delta. rewrite decide_True, gfmul_1_l by (done || by apply data_u8). done.
    - intros t Ht Hne. rewrite rs_entry_top by done. unfold delta. rewrite decide_False by done. apply gfmul_0_l. }
  destruct (decide (s = k)) as [->|].
  - transitivity (pget (page m0 (p_ptr disks ptrs)) b); [done|]. rewrite HP, p_syn_gfsum, length_column, Hlk.
    apply gfsum_ext. intros i Hi. rewrite pget_column by lia. unfold data_ptrs. rewrite ptr_take by lia.
    rewrite rs_entry_p, gfmul_1_l by (by apply data_u8). done.
  - assert (s = S k) as -> by lia.
    transitivity (pget (page m0 (q_ptr disks ptrs)) b); [unfold q_ptr; do 3 f_equal; lia|].
    rewrite HQ, q_syn_gfsum, length_column, Hlk by (by apply (so_column_u8 disks bytes ptrs m0 Hok)).
    apply gfsum_ext. intros i Hi. rewrite pget_column by lia. unfold data_ptrs. rewrite ptr_take by lia.
    by rewrite rs_entry_q.
Qed.

Lemma lost_distinct : s0 <> s1 /\ (s0 < k + 2)%nat /\ (s1 < k + 2)%nat.
Proof. destruct Hp as (Ha & Hk & Hb). unfold s0, s1. destruct mode; cbn; lia. Qed.

Lemma symbol_in s : (s < k + 2)%nat -> ptr ptrs s ∈ ptrs.
Proof. intros Hs. apply elem_of_ptr. destruct Hok. lia. Qed.

Lemma symbol_ne s s' : (s < k + 2)%nat -> (s' < k + 2)%nat -> s <> s' -> ptr ptrs s <> ptr ptrs s'.
Proof. intros. destruct Hok. apply ptr_inj; [done|lia..|done]. Qed.

(** A survivor's page is neither of the lost ones, and still holds its symbol. *)
Lemma survivor_page i :
  (i < k)%nat -> let s := ptr (survivors mode k faila failb) i in
  (s < k + 2)%nat /\ ptr ptrs s <> d0 /\ ptr ptrs s <> d1 /\ page m (ptr ptrs s) = page m0 (ptr ptrs s).
Proof.
  intros Hi s. assert (s ∈ survivors mode k faila failb) as Hs.
  { apply elem_of_ptr. by rewrite (length_survivors mode k faila failb Hp). }
  pose proof (survivors_lt mode k faila failb Hp s Hs) as Hlt. destruct lost_distinct as (_ & H0 & H1).
  pose proof (survivors_not_lost mode k faila failb Hp s Hs) as Hnl.
  assert (s <> s0 /\ s <> s1) as [Hn0 Hn1].
  { unfold s0, s1. destruct mode; cbn in *; set_unfold; split; intros ?; apply Hnl; auto. }
  assert (ptr ptrs s <> d0) by (by apply symbol_ne). assert (ptr ptrs s <> d1) by (by apply symbol_ne).
  split; [done|]. split; [done|]. split; [done|]. unfold m. by rewrite !page_insert_ne.
Qed.

(** The decoded rows are the lost symbols. *)
Lemma decode_row O r b :
  bytes_mat k k O ->
  (forall r c, (r < k)%nat -> (c < k)%nat -> mmul k O (enc_mat mode k faila failb) r c = delta r c) ->
  (r < 2)%nat -> (b < bytes)%nat ->
  dot_spec (mmul k (lost_mat mode k faila failb) O) k m (map (ptr ptrs) (survivors mode k faila failb)) r b =
  pget (page m0 (ptr ptrs (ptr (lost_slots mode k faila failb) r))) b.
Proof.
  intros HO Hid Hr Hb. set (E := enc_mat mode k faila failb) in *. set (L := lost_mat mode k faila failb).
  assert (bytes_mat k k E) as HE by (intros ? ? _ _; apply rs_entry_u8).
  transitivity (mvec k (mmul k L O) (mvec k E (data b)) r).
  { apply gfsum_ext. intros i Hi. f_equal. destruct (survivor_page i Hi) as (Hlt & _ & _ & Hpage).
    assert (ptr (map (ptr ptrs) (survivors mode k faila failb)) i = ptr ptrs (ptr (survivors mode k faila failb) i)) as ->.
    { unfold ptr at 1. rewrite list_lookup_fmap, ptr_lookup; [done|]. by rewrite length_survivors. }
    rewrite Hpage. by apply symbol_row. }
  rewrite <- mvec_mmul; [|intros; apply rs_entry_u8|done|intros c Hc; apply mvec_u8; auto using data_u8].
  transitivity (mvec k L (data b) r).
  - apply gfsum_ext. intros j Hj. by rewrite mvec_inverse by auto using data_u8.
  - symmetry. apply (symbol_row (ptr (lost_slots mode k faila failb) r) b); [|done].
    destruct lost_distinct as (_ & H0 & H1). by destruct r as [|[|]]; [..|lia].
Qed.

Lemma decode_restores avx tbls :
  decode_tables mode k faila failb tbls ->
  dot_prod2 avx bytes k tbls (map (ptr ptrs) (survivors mode k faila failb)) [d0; d1] m =
  <[d0 := restored bytes (page m0 d0) g0]> (<[d1 := restored bytes (page m0 d1) g1]> m0).
Proof.
  intros (O & HO & Hid & Ht). destruct lost_distinct as (H01 & H0 & H1).
  assert (d0 <> d1) as Hd by (by apply symbol_ne). destruct Hg0 as [Hb0 Hl0]. destruct Hg1 as [Hb1 Hl1].
  eapply rows_at_unique; [apply dot_prod2_ok; split|].
  - done.
  - cbn. constructor; [set_solver|apply NoDup_singleton].
  - intros r Hr. unfold m. destruct r as [|[|]]; [| |lia].
    + exists g0. by rewrite lookup_insert_eq.
    + exists g1. change (ptr [d0; d1] 1) with d1. by rewrite lookup_insert_ne, lookup_insert_eq.
  - intros i Hi. destruct (survivor_page i Hi) as (Hlt & Hn0 & Hn1 & Hpage).
    assert (ptr (map (ptr ptrs) (survivors mode k faila failb)) i = ptr ptrs (ptr (survivors mode k faila failb) i)) as ->.
    { unfold ptr at 1. rewrite list_lookup_fmap, ptr_lookup; [done|]. by rewrite length_survivors. }
    split; [set_solver|]. rewrite Hpage. apply (so_page disks bytes ptrs m0 Hok). by apply symbol_in.
  - intros r i Hr Hi. by apply Ht.
  - split.
    + intros a Ha. cbn in Ha. unfold m. rewrite !lookup_insert_ne; set_solver.
    + intros r Hr. unfold restored. destruct r as [|[|]]; [| |lia].
      * change (ptr [d0; d1] 0) with d0. rewrite lookup_insert_eq. unfold m. rewrite page_insert_eq. f_equal.
        apply filled_ext. intros b Hb. symmetry. by apply (decode_row O 0 b).
      * change (ptr [d0; d1] 1) with d1. rewrite lookup_insert_ne, lookup_insert_eq by done.
        unfold m. rewrite page_insert_ne, page_insert_eq by done. f_equal.
        apply filled_ext. intros b Hb. symmetry. by apply (decode_row O 1 b).
Qed.
End Restore.

(** * The cache *)

(** The invariant of the per-CPU cache: arrays of their sizes, and a valid entry decodes
    the pattern it is keyed by. *)
Record cache_ok (cc : isal_cpu_cache) : Prop := {
  co_tbls : length (cc_tbls cc) = (2 * ISAL_CACHE_MAX_K * 32)%nat;
  co_enc : length (cc_enc cc) = (ISAL_CACHE_MAX_K * ISAL_CACHE_MAX_K)%nat;
  co_inv : length (cc_inv cc) = (ISAL_CACHE_MAX_K * ISAL_CACHE_MAX_K)%nat;
  co_valid : cc_valid cc = true ->
    decode_tables (cc_mode cc) (cc_k cc) (cc_faila cc) (cc_failb cc) (cc_tbls cc);
}.

Lemma recov_cached_ok avx mode k faila failb bytes ptrs d0 d1 cc m :
  cache_ok cc -> pattern_ok mode k faila failb ->
  let '(ok, cc', m') := isal_recov_cached avx mode k faila failb bytes ptrs d0 d1 cc m in
  cache_ok cc' /\
  if (k <=? ISAL_CACHE_MAX_K)%nat then
    ok = true /\ exists tbls, decode_tables mode k faila failb tbls /\
      m' = dot_prod2 avx (as_int bytes) k tbls (map (ptr ptrs) (survivors mode k faila failb)) [d0; d1] m
  else ok = false /\ m' = m.
Proof.
  intros Hcc Hp. unfold isal_recov_cached. rewrite Nat.leb_antisym.
  destruct (Nat.ltb_spec ISAL_CACHE_MAX_K k) as [Hk|Hk]; [by split|]. cbn [negb]. rewrite isal_build_srcs_ok.
  destruct Hcc as [Ht He Hi Hv].
  destruct (cc_valid cc && _ && _ && _ && _) eqn:Hhit.
  - rewrite !andb_true_iff, bool_decide_eq_true, !Nat.eqb_eq, Z.eqb_eq in Hhit.
    destruct Hhit as ((((Hvalid & <-) & <-) & <-) & <-). split; [by split|]. split; [done|].
    exists (cc_tbls cc). by auto.
  - unfold ISAL_CACHE_MAX_K in *.
    destruct (isal_build_tbls_ok mode k faila failb Hp (cc_enc cc) (cc_inv cc) (cc_tbls cc))
      as (enc' & inv' & tbls' & -> & Hdec & Hl1 & Hl2 & Hl3); [nia..|].
    rewrite (length_build_enc mode k faila failb) in Hl3 by nia.
    cbn [Z.ltb Z.compare]. split; [|split; [done|by exists tbls']].
    split; cbn [cc_tbls cc_enc cc_inv cc_mode cc_k cc_faila cc_failb]; [by rewrite Hl2|by rewrite Hl3|by rewrite Hl1|done].
Qed.

(** * Both entry points *)

(** The size of a buffer the allocator returned. *)
Definition alloc_size (n : nat) (o : option (list Z)) : Prop := forall l, o = Some l -> length l = n.

(** The tables are in the cache, or there is room for them. *)
Definition own_tables (k : nat) (enc_alloc inv_alloc tbls_alloc : option (list Z)) : bool :=
  (k <=? 32)%nat || ((k <=? 64)%nat && bool_decide (is_Some enc_alloc) && bool_decide (is_Some inv_alloc) && bool_decide (is_Some tbls_alloc)).

Lemma recov_finish_ok avx mode k faila failb bytes ptrs enc inv_alloc tbls_alloc out0 out1 d0 d1 m :
  pattern_ok mode k faila failb -> (k * k <= length enc)%nat ->
  alloc_size (k * k) inv_alloc -> alloc_size (2 * k * 32) tbls_alloc ->
  out0 = unit_row k faila -> out1 = (if is_2data mode then unit_row k (Z.to_nat failb) else ones_row k) ->
  let r := isal_recov_finish avx inv_alloc tbls_alloc k bytes (map (ptr ptrs) (survivors mode k faila failb))
    (build_enc mode k faila failb enc) out0 out1 d0 d1 m in
  if bool_decide (is_Some inv_alloc) && bool_decide (is_Some tbls_alloc) then
    exists tbls, decode_tables mode k faila failb tbls /\
      r = Some (dot_prod2 avx (as_int bytes) k tbls (map (ptr ptrs) (survivors mode k faila failb)) [d0; d1] m)
  else r = None.
Proof.
  intros Hp He Hai Hat H0 H1. unfold isal_recov_finish.
  destruct inv_alloc as [inv|]; [|done]. destruct tbls_alloc as [tbls|]; [|done].
  specialize (Hai inv eq_refl). specialize (Hat tbls eq_refl).
  pose proof (invert_enc mode k faila failb Hp enc inv He ltac:(lia)) as Hinv.
  destruct (gf_invert_matrix k _ inv) as [ret [enc1 inv1]]. destruct Hinv as [-> (O & HO & H8 & Hid)].
  cbn. eexists. split; [|done].
  apply decode_tables_init with O; try done. lia.
Qed.

Section EntryPoints.
Context (avx : bool) (enc_alloc inv_alloc tbls_alloc : option (list Z)) (disks bytes : nat) (ptrs : list addr).
Let k := (disks - 2)%nat.
Context (Hae : alloc_size (k * k) enc_alloc) (Hai : alloc_size (k * k) inv_alloc) (Hat : alloc_size (2 * k * 32) tbls_alloc).

(** The body the two entry points share: cache, plain path, fallback. *)
Section Body.
Context (mode : recov_mode) (faila : nat) (failb : Z) (out1 : list Z) (d0 d1 : addr) (saved : mem -> mem) (m goal : mem).
Context (Hp : (k <= 64)%nat -> pattern_ok mode k faila failb).
Context (Hout : out1 = if is_2data mode then unit_row k (Z.to_nat failb) else ones_row k).
Context (Hdec : (k <= 64)%nat -> forall tbls, decode_tables mode k faila failb tbls ->
  dot_prod2 avx (as_int bytes) k tbls (map (ptr ptrs) (survivors mode k faila failb)) [d0; d1] m = goal).

Lemma recov_body_ok cc :
  cache_ok cc ->
  let '(cc', m') :=
    let '(ok, cc, m) := isal_recov_cached avx mode k faila failb bytes ptrs d0 d1 cc m in
    if ok then (cc, m)
    else if (ISAL_RECOV_MAX_K <? k)%nat then (cc, saved m)
    else
      match enc_alloc with
      | None => (cc, saved m)
      | Some enc =>
        match isal_recov_finish avx inv_alloc tbls_alloc k bytes (isal_build_srcs mode k faila failb ptrs)
          (build_enc mode k faila failb enc) (unit_row k faila) out1 d0 d1 m with
        | Some m => (cc, m)
        | None => (cc, saved m)
        end
      end in
  cache_ok cc' /\ m' = if own_tables k enc_alloc inv_alloc tbls_alloc then goal else saved m.
Proof.
  intros Hcc. unfold ISAL_RECOV_MAX_K, own_tables. destruct (Nat.leb_spec k 32) as [Hk|Hk]; cbn [orb].
  - pose proof (recov_cached_ok avx mode k faila failb bytes ptrs d0 d1 cc m Hcc (Hp ltac:(lia))) as Hcached.
    destruct (isal_recov_cached _ _ _ _ _ _ _ _ _ _ _) as [[ok cc'] m']. destruct Hcached as [Hcc' Hcached].
    rewrite (proj2 (Nat.leb_le k ISAL_CACHE_MAX_K)) in Hcached by (unfold ISAL_CACHE_MAX_K; lia).
    destruct Hcached as [-> (tbls & Ht & ->)]. split; [done|]. apply Hdec; [lia|done].
  - unfold isal_recov_cached. rewrite (proj2 (Nat.ltb_lt ISAL_CACHE_MAX_K k)) by (unfold ISAL_CACHE_MAX_K; lia).
    rewrite Nat.leb_antisym. destruct (Nat.ltb_spec 64 k) as [|Hk64]; [done|]. cbn [negb andb].
    destruct enc_alloc as [enc|]; [|done]. specialize (Hae enc eq_refl). rewrite isal_build_srcs_ok. rewrite (bool_decide_true (is_Some (Some enc))) by done. cbn [andb].
    pose proof (recov_finish_ok avx mode k faila failb bytes ptrs enc inv_alloc tbls_alloc
      _ _ d0 d1 m (Hp Hk64) ltac:(lia) Hai Hat eq_refl Hout) as Hf. cbv zeta in Hf.
    destruct (bool_decide (is_Some inv_alloc) && bool_decide (is_Some tbls_alloc)).
    + destruct Hf as (tbls & Ht & ->). split; [done|]. by apply Hdec.
    + by rewrite Hf.
Qed.
End Body.

Context (zero : addr) (m0 : mem).
Context (Hok : recov_ok zero disks bytes ptrs m0) (Hcons : consistent disks bytes ptrs m0).
Context (Hbytes : Z.of_nat bytes < 2 ^ 31).

(** With tables of its own the module restores the pages, and else it hands them on as they are. *)
Lemma isal_2data_paths saved faila failb ga gb cc :
  cache_ok cc -> (faila < failb < k)%nat -> garbage bytes ga -> garbage bytes gb ->
  let lost := <[ptr ptrs faila := ga]> (<[ptr ptrs failb := gb]> m0) in
  let '(cc', m') := isal_2data_recov avx saved enc_alloc inv_alloc tbls_alloc disks bytes faila failb ptrs cc lost in
  cache_ok cc' /\
  m' = if own_tables k enc_alloc inv_alloc tbls_alloc
       then <[ptr ptrs faila := restored bytes (page m0 (ptr ptrs faila)) ga]>
              (<[ptr ptrs failb := restored bytes (page m0 (ptr ptrs failb)) gb]> m0)
       else saved disks bytes faila failb ptrs lost.
Proof.
  intros Hcc Hab Hga Hgb. unfold isal_2data_recov. fold k. destruct (Nat.ltb_spec k 2); [lia|].
  assert ((k <= 64)%nat -> pattern_ok ISAL_RECOV_2DATA k faila (Z.of_nat failb)) as Hp
    by (intros; split; [lia|split; [done|lia]]).
  apply (recov_body_ok ISAL_RECOV_2DATA faila (Z.of_nat failb) (unit_row k failb) _ _ (saved disks bytes faila failb ptrs)); [done|cbn; by rewrite Nat2Z.id| |done].
  intros Hk tbls Ht. rewrite as_int_id by done. destruct Hok as [Hs Hnd _ _].
  pose proof (decode_restores disks bytes ptrs m0 Hs Hnd Hcons ISAL_RECOV_2DATA faila (Z.of_nat failb) ga gb
    (Hp Hk) Hga Hgb avx tbls Ht) as Hd. cbn in Hd. by rewrite Nat2Z.id in Hd.
Qed.

Lemma isal_datap_paths saved faila ga gp cc :
  cache_ok cc -> (faila < k)%nat -> garbage bytes ga -> garbage bytes gp ->
  let lost := <[ptr ptrs faila := ga]> (<[p_ptr disks ptrs := gp]> m0) in
  let '(cc', m') := isal_datap_recov avx saved enc_alloc inv_alloc tbls_alloc disks bytes faila ptrs cc lost in
  cache_ok cc' /\
  m' = if own_tables k enc_alloc inv_alloc tbls_alloc
       then <[ptr ptrs faila := restored bytes (page m0 (ptr ptrs faila)) ga]>
              (<[p_ptr disks ptrs := restored bytes (page m0 (p_ptr disks ptrs)) gp]> m0)
       else saved disks bytes faila ptrs lost.
Proof.
  intros Hcc Ha Hga Hgp. unfold isal_datap_recov. fold k. destruct (Nat.ltb_spec k 1); [lia|].
  assert ((k <= 64)%nat -> pattern_ok ISAL_RECOV_DATAP k faila (-1)) as Hp by (intros; by split).
  apply (recov_body_ok ISAL_RECOV_DATAP faila (-1) (ones_row k) _ _ (saved disks bytes faila ptrs)); [done|done| |done].
  intros Hk tbls Ht. rewrite as_int_id by done. destruct Hok as [Hs Hnd _ _].
  exact (decode_restores disks bytes ptrs m0 Hs Hnd Hcons ISAL_RECOV_DATAP faila (-1) ga gp
    (Hp Hk) Hga Hgp avx tbls Ht).
Qed.

(** Over a saved implementation that restores the pages all paths do. *)
Section Saved.
Context (dom : nat -> nat -> Prop) (Hdom : (k <= 32)%nat \/ dom disks bytes).

Lemma isal_2data_ok saved `{!Recov2Data zero dom saved} faila failb ga gb cc :
  cache_ok cc -> (faila < failb < k)%nat -> (failb < 255)%nat -> garbage bytes ga -> garbage bytes gb ->
  let '(cc', m') := isal_2data_recov avx saved enc_alloc inv_alloc tbls_alloc disks bytes faila failb ptrs cc
    (<[ptr ptrs faila := ga]> (<[ptr ptrs failb := gb]> m0)) in
  cache_ok cc' /\
  m' = <[ptr ptrs faila := restored bytes (page m0 (ptr ptrs faila)) ga]>
    (<[ptr ptrs failb := restored bytes (page m0 (ptr ptrs failb)) gb]> m0).
Proof.
  intros Hcc Hab H255 Hga Hgb. pose proof (isal_2data_paths saved faila failb ga gb cc Hcc Hab Hga Hgb) as H. cbv zeta in H. destruct (isal_2data_recov _ _ _ _ _ _ _ _ _ _ _ _) as [cc' m'].
  destruct H as [Hc ->]. split; [done|]. unfold own_tables. destruct (Nat.leb_spec k 32); [done|]. destruct Hdom; [lia|]. rewrite (recov_2data_ok disks bytes faila failb ptrs) by done. by destruct (_ || _).
Qed.

Lemma isal_datap_ok saved `{!RecovDataP zero dom saved} faila ga gp cc :
  cache_ok cc -> (faila < k)%nat -> (faila < 255)%nat -> garbage bytes ga -> garbage bytes gp ->
  let '(cc', m') := isal_datap_recov avx saved enc_alloc inv_alloc tbls_alloc disks bytes faila ptrs cc
    (<[ptr ptrs faila := ga]> (<[p_ptr disks ptrs := gp]> m0)) in
  cache_ok cc' /\
  m' = <[ptr ptrs faila := restored bytes (page m0 (ptr ptrs faila)) ga]>
    (<[p_ptr disks ptrs := restored bytes (page m0 (p_ptr disks ptrs)) gp]> m0).
Proof.
  intros Hcc Ha H255 Hga Hgp. pose proof (isal_datap_paths saved faila ga gp cc Hcc Ha Hga Hgp) as H. cbv zeta in H. destruct (isal_datap_recov _ _ _ _ _ _ _ _ _ _ _) as [cc' m'].
  destruct H as [Hc ->]. split; [done|]. unfold own_tables. destruct (Nat.leb_spec k 32); [done|]. destruct Hdom; [lia|]. rewrite (recov_datap_ok disks bytes faila ptrs) by done. by destruct (_ || _).
Qed.
End Saved.
End EntryPoints.
