(* ===== verification/Raid6Theorems.v ===== *)
(** The properties of the RAID-6 parity code: recovery, read-modify-write and the agreement
    of the implementations, with a small stripe on which they are instantiated. *)

From S2P Require Import Prelude GF256 PageMem Syndrome Recov.
From S2P Require Import EcTables Matrix Mds Gfni GfniCorrect EcBase RaidIsal IsalRecov.

(** * Read-modify-write *)

Lemma p_syn_app a b : p_syn (a ++ b) = p_syn a ⊕ p_syn b.
Proof.
  unfold p_syn. induction a as [|x a IH]; cbn [app foldr]; [by rewrite Z.lxor_0_l|].
  by rewrite IH, Z.lxor_assoc.
Qed.

Lemma q_syn_app a b : Forall is_u8 b -> q_syn (a ++ b) = q_syn a ⊕ gfmul (alpha (length a)) (q_syn b).
Proof.
  intros Hb. unfold q_syn. induction a as [|x a IH]; cbn [app foldr length].
  - change (alpha 0) with 1. rewrite gfmul_1_l by (by apply q_syn_u8). by rewrite Z.lxor_0_l.
  - rewrite IH, xtime_lxor. change (alpha (S (length a))) with (xtime (alpha (length a))).
    rewrite <- xtime_gfmul by auto with md. lxor_solve.
Qed.

Section ReadModifyWrite.
Context {dom : nat -> nat -> Prop} {xor : nat -> nat -> nat -> nat -> list addr -> mem -> mem}.
Context {Hxor : SyndromeXor dom xor}.
Context (disks bytes start stop : nat) (ptrs : list addr) (m0 m2 : mem).
Context (Hdom : dom disks bytes) (Hok : stripe_ok disks bytes ptrs m0) (Hnd : NoDup ptrs).
Context (Hr : (start <= stop < disks - 2)%nat) (Hcons : consistent disks bytes ptrs m0).

Let m1 := with_xor_syndromes disks start stop bytes ptrs m0.
Let slice := slice_ptrs start stop ptrs.
Let p := p_ptr disks ptrs.
Let q := q_ptr disks ptrs.

(** [m2] is [m1] with new contents in the pages of the slice. *)
Context (Hok2 : stripe_ok disks bytes ptrs m2) (Hsame : forall a, a ∉ slice -> m2 !! a = m1 !! a).

Lemma data_split :
  data_ptrs disks ptrs = take start ptrs ++ slice ++ drop (S stop) (data_ptrs disks ptrs).
Proof.
  unfold data_ptrs, slice, slice_ptrs. rewrite app_assoc.
  rewrite <- (take_drop (S stop) (take (disks - 2) ptrs)) at 1. rewrite take_take, Nat.min_l by lia. f_equal.
  rewrite <- (take_drop start (take (S stop) ptrs)) at 1. by rewrite take_take, Nat.min_l by lia.
Qed.

Lemma slice_in_data a : a ∈ slice -> a ∈ data_ptrs disks ptrs.
Proof. rewrite data_split. set_solver. Qed.

Lemma parity_not_slice : p ∉ slice /\ q ∉ slice.
Proof. destruct Hok. split; intros H%slice_in_data; done. Qed.

Lemma outside_slice a : a ∈ take start ptrs \/ a ∈ drop (S stop) (data_ptrs disks ptrs) -> a ∉ slice.
Proof.
  intros Ha Hin. assert (NoDup (data_ptrs disks ptrs)) as Hnd'.
  { rewrite <- (take_drop (disks - 2) ptrs) in Hnd. by apply list.NoDup_app in Hnd as [? _]. }
  rewrite data_split in Hnd'. apply list.NoDup_app in Hnd' as (_ & H1 & H2). apply list.NoDup_app in H2 as (_ & H2 & _).
  destruct Ha as [Ha|Ha]; [apply (H1 a Ha); set_solver|by apply (H2 a Hin)].
Qed.

Lemma rmw_page a : a ∈ data_ptrs disks ptrs -> a ∉ slice -> page m2 a = page m0 a.
Proof.
  intros Ha Hs. destruct (so_data_in _ _ _ _ Hok a Ha) as (_ & Hp & Hq).
  unfold page. rewrite Hsame by done. unfold m1, with_xor_syndromes. by rewrite !lookup_insert_ne by congruence.
Qed.

Lemma data_column m b :
  column m (data_ptrs disks ptrs) b =
  column m (take start ptrs) b ++ column m slice b ++ column m (drop (S stop) (data_ptrs disks ptrs)) b.
Proof. rewrite data_split at 1. unfold column. by rewrite !map_app. Qed.

Lemma rmw_column b :
  column m2 (data_ptrs disks ptrs) b =
  column m0 (take start ptrs) b ++ column m2 slice b ++ column m0 (drop (S stop) (data_ptrs disks ptrs)) b.
Proof.
  rewrite data_column. f_equal; [|f_equal]; apply column_ext; intros a Ha;
    (apply rmw_page; [rewrite data_split; set_solver|apply outside_slice; auto]).
Qed.

Lemma rmw_parity b :
  (b < bytes)%nat ->
  pget (page m2 p) b = pget (page m0 p) b ⊕ p_syn (column m0 slice b) /\
  pget (page m2 q) b = pget (page m0 q) b ⊕ gfmul (alpha start) (q_syn (column m0 slice b)).
Proof.
  intros Hb. destruct parity_not_slice as [Hp Hq].
  assert (forall a, a ∉ slice -> page m2 a = page m1 a) as Hpage by (intros; unfold page; by rewrite Hsame).
  pose proof (so_pq _ _ _ _ Hok) as Hpq. fold p q in Hpq. rewrite !Hpage by done. unfold m1, with_xor_syndromes. fold p q slice.
  by rewrite page_insert_ne, !page_insert_eq, !pget_filled_lt by done.
Qed.

Lemma column_bytes m srcs b : stripe_ok disks bytes ptrs m -> (forall a, a ∈ srcs -> a ∈ data_ptrs disks ptrs) -> Forall is_u8 (column m srcs b).
Proof.
  intros Hm Hsrc. apply column_u8. intros a Ha. destruct (so_data_in _ _ _ _ Hm a (Hsrc a Ha)) as [Hin _].
  destruct (so_bytes _ _ _ _ Hm a Hin) as (l & Hl & H8 & _). unfold page. by rewrite Hl.
Qed.

Lemma rmw_ok : consistent disks bytes ptrs (xor disks start stop bytes ptrs m2).
Proof.
  intros b Hb. rewrite xor_syndrome_ok by done. destruct (rmw_parity b Hb) as [Hp2 Hq2]. destruct (Hcons b Hb) as [Hp0 Hq0].
  fold p q in Hp0, Hq0. unfold with_xor_syndromes. fold p q slice.
  pose proof (so_pq _ _ _ _ Hok) as Hpq. fold p q in Hpq.
  assert (column (<[q := filled (fun b => pget (page m2 q) b ⊕ gfmul (alpha start) (q_syn (column m2 slice b))) bytes (page m2 q)]>
    (<[p := filled (fun b => pget (page m2 p) b ⊕ p_syn (column m2 slice b)) bytes (page m2 p)]> m2)) (data_ptrs disks ptrs) b
    = column m2 (data_ptrs disks ptrs) b) as ->.
  { apply column_ext. intros a Ha. destruct (so_data_in _ _ _ _ Hok a Ha) as (_ & ? & ?). by rewrite !page_insert_ne by (unfold p, q; congruence). }
  rewrite page_insert_eq, page_insert_ne, page_insert_eq, !pget_filled_lt, Hp2, Hq2, Hp0, Hq0 by congruence.
  rewrite rmw_column, data_column.
  assert (length (column m0 (take start ptrs) b) = start) as Hlen by (rewrite length_column, length_take, (so_len _ _ _ _ Hok); lia).
  assert (Forall is_u8 (column m0 slice b)) by (apply column_bytes; [done|apply slice_in_data]).
  assert (Forall is_u8 (column m2 slice b)) by (apply column_bytes; [done|apply slice_in_data]).
  assert (Forall is_u8 (column m0 (drop (S stop) (data_ptrs disks ptrs)) b)).
  { apply column_bytes; [done|]. intros a Ha. rewrite data_split. set_solver. }
  rewrite !p_syn_app, !q_syn_app, !gfmul_lxor_r, Hlen by (try apply Forall_app; auto).
  rewrite !length_column. split; lxor_solve.
Qed.
End ReadModifyWrite.

(** * A sample stripe *)

Definition page_okb (bytes : nat) (m : mem) (a : addr) : bool :=
  match m !! a with Some l => forallb (fun x => (0 <=? x) && (x <? 256)) l && (bytes <=? length l)%nat | None => false end.

Definition stripe_okb (disks bytes : nat) (ptrs : list addr) (m : mem) : bool :=
  (length ptrs =? disks)%nat && (3 <=? disks)%nat && bool_decide (p_ptr disks ptrs ∉ data_ptrs disks ptrs) &&
  bool_decide (q_ptr disks ptrs ∉ data_ptrs disks ptrs) && bool_decide (p_ptr disks ptrs <> q_ptr disks ptrs) &&
  forallb (page_okb bytes m) ptrs.

Lemma page_okb_spec bytes m a :
  page_okb bytes m a = true -> exists l, m !! a = Some l /\ byte_page l /\ (bytes <= length l)%nat.
Proof.
  unfold page_okb. destruct (m !! a) as [l|]; [|done]. intros [H8 Hl]%andb_true_iff. exists l. split; [done|].
  split; [|by apply Nat.leb_le]. apply Forall_forall. intros x Hx. rewrite forallb_forall in H8.
  specialize (H8 x Hx). unfold is_u8. lia.
Qed.

Lemma stripe_okb_spec disks bytes ptrs m : stripe_okb disks bytes ptrs m = true -> stripe_ok disks bytes ptrs m.
Proof.
  unfold stripe_okb. rewrite !andb_true_iff, !bool_decide_eq_true, Nat.eqb_eq, Nat.leb_le, forallb_forall.
  intros (((((Hl & Hd) & Hp) & Hq) & Hpq) & Hpages). split; [done..|].
  intros a Ha. by apply page_okb_spec, Hpages, list_elem_of_In.
Qed.

Definition consistentb (disks bytes : nat) (ptrs : list addr) (m : mem) : bool :=
  forallb (fun b => let c := column m (data_ptrs disks ptrs) b in
    (pget (page m (p_ptr disks ptrs)) b =? p_syn c) && (pget (page m (q_ptr disks ptrs)) b =? q_syn c)) (seq 0 bytes).

Lemma consistentb_spec disks bytes ptrs m : consistentb disks bytes ptrs m = true -> consistent disks bytes ptrs m.
Proof.
  unfold consistentb. rewrite forallb_forall. intros H b Hb. specialize (H b ltac:(apply in_seq; lia)).
  by rewrite andb_true_iff, !Z.eqb_eq in H.
Qed.

(** Three data pages of eight bytes at the addresses 1, 2 and 3, P at 4, Q at 5, and the
    zero page at 0. *)
Definition sample_ptrs : list addr := [1; 2; 3; 4; 5]%nat.
Definition sample_data : mem :=
  list_to_map [(0%nat, replicate 8 0); (1%nat, [1; 2; 3; 4; 5; 6; 7; 8]); (2%nat, [0xa0; 0xb1; 0xc2; 0xd3; 0xe4; 0xf5; 0; 0xff]);
    (3%nat, [0x80; 0x40; 0x20; 0x10; 8; 4; 2; 1]); (4%nat, replicate 8 0); (5%nat, replicate 8 0)].
Definition sample : mem := with_syndromes 5 8 sample_ptrs sample_data.

(** Contents of a lost page. *)
Definition junk : list Z := [9; 8; 7; 6; 5; 4; 3; 2].

Lemma sample_ok : stripe_ok 5 8 sample_ptrs sample.
Proof. apply stripe_okb_spec. by vm_compute. Qed.

Lemma sample_consistent : consistent 5 8 sample_ptrs sample.
Proof. apply consistentb_spec. by vm_compute. Qed.

Lemma sample_recov_ok : recov_ok 0 5 8 sample_ptrs sample.
Proof.
  split; [apply sample_ok|apply (bool_decide_unpack _); by vm_compute|apply (bool_decide_unpack _); by vm_compute|].
  exists (replicate 8 0). split; [by vm_compute|]. split; [by repeat constructor|]. split; [done|].
  intros b Hb. unfold pget. by rewrite lookup_replicate_2.
Qed.

Lemma junk_garbage : garbage 8 junk.
Proof. split; [|done]. unfold byte_page, junk, is_u8. repeat constructor; lia. Qed.

Definition kmalloc_ok (n : nat) : option (list Z) := Some (replicate n 0).

Lemma kmalloc_ok_spec n : exists l, kmalloc_ok n = Some l /\ length l = n.
Proof. eexists. split; [done|]. apply length_replicate. Qed.

(** A per-CPU cache as it is allocated. *)
Definition empty_cache : isal_cpu_cache :=
  {| cc_valid := false; cc_mode := ISAL_RECOV_2DATA; cc_k := 0; cc_faila := 0; cc_failb := 0;
     cc_tbls := replicate (2 * 32 * 32) 0; cc_enc := replicate (32 * 32) 0; cc_inv := replicate (32 * 32) 0 |}.

Lemma empty_cache_ok : cache_ok empty_cache.
Proof. split; cbn [empty_cache cc_tbls cc_enc cc_inv cc_valid]; [apply length_replicate..|done]. Qed.

Lemma alloc_none n : alloc_size n None.
Proof. done. Qed.

(** * Recovery *)

(** C20. With any implementation of [gen_syndrome], [raid6_2data_recov_intx1] restores two data
    pages of a consistent stripe whose contents were lost, leaves every other page as it was and
    gives back the pointer table unchanged. *)
Theorem two_data_recovered dom gen `{!SyndromeGen dom gen} zero disks bytes faila failb ptrs m0 ga gb :
  dom disks bytes -> recov_ok zero disks bytes ptrs m0 -> consistent disks bytes ptrs m0 ->
  (faila < failb < disks - 2)%nat -> (failb < 255)%nat -> garbage bytes ga -> garbage bytes gb ->
  raid6_2data_recov_intx1 gen zero disks bytes faila failb ptrs
    (<[ptr ptrs faila := ga]> (<[ptr ptrs failb := gb]> m0)) =
  (ptrs, <[ptr ptrs faila := restored bytes (page m0 (ptr ptrs faila)) ga]>
    (<[ptr ptrs failb := restored bytes (page m0 (ptr ptrs failb)) gb]> m0)).
Proof. intros. by apply (recov_2data_correct (dom := dom)). Qed.

Lemma two_data_recovered_witness :
  raid6_2data_recov_intx1 (raid6_int_gen_syndrome 1) 0 5 8 0 2 sample_ptrs (<[1%nat := junk]> (<[3%nat := junk]> sample)) =
  (sample_ptrs, <[1%nat := restored 8 (page sample 1) junk]> (<[3%nat := restored 8 (page sample 3) junk]> sample)).
Proof.
  apply (two_data_recovered (fun d b => (0 < 1)%nat /\ int_dom 1 d b) (raid6_int_gen_syndrome 1) 0 5 8 0 2 sample_ptrs sample junk junk).
  - split; [lia|]. by exists 1%nat.
  - apply sample_recov_ok.
  - apply sample_consistent.
  - lia.
  - lia.
  - apply junk_garbage.
  - apply junk_garbage.
Defined.

(** Likewise [raid6_datap_recov_intx1] restores a data page and the P page. *)
Theorem data_p_recovered dom gen `{!SyndromeGen dom gen} zero disks bytes faila ptrs m0 ga gp :
  dom disks bytes -> recov_ok zero disks bytes ptrs m0 -> consistent disks bytes ptrs m0 ->
  (faila < disks - 2)%nat -> (faila < 255)%nat -> garbage bytes ga -> garbage bytes gp ->
  raid6_datap_recov_intx1 gen zero disks bytes faila ptrs
    (<[ptr ptrs faila := ga]> (<[p_ptr disks ptrs := gp]> m0)) =
  (ptrs, <[ptr ptrs faila := restored bytes (page m0 (ptr ptrs faila)) ga]>
    (<[p_ptr disks ptrs := restored bytes (page m0 (p_ptr disks ptrs)) gp]> m0)).
Proof. intros. by apply (recov_datap_correct (dom := dom)). Qed.

Lemma data_p_recovered_witness :
  raid6_datap_recov_intx1 (raid6_int_gen_syndrome 1) 0 5 8 1 sample_ptrs (<[2%nat := junk]> (<[4%nat := junk]> sample)) =
  (sample_ptrs, <[2%nat := restored 8 (page sample 2) junk]> (<[4%nat := restored 8 (page sample 4) junk]> sample)).
Proof.
  apply (data_p_recovered (fun d b => (0 < 1)%nat /\ int_dom 1 d b) (raid6_int_gen_syndrome 1) 0 5 8 1 sample_ptrs sample junk junk).
  - split; [lia|]. by exists 1%nat.
  - apply sample_recov_ok.
  - apply sample_consistent.
  - lia.
  - lia.
  - apply junk_garbage.
  - apply junk_garbage.
Defined.

(** A stripe of [n] data disks with pages of one byte. *)
Definition wide_ptrs (n : nat) : list addr := seq 1 (n + 2).
Definition wide_stripe (n : nat) : mem :=
  with_syndromes (n + 2) 1 (wide_ptrs n) (list_to_map (map (fun i => (i, [Z.of_nat i mod 256])) (seq 0 (n + 3)))).

Definition kmalloc_null (n : nat) : option (list Z) := None.

Lemma kmalloc_ok_size n : alloc_size n (kmalloc_ok n).
Proof. intros l [= <-]. apply length_replicate. Qed.

Lemma wide_recov_ok n : n = 40%nat \/ n = 65%nat -> recov_ok 0 (n + 2) 1 (wide_ptrs n) (wide_stripe n).
Proof.
  intros Hn. split; [apply stripe_okb_spec; by destruct Hn as [-> | ->]; vm_compute|by destruct Hn as [-> | ->]; apply (bool_decide_unpack _); vm_compute..|].
  exists [0]. split; [by destruct Hn as [-> | ->]; vm_compute|]. split; [by repeat constructor|]. split; [done|].
  intros b Hb. by replace b with 0%nat by lia.
Qed.

Lemma wide_consistent n : n = 40%nat \/ n = 65%nat -> consistent (n + 2) 1 (wide_ptrs n) (wide_stripe n).
Proof. intros Hn. apply consistentb_spec. by destruct Hn as [-> | ->]; vm_compute. Qed.

Lemma byte_garbage : garbage 1 [9].
Proof. split; [|done]. by repeat constructor. Qed.

(** C21. [isal_2data_recov] restores two lost data pages with the tables of the per-CPU cache, up to 32
    data disks, and with tables built for the call, up to 64 data disks where the three allocations
    succeed, whatever the saved implementation is; in all other cases it calls the saved implementation
    on the stripe as it was.  In every case it keeps the cache's invariant: a valid entry holds the
    decode tables of the failure pattern it is keyed by. *)
Theorem isal_two_data_recovered avx enc_alloc inv_alloc tbls_alloc saved zero disks bytes faila failb ptrs m0 ga gb cc :
  alloc_size ((disks - 2) * (disks - 2)) enc_alloc -> alloc_size ((disks - 2) * (disks - 2)) inv_alloc -> alloc_size (2 * (disks - 2) * 32) tbls_alloc ->
  recov_ok zero disks bytes ptrs m0 -> consistent disks bytes ptrs m0 ->
  Z.of_nat bytes < 2 ^ 31 -> cache_ok cc -> (faila < failb < disks - 2)%nat -> garbage bytes ga -> garbage bytes gb ->
  exists cc', cache_ok cc' /\
    isal_2data_recov avx saved enc_alloc inv_alloc tbls_alloc disks bytes faila failb ptrs cc (<[ptr ptrs faila := ga]> (<[ptr ptrs failb := gb]> m0)) =
    (cc', if own_tables (disks - 2) enc_alloc inv_alloc tbls_alloc
          then <[ptr ptrs faila := restored bytes (page m0 (ptr ptrs faila)) ga]>
                 (<[ptr ptrs failb := restored bytes (page m0 (ptr ptrs failb)) gb]> m0)
          else saved disks bytes faila failb ptrs (<[ptr ptrs faila := ga]> (<[ptr ptrs failb := gb]> m0))).
Proof.
  intros He Hi Ht Hok Hc Hb Hcc Hab Hga Hgb. pose proof (isal_2data_paths avx enc_alloc inv_alloc tbls_alloc disks bytes ptrs He Hi Ht zero m0 Hok Hc Hb saved faila failb ga gb cc Hcc Hab Hga Hgb) as H.
  cbv zeta in H. destruct (isal_2data_recov _ _ _ _ _ _ _ _ _ _ _ _) as [cc' m']. destruct H as [H ->]. by exists cc'.
Qed.

(** The saved recovery as it is when [isal_gen_syndrome] is installed as [raid6_call]. *)
Definition saved_2data (disks bytes faila failb : nat) (ptrs : list addr) (m : mem) : mem :=
  (raid6_2data_recov_intx1 (isal_gen_syndrome false kmalloc_ok) 0 disks bytes faila failb ptrs m).2.

(** Three, 40 and 65 data disks: the cache, the allocated tables and the saved recovery. *)
Lemma isal_two_data_recovered_witness :
  (exists cc', isal_2data_recov false saved_2data None None None 5 8 0 2 sample_ptrs empty_cache (<[1%nat := junk]> (<[3%nat := junk]> sample)) =
    (cc', <[1%nat := restored 8 (page sample 1) junk]> (<[3%nat := restored 8 (page sample 3) junk]> sample))) /\
  (exists cc', isal_2data_recov true saved_2data (kmalloc_ok 1600) (kmalloc_ok 1600) (kmalloc_ok 2560) 42 1 0 2 (wide_ptrs 40) empty_cache
     (<[1%nat := [9]]> (<[3%nat := [9]]> (wide_stripe 40))) =
    (cc', <[1%nat := restored 1 (page (wide_stripe 40) 1) [9]]> (<[3%nat := restored 1 (page (wide_stripe 40) 3) [9]]> (wide_stripe 40)))) /\
  (exists cc', isal_2data_recov true saved_2data None None None 67 1 0 2 (wide_ptrs 65) empty_cache (<[1%nat := [9]]> (<[3%nat := [9]]> (wide_stripe 65))) =
    (cc', saved_2data 67 1 0 2 (wide_ptrs 65) (<[1%nat := [9]]> (<[3%nat := [9]]> (wide_stripe 65))))).
Proof.
  split; [|split].
  - pose proof (isal_two_data_recovered false None None None saved_2data 0 5 8 0 2 sample_ptrs sample junk junk empty_cache
      (alloc_none _) (alloc_none _) (alloc_none _) sample_recov_ok sample_consistent ltac:(lia) empty_cache_ok ltac:(lia) junk_garbage junk_garbage) as H.
    destruct H as (cc' & _ & H). exists cc'. exact H.
  - pose proof (isal_two_data_recovered true (kmalloc_ok 1600) (kmalloc_ok 1600) (kmalloc_ok 2560) saved_2data 0 42 1 0 2 (wide_ptrs 40) (wide_stripe 40) [9] [9] empty_cache
      (kmalloc_ok_size _) (kmalloc_ok_size _) (kmalloc_ok_size _) (wide_recov_ok 40 ltac:(auto)) (wide_consistent 40 ltac:(auto)) ltac:(lia) empty_cache_ok ltac:(lia) byte_garbage byte_garbage) as H.
    destruct H as (cc' & _ & H). exists cc'. exact H.
  - pose proof (isal_two_data_recovered true None None None saved_2data 0 67 1 0 2 (wide_ptrs 65) (wide_stripe 65) [9] [9] empty_cache
      (alloc_none _) (alloc_none _) (alloc_none _) (wide_recov_ok 65 ltac:(auto)) (wide_consistent 65 ltac:(auto)) ltac:(lia) empty_cache_ok ltac:(lia) byte_garbage byte_garbage) as H.
    destruct H as (cc' & _ & H). exists cc'. exact H.
Defined.

(** Likewise [isal_datap_recov] restores a data page and P, or calls the saved implementation, and keeps
    the cache's invariant. *)
Theorem isal_data_p_recovered avx enc_alloc inv_alloc tbls_alloc saved zero disks bytes faila ptrs m0 ga gp cc :
  alloc_size ((disks - 2) * (disks - 2)) enc_alloc -> alloc_size ((disks - 2) * (disks - 2)) inv_alloc -> alloc_size (2 * (disks - 2) * 32) tbls_alloc ->
  recov_ok zero disks bytes ptrs m0 -> consistent disks bytes ptrs m0 ->
  Z.of_nat bytes < 2 ^ 31 -> cache_ok cc -> (faila < disks - 2)%nat -> garbage bytes ga -> garbage bytes gp ->
  exists cc', cache_ok cc' /\
    isal_datap_recov avx saved enc_alloc inv_alloc tbls_alloc disks bytes faila ptrs cc (<[ptr ptrs faila := ga]> (<[p_ptr disks ptrs := gp]> m0)) =
    (cc', if own_tables (disks - 2) enc_alloc inv_alloc tbls_alloc
          then <[ptr ptrs faila := restored bytes (page m0 (ptr ptrs faila)) ga]>
                 (<[p_ptr disks ptrs := restored bytes (page m0 (p_ptr disks ptrs)) gp]> m0)
          else saved disks bytes faila ptrs (<[ptr ptrs faila := ga]> (<[p_ptr disks ptrs := gp]> m0))).
Proof.
  intros He Hi Ht Hok Hc Hb Hcc Ha Hga Hgp. pose proof (isal_datap_paths avx enc_alloc inv_alloc tbls_alloc disks bytes ptrs He Hi Ht zero m0 Hok Hc Hb saved faila ga gp cc Hcc Ha Hga Hgp) as H.
  cbv zeta in H. destruct (isal_datap_recov _ _ _ _ _ _ _ _ _ _ _) as [cc' m']. destruct H as [H ->]. by exists cc'.
Qed.

(** * Syndromes *)

(** Read-modify-write with any implementation of [xor_syndrome]: take the old contents of
    the data slots [start .. stop] out of P and Q, write new contents to any of these pages, and
    add them in again; a stripe that was consistent is consistent again. *)
Theorem rmw_consistent dom xor `{!SyndromeXor dom xor} disks bytes start stop ptrs m0 m2 :
  dom disks bytes -> stripe_ok disks bytes ptrs m0 -> NoDup ptrs -> (start <= stop < disks - 2)%nat ->
  consistent disks bytes ptrs m0 -> stripe_ok disks bytes ptrs m2 ->
  (forall a, a ∉ slice_ptrs start stop ptrs -> m2 !! a = xor disks start stop bytes ptrs m0 !! a) ->
  consistent disks bytes ptrs (xor disks start stop bytes ptrs m2).
Proof.
  intros Hdom Hok Hnd Hr Hcons Hok2 Hsame. apply (rmw_ok (dom := dom) disks bytes start stop ptrs m0 m2); try done.
  intros a Ha. by rewrite Hsame, xor_syndrome_ok.
Qed.

(** The sample stripe with the slots 1 and 2 rewritten. *)
Definition sample_xored : mem := raid6_int_xor_syndrome 1 5 1 2 8 sample_ptrs sample.
Definition sample_rewritten : mem := <[2%nat := junk]> (<[3%nat := junk]> sample_xored).

Lemma rmw_consistent_witness :
  consistent 5 8 sample_ptrs (raid6_int_xor_syndrome 1 5 1 2 8 sample_ptrs sample_rewritten).
Proof.
  apply (rmw_consistent (fun d b => (0 < 1)%nat /\ int_dom 1 d b) (raid6_int_xor_syndrome 1) 5 8 1 2 sample_ptrs sample sample_rewritten).
  - split; [lia|]. by exists 1%nat.
  - apply sample_ok.
  - apply sample_recov_ok.
  - lia.
  - apply sample_consistent.
  - apply stripe_okb_spec. by vm_compute.
  - intros a Ha. unfold slice_ptrs, sample_ptrs in Ha. cbn in Ha. unfold sample_rewritten.
    rewrite !lookup_insert_ne by set_solver. done.
Defined.

(** The portable routine computes the syndromes: P and Q of every byte column, by word
    operations on eight bytes at a time, [n] words per step. *)
Theorem int_gen_correct n disks bytes ptrs m :
  (0 < n)%nat -> (NSIZE * n | bytes)%nat -> stripe_ok disks bytes ptrs m ->
  raid6_int_gen_syndrome n disks bytes ptrs m = with_syndromes disks bytes ptrs m.
Proof. intros Hn Hdiv Hok. by apply (int_gen n). Qed.

Lemma int_gen_correct_witness :
  raid6_int_gen_syndrome 1 5 8 sample_ptrs sample = with_syndromes 5 8 sample_ptrs sample.
Proof. apply (int_gen_correct 1 5 8 sample_ptrs sample); [lia|by exists 1%nat|apply sample_ok]. Defined.

(** The portable [xor_syndrome] adds the contribution of the slots [start .. stop] to P and
    Q without reading the others. *)
Theorem int_xor_correct n disks start stop bytes ptrs m :
  (0 < n)%nat -> (NSIZE * n | bytes)%nat -> stripe_ok disks bytes ptrs m -> (start <= stop < disks - 2)%nat ->
  raid6_int_xor_syndrome n disks start stop bytes ptrs m = with_xor_syndromes disks start stop bytes ptrs m.
Proof. intros Hn Hdiv Hok Hr. by apply (int_xor n). Qed.

Lemma int_xor_correct_witness :
  raid6_int_xor_syndrome 1 5 1 2 8 sample_ptrs sample = with_xor_syndromes 5 1 2 8 sample_ptrs sample.
Proof. apply (int_xor_correct 1 5 1 2 8 sample_ptrs sample); [lia|by exists 1%nat|apply sample_ok|lia]. Defined.

(** The allocation of the tables is the only one. *)
Lemma one_alloc (kmalloc : nat -> option (list Z)) n l : (forall n l, kmalloc n = Some l -> length l = n) -> kmalloc n = Some l ->
  exists kmalloc', (forall n, exists l, kmalloc' n = Some l /\ length l = n) /\ kmalloc' n = kmalloc n.
Proof.
  intros Hk Hl. exists (fun i => if (i =? n)%nat then Some l else Some (replicate i 0)). split; [|by rewrite Nat.eqb_refl].
  intros i. destruct (Nat.eqb_spec i n) as [->|]; eexists; (split; [done|]); [by apply Hk|apply length_replicate].
Qed.

(** C22. Up to 32 data disks [isal_gen_syndrome] leaves the same memory as the in-tree routine, with AVX2
    and with AVX-512, for any number of bytes that routine takes, if its allocation succeeds; if the
    allocation fails, or with more data disks, it leaves the memory, P and Q included, as it was. *)
Theorem isal_gen_agrees avx kmalloc n disks bytes ptrs m :
  (forall n l, kmalloc n = Some l -> length l = n) -> Z.of_nat bytes < 2 ^ 31 ->
  (0 < n)%nat -> (NSIZE * n | bytes)%nat -> stripe_ok disks bytes ptrs m ->
  isal_gen_syndrome avx kmalloc disks bytes ptrs m =
  if (disks <=? 34)%nat && bool_decide (is_Some (kmalloc (2 * (disks - 2) * 32)%nat)) then raid6_int_gen_syndrome n disks bytes ptrs m else m.
Proof.
  intros Hk Hb Hn Hdiv Hok. destruct (Nat.leb_spec disks 34) as [Hd|Hd]; cbn [andb].
  - destruct (kmalloc (2 * (disks - 2) * 32)%nat) as [l|] eqn:E.
    + rewrite bool_decide_true by done. destruct (one_alloc kmalloc _ l Hk E) as (kmalloc' & Ha & E').
      transitivity (isal_gen_syndrome avx kmalloc' disks bytes ptrs m); [unfold isal_gen_syndrome; by rewrite E'|].
      rewrite (isal_gen avx kmalloc' Ha disks bytes ptrs m (conj Hd Hb) Hok). symmetry. by apply (int_gen n).
    + unfold isal_gen_syndrome. rewrite E. by destruct (_ || _).
  - unfold isal_gen_syndrome. rewrite (proj2 (Nat.ltb_lt 32 (disks - 2))) by lia. by rewrite orb_true_r.
Qed.

Lemma isal_gen_agrees_witness :
  isal_gen_syndrome true kmalloc_ok 5 8 sample_ptrs sample = raid6_int_gen_syndrome 1 5 8 sample_ptrs sample /\
  isal_gen_syndrome true kmalloc_null 5 8 sample_ptrs sample = sample.
Proof.
  split.
  - exact (isal_gen_agrees true kmalloc_ok 1 5 8 sample_ptrs sample kmalloc_ok_size ltac:(lia) ltac:(lia) (ex_intro _ 1%nat eq_refl) sample_ok).
  - exact (isal_gen_agrees true kmalloc_null 1 5 8 sample_ptrs sample (fun _ _ H => False_ind _ (eq_ind None (fun o => match o with None => True | _ => False end) I _ H)) ltac:(lia) ltac:(lia) (ex_intro _ 1%nat eq_refl) sample_ok).
Defined.

(** C23. Likewise [isal_xor_syndrome] leaves the same memory as the in-tree routine if its allocation
    succeeds, and else leaves it as it was. *)
Theorem isal_xor_agrees avx kmalloc n disks start stop bytes ptrs m :
  (forall n l, kmalloc n = Some l -> length l = n) -> Z.of_nat bytes < 2 ^ 31 ->
  (0 < n)%nat -> (NSIZE * n | bytes)%nat -> stripe_ok disks bytes ptrs m -> (start <= stop < disks - 2)%nat ->
  isal_xor_syndrome avx kmalloc disks start stop bytes ptrs m =
  if (disks <=? 34)%nat && bool_decide (is_Some (kmalloc (2 * (disks - 2) * 32)%nat)) then raid6_int_xor_syndrome n disks start stop bytes ptrs m else m.
Proof.
  intros Hk Hb Hn Hdiv Hok Hr. destruct (Nat.leb_spec disks 34) as [Hd|Hd]; cbn [andb].
  - destruct (kmalloc (2 * (disks - 2) * 32)%nat) as [l|] eqn:E.
    + rewrite bool_decide_true by done. destruct (one_alloc kmalloc _ l Hk E) as (kmalloc' & Ha & E').
      transitivity (isal_xor_syndrome avx kmalloc' disks start stop bytes ptrs m); [unfold isal_xor_syndrome; by rewrite E'|].
      rewrite (isal_xor avx kmalloc' Ha disks start stop bytes ptrs m (conj Hd Hb) Hok Hr). symmetry. by apply (int_xor n).
    + unfold isal_xor_syndrome. rewrite E. by destruct (_ || _).
  - unfold isal_xor_syndrome. rewrite (proj2 (Nat.ltb_lt 32 (disks - 2))) by lia. by rewrite orb_true_r.
Qed.

Lemma isal_xor_agrees_witness :
  isal_xor_syndrome false kmalloc_ok 5 1 2 8 sample_ptrs sample = raid6_int_xor_syndrome 1 5 1 2 8 sample_ptrs sample.
Proof.
  exact (isal_xor_agrees false kmalloc_ok 1 5 1 2 8 sample_ptrs sample kmalloc_ok_size ltac:(lia) ltac:(lia) (ex_intro _ 1%nat eq_refl) sample_ok ltac:(lia)).
Defined.

(** * Wide stripes *)

(** Where [isal_gen_syndrome] is installed as [raid6_call], the saved in-tree recovery that
    [isal_2data_recov] falls back to beyond 64 data disks calls it; it only warns for more than 32 data
    disks, and the two lost pages of a consistent stripe of 65 are not restored. *)
Theorem wide_stripe_not_recovered :
  page (isal_2data_recov false saved_2data None None None 67 1 0 1 (wide_ptrs 65) empty_cache
    (<[1%nat := [9]]> (<[2%nat := [9]]> (wide_stripe 65)))).2 1 <> page (wide_stripe 65) 1.
Proof. apply (bool_decide_unpack _). by vm_compute. Qed.
