(* ===== verification/Algos.v ===== *)
(** The choice of the RAID-6 implementations at boot, raid6/algos.c for x86-64: the tables of the
    implementations with the tests of the processor features, and the selection.

    The processor is the set of its features, [boot_cpu_has].  What the benchmark counts for the
    implementation at position [i] of the table is [perf i], a parameter: it depends on the clock.
    The routines of one family run on registers of its width, the low bytes of the registers of
    the machine. *)

From stdpp Require Import strings.
From S2P Require Import Prelude.
From S2P Require Import GF256.
From S2P Require Import PageMem.
From S2P Require Import Syndrome.
From S2P Require Import Recov.
From S2P Require Import Simd.
From S2P Require Import SimdSyndrome.
From S2P Require Import SimdRecov.

(** * Processor features *)

Inductive x86_feature :=
| X86_FEATURE_MMX | X86_FEATURE_FXSR | X86_FEATURE_XMM | X86_FEATURE_XMM2 | X86_FEATURE_MMXEXT | X86_FEATURE_SSSE3
| X86_FEATURE_AVX | X86_FEATURE_AVX2 | X86_FEATURE_AVX512F | X86_FEATURE_AVX512BW | X86_FEATURE_AVX512VL
| X86_FEATURE_AVX512DQ.

Definition cpu : Type := x86_feature -> bool.

Definition raid6_have_mmx (boot_cpu_has : cpu) : bool := boot_cpu_has X86_FEATURE_MMX.

Definition raid6_have_sse1_or_mmxext (boot_cpu_has : cpu) : bool :=
  boot_cpu_has X86_FEATURE_MMX && (boot_cpu_has X86_FEATURE_XMM || boot_cpu_has X86_FEATURE_MMXEXT).

Definition raid6_have_sse2 (boot_cpu_has : cpu) : bool :=
  boot_cpu_has X86_FEATURE_MMX && boot_cpu_has X86_FEATURE_FXSR && boot_cpu_has X86_FEATURE_XMM &&
  boot_cpu_has X86_FEATURE_XMM2.

Definition raid6_have_avx2 (boot_cpu_has : cpu) : bool :=
  boot_cpu_has X86_FEATURE_AVX2 && boot_cpu_has X86_FEATURE_AVX.

Definition raid6_have_avx512 (boot_cpu_has : cpu) : bool :=
  boot_cpu_has X86_FEATURE_AVX2 && boot_cpu_has X86_FEATURE_AVX && boot_cpu_has X86_FEATURE_AVX512F &&
  boot_cpu_has X86_FEATURE_AVX512BW && boot_cpu_has X86_FEATURE_AVX512VL && boot_cpu_has X86_FEATURE_AVX512DQ.

Definition raid6_has_ssse3 (boot_cpu_has : cpu) : bool :=
  boot_cpu_has X86_FEATURE_XMM && boot_cpu_has X86_FEATURE_XMM2 && boot_cpu_has X86_FEATURE_SSSE3.

Definition raid6_has_avx2 (boot_cpu_has : cpu) : bool :=
  boot_cpu_has X86_FEATURE_AVX2 && boot_cpu_has X86_FEATURE_AVX.

Definition raid6_has_avx512 (boot_cpu_has : cpu) : bool :=
  boot_cpu_has X86_FEATURE_AVX2 && boot_cpu_has X86_FEATURE_AVX && boot_cpu_has X86_FEATURE_AVX512F &&
  boot_cpu_has X86_FEATURE_AVX512BW && boot_cpu_has X86_FEATURE_AVX512VL && boot_cpu_has X86_FEATURE_AVX512DQ.

(** * The implementations *)

(** The machine of an instruction set whose registers are the low [w] bytes. *)
Definition view (w : nat) (s : machine) : machine :=
  Mach (fun r => take w (vreg s r ++ replicate w 0)) (fun k => take w (kreg s k ++ replicate w false)) (mm s).

Definition gen_fn : Type := machine -> nat -> nat -> list addr -> machine.
Definition xor_fn : Type := machine -> nat -> nat -> nat -> nat -> list addr -> machine.

Record raid6_calls := Raid6Calls {
  gen_syndrome : gen_fn;
  xor_syndrome : option xor_fn;
  valid : option (cpu -> bool);
  name : string;
  priority : Z;
}.

Definition raid6_avx512x4 : raid6_calls :=
  Raid6Calls (fun s => raid6_avx5124_gen_syndrome (view 64 s)) (Some (fun s => raid6_avx5124_xor_syndrome (view 64 s)))
    (Some raid6_have_avx512) "avx512x4" 2.
Definition raid6_avx512x2 : raid6_calls :=
  Raid6Calls (fun s => raid6_avx5122_gen_syndrome (view 64 s)) (Some (fun s => raid6_avx5122_xor_syndrome (view 64 s)))
    (Some raid6_have_avx512) "avx512x2" 2.
Definition raid6_avx512x1 : raid6_calls :=
  Raid6Calls (fun s => raid6_avx5121_gen_syndrome (view 64 s)) (Some (fun s => raid6_avx5121_xor_syndrome (view 64 s)))
    (Some raid6_have_avx512) "avx512x1" 2.
Definition raid6_avx2x4 : raid6_calls :=
  Raid6Calls (fun s => raid6_avx24_gen_syndrome (view 32 s)) (Some (fun s => raid6_avx24_xor_syndrome (view 32 s)))
    (Some raid6_have_avx2) "avx2x4" 2.
Definition raid6_avx2x2 : raid6_calls :=
  Raid6Calls (fun s => raid6_avx22_gen_syndrome (view 32 s)) (Some (fun s => raid6_avx22_xor_syndrome (view 32 s)))
    (Some raid6_have_avx2) "avx2x2" 2.
Definition raid6_avx2x1 : raid6_calls :=
  Raid6Calls (fun s => raid6_avx21_gen_syndrome (view 32 s)) (Some (fun s => raid6_avx21_xor_syndrome (view 32 s)))
    (Some raid6_have_avx2) "avx2x1" 2.
Definition raid6_sse2x4 : raid6_calls :=
  Raid6Calls (fun s => raid6_sse24_gen_syndrome (view 16 s)) (Some (fun s => raid6_sse24_xor_syndrome (view 16 s)))
    (Some raid6_have_sse2) "sse2x4" 1.
Definition raid6_sse2x2 : raid6_calls :=
  Raid6Calls (fun s => raid6_sse22_gen_syndrome (view 16 s)) (Some (fun s => raid6_sse22_xor_syndrome (view 16 s)))
    (Some raid6_have_sse2) "sse2x2" 1.
Definition raid6_sse2x1 : raid6_calls :=
  Raid6Calls (fun s => raid6_sse21_gen_syndrome (view 16 s)) (Some (fun s => raid6_sse21_xor_syndrome (view 16 s)))
    (Some raid6_have_sse2) "sse2x1" 1.

(** Of the 32-bit tables. *)
Definition raid6_sse1x2 : raid6_calls :=
  Raid6Calls (fun s => raid6_sse12_gen_syndrome (view 8 s)) None (Some raid6_have_sse1_or_mmxext) "sse1x2" 1.
Definition raid6_sse1x1 : raid6_calls :=
  Raid6Calls (fun s => raid6_sse11_gen_syndrome (view 8 s)) None (Some raid6_have_sse1_or_mmxext) "sse1x1" 1.
Definition raid6_mmxx2 : raid6_calls :=
  Raid6Calls (fun s => raid6_mmx2_gen_syndrome (view 8 s)) None (Some raid6_have_mmx) "mmxx2" 0.
Definition raid6_mmxx1 : raid6_calls :=
  Raid6Calls (fun s => raid6_mmx1_gen_syndrome (view 8 s)) None (Some raid6_have_mmx) "mmxx1" 0.

(** [raid6_intx$#] with [$#] = [n]. *)
Definition raid6_intx (n : nat) (name : string) : raid6_calls :=
  Raid6Calls (fun s disks bytes ptrs => set_mm s (raid6_int_gen_syndrome n disks bytes ptrs (mm s)))
    (Some (fun s disks start stop bytes ptrs => set_mm s (raid6_int_xor_syndrome n disks start stop bytes ptrs (mm s))))
    None name 0.

(** [raid6_algos] for x86-64; [as_avx512] is [CONFIG_AS_AVX512]. *)
Definition raid6_algos (as_avx512 : bool) : list raid6_calls :=
  (if as_avx512 then [raid6_avx512x4; raid6_avx512x2; raid6_avx512x1] else []) ++
  [raid6_avx2x4; raid6_avx2x2; raid6_avx2x1; raid6_sse2x4; raid6_sse2x2; raid6_sse2x1;
   raid6_intx 8 "int64x8"; raid6_intx 4 "int64x4"; raid6_intx 2 "int64x2"; raid6_intx 1 "int64x1"].

(** * Recovery *)

(** The recovery routines call [raid6_call.gen_syndrome], a function of memory here. *)
Definition mem_gen : Type := nat -> nat -> list addr -> mem -> mem.

Record raid6_recov_calls := Raid6RecovCalls {
  data2 : mem_gen -> addr -> machine -> nat -> nat -> nat -> nat -> list addr -> option (list addr * machine);
  datap : mem_gen -> addr -> machine -> nat -> nat -> nat -> list addr -> option (list addr * machine);
  rvalid : option (cpu -> bool);
  rname : string;
  rpriority : Z;
}.

Definition raid6_recov_avx512 : raid6_recov_calls :=
  Raid6RecovCalls (fun gen zero s => raid6_2data_recov_avx512 gen zero true (view 64 s))
    (fun gen zero s => raid6_datap_recov_avx512 gen zero true (view 64 s)) (Some raid6_has_avx512) "avx512x2" 3.
Definition raid6_recov_avx2 : raid6_recov_calls :=
  Raid6RecovCalls (fun gen zero s => raid6_2data_recov_avx2 gen zero true (view 32 s))
    (fun gen zero s => raid6_datap_recov_avx2 gen zero true (view 32 s)) (Some raid6_has_avx2) "avx2x2" 2.
Definition raid6_recov_ssse3 : raid6_recov_calls :=
  Raid6RecovCalls (fun gen zero s => raid6_2data_recov_ssse3 gen zero true (view 16 s))
    (fun gen zero s => raid6_datap_recov_ssse3 gen zero true (view 16 s)) (Some raid6_has_ssse3) "ssse3x2" 1.
Definition raid6_recov_intx1 : raid6_recov_calls :=
  Raid6RecovCalls
    (fun gen zero s disks bytes faila failb ptrs =>
       let '(ptrs, m) := raid6_2data_recov_intx1 gen zero disks bytes faila failb ptrs (mm s) in
       Some (ptrs, set_mm s m))
    (fun gen zero s disks bytes faila ptrs =>
       let '(ptrs, m) := raid6_datap_recov_intx1 gen zero disks bytes faila ptrs (mm s) in
       Some (ptrs, set_mm s m))
    None "intx1" 0.

Definition raid6_recov_algos (as_avx512 : bool) : list raid6_recov_calls :=
  (if as_avx512 then [raid6_recov_avx512] else []) ++ [raid6_recov_avx2; raid6_recov_ssse3; raid6_recov_intx1].

(** [raid6_call.gen_syndrome] as the recovery routines call it, with the registers of [s]. *)
Definition call_gen (c : raid6_calls) (s : machine) : mem_gen :=
  fun disks bytes ptrs m => mm (gen_syndrome c (set_mm s m) disks bytes ptrs).

(** * Selection *)

(** [!algo->valid || algo->valid()]. *)
Definition is_valid (v : option (cpu -> bool)) (boot_cpu_has : cpu) : bool :=
  match v with Some f => f boot_cpu_has | None => true end.

Section Select.
Context (as_avx512 benchmark : bool) (boot_cpu_has : cpu) (perf : nat -> Z).

(** The loop of [raid6_choose_recov]. *)
Definition choose_recov_step (best : option raid6_recov_calls) (algo : raid6_recov_calls) : option raid6_recov_calls :=
  if match best with None => true | Some b => rpriority b <? rpriority algo end
  then if is_valid (rvalid algo) boot_cpu_has then Some algo else best
  else best.

Definition raid6_choose_recov : option raid6_recov_calls :=
  fold_left choose_recov_step (raid6_recov_algos as_avx512) None.

(** The loop of [raid6_choose_gen] from position [i] of the table on. *)
Fixpoint choose_gen_loop (algos : list raid6_calls) (i : nat) (bestgenperf : Z) (best : option raid6_calls)
    : option raid6_calls :=
  match algos with
  | [] => best
  | algo :: algos =>
      if match best with None => true | Some b => priority b <=? priority algo end
      then
        if negb (is_valid (valid algo) boot_cpu_has) then choose_gen_loop algos (S i) bestgenperf best
        else if negb benchmark then Some algo
        else if bestgenperf <? perf i then choose_gen_loop algos (S i) (perf i) (Some algo)
        else choose_gen_loop algos (S i) bestgenperf best
      else choose_gen_loop algos (S i) bestgenperf best
  end.

Definition raid6_choose_gen : option raid6_calls := choose_gen_loop (raid6_algos as_avx512) 0 0 None.

(** The variables [raid6_call], and [raid6_2data_recov] with [raid6_datap_recov]. *)
Record raid6_state := Raid6State {
  raid6_call : option raid6_calls;
  raid6_recov : option raid6_recov_calls;
}.

(** [pages] says whether the allocation of the test buffer succeeds. *)
Definition raid6_select_algo (pages : bool) : Z * raid6_state :=
  if negb pages then (- ENOMEM, Raid6State None None)
  else
    let gen_best := raid6_choose_gen in
    let rec_best := raid6_choose_recov in
    (match gen_best, rec_best with Some _, Some _ => 0 | _, _ => - EINVAL end, Raid6State gen_best rec_best).
End Select.
