(* ===== verification/AlgosCorrect.v ===== *)
(** Whatever the processor has and whatever the benchmark counts, the implementations that
    raid6/algos.c selects compute the syndromes and recover two failures; and the selection takes
    the best of the valid ones. *)

From stdpp Require Import strings.
From S2P Require Import Prelude.
From S2P Require Import GF256.
From S2P Require Import PageMem.
From S2P Require Import Syndrome.
From S2P Require Import Recov.
From S2P Require Import Simd.
From S2P Require Import SimdLemmas.
From S2P Require Import SimdSyndrome.
From S2P Require Import SimdSyndromeCorrect.
From S2P Require Import SimdRecov.
From S2P Require Import SimdRecovCorrect.
From S2P Require Import Algos.
From S2P Require Import Raid6Theorems.

(** * Every entry of the tables *)

Lemma view_wf w s : wf w (view w s).
Proof. split; intros r; cbn; rewrite length_take, length_app, length_replicate; lia. Qed.

(** A stripe that the md code hands to RAID-6: two data disks at least, and pages of a multiple of
    256 bytes. *)
Definition raid6_dom (disks bytes : nat) : Prop := (4 <= disks)%nat /\ (256 | bytes)%nat.

Lemma raid6_dom_divide disks bytes n : raid6_dom disks bytes -> (n | 256)%nat -> (n | bytes)%nat.
Proof. intros [_ Hb] Hn. by etrans. Qed.

Definition gen_ok (c : raid6_calls) : Prop := forall s disks bytes ptrs,
  raid6_dom disks bytes -> stripe_ok disks bytes ptrs (mm s) ->
  mm (gen_syndrome c s disks bytes ptrs) = with_syndromes disks bytes ptrs (mm s).

Definition xor_ok (c : raid6_calls) : Prop := forall f s disks start stop bytes ptrs,
  xor_syndrome c = Some f -> raid6_dom disks bytes -> stripe_ok disks bytes ptrs (mm s) ->
  (start <= stop < disks - 2)%nat ->
  mm (f s disks start stop bytes ptrs) = with_xor_syndromes disks start stop bytes ptrs (mm s).

Ltac calls_ok w gen xor :=
  lazymatch goal with |- gen_ok ?c /\ _ => let c' := eval red in c in change c with c' end;
  split;
  [intros s disks bytes ptrs Hd Hok; cbn [gen_syndrome];
   rewrite (gen disks bytes ptrs (mm s) Hok (view w s));
     [done|apply view_wf|done|apply (raid6_dom_divide _ _ _ Hd); by apply divide_check|destruct Hd; lia]
  |intros f s disks start stop bytes ptrs [= <-] Hd Hok Hr;
   rewrite (xor disks bytes ptrs (mm s) Hok start stop Hr (view w s));
     [done|apply view_wf|done|apply (raid6_dom_divide _ _ _ Hd); by apply divide_check]].

Lemma intx_ok n s : (0 < n)%nat -> (NSIZE * n | 256)%nat -> gen_ok (raid6_intx n s) /\ xor_ok (raid6_intx n s).
Proof.
  intros Hn Hd. split.
  - intros st disks bytes ptrs Hdom Hok. apply (gen_syndrome_ok (SyndromeGen := int_gen n)); [|done].
    split; [done|]. by apply (raid6_dom_divide _ _ _ Hdom).
  - intros f st disks start stop bytes ptrs [= <-] Hdom Hok Hr.
    apply (xor_syndrome_ok (SyndromeXor := int_xor n)); [|done|done].
    split; [done|]. by apply (raid6_dom_divide _ _ _ Hdom).
Qed.

Lemma algos_ok a : Forall (fun c => gen_ok c /\ xor_ok c) (raid6_algos a).
Proof.
  apply Forall_app. split; [destruct a|].
  - constructor; [calls_ok 64%nat avx5124_gen_ok avx5124_xor_ok|].
    constructor; [calls_ok 64%nat avx5122_gen_ok avx5122_xor_ok|].
    constructor; [calls_ok 64%nat avx5121_gen_ok avx5121_xor_ok|done].
  - done.
  - constructor; [calls_ok 32%nat avx24_gen_ok avx24_xor_ok|].
    constructor; [calls_ok 32%nat avx22_gen_ok avx22_xor_ok|].
    constructor; [calls_ok 32%nat avx21_gen_ok avx21_xor_ok|].
    constructor; [calls_ok 16%nat sse24_gen_ok sse24_xor_ok|].
    constructor; [calls_ok 16%nat sse22_gen_ok sse22_xor_ok|].
    constructor; [calls_ok 16%nat sse21_gen_ok sse21_xor_ok|].
    repeat (constructor; [apply intx_ok; [lia|by apply divide_check]|]). done.
Qed.

(** A recovery over any implementation of the syndromes. *)
Definition data2_ok (r : raid6_recov_calls) : Prop :=
  forall gen zero s disks bytes faila failb ptrs m0 ga gb,
  SyndromeGen raid6_dom gen -> raid6_dom disks bytes -> recov_ok zero disks bytes ptrs m0 ->
  consistent disks bytes ptrs m0 -> (faila < failb < disks - 2)%nat -> (failb < 255)%nat ->
  garbage bytes ga -> garbage bytes gb -> mm s = <[ptr ptrs faila := ga]> (<[ptr ptrs failb := gb]> m0) ->
  exists s', data2 r gen zero s disks bytes faila failb ptrs = Some (ptrs, s') /\
    mm s' = <[ptr ptrs faila := restored bytes (page m0 (ptr ptrs faila)) ga]>
      (<[ptr ptrs failb := restored bytes (page m0 (ptr ptrs failb)) gb]> m0).

Definition datap_ok (r : raid6_recov_calls) : Prop :=
  forall gen zero s disks bytes faila ptrs m0 ga gp,
  SyndromeGen raid6_dom gen -> raid6_dom disks bytes -> recov_ok zero disks bytes ptrs m0 ->
  consistent disks bytes ptrs m0 -> (faila < disks - 2)%nat -> (faila < 255)%nat ->
  garbage bytes ga -> garbage bytes gp -> mm s = <[ptr ptrs faila := ga]> (<[p_ptr disks ptrs := gp]> m0) ->
  exists s', datap r gen zero s disks bytes faila ptrs = Some (ptrs, s') /\
    mm s' = <[ptr ptrs faila := restored bytes (page m0 (ptr ptrs faila)) ga]>
      (<[p_ptr disks ptrs := restored bytes (page m0 (p_ptr disks ptrs)) gp]> m0).

Ltac recov_calls_ok w :=
  split;
  [intros gen zero s disks bytes faila failb ptrs m0 ga gb Hgen Hd Hok Hc Hab H255 Hga Hgb Hm;
   apply (simd_2data_ok zero disks bytes ptrs m0 Hd Hok Hc w true (view w s) (view_wf w s)
     ltac:(apply (raid6_dom_divide _ _ _ Hd); by apply divide_check) faila failb ga gb Hab H255 Hga Hgb Hm)
  |intros gen zero s disks bytes faila ptrs m0 ga gp Hgen Hd Hok Hc Ha H255 Hga Hgp Hm;
   apply (simd_datap_ok zero disks bytes ptrs m0 Hd Hok Hc w true (view w s) (view_wf w s)
     ltac:(apply (raid6_dom_divide _ _ _ Hd); by apply divide_check) faila ga gp Ha H255 Hga Hgp Hm)];
  unfold simd_2data, simd_datap; rewrite ?elem_of_cons; auto.

Lemma recov_intx1_ok : data2_ok raid6_recov_intx1 /\ datap_ok raid6_recov_intx1.
Proof.
  split.
  - intros gen zero s disks bytes faila failb ptrs m0 ga gb Hgen Hd Hok Hc Hab H255 Hga Hgb Hm.
    cbn [data2 raid6_recov_intx1]. rewrite Hm, (recov_2data_correct zero disks bytes ptrs m0 Hd Hok Hc) by done. by eexists.
  - intros gen zero s disks bytes faila ptrs m0 ga gp Hgen Hd Hok Hc Ha H255 Hga Hgp Hm.
    cbn [datap raid6_recov_intx1]. rewrite Hm. unfold p_ptr. rewrite (recov_datap_correct zero disks bytes ptrs m0 Hd Hok Hc) by done. by eexists.
Qed.

Lemma recov_algos_ok a : Forall (fun r => data2_ok r /\ datap_ok r) (raid6_recov_algos a).
Proof.
  apply Forall_app. split; [destruct a; [constructor; [recov_calls_ok 64%nat|done]|done]|].
  constructor; [recov_calls_ok 32%nat|]. constructor; [recov_calls_ok 16%nat|]. constructor; [apply recov_intx1_ok|done].
Qed.

Ltac gen_only_ok w gen :=
  lazymatch goal with |- gen_ok ?c /\ _ => let c' := eval red in c in change c with c' end;
  split;
  [intros s disks bytes ptrs Hd Hok; cbn [gen_syndrome];
   rewrite (gen disks bytes ptrs (mm s) Hok (view w s));
     [done|apply view_wf|done|apply (raid6_dom_divide _ _ _ Hd); by apply divide_check|destruct Hd; lia]
  |intros f s disks start stop bytes ptrs [=]].

(** The implementations of the 32-bit tables. *)
Lemma mmx_sse1_ok : Forall (fun c => gen_ok c /\ xor_ok c) [raid6_sse1x2; raid6_sse1x1; raid6_mmxx2; raid6_mmxx1].
Proof.
  constructor; [gen_only_ok 8%nat sse12_gen_ok|]. constructor; [gen_only_ok 8%nat sse11_gen_ok|].
  constructor; [gen_only_ok 8%nat mmx2_gen_ok|]. constructor; [gen_only_ok 8%nat mmx1_gen_ok|]. done.
Qed.

(** * The selection *)

Section Select.
Context (benchmark : bool) (boot_cpu_has : cpu) (perf : nat -> Z).

(** The implementation selected for recovery: a valid one of the highest priority. *)
Definition best_recov (l : list raid6_recov_calls) (best : option raid6_recov_calls) : Prop :=
  match best with
  | Some r => r ∈ l /\ is_valid (rvalid r) boot_cpu_has = true /\
      forall r', r' ∈ l -> is_valid (rvalid r') boot_cpu_has = true -> rpriority r' <= rpriority r
  | None => forall r', r' ∈ l -> is_valid (rvalid r') boot_cpu_has = false
  end.

Lemma choose_recov_best l : best_recov l (fold_left (choose_recov_step boot_cpu_has) l None).
Proof.
  induction l as [|r l IH] using rev_ind; [by intros r' ?%elem_of_nil|]. rewrite fold_left_app. cbn [fold_left].
  unfold choose_recov_step at 1. destruct (fold_left _ l None) as [b|]; cbn [best_recov] in *.
  - destruct IH as (Hin & Hv & Hbest). destruct (Z.ltb_spec (rpriority b) (rpriority r)) as [Hlt|Hge].
    + destruct (is_valid (rvalid r) boot_cpu_has) eqn:Er; (split_and!; [set_solver|done|]);
        intros r' [Hr'| ->%list_elem_of_singleton]%elem_of_app Hv';
        try (specialize (Hbest r' Hr' Hv')); lia || congruence.
    + split_and!; [set_solver|done|]. intros r' [Hr'| ->%list_elem_of_singleton]%elem_of_app Hv'; [auto|lia].
  - destruct (is_valid (rvalid r) boot_cpu_has) eqn:Er; cbn [best_recov].
    + split_and!; [set_solver|done|]. intros r' [Hr'| ->%list_elem_of_singleton]%elem_of_app Hv'; [|lia].
      by rewrite IH in Hv'.
    + intros r' [Hr'| ->%list_elem_of_singleton]%elem_of_app; auto.
Qed.

(** Without the benchmark: the first valid entry. *)
Definition first_gen (l : list raid6_calls) (best : option raid6_calls) : Prop :=
  match best with
  | Some c => exists i, l !! i = Some c /\ is_valid (valid c) boot_cpu_has = true /\
      forall j a, (j < i)%nat -> l !! j = Some a -> is_valid (valid a) boot_cpu_has = false
  | None => forall a, a ∈ l -> is_valid (valid a) boot_cpu_has = false
  end.

Lemma choose_gen_first l i bp : first_gen l (choose_gen_loop false boot_cpu_has perf l i bp None).
Proof.
  revert i. induction l as [|c l IH]; intros i; [by intros a ?%elem_of_nil|]. cbn [choose_gen_loop negb].
  destruct (is_valid (valid c) boot_cpu_has) eqn:Ec; cbn [negb].
  - exists 0%nat. split_and!; [done|done|]. lia.
  - specialize (IH (S i)). destruct (choose_gen_loop _ _ _ l (S i) bp None) as [b|]; cbn [first_gen] in *.
    + destruct IH as (k & Hk & Hv & Hfirst). exists (S k). split_and!; [done|done|]. intros [|j] a Hj Hl; [by simplify_eq/=|].
      apply (Hfirst j); [lia|done].
    + intros a [->|Ha]%elem_of_cons; auto.
Qed.

(** With the benchmark: a valid entry that ran at least once, of the highest priority among
    those, and of the highest count among those of its priority. *)
Definition best_gen (l : list raid6_calls) (bp : Z) (best : option raid6_calls) : Prop :=
  match best with
  | Some c => exists i, l !! i = Some c /\ is_valid (valid c) boot_cpu_has = true /\ perf i = bp /\ 0 < bp /\
      forall j a, l !! j = Some a -> is_valid (valid a) boot_cpu_has = true -> 0 < perf j ->
        priority a < priority c \/ (priority a = priority c /\ perf j <= bp)
  | None => bp = 0 /\ forall j a, l !! j = Some a -> is_valid (valid a) boot_cpu_has = true -> perf j <= 0
  end.

(** The table lists the implementations by priority. *)
Definition by_priority (l : list raid6_calls) : Prop :=
  forall i j a b, (i <= j)%nat -> l !! i = Some a -> l !! j = Some b -> priority b <= priority a.

(** The next entry, at the end of the part of the table that was tried. *)
Lemma lookup_next (pre : list raid6_calls) c j a : (pre ++ [c]) !! j = Some a -> pre !! j = Some a \/ (j = length pre /\ a = c).
Proof.
  intros H. destruct (decide (j < length pre)%nat) as [Hj|Hj].
  - left. by rewrite lookup_app_l in H.
  - right. rewrite lookup_app_r in H by lia. apply list_lookup_singleton_Some in H as [? <-]. split; [lia|done].
Qed.

Lemma best_gen_skip pre c bp best :
  best_gen pre bp best ->
  (is_valid (valid c) boot_cpu_has = true -> 0 < perf (length pre) ->
     exists b, best = Some b /\ (priority c < priority b \/ (priority c = priority b /\ perf (length pre) <= bp))) ->
  best_gen (pre ++ [c]) bp best.
Proof.
  intros Hpre Hc. destruct best as [b|]; cbn [best_gen] in *.
  - destruct Hpre as (i & Hi & Hv & Hp & Hpos & Hmax). exists i. split_and!; try done; [by apply lookup_app_l_Some|].
    intros j a [Hj|[-> ->]]%lookup_next Ha Hperf; [by apply (Hmax j)|].
    destruct (Hc Ha Hperf) as (b' & [= <-] & H). exact H.
  - destruct Hpre as [-> Hnone]. split; [done|]. intros j a [Hj|[-> ->]]%lookup_next Ha; [by apply (Hnone j a)|].
    destruct (Z.le_gt_cases (perf (length pre)) 0); [done|]. by destruct (Hc Ha) as (b' & [=] & _).
Qed.

Lemma best_gen_take pre c bp best :
  by_priority (pre ++ [c]) -> best_gen pre bp best -> is_valid (valid c) boot_cpu_has = true ->
  match best with None => True | Some b => priority b <= priority c end -> bp < perf (length pre) ->
  best_gen (pre ++ [c]) (perf (length pre)) (Some c).
Proof.
  intros Hsort Hpre Hv Hprio Hperf. exists (length pre).
  assert ((pre ++ [c]) !! length pre = Some c) as Hc by (rewrite lookup_app_r, Nat.sub_diag by lia; done).
  destruct best as [b|]; cbn [best_gen] in Hpre.
  - destruct Hpre as (i & Hi & Hvb & Hp & Hpos & Hmax). split_and!; [done|done|done|lia|].
    assert (priority c = priority b).
    { pose proof (lookup_lt_Some _ _ _ Hi). assert ((pre ++ [c]) !! i = Some b) as Hi' by (by apply lookup_app_l_Some).
      pose proof (Hsort i (length pre) b c ltac:(lia) Hi' Hc). lia. }
    intros j a [Hj|[-> ->]]%lookup_next Ha Hp'; [|right; lia].
    destruct (Hmax j a Hj Ha Hp') as [?|[? ?]]; lia.
  - destruct Hpre as [-> Hnone]. split_and!; [done|done|done|lia|].
    intros j a [Hj|[-> ->]]%lookup_next Ha Hp'; [|right; lia]. specialize (Hnone j a Hj Ha). lia.
Qed.

Lemma choose_gen_best rest pre bp best :
  by_priority (pre ++ rest) -> best_gen pre bp best ->
  exists bp', best_gen (pre ++ rest) bp' (choose_gen_loop true boot_cpu_has perf rest (length pre) bp best).
Proof.
  revert pre bp best. induction rest as [|c rest IH]; intros pre bp best Hsort Hpre.
  { exists bp. by rewrite app_nil_r. }
  replace (pre ++ c :: rest) with ((pre ++ [c]) ++ rest) in * by (by rewrite <- app_assoc).
  replace (S (length pre)) with (length (pre ++ [c])) by (rewrite length_app; cbn; lia).
  assert (by_priority (pre ++ [c])) as Hsort'.
  { intros i j a b Hij Ha Hb. apply (Hsort i j); [done|by apply lookup_app_l_Some..]. }
  cbn [choose_gen_loop negb]. replace (S (length pre)) with (length (pre ++ [c])) by (rewrite length_app; cbn; lia).
  destruct (match best with None => true | Some b => priority b <=? priority c end) eqn:Eb.
  - destruct (is_valid (valid c) boot_cpu_has) eqn:Ev; cbn [negb].
    + destruct (Z.ltb_spec bp (perf (length pre))) as [Hlt|Hge]; apply IH; try done.
      * apply (best_gen_take _ _ bp best); try done. destruct best; [by apply Z.leb_le|done].
      * apply best_gen_skip; [done|]. intros _ Hpos. destruct best as [b|]; [|destruct Hpre; lia].
        exists b. split; [done|]. apply Z.leb_le in Eb. destruct Hpre as (i & Hi & _).
        pose proof (lookup_lt_Some _ _ _ Hi).
        assert ((pre ++ [c]) !! i = Some b) as Hi' by (by apply lookup_app_l_Some).
        assert ((pre ++ [c]) !! length pre = Some c) as Hc by (rewrite lookup_app_r, Nat.sub_diag by lia; done).
        pose proof (Hsort' i (length pre) b c ltac:(lia) Hi' Hc). lia.
    + apply IH; [done|]. apply best_gen_skip; [done|congruence].
  - apply IH; [done|]. apply best_gen_skip; [done|]. intros _ _. destruct best as [b|]; [|done].
    exists b. split; [done|]. left. by apply Z.leb_gt.
Qed.
End Select.

Lemma by_priority_cons c l : Forall (fun b => priority b <= priority c) l -> by_priority l -> by_priority (c :: l).
Proof.
  intros Hc Hl [|i] [|j] a b Hij Ha Hb; simplify_eq/=; [lia| |lia|apply (Hl i j); [lia|done..]].
  by apply (Forall_lookup_1 _ _ _ _ Hc Hb).
Qed.

Lemma algos_by_priority a : by_priority (raid6_algos a).
Proof.
  destruct a; repeat (apply by_priority_cons; [repeat (constructor; [cbn; lia|]); constructor|]);
    intros [|i] j x y ?; done.
Qed.

(** There is always a valid recovery, and without the benchmark a valid implementation of the
    syndromes: the portable ones. *)
Lemma recov_selected as_avx512 boot_cpu_has : exists r, raid6_choose_recov as_avx512 boot_cpu_has = Some r.
Proof.
  pose proof (choose_recov_best boot_cpu_has (raid6_recov_algos as_avx512)) as Hrec.
  change (fold_left _ _ None) with (raid6_choose_recov as_avx512 boot_cpu_has) in Hrec.
  destruct (raid6_choose_recov as_avx512 boot_cpu_has) as [r|]; [by exists r|].
  assert (raid6_recov_intx1 ∈ raid6_recov_algos as_avx512) as Hin by (destruct as_avx512; cbn; set_solver).
  by specialize (Hrec _ Hin).
Qed.

Lemma gen_selected as_avx512 boot_cpu_has perf : exists c, raid6_choose_gen as_avx512 false boot_cpu_has perf = Some c.
Proof.
  pose proof (choose_gen_first boot_cpu_has perf (raid6_algos as_avx512) 0 0) as Hfirst.
  fold (raid6_choose_gen as_avx512 false boot_cpu_has perf) in Hfirst.
  destruct (raid6_choose_gen _ _ _ _) as [c|]; [by exists c|].
  assert (raid6_intx 1 "int64x1" ∈ raid6_algos as_avx512) as Hin
    by (unfold raid6_algos; rewrite elem_of_app, !elem_of_cons; tauto).
  by specialize (Hfirst _ Hin).
Qed.

(** What [raid6_select_algo] leaves when it succeeds. *)
Lemma select_algo_tables as_avx512 benchmark boot_cpu_has perf st :
  raid6_select_algo as_avx512 benchmark boot_cpu_has perf true = (0, st) ->
  exists c r, raid6_call st = Some c /\ raid6_recov st = Some r /\
    c ∈ raid6_algos as_avx512 /\ is_valid (valid c) boot_cpu_has = true /\
    r ∈ raid6_recov_algos as_avx512 /\ is_valid (rvalid r) boot_cpu_has = true.
Proof.
  unfold raid6_select_algo. cbn [negb]. intros H.
  pose proof (choose_recov_best boot_cpu_has (raid6_recov_algos as_avx512)) as Hrec.
  change (fold_left _ _ None) with (raid6_choose_recov as_avx512 boot_cpu_has) in Hrec.
  assert (forall c, raid6_choose_gen as_avx512 benchmark boot_cpu_has perf = Some c ->
    c ∈ raid6_algos as_avx512 /\ is_valid (valid c) boot_cpu_has = true) as Hgen.
  { unfold raid6_choose_gen. intros c Hc. destruct benchmark.
    - destruct (choose_gen_best boot_cpu_has perf (raid6_algos as_avx512) [] 0 None) as [bp Hbest];
        [apply algos_by_priority|split; done|]. cbn [length app] in Hbest. rewrite Hc in Hbest.
      destruct Hbest as (i & Hi & Hv & _). split; [by eapply list_elem_of_lookup_2|done].
    - pose proof (choose_gen_first boot_cpu_has perf (raid6_algos as_avx512) 0 0) as Hfirst. rewrite Hc in Hfirst.
      destruct Hfirst as (i & Hi & Hv & _). split; [by eapply list_elem_of_lookup_2|done]. }
  destruct (raid6_choose_gen _ _ _ _) as [c|]; [|done]. destruct (raid6_choose_recov _ _) as [r|]; [|done].
  injection H as <-. exists c, r. destruct (Hgen c eq_refl), Hrec as (? & ? & _). done.
Qed.

Lemma call_gen_ok c s : gen_ok c -> SyndromeGen raid6_dom (call_gen c s).
Proof. intros Hc disks bytes ptrs m Hd Hok. by apply (Hc (set_mm s m)). Qed.

(** Five disks of one page of 256 bytes. *)
Definition page_data : mem :=
  list_to_map [(0%nat, replicate 256 0); (1%nat, map Z.of_nat (seq 0 256)); (2%nat, map (fun i => 255 - Z.of_nat i) (seq 0 256));
    (3%nat, replicate 256 0x5a); (4%nat, replicate 256 0); (5%nat, replicate 256 0)].
Definition page_sample : mem := with_syndromes 5 256 sample_ptrs page_data.
Definition page_junk : list Z := replicate 256 0xee.

Lemma page_sample_ok : recov_ok 0 5 256 sample_ptrs page_sample.
Proof.
  split; [apply stripe_okb_spec; by vm_compute|apply (bool_decide_unpack _); by vm_compute..|].
  exists (replicate 256 0). split; [by vm_compute|]. split; [by apply Forall_replicate|]. split; [done|].
  intros b Hb. unfold pget. by rewrite lookup_replicate_2.
Qed.

Lemma page_sample_consistent : consistent 5 256 sample_ptrs page_sample.
Proof. apply consistentb_spec. by vm_compute. Qed.

Lemma page_junk_garbage : garbage 256 page_junk.
Proof. split; [by apply Forall_replicate|done]. Qed.

(** A machine with the memory [m] and empty registers. *)
Definition machine_of (m : mem) : machine := Mach (fun _ => replicate 64 0) (fun _ => replicate 64 false) m.

(** A processor with AVX2 and no AVX-512. *)
Definition avx2_cpu (f : x86_feature) : bool :=
  match f with
  | X86_FEATURE_AVX512F | X86_FEATURE_AVX512BW | X86_FEATURE_AVX512VL | X86_FEATURE_AVX512DQ => false
  | _ => true
  end.

Definition avx2_state : raid6_state := Raid6State (Some raid6_avx2x4) (Some raid6_recov_avx2).

Lemma avx2_selected : raid6_select_algo true false avx2_cpu (fun _ => 0) true = (0, avx2_state).
Proof. done. Qed.

(** * Theorems *)

(** C17. Each of the MMX, SSE, SSE2, AVX2 and AVX-512 implementations, plain and unrolled by 2 and 4,
    and each portable one, run instruction by instruction from any contents of the registers,
    computes P and Q of every RAID-6 stripe whose pages are multiples of 256 bytes; and its
    [xor_syndrome], where it has one, adds a range of data slots to P and Q. *)
Theorem vector_calls_correct c s disks bytes ptrs :
  c ∈ raid6_algos true ++ [raid6_sse1x2; raid6_sse1x1; raid6_mmxx2; raid6_mmxx1] ->
  raid6_dom disks bytes -> stripe_ok disks bytes ptrs (mm s) ->
  mm (gen_syndrome c s disks bytes ptrs) = with_syndromes disks bytes ptrs (mm s) /\
  forall f start stop, xor_syndrome c = Some f -> (start <= stop < disks - 2)%nat ->
    mm (f s disks start stop bytes ptrs) = with_xor_syndromes disks start stop bytes ptrs (mm s).
Proof.
  intros Hc Hd Hok. assert (gen_ok c /\ xor_ok c) as [Hg Hx].
  { apply elem_of_app in Hc as [Hc|Hc]; [|pose proof mmx_sse1_ok as H]; [pose proof (algos_ok true) as H|];
      by apply (proj1 (Forall_forall _ _) H), list_elem_of_In. }
  split; [by apply Hg|]. intros f start stop Hf Hr. by apply (Hx f).
Qed.

Lemma vector_calls_correct_witness :
  mm (gen_syndrome raid6_avx512x1 (machine_of page_data) 5%nat 256%nat sample_ptrs) = with_syndromes 5 256 sample_ptrs page_data /\
  forall f start stop, xor_syndrome raid6_avx512x1 = Some f -> (start <= stop < 5 - 2)%nat ->
    mm (f (machine_of page_data) 5%nat start stop 256%nat sample_ptrs) = with_xor_syndromes 5 start stop 256 sample_ptrs page_data.
Proof.
  apply (vector_calls_correct raid6_avx512x1 (machine_of page_data) 5 256 sample_ptrs).
  - unfold raid6_algos. rewrite !elem_of_app, !elem_of_cons. tauto.
  - split; [lia|by exists 1%nat].
  - apply stripe_okb_spec. by vm_compute.
Defined.


(** Whatever features the processor has and whatever the benchmark counts: when
    [raid6_select_algo] returns 0, the implementation in [raid6_call] is one that the processor
    supports, its [gen_syndrome] computes P and Q of every RAID-6 stripe and its [xor_syndrome], if
    it has one, adds a range of data slots to P and Q. *)
Theorem selected_gen_correct as_avx512 benchmark boot_cpu_has perf st :
  raid6_select_algo as_avx512 benchmark boot_cpu_has perf true = (0, st) ->
  exists c, raid6_call st = Some c /\ is_valid (valid c) boot_cpu_has = true /\
    (forall s disks bytes ptrs, raid6_dom disks bytes -> stripe_ok disks bytes ptrs (mm s) ->
       mm (gen_syndrome c s disks bytes ptrs) = with_syndromes disks bytes ptrs (mm s)) /\
    (forall f s disks start stop bytes ptrs, xor_syndrome c = Some f ->
       raid6_dom disks bytes -> stripe_ok disks bytes ptrs (mm s) -> (start <= stop < disks - 2)%nat ->
       mm (f s disks start stop bytes ptrs) = with_xor_syndromes disks start stop bytes ptrs (mm s)).
Proof.
  intros (c & r & Hc & _ & Hin & Hv & _)%select_algo_tables. exists c.
  destruct (proj1 (Forall_forall _ _) (algos_ok as_avx512) c) as [Hg Hx]; [by apply list_elem_of_In|]. by split_and!.
Qed.

Lemma selected_gen_correct_witness :
  exists c, raid6_call avx2_state = Some c /\ is_valid (valid c) avx2_cpu = true /\
    (forall s disks bytes ptrs, raid6_dom disks bytes -> stripe_ok disks bytes ptrs (mm s) ->
       mm (gen_syndrome c s disks bytes ptrs) = with_syndromes disks bytes ptrs (mm s)) /\
    (forall f s disks start stop bytes ptrs, xor_syndrome c = Some f ->
       raid6_dom disks bytes -> stripe_ok disks bytes ptrs (mm s) -> (start <= stop < disks - 2)%nat ->
       mm (f s disks start stop bytes ptrs) = with_xor_syndromes disks start stop bytes ptrs (mm s)).
Proof. apply (selected_gen_correct true false avx2_cpu (fun _ => 0) avx2_state avx2_selected). Defined.

(** C18. After a successful [raid6_select_algo], the selected two-data recovery, calling the
    selected [gen_syndrome], runs to its end on a consistent stripe that lost two data pages and
    restores them, for any contents of the registers. *)
Theorem selected_two_data as_avx512 benchmark boot_cpu_has perf st zero disks bytes faila failb ptrs m0 ga gb s s0 :
  raid6_select_algo as_avx512 benchmark boot_cpu_has perf true = (0, st) ->
  raid6_dom disks bytes -> recov_ok zero disks bytes ptrs m0 -> consistent disks bytes ptrs m0 ->
  (faila < failb < disks - 2)%nat -> (failb < 255)%nat -> garbage bytes ga -> garbage bytes gb ->
  mm s = <[ptr ptrs faila := ga]> (<[ptr ptrs failb := gb]> m0) ->
  exists c r s', raid6_call st = Some c /\ raid6_recov st = Some r /\
    data2 r (call_gen c s0) zero s disks bytes faila failb ptrs = Some (ptrs, s') /\
    mm s' = <[ptr ptrs faila := restored bytes (page m0 (ptr ptrs faila)) ga]>
      (<[ptr ptrs failb := restored bytes (page m0 (ptr ptrs failb)) gb]> m0).
Proof.
  intros (c & r & Hc & Hr & Hcin & _ & Hrin & _)%select_algo_tables Hd Hok Hcons Hab H255 Hga Hgb Hm.
  destruct (proj1 (Forall_forall _ _) (algos_ok as_avx512) c) as [Hg _]; [by apply list_elem_of_In|].
  destruct (proj1 (Forall_forall _ _) (recov_algos_ok as_avx512) r) as [H2 _]; [by apply list_elem_of_In|].
  destruct (H2 (call_gen c s0) zero s disks bytes faila failb ptrs m0 ga gb) as (s' & E & Hs');
    [by apply call_gen_ok|done..|]. by exists c, r, s'.
Qed.

Lemma selected_two_data_witness :
  exists c r s', raid6_call avx2_state = Some c /\ raid6_recov avx2_state = Some r /\
    data2 r (call_gen c (machine_of ∅)) 0%nat (machine_of (<[1%nat := page_junk]> (<[3%nat := page_junk]> page_sample)))
      5 256 0 2 sample_ptrs = Some (sample_ptrs, s') /\
    mm s' = <[1%nat := restored 256 (page page_sample 1) page_junk]>
      (<[3%nat := restored 256 (page page_sample 3) page_junk]> page_sample).
Proof.
  apply (selected_two_data true false avx2_cpu (fun _ => 0) avx2_state 0 5 256 0 2 sample_ptrs page_sample page_junk page_junk).
  - apply avx2_selected.
  - split; [lia|by exists 1%nat].
  - apply page_sample_ok.
  - apply page_sample_consistent.
  - lia.
  - lia.
  - apply page_junk_garbage.
  - apply page_junk_garbage.
  - reflexivity.
Defined.

(** C19. After a successful [raid6_select_algo] the selected recovery of a data page and P, with the
    selected [gen_syndrome], terminates and restores both pages. *)
Theorem selected_data_p as_avx512 benchmark boot_cpu_has perf st zero disks bytes faila ptrs m0 ga gp s s0 :
  raid6_select_algo as_avx512 benchmark boot_cpu_has perf true = (0, st) ->
  raid6_dom disks bytes -> recov_ok zero disks bytes ptrs m0 -> consistent disks bytes ptrs m0 ->
  (faila < disks - 2)%nat -> (faila < 255)%nat -> garbage bytes ga -> garbage bytes gp ->
  mm s = <[ptr ptrs faila := ga]> (<[p_ptr disks ptrs := gp]> m0) ->
  exists c r s', raid6_call st = Some c /\ raid6_recov st = Some r /\
    datap r (call_gen c s0) zero s disks bytes faila ptrs = Some (ptrs, s') /\
    mm s' = <[ptr ptrs faila := restored bytes (page m0 (ptr ptrs faila)) ga]>
      (<[p_ptr disks ptrs := restored bytes (page m0 (p_ptr disks ptrs)) gp]> m0).
Proof.
  intros (c & r & Hc & Hr & Hcin & _ & Hrin & _)%select_algo_tables Hd Hok Hcons Ha H255 Hga Hgp Hm.
  destruct (proj1 (Forall_forall _ _) (algos_ok as_avx512) c) as [Hg _]; [by apply list_elem_of_In|].
  destruct (proj1 (Forall_forall _ _) (recov_algos_ok as_avx512) r) as [_ H1]; [by apply list_elem_of_In|].
  destruct (H1 (call_gen c s0) zero s disks bytes faila ptrs m0 ga gp) as (s' & E & Hs');
    [by apply call_gen_ok|done..|]. by exists c, r, s'.
Qed.

Lemma selected_data_p_witness :
  exists c r s', raid6_call avx2_state = Some c /\ raid6_recov avx2_state = Some r /\
    datap r (call_gen c (machine_of ∅)) 0%nat (machine_of (<[2%nat := page_junk]> (<[4%nat := page_junk]> page_sample)))
      5 256 1 sample_ptrs = Some (sample_ptrs, s') /\
    mm s' = <[2%nat := restored 256 (page page_sample 2) page_junk]>
      (<[4%nat := restored 256 (page page_sample 4) page_junk]> page_sample).
Proof.
  apply (selected_data_p true false avx2_cpu (fun _ => 0) avx2_state 0 5 256 1 sample_ptrs page_sample page_junk page_junk).
  - apply avx2_selected.
  - split; [lia|by exists 1%nat].
  - apply page_sample_ok.
  - apply page_sample_consistent.
  - lia.
  - lia.
  - apply page_junk_garbage.
  - apply page_junk_garbage.
  - reflexivity.
Defined.

(** C31. What [raid6_select_algo] selects: for recovery a valid implementation of the highest
    priority; for the syndromes without the benchmark the first valid entry of the table, with it a
    valid one that ran, of the highest priority among those and of the highest count among those of
    its priority.  It returns 0 exactly when there is such an entry, which without the benchmark
    is always the case. *)
Theorem select_algo_best as_avx512 benchmark boot_cpu_has perf :
  let '(ret, st) := raid6_select_algo as_avx512 benchmark boot_cpu_has perf true in
  best_recov boot_cpu_has (raid6_recov_algos as_avx512) (raid6_recov st) /\
  (if benchmark then exists bp, best_gen boot_cpu_has perf (raid6_algos as_avx512) bp (raid6_call st)
   else first_gen boot_cpu_has (raid6_algos as_avx512) (raid6_call st)) /\
  (ret = 0 <-> benchmark = false \/ exists i c, raid6_algos as_avx512 !! i = Some c /\
     is_valid (valid c) boot_cpu_has = true /\ 0 < perf i).
Proof.
  unfold raid6_select_algo. cbn [negb raid6_call raid6_recov].
  pose proof (choose_recov_best boot_cpu_has (raid6_recov_algos as_avx512)) as Hrec.
  change (fold_left _ _ None) with (raid6_choose_recov as_avx512 boot_cpu_has) in Hrec.
  destruct (recov_selected as_avx512 boot_cpu_has) as [r Er]. rewrite Er in *.
  split; [done|]. destruct benchmark.
  - destruct (choose_gen_best boot_cpu_has perf (raid6_algos as_avx512) [] 0 None) as [bp Hbest];
      [apply algos_by_priority|split; done|]. cbn [length app] in Hbest. fold (raid6_choose_gen as_avx512 true boot_cpu_has perf) in Hbest.
    split; [by exists bp|]. destruct (raid6_choose_gen _ _ _ _) as [c|]; split; [|done| |].
    + intros _. right. destruct Hbest as (i & Hi & Hv & Hp & Hpos & _). exists i, c. subst bp. done.
    + intros H. unfold EINVAL in H. lia.
    + intros [?|(i & c & Hi & Hv & Hp)]; [done|]. destruct Hbest as [_ Hb]. specialize (Hb i c Hi Hv). lia.
  - pose proof (choose_gen_first boot_cpu_has perf (raid6_algos as_avx512) 0 0) as Hfirst.
    fold (raid6_choose_gen as_avx512 false boot_cpu_has perf) in Hfirst. split; [done|].
    destruct (gen_selected as_avx512 boot_cpu_has perf) as [c ->]. split; auto.
Qed.
