(* ===== verification/IsalInstall.v ===== *)
(** Loading and unloading the GFNI implementation of RAID-6, isa-l/raid6_isal.c and the feature
    tests of isa-l/gfni_glue.c: the self-validation against the implementation in place, the
    replacement of [raid6_call] and of the recovery pointers, and their restoration.

    A function pointer is either an in-tree function or one of this module.  A buffer of the
    validation is cut into its chunks of [VALIDATE_LEN] bytes, the chunk [i] at the address [i]. *)

From stdpp Require Import strings.
From S2P Require Import Prelude.
From S2P Require Import GF256.
From S2P Require Import PageMem.
From S2P Require Import Syndrome.
From S2P Require Import RaidIsal.

Definition VALIDATE_LEN : nat := 256.
Definition VALIDATE_MAX_K : nat := 8.
Definition ENODEV : Z := 19.

(** * State *)

Definition gen_t : Type := nat -> nat -> list addr -> mem -> mem.
Definition xor_t : Type := nat -> nat -> nat -> nat -> list addr -> mem -> mem.

(** An in-tree recovery calls [raid6_call.gen_syndrome], its first argument. *)
Definition recov2_t : Type := gen_t -> nat -> nat -> nat -> nat -> list addr -> mem -> mem.
Definition recovp_t : Type := gen_t -> nat -> nat -> nat -> list addr -> mem -> mem.

Inductive fn (A : Type) :=
| InTree (f : A)
| Isal.
Arguments InTree {A} f.
Arguments Isal {A}.

Record calls := Calls {
  gen_syndrome : fn gen_t;
  xor_syndrome : option (fn xor_t);
  name : string;
}.

(** The variables of the raid6 core, then the static ones of the module. *)
Record globals := Globals {
  raid6_call : calls;
  raid6_2data_recov : fn recov2_t;
  raid6_datap_recov : fn recovp_t;
  saved_call : calls;
  saved_2data_recov : fn recov2_t;
  saved_datap_recov : fn recovp_t;
  overridden : bool;
  use_avx512 : bool;
}.

(** * Features *)

(** The features of the processor that gfni_glue.c asks for. *)
Record gfni_cpu := GfniCpu { has_gfni : bool; has_avx : bool; has_avx2 : bool; has_avx512f : bool; has_avx512bw : bool }.

Definition isal_have_gfni (cpu : gfni_cpu) : bool := has_gfni cpu && has_avx cpu && has_avx2 cpu.
Definition isal_have_avx512_gfni (cpu : gfni_cpu) : bool := has_gfni cpu && has_avx512f cpu && has_avx512bw cpu.

(** * Validation *)

Section Validate.
(** [kmalloc] of the syndrome routines, and the memory beside the buffer of a validation. *)
Context (kmalloc : nat -> option (list Z)) (avx512 : bool) (base : mem).

Definition call_gen (f : fn gen_t) : gen_t :=
  match f with InTree f => f | Isal => isal_gen_syndrome avx512 kmalloc end.
Definition call_xor (f : fn xor_t) : xor_t :=
  match f with InTree f => f | Isal => isal_xor_syndrome avx512 kmalloc end.

(** The chunks of a buffer, and the stores of whole chunks. *)
Definition chunks (n : nat) (buf : list Z) : mem :=
  list_to_map (map (fun i => (i, take VALIDATE_LEN (drop (VALIDATE_LEN * i) buf))) (seq 0 n)) ∪ base.
Definition set_chunk (m : mem) (a : addr) (f : nat -> Z) : mem := store m a 0 (map f (seq 0 VALIDATE_LEN)).
Definition memset (m : mem) (a : addr) (c : Z) : mem := set_chunk m a (fun _ => c).
Definition same_chunk (m : mem) (a b : addr) : bool :=
  bool_decide (take VALIDATE_LEN (page m a) = take VALIDATE_LEN (page m b)).

Definition p_ref : addr := VALIDATE_MAX_K.
Definition q_ref : addr := (VALIDATE_MAX_K + 1)%nat.
Definition p_isal : addr := (VALIDATE_MAX_K + 2)%nat.
Definition q_isal : addr := (VALIDATE_MAX_K + 3)%nat.

(** The cross-check of [xor_syndrome] for [k] data disks, from the range [start .. stop] on; [k]
    rounds are enough, as the range shrinks in every one.  [None]: a mismatch. *)
Fixpoint xor_checks (xor : xor_t) (k fuel start stop : nat) (m : mem) : option mem :=
  match fuel with
  | O => Some m
  | S fuel =>
      if (start <=? stop)%nat then
        let ptrs_ref := seq 0 k ++ [p_ref; q_ref] in
        let ptrs_isal := seq 0 k ++ [p_isal; q_isal] in
        let m := set_chunk m p_ref (fun j => u8 (Z.of_nat j * 13 + 0x55)) in
        let m := set_chunk m q_ref (fun j => u8 (Z.of_nat j * 17 + 0xAA)) in
        let m := set_chunk m p_isal (fun j => u8 (Z.of_nat j * 13 + 0x55)) in
        let m := set_chunk m q_isal (fun j => u8 (Z.of_nat j * 17 + 0xAA)) in
        let m := xor (k + 2)%nat start stop VALIDATE_LEN ptrs_ref m in
        let m := isal_xor_syndrome avx512 kmalloc (k + 2) start stop VALIDATE_LEN ptrs_isal m in
        if negb (same_chunk m p_ref p_isal) then None
        else if negb (same_chunk m q_ref q_isal) then None
        else if (start =? stop)%nat then Some m
        else
          let start := S start in
          xor_checks xor k fuel start (if (start <? stop)%nat then stop - 1 else stop)%nat m
      else Some m
  end.

(** One round of [isal_self_validate], for [k] data disks. *)
Definition validate_k (c : calls) (k : nat) (m : mem) : option mem :=
  let ptrs_ref := seq 0 k ++ [p_ref; q_ref] in
  let ptrs_isal := seq 0 k ++ [p_isal; q_isal] in
  let m := memset m p_ref 0 in
  let m := memset m q_ref 0 in
  let m := memset m p_isal 0 in
  let m := memset m q_isal 0 in
  let m := call_gen (gen_syndrome c) (k + 2)%nat VALIDATE_LEN ptrs_ref m in
  let m := isal_gen_syndrome avx512 kmalloc (k + 2) VALIDATE_LEN ptrs_isal m in
  if negb (same_chunk m p_ref p_isal) then None
  else if negb (same_chunk m q_ref q_isal) then None
  else
    match xor_syndrome c with
    | None => Some m
    | Some xor => xor_checks (call_xor xor) k k 0 (k - 1) m
    end.

Definition each {A S} (step : A -> S -> option S) (l : list A) (s : option S) : option S :=
  fold_left (fun s x => match s with Some s => step x s | None => None end) l s.

(** [buf] is what [kmalloc((VALIDATE_MAX_K + 4) * VALIDATE_LEN)] returns. *)
Definition isal_self_validate (c : calls) (buf : option (list Z)) : bool :=
  match buf with
  | None => false
  | Some buf =>
      let m := chunks (VALIDATE_MAX_K + 4) buf in
      let m := fold_left (fun m i => set_chunk m i (fun j => u8 (Z.of_nat i * 31 + Z.of_nat j * 7 + 1)))
        (seq 0 VALIDATE_MAX_K) m in
      bool_decide (is_Some (each (validate_k c) (seq 1 VALIDATE_MAX_K) (Some m)))
  end.

Section Recov.
Context (saved2 : nat -> nat -> nat -> nat -> list addr -> mem -> mem).
Context (savedp : nat -> nat -> nat -> list addr -> mem -> mem) (alloc : nat -> option (list Z)).

Definition gold (j : nat) : addr := j.
Definition copy (j : nat) : addr := (VALIDATE_MAX_K + 2 + j)%nat.

(** [memcpy(ptrs[j], gold[j], VALIDATE_LEN)] for all disks. *)
Definition copy_stripe (k : nat) (m : mem) : mem :=
  fold_left (fun m j => store m (copy j) 0 (take VALIDATE_LEN (page m (gold j)))) (seq 0 (k + 2)) m.

(** The data disks [a] and [b]. *)
Definition check_2data (k : nat) (ab : nat * nat) (s : isal_cpu_cache * mem) : option (isal_cpu_cache * mem) :=
  let '(a, b) := ab in
  let '(cc, m) := s in
  let ptrs := map copy (seq 0 (k + 2)) in
  let m := copy_stripe k m in
  let m := memset m (copy a) 0xEE in
  let m := memset m (copy b) 0x33 in
  let '(cc, m) := isal_2data_recov avx512 saved2 (alloc (k * k)) (alloc (k * k)) (alloc (2 * k * 32))
    (k + 2) VALIDATE_LEN a b ptrs cc m in
  if negb (same_chunk m (copy a) (gold a)) || negb (same_chunk m (copy b) (gold b)) then None else Some (cc, m).

(** The data disk [a] and P. *)
Definition check_datap (k a : nat) (s : isal_cpu_cache * mem) : option (isal_cpu_cache * mem) :=
  let '(cc, m) := s in
  let ptrs := map copy (seq 0 (k + 2)) in
  let m := copy_stripe k m in
  let m := memset m (copy a) 0xEE in
  let m := memset m (copy k) 0x55 in
  let '(cc, m) := isal_datap_recov avx512 savedp (alloc (k * k)) (alloc (k * k)) (alloc (2 * k * 32))
    (k + 2) VALIDATE_LEN a ptrs cc m in
  if negb (same_chunk m (copy a) (gold a)) || negb (same_chunk m (copy k) (gold k)) then None else Some (cc, m).

(** All pairs [a < b < k], in the order of the loops. *)
Definition pairs (k : nat) : list (nat * nat) :=
  flat_map (fun a => map (fun b => (a, b)) (seq (S a) (k - S a))) (seq 0 k).

Definition validate_recov_k (c : calls) (k : nat) (s : isal_cpu_cache * mem) : option (isal_cpu_cache * mem) :=
  let '(cc, m) := s in
  let m := fold_left (fun m j => set_chunk m (gold j) (fun i => u8 (Z.of_nat j * 53 + Z.of_nat i * 11 + 7))) (seq 0 k) m in
  let m := memset m (gold k) 0 in
  let m := memset m (gold (k + 1)) 0 in
  let m := call_gen (gen_syndrome c) (k + 2)%nat VALIDATE_LEN (map gold (seq 0 (k + 2))) m in
  each (check_datap k) (seq 0 k) (each (check_2data k) (pairs k) (Some (cc, m))).

(** [buf] is what [kmalloc(2 * (VALIDATE_MAX_K + 2) * VALIDATE_LEN)] returns, [cc] the tables of
    the processor.  The tables are changed by the calls. *)
Definition isal_validate_recov (c : calls) (buf : option (list Z)) (cc : isal_cpu_cache) : bool :=
  match buf with
  | None => false
  | Some buf =>
      let m := chunks (2 * (VALIDATE_MAX_K + 2)) buf in
      bool_decide (is_Some (each (validate_recov_k c) (seq 2 (VALIDATE_MAX_K - 1)) (Some (cc, m))))
  end.
End Recov.
End Validate.

(** * Installation *)

(** [buf1] and [buf2] are the buffers of the two validations.  [None]: the recovery pointers are
    those of this module already, so that the fallback of a recovery would call itself; the
    kernel loads a module once. *)
Definition isal_install_raid6_call (kmalloc alloc : nat -> option (list Z)) (base : mem) (cpu : gfni_cpu)
    (buf1 buf2 : option (list Z)) (cc : isal_cpu_cache) (g : globals) : option (Z * globals) :=
  if negb (isal_have_gfni cpu) then Some (- ENODEV, g)
  else
    let avx512 := isal_have_avx512_gfni cpu in
    let g := Globals (raid6_call g) (raid6_2data_recov g) (raid6_datap_recov g)
      (saved_call g) (raid6_2data_recov g) (raid6_datap_recov g) (overridden g) avx512 in
    match saved_2data_recov g, saved_datap_recov g with
    | InTree saved2, InTree savedp =>
        let gen := call_gen kmalloc avx512 (gen_syndrome (raid6_call g)) in
        if negb (isal_self_validate kmalloc avx512 base (raid6_call g) buf1) then Some (- EINVAL, g)
        else if negb (isal_validate_recov kmalloc avx512 base (saved2 gen) (savedp gen) alloc (raid6_call g) buf2 cc)
        then Some (- EINVAL, g)
        else Some (0, Globals
          (Calls Isal (Some Isal) (if avx512 then "isal_avx512_gfni" else "isal_avx2_gfni"))
          Isal Isal (raid6_call g) (saved_2data_recov g) (saved_datap_recov g) true avx512)
    | _, _ => None
    end.

Definition isal_uninstall_raid6_call (g : globals) : globals :=
  if overridden g then
    Globals (saved_call g) (saved_2data_recov g) (saved_datap_recov g)
      (saved_call g) (saved_2data_recov g) (saved_datap_recov g) false (use_avx512 g)
  else g.

(** The recovery through the pointers; [None]: a fallback that calls itself. *)
Definition call_2data (kmalloc alloc : nat -> option (list Z)) (g : globals) (disks bytes faila failb : nat) (ptrs : list addr)
    (cc : isal_cpu_cache) (m : mem) : option (isal_cpu_cache * mem) :=
  let k := (disks - 2)%nat in
  let gen := call_gen kmalloc (use_avx512 g) (gen_syndrome (raid6_call g)) in
  match raid6_2data_recov g, saved_2data_recov g with
  | InTree f, _ => Some (cc, f gen disks bytes faila failb ptrs m)
  | Isal, InTree saved =>
      Some (isal_2data_recov (use_avx512 g) (saved gen) (alloc (k * k)%nat) (alloc (k * k)%nat) (alloc (2 * k * 32)%nat)
        disks bytes faila failb ptrs cc m)
  | Isal, Isal => None
  end.

Definition call_datap (kmalloc alloc : nat -> option (list Z)) (g : globals) (disks bytes faila : nat) (ptrs : list addr)
    (cc : isal_cpu_cache) (m : mem) : option (isal_cpu_cache * mem) :=
  let k := (disks - 2)%nat in
  let gen := call_gen kmalloc (use_avx512 g) (gen_syndrome (raid6_call g)) in
  match raid6_datap_recov g, saved_datap_recov g with
  | InTree f, _ => Some (cc, f gen disks bytes faila ptrs m)
  | Isal, InTree saved =>
      Some (isal_datap_recov (use_avx512 g) (saved gen) (alloc (k * k)%nat) (alloc (k * k)%nat) (alloc (2 * k * 32)%nat)
        disks bytes faila ptrs cc m)
  | Isal, Isal => None
  end.
