(* ===== verification/IsalInstallCorrect.v ===== *)
(** Loading the GFNI module: the self-validation accepts every correct implementation in place,
    what is installed is correct, and unloading restores what was there. *)

From stdpp Require Import strings.
From S2P Require Import Prelude.
From S2P Require Import GF256.
From S2P Require Import PageMem.
From S2P Require Import Syndrome.
From S2P Require Import Recov.
From S2P Require Import RaidIsal.
From S2P Require Import IsalRecov.
From S2P Require Import IsalInstall.
From S2P Require Import Raid6Theorems.

(** * Chunks *)

Definition chunk_ok (l : list Z) : Prop := byte_page l /\ length l = VALIDATE_LEN.

(** A buffer of [n] chunks. *)
Definition buffer (n : nat) (m : mem) : Prop := forall a, (a < n)%nat -> exists l, m !! a = Some l /\ chunk_ok l.

Lemma buffer_page n m a : buffer n m -> (a < n)%nat -> chunk_ok (page m a).
Proof. intros Hm Ha. destruct (Hm a Ha) as (l & Hl & H). unfold page. by rewrite Hl. Qed.

Lemma buffer_insert n m a l : buffer n m -> chunk_ok l -> buffer n (<[a := l]> m).
Proof.
  intros Hm Hl b Hb. destruct (decide (a = b)) as [<-|Hne]; [exists l; by rewrite lookup_insert_eq|].
  rewrite lookup_insert_ne by done. by apply Hm.
Qed.

Lemma chunk_ok_map f : (forall j, is_u8 (f j)) -> chunk_ok (map f (seq 0 VALIDATE_LEN)).
Proof. intros Hf. split; [by apply Forall_map_u8|]. by rewrite length_map, length_seq. Qed.

Lemma filled_chunk f l : length l = VALIDATE_LEN -> filled f VALIDATE_LEN l = map f (seq 0 VALIDATE_LEN).
Proof. intros Hl. unfold filled. rewrite drop_ge by lia. by rewrite app_nil_r. Qed.

Lemma store_chunk n m a bs : buffer n m -> (a < n)%nat -> length bs = VALIDATE_LEN -> store m a 0 bs = <[a := bs]> m.
Proof.
  intros Hm Ha Hbs. unfold store, splice. destruct (buffer_page n m a Hm Ha) as [_ Hl].
  rewrite drop_ge by lia. cbn [take app]. by rewrite app_nil_r.
Qed.

Lemma set_chunk_eq n m a f : buffer n m -> (a < n)%nat -> set_chunk m a f = <[a := map f (seq 0 VALIDATE_LEN)]> m.
Proof. intros Hm Ha. apply (store_chunk n); [done|done|]. by rewrite length_map, length_seq. Qed.

Lemma same_chunk_eq m a b : page m a = page m b -> same_chunk m a b = true.
Proof. intros H. unfold same_chunk. rewrite H. by apply bool_decide_eq_true. Qed.

Lemma chunks_buffer base n buf : (VALIDATE_LEN * n <= length buf)%nat -> byte_page buf -> buffer n (chunks base n buf).
Proof.
  intros Hlen Hbuf a Ha. exists (take VALIDATE_LEN (drop (VALIDATE_LEN * a) buf)). split.
  - unfold chunks. apply lookup_union_Some_l, elem_of_list_to_map_1.
    + rewrite map_map. cbn. rewrite map_id. apply NoDup_ListNoDup, seq_NoDup.
    + apply list_elem_of_In, in_map_iff. exists a. split; [done|]. apply in_seq. lia.
  - split; [by apply Forall_take, Forall_drop|]. rewrite length_take, length_drop. unfold VALIDATE_LEN in *. lia.
Qed.

(** * Stripes in a buffer *)

Section Table.
Context (n : nat) (data : list addr) (p q : addr).
Context (Hdata : forall a, a ∈ data -> (a < n)%nat /\ a <> p /\ a <> q) (Hp : (p < n)%nat) (Hq : (q < n)%nat) (Hpq : p <> q).
Context (Hk : (0 < length data)%nat).

Let k := length data.
Let tbl := data ++ [p; q].

Lemma tbl_p : p_ptr (k + 2) tbl = p.
Proof. clear Hdata Hp Hq Hpq Hk. unfold p_ptr, ptr, tbl. rewrite lookup_app_r by lia. by replace (k + 2 - 2 - length data)%nat with 0%nat by lia. Qed.

Lemma tbl_q : q_ptr (k + 2) tbl = q.
Proof. clear Hdata Hp Hq Hpq Hk. unfold q_ptr, ptr, tbl. rewrite lookup_app_r by lia. by replace (k + 2 - 1 - length data)%nat with 1%nat by lia. Qed.

Lemma tbl_data : data_ptrs (k + 2) tbl = data.
Proof. clear Hdata Hp Hq Hpq Hk. unfold data_ptrs, tbl. replace (k + 2 - 2)%nat with (length data) by lia. apply take_app_length. Qed.

Lemma tbl_stripe_ok m : buffer n m -> stripe_ok (k + 2) VALIDATE_LEN tbl m.
Proof.
  intros Hm. split.
  - unfold tbl. rewrite length_app. done.
  - lia.
  - rewrite tbl_p, tbl_data. intros H. by destruct (Hdata p H) as (_ & ? & _).
  - rewrite tbl_q, tbl_data. intros H. by destruct (Hdata q H) as (_ & _ & ?).
  - by rewrite tbl_p, tbl_q.
  - intros a Ha. assert (a < n)%nat as Han.
    { unfold tbl in Ha. apply elem_of_app in Ha as [Ha|Ha]; [by apply Hdata|].
      apply elem_of_cons in Ha as [->|Ha]; [done|]. by apply list_elem_of_singleton in Ha as ->. }
    destruct (Hm a Han) as (l & Hl & Hb & Hlen). exists l. split_and!; [done|done|lia].
Qed.

(** The two parity chunks after the syndromes. *)
Lemma tbl_syndromes m : buffer n m ->
  with_syndromes (k + 2) VALIDATE_LEN tbl m =
  <[q := map (fun b => q_syn (column m data b)) (seq 0 VALIDATE_LEN)]>
    (<[p := map (fun b => p_syn (column m data b)) (seq 0 VALIDATE_LEN)]> m).
Proof.
  intros Hm. unfold with_syndromes. rewrite tbl_p, tbl_q, tbl_data.
  rewrite !filled_chunk; [done|..]; by eapply buffer_page.
Qed.

Lemma tbl_slice start stop : (start <= stop < k)%nat -> slice_ptrs start stop tbl = drop start (take (S stop) data).
Proof. intros Hr. unfold slice_ptrs, tbl. by rewrite take_app_le by lia. Qed.

Lemma tbl_xor start stop m : buffer n m -> (start <= stop < k)%nat ->
  let cols := column m (drop start (take (S stop) data)) in
  with_xor_syndromes (k + 2) start stop VALIDATE_LEN tbl m =
  <[q := map (fun b => pget (page m q) b ⊕ gfmul (alpha start) (q_syn (cols b))) (seq 0 VALIDATE_LEN)]>
    (<[p := map (fun b => pget (page m p) b ⊕ p_syn (cols b)) (seq 0 VALIDATE_LEN)]> m).
Proof.
  intros Hm Hr cols. unfold with_xor_syndromes. rewrite tbl_p, tbl_q, tbl_slice by done.
  rewrite !filled_chunk; [done|..]; by eapply buffer_page.
Qed.

Lemma column_bytes_data m srcs b : buffer n m -> (forall a, a ∈ srcs -> a ∈ data) -> Forall is_u8 (column m srcs b).
Proof. intros Hm Hs. apply column_u8. intros a Ha%Hs. destruct (Hdata a Ha) as (Han & _). by eapply buffer_page. Qed.
End Table.

(** A sequence of checks that all pass. *)
Lemma each_ok {A S} (I : S -> Prop) (step : A -> S -> option S) l s :
  I s -> (forall x s, x ∈ l -> I s -> exists s', step x s = Some s' /\ I s') ->
  exists s', each step l (Some s) = Some s' /\ I s'.
Proof.
  unfold each. revert s. induction l as [|x l IH]; intros s Hs Hstep; [by exists s|]. cbn [fold_left].
  destruct (Hstep x s) as (s' & -> & Hs'); [set_solver|done|]. apply IH; [done|]. intros y t Hy. apply Hstep. set_solver.
Qed.

(** * The validation of the syndromes *)

Section SelfValidate.
Context (kmalloc : nat -> option (list Z)) (avx512 : bool).
Context (Halloc : forall n, exists l, kmalloc n = Some l /\ length l = n).

(** The buffer of [isal_self_validate]. *)
#[local] Abbreviation N := (VALIDATE_MAX_K + 4)%nat.

Lemma parity_addrs : (p_ref < N)%nat /\ (q_ref < N)%nat /\ (p_isal < N)%nat /\ (q_isal < N)%nat /\ p_ref <> q_ref /\ p_isal <> q_isal.
Proof. unfold p_ref, q_ref, p_isal, q_isal, VALIDATE_MAX_K. lia. Qed.

Section Round.
Context (k : nat) (Hk : (1 <= k <= VALIDATE_MAX_K)%nat).

Let data := seq 0 k.

Lemma validate_data a : a ∈ data -> (a < VALIDATE_MAX_K)%nat.
Proof. intros Ha%elem_of_seq. lia. Qed.

Lemma ref_table a : a ∈ data -> (a < N)%nat /\ a <> p_ref /\ a <> q_ref.
Proof. intros Ha%validate_data. unfold p_ref, q_ref. lia. Qed.

Lemma isal_table a : a ∈ data -> (a < N)%nat /\ a <> p_isal /\ a <> q_isal.
Proof. intros Ha%validate_data. unfold p_isal, q_isal. lia. Qed.

Lemma length_data : length data = k.
Proof. apply length_seq. Qed.

(** Writing the parity chunks of one table, then those of the other from the same functions of
    the data chunks. *)
Lemma parity_pair m P Q (P' Q' : mem -> nat -> Z) :
  buffer N m -> (forall b, is_u8 (P b)) -> (forall b, is_u8 (Q b)) ->
  let m1 := <[q_ref := map Q (seq 0 VALIDATE_LEN)]> (<[p_ref := map P (seq 0 VALIDATE_LEN)]> m) in
  let m2 := <[q_isal := map (Q' m1) (seq 0 VALIDATE_LEN)]> (<[p_isal := map (P' m1) (seq 0 VALIDATE_LEN)]> m1) in
  (forall b, P' m1 b = P b) -> (forall b, Q' m1 b = Q b) ->
  buffer N m2 /\ same_chunk m2 p_ref p_isal = true /\ same_chunk m2 q_ref q_isal = true.
Proof.
  intros Hm HP HQ m1 m2 HP' HQ'. assert (p_ref <> q_ref /\ p_ref <> p_isal /\ p_ref <> q_isal /\ q_ref <> p_isal /\
    q_ref <> q_isal /\ p_isal <> q_isal) as (? & ? & ? & ? & ? & ?) by done.
  split_and!.
  - do 4 (apply buffer_insert; [|by apply chunk_ok_map; intros; rewrite ?HP', ?HQ']). done.
  - apply same_chunk_eq. unfold m2. rewrite !(page_insert_ne _ q_isal), page_insert_eq, page_insert_ne by done.
    unfold m1 at 1. rewrite page_insert_ne, page_insert_eq by done. apply map_ext. done.
  - apply same_chunk_eq. unfold m2. rewrite page_insert_eq, !page_insert_ne by done.
    unfold m1 at 1. rewrite page_insert_eq by done. apply map_ext. done.
Qed.

(** The data chunks stay when the parity chunks of the reference are written. *)
Lemma column_ref m lp lq srcs b :
  (forall a, a ∈ srcs -> a ∈ data) -> column (<[q_ref := lq]> (<[p_ref := lp]> m)) srcs b = column m srcs b.
Proof.
  intros Hs. apply column_ext. intros a Ha%Hs. destruct (ref_table a Ha) as (_ & ? & ?). by rewrite !page_insert_ne.
Qed.

Section Gen.
Context {dom : nat -> nat -> Prop} {gen : gen_t} {Hgen : SyndromeGen dom gen} (Hdom : dom (k + 2)%nat VALIDATE_LEN).

Lemma gen_check m : buffer N m ->
  let m2 := isal_gen_syndrome avx512 kmalloc (k + 2) VALIDATE_LEN (data ++ [p_isal; q_isal])
    (gen (k + 2)%nat VALIDATE_LEN (data ++ [p_ref; q_ref]) m) in
  buffer N m2 /\ same_chunk m2 p_ref p_isal = true /\ same_chunk m2 q_ref q_isal = true.
Proof.
  intros Hm m2. unfold m2. pose proof length_data as Hl. destruct parity_addrs as (? & ? & ? & ? & ? & ?).
  pose proof (tbl_stripe_ok N data p_ref q_ref ref_table) as Hs1. pose proof (tbl_syndromes N data p_ref q_ref) as E1.
  pose proof (tbl_stripe_ok N data p_isal q_isal isal_table) as Hs2. pose proof (tbl_syndromes N data p_isal q_isal) as E2.
  rewrite Hl in *.
  rewrite (Hgen _ _ (data ++ [p_ref; q_ref]) m Hdom) by (apply Hs1; done || apply Hk). rewrite E1 by (done || apply Hk).
  assert (forall b, Forall is_u8 (column m data b)) as H8 by (intros; by apply (column_bytes_data N data p_ref q_ref ref_table)).
  set (m1 := <[q_ref := _]> _).
  assert (buffer N m1) by (do 2 (apply buffer_insert; [|apply chunk_ok_map; auto with md]); done).
  rewrite (isal_gen avx512 kmalloc Halloc); [|unfold VALIDATE_MAX_K, VALIDATE_LEN in *; lia|apply Hs2; done || apply Hk].
  rewrite E2 by (done || apply Hk). unfold m1.
  apply (parity_pair m (fun b => p_syn (column m data b)) (fun b => q_syn (column m data b))
    (fun m b => p_syn (column m data b)) (fun m b => q_syn (column m data b))); [done|auto with md..| |];
    intros b; by rewrite column_ref.
Qed.
End Gen.

Section Xor.
Context {dom : nat -> nat -> Prop} {xor : xor_t} {Hxor : SyndromeXor dom xor} (Hdom : dom (k + 2)%nat VALIDATE_LEN).

Lemma xor_check start stop m (gp gq : nat -> Z) :
  buffer N m -> (start <= stop < k)%nat -> (forall b, is_u8 (gp b)) -> (forall b, is_u8 (gq b)) ->
  page m p_ref = map gp (seq 0 VALIDATE_LEN) -> page m p_isal = map gp (seq 0 VALIDATE_LEN) ->
  page m q_ref = map gq (seq 0 VALIDATE_LEN) -> page m q_isal = map gq (seq 0 VALIDATE_LEN) ->
  let m2 := isal_xor_syndrome avx512 kmalloc (k + 2) start stop VALIDATE_LEN (data ++ [p_isal; q_isal])
    (xor (k + 2)%nat start stop VALIDATE_LEN (data ++ [p_ref; q_ref]) m) in
  buffer N m2 /\ same_chunk m2 p_ref p_isal = true /\ same_chunk m2 q_ref q_isal = true.
Proof.
  intros Hm Hr Hgp Hgq Ep Ep' Eq Eq' m2. unfold m2. pose proof length_data as Hl.
  destruct parity_addrs as (? & ? & ? & ? & ? & ?).
  pose proof (tbl_stripe_ok N data p_ref q_ref ref_table) as Hs1. pose proof (tbl_xor N data p_ref q_ref) as E1.
  pose proof (tbl_stripe_ok N data p_isal q_isal isal_table) as Hs2. pose proof (tbl_xor N data p_isal q_isal) as E2.
  rewrite Hl in *. set (slice := drop start (take (S stop) data)) in *.
  assert (forall a, a ∈ slice -> a ∈ data) as Hslice by (intros a Ha%subseteq_drop%subseteq_take; done).
  assert (forall b, Forall is_u8 (column m slice b)) as H8
    by (intros; by apply (column_bytes_data N data p_ref q_ref ref_table)).
  assert (forall a b, (a < N)%nat -> is_u8 (pget (page m a) b)) as Hpg
    by (intros a b Ha; apply pget_u8; by apply (buffer_page N m a Hm Ha)).
  assert (start <= stop < k + 2 - 2)%nat by lia.
  rewrite (Hxor _ _ _ _ (data ++ [p_ref; q_ref]) m Hdom) by (done || apply Hs1; done || apply Hk).
  rewrite E1 by (done || lia). fold slice. set (m1 := <[q_ref := _]> _).
  assert (buffer N m1) by (do 2 (apply buffer_insert; [|apply chunk_ok_map; auto with md]); done).
  rewrite (isal_xor avx512 kmalloc Halloc);
    [|unfold VALIDATE_MAX_K, VALIDATE_LEN in *; lia|apply Hs2; done || apply Hk|done].
  rewrite E2 by (done || lia). fold slice. unfold m1.
  apply (parity_pair m (fun b => pget (page m p_ref) b ⊕ p_syn (column m slice b))
    (fun b => pget (page m q_ref) b ⊕ gfmul (alpha start) (q_syn (column m slice b)))
    (fun m b => pget (page m p_isal) b ⊕ p_syn (column m slice b))
    (fun m b => pget (page m q_isal) b ⊕ gfmul (alpha start) (q_syn (column m slice b)))); [done|auto with md..| |];
    intros b; rewrite column_ref, !page_insert_ne by done; congruence.
Qed.

Lemma xor_checks_ok fuel start stop m : buffer N m -> (stop < k)%nat ->
  exists m', xor_checks kmalloc avx512 xor k fuel start stop m = Some m' /\ buffer N m'.
Proof.
  revert start stop m. induction fuel as [|fuel IH]; intros start stop m Hm Hstop; cbn [xor_checks]; [by exists m|].
  destruct (Nat.leb_spec start stop) as [Hle|]; [|by exists m].
  destruct parity_addrs as (? & ? & ? & ? & ? & ?).
  assert (p_ref <> p_isal /\ p_ref <> q_isal /\ q_ref <> p_isal /\ q_ref <> q_isal) as (? & ? & ? & ?) by done.
  set (gp := fun j => u8 (Z.of_nat j * 13 + 0x55)). set (gq := fun j => u8 (Z.of_nat j * 17 + 0xAA)).
  assert (forall b, is_u8 (gp b)) by (intros; apply is_u8_u8). assert (forall b, is_u8 (gq b)) by (intros; apply is_u8_u8).
  assert (forall m l, buffer N m -> chunk_ok l -> forall a, buffer N (<[a := l]> m)) by (intros; by apply buffer_insert).
  rewrite (set_chunk_eq N m p_ref) by done. rewrite (set_chunk_eq N _ q_ref) by auto using chunk_ok_map.
  rewrite (set_chunk_eq N _ p_isal) by auto using chunk_ok_map. rewrite (set_chunk_eq N _ q_isal) by auto using chunk_ok_map.
  set (m0 := <[q_isal := _]> _).
  assert (buffer N m0) as Hm0 by (repeat (apply buffer_insert; [|by apply chunk_ok_map]); done).
  fold data. destruct (xor_check start stop m0 gp gq Hm0 ltac:(lia)) as (Hm2 & -> & ->); try done.
  1-4: unfold m0; rewrite ?page_insert_eq, ?page_insert_ne, ?page_insert_eq, ?page_insert_ne, ?page_insert_eq, ?page_insert_ne, ?page_insert_eq by done; done.
  cbn [negb]. destruct (Nat.eqb_spec start stop); [by eexists|].
  apply IH; [done|]. destruct (Nat.ltb_spec (S start) stop); lia.
Qed.
End Xor.
End Round.

(** An implementation in place that keeps its contracts on the stripes of the validation. *)
Definition calls_correct (c : calls) : Prop :=
  (exists dom gen, gen_syndrome c = InTree gen /\ SyndromeGen dom gen /\
     forall k, (1 <= k <= VALIDATE_MAX_K)%nat -> dom (k + 2)%nat VALIDATE_LEN) /\
  (xor_syndrome c = None \/ exists dom xor, xor_syndrome c = Some (InTree xor) /\ SyndromeXor dom xor /\
     forall k, (1 <= k <= VALIDATE_MAX_K)%nat -> dom (k + 2)%nat VALIDATE_LEN).

Lemma memset_eq n m a c : buffer n m -> (a < n)%nat -> memset m a c = <[a := map (fun _ => c) (seq 0 VALIDATE_LEN)]> m.
Proof. apply set_chunk_eq. Qed.

Lemma memset_buffer n m a c : buffer n m -> (a < n)%nat -> is_u8 c -> buffer n (memset m a c).
Proof. intros Hm Ha Hc. rewrite (memset_eq n) by done. apply buffer_insert; [done|]. by apply chunk_ok_map. Qed.

Lemma validate_k_ok c k m : calls_correct c -> (1 <= k <= VALIDATE_MAX_K)%nat -> buffer N m ->
  exists m', validate_k kmalloc avx512 c k m = Some m' /\ buffer N m'.
Proof.
  intros [(gdom & gen & Eg & Hgen & Hgd) Hx] Hk Hm. unfold validate_k. rewrite Eg. cbn [call_gen].
  destruct parity_addrs as (? & ? & ? & ? & _).
  set (m0 := memset _ q_isal 0). assert (buffer N m0) as Hm0 by (do 4 (apply memset_buffer; [|done..]); done).
  destruct (gen_check k Hk (Hgd k Hk) m0 Hm0) as (Hm2 & -> & ->). cbn [negb].
  destruct Hx as [-> |(xdom & xor & -> & Hxor & Hxd)]; [by eexists|]. cbn [call_xor].
  apply (xor_checks_ok k Hk (Hxd k Hk)); [done|lia].
Qed.

Lemma self_validate_ok base c buf : calls_correct c -> byte_page buf -> length buf = (N * VALIDATE_LEN)%nat ->
  isal_self_validate kmalloc avx512 base c (Some buf) = true.
Proof.
  intros Hc Hb Hl. unfold isal_self_validate. apply bool_decide_eq_true.
  assert (forall l m, (forall i, i ∈ l -> (i < N)%nat) -> buffer N m ->
    buffer N (fold_left (fun m i => set_chunk m i (fun j => u8 (Z.of_nat i * 31 + Z.of_nat j * 7 + 1))) l m)) as Hinit.
  { induction l as [|i l IH]; intros m Hi Hm; [done|]. cbn [fold_left]. apply IH; [set_solver|].
    rewrite (set_chunk_eq N) by (done || apply Hi; set_solver). apply buffer_insert; [done|]. apply chunk_ok_map. auto with md. }
  edestruct (each_ok (buffer N) (validate_k kmalloc avx512 c)) as (m' & E & _).
  3: rewrite E; by eexists.
  - apply Hinit; [intros i Hi%elem_of_seq; lia|]. apply chunks_buffer; [lia|done].
  - intros k m Hk%elem_of_seq Hm. apply validate_k_ok; [done| |done]. unfold VALIDATE_MAX_K in *. lia.
Qed.
End SelfValidate.

(** * The validation of the recovery *)

Section ValidateRecov.
Context (kmalloc : nat -> option (list Z)) (avx512 : bool) (base : mem).
Context (saved2 : nat -> nat -> nat -> nat -> list addr -> mem -> mem).
Context (savedp : nat -> nat -> nat -> list addr -> mem -> mem) (alloc : nat -> option (list Z)).
Context (zero : addr) (zl : list Z).

(** The buffer of [isal_validate_recov]. *)
#[local] Abbreviation N := (2 * (VALIDATE_MAX_K + 2))%nat.

Context (Hsize : forall n, alloc_size n (alloc n)).
Context (Hzero : (N <= zero)%nat) (Hzl : byte_page zl) (Hzlen : (VALIDATE_LEN <= length zl)%nat)
  (Hz0 : forall b, (b < VALIDATE_LEN)%nat -> pget zl b = 0).

Section Round.
Context (k : nat) (Hk : (2 <= k <= VALIDATE_MAX_K)%nat).

Let golds := map gold (seq 0 (k + 2)).
Let copies := map copy (seq 0 (k + 2)).

(** Memory between two checks: the chunks, the zero page, and the pristine stripe. *)
Definition gold_ok (m : mem) : Prop :=
  buffer N m /\ m !! zero = Some zl /\ consistent (k + 2) VALIDATE_LEN golds m.

Lemma ptr_golds j : (j < k + 2)%nat -> ptr golds j = gold j.
Proof. intros Hj. unfold golds, ptr. by rewrite list_lookup_fmap, lookup_seq_lt. Qed.

Lemma ptr_copies j : (j < k + 2)%nat -> ptr copies j = copy j.
Proof. intros Hj. unfold copies, ptr. by rewrite list_lookup_fmap, lookup_seq_lt. Qed.

Lemma copy_lt j : (j < k + 2)%nat -> (copy j < N)%nat.
Proof. unfold copy, VALIDATE_MAX_K in *. lia. Qed.

Lemma gold_lt j : (j < k + 2)%nat -> (gold j < VALIDATE_MAX_K + 2)%nat.
Proof. unfold gold, VALIDATE_MAX_K in *. lia. Qed.

Lemma copy_gold i j : (j < k + 2)%nat -> copy i <> gold j.
Proof. unfold gold, copy, VALIDATE_MAX_K in *. lia. Qed.

(** A change of a copy keeps the rest. *)
Lemma gold_ok_insert m j l : (j < k + 2)%nat -> chunk_ok l -> gold_ok m -> gold_ok (<[copy j := l]> m).
Proof.
  intros Hj Hl (Hm & Hz & Hc). split_and!.
  - by apply buffer_insert.
  - rewrite lookup_insert_ne; [done|]. pose proof (copy_lt j Hj). lia.
  - assert (forall a, a ∈ golds -> page (<[copy j := l]> m) a = page m a) as Hp.
    { intros a [i [-> Hi%elem_of_seq]]%list_elem_of_fmap. apply page_insert_ne, copy_gold. lia. }
    intros b Hb. destruct (Hc b Hb) as [HP HQ].
    assert (length golds = k + 2)%nat by (unfold golds; by rewrite length_map, length_seq).
    unfold p_ptr, q_ptr in *. rewrite !Hp by (apply elem_of_ptr; lia).
    rewrite (column_ext _ m) by (intros a Ha; apply Hp; by eapply subseteq_take). done.
Qed.

Lemma copy_stripe_ok m : gold_ok m ->
  gold_ok (copy_stripe k m) /\
  forall j, (j < k + 2)%nat -> page (copy_stripe k m) (copy j) = page (copy_stripe k m) (gold j).
Proof.
  intros Hm. unfold copy_stripe.
  assert (forall n, (n <= k + 2)%nat ->
    let m' := fold_left (fun m j => store m (copy j) 0 (take VALIDATE_LEN (page m (gold j)))) (seq 0 n) m in
    gold_ok m' /\ (forall j, (j < k + 2)%nat -> page m' (gold j) = page m (gold j)) /\
    forall j, (j < n)%nat -> page m' (copy j) = page m (gold j)) as Hloop.
  2: { destruct (Hloop (k + 2)%nat) as (? & Hg & Hc); [lia|]. split; [done|]. intros j Hj. by rewrite Hg, Hc. }
  induction n as [|n IH]; intros Hn m'; [split_and!; [done|done|lia]|].
  unfold m'. rewrite seq_S, fold_left_app. cbn [fold_left Nat.add].
  destruct IH as (Hok & Hg & Hc); [lia|]. set (m1 := fold_left _ (seq 0 n) m) in *.
  assert (chunk_ok (page m1 (gold n))) as Hch.
  { apply (buffer_page N); [apply Hok|]. pose proof (gold_lt n). unfold VALIDATE_MAX_K in *. lia. }
  rewrite take_ge by (destruct Hch; lia).
  rewrite (store_chunk N) by (apply Hok || apply Hch || (apply copy_lt; lia)).
  split_and!.
  - apply gold_ok_insert; [lia|done|done].
  - intros j Hj. rewrite page_insert_ne by (by apply copy_gold). by apply Hg.
  - intros j Hj. destruct (decide (j = n)) as [->|Hne].
    + rewrite page_insert_eq. apply Hg. lia.
    + rewrite page_insert_ne by (unfold copy; lia). apply Hc. lia.
Qed.

(** The copied stripe can be handed to the recovery. *)
Lemma copies_ok m : gold_ok m -> (forall j, (j < k + 2)%nat -> page m (copy j) = page m (gold j)) ->
  recov_ok zero (k + 2) VALIDATE_LEN copies m /\ consistent (k + 2) VALIDATE_LEN copies m.
Proof.
  intros (Hm & Hz & Hc) Heq.
  assert (length copies = k + 2)%nat as Hlen by (unfold copies; by rewrite length_map, length_seq).
  assert (NoDup copies) as Hnd.
  { apply NoDup_fmap_2; [intros i j H; unfold copy in H; lia|]. apply NoDup_ListNoDup, seq_NoDup. }
  assert (forall a, a ∈ copies -> (a < N)%nat) as Hlt.
  { intros a [i [-> Hi%elem_of_seq]]%list_elem_of_fmap. apply copy_lt. lia. }
  assert (forall i, i = (k + 2 - 2)%nat \/ i = (k + 2 - 1)%nat -> ptr copies i ∉ data_ptrs (k + 2) copies) as Hnot.
  { intros i Hi [j Hj]%list_elem_of_lookup. unfold data_ptrs in Hj. apply lookup_take_Some in Hj as [Hj Hjk].
    assert (j = i); [|lia]. eapply (NoDup_lookup copies); [done|done|]. apply ptr_lookup. lia. }
  split; [split|].
  - split; [done|lia|apply Hnot; lia|apply Hnot; lia| |].
    + unfold p_ptr, q_ptr. apply ptr_inj; [done|lia..].
    + intros a Ha. destruct (Hm a (Hlt a Ha)) as (l & Hl & Hb & Hll). exists l. split_and!; [done|done|lia].
  - done.
  - intros Hin%Hlt. lia.
  - exists zl. done.
  - assert (forall b srcs, (forall j, j ∈ srcs -> (j < k + 2)%nat) -> column m (map copy srcs) b = column m (map gold srcs) b) as Hcol.
    { intros b srcs Hs. unfold column. rewrite !map_map. apply map_ext_in. intros j Hj%list_elem_of_In. by rewrite Heq by auto. }
    intros b Hb. destruct (Hc b Hb) as [HP HQ]. unfold p_ptr, q_ptr in *.
    rewrite !ptr_golds in HP, HQ by lia. rewrite !ptr_copies, !Heq by lia.
    unfold data_ptrs, copies, golds in *. rewrite <- !fmap_take in *.
    change (@fmap list _ nat addr copy) with (map copy). change (@fmap list _ nat addr gold) with (map gold) in *.
    rewrite Hcol; [done|]. intros j Hj%subseteq_take%elem_of_seq. lia.
Qed.

(** The bytes of a lost chunk come back. *)
Lemma restored_chunk l g : chunk_ok l -> length g = VALIDATE_LEN -> restored VALIDATE_LEN l g = l.
Proof.
  intros [_ Hl] Hg. unfold restored. rewrite filled_chunk by done. apply pget_eq; [by rewrite length_map, length_seq|].
  intros b Hb. rewrite length_map, length_seq in Hb. by apply pget_map_seq.
Qed.

Lemma const_chunk c : is_u8 c -> chunk_ok (map (fun _ : nat => c) (seq 0 VALIDATE_LEN)).
Proof. intros Hc. by apply chunk_ok_map. Qed.

Lemma chunk_garbage l : chunk_ok l -> garbage VALIDATE_LEN l.
Proof. intros [Hb Hl]. split; [done|lia]. Qed.

(** What a passed check leaves. *)
Definition check_ok (s : isal_cpu_cache * mem) : Prop := cache_ok s.1 /\ gold_ok s.2.

Lemma check_2data_ok ab s : ab ∈ pairs k -> check_ok s ->
  exists s', check_2data avx512 saved2 alloc k ab s = Some s' /\ check_ok s'.
Proof.
  destruct ab as [a b], s as [cc m]. intros Hab [Hcc Hm]. cbn [fst snd] in *.
  apply list_elem_of_In, in_flat_map in Hab as (a' & Ha & (b' & [= <- <-] & Hb)%in_map_iff).
  apply in_seq in Ha, Hb. cbn [check_2data]. destruct (copy_stripe_ok m Hm) as [Hm1 Heq].
  set (m1 := copy_stripe k m) in *. destruct (copies_ok m1 Hm1 Heq) as [Hrec Hcons].
  assert (copy a' < N)%nat by (apply copy_lt; lia). assert (copy b' < N)%nat by (apply copy_lt; lia).
  rewrite (memset_eq N m1) by (apply Hm1 || done).
  rewrite (memset_eq N) by (done || (apply buffer_insert; [apply Hm1|by apply const_chunk])).
  rewrite insert_insert_ne by (unfold copy; lia).
  rewrite <- (ptr_copies a'), <- (ptr_copies b') by lia. fold copies.
  pose proof (isal_2data_ok avx512 (alloc (k * k)%nat) (alloc (k * k)%nat) (alloc (2 * k * 32)%nat) (k + 2) VALIDATE_LEN copies)
    as Hisal. replace (k + 2 - 2)%nat with k in Hisal by lia.
  specialize (Hisal (Hsize _) (Hsize _) (Hsize _) zero m1 Hrec Hcons ltac:(done) (fun _ _ => False)
    ltac:(left; unfold VALIDATE_MAX_K in *; lia) saved2 ltac:(intros ?????????; done) a' b'
    (map (fun _ => 0xEE) (seq 0 VALIDATE_LEN)) (map (fun _ => 0x33) (seq 0 VALIDATE_LEN)) cc Hcc ltac:(lia)
    ltac:(unfold VALIDATE_MAX_K in *; lia)
    ltac:(by apply chunk_garbage, const_chunk) ltac:(by apply chunk_garbage, const_chunk)).
  destruct (isal_2data_recov _ _ _ _ _ _ _ _ _ _ _ _) as [cc' m']. destruct Hisal as [Hcc' ->].
  assert (forall j, (j < k + 2)%nat -> chunk_ok (page m1 (copy j))) as Hch
    by (intros j Hj; apply (buffer_page N); [apply Hm1|by apply copy_lt]).
  rewrite !ptr_copies by lia.
  rewrite !restored_chunk by (try (apply Hch; lia); by rewrite length_map, length_seq).
  rewrite !same_chunk_eq; [eexists; split; [done|]|..].
  - split; [done|]. apply gold_ok_insert; [lia|apply Hch; lia|]. apply gold_ok_insert; [lia|apply Hch; lia|done].
  - rewrite (page_insert_ne _ (copy a')), page_insert_eq by (unfold copy; lia).
    rewrite !page_insert_ne by (apply copy_gold; lia). apply Heq. lia.
  - rewrite page_insert_eq, !page_insert_ne by (apply copy_gold; lia). apply Heq. lia.
Qed.

Lemma check_datap_ok a s : a ∈ seq 0 k -> check_ok s ->
  exists s', check_datap avx512 savedp alloc k a s = Some s' /\ check_ok s'.
Proof.
  destruct s as [cc m]. intros Ha%elem_of_seq [Hcc Hm]. cbn [fst snd] in *. cbn [check_datap].
  destruct (copy_stripe_ok m Hm) as [Hm1 Heq].
  set (m1 := copy_stripe k m) in *. destruct (copies_ok m1 Hm1 Heq) as [Hrec Hcons].
  assert (copy a < N)%nat by (apply copy_lt; lia). assert (copy k < N)%nat by (apply copy_lt; lia).
  rewrite (memset_eq N m1) by (apply Hm1 || done).
  rewrite (memset_eq N) by (done || (apply buffer_insert; [apply Hm1|by apply const_chunk])).
  rewrite insert_insert_ne by (unfold copy; lia).
  assert (p_ptr (k + 2) copies = copy k) as Ep by (unfold p_ptr; rewrite ptr_copies by lia; f_equal; lia).
  rewrite <- (ptr_copies a) by lia. rewrite <- Ep. fold copies.
  pose proof (isal_datap_ok avx512 (alloc (k * k)%nat) (alloc (k * k)%nat) (alloc (2 * k * 32)%nat) (k + 2) VALIDATE_LEN copies)
    as Hisal. replace (k + 2 - 2)%nat with k in Hisal by lia.
  specialize (Hisal (Hsize _) (Hsize _) (Hsize _) zero m1 Hrec Hcons ltac:(done) (fun _ _ => False)
    ltac:(left; unfold VALIDATE_MAX_K in *; lia) savedp ltac:(intros ????????; done) a
    (map (fun _ => 0xEE) (seq 0 VALIDATE_LEN)) (map (fun _ => 0x55) (seq 0 VALIDATE_LEN)) cc Hcc ltac:(lia)
    ltac:(unfold VALIDATE_MAX_K in *; lia)
    ltac:(by apply chunk_garbage, const_chunk) ltac:(by apply chunk_garbage, const_chunk)).
  destruct (isal_datap_recov _ _ _ _ _ _ _ _ _ _ _) as [cc' m']. destruct Hisal as [Hcc' ->].
  assert (forall j, (j < k + 2)%nat -> chunk_ok (page m1 (copy j))) as Hch
    by (intros j Hj; apply (buffer_page N); [apply Hm1|by apply copy_lt]).
  rewrite Ep, !ptr_copies by lia.
  rewrite !restored_chunk by (try (apply Hch; lia); by rewrite length_map, length_seq).
  rewrite !same_chunk_eq; [eexists; split; [done|]|..].
  - split; [done|]. apply gold_ok_insert; [lia|apply Hch; lia|]. apply gold_ok_insert; [lia|apply Hch; lia|done].
  - rewrite (page_insert_ne _ (copy a)), page_insert_eq by (unfold copy; lia).
    rewrite !page_insert_ne by (apply copy_gold; lia). apply Heq. lia.
  - rewrite page_insert_eq, !page_insert_ne by (apply copy_gold; lia). apply Heq. lia.
Qed.

(** The pristine stripe. *)
Lemma golds_split : golds = seq 0 k ++ [k; (k + 1)%nat].
Proof.
  unfold golds. replace (map gold (seq 0 (k + 2))) with (seq 0 (k + 2)) by (symmetry; apply map_id).
  rewrite seq_app. f_equal. cbn. by rewrite Nat.add_1_r.
Qed.

Lemma gold_addr a : a ∈ seq 0 k -> (a < N)%nat /\ a <> k /\ a <> (k + 1)%nat.
Proof. intros Ha%elem_of_seq. unfold VALIDATE_MAX_K in *. lia. Qed.

Lemma gen_gold m {dom gen} `{!SyndromeGen dom gen} : dom (k + 2)%nat VALIDATE_LEN -> buffer N m -> m !! zero = Some zl ->
  gold_ok (gen (k + 2)%nat VALIDATE_LEN golds m).
Proof.
  intros Hdom Hm Hz. unfold gold_ok. rewrite golds_split. pose proof (length_seq k 0) as Hl.
  assert (k < N)%nat by (unfold VALIDATE_MAX_K in *; lia). assert (k + 1 < N)%nat by (unfold VALIDATE_MAX_K in *; lia).
  assert (k <> k + 1)%nat by lia. assert (0 < k)%nat by lia.
  pose proof (tbl_stripe_ok N (seq 0 k) k (k + 1) gold_addr) as Hs. pose proof (tbl_syndromes N (seq 0 k) k (k + 1)) as E.
  pose proof (tbl_p (seq 0 k) k (k + 1)) as Ep. pose proof (tbl_q (seq 0 k) k (k + 1)) as Eq.
  pose proof (tbl_data (seq 0 k) k (k + 1)) as Ed. rewrite Hl in *.
  rewrite (gen_syndrome_ok _ _ _ _ Hdom), E by auto.
  assert (forall b, Forall is_u8 (column m (seq 0 k) b)) as H8
    by (intros; by apply (column_bytes_data N (seq 0 k) k (k + 1) gold_addr)).
  split_and!.
  - do 2 (apply buffer_insert; [|apply chunk_ok_map; auto with md]). done.
  - rewrite !lookup_insert_ne by lia. done.
  - intros b Hb. rewrite Ep, Eq, Ed.
    rewrite (column_ext _ m) by (intros a (_ & ? & ?)%gold_addr; by rewrite !page_insert_ne).
    rewrite (page_insert_ne _ (k + 1)%nat k), !page_insert_eq by done. by rewrite !pget_map_seq.
Qed.
End Round.

Lemma validate_recov_k_ok c k s {dom gen} : gen_syndrome c = InTree gen -> SyndromeGen dom gen ->
  dom (k + 2)%nat VALIDATE_LEN -> (2 <= k <= VALIDATE_MAX_K)%nat ->
  cache_ok s.1 /\ buffer N s.2 /\ s.2 !! zero = Some zl ->
  exists s', validate_recov_k kmalloc avx512 saved2 savedp alloc c k s = Some s' /\
    cache_ok s'.1 /\ buffer N s'.2 /\ s'.2 !! zero = Some zl.
Proof.
  destruct s as [cc m]. cbn [fst snd]. intros Eg Hgen Hdom Hk (Hcc & Hm & Hz). cbn [validate_recov_k]. rewrite Eg. cbn [call_gen].
  assert (forall a c, (a < N)%nat -> is_u8 c -> forall m, buffer N m /\ m !! zero = Some zl ->
    buffer N (memset m a c) /\ memset m a c !! zero = Some zl) as Hset.
  { intros a x Ha Hx m' [Hm' Hz']. split; [by apply memset_buffer|]. rewrite (memset_eq N) by done.
    rewrite lookup_insert_ne by lia. done. }
  assert (forall l m, (forall j, j ∈ l -> (j < N)%nat) -> buffer N m /\ m !! zero = Some zl ->
    let m' := fold_left (fun m j => set_chunk m (gold j) (fun i => u8 (Z.of_nat j * 53 + Z.of_nat i * 11 + 7))) l m in
    buffer N m' /\ m' !! zero = Some zl) as Hinit.
  { induction l as [|j l IH]; intros m' Hl [Hm' Hz']; [done|]. cbn [fold_left]. apply IH; [set_solver|].
    assert (gold j < N)%nat by (apply Hl; set_solver). rewrite (set_chunk_eq N) by done.
    split; [apply buffer_insert; [done|]; apply chunk_ok_map; auto with md|]. rewrite lookup_insert_ne by lia. done. }
  assert (gold k < N /\ gold (k + 1) < N)%nat as [Hgk Hgk1] by (unfold gold, VALIDATE_MAX_K in *; lia).
  destruct (Hinit (seq 0 k) m) as [Hm1 Hz1]; [intros j Hj%elem_of_seq; unfold VALIDATE_MAX_K in *; lia|done|].
  destruct (Hset (gold k) 0 Hgk is_u8_0 _ (conj Hm1 Hz1)) as [Hm2 Hz2].
  destruct (Hset (gold (k + 1)) 0 Hgk1 is_u8_0 _ (conj Hm2 Hz2)) as [Hm3 Hz3].
  pose proof (gen_gold k Hk _ Hdom Hm3 Hz3) as Hgold.
  edestruct (each_ok (check_ok k) (check_2data avx512 saved2 alloc k) (pairs k)) as (s1 & -> & Hs1);
    [split; [exact Hcc|exact Hgold]|intros; by apply check_2data_ok|].
  destruct (each_ok (check_ok k) (check_datap avx512 savedp alloc k) (seq 0 k) s1 Hs1) as (s2 & -> & Hcc2 & Hg2 & Hz4 & _);
    [intros; by apply check_datap_ok|]. by exists s2.
Qed.

Lemma validate_recov_ok c buf cc {dom gen} : gen_syndrome c = InTree gen -> SyndromeGen dom gen ->
  (forall k, (2 <= k <= VALIDATE_MAX_K)%nat -> dom (k + 2)%nat VALIDATE_LEN) ->
  byte_page buf -> length buf = (N * VALIDATE_LEN)%nat -> base !! zero = Some zl -> cache_ok cc ->
  isal_validate_recov kmalloc avx512 base saved2 savedp alloc c (Some buf) cc = true.
Proof.
  intros Eg Hgen Hdom Hb Hl Hz Hcc. unfold isal_validate_recov. apply bool_decide_eq_true.
  edestruct (each_ok (fun s => cache_ok s.1 /\ buffer N s.2 /\ s.2 !! zero = Some zl)
    (validate_recov_k kmalloc avx512 saved2 savedp alloc c)) as (s' & E & _).
  3: rewrite E; by eexists.
  - cbn [fst snd]. split_and!; [done|apply chunks_buffer; [lia|done]|].
    unfold chunks. rewrite lookup_union_r; [done|]. apply not_elem_of_list_to_map_1.
    rewrite map_map. cbn [fst]. rewrite map_id. intros Hin%elem_of_seq. lia.
  - intros k s Hk%elem_of_seq Hs. assert (2 <= k <= VALIDATE_MAX_K)%nat by (unfold VALIDATE_MAX_K in *; lia).
    apply (validate_recov_k_ok c k s Eg Hgen); auto.
Qed.
End ValidateRecov.

(** * Loading and unloading *)

(** The memory of a loading: the buffers of the validations and the zero page beside them. *)
Record load_ok (base : mem) (buf1 buf2 : list Z) (zero : addr) (zl : list Z) : Prop := {
  lo_buf1 : byte_page buf1 /\ length buf1 = ((VALIDATE_MAX_K + 4) * VALIDATE_LEN)%nat;
  lo_buf2 : byte_page buf2 /\ length buf2 = (2 * (VALIDATE_MAX_K + 2) * VALIDATE_LEN)%nat;
  lo_zero : (2 * (VALIDATE_MAX_K + 2) <= zero)%nat /\ base !! zero = Some zl;
  lo_zl : byte_page zl /\ (VALIDATE_LEN <= length zl)%nat /\ forall b, (b < VALIDATE_LEN)%nat -> pget zl b = 0;
}.

(** The state after a successful installation. *)
Definition installed (avx512 : bool) (g : globals) : globals :=
  Globals (Calls Isal (Some Isal) (if avx512 then "isal_avx512_gfni" else "isal_avx2_gfni")) Isal Isal
    (raid6_call g) (raid6_2data_recov g) (raid6_datap_recov g) true avx512.

Lemma install_ok kmalloc alloc base cpu buf1 buf2 zero zl cc g f2 fp :
  isal_have_gfni cpu = true -> (forall n, exists l, kmalloc n = Some l /\ length l = n) ->
  (forall n, alloc_size n (alloc n)) -> load_ok base buf1 buf2 zero zl -> cache_ok cc ->
  calls_correct (raid6_call g) -> raid6_2data_recov g = InTree f2 -> raid6_datap_recov g = InTree fp ->
  isal_install_raid6_call kmalloc alloc base cpu (Some buf1) (Some buf2) cc g = Some (0, installed (isal_have_avx512_gfni cpu) g).
Proof.
  intros Hcpu Hk Ha [[] [] [] (? & ? & ?)] Hcc Hc E2 Ep. unfold isal_install_raid6_call. rewrite Hcpu. cbn [negb].
  cbn [saved_2data_recov saved_datap_recov raid6_call]. unfold installed. rewrite E2, Ep.
  rewrite self_validate_ok by done. destruct Hc as [(dom & gen & Eg & Hgen & Hd) _].
  assert (forall k, (2 <= k <= VALIDATE_MAX_K)%nat -> dom (k + 2)%nat VALIDATE_LEN) as Hd2 by (intros k ?; apply Hd; lia).
  erewrite validate_recov_ok; [done|try eassumption..].
Qed.

(** A failed installation changes none of the variables of the core. *)
Lemma install_outcome kmalloc alloc base cpu buf1 buf2 cc g ret g' :
  isal_install_raid6_call kmalloc alloc base cpu buf1 buf2 cc g = Some (ret, g') ->
  (ret = 0 /\ g' = installed (isal_have_avx512_gfni cpu) g /\
     (exists f, raid6_2data_recov g = InTree f) /\ exists f, raid6_datap_recov g = InTree f) \/
  (ret < 0 /\ raid6_call g' = raid6_call g /\ raid6_2data_recov g' = raid6_2data_recov g /\
     raid6_datap_recov g' = raid6_datap_recov g /\ overridden g' = overridden g).
Proof.
  unfold isal_install_raid6_call. destruct (isal_have_gfni cpu); cbn [negb].
  2: { intros [= <- <-]. right. split_and!; [unfold ENODEV; lia|done..]. }
  cbn [saved_2data_recov saved_datap_recov raid6_call overridden].
  destruct (raid6_2data_recov g) as [f2|] eqn:E2; [|done]. destruct (raid6_datap_recov g) as [fp|] eqn:Ep; [|done].
  destruct (isal_self_validate _ _ _ _ _); cbn [negb].
  2: { intros [= <- <-]. right. split_and!; [unfold EINVAL; lia|done..]. }
  destruct (isal_validate_recov _ _ _ _ _ _ _ _ _); cbn [negb].
  2: { intros [= <- <-]. right. split_and!; [unfold EINVAL; lia|done..]. }
  intros [= <- <-]. left. unfold installed. rewrite E2, Ep. split_and!; [done|done|by eexists..].
Qed.

(** ** Sample *)

Definition int_state : globals :=
  Globals (Calls (InTree (raid6_int_gen_syndrome 1)) (Some (InTree (raid6_int_xor_syndrome 1))) "int64x1")
    (InTree (fun gen disks bytes faila failb ptrs m =>
       (raid6_2data_recov_intx1 gen 100 disks bytes faila failb ptrs m).2))
    (InTree (fun gen disks bytes faila ptrs m => (raid6_datap_recov_intx1 gen 100 disks bytes faila ptrs m).2))
    (Calls Isal None "unset") Isal Isal false false.

Lemma int_calls_correct : calls_correct (raid6_call int_state).
Proof.
  split; [|right].
  - exists (fun d b => (0 < 1)%nat /\ int_dom 1 d b), (raid6_int_gen_syndrome 1).
    split_and!; [done|apply (int_gen 1)|]. intros k _. split; [lia|by exists 32%nat].
  - exists (fun d b => (0 < 1)%nat /\ int_dom 1 d b), (raid6_int_xor_syndrome 1).
    split_and!; [done|apply (int_xor 1)|]. intros k _. split; [lia|by exists 32%nat].
Qed.

Definition gfni_sample : gfni_cpu := GfniCpu true true true false false.
Definition zero_base : mem := {[ 100%nat := replicate VALIDATE_LEN 0 ]}.

Lemma load_sample : load_ok zero_base (replicate ((VALIDATE_MAX_K + 4) * VALIDATE_LEN) 0)
  (replicate (2 * (VALIDATE_MAX_K + 2) * VALIDATE_LEN) 0) 100 (replicate VALIDATE_LEN 0).
Proof.
  split.
  - split; [by apply Forall_replicate|apply length_replicate].
  - split; [by apply Forall_replicate|apply length_replicate].
  - split; [unfold VALIDATE_MAX_K; lia|apply lookup_singleton_eq].
  - split_and!; [by apply Forall_replicate|by rewrite length_replicate|]. intros b Hb. unfold pget. by rewrite lookup_replicate_2.
Qed.

(** C29. On a processor with GFNI, and if the buffers of the validation and the tables of the syndromes
    can be allocated, loading the module over any implementation that computes the syndromes passes both
    self-validations, whatever the buffers held and whether or not the tables of the recoveries can be
    allocated, and installs the routines of ISA-L. *)
Theorem install_succeeds kmalloc alloc base cpu buf1 buf2 zero zl cc g f2 fp :
  isal_have_gfni cpu = true -> (forall n, exists l, kmalloc n = Some l /\ length l = n) ->
  (forall n, alloc_size n (alloc n)) -> load_ok base buf1 buf2 zero zl -> cache_ok cc ->
  calls_correct (raid6_call g) -> raid6_2data_recov g = InTree f2 -> raid6_datap_recov g = InTree fp ->
  exists g', isal_install_raid6_call kmalloc alloc base cpu (Some buf1) (Some buf2) cc g = Some (0, g') /\
    gen_syndrome (raid6_call g') = Isal /\ xor_syndrome (raid6_call g') = Some Isal /\
    raid6_2data_recov g' = Isal /\ raid6_datap_recov g' = Isal /\ use_avx512 g' = isal_have_avx512_gfni cpu.
Proof. intros. eexists. split; [by eapply install_ok|done]. Qed.

Lemma install_succeeds_witness :
  exists g', isal_install_raid6_call kmalloc_ok (fun _ => None) zero_base gfni_sample
      (Some (replicate ((VALIDATE_MAX_K + 4) * VALIDATE_LEN) 0)) (Some (replicate (2 * (VALIDATE_MAX_K + 2) * VALIDATE_LEN) 0))
      empty_cache int_state = Some (0, g') /\
    gen_syndrome (raid6_call g') = Isal /\ xor_syndrome (raid6_call g') = Some Isal /\
    raid6_2data_recov g' = Isal /\ raid6_datap_recov g' = Isal /\ use_avx512 g' = isal_have_avx512_gfni gfni_sample.
Proof.
  eapply (install_succeeds kmalloc_ok (fun _ => None) zero_base gfni_sample _ _ 100 (replicate VALIDATE_LEN 0) empty_cache int_state).
  - reflexivity.
  - apply kmalloc_ok_spec.
  - intros n. apply alloc_none.
  - apply load_sample.
  - apply empty_cache_ok.
  - apply int_calls_correct.
  - reflexivity.
  - reflexivity.
Defined.

(** C30. Every outcome of a loading: when it fails the variables of the raid6 core are as before;
    when it succeeds the recovery pointers are those of the module, with in-tree functions as
    their fallbacks; and in both cases unloading gives back the variables of the core. *)
Theorem install_uninstall kmalloc alloc base cpu buf1 buf2 cc g ret g' :
  overridden g = false -> isal_install_raid6_call kmalloc alloc base cpu buf1 buf2 cc g = Some (ret, g') ->
  (ret = 0 /\ overridden g' = true /\ gen_syndrome (raid6_call g') = Isal /\ raid6_2data_recov g' = Isal /\
     raid6_datap_recov g' = Isal /\ (exists f, saved_2data_recov g' = InTree f) /\ (exists f, saved_datap_recov g' = InTree f) \/
   ret < 0 /\ overridden g' = false /\ raid6_call g' = raid6_call g /\
     raid6_2data_recov g' = raid6_2data_recov g /\ raid6_datap_recov g' = raid6_datap_recov g) /\
  let g'' := isal_uninstall_raid6_call g' in
  overridden g'' = false /\ raid6_call g'' = raid6_call g /\ raid6_2data_recov g'' = raid6_2data_recov g /\
  raid6_datap_recov g'' = raid6_datap_recov g.
Proof.
  intros Hov [(-> & -> & H2 & Hp)|(Hret & Ec & E2 & Ep & Eo)]%install_outcome.
  - split; [left; by split_and!|done].
  - rewrite Hov in Eo. split; [right; by split_and!|]. unfold isal_uninstall_raid6_call. by rewrite Eo.
Qed.

Lemma install_uninstall_witness :
  exists ret g', isal_install_raid6_call kmalloc_ok (fun _ => None) zero_base gfni_sample None None empty_cache int_state =
      Some (ret, g') /\
  (ret = 0 /\ overridden g' = true /\ gen_syndrome (raid6_call g') = Isal /\ raid6_2data_recov g' = Isal /\
     raid6_datap_recov g' = Isal /\ (exists f, saved_2data_recov g' = InTree f) /\ (exists f, saved_datap_recov g' = InTree f) \/
   ret < 0 /\ overridden g' = false /\ raid6_call g' = raid6_call int_state /\
     raid6_2data_recov g' = raid6_2data_recov int_state /\ raid6_datap_recov g' = raid6_datap_recov int_state) /\
  let g'' := isal_uninstall_raid6_call g' in
  overridden g'' = false /\ raid6_call g'' = raid6_call int_state /\ raid6_2data_recov g'' = raid6_2data_recov int_state /\
  raid6_datap_recov g'' = raid6_datap_recov int_state.
Proof.
  eexists _, _. split; [reflexivity|].
  apply (install_uninstall kmalloc_ok (fun _ => None) zero_base gfni_sample None None empty_cache int_state); reflexivity.
Defined.
