(* ===== verification/Boot.v ===== *)
(** The RAID-6 code of a running kernel: the selection at boot of raid6/algos.c, then the loading
    of the GFNI module of isa-l/raid6_isal.c over it. *)

From stdpp Require Import strings.
From S2P Require Import Prelude.
From S2P Require Import GF256.
From S2P Require Import PageMem.
From S2P Require Import Syndrome.
From S2P Require Import Recov.
From S2P Require Import Simd.
From S2P Require Import SimdLemmas.
From S2P Require Import SimdSyndromeCorrect.
From S2P Require Import RaidIsal.
From S2P Require Import IsalRecov.
From S2P Require Import Raid6Theorems.
From S2P Require Import Algos.
From S2P Require Import AlgosCorrect.
From S2P Require Import IsalInstall.
From S2P Require Import IsalInstallCorrect.

(** * The variables of the core after the selection *)

(** A recovery that does not return leaves no memory. *)
Definition mem_of (r : option (list addr * machine)) : mem :=
  match r with Some (_, s) => mm s | None => ∅ end.

(** The state in which the module is loaded: the implementations [c] and [r], called with the
    registers of [s]; the variables of the module are zero. *)
Definition core_state (c : raid6_calls) (r : raid6_recov_calls) (zero : addr) (s : machine) : globals :=
  Globals
    (Calls (InTree (Algos.call_gen c s))
       (option_map (fun f : xor_fn => InTree (fun disks start stop bytes ptrs m => mm (f (set_mm s m) disks start stop bytes ptrs)))
          (Algos.xor_syndrome c))
       (Algos.name c))
    (InTree (fun gen disks bytes faila failb ptrs m => mem_of (data2 r gen zero (set_mm s m) disks bytes faila failb ptrs)))
    (InTree (fun gen disks bytes faila ptrs m => mem_of (datap r gen zero (set_mm s m) disks bytes faila ptrs)))
    (Calls Isal None "unset") Isal Isal false false.

(** * The implementations selected without the benchmark *)

(** The validation of the module starts with a single data disk: the implementation in place has
    to compute the syndromes of three disks. *)
Definition gen3_ok (c : raid6_calls) : Prop := forall s disks bytes ptrs,
  (256 | bytes)%nat -> stripe_ok disks bytes ptrs (mm s) ->
  mm (Algos.gen_syndrome c s disks bytes ptrs) = with_syndromes disks bytes ptrs (mm s).

Definition xor3_ok (c : raid6_calls) : Prop := forall f s disks start stop bytes ptrs,
  Algos.xor_syndrome c = Some f -> (256 | bytes)%nat -> stripe_ok disks bytes ptrs (mm s) ->
  (start <= stop < disks - 2)%nat ->
  mm (f s disks start stop bytes ptrs) = with_xor_syndromes disks start stop bytes ptrs (mm s).

Ltac calls3_ok w gen xor :=
  lazymatch goal with |- gen3_ok ?c /\ _ => let c' := eval red in c in change c with c' end;
  split;
  [intros s disks bytes ptrs Hb Hok; cbn [Algos.gen_syndrome];
   rewrite (gen disks bytes ptrs (mm s) Hok (view w s));
     [done|apply view_wf|done|apply (Nat.divide_trans _ 256); [by apply divide_check|done]|apply Hok]
  |intros f s disks start stop bytes ptrs [= <-] Hb Hok Hr;
   rewrite (xor disks bytes ptrs (mm s) Hok start stop Hr (view w s));
     [done|apply view_wf|done|apply (Nat.divide_trans _ 256); [by apply divide_check|done]]].

Lemma avx512x4_ok : gen3_ok raid6_avx512x4 /\ xor3_ok raid6_avx512x4.
Proof. calls3_ok 64%nat avx5124_gen_ok avx5124_xor_ok. Qed.

Lemma avx2x4_ok : gen3_ok raid6_avx2x4 /\ xor3_ok raid6_avx2x4.
Proof. calls3_ok 32%nat avx24_gen_ok avx24_xor_ok. Qed.

Lemma sse2x4_ok : gen3_ok raid6_sse2x4 /\ xor3_ok raid6_sse2x4.
Proof. calls3_ok 16%nat sse24_gen_ok sse24_xor_ok. Qed.

Lemma intx8_ok : gen3_ok (raid6_intx 8 "int64x8") /\ xor3_ok (raid6_intx 8 "int64x8").
Proof.
  split.
  - intros s disks bytes ptrs Hb Hok. apply (int_gen 8); [|done]. split; [lia|]. apply (Nat.divide_trans _ 256); [by apply divide_check|done].
  - intros f s disks start stop bytes ptrs [= <-] Hb Hok Hr. apply (int_xor 8); [|done|done]. split; [lia|].
    apply (Nat.divide_trans _ 256); [by apply divide_check|done].
Qed.

Lemma first_selected as_avx512 cpu perf c :
  raid6_choose_gen as_avx512 false cpu perf = Some c -> gen3_ok c /\ xor3_ok c.
Proof.
  unfold raid6_choose_gen, raid6_algos.
  destruct as_avx512; cbn [app choose_gen_loop is_valid valid raid6_avx512x4 raid6_avx512x2 raid6_avx512x1 raid6_avx2x4
    raid6_avx2x2 raid6_avx2x1 raid6_sse2x4 raid6_sse2x2 raid6_sse2x1 raid6_intx negb];
    try (destruct (raid6_have_avx512 cpu); cbn [negb]; [intros [= <-]; apply avx512x4_ok|]);
    (destruct (raid6_have_avx2 cpu); cbn [negb]; [intros [= <-]; apply avx2x4_ok|]);
    (destruct (raid6_have_sse2 cpu); cbn [negb]; [intros [= <-]; apply sse2x4_ok|]);
    intros [= <-]; apply intx8_ok.
Qed.

Lemma core_correct c r zero s : gen3_ok c /\ xor3_ok c -> calls_correct (raid6_call (core_state c r zero s)).
Proof.
  intros [Hg Hx]. split.
  - exists (fun _ b => (256 | b)%nat), (Algos.call_gen c s). split_and!; [done| |intros; by exists 1%nat].
    intros disks bytes ptrs m Hb Hok. by apply (Hg (set_mm s m)).
  - cbn [core_state raid6_call xor_syndrome]. destruct (Algos.xor_syndrome c) as [f|] eqn:Ef; [right|by left].
    eexists (fun _ b => (256 | b)%nat), _. split_and!; [done| |intros; by exists 1%nat].
    intros disks start stop bytes ptrs m Hb Hok Hr. by apply (Hx f (set_mm s m)).
Qed.

(** * Theorems *)

(** C4. The kernel of an x86-64 machine with GFNI that skips the benchmark, as it does without
    CONFIG_RAID6_PQ_BENCHMARK, and where the buffers of the validation and the tables of the syndromes
    can be allocated: [raid6_select_algo] selects implementations, the module loads over them whatever
    its buffers held, and then, for up to 32 data disks, the syndromes computed through [raid6_call] are those of the data, and the
    recovery through [raid6_2data_recov] restores two lost data pages; unloading gives back the
    selected implementations. *)
Theorem boot_and_load as_avx512 cpu perf kmalloc alloc base gcpu buf1 buf2 zero zl cc s0 :
  isal_have_gfni gcpu = true -> (forall n, exists l, kmalloc n = Some l /\ length l = n) ->
  (forall n, alloc_size n (alloc n)) -> load_ok base buf1 buf2 zero zl -> cache_ok cc ->
  exists st c r g', raid6_select_algo as_avx512 false cpu perf true = (0, st) /\
    Algos.raid6_call st = Some c /\ raid6_recov st = Some r /\
    isal_install_raid6_call kmalloc alloc base gcpu (Some buf1) (Some buf2) cc (core_state c r zero s0) = Some (0, g') /\
    (forall disks bytes ptrs m, (disks <= 34)%nat -> Z.of_nat bytes < 2 ^ 31 -> stripe_ok disks bytes ptrs m ->
       call_gen kmalloc (use_avx512 g') (gen_syndrome (raid6_call g')) disks bytes ptrs m =
       with_syndromes disks bytes ptrs m) /\
    (forall disks bytes faila failb ptrs m0 ga gb cc, (disks <= 34)%nat -> Z.of_nat bytes < 2 ^ 31 ->
       recov_ok zero disks bytes ptrs m0 -> consistent disks bytes ptrs m0 -> cache_ok cc ->
       (faila < failb < disks - 2)%nat -> garbage bytes ga -> garbage bytes gb ->
       exists cc', cache_ok cc' /\
         call_2data kmalloc alloc g' disks bytes faila failb ptrs cc
           (<[ptr ptrs faila := ga]> (<[ptr ptrs failb := gb]> m0)) =
         Some (cc', <[ptr ptrs faila := restored bytes (page m0 (ptr ptrs faila)) ga]>
           (<[ptr ptrs failb := restored bytes (page m0 (ptr ptrs failb)) gb]> m0))) /\
    let g'' := isal_uninstall_raid6_call g' in
    raid6_call g'' = raid6_call (core_state c r zero s0) /\
    raid6_2data_recov g'' = raid6_2data_recov (core_state c r zero s0).
Proof.
  intros Hgfni Hk Ha Hload Hcc.
  destruct (gen_selected as_avx512 cpu perf) as [c Ec], (recov_selected as_avx512 cpu) as [r Er].
  exists (Raid6State (Some c) (Some r)), c, r, (installed (isal_have_avx512_gfni gcpu) (core_state c r zero s0)).
  split_and!.
  - unfold raid6_select_algo. by rewrite Ec, Er.
  - done.
  - done.
  - eapply install_ok; try done. by apply core_correct, (first_selected as_avx512 cpu perf).
  - intros disks bytes ptrs m Hd Hb Hok. by apply (isal_gen _ kmalloc Hk).
  - intros disks bytes faila failb ptrs m0 ga gb cc' Hd Hb Hok Hcons Hcc' Hab Hga Hgb.
    unfold call_2data. cbn [installed core_state raid6_2data_recov saved_2data_recov].
    pose proof (isal_2data_ok (isal_have_avx512_gfni gcpu) (alloc ((disks - 2) * (disks - 2))%nat) (alloc ((disks - 2) * (disks - 2))%nat)
      (alloc (2 * (disks - 2) * 32)%nat) disks bytes ptrs (Ha _) (Ha _) (Ha _) zero m0 Hok Hcons Hb (fun _ _ => False)
      ltac:(left; lia)) as Hisal.
    match goal with |- context [isal_2data_recov ?x ?saved _ _ _ _ _ _ _ _ _ _] =>
      specialize (Hisal saved ltac:(intros ?????????; done) faila failb ga gb cc' Hcc' Hab ltac:(lia) Hga Hgb)
    end.
    destruct (isal_2data_recov _ _ _ _ _ _ _ _ _ _ _ _) as [cc'' m']. destruct Hisal as [? ->]. by exists cc''.
  - done.
Qed.

Lemma boot_and_load_witness :
  exists st c r g', raid6_select_algo true false avx2_cpu (fun _ => 0) true = (0, st) /\
    Algos.raid6_call st = Some c /\ raid6_recov st = Some r /\
    isal_install_raid6_call kmalloc_ok (fun _ => None) zero_base gfni_sample
      (Some (replicate ((VALIDATE_MAX_K + 4) * VALIDATE_LEN) 0)) (Some (replicate (2 * (VALIDATE_MAX_K + 2) * VALIDATE_LEN) 0))
      empty_cache (core_state c r 100 (machine_of ∅)) = Some (0, g') /\
    (forall disks bytes ptrs m, (disks <= 34)%nat -> Z.of_nat bytes < 2 ^ 31 -> stripe_ok disks bytes ptrs m ->
       call_gen kmalloc_ok (use_avx512 g') (gen_syndrome (raid6_call g')) disks bytes ptrs m =
       with_syndromes disks bytes ptrs m) /\
    (forall disks bytes faila failb ptrs m0 ga gb cc, (disks <= 34)%nat -> Z.of_nat bytes < 2 ^ 31 ->
       recov_ok 100 disks bytes ptrs m0 -> consistent disks bytes ptrs m0 -> cache_ok cc ->
       (faila < failb < disks - 2)%nat -> garbage bytes ga -> garbage bytes gb ->
       exists cc', cache_ok cc' /\
         call_2data kmalloc_ok (fun _ => None) g' disks bytes faila failb ptrs cc
           (<[ptr ptrs faila := ga]> (<[ptr ptrs failb := gb]> m0)) =
         Some (cc', <[ptr ptrs faila := restored bytes (page m0 (ptr ptrs faila)) ga]>
           (<[ptr ptrs failb := restored bytes (page m0 (ptr ptrs failb)) gb]> m0))) /\
    let g'' := isal_uninstall_raid6_call g' in
    raid6_call g'' = raid6_call (core_state c r 100 (machine_of ∅)) /\
    raid6_2data_recov g'' = raid6_2data_recov (core_state c r 100 (machine_of ∅)).
Proof.
  apply (boot_and_load true avx2_cpu (fun _ => 0) kmalloc_ok (fun _ => None) zero_base gfni_sample
    (replicate ((VALIDATE_MAX_K + 4) * VALIDATE_LEN) 0) (replicate (2 * (VALIDATE_MAX_K + 2) * VALIDATE_LEN) 0) 100
    (replicate VALIDATE_LEN 0) empty_cache (machine_of ∅)).
  - reflexivity.
  - apply kmalloc_ok_spec.
  - intros n. apply alloc_none.
  - apply load_sample.
  - apply empty_cache_ok.
Defined.
