(* ===== verification/ErasureTheorems.v ===== *)
(** The properties of the erasure code of isa-l: the matrices and their inversion, the tables
    of GF(2^8), and the agreement of the portable, AVX2 and AVX-512 encoders. *)

From S2P Require Import Prelude GF256 PageMem EcTables Matrix Mds Gfni GfniCorrect EcBase.

(** * Matrices *)

(** The entries of an array as a matrix with rows of [n]. *)
Definition entries (n : nat) (a : list Z) (r c : nat) : Z := mget n a r c.

Lemma mat_is_entries rows n a : (rows * n <= length a)%nat -> mat_is rows n a (entries n a).
Proof. intros Hl. by split. Qed.

(** C32. [gf_invert_matrix] returns 0 and a matrix that is a left inverse of its input, or
    returns -1 and the input has a nonzero vector in its kernel, so that no inverse exists. *)
Theorem invert_matrix_correct n in_mat out_mat :
  (n * n <= length in_mat)%nat -> (n * n <= length out_mat)%nat ->
  (forall i, (i < n * n)%nat -> is_u8 (pget in_mat i)) ->
  let '(ret, (_, inv)) := gf_invert_matrix n in_mat out_mat in
  (ret = 0 /\ forall r c, (r < n)%nat -> (c < n)%nat -> mmul n (entries n inv) (entries n in_mat) r c = delta r c) \/
  (ret = -1 /\ exists x j, bytes_vec n x /\ (j < n)%nat /\ x j = 1 /\ kernel n (entries n in_mat) x).
Proof.
  intros Hin Hout H8. pose proof (gf_invert_matrix_ok n in_mat out_mat (entries n in_mat) (mat_is_entries n n in_mat Hin)) as H.
  destruct (gf_invert_matrix n in_mat out_mat) as [ret [inm inv]].
  destruct H as [[-> (O & HO & _ & Hinv)]|H]; [intros r c Hr Hc; apply H8; nia|done|left|by right].
  split; [done|]. intros r c Hr Hc. rewrite <- Hinv by done. unfold mmul. apply gfsum_ext. intros t Ht.
  f_equal. by apply HO.
Qed.

(** An invertible and a singular matrix. *)
Lemma invert_matrix_correct_witness :
  let '(ret, (_, inv)) := gf_invert_matrix 2 [1; 1; 1; 2] (replicate 4 0) in
  (ret = 0 /\ forall r c, (r < 2)%nat -> (c < 2)%nat -> mmul 2 (entries 2 inv) (entries 2 [1; 1; 1; 2]) r c = delta r c) \/
  (ret = -1 /\ exists x j, bytes_vec 2 x /\ (j < 2)%nat /\ x j = 1 /\ kernel 2 (entries 2 [1; 1; 1; 2]) x).
Proof.
  apply (invert_matrix_correct 2 [1; 1; 1; 2] (replicate 4 0)); [cbn; lia..|].
  intros i Hi. unfold is_u8. do 4 (destruct i as [|i]; [cbn; lia|]). lia.
Defined.

(** The rows [sel] of a generator matrix, as the caller copies them out to be inverted. *)
Definition select_rows (k : nat) (sel : list nat) (a : list Z) : list Z :=
  concat (map (fun s => take k (drop (s * k) a)) sel).

Lemma select_rows_is k sel m a M :
  mat_is m k a M -> (forall s, s ∈ sel -> (s < m)%nat) ->
  mat_is (length sel) k (select_rows k sel a) (fun r c => M (ptr sel r) c).
Proof.
  intros [Hlen HM] Hsel. unfold select_rows. induction sel as [|s sel IH]; [split; [cbn; lia|intros r c Hr; cbn in Hr; lia]|].
  assert (s < m)%nat as Hs by (apply Hsel; set_solver).
  assert (length (take k (drop (s * k) a)) = k) as Hrow by (rewrite length_take, length_drop; nia).
  destruct IH as [IHl IHm]; [intros; apply Hsel; set_solver|]. cbn [map concat length]. split.
  - rewrite length_app, Hrow. lia.
  - intros r c Hr Hc. unfold mget, pget in *. destruct r as [|r].
    + rewrite lookup_app_l by (rewrite Hrow; lia). rewrite lookup_take_lt, lookup_drop by lia. by apply HM.
    + rewrite lookup_app_r by (rewrite Hrow; lia). rewrite Hrow.
      replace (S r * k + c - k)%nat with (r * k + c)%nat by lia. apply IHm; lia.
Qed.

(** What the rows [sel] of an encoding are decoded to. *)
Lemma decode_rows k m sel a M inv_alloc d :
  mat_is m k a M -> (forall r c, (r < m)%nat -> (c < k)%nat -> is_u8 (M r c)) ->
  length sel = k -> (forall s, s ∈ sel -> (s < m)%nat) -> (k * k <= length inv_alloc)%nat -> bytes_vec k d ->
  (forall x, bytes_vec k x -> kernel k (fun r c => M (ptr sel r) c) x -> forall c, (c < k)%nat -> x c = 0) ->
  let '(ret, (_, inv)) := gf_invert_matrix k (select_rows k sel a) inv_alloc in
  ret = 0 /\ forall c, (c < k)%nat -> mvec k (entries k inv) (fun r => mvec k M d (ptr sel r)) c = d c.
Proof.
  intros Ha H8 Hlen Hsel Halloc Hd Hker. pose proof (select_rows_is k sel m a M Ha Hsel) as Hrows. rewrite Hlen in Hrows.
  assert (forall r, (r < k)%nat -> (ptr sel r < m)%nat) as Hptr by (intros r Hr; apply Hsel, elem_of_ptr; lia).
  assert (bytes_mat k k (fun r c => M (ptr sel r) c)) as HM8 by (intros r c Hr Hc; auto).
  pose proof (gf_invert_matrix_nonsingular k _ inv_alloc _ Hrows HM8 Halloc Hker) as H.
  destruct (gf_invert_matrix k (select_rows k sel a) inv_alloc) as [ret [inm inv]].
  destruct H as [-> (O & [_ HO] & HO8 & Hinv)]. split; [done|]. intros c Hc.
  rewrite <- (mvec_inverse k O _ d c HO8 HM8 Hd Hc Hinv). unfold mvec at 1 3. apply gfsum_ext. intros t Ht. f_equal. by apply HO.
Qed.

Lemma encoding_entries k m a M d s :
  mat_is m k a M -> (s < m)%nat -> mvec k (entries k a) d s = mvec k M d s.
Proof. intros [_ HM] Hs. apply gfsum_ext. intros t Ht. f_equal. by apply HM. Qed.

(** Decoding in terms of the generated array. *)
Lemma decode_array k m sel a M inv_alloc d :
  mat_is m k a M -> (forall r c, (r < m)%nat -> (c < k)%nat -> is_u8 (M r c)) ->
  length sel = k -> (forall s, s ∈ sel -> (s < m)%nat) -> (k * k <= length inv_alloc)%nat -> bytes_vec k d ->
  (forall x, bytes_vec k x -> kernel k (fun r c => M (ptr sel r) c) x -> forall c, (c < k)%nat -> x c = 0) ->
  let '(ret, (_, inv)) := gf_invert_matrix k (select_rows k sel a) inv_alloc in
  ret = 0 /\ forall c, (c < k)%nat -> mvec k (entries k inv) (fun r => mvec k (entries k a) d (ptr sel r)) c = d c.
Proof.
  intros Ha H8 Hlen Hsel Halloc Hd Hker. pose proof (decode_rows k m sel a M inv_alloc d Ha H8 Hlen Hsel Halloc Hd Hker) as H.
  destruct (gf_invert_matrix k (select_rows k sel a) inv_alloc) as [ret [inm inv]]. destruct H as [-> Hdec]. split; [done|].
  intros c Hc. rewrite <- (Hdec c Hc). apply gfsum_ext. intros t Ht. rewrite (encoding_entries k m a M d (ptr sel t) Ha); [done|].
  apply Hsel, elem_of_ptr. lia.
Qed.

(** C33. The matrix of [gf_gen_cauchy1_matrix] makes a maximum distance separable code for up
    to 256 symbols: from any [k] of the [m] symbols, the inverse that [gf_invert_matrix] computes
    of their rows (it always succeeds) gives back the [k] data symbols. *)
Theorem cauchy_decode m k sel a inv_alloc d :
  (m <= 256)%nat -> (k <= m)%nat -> (k * m <= length a)%nat -> (k * k <= length inv_alloc)%nat ->
  length sel = k -> NoDup sel -> (forall s, s ∈ sel -> (s < m)%nat) -> bytes_vec k d ->
  let gen := gf_gen_cauchy1_matrix a m k in
  let '(ret, (_, inv)) := gf_invert_matrix k (select_rows k sel gen) inv_alloc in
  ret = 0 /\ forall c, (c < k)%nat -> mvec k (entries k inv) (fun r => mvec k (entries k gen) d (ptr sel r)) c = d c.
Proof.
  intros Hm Hk Ha Halloc Hlen Hnd Hsel Hd gen. apply (decode_array k m sel gen (cauchy_entry k)); try done.
  - by apply gf_gen_cauchy1_matrix_is.
  - intros r c Hr Hc. apply cauchy_entry_u8; lia.
  - intros x Hx HK. by apply (cauchy_nonsingular k m sel x).
Qed.

Lemma sel_witness_lt s : s ∈ [1; 3; 5]%nat -> (s < 6)%nat.
Proof. set_unfold. lia. Qed.

Lemma cauchy_decode_witness :
  let gen := gf_gen_cauchy1_matrix (replicate 18 0) 6 3 in
  let '(ret, (_, inv)) := gf_invert_matrix 3 (select_rows 3 [1; 3; 5]%nat gen) (replicate 9 0) in
  ret = 0 /\ forall c, (c < 3)%nat -> mvec 3 (entries 3 inv) (fun r => mvec 3 (entries 3 gen) (fun _ => 7) (ptr [1; 3; 5]%nat r)) c = 7.
Proof.
  apply (cauchy_decode 6 3 [1; 3; 5]%nat (replicate 18 0) (replicate 9 0) (fun _ => 7)).
  - lia.
  - lia.
  - rewrite length_replicate. lia.
  - rewrite length_replicate. lia.
  - done.
  - apply (bool_decide_unpack _). by vm_compute.
  - apply sel_witness_lt.
  - intros c Hc. unfold is_u8. lia.
Defined.

(** The matrix of [gf_gen_rs_matrix] with two parity rows, the P and Q of RAID-6, decodes
    from any [k] of the [k + 2] symbols for up to 255 data symbols. *)
Theorem rs_decode k sel a inv_alloc d :
  (k <= 255)%nat -> (k * (k + 2) <= length a)%nat -> (k * k <= length inv_alloc)%nat ->
  length sel = k -> NoDup sel -> (forall s, s ∈ sel -> (s < k + 2)%nat) -> bytes_vec k d ->
  let gen := gf_gen_rs_matrix a (k + 2) k in
  let '(ret, (_, inv)) := gf_invert_matrix k (select_rows k sel gen) inv_alloc in
  ret = 0 /\ forall c, (c < k)%nat -> mvec k (entries k inv) (fun r => mvec k (entries k gen) d (ptr sel r)) c = d c.
Proof.
  intros Hk Ha Halloc Hlen Hnd Hsel Hd gen. apply (decode_array k (k + 2) sel gen (rs_entry k)); try done.
  - apply gf_gen_rs_matrix_is; lia.
  - intros r c _ _. apply rs_entry_u8.
  - intros x Hx HK. by apply (rs_nonsingular k sel x).
Qed.

Lemma sel_witness_lt5 s : s ∈ [1; 4; 3]%nat -> (s < 3 + 2)%nat.
Proof. set_unfold. lia. Qed.

Lemma rs_decode_witness :
  let gen := gf_gen_rs_matrix (replicate 15 0) 5 3 in
  let '(ret, (_, inv)) := gf_invert_matrix 3 (select_rows 3 [1; 4; 3]%nat gen) (replicate 9 0) in
  ret = 0 /\ forall c, (c < 3)%nat -> mvec 3 (entries 3 inv) (fun r => mvec 3 (entries 3 gen) (fun _ => 7) (ptr [1; 4; 3]%nat r)) c = 7.
Proof.
  apply (rs_decode 3 [1; 4; 3]%nat (replicate 15 0) (replicate 9 0) (fun _ => 7)).
  - lia.
  - rewrite length_replicate. lia.
  - rewrite length_replicate. lia.
  - done.
  - apply (bool_decide_unpack _). by vm_compute.
  - apply sel_witness_lt5.
  - intros c Hc. unfold is_u8. lia.
Defined.

(** * Encoders *)

(** What the encoders may be called on: a matrix of bytes, distinct coding pages of at least
    [len] bytes, and data pages apart from these. *)
Record encode_ok (len k rows : nat) (a : list Z) (data coding : list addr) (m : mem) : Prop := {
  eo_k : (0 < k)%nat;
  eo_bytes : forall i, (i < rows * k)%nat -> is_u8 (pget a i);
  eo_rows : (rows <= length coding)%nat;
  eo_nodup : NoDup (take rows coding);
  eo_dest : forall r, (r < rows)%nat -> exists l, m !! ptr coding r = Some l /\ (len <= length l)%nat;
  eo_src : forall i, (i < k)%nat -> (ptr data i ∉ take rows coding) /\ byte_page (page m (ptr data i));
}.

(** C34. The portable encoder and the AVX2 and AVX-512 encoders, each with its own tables of the
    matrix, write the same coding pages, for every length and number of rows. *)
Theorem encoders_agree len k rows a tb tg data coding m :
  encode_ok len k rows a data coding m ->
  (32 * (rows * k) <= length tb)%nat -> (32 * (rows * k) <= length tg)%nat ->
  let base := ec_encode_data_base len k rows (ec_init_tables_base k rows a tb) data coding m in
  ec_encode_data_avx2_gfni len k rows (ec_init_tables_gfni k rows a tg) data coding m = base /\
  ec_encode_data_avx512_gfni len k rows (ec_init_tables_gfni k rows a tg) data coding m = base.
Proof.
  intros [Hk Ha Hr Hnd Hd Hs] Htb Htg base.
  assert (dot_done rows len k (fun r i => pget a (r * k + i)) data coding m base) as Hbase by (by apply (base_encoding len k rows a tb tg)).
  split; eapply rows_at_unique; [by apply (avx2_encoding len k rows a tb tg)|exact Hbase|by apply (avx512_encoding len k rows a tb tg)|exact Hbase].
Qed.

(** Adding the sources one after the other. *)
Section Incremental.
Context (len k rows : nat) (a : list Z) (data coding : list addr) (m : mem) (upd : nat -> mem -> mem).
Context (Hok : encode_ok len k rows a data coding m).
Let coef (r i : nat) : Z := pget a (r * k + i).

(** The state the steps go through: the data pages unchanged, coding pages of the same lengths. *)
Definition step_ok (m' : mem) : Prop :=
  (forall a, a ∉ take rows coding -> m' !! a = m !! a) /\
  forall r, (r < rows)%nat -> exists l, m' !! ptr coding r = Some l /\ (len <= length l)%nat.

Context (Hupd : forall i m', (i < k)%nat -> step_ok m' ->
  mad_done rows len (fun r => coef r i) (ptr data i) coding m' (upd i m')).
Context (Hzero : forall r b, (r < rows)%nat -> (b < len)%nat -> pget (page m (ptr coding r)) b = 0).

Let acc (n r b : nat) : Z := gfsum n (fun i => gfmul (coef r i) (pget (page m (ptr data i)) b)).

Lemma incremental_step n m' :
  (n < k)%nat -> rows_at rows coding m (acc n) (fun _ => len) m' ->
  rows_at rows coding m (acc (S n)) (fun _ => len) (upd n m').
Proof.
  intros Hn Hm'. pose proof (dest_page_len rows coding m len (eo_dest _ _ _ _ _ _ _ Hok)) as Hdl.
  destruct (eo_src _ _ _ _ _ _ _ Hok n Hn) as [Hni _].
  assert (page m' (ptr data n) = page m (ptr data n)) as Hsp by (by apply (rows_at_other _ _ _ _ _ _ _ Hm')).
  destruct (Hupd n m' Hn) as [H1 H2].
  { split; [apply Hm'|]. intros r Hr. eexists. split; [by apply Hm'|]. rewrite length_filled; auto. }
  split.
  - intros b Hb. rewrite H1 by done. by apply Hm'.
  - intros r Hr. rewrite H2 by done. f_equal.
    rewrite (filled_ext (mad_spec _ m' _ _ r) (acc (S n) r)).
    + rewrite (rows_at_page _ _ _ _ _ _ _ Hm' Hr), filled_filled by auto. done.
    + intros b Hlt. unfold mad_spec. rewrite Hsp, (rows_at_page _ _ _ _ _ _ _ Hm' Hr), pget_filled_lt by done.
      unfold acc. by rewrite gfsum_S.
Qed.

Lemma incremental_ok : dot_done rows len k coef data coding m (fold_left (fun m i => upd i m) (seq 0 k) m).
Proof.
  apply (fold_left_inv (fun n m' => rows_at rows coding m (acc n) (fun _ => len) m')).
  - split; [done|]. intros r Hr. destruct (eo_dest _ _ _ _ _ _ _ Hok r Hr) as (l & Hl & Hlen).
    rewrite Hl. f_equal. unfold page. rewrite Hl. symmetry. apply filled_same; [done|].
    intros b Hb. specialize (Hzero r b Hr Hb). unfold page in Hzero. rewrite Hl in Hzero. by symmetry.
  - intros n m' Hn Hm'. by apply incremental_step.
Qed.

Lemma step_source i m' :
  (i < k)%nat -> step_ok m' -> (ptr data i ∉ take rows coding) /\ byte_page (page m' (ptr data i)).
Proof.
  intros Hi [Hsame _]. destruct (eo_src _ _ _ _ _ _ _ Hok i Hi) as [Hni Hb]. split; [done|]. unfold page. by rewrite Hsame.
Qed.
End Incremental.

Section Updates.
Context (len k rows : nat) (a tb tg : list Z) (data coding : list addr) (m : mem).
Context (Hok : encode_ok len k rows a data coding m).
Context (Htb : (32 * (rows * k) <= length tb)%nat) (Htg : (32 * (rows * k) <= length tg)%nat).

Lemma base_update_step i m' :
  (i < k)%nat -> step_ok len rows coding m m' ->
  mad_done rows len (fun r => pget a (r * k + i)) (ptr data i) coding m'
    (ec_encode_data_update_base len k rows i (ec_init_tables_base k rows a tb) (ptr data i) coding m').
Proof.
  intros Hi Hst. destruct (step_source len k rows a data coding m Hok i m' Hi Hst) as [Hni Hb]. destruct Hok as [Hk Ha Hr Hnd _ _].
  apply ec_encode_data_update_base_ok; try done; [apply Hst|]. intros r Hlt.
  assert (r * k + i < rows * k)%nat as Hidx by nia. split; [by apply Ha|].
  etransitivity; [|exact (base_table_coef _ _ _ (Ha _ Hidx) (ec_init_tables_base_ok k rows a tb Ha Htb _ Hidx))]. f_equal. lia.
Qed.

Lemma gfni_mad_ok i m' :
  (i < k)%nat -> step_ok len rows coding m m' ->
  mad_ok rows len k i (fun r => pget a (r * k + i)) (ec_init_tables_gfni k rows a tg) (ptr data i) coding m'.
Proof.
  intros Hi Hst. destruct (step_source len k rows a data coding m Hok i m' Hi Hst) as [Hni Hb]. destruct Hok as [Hk Ha Hr Hnd _ _].
  split; try done; [apply Hst|]. intros r Hlt. split; [apply Ha; nia|].
  apply (tables_ok_rows _ a rows k r i); [by apply ec_init_tables_gfni_ok|done..].
Qed.
End Updates.

(** C35. Encoding source by source: starting from coding pages of zeros, the incremental updates
    of the [k] sources, by the portable, the AVX2 or the AVX-512 routine, give the pages the
    encoder writes at once. *)
Theorem updates_encode len k rows a tb tg data coding m :
  encode_ok len k rows a data coding m ->
  (32 * (rows * k) <= length tb)%nat -> (32 * (rows * k) <= length tg)%nat ->
  (forall r b, (r < rows)%nat -> (b < len)%nat -> pget (page m (ptr coding r)) b = 0) ->
  let base := ec_init_tables_base k rows a tb in
  let gfni := ec_init_tables_gfni k rows a tg in
  let all := ec_encode_data_base len k rows base data coding m in
  fold_left (fun m i => ec_encode_data_update_base len k rows i base (ptr data i) coding m) (seq 0 k) m = all /\
  fold_left (fun m i => ec_encode_data_update_avx2_gfni len k rows i gfni (ptr data i) coding m) (seq 0 k) m = all /\
  fold_left (fun m i => ec_encode_data_update_avx512_gfni len k rows i gfni (ptr data i) coding m) (seq 0 k) m = all.
Proof.
  intros Hok Htb Htg Hzero base gfni all.
  assert (dot_done rows len k (fun r i => pget a (r * k + i)) data coding m all) as Hall
    by (destruct Hok; by apply (base_encoding len k rows a tb tg)).
  split_and!; (eapply rows_at_unique; [|exact Hall]);
    (eapply (incremental_ok len k rows a data coding m); [done| |done]); intros i m' Hi Hst.
  - by apply (base_update_step len k rows a tb tg data coding m).
  - apply (update_loop_ok gf_2vect_mad_avx2_gfni); [intros; by apply gf_2vect_mad_avx2_ok| |lia].
    by apply (gfni_mad_ok len k rows a tb tg data coding m).
  - apply (update_loop_ok gf_2vect_mad_avx512_gfni); [intros; by apply gf_2vect_mad_avx512_ok| |lia].
    by apply (gfni_mad_ok len k rows a tb tg data coding m).
Qed.

(** Two data pages and three coding pages of five bytes. *)
Definition code_matrix : list Z := [1; 1; 1; 2; 1; 4].
Definition code_pages : mem :=
  list_to_map [(1%nat, [1; 2; 3; 4; 255]); (2%nat, [9; 8; 7; 6; 5]); (3%nat, replicate 5 0); (4%nat, replicate 5 0); (5%nat, replicate 5 0)].

Definition bytesb (l : list Z) : bool := forallb (fun x => (0 <=? x) && (x <? 256)) l.

Lemma bytesb_spec l : bytesb l = true -> byte_page l.
Proof.
  unfold bytesb. rewrite forallb_forall. intros H. apply Forall_forall. intros x Hx. specialize (H x Hx).
  unfold is_u8. lia.
Qed.

Lemma code_pages_ok : encode_ok 5 2 3 code_matrix [1; 2]%nat [3; 4; 5]%nat code_pages.
Proof.
  split; [lia| |cbn; lia|apply (bool_decide_unpack _); by vm_compute|..].
  - intros i Hi. apply pget_u8. apply bytesb_spec. by vm_compute.
  - intros r Hr. exists (replicate 5 0). split; [|done]. do 3 (destruct r as [|r]; [by vm_compute|]). lia.
  - intros i Hi. do 2 (destruct i as [|i]; [split; [apply (bool_decide_unpack _); by vm_compute|apply bytesb_spec; by vm_compute]|]). lia.
Qed.

Lemma code_pages_zero r b : (r < 3)%nat -> (b < 5)%nat -> pget (page code_pages (ptr [3; 4; 5]%nat r)) b = 0.
Proof.
  intros Hr Hb. assert (page code_pages (ptr [3; 4; 5]%nat r) = replicate 5 0) as ->
    by (do 3 (destruct r as [|r]; [by vm_compute|]); lia).
  unfold pget. by rewrite lookup_replicate_2.
Qed.

Lemma encoders_agree_witness :
  let base := ec_encode_data_base 5 2 3 (ec_init_tables_base 2 3 code_matrix (replicate 192 0)) [1; 2]%nat [3; 4; 5]%nat code_pages in
  ec_encode_data_avx2_gfni 5 2 3 (ec_init_tables_gfni 2 3 code_matrix (replicate 192 0)) [1; 2]%nat [3; 4; 5]%nat code_pages = base /\
  ec_encode_data_avx512_gfni 5 2 3 (ec_init_tables_gfni 2 3 code_matrix (replicate 192 0)) [1; 2]%nat [3; 4; 5]%nat code_pages = base.
Proof.
  apply (encoders_agree 5 2 3 code_matrix (replicate 192 0) (replicate 192 0) [1; 2]%nat [3; 4; 5]%nat code_pages);
    [apply code_pages_ok|rewrite length_replicate; lia..].
Defined.

Lemma updates_encode_witness :
  let base := ec_init_tables_base 2 3 code_matrix (replicate 192 0) in
  let gfni := ec_init_tables_gfni 2 3 code_matrix (replicate 192 0) in
  let all := ec_encode_data_base 5 2 3 base [1; 2]%nat [3; 4; 5]%nat code_pages in
  fold_left (fun m i => ec_encode_data_update_base 5 2 3 i base (ptr [1; 2]%nat i) [3; 4; 5]%nat m) (seq 0 2) code_pages = all /\
  fold_left (fun m i => ec_encode_data_update_avx2_gfni 5 2 3 i gfni (ptr [1; 2]%nat i) [3; 4; 5]%nat m) (seq 0 2) code_pages = all /\
  fold_left (fun m i => ec_encode_data_update_avx512_gfni 5 2 3 i gfni (ptr [1; 2]%nat i) [3; 4; 5]%nat m) (seq 0 2) code_pages = all.
Proof.
  apply (updates_encode 5 2 3 code_matrix (replicate 192 0) (replicate 192 0) [1; 2]%nat [3; 4; 5]%nat code_pages);
    [apply code_pages_ok|rewrite length_replicate; lia..|apply code_pages_zero].
Defined.

(** * Tables *)

(** [gf_mul] and [gf_inv], which look up logarithms, are the product of GF(2^8) modulo
    x^8 + x^4 + x^3 + x^2 + 1 and the inverse for it (0 for 0), and the inverse table holds the
    same inverses; so the erasure code and the RAID-6 code compute in the same field. *)
Theorem log_tables_correct a b :
  is_u8 a -> is_u8 b ->
  gf_mul a b = gfmul a b /\ gf_inv_table_base.[a] = gf_inv a /\ gf_mul a (gf_inv a) = if decide (a = 0) then 0 else 1.
Proof.
  intros Ha Hb. split; [by apply gf_mul_gfmul|]. split; [by apply gf_inv_table_ok|].
  rewrite gf_mul_gfmul, gf_inv_gfinv by auto with md. case_decide as H0; [subst; by rewrite gfmul_0_l|].
  by apply gfpow_254_inv.
Qed.

Lemma log_tables_correct_witness :
  gf_mul 0x53 0xca = gfmul 0x53 0xca /\ gf_inv_table_base.[0x53] = gf_inv 0x53 /\
  gf_mul 0x53 (gf_inv 0x53) = if decide (0x53 = 0) then 0 else 1.
Proof. apply (log_tables_correct 0x53 0xca); unfold is_u8; lia. Defined.

Lemma raid6_gflog_exp a : is_u8 a -> a <> 0 -> raid6_gfexp.[raid6_gflog.[a]] = a.
Proof.
  intros Ha Hne. assert ((a =? 0) || (raid6_gfexp.[raid6_gflog.[a]] =? a) = true) as H; [|lia].
  revert a Ha Hne. assert (forall a, is_u8 a -> (a =? 0) || (raid6_gfexp.[raid6_gflog.[a]] =? a) = true) as H; [|auto].
  apply bytes_check. by vm_compute.
Qed.

(** The tables that raid6/mktables.c prints: products, products by nibbles, powers of the
    generator, logarithms, inverses, and inverses of [2^i + 1]. *)
Theorem mktables_correct a b :
  is_u8 a -> is_u8 b ->
  (row raid6_gfmul a).[b] = gfmul a b /\
  (row raid6_vgfmul a).[b mod 16] ⊕ (row raid6_vgfmul a).[16 + b / 16] = gfmul a b /\
  (a < 255 -> raid6_gfexp.[a] = alpha (Z.to_nat a)) /\
  (a <> 0 -> raid6_gfexp.[raid6_gflog.[a]] = a) /\
  (a <> 0 -> gfmul a (raid6_gfinv.[a]) = 1) /\
  (0 < a < 255 -> gfmul (alpha (Z.to_nat a) ⊕ 1) (raid6_gfexi.[a]) = 1).
Proof.
  intros Ha Hb. split_and!.
  - by apply raid6_gfmul_lookup.
  - by apply raid6_vgfmul_lookup.
  - intros. apply raid6_gfexp_alpha. unfold is_u8 in *. lia.
  - by apply raid6_gflog_exp.
  - intros Hne. rewrite raid6_gfinv_lookup by done. by apply gfpow_254_inv.
  - intros Hr. rewrite <- (Z2Nat.id a) at 2 by lia. rewrite raid6_gfexi_lookup by lia. apply gfpow_254_inv; [auto with md|].
    intros H. apply Z.lxor_eq in H. revert H. apply alpha_ne_1. lia.
Qed.

Lemma mktables_correct_witness :
  (row raid6_gfmul 0x53).[0xca] = gfmul 0x53 0xca /\
  (row raid6_vgfmul 0x53).[0xca mod 16] ⊕ (row raid6_vgfmul 0x53).[16 + 0xca / 16] = gfmul 0x53 0xca /\
  (0x53 < 255 -> raid6_gfexp.[0x53] = alpha (Z.to_nat 0x53)) /\
  (0x53 <> 0 -> raid6_gfexp.[raid6_gflog.[0x53]] = 0x53) /\
  (0x53 <> 0 -> gfmul 0x53 (raid6_gfinv.[0x53]) = 1) /\
  (0 < 0x53 < 255 -> gfmul (alpha (Z.to_nat 0x53) ⊕ 1) (raid6_gfexi.[0x53]) = 1).
Proof. apply (mktables_correct 0x53 0xca); unfold is_u8; lia. Defined.

(** The two variants of [gf_vect_mul_init], by 64-bit words and byte by byte, write the same
    32 bytes: the products of [c] by the low nibbles and by the high nibbles. *)
Theorem mul_init_variants c tbl off :
  is_u8 c -> (off + 32 <= length tbl)%nat ->
  gf_vect_mul_init_base c tbl off = gf_vect_mul_init_base32 c tbl off /\
  forall j, (j < 16)%nat ->
    pget (gf_vect_mul_init_base c tbl off) (off + j) = gfmul c (Z.of_nat j) /\
    pget (gf_vect_mul_init_base c tbl off) (off + 16 + j) = gfmul c (16 * Z.of_nat j).
Proof.
  intros Hc Hoff. split.
  - unfold gf_vect_mul_init_base, gf_vect_mul_init_base32. by rewrite nibble_words_ok, nibble_bytes_ok.
  - destruct (gf_vect_mul_init_base_ok c tbl off Hc Hoff) as (_ & Htab & _). intros j Hj. split.
    + rewrite Htab by lia. unfold nibble_table, pget. rewrite lookup_app_l by (rewrite length_map, length_seqZ; lia).
      by rewrite list_lookup_fmap, lookup_seqZ_lt by lia.
    + rewrite <- Nat.add_assoc, Htab by lia. unfold nibble_table, pget.
      rewrite lookup_app_r by (rewrite length_map, length_seqZ; lia). rewrite length_map, length_seqZ.
      replace (16 + j - Z.to_nat 16)%nat with j by lia. by rewrite list_lookup_fmap, lookup_seqZ_lt by lia.
Qed.

Lemma mul_init_variants_witness :
  gf_vect_mul_init_base 0x53 (replicate 64 0) 32 = gf_vect_mul_init_base32 0x53 (replicate 64 0) 32 /\
  forall j, (j < 16)%nat ->
    pget (gf_vect_mul_init_base 0x53 (replicate 64 0) 32) (32 + j) = gfmul 0x53 (Z.of_nat j) /\
    pget (gf_vect_mul_init_base 0x53 (replicate 64 0) 32) (32 + 16 + j) = gfmul 0x53 (16 * Z.of_nat j).
Proof. apply (mul_init_variants 0x53 (replicate 64 0) 32); [unfold is_u8; lia|rewrite length_replicate; lia]. Defined.
