(* ===== verification/Sectors.v ===== *)
(** Sector arithmetic shared by the layouts of md/raid5.c, md/raid10.c and md/raid0.c.

    Sectors are 64-bit unsigned ([sector_t]); [u64] wraps what is stored in one. *)

From S2P Require Import Prelude.

(** [sector_div(n, base)] divides [n] in place and returns the remainder. *)
Definition sector_div (n base : Z) : Z * Z := (n / base, n mod base).

(** [is_power_of_2] on an unsigned long. *)
Definition is_power_of_2 (n : Z) : bool := negb (n =? 0) && (Z.land n (n - 1) =? 0).

(** [ffz(w)]: the index of the first zero bit of an unsigned long. *)
Definition ffz (w : Z) : Z :=
  match find (fun i => negb (Z.testbit w i)) (seqZ 0 64) with Some i => i | None => 64 end.

Lemma u64_id z : 0 <= z < 2 ^ 64 -> u64 z = z.
Proof. intros Hz. by apply Z.mod_small. Qed.

(** [sectors & ~(2^c - 1)] rounds down. *)
Lemma land_round_down x c :
  0 <= x < 2 ^ 64 -> 0 <= c < 64 -> Z.land x (u64 (Z.lnot (u64 (2 ^ c - 1)))) = x - x mod 2 ^ c.
Proof.
  intros Hx Hc. assert (2 ^ c < 2 ^ 64) by (apply Z.pow_lt_mono_r; lia). assert (0 < 2 ^ c) by lia.
  rewrite (u64_id (2 ^ c - 1)) by lia. unfold u64. rewrite Z.land_comm, land_mod_pow2 by lia.
  rewrite Z.land_comm, <- Z.ldiff_land. replace (2 ^ c - 1) with (Z.ones c) by (rewrite Z.ones_equiv; lia).
  rewrite Z.ldiff_ones_r, Z.shiftl_mul_pow2, Z.shiftr_div_pow2 by lia.
  pose proof (Z.div_mod x (2 ^ c)). lia.
Qed.

Lemma round_down_divide x c d :
  0 <= c -> 0 <= d -> (2 ^ c | x) -> (2 ^ c | x - x mod 2 ^ d) /\ (2 ^ d | x - x mod 2 ^ d).
Proof.
  intros Hc Hd Hx. assert (0 < 2 ^ d) by lia. split.
  - destruct (decide (c <= d)).
    + assert (2 ^ c | 2 ^ d) as Hcd by (exists (2 ^ (d - c)); rewrite <- Z.pow_add_r by lia; f_equal; lia).
      apply Z.divide_sub_r; [done|]. rewrite Z.mod_eq by lia. apply Z.divide_sub_r; [done|]. by apply Z.divide_mul_l.
    + assert (2 ^ d | 2 ^ c) as Hdc by (exists (2 ^ (c - d)); rewrite <- Z.pow_add_r by lia; f_equal; lia).
      assert (x mod 2 ^ d = 0) as -> by (apply Z.mod_divide; [lia|]; by etransitivity). by rewrite Z.sub_0_r.
  - rewrite Z.mod_eq by lia. exists (x / 2 ^ d). lia.
Qed.

Lemma find_seqZ (P : Z -> bool) n s i :
  s <= i < s + n -> P i = true -> (forall j, s <= j < i -> P j = false) -> find P (seqZ s n) = Some i.
Proof.
  intros Hi HP Hbefore. remember (Z.to_nat n) as m eqn:Hm. revert n s Hi Hbefore Hm.
  induction m as [|m IH]; intros n s Hi Hbefore Hm; [lia|].
  rewrite seqZ_cons by lia. cbn. destruct (decide (s = i)) as [<-|Hne]; [by rewrite HP|].
  rewrite Hbefore by lia. apply IH; [lia| |lia]. intros j Hj. apply Hbefore. lia.
Qed.

Lemma ffz_lnot_pow2 c : 0 <= c < 64 -> ffz (u64 (Z.lnot (2 ^ c))) = c.
Proof.
  intros Hc. unfold ffz. erewrite (find_seqZ _ 64 0 c); [done|lia| |].
  - unfold u64. rewrite Z.mod_pow2_bits_low, Z.lnot_spec, Z.pow2_bits_true by lia. done.
  - intros j Hj. unfold u64. rewrite Z.mod_pow2_bits_low, Z.lnot_spec, Z.pow2_bits_false by lia. done.
Qed.

(** A power of two in the sense of [is_power_of_2] is [2^c] for some [c]. *)
Lemma is_power_of_2_spec n : 0 <= n -> is_power_of_2 n = true -> exists c, 0 <= c /\ n = 2 ^ c.
Proof.
  intros Hn H. apply andb_true_iff in H as [Hne Hland].
  apply negb_true_iff, Z.eqb_neq in Hne. apply Z.eqb_eq in Hland.
  exists (Z.log2 n). split; [apply Z.log2_nonneg|].
  destruct (Z.log2_spec n) as [Hlo Hhi]; [lia|].
  destruct (decide (n = 2 ^ Z.log2 n)) as [->|Hn2]; [by rewrite Z.log2_pow2 by apply Z.log2_nonneg|]. exfalso.
  pose proof (Z.log2_nonneg n).
  assert (Z.log2 (n - 1) = Z.log2 n) as Hlog by (apply Z.log2_unique; lia).
  assert (Z.testbit (Z.land n (n - 1)) (Z.log2 n) = true) as Hbit.
  { rewrite Z.land_spec, Z.bit_log2 by lia. rewrite <- Hlog, Z.bit_log2 by lia. done. }
  by rewrite Hland, Z.bits_0 in Hbit.
Qed.

Lemma land_ones_mod x c : 0 <= c -> Z.land x (2 ^ c - 1) = x mod 2 ^ c.
Proof. intros Hc. replace (2 ^ c - 1) with (Z.ones c) by (rewrite Z.ones_equiv; lia). by apply Z.land_ones. Qed.
