(* ===== verification/Raid5Layout.v ===== *)
(** The layout of RAID-4/5/6 arrays, md/raid5.c: which disk and sector hold an array
    sector, where the parity of a stripe is, the inverse map, the size of the array, and
    the slots of the disks of a stripe in the syndrome computation.

    Sectors are 64-bit unsigned, disk indices are C ints kept in [Z]; [sector_div]
    divides its first argument in place and returns the remainder. *)

From S2P Require Import Prelude.
From S2P Require Import Sectors.

(** md/raid5.h *)
Definition ALGORITHM_LEFT_ASYMMETRIC := 0.
Definition ALGORITHM_RIGHT_ASYMMETRIC := 1.
Definition ALGORITHM_LEFT_SYMMETRIC := 2.
Definition ALGORITHM_RIGHT_SYMMETRIC := 3.
Definition ALGORITHM_PARITY_0 := 4.
Definition ALGORITHM_PARITY_N := 5.
Definition ALGORITHM_ROTATING_ZERO_RESTART := 8.
Definition ALGORITHM_ROTATING_N_RESTART := 9.
Definition ALGORITHM_ROTATING_N_CONTINUE := 10.
Definition ALGORITHM_LEFT_ASYMMETRIC_6 := 16.
Definition ALGORITHM_RIGHT_ASYMMETRIC_6 := 17.
Definition ALGORITHM_LEFT_SYMMETRIC_6 := 18.
Definition ALGORITHM_RIGHT_SYMMETRIC_6 := 19.
Definition ALGORITHM_PARITY_0_6 := 20.

Definition algorithm_valid_raid5 (layout : Z) : bool := (0 <=? layout) && (layout <=? 5).
Definition algorithm_valid_raid6 (layout : Z) : bool :=
  ((0 <=? layout) && (layout <=? 5)) || ((8 <=? layout) && (layout <=? 10)) ||
  ((16 <=? layout) && (layout <=? 20)).
Definition algorithm_is_DDF (layout : Z) : bool := (8 <=? layout) && (layout <=? 10).

(** The fields of [struct r5conf] the layout depends on. *)
Record r5conf := {
  level : Z;
  algorithm : Z;
  prev_algo : Z;
  chunk_sectors : Z;
  prev_chunk_sectors : Z;
  raid_disks : Z;
  previous_raid_disks : Z;
  max_degraded : Z;
}.

(** The indices of a stripe: data disk, P, Q (-1 when there is none), DDF order. *)
Record stripe_idx := {
  dd_idx : Z;
  pd_idx : Z;
  qd_idx : Z;
  ddf_layout : bool;
}.

Definition Idx (dd pd qd : Z) (ddf : bool) : stripe_idx :=
  {| dd_idx := dd; pd_idx := pd; qd_idx := qd; ddf_layout := ddf |}.

(** [case 5:]; [None] is [BUG()]. *)
Definition layout5 (algorithm raid_disks data_disks stripe2 dd : Z) : option stripe_idx :=
  if algorithm =? ALGORITHM_LEFT_ASYMMETRIC then
    let pd := data_disks - (sector_div stripe2 raid_disks).2 in
    Some (Idx (if dd >=? pd then dd + 1 else dd) pd (-1) false)
  else if algorithm =? ALGORITHM_RIGHT_ASYMMETRIC then
    let pd := (sector_div stripe2 raid_disks).2 in
    Some (Idx (if dd >=? pd then dd + 1 else dd) pd (-1) false)
  else if algorithm =? ALGORITHM_LEFT_SYMMETRIC then
    let pd := data_disks - (sector_div stripe2 raid_disks).2 in
    Some (Idx ((pd + 1 + dd) mod raid_disks) pd (-1) false)
  else if algorithm =? ALGORITHM_RIGHT_SYMMETRIC then
    let pd := (sector_div stripe2 raid_disks).2 in
    Some (Idx ((pd + 1 + dd) mod raid_disks) pd (-1) false)
  else if algorithm =? ALGORITHM_PARITY_0 then Some (Idx (dd + 1) 0 (-1) false)
  else if algorithm =? ALGORITHM_PARITY_N then Some (Idx dd data_disks (-1) false)
  else None.

(** P at [pd], Q after it, the data around them: D D P Q D, or Q D D D P. *)
Definition asym6 (raid_disks pd dd : Z) (ddf : bool) : stripe_idx :=
  if pd =? raid_disks - 1 then Idx (dd + 1) pd 0 ddf
  else if dd >=? pd then Idx (dd + 2) pd (pd + 1) ddf
  else Idx dd pd (pd + 1) ddf.

(** [case 6:] *)
Definition layout6 (algorithm raid_disks data_disks stripe2 dd : Z) : option stripe_idx :=
  if algorithm =? ALGORITHM_LEFT_ASYMMETRIC then
    Some (asym6 raid_disks (raid_disks - 1 - (sector_div stripe2 raid_disks).2) dd false)
  else if algorithm =? ALGORITHM_RIGHT_ASYMMETRIC then
    Some (asym6 raid_disks (sector_div stripe2 raid_disks).2 dd false)
  else if algorithm =? ALGORITHM_LEFT_SYMMETRIC then
    let pd := raid_disks - 1 - (sector_div stripe2 raid_disks).2 in
    Some (Idx ((pd + 2 + dd) mod raid_disks) pd ((pd + 1) mod raid_disks) false)
  else if algorithm =? ALGORITHM_RIGHT_SYMMETRIC then
    let pd := (sector_div stripe2 raid_disks).2 in
    Some (Idx ((pd + 2 + dd) mod raid_disks) pd ((pd + 1) mod raid_disks) false)
  else if algorithm =? ALGORITHM_PARITY_0 then Some (Idx (dd + 2) 0 1 false)
  else if algorithm =? ALGORITHM_PARITY_N then Some (Idx dd data_disks (data_disks + 1) false)
  else if algorithm =? ALGORITHM_ROTATING_ZERO_RESTART then
    Some (asym6 raid_disks (sector_div stripe2 raid_disks).2 dd true)
  else if algorithm =? ALGORITHM_ROTATING_N_RESTART then
    let stripe2 := u64 (stripe2 + 1) in
    Some (asym6 raid_disks (raid_disks - 1 - (sector_div stripe2 raid_disks).2) dd true)
  else if algorithm =? ALGORITHM_ROTATING_N_CONTINUE then
    let pd := raid_disks - 1 - (sector_div stripe2 raid_disks).2 in
    Some (Idx ((pd + 1 + dd) mod raid_disks) pd ((pd + raid_disks - 1) mod raid_disks) true)
  else if algorithm =? ALGORITHM_LEFT_ASYMMETRIC_6 then
    let pd := data_disks - (sector_div stripe2 (raid_disks - 1)).2 in
    Some (Idx (if dd >=? pd then dd + 1 else dd) pd (raid_disks - 1) false)
  else if algorithm =? ALGORITHM_RIGHT_ASYMMETRIC_6 then
    let pd := (sector_div stripe2 (raid_disks - 1)).2 in
    Some (Idx (if dd >=? pd then dd + 1 else dd) pd (raid_disks - 1) false)
  else if algorithm =? ALGORITHM_LEFT_SYMMETRIC_6 then
    let pd := data_disks - (sector_div stripe2 (raid_disks - 1)).2 in
    Some (Idx ((pd + 1 + dd) mod (raid_disks - 1)) pd (raid_disks - 1) false)
  else if algorithm =? ALGORITHM_RIGHT_SYMMETRIC_6 then
    let pd := (sector_div stripe2 (raid_disks - 1)).2 in
    Some (Idx ((pd + 1 + dd) mod (raid_disks - 1)) pd (raid_disks - 1) false)
  else if algorithm =? ALGORITHM_PARITY_0_6 then Some (Idx (dd + 1) 0 (raid_disks - 1) false)
  else None.

Definition layout (level algorithm raid_disks data_disks stripe dd : Z) : option stripe_idx :=
  if level =? 4 then Some (Idx dd data_disks (-1) false)
  else if level =? 5 then layout5 algorithm raid_disks data_disks stripe dd
  else if level =? 6 then layout6 algorithm raid_disks data_disks stripe dd
  else Some (Idx dd (-1) (-1) false).

(** The sector on the disk and the indices. *)
Definition raid5_compute_sector (conf : r5conf) (r_sector : Z) (previous : bool) : option (Z * stripe_idx) :=
  let algorithm := if previous then prev_algo conf else algorithm conf in
  let sectors_per_chunk := if previous then prev_chunk_sectors conf else chunk_sectors conf in
  let raid_disks := if previous then previous_raid_disks conf else raid_disks conf in
  let data_disks := raid_disks - max_degraded conf in
  let '(r_sector, chunk_offset) := sector_div r_sector sectors_per_chunk in
  let chunk_number := r_sector in
  let '(stripe, dd) := sector_div chunk_number data_disks in
  match layout (level conf) algorithm raid_disks data_disks stripe dd with
  | None => None
  | Some idx => Some (u64 (stripe * sectors_per_chunk + chunk_offset), idx)
  end.

(** What [struct stripe_head] holds of the layout. *)
Record stripe_head := {
  sh_sector : Z;
  sh_disks : Z;
  sh_idx : stripe_idx;
}.

(** The position of disk [i] among the data of the stripe, level 5. *)
Definition unlayout5 (algorithm raid_disks pd i : Z) : option Z :=
  if (algorithm =? ALGORITHM_LEFT_ASYMMETRIC) || (algorithm =? ALGORITHM_RIGHT_ASYMMETRIC) then
    Some (if i >? pd then i - 1 else i)
  else if (algorithm =? ALGORITHM_LEFT_SYMMETRIC) || (algorithm =? ALGORITHM_RIGHT_SYMMETRIC) then
    Some ((if i <? pd then i + raid_disks else i) - (pd + 1))
  else if algorithm =? ALGORITHM_PARITY_0 then Some (i - 1)
  else if algorithm =? ALGORITHM_PARITY_N then Some i
  else None.

Definition unlayout6 (algorithm raid_disks data_disks pd i : Z) : option Z :=
  if (algorithm =? ALGORITHM_LEFT_ASYMMETRIC) || (algorithm =? ALGORITHM_RIGHT_ASYMMETRIC) ||
     (algorithm =? ALGORITHM_ROTATING_ZERO_RESTART) || (algorithm =? ALGORITHM_ROTATING_N_RESTART) then
    Some (if pd =? raid_disks - 1 then i - 1 else if i >? pd then i - 2 else i)
  else if (algorithm =? ALGORITHM_LEFT_SYMMETRIC) || (algorithm =? ALGORITHM_RIGHT_SYMMETRIC) then
    Some (if pd =? raid_disks - 1 then i - 1
          else (if i <? pd then i + raid_disks else i) - (pd + 2))
  else if algorithm =? ALGORITHM_PARITY_0 then Some (i - 2)
  else if algorithm =? ALGORITHM_PARITY_N then Some i
  else if algorithm =? ALGORITHM_ROTATING_N_CONTINUE then
    Some (if pd =? 0 then i - 1 else (if i <? pd then i + raid_disks else i) - (pd + 1))
  else if (algorithm =? ALGORITHM_LEFT_ASYMMETRIC_6) || (algorithm =? ALGORITHM_RIGHT_ASYMMETRIC_6) then
    Some (if i >? pd then i - 1 else i)
  else if (algorithm =? ALGORITHM_LEFT_SYMMETRIC_6) || (algorithm =? ALGORITHM_RIGHT_SYMMETRIC_6) then
    Some ((if i <? pd then i + (data_disks + 1) else i) - (pd + 1))
  else if algorithm =? ALGORITHM_PARITY_0_6 then Some (i - 1)
  else None.

Definition unlayout (level algorithm raid_disks data_disks pd i : Z) : option Z :=
  if level =? 5 then unlayout5 algorithm raid_disks pd i
  else if level =? 6 then unlayout6 algorithm raid_disks data_disks pd i
  else Some i.

(** [None] is [BUG()]; 0 is also the answer for a parity disk and for a failed check. *)
Definition raid5_compute_blocknr (conf : r5conf) (sh : stripe_head) (i : Z) (previous : bool) : option Z :=
  let raid_disks := sh_disks sh in
  let data_disks := raid_disks - max_degraded conf in
  let sectors_per_chunk := if previous then prev_chunk_sectors conf else chunk_sectors conf in
  let algorithm := if previous then prev_algo conf else algorithm conf in
  let '(stripe, chunk_offset) := sector_div (sh_sector sh) sectors_per_chunk in
  if i =? pd_idx (sh_idx sh) then Some 0
  else if (level conf =? 6) && (i =? qd_idx (sh_idx sh)) then Some 0
  else
    match unlayout (level conf) algorithm raid_disks data_disks (pd_idx (sh_idx sh)) i with
    | None => None
    | Some d =>
      let chunk_number := u64 (stripe * data_disks + d) in
      let r_sector := u64 (chunk_number * sectors_per_chunk + chunk_offset) in
      match raid5_compute_sector conf r_sector previous with
      | None => None
      | Some (check, idx) =>
        if negb (check =? sh_sector sh) || negb (dd_idx idx =? i) ||
           negb (pd_idx idx =? pd_idx (sh_idx sh)) || negb (qd_idx idx =? qd_idx (sh_idx sh))
        then Some 0
        else Some r_sector
      end
    end.

(** The parity indices of the stripe at a sector of the disks. *)
Definition stripe_set_idx (conf : r5conf) (stripe : Z) (previous : bool) : option stripe_idx :=
  let sectors_per_chunk := if previous then prev_chunk_sectors conf else chunk_sectors conf in
  let '(stripe, chunk_offset) := sector_div stripe sectors_per_chunk in
  let disks := if previous then previous_raid_disks conf else raid_disks conf in
  option_map snd (raid5_compute_sector conf
    (u64 (stripe * (disks - max_degraded conf) * sectors_per_chunk + chunk_offset)) previous).

(** The number of sectors of the array; [dev_sectors] of each device. *)
Definition raid5_size (conf : r5conf) (dev_sectors sectors raid_disks' : Z) : Z :=
  let sectors := if sectors =? 0 then dev_sectors else sectors in
  let raid_disks' := if raid_disks' =? 0 then Z.min (raid_disks conf) (previous_raid_disks conf) else raid_disks' in
  let sectors := Z.land sectors (u64 (Z.lnot (u64 (chunk_sectors conf - 1)))) in
  let sectors := Z.land sectors (u64 (Z.lnot (u64 (prev_chunk_sectors conf - 1)))) in
  u64 (sectors * (raid_disks' - max_degraded conf)).

(** * One stripe *)

(** The geometries [setup_conf] accepts. *)
Definition geo_ok (level algorithm raid_disks max_degraded : Z) : Prop :=
  (level = 4 /\ max_degraded = 1 /\ 2 <= raid_disks) \/
  (level = 5 /\ max_degraded = 1 /\ 2 <= raid_disks /\ algorithm_valid_raid5 algorithm = true) \/
  (level = 6 /\ max_degraded = 2 /\ 4 <= raid_disks /\ algorithm_valid_raid6 algorithm = true).

Lemma mod_below_2n a n : 0 <= a < 2 * n -> a mod n = if a <? n then a else a - n.
Proof.
  intros Ha. destruct (Z.ltb_spec a n); [by apply Z.mod_small; lia|].
  symmetry. apply (Z.mod_unique a n 1); lia.
Qed.

Ltac layout_cases :=
  repeat (first
    [ rewrite Z.geb_leb
    | rewrite Z.gtb_ltb
    | rewrite mod_below_2n by lia
    | match goal with
      | |- context [Z.leb ?a ?b] => destruct (Z.leb_spec a b)
      | |- context [Z.ltb ?a ?b] => destruct (Z.ltb_spec a b)
      | |- context [Z.eqb ?a ?b] => destruct (Z.eqb_spec a b)
      end ]; cbn [pd_idx qd_idx dd_idx ddf_layout Idx] in *; try lia).

(** The rotation of the parity is a remainder. *)
Ltac layout_rot :=
  unfold sector_div; cbn [snd];
  repeat match goal with
  | |- context [?s mod ?n] =>
    first [is_var s | lazymatch s with u64 _ => idtac end];
    let r := fresh "r" in pose proof (Z.mod_pos_bound s n ltac:(lia)); set (r := s mod n) in *; clearbody r
  end.

Definition is_valid_idx (level n : Z) (idx : stripe_idx) : Prop :=
  0 <= dd_idx idx < n /\ 0 <= pd_idx idx < n /\ dd_idx idx <> pd_idx idx /\
  if level =? 6 then 0 <= qd_idx idx < n /\ qd_idx idx <> pd_idx idx /\ qd_idx idx <> dd_idx idx
  else qd_idx idx = -1.

Section Algorithms.
Context (algorithm n stripe : Z).

(** The algorithms, one by one. *)
Lemma raid5_algorithms :
  algorithm_valid_raid5 algorithm = true ->
  algorithm = 0 \/ algorithm = 1 \/ algorithm = 2 \/ algorithm = 3 \/ algorithm = 4 \/ algorithm = 5.
Proof. intros Ha%andb_true_iff. rewrite !Z.leb_le in Ha. lia. Qed.

Lemma raid6_algorithms :
  algorithm_valid_raid6 algorithm = true ->
  (algorithm = 0 \/ algorithm = 1 \/ algorithm = 2 \/ algorithm = 3 \/ algorithm = 4 \/ algorithm = 5) \/
  algorithm = 8 \/ algorithm = 9 \/ algorithm = 10 \/
  algorithm = 16 \/ algorithm = 17 \/ algorithm = 18 \/ algorithm = 19 \/ algorithm = 20.
Proof.
  unfold algorithm_valid_raid6. rewrite !orb_true_iff, !andb_true_iff, !Z.leb_le. lia.
Qed.

Lemma layout5_spec dd :
  algorithm_valid_raid5 algorithm = true -> 2 <= n -> 0 <= dd < n - 1 ->
  exists idx, layout5 algorithm n (n - 1) stripe dd = Some idx /\ is_valid_idx 5 n idx /\
    unlayout5 algorithm n (pd_idx idx) (dd_idx idx) = Some dd.
Proof.
  intros Halg%raid5_algorithms Hn Hdd. unfold layout5, unlayout5, is_valid_idx.
  destruct_or! Halg; subst algorithm; cbn; eexists; (split; [done|]); cbn; layout_rot; layout_cases;
    (split; [lia|f_equal; lia]).
Qed.

Lemma layout6_spec dd :
  algorithm_valid_raid6 algorithm = true -> 4 <= n -> 0 <= dd < n - 2 ->
  exists idx, layout6 algorithm n (n - 2) stripe dd = Some idx /\ is_valid_idx 6 n idx /\
    unlayout6 algorithm n (n - 2) (pd_idx idx) (dd_idx idx) = Some dd.
Proof.
  intros Halg%raid6_algorithms Hn Hdd. unfold layout6, unlayout6, is_valid_idx, asym6.
  destruct_or! Halg; subst algorithm; cbn; eexists; (split; [done|]); cbn; layout_rot; layout_cases;
    (split; [lia|f_equal; lia]).
Qed.

(** Every other disk of the stripe holds data. *)
Lemma layout5_onto dd i :
  algorithm_valid_raid5 algorithm = true -> 2 <= n -> 0 <= dd < n - 1 -> 0 <= i < n ->
  forall idx, layout5 algorithm n (n - 1) stripe dd = Some idx -> i <> pd_idx idx ->
  exists d, 0 <= d < n - 1 /\ unlayout5 algorithm n (pd_idx idx) i = Some d /\
    layout5 algorithm n (n - 1) stripe d = Some (Idx i (pd_idx idx) (qd_idx idx) (ddf_layout idx)).
Proof.
  intros Halg%raid5_algorithms Hn Hdd Hi idx. unfold layout5, unlayout5.
  destruct_or! Halg; subst algorithm; cbn; intros [= <-]; cbn; layout_rot; intros Hne;
    eexists; (split; [|split; [done|]]); layout_cases; try (unfold Idx; do 2 f_equal; lia).
Qed.

Lemma layout6_onto dd i :
  algorithm_valid_raid6 algorithm = true -> 4 <= n -> 0 <= dd < n - 2 -> 0 <= i < n ->
  forall idx, layout6 algorithm n (n - 2) stripe dd = Some idx -> i <> pd_idx idx -> i <> qd_idx idx ->
  exists d, 0 <= d < n - 2 /\ unlayout6 algorithm n (n - 2) (pd_idx idx) i = Some d /\
    layout6 algorithm n (n - 2) stripe d = Some (Idx i (pd_idx idx) (qd_idx idx) (ddf_layout idx)).
Proof.
  intros Halg%raid6_algorithms Hn Hdd Hi idx. unfold layout6, unlayout6, asym6.
  destruct_or! Halg; subst algorithm; cbn; intros [= <-]; cbn; layout_rot; layout_cases; cbn; intros Hnp Hnq;
    eexists; (split; [|split; [done|]]); layout_cases; try (unfold Idx; do 2 f_equal; lia).
Qed.

End Algorithms.

(** All levels together. *)
Section Stripe.
Context (level algorithm n md stripe : Z) (Hgeo : geo_ok level algorithm n md).

Lemma layout_spec dd :
  0 <= dd < n - md ->
  exists idx, layout level algorithm n (n - md) stripe dd = Some idx /\ is_valid_idx level n idx /\
    unlayout level algorithm n (n - md) (pd_idx idx) (dd_idx idx) = Some dd.
Proof.
  intros Hdd. unfold layout, unlayout. destruct Hgeo as [(-> & -> & Hn)|[(-> & -> & Hn & Ha)|(-> & -> & Hn & Ha)]]; cbn [Z.eqb Pos.eqb].
  - eexists. split; [done|]. split; [|done]. unfold is_valid_idx. cbn. lia.
  - by apply layout5_spec.
  - by apply layout6_spec.
Qed.

Lemma layout_onto dd i :
  0 <= dd < n - md -> 0 <= i < n ->
  forall idx, layout level algorithm n (n - md) stripe dd = Some idx -> i <> pd_idx idx ->
  (level = 6 -> i <> qd_idx idx) ->
  exists d, 0 <= d < n - md /\ unlayout level algorithm n (n - md) (pd_idx idx) i = Some d /\
    layout level algorithm n (n - md) stripe d = Some (Idx i (pd_idx idx) (qd_idx idx) (ddf_layout idx)).
Proof.
  intros Hdd Hi idx. unfold layout, unlayout.
  destruct Hgeo as [(-> & -> & Hn)|[(-> & -> & Hn & Ha)|(-> & -> & Hn & Ha)]]; cbn [Z.eqb Pos.eqb]; intros E Hp Hq.
  - injection E as <-. cbn in Hp. exists i. cbn. split; [lia|done].
  - by apply (layout5_onto algorithm n stripe dd).
  - apply (layout6_onto algorithm n stripe dd); auto.
Qed.

(** The parity does not depend on the data disk. *)
Lemma layout_parity dd dd' idx idx' :
  layout level algorithm n (n - md) stripe dd = Some idx ->
  layout level algorithm n (n - md) stripe dd' = Some idx' ->
  pd_idx idx = pd_idx idx' /\ qd_idx idx = qd_idx idx' /\ ddf_layout idx = ddf_layout idx'.
Proof.
  unfold layout, layout5, layout6, asym6. intros E1 E2.
  repeat match type of E1 with (if ?b then _ else _) = Some _ => destruct b end;
    simplify_eq/=; try done; repeat case_match; done.
Qed.
End Stripe.

(** * The map of the array *)

(** The geometry in force, now or before a reshape. *)
Definition conf_algorithm (conf : r5conf) (previous : bool) := if previous then prev_algo conf else algorithm conf.
Definition conf_spc (conf : r5conf) (previous : bool) := if previous then prev_chunk_sectors conf else chunk_sectors conf.
Definition conf_disks (conf : r5conf) (previous : bool) := if previous then previous_raid_disks conf else raid_disks conf.

Definition conf_ok (conf : r5conf) (previous : bool) : Prop :=
  geo_ok (level conf) (conf_algorithm conf previous) (conf_disks conf previous) (max_degraded conf) /\
  0 < conf_spc conf previous.

Lemma geo_ok_data l a n md : geo_ok l a n md -> 0 < n - md.
Proof. intros [(? & ? & ?)|[(? & ? & ? & ?)|(? & ? & ? & ?)]]; lia. Qed.

Section Array.
Context (conf : r5conf) (previous : bool) (Hconf : conf_ok conf previous).
Let spc := conf_spc conf previous.
Let n := conf_disks conf previous.
Let dn := n - max_degraded conf.

Lemma stripe_bound stripe d off :
  0 <= stripe -> 0 <= d < dn -> 0 <= off < spc ->
  0 <= stripe * spc + off <= (stripe * dn + d) * spc + off.
Proof.
  intros Hs Hd Ho. assert (stripe <= stripe * dn + d) by nia.
  pose proof (Z.mul_le_mono_nonneg_r stripe (stripe * dn + d) spc ltac:(lia) ltac:(done)). nia.
Qed.

(** Position [d] of stripe row [stripe], at offset [off] of its chunk. *)
Lemma compute_sector_at stripe d off :
  0 <= stripe -> 0 <= d < dn -> 0 <= off < spc -> (stripe * dn + d) * spc + off < 2 ^ 64 ->
  raid5_compute_sector conf ((stripe * dn + d) * spc + off) previous =
  option_map (fun idx => (stripe * spc + off, idx))
    (layout (level conf) (conf_algorithm conf previous) n dn stripe d).
Proof.
  intros Hs Hd Ho Hmax. unfold raid5_compute_sector, sector_div.
  change (if previous then prev_chunk_sectors conf else chunk_sectors conf) with spc.
  change (if previous then previous_raid_disks conf else raid_disks conf) with n.
  change (if previous then prev_algo conf else algorithm conf) with (conf_algorithm conf previous). fold dn.
  rewrite Z.add_comm, Z.div_add, Z.mod_add, (Z.div_small off), (Z.mod_small off), Z.add_0_l by lia.
  rewrite (Z.add_comm (stripe * dn)), Z.div_add, Z.mod_add, (Z.div_small d), (Z.mod_small d), Z.add_0_l by lia.
  destruct (layout _ _ _ _ _ _); [|done]. cbn. pose proof (stripe_bound stripe d off Hs Hd Ho). rewrite u64_id; [done|]. lia.
Qed.

Lemma sector_split r :
  0 <= r -> exists stripe d off, r = (stripe * dn + d) * spc + off /\ 0 <= stripe /\ 0 <= d < dn /\ 0 <= off < spc.
Proof.
  intros Hr. destruct Hconf as [Hgeo Hspc]. pose proof (geo_ok_data _ _ _ _ Hgeo) as Hdn. fold n dn in Hdn. fold spc in Hspc.
  exists (r / spc / dn), (r / spc mod dn), (r mod spc).
  pose proof (Z.div_mod r spc ltac:(lia)). pose proof (Z.div_mod (r / spc) dn ltac:(lia)).
  assert (0 <= r / spc) by (by apply Z.div_pos). assert (0 <= r / spc / dn) by (by apply Z.div_pos).
  split; [lia|]. split; [done|]. split; apply Z.mod_pos_bound; lia.
Qed.

(** Disk [i] of the stripe, where it is not a parity disk. *)
Lemma compute_blocknr_at stripe off d idx :
  0 <= stripe -> 0 <= d < dn -> 0 <= off < spc -> (stripe * dn + d) * spc + off < 2 ^ 64 ->
  layout (level conf) (conf_algorithm conf previous) n dn stripe d = Some idx ->
  is_valid_idx (level conf) n idx ->
  unlayout (level conf) (conf_algorithm conf previous) n dn (pd_idx idx) (dd_idx idx) = Some d ->
  forall ddx, raid5_compute_blocknr conf
    {| sh_sector := stripe * spc + off; sh_disks := n; sh_idx := Idx ddx (pd_idx idx) (qd_idx idx) (ddf_layout idx) |}
    (dd_idx idx) previous = Some ((stripe * dn + d) * spc + off).
Proof.
  intros Hs Hd Ho Hmax Hlay Hval Hun ddx. pose proof (compute_sector_at stripe d off Hs Hd Ho Hmax) as Hcs.
  rewrite Hlay in Hcs. unfold raid5_compute_blocknr, sector_div. cbn [sh_sector sh_disks sh_idx pd_idx qd_idx Idx].
  change (if previous then prev_chunk_sectors conf else chunk_sectors conf) with spc.
  change (if previous then prev_algo conf else algorithm conf) with (conf_algorithm conf previous). fold dn.
  destruct Hval as (Hdd & Hpd & Hne & Hq). destruct (Z.eqb_spec (dd_idx idx) (pd_idx idx)); [done|].
  destruct ((level conf =? 6) && (dd_idx idx =? qd_idx idx)) eqn:E.
  { apply andb_true_iff in E as [E6 Eq]. rewrite E6 in Hq. apply Z.eqb_eq in Eq. lia. }
  rewrite (Z.add_comm (stripe * spc)), Z.div_add, Z.mod_add, (Z.div_small off), (Z.mod_small off), Z.add_0_l by lia.
  pose proof (stripe_bound stripe d off Hs Hd Ho).
  rewrite Hun. rewrite (u64_id (stripe * dn + d)) by nia. rewrite u64_id by lia. rewrite Hcs. cbn.
  rewrite (Z.add_comm off), !Z.eqb_refl. done.
Qed.

(** The stripe at a sector of the disks knows its parity. *)
Lemma stripe_set_idx_at stripe off :
  0 <= stripe -> 0 <= off < spc -> (stripe * dn) * spc + off < 2 ^ 64 ->
  stripe_set_idx conf (stripe * spc + off) previous =
  layout (level conf) (conf_algorithm conf previous) n dn stripe 0.
Proof.
  intros Hs Ho Hmax. unfold stripe_set_idx, sector_div.
  change (if previous then prev_chunk_sectors conf else chunk_sectors conf) with spc.
  change (if previous then previous_raid_disks conf else raid_disks conf) with n. fold dn.
  rewrite (Z.add_comm (stripe * spc)), Z.div_add, Z.mod_add, (Z.div_small off), (Z.mod_small off), Z.add_0_l by lia.
  destruct Hconf as [Hgeo _]. pose proof (geo_ok_data _ _ _ _ Hgeo) as Hdn. fold n dn in Hdn.
  replace (stripe * dn * spc) with ((stripe * dn + 0) * spc) in * by lia.
  pose proof (stripe_bound stripe 0 off Hs ltac:(lia) Ho). rewrite u64_id by lia. rewrite compute_sector_at by lia. by destruct (layout _ _ _ _ _ _).
Qed.
End Array.

(** * Properties *)

(** C36. Every sector of the array is on one data disk of its stripe: the indices of the
    data disk, of P and of Q (level 6) are disks of the array and differ from each other,
    and the sector on the disk keeps its offset in the chunk. *)
Theorem compute_sector_valid conf previous r :
  conf_ok conf previous -> 0 <= r < 2 ^ 64 ->
  exists s idx, raid5_compute_sector conf r previous = Some (s, idx) /\ 0 <= s <= r /\
    s mod conf_spc conf previous = r mod conf_spc conf previous /\
    is_valid_idx (level conf) (conf_disks conf previous) idx.
Proof.
  intros Hconf Hr. destruct (sector_split conf previous Hconf r) as (stripe & d & off & Heq & Hs & Hd & Ho); [lia|].
  destruct (layout_spec _ _ _ _ stripe (proj1 Hconf) d Hd) as (idx & Hl & Hv & _).
  rewrite Heq in Hr |- *. exists (stripe * conf_spc conf previous + off), idx.
  rewrite compute_sector_at by (done || lia). rewrite Hl. split; [done|].
  split; [by apply stripe_bound|]. split; [|done].
  by rewrite !(Z.add_comm _ off), !Z.mod_add by lia.
Qed.

(** C37. The inverse map undoes the map: from the stripe and the data disk of a sector,
    [raid5_compute_blocknr] finds the sector again; its self-check never fails. *)
Theorem compute_blocknr_roundtrip conf previous r s idx :
  conf_ok conf previous -> 0 <= r < 2 ^ 64 ->
  raid5_compute_sector conf r previous = Some (s, idx) ->
  raid5_compute_blocknr conf {| sh_sector := s; sh_disks := conf_disks conf previous; sh_idx := idx |}
    (dd_idx idx) previous = Some r.
Proof.
  intros Hconf Hr E. destruct (sector_split conf previous Hconf r) as (stripe & d & off & Heq & Hs & Hd & Ho); [lia|].
  destruct (layout_spec _ _ _ _ stripe (proj1 Hconf) d Hd) as (idx' & Hl & Hv & Hun). rewrite Heq in E, Hr |- *.
  rewrite compute_sector_at, Hl in E by (done || lia). cbn in E. simplify_eq.
  pose proof (compute_blocknr_at conf previous stripe off d idx Hs Hd Ho ltac:(lia) Hl Hv Hun (dd_idx idx)) as H.
  by destruct idx.
Qed.

(** The map reaches every data block: for the stripe at any sector of the disks, with
    its parity indices set by [stripe_set_idx], every disk other than P and Q holds
    exactly the array sector the inverse map gives. *)
Theorem compute_sector_onto conf previous s i sh_i :
  conf_ok conf previous -> 0 <= s -> 0 <= i < conf_disks conf previous ->
  (s / conf_spc conf previous + 1) * (conf_disks conf previous - max_degraded conf) * conf_spc conf previous <= 2 ^ 64 ->
  stripe_set_idx conf s previous = Some sh_i -> i <> pd_idx sh_i -> (level conf = 6 -> i <> qd_idx sh_i) ->
  exists r, raid5_compute_blocknr conf {| sh_sector := s; sh_disks := conf_disks conf previous; sh_idx := sh_i |} i previous = Some r /\
    raid5_compute_sector conf r previous = Some (s, Idx i (pd_idx sh_i) (qd_idx sh_i) (ddf_layout sh_i)).
Proof.
  intros Hconf Hs Hi Hmax Hset Hp Hq. pose proof Hconf as [Hgeo Hspc].
  pose proof (geo_ok_data _ _ _ _ Hgeo) as Hdn.
  assert (exists stripe off, s = stripe * conf_spc conf previous + off /\ 0 <= stripe /\ 0 <= off < conf_spc conf previous /\
    s / conf_spc conf previous = stripe) as (stripe & off & -> & Hst & Ho & Hdiv).
  { exists (s / conf_spc conf previous), (s mod conf_spc conf previous).
    pose proof (Z.div_mod s (conf_spc conf previous)). pose proof (Z.mod_pos_bound s _ Hspc).
    assert (0 <= s / conf_spc conf previous) by (apply Z.div_pos; lia). lia. }
  rewrite Hdiv in Hmax. clear Hdiv. rewrite stripe_set_idx_at in Hset by (done || nia).
  destruct (layout_onto _ _ _ _ stripe Hgeo 0 i ltac:(lia) Hi sh_i Hset Hp Hq) as (d & Hd & Hun & Hl).
  assert ((stripe * (conf_disks conf previous - max_degraded conf) + d) * conf_spc conf previous + off < 2 ^ 64) as Hlt by nia.
  eexists. split.
  - destruct (layout_spec _ _ _ _ stripe Hgeo d Hd) as (idx' & Hl' & Hv & Hun').
    pose proof (compute_blocknr_at conf previous stripe off d idx' Hst Hd Ho Hlt Hl' Hv Hun' (dd_idx sh_i)) as H.
    rewrite Hl in Hl'. injection Hl' as <-. cbn in H. destruct sh_i. exact H.
  - rewrite compute_sector_at by done. by rewrite Hl.
Qed.

(** Two sectors of the array never share a place on the disks. *)
Theorem compute_sector_injective conf previous r1 r2 s idx1 idx2 :
  conf_ok conf previous -> 0 <= r1 < 2 ^ 64 -> 0 <= r2 < 2 ^ 64 ->
  raid5_compute_sector conf r1 previous = Some (s, idx1) ->
  raid5_compute_sector conf r2 previous = Some (s, idx2) -> dd_idx idx1 = dd_idx idx2 -> r1 = r2.
Proof.
  intros Hconf Hr1 Hr2 E1 E2 Hdd.
  destruct (sector_split conf previous Hconf r1) as (t1 & d1 & o1 & H1 & Ht1 & Hd1 & Ho1); [lia|].
  destruct (sector_split conf previous Hconf r2) as (t2 & d2 & o2 & H2 & Ht2 & Hd2 & Ho2); [lia|].
  destruct (layout_spec _ _ _ _ t1 (proj1 Hconf) d1 Hd1) as (i1 & Hl1 & _ & Hun1).
  destruct (layout_spec _ _ _ _ t2 (proj1 Hconf) d2 Hd2) as (i2 & Hl2 & _ & Hun2).
  rewrite H1 in E1, Hr1. rewrite H2 in E2, Hr2.
  rewrite compute_sector_at, Hl1 in E1 by (done || lia). rewrite compute_sector_at, Hl2 in E2 by (done || lia).
  cbn in E1, E2. simplify_eq. destruct Hconf as [Hgeo Hspc].
  assert (t1 = t2 /\ o1 = o2) as [-> ->].
  { apply (Z.div_mod_unique (conf_spc conf previous)); [by left|by left|]. rewrite !(Z.mul_comm (conf_spc conf previous)). congruence. }
  destruct (layout_parity _ _ _ _ t2 d1 d2 idx1 idx2 Hl1 Hl2) as (Hpd & _).
  rewrite Hpd, Hdd, Hun2 in Hun1. injection Hun1 as ->. done.
Qed.

(** * Witnesses *)

(** Six disks in RAID-6 with the left symmetric layout and chunks of 128 sectors. *)
Definition example_conf : r5conf :=
  {| level := 6; algorithm := ALGORITHM_LEFT_SYMMETRIC; prev_algo := ALGORITHM_LEFT_SYMMETRIC; chunk_sectors := 128;
     prev_chunk_sectors := 128; raid_disks := 6; previous_raid_disks := 6; max_degraded := 2 |}.

Lemma example_conf_ok : conf_ok example_conf false.
Proof. split; [right; right|]; by vm_compute. Qed.

Lemma compute_sector_valid_witness :
  exists s idx, raid5_compute_sector example_conf 1000 false = Some (s, idx) /\ 0 <= s <= 1000 /\
    s mod 128 = 1000 mod 128 /\ is_valid_idx 6 6 idx.
Proof. apply (compute_sector_valid example_conf false 1000); [apply example_conf_ok|lia]. Defined.

Lemma compute_blocknr_roundtrip_witness :
  raid5_compute_blocknr example_conf {| sh_sector := 232; sh_disks := 6; sh_idx := Idx 3 4 5 false |} 3 false = Some 1000.
Proof.
  apply (compute_blocknr_roundtrip example_conf false 1000 232 (Idx 3 4 5 false)); [apply example_conf_ok|lia|by vm_compute].
Defined.

Lemma compute_sector_onto_witness :
  exists r, raid5_compute_blocknr example_conf {| sh_sector := 232; sh_disks := 6; sh_idx := Idx 0 4 5 false |} 3 false = Some r /\
    raid5_compute_sector example_conf r false = Some (232, Idx 3 4 5 false).
Proof.
  apply (compute_sector_onto example_conf false 232 3 (Idx 0 4 5 false));
    [apply example_conf_ok|lia|by vm_compute|by vm_compute|by vm_compute|by vm_compute|by vm_compute].
Defined.

Lemma compute_sector_injective_witness : 1000 = 1000.
Proof.
  apply (compute_sector_injective example_conf false 1000 1000 232 (Idx 3 4 5 false) (Idx 3 4 5 false));
    [apply example_conf_ok|lia|lia|by vm_compute|by vm_compute|done].
Defined.
