(* ===== verification/Raid5Stripe.v ===== *)
(** The size of a RAID-4/5/6 array and the order of the disks of a RAID-6 stripe in the
    syndrome computation, md/raid5.c. *)

From S2P Require Import Prelude Sectors Raid5Layout.

(** * Slots *)

(** The first data disk of a RAID-6 stripe. *)
Definition raid6_d0 (sh : stripe_head) : Z :=
  if ddf_layout (sh_idx sh) then 0
  else if qd_idx (sh_idx sh) =? sh_disks sh - 1 then 0
  else qd_idx (sh_idx sh) + 1.

Definition raid6_next_disk (disk raid_disks : Z) : Z :=
  let disk := disk + 1 in if disk <? raid_disks then disk else 0.

(** The slot of a disk and the new count. *)
Definition raid6_idx_to_slot (idx : Z) (sh : stripe_head) (count syndrome_disks : Z) : Z * Z :=
  let slot := count in
  let count := if ddf_layout (sh_idx sh) then count + 1 else count in
  if idx =? pd_idx (sh_idx sh) then (syndrome_disks, count)
  else if idx =? qd_idx (sh_idx sh) then (syndrome_disks + 1, count)
  else (slot, if ddf_layout (sh_idx sh) then count else count + 1).

(** The walk of [set_syndrome_sources]: the disks in order with their slots; [disks]
    iterations bring it back to the start. *)
Fixpoint slot_loop (fuel : nat) (sh : stripe_head) (syndrome_disks d0_idx i count : Z) : list (Z * Z) :=
  match fuel with
  | O => []
  | S fuel =>
    let '(slot, count) := raid6_idx_to_slot i sh count syndrome_disks in
    let next := raid6_next_disk i (sh_disks sh) in
    (i, slot) :: if next =? d0_idx then [] else slot_loop fuel sh syndrome_disks d0_idx next count
  end.

Definition syndrome_disks (sh : stripe_head) : Z :=
  if ddf_layout (sh_idx sh) then sh_disks sh else sh_disks sh - 2.

Definition syndrome_slots (sh : stripe_head) : list (Z * Z) :=
  slot_loop (Z.to_nat (sh_disks sh)) sh (syndrome_disks sh) (raid6_d0 sh) (raid6_d0 sh) 0.

(** What the loop of [set_syndrome_sources] reads of a device. *)
Record r5dev := {
  dev_page : nat;
  dev_orig_page : nat;
  dev_offset : Z;
  R5_Wantdrain : bool;
  R5_InJournal : bool;
  dev_written : bool;
}.

Inductive srctype := SYNDROME_SRC_ALL | SYNDROME_SRC_WANT_DRAIN | SYNDROME_SRC_WRITTEN.

(** The condition under which a device is a source. *)
Definition is_source (sh : stripe_head) (ty : srctype) (i : Z) (dev : r5dev) : bool :=
  (i =? qd_idx (sh_idx sh)) || (i =? pd_idx (sh_idx sh)) ||
  match ty with
  | SYNDROME_SRC_ALL => true
  | SYNDROME_SRC_WANT_DRAIN => R5_Wantdrain dev || R5_InJournal dev
  | SYNDROME_SRC_WRITTEN => dev_written dev || R5_InJournal dev
  end.

(** [srcs[slot]] for the source [dev]. *)
Definition source_page (dev : r5dev) : nat := if R5_InJournal dev then dev_orig_page dev else dev_page dev.

(** The arrays [srcs] and [offs] as maps from slots ([NULL], or left as it was, where a map is
    undefined), and the number of data sources. *)
Definition set_syndrome_sources (sh : stripe_head) (ty : srctype) (dev : Z -> r5dev)
    : gmap Z nat * gmap Z Z * Z :=
  (fold_left (fun '(srcs, offs) '(i, slot) =>
      if is_source sh ty i (dev i) then
        (<[slot := source_page (dev i)]> srcs, <[slot := dev_offset (dev i)]> offs)
      else (srcs, offs))
    (syndrome_slots sh) (∅, ∅),
   syndrome_disks sh).

(** * The walk visits every disk once *)

Section Walk.
Context (n d0 : Z) (Hn : 0 < n) (Hd0 : 0 <= d0 < n).

(** The disk [j] steps after the first. *)
Definition walk (j : Z) : Z := (d0 + j) mod n.

Lemma walk_next j : 0 <= j -> raid6_next_disk (walk j) n = walk (j + 1).
Proof.
  intros Hj. unfold raid6_next_disk, walk. pose proof (Z.mod_pos_bound (d0 + j) n Hn).
  rewrite Z.add_assoc, <- (Z.add_mod_idemp_l (d0 + j) 1) by lia.
  destruct (Z.ltb_spec ((d0 + j) mod n + 1) n); [by rewrite (Z.mod_small ((d0 + j) mod n + 1)) by lia|].
  replace ((d0 + j) mod n + 1) with n by lia. by rewrite Z.mod_same by lia.
Qed.

Lemma walk_start : walk 0 = d0.
Proof. unfold walk. rewrite Z.add_0_r. by apply Z.mod_small. Qed.

Lemma walk_inj i j : 0 <= i < n -> 0 <= j < n -> walk i = walk j -> i = j.
Proof. unfold walk. intros Hi Hj. rewrite !mod_below_2n by lia. repeat case_match; lia. Qed.

Lemma walk_return j : 0 < j <= n -> (walk j =? d0) = (j =? n).
Proof.
  intros Hj. destruct (Z.eqb_spec j n) as [->|Hne].
  - apply Z.eqb_eq. unfold walk. rewrite <- (Z.mul_1_l n) at 1. rewrite Z.mod_add by lia. by apply Z.mod_small.
  - apply Z.eqb_neq. intros H. apply Hne. rewrite <- walk_start in H. apply walk_inj in H; lia.
Qed.

Lemma walk_onto i : 0 <= i < n -> exists j, 0 <= j < n /\ walk j = i.
Proof.
  intros Hi. exists ((i - d0) mod n). split; [by apply Z.mod_pos_bound|]. unfold walk.
  rewrite Z.add_mod_idemp_r by lia. replace (d0 + (i - d0)) with i by lia. by apply Z.mod_small.
Qed.
End Walk.

Section Slots.
Context (sh : stripe_head).
Let n := sh_disks sh.
Let p := pd_idx (sh_idx sh).
Let q := qd_idx (sh_idx sh).
Let d0 := raid6_d0 sh.
Context (Hn : 4 <= n) (Hp : 0 <= p < n) (Hq : 0 <= q < n) (Hpq : p <> q).

Lemma d0_range : 0 <= d0 < n.
Proof. unfold d0, raid6_d0. fold n q. destruct (ddf_layout _); [lia|]. destruct (Z.eqb_spec q (n - 1)); lia. Qed.

(** The count when the walk is at step [j], where P is at step [pp]. *)
Definition slot_count (pp j : Z) : Z :=
  if ddf_layout (sh_idx sh) then j else if pp <? j then j - 1 else j.

Definition slot_at (pp j : Z) : Z :=
  if walk n d0 j =? p then syndrome_disks sh
  else if walk n d0 j =? q then syndrome_disks sh + 1
  else slot_count pp j.

Lemma q_position : ddf_layout (sh_idx sh) = false -> walk n d0 (n - 1) = q.
Proof.
  intros Hd. unfold walk, d0, raid6_d0. rewrite Hd. fold n q. destruct (Z.eqb_spec q (n - 1)) as [->|].
  - by rewrite Z.mod_small by lia.
  - rewrite mod_below_2n by lia. destruct (Z.ltb_spec (q + 1 + (n - 1)) n); lia.
Qed.

Lemma slot_step pp j :
  0 <= j < n - 1 -> 0 <= pp < n -> walk n d0 pp = p ->
  raid6_idx_to_slot (walk n d0 j) sh (slot_count pp j) (syndrome_disks sh) = (slot_at pp j, slot_count pp (j + 1)).
Proof.
  intros Hj Hpp Hwp. pose proof d0_range as Hd0. unfold raid6_idx_to_slot, slot_at, slot_count. fold p q.
  destruct (ddf_layout (sh_idx sh)) eqn:Hd; [by repeat case_match|].
  pose proof (q_position Hd) as Hwq. destruct (Z.eqb_spec (walk n d0 j) p) as [Hjp|Hjp].
  - assert (j = pp) as -> by (apply (walk_inj n d0); lia || congruence). f_equal. repeat case_match; lia.
  - destruct (Z.eqb_spec (walk n d0 j) q) as [Hjq|Hjq].
    + assert (j = n - 1); [|lia]. apply (walk_inj n d0); lia || congruence.
    + assert (j <> pp) by congruence. f_equal. repeat case_match; lia.
Qed.

Lemma slot_loop_walk pp fuel j :
  0 <= j < n -> 0 <= pp < n -> walk n d0 pp = p -> fuel = Z.to_nat (n - j) ->
  slot_loop fuel sh (syndrome_disks sh) d0 (walk n d0 j) (slot_count pp j) =
  map (fun j => (walk n d0 j, slot_at pp j)) (seqZ j (n - j)).
Proof.
  intros Hj Hpp Hwp. pose proof d0_range as Hd0. revert j Hj.
  induction fuel as [|fuel IH]; intros j Hj Hf; [lia|]. rewrite seqZ_cons by lia. cbn [map slot_loop].
  assert (exists c, raid6_idx_to_slot (walk n d0 j) sh (slot_count pp j) (syndrome_disks sh) = (slot_at pp j, c)) as [c Hc].
  { unfold raid6_idx_to_slot, slot_at. fold p q. repeat case_match; eauto.
    all: unfold slot_count; by rewrite ?Hpq; eauto. }
  fold n. rewrite walk_next by lia. destruct (decide (j = n - 1)) as [->|Hne].
  - rewrite Hc, walk_return by lia. rewrite (proj2 (Z.eqb_eq (n - 1 + 1) n)) by lia.
    replace (Z.pred (n - (n - 1))) with 0 by lia. done.
  - rewrite slot_step by (done || lia). rewrite walk_return, (proj2 (Z.eqb_neq (j + 1) n)) by lia.
    rewrite IH by lia. do 2 f_equal. f_equal; lia.
Qed.

Lemma syndrome_slots_walk :
  exists pp, 0 <= pp < n /\ walk n d0 pp = p /\
  syndrome_slots sh = map (fun j => (walk n d0 j, slot_at pp j)) (seqZ 0 n).
Proof.
  pose proof d0_range as Hd0. destruct (walk_onto n d0 ltac:(lia) p Hp) as (pp & Hpp & Hwp).
  exists pp. split; [done|]. split; [done|]. unfold syndrome_slots. fold n d0.
  rewrite <- (walk_start n d0 ltac:(done)) at 2. replace 0 with (slot_count pp 0) at 2.
  - rewrite (slot_loop_walk pp); [by rewrite Z.sub_0_r|lia|done|done|by rewrite Z.sub_0_r].
  - unfold slot_count. repeat case_match; lia.
Qed.
End Slots.

Lemma NoDup_map_seqZ {B} (f : Z -> B) n :
  (forall i j, 0 <= i < n -> 0 <= j < n -> f i = f j -> i = j) -> NoDup (map f (seqZ 0 n)).
Proof.
  intros Hf. apply NoDup_fmap_2_strong; [|apply NoDup_seqZ].
  intros i j Hi%elem_of_seqZ Hj%elem_of_seqZ. apply Hf; lia.
Qed.

(** An injective function on [0 .. n-1] with values in it permutes it. *)
Lemma permutation_seqZ (f : Z -> Z) n :
  (forall i j, 0 <= i < n -> 0 <= j < n -> f i = f j -> i = j) ->
  (forall i, 0 <= i < n -> 0 <= f i < n) -> map f (seqZ 0 n) ≡ₚ seqZ 0 n.
Proof.
  intros Hinj Hrange. apply submseteq_length_Permutation; [|by rewrite length_map].
  apply NoDup_submseteq; [by apply NoDup_map_seqZ|].
  intros y (i & -> & Hi)%list_elem_of_fmap. apply elem_of_seqZ in Hi. apply elem_of_seqZ. specialize (Hrange i). lia.
Qed.

(** * The size *)

(** The usable sectors of a device: a multiple of both chunk sizes. *)
Lemma raid5_size_rounded conf dev c pc :
  0 <= dev < 2 ^ 64 -> 0 <= c < 64 -> 0 <= pc < 64 ->
  chunk_sectors conf = 2 ^ c -> prev_chunk_sectors conf = 2 ^ pc -> dev <> 0 ->
  exists S, 0 <= S <= dev /\ (2 ^ c | S) /\ (2 ^ pc | S) /\
    raid5_size conf dev 0 0 = u64 (S * (Z.min (raid_disks conf) (previous_raid_disks conf) - max_degraded conf)).
Proof.
  intros Hdev Hc Hpc Ec Epc Hne. unfold raid5_size. rewrite Ec, Epc. cbn [Z.eqb].
  assert (0 < 2 ^ c) by lia. assert (0 < 2 ^ pc) by lia.
  rewrite (land_round_down dev c) by lia. pose proof (Z.mod_pos_bound dev (2 ^ c) ltac:(lia)).
  assert (0 <= dev - dev mod 2 ^ c) by (rewrite Z.mod_eq by lia; pose proof (Z.mul_div_le dev (2 ^ c)); assert (0 <= 2 ^ c * (dev / 2 ^ c)) by (apply Z.mul_nonneg_nonneg; [lia|apply Z.div_pos; lia]); lia).
  rewrite land_round_down by lia. set (x := dev - dev mod 2 ^ c) in *.
  pose proof (Z.mod_pos_bound x (2 ^ pc) ltac:(lia)).
  assert (0 <= x - x mod 2 ^ pc) by (pose proof (Z.mod_le x (2 ^ pc)); lia).
  destruct (round_down_divide x c pc) as [Hdv1 Hdv2]; [lia..| |].
  { unfold x. rewrite Z.mod_eq by lia. exists (dev / 2 ^ c). lia. }
  exists (x - x mod 2 ^ pc). split; [lia|]. done.
Qed.

(** ** The slots of the native layouts *)

Lemma native_slots sh :
  4 <= sh_disks sh -> is_valid_idx 6 (sh_disks sh) (sh_idx sh) -> ddf_layout (sh_idx sh) = false ->
  (syndrome_slots sh).*1 ≡ₚ seqZ 0 (sh_disks sh) /\
  (syndrome_slots sh).*2 ≡ₚ seqZ 0 (sh_disks sh) /\
  (pd_idx (sh_idx sh), sh_disks sh - 2) ∈ syndrome_slots sh /\
  (qd_idx (sh_idx sh), sh_disks sh - 1) ∈ syndrome_slots sh.
Proof.
  intros Hn (_ & Hp & _ & Hq & Hqp & _) Hd. pose proof (d0_range sh Hn Hq) as Hd0.
  destruct (syndrome_slots_walk sh Hn Hp Hq) as (pp & Hpp & Hwp & ->); [done|].
  pose proof (q_position sh Hn Hp Hq (not_eq_sym Hqp) Hd) as Hwq. set (n := sh_disks sh) in *. set (w := walk n (raid6_d0 sh)) in *.
  assert (forall i j, 0 <= i < n -> 0 <= j < n -> w i = w j -> i = j) as Hinj by (intros; apply (walk_inj n (raid6_d0 sh)); lia || done).
  assert (pp <> n - 1) by (intros ->; congruence).
  assert (forall j, 0 <= j < n -> slot_at sh pp j = if j =? pp then n - 2 else if j =? n - 1 then n - 1 else if pp <? j then j - 1 else j) as Hslot.
  { intros j Hj. unfold slot_at, slot_count, syndrome_disks. rewrite Hd. fold n w. rewrite <- Hwp, <- Hwq.
    destruct (Z.eqb_spec (w j) (w pp)) as [Hjp|], (Z.eqb_spec j pp) as [|]; [done|by apply Hinj in Hjp|congruence|].
    destruct (Z.eqb_spec (w j) (w (n - 1))) as [Hjq|], (Z.eqb_spec j (n - 1)) as [|]; [lia|apply Hinj in Hjq; lia|congruence|done]. }
  rewrite <- !list_fmap_compose. split; [|split; [|split]].
  - apply (permutation_seqZ w); [done|]. intros i Hi. apply Z.mod_pos_bound. lia.
  - apply (permutation_seqZ (slot_at sh pp)).
    + intros i j Hi Hj. rewrite !Hslot by done. repeat case_match; lia.
    + intros i Hi. rewrite Hslot by done. repeat case_match; lia.
  - apply list_elem_of_fmap. exists pp. rewrite Hslot, Z.eqb_refl by done. fold n w. rewrite Hwp. split; [done|apply elem_of_seqZ; lia].
  - apply list_elem_of_fmap. exists (n - 1). rewrite Hslot by lia. fold w. rewrite Hwq.
    split; [|apply elem_of_seqZ; lia]. f_equal. repeat case_match; lia.
Qed.

(** Stores to distinct slots. *)
Lemma sources_fold sh ty dev (l : list (Z * Z)) (srcs : gmap Z nat) (offs : gmap Z Z) :
  NoDup l.*2 -> (forall slot, slot ∈ l.*2 -> srcs !! slot = None /\ offs !! slot = None) ->
  let '(srcs', offs') := fold_left (fun '(srcs, offs) '(i, slot) =>
      if is_source sh ty i (dev i) then
        (<[slot := source_page (dev i)]> srcs, <[slot := dev_offset (dev i)]> offs)
      else (srcs, offs)) l (srcs, offs) in
  (forall i slot, (i, slot) ∈ l ->
    srcs' !! slot = (if is_source sh ty i (dev i) then Some (source_page (dev i)) else None) /\
    offs' !! slot = (if is_source sh ty i (dev i) then Some (dev_offset (dev i)) else None)) /\
  (forall slot, slot ∉ l.*2 -> srcs' !! slot = srcs !! slot /\ offs' !! slot = offs !! slot).
Proof.
  revert srcs offs. induction l as [|[i0 s0] l IH]; intros srcs offs Hnd Hnone; cbn [fold_left].
  { split; [set_solver|done]. }
  cbn in Hnd, Hnone. apply list.NoDup_cons in Hnd as [Hs0 Hnd]. set (b := is_source sh ty i0 (dev i0)).
  assert (exists srcs1 offs1, (if b then (<[s0 := source_page (dev i0)]> srcs, <[s0 := dev_offset (dev i0)]> offs) else (srcs, offs)) = (srcs1, offs1) /\
    srcs1 !! s0 = (if b then Some (source_page (dev i0)) else None) /\ offs1 !! s0 = (if b then Some (dev_offset (dev i0)) else None) /\
    forall slot, slot <> s0 -> srcs1 !! slot = srcs !! slot /\ offs1 !! slot = offs !! slot) as (srcs1 & offs1 & -> & H1 & H2 & Hother).
  { destruct b; eexists _, _; (split; [done|]); [rewrite !lookup_insert_eq|]; (split_and!; [try done|try done|]).
    - intros slot Hne. by rewrite !lookup_insert_ne.
    - apply Hnone. by left.
    - apply Hnone. by left.
    - done. }
  specialize (IH srcs1 offs1 Hnd). destruct (fold_left _ l (srcs1, offs1)) as [srcs' offs'].
  destruct IH as [IHin IHout].
  { intros slot Hslot. destruct (Hother slot) as [-> ->]; [by intros ->|]. apply Hnone. by right. }
  split.
  - intros i slot [[= -> ->]|Hin]%elem_of_cons; [|by apply IHin].
    destruct (IHout s0 Hs0) as [-> ->]. fold b. by rewrite H1, H2.
  - intros slot Hslot. cbn in Hslot. destruct (IHout slot) as [-> ->]; [set_solver|]. apply Hother. set_solver.
Qed.

(** * Properties *)

(** In a RAID-6 stripe of the native layouts the walk over the disks ends after every
    disk was visited once, and gives them the slots 0 .. disks-1 without repetition: P is
    in slot disks-2 and Q in slot disks-1, as the syndrome routines expect. *)
Theorem syndrome_slots_permutation sh :
  4 <= sh_disks sh -> is_valid_idx 6 (sh_disks sh) (sh_idx sh) -> ddf_layout (sh_idx sh) = false ->
  (syndrome_slots sh).*1 ≡ₚ seqZ 0 (sh_disks sh) /\
  (syndrome_slots sh).*2 ≡ₚ seqZ 0 (sh_disks sh) /\
  (pd_idx (sh_idx sh), sh_disks sh - 2) ∈ syndrome_slots sh /\
  (qd_idx (sh_idx sh), sh_disks sh - 1) ∈ syndrome_slots sh.
Proof. apply native_slots. Qed.

(** In the DDF layouts the data disks keep their own numbers as slots, and P and Q go
    behind all of them, to the slots disks and disks+1: the array of sources has two more
    entries than the stripe has disks. *)
Theorem syndrome_slots_ddf sh :
  4 <= sh_disks sh -> is_valid_idx 6 (sh_disks sh) (sh_idx sh) -> ddf_layout (sh_idx sh) = true ->
  (syndrome_slots sh).*1 = seqZ 0 (sh_disks sh) /\
  (pd_idx (sh_idx sh), sh_disks sh) ∈ syndrome_slots sh /\
  (qd_idx (sh_idx sh), sh_disks sh + 1) ∈ syndrome_slots sh /\
  forall i, 0 <= i < sh_disks sh -> i <> pd_idx (sh_idx sh) -> i <> qd_idx (sh_idx sh) -> (i, i) ∈ syndrome_slots sh.
Proof.
  intros Hn (_ & Hp & _ & Hq & Hqp & _) Hd.
  destruct (syndrome_slots_walk sh Hn Hp Hq) as (pp & Hpp & Hwp & ->); [done|].
  set (n := sh_disks sh) in *.
  assert (forall j, 0 <= j < n -> walk n (raid6_d0 sh) j = j) as Hw.
  { intros j Hj. unfold walk, raid6_d0. rewrite Hd. by apply Z.mod_small. }
  assert (forall j, slot_at sh pp j = if walk n (raid6_d0 sh) j =? pd_idx (sh_idx sh) then n
    else if walk n (raid6_d0 sh) j =? qd_idx (sh_idx sh) then n + 1 else j) as Hslot.
  { intros j. unfold slot_at, slot_count, syndrome_disks. by rewrite Hd. }
  assert (forall j, 0 <= j < n -> forall s, slot_at sh pp j = s ->
    (j, s) ∈ map (fun j => (walk n (raid6_d0 sh) j, slot_at sh pp j)) (seqZ 0 n)) as Hin.
  { intros j Hj s <-. apply list_elem_of_fmap. exists j. rewrite Hw by done. split; [done|apply elem_of_seqZ; lia]. }
  split; [|split; [|split]].
  - rewrite <- list_fmap_compose. rewrite <- (list_fmap_id (seqZ 0 n)) at 2. apply list_fmap_ext.
    intros i j Hj%list_elem_of_lookup_2%elem_of_seqZ. cbn. apply Hw. lia.
  - apply Hin; [done|]. rewrite Hslot, Hw by done. by rewrite Z.eqb_refl.
  - apply Hin; [done|]. rewrite Hslot, Hw by done. rewrite (proj2 (Z.eqb_neq _ _) Hqp). by rewrite Z.eqb_refl.
  - intros i Hi Hip Hiq. apply Hin; [done|]. rewrite Hslot, Hw by done.
    by rewrite (proj2 (Z.eqb_neq _ _) Hip), (proj2 (Z.eqb_neq _ _) Hiq).
Qed.

(** Every sector below the size of the array is on the devices: its place is below the
    number of sectors of a device, in the old geometry as well as in the new one. *)
Theorem raid5_size_in_device conf previous dev c pc r s idx :
  conf_ok conf previous -> 0 < dev < 2 ^ 64 -> 0 <= c < 64 -> 0 <= pc < 64 ->
  chunk_sectors conf = 2 ^ c -> prev_chunk_sectors conf = 2 ^ pc ->
  0 <= r < raid5_size conf dev 0 0 ->
  dev * conf_disks conf previous < 2 ^ 64 -> 0 < Z.min (raid_disks conf) (previous_raid_disks conf) - max_degraded conf ->
  raid5_compute_sector conf r previous = Some (s, idx) -> s < dev.
Proof.
  intros Hconf Hdev Hc Hpc Ec Epc Hr Hmax Hmin E.
  destruct (raid5_size_rounded conf dev c pc) as (S & HS & Hd1 & Hd2 & Hsize); [lia..|done|done|lia|].
  destruct (sector_split conf previous Hconf r) as (stripe & d & off & Heq & Hs & Hd & Ho); [lia|].
  set (spc := conf_spc conf previous) in *. set (dn := conf_disks conf previous - max_degraded conf) in *.
  assert (0 <= max_degraded conf) as Hmd by (destruct Hconf as [[(? & ? & ?)|[(? & ? & ? & ?)|(? & ? & ? & ?)]] _]; lia).
  set (mn := Z.min (raid_disks conf) (previous_raid_disks conf) - max_degraded conf) in *.
  assert (mn <= dn) as Hmn by (unfold mn, dn, conf_disks; destruct previous; lia).
  assert (S * mn <= S * dn) as Hle by (apply Z.mul_le_mono_nonneg_l; lia).
  assert (S * dn <= dev * conf_disks conf previous) as Hle2 by (unfold dn; nia).
  rewrite u64_id in Hsize by nia. rewrite Hsize in Hr.
  assert (exists t, S = t * spc) as [t Ht] by (unfold spc, conf_spc; destruct previous; [rewrite Epc|rewrite Ec]; done).
  rewrite Heq in E. unfold dn, spc in E. rewrite compute_sector_at in E by (done || (fold spc dn; lia)).
  destruct (layout _ _ _ _ _ _); [|done]. cbn in E. simplify_eq. fold spc.
  assert (stripe < t); [|nia]. apply Z.nle_gt. intros Hge.
  assert (t * dn <= stripe * dn + d) by nia. assert (t * dn * spc <= (stripe * dn + d) * spc) by (apply Z.mul_le_mono_nonneg_r; lia). lia.
Qed.

(** The devices whose pages a caller of [set_syndrome_sources] asks for. *)
Definition wanted (sh : stripe_head) (ty : srctype) (dev : Z -> r5dev) (i : Z) : Prop :=
  i = pd_idx (sh_idx sh) \/ i = qd_idx (sh_idx sh) \/ ty = SYNDROME_SRC_ALL \/
  (ty <> SYNDROME_SRC_ALL /\ R5_InJournal (dev i) = true) \/
  (ty = SYNDROME_SRC_WANT_DRAIN /\ R5_Wantdrain (dev i) = true) \/ (ty = SYNDROME_SRC_WRITTEN /\ dev_written (dev i) = true).

Lemma is_source_wanted sh ty dev i : is_source sh ty i (dev i) = true <-> wanted sh ty dev i.
Proof.
  unfold is_source, wanted. rewrite !orb_true_iff, !Z.eqb_eq.
  destruct ty; rewrite ?orb_true_iff; intuition congruence.
Qed.

(** In a RAID-6 stripe of the native layouts, [set_syndrome_sources] puts the page of every
    device that is wanted as a source into the slot of the device (the page with the data before
    the journal where the device is in the journal), with its offset, and leaves the slots of the
    others empty; P and Q are in the two slots behind the returned number of sources. *)
Theorem syndrome_sources_placed sh ty dev :
  4 <= sh_disks sh -> is_valid_idx 6 (sh_disks sh) (sh_idx sh) -> ddf_layout (sh_idx sh) = false ->
  let pg i := if R5_InJournal (dev i) then dev_orig_page (dev i) else dev_page (dev i) in
  let '(srcs, offs, count) := set_syndrome_sources sh ty dev in
  count = sh_disks sh - 2 /\
  srcs !! count = Some (pg (pd_idx (sh_idx sh))) /\ srcs !! (count + 1) = Some (pg (qd_idx (sh_idx sh))) /\
  forall i slot, (i, slot) ∈ syndrome_slots sh ->
    (wanted sh ty dev i -> srcs !! slot = Some (pg i) /\ offs !! slot = Some (dev_offset (dev i))) /\
    (~ wanted sh ty dev i -> srcs !! slot = None /\ offs !! slot = None).
Proof.
  intros Hn Hv Hd pg. destruct (native_slots sh Hn Hv Hd) as (_ & Hslots & Hp & Hq). unfold set_syndrome_sources.
  pose proof (sources_fold sh ty dev (syndrome_slots sh) ∅ ∅) as H.
  destruct (fold_left _ (syndrome_slots sh) (∅, ∅)) as [srcs offs].
  destruct H as [Hin _]; [rewrite Hslots; apply NoDup_seqZ|done|]. unfold syndrome_disks. rewrite Hd.
  assert (forall i slot, (i, slot) ∈ syndrome_slots sh ->
    (wanted sh ty dev i -> srcs !! slot = Some (pg i) /\ offs !! slot = Some (dev_offset (dev i))) /\
    (~ wanted sh ty dev i -> srcs !! slot = None /\ offs !! slot = None)) as Hall.
  { intros i slot Hi. destruct (Hin i slot Hi) as [-> ->]. rewrite <- is_source_wanted.
    destruct (is_source sh ty i (dev i)); split; intros ?; done. }
  split; [done|]. split; [|split; [|done]].
  - apply (Hall _ _ Hp). by left.
  - replace (sh_disks sh - 2 + 1) with (sh_disks sh - 1) by lia. apply (Hall _ _ Hq). right. by left.
Qed.

(** * Witnesses *)

(** The stripe at sector 232 of the six-disk array of [example_conf], and one in DDF order. *)
Definition example_stripe : stripe_head := {| sh_sector := 232; sh_disks := 6; sh_idx := Idx 0 4 5 false |}.
Definition example_ddf : stripe_head := {| sh_sector := 232; sh_disks := 6; sh_idx := Idx 0 1 2 true |}.

Lemma syndrome_slots_permutation_witness :
  (syndrome_slots example_stripe).*1 ≡ₚ seqZ 0 6 /\ (syndrome_slots example_stripe).*2 ≡ₚ seqZ 0 6 /\
  (4, 4) ∈ syndrome_slots example_stripe /\ (5, 5) ∈ syndrome_slots example_stripe.
Proof. apply (syndrome_slots_permutation example_stripe); [by vm_compute|by repeat split|done]. Defined.

Lemma syndrome_slots_ddf_witness :
  (syndrome_slots example_ddf).*1 = seqZ 0 6 /\ (1, 6) ∈ syndrome_slots example_ddf /\ (2, 7) ∈ syndrome_slots example_ddf /\
  forall i, 0 <= i < 6 -> i <> 1 -> i <> 2 -> (i, i) ∈ syndrome_slots example_ddf.
Proof. apply (syndrome_slots_ddf example_ddf); [by vm_compute|by repeat split|done]. Defined.

Lemma raid5_size_in_device_witness : 232 < 2000.
Proof.
  apply (raid5_size_in_device example_conf false 2000 7 7 1000 232 (Idx 3 4 5 false));
    [apply example_conf_ok|lia|lia|lia|by vm_compute..].
Defined.

Definition example_dev (i : Z) : r5dev :=
  {| dev_page := Z.to_nat i; dev_orig_page := 0; dev_offset := 0; R5_Wantdrain := i =? 1; R5_InJournal := false; dev_written := false |}.

Lemma syndrome_sources_placed_witness :
  let '(srcs, offs, count) := set_syndrome_sources example_stripe SYNDROME_SRC_WANT_DRAIN example_dev in
  count = 4 /\ srcs !! count = Some 4%nat /\ srcs !! (count + 1) = Some 5%nat /\
  forall i slot, (i, slot) ∈ syndrome_slots example_stripe ->
    (wanted example_stripe SYNDROME_SRC_WANT_DRAIN example_dev i -> srcs !! slot = Some (Z.to_nat i) /\ offs !! slot = Some 0) /\
    (~ wanted example_stripe SYNDROME_SRC_WANT_DRAIN example_dev i -> srcs !! slot = None /\ offs !! slot = None).
Proof. apply (syndrome_sources_placed example_stripe SYNDROME_SRC_WANT_DRAIN example_dev); [by vm_compute|by repeat split|done]. Defined.
