(* ===== verification/Raid5Dev.v ===== *)
(** One stripe of a RAID-4/5/6 array, md/raid5.h: its devices with their flags, cached blocks
    and requests, the members of the array behind them, and the copies between requests and
    blocks.

    The array has no journal and no partial parity log, it is not being reshaped, and the
    stripe is not part of a batch; the flags and fields for these are left out.  The pages of a
    stripe are the blocks of bytes they hold; [dev->offset] is part of what a block is.  Reference
    counts are the matter of Raid5Cache. *)

From S2P Require Import Prelude PageMem Raid5Layout.

(** The content of one page of a stripe. *)
Definition block := list Z.

(** * Requests *)

(** A segment of a request: where its bytes start in their page, and the bytes. *)
Record bio_vec := { bv_offset : Z; bv_bytes : list Z }.

(** A request.  The length is kept apart from the segments since a discard has none.  [bi_next] is
    the request that follows it in the chain of another stripe, to which a part of it was added. *)
Record bio := {
  bi_id : nat;
  bi_sector : Z;
  bi_sectors : Z;
  bi_vecs : list bio_vec;
  bi_fua : bool;
  bi_sync : bool;
  bi_discard : bool;
  bi_next : option nat;
}.

Definition bio_end_sector (b : bio) : Z := bi_sector b + bi_sectors b.

Definition with_vecs (b : bio) (vs : list bio_vec) : bio :=
  {| bi_id := bi_id b; bi_sector := bi_sector b; bi_sectors := bi_sectors b; bi_vecs := vs;
     bi_fua := bi_fua b; bi_sync := bi_sync b; bi_discard := bi_discard b; bi_next := bi_next b |}.

(** * Configuration *)

Inductive rmw_level := PARITY_DISABLE_RMW | PARITY_ENABLE_RMW | PARITY_PREFER_RMW.

#[global] Instance rmw_level_eq_dec : EqDecision rmw_level.
Proof. solve_decision. Defined.

(** The fields of [struct r5conf] that do not change. *)
Record r5conf := {
  level : Z;
  max_degraded : Z;
  conf_rmw_level : rmw_level;
  skip_copy : bool;
  max_nr_stripes : Z;
  has_bitmap : bool;
  RAID5_STRIPE_SECTORS : Z;
}.

Definition RAID5_STRIPE_SIZE (conf : r5conf) : Z := 512 * RAID5_STRIPE_SECTORS conf.

(** The fields of [struct mddev] that the stripe is handled by. *)
Record mddev := {
  recovery_cp : Z;
  MD_SB_CHANGE_PENDING : bool;
  MD_RECOVERY_REQUESTED : bool;
  MD_RECOVERY_CHECK : bool;
  MD_RECOVERY_RECOVER : bool;
  MD_RECOVERY_INTR : bool;
  MD_BROKEN : bool;
  ro : bool;
  degraded : Z;
}.

Definition MaxSector : Z := 2 ^ 64 - 1.

(** * Members of the array *)

(** What [rdev_has_badblock] says of the block of the stripe on a member: no bad block, one that
    is not in the superblock yet (-1), or one that is (1). *)
Inductive badblock := Good | Unacked | Acked.

Definition is_bad (b : badblock) : bool := match b with Good => false | _ => true end.
Definition unacked (b : badblock) : bool := match b with Unacked => true | _ => false end.

(** A member, with the block of the stripe that it stores.  [bb_room] says that the table of bad
    blocks has room for another one. *)
Record md_rdev := {
  Faulty : bool;
  In_sync : bool;
  WriteErrorSeen : bool;
  WantReplacement : bool;
  Blocked : bool;
  bad : badblock;
  bb_room : bool;
  recovery_offset : Z;
  read_errors : Z;
  stored : block;
}.

Record disk_info := { rdev : option md_rdev; replacement : option md_rdev }.

(** * Devices of a stripe *)

Inductive r5dev_flag :=
  | R5_UPTODATE | R5_LOCKED | R5_DOUBLE_LOCKED | R5_OVERWRITE | R5_Insync | R5_Wantread | R5_Wantwrite
  | R5_Overlap | R5_ReadNoMerge | R5_ReadError | R5_ReWrite | R5_Wantcompute | R5_Wantfill | R5_Wantdrain
  | R5_WantFUA | R5_SyncIO | R5_WriteError | R5_MadeGood | R5_ReadRepl | R5_MadeGoodRepl | R5_NeedReplace
  | R5_WantReplace | R5_Discard | R5_SkipCopy.

Scheme Boolean Equality for r5dev_flag.

(** A request to a member that has been submitted and not completed; a read may have gone to
    the replacement. *)
Inductive io := READ (repl : bool) | WRITE | DISCARD.

(** [page] is [orig_page] ([None]) or a page of the request being written, with its content. *)
Record r5dev := {
  flags : r5dev_flag -> bool;
  orig_page : block;
  bio_page : option block;
  toread : list bio;
  read : list bio;
  towrite : list bio;
  written : list bio;
  dev_sector : Z;
  req : option io;
  rreq : option io;
}.

Definition test_bit (f : r5dev_flag) (d : r5dev) : bool := flags d f.

Definition with_flags (fl : r5dev_flag -> bool) (d : r5dev) : r5dev :=
  {| flags := fl; orig_page := orig_page d; bio_page := bio_page d; toread := toread d; read := read d;
     towrite := towrite d; written := written d; dev_sector := dev_sector d; req := req d; rreq := rreq d |}.

Definition set_bit (f : r5dev_flag) (d : r5dev) : r5dev :=
  with_flags (fun g => if r5dev_flag_beq g f then true else flags d g) d.

Definition clear_bit (f : r5dev_flag) (d : r5dev) : r5dev :=
  with_flags (fun g => if r5dev_flag_beq g f then false else flags d g) d.

(** [dev->page] *)
Definition page (d : r5dev) : block := default (orig_page d) (bio_page d).

(** A store to the page that [dev->page] points to. *)
Definition set_page (p : block) (d : r5dev) : r5dev :=
  {| flags := flags d; orig_page := (if bio_page d then orig_page d else p);
     bio_page := (if bio_page d then Some p else None); toread := toread d; read := read d;
     towrite := towrite d; written := written d; dev_sector := dev_sector d; req := req d; rreq := rreq d |}.

(** [dev->page = p] for a page of a request, and [dev->page = dev->orig_page]. *)
Definition point_page (p : option block) (d : r5dev) : r5dev :=
  {| flags := flags d; orig_page := orig_page d; bio_page := p; toread := toread d; read := read d;
     towrite := towrite d; written := written d; dev_sector := dev_sector d; req := req d; rreq := rreq d |}.

Definition with_reads (tr r : list bio) (d : r5dev) : r5dev :=
  {| flags := flags d; orig_page := orig_page d; bio_page := bio_page d; toread := tr; read := r;
     towrite := towrite d; written := written d; dev_sector := dev_sector d; req := req d; rreq := rreq d |}.

Definition with_writes (tw w : list bio) (d : r5dev) : r5dev :=
  {| flags := flags d; orig_page := orig_page d; bio_page := bio_page d; toread := toread d; read := read d;
     towrite := tw; written := w; dev_sector := dev_sector d; req := req d; rreq := rreq d |}.

Definition with_req (r rr : option io) (d : r5dev) : r5dev :=
  {| flags := flags d; orig_page := orig_page d; bio_page := bio_page d; toread := toread d; read := read d;
     towrite := towrite d; written := written d; dev_sector := dev_sector d; req := r; rreq := rr |}.

(** * Stripes *)

Inductive stripe_flag :=
  | STRIPE_ACTIVE | STRIPE_HANDLE | STRIPE_SYNC_REQUESTED | STRIPE_SYNCING | STRIPE_INSYNC | STRIPE_REPLACED
  | STRIPE_PREREAD_ACTIVE | STRIPE_DELAYED | STRIPE_DEGRADED | STRIPE_BIT_DELAY | STRIPE_IO_STARTED
  | STRIPE_FULL_WRITE | STRIPE_BIOFILL_RUN | STRIPE_COMPUTE_RUN | STRIPE_DISCARD | STRIPE_BATCH_READY.

Scheme Boolean Equality for stripe_flag.

Inductive check_states :=
  | check_state_idle | check_state_run | check_state_run_q | check_state_run_pq | check_state_check_result
  | check_state_compute_run | check_state_compute_result.

Scheme Boolean Equality for check_states.

Inductive reconstruct_states :=
  | reconstruct_state_idle | reconstruct_state_prexor_drain_run | reconstruct_state_drain_run
  | reconstruct_state_run | reconstruct_state_prexor_drain_result | reconstruct_state_drain_result
  | reconstruct_state_result.

Scheme Boolean Equality for reconstruct_states.

(** [zero_sum_result] is the pair of its bits [SUM_CHECK_P_RESULT] and [SUM_CHECK_Q_RESULT]. *)
Record stripe := {
  geo : Raid5Layout.stripe_head;
  devs : list r5dev;
  state : stripe_flag -> bool;
  check_state : check_states;
  reconstruct_state : reconstruct_states;
  ops_target : Z;
  ops_target2 : Z;
  zero_sum_result : bool * bool;
  overwrite_disks : Z;
}.

Definition sector (sh : stripe) : Z := sh_sector (geo sh).
Definition disks (sh : stripe) : nat := length (devs sh).
Definition pd (sh : stripe) : Z := pd_idx (sh_idx (geo sh)).
Definition qd (sh : stripe) : Z := qd_idx (sh_idx (geo sh)).

Definition stest (f : stripe_flag) (sh : stripe) : bool := state sh f.

Definition with_state (st : stripe_flag -> bool) (sh : stripe) : stripe :=
  {| geo := geo sh; devs := devs sh; state := st; check_state := check_state sh;
     reconstruct_state := reconstruct_state sh; ops_target := ops_target sh; ops_target2 := ops_target2 sh;
     zero_sum_result := zero_sum_result sh; overwrite_disks := overwrite_disks sh |}.

Definition sset (f : stripe_flag) (sh : stripe) : stripe :=
  with_state (fun g => if stripe_flag_beq g f then true else state sh g) sh.

Definition sclear (f : stripe_flag) (sh : stripe) : stripe :=
  with_state (fun g => if stripe_flag_beq g f then false else state sh g) sh.

Definition with_devs (ds : list r5dev) (sh : stripe) : stripe :=
  {| geo := geo sh; devs := ds; state := state sh; check_state := check_state sh;
     reconstruct_state := reconstruct_state sh; ops_target := ops_target sh; ops_target2 := ops_target2 sh;
     zero_sum_result := zero_sum_result sh; overwrite_disks := overwrite_disks sh |}.

Definition with_check (c : check_states) (sh : stripe) : stripe :=
  {| geo := geo sh; devs := devs sh; state := state sh; check_state := c;
     reconstruct_state := reconstruct_state sh; ops_target := ops_target sh; ops_target2 := ops_target2 sh;
     zero_sum_result := zero_sum_result sh; overwrite_disks := overwrite_disks sh |}.

Definition with_reconstruct (r : reconstruct_states) (sh : stripe) : stripe :=
  {| geo := geo sh; devs := devs sh; state := state sh; check_state := check_state sh;
     reconstruct_state := r; ops_target := ops_target sh; ops_target2 := ops_target2 sh;
     zero_sum_result := zero_sum_result sh; overwrite_disks := overwrite_disks sh |}.

Definition with_targets (t t2 : Z) (sh : stripe) : stripe :=
  {| geo := geo sh; devs := devs sh; state := state sh; check_state := check_state sh;
     reconstruct_state := reconstruct_state sh; ops_target := t; ops_target2 := t2;
     zero_sum_result := zero_sum_result sh; overwrite_disks := overwrite_disks sh |}.

Definition with_zero_sum (z : bool * bool) (sh : stripe) : stripe :=
  {| geo := geo sh; devs := devs sh; state := state sh; check_state := check_state sh;
     reconstruct_state := reconstruct_state sh; ops_target := ops_target sh; ops_target2 := ops_target2 sh;
     zero_sum_result := z; overwrite_disks := overwrite_disks sh |}.

Definition with_overwrite (n : Z) (sh : stripe) : stripe :=
  {| geo := geo sh; devs := devs sh; state := state sh; check_state := check_state sh;
     reconstruct_state := reconstruct_state sh; ops_target := ops_target sh; ops_target2 := ops_target2 sh;
     zero_sum_result := zero_sum_result sh; overwrite_disks := n |}.

(** [sh->dev[i]] *)
#[global] Instance r5dev_inhabited : Inhabited r5dev.
Proof.
  constructor. exact {| flags := fun _ => false; orig_page := []; bio_page := None; toread := []; read := [];
    towrite := []; written := []; dev_sector := 0; req := None; rreq := None |}.
Defined.

Definition dev (sh : stripe) (i : Z) : r5dev := devs sh !!! Z.to_nat i.

Definition upd (i : Z) (f : r5dev -> r5dev) (sh : stripe) : stripe :=
  with_devs (alter f (Z.to_nat i) (devs sh)) sh.

(** [for (i = disks; i--; )] with a body that changes the device [i] and what it accumulates;
    [k] is the number of the first device of the list. *)
Fixpoint loop_down {A} (f : Z -> r5dev -> A -> r5dev * A) (k : Z) (ds : list r5dev) (a : A) : list r5dev * A :=
  match ds with
  | [] => ([], a)
  | d :: ds =>
    let '(ds, a) := loop_down f (k + 1) ds a in
    let '(d, a) := f k d a in
    (d :: ds, a)
  end.

Definition for_devs {A} (f : Z -> r5dev -> A -> r5dev * A) (sh : stripe) (a : A) : stripe * A :=
  let '(ds, a) := loop_down f 0 (devs sh) a in (with_devs ds sh, a).

(** The devices with their numbers, the last one first. *)
Definition devs_down (sh : stripe) : list (Z * r5dev) := rev (imap (fun i d => (Z.of_nat i, d)) (devs sh)).

(** * Copying between requests and blocks *)

(** The functions of crypto/async_tx that md/raid5.c calls, which is not in this repository.
    Their operations are done when they return.  A block that is [None] is a [NULL] page; the
    last two blocks of a syndrome are P and Q. *)
Record async_tx := {
  async_memcpy : block -> block -> nat -> nat -> nat -> block;
  async_xor_offs : nat -> list block -> block;
  async_xor_val_offs : nat -> list block -> block * bool;
  async_gen_syndrome : bool -> nat -> list (option block) -> list (option block);
  async_syndrome_val : nat -> list (option block) -> bool * bool;
  async_raid6_2data_recov : nat -> nat -> nat -> list (option block) -> list (option block);
  async_raid6_datap_recov : nat -> nat -> list (option block) -> list (option block);
}.

Section Copy.
Context (conf : r5conf) (tx : async_tx).

(** The part of a segment that is copied at [page_offset]: the offset in the segment, the offset
    in the page, the length that is left of the segment and the length to copy. *)
Definition clip (page_offset : Z) (bvl : bio_vec) : Z * Z * Z * Z :=
  let len := Z.of_nat (length (bv_bytes bvl)) in
  let b_offset := if page_offset <? 0 then - page_offset else 0 in
  let page_offset := page_offset + b_offset in
  let len := len - b_offset in
  let clen := if (0 <? len) && (RAID5_STRIPE_SIZE conf <? page_offset + len)
              then RAID5_STRIPE_SIZE conf - page_offset else len in
  (b_offset, page_offset, len, clen).

Definition page_offset (b : bio) (sector : Z) : Z :=
  if sector <=? bi_sector b then (bi_sector b - sector) * 512 else (sector - bi_sector b) * -512.

(** [async_copy_data] with [frombio]: the segments are copied to the page of the device, or the
    page of a segment becomes the page of the device. *)
Fixpoint copy_from_bio (no_skipcopy : bool) (vs : list bio_vec) (page_offset : Z) (d : r5dev) : r5dev :=
  match vs with
  | [] => d
  | bvl :: vs =>
    let '(b_offset, page_offset, len, clen) := clip page_offset bvl in
    let d :=
      if 0 <? clen then
        if skip_copy conf && (b_offset + bv_offset bvl =? 0) && (page_offset =? 0) &&
           (clen =? RAID5_STRIPE_SIZE conf) && negb no_skipcopy
        then point_page (Some (take (Z.to_nat clen) (bv_bytes bvl))) d
        else set_page (async_memcpy tx (page d) (bv_bytes bvl) (Z.to_nat page_offset) (Z.to_nat b_offset) (Z.to_nat clen)) d
      else d in
    if clen <? len then d else copy_from_bio no_skipcopy vs (page_offset + len) d
  end.

(** [async_copy_data] without [frombio]: the segments with what is copied to them. *)
Fixpoint copy_to_bio (p : block) (vs : list bio_vec) (page_offset : Z) : list bio_vec :=
  match vs with
  | [] => []
  | bvl :: vs =>
    let '(b_offset, page_offset, len, clen) := clip page_offset bvl in
    let bvl' :=
      if 0 <? clen then
        {| bv_offset := bv_offset bvl;
           bv_bytes := async_memcpy tx (bv_bytes bvl) p (Z.to_nat b_offset) (Z.to_nat page_offset) (Z.to_nat clen) |}
      else bvl in
    if clen <? len then bvl' :: vs else bvl' :: copy_to_bio p vs (page_offset + len)
  end.

Definition async_copy_from (b : bio) (no_skipcopy : bool) (d : r5dev) : r5dev :=
  copy_from_bio no_skipcopy (bi_vecs b) (page_offset b (dev_sector d)) d.

Definition async_copy_to (b : bio) (d : r5dev) : bio :=
  with_vecs b (copy_to_bio (page d) (bi_vecs b) (page_offset b (dev_sector d))).

(** The requests that the loops over a chain from [bi] visit:
    [while (bi && bi->bi_iter.bi_sector < sector + RAID5_STRIPE_SECTORS(conf)) .. r5_next_bio]. *)
Fixpoint bio_chain (sector : Z) (bs : list bio) : list bio :=
  match bs with
  | [] => []
  | b :: bs =>
    if bi_sector b <? sector + RAID5_STRIPE_SECTORS conf then
      b :: if bio_end_sector b <? sector + RAID5_STRIPE_SECTORS conf then bio_chain sector bs else []
    else []
  end.
End Copy.
