(* ===== verification/Raid5Ops.v ===== *)
(** The operations on the blocks of a stripe, md/raid5.c: [raid_run_ops] and the [ops_run_*] and
    [ops_complete_*] functions.

    The calls of async_tx complete when they are made, as they do without a DMA engine, so that
    every operation is followed by its completion.  [None] is [BUG()]. *)

From S2P Require Import Prelude PageMem Raid5Layout Raid5Stripe Raid5Dev.

(** What is told to those who made the requests. *)
Inductive reply :=
  | Read_done (i : Z) (b : bio)
  | Write_done (i : Z) (b : bio)
  | Io_error (i : Z) (b : bio)
  | Sync_done (ok : bool).

Inductive stripe_op :=
  | STRIPE_OP_BIOFILL | STRIPE_OP_COMPUTE_BLK | STRIPE_OP_PREXOR | STRIPE_OP_BIODRAIN
  | STRIPE_OP_RECONSTRUCT | STRIPE_OP_CHECK.

Scheme Boolean Equality for stripe_op.

Definition bug_on {A} (c : bool) (k : option A) : option A := if c then None else k.
Notation "'BUG_ON' c ;; k" := (bug_on c k) (at level 100, c at level 9, k at level 200).

Definition nonempty {A} (l : list A) : bool := match l with [] => false | _ => true end.

Section Ops.
Context (conf : r5conf) (tx : async_tx).

Definition size : nat := Z.to_nat (RAID5_STRIPE_SIZE conf).

(** ** Reads *)

Definition biofill_dev (d : r5dev) : r5dev :=
  if test_bit R5_Wantfill d then
    let rbis := bio_chain conf (dev_sector d) (toread d) in
    with_reads [] (map (fun b => async_copy_to conf tx b d) rbis ++ drop (length rbis) (toread d)) d
  else d.

Definition complete_biofill_dev (i : Z) (d : r5dev) (a : bool * list reply) : r5dev * (bool * list reply) :=
  let '(bug, out) := a in
  if test_bit R5_Wantfill d then
    (with_reads (toread d) [] (clear_bit R5_Wantfill d),
     (bug || negb (nonempty (read d)), out ++ map (Read_done i) (bio_chain conf (dev_sector d) (read d))))
  else (d, a).

Definition ops_complete_biofill (sh : stripe) : option (stripe * list reply) :=
  let '(sh, (bug, out)) := for_devs complete_biofill_dev sh (false, []) in
  BUG_ON bug;;
  Some (sset STRIPE_HANDLE (sclear STRIPE_BIOFILL_RUN sh), out).

Definition ops_run_biofill (sh : stripe) : option (stripe * list reply) :=
  ops_complete_biofill (with_devs (map biofill_dev (devs sh)) sh).

(** ** Computing lost blocks *)

Definition mark_target_uptodate (target : Z) (sh : stripe) : option stripe :=
  if target <? 0 then Some sh
  else
    let sh := upd target (set_bit R5_UPTODATE) sh in
    BUG_ON (negb (test_bit R5_Wantcompute (dev sh target)));;
    Some (upd target (clear_bit R5_Wantcompute) sh).

Definition ops_complete_compute (sh : stripe) : option stripe :=
  sh ← mark_target_uptodate (ops_target sh) sh;
  sh ← mark_target_uptodate (ops_target2 sh) sh;
  let sh := sclear STRIPE_COMPUTE_RUN sh in
  let sh := if check_states_beq (check_state sh) check_state_compute_run
            then with_check check_state_compute_result sh else sh in
  Some (sset STRIPE_HANDLE sh).

(** The pages of the devices that satisfy [keep], the last device first. *)
Definition pages_down (keep : Z -> r5dev -> bool) (sh : stripe) : list block :=
  map (fun x => page x.2) (List.filter (fun x => keep x.1 x.2) (devs_down sh)).

(** [async_memcpy] for a single source, [async_xor_offs] for more. *)
Definition xor_or_copy (dest : block) (srcs : list block) : block :=
  match srcs with
  | [src] => async_memcpy tx dest src 0 0 size
  | _ => async_xor_offs tx size srcs
  end.

Definition ops_run_compute5 (sh : stripe) : option stripe :=
  let target := ops_target sh in
  let tgt := dev sh target in
  BUG_ON (negb (test_bit R5_Wantcompute tgt));;
  let xor_srcs := pages_down (fun i _ => negb (i =? target)) sh in
  ops_complete_compute (upd target (set_page (xor_or_copy (page tgt) xor_srcs)) sh).

(** What [set_syndrome_sources] of Raid5Stripe reads of a device; the page of a device goes by
    the number of the device. *)
Definition view (sh : stripe) (i : Z) : Raid5Stripe.r5dev :=
  {| Raid5Stripe.dev_page := Z.to_nat i; Raid5Stripe.dev_orig_page := Z.to_nat i; Raid5Stripe.dev_offset := 0;
     Raid5Stripe.R5_Wantdrain := test_bit R5_Wantdrain (dev sh i); Raid5Stripe.R5_InJournal := false;
     Raid5Stripe.dev_written := nonempty (written (dev sh i)) |}.

(** The array [blocks] as [set_syndrome_sources] leaves it, with its [count]: the devices whose
    pages are in the slots. *)
Definition sources (sh : stripe) (ty : srctype) : list (option nat) * nat :=
  let '(srcs, _, count) := set_syndrome_sources (geo sh) ty (view sh) in
  (map (fun k => srcs !! k) (seqZ 0 (count + 2)), Z.to_nat count).

Definition blocks (sh : stripe) (srcs : list (option nat)) : list (option block) :=
  map (fmap (fun i => page (dev sh (Z.of_nat i)))) srcs.

(** The pages after an operation on [srcs] in place. *)
Definition store_blocks (srcs : list (option nat)) (bs : list (option block)) (sh : stripe) : stripe :=
  fold_left (fun sh x =>
    match x with
    | (Some i, Some p) => upd (Z.of_nat i) (set_page p) sh
    | _ => sh
    end) (zip srcs bs) sh.

Definition ops_run_compute6_1 (sh : stripe) : option stripe :=
  BUG_ON (negb (ops_target sh <? 0) && negb (ops_target2 sh <? 0));;
  let target := if ops_target sh <? 0 then ops_target2 sh else ops_target sh in
  BUG_ON (target <? 0);;
  BUG_ON (negb (test_bit R5_Wantcompute (dev sh target)));;
  if target =? qd sh then
    let '(srcs, count) := sources sh SYNDROME_SRC_ALL in
    let srcs := <[count := None]> srcs in
    BUG_ON (negb (bool_decide (srcs !! (count + 1)%nat = Some (Some (Z.to_nat target)))));;
    ops_complete_compute (store_blocks srcs (async_gen_syndrome tx false size (blocks sh srcs)) sh)
  else
    let srcs := pages_down (fun i _ => negb (i =? target) && negb (i =? qd sh)) sh in
    ops_complete_compute (upd target (set_page (async_xor_offs tx size srcs)) sh).

(** The slot of the device [i] in the walk over the disks, or -1. *)
Definition slot_of (sh : stripe) (i : Z) : Z :=
  default (-1) (snd <$> find (fun x => x.1 =? i) (syndrome_slots (geo sh))).

Definition ops_run_compute6_2 (sh : stripe) : option stripe :=
  let target := ops_target sh in
  let target2 := ops_target2 sh in
  BUG_ON ((target <? 0) || (target2 <? 0));;
  BUG_ON (negb (test_bit R5_Wantcompute (dev sh target)));;
  BUG_ON (negb (test_bit R5_Wantcompute (dev sh target2)));;
  let '(srcs, count) := sources sh SYNDROME_SRC_ALL in
  let faila := slot_of sh target in
  let failb := slot_of sh target2 in
  BUG_ON (faila =? failb);;
  let '(faila, failb) := if failb <? faila then (failb, faila) else (faila, failb) in
  let syndrome_disks := Z.of_nat count in
  if failb =? syndrome_disks + 1 then
    if faila =? syndrome_disks then
      ops_complete_compute (store_blocks srcs (async_gen_syndrome tx false size (blocks sh srcs)) sh)
    else
      let data_target := if target =? qd sh then target2 else target in
      let xor_srcs := pages_down (fun i _ => negb (i =? data_target) && negb (i =? qd sh)) sh in
      let sh := upd data_target (set_page (async_xor_offs tx size xor_srcs)) sh in
      let '(srcs, count) := sources sh SYNDROME_SRC_ALL in
      ops_complete_compute (store_blocks srcs (async_gen_syndrome tx false size (blocks sh srcs)) sh)
  else if failb =? syndrome_disks then
    ops_complete_compute
      (store_blocks srcs (async_raid6_datap_recov tx size (Z.to_nat faila) (blocks sh srcs)) sh)
  else
    ops_complete_compute
      (store_blocks srcs (async_raid6_2data_recov tx size (Z.to_nat faila) (Z.to_nat failb) (blocks sh srcs)) sh).

(** ** Writes *)

Definition ops_run_prexor5 (sh : stripe) : stripe :=
  let pdev := dev sh (pd sh) in
  let xor_srcs := page pdev :: pages_down (fun _ d => test_bit R5_Wantdrain d) sh in
  upd (pd sh) (set_page (async_xor_offs tx size xor_srcs)) sh.

Definition ops_run_prexor6 (sh : stripe) : stripe :=
  let '(srcs, count) := sources sh SYNDROME_SRC_WANT_DRAIN in
  store_blocks srcs (async_gen_syndrome tx true size (blocks sh srcs)) sh.

(** The body of the loop over the requests to drain. *)
Definition drain_bio (d : r5dev) (wbi : bio) : r5dev :=
  let d := if bi_fua wbi then set_bit R5_WantFUA d else d in
  let d := if bi_sync wbi then set_bit R5_SyncIO d else d in
  if bi_discard wbi then set_bit R5_Discard d
  else
    let d := async_copy_from conf tx wbi false d in
    if bio_page d then clear_bit R5_OVERWRITE (clear_bit R5_UPTODATE (set_bit R5_SkipCopy d)) else d.

(** The device after the drain of its requests, whether [BUG_ON(dev->written)] holds, and whether
    there was anything to drain. *)
Definition biodrain_dev (i : Z) (d : r5dev) (a : bool * bool) : r5dev * (bool * bool) :=
  if test_bit R5_Wantdrain d then
    let chosen := towrite d in
    let bug := nonempty (written d) in
    let d := with_writes [] chosen (clear_bit R5_Wantdrain d) in
    (fold_left drain_bio (bio_chain conf (dev_sector d) chosen) d, (a.1 || bug, true))
  else (d, a).

Definition ops_run_biodrain (sh : stripe) : option stripe :=
  let '(sh, (bug, drained)) := for_devs biodrain_dev sh (false, false) in
  BUG_ON bug;;
  Some (if drained then with_overwrite 0 sh else sh).

Definition any_flag (f : r5dev_flag) (sh : stripe) : bool := existsb (test_bit f) (devs sh).

Definition complete_reconstruct_dev (sh : stripe) (i : Z) (d : r5dev) : r5dev :=
  if nonempty (written d) || (i =? pd sh) || (i =? qd sh) then
    let d := if negb (any_flag R5_Discard sh) && negb (test_bit R5_SkipCopy d) then set_bit R5_UPTODATE d else d in
    let d := if any_flag R5_WantFUA sh then set_bit R5_WantFUA d else d in
    if any_flag R5_SyncIO sh then set_bit R5_SyncIO d else d
  else d.

Definition ops_complete_reconstruct (sh : stripe) : option stripe :=
  let sh := with_devs (imap (fun i d => complete_reconstruct_dev sh (Z.of_nat i) d) (devs sh)) sh in
  sh ← match reconstruct_state sh with
       | reconstruct_state_drain_run => Some (with_reconstruct reconstruct_state_drain_result sh)
       | reconstruct_state_prexor_drain_run => Some (with_reconstruct reconstruct_state_prexor_drain_result sh)
       | reconstruct_state_run => Some (with_reconstruct reconstruct_state_result sh)
       | _ => None
       end;
  Some (sset STRIPE_HANDLE sh).

(** Every data device is to be discarded. *)
Definition all_discard (sh : stripe) : bool :=
  forallb (fun x => (x.1 =? pd sh) || (x.1 =? qd sh) || test_bit R5_Discard x.2) (devs_down sh).

Definition ops_run_reconstruct5 (sh : stripe) : option stripe :=
  if all_discard sh then ops_complete_reconstruct (upd (pd sh) (set_bit R5_Discard) sh)
  else
    let pdev := dev sh (pd sh) in
    let xor_srcs :=
      if reconstruct_states_beq (reconstruct_state sh) reconstruct_state_prexor_drain_run
      then page pdev :: pages_down (fun _ d => nonempty (written d)) sh
      else pages_down (fun i _ => negb (i =? pd sh)) sh in
    ops_complete_reconstruct (upd (pd sh) (set_page (xor_or_copy (page pdev) xor_srcs)) sh).

Definition ops_run_reconstruct6 (sh : stripe) : option stripe :=
  if all_discard sh then
    ops_complete_reconstruct (upd (qd sh) (set_bit R5_Discard) (upd (pd sh) (set_bit R5_Discard) sh))
  else
    let prexor := reconstruct_states_beq (reconstruct_state sh) reconstruct_state_prexor_drain_run in
    let '(srcs, count) := sources sh (if prexor then SYNDROME_SRC_WRITTEN else SYNDROME_SRC_ALL) in
    ops_complete_reconstruct (store_blocks srcs (async_gen_syndrome tx prexor size (blocks sh srcs)) sh).

(** ** Checking the parity *)

Definition ops_complete_check (sh : stripe) : stripe :=
  sset STRIPE_HANDLE (with_check check_state_check_result sh).

(** The sum of the blocks is left in the page of P. *)
Definition ops_run_check_p (sh : stripe) : stripe :=
  let xor_srcs := page (dev sh (pd sh)) :: pages_down (fun i _ => negb (i =? pd sh) && negb (i =? qd sh)) sh in
  let '(dest, wrong) := async_xor_val_offs tx size xor_srcs in
  ops_complete_check (with_zero_sum (wrong, false) (upd (pd sh) (set_page dest) sh)).

Definition ops_run_check_pq (sh : stripe) (checkp : bool) : stripe :=
  let '(srcs, count) := sources sh SYNDROME_SRC_ALL in
  let srcs := if checkp then srcs else <[count := None]> srcs in
  ops_complete_check (with_zero_sum (async_syndrome_val tx size (blocks sh srcs)) sh).

(** ** All requested operations *)

Definition run_compute (sh : stripe) : option stripe :=
  if level conf <? 6 then ops_run_compute5 sh
  else if (ops_target2 sh <? 0) || (ops_target sh <? 0) then ops_run_compute6_1 sh
  else ops_run_compute6_2 sh.

Definition run_check (sh : stripe) : option stripe :=
  match check_state sh with
  | check_state_run => Some (ops_run_check_p sh)
  | check_state_run_q => Some (ops_run_check_pq sh false)
  | check_state_run_pq => Some (ops_run_check_pq sh true)
  | _ => None
  end.

Definition raid_run_ops (ops_request : stripe_op -> bool) (sh : stripe) : option (stripe * list reply) :=
  '(sh, out) ← if ops_request STRIPE_OP_BIOFILL then ops_run_biofill sh else Some (sh, []);
  sh ← if ops_request STRIPE_OP_COMPUTE_BLK then run_compute sh else Some sh;
  let sh := if ops_request STRIPE_OP_PREXOR
            then if level conf <? 6 then ops_run_prexor5 sh else ops_run_prexor6 sh else sh in
  sh ← if ops_request STRIPE_OP_BIODRAIN then ops_run_biodrain sh else Some sh;
  sh ← if ops_request STRIPE_OP_RECONSTRUCT
       then if level conf <? 6 then ops_run_reconstruct5 sh else ops_run_reconstruct6 sh else Some sh;
  sh ← if ops_request STRIPE_OP_CHECK then run_check sh else Some sh;
  let sh := if ops_request STRIPE_OP_BIOFILL || ops_request STRIPE_OP_BIODRAIN
            then with_devs (map (clear_bit R5_Overlap) (devs sh)) sh else sh in
  Some (sh, out).
End Ops.
