(* ===== verification/Raid5Handle.v ===== *)
(** Handling a stripe, md/raid5.c: [handle_stripe] looks at the devices of the stripe
    ([analyse_stripe]), decides what to read, to compute, to write and to check, runs the
    operations of Raid5Ops and submits the I/O ([ops_run_io]).

    [None] is [BUG()].  Statistics, messages, wake-ups, the counts of pending I/O of the members
    and the counters of the configuration are left out. *)

From S2P Require Import Prelude PageMem Raid5Layout Raid5Stripe Raid5Dev Raid5Ops.

(** * The state of a stripe while it is handled *)

Inductive counter :=
  | locked | uptodate | to_read | to_write | failed | s_written | to_fill | compute | non_overwrite.

Scheme Boolean Equality for counter.

Inductive condition :=
  | syncing | replacing | req_compute | p_failed | q_failed | dec_preread_active | blocked_rdev | handle_bad_blocks.

Scheme Boolean Equality for condition.

(** [struct stripe_head_state] *)
Record stripe_head_state := {
  cnt : counter -> Z;
  cond : condition -> bool;
  failed_num0 : Z;
  failed_num1 : Z;
  ops_request : stripe_op -> bool;
}.

Definition add (c : counter) (n : Z) (s : stripe_head_state) : stripe_head_state :=
  {| cnt := fun c' => if counter_beq c' c then cnt s c + n else cnt s c'; cond := cond s;
     failed_num0 := failed_num0 s; failed_num1 := failed_num1 s; ops_request := ops_request s |}.

Definition add_if (b : bool) (c : counter) (s : stripe_head_state) : stripe_head_state := if b then add c 1 s else s.

Definition with_cond (c : condition) (v : bool) (s : stripe_head_state) : stripe_head_state :=
  {| cnt := cnt s; cond := fun c' => if condition_beq c' c then v else cond s c';
     failed_num0 := failed_num0 s; failed_num1 := failed_num1 s; ops_request := ops_request s |}.

Definition with_failed_num (n0 n1 : Z) (s : stripe_head_state) : stripe_head_state :=
  {| cnt := cnt s; cond := cond s; failed_num0 := n0; failed_num1 := n1; ops_request := ops_request s |}.

Definition request (o : stripe_op) (s : stripe_head_state) : stripe_head_state :=
  {| cnt := cnt s; cond := cond s; failed_num0 := failed_num0 s; failed_num1 := failed_num1 s;
     ops_request := fun o' => if stripe_op_beq o' o then true else ops_request s o' |}.

Definition no_state : stripe_head_state :=
  {| cnt := fun _ => 0; cond := fun _ => false; failed_num0 := -1; failed_num1 := -1; ops_request := fun _ => false |}.

(** [s->failed_num[k]] *)
Definition failed_num (s : stripe_head_state) (k : nat) : Z :=
  match k with O => failed_num0 s | _ => failed_num1 s end.

(** * The array around the stripe *)

#[global] Instance disk_info_inhabited : Inhabited disk_info := populate {| rdev := None; replacement := None |}.

Record world := { w_sh : stripe; w_disks : list disk_info; w_md : mddev }.

Definition with_sh (sh : stripe) (w : world) : world := {| w_sh := sh; w_disks := w_disks w; w_md := w_md w |}.
Definition with_disks (ds : list disk_info) (w : world) : world := {| w_sh := w_sh w; w_disks := ds; w_md := w_md w |}.
Definition with_md (md : mddev) (w : world) : world := {| w_sh := w_sh w; w_disks := w_disks w; w_md := md |}.

(** [conf->disks[i]], and its member or replacement. *)
Definition disk (w : world) (i : Z) : disk_info := w_disks w !!! Z.to_nat i.
Definition member (repl : bool) (di : disk_info) : option md_rdev := if repl then replacement di else rdev di.

Definition upd_member (i : Z) (repl : bool) (f : md_rdev -> md_rdev) (w : world) : world :=
  with_disks (alter (fun di => if repl then {| rdev := rdev di; replacement := f <$> replacement di |}
                               else {| rdev := f <$> rdev di; replacement := replacement di |})
                    (Z.to_nat i) (w_disks w)) w.

(** ** Failures of members *)

Definition calc_degraded_disk (di : disk_info) : Z :=
  let r := match rdev di with Some r => if Faulty r then replacement di else Some r | None => None end in
  match r with
  | None => 1
  | Some r => if Faulty r then 1 else if In_sync r then 0 else 1
  end.

Definition raid5_calc_degraded (w : world) : Z := foldr (fun di n => calc_degraded_disk di + n) 0 (w_disks w).

Definition set_faulty (r : md_rdev) : md_rdev :=
  {| Faulty := true; In_sync := false; WriteErrorSeen := WriteErrorSeen r; WantReplacement := WantReplacement r;
     Blocked := true; bad := bad r; bb_room := bb_room r; recovery_offset := recovery_offset r;
     read_errors := read_errors r; stored := stored r |}.

Definition raid5_error (conf : r5conf) (i : Z) (repl : bool) (w : world) : world :=
  let w := upd_member i repl set_faulty w in
  let deg := raid5_calc_degraded w in
  let md := w_md w in
  let broken := MD_BROKEN md || (max_degraded conf <? deg) in
  with_md {| recovery_cp := recovery_cp md; MD_SB_CHANGE_PENDING := true;
             MD_RECOVERY_REQUESTED := MD_RECOVERY_REQUESTED md; MD_RECOVERY_CHECK := MD_RECOVERY_CHECK md;
             MD_RECOVERY_RECOVER := MD_RECOVERY_RECOVER md; MD_RECOVERY_INTR := true;
             MD_BROKEN := broken; ro := ro md; degraded := deg |} w.

Definition md_error (conf : r5conf) (i : Z) (repl : bool) (w : world) : world :=
  match member repl (disk w i) with
  | None => w
  | Some r =>
    if Faulty r then w
    else
      let w := raid5_error conf i repl w in
      let md := w_md w in
      with_md {| recovery_cp := recovery_cp md; MD_SB_CHANGE_PENDING := MD_SB_CHANGE_PENDING md;
                 MD_RECOVERY_REQUESTED := MD_RECOVERY_REQUESTED md; MD_RECOVERY_CHECK := MD_RECOVERY_CHECK md;
                 MD_RECOVERY_RECOVER := MD_RECOVERY_RECOVER md || (negb (degraded md =? 0) && negb (MD_BROKEN md));
                 MD_RECOVERY_INTR := true; MD_BROKEN := MD_BROKEN md; ro := ro md; degraded := degraded md |} w
  end.

Definition with_bad (b : badblock) (r : md_rdev) : md_rdev :=
  {| Faulty := Faulty r; In_sync := In_sync r; WriteErrorSeen := WriteErrorSeen r; WantReplacement := WantReplacement r;
     Blocked := Blocked r; bad := b; bb_room := bb_room r; recovery_offset := recovery_offset r;
     read_errors := read_errors r; stored := stored r |}.

Definition sb_pending (md : mddev) : mddev :=
  {| recovery_cp := recovery_cp md; MD_SB_CHANGE_PENDING := true; MD_RECOVERY_REQUESTED := MD_RECOVERY_REQUESTED md;
     MD_RECOVERY_CHECK := MD_RECOVERY_CHECK md; MD_RECOVERY_RECOVER := MD_RECOVERY_RECOVER md;
     MD_RECOVERY_INTR := MD_RECOVERY_INTR md; MD_BROKEN := MD_BROKEN md; ro := ro md; degraded := degraded md |}.

(** [rdev_set_badblocks] for the block of the stripe, with [md_error] where it fails, as the
    callers do; [false] where there is no member. *)
Definition rdev_set_badblocks (i : Z) (repl : bool) (w : world) : world * bool :=
  match member repl (disk w i) with
  | None => (w, false)
  | Some r =>
    if bb_room r then
      (with_md (sb_pending (w_md w)) (upd_member i repl (fun r => with_bad (if is_bad (bad r) then bad r else Unacked) r) w), true)
    else (w, false)
  end.

Definition set_badblocks_or_error (conf : r5conf) (i : Z) (repl : bool) (w : world) : world :=
  let '(w, ok) := rdev_set_badblocks i repl w in if ok then w else md_error conf i repl w.

Definition rdev_clear_badblocks (i : Z) (repl : bool) (w : world) : world := upd_member i repl (with_bad Good) w.

(** * [analyse_stripe] *)

Section Handle.
Context (conf : r5conf) (tx : async_tx).

Let SECTORS := RAID5_STRIPE_SECTORS conf.

(** A reply to a read may be possible. *)
Definition mark_wantfill (sh : stripe) (d : r5dev) : r5dev :=
  if test_bit R5_UPTODATE d && nonempty (toread d) && negb (stest STRIPE_BIOFILL_RUN sh)
  then set_bit R5_Wantfill d else d.

Definition count_dev (d : r5dev) (s : stripe_head_state) : stripe_head_state :=
  let s := add_if (test_bit R5_LOCKED d) locked s in
  let s := add_if (test_bit R5_UPTODATE d) uptodate s in
  let s := add_if (test_bit R5_Wantcompute d) compute s in
  let s := if test_bit R5_Wantfill d then add to_fill 1 s else add_if (nonempty (toread d)) to_read s in
  let s := if nonempty (towrite d) then add_if (negb (test_bit R5_OVERWRITE d)) non_overwrite (add to_write 1 s) else s in
  add_if (nonempty (written d)) s_written s.

(** The replacement is used for reads where it is recovered beyond the stripe. *)
Definition use_replacement (sh : stripe) (di : disk_info) : bool :=
  match replacement di with
  | Some r => negb (Faulty r) && (sector sh + SECTORS <=? recovery_offset r) && negb (is_bad (bad r))
  | None => false
  end.

Definition working (r : option md_rdev) : option md_rdev :=
  match r with Some r => if Faulty r then None else Some r | None => None end.

(** The member to read from. *)
Definition read_rdev (sh : stripe) (di : disk_info) : option md_rdev :=
  working (if use_replacement sh di then replacement di else rdev di).

Definition mark_replacement (sh : stripe) (di : disk_info) (d : r5dev) : r5dev :=
  if use_replacement sh di then set_bit R5_ReadRepl d
  else clear_bit R5_ReadRepl ((if working (replacement di) then set_bit else clear_bit) R5_NeedReplace d).

Definition blocks_handling (r : option md_rdev) : bool :=
  match r with Some r => Blocked r || unacked (bad r) | None => false end.

(** [R5_Insync], and [R5_ReadError] for a bad block that can be corrected. *)
Definition mark_insync (sh : stripe) (r : option md_rdev) (d : r5dev) : r5dev :=
  let d := clear_bit R5_Insync d in
  match r with
  | None => d
  | Some r =>
    if is_bad (bad r) then
      if negb (WriteErrorSeen r) && test_bit R5_UPTODATE d
      then set_bit R5_ReadError (set_bit R5_Insync d) else d
    else if In_sync r then set_bit R5_Insync d
    else if sector sh + SECTORS <=? recovery_offset r then set_bit R5_Insync d
    else d
  end.

(** [R5_WriteError], [R5_MadeGood] and [R5_MadeGoodRepl]: whether there are bad blocks to handle. *)
Definition mark_errors (sh : stripe) (di : disk_info) (d : r5dev) : r5dev * bool :=
  let '(d, h1) :=
    if test_bit R5_WriteError d then
      let d := if use_replacement sh di then d else clear_bit R5_Insync d in
      if working (rdev di) then (d, true) else (clear_bit R5_WriteError d, false)
    else (d, false) in
  let '(d, h2) :=
    if test_bit R5_MadeGood d then if working (rdev di) then (d, true) else (clear_bit R5_MadeGood d, false)
    else (d, false) in
  let '(d, h3) :=
    if test_bit R5_MadeGoodRepl d then
      if working (replacement di) then (d, true) else (clear_bit R5_MadeGoodRepl d, false)
    else (d, false) in
  (d, h1 || h2 || h3).

Definition mark_read_error (d : r5dev) : r5dev :=
  let d := if test_bit R5_Insync d then d else clear_bit R5_ReWrite (clear_bit R5_ReadError d) in
  if test_bit R5_ReadError d then clear_bit R5_Insync d else d.

(** A device that is not in sync. *)
Definition count_failed (i : Z) (s : stripe_head_state) : stripe_head_state :=
  let s :=
    if cnt s failed =? 0 then with_failed_num i (failed_num1 s) s
    else if cnt s failed =? 1 then with_failed_num (failed_num0 s) i s
    else s in
  add failed 1 s.

(** The body of the loop; the accumulated [bool] is [do_recovery]. *)
Definition analyse_dev (sh : stripe) (di : Z -> disk_info) (i : Z) (d : r5dev) (a : stripe_head_state * bool)
    : r5dev * (stripe_head_state * bool) :=
  let '(s, do_recovery) := a in
  let d := mark_wantfill sh d in
  let s := count_dev d s in
  let d := mark_replacement sh (di i) d in
  let r := read_rdev sh (di i) in
  let s := if blocks_handling r then with_cond blocked_rdev true s else s in
  let d := mark_insync sh r d in
  let '(d, h) := mark_errors sh (di i) d in
  let s := if h then with_cond handle_bad_blocks true s else s in
  let d := mark_read_error d in
  if test_bit R5_Insync d then (d, (s, do_recovery))
  else (d, (count_failed i s, do_recovery || bool_decide (is_Some r) || bool_decide (is_Some (working (replacement (di i)))))).

Definition analyse_stripe (w : world) : option (stripe * stripe_head_state) :=
  let sh := w_sh w in
  let md := w_md w in
  let '(sh, (s, do_recovery)) := for_devs (analyse_dev sh (disk w)) sh (no_state, false) in
  BUG_ON (2 <? cnt s compute);;
  let s :=
    if stest STRIPE_SYNCING sh then
      if do_recovery || (recovery_cp md <=? sector sh) || MD_RECOVERY_REQUESTED md
      then with_cond syncing true s else with_cond replacing true s
    else s in
  Some (sh, s).

(** * Reading and computing blocks *)

Definition want_replace (w : world) (sh : stripe) (i : Z) : bool :=
  match replacement (disk w i) with
  | Some r => negb (Faulty r) && negb (In_sync r) &&
              ((recovery_offset r <=? sector sh) || (recovery_cp (w_md w) <=? sector sh))
  | None => false
  end.

(** The devices [failed_num[0]] and [failed_num[1]] as far as there are such. *)
Definition failed_devs (sh : stripe) (s : stripe_head_state) : list (Z * r5dev) :=
  map (fun k => (failed_num s k, dev sh (failed_num s k))) (take (Z.to_nat (cnt s failed)) [0%nat; 1%nat]).

Definition is_parity (sh : stripe) (i : Z) : bool := (i =? pd sh) || (i =? qd sh).

Definition need_this_block (w : world) (sh : stripe) (s : stripe_head_state) (disk_idx : Z) : bool :=
  let d := dev sh disk_idx in
  let fdev := failed_devs sh s in
  if test_bit R5_LOCKED d || test_bit R5_UPTODATE d then false
  else if nonempty (toread d) || (nonempty (towrite d) && negb (test_bit R5_OVERWRITE d)) then true
  else if cond s syncing || (cond s replacing && want_replace w sh disk_idx) then true
  else if existsb (fun x => nonempty (toread x.2)) fdev then true
  else if (cnt s failed =? 0) || (cnt s to_write =? 0) then false
  else if test_bit R5_Insync d && negb (stest STRIPE_PREREAD_ACTIVE sh) then false
  else if existsb (fun x => nonempty (towrite x.2) && negb (test_bit R5_UPTODATE x.2) && negb (test_bit R5_OVERWRITE x.2)) fdev
  then true
  else
    let force_rcw := bool_decide (conf_rmw_level conf = PARITY_DISABLE_RMW) ||
      ((2 <=? cnt s failed) &&
       existsb (fun x => (nonempty (towrite x.2) || is_parity sh x.1) && negb (test_bit R5_UPTODATE x.2)) fdev) in
    if negb force_rcw && (sector sh <? recovery_cp (w_md w)) then false
    else existsb (fun x => negb (is_parity sh x.1) && negb (test_bit R5_UPTODATE x.2) && negb (test_bit R5_OVERWRITE x.2)) fdev.

(** Another device whose block is missing, searched from the last one. *)
Definition other_missing (sh : stripe) (disk_idx : Z) : option Z :=
  fst <$> find (fun x => negb (x.1 =? disk_idx) && negb (test_bit R5_UPTODATE x.2)) (devs_down sh).

(** The returned [bool] says that no more devices need to be looked at. *)
Definition fetch_block (w : world) (disk_idx : Z) (sh : stripe) (s : stripe_head_state)
    : option (stripe * stripe_head_state * bool) :=
  let n := Z.of_nat (disks sh) in
  if need_this_block w sh s disk_idx then
    BUG_ON (test_bit R5_Wantcompute (dev sh disk_idx));;
    BUG_ON (test_bit R5_Wantread (dev sh disk_idx));;
    if (cnt s uptodate =? n - 1) &&
       (((0 <=? qd sh) && (pd sh =? disk_idx)) ||
        (negb (cnt s failed =? 0) && ((disk_idx =? failed_num0 s) || (disk_idx =? failed_num1 s)))) then
      let sh := with_targets disk_idx (-1) (upd disk_idx (set_bit R5_Wantcompute) (sset STRIPE_COMPUTE_RUN sh)) in
      Some (sh, add uptodate 1 (with_cond req_compute true (request STRIPE_OP_COMPUTE_BLK s)), true)
    else if (cnt s uptodate =? n - 2) && (2 <=? cnt s failed) then
      match other_missing sh disk_idx with
      | None => None
      | Some other =>
        let sh := upd other (set_bit R5_Wantcompute) (upd disk_idx (set_bit R5_Wantcompute) (sset STRIPE_COMPUTE_RUN sh)) in
        Some (with_targets disk_idx other sh,
              with_cond req_compute true (add uptodate 2 (request STRIPE_OP_COMPUTE_BLK s)), true)
      end
    else if test_bit R5_Insync (dev sh disk_idx) then
      Some (upd disk_idx (fun d => set_bit R5_Wantread (set_bit R5_LOCKED d)) sh, add locked 1 s, false)
    else Some (sh, s, false)
  else Some (sh, s, false).

Fixpoint fetch_loop (w : world) (l : list Z) (sh : stripe) (s : stripe_head_state) : option (stripe * stripe_head_state) :=
  match l with
  | [] => Some (sh, s)
  | i :: l =>
    '(sh, s, stop) ← fetch_block w i sh s;
    if stop : bool then Some (sh, s) else fetch_loop w l sh s
  end.

Definition indices_down (sh : stripe) : list Z := rev (seqZ 0 (Z.of_nat (disks sh))).

Definition is_idle (sh : stripe) : bool :=
  check_states_beq (check_state sh) check_state_idle &&
  reconstruct_states_beq (reconstruct_state sh) reconstruct_state_idle.

Definition handle_stripe_fill (w : world) (sh : stripe) (s : stripe_head_state) : option (stripe * stripe_head_state) :=
  '(sh, s) ← if negb (stest STRIPE_COMPUTE_RUN sh) && is_idle sh
             then fetch_loop w (indices_down sh) sh s else Some (sh, s);
  Some (sset STRIPE_HANDLE sh, s).

(** * Starting writes *)

(** The device [d] has a block missing for a read-modify-write. *)
Definition rmw_missing (sh : stripe) (i : Z) (d : r5dev) : bool :=
  (nonempty (towrite d) || is_parity sh i) && negb (test_bit R5_LOCKED d) &&
  negb (test_bit R5_UPTODATE d || test_bit R5_Wantcompute d).

(** The device [d] has a block missing for a reconstruct-write. *)
Definition rcw_missing (sh : stripe) (i : Z) (d : r5dev) : bool :=
  negb (test_bit R5_OVERWRITE d) && negb (is_parity sh i) && negb (test_bit R5_LOCKED d) &&
  negb (test_bit R5_UPTODATE d || test_bit R5_Wantcompute d).

(** The cost of the missing blocks, [2 * disks] for one that cannot be read. *)
Definition cost (missing : stripe -> Z -> r5dev -> bool) (sh : stripe) : Z :=
  foldr (fun x n => (if missing sh x.1 x.2 then if test_bit R5_Insync x.2 then 1 else 2 * Z.of_nat (disks sh) else 0) + n)
        0 (devs_down sh).

(** Read the missing blocks, or delay the stripe; the [bool] asks for the delay, and the
    number counts the missing blocks. *)
Definition preread_dev (readable : bool) (missing : stripe -> Z -> r5dev -> bool) (sh : stripe) (i : Z) (d : r5dev)
    (a : stripe_head_state * bool * Z) : r5dev * (stripe_head_state * bool * Z) :=
  let '(s, delay, n) := a in
  if missing sh i d && (negb readable || test_bit R5_Insync d) then
    if test_bit R5_Insync d && stest STRIPE_PREREAD_ACTIVE sh then
      (set_bit R5_Wantread (set_bit R5_LOCKED d), (add locked 1 s, delay, n + 1))
    else (d, (s, true, n + 1))
  else (d, a).

(** The number is that of the missing blocks. *)
Definition preread (readable : bool) (missing : stripe -> Z -> r5dev -> bool) (sh : stripe) (s : stripe_head_state)
    : stripe * stripe_head_state * Z :=
  let '(sh, (s, delay, n)) := for_devs (preread_dev readable missing sh) sh (s, false, 0) in
  (if delay : bool then sset STRIPE_DELAYED sh else sh, s, n).

(** A device whose requests are to be drained, for a reconstruct-write. *)
Definition drain_dev (i : Z) (d : r5dev) (s : stripe_head_state) : r5dev * stripe_head_state :=
  if nonempty (towrite d) then
    let d := set_bit R5_Wantdrain (set_bit R5_LOCKED d) in
    (clear_bit R5_UPTODATE d, add locked 1 s)
  else (d, s).

Definition drain_dev_rmw (sh : stripe) (i : Z) (d : r5dev) (s : stripe_head_state) : r5dev * stripe_head_state :=
  if negb (is_parity sh i) && nonempty (towrite d) && (test_bit R5_UPTODATE d || test_bit R5_Wantcompute d) then
    (clear_bit R5_UPTODATE (set_bit R5_LOCKED (set_bit R5_Wantdrain d)), add locked 1 s)
  else (d, s).

(** Keep the parity locked until it is written. *)
Definition lock_parity (sh : stripe) (s : stripe_head_state) : stripe * stripe_head_state :=
  let lock := fun d => clear_bit R5_UPTODATE (set_bit R5_LOCKED d) in
  let '(sh, s) := (upd (pd sh) lock sh, add locked 1 s) in
  if level conf =? 6 then (upd (qd sh) lock sh, add locked 1 s) else (sh, s).

Definition have_block (d : r5dev) : bool := test_bit R5_UPTODATE d || test_bit R5_Wantcompute d.

(** [schedule_reconstruction] without [expand]. *)
Definition schedule_reconstruction (rcw : bool) (sh : stripe) (s : stripe_head_state)
    : option (stripe * stripe_head_state) :=
  if rcw then
    let '(sh, s) := for_devs drain_dev sh s in
    if cnt s locked =? 0 then Some (sh, s)
    else
      let sh := with_reconstruct reconstruct_state_drain_run sh in
      let s := request STRIPE_OP_RECONSTRUCT (request STRIPE_OP_BIODRAIN s) in
      let sh := if cnt s locked + max_degraded conf =? Z.of_nat (disks sh) then sset STRIPE_FULL_WRITE sh else sh in
      Some (lock_parity sh s)
  else
    BUG_ON (negb (have_block (dev sh (pd sh))));;
    BUG_ON ((level conf =? 6) && negb (have_block (dev sh (qd sh))));;
    let '(sh, s) := for_devs (drain_dev_rmw sh) sh s in
    if cnt s locked =? 0 then Some (sh, s)
    else
      let sh := with_reconstruct reconstruct_state_prexor_drain_run sh in
      Some (lock_parity sh (request STRIPE_OP_RECONSTRUCT (request STRIPE_OP_BIODRAIN (request STRIPE_OP_PREXOR s)))).

Definition handle_stripe_dirtying (w : world) (sh : stripe) (s : stripe_head_state)
    : option (stripe * stripe_head_state) :=
  let n := Z.of_nat (disks sh) in
  let cp := recovery_cp (w_md w) in
  let prefer_rmw := bool_decide (conf_rmw_level conf = PARITY_PREFER_RMW) in
  let force_rcw := bool_decide (conf_rmw_level conf = PARITY_DISABLE_RMW) ||
                   ((cp <? MaxSector) && (cp <=? sector sh) && (cnt s failed =? 0)) in
  let '(rcw, rmw) := if force_rcw then (1, 2) else (cost rcw_missing sh, cost rmw_missing sh) in
  let sh := sset STRIPE_HANDLE sh in
  let '(sh, s) :=
    if ((rmw <? rcw) || ((rmw =? rcw) && prefer_rmw)) && (0 <? rmw)
    then (preread true rmw_missing sh s).1 else (sh, s) in
  let '(sh, s, rcw) :=
    if ((rcw <? rmw) || ((rcw =? rmw) && negb prefer_rmw)) && (0 <? rcw)
    then preread false rcw_missing sh s else (sh, s, rcw) in
  let sh := if (n <? rcw) && (n <? rmw) && negb (stest STRIPE_PREREAD_ACTIVE sh) then sset STRIPE_DELAYED sh else sh in
  if (cond s req_compute || negb (stest STRIPE_COMPUTE_RUN sh)) &&
     ((cnt s locked =? 0) && ((rcw =? 0) || (rmw =? 0)) && negb (stest STRIPE_BIT_DELAY sh))
  then schedule_reconstruction (rcw =? 0) sh s
  else Some (sh, s).

(** * Checking and repairing the parity *)

Definition lock_write (d : r5dev) : r5dev := set_bit R5_Wantwrite (set_bit R5_LOCKED d).

(** [case check_state_compute_result:] of [handle_parity_checks5] for the device [i]. *)
Definition write_checked5 (i : Z) (sh : stripe) (s : stripe_head_state) : option (stripe * stripe_head_state) :=
  let sh := with_check check_state_idle sh in
  if stest STRIPE_INSYNC sh then Some (sh, s)
  else
    BUG_ON (negb (test_bit R5_UPTODATE (dev sh i)));;
    BUG_ON (negb (cnt s uptodate =? Z.of_nat (disks sh)));;
    Some (sset STRIPE_INSYNC (sclear STRIPE_DEGRADED (upd i lock_write sh)), add locked 1 s).

Definition handle_parity_checks5 (w : world) (sh : stripe) (s : stripe_head_state)
    : option (stripe * stripe_head_state) :=
  let sh := sset STRIPE_HANDLE sh in
  match check_state sh with
  | check_state_idle =>
    if cnt s failed =? 0 then
      BUG_ON (negb (cnt s uptodate =? Z.of_nat (disks sh)));;
      Some (upd (pd sh) (clear_bit R5_UPTODATE) (with_check check_state_run sh),
            add uptodate (-1) (request STRIPE_OP_CHECK s))
    else write_checked5 (failed_num0 s) sh s
  | check_state_compute_result => write_checked5 (pd sh) sh s
  | check_state_run | check_state_compute_run => Some (sh, s)
  | check_state_check_result =>
    let sh := with_check check_state_idle sh in
    if negb (cnt s failed =? 0) then Some (sh, s)
    else if negb (zero_sum_result sh).1 then Some (sset STRIPE_INSYNC sh, s)
    else if MD_RECOVERY_CHECK (w_md w) then Some (sset STRIPE_INSYNC sh, s)
    else
      let sh := sset STRIPE_COMPUTE_RUN (with_check check_state_compute_run sh) in
      Some (with_targets (pd sh) (-1) (upd (pd sh) (set_bit R5_Wantcompute) sh),
            add uptodate 1 (request STRIPE_OP_COMPUTE_BLK s))
  | check_state_run_q | check_state_run_pq => None
  end.

Definition write_if (b : bool) (i : Z) (x : stripe * stripe_head_state * option Z) : stripe * stripe_head_state * option Z :=
  if b then let '(sh, s, _) := x in (upd i lock_write sh, add locked 1 s, Some i) else x.

(** [case check_state_compute_result:] of [handle_parity_checks6]. *)
Definition write_checked6 (sh : stripe) (s : stripe_head_state) : stripe * stripe_head_state :=
  let sh := with_check check_state_idle sh in
  if stest STRIPE_INSYNC sh then (sh, s)
  else
    let x := (sh, s, None) in
    let x := write_if (cnt s failed =? 2) (failed_num1 s) x in
    let x := write_if (1 <=? cnt s failed) (failed_num0 s) x in
    let x := write_if (zero_sum_result sh).1 (pd sh) x in
    let x := write_if (zero_sum_result sh).2 (qd sh) x in
    let '(sh, s, last) := x in
    let '(sh, s) :=
      match last with
      | Some i => if test_bit R5_UPTODATE (dev sh i) then (sh, s)
                  else (upd i (fun d => clear_bit R5_Wantwrite (clear_bit R5_LOCKED d)) sh, add locked (-1) s)
      | None => (sh, s)
      end in
    (sset STRIPE_INSYNC (sclear STRIPE_DEGRADED sh), s).

Definition handle_parity_checks6 (w : world) (sh : stripe) (s : stripe_head_state)
    : option (stripe * stripe_head_state) :=
  let sh := sset STRIPE_HANDLE sh in
  BUG_ON (2 <? cnt s failed);;
  match check_state sh with
  | check_state_idle =>
    let st := if cnt s failed =? (if cond s q_failed then 1 else 0) then check_state_run else check_state_idle in
    let st := if negb (cond s q_failed) && (cnt s failed <? 2)
              then if check_states_beq st check_state_run then check_state_run_pq else check_state_run_q else st in
    let sh := with_zero_sum (false, false) (with_check st sh) in
    let '(sh, s) := if check_states_beq st check_state_run
                    then (upd (pd sh) (clear_bit R5_UPTODATE) sh, add uptodate (-1) s) else (sh, s) in
    match st with
    | check_state_run | check_state_run_q | check_state_run_pq => Some (sh, request STRIPE_OP_CHECK s)
    | _ =>
      BUG_ON (negb (cnt s failed =? 2));;
      Some (write_checked6 sh s)
    end
  | check_state_compute_result => Some (write_checked6 sh s)
  | check_state_run | check_state_run_q | check_state_run_pq | check_state_compute_run => Some (sh, s)
  | check_state_check_result =>
    let sh := with_check check_state_idle sh in
    let '(p_wrong, q_wrong) := zero_sum_result sh in
    if negb p_wrong && negb q_wrong then
      if cnt s failed =? 0 then Some (sset STRIPE_INSYNC sh, s) else Some (with_check check_state_compute_result sh, s)
    else if MD_RECOVERY_CHECK (w_md w) then Some (sset STRIPE_INSYNC sh, s)
    else
      let sh := sset STRIPE_COMPUTE_RUN (with_check check_state_compute_run sh) in
      let s := request STRIPE_OP_COMPUTE_BLK s in
      let '(sh, s) := if p_wrong then (upd (pd sh) (set_bit R5_Wantcompute) sh, add uptodate 1 s) else (sh, s) in
      let '(sh, s) := if q_wrong then (upd (qd sh) (set_bit R5_Wantcompute) sh, add uptodate 1 s) else (sh, s) in
      Some (with_targets (if p_wrong then pd sh else if q_wrong then qd sh else -1)
                         (if p_wrong && q_wrong then qd sh else -1) sh, s)
  end.

(** * Completing and failing requests *)

(** A device whose writes can be returned; the [bool] is [discard_pending]. *)
Definition clean_dev (i : Z) (d : r5dev) (a : bool * list reply) : r5dev * (bool * list reply) :=
  let '(pending, out) := a in
  if nonempty (written d) then
    if negb (test_bit R5_LOCKED d) &&
       (test_bit R5_UPTODATE d || test_bit R5_Discard d || test_bit R5_SkipCopy d) then
      let d' := if test_bit R5_Discard d then clear_bit R5_UPTODATE (clear_bit R5_Discard d) else d in
      let d' := point_page None (clear_bit R5_SkipCopy d') in
      (with_writes (towrite d') [] d',
       (pending, out ++ map (Write_done i) (bio_chain conf (dev_sector d) (written d))))
    else (d, (pending || test_bit R5_Discard d, out))
  else (d, a).

Definition handle_stripe_clean_event (sh : stripe) : stripe * list reply :=
  let '(sh, (discard_pending, out)) := for_devs clean_dev sh (false, []) in
  let sh :=
    if negb discard_pending && test_bit R5_Discard (dev sh (pd sh)) then
      let done := fun d => clear_bit R5_UPTODATE (clear_bit R5_Discard d) in
      let sh := upd (pd sh) done sh in
      let sh := if 0 <=? qd sh then upd (qd sh) done sh else sh in
      let sh := sclear STRIPE_DISCARD sh in
      if stest STRIPE_SYNC_REQUESTED sh then sset STRIPE_HANDLE sh else sh
    else sh in
  (sclear STRIPE_FULL_WRITE sh, out).

(** The requests of a device of a failed stripe get errors; [s] is the state before the loop. *)
Definition fail_dev (s : stripe_head_state) (i : Z) (d : r5dev) (a : stripe_head_state * list reply)
    : r5dev * (stripe_head_state * list reply) :=
  let '(s', out) := a in
  let errors := fun bs => map (Io_error i) (bio_chain conf (dev_sector d) bs) in
  let out := out ++ errors (towrite d) ++ errors (written d) in
  let d := clear_bit R5_Overlap d in
  let d := if test_bit R5_SkipCopy d then point_page None (clear_bit R5_SkipCopy d) else d in
  let d := with_writes [] [] d in
  let '(d, s', out) :=
    if negb (test_bit R5_Wantfill d) && (max_degraded conf <? cnt s failed) &&
       (negb (test_bit R5_Insync d) || test_bit R5_ReadError d) then
      (with_reads [] (read d) d, if nonempty (toread d) then add to_read (-1) s' else s', out ++ errors (toread d))
    else (d, s', out) in
  (clear_bit R5_LOCKED d, (s', out)).

(** A bad block for a member that could not be read. *)
Definition fail_read_error (sh : stripe) (i : Z) (w : world) : world :=
  if test_bit R5_ReadError (dev sh i) then
    match working (rdev (disk w i)) with
    | Some r => if In_sync r then set_badblocks_or_error conf i false w else w
    | None => w
    end
  else w.

Definition zero (c : counter) (s : stripe_head_state) : stripe_head_state := add c (- cnt s c) s.

(** The loop over the devices is split into the part that changes the members and the one that
    changes the devices. *)
Definition handle_failed_stripe (w : world) (sh : stripe) (s : stripe_head_state)
    : world * stripe * stripe_head_state * list reply :=
  let w := fold_left (fun w i => fail_read_error sh i w) (indices_down sh) w in
  let '(sh, (s, out)) := for_devs (fail_dev s) sh (s, []) in
  (w, sclear STRIPE_FULL_WRITE (with_overwrite 0 sh), zero s_written (zero to_write s), out).

(** A bad block for a member that is being recovered; the [bool] is [abort]. *)
Definition fail_recovery (repl : bool) (a : world * bool) (i : Z) : world * bool :=
  let '(w, abort) := a in
  match working (member repl (disk w i)) with
  | Some r => if In_sync r then a
              else let '(w, ok) := rdev_set_badblocks i repl w in (w, abort || negb ok)
  | None => a
  end.

Definition handle_failed_sync (w : world) (sh : stripe) (s : stripe_head_state)
    : world * stripe * stripe_head_state * list reply :=
  let sh := upd (pd sh) (clear_bit R5_Overlap) (sclear STRIPE_SYNCING sh) in
  let s := with_cond replacing false (with_cond syncing false s) in
  let '(w, abort) :=
    if MD_RECOVERY_RECOVER (w_md w)
    then fold_left (fun a i => fail_recovery true (fail_recovery false a i) i) (seqZ 0 (Z.of_nat (length (w_disks w)))) (w, false)
    else (w, false) in
  (w, sh, s, [Sync_done (negb abort)]).

(** More devices are lost than the parity can stand for. *)
Definition handle_failed (w : world) (sh : stripe) (s : stripe_head_state)
    : world * stripe * stripe_head_state * list reply :=
  if max_degraded conf <? cnt s failed then
    let sh := with_reconstruct reconstruct_state_idle (with_check check_state_idle sh) in
    let sh := with_devs (map (clear_bit R5_Overlap) (devs sh)) sh in
    let '(w, sh, s, out) :=
      if negb (cnt s to_read + cnt s to_write + cnt s s_written =? 0) then handle_failed_stripe w sh s
      else (w, sh, s, []) in
    if cond s syncing || cond s replacing then
      let '(w, sh, s, out') := handle_failed_sync w sh s in (w, sh, s, out ++ out')
    else (w, sh, s, out)
  else (w, sh, s, []).

(** * I/O on the members *)

(** The request that the flags of a device ask for: the operation (of the stripe, not of the
    replacement alone), and the device with the flags taken. *)
Definition take_request (d : r5dev) : option (io * bool * r5dev) :=
  if test_bit R5_Wantwrite d then
    Some (if test_bit R5_Discard d then DISCARD else WRITE, false, clear_bit R5_WantFUA (clear_bit R5_Wantwrite d))
  else if test_bit R5_Wantread d then Some (READ (test_bit R5_ReadRepl d), false, clear_bit R5_Wantread d)
  else if test_bit R5_WantReplace d then Some (WRITE, true, clear_bit R5_WantReplace d)
  else None.

Definition is_write (o : io) : bool := match o with READ _ => false | _ => true end.

(** A read goes to the replacement if there is one. *)
Definition where_to (o : io) (di : disk_info) : io :=
  match o with READ repl => READ (repl && bool_decide (is_Some (replacement di))) | _ => o end.

(** The member and the replacement that the operation goes to.  A write to an acknowledged bad
    block of a member that has seen write errors is skipped; where the bad block is not
    acknowledged the code waits until it is. *)
Definition targets (o : io) (replace_only : bool) (di : disk_info) : option md_rdev * option md_rdev :=
  let '(r, rr) :=
    match o with
    | READ repl => (member repl di, None)
    | _ => (if replace_only then None else rdev di, replacement di)
    end in
  let r := working r in
  let rr := working rr in
  let r := match r with
           | Some m => if is_write o && WriteErrorSeen m && is_bad (bad m) then None else r
           | None => None
           end in
  (r, rr).

(** The body of the loop: the device with its requests submitted, and whether I/O was started,
    a write was skipped and the stripe is to be handled again. *)
Definition run_io_dev (di : Z -> disk_info) (i : Z) (d : r5dev) (a : bool * bool * bool) : r5dev * (bool * bool * bool) :=
  match take_request d with
  | None => (d, a)
  | Some (o, replace_only, d) =>
    let '(started, skipped, again) := a in
    let d := clear_bit R5_SyncIO d in
    let o := where_to o (di i) in
    match targets o replace_only (di i) with
    | (None, None) => (clear_bit R5_LOCKED d, (started, skipped || is_write o, true))
    | (Some _, None) => (with_req (Some o) (rreq d) d, (true, skipped, again))
    | (Some _, Some _) => (with_req (Some o) (Some o) (set_bit R5_DOUBLE_LOCKED d), (true, skipped, again))
    | (None, Some _) => (with_req (req d) (Some o) d, (true, skipped, again))
    end
  end.

(** The request of a device is submitted again while it is in flight.  The code calls [bio_init] on it
    all the same. *)
Definition resubmits_dev (di : disk_info) (d : r5dev) : bool :=
  match take_request d with
  | None => false
  | Some (o, replace_only, _) =>
    let '(r, rr) := targets (where_to o di) replace_only di in
    (bool_decide (is_Some r) && bool_decide (is_Some (req d))) || (bool_decide (is_Some rr) && bool_decide (is_Some (rreq d)))
  end.

Definition resubmits (w : world) (sh : stripe) : bool :=
  existsb (fun x => resubmits_dev (disk w x.1) x.2) (devs_down sh).

Definition ops_run_io (w : world) (sh : stripe) : stripe :=
  let '(sh, (started, skipped, again)) := for_devs (run_io_dev (disk w)) sh (false, false, false) in
  let sh := if started then sset STRIPE_IO_STARTED sh else sh in
  let sh := if skipped then sset STRIPE_DEGRADED sh else sh in
  if again then sset STRIPE_HANDLE sh else sh.

(** * [handle_stripe] *)

(** From the start to [analyse_stripe]. *)
Definition start_sync (sh : stripe) : stripe :=
  let sh :=
    if stest STRIPE_SYNC_REQUESTED sh && negb (stest STRIPE_DISCARD sh)
    then sclear STRIPE_REPLACED (sclear STRIPE_INSYNC (sset STRIPE_SYNCING (sclear STRIPE_SYNC_REQUESTED sh)))
    else sh in
  sclear STRIPE_DELAYED sh.

Definition start_biofill (sh : stripe) (s : stripe_head_state) : stripe * stripe_head_state :=
  if negb (cnt s to_fill =? 0) && negb (stest STRIPE_BIOFILL_RUN sh)
  then (sset STRIPE_BIOFILL_RUN sh, request STRIPE_OP_BIOFILL s) else (sh, s).

(** A device with a result to be written; the [bool] is for [STRIPE_INSYNC]. *)
Definition write_dev (sh : stripe) (prexor : bool) (s : stripe_head_state) (i : Z) (d : r5dev) (insync : bool) : r5dev * bool :=
  if test_bit R5_LOCKED d && (is_parity sh i || nonempty (written d)) then
    (set_bit R5_Wantwrite d,
     insync || (negb prexor && (cnt s failed <=? 1) &&
                (negb (test_bit R5_Insync d) || (is_parity sh i && (cnt s failed =? 0)))))
  else (d, insync).

Definition parity_ready (d : r5dev) : bool := test_bit R5_UPTODATE d || test_bit R5_Discard d.

(** Write operations that have completed in memory. *)
Definition write_results (sh : stripe) (s : stripe_head_state) : option (stripe * stripe_head_state) :=
  let prexor := reconstruct_states_beq (reconstruct_state sh) reconstruct_state_prexor_drain_result in
  if prexor || reconstruct_states_beq (reconstruct_state sh) reconstruct_state_drain_result then
    let sh := with_reconstruct reconstruct_state_idle sh in
    BUG_ON (negb (parity_ready (dev sh (pd sh))));;
    BUG_ON ((0 <=? qd sh) && negb (parity_ready (dev sh (qd sh))));;
    let '(sh, insync) := for_devs (write_dev sh prexor s) sh false in
    let sh := if insync then sset STRIPE_INSYNC sh else sh in
    Some (sclear STRIPE_PREREAD_ACTIVE sh,
          if stest STRIPE_PREREAD_ACTIVE sh then with_cond dec_preread_active true s else s)
  else Some (sh, s).

Definition has_failed_num (s : stripe_head_state) (i : Z) : bool :=
  ((1 <=? cnt s failed) && (failed_num0 s =? i)) || ((2 <=? cnt s failed) && (failed_num1 s =? i)).

Definition set_parity_failed (sh : stripe) (s : stripe_head_state) : stripe_head_state :=
  with_cond q_failed (has_failed_num s (qd sh) || (level conf <? 6)) (with_cond p_failed (has_failed_num s (pd sh)) s).

Definition parity_safe (d : r5dev) : bool := test_bit R5_Insync d && negb (test_bit R5_LOCKED d) && parity_ready d.

Definition return_writes (sh : stripe) (s : stripe_head_state) : stripe * list reply :=
  if negb (cnt s s_written =? 0) &&
     (cond s p_failed || parity_safe (dev sh (pd sh))) && (cond s q_failed || parity_safe (dev sh (qd sh)))
  then handle_stripe_clean_event sh else (sh, []).

Definition fill_wanted (sh : stripe) (s : stripe_head_state) : bool :=
  negb (cnt s to_read =? 0) || negb (cnt s non_overwrite =? 0) ||
  (negb (cnt s to_write =? 0) && negb (cnt s failed =? 0)) ||
  (cond s syncing && (cnt s uptodate + cnt s compute <? Z.of_nat (disks sh))) || cond s replacing.

Definition check_wanted (sh : stripe) (s : stripe_head_state) : bool :=
  negb (check_states_beq (check_state sh) check_state_idle) ||
  (cond s syncing && (cnt s locked =? 0) && negb (stest STRIPE_COMPUTE_RUN sh) && negb (stest STRIPE_INSYNC sh)).

Definition replace_dev (i : Z) (d : r5dev) (s : stripe_head_state) : r5dev * stripe_head_state :=
  if test_bit R5_NeedReplace d then (set_bit R5_LOCKED (set_bit R5_WantReplace d), add locked 1 s) else (d, s).

Definition write_replacements (sh : stripe) (s : stripe_head_state) : stripe * stripe_head_state :=
  if (cond s replacing || cond s syncing) && (cnt s locked =? 0) && negb (stest STRIPE_COMPUTE_RUN sh) &&
     negb (stest STRIPE_REPLACED sh) then
    let '(sh, s) := for_devs replace_dev sh s in
    (sset STRIPE_REPLACED (if cond s replacing then sset STRIPE_INSYNC sh else sh), s)
  else (sh, s).

Definition finish_sync (sh : stripe) (s : stripe_head_state) : stripe * list reply :=
  if (cond s syncing || cond s replacing) && (cnt s locked =? 0) && negb (stest STRIPE_COMPUTE_RUN sh) &&
     stest STRIPE_INSYNC sh
  then (upd (pd sh) (clear_bit R5_Overlap) (sclear STRIPE_SYNCING sh), [Sync_done true]) else (sh, []).

(** The device with a read error whose block is known: write it back, then read it again. *)
Definition repair_dev (d : r5dev) : r5dev * bool :=
  if test_bit R5_ReadError d && negb (test_bit R5_LOCKED d) && test_bit R5_UPTODATE d then
    (set_bit R5_LOCKED (if test_bit R5_ReWrite d then set_bit R5_Wantread d else set_bit R5_ReWrite (set_bit R5_Wantwrite d)), true)
  else (d, false).

Definition repair_read_error (i : Z) (sh : stripe) (s : stripe_head_state) : stripe * stripe_head_state :=
  (upd i (fun d => (repair_dev d).1) sh, add_if (repair_dev (dev sh i)).2 locked s).

Definition repair_read_errors (w : world) (sh : stripe) (s : stripe_head_state) : stripe * stripe_head_state :=
  if (cnt s failed <=? max_degraded conf) && negb (ro (w_md w)) then
    fold_left (fun '(sh, s) k => repair_read_error (failed_num s k) sh s) (seq 0 (Z.to_nat (cnt s failed))) (sh, s)
  else (sh, s).

(** Between the early exits to [finish] and [finish]. *)
Definition decide_stripe (w : world) (sh : stripe) (s : stripe_head_state)
    : option (world * stripe * stripe_head_state * list reply) :=
  let '(sh, s) := start_biofill sh s in
  let '(w, sh, s, out) := handle_failed w sh s in
  '(sh, s) ← write_results sh s;
  let s := set_parity_failed sh s in
  let '(sh, out') := return_writes sh s in
  '(sh, s) ← if fill_wanted sh s then handle_stripe_fill w sh s else Some (sh, s);
  '(sh, s) ← if is_idle sh && negb (cnt s to_write =? 0) then handle_stripe_dirtying w sh s else Some (sh, s);
  '(sh, s) ← if check_wanted sh s
             then if level conf =? 6 then handle_parity_checks6 w sh s else handle_parity_checks5 w sh s
             else Some (sh, s);
  let '(sh, s) := write_replacements sh s in
  let '(sh, out'') := finish_sync sh s in
  let '(sh, s) := repair_read_errors w sh s in
  Some (w, sh, s, out ++ out' ++ out'').

(** [if (s.handle_bad_blocks)] for the device [i]. *)
Definition record_bad_blocks (a : world * stripe) (i : Z) : world * stripe :=
  let '(w, sh) := a in
  let d := dev sh i in
  let w := if test_bit R5_WriteError d then set_badblocks_or_error conf i false w else w in
  let w := if test_bit R5_MadeGood d then rdev_clear_badblocks i false w else w in
  let w := if test_bit R5_MadeGoodRepl d
           then rdev_clear_badblocks i (bool_decide (is_Some (replacement (disk w i)))) w else w in
  (w, upd i (fun d => clear_bit R5_MadeGoodRepl (clear_bit R5_MadeGood (clear_bit R5_WriteError d))) sh).

(** From [finish]; [None] is also a request that is submitted while it is in flight. *)
Definition finish_stripe (w : world) (sh : stripe) (s : stripe_head_state) (out : list reply)
    : option (world * list reply) :=
  let '(w, sh) := if cond s handle_bad_blocks then fold_left record_bad_blocks (indices_down sh) (w, sh) else (w, sh) in
  '(sh, out') ← raid_run_ops conf tx (ops_request s) sh;
  if resubmits w sh then None
  else Some (with_sh (sclear STRIPE_ACTIVE (ops_run_io w sh)) w, out ++ out').

(** The stripe waits for the superblock or a member. *)
Definition must_wait (w : world) (s : stripe_head_state) : bool :=
  cond s handle_bad_blocks || MD_SB_CHANGE_PENDING (w_md w) ||
  (cond s blocked_rdev && (cond s syncing || cond s replacing || negb (cnt s to_write =? 0) || negb (cnt s s_written =? 0))).

Definition handle_stripe (w : world) : option (world * list reply) :=
  let sh := sclear STRIPE_BATCH_READY (sclear STRIPE_HANDLE (w_sh w)) in
  if stest STRIPE_ACTIVE sh then Some (with_sh (sset STRIPE_HANDLE sh) w, [])
  else
    let sh := start_sync (sset STRIPE_ACTIVE sh) in
    '(sh, s) ← analyse_stripe (with_sh sh w);
    if must_wait w s then finish_stripe w (sset STRIPE_HANDLE sh) s []
    else
      '(w, sh, s, out) ← decide_stripe w sh s;
      finish_stripe w sh s out.
End Handle.
