(* ===== verification/Raid5Machine.v ===== *)
(** A stripe of md/raid5.c over time: requests are added to it ([add_stripe_bio]), it is handled
    ([handle_stripe] of Raid5Handle), the I/O it submitted completes ([raid5_end_read_request],
    [raid5_end_write_request]), members fail and the rest of the array changes around it.  The
    events follow one another in any order; each is atomic. *)

From S2P Require Import Prelude PageMem Raid5Layout Raid5Stripe Raid5Dev Raid5Ops Raid5Handle.

(** * A stripe for a sector *)

Definition stripe_operations_active (sh : stripe) : bool :=
  negb (check_states_beq (check_state sh) check_state_idle) ||
  negb (reconstruct_states_beq (reconstruct_state sh) reconstruct_state_idle) ||
  stest STRIPE_BIOFILL_RUN sh || stest STRIPE_COMPUTE_RUN sh.

Definition init_dev (s : Z) (d : r5dev) : r5dev :=
  {| flags := fun _ => false; orig_page := orig_page d; bio_page := bio_page d; toread := toread d; read := read d;
     towrite := towrite d; written := written d; dev_sector := s; req := req d; rreq := rreq d |}.

(** The devices of the stripe; they are independent of each other. *)
Fixpoint init_devs (lc : Raid5Layout.r5conf) (g : Raid5Layout.stripe_head) (previous : bool) (i : Z) (ds : list r5dev) : option (list r5dev) :=
  match ds with
  | [] => Some []
  | d :: ds =>
    s ← raid5_compute_blocknr lc g i previous;
    ds ← init_devs lc g previous (i + 1) ds;
    Some (init_dev s d :: ds)
  end.

(** An unused stripe of the cache is taken for the stripe at [sect]; [None] is [BUG()]. *)
Definition init_stripe (lc : Raid5Layout.r5conf) (sh : stripe) (sect : Z) (previous : bool) : option stripe :=
  if stest STRIPE_HANDLE sh || stripe_operations_active sh then None
  else
    let n := if previous then previous_raid_disks lc else raid_disks lc in
    idx ← stripe_set_idx lc sect previous;
    let g := {| sh_sector := sect; sh_disks := n; sh_idx := idx |} in
    ds ← init_devs lc g previous 0 (take (Z.to_nat n) (devs sh));
    Some (sset STRIPE_BATCH_READY
      {| geo := g; devs := ds; state := fun _ => false; check_state := check_state sh;
         reconstruct_state := reconstruct_state sh; ops_target := ops_target sh; ops_target2 := ops_target2 sh;
         zero_sum_result := zero_sum_result sh; overwrite_disks := 0 |}).

(** * Adding requests *)

(** The overlap of the request [bi] with the chain. *)
Fixpoint chain_overlaps (bi : bio) (bs : list bio) : bool :=
  match bs with
  | [] => false
  | b :: bs =>
    if bi_sector b <? bi_sector bi then (bi_sector bi <? bio_end_sector b) || chain_overlaps bi bs
    else bi_sector b <? bio_end_sector bi
  end.

(** The chain with [bi] at its place. *)
Fixpoint chain_insert (bi : bio) (bs : list bio) : list bio :=
  match bs with
  | [] => [bi]
  | b :: bs => if bi_sector b <? bi_sector bi then b :: chain_insert bi bs else bi :: b :: bs
  end.

(** The request that follows [bi] in the chain, [*bip] of the code. *)
Fixpoint chain_next (bi : bio) (bs : list bio) : option bio :=
  match bs with
  | [] => None
  | b :: bs => if bi_sector b <? bi_sector bi then chain_next bi bs else Some b
  end.

(** The request is in another chain in front of another request than here. *)
Definition chain_clash (bi : bio) (bs : list bio) : bool :=
  match chain_next bi bs, bi_next bi with
  | Some b, Some id => negb (bi_id b =? id)%nat
  | _, _ => false
  end.

Section Machine.
Context (conf : r5conf) (tx : async_tx).

Let SECTORS := RAID5_STRIPE_SECTORS conf.

(** How far the chain covers the page from [sector] on. *)
Fixpoint covered_to (dsector sector : Z) (bs : list bio) : Z :=
  match bs with
  | [] => sector
  | b :: bs =>
    if (sector <? dsector + SECTORS) && (bi_sector b <=? sector) then
      let sector := if sector <=? bio_end_sector b then bio_end_sector b else sector in
      if bio_end_sector b <? dsector + SECTORS then covered_to dsector sector bs else sector
    else sector
  end.

Definition is_covered (d : r5dev) : bool :=
  dev_sector d + SECTORS <=? covered_to (dev_sector d) (dev_sector d) (towrite d).

Definition stripe_bio_overlaps (sh : stripe) (bi : bio) (dd_idx : Z) (forwrite : bool) : bool :=
  let d := dev sh dd_idx in chain_overlaps bi (if forwrite then towrite d else toread d).

Definition __add_stripe_bio (sh : stripe) (bi : bio) (dd_idx : Z) (forwrite previous : bool) : option stripe :=
  let d := dev sh dd_idx in
  let sh := if negb forwrite || previous then sclear STRIPE_BATCH_READY sh else sh in
  BUG_ON (chain_clash bi (if forwrite then towrite d else toread d));;
  if forwrite then
    let firstwrite := negb (nonempty (towrite d)) in
    let sh := upd dd_idx (fun d => with_writes (chain_insert bi (towrite d)) (written d) d) sh in
    let sh :=
      if is_covered (dev sh dd_idx) && negb (test_bit R5_OVERWRITE (dev sh dd_idx))
      then with_overwrite (overwrite_disks sh + 1) (upd dd_idx (set_bit R5_OVERWRITE) sh) else sh in
    Some (if has_bitmap conf && firstwrite then sset STRIPE_BIT_DELAY sh else sh)
  else Some (upd dd_idx (fun d => with_reads (chain_insert bi (toread d)) (read d) d) sh).

(** Whether the request was added; [None] is [BUG()]. *)
Definition add_stripe_bio (sh : stripe) (bi : bio) (dd_idx : Z) (forwrite previous : bool) : option (stripe * bool) :=
  if stripe_bio_overlaps sh bi dd_idx forwrite then Some (upd dd_idx (set_bit R5_Overlap) sh, false)
  else sh ← __add_stripe_bio sh bi dd_idx forwrite previous; Some (sh, true).

(** * Completion of I/O *)

Inductive bi_status := BLK_STS_OK | BLK_STS_PROTECTION | BLK_STS_IOERR.

Definition with_stored (p : block) (r : md_rdev) : md_rdev :=
  {| Faulty := Faulty r; In_sync := In_sync r; WriteErrorSeen := WriteErrorSeen r; WantReplacement := WantReplacement r;
     Blocked := Blocked r; bad := bad r; bb_room := bb_room r; recovery_offset := recovery_offset r;
     read_errors := read_errors r; stored := p |}.

Definition with_read_errors (n : Z) (r : md_rdev) : md_rdev :=
  {| Faulty := Faulty r; In_sync := In_sync r; WriteErrorSeen := WriteErrorSeen r; WantReplacement := WantReplacement r;
     Blocked := Blocked r; bad := bad r; bb_room := bb_room r; recovery_offset := recovery_offset r;
     read_errors := n; stored := stored r |}.

Definition write_error_seen (r : md_rdev) : md_rdev :=
  {| Faulty := Faulty r; In_sync := In_sync r; WriteErrorSeen := true; WantReplacement := true;
     Blocked := Blocked r; bad := bad r; bb_room := bb_room r; recovery_offset := recovery_offset r;
     read_errors := read_errors r; stored := stored r |}.

(** The flags of a device that was read. *)
Definition read_succeeded (d : r5dev) : r5dev :=
  let d := set_bit R5_UPTODATE d in
  if test_bit R5_ReadError d then clear_bit R5_ReWrite (clear_bit R5_ReadError d)
  else if test_bit R5_ReadNoMerge d then clear_bit R5_ReadNoMerge d else d.

(** The flags of a device whose read is tried again. *)
Definition read_retried (sh : stripe) (i : Z) (d : r5dev) : r5dev :=
  if (0 <=? qd sh) && (pd sh =? i) then set_bit R5_ReadError d
  else if test_bit R5_ReadNoMerge d then clear_bit R5_ReadNoMerge (set_bit R5_ReadError d)
  else set_bit R5_ReadNoMerge d.

(** An error of the read of the device [i] from the member [repl]. *)
Definition read_failed (i : Z) (repl : bool) (status : bi_status) (w : world) : world :=
  let sh := upd i (clear_bit R5_UPTODATE) (w_sh w) in
  let d := dev sh i in
  let w := match status with
           | BLK_STS_PROTECTION => with_sh sh w
           | _ => upd_member i repl (fun r => with_read_errors (read_errors r + 1) r) (with_sh sh w)
           end in
  match member repl (disk w i) with
  | None => w
  | Some r =>
    let '(retry, set_bad) :=
      if test_bit R5_ReadRepl d then (false, false)
      else if max_degraded conf <=? degraded (w_md w) then (false, true)
      else if test_bit R5_ReWrite d then (false, true)
      else if max_nr_stripes conf <? read_errors r then (false, false)
      else (true, false) in
    let retry := retry || (set_bad && In_sync r && negb (test_bit R5_ReadNoMerge d)) in
    if retry then with_sh (upd i (read_retried sh i) sh) w
    else
      let w := with_sh (upd i (fun d => clear_bit R5_ReWrite (clear_bit R5_ReadError d)) sh) w in
      if set_bad && In_sync r then set_badblocks_or_error conf i repl w else md_error conf i repl w
  end.

(** The read of the device [i] has delivered [data]. *)
Definition raid5_end_read_request (i : Z) (status : bi_status) (data : block) (w : world) : world :=
  let sh := upd i (set_page data) (w_sh w) in
  let repl := test_bit R5_ReadRepl (dev sh i) && bool_decide (is_Some (replacement (disk w i))) in
  let w :=
    match status with
    | BLK_STS_OK => upd_member i repl (with_read_errors 0) (with_sh (upd i read_succeeded sh) w)
    | _ => read_failed i repl status (with_sh sh w)
    end in
  let sh := upd i (fun d => with_req None (rreq d) (clear_bit R5_LOCKED d)) (w_sh w) in
  with_sh (sset STRIPE_HANDLE sh) w.

(** The flags of a device that was written. *)
Definition unlock_written (repl : bool) (d : r5dev) : r5dev :=
  let d := if test_bit R5_DOUBLE_LOCKED d then clear_bit R5_DOUBLE_LOCKED d else clear_bit R5_LOCKED d in
  if repl then with_req (req d) None d else with_req None (rreq d) d.

(** The write request [req] of the device [i], or its [rreq] to the replacement, is done. *)
Definition raid5_end_write_request (i : Z) (rreq : bool) (status : bi_status) (w : world) : world :=
  let repl := rreq && bool_decide (is_Some (replacement (disk w i))) in
  let bad_here := match member repl (disk w i) with Some r => is_bad (bad r) | None => false end in
  let ok := match status with BLK_STS_OK => true | _ => false end in
  let w :=
    if repl then
      if ok then
        if bad_here then with_sh (upd i (set_bit R5_MadeGoodRepl) (w_sh w)) w else w
      else md_error conf i true w
    else
      if ok then
        if bad_here then
          with_sh (upd i (fun d => let d := set_bit R5_MadeGood d in
                                   if test_bit R5_ReadError d then set_bit R5_ReWrite d else d) (w_sh w)) w
        else w
      else
        upd_member i false write_error_seen (with_sh (upd i (set_bit R5_WriteError) (sset STRIPE_DEGRADED (w_sh w))) w) in
  with_sh (sset STRIPE_HANDLE (upd i (unlock_written rreq) (w_sh w))) w.

(** * Events *)

(** What happens to a stripe.  The blocks in [End_read] and [End_write] are what a read or a write
    that fails leaves in the page and on the member. *)
Inductive event :=
  | Add (i : Z) (b : bio) (forwrite : bool)
  | Handle
  | End_read (i : Z) (status : bi_status) (junk : block)
  | End_write (i : Z) (status : bi_status) (torn : block)
  | Fail (i : Z)
  | Remove (i : Z)
  | Spare (i : Z) (r : md_rdev)
  | Recovered (i : Z)
  | Update_sb
  | Array (md : mddev)
  | Stripe_bit (f : stripe_flag) (v : bool).

(** [m_synced] records that the stripe was synchronised since the last spare was added. *)
Record machine := { m_world : world; m_synced : bool }.

Definition set_rdev (i : Z) (r : option md_rdev) (w : world) : world :=
  with_disks (alter (fun di => {| rdev := r; replacement := replacement di |}) (Z.to_nat i) (w_disks w)) w.

Definition stored_at (i : Z) (w : world) : block := match rdev (disk w i) with Some r => stored r | None => [] end.

(** A member behind the recovery of the whole device. *)
Definition recovered_rdev (r : md_rdev) : md_rdev :=
  {| Faulty := Faulty r; In_sync := negb (Faulty r); WriteErrorSeen := WriteErrorSeen r; WantReplacement := WantReplacement r;
     Blocked := Blocked r; bad := bad r; bb_room := bb_room r; recovery_offset := MaxSector;
     read_errors := read_errors r; stored := stored r |}.

(** The superblock was written: failures and bad blocks are acknowledged. *)
Definition acknowledged (r : md_rdev) : md_rdev :=
  {| Faulty := Faulty r; In_sync := In_sync r; WriteErrorSeen := WriteErrorSeen r; WantReplacement := WantReplacement r;
     Blocked := false; bad := (if is_bad (bad r) then Acked else Good); bb_room := bb_room r;
     recovery_offset := recovery_offset r; read_errors := read_errors r; stored := stored r |}.

Definition sb_written (md : mddev) : mddev :=
  {| recovery_cp := recovery_cp md; MD_SB_CHANGE_PENDING := false; MD_RECOVERY_REQUESTED := MD_RECOVERY_REQUESTED md;
     MD_RECOVERY_CHECK := MD_RECOVERY_CHECK md; MD_RECOVERY_RECOVER := MD_RECOVERY_RECOVER md;
     MD_RECOVERY_INTR := MD_RECOVERY_INTR md; MD_BROKEN := MD_BROKEN md; ro := ro md; degraded := degraded md |}.

Definition update_sb (w : world) : world :=
  with_md (sb_written (w_md w))
    (with_disks (map (fun di => {| rdev := acknowledged <$> rdev di; replacement := acknowledged <$> replacement di |}) (w_disks w)) w).

Definition synced_by (out : list reply) : bool :=
  existsb (fun r => match r with Sync_done ok => ok | _ => false end) out.

(** The next state and what is replied; [None] is [BUG()]. *)
Definition step (e : event) (m : machine) : option (machine * list reply) :=
  let w := m_world m in
  let keep := fun w => Some ({| m_world := w; m_synced := m_synced m |}, []) in
  match e with
  | Add i b forwrite => '(sh, _) ← add_stripe_bio (w_sh w) b i forwrite false; keep (with_sh sh w)
  | Handle =>
    '(w, out) ← handle_stripe conf tx w;
    Some ({| m_world := w; m_synced := m_synced m || synced_by out |}, out)
  | End_read i status junk =>
    keep (raid5_end_read_request i status (match status with BLK_STS_OK => stored_at i w | _ => junk end) w)
  | End_write i status torn =>
    let p := match status with BLK_STS_OK => page (dev (w_sh w) i) | _ => torn end in
    keep (raid5_end_write_request i false status (upd_member i false (with_stored p) w))
  | Fail i => keep (md_error conf i false w)
  | Remove i => keep (set_rdev i None w)
  | Spare i r => Some ({| m_world := set_rdev i (Some r) w; m_synced := false |}, [])
  | Recovered i => keep (upd_member i false recovered_rdev w)
  | Update_sb => keep (update_sb w)
  | Array md => keep (with_md md w)
  | Stripe_bit f v => keep (with_sh ((if v then sset else sclear) f (w_sh w)) w)
  end.

(** The flags that are changed outside of the functions of this model. *)
Definition outside (f : stripe_flag) : bool :=
  match f with
  | STRIPE_HANDLE | STRIPE_SYNC_REQUESTED | STRIPE_PREREAD_ACTIVE | STRIPE_DELAYED | STRIPE_BIT_DELAY
  | STRIPE_DEGRADED | STRIPE_IO_STARTED | STRIPE_BATCH_READY => true
  | _ => false
  end.

(** The number of devices whose blocks cannot be read. *)
Definition lost (w : world) : Z :=
  match analyse_stripe conf w with Some (_, s) => cnt s failed | None => 0 end.

Definition byte_block (p : block) : bool := (length p =? size conf)%nat && forallb (fun x => (0 <=? x) && (x <? 256)) p.

(** A request to the device [i]: it touches the block and has as many bytes as its sectors hold.  It
    follows nothing in another chain unless it goes on behind this block. *)
Definition valid_bio (sh : stripe) (i : Z) (b : bio) : bool :=
  let bytes := mjoin (map bv_bytes (bi_vecs b)) in
  negb (bi_discard b) && (0 <? bi_sectors b) && (Z.of_nat (length bytes) =? 512 * bi_sectors b) &&
  forallb (fun x => (0 <=? x) && (x <? 256)) bytes &&
  (bi_sector b <? dev_sector (dev sh i) + SECTORS) && (dev_sector (dev sh i) <? bio_end_sector b) &&
  (match bi_next b with Some _ => dev_sector (dev sh i) + SECTORS <? bio_end_sector b | None => true end).

Definition in_range (sh : stripe) (i : Z) : bool := (0 <=? i) && (i <? Z.of_nat (disks sh)).

Definition is_read (o : option io) : bool := match o with Some (READ _) => true | _ => false end.
Definition is_wr (o : option io) : bool := match o with Some WRITE => true | _ => false end.

(** The events that may happen: requests are valid, completions are those of submitted requests, a
    member is removed when it is faulty and idle, a spare is new and not added to a stripe that is
    being synchronised, and it is in sync when the stripe was. *)
Definition enabled (e : event) (m : machine) : bool :=
  let w := m_world m in
  let sh := w_sh w in
  match e with
  | Add i b _ => in_range sh i && negb (is_parity sh i) && valid_bio sh i b
  | Handle => true
  | End_read i _ junk => in_range sh i && is_read (req (dev sh i)) && byte_block junk
  | End_write i _ torn => in_range sh i && is_wr (req (dev sh i)) && byte_block torn
  | Fail i => in_range sh i
  | Remove i =>
    in_range sh i && (match rdev (disk w i) with Some r => Faulty r | None => false end) &&
    (match req (dev sh i) with None => true | _ => false end)
  | Spare i r =>
    in_range sh i && (match rdev (disk w i) with None => true | _ => false end) && negb (stest STRIPE_SYNCING sh) &&
    negb (Faulty r) && negb (In_sync r) && (recovery_offset r <? sector sh + SECTORS) && byte_block (stored r)
  | Recovered i => in_range sh i && m_synced m
  | Update_sb | Array _ => true
  | Stripe_bit f _ => outside f
  end.

(** The stripe relies on what is in its page of the device [i]: the page is given out, takes the rest
    of a write that was thought to cover it, is being written or checked. *)
Definition relied_on (sh : stripe) (i : Z) : bool :=
  let d := dev sh i in
  test_bit R5_Wantfill d || (test_bit R5_OVERWRITE d && negb (is_covered d)) || existsb (fun d => nonempty (written d)) (devs sh) ||
  negb (check_states_beq (check_state sh) check_state_idle).

(** The faults that the stripe tolerates: no more blocks are lost than the level allows when it is
    handled.  Left out are two orders of events that the code does not cope with, a RAID-6 stripe that
    is handled with a repair decided while requests are in flight and the failing read of a block that
    is up to date and relied on, and a spare that takes the place of P during a check or of a block
    whose rewrite has not been checked. *)
Definition tolerable (e : event) (m : machine) : bool :=
  let w := m_world m in
  let sh := w_sh w in
  match e with
  | Handle =>
    (lost w <=? max_degraded conf) &&
    negb (check_states_beq (check_state sh) check_state_compute_result && any_flag R5_LOCKED sh)
  | End_read i status _ =>
    match status with BLK_STS_OK => true | _ => negb (test_bit R5_UPTODATE (dev sh i) && relied_on sh i) end
  | Spare i _ =>
    (check_states_beq (check_state sh) check_state_idle || negb (i =? pd sh)) && negb (test_bit R5_ReWrite (dev sh i))
  | _ => true
  end.

Fixpoint tolerable_run (es : list event) (m : machine) : bool :=
  match es with
  | [] => true
  | e :: es => tolerable e m && match step e m with Some (m, _) => tolerable_run es m | None => true end
  end.

(** A run: [Stuck] at an event that may not happen, [Bug] at one that ends in [BUG()]. *)
Inductive outcome := Stuck | Bug | Done (m : machine) (out : list reply).

Fixpoint run (es : list event) (m : machine) : outcome :=
  match es with
  | [] => Done m []
  | e :: es =>
    if enabled e m then
      match step e m with
      | None => Bug
      | Some (m, out) => match run es m with Done m' out' => Done m' (out ++ out') | r => r end
      end
    else Stuck
  end.
End Machine.
