(* ===== verification/Raid5Data.v ===== *)
(** The blocks of a stripe as data: what the functions of async_tx promise, and which vectors of
    blocks encode the data of a stripe, for one and for two parity blocks. *)

From S2P Require Import Prelude GF256 PageMem Syndrome Raid6Theorems Raid5Layout Raid5Stripe Raid5Dev Raid5Ops.

(** * Blocks *)

Definition wf_block (sz : nat) (p : block) : Prop := length p = sz /\ byte_page p.

(** The block whose bytes are [f 0 .. f (sz - 1)]. *)
Definition build (sz : nat) (f : nat -> Z) : block := map f (seq 0 sz).

(** The bytes at offset [b] of a list of blocks, 0 for a missing one. *)
Definition col (ps : list block) (b : nat) : list Z := map (fun p => pget p b) ps.
Definition opget (p : option block) (b : nat) : Z := match p with Some p => pget p b | None => 0 end.
Definition ocol (ps : list (option block)) (b : nat) : list Z := map (fun p => opget p b) ps.

Definition wf_oblock (sz : nat) (p : option block) : Prop := match p with Some p => wf_block sz p | None => True end.

Lemma wf_build sz f : (forall b, is_u8 (f b)) -> wf_block sz (build sz f).
Proof. intros Hf. split; [by unfold build; rewrite length_map, length_seq|by apply Forall_map_u8]. Qed.

Lemma pget_build sz f b : (b < sz)%nat -> pget (build sz f) b = f b.
Proof. apply pget_map_seq. Qed.

Lemma block_eq sz p q :
  wf_block sz p -> wf_block sz q -> (forall b, (b < sz)%nat -> pget p b = pget q b) -> p = q.
Proof. intros [Hp _] [Hq _] H. apply pget_eq; [congruence|]. intros b Hb. apply H. lia. Qed.

Lemma build_eq sz p f : wf_block sz p -> (forall b, (b < sz)%nat -> pget p b = f b) -> build sz f = p.
Proof.
  intros [Hp _] H. apply pget_eq; unfold build; rewrite length_map, length_seq; [done|].
  intros b Hb. rewrite pget_map_seq by done. symmetry. by apply H.
Qed.

Lemma col_u8 sz ps b : Forall (wf_block sz) ps -> Forall is_u8 (col ps b).
Proof. intros H. apply Forall_map. revert H. apply Forall_impl. intros p [_ Hp]. by apply pget_u8. Qed.

Lemma ocol_u8 sz ps b : Forall (wf_oblock sz) ps -> Forall is_u8 (ocol ps b).
Proof.
  intros H. apply Forall_map. revert H. apply Forall_impl. intros [p|] Hp; [|apply is_u8_0].
  destruct Hp. by apply pget_u8.
Qed.

Lemma page_set_page p d : page (set_page p d) = p.
Proof. by destruct d as [? ? [] ]. Qed.

(** * The contract of async_tx *)

(** What md/raid5.c relies on: the functions do to blocks of [sz] bytes what their names say, a
    missing source counts as zeros and a missing parity is not computed.  The recovery functions
    restore the blocks of two slots of a stripe with correct parity, whatever these held.  There are
    at most 255 slots, with P and Q. *)
Class AsyncTx (sz : nat) (tx : async_tx) : Prop := {
  memcpy_ok dest src doff soff len :
    (doff + len <= length dest)%nat -> (soff + len <= length src)%nat ->
    async_memcpy tx dest src doff soff len = splice dest doff (take len (drop soff src));
  xor_ok srcs :
    Forall (wf_block sz) srcs -> (2 <= length srcs)%nat ->
    async_xor_offs tx sz srcs = build sz (fun b => p_syn (col srcs b));
  xor_val_ok srcs :
    Forall (wf_block sz) srcs -> (2 <= length srcs)%nat ->
    async_xor_val_offs tx sz srcs =
      (build sz (fun b => p_syn (col srcs b)), existsb (fun b => negb (p_syn (col srcs b) =? 0)) (seq 0 sz));
  gen_ok ds p q :
    Forall (wf_oblock sz) (ds ++ [p; q]) -> (2 <= length ds <= 253)%nat ->
    async_gen_syndrome tx false sz (ds ++ [p; q]) =
      ds ++ [(fun _ => build sz (fun b => p_syn (ocol ds b))) <$> p; (fun _ => build sz (fun b => q_syn (ocol ds b))) <$> q];
  gen_xor_ok ds p q :
    Forall (wf_oblock sz) (ds ++ [Some p; Some q]) -> (2 <= length ds <= 253)%nat ->
    async_gen_syndrome tx true sz (ds ++ [Some p; Some q]) =
      ds ++ [Some (build sz (fun b => pget p b ⊕ p_syn (ocol ds b))); Some (build sz (fun b => pget q b ⊕ q_syn (ocol ds b)))];
  syndrome_val_ok ds p q :
    Forall (wf_oblock sz) (ds ++ [p; q]) -> (2 <= length ds <= 253)%nat ->
    async_syndrome_val tx sz (ds ++ [p; q]) =
      (match p with Some p => existsb (fun b => negb (pget p b =? p_syn (ocol ds b))) (seq 0 sz) | None => false end,
       match q with Some q => existsb (fun b => negb (pget q b =? q_syn (ocol ds b))) (seq 0 sz) | None => false end);
  recov_2data_ok ds p q i j di dj gi gj :
    Forall (wf_oblock sz) (ds ++ [Some p; Some q]) -> (2 <= length ds <= 253)%nat ->
    (forall b, (b < sz)%nat -> pget p b = p_syn (ocol ds b) /\ pget q b = q_syn (ocol ds b)) ->
    (i < j)%nat -> ds !! i = Some (Some di) -> ds !! j = Some (Some dj) -> wf_block sz gi -> wf_block sz gj ->
    async_raid6_2data_recov tx sz i j (<[i := Some gi]> (<[j := Some gj]> ds) ++ [Some p; Some q]) = ds ++ [Some p; Some q];
  recov_datap_ok ds p q i di gi gp :
    Forall (wf_oblock sz) (ds ++ [Some p; Some q]) -> (2 <= length ds <= 253)%nat ->
    (forall b, (b < sz)%nat -> pget p b = p_syn (ocol ds b) /\ pget q b = q_syn (ocol ds b)) ->
    ds !! i = Some (Some di) -> wf_block sz gi -> wf_block sz gp ->
    async_raid6_datap_recov tx sz i (<[i := Some gi]> ds ++ [Some gp; Some q]) = ds ++ [Some p; Some q];
}.

(** * Sums of exclusive ors *)

Lemma p_syn_perm l1 l2 : l1 ≡ₚ l2 -> p_syn l1 = p_syn l2.
Proof.
  induction 1 as [|x l1 l2 _ IH|x y l|l1 l2 l3 _ IH1 _ IH2]; cbn; [done| | |congruence].
  - unfold p_syn in IH. by rewrite IH.
  - rewrite <- !Z.lxor_assoc, (Z.lxor_comm x). done.
Qed.

(** The sum over a list is that over the elements that satisfy [k] and that over the others. *)
Lemma p_syn_filter {A} (f : A -> Z) (k : A -> bool) l :
  p_syn (map f l) = p_syn (map f (List.filter k l)) ⊕ p_syn (map f (List.filter (fun x => negb (k x)) l)).
Proof.
  induction l as [|x l IH]; [done|]. cbn. fold (p_syn (map f l)). rewrite IH.
  destruct (k x); cbn; fold (p_syn (map f (List.filter k l))); fold (p_syn (map f (List.filter (fun x => negb (k x)) l))); lxor_solve.
Qed.

Lemma p_syn_map_ext {A} (f g : A -> Z) l : (forall x, x ∈ l -> f x = g x) -> p_syn (map f l) = p_syn (map g l).
Proof. intros H. f_equal. apply map_ext_in. intros x Hx. apply H. by apply list_elem_of_In. Qed.

(** The only element that satisfies [k]. *)
Lemma filter_single (k : Z -> bool) t l : NoDup l -> t ∈ l -> (forall i, i ∈ l -> k i = (i =? t)) -> List.filter k l = [t].
Proof.
  induction 1 as [|x l Hx Hl IH]; [set_solver|]. intros Ht Hk. cbn. rewrite Hk by set_solver.
  destruct (Z.eqb_spec x t) as [->|Hne].
  - f_equal. clear IH Hl Ht. induction l as [|y l IH]; [done|]. cbn. rewrite Hk by set_solver.
    rewrite (proj2 (Z.eqb_neq y t)) by set_solver. apply IH; set_solver.
  - apply IH; set_solver.
Qed.

(** * The slots of a RAID-6 stripe *)

(** The walk over the disks gives every disk one slot: a data slot below [syndrome_disks], or one
    of the two behind them. *)
Record slots_ok (g : stripe_head) : Prop := {
  so_devs : (syndrome_slots g).*1 ≡ₚ seqZ 0 (sh_disks g);
  so_slots : NoDup (syndrome_slots g).*2;
  so_pd : (pd_idx (sh_idx g), syndrome_disks g) ∈ syndrome_slots g;
  so_qd : (qd_idx (sh_idx g), syndrome_disks g + 1) ∈ syndrome_slots g;
  so_data i s : (i, s) ∈ syndrome_slots g -> i <> pd_idx (sh_idx g) -> i <> qd_idx (sh_idx g) -> 0 <= s < syndrome_disks g;
  so_count : 2 <= syndrome_disks g;
}.

(** A list of pairs as a function. *)
Lemma pairs_fun {A B} (l : list (A * B)) a b1 b2 : NoDup l.*1 -> (a, b1) ∈ l -> (a, b2) ∈ l -> b1 = b2.
Proof.
  intros Hnd [i Hi]%list_elem_of_lookup [j Hj]%list_elem_of_lookup.
  assert (i = j) as ->; [|congruence].
  apply (NoDup_lookup l.*1 i j a); [done|by rewrite list_lookup_fmap, Hi|by rewrite list_lookup_fmap, Hj].
Qed.

Lemma slots_ok_native g :
  4 <= sh_disks g -> is_valid_idx 6 (sh_disks g) (sh_idx g) -> ddf_layout (sh_idx g) = false -> slots_ok g.
Proof.
  intros Hn Hv Hd. destruct (native_slots g Hn Hv Hd) as (H1 & H2 & Hp & Hq).
  assert (syndrome_disks g = sh_disks g - 2) as Hc by (unfold syndrome_disks; by rewrite Hd).
  assert (NoDup (syndrome_slots g).*2) as Hnd2 by (rewrite H2; apply NoDup_seqZ).
  assert (NoDup (prod_swap <$> syndrome_slots g).*1) as Hnds.
  { rewrite <- list_fmap_compose. rewrite (list_fmap_ext _ snd); [done|by intros ? []]. }
  split; [done..|by rewrite Hc| | |lia].
  - rewrite Hc. by replace (sh_disks g - 2 + 1) with (sh_disks g - 1) by lia.
  - intros i s Hi Hip Hiq. assert (0 <= s < sh_disks g) as Hs.
    { assert (s ∈ seqZ 0 (sh_disks g)) as He%elem_of_seqZ; [|lia]. rewrite <- H2. apply list_elem_of_fmap. by exists (i, s). }
    assert (forall i1 i2, (i1, s) ∈ syndrome_slots g -> (i2, s) ∈ syndrome_slots g -> i1 = i2) as Huniq.
    { intros i1 i2 Hi1 Hi2. apply (pairs_fun (prod_swap <$> syndrome_slots g) s); [done|..]; apply list_elem_of_fmap;
        [by exists (i1, s)|by exists (i2, s)]. }
    rewrite Hc. destruct (decide (s = sh_disks g - 2)) as [->|]; [by destruct Hip; apply Huniq|].
    destruct (decide (s = sh_disks g - 1)) as [->|]; [by destruct Hiq; apply Huniq|]. lia.
Qed.

Lemma slots_ok_ddf g :
  4 <= sh_disks g -> is_valid_idx 6 (sh_disks g) (sh_idx g) -> ddf_layout (sh_idx g) = true -> slots_ok g.
Proof.
  intros Hn Hv Hd. destruct (syndrome_slots_ddf g Hn Hv Hd) as (H1 & Hp & Hq & Hdata).
  destruct Hv as (_ & Hpr & _ & Hqr & Hqp & _).
  assert (syndrome_disks g = sh_disks g) as Hc by (unfold syndrome_disks; by rewrite Hd).
  assert (NoDup (syndrome_slots g).*1) as Hnd1 by (rewrite H1; apply NoDup_seqZ).
  assert (forall i s, (i, s) ∈ syndrome_slots g -> 0 <= i < sh_disks g /\
    s = if i =? pd_idx (sh_idx g) then sh_disks g else if i =? qd_idx (sh_idx g) then sh_disks g + 1 else i) as Hslot.
  { intros i s Hi. assert (0 <= i < sh_disks g) as Hr.
    { assert (i ∈ seqZ 0 (sh_disks g)) as He%elem_of_seqZ; [|lia]. rewrite <- H1. apply list_elem_of_fmap. by exists (i, s). }
    split; [done|]. destruct (Z.eqb_spec i (pd_idx (sh_idx g))) as [->|]; [by apply (pairs_fun (syndrome_slots g) (pd_idx (sh_idx g)))|].
    destruct (Z.eqb_spec i (qd_idx (sh_idx g))) as [->|]; [by apply (pairs_fun (syndrome_slots g) (qd_idx (sh_idx g)))|].
    apply (pairs_fun (syndrome_slots g) i); [done..|]. by apply Hdata. }
  split; [by rewrite H1| |by rewrite Hc|by rewrite Hc| |lia].
  - apply NoDup_fmap_2_strong; [|by apply NoDup_fmap_1 in Hnd1].
    intros [i s] [j s'] Hi Hj Heq. cbn in Heq. subst s'.
    destruct (Hslot _ _ Hi) as [Hir Hs], (Hslot _ _ Hj) as [Hjr Hs'].
    f_equal. rewrite Hs in Hs'. repeat case_match; rewrite ?Z.eqb_eq, ?Z.eqb_neq in *; lia.
  - intros i s Hi Hip Hiq. destruct (Hslot _ _ Hi) as [Hir ->]. rewrite Hc, !(proj2 (Z.eqb_neq _ _)) by done. lia.
Qed.

(** The device in a slot. *)
Definition slot_dev (g : stripe_head) (k : Z) : option nat :=
  (fun x => Z.to_nat x.1) <$> find (fun x => x.2 =? k) (syndrome_slots g).

(** The devices of the data slots. *)
Definition slot_devs (g : stripe_head) : list (option nat) := map (slot_dev g) (seqZ 0 (syndrome_disks g)).

Lemma find_pair {A} (f : Z * Z -> Z) (l : list (Z * Z)) x (h : Z * Z -> A) :
  NoDup (f <$> l) -> x ∈ l -> h <$> find (fun y => f y =? f x) l = Some (h x).
Proof.
  induction l as [|y l IH]; [set_solver|]. cbn. intros [Hy Hnd]%list.NoDup_cons [->|Hx]%elem_of_cons.
  - by rewrite Z.eqb_refl.
  - rewrite (proj2 (Z.eqb_neq _ _)); [by apply IH|]. intros Heq. apply Hy. rewrite Heq. by apply list_elem_of_fmap_2.
Qed.

Lemma find_pair_none {A} (f : Z * Z -> Z) (l : list (Z * Z)) k (h : Z * Z -> A) :
  k ∉ f <$> l -> h <$> find (fun y => f y =? k) l = None.
Proof.
  induction l as [|y l IH]; [done|]. cbn. intros Hk. rewrite (proj2 (Z.eqb_neq _ _)) by set_solver. apply IH. set_solver.
Qed.

Lemma omap_id_map {A B} (f : A -> option B) l : omap id (map f l) = omap f l.
Proof. induction l as [|x l IH]; [done|]. cbn. change (id (f x)) with (f x). rewrite <- IH. by destruct (f x). Qed.

Lemma NoDup_omap_inj {A B} (f : A -> option B) l :
  NoDup l -> (forall x y b, f x = Some b -> f y = Some b -> x = y) -> NoDup (omap f l).
Proof.
  intros Hnd Hf. induction Hnd as [|x l Hx _ IH]; cbn; [constructor|]. destruct (f x) as [b|] eqn:Hfx; [|done].
  apply list.NoDup_cons. split; [|done]. intros (y & Hy & Hfy)%list_elem_of_omap. apply Hx. by rewrite (Hf x y b).
Qed.

Section Slots6.
Context (g : stripe_head) (Hg : slots_ok g).

Lemma slots_nodup1 : NoDup (syndrome_slots g).*1.
Proof. rewrite (so_devs g Hg). apply NoDup_seqZ. Qed.

Lemma slot_dev_some i k : (i, k) ∈ syndrome_slots g -> slot_dev g k = Some (Z.to_nat i).
Proof. intros H. exact (find_pair snd (syndrome_slots g) (i, k) (fun x => Z.to_nat x.1) (so_slots g Hg) H). Qed.

Lemma slot_dev_inv k n : slot_dev g k = Some n -> exists i, n = Z.to_nat i /\ (i, k) ∈ syndrome_slots g.
Proof.
  unfold slot_dev. destruct (find _ _) as [[i k']|] eqn:Hf; [|done]. intros [= <-].
  apply find_some in Hf as [Hin Hk]. cbn in Hk. apply Z.eqb_eq in Hk as ->. exists i. split; [done|by apply list_elem_of_In].
Qed.

Lemma slot_dev_none k : k ∉ (syndrome_slots g).*2 -> slot_dev g k = None.
Proof. apply (find_pair_none snd). Qed.

Lemma slot_in i : 0 <= i < sh_disks g -> exists k, (i, k) ∈ syndrome_slots g.
Proof.
  intros Hi. assert (i ∈ (syndrome_slots g).*1) as ([i' k] & -> & H)%list_elem_of_fmap; [|by exists k].
  rewrite (so_devs g Hg). apply elem_of_seqZ. lia.
Qed.

Lemma slot_range i k : (i, k) ∈ syndrome_slots g -> 0 <= i < sh_disks g.
Proof.
  intros H. assert (i ∈ seqZ 0 (sh_disks g)) as He%elem_of_seqZ; [|lia].
  rewrite <- (so_devs g Hg). apply list_elem_of_fmap. by exists (i, k).
Qed.

(** The data devices are those in the data slots. *)
Lemma slot_devs_data :
  map Z.of_nat (omap id (slot_devs g)) ≡ₚ
  List.filter (fun i => negb ((i =? pd_idx (sh_idx g)) || (i =? qd_idx (sh_idx g)))) (seqZ 0 (sh_disks g)).
Proof.
  assert (forall x, x ∈ map Z.of_nat (omap id (slot_devs g)) <->
    exists k, 0 <= k < syndrome_disks g /\ (x, k) ∈ syndrome_slots g) as Hin.
  { intros x. rewrite list_elem_of_fmap. setoid_rewrite list_elem_of_omap. unfold slot_devs.
    setoid_rewrite list_elem_of_fmap. setoid_rewrite elem_of_seqZ. split.
    - intros (n & -> & o & (k & -> & Hk) & (i & -> & Hi)%slot_dev_inv).
      pose proof (slot_range _ _ Hi). exists k. rewrite Z2Nat.id by lia. split; [lia|done].
    - intros (k & Hk & Hx). pose proof (slot_range _ _ Hx). exists (Z.to_nat x). split; [lia|].
      exists (slot_dev g k). split; [exists k; split; [done|lia]|]. by apply slot_dev_some. }
  apply NoDup_Permutation.
  - apply NoDup_fmap_2; [intros ?? ?; lia|]. unfold slot_devs.
    rewrite omap_id_map. apply NoDup_omap_inj; [apply NoDup_seqZ|].
    intros k1 k2 n (i1 & -> & H1)%slot_dev_inv (i2 & Heq & H2)%slot_dev_inv.
    pose proof (slot_range _ _ H1). pose proof (slot_range _ _ H2). assert (i1 = i2) as <- by lia.
    eapply pairs_fun; [apply slots_nodup1|done..].
  - apply NoDup_ListNoDup, List.NoDup_filter, NoDup_ListNoDup, NoDup_seqZ.
  - intros x. rewrite Hin. rewrite list_elem_of_In, filter_In, <- list_elem_of_In, elem_of_seqZ.
    rewrite negb_true_iff, orb_false_iff, !Z.eqb_neq. split.
    + intros (k & Hk & Hx). split; [apply slot_range in Hx; lia|].
      split; intros ->.
      * assert (k = syndrome_disks g); [|lia]. eapply pairs_fun; [apply slots_nodup1|done|apply Hg].
      * assert (k = syndrome_disks g + 1); [|lia]. eapply pairs_fun; [apply slots_nodup1|done|apply Hg].
    + intros (Hx & Hp & Hq). destruct (slot_in x) as [k Hk]; [lia|]. exists k. split; [by apply (so_data g Hg x)|done].
Qed.
End Slots6.

(** * Geometry and encodings *)

(** The level, the number of disks and the places of the parity of a stripe fit together. *)
Record geo_ok (conf : r5conf) (g : stripe_head) : Prop := {
  go_level : level conf = 4 \/ level conf = 5 \/ level conf = 6;
  go_degraded : max_degraded conf = if level conf =? 6 then 2 else 1;
  go_disks : (if level conf =? 6 then 4 else 2) <= sh_disks g /\ sh_disks g + (if ddf_layout (sh_idx g) then 2 else 0) <= 255;
  go_pd : 0 <= pd_idx (sh_idx g) < sh_disks g;
  go_qd : if level conf =? 6 then 0 <= qd_idx (sh_idx g) < sh_disks g /\ qd_idx (sh_idx g) <> pd_idx (sh_idx g)
          else qd_idx (sh_idx g) = -1;
  go_slots : level conf = 6 -> slots_ok g;
  go_sectors : 0 < RAID5_STRIPE_SECTORS conf;
}.

Definition is_data (g : stripe_head) (i : Z) : bool :=
  negb ((i =? pd_idx (sh_idx g)) || (i =? qd_idx (sh_idx g))).

Definition data_idx (g : stripe_head) : list Z := List.filter (is_data g) (seqZ 0 (sh_disks g)).

(** The vector [V] of blocks, one for each device, holds its data and their parity. *)
Record encodes (conf : r5conf) (g : stripe_head) (V : Z -> block) : Prop := {
  en_wf i : 0 <= i < sh_disks g -> wf_block (size conf) (V i);
  en_p b : (b < size conf)%nat -> pget (V (pd_idx (sh_idx g))) b = p_syn (map (fun i => pget (V i) b) (data_idx g));
  en_q b : level conf = 6 -> (b < size conf)%nat ->
    pget (V (qd_idx (sh_idx g))) b = q_syn (ocol (map (fmap (fun k => V (Z.of_nat k))) (slot_devs g)) b);
}.

Section Encoding.
Context (conf : r5conf) (g : stripe_head) (Hgeo : geo_ok conf g) (V : Z -> block) (Henc : encodes conf g V).
Abbreviation n := (sh_disks g).
Abbreviation p := (pd_idx (sh_idx g)).
Abbreviation q := (qd_idx (sh_idx g)).

Lemma pd_ne_qd : p <> q.
Proof. pose proof (go_qd _ _ Hgeo). pose proof (go_pd _ _ Hgeo). destruct (level conf =? 6); lia. Qed.

Lemma filter_filter_data l :
  List.filter (fun x => negb (x =? p)) (List.filter (fun i => negb (i =? q)) l) = List.filter (is_data g) l.
Proof.
  induction l as [|x l IH]; [done|]. cbn. unfold is_data at 1. destruct (x =? q); cbn.
  - by rewrite orb_true_r.
  - destruct (x =? p); cbn; by rewrite IH.
Qed.

Lemma filter_filter_ne t l :
  List.filter (fun x => negb (x =? t)) (List.filter (fun i => negb (i =? q)) l) =
  List.filter (fun i => negb (i =? t) && negb (i =? q)) l.
Proof.
  induction l as [|x l IH]; [done|]. cbn. destruct (x =? q); cbn; [by rewrite andb_false_r|].
  destruct (x =? t); cbn; by rewrite IH.
Qed.

(** All blocks but Q add up to zero. *)
Lemma all_sum b : (b < size conf)%nat ->
  p_syn (map (fun i => pget (V i) b) (List.filter (fun i => negb (i =? q)) (seqZ 0 n))) = 0.
Proof.
  intros Hb. rewrite (p_syn_filter _ (fun i => i =? p)).
  rewrite (filter_single _ p); [|..].
  - cbn. rewrite Z.lxor_0_r, (en_p _ _ _ Henc) by done.
    unfold data_idx. rewrite filter_filter_data. apply Z.lxor_nilpotent.
  - apply NoDup_ListNoDup, List.NoDup_filter, NoDup_ListNoDup, NoDup_seqZ.
  - apply list_elem_of_In, filter_In. split; [apply list_elem_of_In, elem_of_seqZ; pose proof (go_pd _ _ Hgeo); lia|].
    apply negb_true_iff, Z.eqb_neq, pd_ne_qd.
  - done.
Qed.

(** Any block but Q is the sum of the others. *)
Lemma missing_sum b t : (b < size conf)%nat -> 0 <= t < n -> t <> q ->
  p_syn (map (fun i => pget (V i) b) (List.filter (fun i => negb (i =? t) && negb (i =? q)) (seqZ 0 n))) = pget (V t) b.
Proof.
  intros Hb Ht Htq. pose proof (all_sum b Hb) as H. rewrite (p_syn_filter _ (fun i => i =? t)) in H.
  rewrite (filter_single _ t) in H; [|..].
  - cbn in H. rewrite Z.lxor_0_r in H. apply Z.lxor_eq in H. by rewrite H, filter_filter_ne.
  - apply NoDup_ListNoDup, List.NoDup_filter, NoDup_ListNoDup, NoDup_seqZ.
  - apply list_elem_of_In, filter_In. split; [apply list_elem_of_In, elem_of_seqZ; lia|by apply negb_true_iff, Z.eqb_neq].
  - done.
Qed.
End Encoding.

Lemma p_syn_omap {A} (f : A -> Z) (l : list (option A)) :
  p_syn (map (fun o => match o with Some x => f x | None => 0 end) l) = p_syn (map f (omap id l)).
Proof. induction l as [|[x|] l IH]; cbn; [done|by f_equal|done]. Qed.

(** P of the data slots is the sum of the data blocks. *)
Lemma p_slots g (f : Z -> Z) :
  slots_ok g ->
  p_syn (map (fun o => match o with Some k => f (Z.of_nat k) | None => 0 end) (slot_devs g)) = p_syn (map f (data_idx g)).
Proof.
  intros Hg. rewrite (p_syn_omap (fun k => f (Z.of_nat k))). unfold data_idx, is_data.
  rewrite <- (p_syn_perm _ _ (Permutation_map f (slot_devs_data g Hg))). by rewrite map_map.
Qed.
