(* ===== verification/Raid5Soft.v ===== *)
(** An implementation of the functions of async_tx on blocks, byte by byte: the contract
    [AsyncTx] of Raid5Data can be met. *)

From S2P Require Import Prelude GF256 PageMem Syndrome Recov Raid5Dev Raid5Ops Raid5Data.

(** The data, P and Q of the blocks of a syndrome. *)
Definition split_pq (l : list (option block)) : list (option block) * option block * option block :=
  let k := (length l - 2)%nat in (take k l, default None (l !! k), default None (l !! S k)).

Definition soft_gen (xor : bool) (sz : nat) (l : list (option block)) : list (option block) :=
  let '(ds, p, q) := split_pq l in
  let old := fun (x : option block) b => if xor then opget x b else 0 in
  ds ++ [(fun _ => build sz (fun b => old p b ⊕ p_syn (ocol ds b))) <$> p;
         (fun _ => build sz (fun b => old q b ⊕ q_syn (ocol ds b))) <$> q].

Definition soft_val (sz : nat) (l : list (option block)) : bool * bool :=
  let '(ds, p, q) := split_pq l in
  (match p with Some p => existsb (fun b => negb (pget p b =? p_syn (ocol ds b))) (seq 0 sz) | None => false end,
   match q with Some q => existsb (fun b => negb (pget q b =? q_syn (ocol ds b))) (seq 0 sz) | None => false end).

(** The bytes of the block of slot [j], from the syndromes without the slots [i] and [j]. *)
Definition soft_byte (ds : list (option block)) (p q : option block) (i j : nat) : nat -> Z :=
  let ds := <[i := None]> (<[j := None]> ds) in
  let pbmul := gfpow (alpha (j - i) ⊕ 1) 254 in
  let qmul := gfpow (alpha i ⊕ alpha j) 254 in
  fun b => gfmul pbmul (opget p b ⊕ p_syn (ocol ds b)) ⊕ gfmul qmul (opget q b ⊕ q_syn (ocol ds b)).

Definition soft_2data (sz i j : nat) (l : list (option block)) : list (option block) :=
  let '(ds, p, q) := split_pq l in
  let y := soft_byte ds p q i j in
  let x := fun b => opget p b ⊕ p_syn (ocol (<[i := None]> (<[j := None]> ds)) b) ⊕ y b in
  <[i := Some (build sz x)]> (<[j := Some (build sz y)]> ds) ++ [p; q].

Definition soft_datap (sz i : nat) (l : list (option block)) : list (option block) :=
  let '(ds, p, q) := split_pq l in
  let qmul := gfpow (alpha i) 254 in
  let x := fun b => gfmul qmul (opget q b ⊕ q_syn (ocol (<[i := None]> ds) b)) in
  let ds := <[i := Some (build sz x)]> ds in
  ds ++ [Some (build sz (fun b => p_syn (ocol ds b))); q].

Definition soft_tx : async_tx := {|
  async_memcpy := fun dest src doff soff len => splice dest doff (take len (drop soff src));
  async_xor_offs := fun sz srcs => build sz (fun b => p_syn (col srcs b));
  async_xor_val_offs := fun sz srcs =>
    (build sz (fun b => p_syn (col srcs b)), existsb (fun b => negb (p_syn (col srcs b) =? 0)) (seq 0 sz));
  async_gen_syndrome := soft_gen;
  async_syndrome_val := soft_val;
  async_raid6_2data_recov := soft_2data;
  async_raid6_datap_recov := soft_datap;
|}.

Lemma split_pq_app ds p q : split_pq (ds ++ [p; q]) = (ds, p, q).
Proof.
  unfold split_pq. rewrite length_app. cbn [length]. replace (length ds + 2 - 2)%nat with (length ds) by lia.
  rewrite take_app_length, !lookup_app_r by lia. rewrite Nat.sub_diag. by replace (S (length ds) - length ds)%nat with 1%nat by lia.
Qed.

Lemma ocol_insert ds i o b : ocol (<[i := o]> ds) b = <[i := opget o b]> (ocol ds b).
Proof. apply (list_fmap_insert (fun p => opget p b)). Qed.

Section Lost.
Context (sz : nat) (ds : list (option block)) (Hds : Forall (wf_oblock sz) ds).

Lemma ocol_lookup i (d : block) b : ds !! i = Some (Some d) -> ocol ds b !! i = Some (pget d b).
Proof. intros Hi. unfold ocol. by rewrite list_lookup_fmap, Hi. Qed.

Lemma byte_of i (d : block) b : ds !! i = Some (Some d) -> is_u8 (pget d b).
Proof. intros Hi. eapply Forall_lookup_1 in Hds; [|exact Hi]. apply pget_u8, Hds. Qed.

Lemma block_of i (d : block) : ds !! i = Some (Some d) -> wf_block sz d.
Proof. intros Hi. exact (Forall_lookup_1 _ _ _ _ Hds Hi). Qed.

(** The syndromes without one and without two slots. *)
Lemma without_one i (d : block) b :
  ds !! i = Some (Some d) ->
  p_syn (ocol ds b) ⊕ p_syn (ocol (<[i := None]> ds) b) = pget d b /\
  q_syn (ocol ds b) ⊕ q_syn (ocol (<[i := None]> ds) b) = gfmul (alpha i) (pget d b).
Proof.
  intros Hi. pose proof (ocol_lookup i d b Hi) as Hb. rewrite ocol_insert. cbn [opget].
  rewrite (p_syn_insert _ _ _ _ Hb), (q_syn_insert _ _ _ _ (ocol_u8 sz ds b Hds) is_u8_0 Hb). rewrite Z.lxor_0_r. split; lxor_solve.
Qed.
End Lost.

Lemma soft_byte_ok sz ds p q i j (di dj : block) b :
  Forall (wf_oblock sz) ds -> (i < j)%nat -> (length ds <= 255)%nat -> ds !! i = Some (Some di) -> ds !! j = Some (Some dj) ->
  opget p b = p_syn (ocol ds b) -> opget q b = q_syn (ocol ds b) ->
  soft_byte ds p q i j b = pget dj b /\
  opget p b ⊕ p_syn (ocol (<[i := None]> (<[j := None]> ds)) b) = pget di b ⊕ pget dj b.
Proof.
  intros Hds Hij Hlen Hi Hj Hp Hq. set (ds1 := <[j := None]> ds).
  assert (Forall (wf_oblock sz) ds1) as Hds1 by (by apply Forall_insert).
  assert (ds1 !! i = Some (Some di)) as Hi1 by (unfold ds1; by rewrite list_lookup_insert_ne by lia).
  destruct (without_one sz ds Hds j dj b Hj) as [P1 Q1]. destruct (without_one sz ds1 Hds1 i di b Hi1) as [P2 Q2].
  fold ds1 in P1, Q1. pose proof (lookup_lt_Some _ _ _ Hj).
  assert (forall a c e, a ⊕ c = (a ⊕ e) ⊕ (e ⊕ c)) as Htri by (intros; lxor_solve).
  assert (opget p b ⊕ p_syn (ocol (<[i := None]> ds1) b) = pget di b ⊕ pget dj b) as HP.
  { rewrite Hp, (Htri _ _ (p_syn (ocol ds1 b))), P1, P2. apply Z.lxor_comm. }
  assert (opget q b ⊕ q_syn (ocol (<[i := None]> ds1) b) = gfmul (alpha i) (pget di b) ⊕ gfmul (alpha j) (pget dj b)) as HQ.
  { rewrite Hq, (Htri _ _ (q_syn (ocol ds1 b))), Q1, Q2. apply Z.lxor_comm. }
  split; [|done]. unfold soft_byte. fold ds1. rewrite HP, HQ.
  apply recov_2data_solve; [lia|by eapply (byte_of sz ds)|by eapply (byte_of sz ds)].
Qed.

Lemma insert_twice {A} (l : list A) i a b : <[i := a]> (<[i := b]> l) = <[i := a]> l.
Proof. apply list_insert_insert_eq. Qed.

#[global] Instance soft_async_tx sz : AsyncTx sz soft_tx.
Proof.
  split.
  - done.
  - done.
  - done.
  - intros ds p q _ _. cbn [async_gen_syndrome soft_tx]. unfold soft_gen. by rewrite split_pq_app.
  - intros ds p q _ _. cbn [async_gen_syndrome soft_tx]. unfold soft_gen. by rewrite split_pq_app.
  - intros ds p q _ _. cbn [async_syndrome_val soft_tx]. unfold soft_val. by rewrite split_pq_app.
  - intros ds p q i j di dj gi gj [Hds _]%Forall_app Hlen Hpq Hij Hi Hj Hgi Hgj. cbn [async_raid6_2data_recov soft_tx]. unfold soft_2data. rewrite split_pq_app.
    assert (<[i := None]> (<[j := None]> (<[i := Some gi]> (<[j := Some gj]> ds))) = <[i := None]> (<[j := None]> ds)) as Hz.
    { rewrite (list_insert_insert_ne _ j i) by lia. by rewrite !insert_twice. }
    assert (forall b, (b < sz)%nat -> soft_byte (<[i := Some gi]> (<[j := Some gj]> ds)) (Some p) (Some q) i j b = pget dj b /\
      pget p b ⊕ p_syn (ocol (<[i := None]> (<[j := None]> ds)) b) = pget di b ⊕ pget dj b) as Hb.
    { intros b Hb. destruct (Hpq b Hb). destruct (soft_byte_ok sz ds (Some p) (Some q) i j di dj b) as [H1 H2]; [done|done|lia|done..|].
      split; [|done]. rewrite <- H1. unfold soft_byte. by rewrite Hz. }
    match goal with |- <[i := Some ?x]> (<[j := Some ?y]> _) ++ _ = _ => assert (x = di) as ->; [|assert (y = dj) as ->] end.
    + apply build_eq; [by eapply block_of|]. intros b Hlt. destruct (Hb b Hlt) as [-> H2]. rewrite Hz. cbn [opget]. rewrite H2. lxor_solve.
    + apply build_eq; [by eapply block_of|]. intros b Hlt. by destruct (Hb b Hlt) as [-> _].
    + f_equal. rewrite (list_insert_insert_ne _ j i) by lia. rewrite !insert_twice. rewrite (list_insert_id ds j) by done. by apply list_insert_id.
  - intros ds p q i di gi gp [Hds Hpqw]%Forall_app Hlen Hpq Hi Hgi Hgp. cbn [async_raid6_datap_recov soft_tx]. unfold soft_datap. rewrite split_pq_app, !insert_twice.
    apply Forall_cons_iff in Hpqw as [Hp _]. pose proof (lookup_lt_Some _ _ _ Hi). rewrite (build_eq sz di); [|by eapply block_of|].
    + rewrite list_insert_id by done. f_equal. f_equal. f_equal. apply build_eq; [done|]. intros b Hb. by apply Hpq.
    + intros b Hb. destruct (Hpq b Hb) as [_ Hq]. destruct (without_one sz ds Hds i di b Hi) as [_ HQ]. cbn [opget]. rewrite Hq, HQ.
      pose proof (byte_of sz ds Hds i di b Hi). rewrite gfmul_assoc by auto with md.
      rewrite (gfmul_comm (gfpow (alpha i) 254)), gfpow_254_inv, gfmul_1_l by (auto with md || apply alpha_ne_0). done.
Qed.
