(* ===== verification/Raid5Copy.v ===== *)
(** Copies between requests and the blocks of a stripe, md/raid5.c: [async_copy_data] lays the
    bytes of a request over a block, or fills a request from it, at the offset of its sector. *)

From S2P Require Import Prelude PageMem Raid5Layout Raid5Dev Raid5Ops Raid5Machine Raid5Data.

Definition vec_bytes (vs : list bio_vec) : list Z := mjoin (map bv_bytes vs).

(** The bytes of a request. *)
Definition bio_bytes (b : bio) : list Z := vec_bytes (bi_vecs b).

(** A request with as many bytes as its sectors hold. *)
Definition wf_bio (b : bio) : Prop :=
  bi_discard b = false /\ 0 < bi_sectors b /\ Z.of_nat (length (bio_bytes b)) = 512 * bi_sectors b /\
  Forall (fun v => byte_page (bv_bytes v)) (bi_vecs b).

(** The block [p] with [bs] laid over it from the offset [off]. *)
Definition overlay (sz : nat) (off : Z) (bs : list Z) (p : block) : block :=
  build sz (fun x => if (off <=? Z.of_nat x) && (Z.of_nat x <? off + Z.of_nat (length bs))
                     then pget bs (Z.to_nat (Z.of_nat x - off)) else pget p x).

(** [bs] with the bytes of the block [p] from the offset [off] of the block. *)
Definition underlay (sz : nat) (off : Z) (bs : list Z) (p : block) : list Z :=
  build (length bs) (fun k => if (0 <=? off + Z.of_nat k) && (off + Z.of_nat k <? Z.of_nat sz)
                              then pget p (Z.to_nat (off + Z.of_nat k)) else pget bs k).

Lemma vec_bytes_cons v vs : vec_bytes (v :: vs) = bv_bytes v ++ vec_bytes vs.
Proof. done. Qed.

Lemma pget_app l1 l2 k : pget (l1 ++ l2) k = if (k <? length l1)%nat then pget l1 k else pget l2 (k - length l1).
Proof.
  unfold pget. destruct (Nat.ltb_spec k (length l1)); [by rewrite lookup_app_l|]. by rewrite lookup_app_r.
Qed.

Lemma pget_take_drop l n m k : (k < n)%nat -> pget (take n (drop m l)) k = pget l (m + k).
Proof. intros Hk. unfold pget. by rewrite lookup_take_lt, lookup_drop. Qed.

(** A store of a part of [bs] into the block, byte by byte. *)
Lemma pget_splice_part p doff bs soff len x :
  (doff + len <= length p)%nat -> (soff + len <= length bs)%nat ->
  pget (splice p doff (take len (drop soff bs))) x =
  if (doff <=? x)%nat && (x <? doff + len)%nat then pget bs (soff + (x - doff)) else pget p x.
Proof.
  intros H1 H2. assert (length (take len (drop soff bs)) = len) as Hl by (rewrite length_take, length_drop; lia).
  unfold splice. rewrite Hl, !pget_app, length_take, Hl. replace (doff `min` length p)%nat with doff by lia.
  destruct (Nat.leb_spec doff x), (Nat.ltb_spec x doff), (Nat.ltb_spec x (doff + len)); cbn [andb]; try lia.
  - rewrite (proj2 (Nat.ltb_lt _ _)) by lia. apply pget_take_drop. lia.
  - rewrite (proj2 (Nat.ltb_ge _ _)) by lia. unfold pget. rewrite lookup_drop. do 2 f_equal. lia.
  - unfold pget. by rewrite lookup_take_lt.
Qed.

Section Copy.
Context (conf : r5conf) (tx : async_tx) {Htx : AsyncTx (size conf) tx}.
Context (Hss : 0 < RAID5_STRIPE_SECTORS conf) (Hskip : skip_copy conf = false).
Abbreviation sz := (size conf).

Lemma size_eq : Z.of_nat sz = RAID5_STRIPE_SIZE conf.
Proof. unfold size, RAID5_STRIPE_SIZE. lia. Qed.

Lemma overlay_wf off bs p : byte_page bs -> byte_page p -> wf_block sz (overlay sz off bs p).
Proof. intros Hb Hp. apply wf_build. intros x. case_match; by apply pget_u8. Qed.

Lemma overlay_nil off p : wf_block sz p -> overlay sz off [] p = p.
Proof.
  intros Hp. apply build_eq; [done|]. intros b Hb. cbn [length]. destruct (_ && _) eqn:H; [|done].
  apply andb_true_iff in H as [?%Z.leb_le ?%Z.ltb_lt]. lia.
Qed.

(** What lies outside of the block has no effect. *)
Lemma overlay_beyond off bs p : wf_block sz p -> Z.of_nat sz <= off -> overlay sz off bs p = p.
Proof.
  intros Hp Hoff. apply build_eq; [done|]. intros b Hb. by rewrite (proj2 (Z.leb_gt off (Z.of_nat b))) by lia.
Qed.

Lemma overlay_app off b1 b2 p :
  overlay sz off (b1 ++ b2) p = overlay sz (off + Z.of_nat (length b1)) b2 (overlay sz off b1 p).
Proof.
  unfold overlay at 1 2. apply map_ext_in. intros x Hx%in_seq. unfold overlay. rewrite pget_build by lia.
  rewrite length_app, pget_app.
  destruct (Z.leb_spec off (Z.of_nat x)), (Z.leb_spec (off + Z.of_nat (length b1)) (Z.of_nat x)); cbn [andb]; try lia.
  - rewrite (proj2 (Nat.ltb_ge _ _)) by lia. rewrite (proj2 (Z.ltb_ge _ (off + Z.of_nat (length b1)))) by lia.
    replace (off + Z.of_nat (length b1) + Z.of_nat (length b2)) with (off + Z.of_nat (length b1 + length b2)) by lia.
    case_match; [|done]. f_equal. lia.
  - rewrite (proj2 (Z.ltb_lt _ (off + Z.of_nat (length b1 + length b2)))), (proj2 (Z.ltb_lt _ (off + Z.of_nat (length b1)))) by lia.
    by rewrite (proj2 (Nat.ltb_lt _ _)) by lia.
Qed.

(** One segment. *)
Lemma copy_segment off v p :
  wf_block sz p -> byte_page (bv_bytes v) ->
  let '(b_offset, po, len, clen) := clip conf off v in
  (if 0 <? clen then async_memcpy tx p (bv_bytes v) (Z.to_nat po) (Z.to_nat b_offset) (Z.to_nat clen) else p) =
    overlay sz off (bv_bytes v) p /\
  (clen < len -> Z.of_nat sz <= off + Z.of_nat (length (bv_bytes v))) /\ po + len = off + Z.of_nat (length (bv_bytes v)).
Proof.
  intros Hp Hv. pose proof size_eq as Hsz. unfold clip. rewrite <- Hsz. set (L := Z.of_nat (length (bv_bytes v))).
  set (bo := if off <? 0 then - off else 0). assert (0 <= bo /\ 0 <= off + bo /\ (off < 0 -> off + bo = 0) /\ (0 <= off -> bo = 0)) as Hbo.
  { unfold bo. destruct (Z.ltb_spec off 0); lia. }
  set (clen := if (0 <? L - bo) && (Z.of_nat sz <? off + bo + (L - bo)) then Z.of_nat sz - (off + bo) else L - bo).
  assert ((clen = L - bo /\ (L - bo <= 0 \/ off + L <= Z.of_nat sz)) \/ (clen = Z.of_nat sz - (off + bo) /\ Z.of_nat sz < off + L)) as Hc.
  { unfold clen. destruct (Z.ltb_spec 0 (L - bo)), (Z.ltb_spec (Z.of_nat sz) (off + bo + (L - bo))); cbn [andb]; [right|left|left|left]; lia. }
  clearbody bo clen. split; [|split; lia]. destruct Hp as [Hpl Hpb]. unfold L in *. clear L.
  destruct (Z.ltb_spec 0 clen) as [Hpos|Hneg].
  - rewrite memcpy_ok by lia. symmetry. apply build_eq.
    { split; [rewrite length_splice; [done|]; rewrite length_take, length_drop; lia|].
      apply Forall_app. split; [by apply Forall_take|]. apply Forall_app. split; [by apply Forall_take, Forall_drop|by apply Forall_drop]. }
    intros x Hx. rewrite pget_splice_part by lia.
    destruct (Nat.leb_spec (Z.to_nat (off + bo)) x), (Nat.ltb_spec x (Z.to_nat (off + bo) + Z.to_nat clen)); cbn [andb].
    + rewrite (proj2 (Z.leb_le _ _)), (proj2 (Z.ltb_lt _ _)) by lia. cbn [andb]. f_equal. lia.
    + rewrite (proj2 (Z.ltb_ge _ _)), andb_false_r by lia. done.
    + rewrite (proj2 (Z.leb_gt _ _)) by lia. done.
    + rewrite (proj2 (Z.leb_gt _ _)) by lia. done.
  - symmetry. apply build_eq; [done|]. intros x Hx. destruct (Z.leb_spec off (Z.of_nat x)), (Z.ltb_spec (Z.of_nat x) (off + Z.of_nat (length (bv_bytes v)))); cbn [andb]; [lia|done..].
Qed.

Lemma set_page_set_page p p' d : set_page p (set_page p' d) = set_page p d.
Proof. by destruct d as [? ? [] ]. Qed.

Lemma set_page_same p d : p = page d -> set_page p d = d.
Proof. intros ->. by destruct d as [? ? [] ]. Qed.

Lemma copy_from_ok vs off d :
  wf_block sz (page d) -> Forall (fun v => byte_page (bv_bytes v)) vs ->
  copy_from_bio conf tx false vs off d = set_page (overlay sz off (vec_bytes vs) (page d)) d.
Proof.
  intros Hd Hvs. revert off d Hd. induction Hvs as [|v vs Hv Hvs IH]; intros off d Hd.
  - cbn. by rewrite overlay_nil, set_page_same.
  - cbn [copy_from_bio]. pose proof (copy_segment off v (page d) Hd Hv) as Hseg.
    destruct (clip conf off v) as [[[bo po] len] clen]. destruct Hseg as (Heq & Hstop & Hnext). rewrite Hskip. cbn [andb].
    assert ((if 0 <? clen then set_page (async_memcpy tx (page d) (bv_bytes v) (Z.to_nat po) (Z.to_nat bo) (Z.to_nat clen)) d else d) =
      set_page (overlay sz off (bv_bytes v) (page d)) d) as ->.
    { rewrite <- Heq. destruct (0 <? clen); [done|by rewrite set_page_same]. }
    assert (wf_block sz (overlay sz off (bv_bytes v) (page d))) as Hwf by (apply overlay_wf; [done|apply Hd]).
    rewrite vec_bytes_cons, overlay_app. destruct (Z.ltb_spec clen len).
    + by rewrite (overlay_beyond (off + Z.of_nat (length (bv_bytes v))) (vec_bytes vs)) by (done || by apply Hstop).
    + rewrite IH by (by rewrite page_set_page). rewrite page_set_page, set_page_set_page, Hnext. done.
Qed.

Lemma underlay_app off b1 b2 p :
  underlay sz off (b1 ++ b2) p = underlay sz off b1 p ++ underlay sz (off + Z.of_nat (length b1)) b2 p.
Proof.
  unfold underlay, build. rewrite length_app, seq_app, map_app. f_equal.
  - apply map_ext_in. intros k Hk%in_seq. rewrite pget_app, (proj2 (Nat.ltb_lt _ _)) by lia. done.
  - rewrite <- map_seq_shift. apply map_ext_in. intros k Hk%in_seq. rewrite pget_app, (proj2 (Nat.ltb_ge _ _)) by lia.
    replace (0 + length b1 + k - length b1)%nat with k by lia. replace (off + Z.of_nat (0 + length b1 + k)) with (off + Z.of_nat (length b1) + Z.of_nat k) by lia.
    done.
Qed.

Lemma underlay_beyond off bs p : Z.of_nat sz <= off -> underlay sz off bs p = bs.
Proof.
  intros Hoff. apply pget_eq; [by unfold underlay, build; rewrite length_map, length_seq|].
  intros k Hk. unfold underlay, build in *. rewrite length_map, length_seq in Hk. rewrite pget_map_seq by done.
  by rewrite (proj2 (Z.ltb_ge _ _)), andb_false_r by lia.
Qed.

Lemma fill_segment off v p :
  wf_block sz p ->
  let '(b_offset, po, len, clen) := clip conf off v in
  (if 0 <? clen then async_memcpy tx (bv_bytes v) p (Z.to_nat b_offset) (Z.to_nat po) (Z.to_nat clen) else bv_bytes v) =
    underlay sz off (bv_bytes v) p /\
  (clen < len -> Z.of_nat sz <= off + Z.of_nat (length (bv_bytes v))) /\ po + len = off + Z.of_nat (length (bv_bytes v)).
Proof.
  intros Hp. pose proof size_eq as Hsz. unfold clip. rewrite <- Hsz. set (L := Z.of_nat (length (bv_bytes v))).
  set (bo := if off <? 0 then - off else 0). assert (0 <= bo /\ 0 <= off + bo /\ (off < 0 -> off + bo = 0) /\ (0 <= off -> bo = 0)) as Hbo.
  { unfold bo. destruct (Z.ltb_spec off 0); lia. }
  set (clen := if (0 <? L - bo) && (Z.of_nat sz <? off + bo + (L - bo)) then Z.of_nat sz - (off + bo) else L - bo).
  assert ((clen = L - bo /\ (L - bo <= 0 \/ off + L <= Z.of_nat sz)) \/ (clen = Z.of_nat sz - (off + bo) /\ Z.of_nat sz < off + L)) as Hc.
  { unfold clen. destruct (Z.ltb_spec 0 (L - bo)), (Z.ltb_spec (Z.of_nat sz) (off + bo + (L - bo))); cbn [andb]; [right|left|left|left]; lia. }
  clearbody bo clen. split; [|split; lia]. destruct Hp as [Hpl Hpb]. unfold L in *. clear L.
  destruct (Z.ltb_spec 0 clen) as [Hpos|Hneg].
  - rewrite memcpy_ok by lia. apply pget_eq; unfold underlay, build; rewrite length_splice, ?length_map, ?length_seq by (rewrite length_take, length_drop; lia); [done|].
    intros k Hk. rewrite pget_splice_part, pget_map_seq by lia.
    destruct (Nat.leb_spec (Z.to_nat bo) k), (Nat.ltb_spec k (Z.to_nat bo + Z.to_nat clen)); cbn [andb].
    + rewrite (proj2 (Z.leb_le _ _)), (proj2 (Z.ltb_lt _ _)) by lia. cbn [andb]. f_equal. lia.
    + rewrite (proj2 (Z.ltb_ge _ _)), andb_false_r by lia. done.
    + rewrite (proj2 (Z.leb_gt _ _)) by lia. done.
    + rewrite (proj2 (Z.leb_gt _ _)) by lia. done.
  - apply pget_eq; unfold underlay, build; rewrite ?length_map, ?length_seq; [done|]. intros k Hk. rewrite pget_map_seq by done.
    destruct (Z.leb_spec 0 (off + Z.of_nat k)), (Z.ltb_spec (off + Z.of_nat k) (Z.of_nat sz)); cbn [andb]; [lia|done..].
Qed.

Lemma copy_to_ok vs off p :
  wf_block sz p -> vec_bytes (copy_to_bio conf tx p vs off) = underlay sz off (vec_bytes vs) p.
Proof.
  intros Hp. revert off. induction vs as [|v vs IH]; intros off; [done|].
  cbn [copy_to_bio]. pose proof (fill_segment off v p Hp) as Hseg.
  destruct (clip conf off v) as [[[bo po] len] clen]. destruct Hseg as (Heq & Hstop & Hnext).
  assert (bv_bytes (if 0 <? clen then {| bv_offset := bv_offset v;
      bv_bytes := async_memcpy tx (bv_bytes v) p (Z.to_nat bo) (Z.to_nat po) (Z.to_nat clen) |} else v) =
    underlay sz off (bv_bytes v) p) as Hv by (rewrite <- Heq; by destruct (0 <? clen)).
  rewrite vec_bytes_cons, underlay_app. destruct (Z.ltb_spec clen len).
  - by rewrite vec_bytes_cons, Hv, (underlay_beyond (off + Z.of_nat (length (bv_bytes v)))) by (by apply Hstop).
  - by rewrite vec_bytes_cons, Hv, IH, Hnext.
Qed.

(** ** Requests laid over a block *)

Lemma page_offset_eq b sec : page_offset b sec = (bi_sector b - sec) * 512.
Proof. unfold page_offset. destruct (_ <=? _); lia. Qed.

(** The block of the device at sector [sec] after the write [b], and after a chain of writes. *)
Definition apply_bio (sec : Z) (p : block) (b : bio) : block := overlay sz ((bi_sector b - sec) * 512) (bio_bytes b) p.
Definition apply_bios (sec : Z) (bs : list bio) (p : block) : block := fold_left (apply_bio sec) bs p.

Lemma wf_bio_bytes b : wf_bio b -> byte_page (bio_bytes b).
Proof.
  intros (_ & _ & _ & H). unfold bio_bytes, vec_bytes. induction H as [|v vs Hv _ IH]; [constructor|]. cbn. by apply Forall_app.
Qed.

Lemma apply_bio_wf sec p b : wf_bio b -> wf_block sz p -> wf_block sz (apply_bio sec p b).
Proof. intros Hb [_ Hp]. apply overlay_wf; [by apply wf_bio_bytes|done]. Qed.

Lemma apply_bios_wf sec bs p : Forall wf_bio bs -> wf_block sz p -> wf_block sz (apply_bios sec bs p).
Proof. intros Hbs. revert p. induction Hbs as [|b bs Hb _ IH]; intros p Hp; [done|]. apply IH. by apply apply_bio_wf. Qed.

(** The byte at [x] of the block of a device at [sec] is written by [b]. *)
Definition covers (sec : Z) (x : nat) (b : bio) : Prop :=
  (bi_sector b - sec) * 512 <= Z.of_nat x < (bio_end_sector b - sec) * 512.

Lemma apply_bio_byte sec p b x : wf_bio b -> (x < sz)%nat ->
  (covers sec x b /\ forall p', pget (apply_bio sec p b) x = pget (apply_bio sec p' b) x) \/
  (~ covers sec x b /\ pget (apply_bio sec p b) x = pget p x).
Proof.
  intros (_ & Hs & Hl & _) Hx. unfold apply_bio, overlay, covers, bio_end_sector. rewrite pget_build by done.
  destruct (_ && _) eqn:Hc.
  - apply andb_true_iff in Hc as [?%Z.leb_le ?%Z.ltb_lt]. left. split; [lia|]. intros p'. rewrite pget_build by done.
    by rewrite (proj2 (Z.leb_le _ _)), (proj2 (Z.ltb_lt _ _)) by lia.
  - apply andb_false_iff in Hc as [?%Z.leb_gt|?%Z.ltb_ge]; right; (split; [lia|done]).
Qed.

Lemma apply_bios_agree sec bs p p' x :
  Forall wf_bio bs -> (x < sz)%nat -> pget p x = pget p' x \/ Exists (covers sec x) bs ->
  pget (apply_bios sec bs p) x = pget (apply_bios sec bs p') x.
Proof.
  intros Hbs Hx. revert p p'. induction Hbs as [|b bs Hb _ IH]; intros p p' Hor.
  - destruct Hor as [|H]; [done|inversion H].
  - cbn [apply_bios fold_left]. apply IH. destruct (apply_bio_byte sec p b x Hb Hx) as [[Hc Heq]|[Hc Heq]]; [left; apply Heq|].
    destruct (apply_bio_byte sec p' b x Hb Hx) as [[Hc' _]|[_ Heq']]; [done|]. rewrite Heq, Heq'.
    destruct Hor as [|Hex]; [by left|]. apply Exists_cons in Hex as [|]; [done|by right].
Qed.

(** ** Covered blocks *)

Lemma covered_to_spec dsec sec bs y :
  sec <= y -> y < covered_to conf dsec sec bs -> y < dsec + RAID5_STRIPE_SECTORS conf ->
  Exists (fun b => bi_sector b <= y < bio_end_sector b) (bio_chain conf dsec bs).
Proof.
  revert sec. induction bs as [|b bs IH]; intros sec Hy Hlt Hss'; cbn [covered_to bio_chain] in *; [lia|].
  destruct (Z.ltb_spec sec (dsec + RAID5_STRIPE_SECTORS conf)), (Z.leb_spec (bi_sector b) sec); cbn [andb] in Hlt; [|lia..].
  rewrite (proj2 (Z.ltb_lt (bi_sector b) _)) by lia. apply Exists_cons.
  destruct (Z.ltb_spec (bio_end_sector b) (dsec + RAID5_STRIPE_SECTORS conf)).
  - destruct (decide (y < bio_end_sector b)); [left; lia|]. right.
    destruct (Z.leb_spec sec (bio_end_sector b)); [apply (IH (bio_end_sector b))|apply (IH sec)]; lia.
  - left. destruct (Z.leb_spec sec (bio_end_sector b)); lia.
Qed.

(** A block that is covered by writes does not matter to them. *)
Lemma covered_apply d p p' :
  is_covered conf d = true -> Forall wf_bio (bio_chain conf (dev_sector d) (towrite d)) -> wf_block sz p -> wf_block sz p' ->
  apply_bios (dev_sector d) (bio_chain conf (dev_sector d) (towrite d)) p =
  apply_bios (dev_sector d) (bio_chain conf (dev_sector d) (towrite d)) p'.
Proof.
  intros Hc Hwf Hp Hp'. apply (block_eq sz); [by apply apply_bios_wf..|]. intros x Hx. apply apply_bios_agree; [done..|right].
  unfold is_covered in Hc. apply Z.leb_le in Hc. pose proof size_eq as Hsz. unfold RAID5_STRIPE_SIZE in Hsz.
  set (y := dev_sector d + Z.of_nat x / 512). assert (Z.of_nat x / 512 * 512 <= Z.of_nat x < Z.of_nat x / 512 * 512 + 512) as Hdiv.
  { pose proof (Z.div_mod (Z.of_nat x) 512). pose proof (Z.mod_pos_bound (Z.of_nat x) 512). lia. }
  assert (Exists (fun b => bi_sector b <= y < bio_end_sector b) (bio_chain conf (dev_sector d) (towrite d))) as Hex.
  { apply (covered_to_spec _ (dev_sector d)); unfold y; lia. }
  eapply Exists_impl; [|exact Hex]. intros b Hb. unfold covers, y in *. lia.
Qed.

(** ** The drain of a device *)

Lemma drain_bio_ok d b :
  wf_bio b -> wf_block sz (page d) -> bio_page d = None ->
  exists fl, drain_bio conf tx d b = with_flags fl (set_page (apply_bio (dev_sector d) (page d) b) d) /\
  forall f, f <> R5_WantFUA -> f <> R5_SyncIO -> fl f = flags d f.
Proof.
  intros Hb Hp Hpg. pose proof Hb as (Hdis & _ & _ & Hvs). unfold drain_bio, async_copy_from. rewrite Hdis.
  set (d1 := if bi_fua b then set_bit R5_WantFUA d else d). set (d2 := if bi_sync b then set_bit R5_SyncIO d1 else d1).
  assert (exists fl, d2 = with_flags fl d /\ forall f, f <> R5_WantFUA -> f <> R5_SyncIO -> fl f = flags d f) as (fl & -> & Hfl).
  { exists (flags d2). unfold d2, d1. destruct (bi_fua b), (bi_sync b); (split; [by destruct d|by intros []]). }
  cbn [dev_sector with_flags]. rewrite copy_from_ok by done. cbn [bio_page set_page with_flags page]. rewrite Hpg.
  exists fl. split; [|done]. unfold apply_bio. rewrite page_offset_eq. unfold bio_bytes, page. cbn. by rewrite Hpg.
Qed.

Lemma drain_bios_ok bs d :
  Forall wf_bio bs -> wf_block sz (page d) -> bio_page d = None ->
  exists fl, fold_left (drain_bio conf tx) bs d = with_flags fl (set_page (apply_bios (dev_sector d) bs (page d)) d) /\
  forall f, f <> R5_WantFUA -> f <> R5_SyncIO -> fl f = flags d f.
Proof.
  intros Hbs. revert d. induction Hbs as [|b bs Hb Hbs IH]; intros d Hp Hpg.
  - exists (flags d). cbn. rewrite set_page_same by done. split; [by destruct d|done].
  - cbn [fold_left apply_bios]. destruct (drain_bio_ok d b Hb Hp Hpg) as (fl & -> & Hfl).
    destruct (IH (with_flags fl (set_page (apply_bio (dev_sector d) (page d) b) d))) as (fl' & -> & Hfl').
    + change (page (with_flags fl ?d0)) with (page d0). rewrite page_set_page. by apply apply_bio_wf.
    + cbn. by rewrite Hpg.
    + exists fl'. split; [|intros f ??; rewrite Hfl' by done; by apply Hfl].
      unfold set_page, with_flags, page. cbn. by rewrite Hpg.
Qed.
End Copy.
