(* ===== verification/Raid5Spec.v ===== *)
(** What a stripe of md/raid5.c promises to those who use it, without devices, flags, parity and
    members: the blocks of its data devices, and the requests that are pending.

    Reads and writes that are added wait in chains.  When the stripe is handled, the writes of a
    block may be applied to it all at once, the reads of a block may be answered, all of them from
    the block as it was before these writes, and writes that were applied earlier may be returned. *)

From S2P Require Import Prelude PageMem Raid5Layout Raid5Dev Raid5Ops Raid5Handle Raid5Machine Raid5Data Raid5Copy.

(** The blocks, the reads and the writes that are pending, and the writes that were applied but
    not returned, by the number of the device. *)
Record contents := {
  c_data : Z -> block;
  c_reads : Z -> list bio;
  c_writes : Z -> list bio;
  c_applied : Z -> list bio;
}.

Section Spec.
Context (conf : r5conf) (n : nat) (data : Z -> bool) (sec : Z -> Z).

(** The answer [b'] to the read [b] of the block [p] of the device [i]: the bytes of the request
    that lie in the block are those of the block, the others are left alone. *)
Definition answers (i : Z) (p : block) (b b' : bio) : Prop :=
  exists vs, b' = with_vecs b vs /\ vec_bytes vs = underlay (size conf) ((bi_sector b - sec i) * 512) (vec_bytes (bi_vecs b)) p.

Definition devices : list Z := rev (seqZ 0 (Z.of_nat n)).

(** A list of replies, the last device first. *)
Definition replies (chosen : Z -> bool) (f : Z -> list reply) : list reply := mjoin (map (fun i => if chosen i then f i else []) devices).

(** The stripe is handled: the writes of the devices in [returned] are returned, the reads of those
    in [served] are answered and the writes of those in [drained] are applied. *)
Definition handles (c c' : contents) (out : list reply) : Prop :=
  exists (returned served drained : Z -> bool) (answer : Z -> bio -> bio) (sync : list reply),
    out = replies returned (fun i => map (Write_done i) (c_applied c i)) ++ sync ++ replies served (fun i => map (fun b => Read_done i (answer i b)) (c_reads c i)) /\
    (sync = [] \/ sync = [Sync_done true]) /\
    forall i, 0 <= i < Z.of_nat n -> data i = true ->
      (served i = true -> forall b, b ∈ c_reads c i -> answers i (c_data c i) b (answer i b)) /\
      (drained i = true -> c_applied c i = [] \/ returned i = true) /\
      c_reads c' i = (if served i then [] else c_reads c i) /\
      c_writes c' i = (if drained i then [] else c_writes c i) /\
      c_applied c' i = (if drained i then c_writes c i else if returned i then [] else c_applied c i) /\
      c_data c' i = (if drained i then apply_bios conf (sec i) (c_writes c i) (c_data c i) else c_data c i).

Definition unchanged (c c' : contents) (i : Z) : Prop :=
  c_data c' i = c_data c i /\ c_reads c' i = c_reads c i /\ c_writes c' i = c_writes c i /\ c_applied c' i = c_applied c i.

(** A request is added, unless it overlaps one that is pending. *)
Definition adds (c c' : contents) (i : Z) (b : bio) (forwrite : bool) : Prop :=
  (forall j, 0 <= j < Z.of_nat n -> data j = true -> j <> i -> unchanged c c' j) /\
  if chain_overlaps b (if forwrite then c_writes c i else c_reads c i) then unchanged c c' i
  else c_data c' i = c_data c i /\ c_applied c' i = c_applied c i /\
    c_writes c' i = (if forwrite then chain_insert b (c_writes c i) else c_writes c i) /\
    c_reads c' i = (if forwrite then c_reads c i else chain_insert b (c_reads c i)).

(** The requests and the failures of the members, and the rest of the array, do not show. *)
Definition spec_step (e : event) (c c' : contents) (out : list reply) : Prop :=
  match e with
  | Add i b forwrite => out = [] /\ adds c c' i b forwrite
  | Handle => handles c c' out
  | _ => out = [] /\ forall i, 0 <= i < Z.of_nat n -> data i = true -> unchanged c c' i
  end.

Inductive spec_run : list event -> contents -> contents -> list reply -> Prop :=
  | spec_done c : spec_run [] c c []
  | spec_next e es c c' c'' out out' : spec_step e c c' out -> spec_run es c' c'' out' -> spec_run (e :: es) c c'' (out ++ out').
End Spec.

(** The contents of a stripe whose blocks are [V]. *)
Definition contents_of (V : Z -> block) (sh : stripe) : contents :=
  {| c_data := V; c_reads := fun i => toread (dev sh i); c_writes := fun i => towrite (dev sh i); c_applied := fun i => written (dev sh i) |}.
