(* ===== verification/Raid5Promise.v ===== *)
(** What follows from the specification of a stripe (Raid5Spec): every write that is accepted is
    applied once and returned once, and every read that is accepted is answered once. *)

From S2P Require Import Prelude PageMem Raid5Layout Raid5Dev Raid5Ops Raid5Handle Raid5Machine Raid5Data Raid5Copy Raid5Spec.

(** The writes and the reads of the device [i] among the replies. *)
Definition writes_in (i : Z) (out : list reply) : list bio :=
  omap (fun r => match r with Write_done j b => if j =? i then Some b else None | _ => None end) out.

Definition reads_in (i : Z) (out : list reply) : list bio :=
  omap (fun r => match r with Read_done j b => if j =? i then Some b else None | _ => None end) out.

Lemma writes_in_app i out out' : writes_in i (out ++ out') = writes_in i out ++ writes_in i out'.
Proof. apply omap_app. Qed.

Lemma reads_in_app i out out' : reads_in i (out ++ out') = reads_in i out ++ reads_in i out'.
Proof. apply omap_app. Qed.

Lemma writes_in_spec i b out : b ∈ writes_in i out <-> Write_done i b ∈ out.
Proof.
  unfold writes_in. rewrite list_elem_of_omap. split.
  - intros (r & Hr & E). destruct r as [|j b'| |]; try done. destruct (Z.eqb_spec j i) as [->|]; [|done]. by injection E as ->.
  - intros Hr. exists (Write_done i b). by rewrite Z.eqb_refl.
Qed.

Lemma reads_in_spec i b out : b ∈ reads_in i out <-> Read_done i b ∈ out.
Proof.
  unfold reads_in. rewrite list_elem_of_omap. split.
  - intros (r & Hr & E). destruct r as [j b'| | |]; try done. destruct (Z.eqb_spec j i) as [->|]; [|done]. by injection E as ->.
  - intros Hr. exists (Read_done i b). by rewrite Z.eqb_refl.
Qed.

Lemma omap_map {A B C} (g : B -> option C) (f : A -> B) l : omap g (map f l) = omap (fun x => g (f x)) l.
Proof. induction l as [|x l IH]; [done|]. cbn. by rewrite IH. Qed.

Lemma omap_some {A B} (f : A -> option B) (g : A -> B) l : (forall x, f x = Some (g x)) -> omap f l = map g l.
Proof. intros H. induction l as [|x l IH]; [done|]. cbn. by rewrite H, IH. Qed.

Lemma omap_none {A B} (f : A -> option B) l : (forall x, f x = None) -> omap f l = [].
Proof. intros H. induction l as [|x l IH]; [done|]. cbn. by rewrite H. Qed.

(** The replies of one device. *)
Lemma writes_one i j bs : writes_in i (map (Write_done j) bs) = if j =? i then bs else [].
Proof.
  unfold writes_in. rewrite omap_map. destruct (j =? i); [|by apply omap_none]. rewrite (omap_some _ id) by done. apply map_id.
Qed.

Lemma reads_one i j (f : bio -> bio) bs : reads_in i (map (fun b => Read_done j (f b)) bs) = if j =? i then map f bs else [].
Proof. unfold reads_in. rewrite omap_map. destruct (j =? i); [by apply omap_some|by apply omap_none]. Qed.

Lemma writes_none i out : (forall b, Write_done i b ∉ out) -> writes_in i out = [].
Proof. intros H. destruct (writes_in i out) as [|b l] eqn:E; [done|]. destruct (H b). apply writes_in_spec. rewrite E. by left. Qed.

Lemma reads_none i out : (forall b, Read_done i b ∉ out) -> reads_in i out = [].
Proof. intros H. destruct (reads_in i out) as [|b l] eqn:E; [done|]. destruct (H b). apply reads_in_spec. rewrite E. by left. Qed.

Section Replies.
Context (n : nat) (chosen : Z -> bool) (f : Z -> list reply) (sel : Z -> list reply -> list bio) (i : Z).
Context (Hi : 0 <= i < Z.of_nat n) (Happ : forall out out', sel i (out ++ out') = sel i out ++ sel i out') (Hnil : sel i [] = []).
Context (Hne : forall j, j <> i -> sel i (f j) = []).

(** The replies of one device among those of all. *)
Lemma replies_of : sel i (replies n chosen f) = if chosen i then sel i (f i) else [].
Proof using Hi Happ Hnil Hne.
  unfold replies, devices. assert (forall l, NoDup l -> sel i (mjoin (map (fun j => if chosen j then f j else []) l)) = if bool_decide (i ∈ l) && chosen i then sel i (f i) else []) as H.
  { induction l as [|j l IH]; intros Hnd; [done|]. apply list.NoDup_cons in Hnd as [Hj Hnd]. cbn [map]. change (mjoin (?x :: ?xs)) with (x ++ mjoin xs). rewrite Happ, IH by done. destruct (decide (j = i)) as [->|Hji].
    - rewrite (bool_decide_eq_false_2 (i ∈ l)), (bool_decide_eq_true_2 (i ∈ i :: l)) by (done || by left). cbn. rewrite app_nil_r. by destruct (chosen i).
    - assert (sel i (if chosen j then f j else []) = []) as -> by (destruct (chosen j); auto). cbn. by rewrite (bool_decide_ext (i ∈ j :: l) (i ∈ l)) by (rewrite elem_of_cons; naive_solver). }
  rewrite H, bool_decide_eq_true_2; [done| |].
  - apply list_elem_of_In, in_rev. rewrite rev_involutive. apply list_elem_of_In, elem_of_seqZ. lia.
  - apply NoDup_ListNoDup, List.NoDup_rev, NoDup_ListNoDup, NoDup_seqZ.
Qed.
End Replies.

Lemma apply_bios_app conf sec bs bs' p : apply_bios conf sec (bs ++ bs') p = apply_bios conf sec bs' (apply_bios conf sec bs p).
Proof. apply fold_left_app. Qed.

Lemma chain_insert_perm b bs : chain_insert b bs ≡ₚ b :: bs.
Proof. induction bs as [|b' bs IH]; cbn; [done|]. destruct (_ <? _); [|done]. rewrite IH. apply Permutation_swap. Qed.

Section Promise.
Context (conf : r5conf) (n : nat) (data : Z -> bool) (sec : Z -> Z).

(** The request that the event adds to the device [i], unless it is rejected. *)
Definition taken (forwrite : bool) (i : Z) (e : event) (c : contents) : list bio :=
  match e with
  | Add j b fw =>
    if (j =? i) && Bool.eqb fw forwrite && negb (chain_overlaps b (if fw then c_writes c j else c_reads c j)) then [b] else []
  | _ => []
  end.

(** From [c] to [c'] the writes [win] and the reads [rin] were taken and [out] was replied. *)
Definition conserved (i : Z) (c c' : contents) (win rin : list bio) (out : list reply) : Prop :=
  (exists ws, c_data c' i = apply_bios conf (sec i) ws (c_data c i) /\ win ++ c_writes c i ≡ₚ ws ++ c_writes c' i /\
    c_applied c i ++ ws ≡ₚ writes_in i out ++ c_applied c' i) /\
  map bi_id rin ++ map bi_id (c_reads c i) ≡ₚ map bi_id (reads_in i out) ++ map bi_id (c_reads c' i).

Lemma conserved_refl i c c' : unchanged c c' i -> conserved i c c' [] [] [].
Proof. intros (H1 & H2 & H3 & H4). split; [|by rewrite H2]. exists []. by rewrite H1, H3, H4, app_nil_r. Qed.

Lemma conserved_trans i c1 c2 c3 win1 win2 rin1 rin2 out1 out2 :
  conserved i c1 c2 win1 rin1 out1 -> conserved i c2 c3 win2 rin2 out2 -> conserved i c1 c3 (win1 ++ win2) (rin1 ++ rin2) (out1 ++ out2).
Proof.
  intros [(ws1 & D1 & W1 & A1) R1] [(ws2 & D2 & W2 & A2) R2]. split.
  - exists (ws1 ++ ws2). rewrite apply_bios_app, <- D1. split; [done|]. rewrite writes_in_app. split.
    + rewrite (Permutation_app_comm win1), <- !app_assoc, W1, <- W2, !app_assoc. f_equiv. apply Permutation_app_comm.
    + rewrite app_assoc, A1, <- !app_assoc, A2. done.
  - rewrite reads_in_app, !map_app, (Permutation_app_comm (map bi_id rin1)), <- !app_assoc, R1, <- R2, !app_assoc. f_equiv. apply Permutation_app_comm.
Qed.

Lemma handles_replies i c c' out :
  0 <= i < Z.of_nat n -> data i = true -> handles conf n data sec c c' out ->
  exists (returned served drained : bool) (answer : bio -> bio),
    writes_in i out = (if returned then c_applied c i else []) /\ reads_in i out = (if served then map answer (c_reads c i) else []) /\
    (served = true -> forall b, b ∈ c_reads c i -> answers conf sec i (c_data c i) b (answer b)) /\
    (drained = true -> c_applied c i = [] \/ returned = true) /\
    c_reads c' i = (if served then [] else c_reads c i) /\ c_writes c' i = (if drained then [] else c_writes c i) /\
    c_applied c' i = (if drained then c_writes c i else if returned then [] else c_applied c i) /\
    c_data c' i = (if drained then apply_bios conf (sec i) (c_writes c i) (c_data c i) else c_data c i).
Proof.
  intros Hi Hd (returned & served & drained & answer & sync & -> & Hsync & H). exists (returned i), (served i), (drained i), (answer i).
  assert (writes_in i sync = [] /\ reads_in i sync = []) as [S1 S2] by (by destruct Hsync as [-> | ->]).
  split; [|split; [|exact (H i Hi Hd)]].
  - rewrite !writes_in_app, S1, app_nil_l. rewrite (replies_of n returned _ writes_in i) by (done || (intros; apply writes_in_app) || (intros j Hj; rewrite writes_one, (proj2 (Z.eqb_neq _ _)); done)).
    rewrite (writes_none i (replies _ _ _)); [|].
    + rewrite app_nil_r, writes_one, Z.eqb_refl. done.
    + intros b. unfold replies. rewrite list_elem_of_join. intros (l & Hb & (j & -> & _)%list_elem_of_fmap). destruct (served j); [|by apply not_elem_of_nil in Hb]. by apply list_elem_of_fmap in Hb as (b' & ? & _).
  - rewrite !reads_in_app, S2, app_nil_l. rewrite (replies_of n served _ reads_in i) by (done || (intros; apply reads_in_app) || (intros j Hj; rewrite reads_one, (proj2 (Z.eqb_neq _ _)); done)).
    rewrite (reads_none i (replies _ _ _)); [|].
    + rewrite app_nil_l, reads_one, Z.eqb_refl. done.
    + intros b. unfold replies. rewrite list_elem_of_join. intros (l & Hb & (j & -> & _)%list_elem_of_fmap). destruct (returned j); [|by apply not_elem_of_nil in Hb]. by apply list_elem_of_fmap in Hb as (b' & ? & _).
Qed.

(** The requests that are returned were pending. *)
Lemma handles_pending i b c c' out :
  handles conf n data sec c c' out ->
  (Write_done i b ∈ out -> 0 <= i < Z.of_nat n /\ b ∈ c_applied c i) /\
  (Read_done i b ∈ out -> 0 <= i < Z.of_nat n /\ exists b0, b0 ∈ c_reads c i /\ (data i = true -> answers conf sec i (c_data c i) b0 b)).
Proof.
  intros (returned & served & drained & answer & sync & -> & Hsync & H).
  assert (forall chosen f r, r ∈ replies n chosen f -> exists j, 0 <= j < Z.of_nat n /\ chosen j = true /\ r ∈ f j) as Hin.
  { intros chosen f r. unfold replies. rewrite list_elem_of_join. intros (l & Hr & (j & -> & Hj)%list_elem_of_fmap). exists j. destruct (chosen j) eqn:Ec; [|by apply not_elem_of_nil in Hr].
    split; [|done]. unfold devices in Hj. apply list_elem_of_In, in_rev, list_elem_of_In, elem_of_seqZ in Hj. lia. }
  assert (forall r, r ∈ sync -> r = Sync_done true) as Hs by (destruct Hsync as [-> | ->]; intros r Hr; [by apply not_elem_of_nil in Hr|by apply list_elem_of_singleton in Hr]).
  rewrite !elem_of_app. split; intros [Hr|[Hr|Hr]]; try (by apply Hs in Hr); apply Hin in Hr as (j & Hj & Hc & (b0 & [= -> ->] & Hb)%list_elem_of_fmap); [done|]. split; [done|]. exists b0. split; [done|]. intros Hd. by apply (H j Hj Hd).
Qed.

Lemma answers_id i p b b' : answers conf sec i p b b' -> bi_id b' = bi_id b.
Proof. by intros (vs & -> & _). Qed.

Lemma handles_conserved i c c' out :
  0 <= i < Z.of_nat n -> data i = true -> handles conf n data sec c c' out -> conserved i c c' [] [] out.
Proof.
  intros Hi Hd (ret & srv & dr & ans & W & R & HA & HD & E1 & E2 & E3 & E4)%(handles_replies i); [|done..]. unfold conserved. rewrite W, R, E1, E2, E3, E4. split.
  - exists (if dr then c_writes c i else []). split; [by destruct dr|]. split; [destruct dr; by rewrite ?app_nil_r|].
    destruct dr; [destruct (HD eq_refl) as [Ha|Hr]; [rewrite Ha; by destruct ret|by rewrite Hr]|]. destruct ret; by rewrite ?app_nil_r.
  - destruct srv; [|done]. cbn. rewrite app_nil_r, map_map. erewrite map_ext_in; [done|]. intros b Hb. symmetry. eapply answers_id. apply HA; [done|by apply list_elem_of_In].
Qed.

Lemma step_conserved i e c c' out :
  0 <= i < Z.of_nat n -> data i = true -> spec_step conf n data sec e c c' out ->
  conserved i c c' (taken true i e c) (taken false i e c) out.
Proof.
  intros Hi Hd. destruct e as [j b fw| | | | | | | | | |]; cbn [spec_step taken]; try (intros [-> H]; apply conserved_refl; by apply H); [|by apply handles_conserved].
  intros [-> [Hoth Hadd]]. destruct (Z.eqb_spec j i) as [->|Hji]; cbn [andb]; [|apply conserved_refl; by apply Hoth].
  destruct (chain_overlaps _ _); [rewrite !andb_false_r; by apply conserved_refl|]. destruct Hadd as (H1 & H2 & H3 & H4). rewrite !andb_true_r. destruct fw; cbn; (split; [exists []|]).
  - rewrite H1, H2, H3, chain_insert_perm, app_nil_r. done.
  - by rewrite H4.
  - rewrite H1, H2, H3, app_nil_r. done.
  - rewrite H4, chain_insert_perm. done.
Qed.
End Promise.
