(* ===== verification/Raid5OpsCorrect.v ===== *)
(** What the operations of Raid5Ops do to the blocks of a stripe whose other blocks are those of
    an encoding: lost blocks are computed, writes take one encoding to another, and checks of an
    encoding succeed. *)

From S2P Require Import Prelude GF256 PageMem Syndrome Raid6Theorems Raid5Layout Raid5Stripe Raid5Dev Raid5Ops Raid5Data.

(** * Devices of stripes *)

Lemma dev_lookup sh i : 0 <= i < Z.of_nat (disks sh) -> devs sh !! Z.to_nat i = Some (dev sh i).
Proof. intros Hi. apply list_lookup_lookup_total_lt. unfold disks in Hi. lia. Qed.

Lemma disks_upd i f sh : disks (upd i f sh) = disks sh.
Proof. apply length_alter. Qed.

Lemma dev_upd_eq i f sh : 0 <= i < Z.of_nat (disks sh) -> dev (upd i f sh) i = f (dev sh i).
Proof. intros Hi. unfold dev. cbn. apply list_lookup_total_alter_eq. unfold disks in Hi. lia. Qed.

Lemma dev_upd_ne i j f sh : 0 <= i -> 0 <= j -> i <> j -> dev (upd i f sh) j = dev sh j.
Proof. intros Hi Hj Hne. unfold dev. cbn. apply list_lookup_total_alter_ne. lia. Qed.

Lemma dev_upd i j f sh :
  0 <= i < Z.of_nat (disks sh) -> 0 <= j -> dev (upd i f sh) j = if i =? j then f (dev sh j) else dev sh j.
Proof. intros Hi Hj. destruct (Z.eqb_spec i j) as [<-|]; [by apply dev_upd_eq|apply dev_upd_ne; lia]. Qed.

#[global] Arguments upd : simpl never.
#[global] Arguments dev : simpl never.
#[global] Arguments disks : simpl never.

Create HintDb stripe.

Lemma upd_geo i f sh : geo (upd i f sh) = geo sh.
Proof. done. Qed.
Lemma upd_state i f sh : state (upd i f sh) = state sh.
Proof. done. Qed.
Lemma upd_check i f sh : check_state (upd i f sh) = check_state sh.
Proof. done. Qed.
Lemma upd_reconstruct i f sh : reconstruct_state (upd i f sh) = reconstruct_state sh.
Proof. done. Qed.
Lemma upd_target i f sh : ops_target (upd i f sh) = ops_target sh.
Proof. done. Qed.
Lemma upd_target2 i f sh : ops_target2 (upd i f sh) = ops_target2 sh.
Proof. done. Qed.
#[export] Hint Rewrite disks_upd upd_geo upd_state upd_check upd_reconstruct upd_target upd_target2 : stripe.

Lemma devs_ext a b :
  length a = length b -> (forall i, 0 <= i < Z.of_nat (length a) -> a !!! Z.to_nat i = (b !!! Z.to_nat i : r5dev)) -> a = b.
Proof.
  intros Hl H. apply list_eq. intros k. destruct (decide (k < length a)%nat) as [Hk|Hk].
  - rewrite !list_lookup_lookup_total_lt by lia. f_equal. specialize (H (Z.of_nat k)). rewrite Nat2Z.id in H. apply H. lia.
  - rewrite !lookup_ge_None_2 by lia. done.
Qed.

(** Stripes are equal if their devices are and the rest is. *)
Lemma stripe_ext a b :
  disks a = disks b -> (forall i, 0 <= i < Z.of_nat (disks a) -> dev a i = dev b i) ->
  with_devs [] a = with_devs [] b -> a = b.
Proof.
  intros Hl Hd Hr. assert (devs a = devs b) as Hds by by apply devs_ext.
  destruct a, b. unfold with_devs in Hr. cbn in *. congruence.
Qed.

Lemma devs_down_eq sh : devs_down sh = map (fun i => (i, dev sh i)) (rev (seqZ 0 (Z.of_nat (disks sh)))).
Proof.
  unfold devs_down. rewrite map_rev. f_equal. apply list_eq. intros k.
  rewrite list_lookup_imap, list_lookup_fmap. unfold disks, dev. destruct (decide (k < length (devs sh))%nat) as [Hk|Hk].
  - rewrite list_lookup_lookup_total_lt, lookup_seqZ_lt by lia. cbn -[Z.to_nat]. by rewrite Z.add_0_l, Nat2Z.id.
  - rewrite !lookup_ge_None_2 by (rewrite ?length_seqZ; lia). done.
Qed.

Lemma pages_down_eq keep sh :
  pages_down keep sh = map (fun i => page (dev sh i)) (List.filter (fun i => keep i (dev sh i)) (rev (seqZ 0 (Z.of_nat (disks sh))))).
Proof.
  unfold pages_down. rewrite devs_down_eq. induction (rev _) as [|i l IH]; [done|]. cbn.
  destruct (keep i (dev sh i)); cbn; by rewrite IH.
Qed.

Lemma filter_rev {A} (k : A -> bool) l : List.filter k (rev l) = rev (List.filter k l).
Proof. induction l as [|x l IH]; [done|]. cbn. rewrite List.filter_app, IH. cbn. destruct (k x); cbn; [done|by rewrite app_nil_r]. Qed.

(** The sum of the pages of the devices that satisfy [keep]. *)
Lemma pages_down_sum keep sh b :
  p_syn (col (pages_down keep sh) b) =
  p_syn (map (fun i => pget (page (dev sh i)) b) (List.filter (fun i => keep i (dev sh i)) (seqZ 0 (Z.of_nat (disks sh))))).
Proof.
  rewrite pages_down_eq, filter_rev. unfold col. rewrite map_map. apply p_syn_perm. rewrite map_rev. by rewrite <- Permutation_rev.
Qed.

Lemma length_pages_down keep sh :
  length (pages_down keep sh) = length (List.filter (fun i => keep i (dev sh i)) (seqZ 0 (Z.of_nat (disks sh)))).
Proof. rewrite pages_down_eq, filter_rev. by rewrite length_map, length_rev. Qed.

(** ** Blocks stored in place *)

Lemma set_page_id d : set_page (page d) d = d.
Proof. destruct d as [? ? [] ]; done. Qed.

Lemma with_devs_devs sh : with_devs (devs sh) sh = sh.
Proof. by destruct sh. Qed.

Definition member_of (srcs : list (option nat)) (i : Z) : bool := bool_decide (Some (Z.to_nat i) ∈ srcs).

Lemma set_page_idem p d : set_page p (set_page p d) = set_page p d.
Proof. by destruct d as [? ? [] ]. Qed.

Lemma store_blocks_devs W srcs bs sh :
  Forall2 (fun o b => match o with Some k => b = Some (W (Z.of_nat k)) | None => True end) srcs bs ->
  Forall (fun o => match o with Some k => (k < disks sh)%nat | None => True end) srcs ->
  disks (store_blocks srcs bs sh) = disks sh /\ with_devs [] (store_blocks srcs bs sh) = with_devs [] sh /\
  forall i, 0 <= i < Z.of_nat (disks sh) ->
    dev (store_blocks srcs bs sh) i = if member_of srcs i then set_page (W i) (dev sh i) else dev sh i.
Proof.
  intros H. revert sh. induction H as [|o b srcs bs Ho _ IH]; intros sh Hr.
  - done.
  - apply list.Forall_cons in Hr as [Hk Hr]. unfold store_blocks. cbn [zip zip_with fold_left].
    destruct o as [k|].
    + rewrite Ho. fold (store_blocks srcs bs (upd (Z.of_nat k) (set_page (W (Z.of_nat k))) sh)).
      destruct (IH (upd (Z.of_nat k) (set_page (W (Z.of_nat k))) sh)) as (H1 & H2 & H3); [by rewrite disks_upd|].
      rewrite disks_upd in *. split; [done|]. split; [by rewrite H2|]. intros i Hi. rewrite H3, dev_upd by lia.
      unfold member_of. destruct (Z.eqb_spec (Z.of_nat k) i) as [<-|Hne].
      * rewrite Nat2Z.id. rewrite (bool_decide_true (Some k ∈ Some k :: srcs)) by set_solver.
        case_bool_decide; [apply set_page_idem|done].
      * assert (Some (Z.to_nat i) <> Some k) by (intros [= ?]; lia).
        destruct (decide (Some (Z.to_nat i) ∈ srcs)); [rewrite !bool_decide_true by set_solver|rewrite !bool_decide_false by set_solver]; done.
    + fold (store_blocks srcs bs sh). destruct (IH sh Hr) as (H1 & H2 & H3). split; [done|]. split; [done|].
      intros i Hi. rewrite H3 by done. unfold member_of.
      destruct (decide (Some (Z.to_nat i) ∈ srcs)); [rewrite !bool_decide_true by set_solver|rewrite !bool_decide_false by set_solver]; done.
Qed.

(** ** The sources of the syndromes *)

Definition chosen (sh : stripe) (ty : srctype) (i : Z) : bool :=
  match ty with
  | SYNDROME_SRC_ALL => true
  | SYNDROME_SRC_WANT_DRAIN => test_bit R5_Wantdrain (dev sh i)
  | SYNDROME_SRC_WRITTEN => nonempty (written (dev sh i))
  end.

(** The data slots, empty where the device is not chosen. *)
Definition chosen_slots (sh : stripe) (ty : srctype) : list (option nat) :=
  map (fun o => o ≫= fun k => if chosen sh ty (Z.of_nat k) then Some k else None) (slot_devs (geo sh)).

Lemma length_slot_devs g : length (slot_devs g) = Z.to_nat (syndrome_disks g).
Proof. unfold slot_devs. by rewrite length_map, length_seqZ. Qed.

Lemma sources_eq sh ty :
  slots_ok (geo sh) ->
  sources sh ty = (chosen_slots sh ty ++ [Some (Z.to_nat (pd sh)); Some (Z.to_nat (qd sh))], length (slot_devs (geo sh))).
Proof.
  intros Hg. rewrite length_slot_devs. unfold sources, set_syndrome_sources.
  pose proof (sources_fold (geo sh) ty (view sh) (syndrome_slots (geo sh)) ∅ ∅) as H.
  destruct (fold_left _ (syndrome_slots (geo sh)) (∅, ∅)) as [srcs offs].
  destruct H as [Hin Hout]; [apply Hg|done|]. f_equal.
  pose proof (so_count _ Hg) as Hc. rewrite seqZ_app, map_app by lia. f_equal.
  - unfold chosen_slots, slot_devs. rewrite map_map. apply map_ext_in. intros k Hk%list_elem_of_In%elem_of_seqZ.
    destruct (decide (k ∈ (syndrome_slots (geo sh)).*2)) as [([i k'] & -> & Hi)%list_elem_of_fmap|Hk'].
    + cbn [snd] in Hk |- *. destruct (Hin i k' Hi) as [-> _]. rewrite (slot_dev_some _ Hg i k' Hi). cbn.
      pose proof (slot_range _ Hg _ _ Hi). rewrite Z2Nat.id by lia.
      assert (i <> pd sh /\ i <> qd sh) as [Hip Hiq].
      { split; intros ->.
        - assert (k' = syndrome_disks (geo sh)); [|cbn in Hk; lia]. eapply pairs_fun; [apply (slots_nodup1 _ Hg)|done|apply Hg].
        - assert (k' = syndrome_disks (geo sh) + 1); [|cbn in Hk; lia]. eapply pairs_fun; [apply (slots_nodup1 _ Hg)|done|apply Hg]. }
      unfold is_source. fold (pd sh) (qd sh). rewrite !(proj2 (Z.eqb_neq _ _)) by done. cbn.
      destruct ty; cbn; rewrite ?orb_false_r; done.
    + destruct (Hout k Hk') as [-> _]. by rewrite (slot_dev_none _ k).
  - assert (forall x, seqZ x 2 = [x; Z.succ x]) as -> by (intros x; rewrite !seqZ_cons by lia; done).
    cbn [map]. destruct (Hin _ _ (so_pd _ Hg)) as [Hp _]. destruct (Hin _ _ (so_qd _ Hg)) as [Hq _].
    replace (0 + syndrome_disks (geo sh)) with (syndrome_disks (geo sh)) by lia.
    replace (Z.succ (syndrome_disks (geo sh))) with (syndrome_disks (geo sh) + 1) by lia.
    rewrite Hp, Hq. unfold is_source. fold (pd sh) (qd sh). by rewrite !Z.eqb_refl, orb_true_r.
Qed.

Lemma chosen_all sh : chosen_slots sh SYNDROME_SRC_ALL = slot_devs (geo sh).
Proof. unfold chosen_slots. rewrite <- (map_id (slot_devs (geo sh))) at 2. apply map_ext. by intros []. Qed.

(** The slots of devices. *)
Lemma slot_of_spec sh i k : slots_ok (geo sh) -> (i, k) ∈ syndrome_slots (geo sh) -> slot_of sh i = k.
Proof.
  intros Hg H. unfold slot_of.
  pose proof (find_pair fst (syndrome_slots (geo sh)) (i, k) snd (slots_nodup1 _ Hg) H) as Hf. cbn in Hf. by rewrite Hf.
Qed.

Lemma slot_of_data sh i :
  slots_ok (geo sh) -> 0 <= i < sh_disks (geo sh) -> i <> pd sh -> i <> qd sh ->
  0 <= slot_of sh i < syndrome_disks (geo sh) /\ slot_devs (geo sh) !! Z.to_nat (slot_of sh i) = Some (Some (Z.to_nat i)).
Proof.
  intros Hg Hi Hp Hq. destruct (slot_in _ Hg i Hi) as [k Hk]. rewrite (slot_of_spec sh i k Hg Hk).
  pose proof (so_data _ Hg i k Hk Hp Hq) as Hr. split; [done|]. unfold slot_devs.
  rewrite list_lookup_fmap, lookup_seqZ_lt by lia. rewrite Z.add_0_l, Z2Nat.id by lia. cbn [fmap option_fmap option_map].
  by rewrite (slot_dev_some _ Hg i k Hk).
Qed.

(** Devices in data slots. *)
Lemma slot_devs_member g k :
  slots_ok g -> Some k ∈ slot_devs g -> 0 <= Z.of_nat k < sh_disks g /\ is_data g (Z.of_nat k) = true.
Proof.
  intros Hg Hk. assert (Z.of_nat k ∈ map Z.of_nat (omap id (slot_devs g))) as H.
  { apply list_elem_of_fmap_2, list_elem_of_omap. by exists (Some k). }
  rewrite (slot_devs_data g Hg), list_elem_of_In, filter_In, <- list_elem_of_In, elem_of_seqZ in H.
  destruct H as [H1 H2]. split; [lia|done].
Qed.

(** * Computing blocks *)

Lemma upd_upd i f h sh : upd i f (upd i h sh) = upd i (f ∘ h) sh.
Proof. unfold upd. destruct sh. cbn. unfold with_devs. cbn. f_equal. apply list_alter_alter_eq. Qed.

Lemma upd_comm i j f h sh : 0 <= i -> 0 <= j -> i <> j -> upd i f (upd j h sh) = upd j h (upd i f sh).
Proof. intros. unfold upd. destruct sh. cbn. unfold with_devs. cbn. f_equal. apply list_alter_alter_ne. lia. Qed.

Lemma upd_ext i f h sh : f (dev sh i) = h (dev sh i) -> upd i f sh = upd i h sh.
Proof.
  intros H. unfold upd. f_equal. apply list_alter_ext; [|done]. intros d Hd.
  assert (d = dev sh i) as ->; [|done]. unfold dev. by rewrite (list_lookup_total_correct _ _ _ Hd).
Qed.

(** The device of a target, with its block and without. *)
Definition computed (d : r5dev) : r5dev := clear_bit R5_Wantcompute (set_bit R5_UPTODATE d).

Definition after_compute (sh : stripe) : stripe :=
  let sh := sclear STRIPE_COMPUTE_RUN sh in
  let sh := if check_states_beq (check_state sh) check_state_compute_run
            then with_check check_state_compute_result sh else sh in
  sset STRIPE_HANDLE sh.

Lemma mark_target_ok t sh :
  0 <= t < Z.of_nat (disks sh) -> test_bit R5_Wantcompute (dev sh t) = true ->
  mark_target_uptodate t sh = Some (upd t computed sh).
Proof.
  intros Ht Hw. unfold mark_target_uptodate. rewrite (proj2 (Z.ltb_ge t 0)) by lia.
  rewrite dev_upd_eq by done. unfold bug_on. cbn. unfold test_bit in Hw. rewrite Hw. cbn. by rewrite upd_upd.
Qed.

Lemma complete_compute_1 sh :
  0 <= ops_target sh < Z.of_nat (disks sh) -> ops_target2 sh < 0 -> test_bit R5_Wantcompute (dev sh (ops_target sh)) = true ->
  ops_complete_compute sh = Some (after_compute (upd (ops_target sh) computed sh)).
Proof.
  intros Ht Ht2 Hw. unfold ops_complete_compute. rewrite mark_target_ok by done. cbn.
  unfold mark_target_uptodate. autorewrite with stripe. by rewrite (proj2 (Z.ltb_lt _ 0)).
Qed.

Lemma complete_compute_2 sh :
  0 <= ops_target sh < Z.of_nat (disks sh) -> 0 <= ops_target2 sh < Z.of_nat (disks sh) -> ops_target sh <> ops_target2 sh ->
  test_bit R5_Wantcompute (dev sh (ops_target sh)) = true -> test_bit R5_Wantcompute (dev sh (ops_target2 sh)) = true ->
  ops_complete_compute sh = Some (after_compute (upd (ops_target2 sh) computed (upd (ops_target sh) computed sh))).
Proof.
  intros Ht Ht2 Hne Hw Hw2. unfold ops_complete_compute. rewrite mark_target_ok by done. cbn.
  rewrite mark_target_ok; autorewrite with stripe; [done|done|]. by rewrite dev_upd_ne by lia.
Qed.

Lemma disks_geo_range sh i : sh_disks (geo sh) = Z.of_nat (disks sh) -> 0 <= i < sh_disks (geo sh) -> 0 <= i < Z.of_nat (disks sh).
Proof. intros <-. done. Qed.

(** The pages of the targets become those of the encoding. *)
Definition set_pages (V : Z -> block) (T : list Z) (s : stripe) : stripe := foldr (fun t s => upd t (set_page (V t)) s) s T.

Lemma set_pages_dev V T s i :
  NoDup T -> (forall t, t ∈ T -> 0 <= t < Z.of_nat (disks s)) -> 0 <= i ->
  disks (set_pages V T s) = disks s /\ with_devs [] (set_pages V T s) = with_devs [] s /\
  dev (set_pages V T s) i = if bool_decide (i ∈ T) then set_page (V i) (dev s i) else dev s i.
Proof.
  intros HT Hr Hi. induction HT as [|t T Ht HT IH]; [done|].
  destruct IH as (H1 & H2 & H3); [intros; apply Hr; set_solver|]. pose proof (Hr t ltac:(set_solver)).
  cbn. fold (set_pages V T s). rewrite disks_upd, dev_upd by (rewrite ?H1; lia). split; [done|]. split; [by rewrite <- H2|].
  destruct (Z.eqb_spec t i) as [->|Hne].
  - rewrite H3, (bool_decide_false (i ∈ T)), (bool_decide_true (i ∈ i :: T)) by (done || by left). done.
  - rewrite H3, (bool_decide_ext (i ∈ t :: T) (i ∈ T)); [done|]. rewrite elem_of_cons. naive_solver.
Qed.

Lemma length_filter_other t l : NoDup l -> t ∈ l -> length (List.filter (fun i => negb (i =? t)) l) = (length l - 1)%nat.
Proof.
  induction 1 as [|x l Hx Hl IH]; [set_solver|]. cbn. intros [->|Ht]%elem_of_cons.
  - rewrite Z.eqb_refl. cbn. rewrite Nat.sub_0_r. clear IH Hl. induction l as [|y l IH]; [done|]. cbn.
    rewrite (proj2 (Z.eqb_neq y x)) by set_solver. cbn. rewrite IH; [done|set_solver].
  - rewrite (proj2 (Z.eqb_neq x t)) by set_solver. cbn. rewrite IH by done. destruct l; [set_solver|]. cbn. lia.
Qed.

Lemma count_others n t : 0 <= t < n -> length (List.filter (fun i => negb (i =? t)) (seqZ 0 n)) = Z.to_nat (n - 1).
Proof.
  intros Ht. rewrite length_filter_other by (apply NoDup_seqZ || (apply elem_of_seqZ; lia)). rewrite length_seqZ. lia.
Qed.

Lemma memcpy_all conf tx {Htx : AsyncTx (size conf) tx} dest src :
  wf_block (size conf) dest -> wf_block (size conf) src -> async_memcpy tx dest src 0 0 (size conf) = src.
Proof.
  intros [Hd _] [Hs _]. rewrite memcpy_ok by lia. unfold splice. rewrite drop_0, take_0, firstn_all2 by lia.
  rewrite drop_ge by lia. apply app_nil_r.
Qed.

Section Compute.
Context (conf : r5conf) (tx : async_tx) {Htx : AsyncTx (size conf) tx} (sh : stripe).
Context (Hgeo : geo_ok conf (geo sh)) (Hn : sh_disks (geo sh) = Z.of_nat (disks sh)).
Context (Hwf : forall i, 0 <= i < sh_disks (geo sh) -> wf_block (size conf) (page (dev sh i))).
Context (V : Z -> block) (Henc : encodes conf (geo sh) V).
Abbreviation n := (sh_disks (geo sh)).

(** The pages that are kept are those of the encoding. *)
Definition known (keep : Z -> bool) : Prop := forall i, 0 <= i < n -> keep i = true -> page (dev sh i) = V i.

Lemma pages_wf keep : Forall (wf_block (size conf)) (pages_down keep sh).
Proof.
  rewrite pages_down_eq. apply Forall_map, Forall_forall. intros i Hi.
  rewrite filter_In, <- in_rev, <- list_elem_of_In, elem_of_seqZ in Hi. apply Hwf. lia.
Qed.

Lemma known_sum (keep : Z -> bool) b :
  known keep -> p_syn (col (pages_down (fun i _ => keep i) sh) b) =
  p_syn (map (fun i => pget (V i) b) (List.filter keep (seqZ 0 n))).
Proof.
  intros Hk. rewrite pages_down_sum, <- Hn. apply p_syn_map_ext. intros i Hi.
  rewrite list_elem_of_In, filter_In, <- list_elem_of_In, elem_of_seqZ in Hi. destruct Hi as [Hi Hki].
  rewrite Hk; [done|lia|done].
Qed.

Lemma count_others_q t : 0 <= t < n -> t <> qd sh -> level conf = 6 ->
  (2 <= length (List.filter (fun i => negb (i =? t) && negb (i =? qd sh))%Z (seqZ 0 n)))%nat.
Proof using Hgeo.
  intros Ht Htq Hl. pose proof (go_qd _ _ Hgeo) as Hq. pose proof (go_disks _ _ Hgeo) as Hd. rewrite Hl in Hq, Hd. cbn in Hq, Hd.
  unfold qd in *. rewrite <- filter_filter_ne. rewrite length_filter_other, (count_others _ (qd_idx (sh_idx (geo sh)))); [lia|lia|..].
  - apply NoDup_ListNoDup, List.NoDup_filter, NoDup_ListNoDup, NoDup_seqZ.
  - apply list_elem_of_In, filter_In. split; [apply list_elem_of_In, elem_of_seqZ; lia|by apply negb_true_iff, Z.eqb_neq].
Qed.

Lemma pages_down_ext (k1 k2 : Z -> r5dev -> bool) (s : stripe) :
  (forall i, 0 <= i < Z.of_nat (disks s) -> k1 i (dev s i) = k2 i (dev s i)) -> pages_down k1 s = pages_down k2 s.
Proof.
  intros H. rewrite !pages_down_eq. f_equal. apply filter_ext_in. intros i Hi.
  rewrite <- in_rev, <- list_elem_of_In, elem_of_seqZ in Hi. apply H. lia.
Qed.

Lemma xor_target t :
  0 <= t < n -> t <> qd sh -> known (fun i => negb (i =? t) && negb (i =? qd sh)) ->
  (2 <= length (pages_down (fun i _ => negb (i =? t) && negb (i =? qd sh))%Z sh))%nat ->
  async_xor_offs tx (size conf) (pages_down (fun i _ => negb (i =? t) && negb (i =? qd sh)) sh) = V t.
Proof.
  intros Ht Htq Hk Hlen. rewrite xor_ok by (done || apply pages_wf). apply build_eq; [by apply (en_wf _ _ _ Henc)|].
  intros b Hb. rewrite (known_sum (fun i => negb (i =? t) && negb (i =? qd sh))) by done. symmetry. by apply missing_sum with (conf := conf).
Qed.

(** The missing page of a stripe without Q. *)
Lemma xor_or_copy_target t dest :
  level conf <> 6 -> 0 <= t < n -> known (fun i => negb (i =? t)) -> wf_block (size conf) dest ->
  xor_or_copy conf tx dest (pages_down (fun i _ => negb (i =? t)) sh) = V t.
Proof.
  intros Hl Ht Hk Hdest. pose proof (go_qd _ _ Hgeo) as Hq. rewrite (proj2 (Z.eqb_neq _ _) Hl) in Hq. fold (qd sh) in Hq.
  assert (pages_down (fun i _ => negb (i =? t)) sh = pages_down (fun i _ => negb (i =? t) && negb (i =? qd sh)) sh) as Heq.
  { apply pages_down_ext. intros i Hi. rewrite (proj2 (Z.eqb_neq i (qd sh))) by lia. by rewrite andb_true_r. }
  assert (known (fun i => negb (i =? t) && negb (i =? qd sh))) as Hk'.
  { intros i Hi [H1 _]%andb_true_iff. by apply Hk. }
  rewrite Heq. unfold xor_or_copy.
  assert (length (pages_down (fun i _ => negb (i =? t) && negb (i =? qd sh)) sh) = Z.to_nat (n - 1)) as Hlen.
  { rewrite <- Heq, length_pages_down, <- Hn. by apply count_others. }
  pose proof (pages_wf (fun i _ => negb (i =? t) && negb (i =? qd sh))) as Hw.
  pose proof (fun b => known_sum _ b Hk') as Hsum.
  clear Heq. remember (pages_down (fun i _ => negb (i =? t) && negb (i =? qd sh)) sh) as l eqn:Hp. destruct l as [|x [|y l]].
  - pose proof (go_disks _ _ Hgeo) as Hd. cbn [length] in Hlen. destruct (level conf =? 6); lia.
  - apply Forall_cons_iff in Hw as [Hx _]. rewrite memcpy_all by done.
    apply (block_eq (size conf)); [done|by apply (en_wf _ _ _ Henc)|]. intros b Hb. unfold qd in Hq, Hsum.
    rewrite <- (missing_sum conf (geo sh) Hgeo V Henc b t) by (done || lia). rewrite <- Hsum. cbn. by rewrite Z.lxor_0_r.
  - rewrite Hp. apply xor_target; [done|lia|done|]. rewrite <- Hp. cbn. lia.
Qed.

Lemma after_upd_compute t p : after_compute (upd t computed (upd t (set_page p) sh)) = after_compute (upd t (fun d => computed (set_page p d)) sh).
Proof. by rewrite upd_upd. Qed.

Lemma compute5_ok t :
  level conf <> 6 -> ops_target sh = t -> ops_target2 sh = -1 -> 0 <= t < n ->
  test_bit R5_Wantcompute (dev sh t) = true -> known (fun i => negb (i =? t)) ->
  ops_run_compute5 conf tx sh = Some (after_compute (upd t (fun d => computed (set_page (V t) d)) sh)).
Proof.
  intros Hl <- Ht2 Ht Hw Hk. unfold ops_run_compute5. rewrite Hw. cbn [negb bug_on].
  rewrite xor_or_copy_target by (done || by apply Hwf). rewrite Hn in Ht.
  rewrite complete_compute_1; autorewrite with stripe; [by rewrite upd_upd|done|lia|by rewrite dev_upd_eq].
Qed.

(** ** Two parity blocks *)

Definition vblocks (W : Z -> block) (srcs : list (option nat)) : list (option block) := map (fmap (fun k => W (Z.of_nat k))) srcs.

Lemma vblocks_app W a b : vblocks W (a ++ b) = vblocks W a ++ vblocks W b.
Proof. apply map_app. Qed.

Lemma store_targets srcs bs T :
  Forall2 (fun o b => match o with Some k => b = Some (V (Z.of_nat k)) | None => True end) srcs bs ->
  Forall (fun o => match o with Some k => (k < disks sh)%nat | None => True end) srcs ->
  NoDup T -> (forall t, t ∈ T -> 0 <= t < n /\ Some (Z.to_nat t) ∈ srcs) ->
  (forall k, Some k ∈ srcs -> Z.of_nat k ∉ T -> page (dev sh (Z.of_nat k)) = V (Z.of_nat k)) ->
  store_blocks srcs bs sh = set_pages V T sh.
Proof.
  intros Hbs Hr HT HTr Hk. destruct (store_blocks_devs V srcs bs sh Hbs Hr) as (H1 & H2 & H3).
  assert (forall i, 0 <= i < n -> disks (set_pages V T sh) = disks sh /\ with_devs [] (set_pages V T sh) = with_devs [] sh /\
    dev (set_pages V T sh) i = if bool_decide (i ∈ T) then set_page (V i) (dev sh i) else dev sh i) as HS.
  { intros i Hi. apply (set_pages_dev V); [done|intros t Ht; rewrite <- Hn; by apply HTr|lia]. }
  pose proof (go_pd _ _ Hgeo) as Hp. destruct (HS _ Hp) as (HS1 & HS2 & _). apply stripe_ext; [congruence| |congruence].
  intros i Hi. rewrite H1, <- Hn in Hi. destruct (HS i Hi) as (_ & _ & ->). rewrite H3 by lia. unfold member_of.
  destruct (decide (i ∈ T)) as [HiT|HiT].
  - destruct (HTr i HiT) as [_ Hin]. by rewrite !bool_decide_true.
  - rewrite (bool_decide_false (i ∈ T)) by done. case_bool_decide as Hm; [|done].
    specialize (Hk _ Hm). rewrite Z2Nat.id in Hk by lia. rewrite <- Hk by done. apply set_page_id.
Qed.

Context (Hlevel : level conf = 6).

Lemma slots : slots_ok (geo sh).
Proof. by apply (go_slots conf). Qed.

Lemma qd_range : 0 <= qd sh < n /\ qd sh <> pd sh.
Proof. pose proof (go_qd _ _ Hgeo) as Hq. rewrite Hlevel in Hq. done. Qed.

Lemma slot_devs_count : (2 <= length (slot_devs (geo sh)) <= 253)%nat.
Proof.
  rewrite length_slot_devs. pose proof (so_count _ slots). pose proof (go_disks _ _ Hgeo). unfold syndrome_disks in *.
  destruct (level conf =? 6), (ddf_layout _); lia.
Qed.

Lemma vblocks_wf W srcs :
  (forall k, Some k ∈ srcs -> wf_block (size conf) (W (Z.of_nat k))) -> Forall (wf_oblock (size conf)) (vblocks W srcs).
Proof. intros H. apply Forall_map, Forall_forall. intros [k|] Hk; [|done]. cbn. apply H. by apply list_elem_of_In. Qed.

Lemma slot_wf W : (forall i, 0 <= i < n -> wf_block (size conf) (W i)) -> Forall (wf_oblock (size conf)) (vblocks W (slot_devs (geo sh))).
Proof. intros H. apply vblocks_wf. intros k Hk. apply H. by apply (slot_devs_member _ _ slots). Qed.

(** The syndromes of an encoding. *)
Lemma encoding_p b : (b < size conf)%nat -> p_syn (ocol (vblocks V (slot_devs (geo sh))) b) = pget (V (pd sh)) b.
Proof.
  intros Hb. unfold pd. rewrite (en_p _ _ _ Henc) by done. rewrite <- (p_slots _ (fun i => pget (V i) b) slots).
  unfold ocol, vblocks. rewrite map_map. f_equal. apply map_ext. by intros [].
Qed.

Lemma encoding_q b : (b < size conf)%nat -> q_syn (ocol (vblocks V (slot_devs (geo sh))) b) = pget (V (qd sh)) b.
Proof. intros Hb. unfold qd. by rewrite (en_q _ _ _ Henc). Qed.

(** The blocks of the data slots, where they are known. *)
Lemma data_blocks : known (is_data (geo sh)) -> blocks sh (slot_devs (geo sh)) = vblocks V (slot_devs (geo sh)).
Proof.
  intros Hk. unfold blocks, vblocks. apply map_ext_in. intros [k|] Hin%list_elem_of_In; [|done]. cbn.
  destruct (slot_devs_member _ _ slots Hin) as [Hr Hd]. by rewrite Hk.
Qed.

Lemma blocks_app a b : blocks sh (a ++ b) = blocks sh a ++ blocks sh b.
Proof. apply map_app. Qed.

Definition srcs_with (o : option nat) : list (option nat) := slot_devs (geo sh) ++ [o; Some (Z.to_nat (qd sh))].

Lemma vblocks_forall2 srcs : Forall2 (fun o b => match o with Some k => b = Some (V (Z.of_nat k)) | None => True end) srcs (vblocks V srcs).
Proof. induction srcs as [|[k|] srcs IH]; by constructor. Qed.

(** Recomputing the parity from known data. *)
Lemma gen_known (o : option nat) :
  known (is_data (geo sh)) -> o = None \/ o = Some (Z.to_nat (pd sh)) ->
  async_gen_syndrome tx false (size conf) (blocks sh (srcs_with o)) = vblocks V (srcs_with o).
Proof.
  intros Hk Ho. destruct qd_range as [Hq _]. pose proof (go_pd _ _ Hgeo) as Hp. fold (pd sh) in Hp.
  unfold srcs_with. rewrite blocks_app, data_blocks by done. cbn [blocks map].
  rewrite gen_ok; [|..].
  - rewrite vblocks_app. f_equal. cbn [vblocks map fmap option_fmap option_map].
    rewrite Z2Nat.id by lia. f_equal; [|f_equal; f_equal].
    + destruct Ho as [->| ->]; [done|]. cbn. f_equal. rewrite Z2Nat.id by lia.
      apply build_eq; [by apply (en_wf _ _ _ Henc)|]. intros b Hb. by rewrite encoding_p.
    + apply build_eq; [by apply (en_wf _ _ _ Henc)|]. intros b Hb. by rewrite encoding_q.
  - apply Forall_app. split; [apply slot_wf, (en_wf _ _ _ Henc)|]. repeat constructor; cbn.
    + destruct Ho as [->| ->]; [done|]. cbn. rewrite Z2Nat.id by lia. by apply Hwf.
    + rewrite Z2Nat.id by lia. by apply Hwf.
    + rewrite Z2Nat.id by lia. by apply Hwf.
  - unfold vblocks. rewrite length_map. apply slot_devs_count.
Qed.

Lemma slot_lookup_inv k m : slot_devs (geo sh) !! k = Some (Some m) -> slot_of sh (Z.of_nat m) = Z.of_nat k.
Proof.
  unfold slot_devs. rewrite list_lookup_fmap. intros (x & Hk & Hx)%fmap_Some.
  apply lookup_seqZ in Hk as [-> Hk]. symmetry in Hx. apply slot_dev_inv in Hx as (i & -> & Hi).
  pose proof (slot_range _ slots _ _ Hi). rewrite Z2Nat.id by lia. rewrite (slot_of_spec sh i _ slots Hi). lia.
Qed.

(** Inserting the page of a target over its block. *)
Lemma blocks_insert (W : Z -> block) t bs :
  0 <= t < n -> is_data (geo sh) t = true -> bs = vblocks W (slot_devs (geo sh)) ->
  <[Z.to_nat (slot_of sh t) := Some (page (dev sh t))]> bs =
  vblocks (fun i => if i =? t then page (dev sh t) else W i) (slot_devs (geo sh)).
Proof.
  intros Ht Hd ->. unfold is_data in Hd. apply negb_true_iff, orb_false_iff in Hd as [Hp Hq].
  destruct (slot_of_data sh t slots Ht) as [Hs Hl]; [by apply Z.eqb_neq|by apply Z.eqb_neq|].
  apply list_eq. intros k. unfold vblocks. destruct (decide (k = Z.to_nat (slot_of sh t))) as [->|Hne].
  - rewrite list_lookup_insert_eq by (rewrite length_map, length_slot_devs; lia). rewrite list_lookup_fmap, Hl. cbn.
    rewrite Z2Nat.id by lia. by rewrite Z.eqb_refl.
  - rewrite list_lookup_insert_ne by done. rewrite !list_lookup_fmap. destruct (slot_devs (geo sh) !! k) as [[m|]|] eqn:Hk; [|done..].
    cbn. rewrite (proj2 (Z.eqb_neq (Z.of_nat m) t)); [done|]. intros Hm. apply Hne.
    rewrite <- Hm, (slot_lookup_inv k m Hk). lia.
Qed.

Lemma blocks_vblocks s srcs : blocks s srcs = vblocks (fun i => page (dev s i)) srcs.
Proof. done. Qed.

Lemma vblocks_ext W1 W2 srcs : (forall k, Some k ∈ srcs -> W1 (Z.of_nat k) = W2 (Z.of_nat k)) -> vblocks W1 srcs = vblocks W2 srcs.
Proof. intros H. apply map_ext_in. intros [k|] Hk%list_elem_of_In; [|done]. cbn. by rewrite H. Qed.

Lemma known_ext (k1 k2 : Z -> bool) : known k1 -> (forall i, 0 <= i < n -> k2 i = true -> k1 i = true) -> known k2.
Proof. intros Hk H i Hi Hki. apply Hk; [done|]. by apply H. Qed.

Lemma srcs_range o :
  o = None \/ o = Some (Z.to_nat (pd sh)) ->
  Forall (fun o => match o with Some k => (k < disks sh)%nat | None => True end) (srcs_with o).
Proof.
  intros Ho. destruct qd_range as [Hq _]. pose proof (go_pd _ _ Hgeo) as Hp. fold (pd sh) in Hp.
  apply Forall_app. split; [|repeat constructor; [destruct Ho as [->| ->]; [done|lia]|lia]].
  apply Forall_forall. intros [k|] Hk; [|done]. apply list_elem_of_In in Hk. destruct (slot_devs_member _ _ slots Hk). lia.
Qed.

Lemma in_srcs o k : Some k ∈ srcs_with o -> (is_data (geo sh) (Z.of_nat k) = true /\ 0 <= Z.of_nat k < n) \/ o = Some k \/ Z.of_nat k = qd sh.
Proof.
  destruct qd_range as [Hq _]. unfold srcs_with. intros [Hk|Hk]%elem_of_app.
  - destruct (slot_devs_member _ _ slots Hk). auto.
  - apply elem_of_cons in Hk as [->|Hk]; [auto|]. apply list_elem_of_singleton in Hk as [= ->]. right. right. lia.
Qed.

(** The pages after recomputing the parity. *)
Lemma store_gen o T :
  known (is_data (geo sh)) -> o = None \/ o = Some (Z.to_nat (pd sh)) -> NoDup T ->
  (forall t, t ∈ T <-> t = qd sh \/ (o <> None /\ t = pd sh)) ->
  store_blocks (srcs_with o) (async_gen_syndrome tx false (size conf) (blocks sh (srcs_with o))) sh = set_pages V T sh.
Proof.
  intros Hk Ho HT HTin. destruct qd_range as [Hq _]. pose proof (go_pd _ _ Hgeo) as Hp. fold (pd sh) in Hp.
  rewrite gen_known by done. apply store_targets; [apply vblocks_forall2|by apply srcs_range|done|..].
  - intros t [->|[Hne ->]]%HTin; (split; [done|]); unfold srcs_with; apply elem_of_app; right.
    + right. by left.
    + destruct Ho as [->| ->]; [done|by left].
  - intros k [[Hd Hr]|[->|Hkq]]%in_srcs HkT; [by apply Hk|..]; destruct HkT; apply HTin; [|auto].
    destruct Ho as [?|[= ->]]; [done|]. right. split; [done|]. lia.
Qed.

Lemma sources_all : sources sh SYNDROME_SRC_ALL = (srcs_with (Some (Z.to_nat (pd sh))), length (slot_devs (geo sh))).
Proof. rewrite sources_eq by apply slots. by rewrite chosen_all. Qed.

Lemma drop_p o : <[length (slot_devs (geo sh)) := None]> (srcs_with o) = srcs_with None.
Proof. unfold srcs_with. rewrite insert_app_r_alt by done. by rewrite Nat.sub_diag. Qed.

Lemma q_slot o : srcs_with o !! (length (slot_devs (geo sh)) + 1)%nat = Some (Some (Z.to_nat (qd sh))).
Proof. unfold srcs_with. rewrite lookup_app_r by lia. by replace (length (slot_devs (geo sh)) + 1 - _)%nat with 1%nat by lia. Qed.

(** The stripe with the targets computed. *)
Definition recovered (T : list Z) (s : stripe) : stripe :=
  after_compute (foldr (fun t s => upd t (fun d => computed (set_page (V t) d)) s) s T).

Lemma set_pages_one t : 0 <= t < n -> ops_target sh = t -> ops_target2 sh = -1 -> test_bit R5_Wantcompute (dev sh t) = true ->
  ops_complete_compute (set_pages V [t] sh) = Some (recovered [t] sh).
Proof.
  intros Ht <- Ht2 Hw. rewrite Hn in Ht. cbn [set_pages recovered foldr].
  rewrite complete_compute_1; autorewrite with stripe; [by rewrite upd_upd|done|lia|by rewrite dev_upd_eq].
Qed.

Lemma set_pages_two t t2 : 0 <= t < n -> 0 <= t2 < n -> t <> t2 -> ops_target sh = t -> ops_target2 sh = t2 ->
  test_bit R5_Wantcompute (dev sh t) = true -> test_bit R5_Wantcompute (dev sh t2) = true ->
  ops_complete_compute (set_pages V [t; t2] sh) = Some (recovered [t; t2] sh).
Proof.
  intros Ht Ht2 Hne <- <- Hw Hw2. rewrite Hn in Ht, Ht2. cbn [set_pages recovered foldr].
  rewrite complete_compute_2; autorewrite with stripe; [|done..| |].
  - rewrite (upd_upd (ops_target sh)), (upd_comm (ops_target2 sh)) by lia. by rewrite upd_upd.
  - rewrite dev_upd_eq, dev_upd_ne by (rewrite ?disks_upd; lia). done.
  - rewrite dev_upd_ne, dev_upd_eq by (rewrite ?disks_upd; lia). done.
Qed.

Lemma is_data_not i : is_data (geo sh) i = true <-> i <> pd sh /\ i <> qd sh.
Proof. unfold is_data, pd, qd. rewrite negb_true_iff, orb_false_iff, !Z.eqb_neq. done. Qed.

Lemma compute6_1_ok t :
  ops_target sh = t -> ops_target2 sh = -1 -> 0 <= t < n ->
  test_bit R5_Wantcompute (dev sh t) = true -> known (fun i => negb (i =? t)) ->
  ops_run_compute6_1 conf tx sh = Some (recovered [t] sh).
Proof.
  intros Ht1 Ht2 Ht Hw Hk. unfold ops_run_compute6_1. rewrite Ht1, Ht2. assert ((t <? 0) = false) as Hlt by (apply Z.ltb_ge; lia).
  rewrite Hlt. change (-1 <? 0) with true. cbn [negb andb bug_on]. rewrite Hlt. cbn [bug_on]. rewrite Hw. cbn [negb bug_on]. destruct (Z.eqb_spec t (qd sh)) as [Hq|Hq].
  - rewrite sources_all, drop_p, q_slot, bool_decide_true by (by rewrite Hq). cbn [negb bug_on].
    rewrite (store_gen None [qd sh]); [rewrite <- Hq; by apply set_pages_one| |by left|by repeat constructor; set_solver|set_solver].
    eapply known_ext; [done|]. intros i Hi [_ Hiq]%is_data_not. apply negb_true_iff, Z.eqb_neq. congruence.
  - rewrite xor_target; [by apply set_pages_one|done..| |].
    + eapply known_ext; [done|]. intros i Hi [H1 _]%andb_true_iff. done.
    + rewrite length_pages_down, <- Hn. by apply count_others_q.
Qed.

Lemma length_srcs_slots : Z.of_nat (length (slot_devs (geo sh))) = syndrome_disks (geo sh).
Proof. rewrite length_slot_devs. pose proof (so_count _ slots). lia. Qed.

Lemma slot_of_pd : slot_of sh (pd sh) = syndrome_disks (geo sh).
Proof. apply slot_of_spec; [apply slots|]. apply (so_pd _ slots). Qed.

Lemma slot_of_qd : slot_of sh (qd sh) = syndrome_disks (geo sh) + 1.
Proof. apply slot_of_spec; [apply slots|]. apply (so_qd _ slots). Qed.

Lemma slot_of_inj t t2 : 0 <= t < n -> 0 <= t2 < n -> slot_of sh t = slot_of sh t2 -> t = t2.
Proof.
  intros Ht Ht2 Heq. destruct (slot_in _ slots t Ht) as [k Hk], (slot_in _ slots t2 Ht2) as [k2 Hk2].
  rewrite (slot_of_spec sh t k slots Hk), (slot_of_spec sh t2 k2 slots Hk2) in Heq. subst k2.
  pose proof (find_pair snd (syndrome_slots (geo sh)) (t, k) fst (so_slots _ slots) Hk) as H1.
  pose proof (find_pair snd (syndrome_slots (geo sh)) (t2, k) fst (so_slots _ slots) Hk2) as H2. cbn in *. congruence.
Qed.

(** The parity and data of [V] meet the premises of the recovery functions. *)
Lemma parity_of_V b : (b < size conf)%nat ->
  pget (V (pd sh)) b = p_syn (ocol (vblocks V (slot_devs (geo sh))) b) /\
  pget (V (qd sh)) b = q_syn (ocol (vblocks V (slot_devs (geo sh))) b).
Proof. intros Hb. by rewrite encoding_p, encoding_q. Qed.

Lemma all_V_wf :
  Forall (wf_oblock (size conf)) (vblocks V (slot_devs (geo sh)) ++ [Some (V (pd sh)); Some (V (qd sh))]).
Proof.
  destruct qd_range as [Hq _]. pose proof (go_pd _ _ Hgeo) as Hp. fold (pd sh) in Hp.
  apply Forall_app. split; [apply slot_wf, (en_wf _ _ _ Henc)|]. repeat constructor; cbn; by apply (en_wf _ _ _ Henc).
Qed.

Lemma vblocks_lookup t :
  0 <= t < n -> is_data (geo sh) t = true -> vblocks V (slot_devs (geo sh)) !! Z.to_nat (slot_of sh t) = Some (Some (V t)).
Proof.
  intros Ht Hd%is_data_not. destruct (slot_of_data sh t slots Ht) as [_ Hl]; [by apply Hd..|].
  unfold vblocks. rewrite list_lookup_fmap, Hl. cbn. by rewrite Z2Nat.id by lia.
Qed.
End Compute.

Section Compute2.
Context (conf : r5conf) (tx : async_tx) {Htx : AsyncTx (size conf) tx} (sh : stripe).
Context (Hgeo : geo_ok conf (geo sh)) (Hn : sh_disks (geo sh) = Z.of_nat (disks sh)).
Context (Hwf : forall i, 0 <= i < sh_disks (geo sh) -> wf_block (size conf) (page (dev sh i))).
Context (V : Z -> block) (Henc : encodes conf (geo sh) V) (Hlevel : level conf = 6).
Context (t t2 : Z) (Ht : 0 <= t < sh_disks (geo sh)) (Ht2 : 0 <= t2 < sh_disks (geo sh)) (Hne : t <> t2).
Context (Hk : known sh V (fun i => negb (i =? t) && negb (i =? t2))).
Abbreviation n := (sh_disks (geo sh)).

Lemma wf_V i : 0 <= i < n -> wf_block (size conf) (V i).
Proof. apply (en_wf _ _ _ Henc). Qed.

Lemma known_other i : 0 <= i < n -> i <> t -> i <> t2 -> page (dev sh i) = V i.
Proof. intros Hi H1 H2. apply Hk; [done|]. by rewrite !(proj2 (Z.eqb_neq _ _)). Qed.

(** A data block and Q: the sum without Q, then the syndromes. *)
Lemma recover_dq D :
  is_data (geo sh) D = true -> (t = D /\ t2 = qd sh) \/ (t2 = D /\ t = qd sh) ->
  let s := upd D (set_page (async_xor_offs tx (size conf) (pages_down (fun i _ => negb (i =? D) && negb (i =? qd sh)) sh))) sh in
  let srcs := srcs_with sh (Some (Z.to_nat (pd sh))) in
  store_blocks srcs (async_gen_syndrome tx false (size conf) (blocks s srcs)) s = set_pages V [t; t2] sh.
Proof.
  intros Hd HT s srcs. pose proof (is_data_not sh D) as [HD _]. destruct (HD Hd) as [HDp HDq].
  destruct (qd_range conf sh Hgeo Hlevel) as [Hq Hqp]. pose proof (go_pd _ _ Hgeo) as Hp. fold (pd sh) in Hp.
  assert (0 <= D < n) as HDr by (destruct HT as [[<- _]|[<- _]]; done).
  assert (s = upd D (set_page (V D)) sh) as Hs.
  { unfold s. f_equal. f_equal. apply xor_target with (V := V); [done..| |].
    - intros i Hi Hki. apply andb_true_iff in Hki as [?%negb_true_iff%Z.eqb_neq ?%negb_true_iff%Z.eqb_neq].
      apply known_other; [done|destruct HT; naive_solver..].
    - rewrite length_pages_down, <- Hn. by eapply count_others_q. }
  assert (forall i, 0 <= i < n -> page (dev s i) = if i =? D then V D else page (dev sh i)) as Hpg.
  { intros i Hi. rewrite Hs, dev_upd by lia. destruct (Z.eqb_spec D i) as [<-|]; [by rewrite Z.eqb_refl, page_set_page|].
    by rewrite (proj2 (Z.eqb_neq i D)) by done. }
  assert (geo s = geo sh) as Hgs by (by rewrite Hs). assert (disks s = disks sh) as Hds by (by rewrite Hs, disks_upd).
  unfold srcs. replace (srcs_with sh (Some (Z.to_nat (pd sh)))) with (srcs_with s (Some (Z.to_nat (pd s)))) by (unfold srcs_with, pd, qd; by rewrite Hgs).
  rewrite (store_gen conf tx s) with (V := V) (T := [pd sh; qd sh]).
  - assert (forall i, 0 <= i < n -> disks (set_pages V [pd sh; qd sh] s) = disks sh /\
      with_devs [] (set_pages V [pd sh; qd sh] s) = with_devs [] sh /\
      dev (set_pages V [pd sh; qd sh] s) i = if bool_decide (i ∈ [pd sh; qd sh]) then set_page (V i) (dev s i) else dev s i) as HS1.
    { intros i Hi. destruct (set_pages_dev V [pd sh; qd sh] s i) as (H1 & H2 & H3); [|rewrite Hds, <- Hn; set_solver|lia|].
      - repeat constructor; set_solver.
      - rewrite H1, H2, Hds. split; [done|]. split; [by rewrite Hs|done]. }
    assert (forall i, 0 <= i < n -> disks (set_pages V [t; t2] sh) = disks sh /\
      with_devs [] (set_pages V [t; t2] sh) = with_devs [] sh /\
      dev (set_pages V [t; t2] sh) i = if bool_decide (i ∈ [t; t2]) then set_page (V i) (dev sh i) else dev sh i) as HS2.
    { intros i Hi. apply set_pages_dev; [repeat constructor; clear -Hne; set_solver|rewrite <- Hn; clear -Ht Ht2; set_solver|lia]. }
    destruct (HS1 _ Hp) as (E1 & F1 & _), (HS2 _ Hp) as (E2 & F2 & _). apply stripe_ext; [congruence| |congruence].
    intros i Hi. rewrite E1, <- Hn in Hi. destruct (HS1 i Hi) as (_ & _ & ->), (HS2 i Hi) as (_ & _ & ->).
    rewrite Hs, dev_upd by lia. rewrite !(bool_decide_ext (i ∈ [_; _]) (i = _ \/ i = _)) by (by rewrite elem_of_cons, list_elem_of_singleton).
    assert (i = pd sh -> page (dev sh i) = V i) as Hpk by (intros ->; apply known_other; [done|destruct HT; naive_solver..]).
    destruct (decide (i = D)) as [->|HiD].
    + rewrite Z.eqb_refl, bool_decide_false, bool_decide_true by (destruct HT; naive_solver). done.
    + rewrite (proj2 (Z.eqb_neq D i)) by done. destruct (decide (i = qd sh)) as [->|Hiq].
      * rewrite !bool_decide_true by (destruct HT; naive_solver). done.
      * rewrite (bool_decide_false (i = t \/ i = t2)) by (destruct HT; naive_solver). case_bool_decide as Hc; [|done].
        rewrite <- Hpk by (destruct Hc; done). apply set_page_id.
  - by rewrite Hgs.
  - by rewrite Hgs, Hds.
  - intros i Hi. rewrite Hgs in Hi. rewrite Hpg by done. case_match; [by apply wf_V|by apply Hwf].
  - by rewrite Hgs.
  - done.
  - intros i Hi Hdi. rewrite Hgs in Hi, Hdi. apply (is_data_not sh) in Hdi as [Hip Hiq]. rewrite Hpg by done.
    destruct (Z.eqb_spec i D) as [->|]; [done|]. apply known_other; [done|destruct HT; naive_solver..].
  - by right.
  - repeat constructor; set_solver.
  - intros i. unfold pd, qd. rewrite Hgs. rewrite elem_of_cons, list_elem_of_singleton. clear. naive_solver.
Qed.

(** Two data blocks. *)
Lemma recover_dd a b :
  is_data (geo sh) a = true -> is_data (geo sh) b = true -> (a = t /\ b = t2) \/ (a = t2 /\ b = t) ->
  slot_of sh a < slot_of sh b ->
  let srcs := srcs_with sh (Some (Z.to_nat (pd sh))) in
  async_raid6_2data_recov tx (size conf) (Z.to_nat (slot_of sh a)) (Z.to_nat (slot_of sh b)) (blocks sh srcs) = vblocks V srcs.
Proof.
  intros Ha Hb HT Hlt srcs. destruct (qd_range conf sh Hgeo Hlevel) as [Hq Hqp]. pose proof (go_pd _ _ Hgeo) as Hp. fold (pd sh) in Hp.
  pose proof (proj1 (is_data_not sh a) Ha) as [Hap Haq]. pose proof (proj1 (is_data_not sh b) Hb) as [Hbp Hbq].
  assert (0 <= a < n /\ 0 <= b < n /\ a <> b) as (Har & Hbr & Hab) by (destruct HT as [[-> ->]|[-> ->]]; done).
  assert (page (dev sh (pd sh)) = V (pd sh) /\ page (dev sh (qd sh)) = V (qd sh)) as [Hpp Hpq].
  { split; apply known_other; destruct HT as [[-> ->]|[-> ->]]; done. }
  assert (forall o, blocks sh [o; Some (Z.to_nat (qd sh))] = [(fun k => page (dev sh (Z.of_nat k))) <$> o; Some (V (qd sh))]) as Hbl.
  { intros o. cbn. rewrite Z2Nat.id by lia. by rewrite Hpq. }
  unfold srcs, srcs_with. rewrite blocks_app, vblocks_app, Hbl. cbn [vblocks map fmap option_fmap option_map].
  rewrite !Z2Nat.id, Hpp by lia.
  rewrite <- (recov_2data_ok (vblocks V (slot_devs (geo sh))) (V (pd sh)) (V (qd sh)) (Z.to_nat (slot_of sh a)) (Z.to_nat (slot_of sh b))
    (V a) (V b) (page (dev sh a)) (page (dev sh b))).
  - f_equal. f_equal. rewrite (blocks_insert conf sh Hgeo Hlevel V b _ Hbr Hb eq_refl).
    rewrite (blocks_insert conf sh Hgeo Hlevel _ a _ Har Ha eq_refl). rewrite blocks_vblocks. apply vblocks_ext. intros k Hin.
    destruct (slot_devs_member _ _ (slots conf sh Hgeo Hlevel) Hin) as [Hkr Hkd].
    destruct (Z.eqb_spec (Z.of_nat k) a) as [->|]; [done|]. destruct (Z.eqb_spec (Z.of_nat k) b) as [->|]; [done|].
    apply known_other; destruct HT as [[-> ->]|[-> ->]]; done.
  - by apply all_V_wf.
  - unfold vblocks. rewrite length_map. by eapply slot_devs_count.
  - intros x Hx. by apply parity_of_V with (conf := conf).
  - destruct (slot_of_data sh a (slots conf sh Hgeo Hlevel) Har Hap Haq). lia.
  - by apply vblocks_lookup with (conf := conf).
  - by apply vblocks_lookup with (conf := conf).
  - by apply Hwf.
  - by apply Hwf.
Qed.

(** A data block and P. *)
Lemma recover_dp a :
  is_data (geo sh) a = true -> (a = t /\ pd sh = t2) \/ (a = t2 /\ pd sh = t) ->
  let srcs := srcs_with sh (Some (Z.to_nat (pd sh))) in
  async_raid6_datap_recov tx (size conf) (Z.to_nat (slot_of sh a)) (blocks sh srcs) = vblocks V srcs.
Proof.
  intros Ha HT srcs. destruct (qd_range conf sh Hgeo Hlevel) as [Hq Hqp]. pose proof (go_pd _ _ Hgeo) as Hp. fold (pd sh) in Hp.
  pose proof (proj1 (is_data_not sh a) Ha) as [Hap Haq].
  assert (0 <= a < n) as Har by (destruct HT as [[-> _]|[-> _]]; done).
  assert (page (dev sh (qd sh)) = V (qd sh)) as Hpq by (apply known_other; destruct HT as [[-> <-]|[-> <-]]; done).
  assert (forall o, blocks sh [o; Some (Z.to_nat (qd sh))] = [(fun k => page (dev sh (Z.of_nat k))) <$> o; Some (V (qd sh))]) as Hbl.
  { intros o. cbn. rewrite Z2Nat.id by lia. by rewrite Hpq. }
  unfold srcs, srcs_with. rewrite blocks_app, vblocks_app, Hbl. cbn [vblocks map fmap option_fmap option_map].
  rewrite !Z2Nat.id by lia.
  rewrite <- (recov_datap_ok (vblocks V (slot_devs (geo sh))) (V (pd sh)) (V (qd sh)) (Z.to_nat (slot_of sh a))
    (V a) (page (dev sh a)) (page (dev sh (pd sh)))).
  - f_equal. f_equal. rewrite (blocks_insert conf sh Hgeo Hlevel V a _ Har Ha eq_refl).
    rewrite blocks_vblocks. apply vblocks_ext. intros k Hin.
    destruct (slot_devs_member _ _ (slots conf sh Hgeo Hlevel) Hin) as [Hkr Hkd]. apply (is_data_not sh) in Hkd as [Hkp Hkq].
    destruct (Z.eqb_spec (Z.of_nat k) a) as [->|]; [done|]. apply known_other; destruct HT as [[-> <-]|[-> <-]]; done.
  - by apply all_V_wf.
  - unfold vblocks. rewrite length_map. by eapply slot_devs_count.
  - intros x Hx. by apply parity_of_V with (conf := conf).
  - by apply vblocks_lookup with (conf := conf).
  - by apply Hwf.
  - by apply Hwf.
Qed.

Lemma store_all :
  let srcs := srcs_with sh (Some (Z.to_nat (pd sh))) in
  (forall i, i = t \/ i = t2 -> is_data (geo sh) i = true \/ i = pd sh) -> store_blocks srcs (vblocks V srcs) sh = set_pages V [t; t2] sh.
Proof.
  intros srcs HT. pose proof (go_pd _ _ Hgeo) as Hp. fold (pd sh) in Hp. destruct (qd_range conf sh Hgeo Hlevel) as [Hq Hqp].
  apply (store_targets conf sh Hgeo Hn V); [apply vblocks_forall2|apply (srcs_range conf sh Hgeo Hn Hlevel); auto| |..].
  - apply list.NoDup_cons. rewrite list_elem_of_singleton. split; [done|apply NoDup_singleton].
  - intros i Hi. rewrite elem_of_cons, list_elem_of_singleton in Hi.
    assert (0 <= i < n) as Hir by (destruct Hi as [->| ->]; done). split; [done|]. unfold srcs, srcs_with. apply elem_of_app.
    destruct (HT i Hi) as [Hd| ->]; [left|right; by left]. pose proof (proj1 (is_data_not sh i) Hd) as [Hip Hiq].
    destruct (slot_of_data sh i (slots conf sh Hgeo Hlevel) Hir Hip Hiq) as [_ Hl]. by apply list_elem_of_lookup_2 in Hl.
  - intros k Hin HkT. rewrite elem_of_cons, list_elem_of_singleton in HkT.
    apply known_other; [|naive_solver..]. apply (in_srcs conf sh Hgeo Hlevel) in Hin as [[_ Hr]|[[= <-]|Hkq]]; lia.
Qed.

Lemma slot_of_lt i : 0 <= i < n -> is_data (geo sh) i = true -> 0 <= slot_of sh i < syndrome_disks (geo sh).
Proof.
  intros Hi [Hp Hq]%(is_data_not sh). by apply (slot_of_data sh i (slots conf sh Hgeo Hlevel)).
Qed.

Lemma data_or_parity i : is_data (geo sh) i = true \/ i = pd sh \/ i = qd sh.
Proof.
  destruct (is_data (geo sh) i) eqn:H; [by left|right]. apply not_true_iff_false in H.
  destruct (decide (i = pd sh)); [auto|]. destruct (decide (i = qd sh)); [auto|]. destruct H. by apply (is_data_not sh).
Qed.

Context (Hw : test_bit R5_Wantcompute (dev sh t) = true) (Hw2 : test_bit R5_Wantcompute (dev sh t2) = true).
Context (Ht1 : ops_target sh = t) (Ht1' : ops_target2 sh = t2).

(** The targets in the order of their slots. *)
Lemma compute6_2_sorted a b :
  (a = t /\ b = t2) \/ (a = t2 /\ b = t) -> slot_of sh a < slot_of sh b ->
  let srcs := srcs_with sh (Some (Z.to_nat (pd sh))) in
  (if slot_of sh b =? syndrome_disks (geo sh) + 1 then
    if slot_of sh a =? syndrome_disks (geo sh) then
      ops_complete_compute (store_blocks srcs (async_gen_syndrome tx false (size conf) (blocks sh srcs)) sh)
    else
      let data_target := if t =? qd sh then t2 else t in
      let xor_srcs := pages_down (fun i _ => negb (i =? data_target) && negb (i =? qd sh)) sh in
      let s := upd data_target (set_page (async_xor_offs tx (size conf) xor_srcs)) sh in
      let '(srcs, count) := sources s SYNDROME_SRC_ALL in
      ops_complete_compute (store_blocks srcs (async_gen_syndrome tx false (size conf) (blocks s srcs)) s)
  else if slot_of sh b =? syndrome_disks (geo sh) then
    ops_complete_compute
      (store_blocks srcs (async_raid6_datap_recov tx (size conf) (Z.to_nat (slot_of sh a)) (blocks sh srcs)) sh)
  else
    ops_complete_compute
      (store_blocks srcs (async_raid6_2data_recov tx (size conf) (Z.to_nat (slot_of sh a)) (Z.to_nat (slot_of sh b)) (blocks sh srcs)) sh))
  = Some (recovered V [t; t2] sh).
Proof.
  intros HT Hlt srcs. destruct (qd_range conf sh Hgeo Hlevel) as [Hq Hqp]. pose proof (go_pd _ _ Hgeo) as Hp. fold (pd sh) in Hp.
  assert (0 <= a < n /\ 0 <= b < n) as [Har Hbr] by (destruct HT as [[-> ->]|[-> ->]]; done).
  pose proof (slot_of_pd conf sh Hgeo Hlevel) as Hsp. pose proof (slot_of_qd conf sh Hgeo Hlevel) as Hsq.
  pose proof (fun i => slot_of_lt i) as Hlt'.
  assert (ops_complete_compute (set_pages V [t; t2] sh) = Some (recovered V [t; t2] sh)) as Hdone by (by apply set_pages_two).
  destruct (data_or_parity b) as [Hb|[Hb|Hb]].
  - pose proof (Hlt' b Hbr Hb). destruct (data_or_parity a) as [Ha|[->| ->]]; [|lia..]. rewrite !(proj2 (Z.eqb_neq _ _)) by lia.
    unfold srcs. rewrite recover_dd by done. rewrite store_all; [done|]. intros i Hi. left. destruct HT as [[-> ->]|[-> ->]], Hi as [->| ->]; done.
  - rewrite Hb, Hsp in *. rewrite (proj2 (Z.eqb_neq _ (_ + 1))), Z.eqb_refl by lia.
    destruct (data_or_parity a) as [Ha|[->| ->]]; [|lia..]. unfold srcs.
    rewrite recover_dp by (done || destruct HT as [[-> ->]|[-> ->]]; auto).
    rewrite store_all; [done|]. intros i Hi. destruct HT as [[-> Ht']|[-> Ht']], Hi as [->| ->]; auto.
  - rewrite Hb, Hsq, Z.eqb_refl in *. destruct (data_or_parity a) as [Ha|[Ha|Ha]]; [|rewrite Ha in *; lia || idtac..].
    + pose proof (Hlt' a Har Ha). rewrite (proj2 (Z.eqb_neq (slot_of sh a) _)) by lia. cbv zeta.
      pose proof (proj1 (is_data_not sh a) Ha) as [_ Haq].
      assert ((if t =? qd sh then t2 else t) = a) as ->.
      { destruct HT as [[-> Ht']|[-> Ht']]; [by rewrite (proj2 (Z.eqb_neq t (qd sh)))|]. by rewrite Ht', Z.eqb_refl. }
      rewrite sources_eq, chosen_all by (by apply (slots conf)).
      match goal with |- context [slot_devs (geo ?s) ++ _] =>
        change (slot_devs (geo s) ++ [Some (Z.to_nat (pd s)); Some (Z.to_nat (qd s))]) with (srcs_with sh (Some (Z.to_nat (pd sh)))) end.
      rewrite (recover_dq a Ha); [done|]. destruct HT as [[-> Ht']|[-> Ht']]; auto.
    + rewrite Hsp, Z.eqb_refl. unfold srcs. erewrite (store_gen conf tx sh Hgeo Hn Hwf V Henc Hlevel _ [t; t2]); [done| |by right|..].
      * intros i Hi Hd. apply (is_data_not sh) in Hd as [Hip Hiq]. apply known_other; [done|destruct HT; naive_solver..].
      * apply list.NoDup_cons. rewrite list_elem_of_singleton. split; [done|apply NoDup_singleton].
      * intros i. rewrite elem_of_cons, list_elem_of_singleton. destruct HT as [[H1 H2]|[H1 H2]]; rewrite <- H1, <- H2; clear; naive_solver.
Qed.

Lemma compute6_2_ok : ops_run_compute6_2 conf tx sh = Some (recovered V [t; t2] sh).
Proof.
  unfold ops_run_compute6_2. rewrite Ht1, Ht1', Hw, Hw2. rewrite !(proj2 (Z.ltb_ge _ 0)) by lia. cbn [negb orb bug_on].
  rewrite (sources_all conf) by done. cbv zeta.
  assert (slot_of sh t <> slot_of sh t2) as Hs by (intros Heq; by apply (slot_of_inj conf) in Heq).
  rewrite (proj2 (Z.eqb_neq _ _)) by done. cbn [bug_on]. rewrite (length_srcs_slots conf) by done.
  destruct (Z.ltb_spec (slot_of sh t2) (slot_of sh t)); [apply compute6_2_sorted; [auto|lia]|apply compute6_2_sorted; [auto|lia]].
Qed.
End Compute2.

(** * One or two lost blocks *)

(** The blocks [T] are to be computed, and all others are those of [V]. *)
Record lost_blocks (conf : r5conf) (sh : stripe) (V : Z -> block) (T : list Z) : Prop := {
  lb_geo : geo_ok conf (geo sh);
  lb_disks : sh_disks (geo sh) = Z.of_nat (disks sh);
  lb_enc : encodes conf (geo sh) V;
  lb_wf i : 0 <= i < Z.of_nat (disks sh) -> wf_block (size conf) (page (dev sh i));
  lb_targets : (exists t, T = [t] /\ ops_target sh = t /\ ops_target2 sh = -1) \/
               (exists t t2, T = [t; t2] /\ ops_target sh = t /\ ops_target2 sh = t2 /\ t <> t2 /\ level conf = 6);
  lb_in t : t ∈ T -> 0 <= t < Z.of_nat (disks sh) /\ test_bit R5_Wantcompute (dev sh t) = true;
  lb_known i : 0 <= i < Z.of_nat (disks sh) -> i ∉ T -> page (dev sh i) = V i;
}.

Lemma lost_nodup conf sh V T : lost_blocks conf sh V T -> NoDup T.
Proof.
  intros [_ _ _ _ [(t & -> & _)|(t & t2 & -> & _ & _ & Hne & _)] _ _]; [apply NoDup_singleton|].
  apply list.NoDup_cons. rewrite list_elem_of_singleton. split; [done|apply NoDup_singleton].
Qed.

Lemma compute_lost conf tx {Htx : AsyncTx (size conf) tx} sh V T :
  lost_blocks conf sh V T -> run_compute conf tx sh = Some (recovered V T sh).
Proof.
  intros [G1 G2 He Hwf P3 P4 P6]. rewrite <- G2 in Hwf, P4, P6. unfold run_compute. assert ((level conf <? 6) = negb (level conf =? 6)) as ->.
  { destruct (go_level _ _ G1) as [-> |[-> | ->]]; done. }
  destruct P3 as [(t & -> & T1 & T2)|(t & t2 & -> & T1 & T2 & Hne & Hl)].
  - destruct (P4 t) as [Ht Hwc]; [by left|]. assert (known sh V (fun i => negb (i =? t))) as Hk.
    { intros i Hi Hn%negb_true_iff%Z.eqb_neq. apply P6; [done|]. by intros ->%list_elem_of_singleton. }
    rewrite T1, T2. change (-1 <? 0) with true. cbn [orb]. destruct (Z.eqb_spec (level conf) 6) as [Hl|Hl]; cbn [negb].
    + by apply (compute6_1_ok conf tx sh G1 G2 Hwf V He Hl).
    + by apply (compute5_ok conf tx sh G1 G2 Hwf V He).
  - destruct (P4 t) as [Ht Hwc]; [by left|]. destruct (P4 t2) as [Ht2 Hwc2]; [right; by left|].
    rewrite T1, T2, (proj2 (Z.eqb_eq _ _) Hl), !(proj2 (Z.ltb_ge _ 0)) by lia. cbn [negb orb].
    apply (compute6_2_ok conf tx sh G1 G2 Hwf V He Hl t t2); try done.
    intros i Hi [N1%negb_true_iff%Z.eqb_neq N2%negb_true_iff%Z.eqb_neq]%andb_true_iff. apply P6; [done|]. set_solver.
Qed.
