(* ===== verification/Raid5Write.v ===== *)
(** Writes to a stripe and checks of its parity, md/raid5.c: the drain of the requests and the two
    ways of updating the parity (from all data, or from the old parity and what changes) take the
    encoding of the old data to the encoding of the new data, and checks of an encoding succeed. *)

From S2P Require Import Prelude GF256 PageMem Syndrome Raid6Theorems Raid5Layout Raid5Stripe Raid5Dev Raid5Ops Raid5Machine Raid5Data Raid5Copy Raid5OpsCorrect.

(** * Loops over the devices *)

Definition mapi (h : Z -> r5dev -> r5dev) (sh : stripe) : stripe :=
  with_devs (imap (fun i d => h (Z.of_nat i) d) (devs sh)) sh.

Lemma disks_mapi h sh : disks (mapi h sh) = disks sh.
Proof. unfold disks, mapi. cbn. apply length_imap. Qed.

Lemma dev_mapi h sh i : 0 <= i < Z.of_nat (disks sh) -> dev (mapi h sh) i = h i (dev sh i).
Proof.
  intros Hi. unfold dev at 1, mapi. cbn. apply list_lookup_total_correct. rewrite list_lookup_imap, dev_lookup by done.
  cbn. by rewrite Z2Nat.id by lia.
Qed.

Lemma rest_mapi h sh : with_devs [] (mapi h sh) = with_devs [] sh.
Proof. done. Qed.

Lemma loop_down_eq {A} (f : Z -> r5dev -> A -> r5dev * A) h k ds a :
  (forall i d a, (f i d a).1 = h i d) -> (loop_down f k ds a).1 = imap (fun i d => h (k + Z.of_nat i) d) ds.
Proof.
  intros Hf. revert k a. induction ds as [|d ds IH]; intros k a; [done|]. cbn [loop_down imap].
  specialize (IH (k + 1) a). destruct (loop_down f (k + 1) ds a) as [ds' a']. specialize (Hf k d a').
  destruct (f k d a') as [d' a'']. cbn in *. subst. f_equal; [f_equal; lia|]. apply imap_ext. intros j x _. cbn. f_equal. lia.
Qed.

Lemma for_devs_eq {A} (f : Z -> r5dev -> A -> r5dev * A) h sh a :
  (forall i d a, (f i d a).1 = h i d) -> (for_devs f sh a).1 = mapi h sh.
Proof.
  intros Hf. unfold for_devs. pose proof (loop_down_eq f h 0 (devs sh) a Hf) as H.
  destruct (loop_down f 0 (devs sh) a) as [ds a']. cbn in *. by rewrite H.
Qed.

Lemma loop_down_acc {A} (f : Z -> r5dev -> A -> r5dev * A) k ds a :
  (loop_down f k ds a).2 = foldr (fun x a => (f x.1 x.2 a).2) a (imap (fun i d => (k + Z.of_nat i, d)) ds).
Proof.
  revert k. induction ds as [|d ds IH]; intros k; [done|]. cbn [loop_down imap foldr].
  assert (imap ((fun i d => (k + Z.of_nat i, d)) ∘ S) ds = imap (fun i d => (k + 1 + Z.of_nat i, d)) ds) as ->.
  { apply imap_ext. intros. cbn. f_equal. lia. }
  rewrite <- IH. destruct (loop_down f (k + 1) ds a) as [ds' a']. cbn. rewrite Z.add_0_r. by destruct (f k d a').
Qed.

Lemma devs_up_eq sh : imap (fun i d => (Z.of_nat i, d)) (devs sh) = map (fun i => (i, dev sh i)) (seqZ 0 (Z.of_nat (disks sh))).
Proof. rewrite <- (rev_involutive (imap _ _)). fold (devs_down sh). by rewrite devs_down_eq, map_rev, rev_involutive. Qed.

(** What a loop accumulates, from the last device to the first. *)
Lemma for_devs_acc {A} (f : Z -> r5dev -> A -> r5dev * A) sh a :
  (for_devs f sh a).2 = foldr (fun i a => (f i (dev sh i) a).2) a (seqZ 0 (Z.of_nat (disks sh))).
Proof.
  unfold for_devs. pose proof (loop_down_acc f 0 (devs sh) a) as H.
  destruct (loop_down f 0 (devs sh) a) as [ds a']. cbn in *. rewrite H, devs_up_eq.
  induction (seqZ 0 _) as [|i l IH]; [done|]. cbn. by rewrite IH.
Qed.

(** * Devices up to flags that only matter to the block layer *)

Definition quiet (f : r5dev_flag) : bool :=
  match f with R5_WantFUA | R5_SyncIO | R5_Overlap | R5_ReadNoMerge => true | _ => false end.

Definition sim (d d' : r5dev) : Prop := exists fl, d' = with_flags fl d /\ forall f, quiet f = false -> fl f = flags d f.

Lemma sim_refl d : sim d d.
Proof. exists (flags d). by destruct d. Qed.

Lemma sim_trans d1 d2 d3 : sim d1 d2 -> sim d2 d3 -> sim d1 d3.
Proof. intros (f1 & -> & H1) (f2 & -> & H2). exists f2. split; [done|]. intros f Hf. rewrite H2 by done. by apply H1. Qed.

Lemma sim_set_page p d d' : sim d d' -> sim (set_page p d) (set_page p d').
Proof. intros (fl & -> & H). by exists fl. Qed.

Lemma sim_set_bit f d d' : sim d d' -> sim (set_bit f d) (set_bit f d').
Proof.
  intros (fl & -> & H). exists (fun g => if r5dev_flag_beq g f then true else fl g). split; [done|].
  intros g Hg. cbn. by rewrite H.
Qed.

Lemma sim_quiet f d : quiet f = true -> sim d (set_bit f d) /\ sim d (clear_bit f d).
Proof.
  intros Hf. split; eexists; (split; [reflexivity|]); intros g Hg; cbn;
    destruct g, f; done.
Qed.

Lemma sim_page d d' : sim d d' -> page d' = page d.
Proof. by intros (fl & -> & _). Qed.

Lemma sim_flag f d d' : sim d d' -> quiet f = false -> test_bit f d' = test_bit f d.
Proof. intros (fl & -> & H) Hf. by apply H. Qed.

(** * Sums over the data of a stripe *)

Definition psum (g : stripe_head) (f : Z -> Z) : Z := p_syn (map f (data_idx g)).
Definition qsum (g : stripe_head) (f : Z -> Z) : Z :=
  q_syn (map (fun o => match o with Some k => f (Z.of_nat k) | None => 0 end) (slot_devs g)).
Definition mask (S : Z -> bool) (f : Z -> Z) (i : Z) : Z := if S i then f i else 0.

Lemma p_syn_xor {A} (f h : A -> Z) l : p_syn (map (fun i => f i ⊕ h i) l) = p_syn (map f l) ⊕ p_syn (map h l).
Proof.
  induction l as [|x l IH]; [done|]. cbn. fold (p_syn (map (fun i => f i ⊕ h i) l)). rewrite IH.
  fold (p_syn (map f l)) (p_syn (map h l)). lxor_solve.
Qed.

Lemma psum_xor g f h : psum g (fun i => f i ⊕ h i) = psum g f ⊕ psum g h.
Proof. apply p_syn_xor. Qed.

Lemma q_syn_xor {A} (f h : A -> Z) l : q_syn (map (fun x => f x ⊕ h x) l) = q_syn (map f l) ⊕ q_syn (map h l).
Proof.
  induction l as [|x l IH]; [done|]. cbn [map]. assert (forall a l, q_syn (a :: l) = xtime (q_syn l) ⊕ a) as Hc by done.
  rewrite !Hc, IH, xtime_lxor. lxor_solve.
Qed.

Lemma qsum_xor g f h : qsum g (fun i => f i ⊕ h i) = qsum g f ⊕ qsum g h.
Proof.
  unfold qsum. rewrite <- q_syn_xor. f_equal. apply map_ext. by intros [].
Qed.

Lemma psum_ext g f h : (forall i, 0 <= i < sh_disks g -> is_data g i = true -> f i = h i) -> psum g f = psum g h.
Proof.
  intros H. apply p_syn_map_ext. intros i Hi. unfold data_idx in Hi.
  rewrite list_elem_of_In, filter_In, <- list_elem_of_In, elem_of_seqZ in Hi. apply H; [lia|apply Hi].
Qed.

Lemma qsum_ext g f h : slots_ok g -> (forall i, 0 <= i < sh_disks g -> is_data g i = true -> f i = h i) -> qsum g f = qsum g h.
Proof.
  intros Hg H. unfold qsum. f_equal. apply map_ext_in. intros [k|] Hk%list_elem_of_In; [|done].
  destruct (slot_devs_member _ _ Hg Hk). by apply H.
Qed.

(** A sum over some data devices. *)
Lemma psum_mask g (S : Z -> bool) f :
  (forall i, 0 <= i < sh_disks g -> S i = true -> is_data g i = true) ->
  p_syn (map f (List.filter S (seqZ 0 (sh_disks g)))) = psum g (mask S f).
Proof.
  intros H. unfold psum, data_idx. assert (forall i, i ∈ seqZ 0 (sh_disks g) -> S i = true -> is_data g i = true) as H'.
  { intros i Hi%elem_of_seqZ. apply H. lia. }
  clear H. induction (seqZ 0 (sh_disks g)) as [|i l IH]; [done|]. specialize (IH ltac:(intros; apply H'; [by right|done])).
  specialize (H' i ltac:(by left)). assert (forall a l, p_syn (a :: l) = a ⊕ p_syn l) as Hc by done.
  cbn [List.filter]. destruct (S i) eqn:HS.
  - rewrite H' by done. cbn [map]. rewrite !Hc, IH. unfold mask at 2. by rewrite HS.
  - destruct (is_data g i); [|done]. cbn [map]. rewrite Hc, IH. unfold mask at 2. by rewrite HS.
Qed.

Lemma psum_u8 g f : (forall i, is_u8 (f i)) -> is_u8 (psum g f).
Proof. intros Hf. apply p_syn_u8, Forall_map, Forall_true. done. Qed.

Lemma qsum_u8 g f : (forall i, is_u8 (f i)) -> is_u8 (qsum g f).
Proof. intros Hf. apply q_syn_u8, Forall_map, Forall_true. intros []; auto with md. Qed.

Lemma masked_u8 S f i : (forall i, is_u8 (f i)) -> is_u8 (mask S f i).
Proof. intros Hf. unfold mask. destruct (S i); auto with md. Qed.

(** * The encoding of data *)

(** The data [D] with their parity. *)
Definition encode (conf : r5conf) (g : stripe_head) (D : Z -> block) (i : Z) : block :=
  if i =? pd_idx (sh_idx g) then build (size conf) (fun b => psum g (fun i => pget (D i) b))
  else if i =? qd_idx (sh_idx g) then build (size conf) (fun b => qsum g (fun i => pget (D i) b))
  else D i.

Lemma encode_data conf g D i : is_data g i = true -> encode conf g D i = D i.
Proof. unfold is_data, encode. intros [-> ->]%negb_true_iff%orb_false_iff. done. Qed.

Lemma qsum_blocks g (W : Z -> block) b : q_syn (ocol (map (fmap (fun k => W (Z.of_nat k))) (slot_devs g)) b) = qsum g (fun i => pget (W i) b).
Proof. unfold qsum, ocol. rewrite map_map. f_equal. apply map_ext. by intros []. Qed.

Lemma encode_encodes conf g D :
  geo_ok conf g -> (forall i, 0 <= i < sh_disks g -> is_data g i = true -> wf_block (size conf) (D i)) ->
  encodes conf g (encode conf g D).
Proof.
  intros Hg HD. pose proof (go_pd _ _ Hg) as Hp. pose proof (go_qd _ _ Hg) as Hq.
  assert (forall b i, is_u8 (if (0 <=? i) && (i <? sh_disks g) && is_data g i then pget (D i) b else 0)) as Hu.
  { intros b i. destruct (Z.leb_spec 0 i), (Z.ltb_spec i (sh_disks g)), (is_data g i) eqn:Hd; cbn; auto with md.
    apply pget_u8. apply HD; [lia|done]. }
  assert (forall b i, 0 <= i < sh_disks g -> is_data g i = true ->
    pget (D i) b = if (0 <=? i) && (i <? sh_disks g) && is_data g i then pget (D i) b else 0) as He.
  { intros b i Hi ->. rewrite (proj2 (Z.leb_le _ _)), (proj2 (Z.ltb_lt _ _)) by lia. done. }
  split.
  - intros i Hi. unfold encode. destruct (Z.eqb_spec i (pd_idx (sh_idx g))) as [->|Hip]; [|destruct (Z.eqb_spec i (qd_idx (sh_idx g))) as [->|Hiq]].
    + apply wf_build. intros b. rewrite (psum_ext _ _ _ (He b)). apply psum_u8, Hu.
    + apply wf_build. intros b. destruct (Z.eqb_spec (level conf) 6); [|lia].
      rewrite (qsum_ext _ _ _ (go_slots _ _ Hg ltac:(done)) (He b)). apply qsum_u8, Hu.
    + apply HD; [done|]. unfold is_data. by rewrite !(proj2 (Z.eqb_neq _ _)).
  - intros b Hb. unfold encode at 1. rewrite Z.eqb_refl, pget_build by done. apply psum_ext. intros i Hi Hd. by rewrite encode_data.
  - intros b Hl Hb. rewrite Hl in Hq. destruct Hq as [_ Hqp]. unfold encode at 1. rewrite (proj2 (Z.eqb_neq _ _) Hqp), Z.eqb_refl, pget_build by done.
    rewrite qsum_blocks. apply qsum_ext; [by apply (go_slots conf)|]. intros i Hi Hd. by rewrite encode_data.
Qed.

(** An encoding is that of its data. *)
Lemma encodes_eq conf g V V' :
  geo_ok conf g -> encodes conf g V -> encodes conf g V' -> (forall i, 0 <= i < sh_disks g -> is_data g i = true -> V i = V' i) ->
  forall i, 0 <= i < sh_disks g -> V i = V' i.
Proof.
  intros Hg HV HV' H i Hi. destruct (is_data g i) eqn:Hd; [by apply H|]. apply (block_eq (size conf)); [by apply HV|by apply HV'|].
  intros b Hb. unfold is_data in Hd. apply negb_false_iff, orb_true_iff in Hd as [->%Z.eqb_eq| ->%Z.eqb_eq].
  - rewrite (en_p _ _ _ HV), (en_p _ _ _ HV') by done. apply psum_ext. intros j Hj Hd. by rewrite H.
  - pose proof (go_qd _ _ Hg) as Hq. destruct (Z.eqb_spec (level conf) 6); [|lia].
    rewrite (en_q _ _ _ HV), (en_q _ _ _ HV'), !qsum_blocks by done. apply qsum_ext; [by apply (go_slots conf)|].
    intros j Hj Hd. by rewrite H.
Qed.

(** * Updating the parity *)

Section Parity.
Context (conf : r5conf) (tx : async_tx) {Htx : AsyncTx (size conf) tx} (sh : stripe).
Context (Hgeo : geo_ok conf (geo sh)) (Hn : sh_disks (geo sh) = Z.of_nat (disks sh)).
Context (Hwf : forall i, 0 <= i < sh_disks (geo sh) -> wf_block (size conf) (page (dev sh i))).
Abbreviation n := (sh_disks (geo sh)).

(** The byte at [b] of the page of the device [i]. *)
Definition byte_at (b : nat) (i : Z) : Z := pget (page (dev sh i)) b.

(** The stripe with other parity blocks. *)
Definition set_parity (P Q : nat -> Z) (s : stripe) : stripe :=
  let s := upd (pd sh) (set_page (build (size conf) P)) s in
  if level conf =? 6 then upd (qd sh) (set_page (build (size conf) Q)) s else s.

Lemma set_parity_dev P Q i :
  0 <= i < n -> dev (set_parity P Q sh) i =
    if i =? pd sh then set_page (build (size conf) P) (dev sh i)
    else if i =? qd sh then set_page (build (size conf) Q) (dev sh i) else dev sh i.
Proof.
  intros Hi. pose proof (go_pd _ _ Hgeo) as Hp. pose proof (go_qd _ _ Hgeo) as Hq. fold (pd sh) in Hp. fold (qd sh) in Hq.
  unfold set_parity. destruct (Z.eqb_spec (level conf) 6).
  - fold (pd sh) in Hq. rewrite !dev_upd by (rewrite ?disks_upd; lia). rewrite (Z.eqb_sym i (pd sh)), (Z.eqb_sym i (qd sh)).
    destruct (Z.eqb_spec (qd sh) i), (Z.eqb_spec (pd sh) i); lia || done.
  - rewrite dev_upd by lia. rewrite (Z.eqb_sym i (pd sh)). by rewrite (proj2 (Z.eqb_neq i (qd sh))) by lia.
Qed.

Lemma set_parity_rest P Q : disks (set_parity P Q sh) = disks sh /\ with_devs [] (set_parity P Q sh) = with_devs [] sh.
Proof. unfold set_parity. destruct (level conf =? 6); by rewrite ?disks_upd. Qed.

(** The sum of P and of the pages of some data devices. *)
Lemma p_and_pages (keep : r5dev -> bool) b :
  (forall i, 0 <= i < n -> keep (dev sh i) = true -> is_data (geo sh) i = true) ->
  p_syn (col (page (dev sh (pd sh)) :: pages_down (fun _ d => keep d) sh) b) =
  byte_at b (pd sh) ⊕ psum (geo sh) (mask (fun i => keep (dev sh i)) (byte_at b)).
Proof.
  intros Hk. change (col (?p :: ?l) b) with (pget p b :: col l b). change (p_syn (?a :: ?l)) with (a ⊕ p_syn l).
  rewrite (pages_down_sum (fun _ d => keep d)), <- Hn. f_equal. rewrite <- psum_mask by done. done.
Qed.

Lemma length_pages_kept (keep : r5dev -> bool) i :
  0 <= i < n -> keep (dev sh i) = true -> (1 <= length (pages_down (fun _ d => keep d) sh))%nat.
Proof.
  intros Hi Hk. rewrite length_pages_down, <- Hn.
  assert (i ∈ List.filter (fun i => keep (dev sh i)) (seqZ 0 n)) as Hin.
  { apply list_elem_of_In, filter_In. split; [apply list_elem_of_In, elem_of_seqZ; lia|done]. }
  destruct (List.filter _ _); [by apply not_elem_of_nil in Hin|cbn; lia].
Qed.

Lemma xor_in5 (keep : r5dev -> bool) :
  (forall i, 0 <= i < n -> keep (dev sh i) = true -> is_data (geo sh) i = true) ->
  (exists i, 0 <= i < n /\ keep (dev sh i) = true) ->
  async_xor_offs tx (size conf) (page (dev sh (pd sh)) :: pages_down (fun _ d => keep d) sh) =
  build (size conf) (fun b => byte_at b (pd sh) ⊕ psum (geo sh) (mask (fun i => keep (dev sh i)) (byte_at b))).
Proof.
  intros Hk (i & Hi & Hki). rewrite xor_ok.
  - unfold build. apply map_ext. intros b. by apply p_and_pages.
  - constructor; [apply Hwf, (go_pd _ _ Hgeo)|]. by apply (pages_wf conf).
  - cbn. pose proof (length_pages_kept keep i Hi Hki). lia.
Qed.
(** The sum of all data. *)
Lemma others_sum b :
  level conf <> 6 -> p_syn (col (pages_down (fun i _ => negb (i =? pd sh)) sh) b) = psum (geo sh) (byte_at b).
Proof.
  intros Hl. rewrite (pages_down_sum (fun i _ => negb (i =? pd sh))), <- Hn. unfold psum, data_idx. f_equal. f_equal. apply filter_ext_in.
  intros i Hi%list_elem_of_In%elem_of_seqZ. pose proof (go_qd _ _ Hgeo) as Hq. rewrite (proj2 (Z.eqb_neq _ _) Hl) in Hq.
  unfold is_data. rewrite (proj2 (Z.eqb_neq i (qd_idx _))) by lia. by rewrite orb_false_r.
Qed.

Lemma gen5 :
  level conf <> 6 ->
  xor_or_copy conf tx (page (dev sh (pd sh))) (pages_down (fun i _ => negb (i =? pd sh)) sh) =
  build (size conf) (fun b => psum (geo sh) (byte_at b)).
Proof.
  intros Hl. pose proof (go_pd _ _ Hgeo) as Hp. fold (pd sh) in Hp. pose proof (fun b => others_sum b Hl) as Hsum.
  assert (length (pages_down (fun i _ => negb (i =? pd sh)) sh) = Z.to_nat (n - 1)) as Hlen.
  { rewrite length_pages_down, <- Hn. by apply count_others. }
  pose proof (pages_wf conf sh Hn Hwf (fun i _ => negb (i =? pd sh))) as Hw. unfold xor_or_copy.
  remember (pages_down (fun i _ => negb (i =? pd sh)) sh) as l eqn:Hl'. clear Hl'. destruct l as [|x [|y l]].
  - pose proof (go_disks _ _ Hgeo) as Hd. cbn [length] in Hlen. destruct (level conf =? 6); lia.
  - apply Forall_cons_iff in Hw as [Hx _]. rewrite (memcpy_all conf) by (done || by apply Hwf). symmetry. apply build_eq; [done|].
    intros b Hb. rewrite <- Hsum. cbn. by rewrite Z.lxor_0_r.
  - rewrite xor_ok by (done || cbn; lia). unfold build. apply map_ext. intros b. apply Hsum.
Qed.

Lemma store_parity srcs o1 o2 (P Q : nat -> Z) :
  level conf = 6 -> (forall k, Some k ∈ srcs -> 0 <= Z.of_nat k < n /\ is_data (geo sh) (Z.of_nat k) = true) ->
  o1 = Some (Z.to_nat (pd sh)) -> o2 = Some (Z.to_nat (qd sh)) ->
  store_blocks (srcs ++ [o1; o2]) (blocks sh srcs ++ [Some (build (size conf) P); Some (build (size conf) Q)]) sh =
  set_parity P Q sh.
Proof.
  intros Hl Hs -> ->. destruct (qd_range conf sh Hgeo Hl) as [Hq Hqp]. pose proof (go_pd _ _ Hgeo) as Hp. fold (pd sh) in Hp.
  set (W := fun i => if i =? pd sh then build (size conf) P else if i =? qd sh then build (size conf) Q else page (dev sh i)).
  edestruct (store_blocks_devs W) as (H1 & H2 & H3).
  3: { destruct (set_parity_rest P Q) as [E1 E2]. apply stripe_ext; [by rewrite H1, E1| |by rewrite H2, E2].
    intros i Hi. rewrite H1 in Hi. rewrite H3, set_parity_dev by lia. unfold member_of, W.
    destruct (Z.eqb_spec i (pd sh)) as [->|Hip]; [by rewrite bool_decide_true by set_solver|].
    destruct (Z.eqb_spec i (qd sh)) as [->|Hiq]; [by rewrite bool_decide_true by set_solver|].
    rewrite set_page_id. by case_bool_decide. }
  - apply Forall2_app.
    + assert (forall k, Some k ∈ srcs -> W (Z.of_nat k) = page (dev sh (Z.of_nat k))) as HW.
      { intros k Hk. destruct (Hs k Hk) as [_ [H1 H2]%(is_data_not sh)]. unfold W. by rewrite !(proj2 (Z.eqb_neq _ _)). }
      clear Hs. induction srcs as [|[k|] srcs IH]; constructor; [rewrite HW by (by left); done| |done|]; apply IH; intros; apply HW; by right.
    + repeat constructor; rewrite Z2Nat.id by lia; unfold W; [by rewrite Z.eqb_refl|]. by rewrite (proj2 (Z.eqb_neq _ _)), Z.eqb_refl.
  - apply Forall_app. split; [|repeat constructor; lia]. apply Forall_forall. intros [k|] Hk; [|done].
    apply list_elem_of_In, Hs in Hk as [Hk _]. lia.
Qed.

Lemma chosen_data ty k :
  level conf = 6 -> Some k ∈ chosen_slots sh ty -> 0 <= Z.of_nat k < n /\ is_data (geo sh) (Z.of_nat k) = true.
Proof.
  intros Hl ([m|] & Hk & Hin)%list_elem_of_fmap; [|done]. cbn in Hk. destruct (chosen sh ty (Z.of_nat m)); [|done].
  injection Hk as ->. by apply (slot_devs_member _ _ (go_slots _ _ Hgeo Hl)).
Qed.

Lemma chosen_sums ty b :
  level conf = 6 -> p_syn (ocol (blocks sh (chosen_slots sh ty)) b) = psum (geo sh) (mask (chosen sh ty) (byte_at b)) /\
  q_syn (ocol (blocks sh (chosen_slots sh ty)) b) = qsum (geo sh) (mask (chosen sh ty) (byte_at b)).
Proof.
  intros Hl. assert (ocol (blocks sh (chosen_slots sh ty)) b =
    map (fun o => match o with Some k => mask (chosen sh ty) (byte_at b) (Z.of_nat k) | None => 0 end) (slot_devs (geo sh))) as ->.
  { unfold ocol, blocks, chosen_slots. rewrite !map_map. apply map_ext. intros [k|]; [|done]. cbn. unfold mask. by destruct (chosen sh ty (Z.of_nat k)). }
  split; [|done]. apply p_slots. by apply (go_slots conf).
Qed.

Lemma chosen_wf ty o1 o2 : level conf = 6 -> wf_oblock (size conf) o1 -> wf_oblock (size conf) o2 ->
  Forall (wf_oblock (size conf)) (blocks sh (chosen_slots sh ty) ++ [o1; o2]).
Proof.
  intros Hl H1 H2. apply Forall_app. split; [|by repeat constructor]. apply Forall_map, Forall_forall. intros [k|] Hk; [|done].
  apply list_elem_of_In, chosen_data in Hk as [Hk _]; [|done]. by apply Hwf.
Qed.

Lemma length_chosen ty : level conf = 6 -> (2 <= length (blocks sh (chosen_slots sh ty)) <= 253)%nat.
Proof. intros Hl. unfold blocks, chosen_slots. rewrite !length_map. by apply (slot_devs_count conf). Qed.

Lemma parity_blocks :
  level conf = 6 -> blocks sh [Some (Z.to_nat (pd sh)); Some (Z.to_nat (qd sh))] = [Some (page (dev sh (pd sh))); Some (page (dev sh (qd sh)))].
Proof.
  intros Hl. destruct (qd_range conf sh Hgeo Hl) as [Hq _]. pose proof (go_pd _ _ Hgeo) as Hp. fold (pd sh) in Hp.
  cbn. by rewrite !Z2Nat.id by lia.
Qed.

Lemma parity_wf : level conf = 6 -> wf_block (size conf) (page (dev sh (pd sh))) /\ wf_block (size conf) (page (dev sh (qd sh))).
Proof. intros Hl. destruct (qd_range conf sh Hgeo Hl) as [Hq _]. split; apply Hwf; [apply (go_pd _ _ Hgeo)|done]. Qed.

(** P and Q with the syndromes of the chosen devices added. *)
Lemma xor_in6 ty :
  level conf = 6 ->
  (let '(srcs, count) := sources sh ty in store_blocks srcs (async_gen_syndrome tx true (size conf) (blocks sh srcs)) sh) =
  set_parity (fun b => byte_at b (pd sh) ⊕ psum (geo sh) (mask (chosen sh ty) (byte_at b)))
             (fun b => byte_at b (qd sh) ⊕ qsum (geo sh) (mask (chosen sh ty) (byte_at b))) sh.
Proof.
  intros Hl. rewrite sources_eq by (by apply (go_slots conf)). rewrite blocks_app, parity_blocks by done.
  destruct (parity_wf Hl) as [Hp Hq]. rewrite gen_xor_ok by (by apply chosen_wf || by apply length_chosen).
  rewrite store_parity; [|done|intros k; by apply chosen_data|done..]. unfold set_parity. rewrite Hl. cbn [Z.eqb Pos.eqb].
  f_equal; [|f_equal]; f_equal; unfold build; apply map_ext; intros b; f_equal; by apply chosen_sums.
Qed.

(** P and Q of all data. *)
Lemma gen6 :
  level conf = 6 ->
  (let '(srcs, count) := sources sh SYNDROME_SRC_ALL in store_blocks srcs (async_gen_syndrome tx false (size conf) (blocks sh srcs)) sh) =
  set_parity (fun b => psum (geo sh) (byte_at b)) (fun b => qsum (geo sh) (byte_at b)) sh.
Proof.
  intros Hl. rewrite sources_eq by (by apply (go_slots conf)). rewrite blocks_app, parity_blocks by done.
  destruct (parity_wf Hl) as [Hp Hq]. rewrite gen_ok by (by apply chosen_wf || by apply length_chosen). cbn [fmap option_fmap option_map].
  rewrite store_parity; [|done|intros k; by apply chosen_data|done..]. unfold set_parity. rewrite Hl. cbn [Z.eqb Pos.eqb].
  f_equal; [|f_equal]; f_equal; unfold build; apply map_ext; intros b; by apply (chosen_sums SYNDROME_SRC_ALL).
Qed.
End Parity.

(** * The drain *)

Section Drain.
Context (conf : r5conf) (tx : async_tx) {Htx : AsyncTx (size conf) tx}.
Context (Hss : 0 < RAID5_STRIPE_SECTORS conf) (Hskip : skip_copy conf = false).

(** The requests that are drained into a device, and its block after them. *)
Definition drains (d : r5dev) : list bio := bio_chain conf (dev_sector d) (towrite d).
Definition drained_page (d : r5dev) (p : block) : block := apply_bios conf (dev_sector d) (drains d) p.

(** The device after the drain, apart from the page. *)
Definition undrained (d : r5dev) : r5dev := with_writes [] (towrite d) (clear_bit R5_Wantdrain d).

Lemma drains_wf d : Forall wf_bio (towrite d) -> Forall wf_bio (drains d).
Proof.
  unfold drains. induction 1 as [|b bs Hb _ IH]; [constructor|]. cbn. destruct (_ <? _); [|constructor].
  constructor; [done|]. destruct (_ <? _); [done|constructor].
Qed.

Lemma drained_page_wf d p : Forall wf_bio (towrite d) -> wf_block (size conf) p -> wf_block (size conf) (drained_page d p).
Proof. intros Hb Hp. by apply apply_bios_wf; [apply drains_wf|]. Qed.

Definition drain_to (d : r5dev) : r5dev := fold_left (drain_bio conf tx) (drains d) (undrained d).

Lemma drain_to_sim d :
  Forall wf_bio (towrite d) -> wf_block (size conf) (page d) -> bio_page d = None ->
  sim (set_page (drained_page d (page d)) (undrained d)) (drain_to d).
Proof.
  intros Hb Hp Hpg. destruct (drain_bios_ok conf tx Hss Hskip (drains d) (undrained d)) as (fl & Heq & Hfl); [by apply drains_wf|done..|].
  unfold drain_to. rewrite Heq. exists fl. split; [done|]. intros f Hf. apply Hfl; by intros ->.
Qed.

Lemma biodrain_acc sh l a :
  (forall i, i ∈ l -> written (dev sh i) = []) ->
  foldr (fun i a => (biodrain_dev conf tx i (dev sh i) a).2) a l = (a.1, existsb (fun i => test_bit R5_Wantdrain (dev sh i)) l || a.2).
Proof.
  induction l as [|i l IH]; [by destruct a|]. intros H. cbn [foldr existsb]. rewrite IH by (intros; apply H; by right).
  unfold biodrain_dev. destruct (test_bit R5_Wantdrain (dev sh i)); [|done]. rewrite (H i) by (by left). cbn. by rewrite orb_false_r.
Qed.

Lemma biodrain_ok sh :
  (forall i, 0 <= i < Z.of_nat (disks sh) -> written (dev sh i) = []) ->
  (exists i, 0 <= i < Z.of_nat (disks sh) /\ test_bit R5_Wantdrain (dev sh i) = true) ->
  ops_run_biodrain conf tx sh = Some (with_overwrite 0 (mapi (fun _ d => if test_bit R5_Wantdrain d then drain_to d else d) sh)).
Proof.
  intros Hw (i & Hi & Hd). unfold ops_run_biodrain.
  pose proof (for_devs_eq (biodrain_dev conf tx) (fun _ d => if test_bit R5_Wantdrain d then drain_to d else d) sh (false, false)) as H1.
  pose proof (for_devs_acc (biodrain_dev conf tx) sh (false, false)) as H2.
  rewrite biodrain_acc in H2 by (intros j Hj%elem_of_seqZ; apply Hw; lia). destruct (for_devs _ _ _) as [s [bug dr]]. cbn in H1, H2.
  rewrite H1 by (intros j d a; unfold biodrain_dev; by destruct (test_bit _ d)).
  injection H2 as -> ->. cbn [bug_on]. rewrite (proj2 (existsb_exists _ _)); [done|]. exists i. split; [|done].
  apply list_elem_of_In, elem_of_seqZ. lia.
Qed.

(** The completion of the operation on the parity. *)
Lemma complete_reconstruct_ok sh :
  (forall i, 0 <= i < Z.of_nat (disks sh) -> test_bit R5_Discard (dev sh i) = false /\ test_bit R5_SkipCopy (dev sh i) = false) ->
  exists h, (forall i, 0 <= i < Z.of_nat (disks sh) ->
    sim (if nonempty (written (dev sh i)) || (i =? pd sh) || (i =? qd sh) then set_bit R5_UPTODATE (dev sh i) else dev sh i) (h i (dev sh i))) /\
  ops_complete_reconstruct sh =
    r ← match reconstruct_state sh with
        | reconstruct_state_drain_run => Some reconstruct_state_drain_result
        | reconstruct_state_prexor_drain_run => Some reconstruct_state_prexor_drain_result
        | reconstruct_state_run => Some reconstruct_state_result
        | _ => None
        end;
    Some (sset STRIPE_HANDLE (with_reconstruct r (mapi h sh))).
Proof.
  intros H. exists (complete_reconstruct_dev sh). split.
  - intros i Hi. destruct (H i Hi) as [Hd Hs]. assert (any_flag R5_Discard sh = false) as Hany.
    { unfold any_flag. apply not_true_iff_false. intros (d & Hin & Ht)%existsb_exists.
      apply list_elem_of_In, list_elem_of_lookup in Hin as [k Hk]. pose proof (lookup_lt_Some _ _ _ Hk) as Hlt.
      destruct (H (Z.of_nat k)) as [Hd' _]; [unfold disks; lia|]. unfold dev in Hd'. rewrite Nat2Z.id in Hd'.
      rewrite (list_lookup_total_correct _ _ _ Hk) in Hd'. congruence. }
    unfold complete_reconstruct_dev. destruct (_ || _ || _); [|apply sim_refl]. rewrite Hany, Hs. cbn [negb andb].
    set (d1 := set_bit R5_UPTODATE (dev sh i)). destruct (any_flag R5_WantFUA sh), (any_flag R5_SyncIO sh);
      repeat first [apply sim_refl | eapply sim_trans; [|apply sim_quiet; reflexivity]].
  - unfold ops_complete_reconstruct, mapi. cbn. by destruct (reconstruct_state sh).
Qed.
End Drain.

(** * Writing *)

Section Write.
Context (conf : r5conf) (tx : async_tx) {Htx : AsyncTx (size conf) tx} (sh : stripe).
Context (Hskip : skip_copy conf = false).
Context (Hgeo : geo_ok conf (geo sh)) (Hn : sh_disks (geo sh) = Z.of_nat (disks sh)).
Context (V : Z -> block) (Henc : encodes conf (geo sh) V).
Abbreviation n := (sh_disks (geo sh)).
Abbreviation S := (fun i => test_bit R5_Wantdrain (dev sh i)).

(** The blocks of the data devices after the writes. *)
Definition new_data (i : Z) : block := if S i then drained_page conf (dev sh i) (V i) else V i.
Abbreviation V' := (encode conf (geo sh) new_data).

(** Every device is sound, those to drain are data devices with requests, and there is one. *)
Record drainable : Prop := {
  dr_wf i : 0 <= i < n -> wf_block (size conf) (page (dev sh i));
  dr_page i : 0 <= i < n -> bio_page (dev sh i) = None;
  dr_flags i : 0 <= i < n -> test_bit R5_Discard (dev sh i) = false /\ test_bit R5_SkipCopy (dev sh i) = false;
  dr_written i : 0 <= i < n -> written (dev sh i) = [];
  dr_data i : 0 <= i < n -> S i = true -> is_data (geo sh) i = true;
  dr_bios i : 0 <= i < n -> S i = true -> towrite (dev sh i) <> [] /\ Forall wf_bio (towrite (dev sh i));
  dr_some : exists i, 0 <= i < n /\ S i = true;
}.
Context (Hdr : drainable).

(** The blocks that are overwritten do not matter, the other blocks that are used are known. *)
Definition rcw_ready : Prop :=
  forall i, 0 <= i < n -> is_data (geo sh) i = true ->
    page (dev sh i) = V i \/ (S i = true /\ is_covered conf (dev sh i) = true).
Definition rmw_ready : Prop := forall i, 0 <= i < n -> S i = true \/ is_data (geo sh) i = false -> page (dev sh i) = V i.

(** The device [i] after the write. *)
Definition after_write (i : Z) : r5dev :=
  if S i then set_bit R5_UPTODATE (set_page (V' i) (undrained (dev sh i)))
  else if is_data (geo sh) i then dev sh i else set_bit R5_UPTODATE (set_page (V' i) (dev sh i)).

Lemma new_data_wf i : 0 <= i < n -> wf_block (size conf) (new_data i).
Proof.
  intros Hi. unfold new_data. destruct (test_bit _ _) eqn:HS; [|by apply (en_wf _ _ _ Henc)].
  apply drained_page_wf; [by apply (dr_bios Hdr)|by apply (en_wf _ _ _ Henc)].
Qed.

Lemma new_encodes : encodes conf (geo sh) V'.
Proof. apply encode_encodes; [done|]. intros i Hi _. by apply new_data_wf. Qed.

(** What is drained over the page of a device is what is drained over its block. *)
Lemma drained_page_eq i :
  0 <= i < n -> S i = true -> page (dev sh i) = V i \/ is_covered conf (dev sh i) = true ->
  drained_page conf (dev sh i) (page (dev sh i)) = new_data i.
Proof.
  intros Hi HS Hor. unfold new_data. rewrite HS. destruct Hor as [->|Hc]; [done|]. pose proof (go_sectors _ _ Hgeo).
  apply covered_apply; [done..|apply drains_wf, (dr_bios Hdr i Hi HS)|by apply (dr_wf Hdr)|by apply (en_wf _ _ _ Henc)].
Qed.

Lemma parity_cases i : is_data (geo sh) i = false -> i = pd sh \/ (i <> pd sh /\ i = qd sh).
Proof. unfold is_data, pd, qd. intros H. apply negb_false_iff, orb_true_iff in H. rewrite !Z.eqb_eq in H. lia. Qed.

Lemma encode_p i : i = pd sh -> V' i = build (size conf) (fun b => psum (geo sh) (fun i => pget (new_data i) b)).
Proof. intros ->. unfold encode, pd. by rewrite Z.eqb_refl. Qed.

Lemma encode_q i : i <> pd sh -> i = qd sh -> V' i = build (size conf) (fun b => qsum (geo sh) (fun i => pget (new_data i) b)).
Proof. intros Hp ->. unfold encode. fold (pd sh) (qd sh). by rewrite (proj2 (Z.eqb_neq _ _)), Z.eqb_refl. Qed.

(** The stripe after the drain of a stripe [s] that has other parity blocks. *)
Definition drained (s : stripe) : stripe :=
  with_overwrite 0 (mapi (fun _ d => if test_bit R5_Wantdrain d then drain_to conf tx d else d) s).

Lemma drained_dev s i :
  disks s = disks sh -> 0 <= i < n -> dev s i = dev sh i \/ (S i = false /\ exists p, dev s i = set_page p (dev sh i)) ->
  sim (if S i then set_page (drained_page conf (dev sh i) (page (dev sh i))) (undrained (dev sh i)) else dev s i) (dev (drained s) i).
Proof.
  intros Hds Hi Hs. unfold drained. change (dev (with_overwrite 0 ?x) i) with (dev x i). rewrite dev_mapi by lia.
  pose proof (go_sectors _ _ Hgeo). destruct Hs as [->|(HS & p & ->)].
  - destruct (test_bit R5_Wantdrain (dev sh i)) eqn:HS; [|apply sim_refl].
    apply drain_to_sim; [done..|apply (dr_bios Hdr i Hi HS)|by apply (dr_wf Hdr)|by apply (dr_page Hdr)].
  - rewrite HS. change (test_bit R5_Wantdrain (set_page p ?d)) with (test_bit R5_Wantdrain d). rewrite HS. apply sim_refl.
Qed.
(** [s] is the stripe with other parity blocks. *)
Definition reparity (s : stripe) : Prop :=
  disks s = disks sh /\ with_devs [] s = with_devs [] sh /\
  forall i, 0 <= i < n -> dev s i = dev sh i \/ (is_data (geo sh) i = false /\ exists p, wf_block (size conf) p /\ dev s i = set_page p (dev sh i)).

Section Drained.
Context (s : stripe) (Hs : reparity s).

Lemma reparity_dev i : 0 <= i < n -> S i = true \/ is_data (geo sh) i = true -> dev s i = dev sh i.
Proof.
  intros Hi Hor. destruct Hs as (_ & _ & H). destruct (H i Hi) as [|(Hd & _)]; [done|]. destruct Hor as [HS|]; [|congruence].
  rewrite (dr_data Hdr i Hi HS) in Hd. done.
Qed.

Lemma drained_spec i :
  0 <= i < n -> sim (if S i then set_page (drained_page conf (dev sh i) (page (dev sh i))) (undrained (dev sh i)) else dev s i) (dev (drained s) i).
Proof.
  intros Hi. destruct Hs as (Hds & _ & H). apply drained_dev; [done..|]. destruct (H i Hi) as [|(Hd & p & _ & Hp)]; [by left|].
  right. split; [|by exists p]. apply not_true_iff_false. intros HS. rewrite (dr_data Hdr i Hi HS) in Hd. done.
Qed.

Lemma drained_disks : disks (drained s) = disks sh.
Proof. destruct Hs as (Hds & _). unfold drained. change (disks (with_overwrite 0 ?x)) with (disks x). by rewrite disks_mapi. Qed.

Lemma drained_geo : geo (drained s) = geo sh.
Proof. destruct Hs as (_ & Hr & _). change (geo (drained s)) with (geo (with_devs [] s)). by rewrite Hr. Qed.

Lemma drained_wf i : 0 <= i < n -> wf_block (size conf) (page (dev (drained s) i)).
Proof.
  intros Hi. rewrite (sim_page _ _ (drained_spec i Hi)). destruct (test_bit _ _) eqn:HS.
  - rewrite page_set_page. apply drained_page_wf; [by apply (dr_bios Hdr)|by apply (dr_wf Hdr)].
  - destruct Hs as (_ & _ & H). destruct (H i Hi) as [->|(_ & p & Hp & ->)]; [by apply (dr_wf Hdr)|by rewrite page_set_page].
Qed.

Lemma drained_written i : 0 <= i < n -> nonempty (written (dev (drained s) i)) = S i.
Proof.
  intros Hi. destruct (drained_spec i Hi) as (fl & -> & _). destruct (test_bit _ _) eqn:HS.
  - cbn. destruct (dr_bios Hdr i Hi HS) as [Hne _]. by destruct (towrite _).
  - cbn. destruct Hs as (_ & _ & H). destruct (H i Hi) as [->|(_ & p & _ & ->)]; cbn; by rewrite (dr_written Hdr i Hi).
Qed.

Lemma drained_flags i : 0 <= i < n -> test_bit R5_Discard (dev (drained s) i) = false /\ test_bit R5_SkipCopy (dev (drained s) i) = false.
Proof.
  intros Hi. pose proof (drained_spec i Hi) as Hsim. rewrite !(sim_flag _ _ _ Hsim) by done. clear Hsim.
  destruct Hs as (_ & _ & H). destruct (dr_flags Hdr i Hi) as [H1 H2].
  destruct (test_bit R5_Wantdrain _); [done|]. destruct (H i Hi) as [->|(_ & p & _ & ->)]; done.
Qed.

Lemma drained_not_discard : all_discard (drained s) = false.
Proof.
  destruct (dr_some Hdr) as (i & Hi & HS). apply not_true_iff_false. unfold all_discard. rewrite forallb_forall. intros H.
  specialize (H (i, dev (drained s) i)). rewrite devs_down_eq in H. rewrite drained_disks in H. cbn [fst snd] in H.
  destruct (drained_flags i Hi) as [Hd _]. rewrite Hd in H. pose proof (dr_data Hdr i Hi HS) as Hdata.
  unfold pd, qd in H. rewrite drained_geo in H. unfold is_data in Hdata. apply negb_true_iff in Hdata. rewrite Hdata in H.
  cbn in H. discriminate H. apply list_elem_of_In, list_elem_of_fmap. exists i. split; [done|].
  apply list_elem_of_In. rewrite <- in_rev. apply list_elem_of_In, elem_of_seqZ. lia.
Qed.

(** Storing the new parity completes the write. *)
Lemma finish_write P Q res :
  build (size conf) P = V' (pd sh) -> (level conf = 6 -> build (size conf) Q = V' (qd sh)) ->
  (forall i, 0 <= i < n -> S i = true -> drained_page conf (dev sh i) (page (dev sh i)) = V' i) ->
  match reconstruct_state sh with
  | reconstruct_state_drain_run => Some reconstruct_state_drain_result
  | reconstruct_state_prexor_drain_run => Some reconstruct_state_prexor_drain_result
  | reconstruct_state_run => Some reconstruct_state_result
  | _ => None
  end = Some res ->
  exists sh', ops_complete_reconstruct (set_parity conf (drained s) P Q (drained s)) = Some sh' /\
    disks sh' = disks sh /\ with_devs [] sh' = with_devs [] (sset STRIPE_HANDLE (with_reconstruct res (with_overwrite 0 sh))) /\
    forall i, 0 <= i < n -> sim (after_write i) (dev sh' i).
Proof.
  intros HP HQ Hpage Hres. set (t := set_parity conf (drained s) P Q (drained s)).
  destruct (set_parity_rest conf (drained s) P Q) as [Hd1 Hr1]. fold t in Hd1, Hr1. rewrite drained_disks in Hd1.
  assert (with_devs [] t = with_devs [] (with_overwrite 0 sh)) as Hrest.
  { rewrite Hr1. unfold drained. destruct Hs as (_ & Hr & _). unfold with_devs in Hr |- *. cbn. injection Hr as -> -> -> -> -> -> -> _. done. }
  assert (geo t = geo sh) as Hgt by (change (geo t) with (geo (with_devs [] t)); by rewrite Hrest).
  assert (reconstruct_state t = reconstruct_state sh) as Hrt by (change (reconstruct_state t) with (reconstruct_state (with_devs [] t)); by rewrite Hrest).
  assert (forall i, 0 <= i < n -> dev t i = if i =? pd sh then set_page (build (size conf) P) (dev (drained s) i)
    else if i =? qd sh then set_page (build (size conf) Q) (dev (drained s) i) else dev (drained s) i) as Ht.
  { intros i Hi. unfold t. rewrite set_parity_dev; unfold pd, qd; rewrite ?drained_geo; [done..|by rewrite drained_disks|done]. }
  destruct (complete_reconstruct_ok t) as (h & Hh & Heq).
  { intros i Hi. rewrite Hd1, <- Hn in Hi. destruct (drained_flags i Hi). rewrite Ht by done. by repeat case_match. }
  rewrite Hrt, Hres in Heq. cbn in Heq. eexists. split; [exact Heq|]. split; [cbn; unfold disks; cbn; rewrite length_imap; exact Hd1|].
  split. { unfold sset, with_reconstruct, with_devs, mapi in Hrest |- *. cbn in Hrest |- *. injection Hrest as -> -> -> _ -> -> -> ->. done. }
  intros i Hi. change (dev (sset _ (with_reconstruct _ ?x)) i) with (dev x i). rewrite dev_mapi by lia. eapply sim_trans; [|apply Hh; lia].
  unfold pd at 1, qd at 1. rewrite Hgt. fold (pd sh) (qd sh).
  assert (nonempty (written (dev t i)) = S i) as -> by (rewrite Ht, <- drained_written by done; by repeat case_match).
  pose proof (drained_spec i Hi) as Hsim. rewrite Ht by done. unfold after_write. destruct (test_bit R5_Wantdrain (dev sh i)) eqn:HS.
  - pose proof (dr_data Hdr i Hi HS) as Hdata. apply (is_data_not sh) in Hdata as [Hip Hiq]. rewrite !(proj2 (Z.eqb_neq _ _)) by done. cbn [orb].
    rewrite <- Hpage by done. by apply sim_set_bit.
  - cbn [orb]. destruct (is_data (geo sh) i) eqn:Hdata.
    + pose proof (proj1 (is_data_not sh i) Hdata) as [Hip Hiq]. rewrite !(proj2 (Z.eqb_neq _ _)) by done. cbn.
      rewrite reparity_dev in Hsim by auto. done.
    + assert (forall p, sim (set_page p (dev sh i)) (set_page p (dev (drained s) i))) as Hsp.
      { intros p. eapply sim_trans; [|apply sim_set_page, Hsim]. destruct Hs as (_ & _ & H).
        destruct (H i Hi) as [->|(_ & p' & _ & ->)]; [apply sim_refl|]. rewrite set_page_set_page. apply sim_refl. }
      destruct (parity_cases i Hdata) as [->|[Hip ->]]; rewrite ?Z.eqb_refl; cbn.
      * rewrite HP. by apply sim_set_bit.
      * rewrite (proj2 (Z.eqb_neq _ _)) by done. cbn. rewrite HQ; [by apply sim_set_bit|].
        pose proof (go_qd _ _ Hgeo) as Hq. destruct (Z.eqb_spec (level conf) 6); [done|]. unfold qd in Hi. lia.
Qed.
End Drained.

Lemma level_cases : (level conf <? 6) = negb (level conf =? 6).
Proof. destruct (go_level _ _ Hgeo) as [->|[->| ->]]; done. Qed.

Lemma reparity_refl : reparity sh.
Proof. split; [done|]. split; [done|]. intros. by left. Qed.

Lemma drain_run s :
  reparity s -> ops_run_biodrain conf tx s = Some (drained s).
Proof.
  intros Hs. pose proof Hs as (Hds & _ & H). apply biodrain_ok.
  - intros i Hi. rewrite Hds, <- Hn in Hi. destruct (H i Hi) as [->|(_ & p & _ & ->)]; cbn; by apply (dr_written Hdr).
  - destruct (dr_some Hdr) as (i & Hi & HS). exists i. split; [lia|]. by rewrite (reparity_dev s Hs) by auto.
Qed.

(** The writes with the parity of all data. *)
Lemma write_rcw_ok :
  rcw_ready -> reconstruct_state sh = reconstruct_state_drain_run ->
  exists sh', (s ← ops_run_biodrain conf tx sh; if level conf <? 6 then ops_run_reconstruct5 conf tx s else ops_run_reconstruct6 conf tx s) = Some sh' /\
    disks sh' = disks sh /\ with_devs [] sh' = with_devs [] (sset STRIPE_HANDLE (with_reconstruct reconstruct_state_drain_result (with_overwrite 0 sh))) /\
    forall i, 0 <= i < n -> sim (after_write i) (dev sh' i).
Proof.
  intros Hr Hst. rewrite (drain_run sh reparity_refl). cbn [mbind option_bind].
  pose proof (drained_geo sh reparity_refl) as Hgd. pose proof (drained_disks sh reparity_refl) as Hdd.
  assert (forall i, 0 <= i < n -> S i = true -> drained_page conf (dev sh i) (page (dev sh i)) = V' i) as Hpage.
  { intros i Hi HS. rewrite encode_data by (by apply (dr_data Hdr)). apply drained_page_eq; [done..|].
    destruct (Hr i Hi (dr_data Hdr i Hi HS)) as [|[_ ?]]; auto. }
  assert (forall i, 0 <= i < n -> is_data (geo sh) i = true -> page (dev (drained sh) i) = new_data i) as Hdata.
  { intros i Hi Hd. rewrite (sim_page _ _ (drained_spec sh reparity_refl i Hi)). destruct (test_bit _ _) eqn:HS.
    - rewrite page_set_page, Hpage by done. by apply encode_data.
    - destruct (Hr i Hi Hd) as [->|[? _]]; [|congruence]. unfold new_data. by rewrite HS. }
  edestruct (finish_write sh reparity_refl (fun b => psum (geo sh) (byte_at (drained sh) b)) (fun b => qsum (geo sh) (byte_at (drained sh) b)))
    as (sh' & Heq & Hrest); [..|exists sh'; split; [|exact Hrest]].
  - rewrite encode_p by done. unfold build. apply map_ext. intros b. apply psum_ext. intros i Hi Hd. unfold byte_at. by rewrite Hdata.
  - intros Hl. destruct (qd_range conf sh Hgeo Hl) as [_ Hqp]. rewrite encode_q by done. unfold build. apply map_ext. intros b.
    apply qsum_ext; [by apply (go_slots conf)|]. intros i Hi Hd. unfold byte_at. by rewrite Hdata.
  - done.
  - by rewrite Hst.
  - rewrite <- Heq, level_cases. unfold ops_run_reconstruct5, ops_run_reconstruct6. rewrite (drained_not_discard sh reparity_refl).
    change (reconstruct_state (drained sh)) with (reconstruct_state sh). rewrite Hst. cbn [reconstruct_states_beq].
    destruct (Z.eqb_spec (level conf) 6) as [Hl|Hl]; cbn [negb].
    + pose proof (gen6 conf tx (drained sh)) as Hg. rewrite Hgd, Hdd in Hg. rewrite <- Hg; [|done..|by apply drained_wf, reparity_refl|done].
      by destruct (sources _ _).
    + rewrite gen5; rewrite ?Hgd, ?Hdd; [|done..|by apply drained_wf, reparity_refl|done]. unfold set_parity.
      by rewrite (proj2 (Z.eqb_neq _ _) Hl).
Qed.

(** The parity without the blocks to be written. *)
Definition prexor : stripe := if level conf <? 6 then ops_run_prexor5 conf tx sh else ops_run_prexor6 conf tx sh.

Abbreviation old b := (mask S (byte_at sh b)).
Abbreviation P1 := (fun b => byte_at sh b (pd sh) ⊕ psum (geo sh) (old b)).
Abbreviation Q1 := (fun b => byte_at sh b (qd sh) ⊕ qsum (geo sh) (old b)).

Lemma prexor_eq : prexor = set_parity conf sh P1 Q1 sh.
Proof.
  unfold prexor. rewrite level_cases. destruct (Z.eqb_spec (level conf) 6) as [Hl|Hl]; cbn [negb].
  - unfold ops_run_prexor6. by apply (xor_in6 conf tx sh Hgeo Hn (dr_wf Hdr) SYNDROME_SRC_WANT_DRAIN).
  - unfold ops_run_prexor5, set_parity. rewrite (proj2 (Z.eqb_neq _ _) Hl).
    rewrite (xor_in5 conf tx sh Hgeo Hn (dr_wf Hdr) (test_bit R5_Wantdrain)); [done|by apply (dr_data Hdr)|by apply (dr_some Hdr)].
Qed.

Lemma byte_at_u8 b i : 0 <= i < n -> is_u8 (byte_at sh b i).
Proof. intros Hi. apply pget_u8, (dr_wf Hdr i Hi). Qed.

Lemma old_u8 b (f : (Z -> Z) -> Z) :
  (forall h h', (forall i, 0 <= i < n -> is_data (geo sh) i = true -> h i = h' i) -> f h = f h') ->
  (forall h, (forall i, is_u8 (h i)) -> is_u8 (f h)) -> is_u8 (f (old b)).
Proof.
  intros Hext Hf. rewrite (Hext _ (fun i => if (0 <=? i) && (i <? n) then old b i else 0)).
  - apply Hf. intros i. destruct (Z.leb_spec 0 i), (Z.ltb_spec i n); cbn; auto with md. unfold mask.
    destruct (test_bit _ _); [by apply byte_at_u8|auto with md].
  - intros i Hi _. by rewrite (proj2 (Z.leb_le 0 i)), (proj2 (Z.ltb_lt i n)) by lia.
Qed.

Lemma prexor_reparity : reparity prexor.
Proof.
  rewrite prexor_eq. destruct (set_parity_rest conf sh P1 Q1) as [H1 H2]. split; [done|]. split; [done|]. intros i Hi.
  rewrite set_parity_dev by done. destruct (is_data (geo sh) i) eqn:Hd.
  { apply (is_data_not sh) in Hd as [Hip Hiq]. rewrite !(proj2 (Z.eqb_neq _ _)) by done. by left. }
  right. split; [done|]. destruct (parity_cases i Hd) as [->|[Hip ->]].
  - rewrite Z.eqb_refl. eexists. split; [|done]. apply wf_build. intros b. apply is_u8_lxor; [by apply byte_at_u8|].
    apply (old_u8 b (psum (geo sh))); [apply psum_ext|apply psum_u8].
  - rewrite (proj2 (Z.eqb_neq _ _)), Z.eqb_refl by done. eexists. split; [|done]. apply wf_build. intros b. apply is_u8_lxor; [by apply byte_at_u8|].
    apply (old_u8 b (qsum (geo sh))); [|apply qsum_u8]. intros h h'. apply qsum_ext. apply (go_slots conf); [done|].
    pose proof (go_qd _ _ Hgeo) as Hq. destruct (Z.eqb_spec (level conf) 6); [done|]. unfold qd in Hi. lia.
Qed.

(** What the drain changes, byte by byte. *)
Lemma rmw_bytes b i :
  rmw_ready -> 0 <= i < n -> is_data (geo sh) i = true ->
  pget (V i) b ⊕ old b i ⊕ mask S (fun i => pget (new_data i) b) i = pget (new_data i) b.
Proof.
  intros Hr Hi Hd. unfold mask, byte_at, new_data. destruct (test_bit _ _) eqn:HS.
  - rewrite (Hr i Hi) by auto. by rewrite Z.lxor_nilpotent, Z.lxor_0_l.
  - by rewrite !Z.lxor_0_r.
Qed.

Section Rmw.
Context (Hr : rmw_ready).
Abbreviation d1 := (drained prexor).

Lemma write_rmw_page i : 0 <= i < n -> S i = true -> drained_page conf (dev sh i) (page (dev sh i)) = V' i.
Proof. intros Hi HS. rewrite encode_data by (by apply (dr_data Hdr)). apply drained_page_eq; [done..|]. left. apply Hr; auto. Qed.

Lemma rmw_written b i : 0 <= i < n -> is_data (geo sh) i = true ->
  mask (fun i => nonempty (written (dev d1 i))) (byte_at d1 b) i = mask S (fun i => pget (new_data i) b) i.
Proof.
  intros Hi Hd. unfold mask. rewrite (drained_written prexor prexor_reparity i Hi). destruct (test_bit _ _) eqn:HS; [|done].
  unfold byte_at. rewrite (sim_page _ _ (drained_spec prexor prexor_reparity i Hi)), HS, page_set_page, write_rmw_page, encode_data by done. done.
Qed.

Lemma write_rmw_parity b i p :
  0 <= i < n -> is_data (geo sh) i = false -> dev prexor i = set_page p (dev sh i) -> byte_at d1 b i = pget p b.
Proof.
  intros Hi Hd Hp. unfold byte_at. rewrite (sim_page _ _ (drained_spec prexor prexor_reparity i Hi)).
  destruct (test_bit _ _) eqn:HS; [rewrite (dr_data Hdr i Hi HS) in Hd; done|]. by rewrite Hp, page_set_page.
Qed.

Lemma rmw_p : build (size conf) (fun b => byte_at d1 b (pd sh) ⊕ psum (geo sh) (mask (fun i => nonempty (written (dev d1 i))) (byte_at d1 b))) = V' (pd sh).
Proof.
  pose proof (go_pd _ _ Hgeo) as Hp. fold (pd sh) in Hp. assert (is_data (geo sh) (pd sh) = false) as Hd by (unfold is_data; by rewrite Z.eqb_refl).
  rewrite encode_p by done. apply map_ext_in. intros b Hb%in_seq. rewrite (write_rmw_parity b _ (build (size conf) P1) Hp Hd).
  - rewrite pget_build by lia. rewrite (psum_ext _ _ _ (rmw_written b)). unfold byte_at at 1. rewrite Hr by auto.
    unfold pd at 1. rewrite (en_p _ _ _ Henc) by lia.
    change (p_syn (map ?f (data_idx ?g))) with (psum g f). rewrite <- !psum_xor. apply psum_ext. intros. by apply rmw_bytes.
  - rewrite prexor_eq, set_parity_dev by done. by rewrite Z.eqb_refl.
Qed.

Lemma rmw_q : level conf = 6 ->
  build (size conf) (fun b => byte_at d1 b (qd sh) ⊕ qsum (geo sh) (mask (fun i => nonempty (written (dev d1 i))) (byte_at d1 b))) = V' (qd sh).
Proof.
  intros Hl. destruct (qd_range conf sh Hgeo Hl) as [Hq Hqp]. pose proof (go_slots _ _ Hgeo Hl) as Hsl.
  assert (is_data (geo sh) (qd sh) = false) as Hd by (unfold is_data; fold (qd sh); by rewrite Z.eqb_refl, orb_true_r).
  rewrite encode_q by done. apply map_ext_in. intros b Hb%in_seq. rewrite (write_rmw_parity b _ (build (size conf) Q1) Hq Hd).
  - rewrite pget_build by lia. rewrite (qsum_ext _ _ _ Hsl (rmw_written b)). unfold byte_at at 1. rewrite Hr by auto.
    unfold qd at 1. rewrite (en_q _ _ _ Henc), qsum_blocks by (done || lia). rewrite <- !qsum_xor. apply qsum_ext; [done|]. intros. by apply rmw_bytes.
  - rewrite prexor_eq, set_parity_dev by done. by rewrite (proj2 (Z.eqb_neq _ _)), Z.eqb_refl.
Qed.

(** The writes with the parity of what changes. *)
Lemma write_rmw_ok :
  reconstruct_state sh = reconstruct_state_prexor_drain_run ->
  exists sh', (s ← ops_run_biodrain conf tx prexor; if level conf <? 6 then ops_run_reconstruct5 conf tx s else ops_run_reconstruct6 conf tx s) = Some sh' /\
    disks sh' = disks sh /\ with_devs [] sh' = with_devs [] (sset STRIPE_HANDLE (with_reconstruct reconstruct_state_prexor_drain_result (with_overwrite 0 sh))) /\
    forall i, 0 <= i < n -> sim (after_write i) (dev sh' i).
Proof.
  intros Hst. pose proof prexor_reparity as Hrp. rewrite (drain_run prexor Hrp). cbn [mbind option_bind].
  pose proof (drained_geo prexor Hrp) as Hgd. pose proof (drained_disks prexor Hrp) as Hdd.
  edestruct (finish_write prexor Hrp) as (sh' & Heq & Hrest); [apply rmw_p|apply rmw_q|apply write_rmw_page|by rewrite Hst|].
  exists sh'. split; [|exact Hrest]. rewrite <- Heq, level_cases. unfold ops_run_reconstruct5, ops_run_reconstruct6.
  rewrite (drained_not_discard prexor Hrp). assert (reconstruct_state d1 = reconstruct_state sh) as ->.
  { rewrite prexor_eq. unfold set_parity. by destruct (level conf =? 6). }
  rewrite Hst. cbn [reconstruct_states_beq]. assert (pd d1 = pd sh /\ qd d1 = qd sh) as [Hpd Hqd] by (unfold pd, qd; by rewrite Hgd).
  destruct (Z.eqb_spec (level conf) 6) as [Hl|Hl]; cbn [negb].
  - pose proof (xor_in6 conf tx d1) as Hg. rewrite Hgd, Hdd, Hpd, Hqd in Hg.
    change (fun i => nonempty (written (dev d1 i))) with (chosen d1 SYNDROME_SRC_WRITTEN).
    rewrite <- Hg; [|done..|by apply drained_wf|done]. by destruct (sources _ _).
  - unfold set_parity. rewrite (proj2 (Z.eqb_neq _ _) Hl). rewrite Hpd. f_equal. f_equal. f_equal.
    pose proof (xor_in5 conf tx d1) as Hx. rewrite Hgd, Hdd, Hpd in Hx. specialize (Hx Hgeo Hn (drained_wf prexor Hrp) (fun d => nonempty (written d))).
    assert (exists i, 0 <= i < n /\ nonempty (written (dev d1 i)) = true) as Hsome.
    { destruct (dr_some Hdr) as (i & Hi & HS). exists i. split; [done|]. by rewrite drained_written. }
    rewrite <- Hx; [|intros i Hi Hw; apply (dr_data Hdr i Hi); by rewrite <- (drained_written prexor Hrp)|done].
    destruct Hsome as (i & Hi & Hw). pose proof (length_pages_kept d1) as Hlen. rewrite Hgd, Hdd in Hlen.
    specialize (Hlen Hn (fun d => nonempty (written d)) i Hi Hw). unfold xor_or_copy. destruct (pages_down _ _); [cbn in Hlen; lia|done].
Qed.
End Rmw.
End Write.

(** * Checking the parity *)

Lemma existsb_differs (f h : nat -> Z) sz : existsb (fun b => negb (f b =? h b)) (seq 0 sz) = false <-> forall b, (b < sz)%nat -> f b = h b.
Proof.
  rewrite <- not_true_iff_false, existsb_exists. split.
  - intros H b Hb. destruct (Z.eqb_spec (f b) (h b)) as [|Hne]; [done|]. destruct H. exists b. rewrite in_seq. split; [lia|].
    by apply negb_true_iff, Z.eqb_neq.
  - intros H (b & Hb%in_seq & Hne%negb_true_iff%Z.eqb_neq). apply Hne, H. lia.
Qed.

Section Checks.
Context (conf : r5conf) (tx : async_tx) {Htx : AsyncTx (size conf) tx} (sh : stripe).
Context (Hgeo : geo_ok conf (geo sh)) (Hn : sh_disks (geo sh) = Z.of_nat (disks sh)).
Context (Hwf : forall i, 0 <= i < sh_disks (geo sh) -> wf_block (size conf) (page (dev sh i))).
Abbreviation n := (sh_disks (geo sh)).

(** Whether P, and Q, differ from the syndromes of the data. *)
Definition p_differs : bool := existsb (fun b => negb (byte_at sh b (pd sh) =? psum (geo sh) (byte_at sh b))) (seq 0 (size conf)).
Definition q_differs : bool := existsb (fun b => negb (byte_at sh b (qd sh) =? qsum (geo sh) (byte_at sh b))) (seq 0 (size conf)).

Lemma data_pages_sum b :
  p_syn (col (pages_down (fun i _ => negb (i =? pd sh) && negb (i =? qd sh)) sh) b) = psum (geo sh) (byte_at sh b).
Proof.
  rewrite (pages_down_sum (fun i _ => negb (i =? pd sh) && negb (i =? qd sh))), <- Hn. unfold psum, data_idx. f_equal. f_equal.
  apply filter_ext. intros i. unfold is_data, pd, qd. by rewrite negb_orb.
Qed.

Lemma data_pages_length : (1 <= length (pages_down (fun i _ => negb (i =? pd sh) && negb (i =? qd sh))%Z sh))%nat.
Proof.
  rewrite length_pages_down, <- Hn. pose proof (go_pd _ _ Hgeo) as Hp. fold (pd sh) in Hp.
  destruct (decide (level conf = 6)) as [Hl|Hl].
  - destruct (qd_range conf sh Hgeo Hl) as [_ Hqp]. pose proof (count_others_q conf sh Hgeo (pd sh) Hp ltac:(done) Hl). lia.
  - pose proof (count_others n (pd sh) Hp) as Hc. pose proof (go_disks _ _ Hgeo) as Hd. pose proof (go_qd _ _ Hgeo) as Hq.
    rewrite (proj2 (Z.eqb_neq _ _) Hl) in Hd, Hq. fold (qd sh) in Hq.
    rewrite (filter_ext_in _ (fun i => negb (i =? pd sh)))%Z; [lia|]. intros i Hi%list_elem_of_In%elem_of_seqZ.
    rewrite (proj2 (Z.eqb_neq i (qd sh))) by lia. by rewrite andb_true_r.
Qed.

Lemma lxor_eqb_0 a b : (a ⊕ b =? 0) = (a =? b).
Proof. destruct (Z.eqb_spec a b) as [->|Hne]; [by rewrite Z.lxor_nilpotent|]. apply Z.eqb_neq. by intros ?%Z.lxor_eq. Qed.

Lemma check_p_ok :
  ops_run_check_p conf tx sh = ops_complete_check (with_zero_sum (p_differs, false)
    (upd (pd sh) (set_page (build (size conf) (fun b => byte_at sh b (pd sh) ⊕ psum (geo sh) (byte_at sh b)))) sh)).
Proof.
  unfold ops_run_check_p. pose proof (fun b => data_pages_sum b) as Hsum.
  rewrite xor_val_ok; [|constructor; [apply Hwf, (go_pd _ _ Hgeo)|by apply (pages_wf conf)]|cbn [length]; pose proof data_pages_length; lia].
  assert (forall b, p_syn (col (page (dev sh (pd sh)) :: pages_down (fun i _ => negb (i =? pd sh) && negb (i =? qd sh)) sh) b) =
    byte_at sh b (pd sh) ⊕ psum (geo sh) (byte_at sh b)) as Hb by (intros b; by rewrite <- Hsum).
  f_equal. f_equal.
  - f_equal. unfold p_differs. induction (seq 0 (size conf)) as [|b l IH]; [done|]. cbn [existsb]. by rewrite Hb, lxor_eqb_0, IH.
  - f_equal. f_equal. unfold build. apply map_ext. apply Hb.
Qed.

Lemma check_pq_ok checkp :
  level conf = 6 -> ops_run_check_pq conf tx sh checkp = ops_complete_check (with_zero_sum (checkp && p_differs, q_differs) sh).
Proof.
  intros Hl. unfold ops_run_check_pq. rewrite sources_eq by (by apply (go_slots conf)). rewrite insert_app_r_alt by (unfold chosen_slots; by rewrite length_map).
  assert (length (slot_devs (geo sh)) - length (chosen_slots sh SYNDROME_SRC_ALL) = 0)%nat as -> by (unfold chosen_slots; rewrite length_map; lia).
  destruct (parity_wf conf sh Hgeo Hwf Hl) as [Hp Hq]. destruct (qd_range conf sh Hgeo Hl) as [Hqr _].
  pose proof (fun b => chosen_sums conf sh Hgeo SYNDROME_SRC_ALL b Hl) as Hs.
  f_equal. f_equal. replace (if checkp then _ else _) with
    (chosen_slots sh SYNDROME_SRC_ALL ++ [if checkp then Some (Z.to_nat (pd sh)) else None; Some (Z.to_nat (qd sh))]) by (by destruct checkp).
  rewrite blocks_app. pose proof (go_pd _ _ Hgeo) as Hpr. fold (pd sh) in Hpr.
  assert (blocks sh [if checkp then Some (Z.to_nat (pd sh)) else None; Some (Z.to_nat (qd sh))] =
    [if checkp then Some (page (dev sh (pd sh))) else None; Some (page (dev sh (qd sh)))]) as ->.
  { destruct checkp; cbn; by rewrite !Z2Nat.id by lia. }
  rewrite syndrome_val_ok by (by apply chosen_wf; [..|destruct checkp|] || by apply (length_chosen conf)). f_equal.
  - destruct checkp; [|done]. unfold p_differs. cbn [andb]. induction (seq 0 (size conf)) as [|b l IH]; [done|]. cbn [existsb].
    rewrite IH. by destruct (Hs b) as [-> _].
  - unfold q_differs. induction (seq 0 (size conf)) as [|b l IH]; [done|]. cbn [existsb]. rewrite IH. by destruct (Hs b) as [_ ->].
Qed.

(** The pages are an encoding exactly if no check finds a difference. *)
Lemma checks_encode :
  p_differs = false /\ (level conf = 6 -> q_differs = false) <-> encodes conf (geo sh) (fun i => page (dev sh i)).
Proof.
  unfold p_differs, q_differs. rewrite !existsb_differs. split.
  - intros [Hp Hq]. split; [done|exact Hp|]. intros b Hl Hb. rewrite (qsum_blocks (geo sh) (fun i => page (dev sh i))). by apply Hq.
  - intros H. split; [apply H|]. intros Hl b Hb. unfold byte_at, qd. rewrite (en_q _ _ _ H) by done.
    by rewrite (qsum_blocks (geo sh) (fun i => page (dev sh i))).
Qed.
End Checks.
