(* ===== verification/Raid5Inv.v ===== *)
(** The invariant of a stripe of md/raid5.c between two events: there is an encoding [V] of the
    data such that the blocks of the stripe that are up to date and the members that are in sync
    hold their part of it, and what the flags of each device mean. *)

From Stdlib Require Import Sorted.
From S2P Require Import Prelude PageMem Raid5Layout Raid5Dev Raid5Ops Raid5Handle Raid5Machine Raid5Data Raid5Copy Raid5OpsCorrect Raid5Write.

(** * Chains of requests *)

Section Chains.
Context (conf : r5conf) (Hss : 0 < RAID5_STRIPE_SECTORS conf).
Abbreviation SS := (RAID5_STRIPE_SECTORS conf).

(** The requests touch the block at [sec], in their order and without overlaps. *)
Record chain_ok (sec : Z) (bs : list bio) : Prop := {
  ch_wf : Forall wf_bio bs;
  ch_touch : Forall (fun b => bi_sector b < sec + SS /\ sec < bio_end_sector b) bs;
  ch_sorted : StronglySorted (fun a b => bio_end_sector a <= bi_sector b) bs;
}.

Lemma chain_nil sec : chain_ok sec [].
Proof. split; constructor. Qed.

Lemma chain_inv sec b bs : chain_ok sec (b :: bs) ->
  wf_bio b /\ (bi_sector b < sec + SS /\ sec < bio_end_sector b) /\ Forall (fun b' => bio_end_sector b <= bi_sector b') bs /\ chain_ok sec bs.
Proof.
  intros [H1 H2 H3]. apply Forall_cons_iff in H1 as [? ?], H2 as [? ?]. apply StronglySorted_inv in H3 as [? ?].
  split; [done|]. split; [done|]. by split.
Qed.

(** The loops visit the whole chain. *)
Lemma chain_all sec bs : chain_ok sec bs -> bio_chain conf sec bs = bs.
Proof.
  induction bs as [|b bs IH]; [done|]. intros (_ & [Hb _] & Hs & Hc)%chain_inv. cbn. rewrite (proj2 (Z.ltb_lt _ _)) by done. f_equal.
  destruct (Z.ltb_spec (bio_end_sector b) (sec + SS)); [by apply IH|]. destruct bs as [|b' bs]; [done|].
  apply Forall_cons_iff in Hs as [Hs _]. apply chain_inv in Hc as (_ & [? _] & _). lia.
Qed.

Lemma chain_insert_in b bs x : x ∈ chain_insert b bs <-> x = b \/ x ∈ bs.
Proof.
  induction bs as [|b' bs IH]; cbn; [set_solver|]. destruct (_ <? _); [|set_solver]. rewrite !elem_of_cons, IH. tauto.
Qed.

Lemma chain_insert_ok sec b bs :
  wf_bio b -> bi_sector b < sec + SS -> sec < bio_end_sector b -> chain_ok sec bs -> chain_overlaps b bs = false ->
  chain_ok sec (chain_insert b bs).
Proof.
  intros Hb H1 H2 [Hw Ht Hs] Ho. split.
  - apply list.Forall_forall. intros x [->|Hx]%chain_insert_in; [done|]. by eapply list.Forall_forall in Hw.
  - apply list.Forall_forall. intros x [->|Hx]%chain_insert_in; [done|]. by eapply list.Forall_forall in Ht.
  - clear Ht. revert Ho. induction Hs as [|b' bs Hs IH Hf]; cbn; [by repeat constructor|]. intros Ho. apply Forall_cons_iff in Hw as [Hb' Hw].
    destruct (Z.ltb_spec (bi_sector b') (bi_sector b)).
    + apply orb_false_iff in Ho as [Ho1%Z.ltb_ge Ho2]. constructor; [by apply IH|]. apply list.Forall_forall.
      intros x [->|Hx]%chain_insert_in; [done|]. by eapply list.Forall_forall in Hf.
    + apply Z.ltb_ge in Ho. constructor; [by constructor|]. constructor; [done|]. revert Hf. apply Forall_impl.
      intros x Hx. destruct Hb' as (_ & Hlen & _). unfold bio_end_sector in *. lia.
Qed.

(** Nothing follows a request that goes on behind the block. *)
Lemma no_clash sec b bs : chain_ok sec bs -> chain_overlaps b bs = false -> (bi_next b <> None -> sec + SS <= bio_end_sector b) -> chain_clash b bs = false.
Proof using Type.
  intros Hok Ho Hn. unfold chain_clash. assert (forall x, chain_next b bs = Some x -> bio_end_sector b <= bi_sector x /\ bi_sector x < sec + SS) as Hx.
  { induction bs as [|b' bs IH]; [done|]. cbn in *. destruct (chain_inv _ _ _ Hok) as (_ & [H1 _] & _ & Hok'). destruct (bi_sector b' <? bi_sector b).
    - apply orb_false_iff in Ho as [_ Ho]. by apply IH.
    - apply Z.ltb_ge in Ho. by intros x [= <-]. }
  destruct (chain_next b bs) as [x|]; [|done]. destruct (bi_next b); [|done]. destruct (Hx x eq_refl). specialize (Hn ltac:(done)). lia.
Qed.

(** Nothing can be added to a chain that covers the block. *)
Lemma covered_overlaps sec b bs :
  chain_ok sec bs -> sec + SS <= covered_to conf sec sec bs -> bi_sector b < sec + SS -> sec < bio_end_sector b ->
  0 < bi_sectors b -> chain_overlaps b bs = true.
Proof.
  intros Hc Hcov H1 H2 Hpos. set (y := Z.max (bi_sector b) sec).
  assert (Exists (fun b' => bi_sector b' <= y < bio_end_sector b') (bio_chain conf sec bs)) as Hex.
  { apply (covered_to_spec conf sec sec); unfold y; lia. }
  rewrite chain_all in Hex by done. destruct Hc as [Hw _ Hs]. clear Hcov.
  assert (y < bio_end_sector b) as Hy by (unfold y, bio_end_sector in *; lia). assert (bi_sector b <= y) as Hy' by (unfold y; lia).
  clearbody y. induction Hs as [|b' bs Hs IH Hf]; [inversion Hex|]. apply Forall_cons_iff in Hw as [Hb' Hw]. cbn.
  destruct (Z.ltb_spec (bi_sector b') (bi_sector b)).
  - apply orb_true_iff. apply Exists_cons in Hex as [Hex|Hex]; [left; apply Z.ltb_lt; lia|right; by apply IH].
  - apply Z.ltb_lt. apply Exists_cons in Hex as [Hex|Hex]; [lia|]. apply Exists_exists in Hex as (x & Hx & Hxy).
    eapply List.Forall_forall in Hf; [|exact Hx]. destruct Hb' as (_ & Hlen & _). unfold bio_end_sector in *. lia.
Qed.
End Chains.

(** * Devices *)

(** The flags that are not used without replacements, discards and [skip_copy]. *)
Definition unused (f : r5dev_flag) : bool :=
  match f with
  | R5_DOUBLE_LOCKED | R5_ReadRepl | R5_MadeGoodRepl | R5_NeedReplace | R5_WantReplace | R5_Discard | R5_SkipCopy => true
  | _ => false
  end.

(** What a device is waiting for, if anything: a request to its member, the submission of one, or
    the operation on the blocks of the stripe that its block is part of. *)
Inductive status := Idle | Busy (o : io) | WantR | WantW | Pend.

Definition status_flags (st : status) : bool * option io * bool * bool :=
  match st with
  | Idle => (false, None, false, false)
  | Busy o => (true, Some o, false, false)
  | WantR => (true, None, true, false)
  | WantW => (true, None, false, true)
  | Pend => (true, None, false, false)
  end.

(** The block is going to be written to its member. *)
Definition writing (st : status) : bool := match st with Busy WRITE | WantW | Pend => true | _ => false end.

(** The part of a stripe's operation that a device has: the parity, or a block that is written. *)
Definition takes_part (par : bool) (d : r5dev) : bool := par || nonempty (written d) || test_bit R5_Wantdrain d.

Section Device.
Context (conf : r5conf).
Abbreviation SS := (RAID5_STRIPE_SECTORS conf).

(** The member is recovered beyond the stripe. *)
Definition beyond (sec : Z) (r : md_rdev) : bool := In_sync r || (sec + SS <=? recovery_offset r).

(** The member has the block of the stripe. *)
Definition in_sync (sec : Z) (r : md_rdev) : bool := negb (is_bad (bad r)) && beyond sec r.

Record device_wf (par : bool) (d : r5dev) : Prop := {
  dw_page : wf_block (size conf) (page d);
  dw_orig : bio_page d = None;
  dw_unused f : unused f = true -> test_bit f d = false;
  dw_rreq : rreq d = None;
  dw_read : read d = [];
  dw_toread : chain_ok conf (dev_sector d) (toread d);
  dw_towrite : chain_ok conf (dev_sector d) (towrite d);
  dw_written : chain_ok conf (dev_sector d) (written d);
  dw_parity : par = true -> toread d = [] /\ towrite d = [] /\ written d = [] /\ test_bit R5_OVERWRITE d = false;
}.

(** What a status promises, for the block [v] of the device and its member [r]. *)
Definition status_ok (st : status) (v : block) (r : option md_rdev) (d : r5dev) : Prop :=
  match st with
  | Idle | Pend => True
  | Busy (READ repl) => repl = false /\ exists m, r = Some m /\ stored m = v
  | Busy WRITE => test_bit R5_UPTODATE d = true /\ is_Some r
  | Busy DISCARD => False
  | WantR => exists m, working r = Some m /\ stored m = v
  | WantW => test_bit R5_UPTODATE d = true \/ working r = None
  end.

(** A device while the stripe is handled: [v] is its block of the encoding, [r] its member, [rp]
    says that an operation on the blocks is pending, and [synced] that all members have the
    block. *)
Record device_ok (v : block) (par rp : bool) (r : option md_rdev) (sec : Z) (synced : bool) (st : status) (d : r5dev) : Prop := {
  do_wf : device_wf par d;
  do_uptodate : test_bit R5_UPTODATE d = true -> page d = v;
  do_fill : test_bit R5_Wantfill d = true -> page d = v /\ toread d <> [];
  do_overwrite : test_bit R5_OVERWRITE d = true -> page d = v \/ is_covered conf d = true;
  do_status : (test_bit R5_LOCKED d, req d, test_bit R5_Wantread d, test_bit R5_Wantwrite d) = status_flags st;
  do_sem : status_ok st v r d;
  do_pend : st = Pend <-> rp && takes_part par d = true;
  do_drain : test_bit R5_Wantdrain d = true -> rp = true;
  do_stored m : working r = Some m -> test_bit R5_WriteError d = false ->
    ((is_bad (bad m) = false \/ test_bit R5_MadeGood d = true) /\ (beyond sec m = true \/ synced = true)) \/ test_bit R5_ReWrite d = true ->
    stored m = v \/ writing st = true;
  do_errors : test_bit R5_WriteError d = true -> test_bit R5_MadeGood d = true -> False;
  do_req : req d <> None -> test_bit R5_WriteError d = false /\ test_bit R5_MadeGood d = false;
}.

(** A device between two events. *)
Record device_inv (v : block) (par rp : bool) (r : option md_rdev) (sec : Z) (synced : bool) (st : status) (d : r5dev) : Prop := {
  di_ok : device_ok v par rp r sec synced st d;
  di_status : match st with WantR | WantW => False | Pend => test_bit R5_UPTODATE d = true | _ => True end;
  di_wants : test_bit R5_Wantcompute d = false /\ test_bit R5_Wantdrain d = false;
  di_fill : test_bit R5_Wantfill d = true -> test_bit R5_UPTODATE d = true;
  di_overwrite : test_bit R5_OVERWRITE d = true -> test_bit R5_UPTODATE d = true \/ is_covered conf d = true;
  di_written : written d <> [] -> test_bit R5_UPTODATE d = true;
}.
End Device.

(** * Stripes *)

Definition busy_ops (sh : stripe) : bool := negb (reconstruct_states_beq (reconstruct_state sh) reconstruct_state_idle).
Definition checking (sh : stripe) : bool := negb (check_states_beq (check_state sh) check_state_idle).

(** All members have the block of the stripe: it was synchronised, or all that is needed for that is done. *)
Definition all_synced (synced : bool) (sh : stripe) : bool := synced || (stest STRIPE_INSYNC sh && stest STRIPE_SYNCING sh).

Section Stripe.
Context (conf : r5conf).

(** The geometry of the stripe and the array around it, which do not change. *)
Record setting (w : world) : Prop := {
  se_geo : geo_ok conf (geo (w_sh w));
  se_disks : sh_disks (geo (w_sh w)) = Z.of_nat (disks (w_sh w));
  se_members : length (w_disks w) = disks (w_sh w);
  se_norepl i : 0 <= i < Z.of_nat (disks (w_sh w)) -> replacement (disk w i) = None;
}.

(** P was spoilt by a check. *)
Definition p_unneeded (w : world) : Prop :=
  let sh := w_sh w in
  let d := dev sh (pd sh) in
  working (rdev (disk w (pd sh))) = None \/
  (exists m, working (rdev (disk w (pd sh))) = Some m /\ in_sync conf (sector sh) m = true /\
    test_bit R5_ReadError d = false /\ test_bit R5_WriteError d = false /\ test_bit R5_LOCKED d = false).

(** While the parity is checked all other blocks are there, and the parity is right. *)
Record check_inv (w : world) : Prop := {
  ci_state : check_state (w_sh w) = check_state_check_result \/ (check_state (w_sh w) = check_state_compute_result /\ level conf = 6);
  ci_idle : reconstruct_state (w_sh w) = reconstruct_state_idle;
  ci_zero_sum : zero_sum_result (w_sh w) = (false, false);
  ci_blocks i : 0 <= i < Z.of_nat (disks (w_sh w)) -> i <> pd (w_sh w) -> test_bit R5_UPTODATE (dev (w_sh w) i) = true;
  ci_p : test_bit R5_UPTODATE (dev (w_sh w) (pd (w_sh w))) = true \/ p_unneeded w;
}.

Record inv (w : world) (synced : bool) (V : Z -> block) : Prop := {
  in_setting : setting w;
  in_enc : encodes conf (geo (w_sh w)) V;
  in_dev i : 0 <= i < Z.of_nat (disks (w_sh w)) ->
    exists st, device_inv conf (V i) (is_parity (w_sh w) i) (busy_ops (w_sh w)) (rdev (disk w i)) (sector (w_sh w))
      (all_synced synced (w_sh w)) st (dev (w_sh w) i);
  in_state f : f = STRIPE_ACTIVE \/ f = STRIPE_BIOFILL_RUN \/ f = STRIPE_COMPUTE_RUN \/ f = STRIPE_DISCARD -> stest f (w_sh w) = false;
  in_reconstruct : reconstruct_state (w_sh w) = reconstruct_state_idle \/ reconstruct_state (w_sh w) = reconstruct_state_drain_result \/
    reconstruct_state (w_sh w) = reconstruct_state_prexor_drain_result;
  in_check : checking (w_sh w) = true -> check_inv w;
  in_written i j : 0 <= i < Z.of_nat (disks (w_sh w)) -> written (dev (w_sh w) i) <> [] ->
    0 <= j < Z.of_nat (disks (w_sh w)) -> is_parity (w_sh w) j = true -> test_bit R5_UPTODATE (dev (w_sh w) j) = true;
}.
End Stripe.
