(* ===== verification/Raid5Init.v ===== *)
(** A stripe of md/raid5.c at its start: what [init_stripe] makes of an unused stripe of the cache
    satisfies the invariant, whatever the members hold, as long as those that are in sync hold
    their part of an encoding. *)

From S2P Require Import Prelude Sectors PageMem Raid5Layout Raid5Stripe Raid5Dev Raid5Ops Raid5Handle Raid5Machine Raid5Data Raid5Copy Raid5OpsCorrect Raid5Write Raid5Inv.

(** * Unused and fresh stripes *)

Section Init.
Context (conf : r5conf).

(** A device without requests. *)
Record unused_dev (d : r5dev) : Prop := {
  ud_page : wf_block (size conf) (orig_page d);
  ud_orig : bio_page d = None;
  ud_chains : toread d = [] /\ read d = [] /\ towrite d = [] /\ written d = [];
  ud_req : req d = None /\ rreq d = None;
}.

(** A stripe on a list of unused ones. *)
Record unused_stripe (sh : stripe) : Prop := {
  us_devs : Forall unused_dev (devs sh);
  us_handle : stest STRIPE_HANDLE sh = false;
  us_active : stripe_operations_active sh = false;
}.

(** A stripe that nothing happened to yet. *)
Record fresh (sh : stripe) : Prop := {
  fr_devs i : 0 <= i < Z.of_nat (disks sh) -> unused_dev (dev sh i) /\ forall f, test_bit f (dev sh i) = false;
  fr_state f : f <> STRIPE_BATCH_READY -> stest f sh = false;
  fr_check : check_state sh = check_state_idle;
  fr_reconstruct : reconstruct_state sh = reconstruct_state_idle;
}.

(** The members that are in sync hold [V]. *)
Definition holds (w : world) (V : Z -> block) : Prop :=
  forall i m, 0 <= i < Z.of_nat (disks (w_sh w)) -> working (rdev (disk w i)) = Some m ->
    in_sync conf (sector (w_sh w)) m = true -> stored m = V i.

Lemma unused_device_wf par d : unused_dev d -> (forall f, test_bit f d = false) -> device_wf conf par d.
Proof.
  intros [U1 U2 (U3 & U4 & U5 & U6) [U7 U8]] Hf. split; rewrite ?U3, ?U5, ?U6; try done; auto using chain_nil. unfold page. by rewrite U2.
Qed.

Lemma fresh_inv w V : setting conf w -> encodes conf (geo (w_sh w)) V -> fresh (w_sh w) -> holds w V -> inv conf w false V.
Proof.
  intros Hset Henc [F1 F2 F3 F4] Hh. split; [done|done| | | | |].
  - intros i Hi. destruct (F1 i Hi) as [Hu Hf]. pose proof Hu as [U1 U2 (U3 & U4 & U5 & U6) [U7 U8]]. exists Idle. unfold busy_ops, all_synced. rewrite F4, F2 by done. split; rewrite ?Hf, ?U6; try done. split; rewrite ?Hf, ?U6, ?U7; try done.
    + by apply unused_device_wf.
    + intros m Hm _ [[[Hb|?] [Hy|?]]|?]; try done. left. apply (Hh i m Hi Hm). unfold in_sync. by rewrite Hb, Hy.
  - intros f Hf. apply F2. by destruct Hf as [-> |[-> |[-> | ->]]].
  - by left.
  - unfold checking. by rewrite F3.
  - intros i j Hi Hw. destruct (F1 i Hi) as [[_ _ (_ & _ & _ & U) _] _]. by rewrite U in Hw.
Qed.

(** * [init_stripe] *)

Lemma init_devs_spec lc g previous ds i :
  (forall j, i <= j < i + Z.of_nat (length ds) -> is_Some (raid5_compute_blocknr lc g j previous)) ->
  exists ds', init_devs lc g previous i ds = Some ds' /\ length ds' = length ds /\
    forall k d', ds' !! k = Some d' -> exists d s, ds !! k = Some d /\ raid5_compute_blocknr lc g (i + Z.of_nat k) previous = Some s /\ d' = init_dev s d.
Proof.
  revert i. induction ds as [|d ds IH]; intros i Hs; [by exists []|]. destruct (Hs i) as [s Es]; [cbn; lia|].
  destruct (IH (i + 1)) as (ds' & E & Hl & Hd); [intros j Hj; apply Hs; cbn; lia|]. cbn [init_devs]. rewrite Es. cbn. rewrite E. cbn.
  exists (init_dev s d :: ds'). split; [done|]. split; [by cbn; rewrite Hl|]. intros [|k] d' Hk.
  - injection Hk as <-. exists d, s. by rewrite Z.add_0_r.
  - destruct (Hd k d' Hk) as (d0 & s0 & H1 & H2 & H3). exists d0, s0. split; [done|]. split; [|done]. by replace (i + Z.of_nat (S k)) with (i + 1 + Z.of_nat k) by lia.
Qed.

Context (lc : Raid5Layout.r5conf) (previous : bool).

(** The layouts in which P and Q have slots of their own among the data. *)
Definition ddf_algorithm (a : Z) : bool :=
  (a =? ALGORITHM_ROTATING_ZERO_RESTART) || (a =? ALGORITHM_ROTATING_N_RESTART) || (a =? ALGORITHM_ROTATING_N_CONTINUE).

Lemma layout_ddf lv a n dn s dd idx : layout lv a n dn s dd = Some idx -> ddf_layout idx = true -> ddf_algorithm a = true.
Proof using Type.
  unfold layout, layout5, layout6, asym6, ddf_algorithm. cbv zeta. intros H Hd. repeat case_match; simplify_eq; try done; rewrite ?orb_true_r; done.
Qed.

(** The layout is that of the array the stripe is part of. *)
Record layout_of : Prop := {
  lo_conf : conf_ok lc previous;
  lo_level : Raid5Layout.level lc = level conf;
  lo_degraded : Raid5Layout.max_degraded lc = max_degraded conf;
  lo_disks : conf_disks lc previous + (if ddf_algorithm (conf_algorithm lc previous) then 2 else 0) <= 255;
  lo_sectors : 0 < RAID5_STRIPE_SECTORS conf;
}.

(** The sectors of the array that the stripe has are sectors. *)
Definition in_array (sect : Z) : Prop :=
  0 <= sect /\ (sect / conf_spc lc previous + 1) * (conf_disks lc previous - max_degraded conf) * conf_spc lc previous <= 2 ^ 64.

Lemma set_idx_valid sect :
  layout_of -> in_array sect -> exists idx, stripe_set_idx lc sect previous = Some idx /\ is_valid_idx (level conf) (conf_disks lc previous) idx /\
    (ddf_layout idx = true -> ddf_algorithm (conf_algorithm lc previous) = true).
Proof.
  intros [Hc Hl Hd _ _] [H0 Hmax]. pose proof Hc as [Hgeo Hspc]. pose proof (geo_ok_data _ _ _ _ Hgeo) as Hdn. rewrite <- Hd in Hmax.
  pose proof (Z.div_mod sect (conf_spc lc previous) ltac:(lia)) as E. pose proof (Z.mod_pos_bound sect _ Hspc). assert (0 <= sect / conf_spc lc previous) by (apply Z.div_pos; lia).
  set (q := sect / conf_spc lc previous) in *. set (off := sect mod conf_spc lc previous) in *. rewrite E, (Z.mul_comm _ q). rewrite (stripe_set_idx_at lc previous Hc) by (done || nia).
  destruct (layout_spec _ _ _ _ q Hgeo 0 ltac:(lia)) as (idx & Hi & Hv & _). exists idx. rewrite <- Hl. split; [done|]. split; [done|]. by apply (layout_ddf _ _ _ _ _ _ _ Hi).
Qed.

Lemma valid_geo sect idx :
  layout_of -> is_valid_idx (level conf) (conf_disks lc previous) idx -> (ddf_layout idx = true -> ddf_algorithm (conf_algorithm lc previous) = true) ->
  Raid5Data.geo_ok conf {| sh_sector := sect; sh_disks := conf_disks lc previous; sh_idx := idx |}.
Proof.
  intros [[Hgeo _] Hl Hd Hn Hss] Hv Hddf. rewrite Hl, Hd in Hgeo. pose proof Hv as (_ & Hp & _ & Hq). split; cbn; try done.
  - destruct Hgeo as [(? & _)|[(? & _)|(? & _)]]; auto.
  - destruct Hgeo as [(-> & -> & ?)|[(-> & -> & ? & _)|(-> & -> & ? & _)]]; done.
  - split; [destruct Hgeo as [(-> & _ & ?)|[(-> & _ & ? & _)|(-> & _ & ? & _)]]; cbn; lia|]. destruct (ddf_layout idx); [by rewrite Hddf in Hn|]. destruct (ddf_algorithm _); lia.
  - destruct (level conf =? 6); [|done]. tauto.
  - intros H6. rewrite H6 in Hv, Hgeo. destruct Hgeo as [(? & _)|[(? & _)|(_ & _ & ? & _)]]; try done.
    destruct (ddf_layout idx) eqn:Ed; [by apply slots_ok_ddf|by apply slots_ok_native].
Qed.

Lemma init_stripe_fresh sh sect :
  layout_of -> in_array sect -> unused_stripe sh -> conf_disks lc previous <= Z.of_nat (length (devs sh)) ->
  exists sh', init_stripe lc sh sect previous = Some sh' /\ fresh sh' /\ Raid5Data.geo_ok conf (geo sh') /\ sector sh' = sect /\
    sh_disks (geo sh') = Z.of_nat (disks sh') /\ Z.of_nat (disks sh') = conf_disks lc previous /\
    forall i, 0 <= i < Z.of_nat (disks sh') -> is_parity sh' i = false ->
      exists idx, raid5_compute_sector lc (dev_sector (dev sh' i)) previous = Some (sect, idx) /\ dd_idx idx = i /\ pd_idx idx = pd sh' /\ qd_idx idx = qd sh'.
Proof.
  intros Hlo Hin [U1 U2 U3] Hlen. destruct (set_idx_valid sect Hlo Hin) as (idx & Hset & Hv & Hddf). pose proof (valid_geo sect idx Hlo Hv Hddf) as Hg. destruct Hin as [H0 Hmax]. pose proof Hlo as [Hc Hl Hd Hn Hss]. rewrite <- Hd in Hmax.
  pose proof (go_disks _ _ Hg) as Hnd. cbn [sh_disks] in Hnd. set (N := conf_disks lc previous) in *. set (g := {| sh_sector := sect; sh_disks := N; sh_idx := idx |}) in *.
  assert (forall i, 0 <= i < N -> is_data g i = true -> exists r, raid5_compute_blocknr lc g i previous = Some r /\ raid5_compute_sector lc r previous = Some (sect, Idx i (pd_idx idx) (qd_idx idx) (ddf_layout idx))) as Hdata.
  { intros i Hi [Hp%Z.eqb_neq Hq%Z.eqb_neq]%negb_true_iff%orb_false_iff. by apply (compute_sector_onto lc previous sect i idx). }
  assert (0 <= N) as HN0 by (destruct (level conf =? 6); lia). destruct (init_devs_spec lc g previous (take (Z.to_nat N) (devs sh)) 0) as (ds & Eds & Hlds & Hds).
  { rewrite length_take. intros i Hi. destruct (is_data g i) eqn:Ei; [destruct (Hdata i) as (r & -> & _); [lia|done..]|]. unfold raid5_compute_blocknr. destruct (sector_div _ _) as [st off].
    unfold is_data in Ei. apply negb_false_iff, orb_true_iff in Ei as [Ei|Ei]; rewrite Ei; [done|]. destruct (i =? pd_idx (sh_idx g)); [done|]. rewrite Hl. pose proof (go_qd _ _ Hg) as Hq. apply Z.eqb_eq in Ei. destruct (level conf =? 6); [done|]. lia. }
  rewrite length_take, Nat.min_l in Hlds by lia. unfold init_stripe. rewrite U2, U3, Hset. cbn [orb mbind option_bind]. change (if previous then previous_raid_disks lc else raid_disks lc) with N. fold g. cbv zeta. rewrite Eds. cbn [mbind option_bind].
  eexists. split; [reflexivity|]. set (sh' := sset _ _). assert (Z.of_nat (disks sh') = N) as Hdisks by (change (disks sh') with (length ds); lia).
  assert (forall i, 0 <= i < N -> exists d s, d ∈ devs sh /\ raid5_compute_blocknr lc g i previous = Some s /\ dev sh' i = init_dev s d) as Hdev.
  { intros i Hi. destruct (lookup_lt_is_Some_2 ds (Z.to_nat i)) as [d' Hd']; [lia|]. destruct (Hds _ _ Hd') as (d & s & E1 & E2 & ->). exists d, s. apply lookup_take_Some in E1 as [E1 _]. split; [by eapply list_elem_of_lookup_2|].
    split; [by replace i with (0 + Z.of_nat (Z.to_nat i)) by lia|]. unfold dev. change (devs sh') with ds. by apply list_lookup_total_correct. }
  unfold stripe_operations_active in U3. apply orb_false_iff in U3 as [[[Uc%negb_false_iff Ur%negb_false_iff]%orb_false_iff _]%orb_false_iff _].
  split; [|split; [exact Hg|split; [done|split; [done|split; [done|]]]]].
  - split.
    + rewrite Hdisks. intros i Hi. destruct (Hdev i Hi) as (d & s & Hin & _ & ->). split; [|done]. rewrite list.Forall_forall in U1. destruct (U1 d Hin). by split.
    + intros f Hf. unfold stest, sh', sset. cbn. by destruct f.
    + change (check_state sh') with (check_state sh). by destruct (check_state sh).
    + change (reconstruct_state sh') with (reconstruct_state sh). by destruct (reconstruct_state sh).
  - rewrite Hdisks. intros i Hi Hpar. destruct (Hdev i Hi) as (d & s & _ & Hs & ->). destruct (Hdata i Hi) as (r & Hr & Hcs); [by apply negb_true_iff|].
    rewrite Hs in Hr. injection Hr as ->. eexists. split; [exact Hcs|]. done.
Qed.
End Init.

(** * The start of a stripe *)

(** A stripe that nothing happened to yet, on members that hold the encoding [V]. *)
Record starts (conf : r5conf) (w : world) (V : Z -> block) : Prop := {
  st_setting : setting conf w;
  st_enc : encodes conf (geo (w_sh w)) V;
  st_fresh : fresh conf (w_sh w);
  st_holds : holds conf w V;
}.

Lemma starts_inv conf w V : starts conf w V -> inv conf w false V.
Proof. intros [S1 S2 S3 S4]. by apply fresh_inv. Qed.

(** The members of an array without replacements, one for each device. *)
Record members_of (w : world) : Prop := {
  mo_count : length (w_disks w) = disks (w_sh w);
  mo_norepl i : 0 <= i < Z.of_nat (disks (w_sh w)) -> replacement (disk w i) = None;
}.

Lemma init_starts conf lc previous sh sect sh' w V :
  layout_of conf lc previous -> in_array conf lc previous sect -> unused_stripe conf sh -> conf_disks lc previous <= Z.of_nat (length (devs sh)) ->
  init_stripe lc sh sect previous = Some sh' -> w_sh w = sh' -> members_of w -> encodes conf (geo sh') V -> holds conf w V -> starts conf w V.
Proof.
  intros Hl Hi Hu Hd E <- [M1 M2] Henc Hh. destruct (init_stripe_fresh conf lc previous sh sect Hl Hi Hu Hd) as (x & Ex & F & G & _ & N & _). rewrite E in Ex. injection Ex as <-. by split.
Qed.
