(* ===== verification/Raid5Example.v ===== *)
(** A concrete stripe for the properties of md/raid5.c: four disks in RAID-6, chunks of eight
    sectors, and stripes of one sector. *)

From S2P Require Import Prelude GF256 PageMem Raid5Layout Raid5Stripe Raid5Dev Raid5Ops Raid5Handle Raid5Machine Raid5Data Raid5Soft Raid5Copy Raid5OpsCorrect Raid5Write Raid5Inv Raid5Init.

Definition ex_layout : Raid5Layout.r5conf :=
  {| Raid5Layout.level := 6; algorithm := ALGORITHM_LEFT_SYMMETRIC; prev_algo := ALGORITHM_LEFT_SYMMETRIC; chunk_sectors := 8;
     prev_chunk_sectors := 8; raid_disks := 4; previous_raid_disks := 4; Raid5Layout.max_degraded := 2 |}.

Definition ex_conf : r5conf :=
  {| level := 6; max_degraded := 2; conf_rmw_level := PARITY_ENABLE_RMW; skip_copy := false; max_nr_stripes := 256;
     has_bitmap := false; RAID5_STRIPE_SECTORS := 1 |}.

Definition ex_block (x : Z) : block := replicate 512 x.

Definition ex_dev : r5dev :=
  {| flags := fun _ => false; orig_page := ex_block 0; bio_page := None; toread := []; read := []; towrite := []; written := [];
     dev_sector := 0; req := None; rreq := None |}.

Definition ex_unused : stripe :=
  {| geo := {| sh_sector := 0; sh_disks := 4; sh_idx := Idx 0 0 0 false |}; devs := replicate 4 ex_dev; state := fun _ => false;
     check_state := check_state_idle; reconstruct_state := reconstruct_state_idle; ops_target := 0; ops_target2 := 0;
     zero_sum_result := (false, false); overwrite_disks := 0 |}.

(** The stripe at the sector 3 of the disks: P is on the disk 3, Q on the disk 0. *)
Definition ex_stripe : stripe := default ex_unused (init_stripe ex_layout ex_unused 3 false).

Definition ex_V : Z -> block := encode ex_conf (geo ex_stripe) (fun i => ex_block (10 + i)).

Definition ex_rdev (i : Z) : md_rdev :=
  {| Faulty := false; In_sync := true; WriteErrorSeen := false; WantReplacement := false; Blocked := false; bad := Good; bb_room := true;
     recovery_offset := MaxSector; read_errors := 0; stored := ex_V i |}.

Definition ex_mddev : mddev :=
  {| recovery_cp := MaxSector; MD_SB_CHANGE_PENDING := false; MD_RECOVERY_REQUESTED := false; MD_RECOVERY_CHECK := false;
     MD_RECOVERY_RECOVER := false; MD_RECOVERY_INTR := false; MD_BROKEN := false; ro := false; degraded := 0 |}.

Definition ex_disks : list disk_info := map (fun i => {| rdev := Some (ex_rdev i); replacement := None |}) [0; 1; 2; 3].

Definition ex_world : world := {| w_sh := ex_stripe; w_disks := ex_disks; w_md := ex_mddev |}.

(** A request to the whole block of the device at the sector [s] of the array. *)
Definition ex_bio (id : nat) (s x : Z) : bio :=
  {| bi_id := id; bi_sector := s; bi_sectors := 1; bi_vecs := [{| bv_offset := 0; bv_bytes := ex_block x |}]; bi_fua := false;
     bi_sync := false; bi_discard := false; bi_next := None |}.

Lemma below_4 (P : Z -> Prop) : P 0 -> P 1 -> P 2 -> P 3 -> forall i, 0 <= i < 4 -> P i.
Proof. intros H0 H1 H2 H3 i Hi. assert (i = 0 \/ i = 1 \/ i = 2 \/ i = 3) as [-> |[-> |[-> | ->]]] by lia; done. Qed.

Lemma ex_block_wf x : is_u8 x -> wf_block (size ex_conf) (ex_block x).
Proof. intros Hx. split; [apply length_replicate|]. by apply Forall_replicate. Qed.

Lemma ex_layout_of : layout_of ex_conf ex_layout false.
Proof. split; try done. split; [right; right|]; by vm_compute. Qed.

Lemma ex_in_array : in_array ex_conf ex_layout false 3.
Proof. by split. Qed.

Lemma ex_unused_ok : unused_stripe ex_conf ex_unused.
Proof. split; [|done..]. apply Forall_replicate. split; try done. by apply ex_block_wf. Qed.

Lemma ex_init : init_stripe ex_layout ex_unused 3 false = Some ex_stripe.
Proof. reflexivity. Qed.

Lemma ex_geo : Raid5Data.geo_ok ex_conf (geo ex_stripe).
Proof.
  destruct (init_stripe_fresh ex_conf ex_layout false ex_unused 3 ex_layout_of ex_in_array ex_unused_ok) as (x & Ex & _ & G & _); [done|].
  rewrite ex_init in Ex. by injection Ex as <-.
Qed.

Lemma ex_encodes : encodes ex_conf (geo ex_stripe) ex_V.
Proof. apply encode_encodes; [apply ex_geo|]. change (sh_disks (geo ex_stripe)) with 4. intros i Hi _. apply ex_block_wf. unfold is_u8. lia. Qed.

Lemma ex_members : members_of ex_world.
Proof. split; [done|]. change (Z.of_nat (disks (w_sh ex_world))) with 4. by apply (below_4 (fun i => replacement (disk ex_world i) = None)). Qed.

Lemma ex_holds : holds ex_conf ex_world ex_V.
Proof.
  intros i m Hi. revert i Hi. change (Z.of_nat (disks (w_sh ex_world))) with 4.
  apply (below_4 (fun i => working (rdev (disk ex_world i)) = Some m -> _ -> stored m = ex_V i)); intros [= <-] _; done.
Qed.

Lemma ex_starts : starts ex_conf ex_world ex_V.
Proof.
  apply (init_starts ex_conf ex_layout false ex_unused 3 ex_stripe ex_world ex_V ex_layout_of ex_in_array ex_unused_ok); [done|done|done|apply ex_members|apply ex_encodes|apply ex_holds].
Qed.
