(* ===== verification/Raid5Analyse.v ===== *)
(** [analyse_stripe] of md/raid5.c on a stripe that satisfies the invariant: what the flags of the
    devices and the counters say. *)

From Stdlib Require Import Sorted.
From S2P Require Import Prelude PageMem Raid5Layout Raid5Dev Raid5Ops Raid5Handle Raid5Machine Raid5Data Raid5Copy Raid5OpsCorrect Raid5Write Raid5Inv.

(** * Counting devices *)

Definition count (p : Z -> bool) (l : list Z) : Z := foldr (fun i n => (if p i then 1 else 0) + n) 0 l.

Lemma count_cons p i l : count p (i :: l) = (if p i then 1 else 0) + count p l.
Proof. unfold count. cbn [foldr]. by destruct (p i). Qed.

Lemma count_nonneg p l : 0 <= count p l.
Proof. induction l as [|i l IH]; [done|]. rewrite count_cons. destruct (p i); lia. Qed.

Lemma count_le p l : count p l <= Z.of_nat (length l).
Proof. induction l as [|i l IH]; [done|]. rewrite count_cons. cbn [length]. destruct (p i); lia. Qed.

Lemma count_zero p l i : count p l = 0 -> i ∈ l -> p i = false.
Proof.
  induction l as [|j l IH]; [set_solver|]. rewrite count_cons. pose proof (count_nonneg p l). intros Hc [->|Hi]%elem_of_cons.
  - destruct (p j); [lia|done].
  - apply IH; [destruct (p j); lia|done].
Qed.

Lemma count_pos p l i : i ∈ l -> p i = true -> 0 < count p l.
Proof.
  intros Hi Hp. destruct (Z.eq_dec (count p l) 0) as [H0|]; [|pose proof (count_nonneg p l); lia].
  pose proof (count_zero p l i H0 Hi). congruence.
Qed.

Lemma count_ex p l : 0 < count p l -> exists i, i ∈ l /\ p i = true.
Proof.
  induction l as [|j l IH]; [done|]. rewrite count_cons. intros Hc. destruct (p j) eqn:Hp; [exists j; set_solver|].
  destruct IH as (i & Hi & Hpi); [lia|]. exists i. set_solver.
Qed.

Lemma count_ext p q l : (forall i, i ∈ l -> p i = q i) -> count p l = count q l.
Proof. induction l as [|j l IH]; [done|]. intros H. rewrite !count_cons, (H j), IH by set_solver. done. Qed.

Lemma count_none p l : (forall i, i ∈ l -> p i = false) -> count p l = 0.
Proof. induction l as [|j l IH]; [done|]. intros H. rewrite count_cons, (H j), IH by set_solver. done. Qed.

Lemma count_neg p l : count (fun i => negb (p i)) l = Z.of_nat (length l) - count p l.
Proof. induction l as [|j l IH]; [done|]. rewrite !count_cons, IH. cbn [length]. destruct (p j); cbn [negb]; lia. Qed.

Lemma count_filter p l : count p l = Z.of_nat (length (List.filter p l)).
Proof. induction l as [|j l IH]; [done|]. rewrite count_cons, IH. cbn [List.filter]. destruct (p j); cbn [length]; lia. Qed.

(** At most one element of [l] satisfies a [p] that is counted once, and at most two one that is counted twice. *)
Lemma count_one p l i j : NoDup l -> count p l <= 1 -> i ∈ l -> j ∈ l -> p i = true -> p j = true -> i = j.
Proof.
  induction 1 as [|k l Hk Hnd IH]; [set_solver|]. rewrite count_cons. intros Hc Hi Hj Hpi Hpj.
  pose proof (count_nonneg p l). apply elem_of_cons in Hi, Hj. destruct (p k) eqn:Hpk.
  - assert (forall x, x ∈ l -> p x = false) as Hno by (intros x; apply count_zero; lia).
    destruct Hi as [->|Hi]; [|by rewrite Hno in Hpi]. destruct Hj as [->|Hj]; [done|by rewrite Hno in Hpj].
  - destruct Hi as [->|Hi]; [congruence|]. destruct Hj as [->|Hj]; [congruence|]. by apply IH.
Qed.

Lemma count_two p l i j k :
  NoDup l -> count p l <= 2 -> i ∈ l -> j ∈ l -> k ∈ l -> i <> j -> p i = true -> p j = true -> p k = true -> k = i \/ k = j.
Proof.
  intros Hnd Hc Hi Hj Hk Hne Hpi Hpj Hpk. destruct (decide (k = i)); [by left|]. right.
  set (q := fun x => p x && negb (x =? i)). assert (count p l = count q l + count (fun x => p x && (x =? i)) l) as Hsplit.
  { clear. induction l as [|x l IH]; [done|]. rewrite !count_cons, IH. unfold q. destruct (p x), (x =? i); cbn [andb negb]; lia. }
  assert (0 < count (fun x => p x && (x =? i)) l) by (apply (count_pos _ _ i); [done|by rewrite Hpi, Z.eqb_refl]).
  apply (count_one q l); [done|lia|done|done|unfold q..]; rewrite (proj2 (Z.eqb_neq _ _)) by done; by rewrite ?Hpk, ?Hpj.
Qed.

(** * The flags *)

Section Flags.
Context (conf : r5conf).
Abbreviation SS := (RAID5_STRIPE_SECTORS conf).

(** The member [r] has the block; it has a bad block that can be written again. *)
Definition has_block (sec : Z) (r : option md_rdev) : bool :=
  match working r with Some m => in_sync conf sec m | None => false end.
Definition fixable (r : option md_rdev) (d : r5dev) : bool :=
  match working r with Some m => is_bad (bad m) && negb (WriteErrorSeen m) && test_bit R5_UPTODATE d | None => false end.
Definition works (r : option md_rdev) : bool := match working r with Some _ => true | None => false end.

Lemma has_not_fixable sec r d : has_block sec r = true -> fixable r d = false.
Proof. unfold has_block, fixable, in_sync. destruct (working r) as [m|]; [|done]. by destruct (is_bad (bad m)). Qed.

(** What the analysis leaves of a flag. *)
Definition seen (sec : Z) (r : option md_rdev) (d : r5dev) (f : r5dev_flag) : bool :=
  let ok := (has_block sec r || fixable r d) && negb (test_bit R5_WriteError d) in
  match f with
  | R5_Wantfill => test_bit R5_Wantfill d || (test_bit R5_UPTODATE d && nonempty (toread d))
  | R5_ReadRepl | R5_NeedReplace | R5_MadeGoodRepl => false
  | R5_Insync => has_block sec r && negb (test_bit R5_WriteError d) && negb (test_bit R5_ReadError d)
  | R5_ReadError => ok && (test_bit R5_ReadError d || fixable r d)
  | R5_ReWrite => ok && test_bit R5_ReWrite d
  | R5_WriteError => test_bit R5_WriteError d && works r
  | R5_MadeGood => test_bit R5_MadeGood d && works r
  | f => test_bit f d
  end.

Definition analysed (sh : stripe) (di : Z -> disk_info) (i : Z) (d : r5dev) : r5dev :=
  (analyse_dev conf sh di i d (no_state, false)).1.

Lemma analysed_eq sh di i d a : (analyse_dev conf sh di i d a).1 = analysed sh di i d.
Proof.
  unfold analysed, analyse_dev. destruct a as [s rec]. destruct (mark_errors _ _ _ _) as [d' h]. by destruct (test_bit R5_Insync _).
Qed.

Lemma wantfill_flags sh d f :
  stest STRIPE_BIOFILL_RUN sh = false ->
  test_bit f (mark_wantfill sh d) =
  match f with R5_Wantfill => test_bit R5_Wantfill d || (test_bit R5_UPTODATE d && nonempty (toread d)) | f => test_bit f d end.
Proof.
  intros Hb. unfold mark_wantfill. rewrite Hb, andb_true_r. destruct (_ && _); destruct f; cbn; by rewrite ?orb_true_r, ?orb_false_r.
Qed.

Lemma replacement_flags sh di d f :
  replacement di = None -> test_bit f (mark_replacement conf sh di d) = match f with R5_ReadRepl | R5_NeedReplace => false | f => test_bit f d end.
Proof. intros Hr. unfold mark_replacement, use_replacement. rewrite Hr. by destruct f. Qed.

Lemma insync_flags sh r d f :
  test_bit f (mark_insync conf sh (working r) d) =
  match f with
  | R5_Insync => has_block (sector sh) r || fixable r d
  | R5_ReadError => test_bit R5_ReadError d || fixable r d
  | f => test_bit f d
  end.
Proof.
  unfold mark_insync, has_block, fixable, in_sync, beyond. destruct (working r) as [m|]; [|by destruct f; cbn; rewrite ?orb_false_r].
  change (test_bit R5_UPTODATE (clear_bit R5_Insync d)) with (test_bit R5_UPTODATE d).
  destruct (is_bad (bad m)), (WriteErrorSeen m), (test_bit R5_UPTODATE d), (In_sync m), (_ <=? _); cbn [negb andb orb];
    destruct f; cbn; by rewrite ?orb_true_r, ?orb_false_r.
Qed.

Lemma errors_flags sh di d f :
  replacement di = None ->
  test_bit f (mark_errors conf sh di d).1 =
  match f with
  | R5_Insync => test_bit R5_Insync d && negb (test_bit R5_WriteError d)
  | R5_WriteError => test_bit R5_WriteError d && works (rdev di)
  | R5_MadeGood => test_bit R5_MadeGood d && works (rdev di)
  | R5_MadeGoodRepl => false
  | f => test_bit f d
  end.
Proof.
  intros Hr. unfold mark_errors, use_replacement, works. rewrite Hr. cbn [working]. destruct (working (rdev di)) as [m|];
    destruct (test_bit R5_WriteError d) eqn:H1; cbn [clear_bit with_flags test_bit flags r5dev_flag_beq];
    fold (test_bit R5_MadeGood d) (test_bit R5_MadeGoodRepl d); destruct (test_bit R5_MadeGood d) eqn:H2; cbn [clear_bit with_flags test_bit flags r5dev_flag_beq];
    fold (test_bit R5_MadeGood d) (test_bit R5_MadeGoodRepl d); destruct (test_bit R5_MadeGoodRepl d) eqn:H3;
    destruct f; cbn; unfold test_bit in *; rewrite ?H1, ?H2, ?H3, ?andb_true_r, ?andb_false_r; done.
Qed.

Lemma errors_handle sh di d :
  replacement di = None ->
  (mark_errors conf sh di d).2 = (test_bit R5_WriteError d || test_bit R5_MadeGood d) && works (rdev di).
Proof.
  intros Hr. unfold mark_errors, use_replacement, works. rewrite Hr. cbn [working]. destruct (working (rdev di)) as [m|];
    destruct (test_bit R5_WriteError d) eqn:H1; cbn [clear_bit with_flags test_bit flags r5dev_flag_beq];
    fold (test_bit R5_MadeGood d) (test_bit R5_MadeGoodRepl d); destruct (test_bit R5_MadeGood d) eqn:H2; cbn [clear_bit with_flags test_bit flags r5dev_flag_beq];
    fold (test_bit R5_MadeGood d) (test_bit R5_MadeGoodRepl d); destruct (test_bit R5_MadeGoodRepl d) eqn:H3; done.
Qed.

Lemma read_error_flags d f :
  test_bit f (mark_read_error d) =
  match f with
  | R5_Insync => test_bit R5_Insync d && negb (test_bit R5_ReadError d)
  | R5_ReadError => test_bit R5_ReadError d && test_bit R5_Insync d
  | R5_ReWrite => test_bit R5_ReWrite d && test_bit R5_Insync d
  | f => test_bit f d
  end.
Proof.
  unfold mark_read_error. destruct (test_bit R5_Insync d) eqn:H1; cbn [clear_bit with_flags test_bit flags r5dev_flag_beq];
    fold (test_bit R5_ReadError d); destruct (test_bit R5_ReadError d) eqn:H2;
    destruct f; cbn; unfold test_bit in *; rewrite ?H1, ?H2, ?andb_true_r, ?andb_false_r; done.
Qed.

Lemma analysed_flags sh di i d f :
  replacement (di i) = None -> stest STRIPE_BIOFILL_RUN sh = false ->
  test_bit f (analysed sh di i d) = seen (sector sh) (rdev (di i)) d f.
Proof.
  intros Hr Hb. unfold analysed, analyse_dev, read_rdev. unfold use_replacement. rewrite Hr. set (d3 := mark_insync _ _ _ _).
  assert (test_bit f (mark_read_error (mark_errors conf sh (di i) d3).1) = seen (sector sh) (rdev (di i)) d f) as Hf.
  { assert (forall f, test_bit f d3 = match f with
      | R5_Wantfill => test_bit R5_Wantfill d || (test_bit R5_UPTODATE d && nonempty (toread d))
      | R5_ReadRepl | R5_NeedReplace => false
      | R5_Insync => has_block (sector sh) (rdev (di i)) || fixable (rdev (di i)) d
      | R5_ReadError => test_bit R5_ReadError d || fixable (rdev (di i)) d
      | f => test_bit f d end) as H3.
    { intros g. assert (fixable (rdev (di i)) (mark_replacement conf sh (di i) (mark_wantfill sh d)) = fixable (rdev (di i)) d) as Hfix.
      { unfold fixable. by rewrite replacement_flags, wantfill_flags. }
      unfold d3. rewrite insync_flags, Hfix. destruct g; rewrite ?replacement_flags by done; cbv beta iota; rewrite ?wantfill_flags by done; done. }
    clearbody d3. assert (forall f, test_bit f (mark_errors conf sh (di i) d3).1 = match f with
      | R5_Insync => test_bit R5_Insync d3 && negb (test_bit R5_WriteError d3)
      | R5_WriteError => test_bit R5_WriteError d3 && works (rdev (di i))
      | R5_MadeGood => test_bit R5_MadeGood d3 && works (rdev (di i))
      | R5_MadeGoodRepl => false
      | f => test_bit f d3 end) as H4 by (intros g; by apply errors_flags).
    destruct (mark_errors conf sh (di i) d3) as [d4 h]. cbn [fst] in *. unfold seen. pose proof (has_not_fixable (sector sh) (rdev (di i)) d) as Hx.
    destruct f; rewrite read_error_flags; cbv beta iota; rewrite ?H4; cbv beta iota; rewrite ?H3; cbv beta iota; try done;
      destruct (has_block _ _), (fixable _ _), (test_bit R5_WriteError d), (test_bit R5_ReadError d); cbn; rewrite ?andb_true_r, ?andb_false_r; done || by specialize (Hx eq_refl). }
  destruct (mark_errors conf sh (di i) d3) as [d4 h]. cbn [fst] in Hf. by destruct (test_bit R5_Insync (mark_read_error d4)).
Qed.

(** The other fields of a device do not change. *)
Lemma analysed_fields sh di i d : exists fl, analysed sh di i d = with_flags fl d.
Proof.
  unfold analysed, analyse_dev. set (d3 := mark_insync _ _ _ _). assert (exists fl, d3 = with_flags fl d) as [fl ->].
  { unfold d3, mark_insync, mark_replacement, mark_wantfill. destruct d. repeat case_match; eexists; reflexivity. }
  assert (exists fl', (mark_errors conf sh (di i) (with_flags fl d)).1 = with_flags fl' d) as [fl' Hfl].
  { unfold mark_errors. destruct d. repeat case_match; simplify_eq/=; eexists; reflexivity. }
  destruct (mark_errors _ _ _ _) as [d4 h]. cbn in Hfl. subst d4. exists (flags (mark_read_error (with_flags fl' d))).
  unfold mark_read_error. destruct d. repeat case_match; reflexivity.
Qed.
(** * The counters *)

(** What a counter counts, on the devices as the analysis leaves them. *)
Definition counts (c : counter) (d : r5dev) : bool :=
  match c with
  | locked => test_bit R5_LOCKED d
  | uptodate => test_bit R5_UPTODATE d
  | compute => test_bit R5_Wantcompute d
  | to_fill => test_bit R5_Wantfill d
  | to_read => negb (test_bit R5_Wantfill d) && nonempty (toread d)
  | to_write => nonempty (towrite d)
  | non_overwrite => nonempty (towrite d) && negb (test_bit R5_OVERWRITE d)
  | s_written => nonempty (written d)
  | failed => negb (test_bit R5_Insync d)
  end.

Lemma cnt_add c n s c' : cnt (add c n s) c' = cnt s c' + (if counter_beq c' c then n else 0).
Proof. cbn. destruct c', c; cbn; lia. Qed.

Lemma cnt_add_if b c s c' : cnt (add_if b c s) c' = cnt s c' + (if b && counter_beq c' c then 1 else 0).
Proof. unfold add_if. destruct b; [apply cnt_add|cbn; lia]. Qed.

Lemma count_dev_cnt d s c :
  c <> failed -> cnt (count_dev d s) c = cnt s c + (if counts c d then 1 else 0).
Proof.
  intros Hc. unfold count_dev. rewrite cnt_add_if.
  destruct (nonempty (towrite d)) eqn:H1, (test_bit R5_Wantfill d) eqn:H2; repeat (rewrite cnt_add_if || rewrite cnt_add); unfold counts; rewrite ?H1, ?H2;
    destruct c; try done; cbn [counter_beq andb negb]; rewrite ?andb_true_r, ?andb_false_r; lia.
Qed.

Lemma count_dev_rest d s :
  cond (count_dev d s) = cond s /\ failed_num0 (count_dev d s) = failed_num0 s /\ failed_num1 (count_dev d s) = failed_num1 s /\
  ops_request (count_dev d s) = ops_request s /\ cnt (count_dev d s) failed = cnt s failed.
Proof. unfold count_dev, add_if. repeat case_match; done. Qed.

Record counted (sh : stripe) (di : Z -> disk_info) (i : Z) (d : r5dev) (a a' : stripe_head_state * bool) : Prop := {
  cd_cnt c : cnt a'.1 c = cnt a.1 c + (if counts c (analysed sh di i d) then 1 else 0);
  cd_ops : ops_request a'.1 = ops_request a.1;
  cd_bad : cond a'.1 handle_bad_blocks = cond a.1 handle_bad_blocks ||
    (test_bit R5_WriteError (analysed sh di i d) || test_bit R5_MadeGood (analysed sh di i d));
  cd_cond c : c <> handle_bad_blocks -> c <> blocked_rdev -> cond a'.1 c = cond a.1 c;
  cd_num0 : failed_num0 a'.1 = if negb (test_bit R5_Insync (analysed sh di i d)) && (cnt a.1 failed =? 0) then i else failed_num0 a.1;
  cd_num1 : failed_num1 a'.1 = if negb (test_bit R5_Insync (analysed sh di i d)) && (cnt a.1 failed =? 1) then i else failed_num1 a.1;
  cd_recovery : a'.2 = a.2 || (negb (test_bit R5_Insync (analysed sh di i d)) && works (rdev (di i)));
}.

Lemma analyse_dev_counted sh di i d a :
  replacement (di i) = None -> stest STRIPE_BIOFILL_RUN sh = false -> counted sh di i d a (analyse_dev conf sh di i d a).2.
Proof.
  intros Hr Hb. destruct a as [s b]. pose proof (fun f => analysed_flags sh di i d f Hr Hb) as Hfl. pose proof (analysed_eq sh di i d (s, b)) as Heq.
  destruct (analysed_fields sh di i d) as [fl Hfields].
  assert (forall c, c <> failed -> counts c (mark_wantfill sh d) = counts c (analysed sh di i d)) as Hcounts.
  { intros c Hc. pose proof (fun f => wantfill_flags sh d f Hb) as Hw. assert (toread (mark_wantfill sh d) = toread d /\ towrite (mark_wantfill sh d) = towrite d /\ written (mark_wantfill sh d) = written d) as (E1 & E2 & E3).
    { unfold mark_wantfill. by destruct (_ && _ && _). }
    unfold counts. rewrite !Hfl, !Hw, E1, E2, E3. rewrite Hfields. by destruct c. }
  pose proof (errors_handle sh (di i) (mark_insync conf sh (read_rdev conf sh (di i)) (mark_replacement conf sh (di i) (mark_wantfill sh d))) Hr) as Hh.
  assert (forall f, f = R5_WriteError \/ f = R5_MadeGood -> test_bit f (mark_insync conf sh (read_rdev conf sh (di i)) (mark_replacement conf sh (di i) (mark_wantfill sh d))) = test_bit f d) as Hsame.
  { intros f Hf. unfold read_rdev, use_replacement. rewrite Hr, insync_flags. destruct Hf as [->| ->]; cbv beta iota; rewrite replacement_flags, wantfill_flags by done; done. }
  rewrite !Hsame in Hh by auto. clear Hsame. unfold analyse_dev in *.
  set (s1 := count_dev (mark_wantfill sh d) s) in *. destruct (count_dev_rest (mark_wantfill sh d) s) as (R1 & R2 & R3 & R4 & R5). fold s1 in R1, R2, R3, R4, R5.
  set (s2 := if blocks_handling (read_rdev conf sh (di i)) then with_cond blocked_rdev true s1 else s1) in *.
  assert (cnt s2 = cnt s1 /\ failed_num0 s2 = failed_num0 s /\ failed_num1 s2 = failed_num1 s /\ ops_request s2 = ops_request s /\
    (forall c, c <> blocked_rdev -> cond s2 c = cond s c)) as (S1 & S2 & S3 & S4 & S5).
  { unfold s2. destruct (blocks_handling _); cbn; rewrite ?R1, ?R2, ?R3, ?R4; repeat split; try done. intros c Hc. by destruct c. }
  clearbody s2. destruct (mark_errors _ _ _ _) as [d4 h]. cbn in Hh. subst h.
  set (s3 := if (test_bit R5_WriteError d || test_bit R5_MadeGood d) && works (rdev (di i)) then with_cond handle_bad_blocks true s2 else s2) in *.
  assert (cnt s3 = cnt s1 /\ failed_num0 s3 = failed_num0 s /\ failed_num1 s3 = failed_num1 s /\ ops_request s3 = ops_request s /\
    (forall c, c <> blocked_rdev -> c <> handle_bad_blocks -> cond s3 c = cond s c) /\
    cond s3 handle_bad_blocks = cond s handle_bad_blocks || ((test_bit R5_WriteError d || test_bit R5_MadeGood d) && works (rdev (di i)))) as (T1 & T2 & T3 & T4 & T5 & T6).
  { unfold s3. destruct (_ && works _); cbn; rewrite ?S1, ?S2, ?S3, ?S4; repeat split; try done.
    - intros c H1 H2. rewrite <- S5 by done. by destruct c.
    - by rewrite orb_true_r.
    - intros c H1 H2. by apply S5.
    - by rewrite S5, orb_false_r. }
  clearbody s3. assert (forall c, cnt s3 c = cnt s c + (if counts c (analysed sh di i d) && negb (counter_beq c failed) then 1 else 0)) as Hcnt.
  { intros c. rewrite T1. destruct (counter_beq c failed) eqn:Hc.
    - assert (c = failed) as -> by (by destruct c). rewrite R5, andb_false_r. lia.
    - unfold s1. assert (c <> failed) as Hcf by (by intros ->). rewrite count_dev_cnt, Hcounts by done. by rewrite andb_true_r. }
  assert (bool_decide (is_Some (read_rdev conf sh (di i))) = works (rdev (di i))) as Hrec.
  { unfold read_rdev, use_replacement, works. rewrite Hr. destruct (working (rdev (di i))); [by apply bool_decide_true|by apply bool_decide_false; intros []]. }
  set (d5 := mark_read_error d4) in *. clearbody d5. destruct (test_bit R5_Insync d5) eqn:Hin; cbn in Heq; subst d5.
  - split; cbn [fst snd]; rewrite ?Hin; cbn [negb andb]; try done.
    + intros c. rewrite Hcnt. destruct c; cbn; rewrite ?andb_true_r, ?Hin; try done.
    + by rewrite T6, !Hfl, andb_orb_distrib_l.
    + intros c H1 H2. by apply T5.
    + by rewrite orb_false_r.
  - split; cbn [fst snd]; rewrite ?Hin; cbn [negb andb]; unfold count_failed.
    + intros c. rewrite cnt_add. set (s4 := if cnt s3 failed =? 0 then _ else _).
      assert (cnt s4 = cnt s3) as -> by (unfold s4; by repeat case_match).
      rewrite Hcnt. destruct c; cbn [counter_beq negb]; rewrite ?andb_true_r, ?andb_false_r; cbn [counts]; rewrite ?Hin; cbn [negb]; lia.
    + by repeat case_match.
    + transitivity (cond s3 handle_bad_blocks); [by repeat case_match|]. by rewrite T6, !Hfl, andb_orb_distrib_l.
    + intros c H1 H2. transitivity (cond s3 c); [by repeat case_match|by apply T5].
    + rewrite Hcnt. cbn. rewrite andb_false_r, Z.add_0_r. destruct (cnt s failed =? 0) eqn:H0; [done|]. by destruct (cnt s failed =? 1).
    + rewrite Hcnt. cbn. rewrite andb_false_r, Z.add_0_r. destruct (Z.eqb_spec (cnt s failed) 0) as [->|]; [done|]. by destruct (cnt s failed =? 1).
    + rewrite Hrec, Hr. cbn [working andb]. rewrite (bool_decide_false (is_Some (@None md_rdev))) by (by intros []). by rewrite orb_false_r.
Qed.
End Flags.

(** * The stripe *)

Section Analysis.
Context (conf : r5conf).

(** The state while a stripe [sh] is handled that the analysis started with. *)
Record analysis (w : world) (sh : stripe) (s : stripe_head_state) : Prop := {
  an_cnt c : cnt s c = count (fun i => counts c (dev sh i)) (seqZ 0 (Z.of_nat (disks sh)));
  an_ops o : ops_request s o = false;
  an_bad i : cond s handle_bad_blocks = false -> 0 <= i < Z.of_nat (disks sh) ->
    test_bit R5_WriteError (dev sh i) = false /\ test_bit R5_MadeGood (dev sh i) = false;
  an_cond c : c = req_compute \/ c = p_failed \/ c = q_failed -> cond s c = false;
  an_failed i : cnt s failed <= 2 -> 0 <= i < Z.of_nat (disks sh) -> has_failed_num s i = negb (test_bit R5_Insync (dev sh i));
  an_num0 : 1 <= cnt s failed -> 0 <= failed_num0 s < Z.of_nat (disks sh);
  an_num1 : 2 <= cnt s failed -> 0 <= failed_num1 s < Z.of_nat (disks sh) /\ failed_num0 s <> failed_num1 s;
  an_sync : cond s syncing || cond s replacing = stest STRIPE_SYNCING sh;
  an_replacing i : cond s replacing = true -> cond s syncing = false /\
    (0 <= i < Z.of_nat (disks sh) -> test_bit R5_Insync (dev sh i) = false -> works (rdev (disk w i)) = false);
}.

Section Fold.
Context (sh : stripe) (di : Z -> disk_info) (Hb : stest STRIPE_BIOFILL_RUN sh = false).
Abbreviation dA i := (analysed conf sh di i (dev sh i)).
Abbreviation lost_dev := (fun i => negb (test_bit R5_Insync (dA i))).

Lemma analyse_fold l :
  (forall i, i ∈ l -> replacement (di i) = None) ->
  let a := foldr (fun i a => (analyse_dev conf sh di i (dev sh i) a).2) (no_state, false) l in
  let F := rev (List.filter lost_dev l) in
  (forall c, cnt a.1 c = count (fun i => counts c (dA i)) l) /\ (forall o, ops_request a.1 o = false) /\
  (cond a.1 handle_bad_blocks = existsb (fun i => test_bit R5_WriteError (dA i) || test_bit R5_MadeGood (dA i)) l) /\
  (forall c, c <> handle_bad_blocks -> c <> blocked_rdev -> cond a.1 c = false) /\
  failed_num0 a.1 = default (-1) (F !! 0%nat) /\ failed_num1 a.1 = default (-1) (F !! 1%nat) /\
  a.2 = existsb (fun i => lost_dev i && works (rdev (di i))) l.
Proof.
  induction l as [|i l IH]; [done|]. intros Hr. destruct IH as (C & O & B & N & F0 & F1 & R); [intros; apply Hr; by right|].
  cbn [foldr]. set (a := foldr _ _ l) in *. destruct (analyse_dev_counted conf sh di i (dev sh i) a (Hr i ltac:(by left)) Hb) as [c1 c2 c3 c4 c5 c6 c7].
  cbn zeta. cbn [existsb List.filter].
  assert (cnt a.1 failed = Z.of_nat (length (rev (List.filter lost_dev l)))) as Hlen by (rewrite C, length_rev; apply (count_filter lost_dev)).
  repeat match goal with |- _ /\ _ => split end.
  - intros c. rewrite c1, count_cons, C. lia.
  - intros o. by rewrite c2.
  - rewrite c3, B. apply orb_comm.
  - intros c H1 H2. rewrite c4 by done. by apply N.
  - rewrite c5, F0, Hlen. destruct (test_bit R5_Insync (dA i)); cbn [negb andb]; [done|]. cbn [rev].
    destruct (rev (List.filter lost_dev l)) as [|x F]; [done|]. by rewrite (proj2 (Z.eqb_neq _ _)) by (cbn [length]; lia).
  - rewrite c6, F1, Hlen. destruct (test_bit R5_Insync (dA i)); cbn [negb andb]; [done|]. cbn [rev].
    destruct (rev (List.filter lost_dev l)) as [|x [|y F]]; [done..|]. by rewrite (proj2 (Z.eqb_neq _ _)) by (cbn [length]; lia).
  - rewrite c7, R. apply orb_comm.
Qed.
End Fold.

Lemma analyse_ok w :
  setting conf w -> stest STRIPE_BIOFILL_RUN (w_sh w) = false ->
  (forall i, 0 <= i < Z.of_nat (disks (w_sh w)) -> test_bit R5_Wantcompute (dev (w_sh w) i) = false) ->
  exists s, analyse_stripe conf w = Some (mapi (analysed conf (w_sh w) (disk w)) (w_sh w), s) /\
    analysis w (mapi (analysed conf (w_sh w) (disk w)) (w_sh w)) s.
Proof.
  intros Hset Hb Hcomp. set (sh := w_sh w) in *. set (sh' := mapi (analysed conf sh (disk w)) sh).
  assert (forall i, 0 <= i < Z.of_nat (disks sh) -> dev sh' i = analysed conf sh (disk w) i (dev sh i)) as Hdev by (intros; by apply dev_mapi).
  assert (disks sh' = disks sh) as Hds by apply disks_mapi.
  pose proof (analyse_fold sh (disk w) Hb (seqZ 0 (Z.of_nat (disks sh)))) as Hf. pose proof (for_devs_acc (analyse_dev conf sh (disk w)) sh (no_state, false)) as Hacc.
  pose proof (for_devs_eq (analyse_dev conf sh (disk w)) (analysed conf sh (disk w)) sh (no_state, false) (analysed_eq conf sh (disk w))) as Heq.
  rewrite <- Hacc in Hf. clear Hacc. unfold analyse_stripe. fold sh. destruct (for_devs _ sh _) as [sh'' [s rec]]. cbn in Heq. subst sh''. fold sh'.
  destruct Hf as (C & O & B & N & F0 & F1 & R); [intros i Hi%elem_of_seqZ; apply Hset; fold sh; lia|]. cbn [fst snd] in *.
  assert (forall (p : r5dev -> bool), count (fun i => p (analysed conf sh (disk w) i (dev sh i))) (seqZ 0 (Z.of_nat (disks sh))) =
    count (fun i => p (dev sh' i)) (seqZ 0 (Z.of_nat (disks sh')))) as Hcount.
  { intros p. rewrite Hds. apply count_ext. intros i Hi%elem_of_seqZ. by rewrite Hdev by lia. }
  assert (cnt s compute = 0) as Hc0.
  { rewrite C. apply count_none. intros i Hi%elem_of_seqZ. cbn [counts]. rewrite analysed_flags by (done || apply Hset; fold sh; lia).
    cbn [seen]. apply Hcomp. lia. }
  rewrite Hc0. cbn [Z.ltb Z.compare bug_on]. eexists. split; [reflexivity|].
  set (F := rev _) in F0, F1. assert (cnt s failed = Z.of_nat (length F)) as HF by (rewrite C; unfold F; rewrite length_rev; apply (count_filter (fun i => counts failed _))).
  assert (NoDup F) as Hnd.
  { unfold F. rewrite <- Permutation_rev. apply NoDup_ListNoDup, List.NoDup_filter, NoDup_ListNoDup, NoDup_seqZ. }
  assert (forall i, i ∈ F <-> 0 <= i < Z.of_nat (disks sh) /\ test_bit R5_Insync (dev sh' i) = false) as HinF.
  { intros i. unfold F. rewrite list_elem_of_In, <- in_rev, filter_In, <- list_elem_of_In, elem_of_seqZ, negb_true_iff.
    split; (intros [H1 H2]; split; [lia|]); [rewrite Hdev by lia|rewrite <- Hdev by lia]; done. }
  clearbody F.
  set (s' := if stest STRIPE_SYNCING sh' then _ else s). assert (cnt s' = cnt s /\ ops_request s' = ops_request s /\ failed_num0 s' = failed_num0 s /\ failed_num1 s' = failed_num1 s /\
    (forall c, c <> syncing -> c <> replacing -> cond s' c = cond s c)) as (E1 & E2 & E3 & E4 & E5).
  { unfold s'. repeat case_match; repeat split; try done; intros c; by destruct c. }
  split.
  - intros c. by rewrite E1, C, Hcount.
  - intros o. by rewrite E2.
  - intros i Hbad Hi. rewrite E5, B in Hbad by done. rewrite Hds in Hi.
    apply not_true_iff_false in Hbad. rewrite existsb_exists in Hbad. rewrite Hdev by done.
    apply orb_false_iff, not_true_iff_false. intros Hor. apply Hbad. exists i. split; [apply list_elem_of_In, elem_of_seqZ; lia|done].
  - intros c Hc. rewrite E5 by (by destruct Hc as [->|[->| ->]]). apply N; by destruct Hc as [->|[->| ->]].
  - intros i Hle Hi. rewrite Hds in Hi. unfold has_failed_num. rewrite E1, E3, E4, F0, F1. rewrite E1 in Hle. rewrite HF in *.
    destruct (HinF i) as [H1 H2]. destruct F as [|x [|y [|z F]]]; cbn [length] in Hle |- *; cbn; [..|lia].
    + destruct (test_bit R5_Insync (dev sh' i)); [done|]. destruct (not_elem_of_nil i). by apply H2.
    + destruct (Z.eqb_spec x i) as [->|Hne]; cbn.
      * destruct H1 as [_ ->]; [by left|done].
      * destruct (test_bit R5_Insync (dev sh' i)); [done|]. apply list_elem_of_singleton in H2; [congruence|done].
    + destruct (Z.eqb_spec x i) as [->|Hne]; cbn; [destruct H1 as [_ ->]; [by left|done]|].
      destruct (Z.eqb_spec y i) as [->|Hne']; cbn; [destruct H1 as [_ ->]; [right; by left|done]|].
      destruct (test_bit R5_Insync (dev sh' i)); [done|]. assert (i ∈ [x; y]) as Hin by (by apply H2).
      rewrite elem_of_cons, list_elem_of_singleton in Hin. destruct Hin; congruence.
  - rewrite E1, E3, F0, HF, Hds. intros Hle. destruct F as [|x F]; [cbn in Hle; lia|]. apply HinF. by left.
  - rewrite E1, E3, E4, F0, F1, HF, Hds. intros Hle. destruct F as [|x [|y F]]; [cbn in Hle; lia..|]. cbn. split; [apply HinF; right; by left|].
    apply list.NoDup_cons in Hnd as [Hx _]. intros ->. apply Hx. by left.
  - unfold s'. assert (cond s syncing = false /\ cond s replacing = false) as [N1 N2] by (split; by apply N).
    destruct (stest STRIPE_SYNCING sh'); [|by rewrite N1, N2]. destruct (_ || _ || _); cbn; by rewrite ?N1, ?N2.
  - intros i Hrep. assert (cond s syncing = false /\ cond s replacing = false) as [N1 N2] by (split; by apply N).
    unfold s' in *. destruct (stest STRIPE_SYNCING sh'); [|by rewrite N2 in Hrep]. destruct (rec || _ || _) eqn:Hor; [by cbn in Hrep; rewrite N2 in Hrep|].
    split; [done|]. rewrite Hds. intros Hi Hins. apply orb_false_iff in Hor as [[Hrec _]%orb_false_iff _]. rewrite R in Hrec.
    apply not_true_iff_false in Hrec. rewrite existsb_exists in Hrec. destruct (works (rdev (disk w i))) eqn:Hw; [|done]. destruct Hrec.
    exists i. rewrite <- Hdev by done. rewrite Hins, Hw. split; [apply list_elem_of_In, elem_of_seqZ; lia|done].
Qed.
End Analysis.

(** * The invariant while the stripe is handled *)

(** A device does not change but in its flags. *)
Lemma device_wf_flags conf par d fl :
  device_wf conf par d -> (forall f, unused f = true -> fl f = false) -> (par = true -> fl R5_OVERWRITE = false) ->
  device_wf conf par (with_flags fl d).
Proof. intros [H1 H2 H3 H4 H5 H6 H7 H8 H9] Hu Ho. split; try done. intros Hp. destruct (H9 Hp) as (? & ? & ? & _). by auto. Qed.

(** The flags that say what is going on in a stripe that is handled. *)
Definition moving (f : r5dev_flag) : bool :=
  match f with
  | R5_LOCKED | R5_Wantread | R5_Wantwrite | R5_Wantcompute | R5_Wantdrain | R5_UPTODATE | R5_ReWrite => true
  | f => quiet f
  end.

Lemma device_ok_step conf v par rp rp' r sec synced st st' d fl :
  device_ok conf v par rp r sec synced st d ->
  (forall f, moving f = false -> fl f = flags d f) ->
  (fl R5_UPTODATE = true -> test_bit R5_UPTODATE d = true) ->
  (fl R5_LOCKED, req d, fl R5_Wantread, fl R5_Wantwrite) = status_flags st' ->
  status_ok st' v r (with_flags fl d) ->
  (st' = Pend <-> rp' && takes_part par (with_flags fl d) = true) ->
  (fl R5_Wantdrain = true -> rp' = true) ->
  (writing st = true -> writing st' = true) ->
  (fl R5_ReWrite = true -> test_bit R5_ReWrite d = true \/ writing st' = true) ->
  device_ok conf v par rp' r sec synced st' (with_flags fl d).
Proof.
  intros [Hwf Hupt Hfill Hover Hst Hsem Hpend Hdrain Hstored Herr Hreq] Hfl Hu Hst' Hsem' Hpend' Hdrain' Hw Hre. split; try done.
  - apply device_wf_flags; [done|..].
    + intros f Hf. rewrite Hfl by (by destruct f). by apply (dw_unused _ _ _ Hwf).
    + intros Hp. rewrite Hfl by done. by apply (dw_parity _ _ _ Hwf).
  - intros H. apply Hupt, Hu, H.
  - unfold test_bit. cbn. rewrite Hfl by done. apply Hfill.
  - unfold test_bit. cbn. rewrite Hfl by done. intros H. destruct (Hover H) as [|Hc]; [by left|right]. exact Hc.
  - intros m Hm. unfold test_bit. cbn. rewrite !(Hfl R5_WriteError), !(Hfl R5_MadeGood) by done. intros Hwe Hor.
    destruct Hor as [Hor|Hor].
    + destruct (Hstored m Hm Hwe) as [|H]; [by left|by left|right; by apply Hw].
    + destruct (Hre Hor) as [Hr'|H]; [|by right]. destruct (Hstored m Hm Hwe) as [|H]; [by right|by left|right; by apply Hw].
  - unfold test_bit. cbn. rewrite !(Hfl R5_WriteError), !(Hfl R5_MadeGood) by done. apply Herr.
  - unfold test_bit. cbn. rewrite !(Hfl R5_WriteError), !(Hfl R5_MadeGood) by done. apply Hreq.
Qed.

Section Analysed.
Context (conf : r5conf) (sh : stripe) (di : Z -> disk_info) (i : Z).
Context (Hr : replacement (di i) = None) (Hb : stest STRIPE_BIOFILL_RUN sh = false).
Abbreviation r := (rdev (di i)).

Lemma analysed_ok v par rp synced st d :
  device_inv conf v par rp r (sector sh) synced st d ->
  device_inv conf v par rp r (sector sh) synced st (analysed conf sh di i d).
Proof.
  intros [[Hwf Hupt Hfill Hover Hst Hsem Hpend Hdrain Hstored Herr Hreq] Hs Hw Hf Ho Hwr].
  pose proof (fun f => analysed_flags conf sh di i d f Hr Hb) as Hfl. destruct (analysed_fields conf sh di i d) as [fl Heq]. rewrite Heq in *. clear Heq.
  assert (forall f, fl f = seen conf (sector sh) r d f) as Hfl' by (intros f; apply Hfl). clear Hfl.
  assert (fl R5_Wantfill = true -> test_bit R5_UPTODATE d = true /\ toread d <> []) as Hfill'.
  { rewrite Hfl'. cbn [seen]. intros [H|[H1 H2]%andb_true_iff]%orb_true_iff; [split; [by apply Hf|by apply Hfill]|split; [done|by destruct (toread d)]]. }
  split; [split|..]; unfold test_bit in *; cbn [flags with_flags page orig_page bio_page toread read towrite written dev_sector req rreq] in *.
  - apply device_wf_flags; [done|..].
    + intros f Hf'. rewrite Hfl'. pose proof (dw_unused _ _ _ Hwf f Hf'). by destruct f.
    + intros Hp. rewrite Hfl'. by apply (dw_parity _ _ _ Hwf).
  - rewrite Hfl'. exact Hupt.
  - intros H. destruct (Hfill' H) as [H1 H2]. split; [by apply Hupt|done].
  - rewrite Hfl'. exact Hover.
  - rewrite !Hfl'. exact Hst.
  - destruct st as [|[]| | |]; unfold status_ok, test_bit in *; cbn [flags with_flags] in *; rewrite ?Hfl'; exact Hsem.
  - unfold takes_part, test_bit in *. cbn [flags with_flags written] in *. rewrite Hfl'. exact Hpend.
  - rewrite Hfl'. exact Hdrain.
  - intros m Hm. rewrite !Hfl'. cbn [seen]. unfold works. rewrite Hm, !andb_true_r. unfold test_bit. intros Hwe Hor. apply (Hstored m Hm Hwe).
    destruct Hor as [|[_ Hor]%andb_true_iff]; by auto.
  - rewrite !Hfl'. cbn [seen]. intros [H1 _]%andb_true_iff [H2 _]%andb_true_iff. by apply Herr.
  - intros Hq. destruct (Hreq Hq) as [H1 H2]. rewrite !Hfl'. cbn [seen]. unfold test_bit. by rewrite H1, H2.
  - destruct st; try done. by rewrite Hfl'.
  - rewrite !Hfl'. exact Hw.
  - intros H. rewrite Hfl'. by apply Hfill'.
  - rewrite !Hfl'. exact Ho.
  - rewrite Hfl'. exact Hwr.
Qed.

(** What the analysis found out. *)
Record looked (r : option md_rdev) (sec : Z) (d : r5dev) : Prop := {
  lk_insync : test_bit R5_Insync d = true -> has_block conf sec r = true /\ test_bit R5_ReadError d = false;
  lk_out : test_bit R5_Insync d = false -> has_block conf sec r = false \/ test_bit R5_ReadError d = true \/ test_bit R5_WriteError d = true \/ works r = false;
  lk_error : test_bit R5_ReadError d = true -> works r = true /\ test_bit R5_WriteError d = false;
  lk_rewrite : test_bit R5_ReWrite d = true -> test_bit R5_WriteError d = false;
  lk_tried m : test_bit R5_ReadError d = true \/ test_bit R5_ReWrite d = true -> working r = Some m -> WriteErrorSeen m && is_bad (bad m) = false;
}.

Lemma analysed_looked d : looked r (sector sh) (analysed conf sh di i d).
Proof.
  pose proof (fun f => analysed_flags conf sh di i d f Hr Hb) as Hfl. split; rewrite ?Hfl; cbn [seen].
  - intros [[H1 H2]%andb_true_iff H3]%andb_true_iff. split; [done|]. rewrite (has_not_fixable _ _ _ _ H1).
    apply negb_true_iff in H3. rewrite H3. by rewrite andb_false_r.
  - unfold works. intros H. destruct (has_block conf (sector sh) r) eqn:H1; [right|by left]. cbn in H. destruct (working r); [|auto].
    destruct (test_bit R5_WriteError d); cbn in *; [by auto|]. left. apply negb_false_iff in H. by rewrite H.
  - intros [[H1 H2]%andb_true_iff _]%andb_true_iff. apply negb_true_iff in H2. rewrite H2. split; [|done].
    unfold has_block, fixable, works in *. by destruct (working r).
  - intros [[_ H2]%andb_true_iff _]%andb_true_iff. apply negb_true_iff in H2. by rewrite H2.
  - intros m Hor Hm. assert (has_block conf (sector sh) r || fixable r d = true) as Hok by (destruct Hor as [Hor|Hor]; by apply andb_true_iff in Hor as [[Hor _]%andb_true_iff _]).
    unfold has_block, fixable, in_sync in Hok. rewrite Hm in Hok. destruct (is_bad (bad m)), (WriteErrorSeen m); done.
Qed.
End Analysed.
