(* ===== verification/Raid5Decide.v ===== *)
(** The decisions of [handle_stripe] of md/raid5.c between [analyse_stripe] and [finish]: every step
    keeps the meaning of the devices of the stripe, none runs into a [BUG_ON], and what is asked of
    [raid_run_ops] can be done. *)

From S2P Require Import Prelude PageMem Raid5Layout Raid5Stripe Raid5Dev Raid5Ops Raid5Handle Raid5Machine Raid5Data Raid5Copy Raid5OpsCorrect Raid5Write Raid5Inv Raid5Analyse.

Section Decide.
Context (conf : r5conf).

(** * The stripe while it is handled *)

Record mid_dev (w : world) (sh : stripe) (V : Z -> block) (synced : bool) (i : Z) (st : status) : Prop := {
  md_ok : device_ok conf (V i) (is_parity sh i) (busy_ops sh) (rdev (disk w i)) (sector sh) (all_synced synced sh) st (dev sh i);
  md_errors : test_bit R5_WriteError (dev sh i) = false /\ test_bit R5_MadeGood (dev sh i) = false;
  md_looked : looked conf (rdev (disk w i)) (sector sh) (dev sh i);
}.

Definition in_stripe (sh : stripe) (i : Z) : Prop := 0 <= i < Z.of_nat (disks sh).

Record mid (w : world) (sh : stripe) (s : stripe_head_state) (V : Z -> block) (synced : bool) : Prop := {
  mi_set : setting conf (with_sh sh w);
  mi_enc : encodes conf (geo sh) V;
  mi_dev i : in_stripe sh i -> exists st, mid_dev w sh V synced i st;
  mi_le : 0 <= cnt s failed <= max_degraded conf;
  mi_failed i : in_stripe sh i -> has_failed_num s i = negb (test_bit R5_Insync (dev sh i));
  mi_num0 : 1 <= cnt s failed -> in_stripe sh (failed_num0 s);
  mi_num1 : 2 <= cnt s failed -> in_stripe sh (failed_num1 s) /\ failed_num0 s <> failed_num1 s;
  mi_locked0 : 0 <= cnt s locked;
  mi_locked i : cnt s locked = 0 -> in_stripe sh i -> test_bit R5_LOCKED (dev sh i) = false;
}.

(** The failed devices are the same. *)
Definition same_failed (s s' : stripe_head_state) : Prop :=
  cnt s' failed = cnt s failed /\ failed_num0 s' = failed_num0 s /\ failed_num1 s' = failed_num1 s.

Lemma mid_step w sh sh' s s' V synced synced' :
  mid w sh s V synced -> geo sh' = geo sh -> disks sh' = disks sh -> same_failed s s' ->
  (forall i st, in_stripe sh i -> mid_dev w sh V synced i st -> exists st', mid_dev w sh' V synced' i st') ->
  (forall i, in_stripe sh i -> test_bit R5_Insync (dev sh' i) = test_bit R5_Insync (dev sh i)) ->
  0 <= cnt s' locked -> (forall i, cnt s' locked = 0 -> in_stripe sh i -> test_bit R5_LOCKED (dev sh' i) = false) ->
  mid w sh' s' V synced'.
Proof.
  intros [[S1 S2 S3 S4] He Hd Hl Hf H0 H1 L0 L] Hg Hn (F1 & F2 & F3) Hdev Hin HL0 HL. unfold in_stripe in *. cbn in S1, S2, S3, S4.
  split; unfold in_stripe; rewrite ?F1, ?F2, ?F3, ?Hn; try done.
  - split; cbn; rewrite ?Hg, ?Hn; done.
  - by rewrite Hg.
  - intros i Hi. destruct (Hd i Hi) as [st Hst]. by apply (Hdev i st).
  - intros i Hi. rewrite Hin by done. rewrite <- (Hf i Hi). unfold has_failed_num. by rewrite F1, F2, F3.
Qed.

(** A change of the state flags that does not say that the stripe is synchronised. *)
Lemma mid_dev_state w sh sh' V synced i st :
  mid_dev w sh V synced i st -> geo sh' = geo sh -> reconstruct_state sh' = reconstruct_state sh -> dev sh' i = dev sh i ->
  all_synced synced sh' = all_synced synced sh -> mid_dev w sh' V synced i st.
Proof.
  intros [H1 H2 H3] Hg Hr Hd Hs. split; unfold is_parity, busy_ops, sector, pd, qd in *; rewrite ?Hg, ?Hr, ?Hd, ?Hs; done.
Qed.

(** A device of which only flags change. *)
Lemma mid_dev_flags w sh sh' V synced i st st' fl :
  mid_dev w sh V synced i st -> geo sh' = geo sh -> all_synced synced sh' = all_synced synced sh -> dev sh' i = with_flags fl (dev sh i) ->
  (forall f, moving f = false -> fl f = flags (dev sh i) f) ->
  (fl R5_UPTODATE = true -> test_bit R5_UPTODATE (dev sh i) = true) ->
  (fl R5_LOCKED, req (dev sh i), fl R5_Wantread, fl R5_Wantwrite) = status_flags st' ->
  status_ok st' (V i) (rdev (disk w i)) (with_flags fl (dev sh i)) ->
  (st' = Pend <-> busy_ops sh' && takes_part (is_parity sh i) (with_flags fl (dev sh i)) = true) ->
  (fl R5_Wantdrain = true -> busy_ops sh' = true) ->
  (writing st = true -> writing st' = true) ->
  (fl R5_ReWrite = true -> test_bit R5_ReWrite (dev sh i) = true \/ (writing st' = true /\ test_bit R5_ReadError (dev sh i) = true)) ->
  mid_dev w sh' V synced i st'.
Proof.
  intros [H1 [E1 E2] [L1 L2 L3 L4 L5]] Hg Hs Hd' Hfl Hu Hst Hsem Hpend Hdrain Hw Hre.
  split; unfold is_parity, sector, pd, qd in *; rewrite ?Hg, ?Hd', ?Hs.
  - eapply device_ok_step; try done. intros H. destruct (Hre H) as [|[? _]]; auto.
  - unfold test_bit in *. cbn. by rewrite !Hfl.
  - split; unfold test_bit in *; cbn; rewrite ?(Hfl R5_Insync), ?(Hfl R5_ReadError), ?(Hfl R5_WriteError) by done; try done.
    intros m Hor. apply L5. destruct Hor as [|H]; [by left|]. destruct (Hre H) as [|[_ ?]]; auto.
Qed.

(** Nothing changes in the devices. *)
Lemma mid_state w sh sh' s s' V synced :
  mid w sh s V synced -> geo sh' = geo sh -> devs sh' = devs sh -> reconstruct_state sh' = reconstruct_state sh ->
  all_synced synced sh' = all_synced synced sh -> same_failed s s' -> cnt s' locked = cnt s locked -> mid w sh' s' V synced.
Proof.
  intros H Hg Hd Hr Hs Hf Hl. pose proof H as [_ _ _ _ _ _ _ L0 L]. assert (forall i, dev sh' i = dev sh i) as Hdev by (intros i; unfold dev; by rewrite Hd).
  apply (mid_step w sh sh' s s' V synced synced); try done.
  - unfold disks. by rewrite Hd.
  - intros i st Hi Hst. exists st. by apply (mid_dev_state w sh).
  - intros i Hi. by rewrite Hdev.
  - by rewrite Hl.
  - intros i. rewrite Hl, Hdev. apply L.
Qed.

(** All members that work have their block, or will have it. *)
Lemma mid_sync w sh sh' s V synced synced' :
  mid w sh s V synced ->
  (forall i st, in_stripe sh i -> mid_dev w sh V synced i st ->
    test_bit R5_Insync (dev sh i) = true \/ writing st = true \/ works (rdev (disk w i)) = false) ->
  geo sh' = geo sh -> devs sh' = devs sh -> reconstruct_state sh' = reconstruct_state sh -> mid w sh' s V synced'.
Proof.
  intros H Hall Hg Hd Hr. pose proof H as [_ _ _ _ _ _ _ L0 L]. assert (forall i, dev sh' i = dev sh i) as Hdev by (intros i; unfold dev; by rewrite Hd).
  apply (mid_step w sh sh' s s V synced synced'); try done.
  - unfold disks. by rewrite Hd.
  - intros i st Hi Hst. exists st. specialize (Hall i st Hi Hst). destruct Hst as [[K1 K2 K3 K4 K5 K6 K7 K8 K9 K10 K11] E Lk].
    split; unfold is_parity, busy_ops, sector, pd, qd in *; rewrite ?Hg, ?Hr, ?Hdev; [split; try done|done|done].
    intros m Hm Hwe [[Hgood _]|Hor]; [|apply (K9 m Hm Hwe); by right]. destruct Hall as [Hin|[Hw|Hw]]; [|by right|unfold works in Hw; by rewrite Hm in Hw].
    destruct (lk_insync _ _ _ _ Lk Hin) as [Hb _]. unfold has_block in Hb. rewrite Hm in Hb. unfold in_sync in Hb. apply andb_true_iff in Hb as [_ Hb].
    apply (K9 m Hm Hwe). left. auto.
  - intros i Hi. by rewrite Hdev.
  - intros i. rewrite Hdev. apply L.
Qed.

(** * Completed operations *)

(** What the invariant says beyond [mid] before new requests are made. *)
Record early (sh : stripe) : Prop := {
  ea_wants i : in_stripe sh i -> test_bit R5_Wantcompute (dev sh i) = false /\ test_bit R5_Wantdrain (dev sh i) = false;
  ea_written i : in_stripe sh i -> written (dev sh i) <> [] -> test_bit R5_UPTODATE (dev sh i) = true;
  ea_parity i j : in_stripe sh i -> written (dev sh i) <> [] -> in_stripe sh j -> is_parity sh j = true -> test_bit R5_UPTODATE (dev sh j) = true;
  ea_pend i : in_stripe sh i -> busy_ops sh = true -> takes_part (is_parity sh i) (dev sh i) = true -> test_bit R5_UPTODATE (dev sh i) = true;
}.

Definition result_dev (sh : stripe) (i : Z) (d : r5dev) : r5dev :=
  if test_bit R5_LOCKED d && (is_parity sh i || nonempty (written d)) then set_bit R5_Wantwrite d else d.

Definition makes_insync (sh : stripe) (prexor : bool) (s : stripe_head_state) (i : Z) : bool :=
  test_bit R5_LOCKED (dev sh i) && (is_parity sh i || nonempty (written (dev sh i))) &&
  (negb prexor && (cnt s failed <=? 1) && (negb (test_bit R5_Insync (dev sh i)) || (is_parity sh i && (cnt s failed =? 0)))).

Lemma write_dev_fold sh prexor s l :
  foldr (fun i a => (write_dev sh prexor s i (dev sh i) a).2) false l = existsb (makes_insync sh prexor s) l.
Proof.
  induction l as [|i l IH]; [done|]. cbn [foldr existsb]. rewrite IH. unfold write_dev, makes_insync. destruct (_ && (_ || _)) eqn:H; cbn [snd andb]; [|done]. apply orb_comm.
Qed.

Lemma write_results_eq sh s :
  let prexor := reconstruct_states_beq (reconstruct_state sh) reconstruct_state_prexor_drain_result in
  let sh1 := with_reconstruct reconstruct_state_idle sh in
  reconstruct_state sh = reconstruct_state_drain_result \/ reconstruct_state sh = reconstruct_state_prexor_drain_result ->
  test_bit R5_UPTODATE (dev sh (pd sh)) = true -> (0 <= qd sh -> test_bit R5_UPTODATE (dev sh (qd sh)) = true) ->
  exists s', write_results sh s = Some (sclear STRIPE_PREREAD_ACTIVE
    ((if existsb (makes_insync sh1 prexor s) (seqZ 0 (Z.of_nat (disks sh))) then sset STRIPE_INSYNC else id) (mapi (result_dev sh1) sh1)), s') /\
    same_failed s s' /\ cnt s' = cnt s /\ ops_request s' = ops_request s /\ forall c, c <> dec_preread_active -> cond s' c = cond s c.
Proof.
  intros prexor sh1 Hrs Hp Hq. unfold write_results. fold prexor.
  assert (prexor || reconstruct_states_beq (reconstruct_state sh) reconstruct_state_drain_result = true) as Hc by (unfold prexor; destruct Hrs as [-> | ->]; done).
  rewrite Hc. fold sh1. unfold parity_ready. change (dev sh1 ?i) with (dev sh i). change (pd sh1) with (pd sh). change (qd sh1) with (qd sh). rewrite Hp. cbn [orb negb bug_on].
  assert (bug_on ((0 <=? qd sh) && negb (test_bit R5_UPTODATE (dev sh (qd sh)) || test_bit R5_Discard (dev sh (qd sh)))) = id (A := option (stripe * stripe_head_state))) as ->.
  { unfold bug_on. destruct (Z.leb_spec 0 (qd sh)); [rewrite Hq by done|]; done. }
  pose proof (for_devs_eq (write_dev sh1 prexor s) (result_dev sh1) sh1 false) as H1. pose proof (for_devs_acc (write_dev sh1 prexor s) sh1 false) as H2.
  rewrite write_dev_fold in H2. destruct (for_devs _ sh1 false) as [sh2 ins]. cbn in H1, H2. rewrite H1 by (intros j d a; unfold write_dev, result_dev; by destruct (_ && _)).
  subst ins. unfold id at 1. change (disks sh1) with (disks sh).
  set (b := existsb _ _). exists (if stest STRIPE_PREREAD_ACTIVE (if b then sset STRIPE_INSYNC (mapi (result_dev sh1) sh1) else mapi (result_dev sh1) sh1) then with_cond dec_preread_active true s else s).
  split; [by destruct b|]. destruct (stest _ _); repeat split; try done. intros c Hc'. by destruct c.
Qed.
(** What later steps use of the state [s]. *)
Definition same_state (s s' : stripe_head_state) : Prop :=
  same_failed s s' /\ cnt s' = cnt s /\ ops_request s' = ops_request s /\
  forall c, c = syncing \/ c = replacing \/ c = req_compute \/ c = handle_bad_blocks -> cond s' c = cond s c.

Lemma same_state_refl s : same_state s s.
Proof. by repeat split. Qed.

(** What is left of [sh] when results are written or returned. *)
Record kept (sh sh' : stripe) : Prop := {
  kp_geo : geo sh' = geo sh;
  kp_disks : disks sh' = disks sh;
  kp_check : check_state sh' = check_state sh;
  kp_zero : zero_sum_result sh' = zero_sum_result sh;
  kp_syncing : stest STRIPE_SYNCING sh' = stest STRIPE_SYNCING sh;
  kp_runs : stest STRIPE_BIOFILL_RUN sh' = stest STRIPE_BIOFILL_RUN sh /\ stest STRIPE_COMPUTE_RUN sh' = stest STRIPE_COMPUTE_RUN sh /\
    stest STRIPE_ACTIVE sh' = stest STRIPE_ACTIVE sh /\ stest STRIPE_DISCARD sh' = stest STRIPE_DISCARD sh;
  kp_flags i f : in_stripe sh i -> f <> R5_Wantwrite -> quiet f = false -> test_bit f (dev sh' i) = test_bit f (dev sh i);
  kp_fields i : in_stripe sh i -> page (dev sh' i) = page (dev sh i) /\ toread (dev sh' i) = toread (dev sh i) /\ towrite (dev sh' i) = towrite (dev sh i) /\
    dev_sector (dev sh' i) = dev_sector (dev sh i);
}.

Lemma kept_refl sh : kept sh sh.
Proof. by repeat split. Qed.

Lemma parity_member w sh s V synced : mid w sh s V synced ->
  in_stripe sh (pd sh) /\ is_parity sh (pd sh) = true /\
  (if level conf =? 6 then in_stripe sh (qd sh) /\ is_parity sh (qd sh) = true /\ qd sh <> pd sh else qd sh = -1).
Proof.
  intros [[Hg Hn _ _] _ _ _ _ _ _ _ _]. cbn in Hg, Hn. pose proof (go_pd _ _ Hg) as Hp. pose proof (go_qd _ _ Hg) as Hq.
  unfold in_stripe, is_parity, pd, qd. rewrite <- Hn, !Z.eqb_refl, orb_true_r. destruct (level conf =? 6); repeat split; try done; lia || apply Hq.
Qed.

(** At most one failed device. *)
Lemma one_failed w sh s V synced i j :
  mid w sh s V synced -> cnt s failed <= 1 -> in_stripe sh i -> in_stripe sh j ->
  test_bit R5_Insync (dev sh i) = false -> test_bit R5_Insync (dev sh j) = false -> i = j.
Proof.
  intros Hm Hle Hi Hj Hfi Hfj. pose proof (mi_failed _ _ _ _ _ Hm i Hi) as H1. pose proof (mi_failed _ _ _ _ _ Hm j Hj) as H2.
  rewrite Hfi in H1. rewrite Hfj in H2. unfold has_failed_num in H1, H2. rewrite (proj2 (Z.leb_gt 2 _)) in H1, H2 by lia.
  cbn in H1, H2. rewrite orb_false_r in H1, H2. apply andb_true_iff in H1 as [_ ?%Z.eqb_eq], H2 as [_ ?%Z.eqb_eq]. congruence.
Qed.

Lemma none_failed w sh s V synced i :
  mid w sh s V synced -> cnt s failed = 0 -> in_stripe sh i -> test_bit R5_Insync (dev sh i) = true.
Proof.
  intros Hm H0 Hi. pose proof (mi_failed _ _ _ _ _ Hm i Hi) as H. unfold has_failed_num in H. rewrite H0 in H. cbn in H.
  by destruct (test_bit R5_Insync (dev sh i)).
Qed.

Lemma status_locked w sh V synced i st : mid_dev w sh V synced i st -> test_bit R5_LOCKED (dev sh i) = false -> st = Idle.
Proof. intros [[_ _ _ _ H _ _ _ _ _ _] _ _] Hl. rewrite Hl in H. by destruct st. Qed.

Lemma status_takes_part w sh V synced i st : mid_dev w sh V synced i st -> busy_ops sh = true -> takes_part (is_parity sh i) (dev sh i) = true -> st = Pend.
Proof. intros [[_ _ _ _ _ _ H _ _ _ _] _ _] Hb Ht. apply H. by rewrite Hb, Ht. Qed.

(** The results of the operations on the blocks are to be written. *)
Section Results.
Context (w : world) (sh : stripe) (s : stripe_head_state) (V : Z -> block) (synced : bool).
Context (Hm : mid w sh s V synced) (He : early sh) (Hbusy : busy_ops sh = true).
Abbreviation sh1 := (with_reconstruct reconstruct_state_idle sh).
Abbreviation sh2 := (mapi (result_dev sh1) sh1).

Lemma result_eq i : in_stripe sh i -> dev sh2 i = result_dev sh1 i (dev sh i).
Proof. intros Hi. by apply (dev_mapi _ sh1). Qed.

Lemma result_flags i f : in_stripe sh i -> f <> R5_Wantwrite -> test_bit f (dev sh2 i) = test_bit f (dev sh i).
Proof. intros Hi Hf. rewrite result_eq by done. unfold result_dev. destruct (_ && _); [|done]. by destruct f. Qed.

Lemma result_fields i : in_stripe sh i -> exists fl, dev sh2 i = with_flags fl (dev sh i).
Proof. intros Hi. rewrite result_eq by done. unfold result_dev. destruct (_ && _); [by eexists|]. exists (flags (dev sh i)). by destruct (dev sh i). Qed.

Lemma result_wanted i st :
  in_stripe sh i -> mid_dev w sh V synced i st ->
  test_bit R5_LOCKED (dev sh i) && (is_parity sh i || nonempty (written (dev sh i))) = true <-> st = Pend.
Proof.
  intros Hi [[K1 K2 K3 K4 K5 K6 K7 K8 K9 K10 K11] _ _]. destruct (ea_wants _ He i Hi) as [_ Hnd].
  rewrite K7, Hbusy. unfold takes_part in *. rewrite Hnd, orb_false_r in *. cbn [andb]. split; [intros [_ H]%andb_true_iff; done|].
  intros H. rewrite H, andb_true_r. assert (st = Pend) as -> by (apply K7; by rewrite Hbusy, H). by injection K5.
Qed.

Definition result_status (st : status) : status := match st with Pend => WantW | st => st end.

Lemma result_mid i st : in_stripe sh i -> mid_dev w sh V synced i st -> mid_dev w sh2 V synced i (result_status st).
Proof.
  intros Hi Hst. pose proof Hst as [[K1 K2 K3 K4 K5 K6 K7 K8 K9 K10 K11] [E1 E2] Lk]. destruct (ea_wants _ He i Hi) as [_ Hnd].
  pose proof (result_wanted i st Hi Hst) as Hiff. destruct (result_fields i Hi) as [fl Hfl].
  assert (forall f, f <> R5_Wantwrite -> fl f = test_bit f (dev sh i)) as Hf by (intros f Hf; rewrite <- result_flags by done; by rewrite Hfl).
  apply (mid_dev_flags w sh sh2 V synced i st _ fl); try done.
  - intros f Hmv. apply Hf. by intros ->.
  - by rewrite Hf.
  - rewrite !Hf by done. assert (fl R5_Wantwrite = test_bit R5_Wantwrite (dev sh2 i)) as -> by (by rewrite Hfl). rewrite result_eq by done.
    unfold result_dev. change (is_parity sh1 i) with (is_parity sh i).
    destruct (test_bit R5_LOCKED (dev sh i) && (is_parity sh i || nonempty (written (dev sh i)))) eqn:Hc.
    + assert (st = Pend) as -> by (by apply Hiff). cbn in *. unfold test_bit in *. cbn. congruence.
    + assert (st <> Pend) by (intros H; apply Hiff in H; congruence). rewrite K5. by destruct st.
  - destruct st as [|[]| | |]; unfold status_ok in *; unfold test_bit; cbn [flags with_flags]; rewrite ?Hf by done; try done.
    left. apply (ea_pend _ He i Hi Hbusy). assert (busy_ops sh && takes_part (is_parity sh i) (dev sh i) = true) as Ht by (by apply K7). by rewrite Hbusy in Ht.
  - change (busy_ops sh2) with false. cbn. split; [by destruct st|done].
  - rewrite Hf by done. congruence.
  - by destruct st as [|[]| | |].
  - rewrite Hf by done. by left.
Qed.

Lemma results_mid s' : same_failed s s' -> cnt s' = cnt s -> mid w sh2 s' V synced.
Proof.
  intros Hsf Hcnt. apply (mid_step w sh sh2 s s' V synced synced); try done.
  - apply (disks_mapi _ sh1).
  - intros i st Hi Hst. eexists. by apply result_mid.
  - intros i Hi. by apply result_flags.
  - rewrite Hcnt. apply Hm.
  - intros i. rewrite Hcnt. intros H0 Hi. rewrite result_flags by done. by apply (mi_locked _ _ _ _ _ Hm).
Qed.

(** If the parity, or the only failed device, is written then all members will have their blocks. *)
Lemma results_synced prexor i st :
  existsb (makes_insync sh1 prexor s) (seqZ 0 (Z.of_nat (disks sh))) = true ->
  in_stripe sh i -> mid_dev w sh2 V synced i st -> test_bit R5_Insync (dev sh2 i) = true \/ writing st = true \/ works (rdev (disk w i)) = false.
Proof.
  intros (j & Hj & Hmake)%existsb_exists Hi Hst. apply list_elem_of_In, elem_of_seqZ in Hj. assert (in_stripe sh j) as Hj' by (unfold in_stripe; lia).
  unfold makes_insync in Hmake. change (dev sh1 ?k) with (dev sh k) in Hmake. change (is_parity sh1 j) with (is_parity sh j) in Hmake.
  apply andb_true_iff in Hmake as [Hl [[_ Hle%Z.leb_le]%andb_true_iff Hor]%andb_true_iff].
  destruct (test_bit R5_Insync (dev sh2 i)) eqn:Hin; [by left|right; left]. rewrite result_flags in Hin by done.
  apply orb_true_iff in Hor as [Hnj%negb_true_iff|[_ H0%Z.eqb_eq]%andb_true_iff].
  - assert (i = j) as -> by (by eapply one_failed). destruct (mi_dev _ _ _ _ _ Hm j Hj') as [st0 Hst0].
    pose proof (proj1 (result_wanted j st0 Hj' Hst0) Hl) as ->. pose proof (result_mid j Pend Hj' Hst0) as [[_ _ _ _ K _ _ _ _ _ _] _ _].
    pose proof Hst as [[_ _ _ _ K' _ _ _ _ _ _] _ _]. rewrite K in K'. by destruct st as [|[]| | |].
  - rewrite (none_failed w sh s V synced i) in Hin by done. done.
Qed.
End Results.

Lemma write_results_ok w sh s V synced :
  mid w sh s V synced -> early sh ->
  reconstruct_state sh = reconstruct_state_idle \/ reconstruct_state sh = reconstruct_state_drain_result \/ reconstruct_state sh = reconstruct_state_prexor_drain_result ->
  exists sh' s', write_results sh s = Some (sh', s') /\ mid w sh' s' V synced /\ early sh' /\ reconstruct_state sh' = reconstruct_state_idle /\
    kept sh sh' /\ (stest STRIPE_INSYNC sh' = stest STRIPE_INSYNC sh \/ reconstruct_state sh <> reconstruct_state_idle) /\ same_state s s' /\
    forall i, in_stripe sh i -> written (dev sh' i) = written (dev sh i).
Proof.
  intros Hm He [Hidle|Hrs].
  { exists sh, s. unfold write_results. rewrite Hidle. cbn. pose proof (same_state_refl s). pose proof (kept_refl sh). repeat match goal with |- _ /\ _ => split end; auto. }
  assert (busy_ops sh = true) as Hbusy by (unfold busy_ops; destruct Hrs as [-> | ->]; done).
  destruct (parity_member _ _ _ _ _ Hm) as (Hp & Hpar & Hq).
  destruct (write_results_eq sh s) as (s' & Heq & Hsf & Hcnt & Hops & Hcond); [done|..].
  { apply (ea_pend _ He); [done..|]. unfold takes_part. by rewrite Hpar. }
  { intros Hq0. destruct (level conf =? 6); [|lia]. destruct Hq as (Hq & Hqp & _). apply (ea_pend _ He); [done..|]. unfold takes_part. by rewrite Hqp. }
  cbv zeta in Heq. set (prexor := reconstruct_states_beq _ _) in Heq. set (sh1 := with_reconstruct reconstruct_state_idle sh) in *.
  set (b := existsb _ _) in Heq. set (sh2 := mapi (result_dev sh1) sh1) in Heq.
  pose proof (results_mid w sh s V synced Hm He Hbusy s' Hsf Hcnt) as Hm2. fold sh1 sh2 in Hm2.
  pose proof (fun i f => result_flags sh i f) as Hfl. fold sh1 sh2 in Hfl. pose proof (fun i => result_fields sh i) as Hfd. fold sh1 sh2 in Hfd.
  assert (disks sh2 = disks sh) as Hds by apply (disks_mapi _ sh1).
  set (sh3 := sclear STRIPE_PREREAD_ACTIVE _) in Heq. assert (devs sh3 = devs sh2) as Hd3 by (unfold sh3; by destruct b).
  assert (forall i, dev sh3 i = dev sh2 i) as Hdev by (intros i; unfold dev; by rewrite Hd3).
  assert (geo sh3 = geo sh /\ reconstruct_state sh3 = reconstruct_state_idle /\ check_state sh3 = check_state sh /\ zero_sum_result sh3 = zero_sum_result sh) as (G1 & G2 & G3 & G4) by (unfold sh3; by destruct b).
  assert (forall f, f <> STRIPE_PREREAD_ACTIVE -> f <> STRIPE_INSYNC -> stest f sh3 = stest f sh) as Hst by (intros f H1 H2; unfold sh3; destruct b, f; done).
  exists sh3, s'. split; [exact Heq|]. repeat match goal with |- _ /\ _ => split end; try done.
  - unfold sh3. destruct b eqn:Hb; [|by eapply mid_state].
    apply (mid_state w (sset STRIPE_INSYNC sh2) _ s' s'); try done. eapply (mid_sync w sh2); try done.
    intros i st Hi Hst'. unfold in_stripe in Hi. rewrite Hds in Hi. by eapply (results_synced w sh s).
  - assert (forall i, in_stripe sh3 i -> in_stripe sh i) as Hin by (intros i; unfold in_stripe; rewrite <- Hds; unfold disks; by rewrite Hd3).
    assert (forall i, in_stripe sh i -> written (dev sh2 i) = written (dev sh i)) as Hwr by (intros i Hi; by destruct (Hfd i Hi) as [fl ->]).
    destruct He as [H1 H2 H3 H4]. split.
    + intros i Hi%Hin. rewrite !Hdev, !Hfl by done. by apply H1.
    + intros i Hi%Hin. rewrite !Hdev, !Hfl, Hwr by done. by apply H2.
    + intros i j Hi%Hin. rewrite !Hdev, Hwr by done. intros Hw Hj%Hin Hpj. rewrite Hfl by done. apply (H3 i j); try done.
      unfold is_parity, pd, qd in *. by rewrite G1 in Hpj.
    + intros i Hi. unfold busy_ops. by rewrite G2.
  - split; try done.
    + unfold disks. by rewrite Hd3.
    + by apply Hst.
    + repeat split; by apply Hst.
    + intros i f Hi Hf _. rewrite Hdev. by apply Hfl.
    + intros i Hi. rewrite Hdev. by destruct (Hfd i Hi) as [fl ->].
  - right. by destruct Hrs as [-> | ->].
  - split; [done|]. split; [done|]. split; [done|]. intros c Hc. apply Hcond. by destruct Hc as [->|[->|[->| ->]]].
  - intros i Hi. rewrite Hdev. by destruct (Hfd i Hi) as [fl ->].
Qed.
(** * Returning writes *)

Definition acked_dev (sh sh' : stripe) (i : Z) : list reply :=
  if nonempty (written (dev sh i)) && negb (nonempty (written (dev sh' i))) then map (Write_done i) (written (dev sh i)) else [].

(** The writes that are returned when [sh] becomes [sh']. *)
Definition acked (sh sh' : stripe) : list reply := mjoin (map (acked_dev sh sh') (indices_down sh)).

Definition cleans (d : r5dev) : bool :=
  nonempty (written d) && (negb (test_bit R5_LOCKED d) && (test_bit R5_UPTODATE d || test_bit R5_Discard d || test_bit R5_SkipCopy d)).

Definition clean_to (i : Z) (d : r5dev) : r5dev := (clean_dev conf i d (false, [])).1.

Lemma clean_dev_eq i d a : (clean_dev conf i d a).1 = clean_to i d.
Proof. unfold clean_to, clean_dev. destruct a as [p out]. destruct (nonempty _); [|done]. by destruct (_ && _). Qed.

Lemma join_one {A} (l : list A) : mjoin [l] = l.
Proof. apply app_nil_r. Qed.

Lemma clean_fold sh l :
  foldr (fun i a => (clean_dev conf i (dev sh i) a).2) (false, []) l =
  (existsb (fun i => nonempty (written (dev sh i)) && negb (cleans (dev sh i)) && test_bit R5_Discard (dev sh i)) l,
   mjoin (map (fun i => if cleans (dev sh i) then map (Write_done i) (bio_chain conf (dev_sector (dev sh i)) (written (dev sh i))) else []) (rev l))).
Proof.
  induction l as [|i l IH]; [done|]. cbn [foldr existsb rev]. rewrite IH, map_app, join_app. cbn [map]. rewrite join_one. unfold clean_dev, cleans.
  destruct (nonempty (written (dev sh i))); cbn [andb orb snd]; [|by rewrite app_nil_r].
  set (c := negb (test_bit R5_LOCKED (dev sh i)) && _). destruct c; cbn [snd negb andb orb]; f_equal; rewrite ?app_nil_r; try done; apply orb_comm.
Qed.

(** A device of which the writes are returned. *)
Lemma clean_to_spec i d par :
  device_wf conf par d -> exists fl, (forall f, fl f = flags d f) /\
    clean_to i d = if cleans d then with_writes (towrite d) [] (with_flags fl d) else d.
Proof.
  intros [_ Hp Hu _ _ _ _ _ _]. pose proof (Hu R5_Discard eq_refl) as Hd. pose proof (Hu R5_SkipCopy eq_refl) as Hs.
  unfold clean_to, clean_dev, cleans. destruct (nonempty _) eqn:Hw; [|by exists (flags d)]. cbn [andb].
  set (c := negb (test_bit R5_LOCKED d) && _). destruct c; [|by exists (flags d)]. cbn [fst]. rewrite Hd. exists (flags (clear_bit R5_SkipCopy d)). split.
  - intros f. unfold test_bit in Hs. cbn. by destruct f.
  - destruct d as [? ? [] ]; [done|]. done.
Qed.

Lemma device_ok_clean v par r sec synced st d fl :
  device_ok conf v par false r sec synced st d -> (forall f, fl f = flags d f) ->
  device_ok conf v par false r sec synced st (with_writes (towrite d) [] (with_flags fl d)).
Proof.
  intros [[W1 W2 W3 W4 W5 W6 W7 W8 W9] K2 K3 K4 K5 K6 K7 K8 K9 K10 K11] Hfl.
  split; unfold test_bit in *; cbn [flags with_flags with_writes req page orig_page bio_page toread]; rewrite ?Hfl; try done.
  - split; unfold test_bit; cbn [flags with_flags with_writes]; try done; [intros f Hf; rewrite Hfl; by apply W3|apply chain_nil|].
    intros Hp. rewrite Hfl. destruct (W9 Hp) as (? & ? & ? & ?). done.
  - destruct st as [|[]| | |]; unfold status_ok, test_bit in *; cbn [flags with_flags with_writes]; rewrite ?Hfl; done.
Qed.

Section Return.
Context (w : world) (sh : stripe) (s : stripe_head_state) (V : Z -> block) (synced : bool).
Context (Hm : mid w sh s V synced) (He : early sh) (Hidle : reconstruct_state sh = reconstruct_state_idle).
Abbreviation sh' := (sclear STRIPE_FULL_WRITE (mapi clean_to sh)).

Lemma clean_wf i : in_stripe sh i -> device_wf conf (is_parity sh i) (dev sh i).
Proof. intros Hi. destruct (mi_dev _ _ _ _ _ Hm i Hi) as [st [[H _ _ _ _ _ _ _ _ _ _] _ _]]. done. Qed.

Lemma clean_eq i : in_stripe sh i -> exists fl, (forall f, fl f = flags (dev sh i) f) /\
  dev sh' i = if cleans (dev sh i) then with_writes (towrite (dev sh i)) [] (with_flags fl (dev sh i)) else dev sh i.
Proof.
  intros Hi. destruct (clean_to_spec i (dev sh i) _ (clean_wf i Hi)) as (fl & Hfl & Heq). exists fl. split; [done|].
  change (dev sh' i) with (dev (mapi clean_to sh) i). by rewrite dev_mapi.
Qed.

Lemma clean_flags i f : in_stripe sh i -> test_bit f (dev sh' i) = test_bit f (dev sh i).
Proof. intros Hi. destruct (clean_eq i Hi) as (fl & Hfl & ->). destruct (cleans _); [|done]. apply Hfl. Qed.

Lemma clean_mid : mid w sh' s V synced.
Proof.
  apply (mid_step w sh sh' s s V synced synced); try done.
  - apply (disks_mapi clean_to sh).
  - intros i st Hi [K [E1 E2] [L1 L2 L3 L4 L5]]. exists st. split; rewrite ?clean_flags by done.
    + destruct (clean_eq i Hi) as (fl & Hfl & ->). unfold busy_ops in *. change (reconstruct_state sh') with (reconstruct_state sh). rewrite Hidle in *.
      destruct (cleans _); [|done]. by apply device_ok_clean.
    + done.
    + split; rewrite ?clean_flags by done; done.
  - intros i Hi. by apply clean_flags.
  - apply Hm.
  - intros i H0 Hi. rewrite clean_flags by done. by apply (mi_locked _ _ _ _ _ Hm).
Qed.

Lemma clean_written i : in_stripe sh i -> written (dev sh' i) = if cleans (dev sh i) then [] else written (dev sh i).
Proof. intros Hi. destruct (clean_eq i Hi) as (fl & _ & ->). by destruct (cleans _). Qed.

Lemma clean_acked : (for_devs (clean_dev conf) sh (false, [])).2.2 = acked sh sh'.
Proof.
  rewrite for_devs_acc, clean_fold. cbn [snd]. unfold acked. f_equal. apply map_ext_in. intros i Hi.
  assert (in_stripe sh i) as Hi'.
  { assert (i ∈ seqZ 0 (Z.of_nat (disks sh))) as H%elem_of_seqZ by (apply list_elem_of_In, in_rev; exact Hi). unfold in_stripe. lia. }
  unfold acked_dev. rewrite clean_written by done.
  destruct (cleans (dev sh i)) eqn:Hc.
  - unfold cleans in Hc. apply andb_true_iff in Hc as [-> _]. cbn. f_equal. apply chain_all, (dw_written _ _ _ (clean_wf i Hi')).
  - by destruct (nonempty _).
Qed.

Lemma clean_event_eq : handle_stripe_clean_event conf sh = (sh', acked sh sh').
Proof.
  unfold handle_stripe_clean_event. pose proof (for_devs_eq (clean_dev conf) clean_to sh (false, []) clean_dev_eq) as H1. pose proof clean_acked as H2.
  destruct (for_devs (clean_dev conf) sh (false, [])) as [sh2 [p out]]. cbn [fst snd] in H1, H2. subst sh2 out.
  destruct (parity_member _ _ _ _ _ Hm) as (Hp & _). assert (test_bit R5_Discard (dev (mapi clean_to sh) (pd (mapi clean_to sh))) = false) as Hd.
  { change (dev (mapi clean_to sh) (pd (mapi clean_to sh))) with (dev sh' (pd sh)). rewrite clean_flags by done. by apply (dw_unused _ _ _ (clean_wf _ Hp)). }
  by rewrite Hd, andb_false_r.
Qed.
End Return.

(** The parity is not being written, or its device is not in sync. *)
Definition parity_stable (sh : stripe) : Prop :=
  forall j, in_stripe sh j -> is_parity sh j = true -> test_bit R5_LOCKED (dev sh j) = false \/ test_bit R5_Insync (dev sh j) = false.

Lemma parity_failed w sh s V synced :
  mid w sh s V synced ->
  let s' := set_parity_failed conf sh s in
  cond s' p_failed = negb (test_bit R5_Insync (dev sh (pd sh))) /\
  cond s' q_failed = (if level conf =? 6 then negb (test_bit R5_Insync (dev sh (qd sh))) else true) /\ same_failed s s' /\ cnt s' = cnt s /\
  ops_request s' = ops_request s /\ forall c, c <> p_failed -> c <> q_failed -> cond s' c = cond s c.
Proof.
  intros Hm s'. destruct (parity_member _ _ _ _ _ Hm) as (Hp & _ & Hq). destruct Hm as [[Hg _ _ _] _ _ _ Hf _ _ _ _]. cbn in Hg.
  unfold s', set_parity_failed. cbn. rewrite (Hf _ Hp). split; [done|]. split.
  - pose proof (go_level _ _ Hg) as Hl. destruct (Z.eqb_spec (level conf) 6) as [->|]; [rewrite (Hf (qd sh)) by apply Hq; by rewrite orb_false_r|].
    rewrite (proj2 (Z.ltb_lt _ _)) by lia. by rewrite orb_true_r.
  - repeat split; try done. intros c H1 H2. by destruct c.
Qed.

Lemma parity_safe_stable w sh s V synced :
  mid w sh s V synced -> early sh -> (exists i, in_stripe sh i /\ written (dev sh i) <> []) ->
  cond s p_failed = negb (test_bit R5_Insync (dev sh (pd sh))) ->
  cond s q_failed = (if level conf =? 6 then negb (test_bit R5_Insync (dev sh (qd sh))) else true) ->
  (cond s p_failed || parity_safe (dev sh (pd sh))) && (cond s q_failed || parity_safe (dev sh (qd sh))) = true <-> parity_stable sh.
Proof.
  intros Hm He (i & Hi & Hw) -> ->. destruct (parity_member _ _ _ _ _ Hm) as (Hp & Hpp & Hq).
  assert (forall j, in_stripe sh j -> is_parity sh j = true ->
    negb (test_bit R5_Insync (dev sh j)) || parity_safe (dev sh j) = true <-> test_bit R5_LOCKED (dev sh j) = false \/ test_bit R5_Insync (dev sh j) = false) as Hsafe.
  { intros j Hj Hpj. unfold parity_safe, parity_ready. rewrite (ea_parity _ He i j) by done.
    destruct (test_bit R5_Insync (dev sh j)), (test_bit R5_LOCKED (dev sh j)); cbn; split; try done; auto; intros [|]; done. }
  rewrite andb_true_iff, (Hsafe _ Hp Hpp). unfold parity_stable. split.
  - intros [H1 H2] j Hj [->%Z.eqb_eq| ->%Z.eqb_eq]%orb_true_iff; [done|]. destruct (level conf =? 6); [by apply Hsafe; [apply Hq..|]|].
    unfold in_stripe in Hj. lia.
  - intros H. split; [by apply H|]. destruct (level conf =? 6); [|done]. destruct Hq as (Hq1 & Hq2 & _). apply Hsafe; [done..|]. by apply H.
Qed.

Lemma return_writes_ok w sh s V synced :
  mid w sh s V synced -> early sh -> reconstruct_state sh = reconstruct_state_idle ->
  cond s p_failed = negb (test_bit R5_Insync (dev sh (pd sh))) ->
  cond s q_failed = (if level conf =? 6 then negb (test_bit R5_Insync (dev sh (qd sh))) else true) ->
  (forall i, in_stripe sh i -> written (dev sh i) <> [] -> cnt s s_written <> 0) ->
  exists sh', return_writes conf sh s = (sh', acked sh sh') /\ mid w sh' s V synced /\ reconstruct_state sh' = reconstruct_state_idle /\ kept sh sh' /\
    stest STRIPE_INSYNC sh' = stest STRIPE_INSYNC sh /\
    (forall i, in_stripe sh i -> test_bit R5_Wantwrite (dev sh' i) = test_bit R5_Wantwrite (dev sh i)) /\
    (forall i, in_stripe sh i -> written (dev sh' i) = written (dev sh i) \/
      (written (dev sh' i) = [] /\ test_bit R5_LOCKED (dev sh i) = false /\ parity_stable sh)) /\
    (forall i, in_stripe sh' i -> written (dev sh' i) <> [] -> exists j, in_stripe sh' j /\ test_bit R5_LOCKED (dev sh' j) = true).
Proof.
  intros Hm He Hidle Hpf Hqf Hcnt. unfold return_writes.
  assert (acked sh sh = []) as Hnone.
  { unfold acked, acked_dev. induction (indices_down sh) as [|i l IH]; [done|]. cbn [map].
    change (mjoin (?a :: ?l)) with (a ++ mjoin l). rewrite IH. by destruct (nonempty _). }
  destruct (_ && _ && _) eqn:Hc.
  - rewrite (clean_event_eq w sh s V synced) by done. eexists. split; [reflexivity|]. set (sh' := sclear STRIPE_FULL_WRITE (mapi clean_to sh)).
    assert (forall i, in_stripe sh i -> in_stripe sh' i) as Hin by (intros i; unfold in_stripe, sh'; change (disks (sclear ?f ?x)) with (disks x); by rewrite disks_mapi).
    assert (forall i, in_stripe sh' i -> in_stripe sh i) as Hin' by (intros i; unfold in_stripe, sh'; change (disks (sclear ?f ?x)) with (disks x); by rewrite disks_mapi).
    pose proof (clean_flags w sh s V synced Hm) as Hfl. pose proof (clean_written w sh s V synced Hm) as Hwr. fold sh' in Hfl, Hwr.
    repeat match goal with |- _ /\ _ => split end; try done.
    + by apply clean_mid.
    + split; try done; [apply (disks_mapi clean_to sh)|..].
      * intros i f Hi _ _. by apply Hfl.
      * intros i Hi. destruct (clean_eq w sh s V synced Hm i Hi) as (fl & _ & Heq). fold sh' in Heq. rewrite Heq. by destruct (cleans _).
    + intros i Hi. by apply Hfl.
    + intros i Hi. rewrite Hwr by done. destruct (cleans (dev sh i)) eqn:Hcl; [right|by left]. split; [done|].
      unfold cleans in Hcl. apply andb_true_iff in Hcl as [Hne [Hl _]%andb_true_iff]. split; [by apply negb_true_iff|].
      apply (parity_safe_stable w sh s V synced Hm He); [|done..|]. { exists i. split; [done|]. by destruct (written (dev sh i)). }
      rewrite <- andb_assoc in Hc. by apply andb_true_iff in Hc as [_ Hc].
    + intros i Hi Hne. exists i. split; [done|]. apply Hin' in Hi. rewrite Hfl by done. rewrite Hwr in Hne by done. unfold cleans in Hne.
      destruct (written (dev sh i)) as [|b bs] eqn:Hw; [by destruct (_ && _)|]. cbn [nonempty andb] in Hne.
      rewrite (ea_written _ He i Hi) in Hne by (by rewrite Hw). cbn in Hne. by destruct (test_bit R5_LOCKED (dev sh i)).
  - exists sh. rewrite Hnone. pose proof (kept_refl sh). repeat match goal with |- _ /\ _ => split end; auto.
    intros i Hi Hw. pose proof (Hcnt i Hi Hw) as H0. rewrite (proj2 (Z.eqb_neq _ _) H0) in Hc. cbn in Hc.
    destruct (parity_member _ _ _ _ _ Hm) as (Hp & Hpp & Hq). destruct (test_bit R5_LOCKED (dev sh (pd sh))) eqn:Hlp; [by exists (pd sh)|].
    assert (level conf = 6 /\ test_bit R5_LOCKED (dev sh (qd sh)) = true) as [Hl6 Hlq].
    { destruct (Z.eqb_spec (level conf) 6) as [Hl|Hl].
      - split; [done|]. destruct (test_bit R5_LOCKED (dev sh (qd sh))) eqn:Hlq; [done|]. apply not_true_iff_false in Hc. destruct Hc.
        apply (parity_safe_stable w sh s V synced Hm He); [by exists i|done|by rewrite Hl|]. intros j Hj [->%Z.eqb_eq| ->%Z.eqb_eq]%orb_true_iff; by left.
      - apply not_true_iff_false in Hc. destruct Hc. apply (parity_safe_stable w sh s V synced Hm He); [by exists i|done|by rewrite (proj2 (Z.eqb_neq _ _) Hl)|].
        intros j Hj [->%Z.eqb_eq| ->%Z.eqb_eq]%orb_true_iff; [by left|]. unfold in_stripe in Hj. lia. }
    rewrite Hl6 in Hq. exists (qd sh). split; [apply Hq|done].
Qed.
End Decide.
