(* ===== verification/Raid5Failed.v ===== *)
(** A stripe of md/raid5.c that has lost more devices than its parity can stand for:
    [handle_failed] of Raid5Handle. *)

From S2P Require Import Prelude PageMem Raid5Layout Raid5Dev Raid5Ops Raid5Handle Raid5Machine Raid5Data Raid5Soft Raid5Copy Raid5Promise Raid5OpsCorrect Raid5Write Raid5Inv Raid5Init Raid5Decide Raid5Example.

(** The requests of the device [i] that end with an error. *)
Definition errors_in (i : Z) (out : list reply) : list bio :=
  omap (fun r => match r with Io_error j b => if j =? i then Some b else None | _ => None end) out.

Lemma errors_in_app i out out' : errors_in i (out ++ out') = errors_in i out ++ errors_in i out'.
Proof. apply omap_app. Qed.

Lemma errors_one i j bs : errors_in i (map (Io_error j) bs) = if j =? i then bs else [].
Proof.
  unfold errors_in. rewrite omap_map. destruct (j =? i); [|by apply omap_none]. rewrite (omap_some _ id) by done. apply map_id.
Qed.

Section Failed.
Context (conf : r5conf).

(** The reads of the device cannot be answered: its block is lost, and not about to be copied. *)
Definition unreadable (d : r5dev) : bool :=
  negb (test_bit R5_Wantfill d) && (negb (test_bit R5_Insync d) || test_bit R5_ReadError d).

(** The requests of the device that fail. *)
Definition failing (d : r5dev) : list bio := towrite d ++ written d ++ (if unreadable d then toread d else []).

Definition chains_ok (d : r5dev) : Prop :=
  chain_ok conf (dev_sector d) (toread d) /\ chain_ok conf (dev_sector d) (towrite d) /\ chain_ok conf (dev_sector d) (written d).

Lemma fail_dev_same s i d a : (fail_dev conf s i d a).1 = (fail_dev conf s i d (s, [])).1.
Proof. destruct a as [s' out]. unfold fail_dev. by destruct (_ && _ && _). Qed.

Section Lost.
Context (s : stripe_head_state) (Hlost : max_degraded conf < cnt s failed).

Lemma fail_dev_ok i d a :
  chains_ok d -> let x := fail_dev conf s i d a in
  x.2.2 = a.2 ++ map (Io_error i) (failing d) /\
  towrite x.1 = [] /\ written x.1 = [] /\ test_bit R5_LOCKED x.1 = false /\ toread x.1 = if unreadable d then [] else toread d.
Proof using Hlost.
  intros (H1 & H2 & H3). destruct a as [s' out]. unfold fail_dev, failing. rewrite !(chain_all conf) by done. rewrite (proj2 (Z.ltb_lt _ _) Hlost). rewrite andb_true_r.
  set (e := if test_bit R5_SkipCopy _ then _ else _). assert (forall f, f <> R5_Overlap -> f <> R5_SkipCopy -> test_bit f e = test_bit f d) as Hf.
  { intros f F1 F2. unfold e. destruct (test_bit R5_SkipCopy _); cbn; by destruct f. }
  assert (toread e = toread d) as Ht by (unfold e; by destruct (test_bit R5_SkipCopy _)). clearbody e. change (test_bit ?f (with_writes [] [] e)) with (test_bit f e). rewrite !Hf by done. fold (unreadable d).
  change (toread (with_writes [] [] e)) with (toread e). rewrite Ht. destruct (unreadable d); cbn [fst snd]; rewrite !map_app, ?(chain_all conf) by done; rewrite ?app_nil_r, <- ?app_assoc; repeat split; try done; cbn; by rewrite Ht.
Qed.

Lemma fail_replies i sh l s0 :
  NoDup l -> (forall j, j ∈ l -> chains_ok (dev sh j)) ->
  errors_in i (foldr (fun j a => (fail_dev conf s j (dev sh j) a).2) (s0, []) l).2 = if bool_decide (i ∈ l) then failing (dev sh i) else [].
Proof using Hlost.
  induction l as [|j l IH]; intros Hnd Hc; [done|]. apply list.NoDup_cons in Hnd as [Hj Hnd]. cbn [foldr]. destruct (fail_dev_ok j (dev sh j) (foldr (fun j a => (fail_dev conf s j (dev sh j) a).2) (s0, []) l)) as [-> _]; [apply Hc; by left|].
  rewrite errors_in_app, errors_one, IH by (done || intros; apply Hc; by right). destruct (Z.eqb_spec j i) as [->|Hne].
  - by rewrite (bool_decide_false (i ∈ l)), (bool_decide_true (i ∈ i :: l)) by (done || by left).
  - rewrite app_nil_r. by rewrite (bool_decide_ext (i ∈ j :: l) (i ∈ l)) by (rewrite elem_of_cons; naive_solver).
Qed.
End Lost.

(** C15. Nothing is kept waiting when too many devices are lost: every write, also one that was
    applied, and every read of a lost block ends with an error, once; the reads of the blocks that
    are still there stay; no device stays locked and no operation under way. *)
Theorem failed_requests_end w sh s w' sh' s' out :
  max_degraded conf < cnt s failed -> cnt s to_read + cnt s to_write + cnt s s_written <> 0 -> (forall i, 0 <= i < Z.of_nat (disks sh) -> chains_ok (dev sh i)) ->
  handle_failed conf w sh s = (w', sh', s', out) ->
  check_state sh' = check_state_idle /\ reconstruct_state sh' = reconstruct_state_idle /\
  forall i, 0 <= i < Z.of_nat (disks sh) ->
    errors_in i out = failing (dev sh i) /\ towrite (dev sh' i) = [] /\ written (dev sh' i) = [] /\ test_bit R5_LOCKED (dev sh' i) = false /\
    toread (dev sh' i) = if unreadable (dev sh i) then [] else toread (dev sh i).
Proof.
  intros Hlost Hreq Hc. unfold handle_failed. rewrite (proj2 (Z.ltb_lt _ _) Hlost), (proj2 (Z.eqb_neq _ _) Hreq). cbn [negb].
  set (sh1 := with_devs _ _). unfold handle_failed_stripe. set (w1 := fold_left _ _ w). clearbody w1.
  assert (disks sh1 = disks sh) as Hn by apply length_map.
  assert (forall i, 0 <= i < Z.of_nat (disks sh) -> dev sh1 i = clear_bit R5_Overlap (dev sh i)) as Hd.
  { intros i Hi. unfold dev at 1. change (devs sh1) with (map (clear_bit R5_Overlap) (devs sh)). apply list_lookup_total_correct. by rewrite list_lookup_fmap, dev_lookup. }
  assert (forall i, 0 <= i < Z.of_nat (disks sh) -> chains_ok (dev sh1 i)) as Hc1 by (intros i Hi; rewrite Hd by done; by apply Hc).
  pose proof (for_devs_acc (fail_dev conf s) sh1 (s, [])) as Hacc. pose proof (for_devs_eq (fail_dev conf s) (fun i d => (fail_dev conf s i d (s, [])).1) sh1 (s, []) (fail_dev_same s)) as Heq.
  destruct (for_devs (fail_dev conf s) sh1 (s, [])) as [sh2 [s2 out2]]. cbn [fst snd] in Hacc, Heq. subst sh2.
  set (sh2 := sclear STRIPE_FULL_WRITE _). set (s3 := zero s_written _).
  assert (forall i, 0 <= i < Z.of_nat (disks sh) -> errors_in i out2 = failing (dev sh i)) as Ho.
  { intros i Hi. assert (out2 = (s2, out2).2) as -> by done. rewrite Hacc, (fail_replies s Hlost i sh1), bool_decide_true; [by rewrite Hd|apply elem_of_seqZ; rewrite Hn; lia|apply NoDup_seqZ|].
    intros j Hj%elem_of_seqZ. apply Hc1. lia. }
  assert (forall i, 0 <= i < Z.of_nat (disks sh) -> towrite (dev sh2 i) = [] /\ written (dev sh2 i) = [] /\ test_bit R5_LOCKED (dev sh2 i) = false /\ toread (dev sh2 i) = if unreadable (dev sh i) then [] else toread (dev sh i)) as H2.
  { intros i Hi. assert (dev sh2 i = (fail_dev conf s i (dev sh1 i) (s, [])).1) as -> by (apply (dev_mapi (fun i d => (fail_dev conf s i d (s, [])).1)); by rewrite Hn). destruct (fail_dev_ok s Hlost i (dev sh1 i) (s, []) (Hc1 i Hi)) as (_ & H). by rewrite Hd in H |- *. }
  assert (check_state sh2 = check_state_idle /\ reconstruct_state sh2 = reconstruct_state_idle /\ disks sh2 = disks sh) as (E1 & E2 & E3) by (split; [done|]; split; [done|]; change (disks sh2) with (disks (mapi (fun i d => (fail_dev conf s i d (s, [])).1) sh1)); by rewrite disks_mapi).
  clearbody sh2. destruct (cond s3 syncing || cond s3 replacing); [|intros [= <- <- <- <-]; auto].
  unfold handle_failed_sync. match goal with |- context [if ?c then ?x else ?y] => destruct (if c then x else y) as [w2 abort] end. intros [= <- <- <- <-].
  split; [done|]. split; [done|]. intros i Hi. rewrite errors_in_app, Ho, app_nil_r by done. split; [done|]. specialize (H2 i Hi).
  cbv zeta. unfold dev, upd. cbn [devs with_devs]. set (d' := alter _ _ _ !!! _). assert (d' = devs sh2 !!! Z.to_nat i \/ d' = clear_bit R5_Overlap (devs sh2 !!! Z.to_nat i)) as Hd'.
  { unfold d'. destruct (lookup_lt_is_Some_2 (devs sh2) (Z.to_nat i)) as [x Hx]; [unfold disks in *; lia|]. rewrite (list_lookup_total_correct _ _ _ Hx). destruct (decide (Z.to_nat (pd sh2) = Z.to_nat i)) as [E|Hne].
    - right. apply list_lookup_total_correct. change (pd (sclear STRIPE_SYNCING sh2)) with (pd sh2). rewrite E, list_lookup_alter_eq. change (devs (sclear STRIPE_SYNCING sh2)) with (devs sh2). by rewrite Hx.
    - left. apply list_lookup_total_correct. change (pd (sclear STRIPE_SYNCING sh2)) with (pd sh2). rewrite list_lookup_alter_ne by done. exact Hx. }
  clearbody d'. destruct Hd' as [-> | ->]; exact H2.
Qed.
End Failed.

(** * Witnesses *)

Definition ex_failing : stripe := upd 1 (with_writes [ex_bio 1 3 77] []) ex_stripe.
Definition ex_state : stripe_head_state := add to_write 1 (add failed 3 no_state).

Lemma ex_failing_chains i : 0 <= i < Z.of_nat (disks ex_failing) -> chains_ok ex_conf (dev ex_failing i).
Proof.
  revert i. change (Z.of_nat (disks ex_failing)) with 4. apply (below_4 (fun i => chains_ok ex_conf (dev ex_failing i))); repeat split; repeat constructor; by vm_compute.
Qed.

Lemma failed_requests_end_witness : errors_in 1 (handle_failed ex_conf ex_world ex_failing ex_state).2 = [ex_bio 1 3 77].
Proof.
  destruct (handle_failed ex_conf ex_world ex_failing ex_state) as [[[w' sh'] s'] out] eqn:E.
  destruct (failed_requests_end ex_conf ex_world ex_failing ex_state w' sh' s' out) as (_ & _ & H); [done|done|exact ex_failing_chains|exact E|].
  destruct (H 1) as [He _]; [split; [discriminate|reflexivity]|]. exact He.
Defined.
