(* ===== verification/Raid5Fill.v ===== *)
(** [handle_stripe_fill] and [handle_stripe_dirtying] of md/raid5.c: blocks are read only from
    members that have them, a block is computed only when all others are known, and a write starts
    only when what it needs is there. *)

From S2P Require Import Prelude PageMem Raid5Layout Raid5Stripe Raid5Dev Raid5Ops Raid5Handle Raid5Machine Raid5Data Raid5Copy Raid5OpsCorrect Raid5Write Raid5Inv Raid5Analyse Raid5Decide.

(** The stripe [sh] with other values for the flags [X] of its devices. *)
Record later (X : r5dev_flag -> bool) (sh sh' : stripe) : Prop := {
  la_geo : geo sh' = geo sh;
  la_disks : disks sh' = disks sh;
  la_check : check_state sh' = check_state sh;
  la_zero : zero_sum_result sh' = zero_sum_result sh;
  la_state f : f <> STRIPE_HANDLE -> f <> STRIPE_COMPUTE_RUN -> f <> STRIPE_DELAYED -> f <> STRIPE_FULL_WRITE -> stest f sh' = stest f sh;
  la_dev i : in_stripe sh i -> exists fl, dev sh' i = with_flags fl (dev sh i) /\ forall f, X f = false -> fl f = flags (dev sh i) f;
}.

Lemma later_refl X sh : later X sh sh.
Proof. split; try done. intros i _. exists (flags (dev sh i)). by destruct (dev sh i). Qed.

Lemma later_trans X sh1 sh2 sh3 : later X sh1 sh2 -> later X sh2 sh3 -> later X sh1 sh3.
Proof.
  intros [a1 a2 a3 a4 a5 a6] [b1 b2 b3 b4 b5 b6]. split; try congruence.
  - intros f H1 H2 H3 H4. by rewrite b5, a5.
  - intros i Hi. destruct (a6 i Hi) as (fl & Hd & Hf). destruct (b6 i) as (fl' & Hd' & Hf'); [unfold in_stripe in *; lia|].
    exists fl'. split; [by rewrite Hd', Hd|]. intros f Hx. rewrite Hf' by done. rewrite Hd. by apply Hf.
Qed.

Lemma later_flag X sh sh' i f : later X sh sh' -> in_stripe sh i -> X f = false -> test_bit f (dev sh' i) = test_bit f (dev sh i).
Proof. intros H Hi Hx. destruct (la_dev _ _ _ H i Hi) as (fl & -> & Hf). by apply Hf. Qed.

Lemma later_fields X sh sh' i : later X sh sh' -> in_stripe sh i ->
  page (dev sh' i) = page (dev sh i) /\ toread (dev sh' i) = toread (dev sh i) /\ towrite (dev sh' i) = towrite (dev sh i) /\
  written (dev sh' i) = written (dev sh i) /\ dev_sector (dev sh' i) = dev_sector (dev sh i).
Proof. intros H Hi. by destruct (la_dev _ _ _ H i Hi) as (fl & -> & _). Qed.

Lemma later_in X sh sh' i : later X sh sh' -> in_stripe sh' i <-> in_stripe sh i.
Proof. intros H. unfold in_stripe. by rewrite (la_disks _ _ _ H). Qed.

(** The change of one device. *)
Lemma later_upd (X : r5dev_flag -> bool) sh i g :
  (forall d, exists fl, g d = with_flags fl d /\ forall f, X f = false -> fl f = flags d f) -> in_stripe sh i -> later X sh (upd i g sh).
Proof.
  intros Hg Hi. split; try done.
  - apply disks_upd.
  - intros j Hj. rewrite dev_upd by (apply Hi || apply Hj). destruct (Z.eqb_spec i j) as [->|]; [apply Hg|]. exists (flags (dev sh j)). by destruct (dev sh j).
Qed.

Definition fetch_flags (f : r5dev_flag) : bool := match f with R5_LOCKED | R5_Wantread | R5_Wantcompute => true | _ => false end.

Section Fill.
Context (conf : r5conf) (w : world) (V : Z -> block) (synced : bool).

(** * Computing *)

Definition no_compute (sh : stripe) (s : stripe_head_state) : Prop :=
  stest STRIPE_COMPUTE_RUN sh = false /\ ops_request s STRIPE_OP_COMPUTE_BLK = false /\ cond s req_compute = false /\
  forall i, in_stripe sh i -> test_bit R5_Wantcompute (dev sh i) = false.

(** The blocks of [T] are to be computed, and all others are known. *)
Record compute_plan (sh : stripe) (s : stripe_head_state) (T : list Z) : Prop := {
  cp_run : stest STRIPE_COMPUTE_RUN sh = true;
  cp_ops : ops_request s STRIPE_OP_COMPUTE_BLK = true;
  cp_targets : (exists t, T = [t] /\ ops_target sh = t /\ ops_target2 sh = -1) \/
               (exists t t2, T = [t; t2] /\ ops_target sh = t /\ ops_target2 sh = t2 /\ t <> t2 /\ level conf = 6);
  cp_in t : t ∈ T -> in_stripe sh t;
  cp_want i : in_stripe sh i -> test_bit R5_Wantcompute (dev sh i) = true <-> i ∈ T;
  cp_known i : in_stripe sh i -> i ∉ T -> page (dev sh i) = V i;
}.

(** The counter of the blocks that are up to date is right. *)
Definition counted_uptodate (sh : stripe) (s : stripe_head_state) : Prop :=
  cnt s uptodate = count (fun i => test_bit R5_UPTODATE (dev sh i)) (seqZ 0 (Z.of_nat (disks sh))).

(** * Reading *)

Definition start_read (d : r5dev) : r5dev := set_bit R5_Wantread (set_bit R5_LOCKED d).

Lemma start_read_flags d : exists fl, start_read d = with_flags fl d /\ forall f, fetch_flags f = false -> fl f = flags d f.
Proof. eexists. split; [reflexivity|]. intros f Hf. by destruct f. Qed.

(** A member that is in sync has its block. *)
Lemma insync_stored sh i st :
  mid_dev conf w sh V synced i st -> test_bit R5_Insync (dev sh i) = true -> writing st = false ->
  exists m, working (rdev (disk w i)) = Some m /\ stored m = V i.
Proof.
  intros [[_ _ _ _ _ _ _ _ K9 _ _] [E1 E2] Lk] Hin Hw. destruct (lk_insync _ _ _ _ Lk Hin) as [Hb _]. unfold has_block in Hb.
  destruct (working (rdev (disk w i))) as [m|]; [|done]. exists m. split; [done|]. unfold in_sync in Hb. apply andb_true_iff in Hb as [H1%negb_true_iff H2].
  destruct (K9 m eq_refl E1) as [|H]; [left; by auto|done|congruence].
Qed.

Lemma start_read_mid sh sh' i :
  (exists st, mid_dev conf w sh V synced i st) -> test_bit R5_Insync (dev sh i) = true -> test_bit R5_LOCKED (dev sh i) = false ->
  geo sh' = geo sh -> reconstruct_state sh' = reconstruct_state sh -> all_synced synced sh' = all_synced synced sh -> dev sh' i = start_read (dev sh i) ->
  mid_dev conf w sh' V synced i WantR.
Proof.
  intros [st Hst] Hin Hl Hg Hr Hs Hd. pose proof (status_locked _ _ _ _ _ _ _ Hst Hl) as ->. pose proof Hst as [[K1 K2 K3 K4 K5 K6 K7 K8 K9 K10 K11] _ _].
  destruct (insync_stored sh i Idle Hst Hin eq_refl) as (m & Hm1 & Hm2).
  apply (mid_dev_flags conf w sh sh' V synced i Idle WantR (flags (start_read (dev sh i)))); try done.
  - intros f Hf. by destruct f.
  - cbn. injection K5 as H1 H2 H3 H4. unfold test_bit in *. by rewrite H2, H4.
  - by exists m.
  - unfold busy_ops in *. rewrite Hr. split; [done|]. intros H. assert (Idle = Pend) by (by apply K7). done.
  - unfold busy_ops in *. rewrite Hr. exact K8.
  - by left.
Qed.

Lemma fetch_read_ok sh s i :
  mid conf w sh s V synced -> in_stripe sh i -> test_bit R5_Insync (dev sh i) = true -> test_bit R5_LOCKED (dev sh i) = false ->
  mid conf w (upd i start_read sh) (add locked 1 s) V synced.
Proof.
  intros Hm Hi Hin Hl. apply (mid_step conf w sh _ s _ V synced synced); try done.
  - apply disks_upd.
  - intros j st Hj Hst. destruct (Z.eqb_spec i j) as [->|Hne].
    + exists WantR. apply (start_read_mid sh); try done; [by exists st|]. by rewrite dev_upd_eq.
    + exists st. apply (mid_dev_state conf w sh); try done. by rewrite dev_upd_ne by (apply Hi || apply Hj || done).
  - intros j Hj. rewrite dev_upd by (apply Hi || apply Hj). by destruct (i =? j).
  - rewrite cnt_add. cbn. pose proof (mi_locked0 _ _ _ _ _ _ Hm). lia.
  - intros j. rewrite cnt_add. cbn. pose proof (mi_locked0 _ _ _ _ _ _ Hm). lia.
Qed.
(** * Choosing what to compute *)

Lemma want_compute_mid sh s i :
  mid conf w sh s V synced -> in_stripe sh i -> mid conf w (upd i (set_bit R5_Wantcompute) sh) s V synced.
Proof.
  intros Hm Hi. assert (forall j f, in_stripe sh j -> f <> R5_Wantcompute -> test_bit f (dev (upd i (set_bit R5_Wantcompute) sh) j) = test_bit f (dev sh j)) as Hfl.
  { intros j f Hj Hf. rewrite dev_upd by (apply Hi || apply Hj). destruct (i =? j); [|done]. by destruct f. }
  apply (mid_step conf w sh _ s s V synced synced); try done.
  - apply disks_upd.
  - intros j st Hj Hst. exists st. pose proof Hst as [[K1 K2 K3 K4 K5 K6 K7 K8 K9 K10 K11] _ _].
    apply (mid_dev_flags conf w sh _ V synced j st st (flags (dev (upd i (set_bit R5_Wantcompute) sh) j))); try done;
      rewrite ?(Hfl j) by done; try done; change (flags ?d ?f) with (test_bit f d); rewrite ?(Hfl j) by done; try done.
    + rewrite dev_upd by (apply Hi || apply Hj). destruct (i =? j); [done|]. by destruct (dev sh j).
    + intros f Hf. change (flags ?d ?f) with (test_bit f d). apply Hfl; [done|]. by intros ->.
    + destruct st as [|[]| | |]; unfold status_ok in *; change (test_bit ?f (with_flags (flags ?d) _)) with (test_bit f d); rewrite ?(Hfl j) by done; done.
    + unfold takes_part in *. change (test_bit ?f (with_flags (flags ?d) _)) with (test_bit f d). rewrite ?(Hfl j) by done. exact K7.
    + by left.
  - intros j Hj. by apply Hfl.
  - apply Hm.
  - intros j H0 Hj. rewrite Hfl by done. by apply (mi_locked _ _ _ _ _ _ Hm).
Qed.

Lemma missing_count sh s :
  counted_uptodate sh s -> count (fun i => negb (test_bit R5_UPTODATE (dev sh i))) (seqZ 0 (Z.of_nat (disks sh))) = Z.of_nat (disks sh) - cnt s uptodate.
Proof. intros ->. rewrite (count_neg (fun i => test_bit R5_UPTODATE (dev sh i))). rewrite length_seqZ. lia. Qed.

Lemma in_seqZ sh i : in_stripe sh i <-> i ∈ seqZ 0 (Z.of_nat (disks sh)).
Proof. rewrite elem_of_seqZ. unfold in_stripe. lia. Qed.

Lemma only_missing sh s i j :
  counted_uptodate sh s -> cnt s uptodate = Z.of_nat (disks sh) - 1 -> in_stripe sh i -> in_stripe sh j ->
  test_bit R5_UPTODATE (dev sh i) = false -> j <> i -> test_bit R5_UPTODATE (dev sh j) = true.
Proof.
  intros Hc Hn Hi Hj Hu Hne. pose proof (missing_count sh s Hc) as Hm. destruct (test_bit R5_UPTODATE (dev sh j)) eqn:Hj'; [done|]. destruct Hne.
  apply (count_one (fun i => negb (test_bit R5_UPTODATE (dev sh i))) (seqZ 0 (Z.of_nat (disks sh)))); [apply NoDup_seqZ|lia|by apply in_seqZ|by apply in_seqZ|by rewrite Hj'|by rewrite Hu].
Qed.

Lemma other_missing_spec sh i :
  match other_missing sh i with
  | Some j => in_stripe sh j /\ j <> i /\ test_bit R5_UPTODATE (dev sh j) = false
  | None => forall j, in_stripe sh j -> j <> i -> test_bit R5_UPTODATE (dev sh j) = true
  end.
Proof.
  unfold other_missing. rewrite devs_down_eq. destruct (find _ _) as [[j d]|] eqn:Hf; cbn.
  - apply find_some in Hf as [Hin [H1%negb_true_iff%Z.eqb_neq H2%negb_true_iff]%andb_true_iff]. cbn in *.
    apply list_elem_of_In, list_elem_of_fmap in Hin as (k & [= -> ->] & Hk). rewrite list_elem_of_In, <- in_rev, <- list_elem_of_In in Hk.
    by rewrite in_seqZ.
  - intros j Hj Hne. apply (find_none _ _) with (x := (j, dev sh j)) in Hf.
    + cbn in Hf. rewrite (proj2 (Z.eqb_neq _ _) Hne) in Hf. cbn in Hf. by apply negb_false_iff.
    + apply list_elem_of_In, list_elem_of_fmap. exists j. split; [done|]. rewrite list_elem_of_In, <- in_rev, <- list_elem_of_In. by apply in_seqZ.
Qed.

(** With two blocks missing, the other one. *)
Lemma two_missing sh s i :
  counted_uptodate sh s -> cnt s uptodate = Z.of_nat (disks sh) - 2 -> in_stripe sh i -> test_bit R5_UPTODATE (dev sh i) = false ->
  exists j, other_missing sh i = Some j /\ in_stripe sh j /\ j <> i /\ test_bit R5_UPTODATE (dev sh j) = false /\
    forall k, in_stripe sh k -> k <> i -> k <> j -> test_bit R5_UPTODATE (dev sh k) = true.
Proof.
  intros Hc Hn Hi Hu. pose proof (missing_count sh s Hc) as Hm. pose proof (other_missing_spec sh i) as Ho. destruct (other_missing sh i) as [j|].
  - destruct Ho as (Hj & Hne & Hju). exists j. repeat split; try done; try apply Hj. intros k Hk H1 H2. destruct (test_bit R5_UPTODATE (dev sh k)) eqn:Hku; [done|].
    destruct (count_two (fun i => negb (test_bit R5_UPTODATE (dev sh i))) (seqZ 0 (Z.of_nat (disks sh))) i j k); try done; try (by apply in_seqZ); try (by rewrite ?Hu, ?Hju, ?Hku); [apply NoDup_seqZ|lia].
  - exfalso. assert (count (fun i => negb (test_bit R5_UPTODATE (dev sh i))) (seqZ 0 (Z.of_nat (disks sh))) = count (fun k => k =? i) (seqZ 0 (Z.of_nat (disks sh)))) as Heq.
    { apply count_ext. intros k Hk%in_seqZ. destruct (Z.eqb_spec k i) as [->|Hne]; [by rewrite Hu|by rewrite Ho]. }
    rewrite (count_filter (fun k => k =? i)), (filter_single _ i) in Heq; [cbn in Heq; lia|apply NoDup_seqZ|by apply in_seqZ|done].
Qed.
(** * The loop over the devices *)

(** What does not change in the state. *)
Record same_but_locked (s0 s : stripe_head_state) : Prop := {
  sb_failed : same_failed s0 s;
  sb_cond : cond s = cond s0;
  sb_ops : ops_request s = ops_request s0;
  sb_uptodate : cnt s uptodate = cnt s0 uptodate /\ cnt s to_write = cnt s0 to_write;
  sb_locked : cnt s0 locked <= cnt s locked;
}.

Record fetching (sh0 : stripe) (s0 : stripe_head_state) (sh : stripe) (s : stripe_head_state) : Prop := {
  fe_mid : mid conf w sh s V synced;
  fe_none : no_compute sh s;
  fe_count : counted_uptodate sh s;
  fe_later : later fetch_flags sh0 sh;
  fe_reconstruct : reconstruct_state sh = reconstruct_state sh0;
  fe_same : same_but_locked s0 s;
}.

Record computing (sh0 : stripe) (s0 : stripe_head_state) (sh : stripe) (s : stripe_head_state) : Prop := {
  pl_mid : mid conf w sh s V synced;
  pl_plan : exists T, compute_plan sh s T;
  pl_later : later fetch_flags sh0 sh;
  pl_reconstruct : reconstruct_state sh = reconstruct_state sh0;
  pl_failed : same_failed s0 s;
  pl_cond c : cond s c = if condition_beq c req_compute then true else cond s0 c;
  pl_ops o : ops_request s o = if stripe_op_beq o STRIPE_OP_COMPUTE_BLK then true else ops_request s0 o;
  pl_locked : cnt s0 locked <= cnt s locked;
  pl_to_write : cnt s to_write = cnt s0 to_write;
}.

Lemma level_two s sh : mid conf w sh s V synced -> 2 <= cnt s failed -> level conf = 6.
Proof.
  intros [[Hg _ _ _] _ _ Hle _ _ _ _ _] H2. cbn in Hg. pose proof (go_degraded _ _ Hg) as Hd. destruct (Z.eqb_spec (level conf) 6); [done|lia].
Qed.

(** The flags that ask for the blocks of [T]. *)
Lemma compute_one sh0 s0 sh s i :
  fetching sh0 s0 sh s -> in_stripe sh i -> test_bit R5_UPTODATE (dev sh i) = false -> cnt s uptodate = Z.of_nat (disks sh) - 1 ->
  computing sh0 s0 (with_targets i (-1) (upd i (set_bit R5_Wantcompute) (sset STRIPE_COMPUTE_RUN sh)))
    (add uptodate 1 (with_cond req_compute true (request STRIPE_OP_COMPUTE_BLK s))).
Proof.
  intros [Hm (N1 & N2 & N3 & N4) Hc Hl Hr [S1 S2 S3 S4 S5]] Hi Hu Hn. set (sh' := with_targets _ _ _).
  assert (forall j, in_stripe sh j -> dev sh' j = if i =? j then set_bit R5_Wantcompute (dev sh j) else dev sh j) as Hdev.
  { intros j Hj. change (dev sh' j) with (dev (upd i (set_bit R5_Wantcompute) sh) j). by rewrite dev_upd by (apply Hi || apply Hj). }
  assert (later fetch_flags sh sh') as Hl'.
  { assert (later fetch_flags sh (upd i (set_bit R5_Wantcompute) sh)) as [L1 L2 L3 L4 L5 L6].
    { apply later_upd; [|done]. intros d. eexists. split; [reflexivity|]. intros f Hf. by destruct f. }
    split; try done. intros f F1 F2 F3 F4. rewrite <- (L5 f) by done. by destruct f. }
  split.
  - eapply (mid_state conf w (upd i (set_bit R5_Wantcompute) sh)); [by apply want_compute_mid|done..].
  - exists [i]. split; try done.
    + left. by exists i.
    + intros t ->%list_elem_of_singleton. unfold in_stripe, sh'. change (disks (with_targets _ _ ?x)) with (disks x). by rewrite disks_upd.
    + intros j Hj. apply (later_in _ _ _ j Hl') in Hj. rewrite Hdev, list_elem_of_singleton by done. destruct (Z.eqb_spec i j) as [->|Hne]; [done|].
      rewrite N4 by done. split; [done|congruence].
    + intros j Hj Hnin. apply (later_in _ _ _ j Hl') in Hj. rewrite list_elem_of_singleton in Hnin. rewrite Hdev by done. rewrite (proj2 (Z.eqb_neq i j)) by congruence.
      destruct (mi_dev _ _ _ _ _ _ Hm j Hj) as [st [[_ K2 _ _ _ _ _ _ _ _ _] _ _]]. apply K2. by apply (only_missing sh s i j).
  - by eapply later_trans.
  - done.
  - done.
  - intros c. cbn. by rewrite S2.
  - intros o. cbn. by rewrite S3.
  - done.
  - apply S4.
Qed.

Lemma compute_two sh0 s0 sh s i j :
  fetching sh0 s0 sh s -> in_stripe sh i -> in_stripe sh j -> j <> i -> 2 <= cnt s failed ->
  (forall k, in_stripe sh k -> k <> i -> k <> j -> test_bit R5_UPTODATE (dev sh k) = true) ->
  computing sh0 s0 (with_targets i j (upd j (set_bit R5_Wantcompute) (upd i (set_bit R5_Wantcompute) (sset STRIPE_COMPUTE_RUN sh))))
    (with_cond req_compute true (add uptodate 2 (request STRIPE_OP_COMPUTE_BLK s))).
Proof.
  intros [Hm (N1 & N2 & N3 & N4) Hc Hl Hr [S1 S2 S3 S4 S5]] Hi Hj Hne H2 Hothers. set (sh' := with_targets _ _ _).
  set (sh1 := upd i (set_bit R5_Wantcompute) sh). assert (in_stripe sh1 j) as Hj1 by (unfold in_stripe, sh1; by rewrite disks_upd).
  assert (forall k, in_stripe sh k -> dev sh' k = if (i =? k) || (j =? k) then set_bit R5_Wantcompute (dev sh k) else dev sh k) as Hdev.
  { intros k Hk. change (dev sh' k) with (dev (upd j (set_bit R5_Wantcompute) sh1) k). rewrite dev_upd by (apply Hj1 || apply Hk). unfold sh1.
    rewrite dev_upd by (apply Hi || apply Hk). destruct (Z.eqb_spec i k), (Z.eqb_spec j k); try done. congruence. }
  assert (later fetch_flags sh sh') as Hl'.
  { assert (forall d, exists fl, set_bit R5_Wantcompute d = with_flags fl d /\ forall f, fetch_flags f = false -> fl f = flags d f) as Hset.
    { intros d. eexists. split; [reflexivity|]. intros f Hf. by destruct f. }
    assert (later fetch_flags sh (upd j (set_bit R5_Wantcompute) sh1)) as [L1 L2 L3 L4 L5 L6].
    { eapply later_trans; [by apply (later_upd _ sh i)|]. by apply later_upd. }
    split; try done. intros f F1 F2 F3 F4. rewrite <- (L5 f) by done. by destruct f. }
  split.
  - apply (mid_state conf w (upd j (set_bit R5_Wantcompute) sh1) _ s); [|done..]. apply want_compute_mid; [|done]. by apply want_compute_mid.
  - exists [i; j]. split; try done.
    + right. exists i, j. repeat split; try done. by eapply level_two.
    + intros t Ht. apply (later_in _ _ _ t Hl'). rewrite elem_of_cons, list_elem_of_singleton in Ht. destruct Ht as [->| ->]; done.
    + intros k Hk. apply (later_in _ _ _ k Hl') in Hk. rewrite Hdev, elem_of_cons, list_elem_of_singleton by done.
      destruct (Z.eqb_spec i k) as [->|Hik]; [by split; auto|]. destruct (Z.eqb_spec j k) as [->|Hjk]; cbn [orb]; [by split; auto|].
      rewrite N4 by done. split; [done|]. intros [|]; congruence.
    + intros k Hk Hnin. apply (later_in _ _ _ k Hl') in Hk. rewrite elem_of_cons, list_elem_of_singleton in Hnin. rewrite Hdev by done.
      rewrite (proj2 (Z.eqb_neq i k)), (proj2 (Z.eqb_neq j k)) by (intros ->; auto). cbn [orb].
      destruct (mi_dev _ _ _ _ _ _ Hm k Hk) as [st [[_ K2 _ _ _ _ _ _ _ _ _] _ _]]. apply K2. apply Hothers; [done|intros ->; auto..].
  - by eapply later_trans.
  - done.
  - done.
  - intros c. cbn. by rewrite S2.
  - intros o. cbn. by rewrite S3.
  - done.
  - apply S4.
Qed.
(** The block of the device is not needed, or it can neither be computed nor read. *)
Definition unfetched (sh : stripe) (s : stripe_head_state) (i : Z) : Prop :=
  need_this_block conf w sh s i = true ->
  test_bit R5_Insync (dev sh i) = false /\
  ~ (cnt s uptodate = Z.of_nat (disks sh) - 1 /\ cnt s failed <> 0 /\ (i = failed_num0 s \/ i = failed_num1 s)) /\
  ~ (cnt s uptodate = Z.of_nat (disks sh) - 2 /\ 2 <= cnt s failed).

Lemma need_free sh s i : need_this_block conf w sh s i = true -> test_bit R5_LOCKED (dev sh i) = false /\ test_bit R5_UPTODATE (dev sh i) = false.
Proof. unfold need_this_block. destruct (test_bit R5_LOCKED (dev sh i)), (test_bit R5_UPTODATE (dev sh i)); done. Qed.

Lemma fetch_block_ok sh0 s0 sh s i :
  fetching sh0 s0 sh s -> in_stripe sh i ->
  exists sh' s' stop, fetch_block conf w i sh s = Some (sh', s', stop) /\
    if stop : bool then computing sh0 s0 sh' s'
    else fetching sh0 s0 sh' s' /\ (cnt s0 locked < cnt s' locked \/ (sh' = sh /\ s' = s /\ unfetched sh s i)).
Proof.
  intros Hf Hi. pose proof Hf as [Hm (N1 & N2 & N3 & N4) Hc Hl Hr Hs]. unfold fetch_block.
  destruct (need_this_block conf w sh s i) eqn:Hneed.
  2: { exists sh, s, false. split; [done|]. split; [done|]. right. split; [done|]. split; [done|]. unfold unfetched. congruence. }
  destruct (need_free sh s i Hneed) as [Hnl Hnu]. rewrite N4 by done. cbn [bug_on].
  destruct (mi_dev _ _ _ _ _ _ Hm i Hi) as [st Hst]. pose proof (status_locked _ _ _ _ _ _ _ Hst Hnl) as ->.
  assert (test_bit R5_Wantread (dev sh i) = false) as -> by (destruct Hst as [[_ _ _ _ K _ _ _ _ _ _] _ _]; by injection K).
  cbn [bug_on]. destruct (_ && (_ || _)) eqn:H1.
  { apply andb_true_iff in H1 as [H1%Z.eqb_eq _]. eexists _, _, true. split; [reflexivity|]. by apply compute_one. }
  destruct ((cnt s uptodate =? Z.of_nat (disks sh) - 2) && (2 <=? cnt s failed)) eqn:H2.
  { apply andb_true_iff in H2 as [H2%Z.eqb_eq H2'%Z.leb_le]. destruct (two_missing sh s i Hc H2 Hi Hnu) as (j & -> & Hj & Hne & _ & Ho).
    eexists _, _, true. split; [reflexivity|]. by apply compute_two. }
  destruct (test_bit R5_Insync (dev sh i)) eqn:Hin.
  - eexists _, _, false. split; [reflexivity|]. split; [|left; rewrite cnt_add; cbn; pose proof (sb_locked _ _ Hs); lia].
    assert (later fetch_flags sh (upd i start_read sh)) as Hl' by (by apply later_upd; [apply start_read_flags|]).
    split; try done.
    + by apply fetch_read_ok.
    + repeat split; try done. intros j Hj. apply (later_in _ _ _ j Hl') in Hj. rewrite dev_upd by (apply Hi || apply Hj). destruct (i =? j); by apply N4.
    + unfold counted_uptodate. rewrite cnt_add. cbn [counter_beq]. rewrite Z.add_0_r, Hc, disks_upd. apply count_ext. intros j Hj%in_seqZ.
      rewrite dev_upd by (apply Hi || apply Hj). by destruct (i =? j).
    + by eapply later_trans.
    + destruct Hs as [S1 S2 S3 S4 S5]. split; try done; rewrite ?cnt_add; cbn; lia.
  - exists sh, s, false. split; [done|]. split; [done|]. right. split; [done|]. split; [done|]. intros _. split; [done|]. split.
    + intros (E1 & E2 & E3). rewrite E1, Z.eqb_refl, (proj2 (Z.eqb_neq _ _) E2) in H1. cbn in H1. apply orb_false_iff in H1 as [_ H1].
      apply orb_false_iff in H1 as [?%Z.eqb_neq ?%Z.eqb_neq]. lia.
    + intros [E1 E2]. rewrite E1, Z.eqb_refl, (proj2 (Z.leb_le _ _) E2) in H2. done.
Qed.

Lemma fetch_loop_ok sh0 s0 l sh s :
  fetching sh0 s0 sh s -> (forall i, i ∈ l -> in_stripe sh i) ->
  exists sh' s', fetch_loop conf w l sh s = Some (sh', s') /\
    (computing sh0 s0 sh' s' \/
     (fetching sh0 s0 sh' s' /\ (cnt s0 locked < cnt s' locked \/ (sh' = sh /\ s' = s /\ forall i, i ∈ l -> unfetched sh s i)))).
Proof.
  revert sh s. induction l as [|i l IH]; intros sh s Hf Hl.
  - exists sh, s. split; [done|]. right. split; [done|]. right. split; [done|]. split; [done|]. intros i Hi. by apply not_elem_of_nil in Hi.
  - cbn [fetch_loop]. destruct (fetch_block_ok sh0 s0 sh s i Hf) as (sh' & s' & stop & -> & Hstop); [apply Hl; by left|]. cbn [mbind option_bind].
    destruct stop; [exists sh', s'; by auto|]. destruct Hstop as [Hf' Hor].
    assert (forall j, in_stripe sh j -> in_stripe sh' j) as Hin.
    { intros j Hj. apply (later_in _ _ _ j (fe_later _ _ _ _ Hf')). by apply (later_in _ _ _ j (fe_later _ _ _ _ Hf)). }
    destruct (IH sh' s' Hf') as (sh'' & s'' & -> & Hor'); [intros j Hj; apply Hin, Hl; by right|].
    exists sh'', s''. split; [done|]. destruct Hor' as [|[Hf'' Hor']]; [by left|right]. split; [done|].
    destruct Hor' as [|(-> & -> & Hu)]; [by left|]. destruct Hor as [|(-> & -> & Hi)]; [by left|]. right. split; [done|]. split; [done|].
    intros j [->|Hj]%elem_of_cons; [done|by apply Hu].
Qed.
(** * All blocks of a stripe that is synchronised *)

Lemma count_single n i : 0 <= i < n -> count (fun k => k =? i) (seqZ 0 n) = 1.
Proof. intros Hi. rewrite (count_filter (fun k => k =? i)), (filter_single _ i); [done|apply NoDup_seqZ|apply elem_of_seqZ; lia|done]. Qed.

Lemma count_pair n i j : 0 <= i < n -> 0 <= j < n -> i <> j -> count (fun k => (k =? i) || (k =? j)) (seqZ 0 n) = 2.
Proof.
  intros Hi Hj Hne. transitivity (count (fun k => k =? i) (seqZ 0 n) + count (fun k => k =? j) (seqZ 0 n)); [|rewrite !count_single by done; done].
  clear Hi Hj. induction (seqZ 0 n) as [|k l IH]; [done|]. rewrite !count_cons, IH. destruct (Z.eqb_spec k i), (Z.eqb_spec k j); cbn [orb]; lia.
Qed.

Lemma failed_pair sh s i j k :
  mid conf w sh s V synced -> in_stripe sh i -> in_stripe sh j -> in_stripe sh k -> i <> j ->
  test_bit R5_Insync (dev sh i) = false -> test_bit R5_Insync (dev sh j) = false -> test_bit R5_Insync (dev sh k) = false -> k = i \/ k = j.
Proof.
  intros Hm Hi Hj Hk Hne Fi Fj Fk. pose proof (mi_failed _ _ _ _ _ _ Hm i Hi) as H1. pose proof (mi_failed _ _ _ _ _ _ Hm j Hj) as H2. pose proof (mi_failed _ _ _ _ _ _ Hm k Hk) as H3.
  rewrite Fi in H1. rewrite Fj in H2. rewrite Fk in H3. unfold has_failed_num in *. cbn in H1, H2, H3.
  assert (forall x, (1 <=? cnt s failed) && (failed_num0 s =? x) || (2 <=? cnt s failed) && (failed_num1 s =? x) = true -> x = failed_num0 s \/ x = failed_num1 s) as Hx.
  { intros x [[_ ?%Z.eqb_eq]%andb_true_iff|[_ ?%Z.eqb_eq]%andb_true_iff]%orb_true_iff; auto. }
  apply Hx in H1, H2, H3. lia.
Qed.

Lemma synced_blocks sh s :
  mid conf w sh s V synced -> counted_uptodate sh s -> cond s syncing = true -> cnt s locked = 0 ->
  (forall i, in_stripe sh i -> unfetched sh s i) -> forall i, in_stripe sh i -> test_bit R5_UPTODATE (dev sh i) = true.
Proof.
  intros Hm Hc Hsync Hl Hu i Hi. destruct (test_bit R5_UPTODATE (dev sh i)) eqn:Hiu; [done|exfalso].
  assert (forall k, in_stripe sh k -> test_bit R5_UPTODATE (dev sh k) = false -> need_this_block conf w sh s k = true) as Hneed.
  { intros k Hk Hku. unfold need_this_block. rewrite Hku, (mi_locked _ _ _ _ _ _ Hm k Hl Hk), Hsync. cbn. by destruct (_ || _). }
  pose proof (missing_count sh s Hc) as Hmc. destruct (Hu i Hi (Hneed i Hi Hiu)) as (Hfi & Hno1 & Hno2).
  pose proof (mi_failed _ _ _ _ _ _ Hm i Hi) as Hnum. rewrite Hfi in Hnum. unfold has_failed_num in Hnum. cbn in Hnum.
  pose proof (other_missing_spec sh i) as Ho. destruct (other_missing sh i) as [j|].
  - destruct Ho as (Hj & Hne & Hju). destruct (Hu j Hj (Hneed j Hj Hju)) as (Hfj & _ & _). apply Hno2.
    assert (2 <= cnt s failed) as H2.
    { destruct (Z_le_gt_dec 2 (cnt s failed)); [done|]. destruct Hne. apply (one_failed conf w sh s V synced); done || lia. }
    split; [|done]. rewrite (count_ext _ (fun k => (k =? i) || (k =? j))), count_pair in Hmc; [lia|done|done|done|].
    intros k Hk%in_seqZ. destruct (Z.eqb_spec k i) as [->|Hki]; [by rewrite Hiu|]. destruct (Z.eqb_spec k j) as [->|Hkj]; [by rewrite Hju|]. cbn.
    destruct (test_bit R5_UPTODATE (dev sh k)) eqn:Hku; [done|]. destruct (Hu k Hk (Hneed k Hk Hku)) as (Hfk & _ & _).
    destruct (failed_pair sh s i j k); done.
  - apply Hno1. split; [|split].
    + rewrite (count_ext _ (fun k => k =? i)), count_single in Hmc; [lia|done|]. intros k Hk%in_seqZ.
      destruct (Z.eqb_spec k i) as [->|Hki]; [by rewrite Hiu|by rewrite Ho].
    + intros H0. by rewrite H0 in Hnum.
    + apply orb_true_iff in Hnum as [[_ ?%Z.eqb_eq]%andb_true_iff|[_ ?%Z.eqb_eq]%andb_true_iff]; auto.
Qed.

(** ** The whole step *)

Definition fill (sh : stripe) (s : stripe_head_state) : option (stripe * stripe_head_state) :=
  if fill_wanted sh s then handle_stripe_fill conf w sh s else Some (sh, s).

Lemma later_handle sh0 sh : later fetch_flags sh0 sh -> later fetch_flags sh0 (sset STRIPE_HANDLE sh).
Proof. intros [L1 L2 L3 L4 L5 L6]. split; try done. intros f F1 F2 F3 F4. rewrite <- (L5 f) by done. by destruct f. Qed.

Lemma fetching_refl sh s : mid conf w sh s V synced -> no_compute sh s -> counted_uptodate sh s -> fetching sh s sh s.
Proof. intros Hm Hn Hc. split; try done. apply later_refl. Qed.

Lemma fill_ok sh s :
  mid conf w sh s V synced -> no_compute sh s -> counted_uptodate sh s -> cnt s compute = 0 ->
  exists sh' s', fill sh s = Some (sh', s') /\
    (computing sh s sh' s' \/
     (fetching sh s sh' s' /\ (is_idle sh = true -> cond s syncing = true -> cnt s' locked = 0 -> forall i, in_stripe sh' i -> test_bit R5_UPTODATE (dev sh' i) = true))).
Proof.
  intros Hm Hn Hc H0. pose proof (fetching_refl sh s Hm Hn Hc) as Hf. unfold fill. destruct (fill_wanted sh s) eqn:Hw.
  - unfold handle_stripe_fill. destruct Hn as (N1 & _). rewrite N1. cbn [negb andb]. destruct (is_idle sh).
    + destruct (fetch_loop_ok sh s (indices_down sh) sh s Hf) as (sh' & s' & -> & Hor).
      { intros i Hi. apply in_seqZ, list_elem_of_In, in_rev. by apply list_elem_of_In in Hi. }
      cbn. exists (sset STRIPE_HANDLE sh'), s'. split; [done|]. destruct Hor as [[P1 (T & P2) P3 P4 P5 P6 P7 P8 P9]|[[F1 F2 F3 F4 F5 F6] Hor]].
      * left. split; try done; [by eapply mid_state| |by apply later_handle]. exists T. destruct P2. by split.
      * right. split; [split; try done; [by eapply mid_state|by apply later_handle]|]. intros _ Hsync Hl i Hi.
        destruct Hor as [Hlt|(-> & -> & Hu)]; [pose proof (mi_locked0 _ _ _ _ _ _ Hm); lia|].
        apply (synced_blocks sh s); try done. intros k Hk. apply Hu. apply list_elem_of_In. unfold indices_down. rewrite <- in_rev. apply list_elem_of_In. by apply in_seqZ.
    + exists (sset STRIPE_HANDLE sh), s. split; [done|]. right. split; [|done]. destruct Hf. split; try done; [by eapply mid_state|by apply later_handle].
  - exists sh, s. split; [done|]. right. split; [done|]. intros _ Hsync Hl i Hi. unfold fill_wanted in Hw. rewrite Hsync, H0, Z.add_0_r in Hw. cbn [andb] in Hw.
    apply orb_false_iff in Hw as [Hw _]. apply orb_false_iff in Hw as [_ Hw%Z.ltb_ge]. pose proof (missing_count sh s Hc) as Hmc.
    pose proof (count_nonneg (fun i => negb (test_bit R5_UPTODATE (dev sh i))) (seqZ 0 (Z.of_nat (disks sh)))).
    apply negb_false_iff. apply (count_zero (fun i => negb (test_bit R5_UPTODATE (dev sh i))) (seqZ 0 (Z.of_nat (disks sh)))); [lia|by apply in_seqZ].
Qed.
End Fill.
