(* ===== verification/Raid5Dirty.v ===== *)
(** [handle_stripe_dirtying] and [schedule_reconstruction] of md/raid5.c: what a write needs is read
    first, and a write starts only when all that it needs is there. *)

From S2P Require Import Prelude PageMem Raid5Layout Raid5Stripe Raid5Dev Raid5Ops Raid5Handle Raid5Machine Raid5Data Raid5Copy Raid5OpsCorrect Raid5Write Raid5Inv Raid5Analyse Raid5Decide Raid5Fill.

Lemma with_flags_id d : with_flags (flags d) d = d.
Proof. by destruct d. Qed.

Lemma later_weaken (X Y : r5dev_flag -> bool) sh sh' : (forall f, X f = true -> Y f = true) -> later X sh sh' -> later Y sh sh'.
Proof.
  intros HXY [L1 L2 L3 L4 L5 L6]. split; try done. intros i Hi. destruct (L6 i Hi) as (fl & -> & Hf). exists fl. split; [done|].
  intros f Hy. apply Hf. destruct (X f) eqn:Hx; [|done]. apply HXY in Hx. congruence.
Qed.

Section Dirty.
Context (conf : r5conf) (w : world) (V : Z -> block) (synced : bool).

(** What is to be computed, if anything. *)
Definition compute_ready (sh : stripe) (s : stripe_head_state) : Prop :=
  no_compute sh s \/ (cond s req_compute = true /\ exists T, compute_plan conf V sh s T).

(** The plan does not depend on other flags. *)
Lemma compute_ready_later (X : r5dev_flag -> bool) sh sh' s s' :
  compute_ready sh s -> later X sh sh' -> X R5_Wantcompute = false -> stest STRIPE_COMPUTE_RUN sh' = stest STRIPE_COMPUTE_RUN sh ->
  ops_target sh' = ops_target sh -> ops_target2 sh' = ops_target2 sh ->
  ops_request s' STRIPE_OP_COMPUTE_BLK = ops_request s STRIPE_OP_COMPUTE_BLK -> cond s' req_compute = cond s req_compute -> compute_ready sh' s'.
Proof.
  intros Hc Hl HX Hrun Ht Ht2 Hops Hcond. destruct Hc as [(N1 & N2 & N3 & N4)|(C & T & [P1 P2 P3 P4 P5 P6])]; [left|right].
  - unfold no_compute. rewrite Hrun, Hops, Hcond. repeat split; try done. intros i Hi. apply (later_in _ _ _ i Hl) in Hi.
    rewrite (later_flag _ _ _ i _ Hl) by done. by apply N4.
  - rewrite Hcond. split; [done|]. exists T. split; rewrite ?Hrun, ?Hops, ?Ht, ?Ht2; try done.
    + intros t Ht'. apply (later_in _ _ _ t Hl). by apply P4.
    + intros i Hi. apply (later_in _ _ _ i Hl) in Hi. rewrite (later_flag _ _ _ i _ Hl) by done. by apply P5.
    + intros i Hi Hn. apply (later_in _ _ _ i Hl) in Hi. destruct (later_fields _ _ _ i Hl Hi) as (-> & _). by apply P6.
Qed.

(** * Reading before a write *)

Definition preread_flags (f : r5dev_flag) : bool := match f with R5_LOCKED | R5_Wantread => true | _ => false end.

Section Preread.
Context (readable : bool) (missing : stripe -> Z -> r5dev -> bool).
Context (Hmissing : forall sh i d, missing sh i d = true -> test_bit R5_LOCKED d = false).

Definition prereads (sh : stripe) (i : Z) (d : r5dev) : bool := missing sh i d && test_bit R5_Insync d && stest STRIPE_PREREAD_ACTIVE sh.

Lemma preread_dev_eq sh i d a : (preread_dev readable missing sh i d a).1 = if prereads sh i d then start_read d else d.
Proof.
  unfold preread_dev, prereads. destruct a as [[s delay] n]. destruct (missing sh i d), readable, (test_bit R5_Insync d), (stest _ sh); done.
Qed.

Lemma preread_fold sh s l :
  let a := foldr (fun i a => (preread_dev readable missing sh i (dev sh i) a).2) (s, false, 0) l in
  (forall c, cnt a.1.1 c = cnt s c + if counter_beq c locked then count (fun i => prereads sh i (dev sh i)) l else 0) /\
  cond a.1.1 = cond s /\ ops_request a.1.1 = ops_request s /\ failed_num0 a.1.1 = failed_num0 s /\ failed_num1 a.1.1 = failed_num1 s /\
  a.2 = count (fun i => missing sh i (dev sh i) && (negb readable || test_bit R5_Insync (dev sh i))) l.
Proof.
  induction l as [|i l IH]; cbn zeta; [repeat split; intros c; destruct (counter_beq c locked); cbn; lia|].
  cbn [foldr]. cbn zeta in IH. destruct (foldr _ _ l) as [[s' delay] n]. cbn [fst snd] in IH. destruct IH as (I1 & I2 & I3 & I4 & I5 & I6).
  rewrite !count_cons. unfold preread_dev. unfold prereads at 1. destruct (missing sh i (dev sh i)) eqn:Hmis; cbn [andb fst snd]; [|repeat split; try done; intros c; rewrite I1; destruct (counter_beq c locked); lia].
  destruct (negb readable || test_bit R5_Insync (dev sh i)) eqn:Hr; cbn [fst snd].
  - destruct (test_bit R5_Insync (dev sh i) && stest STRIPE_PREREAD_ACTIVE sh); cbn [fst snd]; (split; [|repeat split; done || lia]); intros c.
    + rewrite cnt_add, I1. destruct (counter_beq c locked); lia.
    + rewrite I1. destruct (counter_beq c locked); lia.
  - apply orb_false_iff in Hr as [_ ->]. cbn [andb]. repeat split; done.
Qed.

Lemma preread_ok sh s :
  mid conf w sh s V synced ->
  exists sh' s' n, preread readable missing sh s = (sh', s', n) /\ mid conf w sh' s' V synced /\ later preread_flags sh sh' /\
    reconstruct_state sh' = reconstruct_state sh /\ same_but_locked s s' /\
    (compute_ready sh s -> compute_ready sh' s') /\
    n = count (fun i => missing sh i (dev sh i) && (negb readable || test_bit R5_Insync (dev sh i))) (seqZ 0 (Z.of_nat (disks sh))) /\
    (cnt s' locked = 0 -> forall i, in_stripe sh i -> dev sh' i = dev sh i).
Proof.
  intros Hm. unfold preread. pose proof (for_devs_eq (preread_dev readable missing sh) (fun i d => if prereads sh i d then start_read d else d) sh (s, false, 0) (preread_dev_eq sh)) as Heq.
  pose proof (for_devs_acc (preread_dev readable missing sh) sh (s, false, 0)) as Hacc. pose proof (preread_fold sh s (seqZ 0 (Z.of_nat (disks sh)))) as Hf. cbn zeta in Hf.
  rewrite <- Hacc in Hf. destruct (for_devs _ sh _) as [sh1 [[s' delay] n]]. cbn [fst snd] in *. subst sh1. clear Hacc. destruct Hf as (I1 & I2 & I3 & I4 & I5 & I6).
  set (sh1 := mapi _ sh). set (sh' := if delay then sset STRIPE_DELAYED sh1 else sh1). exists sh', s', n. split; [done|].
  assert (devs sh' = devs sh1) as Hds by (unfold sh'; by destruct delay).
  assert (forall i, in_stripe sh i -> dev sh' i = if prereads sh i (dev sh i) then start_read (dev sh i) else dev sh i) as Hdev.
  { intros i Hi. unfold dev at 1. rewrite Hds. fold (dev sh1 i). by apply dev_mapi. }
  assert (geo sh' = geo sh /\ reconstruct_state sh' = reconstruct_state sh /\ ops_target sh' = ops_target sh /\ ops_target2 sh' = ops_target2 sh /\
    check_state sh' = check_state sh /\ zero_sum_result sh' = zero_sum_result sh /\ (forall f, f <> STRIPE_DELAYED -> stest f sh' = stest f sh)) as (G1 & G2 & G3 & G4 & G5 & G6 & G7).
  { unfold sh'. destruct delay; repeat split; try done. intros f Hf. by destruct f. }
  assert (disks sh' = disks sh) as Hn by (unfold disks; rewrite Hds; apply length_imap).
  pose proof (count_nonneg (fun i => prereads sh i (dev sh i)) (seqZ 0 (Z.of_nat (disks sh)))) as Hpos.
  assert (cnt s' locked = 0 -> forall i, in_stripe sh i -> dev sh' i = dev sh i) as Hsame.
  { intros H0 i Hi. rewrite I1 in H0. cbn in H0. pose proof (mi_locked0 _ _ _ _ _ _ Hm). rewrite Hdev by done.
    rewrite (count_zero (fun i => prereads sh i (dev sh i)) (seqZ 0 (Z.of_nat (disks sh))) i); [done|lia|by apply in_seqZ]. }
  assert (later preread_flags sh sh') as Hl.
  { split; try done.
    - intros f F1 F2 F3 F4. by apply G7.
    - intros i Hi. rewrite Hdev by done. destruct (prereads _ _ _); [|by exists (flags (dev sh i)); destruct (dev sh i)].
      exists (flags (start_read (dev sh i))). split; [done|]. intros f Hf. by destruct f. }
  assert (same_failed s s') as Hsf by (repeat split; try done; rewrite I1; cbn; lia).
  assert (all_synced synced sh' = all_synced synced sh) as Has by (unfold all_synced; by rewrite !G7).
  repeat match goal with |- _ /\ _ => split end; try done.
  - apply (mid_step conf w sh sh' s s' V synced synced); try done.
    + intros i st Hi Hst. destruct (prereads sh i (dev sh i)) eqn:Hp.
      * unfold prereads in Hp. pose proof Hp as [[H1 H2]%andb_true_iff _]%andb_true_iff. exists WantR. apply (start_read_mid conf w V synced sh); try done; [by exists st|by eapply Hmissing|].
        rewrite Hdev by done. unfold prereads. by rewrite Hp.
      * exists st. apply (mid_dev_state conf w sh); try done. by rewrite Hdev, Hp.
    + intros i Hi. rewrite Hdev by done. by destruct (prereads _ _ _).
    + rewrite I1. cbn. pose proof (mi_locked0 _ _ _ _ _ _ Hm). lia.
    + intros i H0 Hi. rewrite Hsame by done. apply (mi_locked _ _ _ _ _ _ Hm); [|done]. rewrite I1 in H0. cbn in H0. pose proof (mi_locked0 _ _ _ _ _ _ Hm). lia.
  - split; try done; rewrite ?I1; cbn; lia.
  - intros Hc. apply (compute_ready_later preread_flags sh sh' s s'); try done.
    + by apply G7.
    + by rewrite I3.
    + by rewrite I2.
Qed.
End Preread.

(** The cost is zero exactly if nothing is missing. *)
Lemma cost_zero missing sh : cost missing sh = 0 -> forall i, in_stripe sh i -> missing sh i (dev sh i) = false.
Proof.
  unfold cost. rewrite devs_down_eq. intros H i Hi.
  assert (i ∈ rev (seqZ 0 (Z.of_nat (disks sh)))) as Hin by (rewrite list_elem_of_In, <- in_rev, <- list_elem_of_In; by apply in_seqZ).
  set (g := fun x : Z * r5dev => if missing sh x.1 x.2 then if test_bit R5_Insync x.2 then 1 else 2 * Z.of_nat (disks sh) else 0).
  assert (forall x, 0 <= g x) as Hg by (intros x; unfold g; destruct (missing sh x.1 x.2), (test_bit R5_Insync x.2); lia).
  assert (forall l, 0 <= foldr (fun x n => g x + n) 0 l) as Hpos by (induction l; cbn [foldr]; pose proof Hg; [lia|specialize (Hg a); lia]).
  change (foldr (fun x n => g x + n) 0 (map (fun i => (i, dev sh i)) (rev (seqZ 0 (Z.of_nat (disks sh))))) = 0) in H.
  revert H Hin. generalize (rev (seqZ 0 (Z.of_nat (disks sh)))). induction l as [|j l IH]; [by intros _ ?%not_elem_of_nil|].
  cbn [map foldr]. intros H Hin. pose proof (Hg (j, dev sh j)). specialize (Hpos (map (fun i => (i, dev sh i)) l)).
  apply elem_of_cons in Hin as [->|Hin]; [|apply IH; [lia|done]]. destruct (missing sh j (dev sh j)) eqn:Hm; [|done].
  assert (0 < g (j, dev sh j)); [|lia]. unfold g, in_stripe in *. cbn [fst snd]. rewrite Hm. destruct (test_bit R5_Insync (dev sh j)); lia.
Qed.

(** * Starting a write *)

Lemma locked_fold (sel : Z -> bool) s l :
  let a := foldr (fun i s => if sel i then add locked 1 s else s) s l in
  (forall c, cnt a c = cnt s c + if counter_beq c locked then count sel l else 0) /\
  cond a = cond s /\ ops_request a = ops_request s /\ failed_num0 a = failed_num0 s /\ failed_num1 a = failed_num1 s.
Proof.
  induction l as [|i l IH]; cbn zeta in *; [repeat split; intros c; destruct (counter_beq c locked); cbn; lia|].
  cbn [foldr]. destruct IH as (I1 & I2 & I3 & I4 & I5). rewrite count_cons. destruct (sel i); (split; [|done]); intros c; rewrite ?cnt_add, I1; destruct (counter_beq c locked); lia.
Qed.

(** What a started write makes of the flags of a device that is written, or that has parity. *)
Definition sched (sel par : bool) (d : r5dev) (f : r5dev_flag) : bool :=
  match f with
  | R5_LOCKED => test_bit R5_LOCKED d || sel || par
  | R5_UPTODATE => test_bit R5_UPTODATE d && negb (sel || par)
  | R5_Wantdrain => test_bit R5_Wantdrain d || sel
  | f => test_bit f d
  end.

Definition dirty_flags (f : r5dev_flag) : bool := preread_flags f || match f with R5_UPTODATE | R5_Wantdrain => true | _ => false end.
Definition sched_flags (f : r5dev_flag) : bool := match f with R5_LOCKED | R5_UPTODATE | R5_Wantdrain => true | _ => false end.

(** The write of the devices of [sel] is started. *)
Record scheduled (rmw : bool) (sel : Z -> bool) (sh : stripe) (s : stripe_head_state) (sh' : stripe) (s' : stripe_head_state) : Prop := {
  sc_later : later sched_flags sh sh';
  sc_dev i : in_stripe sh i -> exists fl, dev sh' i = with_flags fl (dev sh i) /\ forall f, fl f = sched (sel i) (is_parity sh i) (dev sh i) f;
  sc_state : reconstruct_state sh' = if rmw then reconstruct_state_prexor_drain_run else reconstruct_state_drain_run;
  sc_run : stest STRIPE_COMPUTE_RUN sh' = stest STRIPE_COMPUTE_RUN sh /\ ops_target sh' = ops_target sh /\ ops_target2 sh' = ops_target2 sh;
  sc_cond : cond s' = cond s;
  sc_ops o : ops_request s' o =
    match o with STRIPE_OP_PREXOR => rmw || ops_request s o | STRIPE_OP_BIODRAIN | STRIPE_OP_RECONSTRUCT => true | _ => ops_request s o end;
  sc_failed : same_failed s s';
  sc_locked : 0 < cnt s' locked;
}.

Lemma lock_parity_eq sh s :
  mid conf w sh s V synced ->
  let lock := fun d => clear_bit R5_UPTODATE (set_bit R5_LOCKED d) in
  forall sh1 s1, geo sh1 = geo sh -> disks sh1 = disks sh -> exists sh' s', lock_parity conf sh1 s1 = (sh', s') /\
    (forall i, in_stripe sh i -> dev sh' i = if is_parity sh i then lock (dev sh1 i) else dev sh1 i) /\
    with_devs [] sh' = with_devs [] sh1 /\ disks sh' = disks sh1 /\
    cond s' = cond s1 /\ ops_request s' = ops_request s1 /\ same_failed s1 s' /\ cnt s1 locked < cnt s' locked.
Proof.
  intros Hm lock sh1 s1 Hg Hn. destruct (parity_member _ _ _ _ _ _ Hm) as (Hp & Hpp & Hq). unfold lock_parity, in_stripe in *.
  assert (pd sh1 = pd sh /\ qd sh1 = qd sh) as [Epd Eqd] by (unfold pd, qd; by rewrite Hg).
  destruct (level conf =? 6); eexists _, _; (split; [reflexivity|]).
  - destruct Hq as (Hq & Hqp & Hne). split.
    + intros i Hi. change (qd (upd _ _ sh1)) with (qd sh1). rewrite Epd, Eqd. rewrite !dev_upd; rewrite ?disks_upd, ?Hn; try apply Hi; try apply Hp; try apply Hq.
      unfold is_parity. rewrite (Z.eqb_sym i (pd sh)), (Z.eqb_sym i (qd sh)). destruct (Z.eqb_spec (pd sh) i), (Z.eqb_spec (qd sh) i); try done. congruence.
    + split; [done|]. split; [by rewrite !disks_upd|]. repeat split; try done. rewrite !cnt_add. cbn. lia.
  - split.
    + intros i Hi. rewrite Epd. rewrite dev_upd; rewrite ?Hn; try apply Hi; try apply Hp.
      unfold is_parity. rewrite Hq, (Z.eqb_sym i (pd sh)). rewrite (proj2 (Z.eqb_neq i (-1))) by lia. rewrite orb_false_r. by destruct (pd sh =? i).
    + split; [done|]. split; [by rewrite !disks_upd|]. repeat split; try done. rewrite !cnt_add. cbn. lia.
Qed.

(** The loop over the devices that are written. *)
Lemma drain_loop (F : Z -> r5dev -> stripe_head_state -> r5dev * stripe_head_state) (sel : Z -> r5dev -> bool) (g : r5dev -> r5dev) sh s :
  (forall i d a, F i d a = if sel i d then (g d, add locked 1 a) else (d, a)) ->
  cnt s locked = 0 -> (exists i, in_stripe sh i /\ sel i (dev sh i) = true) ->
  exists s1, for_devs F sh s = (mapi (fun i d => if sel i d then g d else d) sh, s1) /\ 0 < cnt s1 locked /\
    cond s1 = cond s /\ ops_request s1 = ops_request s /\ same_failed s s1.
Proof.
  intros HF H0 (i & Hi & Hsel). pose proof (for_devs_eq F (fun i d => if sel i d then g d else d) sh s) as Heq.
  pose proof (for_devs_acc F sh s) as Hacc. destruct (for_devs F sh s) as [sh1 s1]. cbn [fst snd] in *.
  rewrite Heq by (intros i' d' a'; rewrite HF; by destruct (sel i' d')). exists s1. split; [done|].
  assert (s1 = foldr (fun i s => if sel i (dev sh i) then add locked 1 s else s) s (seqZ 0 (Z.of_nat (disks sh)))) as ->.
  { rewrite Hacc. clear - HF. induction (seqZ _ _) as [|j l IH]; [done|]. cbn [foldr]. rewrite IH, HF. by destruct (sel j (dev sh j)). }
  destruct (locked_fold (fun i => sel i (dev sh i)) s (seqZ 0 (Z.of_nat (disks sh)))) as (C & I2 & I3 & I4 & I5). split; [|repeat split; try done; rewrite C; cbn; lia].
  rewrite C. cbn [counter_beq]. apply in_seqZ in Hi. pose proof (count_pos (fun i => sel i (dev sh i)) (seqZ 0 (Z.of_nat (disks sh))) i Hi Hsel). lia.
Qed.

Lemma schedule_parity (rmw : bool) (sel : Z -> r5dev -> bool) (g : r5dev -> r5dev) sh s sh2 s1 s2 :
  mid conf w sh s V synced -> 0 < cnt s1 locked -> cond s1 = cond s -> ops_request s1 = ops_request s -> same_failed s s1 ->
  (forall d, exists fl, g d = with_flags fl d /\ forall f, fl f = sched true false d f) ->
  devs sh2 = devs (mapi (fun i d => if sel i d then g d else d) sh) ->
  geo sh2 = geo sh -> check_state sh2 = check_state sh -> zero_sum_result sh2 = zero_sum_result sh -> ops_target sh2 = ops_target sh -> ops_target2 sh2 = ops_target2 sh ->
  (forall f, f <> STRIPE_FULL_WRITE -> stest f sh2 = stest f sh) ->
  reconstruct_state sh2 = (if rmw then reconstruct_state_prexor_drain_run else reconstruct_state_drain_run) ->
  s2 = request STRIPE_OP_RECONSTRUCT (request STRIPE_OP_BIODRAIN (if rmw then request STRIPE_OP_PREXOR s1 else s1)) ->
  exists sh' s', lock_parity conf sh2 s2 = (sh', s') /\ scheduled rmw (fun i => sel i (dev sh i)) sh s sh' s'.
Proof.
  intros Hm Hpos Hcond Hops Hsf Hg Hds E1 E2 E3 E4 E5 E6 E7 Hs2. assert (disks sh2 = disks sh) as Hn by (unfold disks; rewrite Hds; apply length_imap).
  destruct (lock_parity_eq sh s Hm sh2 s2 E1 Hn) as (sh' & s' & -> & Hdev & Hrest & Hn' & C & O & F & L). exists sh', s'. split; [done|]. subst s2.
  assert (forall i, in_stripe sh i -> dev sh2 i = if sel i (dev sh i) then g (dev sh i) else dev sh i) as Hdev2.
  { intros i Hi. unfold dev at 1. rewrite Hds. fold (dev (mapi (fun i d => if sel i d then g d else d) sh) i). by apply dev_mapi. }
  assert (forall i, in_stripe sh i -> exists fl, dev sh' i = with_flags fl (dev sh i) /\ forall f, fl f = sched (sel i (dev sh i)) (is_parity sh i) (dev sh i) f) as Hfl.
  { intros i Hi. rewrite Hdev, Hdev2 by done. destruct (Hg (dev sh i)) as (fl & -> & Hf).
    destruct (sel i (dev sh i)), (is_parity sh i); (eexists; split; [reflexivity || (symmetry; apply with_flags_id)|]);
      intros f; destruct f; cbn; unfold test_bit in *; cbn; rewrite ?Hf; cbn; unfold test_bit; rewrite ?orb_false_r, ?orb_true_r, ?andb_true_r, ?andb_false_r; done. }
  injection Hrest as R1 R2 R3 R4 R5 R6 R7 R8. split; try done.
  - split; try congruence.
    + intros f F1 F2 F3 F4. unfold stest in *. by rewrite R2, E6.
    + intros i Hi. destruct (Hfl i Hi) as (fl & -> & Hf). exists fl. split; [done|]. intros f Hx. rewrite Hf. by destruct f.
  - by rewrite <- E7.
  - unfold stest in *. by rewrite R2, E6, <- E4, <- E5.
  - rewrite C. cbn. destruct rmw; by rewrite <- Hcond.
  - intros o. rewrite O. cbn. destruct rmw; cbn; rewrite Hops; by destruct o.
  - destruct Hsf as (F1 & F2 & F3), F as (G1 & G2 & G3). repeat split; rewrite ?G1, ?G2, ?G3; by destruct rmw.
  - assert (cnt (if rmw then request STRIPE_OP_PREXOR s1 else s1) locked = cnt s1 locked) by (by destruct rmw). cbn in L. lia.
Qed.

Abbreviation wanted sh := (fun i => nonempty (towrite (dev sh i))).

Lemma parity_no_requests sh s i : mid conf w sh s V synced -> in_stripe sh i -> is_parity sh i = true -> towrite (dev sh i) = [] /\ written (dev sh i) = [].
Proof. intros Hm Hi Hp. destruct (mi_dev _ _ _ _ _ _ Hm i Hi) as [st [[K1 _ _ _ _ _ _ _ _ _ _] _ _]]. by destruct (dw_parity _ _ _ K1 Hp) as (_ & ? & ? & _). Qed.

Lemma schedule_ok (rcw : bool) sh s :
  mid conf w sh s V synced -> cnt s locked = 0 -> (exists i, in_stripe sh i /\ towrite (dev sh i) <> []) ->
  (forall i, in_stripe sh i -> (if rcw then rcw_missing else rmw_missing) sh i (dev sh i) = false) ->
  exists sh' s', schedule_reconstruction conf rcw sh s = Some (sh', s') /\ scheduled (negb rcw) (wanted sh) sh s sh' s'.
Proof.
  intros Hm H0 (i0 & Hi0 & Hw0) Hmiss. unfold schedule_reconstruction. destruct rcw.
  - destruct (drain_loop drain_dev (fun _ d => nonempty (towrite d)) (fun d => clear_bit R5_UPTODATE (set_bit R5_Wantdrain (set_bit R5_LOCKED d))) sh s) as (s1 & -> & L & C & O & F); [done..| |].
    { exists i0. split; [done|]. by destruct (towrite (dev sh i0)). }
    rewrite (proj2 (Z.eqb_neq _ _)) by lia. match goal with |- exists _ _, Some (lock_parity _ ?sh2 ?s2) = _ /\ _ => set (sh2' := sh2); set (s2' := s2) end.
    destruct (schedule_parity false (fun _ d => nonempty (towrite d)) (fun d => clear_bit R5_UPTODATE (set_bit R5_Wantdrain (set_bit R5_LOCKED d))) sh s sh2' s1 s2') as (sh' & s' & -> & Hsc); try done;
      try (unfold sh2'; destruct (_ =? _); done).
    + intros d. eexists. split; [reflexivity|]. intros f. destruct f; cbn; rewrite ?orb_true_r, ?andb_false_r; done.
    + unfold sh2'. intros f Hf. destruct (_ =? _); by destruct f.
    + by exists sh', s'.
  - assert (forall i, in_stripe sh i -> towrite (dev sh i) <> [] \/ is_parity sh i = true -> have_block (dev sh i) = true) as Hhave.
    { intros i Hi Hor. specialize (Hmiss i Hi). unfold rmw_missing in Hmiss. rewrite (mi_locked _ _ _ _ _ _ Hm i H0 Hi) in Hmiss. unfold have_block.
      assert (nonempty (towrite (dev sh i)) || is_parity sh i = true) as Hc by (destruct Hor as [Hor| ->]; [by destruct (towrite (dev sh i))|apply orb_true_r]).
      rewrite Hc in Hmiss. cbn in Hmiss. by apply negb_false_iff in Hmiss. }
    destruct (parity_member _ _ _ _ _ _ Hm) as (Hp & Hpp & Hq). rewrite (Hhave (pd sh)) by auto. cbn [negb bug_on].
    assert ((level conf =? 6) && negb (have_block (dev sh (qd sh))) = false) as ->.
    { destruct (level conf =? 6); [|done]. destruct Hq as (Hq & Hqp & _). by rewrite Hhave by auto. }
    cbn [bug_on]. set (sel := fun i d => negb (is_parity sh i) && nonempty (towrite d) && (test_bit R5_UPTODATE d || test_bit R5_Wantcompute d)).
    assert (forall i, in_stripe sh i -> sel i (dev sh i) = nonempty (towrite (dev sh i))) as Hsel.
    { intros i Hi. unfold sel. destruct (is_parity sh i) eqn:Hpi; [by destruct (parity_no_requests sh s i Hm Hi Hpi) as [-> _]|].
      cbn [negb andb]. destruct (towrite (dev sh i)) eqn:Hw; [done|]. specialize (Hhave i Hi). unfold have_block in Hhave. rewrite Hhave; [done|]. left. by rewrite Hw. }
    destruct (drain_loop (drain_dev_rmw sh) sel (fun d => clear_bit R5_UPTODATE (set_bit R5_LOCKED (set_bit R5_Wantdrain d))) sh s) as (s1 & -> & L & C & O & F); [done..| |].
    { exists i0. split; [done|]. rewrite Hsel by done. by destruct (towrite (dev sh i0)). }
    rewrite (proj2 (Z.eqb_neq _ _)) by lia. match goal with |- exists _ _, Some (lock_parity _ ?sh2 ?s2) = _ /\ _ => set (sh2' := sh2); set (s2' := s2) end.
    destruct (schedule_parity true sel (fun d => clear_bit R5_UPTODATE (set_bit R5_LOCKED (set_bit R5_Wantdrain d))) sh s sh2' s1 s2') as (sh' & s' & -> & Hsc); try done.
    + intros d. eexists. split; [reflexivity|]. intros f. destruct f; cbn; rewrite ?orb_true_r, ?andb_false_r; done.
    + exists sh', s'. split; [done|]. destruct Hsc as [A1 A2 A3 A4 A5 A6 A7 A8]. split; try done. intros i Hi. rewrite <- Hsel by done. by apply A2.
Qed.

Definition quiescent (sh : stripe) : Prop :=
  reconstruct_state sh = reconstruct_state_idle /\ forall i, in_stripe sh i -> written (dev sh i) = [] /\ test_bit R5_Wantdrain (dev sh i) = false.

Lemma later_synced X sh sh' : later X sh sh' -> all_synced synced sh' = all_synced synced sh.
Proof. intros H. unfold all_synced. by rewrite !(la_state _ _ _ H) by done. Qed.

Lemma later_parity X sh sh' i : later X sh sh' -> is_parity sh' i = is_parity sh i.
Proof. intros H. unfold is_parity, pd, qd. by rewrite (la_geo _ _ _ H). Qed.

Lemma scheduled_mid rmw sh s sh' s' :
  mid conf w sh s V synced -> quiescent sh -> cnt s locked = 0 -> scheduled rmw (wanted sh) sh s sh' s' -> mid conf w sh' s' V synced.
Proof.
  intros Hm [Hidle Hq] H0 [A1 A2 A3 A4 A5 A6 A7 A8]. assert (busy_ops sh' = true) as Hbusy by (unfold busy_ops; rewrite A3; by destruct rmw).
  apply (mid_step conf w sh sh' s s' V synced synced); try done; try lia; try apply A1.
  - intros i st Hi Hst. pose proof (status_locked _ _ _ _ _ _ _ Hst (mi_locked _ _ _ _ _ _ Hm i H0 Hi)) as ->.
    destruct (A2 i Hi) as (fl & Hd & Hf). destruct (Hq i Hi) as [Hwr Hdr]. pose proof Hst as [[K1 K2 K3 K4 K5 K6 K7 K8 K9 K10 K11] _ _].
    injection K5 as Z1 Z2 Z3 Z4. set (b := nonempty (towrite (dev sh i)) || is_parity sh i).
    exists (if b then Pend else Idle). apply (mid_dev_flags conf w sh sh' V synced i Idle _ fl); try done.
    + apply A1.
    + by eapply later_synced.
    + intros f Hmv. rewrite Hf. by destruct f.
    + rewrite Hf. cbn [sched]. by intros [? _]%andb_true_iff.
    + rewrite !Hf. cbn [sched]. rewrite Z1, Z2, Z3, Z4. cbn [orb]. unfold b. by destruct (_ || _).
    + by destruct b.
    + rewrite Hbusy. unfold takes_part, test_bit. cbn. rewrite Hf. cbn [sched]. rewrite Hwr, Hdr. cbn. unfold b. by destruct (is_parity sh i), (nonempty (towrite (dev sh i))).
    + rewrite Hf. cbn [sched]. unfold b. by left.
  - intros i Hi. destruct (A2 i Hi) as (fl & -> & Hf). apply Hf.
Qed.

(** A write is going to be done, and what it needs is known or going to be computed. *)
Record write_plan (rmw : bool) (sh : stripe) (s : stripe_head_state) : Prop := {
  wp_state : reconstruct_state sh = if rmw then reconstruct_state_prexor_drain_run else reconstruct_state_drain_run;
  wp_ops : ops_request s STRIPE_OP_PREXOR = rmw /\ ops_request s STRIPE_OP_BIODRAIN = true /\ ops_request s STRIPE_OP_RECONSTRUCT = true;
  wp_written i : in_stripe sh i -> written (dev sh i) = [];
  wp_drain i : in_stripe sh i -> test_bit R5_Wantdrain (dev sh i) = true -> towrite (dev sh i) <> [] /\ is_parity sh i = false;
  wp_some : exists i, in_stripe sh i /\ test_bit R5_Wantdrain (dev sh i) = true;
  wp_rcw i : rmw = false -> in_stripe sh i -> is_parity sh i = false ->
    page (dev sh i) = V i \/ test_bit R5_Wantcompute (dev sh i) = true \/ (test_bit R5_Wantdrain (dev sh i) = true /\ is_covered conf (dev sh i) = true);
  wp_rmw i : rmw = true -> in_stripe sh i -> test_bit R5_Wantdrain (dev sh i) = true \/ is_parity sh i = true ->
    page (dev sh i) = V i \/ test_bit R5_Wantcompute (dev sh i) = true;
}.

Lemma covered_wanted sh s i : mid conf w sh s V synced -> is_covered conf (dev sh i) = true -> towrite (dev sh i) <> [].
Proof.
  intros [[Hg _ _ _] _ _ _ _ _ _ _ _] Hc Hn. cbn in Hg. unfold is_covered in Hc. rewrite Hn in Hc. cbn in Hc. apply Z.leb_le in Hc. pose proof (go_sectors _ _ Hg). lia.
Qed.

Lemma scheduled_plan (rmw : bool) sh s sh' s' :
  mid conf w sh s V synced -> quiescent sh -> cnt s locked = 0 -> ops_request s STRIPE_OP_PREXOR = false ->
  (exists i, in_stripe sh i /\ towrite (dev sh i) <> []) ->
  (forall i, in_stripe sh i -> (if rmw then rmw_missing else rcw_missing) sh i (dev sh i) = false) ->
  scheduled rmw (wanted sh) sh s sh' s' -> write_plan rmw sh' s'.
Proof.
  intros Hm [Hidle Hq] H0 Hpre (i0 & Hi0 & Hw0) Hmiss [A1 A2 A3 A4 A5 A6 A7 A8].
  assert (forall i, in_stripe sh i -> test_bit R5_Wantdrain (dev sh' i) = nonempty (towrite (dev sh i)) /\ test_bit R5_Wantcompute (dev sh' i) = test_bit R5_Wantcompute (dev sh i) /\
    page (dev sh' i) = page (dev sh i) /\ towrite (dev sh' i) = towrite (dev sh i) /\ written (dev sh' i) = written (dev sh i) /\ is_covered conf (dev sh' i) = is_covered conf (dev sh i)) as Hd.
  { intros i Hi. destruct (A2 i Hi) as (fl & -> & Hf). destruct (Hq i Hi) as [_ Hdr]. unfold test_bit in *. cbn. rewrite !Hf. cbn. unfold test_bit. by rewrite Hdr. }
  assert (forall i, in_stripe sh i -> test_bit R5_UPTODATE (dev sh i) || test_bit R5_Wantcompute (dev sh i) = true -> page (dev sh i) = V i \/ test_bit R5_Wantcompute (dev sh i) = true) as Hhave.
  { intros i Hi [Hu|Hc]%orb_true_iff; [left|by right]. destruct (mi_dev _ _ _ _ _ _ Hm i Hi) as [st [[_ K2 _ _ _ _ _ _ _ _ _] _ _]]. by apply K2. }
  split; try done.
  - by rewrite !A6, Hpre, orb_false_r.
  - intros i Hi%(later_in _ _ _ i A1). destruct (Hd i Hi) as (_ & _ & _ & _ & -> & _). by apply Hq.
  - intros i Hi%(later_in _ _ _ i A1). destruct (Hd i Hi) as (-> & _ & _ & -> & _). rewrite (later_parity _ _ _ _ A1). intros Hw.
    assert (towrite (dev sh i) <> []) as Hne by (by destruct (towrite (dev sh i))). split; [done|]. destruct (is_parity sh i) eqn:Hp; [|done].
    destruct Hne. by apply (parity_no_requests sh s i).
  - exists i0. split; [by apply (later_in _ _ _ i0 A1)|]. destruct (Hd i0 Hi0) as (-> & _). by destruct (towrite (dev sh i0)).
  - intros i -> Hi%(later_in _ _ _ i A1). rewrite (later_parity _ _ _ _ A1). intros Hp. destruct (Hd i Hi) as (-> & -> & -> & _ & _ & ->).
    specialize (Hmiss i Hi). unfold rcw_missing in Hmiss. rewrite (mi_locked _ _ _ _ _ _ Hm i H0 Hi), Hp in Hmiss. cbn [negb andb] in Hmiss. rewrite !andb_true_r in Hmiss.
    destruct (test_bit R5_OVERWRITE (dev sh i)) eqn:Ho.
    + destruct (mi_dev _ _ _ _ _ _ Hm i Hi) as [st [[_ _ _ K4 _ _ _ _ _ _ _] _ _]]. destruct (K4 Ho) as [|Hc]; [by left|right; right]. split; [|done].
      pose proof (covered_wanted sh s i Hm Hc). by destruct (towrite (dev sh i)).
    + cbn in Hmiss. apply negb_false_iff in Hmiss. destruct (Hhave i Hi Hmiss); auto.
  - intros i -> Hi%(later_in _ _ _ i A1). rewrite (later_parity _ _ _ _ A1). destruct (Hd i Hi) as (-> & -> & -> & _ & _ & _). intros Hor.
    specialize (Hmiss i Hi). unfold rmw_missing in Hmiss. rewrite (mi_locked _ _ _ _ _ _ Hm i H0 Hi) in Hmiss. apply Hhave; [done|].
    assert (nonempty (towrite (dev sh i)) || is_parity sh i = true) as Hc by (destruct Hor as [-> | ->]; [done|apply orb_true_r]).
    rewrite Hc in Hmiss. cbn in Hmiss. by apply negb_false_iff in Hmiss.
Qed.

(** * The whole step *)

Lemma missing_ext (rmw : bool) sh sh' i :
  geo sh' = geo sh -> dev sh' i = dev sh i ->
  (if rmw then rmw_missing else rcw_missing) sh' i (dev sh' i) = (if rmw then rmw_missing else rcw_missing) sh i (dev sh i).
Proof. intros Hg ->. destruct rmw; unfold rmw_missing, rcw_missing, is_parity, pd, qd; by rewrite Hg. Qed.

Lemma missing_locked (rmw : bool) sh i d : (if rmw then rmw_missing else rcw_missing) sh i d = true -> test_bit R5_LOCKED d = false.
Proof. destruct rmw; unfold rmw_missing, rcw_missing; destruct (test_bit R5_LOCKED d); rewrite ?andb_false_r; done. Qed.

(** Nothing but reads was started. *)
Record prefetched (sh : stripe) (s : stripe_head_state) (sh' : stripe) (s' : stripe_head_state) : Prop := {
  pf_mid : mid conf w sh' s' V synced;
  pf_later : later preread_flags sh sh';
  pf_state : reconstruct_state sh' = reconstruct_state sh;
  pf_same : same_but_locked s s';
  pf_compute : compute_ready sh s -> compute_ready sh' s';
  pf_devs : cnt s' locked = 0 -> forall i, in_stripe sh i -> dev sh' i = dev sh i;
}.

Lemma prefetched_refl sh s : mid conf w sh s V synced -> prefetched sh s sh s.
Proof. intros Hm. split; try done. apply later_refl. Qed.

Lemma prefetched_trans sh s sh1 s1 sh2 s2 : prefetched sh s sh1 s1 -> prefetched sh1 s1 sh2 s2 -> prefetched sh s sh2 s2.
Proof.
  intros [A1 A2 A3 [S1 S2 S3 S4 S5] A5 A6] [B1 B2 B3 [T1 T2 T3 T4 T5] B5 B6]. split; try done; [by eapply later_trans|by rewrite B3| |by auto|].
  - destruct S1 as (?&?&?), T1 as (?&?&?). split; try congruence; [repeat split; congruence|split; lia|lia].
  - intros H0 i Hi. pose proof (mi_locked0 _ _ _ _ _ _ A1). rewrite B6 by (done || by apply (later_in _ _ _ i A2)). apply A6; [lia|done].
Qed.

Lemma preread_prefetched readable (rmw : bool) sh s :
  mid conf w sh s V synced ->
  exists sh' s' n, preread readable (if rmw then rmw_missing else rcw_missing) sh s = (sh', s', n) /\ prefetched sh s sh' s' /\
    (readable = false -> n = 0 -> forall i, in_stripe sh i -> (if rmw then rmw_missing else rcw_missing) sh i (dev sh i) = false).
Proof.
  intros Hm. destruct (preread_ok readable (if rmw then rmw_missing else rcw_missing)) with (sh := sh) (s := s) as (sh' & s' & n & Heq & A1 & A2 & A3 & A4 & A5 & A6 & A7); [apply missing_locked|done|].
  exists sh', s', n. split; [done|]. split; [by split|]. intros -> -> i Hi. symmetry in A6. apply (count_zero _ _ i) in A6; [|by apply in_seqZ].
  cbn in A6. by rewrite andb_true_r in A6.
Qed.

(** A change of the flags of the stripe. *)
Lemma prefetched_state sh s f :
  mid conf w sh s V synced -> f = STRIPE_HANDLE \/ f = STRIPE_DELAYED -> prefetched sh s (sset f sh) s.
Proof.
  intros Hm Hf. split; try done.
  - apply (mid_state conf w sh (sset f sh) s s V synced); try done. unfold all_synced. by destruct Hf as [-> | ->].
  - split; try done.
    + intros g G1 G2 G3 G4. destruct Hf as [-> | ->]; by destruct g.
    + intros i Hi. exists (flags (dev sh i)). split; [|done]. symmetry. apply with_flags_id.
  - intros Hc. apply (compute_ready_later preread_flags sh (sset f sh) s s); try done; [|by destruct Hf as [-> | ->]].
    split; try done.
    + intros g G1 G2 G3 G4. destruct Hf as [-> | ->]; by destruct g.
    + intros i Hi. exists (flags (dev sh i)). split; [|done]. symmetry. apply with_flags_id.
Qed.

(** A write was started. *)
Record started (sh : stripe) (s : stripe_head_state) (sh' : stripe) (s' : stripe_head_state) : Prop := {
  sd_mid : mid conf w sh' s' V synced;
  sd_plan : exists rmw, write_plan rmw sh' s';
  sd_later : later dirty_flags sh sh';
  sd_compute : compute_ready sh' s';
  sd_cond : cond s' = cond s;
  sd_failed : same_failed s s';
  sd_locked : 0 < cnt s' locked;
  sd_uptodate i : in_stripe sh i -> test_bit R5_UPTODATE (dev sh' i) = test_bit R5_UPTODATE (dev sh i) \/ test_bit R5_Wantdrain (dev sh' i) = true \/ is_parity sh i = true;
  sd_state : stest STRIPE_SYNCING sh' = stest STRIPE_SYNCING sh;
  sd_ops : ops_request s' STRIPE_OP_BIOFILL = ops_request s STRIPE_OP_BIOFILL /\ ops_request s' STRIPE_OP_CHECK = ops_request s STRIPE_OP_CHECK;
}.

Lemma schedule_started (rcw : bool) sh s :
  mid conf w sh s V synced -> quiescent sh -> compute_ready sh s -> cnt s locked = 0 -> ops_request s STRIPE_OP_PREXOR = false ->
  (exists i, in_stripe sh i /\ towrite (dev sh i) <> []) ->
  (forall i, in_stripe sh i -> (if rcw then rcw_missing else rmw_missing) sh i (dev sh i) = false) ->
  exists sh' s', schedule_reconstruction conf rcw sh s = Some (sh', s') /\ started sh s sh' s'.
Proof.
  intros Hm Hq Hc H0 Hpre Hsome Hmiss. destruct (schedule_ok rcw sh s Hm H0 Hsome Hmiss) as (sh' & s' & -> & Hsc). exists sh', s'. split; [done|].
  pose proof Hsc as [A1 A2 A3 A4 A5 A6 A7 A8]. split; try done.
  - by eapply scheduled_mid.
  - exists (negb rcw). eapply scheduled_plan; try done. by destruct rcw.
  - eapply later_weaken; [|done]. intros f Hf. by destruct f.
  - destruct A4 as (R1 & R2 & R3). apply (compute_ready_later sched_flags sh sh' s s'); try done; by rewrite ?A6, ?A5.
  - intros i Hi. destruct (A2 i Hi) as (fl & -> & Hf). unfold test_bit. cbn. rewrite !Hf. cbn. destruct (nonempty _); [right; left; apply orb_true_r|].
    destruct (is_parity sh i); [by auto|left]. by rewrite andb_true_r.
  - by apply A1.
Qed.

Lemma dirtying_ok sh s :
  mid conf w sh s V synced -> compute_ready sh s -> reconstruct_state sh = reconstruct_state_idle -> ops_request s STRIPE_OP_PREXOR = false ->
  (forall i, in_stripe sh i -> test_bit R5_Wantdrain (dev sh i) = false) ->
  (cnt s locked = 0 -> forall i, in_stripe sh i -> written (dev sh i) = []) ->
  (exists i, in_stripe sh i /\ towrite (dev sh i) <> []) ->
  exists sh' s', handle_stripe_dirtying conf w sh s = Some (sh', s') /\ (prefetched sh s sh' s' \/ started sh s sh' s').
Proof.
  intros Hm Hc Hidle Hpre Hdr Hwr Hsome. unfold handle_stripe_dirtying.
  destruct (if _ || _ then (1, 2) else _) as [rcw rmw] eqn:Ecost.
  assert (forall b : bool, (if b then rmw else rcw) = 0 -> forall i, in_stripe sh i -> (if b then rmw_missing else rcw_missing) sh i (dev sh i) = false) as Hcost.
  { intros b Hb. destruct (_ || _) in Ecost; injection Ecost as <- <-; destruct b; try done; by apply cost_zero. }
  clear Ecost. pose proof (prefetched_state sh s STRIPE_HANDLE Hm (or_introl eq_refl)) as P0. set (sh0 := sset STRIPE_HANDLE sh) in *.
  set (c1 := ((rmw <? rcw) || _) && (0 <? rmw)). set (c2 := ((rcw <? rmw) || _) && (0 <? rcw)). clearbody c1 c2.
  assert (exists sh1 s1, (if c1 then (preread true rmw_missing sh0 s).1 else (sh0, s)) = (sh1, s1) /\ prefetched sh0 s sh1 s1) as (sh1 & s1 & -> & P1).
  { destruct c1; [|exists sh0, s; split; [done|apply prefetched_refl, P0]].
    destruct (preread_prefetched true true sh0 s (pf_mid _ _ _ _ P0)) as (sh1 & s1 & n & -> & P & _). by exists sh1, s1. }
  assert (exists sh2 s2 rcw2, (if c2 then preread false rcw_missing sh1 s1 else (sh1, s1, rcw)) = (sh2, s2, rcw2) /\ prefetched sh1 s1 sh2 s2 /\
    (rcw2 = 0 -> rcw = 0 \/ forall i, in_stripe sh1 i -> rcw_missing sh1 i (dev sh1 i) = false)) as (sh2 & s2 & rcw2 & -> & P2 & H2).
  { destruct c2; [|exists sh1, s1, rcw; split; [done|]; split; [apply prefetched_refl, P1|by left]].
    destruct (preread_prefetched false false sh1 s1 (pf_mid _ _ _ _ P1)) as (sh2 & s2 & n & -> & P & Hn). exists sh2, s2, n. split; [done|]. split; [done|]. right. by apply Hn. }
  set (sh3 := if _ && _ && negb _ then sset STRIPE_DELAYED sh2 else sh2).
  assert (prefetched sh2 s2 sh3 s2) as P3 by (unfold sh3; destruct (_ && _ && negb _); [apply prefetched_state; [apply P2|by right]|apply prefetched_refl, P2]).
  assert (prefetched sh s sh1 s1) as P01 by (by eapply prefetched_trans). assert (prefetched sh1 s1 sh3 s2) as P13 by (by eapply prefetched_trans).
  assert (prefetched sh s sh3 s2) as P by (by eapply prefetched_trans). clear P0 P1 P2 P3.
  clearbody sh3. destruct (_ && _) eqn:Hsched; [|exists sh3, s2; by auto].
  apply andb_true_iff in Hsched as [_ [[H0%Z.eqb_eq Hor]%andb_true_iff _]%andb_true_iff].
  pose proof (pf_devs _ _ _ _ P H0) as Hdev. pose proof (pf_later _ _ _ _ P) as Hl.
  assert (cnt s1 locked = 0) as H01 by (pose proof (sb_locked _ _ (pf_same _ _ _ _ P13)); pose proof (mi_locked0 _ _ _ _ _ _ (pf_mid _ _ _ _ P01)); lia).
  assert (forall b : bool, (if b then rmw else rcw) = 0 -> forall i, in_stripe sh3 i -> (if b then rmw_missing else rcw_missing) sh3 i (dev sh3 i) = false) as Hcost'.
  { intros b Hb i Hi. apply (later_in _ _ _ i Hl) in Hi. rewrite (missing_ext b sh sh3 i); [by apply Hcost|apply Hl|by apply Hdev]. }
  destruct (schedule_started (rcw2 =? 0) sh3 s2) as (sh' & s' & -> & Hst).
  - apply P.
  - split; [by rewrite (pf_state _ _ _ _ P)|]. intros i Hi%(later_in _ _ _ i Hl). rewrite Hdev by done. split; [|by apply Hdr].
    apply Hwr; [|done]. pose proof (sb_locked _ _ (pf_same _ _ _ _ P01)). pose proof (mi_locked0 _ _ _ _ _ _ Hm). lia.
  - by apply P.
  - done.
  - by rewrite (sb_ops _ _ (pf_same _ _ _ _ P)).
  - destruct Hsome as (i & Hi & Hw). exists i. rewrite Hdev by done. split; [by apply (later_in _ _ _ i Hl)|done].
  - destruct (Z.eqb_spec rcw2 0) as [Hz|Hz].
    + destruct (H2 Hz) as [Hr|Hr]; [by apply (Hcost' false)|]. intros i Hi. apply (later_in _ _ _ i (pf_later _ _ _ _ P13)) in Hi.
      rewrite (missing_ext false sh1 sh3 i); [by apply Hr|apply P13|by apply (pf_devs _ _ _ _ P13)].
    + apply (Hcost' true). cbn in Hor. by apply Z.eqb_eq.
  - exists sh', s'. split; [done|]. right. destruct Hst as [A1 A2 A3 A4 A5 A6 A7 A8 A9 A10]. pose proof (pf_same _ _ _ _ P) as [S1 S2 S3 S4 S5]. split; try done.
    + eapply later_trans; [|done]. eapply later_weaken; [|done]. intros f Hf. by destruct f.
    + by rewrite A5.
    + destruct A6 as (? & ? & ?), S1 as (? & ? & ?). repeat split; congruence.
    + intros i Hi. assert (in_stripe sh3 i) as Hi3 by (by apply (later_in _ _ _ i Hl)). rewrite <- (Hdev i Hi), <- (later_parity _ _ _ i Hl). by apply A8.
    + by rewrite A9, (la_state _ _ _ Hl).
    + by rewrite <- S3.
Qed.
End Dirty.
