(* ===== verification/Raid5Check.v ===== *)
(** [handle_parity_checks5], [handle_parity_checks6] and the end of a synchronisation in
    md/raid5.c: a check starts only with all blocks there, what is found to be missing is written,
    and the stripe is said to be in sync only when every member has its block or gets it. *)

From S2P Require Import Prelude PageMem Raid5Layout Raid5Stripe Raid5Dev Raid5Ops Raid5Handle Raid5Machine Raid5Data Raid5Copy Raid5OpsCorrect Raid5Write Raid5Inv Raid5Analyse Raid5Decide Raid5Fill Raid5Dirty.

(** The stripe [sh] with other values for the flags [X] of its devices, and the check in another state. *)
Record flagged (X : r5dev_flag -> bool) (sh sh' : stripe) : Prop := {
  fg_geo : geo sh' = geo sh;
  fg_disks : disks sh' = disks sh;
  fg_reconstruct : reconstruct_state sh' = reconstruct_state sh;
  fg_targets : ops_target sh' = ops_target sh /\ ops_target2 sh' = ops_target2 sh;
  fg_state f : f = STRIPE_ACTIVE \/ f = STRIPE_BIOFILL_RUN \/ f = STRIPE_COMPUTE_RUN \/ f = STRIPE_DISCARD -> stest f sh' = stest f sh;
  fg_dev i : in_stripe sh i -> exists fl, dev sh' i = with_flags fl (dev sh i) /\ forall f, X f = false -> fl f = flags (dev sh i) f;
}.

Lemma flagged_refl X sh : flagged X sh sh.
Proof. split; try done. intros i _. exists (flags (dev sh i)). by rewrite with_flags_id. Qed.

Lemma flagged_trans X sh1 sh2 sh3 : flagged X sh1 sh2 -> flagged X sh2 sh3 -> flagged X sh1 sh3.
Proof.
  intros [a1 a2 a3 [a4 a4'] a5 a6] [b1 b2 b3 [b4 b4'] b5 b6]. split; try congruence.
  - split; congruence.
  - intros f Hf. by rewrite b5, a5.
  - intros i Hi. destruct (a6 i Hi) as (fl & Hd & Hf). destruct (b6 i) as (fl' & Hd' & Hf'); [unfold in_stripe in *; lia|].
    exists fl'. split; [by rewrite Hd', Hd|]. intros f Hx. rewrite Hf' by done. rewrite Hd. by apply Hf.
Qed.

Lemma flagged_weaken (X Y : r5dev_flag -> bool) sh sh' : (forall f, X f = true -> Y f = true) -> flagged X sh sh' -> flagged Y sh sh'.
Proof.
  intros HXY [L1 L2 L3 L4 L5 L6]. split; try done. intros i Hi. destruct (L6 i Hi) as (fl & -> & Hf). exists fl. split; [done|].
  intros f Hy. apply Hf. destruct (X f) eqn:Hx; [|done]. apply HXY in Hx. congruence.
Qed.

Lemma flagged_flag X sh sh' i f : flagged X sh sh' -> in_stripe sh i -> X f = false -> test_bit f (dev sh' i) = test_bit f (dev sh i).
Proof. intros H Hi Hx. destruct (fg_dev _ _ _ H i Hi) as (fl & -> & Hf). by apply Hf. Qed.

Lemma flagged_fields X sh sh' i : flagged X sh sh' -> in_stripe sh i ->
  page (dev sh' i) = page (dev sh i) /\ toread (dev sh' i) = toread (dev sh i) /\ towrite (dev sh' i) = towrite (dev sh i) /\
  written (dev sh' i) = written (dev sh i) /\ dev_sector (dev sh' i) = dev_sector (dev sh i).
Proof. intros H Hi. by destruct (fg_dev _ _ _ H i Hi) as (fl & -> & _). Qed.

Lemma flagged_in X sh sh' i : flagged X sh sh' -> in_stripe sh' i <-> in_stripe sh i.
Proof. intros H. unfold in_stripe. by rewrite (fg_disks _ _ _ H). Qed.

Lemma flagged_upd (X : r5dev_flag -> bool) sh i g :
  (forall d, exists fl, g d = with_flags fl d /\ forall f, X f = false -> fl f = flags d f) -> in_stripe sh i -> flagged X sh (upd i g sh).
Proof.
  intros Hg Hi. split; try done; [apply disks_upd|]. intros j Hj. rewrite dev_upd by (apply Hi || apply Hj).
  destruct (Z.eqb_spec i j) as [->|]; [apply Hg|]. exists (flags (dev sh j)). by rewrite with_flags_id.
Qed.

(** A change that keeps the devices. *)
Lemma flagged_same X sh sh' :
  geo sh' = geo sh -> devs sh' = devs sh -> reconstruct_state sh' = reconstruct_state sh -> ops_target sh' = ops_target sh -> ops_target2 sh' = ops_target2 sh ->
  (forall f, f = STRIPE_ACTIVE \/ f = STRIPE_BIOFILL_RUN \/ f = STRIPE_COMPUTE_RUN \/ f = STRIPE_DISCARD -> stest f sh' = stest f sh) -> flagged X sh sh'.
Proof.
  intros H1 H2 H3 H4 H5 H6. split; try done; [unfold disks; by rewrite H2|]. intros i Hi. exists (flags (dev sh i)). rewrite with_flags_id. unfold dev. by rewrite H2.
Qed.

Ltac keep_state := let f := fresh in intros f [-> |[-> |[-> | ->]]]; reflexivity.

(** A loop that does nothing. *)
Lemma loop_down_id {A} (f : Z -> r5dev -> A -> r5dev * A) k ds a :
  (forall i d a, ds !! i = Some d -> f (k + Z.of_nat i) d a = (d, a)) -> loop_down f k ds a = (ds, a).
Proof.
  revert k. induction ds as [|d ds IH]; intros k Hf; [done|]. cbn [loop_down]. rewrite IH.
  - specialize (Hf 0%nat d a eq_refl). rewrite Z.add_0_r in Hf. by rewrite Hf.
  - intros i x a' Hx. specialize (Hf (S i) x a' Hx). by replace (k + 1 + Z.of_nat i) with (k + Z.of_nat (S i)) by lia.
Qed.

Lemma for_devs_id {A} (f : Z -> r5dev -> A -> r5dev * A) sh a :
  (forall i a, in_stripe sh i -> f i (dev sh i) a = (dev sh i, a)) -> for_devs f sh a = (sh, a).
Proof.
  intros Hf. unfold for_devs. rewrite loop_down_id; [by destruct sh|]. intros i d a' Hd. cbn.
  assert (in_stripe sh (Z.of_nat i)) as Hi by (pose proof (lookup_lt_Some _ _ _ Hd); unfold in_stripe, disks; lia).
  specialize (Hf (Z.of_nat i) a' Hi). assert (dev sh (Z.of_nat i) = d) as E by (unfold dev; rewrite Nat2Z.id; by apply list_lookup_total_correct). by rewrite E in Hf.
Qed.

Section Check.
Context (conf : r5conf) (w : world) (V : Z -> block) (synced : bool).

(** * Writing blocks that are not in question *)

Definition write_flags (f : r5dev_flag) : bool := match f with R5_LOCKED | R5_Wantwrite => true | _ => false end.

Lemma wantwrite_status sh i st : mid_dev conf w sh V synced i st -> test_bit R5_Wantwrite (dev sh i) = true -> writing st = true.
Proof. intros [[_ _ _ _ K _ _ _ _ _ _] _ _] H. rewrite H in K. by destruct st as [|[]| | |]. Qed.

Lemma lock_write_flags d : exists fl, lock_write d = with_flags fl d /\ forall f, write_flags f = false -> fl f = flags d f.
Proof. eexists. split; [reflexivity|]. intros f Hf. by destruct f. Qed.

Lemma lock_write_mid sh s i :
  mid conf w sh s V synced -> reconstruct_state sh = reconstruct_state_idle -> in_stripe sh i -> test_bit R5_LOCKED (dev sh i) = false ->
  test_bit R5_UPTODATE (dev sh i) = true \/ working (rdev (disk w i)) = None ->
  mid conf w (upd i lock_write sh) (add locked 1 s) V synced.
Proof.
  intros Hm Hidle Hi Hl Hor. apply (mid_step conf w sh _ s _ V synced synced); try done.
  - apply disks_upd.
  - intros j st Hj Hst. destruct (Z.eqb_spec i j) as [<-|Hne].
    + exists WantW. pose proof (status_locked _ _ _ _ _ _ _ Hst Hl) as ->. pose proof Hst as [[K1 K2 K3 K4 K5 K6 K7 K8 K9 K10 K11] _ _].
      injection K5 as Z1 Z2 Z3 Z4. assert (busy_ops sh = false) as Hb by (unfold busy_ops; by rewrite Hidle).
      apply (mid_dev_flags conf w sh _ V synced i Idle WantW (flags (lock_write (dev sh i)))); try done.
      * by rewrite dev_upd_eq.
      * intros f Hf. by destruct f.
      * unfold test_bit in *. cbn. by rewrite Z2, Z3.
      * change (busy_ops (upd i lock_write sh)) with (busy_ops sh). by rewrite Hb.
      * by left.
    + exists st. apply (mid_dev_state conf w sh); try done. by rewrite dev_upd_ne by (apply Hi || apply Hj || done).
  - intros j Hj. rewrite dev_upd by (apply Hi || apply Hj). by destruct (i =? j).
  - rewrite cnt_add. cbn. pose proof (mi_locked0 _ _ _ _ _ _ Hm). lia.
  - intros j. rewrite cnt_add. cbn. pose proof (mi_locked0 _ _ _ _ _ _ Hm). lia.
Qed.

(** The stripe is in sync: every member has its block, or gets it, or does not work. *)
Definition covered_members (sh : stripe) : Prop :=
  forall i, in_stripe sh i -> test_bit R5_Insync (dev sh i) = true \/ test_bit R5_Wantwrite (dev sh i) = true \/ works (rdev (disk w i)) = false.

Lemma insync_mid sh sh' s :
  mid conf w sh s V synced -> covered_members sh -> geo sh' = geo sh -> devs sh' = devs sh -> reconstruct_state sh' = reconstruct_state sh ->
  mid conf w sh' s V synced.
Proof.
  intros Hm Hc Hg Hd Hr. apply (mid_sync conf w sh sh' s V synced synced); try done. intros i st Hi Hst.
  destruct (Hc i Hi) as [|[Hw|]]; [by auto|right; left|by auto]. by apply (wantwrite_status sh i st).
Qed.

(** * Starting a check *)

Definition check_blocks (sh : stripe) : Prop :=
  (forall i, in_stripe sh i -> i <> pd sh -> test_bit R5_UPTODATE (dev sh i) = true) /\
  (test_bit R5_UPTODATE (dev sh (pd sh)) = true \/ p_unneeded conf (with_sh sh w)).

Definition spoil_flags (f : r5dev_flag) : bool := match f with R5_UPTODATE => true | _ => false end.

(** P is going to be spoilt by the check. *)
Lemma spoil_p sh s sh' s' :
  mid conf w sh s V synced -> (forall i, in_stripe sh i -> test_bit R5_UPTODATE (dev sh i) = true) -> test_bit R5_Insync (dev sh (pd sh)) = true -> cnt s locked = 0 ->
  geo sh' = geo sh -> reconstruct_state sh' = reconstruct_state sh -> all_synced synced sh' = all_synced synced sh ->
  devs sh' = devs (upd (pd sh) (clear_bit R5_UPTODATE) sh) -> same_failed s s' -> cnt s' locked = cnt s locked ->
  mid conf w sh' s' V synced /\ check_blocks sh' /\ (forall i, in_stripe sh' i -> page (dev sh' i) = V i).
Proof.
  intros Hm Hall Hin H0 Hg Hr Hs Hd Hsf Hcl. destruct (parity_member _ _ _ _ _ _ Hm) as (Hp & Hpp & _).
  assert (disks sh' = disks sh) as Hn by (unfold disks; rewrite Hd; apply disks_upd). assert (pd sh' = pd sh) as Epd by (unfold pd; by rewrite Hg).
  assert (forall i, in_stripe sh i -> dev sh' i = if pd sh =? i then clear_bit R5_UPTODATE (dev sh i) else dev sh i) as Hdev.
  { intros i Hi. unfold dev at 1. rewrite Hd. fold (dev (upd (pd sh) (clear_bit R5_UPTODATE) sh) i). by rewrite dev_upd by (apply Hi || apply Hp). }
  assert (forall i f, in_stripe sh i -> f <> R5_UPTODATE -> test_bit f (dev sh' i) = test_bit f (dev sh i)) as Hfl.
  { intros i f Hi Hf. rewrite Hdev by done. destruct (pd sh =? i); [|done]. by destruct f. }
  assert (forall i, in_stripe sh' i <-> in_stripe sh i) as Hin' by (intros i; unfold in_stripe; by rewrite Hn). split; [|split; [split|]].
  - apply (mid_step conf w sh sh' s s' V synced synced); try done.
    + intros i st Hi Hst. destruct (Z.eqb_spec (pd sh) i) as [<-|Hne].
      * exists Idle. pose proof (status_locked _ _ _ _ _ _ _ Hst (mi_locked _ _ _ _ _ _ Hm _ H0 Hp)) as ->. pose proof Hst as [[K1 K2 K3 K4 K5 K6 K7 K8 K9 K10 K11] _ _].
        apply (mid_dev_flags conf w sh sh' V synced (pd sh) Idle Idle (flags (clear_bit R5_UPTODATE (dev sh (pd sh))))); try done.
        -- by rewrite Hdev, Z.eqb_refl by done.
        -- intros f Hf. by destruct f.
        -- unfold busy_ops in *. rewrite Hr. exact K7.
        -- unfold busy_ops in *. rewrite Hr. exact K8.
        -- by left.
      * exists st. apply (mid_dev_state conf w sh); try done. by rewrite Hdev, (proj2 (Z.eqb_neq _ _) Hne) by done.
    + intros i Hi. by apply Hfl.
    + lia.
    + intros i _ Hi. rewrite Hfl by done. by apply (mi_locked _ _ _ _ _ _ Hm).
  - intros i Hi Hne. rewrite Epd in Hne. apply Hin' in Hi. rewrite Hdev, (proj2 (Z.eqb_neq _ _)) by (done || congruence). by apply Hall.
  - right. unfold p_unneeded. cbn. rewrite Epd. change (disk (with_sh sh' w)) with (disk w). right. destruct (mi_dev _ _ _ _ _ _ Hm _ Hp) as [st [_ [E1 _] Lk]].
    destruct (lk_insync _ _ _ _ Lk Hin) as [Hb Hre]. unfold has_block in Hb. destruct (working _) as [m|]; [|done]. exists m. rewrite !Hfl, (mi_locked _ _ _ _ _ _ Hm _ H0) by done. unfold sector in *. by rewrite Hg.
  - intros i Hi%Hin'. destruct (mi_dev _ _ _ _ _ _ Hm i Hi) as [st [[_ K2 _ _ _ _ _ _ _ _ _] _ _]]. rewrite <- (K2 (Hall i Hi)). rewrite Hdev by done. by destruct (pd sh =? i).
Qed.

(** * The steps of a check *)

(** What a check needs when it starts, and what holds between its steps. *)
Definition check_ready (sh : stripe) (s : stripe_head_state) : Prop :=
  (check_state sh = check_state_idle /\
    (cond s syncing = true -> cnt s locked = 0 -> stest STRIPE_COMPUTE_RUN sh = false ->
      cnt s uptodate = Z.of_nat (disks sh) /\ forall i, in_stripe sh i -> test_bit R5_UPTODATE (dev sh i) = true)) \/
  ((check_state sh = check_state_check_result \/ (check_state sh = check_state_compute_result /\ level conf = 6 /\ cnt s locked = 0)) /\
    zero_sum_result sh = (false, false) /\ check_blocks sh).

(** The state of the check afterwards: over, to be continued, or to be run on known blocks. *)
Definition check_done (sh : stripe) (s : stripe_head_state) : Prop :=
  (check_state sh = check_state_idle /\ ops_request s STRIPE_OP_CHECK = false) \/
  (check_state sh = check_state_compute_result /\ level conf = 6 /\ ops_request s STRIPE_OP_CHECK = false /\ zero_sum_result sh = (false, false) /\ check_blocks sh) \/
  (ops_request s STRIPE_OP_CHECK = true /\
    ((check_state sh = check_state_run /\ stest STRIPE_COMPUTE_RUN sh = false /\ test_bit R5_UPTODATE (dev sh (pd sh)) = false) \/
     (level conf = 6 /\ (check_state sh = check_state_run_q \/ check_state sh = check_state_run_pq))) /\
    check_blocks sh /\ forall i, in_stripe sh i -> page (dev sh i) = V i).

Definition check_flags (f : r5dev_flag) : bool := write_flags f || spoil_flags f.

Record checked (sh : stripe) (s : stripe_head_state) (sh' : stripe) (s' : stripe_head_state) : Prop := {
  ck_mid : mid conf w sh' s' V synced;
  ck_flagged : flagged check_flags sh sh';
  ck_done : check_done sh' s';
  ck_uptodate i : in_stripe sh i -> test_bit R5_UPTODATE (dev sh' i) = test_bit R5_UPTODATE (dev sh i) \/
    (i = pd sh /\ cnt s locked = 0 /\ ops_request s' STRIPE_OP_CHECK = true);
  ck_cond : cond s' = cond s;
  ck_ops o : o <> STRIPE_OP_CHECK -> ops_request s' o = ops_request s o;
  ck_failed : same_failed s s';
  ck_syncing : stest STRIPE_SYNCING sh' = stest STRIPE_SYNCING sh;
}.

Lemma check_blocks_ext sh sh' : geo sh' = geo sh -> devs sh' = devs sh -> check_blocks sh -> check_blocks sh'.
Proof.
  intros Hg Hd. unfold check_blocks, p_unneeded, in_stripe, disks, dev, pd, sector, w_sh, with_sh, disk, w_disks. by rewrite Hg, Hd.
Qed.

(** The devices stay as they are. *)
Lemma checked_same sh s sh' :
  mid conf w sh s V synced -> ops_request s STRIPE_OP_CHECK = false -> geo sh' = geo sh -> devs sh' = devs sh -> reconstruct_state sh' = reconstruct_state sh ->
  ops_target sh' = ops_target sh -> ops_target2 sh' = ops_target2 sh ->
  (forall f, f <> STRIPE_HANDLE -> f <> STRIPE_INSYNC -> stest f sh' = stest f sh) ->
  stest STRIPE_INSYNC sh' = stest STRIPE_INSYNC sh \/ covered_members sh ->
  check_state sh' = check_state_idle \/
    (check_state sh' = check_state_compute_result /\ level conf = 6 /\ zero_sum_result sh' = (false, false) /\ check_blocks sh) ->
  checked sh s sh' s.
Proof.
  intros Hm Ho Hg Hd Hr Ht Ht2 Hst Hins Hcs. assert (forall i, dev sh' i = dev sh i) as Hdev by (intros i; unfold dev; by rewrite Hd). split; try done.
  - destruct Hins as [Hins|Hc]; [|by apply (insync_mid sh)]. apply (mid_state conf w sh sh' s s V synced); try done. unfold all_synced. by rewrite Hins, Hst.
  - apply flagged_same; try done. intros f Hf. apply Hst; by destruct Hf as [-> |[-> |[-> | ->]]].
  - unfold check_done. destruct Hcs as [|(C1 & C2 & C3 & C4)]; [by auto|]. right. left. repeat split; try done; by apply (check_blocks_ext sh).
  - intros i Hi. rewrite Hdev. by left.
  - by apply Hst.
Qed.

(** Blocks were written, and the stripe is in sync then. *)
Lemma checked_written sh s sh1 s1 :
  mid conf w sh1 s1 V synced -> covered_members sh1 -> flagged write_flags sh sh1 -> check_state sh1 = check_state_idle -> stest STRIPE_SYNCING sh1 = stest STRIPE_SYNCING sh ->
  ops_request s1 = ops_request s -> cond s1 = cond s -> same_failed s s1 -> ops_request s STRIPE_OP_CHECK = false ->
  checked sh s (sset STRIPE_INSYNC (sclear STRIPE_DEGRADED sh1)) s1.
Proof.
  intros Hm Hc Hf Hcs Hsy Ho Hcd Hsf Hop. split; try done.
  - by apply (insync_mid sh1).
  - eapply flagged_trans; [eapply flagged_weaken; [|exact Hf]; intros f Hx; by destruct f|]. apply flagged_same; try done. keep_state.
  - left. by rewrite Ho.
  - intros i Hi. left. by apply (flagged_flag write_flags sh sh1).
  - intros o _. by rewrite Ho.
Qed.

Lemma later_check sh c s : mid conf w sh s V synced -> mid conf w (with_check c (sset STRIPE_HANDLE sh)) s V synced.
Proof. intros Hm. by apply (mid_state conf w sh _ s s V synced). Qed.

Lemma checks5_ok sh s :
  mid conf w sh s V synced -> reconstruct_state sh = reconstruct_state_idle -> ops_request s STRIPE_OP_CHECK = false -> level conf <> 6 ->
  check_ready sh s -> check_wanted sh s = true -> exists sh' s', handle_parity_checks5 w sh s = Some (sh', s') /\ checked sh s sh' s'.
Proof.
  intros Hm Hidle Hop Hl Hready Hw. unfold handle_parity_checks5. change (check_state (sset _ sh)) with (check_state sh).
  destruct (parity_member _ _ _ _ _ _ Hm) as (Hp & Hpp & _).
  destruct Hready as [[Hci Hall]|([Hcr|(_ & ? & _)] & Hz & Hcb)]; [| |done].
  - rewrite Hci. unfold check_wanted in Hw. rewrite Hci in Hw. cbn in Hw. apply andb_true_iff in Hw as [[[Hsy H0%Z.eqb_eq]%andb_true_iff Hcr%negb_true_iff]%andb_true_iff Hni%negb_true_iff].
    destruct (Hall Hsy H0 Hcr) as [Hu Hup]. destruct (Z.eqb_spec (cnt s failed) 0) as [Hf|Hf].
    + change (disks (sset _ sh)) with (disks sh). rewrite Hu, Z.eqb_refl. cbn [negb bug_on]. eexists _, _. split; [reflexivity|]. set (sh' := upd _ _ _). set (s' := add _ _ _).
      destruct (spoil_p sh s sh' s') as (M & B & P); try done; [by apply (none_failed conf w sh s V synced)|].
      split; try done.
      * eapply flagged_trans; [apply (flagged_same _ sh (with_check check_state_run (sset STRIPE_HANDLE sh))); try done; keep_state|]. apply flagged_upd; [|done].
        intros d. eexists. split; [reflexivity|]. intros f Hx. by destruct f.
      * right. right. split; [done|]. split; [left|by auto]. split; [done|]. split; [done|]. unfold sh'. change (pd (upd _ _ ?x)) with (pd x). by rewrite dev_upd_eq by apply Hp.
      * intros i Hi. unfold sh'. rewrite dev_upd by (apply Hi || apply Hp). destruct (Z.eqb_spec (pd (sset STRIPE_HANDLE sh)) i) as [<-|]; [right|by left]. done.
      * intros o Hoo. unfold s'. cbn. by destruct o.
    + unfold write_checked5. change (stest STRIPE_INSYNC (with_check _ (sset STRIPE_HANDLE sh))) with (stest STRIPE_INSYNC sh). rewrite Hni.
      assert (1 <= cnt s failed) as Hf1 by (pose proof (mi_le _ _ _ _ _ _ Hm); lia).
      assert (cnt s failed <= 1) as Hle.
      { pose proof (mi_set _ _ _ _ _ _ Hm) as [Hg _ _ _]. cbn in Hg. pose proof (go_degraded _ _ Hg) as Hd. rewrite (proj2 (Z.eqb_neq _ _) Hl) in Hd. pose proof (mi_le _ _ _ _ _ _ Hm). lia. }
      pose proof (mi_num0 _ _ _ _ _ _ Hm Hf1) as Hnum. set (i0 := failed_num0 s) in *.
      change (dev (with_check _ (sset STRIPE_HANDLE sh)) i0) with (dev sh i0). change (disks (with_check _ (sset STRIPE_HANDLE sh))) with (disks sh).
      rewrite Hup, Hu, Z.eqb_refl by done. cbn [negb bug_on]. eexists _, _. split; [reflexivity|].
      set (sh0 := with_check check_state_idle (sset STRIPE_HANDLE sh)). apply checked_written; try done.
      * apply lock_write_mid; try done; [by apply later_check|by apply (mi_locked _ _ _ _ _ _ Hm)|left; by apply Hup].
      * intros i Hi. unfold in_stripe in Hi. rewrite disks_upd in Hi. rewrite dev_upd by (apply Hi || apply Hnum). destruct (Z.eqb_spec i0 i) as [<-|Hne]; [by auto|left].
        change (dev sh0 i) with (dev sh i). apply negb_false_iff. rewrite <- (mi_failed _ _ _ _ _ _ Hm i Hi). unfold has_failed_num. fold i0.
        rewrite (proj2 (Z.eqb_neq _ _) Hne), andb_false_r. rewrite (proj2 (Z.leb_gt 2 _)) by lia. done.
      * eapply flagged_trans; [apply (flagged_same _ sh sh0); try done; keep_state|]. apply flagged_upd; [apply lock_write_flags|done].
  - rewrite Hcr. change (zero_sum_result (with_check _ (sset _ sh))) with (zero_sum_result sh). rewrite Hz. cbn [fst negb]. destruct (Z.eqb_spec (cnt s failed) 0) as [Hf|Hf].
    + cbn [negb]. eexists _, _. split; [reflexivity|]. apply checked_same; try done; [intros f F1 F2; by destruct f| |by left].
      right. intros i Hi. left. by apply (none_failed conf w sh s V synced).
    + cbn [negb]. eexists _, _. split; [reflexivity|]. apply checked_same; try done; [intros f F1 F2; by destruct f|by left|by left].
Qed.

(** ** Two parity blocks *)

(** A failed device has its block, or it is P without a member. *)
Lemma failed_block sh s i :
  mid conf w sh s V synced -> check_blocks sh -> in_stripe sh i -> test_bit R5_Insync (dev sh i) = false ->
  test_bit R5_UPTODATE (dev sh i) = true \/ working (rdev (disk w i)) = None.
Proof.
  intros Hm [Hb Hp] Hi Hf. destruct (Z.eq_dec i (pd sh)) as [->|Hne]; [|left; by apply Hb]. destruct Hp as [|[Hn|(m & Hw & Hin & Hr & He & _)]]; [by left|by right|].
  change (w_sh (with_sh sh w)) with sh in *. change (disk (with_sh sh w)) with (disk w) in *. destruct (mi_dev _ _ _ _ _ _ Hm _ Hi) as [st [_ _ [_ L2 _ _ _]]].
  destruct (L2 Hf) as [H|[H|[H|H]]]; try congruence.
  - unfold has_block in H. rewrite Hw in H. congruence.
  - unfold works in H. by rewrite Hw in H.
Qed.

Definition undo_write (d : r5dev) : r5dev := clear_bit R5_Wantwrite (clear_bit R5_LOCKED d).

Lemma undo_flags sh i st f : mid_dev conf w sh V synced i st -> test_bit R5_LOCKED (dev sh i) = false -> flags (undo_write (lock_write (dev sh i))) f = flags (dev sh i) f.
Proof.
  intros Hst Hl. pose proof (status_locked _ _ _ _ _ _ _ Hst Hl) as ->. destruct Hst as [[_ _ _ _ K _ _ _ _ _ _] _ _]. injection K as Z1 Z2 Z3 Z4.
  unfold test_bit in *. destruct f; cbn; congruence.
Qed.

Lemma undo_mid sh s i :
  mid conf w sh s V synced -> in_stripe sh i -> test_bit R5_LOCKED (dev sh i) = false ->
  mid conf w (upd i undo_write (upd i lock_write sh)) (add locked (-1) (add locked 1 s)) V synced.
Proof.
  intros Hm Hi Hl. destruct (mi_dev _ _ _ _ _ _ Hm i Hi) as [st0 Hst0]. pose proof (fun f => undo_flags sh i st0 f Hst0 Hl) as Hfl.
  rewrite upd_upd. set (sh' := upd i _ sh). assert (forall j, in_stripe sh j -> dev sh' j = if i =? j then undo_write (lock_write (dev sh j)) else dev sh j) as Hdev.
  { intros j Hj. unfold sh'. by rewrite dev_upd by (apply Hi || apply Hj). }
  assert (forall j f, in_stripe sh j -> test_bit f (dev sh' j) = test_bit f (dev sh j)) as Hsame.
  { intros j f Hj. rewrite Hdev by done. destruct (Z.eqb_spec i j) as [<-|]; [apply Hfl|done]. }
  apply (mid_step conf w sh sh' s _ V synced synced); try done.
  - apply disks_upd.
  - intros j st Hj Hst. exists st. destruct (Z.eqb_spec i j) as [<-|Hne]; [|apply (mid_dev_state conf w sh); try done; by rewrite Hdev, (proj2 (Z.eqb_neq _ _) Hne)].
    pose proof Hst as [[K1 K2 K3 K4 K5 K6 K7 K8 K9 K10 K11] _ _].
    apply (mid_dev_flags conf w sh sh' V synced i st st (flags (undo_write (lock_write (dev sh i))))); try done; rewrite ?Hfl; try done.
    + rewrite Hdev by done. by rewrite Z.eqb_refl.
    + intros H. by left.
  - intros j Hj. by apply Hsame.
  - rewrite !cnt_add. cbn. pose proof (mi_locked0 _ _ _ _ _ _ Hm). lia.
  - intros j H0 Hj. rewrite Hsame by done. apply (mi_locked _ _ _ _ _ _ Hm); [|done]. rewrite !cnt_add in H0. cbn in H0. lia.
Qed.

(** The last of the blocks that are written. *)
Lemma write_last sh s i :
  mid conf w sh s V synced -> reconstruct_state sh = reconstruct_state_idle -> in_stripe sh i -> test_bit R5_LOCKED (dev sh i) = false ->
  test_bit R5_UPTODATE (dev sh i) = true \/ working (rdev (disk w i)) = None ->
  let x := if test_bit R5_UPTODATE (dev (upd i lock_write sh) i) then (upd i lock_write sh, add locked 1 s)
           else (upd i undo_write (upd i lock_write sh), add locked (-1) (add locked 1 s)) in
  mid conf w x.1 x.2 V synced /\ flagged write_flags sh x.1 /\ with_devs [] x.1 = with_devs [] sh /\
  (test_bit R5_Wantwrite (dev x.1 i) = true \/ works (rdev (disk w i)) = false) /\ (forall j, in_stripe sh j -> j <> i -> dev x.1 j = dev sh j) /\
  cond x.2 = cond s /\ ops_request x.2 = ops_request s /\ same_failed s x.2.
Proof.
  intros Hm Hr Hi Hl Hor. rewrite dev_upd_eq by done. change (test_bit R5_UPTODATE (lock_write ?d)) with (test_bit R5_UPTODATE d).
  destruct (test_bit R5_UPTODATE (dev sh i)) eqn:Hu; cbn zeta; cbn [fst snd].
  - split; [by apply lock_write_mid; auto|]. split; [apply flagged_upd; [apply lock_write_flags|done]|]. split; [done|]. split; [left; by rewrite dev_upd_eq|].
    split; [|repeat split; done || (rewrite !cnt_add; cbn; lia)]. intros j Hj Hne. by rewrite dev_upd_ne by (apply Hi || apply Hj || done).
  - split; [by apply undo_mid|]. rewrite upd_upd. split; [apply flagged_upd; [|done]|].
    { intros d. eexists. split; [reflexivity|]. intros f Hf. by destruct f. }
    split; [done|]. split; [right|]. { destruct Hor as [|Hn]; [done|]. unfold works. by rewrite Hn. }
    split; [|repeat split; done || (rewrite !cnt_add; cbn; lia)]. intros j Hj Hne. by rewrite dev_upd_ne by (apply Hi || apply Hj || done).
Qed.

(** The devices that are failed. *)
Lemma failed_covered sh s i :
  mid conf w sh s V synced -> in_stripe sh i ->
  test_bit R5_Insync (dev sh i) = true \/ (1 <= cnt s failed /\ i = failed_num0 s) \/ (2 <= cnt s failed /\ i = failed_num1 s).
Proof.
  intros Hm Hi. pose proof (mi_failed _ _ _ _ _ _ Hm i Hi) as H. unfold has_failed_num in H. destruct (test_bit R5_Insync (dev sh i)); [by left|right].
  cbn in H. apply orb_true_iff in H as [[? ?]%andb_true_iff|[? ?]%andb_true_iff]; [left|right]; split; (by apply Z.leb_le) || (symmetry; by apply Z.eqb_eq).
Qed.

Lemma failed_insync sh s :
  mid conf w sh s V synced -> (1 <= cnt s failed -> in_stripe sh (failed_num0 s) /\ test_bit R5_Insync (dev sh (failed_num0 s)) = false) /\
  (2 <= cnt s failed -> in_stripe sh (failed_num1 s) /\ test_bit R5_Insync (dev sh (failed_num1 s)) = false /\ failed_num0 s <> failed_num1 s).
Proof.
  intros Hm. split; intros Hf.
  - pose proof (mi_num0 _ _ _ _ _ _ Hm Hf) as Hi. split; [done|]. pose proof (mi_failed _ _ _ _ _ _ Hm _ Hi) as H. unfold has_failed_num in H.
    rewrite Z.eqb_refl, (proj2 (Z.leb_le _ _) Hf) in H. cbn in H. by destruct (test_bit R5_Insync _).
  - destruct (mi_num1 _ _ _ _ _ _ Hm Hf) as [Hi Hne]. split; [done|]. split; [|done]. pose proof (mi_failed _ _ _ _ _ _ Hm _ Hi) as H. unfold has_failed_num in H.
    rewrite Z.eqb_refl, (proj2 (Z.leb_le _ _) Hf), orb_true_r in H. cbn in H. by destruct (test_bit R5_Insync _).
Qed.

Lemma write_checked6_ok sh s :
  mid conf w sh s V synced -> reconstruct_state sh = reconstruct_state_idle -> ops_request s STRIPE_OP_CHECK = false -> cnt s locked = 0 ->
  zero_sum_result sh = (false, false) -> check_blocks sh -> cnt s failed <= 2 ->
  checked sh s (write_checked6 sh s).1 (write_checked6 sh s).2.
Proof.
  intros Hm Hidle Hop H0 Hz Hcb Hle. unfold write_checked6. set (sh1 := with_check check_state_idle sh). change (stest STRIPE_INSYNC sh1) with (stest STRIPE_INSYNC sh).
  assert (mid conf w sh1 s V synced) as Hm1 by (by apply (mid_state conf w sh _ s s V synced)).
  assert (flagged write_flags sh sh1) as Hf1 by (apply flagged_same; try done; keep_state).
  destruct (stest STRIPE_INSYNC sh) eqn:Hins; [apply checked_same; try done; by left|].
  change (zero_sum_result sh1) with (zero_sum_result sh). rewrite Hz. cbn [fst snd write_if].
  destruct (failed_insync sh1 s Hm1) as [N0 N1]. pose proof (mi_le _ _ _ _ _ _ Hm) as Hge.
  assert (forall i, in_stripe sh i -> test_bit R5_LOCKED (dev sh1 i) = false) as Hnl by (intros i Hi; by apply (mi_locked _ _ _ _ _ _ Hm)).
  assert (check_blocks sh1) as Hcb1 by (by apply (check_blocks_ext sh)).
  assert (forall i, in_stripe sh i -> test_bit R5_Insync (dev sh i) = false -> test_bit R5_UPTODATE (dev sh1 i) = true \/ working (rdev (disk w i)) = None) as Hblk
    by (intros i Hi Hfi; by apply (failed_block sh1 s)).
  destruct (Z.leb_spec 1 (cnt s failed)) as [Hone|Hone].
  2: { rewrite (proj2 (Z.eqb_neq _ 2)) by lia. cbn. apply checked_written; try done. intros i Hi. left. apply (none_failed conf w sh s V synced); [done|lia|done]. }
  destruct (N0 Hone) as [Hi0 Hf0]. set (i0 := failed_num0 s) in *. destruct (Z.eqb_spec (cnt s failed) 2) as [Htwo|Htwo]; cbn [write_if].
  - destruct N1 as (Hi1 & Hfi1 & Hne); [lia|]. set (i1 := failed_num1 s) in *. set (sh2 := upd i1 lock_write sh1).
    assert (mid conf w sh2 (add locked 1 s) V synced) as Hm2 by (apply lock_write_mid; try done; [by apply Hnl|by apply Hblk]).
    assert (dev sh2 i0 = dev sh1 i0) as Hd0 by (unfold sh2; rewrite dev_upd_ne; [done|apply Hi1|apply Hi0|congruence]).
    assert (in_stripe sh2 i0) as Hi0' by (unfold in_stripe, sh2; by rewrite disks_upd).
    destruct (write_last sh2 (add locked 1 s) i0) as (M & F & R & C & D & Cd & O & SF); try done; [rewrite Hd0; by apply Hnl|rewrite Hd0; by apply Hblk|].
    change (fun d => clear_bit R5_Wantwrite (clear_bit R5_LOCKED d)) with undo_write. match type of M with mid _ _ (fst ?y) _ _ _ => set (x := y) in * end. destruct x as [sh3 s3]. cbn [fst snd] in *. injection R as R1 R2 R3 R4 R5 R6 R7 R8.
    apply checked_written; try done.
    + intros i Hi. assert (in_stripe sh i) as Hi' by (unfold in_stripe in *; rewrite (fg_disks _ _ _ F) in Hi; unfold sh2 in Hi; by rewrite disks_upd in Hi).
      destruct (Z.eq_dec i i0) as [->|Hn0]; [by destruct C; auto|]. rewrite D by (unfold in_stripe, sh2; by rewrite disks_upd || done).
      unfold sh2. rewrite dev_upd by (apply Hi1 || apply Hi'). destruct (Z.eqb_spec i1 i) as [<-|Hn1]; [by auto|left].
      destruct (failed_covered sh1 s i Hm1 Hi') as [|[[_ ->]|[_ ->]]]; done.
    + eapply flagged_trans; [exact Hf1|]. eapply flagged_trans; [|exact F]. apply flagged_upd; [apply lock_write_flags|done].
    + unfold stest. by rewrite R2.
  - destruct (write_last sh1 s i0) as (M & F & R & C & D & Cd & O & SF); try done; [by apply Hnl|by apply Hblk|].
    change (fun d => clear_bit R5_Wantwrite (clear_bit R5_LOCKED d)) with undo_write. match type of M with mid _ _ (fst ?y) _ _ _ => set (x := y) in * end. destruct x as [sh3 s3]. cbn [fst snd] in *. injection R as R1 R2 R3 R4 R5 R6 R7 R8.
    apply checked_written; try done.
    + intros i Hi. assert (in_stripe sh i) as Hi' by (unfold in_stripe in *; by rewrite (fg_disks _ _ _ F) in Hi).
      destruct (Z.eq_dec i i0) as [->|Hn0]; [by destruct C; auto|]. rewrite D by done.
      destruct (failed_covered sh1 s i Hm1 Hi') as [|[[_ ->]|[? ->]]]; [by left|done|lia].
    + by eapply flagged_trans.
    + unfold stest. by rewrite R2.
Qed.

Lemma checked_base sh sh0 s sh' s' :
  checked sh0 s sh' s' -> geo sh0 = geo sh -> devs sh0 = devs sh -> reconstruct_state sh0 = reconstruct_state sh -> ops_target sh0 = ops_target sh -> ops_target2 sh0 = ops_target2 sh ->
  (forall f, f <> STRIPE_HANDLE -> stest f sh0 = stest f sh) -> checked sh s sh' s'.
Proof.
  intros [A1 A2 A3 A4 A5 A6 A7 A8] Hg Hd Hr Ht Ht2 Hst. assert (forall i, dev sh0 i = dev sh i) as Hdev by (intros i; unfold dev; by rewrite Hd). split; try done.
  - eapply flagged_trans; [|exact A2]. apply flagged_same; try done. intros f Hf. apply Hst. by destruct Hf as [-> |[-> |[-> | ->]]].
  - intros i Hi. rewrite <- Hdev. assert (pd sh0 = pd sh) as <- by (unfold pd; by rewrite Hg). apply A4. unfold in_stripe, disks in *. by rewrite Hd.
  - by rewrite A8, Hst.
Qed.

(** The same from a stripe in which the check was set up. *)
Lemma write_out6 sh sh0 s :
  mid conf w sh s V synced -> reconstruct_state sh = reconstruct_state_idle -> ops_request s STRIPE_OP_CHECK = false -> cnt s locked = 0 ->
  check_blocks sh -> cnt s failed <= 2 -> zero_sum_result sh0 = (false, false) ->
  geo sh0 = geo sh -> devs sh0 = devs sh -> reconstruct_state sh0 = reconstruct_state sh -> ops_target sh0 = ops_target sh -> ops_target2 sh0 = ops_target2 sh ->
  (forall f, f <> STRIPE_HANDLE -> stest f sh0 = stest f sh) ->
  exists sh' s', Some (write_checked6 sh0 s) = Some (sh', s') /\ checked sh s sh' s'.
Proof.
  intros Hm Hidle Hop H0 Hcb Hle Hz Hg Hd Hr Ht Ht2 Hst. destruct (write_checked6 sh0 s) as [sh' s'] eqn:Heq. exists sh', s'. split; [done|].
  apply (checked_base sh sh0); try done. pose proof (write_checked6_ok sh0 s) as Hw6. rewrite Heq in Hw6. apply Hw6; try done.
  - apply (mid_state conf w sh _ s s V synced); try done. unfold all_synced. by rewrite !Hst.
  - by rewrite Hr.
  - by apply (check_blocks_ext sh).
Qed.

Lemma checks6_ok sh s :
  mid conf w sh s V synced -> reconstruct_state sh = reconstruct_state_idle -> ops_request s STRIPE_OP_CHECK = false -> level conf = 6 ->
  cond s q_failed = negb (test_bit R5_Insync (dev sh (qd sh))) ->
  check_ready sh s -> check_wanted sh s = true -> exists sh' s', handle_parity_checks6 w sh s = Some (sh', s') /\ checked sh s sh' s'.
Proof.
  intros Hm Hidle Hop Hl Hqf Hready Hw. unfold handle_parity_checks6. change (check_state (sset _ sh)) with (check_state sh).
  destruct (parity_member _ _ _ _ _ _ Hm) as (Hp & Hpp & Hq). rewrite Hl in Hq. destruct Hq as (Hq & Hqp & Hqne).
  assert (cnt s failed <= 2) as Hle. { pose proof (mi_set _ _ _ _ _ _ Hm) as [Hg _ _ _]. cbn in Hg. pose proof (go_degraded _ _ Hg) as Hd. rewrite Hl in Hd. cbn in Hd. pose proof (mi_le _ _ _ _ _ _ Hm). lia. }
  rewrite (proj2 (Z.ltb_ge 2 _)) by lia. cbn [bug_on]. pose proof (mi_le _ _ _ _ _ _ Hm) as Hge.
  destruct Hready as [[Hci Hall]|([Hcr|(Hcr & _ & H0)] & Hz & Hcb)].
  - rewrite Hci. unfold check_wanted in Hw. rewrite Hci in Hw. cbn in Hw. apply andb_true_iff in Hw as [[[Hsy H0%Z.eqb_eq]%andb_true_iff Hcr%negb_true_iff]%andb_true_iff Hni%negb_true_iff].
    destruct (Hall Hsy H0 Hcr) as [Hu Hup].
    assert (check_blocks sh) as Hcb by (split; [intros i Hi _; by apply Hup|left; by apply Hup]).
    assert (forall i, in_stripe sh i -> page (dev sh i) = V i) as Hpages.
    { intros i Hi. destruct (mi_dev _ _ _ _ _ _ Hm i Hi) as [st [[_ K2 _ _ _ _ _ _ _ _ _] _ _]]. by apply K2, Hup. }
    assert (forall c, c = check_state_run_q \/ c = check_state_run_pq ->
      checked sh s (with_zero_sum (false, false) (with_check c (sset STRIPE_HANDLE sh))) (request STRIPE_OP_CHECK s)) as Hrun.
    { intros c Hc. split; try done.
      - by apply (mid_state conf w sh _ s _ V synced).
      - apply flagged_same; try done. keep_state.
      - right. right. split; [done|]. split; [by right|]. split; [by apply (check_blocks_ext sh)|done].
      - intros i Hi. by left.
      - intros o Ho. by destruct o. }
    destruct (Z.eqb_spec (cnt s failed) (if cond s q_failed then 1 else 0)) as [Hf|Hf].
    + destruct (cond s q_failed) eqn:Hqf'.
      * cbn [negb andb check_states_beq]. eexists _, _. split; [reflexivity|]. set (sh' := upd _ _ _). set (s' := request _ _).
        assert (test_bit R5_Insync (dev sh (pd sh)) = true) as Hpi.
        { destruct (test_bit R5_Insync (dev sh (pd sh))) eqn:E; [done|]. destruct Hqne. symmetry in Hqf. apply negb_true_iff in Hqf. apply (one_failed conf w sh s V synced); done || lia. }
        destruct (spoil_p sh s sh' s') as (M & B & P); try done. split; try done.
        -- eapply flagged_trans; [apply (flagged_same _ sh (with_zero_sum (false, false) (with_check check_state_run (sset STRIPE_HANDLE sh)))); try done; keep_state|]. apply flagged_upd; [|done].
           intros d. eexists. split; [reflexivity|]. intros f Hx. by destruct f.
        -- right. right. split; [done|]. split; [left|by auto]. split; [done|]. split; [done|]. unfold sh'. change (pd (upd _ _ ?x)) with (pd x). by rewrite dev_upd_eq by apply Hp.
        -- intros i Hi. unfold sh'. rewrite dev_upd by (apply Hi || apply Hp). destruct (Z.eqb_spec (pd (with_zero_sum (false, false) (with_check check_state_run (sset STRIPE_HANDLE sh)))) i) as [<-|]; [right|by left]. done.
        -- intros o Hoo. unfold s'. cbn. by destruct o.
      * rewrite Hf. cbn. eexists _, _. split; [reflexivity|]. apply Hrun. by right.
    + destruct (cond s q_failed) eqn:Hqf'; cbn [negb andb].
      * assert (cnt s failed = 2) as Hf2.
        { symmetry in Hqf. apply negb_true_iff in Hqf. destruct (failed_covered sh s (qd sh) Hm Hq) as [|[[? _]|[? _]]]; [congruence|lia|lia]. }
        cbn [check_states_beq]. rewrite Hf2. cbn [Z.eqb Pos.eqb negb bug_on]. set (sh0 := with_zero_sum (false, false) (with_check check_state_idle (sset STRIPE_HANDLE sh))).
        apply write_out6; try done. intros f F. by destruct f.
      * destruct (Z.ltb_spec (cnt s failed) 2) as [Hlt|Hlt]; cbn [check_states_beq].
        -- eexists _, _. split; [reflexivity|]. apply Hrun. by left.
        -- assert (cnt s failed = 2) as Hf2 by lia. rewrite Hf2. cbn [Z.eqb Pos.eqb negb bug_on]. set (sh0 := with_zero_sum (false, false) (with_check check_state_idle (sset STRIPE_HANDLE sh))).
           apply write_out6; try done. intros f F. by destruct f.
  - rewrite Hcr. change (zero_sum_result (with_check _ (sset _ sh))) with (zero_sum_result sh). rewrite Hz. cbn [negb andb]. destruct (Z.eqb_spec (cnt s failed) 0) as [Hf|Hf].
    + eexists _, _. split; [reflexivity|]. apply checked_same; try done; [intros f F1 F2; by destruct f| |by left].
      right. intros i Hi. left. by apply (none_failed conf w sh s V synced).
    + eexists _, _. split; [reflexivity|]. apply checked_same; try done; [intros f F1 F2; by destruct f|by left|right]. done.
  - rewrite Hcr. set (sh0 := sset STRIPE_HANDLE sh). apply write_out6; try done. intros f F. by destruct f.
Qed.

(** * The end of a synchronisation *)

Definition no_flags (f : r5dev_flag) : bool := false.

Lemma replacements_ok sh s :
  mid conf w sh s V synced -> (cond s replacing = true -> forall i, in_stripe sh i -> test_bit R5_Insync (dev sh i) = false -> works (rdev (disk w i)) = false) ->
  exists sh', write_replacements sh s = (sh', s) /\ mid conf w sh' s V synced /\ flagged no_flags sh sh' /\ devs sh' = devs sh /\
    check_state sh' = check_state sh /\ zero_sum_result sh' = zero_sum_result sh /\ stest STRIPE_SYNCING sh' = stest STRIPE_SYNCING sh.
Proof.
  intros Hm Hrep. unfold write_replacements. destruct (_ && _); [|exists sh; split; [done|]; split; [done|]; split; [apply flagged_refl|done]].
  rewrite for_devs_id.
  2: { intros i a Hi. unfold replace_dev. destruct (mi_dev _ _ _ _ _ _ Hm i Hi) as [st [[K _ _ _ _ _ _ _ _ _ _] _ _]]. by rewrite (dw_unused _ _ _ K). }
  eexists. split; [reflexivity|]. destruct (cond s replacing) eqn:Hr.
  - split; [|split; [apply flagged_same; try done; keep_state|done]]. apply (insync_mid sh); try done. intros i Hi.
    destruct (test_bit R5_Insync (dev sh i)) eqn:Hin; [by left|right; right]. by apply Hrep.
  - split; [|split; [apply flagged_same; try done; keep_state|done]]. by apply (mid_state conf w sh _ s s V synced).
Qed.

Definition repair_moves (f : r5dev_flag) : bool := match f with R5_LOCKED | R5_Wantread | R5_Wantwrite | R5_ReWrite => true | _ => false end.

Lemma repair_flags d : exists fl, (repair_dev d).1 = with_flags fl d /\ forall f, repair_moves f = false -> fl f = flags d f.
Proof.
  unfold repair_dev. destruct (_ && _); cbn [fst]; [|exists (flags d); by rewrite with_flags_id].
  destruct (test_bit R5_ReWrite d); (eexists; split; [reflexivity|]); intros f Hf; by destruct f.
Qed.

(** What a repair makes of the device: it is written, or read again when it was written. *)
Lemma repair_mid_dev sh i st :
  mid_dev conf w sh V synced i st -> in_stripe sh i -> exists st', mid_dev conf w (upd i (fun d => (repair_dev d).1) sh) V synced i st'.
Proof.
  intros Hst Hi. set (sh' := upd i _ sh). assert (dev sh' i = (repair_dev (dev sh i)).1) as Hd by (unfold sh'; by rewrite dev_upd_eq).
  unfold repair_dev in Hd. destruct (test_bit R5_ReadError (dev sh i) && negb (test_bit R5_LOCKED (dev sh i)) && test_bit R5_UPTODATE (dev sh i)) eqn:Hc; cbn [fst] in Hd.
  2: { exists st. by apply (mid_dev_state conf w sh). }
  apply andb_true_iff in Hc as [[Hre Hl%negb_true_iff]%andb_true_iff Hu]. pose proof (status_locked _ _ _ _ _ _ _ Hst Hl) as ->.
  pose proof Hst as [[K1 K2 K3 K4 K5 K6 K7 K8 K9 K10 K11] [E1 E2] [L1 L2 L3 L4 L5]]. injection K5 as Z1 Z2 Z3 Z4. destruct (L3 Hre) as [Hw _]. unfold test_bit in *.
  destruct (flags (dev sh i) R5_ReWrite) eqn:Hrw.
  - exists WantR. apply (mid_dev_flags conf w sh sh' V synced i Idle WantR (flags (dev sh' i))); try done; rewrite ?Hd; try done.
    + intros f Hf. by destruct f.
    + cbn. by rewrite Z2, Z4.
    + unfold works in Hw. destruct (working (rdev (disk w i))) as [m|] eqn:Hwk; [|done]. exists m. split; [done|].
      destruct (K9 m eq_refl E1) as [|Hbad]; [by right|done|done].
    + split; [done|]. intros Hp. by apply K7 in Hp.
    + by left.
  - exists WantW. apply (mid_dev_flags conf w sh sh' V synced i Idle WantW (flags (dev sh' i))); try done; rewrite ?Hd; try done.
    + intros f Hf. by destruct f.
    + cbn. by rewrite Z2, Z3.
    + by left.
    + split; [done|]. intros Hp. by apply K7 in Hp.
    + by right.
Qed.

Lemma repair_mid sh s i :
  mid conf w sh s V synced -> in_stripe sh i -> mid conf w (repair_read_error i sh s).1 (repair_read_error i sh s).2 V synced.
Proof.
  intros Hm Hi. unfold repair_read_error. cbn [fst snd]. set (sh' := upd i _ sh). set (s' := add_if _ _ _).
  assert (forall j, in_stripe sh j -> dev sh' j = if i =? j then (repair_dev (dev sh j)).1 else dev sh j) as Hdev.
  { intros j Hj. unfold sh'. by rewrite dev_upd by (apply Hi || apply Hj). }
  assert (forall j f, in_stripe sh j -> repair_moves f = false -> test_bit f (dev sh' j) = test_bit f (dev sh j)) as Hfl.
  { intros j f Hj Hf. rewrite Hdev by done. destruct (i =? j); [|done]. destruct (repair_flags (dev sh j)) as (fl & -> & H). by apply H. }
  assert (forall c, cnt s' c = cnt s c + if counter_beq c locked then if (repair_dev (dev sh i)).2 then 1 else 0 else 0) as Hc.
  { intros c. unfold s', add_if. destruct (repair_dev (dev sh i)).2; rewrite ?cnt_add; destruct (counter_beq c locked); lia. }
  pose proof (mi_locked0 _ _ _ _ _ _ Hm). apply (mid_step conf w sh sh' s s' V synced synced); try done.
  - apply disks_upd.
  - unfold s', add_if. by destruct (repair_dev (dev sh i)).2.
  - intros j st Hj Hst. destruct (Z.eqb_spec i j) as [<-|Hne]; [by apply (repair_mid_dev sh i st)|].
    exists st. apply (mid_dev_state conf w sh); try done. by rewrite Hdev, (proj2 (Z.eqb_neq _ _) Hne).
  - intros j Hj. by apply Hfl.
  - rewrite Hc. cbn. destruct (repair_dev (dev sh i)).2; lia.
  - intros j H0 Hj. rewrite Hc in H0. cbn in H0. destruct (repair_dev (dev sh i)).2 eqn:Hr; [lia|]. rewrite Hdev by done.
    assert (test_bit R5_LOCKED (dev sh j) = false) by (apply (mi_locked _ _ _ _ _ _ Hm); [lia|done]). destruct (Z.eqb_spec i j) as [<-|]; [|done].
    unfold repair_dev in *. by destruct (_ && _).
Qed.

Record repaired (sh : stripe) (s : stripe_head_state) (sh' : stripe) (s' : stripe_head_state) : Prop := {
  rp_mid : mid conf w sh' s' V synced;
  rp_flagged : flagged repair_moves sh sh';
  rp_rest : with_devs [] sh' = with_devs [] sh;
  rp_ops : ops_request s' = ops_request s;
  rp_cond : cond s' = cond s;
  rp_failed : same_failed s s';
  rp_locked i : in_stripe sh i -> test_bit R5_UPTODATE (dev sh i) = true \/ test_bit R5_LOCKED (dev sh' i) = test_bit R5_LOCKED (dev sh i);
}.

Lemma repairs_ok sh s : mid conf w sh s V synced -> exists sh' s', repair_read_errors conf w sh s = (sh', s') /\ repaired sh s sh' s'.
Proof.
  intros Hm. unfold repair_read_errors. assert (repaired sh s sh s) as Hr by (split; auto; try done; apply flagged_refl).
  destruct (_ && _); [|by exists sh, s]. assert (forall k, k ∈ seq 0 (Z.to_nat (cnt s failed)) -> in_stripe sh (failed_num s k)) as Hnum.
  { pose proof (mi_set _ _ _ _ _ _ Hm) as [Hg _ _ _]. cbn in Hg. pose proof (go_degraded _ _ Hg) as Hd. pose proof (mi_le _ _ _ _ _ _ Hm) as Hle.
    intros k Hk%elem_of_seq. destruct (failed_insync sh s Hm) as [N0 N1]. destruct k as [|[|k]]; cbn.
    - apply N0. lia.
    - apply N1. lia.
    - destruct (level conf =? 6); lia. }
  revert Hnum. generalize (seq 0 (Z.to_nat (cnt s failed))). intros l Hnum.
  assert (forall sh1 s1, repaired sh s sh1 s1 -> exists sh' s', fold_left (fun '(sh, s) k => repair_read_error (failed_num s k) sh s) l (sh1, s1) = (sh', s') /\ repaired sh s sh' s') as Hfold; [|by apply Hfold].
  clear Hr. induction l as [|k l IH]; intros sh1 s1 Hr; [by exists sh1, s1|]. cbn [fold_left].
  destruct (repair_read_error (failed_num s1 k) sh1 s1) as [sh2 s2] eqn:Heq. apply IH; [intros k' Hk'; apply Hnum; by right|].
  destruct Hr as [A1 A2 A3 A4 A5 (F1 & F2 & F3) A7]. assert (failed_num s1 k = failed_num s k) as En by (unfold failed_num; by rewrite F2, F3). rewrite En in Heq.
  assert (in_stripe sh1 (failed_num s k)) as Hi by (apply (flagged_in _ _ _ _ A2), Hnum; by left).
  pose proof (repair_mid sh1 s1 _ A1 Hi) as Hm2. rewrite Heq in Hm2. cbn [fst snd] in Hm2. unfold repair_read_error in Heq. injection Heq as <- <-.
  split; try done.
  - eapply flagged_trans; [exact A2|]. apply flagged_upd; [apply repair_flags|done].
  - rewrite <- A4. by destruct (repair_dev _).2.
  - rewrite <- A5. by destruct (repair_dev _).2.
  - unfold add_if. by destruct (repair_dev _).2.
  - intros j Hj. destruct (A7 j Hj) as [|A8]; [by left|]. destruct (test_bit R5_UPTODATE (dev sh j)) eqn:Hu; [by left|right]. rewrite <- A8.
    assert (test_bit R5_UPTODATE (dev sh1 j) = false) as Hu1 by (by rewrite (flagged_flag _ _ _ j _ A2)). rewrite dev_upd by (apply Hi || apply Hj).
    destruct (_ =? _); [|done]. unfold repair_dev. rewrite Hu1, andb_false_r. done.
Qed.

Lemma mid_dev_synced sh sh' synced' i st :
  mid_dev conf w sh V synced i st -> geo sh' = geo sh -> reconstruct_state sh' = reconstruct_state sh -> dev sh' i = dev sh i ->
  all_synced synced' sh' = all_synced synced sh -> mid_dev conf w sh' V synced' i st.
Proof.
  intros [H1 H2 H3] Hg Hr Hd Hs. split; unfold is_parity, busy_ops, sector, pd, qd in *; rewrite ?Hg, ?Hr, ?Hd, ?Hs; done.
Qed.

Definition overlap_flags (f : r5dev_flag) : bool := match f with R5_Overlap => true | _ => false end.

Lemma clear_overlap_mid sh s i : mid conf w sh s V synced -> in_stripe sh i -> mid conf w (upd i (clear_bit R5_Overlap) sh) s V synced.
Proof.
  intros Hm Hi. set (sh' := upd i _ sh). assert (forall j f, in_stripe sh j -> f <> R5_Overlap -> test_bit f (dev sh' j) = test_bit f (dev sh j)) as Hfl.
  { intros j f Hj Hf. unfold sh'. rewrite dev_upd by (apply Hi || apply Hj). destruct (i =? j); [|done]. by destruct f. }
  apply (mid_step conf w sh sh' s s V synced synced); try done.
  - apply disks_upd.
  - intros j st Hj Hst. exists st. destruct (Z.eqb_spec i j) as [<-|Hne]; [|apply (mid_dev_state conf w sh); try done; unfold sh'; by rewrite dev_upd_ne by (apply Hi || apply Hj || done)].
    pose proof Hst as [[K1 K2 K3 K4 K5 K6 K7 K8 K9 K10 K11] _ _].
    apply (mid_dev_flags conf w sh sh' V synced i st st (flags (clear_bit R5_Overlap (dev sh i)))); try done.
    + unfold sh'. by rewrite dev_upd_eq.
    + intros f Hf. by destruct f.
    + by left.
  - intros j Hj. by apply Hfl.
  - apply Hm.
  - intros j H0 Hj. rewrite Hfl by done. by apply (mi_locked _ _ _ _ _ _ Hm).
Qed.

Lemma finish_sync_ok sh s :
  mid conf w sh s V synced -> cond s syncing || cond s replacing = stest STRIPE_SYNCING sh ->
  exists sh' out, finish_sync sh s = (sh', out) /\ mid conf w sh' s V (synced || synced_by out) /\ flagged overlap_flags sh sh' /\
    check_state sh' = check_state sh /\ zero_sum_result sh' = zero_sum_result sh /\
    (out = [] \/ (out = [Sync_done true] /\ cnt s locked = 0 /\ all_synced synced sh = true)).
Proof.
  intros Hm Hsy. unfold finish_sync. destruct (_ && _ && _ && _) eqn:Hc.
  2: { exists sh, []. split; [done|]. split; [by rewrite orb_false_r|]. split; [apply flagged_refl|]. by auto. }
  apply andb_true_iff in Hc as [[[Hs H0%Z.eqb_eq]%andb_true_iff _]%andb_true_iff Hins]. rewrite Hs in Hsy.
  destruct (parity_member _ _ _ _ _ _ Hm) as (Hp & _ & _). eexists _, _. split; [reflexivity|]. cbn [synced_by existsb]. rewrite orb_true_r.
  assert (all_synced synced sh = true) as Ha by (unfold all_synced; rewrite Hins, <- Hsy; apply orb_true_r). set (sh1 := upd (pd sh) (clear_bit R5_Overlap) sh). set (sh' := upd _ _ _).
  assert (mid conf w sh1 s V synced) as Hm1 by (by apply clear_overlap_mid). assert (forall i, dev sh' i = dev sh1 i) as Hd by done.
  split; [|split; [|split; [done|]; split; [done|]; by right]].
  - apply (mid_step conf w sh1 sh' s s V synced true); try done.
    + intros i st Hi Hst. exists st. by apply (mid_dev_synced sh1).
    + apply Hm.
    + apply (mi_locked _ _ _ _ _ _ Hm1).
  - eapply flagged_trans; [apply (flagged_same _ sh (sclear STRIPE_SYNCING sh)); try done; keep_state|]. apply flagged_upd; [|done].
    intros d. eexists. split; [reflexivity|]. intros f Hf. by destruct f.
Qed.
End Check.
