(* ===== verification/Raid5Plan.v ===== *)
(** [decide_stripe], the part of [handle_stripe] of md/raid5.c between [analyse_stripe] and
    [finish], as a whole: it does not run into a [BUG_ON], and it ends in a plan that can be
    carried out. *)

From S2P Require Import Prelude PageMem Raid5Layout Raid5Stripe Raid5Dev Raid5Ops Raid5Handle Raid5Machine Raid5Data Raid5Copy Raid5OpsCorrect Raid5Write Raid5Inv Raid5Analyse Raid5Decide Raid5Fill Raid5Dirty Raid5Check.

(** What all steps leave as it is. *)
Record tracks (sh sh' : stripe) : Prop := {
  tr_geo : geo sh' = geo sh;
  tr_disks : disks sh' = disks sh;
  tr_flag i f : in_stripe sh i -> moving f = false -> test_bit f (dev sh' i) = test_bit f (dev sh i);
  tr_fields i : in_stripe sh i -> page (dev sh' i) = page (dev sh i) /\ toread (dev sh' i) = toread (dev sh i) /\ towrite (dev sh' i) = towrite (dev sh i) /\
    dev_sector (dev sh' i) = dev_sector (dev sh i);
  tr_state f : f = STRIPE_ACTIVE \/ f = STRIPE_BIOFILL_RUN \/ f = STRIPE_DISCARD -> stest f sh' = stest f sh;
}.

Lemma tracks_in sh sh' i : tracks sh sh' -> in_stripe sh' i <-> in_stripe sh i.
Proof. intros H. unfold in_stripe. by rewrite (tr_disks _ _ H). Qed.

Lemma tracks_trans sh1 sh2 sh3 : tracks sh1 sh2 -> tracks sh2 sh3 -> tracks sh1 sh3.
Proof.
  intros H12 [b1 b2 b3 b4 b5]. pose proof H12 as [a1 a2 a3 a4 a5]. split; try congruence.
  - intros i f Hi Hf. rewrite b3, a3 by (done || by apply (tracks_in _ _ i H12)). done.
  - intros i Hi. destruct (a4 i Hi) as (-> & -> & -> & ->) || pose proof (a4 i Hi) as (E1 & E2 & E3 & E4). destruct (b4 i) as (F1 & F2 & F3 & F4); [by apply (tracks_in _ _ i H12)|].
    rewrite F1, F2, F3, F4. by apply a4.
  - intros f Hf. by rewrite b5, a5.
Qed.

Lemma tracks_kept sh sh' : kept sh sh' -> tracks sh sh'.
Proof.
  intros [a1 a2 a3 a4 a5 (a6 & a7 & a8 & a9) a10 a11]. split; try done.
  - intros i f Hi Hf. apply a10; try done; by destruct f.
  - intros f [-> |[-> | ->]]; done.
Qed.

Lemma tracks_later (X : r5dev_flag -> bool) sh sh' : (forall f, X f = true -> moving f = true) -> later X sh sh' -> tracks sh sh'.
Proof.
  intros HX Hl. pose proof Hl as [a1 a2 a3 a4 a5 a6]. split; try done.
  - intros i f Hi Hf. apply (later_flag X); try done. destruct (X f) eqn:Hx; [|done]. apply HX in Hx. congruence.
  - intros i Hi. destruct (later_fields _ _ _ i Hl Hi) as (? & ? & ? & _ & ?). done.
  - intros f [-> |[-> | ->]]; by apply a5.
Qed.

Lemma tracks_flagged (X : r5dev_flag -> bool) sh sh' : (forall f, X f = true -> moving f = true) -> flagged X sh sh' -> tracks sh sh'.
Proof.
  intros HX Hl. pose proof Hl as [a1 a2 a3 a4 a5 a6]. split; try done.
  - intros i f Hi Hf. apply (flagged_flag X); try done. destruct (X f) eqn:Hx; [|done]. apply HX in Hx. congruence.
  - intros i Hi. destruct (flagged_fields _ _ _ i Hl Hi) as (? & ? & ? & _ & ?). done.
  - intros f [-> |[-> | ->]]; apply a5; auto.
Qed.

Lemma tracks_refl sh : tracks sh sh.
Proof. by split. Qed.

Lemma tracks_parity sh sh' i : tracks sh sh' -> is_parity sh' i = is_parity sh i.
Proof. intros H. unfold is_parity, pd, qd. by rewrite (tr_geo _ _ H). Qed.

Lemma tracks_covered conf sh sh' i : tracks sh sh' -> in_stripe sh i -> is_covered conf (dev sh' i) = is_covered conf (dev sh i).
Proof. intros H Hi. destruct (tr_fields _ _ H i Hi) as (_ & _ & E1 & E2). unfold is_covered. by rewrite E1, E2. Qed.

Section Plan.
Context (conf : r5conf) (w : world) (V : Z -> block) (synced : bool).

(** The stripe after [analyse_stripe]. *)
Record examined (sh : stripe) (s : stripe_head_state) : Prop := {
  ex_mid : mid conf w sh s V synced;
  ex_early : early sh;
  ex_state : reconstruct_state sh = reconstruct_state_idle \/ reconstruct_state sh = reconstruct_state_drain_result \/
    reconstruct_state sh = reconstruct_state_prexor_drain_result;
  ex_analysis : analysis w sh s;
  ex_runs : stest STRIPE_COMPUTE_RUN sh = false /\ stest STRIPE_BIOFILL_RUN sh = false /\ stest STRIPE_DISCARD sh = false;
  ex_overwrite i : in_stripe sh i -> test_bit R5_OVERWRITE (dev sh i) = true -> test_bit R5_UPTODATE (dev sh i) = true \/ is_covered conf (dev sh i) = true;
  ex_check : checking sh = true -> reconstruct_state sh = reconstruct_state_idle /\ zero_sum_result sh = (false, false) /\ check_blocks conf w sh /\
    (check_state sh = check_state_check_result \/ (check_state sh = check_state_compute_result /\ level conf = 6 /\ cnt s locked = 0));
}.

(** The stripe at [finish], with what is to be done. *)
Record planned (sh0 : stripe) (sh : stripe) (s : stripe_head_state) (out : list reply) : Prop := {
  pn_mid : mid conf w sh s V (synced || synced_by out);
  pn_tracks : tracks (if ops_request s STRIPE_OP_BIOFILL then sset STRIPE_BIOFILL_RUN sh0 else sh0) sh;
  pn_fill i : in_stripe sh0 i -> test_bit R5_Wantfill (dev sh0 i) = true -> ops_request s STRIPE_OP_BIOFILL = true;
  pn_compute : compute_ready conf V sh s;
  pn_write : (exists rmw, write_plan conf V rmw sh s) \/
    (reconstruct_state sh = reconstruct_state_idle /\
      (forall o, o = STRIPE_OP_PREXOR \/ o = STRIPE_OP_BIODRAIN \/ o = STRIPE_OP_RECONSTRUCT -> ops_request s o = false) /\
      forall i, in_stripe sh i -> test_bit R5_Wantdrain (dev sh i) = false);
  pn_check : check_done conf w V sh s /\ (checking sh = true -> reconstruct_state sh = reconstruct_state_idle);
  pn_written i : in_stripe sh i -> written (dev sh i) <> [] ->
    test_bit R5_UPTODATE (dev sh i) = true /\ forall j, in_stripe sh j -> is_parity sh j = true -> test_bit R5_UPTODATE (dev sh j) = true;
  pn_overwrite i : in_stripe sh i -> test_bit R5_OVERWRITE (dev sh i) = true ->
    test_bit R5_UPTODATE (dev sh i) = true \/ is_covered conf (dev sh i) = true \/ test_bit R5_Wantdrain (dev sh i) = true;
  pn_acked i : in_stripe sh i -> written (dev sh i) = written (dev sh0 i) \/
    (written (dev sh i) = [] /\ test_bit R5_LOCKED (dev sh0 i) = false /\ parity_stable sh0);
  pn_out : exists out', out = acked sh0 sh ++ out' /\ (out' = [] \/ (out' = [Sync_done true] /\ reconstruct_state sh = reconstruct_state_idle /\
    forall i m, in_stripe sh i -> working (rdev (disk w i)) = Some m -> is_bad (bad m) = false -> stored m = V i));
  pn_bad : cond s handle_bad_blocks = false;
}.

(** * Results and replies *)

Definition filling (sh0 : stripe) (s0 : stripe_head_state) : stripe := if cnt s0 to_fill =? 0 then sh0 else sset STRIPE_BIOFILL_RUN sh0.

Record settled (sh0 : stripe) (s0 : stripe_head_state) (sh : stripe) (s : stripe_head_state) : Prop := {
  sl_mid : mid conf w sh s V synced;
  sl_tracks : tracks (filling sh0 s0) sh;
  sl_idle : reconstruct_state sh = reconstruct_state_idle;
  sl_check : check_state sh = check_state sh0 /\ zero_sum_result sh = zero_sum_result sh0;
  sl_none : no_compute sh s;
  sl_count : counted_uptodate sh s;
  sl_drain i : in_stripe sh i -> test_bit R5_Wantdrain (dev sh i) = false;
  sl_uptodate i : in_stripe sh i -> test_bit R5_UPTODATE (dev sh i) = test_bit R5_UPTODATE (dev sh0 i);
  sl_lock i : in_stripe sh i -> test_bit R5_LOCKED (dev sh i) = test_bit R5_LOCKED (dev sh0 i);
  sl_written i : in_stripe sh i -> written (dev sh i) = written (dev sh0 i) \/
    (written (dev sh i) = [] /\ test_bit R5_LOCKED (dev sh0 i) = false /\ parity_stable sh0);
  sl_locked i : cnt s locked = 0 -> in_stripe sh i -> written (dev sh i) = [];
  sl_cond c : c = syncing \/ c = replacing \/ c = handle_bad_blocks -> cond s c = cond s0 c;
  sl_q : cond s q_failed = if level conf =? 6 then negb (test_bit R5_Insync (dev sh (qd sh))) else true;
  sl_ops o : ops_request s o = stripe_op_beq o STRIPE_OP_BIOFILL && negb (cnt s0 to_fill =? 0);
  sl_cnt : cnt s = cnt s0;
  sl_syncing : stest STRIPE_SYNCING sh = stest STRIPE_SYNCING sh0;
}.

Lemma early_ext sh sh' :
  early sh -> geo sh' = geo sh -> devs sh' = devs sh -> reconstruct_state sh' = reconstruct_state sh -> early sh'.
Proof.
  intros [E1 E2 E3 E4] Hg Hd Hr. assert (forall i, dev sh' i = dev sh i) as Hdev by (intros i; unfold dev; by rewrite Hd).
  assert (forall i, in_stripe sh' i -> in_stripe sh i) as Hin by (intros i; unfold in_stripe, disks; by rewrite Hd).
  assert (forall i, is_parity sh' i = is_parity sh i) as Hp by (intros i; unfold is_parity, pd, qd; by rewrite Hg).
  split; intros i; rewrite ?Hdev; unfold busy_ops in *; rewrite ?Hr, ?Hp; intros; rewrite ?Hdev; eauto.
Qed.

Lemma start_biofill_eq sh0 s0 :
  stest STRIPE_BIOFILL_RUN sh0 = false ->
  start_biofill sh0 s0 = (filling sh0 s0, if cnt s0 to_fill =? 0 then s0 else request STRIPE_OP_BIOFILL s0).
Proof. intros Hb. unfold start_biofill, filling. rewrite Hb. by destruct (cnt s0 to_fill =? 0). Qed.

Lemma acked_ext sh0 sh1 sh2 : disks sh1 = disks sh0 -> (forall i, in_stripe sh0 i -> written (dev sh1 i) = written (dev sh0 i)) -> acked sh1 sh2 = acked sh0 sh2.
Proof.
  intros Hn Hw. unfold acked, indices_down. rewrite Hn. f_equal. apply map_ext_in. intros i Hi. rewrite <- in_rev, <- list_elem_of_In in Hi. apply in_seqZ in Hi.
  unfold acked_dev. by rewrite Hw.
Qed.

Lemma settle sh0 s0 :
  examined sh0 s0 ->
  exists sh s, start_biofill sh0 s0 = (sh, s) /\ handle_failed conf w sh s = (w, sh, s, []) /\
  exists sh1 s1, write_results sh s = Some (sh1, s1) /\
  exists sh2, return_writes conf sh1 (set_parity_failed conf sh1 s1) = (sh2, acked sh0 sh2) /\ settled sh0 s0 sh2 (set_parity_failed conf sh1 s1).
Proof.
  intros [Hm He Hst Ha (R1 & R2 & R3) Hov Hck]. rewrite start_biofill_eq by done. set (sh := filling sh0 s0). set (s := if cnt s0 to_fill =? 0 then s0 else request STRIPE_OP_BIOFILL s0). exists sh, s. split; [done|].
  assert (devs sh = devs sh0 /\ geo sh = geo sh0 /\ reconstruct_state sh = reconstruct_state sh0 /\ check_state sh = check_state sh0 /\ zero_sum_result sh = zero_sum_result sh0 /\
    stest STRIPE_SYNCING sh = stest STRIPE_SYNCING sh0 /\ stest STRIPE_COMPUTE_RUN sh = stest STRIPE_COMPUTE_RUN sh0 /\ stest STRIPE_INSYNC sh = stest STRIPE_INSYNC sh0) as (D1 & D2 & D3 & D4 & D5 & D6 & D7 & D8)
    by (unfold sh, filling; by destruct (_ =? _)).
  assert (cnt s = cnt s0 /\ cond s = cond s0 /\ failed_num0 s = failed_num0 s0 /\ failed_num1 s = failed_num1 s0 /\ forall o, ops_request s o = stripe_op_beq o STRIPE_OP_BIOFILL && negb (cnt s0 to_fill =? 0)) as (C1 & C2 & C3 & C4 & C5).
  { unfold s. destruct (cnt s0 to_fill =? 0) eqn:E; repeat split; try done; intros o; cbn; rewrite (an_ops _ _ _ Ha); by destruct o. }
  assert (mid conf w sh s V synced) as Hm0 by (apply (mid_state conf w sh0 sh s0 s V synced); try done; [unfold all_synced; by rewrite D6, D8|by repeat split; rewrite ?C1|by rewrite C1]).
  split. { unfold handle_failed. rewrite (proj2 (Z.ltb_ge _ _)); [done|]. apply (mi_le _ _ _ _ _ _ Hm0). }
  assert (forall i, dev sh i = dev sh0 i) as Hdev by (intros i; unfold dev; by rewrite D1).
  destruct (write_results_ok conf w sh s V synced Hm0) as (sh1 & s1 & -> & Hm1 & He1 & Hi1 & K1 & _ & (SF1 & SC1 & SO1 & SD1) & W1); [by apply (early_ext sh0)|by rewrite D3|].
  exists sh1, s1. split; [done|]. destruct (parity_failed conf w sh1 s1 V synced Hm1) as (P1 & P2 & P3 & P4 & P5 & P6). set (s2 := set_parity_failed conf sh1 s1) in *.
  assert (mid conf w sh1 s2 V synced) as Hm2 by (apply (mid_state conf w sh1 sh1 s1 s2 V synced); try done; by rewrite P4).
  assert (forall i, in_stripe sh1 i <-> in_stripe sh i) as In1 by (intros i; unfold in_stripe; by rewrite (kp_disks _ _ K1)).
  assert (disks sh = disks sh0) as Hn by (unfold disks; by rewrite D1).
  destruct (return_writes_ok conf w sh1 s2 V synced Hm2 He1 Hi1 P1 P2) as (sh2 & -> & Hm3 & Hi3 & K2 & I2 & W2 & A2 & L2).
  { intros i Hi Hw. rewrite P4, SC1, C1, (an_cnt _ _ _ Ha). apply In1 in Hi. rewrite W1, Hdev in Hw by done. intros H0.
    apply (count_zero _ _ i) in H0; [|rewrite <- Hn; by apply in_seqZ]. cbn in H0. by destruct (written (dev sh0 i)). }
  assert (forall i, in_stripe sh2 i <-> in_stripe sh i) as In2 by (intros i; unfold in_stripe; by rewrite (kp_disks _ _ K2), (kp_disks _ _ K1)).
  assert (tracks sh sh2) as Htr by (eapply tracks_trans; by apply tracks_kept).
  assert (forall i f, in_stripe sh i -> f <> R5_Wantwrite -> quiet f = false -> test_bit f (dev sh2 i) = test_bit f (dev sh0 i)) as Hfl.
  { intros i f Hi F1 F2. rewrite (kp_flags _ _ K2) by (done || by apply In1). rewrite (kp_flags _ _ K1) by done. by rewrite Hdev. }
  exists sh2. split.
  { f_equal. apply acked_ext; [by rewrite (kp_disks _ _ K1)|]. intros i Hi. rewrite W1, Hdev; [done|]. unfold in_stripe. by rewrite Hn. }
  split; try done.
  - split; [by rewrite (kp_check _ _ K2), (kp_check _ _ K1)|by rewrite (kp_zero _ _ K2), (kp_zero _ _ K1)].
  - repeat split.
    + destruct (kp_runs _ _ K2) as (_ & -> & _). destruct (kp_runs _ _ K1) as (_ & -> & _). by rewrite D7.
    + rewrite P5, SO1, C5. done.
    + rewrite P6 by done. rewrite SD1, C2 by auto. apply (an_cond _ _ _ Ha). by auto.
    + intros i Hi%In2. rewrite Hfl by done. apply (ea_wants _ He). unfold in_stripe in *. by rewrite <- Hn.
  - unfold counted_uptodate. rewrite P4, SC1, C1, (an_cnt _ _ _ Ha), (kp_disks _ _ K2), (kp_disks _ _ K1), Hn. apply count_ext. intros i Hi. cbn. rewrite Hfl; [done|by apply in_seqZ; rewrite Hn|done|done].
  - intros i Hi%In2. rewrite Hfl by done. apply (ea_wants _ He). unfold in_stripe in *. by rewrite <- Hn.
  - intros i Hi%In2. by rewrite Hfl.
  - intros i Hi%In2. by rewrite Hfl.
  - intros i Hi%In2. destruct (A2 i) as [E|(E1 & E2 & E3)]; [by apply In1| |right].
    + left. rewrite E, W1, Hdev by done. done.
    + split; [done|]. assert (forall j f, in_stripe sh0 j -> f <> R5_Wantwrite -> quiet f = false -> test_bit f (dev sh1 j) = test_bit f (dev sh0 j)) as Hfl1.
      { intros j f Hj F1 F2. rewrite (kp_flags _ _ K1), Hdev; try done. unfold in_stripe in *. by rewrite Hn. }
      assert (forall j, in_stripe sh0 j <-> in_stripe sh j) as In0 by (intros j; unfold in_stripe; by rewrite Hn).
      split; [by rewrite <- Hfl1 by (done || by apply In0)|]. intros j Hj Hp. rewrite <- !Hfl1 by done. apply E3; [by apply In1, In0|].
      unfold is_parity, pd, qd in *. by rewrite (kp_geo _ _ K1), D2.
  - intros i H0 Hi. destruct (written (dev sh2 i)) eqn:E; [done|]. destruct (L2 i Hi) as (j & Hj & Hjl); [by rewrite E|].
    by rewrite (mi_locked _ _ _ _ _ _ Hm3 j H0 Hj) in Hjl.
  - intros c Hc. rewrite P6 by (by destruct Hc as [-> |[-> | ->]]). rewrite SD1, C2 by (by destruct Hc as [-> |[-> | ->]]; auto). done.
  - rewrite P2. assert (qd sh2 = qd sh1) as -> by (unfold qd; by rewrite (kp_geo _ _ K2)). destruct (level conf =? 6) eqn:E; [|done]. f_equal. symmetry.
    apply (kp_flags _ _ K2); try done. destruct (parity_member _ _ _ _ _ _ Hm1) as (_ & _ & Hq). rewrite E in Hq. apply Hq.
  - intros o. by rewrite P5, SO1, C5.
  - by rewrite P4, SC1, C1.
  - by rewrite (kp_syncing _ _ K2), (kp_syncing _ _ K1), D6.
Qed.

(** * Reads and computations *)

Record filled (sh : stripe) (s : stripe_head_state) (sh' : stripe) (s' : stripe_head_state) : Prop := {
  fd_mid : mid conf w sh' s' V synced;
  fd_later : later fetch_flags sh sh';
  fd_idle : reconstruct_state sh' = reconstruct_state_idle;
  fd_compute : compute_ready conf V sh' s';
  fd_failed : same_failed s s';
  fd_cond c : c <> req_compute -> cond s' c = cond s c;
  fd_ops o : o <> STRIPE_OP_COMPUTE_BLK -> ops_request s' o = ops_request s o;
  fd_locked : cnt s locked <= cnt s' locked;
  fd_to_write : cnt s' to_write = cnt s to_write;
  fd_checking : checking sh = true -> s' = s /\ devs sh' = devs sh;
  fd_blocks : checking sh = false -> cond s syncing = true -> cnt s' locked = 0 ->
    (exists i, in_stripe sh' i /\ test_bit R5_Wantcompute (dev sh' i) = true) \/
    (cnt s' uptodate = Z.of_nat (disks sh') /\ forall i, in_stripe sh' i -> test_bit R5_UPTODATE (dev sh' i) = true);
}.

Lemma all_counted sh s : counted_uptodate sh s -> (forall i, in_stripe sh i -> test_bit R5_UPTODATE (dev sh i) = true) -> cnt s uptodate = Z.of_nat (disks sh).
Proof.
  intros Hc Hall. pose proof (missing_count sh s Hc) as Hm. rewrite count_none in Hm; [lia|]. intros i Hi%in_seqZ. by rewrite Hall.
Qed.

Lemma fill_filled sh s :
  mid conf w sh s V synced -> reconstruct_state sh = reconstruct_state_idle -> no_compute sh s -> counted_uptodate sh s -> cnt s compute = 0 ->
  exists sh' s', (if fill_wanted sh s then handle_stripe_fill conf w sh s else Some (sh, s)) = Some (sh', s') /\ filled sh s sh' s'.
Proof.
  intros Hm Hidle Hn Hc H0. destruct (checking sh) eqn:Hck.
  - assert (exists sh', (if fill_wanted sh s then handle_stripe_fill conf w sh s else Some (sh, s)) = Some (sh', s) /\ (sh' = sh \/ sh' = sset STRIPE_HANDLE sh)) as (sh' & -> & Hsh).
    { destruct (fill_wanted sh s); [|by exists sh; auto]. unfold handle_stripe_fill, is_idle. unfold checking in Hck. apply negb_true_iff in Hck. rewrite Hck. cbn [andb].
      rewrite andb_false_r. cbn. exists (sset STRIPE_HANDLE sh). by auto. }
    exists sh', s. split; [done|]. assert (later fetch_flags sh sh') as Hl by (destruct Hsh as [-> | ->]; [apply later_refl|apply later_handle, later_refl]).
    split; try done; [destruct Hsh as [-> | ->]; [done|by apply (mid_state conf w sh _ s s V synced)]|by destruct Hsh as [-> | ->]|left; destruct Hsh as [-> | ->]; done|by destruct Hsh as [-> | ->]|congruence].
  - destruct (fill_ok conf w V synced sh s Hm Hn Hc H0) as (sh' & s' & Heq & Hor). unfold fill in Heq. rewrite Heq. exists sh', s'. split; [done|].
    assert (is_idle sh = true) as Hid by (unfold is_idle; rewrite Hidle; unfold checking in Hck; apply negb_false_iff in Hck; by rewrite Hck).
    destruct Hor as [[P1 (T & P2) P3 P4 P5 P6 P7 P8 P9]|[[F1 F2 F3 F4 F5 [S1 S2 S3 [S4 S4'] S5]] Hall]].
    + split; try done.
      * by rewrite P4.
      * right. split; [|by exists T]. by rewrite P6.
      * intros c Hcc. rewrite P6. by destruct c.
      * intros o Ho. rewrite P7. by destruct o.
      * congruence.
      * intros _ _ _. left. destruct (cp_targets _ _ _ _ _ P2) as [(t & -> & _)|(t & t2 & -> & _)]; exists t; (split; [apply (cp_in _ _ _ _ _ P2); by left|apply (cp_want _ _ _ _ _ P2); [apply (cp_in _ _ _ _ _ P2)|]; by left]).
    + split; try done.
      * by rewrite F5.
      * by left.
      * intros c _. by rewrite S2.
      * intros o _. by rewrite S3.
      * congruence.
      * intros _ Hsy Hl. right. specialize (Hall Hid Hsy Hl). split; [by apply all_counted|done].
Qed.

(** * Writes and checks *)

Lemma dirty_or_not sh s :
  mid conf w sh s V synced -> compute_ready conf V sh s -> reconstruct_state sh = reconstruct_state_idle -> ops_request s STRIPE_OP_PREXOR = false ->
  (forall i, in_stripe sh i -> test_bit R5_Wantdrain (dev sh i) = false) -> (cnt s locked = 0 -> forall i, in_stripe sh i -> written (dev sh i) = []) ->
  cnt s to_write = count (fun i => nonempty (towrite (dev sh i))) (seqZ 0 (Z.of_nat (disks sh))) ->
  exists sh' s', (if is_idle sh && negb (cnt s to_write =? 0) then handle_stripe_dirtying conf w sh s else Some (sh, s)) = Some (sh', s') /\
    (prefetched conf w V synced sh s sh' s' /\ (checking sh = true -> sh' = sh /\ s' = s) \/ (started conf w V synced sh s sh' s' /\ checking sh = false)).
Proof.
  intros Hm Hc Hidle Hpre Hdr Hwr Hcnt. destruct (is_idle sh && negb (cnt s to_write =? 0)) eqn:Hg.
  - apply andb_true_iff in Hg as [Hid H0%negb_true_iff%Z.eqb_neq]. assert (checking sh = false) as Hck by (unfold is_idle in Hid; apply andb_true_iff in Hid as [Hid _]; unfold checking; by rewrite Hid).
    destruct (dirtying_ok conf w V synced sh s) as (sh' & s' & -> & Hor); try done.
    { rewrite Hcnt in H0. destruct (count_ex (fun i => nonempty (towrite (dev sh i))) (seqZ 0 (Z.of_nat (disks sh)))) as (i & Hi%in_seqZ & Hw);
        [pose proof (count_nonneg (fun i => nonempty (towrite (dev sh i))) (seqZ 0 (Z.of_nat (disks sh)))); lia|]. exists i. split; [done|]. by destruct (towrite (dev sh i)). }
    exists sh', s'. split; [done|]. destruct Hor; [left|right]; split; try done. congruence.
  - exists sh, s. split; [done|]. left. split; [by apply prefetched_refl|done].
Qed.

Lemma checks_ok sh s :
  mid conf w sh s V synced -> reconstruct_state sh = reconstruct_state_idle -> ops_request s STRIPE_OP_CHECK = false ->
  cond s q_failed = (if level conf =? 6 then negb (test_bit R5_Insync (dev sh (qd sh))) else true) -> check_ready conf w sh s ->
  exists sh' s', (if check_wanted sh s then if level conf =? 6 then handle_parity_checks6 w sh s else handle_parity_checks5 w sh s else Some (sh, s)) = Some (sh', s') /\
    checked conf w V synced sh s sh' s'.
Proof.
  intros Hm Hidle Hop Hq Hr. destruct (check_wanted sh s) eqn:Hw.
  - destruct (Z.eqb_spec (level conf) 6) as [Hl|Hl]; [by apply checks6_ok|by apply checks5_ok].
  - exists sh, s. split; [done|]. apply checked_same; try done; [by left|]. left. unfold check_wanted in Hw. apply orb_false_iff in Hw as [Hw _]. apply negb_false_iff in Hw. by destruct (check_state sh).
Qed.

(** * The end *)

(** The plan of a stripe. *)
Record agreed (sh : stripe) (s : stripe_head_state) : Prop := {
  ag_compute : compute_ready conf V sh s;
  ag_write : (exists rmw, write_plan conf V rmw sh s) \/
    (reconstruct_state sh = reconstruct_state_idle /\
      (forall o, o = STRIPE_OP_PREXOR \/ o = STRIPE_OP_BIODRAIN \/ o = STRIPE_OP_RECONSTRUCT -> ops_request s o = false) /\
      forall i, in_stripe sh i -> test_bit R5_Wantdrain (dev sh i) = false);
  ag_check : check_done conf w V sh s /\ (checking sh = true -> reconstruct_state sh = reconstruct_state_idle);
  ag_written i : in_stripe sh i -> written (dev sh i) <> [] ->
    test_bit R5_UPTODATE (dev sh i) = true /\ forall j, in_stripe sh j -> is_parity sh j = true -> test_bit R5_UPTODATE (dev sh j) = true;
  ag_overwrite i : in_stripe sh i -> test_bit R5_OVERWRITE (dev sh i) = true ->
    test_bit R5_UPTODATE (dev sh i) = true \/ is_covered conf (dev sh i) = true \/ test_bit R5_Wantdrain (dev sh i) = true;
}.

Lemma flagged_compute (X : r5dev_flag -> bool) sh sh' s s' :
  flagged X sh sh' -> X R5_Wantcompute = false -> ops_request s' STRIPE_OP_COMPUTE_BLK = ops_request s STRIPE_OP_COMPUTE_BLK -> cond s' req_compute = cond s req_compute ->
  compute_ready conf V sh s -> compute_ready conf V sh' s'.
Proof.
  intros Hf HX Ho Hc. pose proof Hf as [f1 f2 f3 [f4 f4'] f5 f6]. intros [(N1 & N2 & N3 & N4)|(C & T & [P1 P2 P3 P4 P5 P6])]; [left|right].
  - unfold no_compute. rewrite Ho, Hc, f5 by auto. repeat split; try done. intros i Hi. apply (flagged_in _ _ _ i Hf) in Hi. rewrite (flagged_flag _ _ _ i _ Hf) by done. by apply N4.
  - rewrite Hc. split; [done|]. exists T. split; rewrite ?Ho, ?f4, ?f4', ?f5; try done; try (by auto).
    + intros t Ht. apply (flagged_in _ _ _ t Hf). by apply P4.
    + intros i Hi. apply (flagged_in _ _ _ i Hf) in Hi. rewrite (flagged_flag _ _ _ i _ Hf) by done. by apply P5.
    + intros i Hi Hn. apply (flagged_in _ _ _ i Hf) in Hi. destruct (flagged_fields _ _ _ i Hf Hi) as (-> & _). by apply P6.
Qed.

Definition light (f : r5dev_flag) : bool := repair_moves f || overlap_flags f.

Section Light.
Context (sh sh' : stripe) (s s' : stripe_head_state) (Hf : flagged light sh sh').
Context (Hck : check_state sh' = check_state sh) (Hz : zero_sum_result sh' = zero_sum_result sh).
Context (Ho : ops_request s' = ops_request s) (Hc : cond s' = cond s).
Context (Hlk : test_bit R5_UPTODATE (dev sh (pd sh)) = true \/ test_bit R5_LOCKED (dev sh' (pd sh)) = test_bit R5_LOCKED (dev sh (pd sh))).

Lemma light_compute : compute_ready conf V sh s -> compute_ready conf V sh' s'.
Proof using Hf Ho Hc. intros H. by apply (flagged_compute light sh sh' s s'); rewrite ?Ho, ?Hc. Qed.

Lemma light_covered i : in_stripe sh i -> is_covered conf (dev sh' i) = is_covered conf (dev sh i).
Proof using Hf. intros Hi. destruct (flagged_fields _ _ _ i Hf Hi) as (_ & _ & E1 & _ & E2). unfold is_covered. by rewrite E1, E2. Qed.

Lemma light_parity i : is_parity sh' i = is_parity sh i.
Proof using Hf. unfold is_parity, pd, qd. by rewrite (fg_geo _ _ _ Hf). Qed.

Lemma light_plan rmw : write_plan conf V rmw sh s -> write_plan conf V rmw sh' s'.
Proof using Hf Ho.
  intros [W1 W2 W3 W4 W5 W6 W7]. assert (forall i, in_stripe sh' i -> in_stripe sh i) as Hin by (intros i; apply (flagged_in _ _ _ i Hf)).
  assert (forall i, in_stripe sh i -> test_bit R5_Wantdrain (dev sh' i) = test_bit R5_Wantdrain (dev sh i) /\ test_bit R5_Wantcompute (dev sh' i) = test_bit R5_Wantcompute (dev sh i)) as Hfl
    by (intros i Hi; split; by apply (flagged_flag _ _ _ i _ Hf)).
  split; rewrite ?Ho, ?(fg_reconstruct _ _ _ Hf); try done.
  - intros i Hi%Hin. destruct (flagged_fields _ _ _ i Hf Hi) as (_ & _ & _ & -> & _). by apply W3.
  - intros i Hi%Hin. destruct (Hfl i Hi) as [-> _]. destruct (flagged_fields _ _ _ i Hf Hi) as (_ & _ & -> & _). rewrite light_parity. by apply W4.
  - destruct W5 as (i & Hi & Hw). exists i. destruct (Hfl i Hi) as [-> _]. split; [by apply (flagged_in _ _ _ i Hf)|done].
  - intros i Hr Hi%Hin. rewrite light_parity, light_covered by done. destruct (Hfl i Hi) as [-> ->]. destruct (flagged_fields _ _ _ i Hf Hi) as (-> & _). by apply W6.
  - intros i Hr Hi%Hin. rewrite light_parity by done. destruct (Hfl i Hi) as [-> ->]. destruct (flagged_fields _ _ _ i Hf Hi) as (-> & _). by apply W7.
Qed.

Lemma light_blocks : in_stripe sh (pd sh) -> check_blocks conf w sh -> check_blocks conf w sh'.
Proof using Hf Hlk.
  intros Hp [B1 B2]. assert (pd sh' = pd sh) as Epd by (unfold pd; by rewrite (fg_geo _ _ _ Hf)). split.
  - intros i Hi Hne. rewrite Epd in Hne. apply (flagged_in _ _ _ i Hf) in Hi. rewrite (flagged_flag _ _ _ i _ Hf) by done. by apply B1.
  - rewrite Epd, (flagged_flag _ _ _ _ _ Hf) by done. destruct B2 as [|B2]; [by left|]. destruct Hlk as [|Hlk']; [by left|right]. unfold p_unneeded in *. cbn in *. rewrite Epd, Hlk'.
    rewrite !(flagged_flag _ _ _ _ _ Hf) by done. unfold sector in *. by rewrite (fg_geo _ _ _ Hf).
Qed.

Lemma light_agreed : in_stripe sh (pd sh) -> agreed sh s -> agreed sh' s'.
Proof using Hf Hck Hz Ho Hc Hlk.
  intros Hp [A1 A2 [A3 A4] A5 A6]. assert (forall i, in_stripe sh' i -> in_stripe sh i) as Hin by (intros i; apply (flagged_in _ _ _ i Hf)). split.
  - by apply light_compute.
  - destruct A2 as [(rmw & A2)|(B1 & B2 & B3)]; [left; exists rmw; by apply light_plan|right]. split; [by rewrite (fg_reconstruct _ _ _ Hf)|]. split; [by rewrite Ho|].
    intros i Hi%Hin. rewrite (flagged_flag _ _ _ i _ Hf) by done. by apply B3.
  - split; [|unfold checking; by rewrite Hck, (fg_reconstruct _ _ _ Hf)]. unfold check_done in *. rewrite Hck, Hz, Ho.
    destruct A3 as [A3|[(B1 & B2 & B3 & B4 & B5)|(B1 & B2 & B3 & B4)]]; [by left|right; left|right; right].
    + repeat split; try done; by apply light_blocks.
    + split; [done|]. assert (pd sh' = pd sh) as -> by (unfold pd; by rewrite (fg_geo _ _ _ Hf)). rewrite (fg_state _ _ _ Hf), (flagged_flag _ _ _ _ _ Hf) by auto.
      split; [done|]. split; [by apply light_blocks|]. intros i Hi%Hin. destruct (flagged_fields _ _ _ i Hf Hi) as (-> & _). by apply B4.
  - intros i Hi%Hin. destruct (flagged_fields _ _ _ i Hf Hi) as (_ & _ & _ & -> & _). rewrite (flagged_flag _ _ _ i _ Hf) by done. intros Hw. destruct (A5 i Hi Hw) as [E1 E2].
    split; [done|]. intros j Hj%Hin. rewrite light_parity, (flagged_flag _ _ _ j _ Hf) by done. by apply E2.
  - intros i Hi%Hin. rewrite light_covered by done. rewrite !(flagged_flag _ _ _ i _ Hf) by done. by apply A6.
Qed.
End Light.

(** Nothing is locked only when no write is planned. *)
Lemma unlocked_idle sh s : mid conf w sh s V synced -> agreed sh s -> cnt s locked = 0 -> reconstruct_state sh = reconstruct_state_idle.
Proof.
  intros Hm [_ [(rmw & Hw)|(Hi & _)] _ _ _] H0; [|done]. destruct (wp_some _ _ _ _ _ Hw) as (i & Hi & Hd). destruct (mi_dev _ _ _ _ _ _ Hm i Hi) as [st Hst].
  pose proof (status_locked _ _ _ _ _ _ _ Hst (mi_locked _ _ _ _ _ _ Hm i H0 Hi)) as ->. assert (Idle = Pend) as E; [|done]. destruct Hst as [[_ _ _ _ _ _ K7 _ _ _ _] _ _].
  apply K7. unfold takes_part. rewrite Hd, orb_true_r, andb_true_r. unfold busy_ops. rewrite (wp_state _ _ _ _ _ Hw). by destruct rmw.
Qed.

Lemma synced_stored sh s :
  mid conf w sh s V synced -> cnt s locked = 0 -> all_synced synced sh = true ->
  forall i m, in_stripe sh i -> working (rdev (disk w i)) = Some m -> is_bad (bad m) = false -> stored m = V i.
Proof.
  intros Hm H0 Ha i m Hi Hw Hb. destruct (mi_dev _ _ _ _ _ _ Hm i Hi) as [st Hst]. pose proof (status_locked _ _ _ _ _ _ _ Hst (mi_locked _ _ _ _ _ _ Hm i H0 Hi)) as ->.
  destruct Hst as [[_ _ _ _ _ _ _ _ K9 _ _] [E1 _] _]. destruct (K9 m Hw E1) as [|?]; [left; by auto|done|done].
Qed.

Lemma conclude sh s :
  mid conf w sh s V synced -> agreed sh s -> cond s syncing || cond s replacing = stest STRIPE_SYNCING sh ->
  (cond s replacing = true -> forall i, in_stripe sh i -> test_bit R5_Insync (dev sh i) = false -> works (rdev (disk w i)) = false) ->
  exists sh1 sh2 sh' s' out, write_replacements sh s = (sh1, s) /\ finish_sync sh1 s = (sh2, out) /\ repair_read_errors conf w sh2 s = (sh', s') /\
    mid conf w sh' s' V (synced || synced_by out) /\ agreed sh' s' /\ flagged light sh sh' /\ ops_request s' = ops_request s /\ cond s' = cond s /\
    (out = [] \/ (out = [Sync_done true] /\ reconstruct_state sh' = reconstruct_state_idle /\
      forall i m, in_stripe sh' i -> working (rdev (disk w i)) = Some m -> is_bad (bad m) = false -> stored m = V i)).
Proof.
  intros Hm Hag Hsy Hrep. destruct (parity_member _ _ _ _ _ _ Hm) as (Hp & _ & _).
  destruct (replacements_ok conf w V synced sh s Hm Hrep) as (sh1 & E1 & M1 & F1 & D1 & C1 & Z1 & S1). exists sh1.
  destruct (finish_sync_ok conf w V synced sh1 s M1) as (sh2 & out & E2 & M2 & F2 & C2 & Z2 & O2); [by rewrite S1|]. exists sh2.
  destruct (repairs_ok conf w V (synced || synced_by out) sh2 s M2) as (sh' & s' & E3 & [M3 F3 R3 O3 Cd3 SF3 L3]). exists sh', s', out.
  assert (check_state sh' = check_state sh2 /\ zero_sum_result sh' = zero_sum_result sh2) as [C3 Z3] by (injection R3; intros; split; congruence).
  assert (flagged light sh sh') as HF.
  { eapply flagged_trans; [eapply flagged_weaken; [|exact F1]; done|]. eapply flagged_trans; (eapply flagged_weaken; [|done]); intros f Hf; by destruct f. }
  assert (test_bit R5_UPTODATE (dev sh (pd sh)) = true \/ test_bit R5_LOCKED (dev sh' (pd sh)) = test_bit R5_LOCKED (dev sh (pd sh))) as Hlk.
  { pose proof (proj2 (flagged_in _ _ _ _ F1) Hp) as Hp1. pose proof (proj2 (flagged_in _ _ _ _ F2) Hp1) as Hp2.
    destruct (L3 _ Hp2) as [H|H]; rewrite !(flagged_flag _ _ _ _ _ F2), !(flagged_flag _ _ _ _ _ F1) in H by done; auto. }
  do 4 (split; [done|]). split; [apply (light_agreed sh sh' s s'); done || congruence|]. do 3 (split; [done|]).
  destruct O2 as [|(-> & H0 & Ha)]; [by left|right]. split; [done|].
  assert (mid conf w sh1 s V synced) as M1' by done. split.
  - rewrite (fg_reconstruct _ _ _ HF). by apply (unlocked_idle sh s).
  - intros i m Hi. apply (synced_stored sh1 s M1 H0 Ha). apply (flagged_in _ _ _ i HF) in Hi. by apply (flagged_in _ _ _ i F1).
Qed.

(** * The composition *)

Section Compose.
Context (sh0 : stripe) (s0 : stripe_head_state) (sh2 : stripe) (s2 : stripe_head_state) (sh3 : stripe) (s3 : stripe_head_state).
Context (Hex : examined sh0 s0) (Hse : settled sh0 s0 sh2 s2) (Hfd : filled sh2 s2 sh3 s3).

Lemma filling_devs : devs (filling sh0 s0) = devs sh0 /\ geo (filling sh0 s0) = geo sh0.
Proof using. unfold filling. by destruct (_ =? _). Qed.

Lemma filling_in i : in_stripe (filling sh0 s0) i <-> in_stripe sh0 i.
Proof using. destruct filling_devs as [H _]. unfold in_stripe, disks. by rewrite H. Qed.

Lemma filling_dev i : dev (filling sh0 s0) i = dev sh0 i.
Proof using. destruct filling_devs as [H _]. unfold dev. by rewrite H. Qed.

Lemma tracks3 : tracks (filling sh0 s0) sh3.
Proof using Hse Hfd. eapply tracks_trans; [apply (sl_tracks _ _ _ _ Hse)|]. eapply tracks_later; [|apply (fd_later _ _ _ _ Hfd)]. intros f Hf. by destruct f. Qed.

Lemma in3 i : in_stripe sh3 i <-> in_stripe sh0 i.
Proof using Hse Hfd. rewrite (tracks_in _ _ i tracks3). apply filling_in. Qed.

Lemma parity3 i : is_parity sh3 i = is_parity sh0 i.
Proof using Hse Hfd. rewrite (tracks_parity _ _ i tracks3). unfold is_parity, pd, qd. by rewrite (proj2 filling_devs). Qed.

Lemma in32 i : in_stripe sh3 i <-> in_stripe sh2 i.
Proof using Hfd. apply (later_in _ _ _ i (fd_later _ _ _ _ Hfd)). Qed.

Lemma uptodate3 i : in_stripe sh3 i -> test_bit R5_UPTODATE (dev sh3 i) = test_bit R5_UPTODATE (dev sh0 i).
Proof using Hse Hfd.
  intros Hi%in32. rewrite (later_flag _ _ _ i _ (fd_later _ _ _ _ Hfd)) by done. by apply (sl_uptodate _ _ _ _ Hse).
Qed.

Lemma written3 i : in_stripe sh3 i -> written (dev sh3 i) = written (dev sh2 i).
Proof using Hfd. intros Hi%in32. by destruct (later_fields _ _ _ i (fd_later _ _ _ _ Hfd) Hi) as (_ & _ & _ & -> & _). Qed.

Lemma drain3 i : in_stripe sh3 i -> test_bit R5_Wantdrain (dev sh3 i) = false.
Proof using Hse Hfd. intros Hi%in32. rewrite (later_flag _ _ _ i _ (fd_later _ _ _ _ Hfd)) by done. by apply (sl_drain _ _ _ _ Hse). Qed.

Lemma overwrite3 i : in_stripe sh3 i -> test_bit R5_OVERWRITE (dev sh3 i) = true -> test_bit R5_UPTODATE (dev sh3 i) = true \/ is_covered conf (dev sh3 i) = true.
Proof using Hex Hse Hfd.
  intros Hi. rewrite uptodate3 by done. pose proof Hi as Hi0%in3. rewrite (tracks_covered conf _ _ i tracks3), (tr_flag _ _ tracks3), filling_dev by (done || by apply filling_in).
  by apply (ex_overwrite _ _ Hex).
Qed.

Lemma acknowledge3 i : in_stripe sh3 i -> written (dev sh3 i) <> [] ->
  test_bit R5_UPTODATE (dev sh3 i) = true /\ forall j, in_stripe sh3 j -> is_parity sh3 j = true -> test_bit R5_UPTODATE (dev sh3 j) = true.
Proof using Hex Hse Hfd.
  intros Hi. rewrite written3 by done. intros Hw. assert (written (dev sh0 i) <> []) as Hw0.
  { apply in32 in Hi. by destruct (sl_written _ _ _ _ Hse i Hi) as [<-|[? _]]. }
  pose proof (ex_early _ _ Hex) as He. rewrite uptodate3 by done. apply in3 in Hi. split; [by apply (ea_written _ He)|]. intros j Hj Hp. rewrite uptodate3 by done.
  rewrite parity3 in Hp. apply in3 in Hj. by apply (ea_parity _ He i j).
Qed.

Lemma locked3 : cnt s3 locked = 0 -> forall i, in_stripe sh3 i -> written (dev sh3 i) = [].
Proof using Hse Hfd.
  intros H0 i Hi. rewrite written3 by done. apply (sl_locked _ _ _ _ Hse); [|by apply in32]. pose proof (fd_locked _ _ _ _ Hfd). pose proof (mi_locked0 _ _ _ _ _ _ (sl_mid _ _ _ _ Hse)). lia.
Qed.

Lemma ops3 o : o <> STRIPE_OP_COMPUTE_BLK -> o <> STRIPE_OP_BIOFILL -> ops_request s3 o = false.
Proof using Hse Hfd. intros H1 H2. rewrite (fd_ops _ _ _ _ Hfd), (sl_ops _ _ _ _ Hse) by done. by destruct o. Qed.

Lemma to_write3 : cnt s3 to_write = count (fun i => nonempty (towrite (dev sh3 i))) (seqZ 0 (Z.of_nat (disks sh3))).
Proof using Hex Hse Hfd.
  rewrite (fd_to_write _ _ _ _ Hfd), (sl_cnt _ _ _ _ Hse), (an_cnt _ _ _ (ex_analysis _ _ Hex)). rewrite (tr_disks _ _ tracks3). unfold disks at 2. rewrite (proj1 filling_devs).
  apply count_ext. intros i Hi%in_seqZ. cbn. destruct (tr_fields _ _ tracks3 i) as (_ & _ & -> & _); [by apply filling_in|]. by rewrite filling_dev.
Qed.

Lemma check3 : check_state sh3 = check_state sh0 /\ zero_sum_result sh3 = zero_sum_result sh0.
Proof using Hse Hfd.
  destruct (sl_check _ _ _ _ Hse) as [<- <-]. split; [apply (la_check _ _ _ (fd_later _ _ _ _ Hfd))|apply (la_zero _ _ _ (fd_later _ _ _ _ Hfd))].
Qed.

(** ** A write was started *)

Lemma started_agreed sh4 s4 : started conf w V synced sh3 s3 sh4 s4 -> checking sh3 = false -> agreed sh4 s4.
Proof using Hex Hse Hfd.
  intros [A1 (rmw & A2) A3 A4 A5 A6 A7 A8 A9 [A10 A11]] Hck. split; try done.
  - left. by exists rmw.
  - assert (check_state sh4 = check_state_idle) as E. { rewrite (la_check _ _ _ A3). unfold checking in Hck. apply negb_false_iff in Hck. by destruct (check_state sh3). }
    split; [|unfold checking; by rewrite E]. left. split; [done|]. rewrite A11. by apply ops3.
  - intros i Hi Hw. destruct Hw. by apply (wp_written _ _ _ _ _ A2).
  - intros i Hi Ho. pose proof Hi as Hi3%(later_in _ _ _ i A3). rewrite (later_flag _ _ _ i _ A3) in Ho by done. destruct (A8 i Hi3) as [->|[->|Hp]].
    + destruct (overwrite3 i Hi3 Ho) as [|Hc]; [by left|right; left]. destruct (later_fields _ _ _ i A3 Hi3) as (_ & _ & E1 & _ & E2). unfold is_covered in *. by rewrite E1, E2.
    + by auto.
    + destruct (mi_dev _ _ _ _ _ _ (fd_mid _ _ _ _ Hfd) i Hi3) as [st [[K _ _ _ _ _ _ _ _ _ _] _ _]]. destruct (dw_parity _ _ _ K Hp) as (_ & _ & _ & E). congruence.
Qed.

(** ** Nothing but reads was started *)

Lemma prefetched_check_ready sh4 s4 :
  prefetched conf w V synced sh3 s3 sh4 s4 -> (checking sh3 = true -> sh4 = sh3 /\ s4 = s3) -> check_ready conf w sh4 s4.
Proof using Hex Hse Hfd.
  intros [A1 A2 A3 [S1 S2 S3 [S4 S4'] S5] A5 A6] Hsame. destruct check3 as [E1 E2]. destruct (checking sh3) eqn:Hck.
  - right. destruct Hsame as [-> ->]; [done|]. assert (checking sh0 = true) as Hc0 by (unfold checking in *; by rewrite <- E1). destruct (ex_check _ _ Hex Hc0) as (C1 & C2 & C3 & C4).
    rewrite E1, E2. assert (s3 = s2 /\ devs sh3 = devs sh2) as [E3 E3'] by (apply (fd_checking _ _ _ _ Hfd); unfold checking in *; by rewrite (proj1 (sl_check _ _ _ _ Hse))).
    rewrite E3, (sl_cnt _ _ _ _ Hse). split; [done|]. split; [done|]. destruct C3 as [B1 B2]. assert (pd sh3 = pd sh0) as Epd by (unfold pd; rewrite (tr_geo _ _ tracks3); by rewrite (proj2 filling_devs)).
    assert (in_stripe sh3 (pd sh3)) as Hp by (apply (parity_member _ _ _ _ _ _ (fd_mid _ _ _ _ Hfd))). split.
    + intros i Hi Hne. rewrite Epd in Hne. rewrite uptodate3 by done. apply B1; [by apply in3|done].
    + rewrite uptodate3, Epd by done. destruct B2 as [|B2]; [by left|right]. unfold p_unneeded in *. cbn in *. rewrite Epd. rewrite Epd in Hp.
      assert (test_bit R5_LOCKED (dev sh3 (pd sh0)) = test_bit R5_LOCKED (dev sh0 (pd sh0))) as ->.
      { rewrite <- (sl_lock _ _ _ _ Hse) by (by apply in32). unfold dev. by rewrite E3'. }
      rewrite !(tr_flag _ _ tracks3), filling_dev by (done || by apply filling_in, in3). unfold sector in *. rewrite (tr_geo _ _ tracks3). by rewrite (proj2 filling_devs).
  - left. split. { rewrite (la_check _ _ _ A2). unfold checking in Hck. apply negb_false_iff in Hck. by destruct (check_state sh3). }
    intros Hsy H0 Hrun. pose proof (A6 H0) as Hdev. assert (cnt s3 locked = 0) as H03 by (pose proof (mi_locked0 _ _ _ _ _ _ (fd_mid _ _ _ _ Hfd)); lia).
    assert (checking sh2 = false) as Hck2. { unfold checking in *. by rewrite <- (la_check _ _ _ (fd_later _ _ _ _ Hfd)). }
    rewrite S2, (fd_cond _ _ _ _ Hfd) in Hsy by done. destruct (fd_blocks _ _ _ _ Hfd Hck2 Hsy H03) as [(i & Hi & Hw)|[Hu Hall]].
    + exfalso. destruct (A5 (fd_compute _ _ _ _ Hfd)) as [(_ & _ & _ & N)|(_ & T & P)].
      * pose proof (N i (proj2 (later_in _ _ _ i A2) Hi)) as Hn. rewrite Hdev in Hn by done. congruence.
      * rewrite (cp_run _ _ _ _ _ P) in Hrun. done.
    + split; [by rewrite S4, (la_disks _ _ _ A2)|]. intros i Hi%(later_in _ _ _ i A2). rewrite Hdev by done. by apply Hall.
Qed.

Lemma checked_agreed sh4 s4 sh5 s5 :
  prefetched conf w V synced sh3 s3 sh4 s4 -> checked conf w V synced sh4 s4 sh5 s5 -> agreed sh5 s5.
Proof using Hex Hse Hfd.
  intros [A1 A2 A3 [S1 S2 S3 [S4 S4'] S5] A5 A6] [B1 B2 B3 B4 B5 B6 B7 B8].
  assert (forall i, in_stripe sh5 i <-> in_stripe sh3 i) as Hin by (intros i; rewrite (flagged_in _ _ _ i B2); apply (later_in _ _ _ i A2)).
  assert (forall i, in_stripe sh4 i <-> in_stripe sh3 i) as Hin4 by (intros i; apply (later_in _ _ _ i A2)).
  assert (forall i f, in_stripe sh3 i -> preread_flags f = false -> check_flags f = false -> test_bit f (dev sh5 i) = test_bit f (dev sh3 i)) as Hfl.
  { intros i f Hi F1 F2. rewrite (flagged_flag _ _ _ i _ B2) by (done || by apply Hin4). by apply (later_flag _ _ _ i _ A2). }
  assert (forall i, in_stripe sh3 i -> written (dev sh5 i) = written (dev sh3 i) /\ is_covered conf (dev sh5 i) = is_covered conf (dev sh3 i)) as Hwr.
  { intros i Hi. destruct (flagged_fields _ _ _ i B2) as (_ & _ & E1 & -> & E2); [by apply Hin4|]. destruct (later_fields _ _ _ i A2 Hi) as (_ & _ & E3 & -> & E4).
    split; [done|]. unfold is_covered. by rewrite E1, E2, E3, E4. }
  assert (forall i, is_parity sh5 i = is_parity sh3 i) as Hpar by (intros i; unfold is_parity, pd, qd; by rewrite (fg_geo _ _ _ B2), (la_geo _ _ _ A2)).
  assert (pd sh4 = pd sh3) as Epd by (unfold pd; by rewrite (la_geo _ _ _ A2)).
  assert (forall i, in_stripe sh3 i -> test_bit R5_UPTODATE (dev sh5 i) = test_bit R5_UPTODATE (dev sh3 i) \/ (i = pd sh3 /\ cnt s3 locked = 0)) as Hup.
  { intros i Hi. rewrite <- (later_flag _ _ _ i R5_UPTODATE A2) by done. destruct (B4 i) as [|(? & H0 & _)]; [by apply Hin4|by left|right]. split; [congruence|].
    pose proof (mi_locked0 _ _ _ _ _ _ (fd_mid _ _ _ _ Hfd)). lia. }
  assert (reconstruct_state sh5 = reconstruct_state_idle) as Hidle by (rewrite (fg_reconstruct _ _ _ B2), A3; apply (fd_idle _ _ _ _ Hfd)). split.
  - apply (flagged_compute check_flags sh4 sh5 s4 s5); try done; [by apply B6|by rewrite B5|by apply A5, (fd_compute _ _ _ _ Hfd)].
  - right. split; [done|]. split; [|intros i Hi%Hin; rewrite Hfl by done; by apply drain3]. intros o Ho. rewrite B6, S3 by (by destruct Ho as [-> |[-> | ->]]).
    apply ops3; by destruct Ho as [-> |[-> | ->]].
  - done.
  - intros i Hi%Hin. destruct (Hwr i Hi) as [-> _]. intros Hw. destruct (acknowledge3 i Hi Hw) as [H1 H2].
    assert (forall j, in_stripe sh3 j -> test_bit R5_UPTODATE (dev sh5 j) = test_bit R5_UPTODATE (dev sh3 j)) as Hup'.
    { intros j Hj. destruct (Hup j Hj) as [|[_ H0]]; [done|]. destruct Hw. by apply locked3. }
    rewrite Hup' by done. split; [done|]. intros j Hj%Hin Hp. rewrite Hpar in Hp. rewrite Hup' by done. by apply H2.
  - intros i Hi%Hin. rewrite Hfl by done. destruct (Hwr i Hi) as [_ ->]. intros Ho. destruct (Hup i Hi) as [->|[-> _]].
    + destruct (overwrite3 i Hi Ho); auto.
    + destruct (mi_dev _ _ _ _ _ _ (fd_mid _ _ _ _ Hfd) _ Hi) as [st [[K _ _ _ _ _ _ _ _ _ _] _ _]].
      destruct (dw_parity _ _ _ K) as (_ & _ & _ & E); [|congruence]. unfold is_parity. by rewrite Z.eqb_refl.
Qed.

(** The replacements, the end of the synchronisation and the repairs after all that. *)
Lemma finish_plan sh5 s5 :
  mid conf w sh5 s5 V synced -> agreed sh5 s5 -> tracks sh3 sh5 ->
  (forall i, in_stripe sh3 i -> written (dev sh5 i) = written (dev sh3 i)) ->
  (forall c, c = syncing \/ c = replacing \/ c = handle_bad_blocks -> cond s5 c = cond s3 c) -> ops_request s5 STRIPE_OP_BIOFILL = ops_request s3 STRIPE_OP_BIOFILL ->
  stest STRIPE_SYNCING sh5 = stest STRIPE_SYNCING sh3 -> cond s0 handle_bad_blocks = false ->
  exists sh6 sh7 sh s out, write_replacements sh5 s5 = (sh6, s5) /\ finish_sync sh6 s5 = (sh7, out) /\ repair_read_errors conf w sh7 s5 = (sh, s) /\
    planned sh0 sh s (acked sh0 sh2 ++ out).
Proof using Hex Hse Hfd.
  intros Hm Hag Htr Hw Hcond Hops Hsy Hbad. pose proof (ex_analysis _ _ Hex) as Ha.
  assert (forall c, c = syncing \/ c = replacing \/ c = handle_bad_blocks -> cond s5 c = cond s0 c) as Hc5.
  { intros c Hc. rewrite Hcond by done. rewrite (fd_cond _ _ _ _ Hfd) by (by destruct Hc as [-> |[-> | ->]]). by apply (sl_cond _ _ _ _ Hse). }
  assert (forall i, in_stripe sh5 i <-> in_stripe sh0 i) as Hin by (intros i; rewrite (tracks_in _ _ i Htr); apply in3).
  assert (tracks (filling sh0 s0) sh5) as Htr0 by (eapply tracks_trans; [apply tracks3|done]).
  destruct (conclude sh5 s5 Hm Hag) as (sh6 & sh7 & sh & s & out & E1 & E2 & E3 & M & A & F & O & C & Hout).
  - rewrite !Hc5 by auto. rewrite (an_sync _ _ _ Ha), Hsy, (la_state _ _ _ (fd_later _ _ _ _ Hfd)) by done. by rewrite (sl_syncing _ _ _ _ Hse).
  - rewrite Hc5 by auto. intros Hr i Hi%Hin. rewrite (tr_flag _ _ Htr0), filling_dev by (done || by apply filling_in). by apply (an_replacing _ _ _ Ha i Hr).
  - exists sh6, sh7, sh, s, out. do 3 (split; [done|]).
    assert (tracks sh5 sh) as Htr' by (eapply tracks_flagged; [|exact F]; intros f Hf; by destruct f).
    assert (forall i, in_stripe sh i <-> in_stripe sh2 i) as In2 by (intros i; rewrite (tracks_in _ _ i Htr'), (tracks_in _ _ i Htr); apply in32).
    assert (forall i, in_stripe sh2 i -> written (dev sh i) = written (dev sh2 i)) as Hw2.
    { intros i Hi. pose proof Hi as Hi3%in32. rewrite <- written3 by done. rewrite <- Hw by done. by destruct (flagged_fields _ _ _ i F) as (_ & _ & _ & -> & _); [apply (tracks_in _ _ i Htr)|]. }
    assert (synced_by (acked sh0 sh2 ++ out) = synced_by out) as Hsb.
    { unfold synced_by. rewrite existsb_app. replace (existsb _ (acked sh0 sh2)) with false; [done|]. symmetry. apply not_true_iff_false. rewrite existsb_exists. intros (r & Hr & Ht).
      unfold acked in Hr. rewrite <- list_elem_of_In in Hr. apply list_elem_of_join in Hr as (l & Hr & Hl). apply list_elem_of_fmap in Hl as (j & -> & _). unfold acked_dev in Hr.
      destruct (_ && _); [|by apply not_elem_of_nil in Hr]. apply list_elem_of_fmap in Hr as (b & -> & _). done. }
    assert (ops_request s STRIPE_OP_BIOFILL = negb (cnt s0 to_fill =? 0)) as Hbf by (rewrite O, Hops, (fd_ops _ _ _ _ Hfd), (sl_ops _ _ _ _ Hse) by done; done).
    destruct A as [A1 A2 A3 A4 A5]. split; try done.
    + by rewrite Hsb.
    + rewrite Hbf. eapply tracks_trans; [|exact Htr']. unfold filling in Htr0. by destruct (cnt s0 to_fill =? 0).
    + intros i Hi Hf. rewrite Hbf. apply negb_true_iff, Z.eqb_neq. rewrite (an_cnt _ _ _ Ha). pose proof (count_pos (fun i => counts to_fill (dev sh0 i)) (seqZ 0 (Z.of_nat (disks sh0))) i) as Hp.
      cbn in Hp. specialize (Hp (proj1 (in_seqZ _ _) Hi) Hf). cbn. lia.
    + intros i Hi%In2. rewrite Hw2 by done. by apply (sl_written _ _ _ _ Hse).
    + exists out. split; [|done]. f_equal. unfold acked. f_equal. apply map_ext_in. intros i Hi. unfold indices_down in Hi. rewrite <- in_rev, <- list_elem_of_In in Hi. apply in_seqZ in Hi.
      unfold acked_dev. rewrite Hw2; [done|]. by apply in32, in3.
    + rewrite C, Hc5 by auto. done.
Qed.
End Compose.

Lemma decide_ok sh0 s0 :
  examined sh0 s0 -> cond s0 handle_bad_blocks = false ->
  exists sh s out, decide_stripe conf w sh0 s0 = Some (w, sh, s, out) /\ planned sh0 sh s out.
Proof.
  intros Hex Hbad. unfold decide_stripe. destruct (settle sh0 s0 Hex) as (sh & s & -> & -> & sh1 & s1 & -> & sh2 & E2 & Hse). cbn [mbind option_bind]. rewrite E2.
  set (s2 := set_parity_failed conf sh1 s1) in *. clearbody s2.
  destruct (fill_filled sh2 s2) as (sh3 & s3 & -> & Hfd).
  { apply Hse. } { apply Hse. } { apply Hse. } { apply Hse. }
  { rewrite (sl_cnt _ _ _ _ Hse), (an_cnt _ _ _ (ex_analysis _ _ Hex)). apply count_none. intros i Hi%in_seqZ. by apply (ea_wants _ (ex_early _ _ Hex)). }
  cbn [mbind option_bind]. destruct (dirty_or_not sh3 s3) as (sh4 & s4 & -> & Hor).
  { apply Hfd. } { apply Hfd. } { apply Hfd. } { by apply (ops3 sh0 s0 sh2 s2 sh3 s3 Hse Hfd). } { by apply (drain3 sh0 s0 sh2 s2 sh3 s3). }
  { by apply (locked3 sh0 s0 sh2 s2 sh3 s3). } { by apply (to_write3 sh0 s0 sh2 s2 sh3 s3). }
  cbn [mbind option_bind]. destruct Hor as [[Hpf Hsame]|[Hst Hck]].
  - pose proof Hpf as [A1 A2 A3 [S1 S2 S3 _ _] _ _].
    destruct (checks_ok sh4 s4 A1) as (sh5 & s5 & -> & Hchk); [by rewrite A3; apply Hfd|rewrite S3; by apply (ops3 sh0 s0 sh2 s2 sh3 s3)| |by apply (prefetched_check_ready sh0 s0 sh2 s2 sh3 s3)|].
    { rewrite S2, (fd_cond _ _ _ _ Hfd), (sl_q _ _ _ _ Hse) by done. pose proof (fd_later _ _ _ _ Hfd) as Hl. assert (qd sh4 = qd sh2) as -> by (unfold qd; by rewrite (la_geo _ _ _ A2), (la_geo _ _ _ Hl)).
      destruct (level conf =? 6) eqn:El; [|done]. destruct (parity_member _ _ _ _ _ _ (sl_mid _ _ _ _ Hse)) as (_ & _ & Hq). rewrite El in Hq. destruct Hq as (Hq & _).
      rewrite (later_flag _ _ _ _ _ A2), (later_flag _ _ _ _ _ Hl); try done. by apply (later_in _ _ _ _ Hl). }
    cbn [mbind option_bind]. pose proof Hchk as [B1 B2 _ _ B5 B6 _ B8].
    destruct (finish_plan sh0 s0 sh2 s2 sh3 s3 Hex Hse Hfd sh5 s5 B1) as (sh6 & sh7 & sh8 & s8 & out & -> & -> & -> & Hpl); try done.
    + by apply (checked_agreed sh0 s0 sh2 s2 sh3 s3 Hex Hse Hfd sh4 s4).
    + eapply tracks_trans; [eapply tracks_later; [|exact A2]|eapply tracks_flagged; [|exact B2]]; intros f Hf; by destruct f.
    + intros i Hi. destruct (flagged_fields _ _ _ i B2) as (_ & _ & _ & -> & _); [by apply (later_in _ _ _ i A2)|]. by destruct (later_fields _ _ _ i A2 Hi) as (_ & _ & _ & -> & _).
    + intros c _. by rewrite B5, S2.
    + by rewrite B6, S3.
    + by rewrite B8, (la_state _ _ _ A2).
    + eexists _, _, _. split; [reflexivity|]. done.
  - pose proof Hst as [A1 A2 A3 A4 A5 A6 A7 A8 A9 [A10 A11]].
    assert (check_wanted sh4 s4 = false) as ->.
    { unfold check_wanted. rewrite (la_check _ _ _ A3). unfold checking in Hck. rewrite Hck. rewrite (proj2 (Z.eqb_neq _ _)) by lia. by rewrite andb_false_r. }
    cbn [mbind option_bind].
    destruct (finish_plan sh0 s0 sh2 s2 sh3 s3 Hex Hse Hfd sh4 s4 A1) as (sh6 & sh7 & sh8 & s8 & out & -> & -> & -> & Hpl); try done.
    + by apply (started_agreed sh0 s0 sh2 s2 sh3 s3 Hex Hse Hfd).
    + eapply tracks_later; [|exact A3]. intros f Hf. by destruct f.
    + intros i Hi. by destruct (later_fields _ _ _ i A3 Hi) as (_ & _ & _ & -> & _).
    + intros c _. by rewrite A5.
    + eexists _, _, _. split; [reflexivity|]. done.
Qed.
End Plan.
