(* ===== verification/Raid5Run.v ===== *)
(** [raid_run_ops] of md/raid5.c on a plan of [handle_stripe]: the requested operations can be done,
    the blocks and the flags mean what they should afterwards, reads get the data of the
    stripe, and a write takes the encoding of the old data to the encoding of the new data. *)

From S2P Require Import Prelude PageMem Raid5Layout Raid5Stripe Raid5Dev Raid5Ops Raid5Handle Raid5Machine Raid5Data Raid5Copy Raid5OpsCorrect Raid5Write Raid5Inv Raid5Analyse Raid5Decide Raid5Fill Raid5Dirty Raid5Check Raid5Plan.

(** * What the operations make of a device *)

Section Device.
Context (conf : r5conf) (v : block) (par : bool) (r : option md_rdev) (sec : Z) (sy : bool).

(** A device while the stripe is handled, see [mid_dev]. *)
Record dev_ok (rp : bool) (st : status) (d : r5dev) : Prop := {
  dk_ok : device_ok conf v par rp r sec sy st d;
  dk_errors : test_bit R5_WriteError d = false /\ test_bit R5_MadeGood d = false;
  dk_looked : looked conf r sec d;
}.

Definition fill_to (d : r5dev) : r5dev := if test_bit R5_Wantfill d then with_reads [] [] (clear_bit R5_Wantfill d) else d.

Lemma fill_to_ok rp st d : dev_ok rp st d -> dev_ok rp st (fill_to d).
Proof.
  unfold fill_to. destruct (test_bit R5_Wantfill d) eqn:Hf; [|done]. intros [[K1 K2 K3 K4 K5 K6 K7 K8 K9 K10 K11] E [L1 L2 L3 L4 L5]].
  split; [|done|by split]. destruct K1 as [W1 W2 W3 W4 W5 W6 W7 W8 W9]. split; try done.
  - split; try done; [|apply chain_nil|].
    + intros f Hu. specialize (W3 f Hu). by destruct f.
    + intros Hp. destruct (W9 Hp) as (_ & ? & ? & ?). done.
Qed.

Lemma device_wf_page p d : device_wf conf par d -> wf_block (size conf) p -> device_wf conf par (set_page p d).
Proof. intros [W1 W2 W3 W4 W5 W6 W7 W8 W9] Hp. split; try done; [by rewrite page_set_page|]. unfold set_page. cbn. by rewrite W2. Qed.

Lemma looked_page p d : looked conf r sec d -> looked conf r sec (set_page p d).
Proof. intros [L1 L2 L3 L4 L5]. by split. Qed.

(** The block was computed. *)
Lemma computed_ok rp st d : dev_ok rp st d -> wf_block (size conf) v -> dev_ok rp st (computed (set_page v d)).
Proof.
  intros [[K1 K2 K3 K4 K5 K6 K7 K8 K9 K10 K11] E [L1 L2 L3 L4 L5]] Hv. split; [|done|by split]. split; try done.
  - apply (device_wf_flags conf par (set_page v d) (flags (computed d))); [by apply device_wf_page| |].
    + intros f Hu. pose proof (dw_unused _ _ _ K1 f Hu) as H. unfold test_bit in H. destruct f; try done; exact H.
    + intros Hp. by destruct (dw_parity _ _ _ K1 Hp) as (_ & _ & _ & ?).
  - intros _. apply page_set_page.
  - intros Hf. split; [apply page_set_page|by apply K3].
  - intros _. left. apply page_set_page.
  - destruct st as [|[]| | |]; try done; cbn in *; [by destruct K6|by left].
Qed.

(** The page of a device that is not used. *)
Lemma spoilt_ok rp st d p :
  dev_ok rp st d -> wf_block (size conf) p -> test_bit R5_UPTODATE d = false -> test_bit R5_Wantfill d = false -> test_bit R5_OVERWRITE d = false ->
  dev_ok rp st (set_page p d).
Proof.
  intros [[K1 K2 K3 K4 K5 K6 K7 K8 K9 K10 K11] E Lk] Hp Hu Hf Ho. split; [|done|by apply looked_page]. split; try done.
  - by apply device_wf_page.
  - change (test_bit R5_UPTODATE (set_page p d)) with (test_bit R5_UPTODATE d). congruence.
  - change (test_bit R5_Wantfill (set_page p d)) with (test_bit R5_Wantfill d). congruence.
  - change (test_bit R5_OVERWRITE (set_page p d)) with (test_bit R5_OVERWRITE d). congruence.
Qed.

(** Flags that only matter to the block layer. *)
Lemma dev_ok_sim rp st d d' : dev_ok rp st d -> sim d d' -> dev_ok rp st d'.
Proof.
  intros [K E [L1 L2 L3 L4 L5]] (fl & -> & Hf). pose proof K as [K1 K2 K3 K4 K5 K6 K7 K8 K9 K10 K11].
  assert (forall f, quiet f = false -> test_bit f (with_flags fl d) = test_bit f d) as Hfl by (intros f Hq; by apply Hf).
  split; rewrite ?Hfl by done; try done.
  - eapply device_ok_step; try done; rewrite ?Hf by done; try done.
    + intros f Hm. apply Hf. by destruct f.
    + destruct st as [|[]| | |]; try done; cbn in *; by rewrite Hfl.
    + unfold takes_part in *. by rewrite Hfl.
    + by left.
  - split; rewrite ?Hfl by done; done.
Qed.
End Device.

(** A write of the blocks that are drained, and of the parity. *)
Lemma drained_ok conf v v' r sec sy st d :
  dev_ok conf v false r sec sy true st d -> test_bit R5_Wantdrain d = true -> towrite d <> [] -> written d = [] -> wf_block (size conf) v' ->
  dev_ok conf v' false r sec sy true st (set_bit R5_UPTODATE (set_page v' (undrained d))).
Proof.
  intros [[K1 K2 K3 K4 K5 K6 K7 K8 K9 K10 K11] E [L1 L2 L3 L4 L5]] Hd Hw Hwr Hv. assert (st = Pend) as ->.
  { apply K7. unfold takes_part. rewrite Hd. by rewrite orb_true_r. }
  split; [|done|by split]. split; try done.
  - destruct K1 as [W1 W2 W3 W4 W5 W6 W7 W8 W9]. split; try done.
    + unfold page, set_page. cbn. by rewrite W2.
    + cbn. by rewrite W2.
    + intros f Hu. specialize (W3 f Hu). unfold test_bit in *. destruct f; try done; exact W3.
    + apply chain_nil.
  - intros _. unfold page, set_page. cbn. by rewrite (dw_orig _ _ _ K1).
  - intros Hf. split; [unfold page, set_page; cbn; by rewrite (dw_orig _ _ _ K1)|by apply K3].
  - intros _. left. unfold page, set_page. cbn. by rewrite (dw_orig _ _ _ K1).
  - unfold takes_part. cbn. split; [|done]. intros _. destruct (towrite d); done.
  - intros m Hm _ _. by right.
Qed.

Lemma parity_ok conf v v' r sec sy st d :
  dev_ok conf v true r sec sy true st d -> wf_block (size conf) v' -> dev_ok conf v' true r sec sy true st (set_bit R5_UPTODATE (set_page v' d)).
Proof.
  intros [[K1 K2 K3 K4 K5 K6 K7 K8 K9 K10 K11] E [L1 L2 L3 L4 L5]] Hv. assert (st = Pend) as -> by (by apply K7).
  split; [|done|by split]. split; try done.
  - apply (device_wf_flags conf true (set_page v' d)); [by apply device_wf_page| |].
    + intros f Hu. pose proof (dw_unused _ _ _ K1 f Hu) as H. unfold test_bit in H. destruct f; try done; exact H.
    + intros Hp. by destruct (dw_parity _ _ _ K1 Hp) as (_ & _ & _ & ?).
  - intros _. by rewrite <- (page_set_page v' d) at 2.
  - intros Hf. destruct (dw_parity _ _ _ K1 eq_refl) as (Hn & _). destruct (K3 Hf) as [_ H]. done.
  - intros _. left. by rewrite <- (page_set_page v' d) at 2.
  - intros m Hm _ _. by right.
Qed.

(** * Reads *)

Lemma in_indices sh i : i ∈ indices_down sh <-> in_stripe sh i.
Proof. unfold indices_down. rewrite list_elem_of_In, <- in_rev, <- list_elem_of_In. symmetry; apply in_seqZ. Qed.

Section Fill.
Context (conf : r5conf) (tx : async_tx).

(** What is replied to the reads of a device, and of a stripe. *)
Definition fill_replies (sh : stripe) (i : Z) : list reply :=
  if test_bit R5_Wantfill (dev sh i) then map (fun b => Read_done i (async_copy_to conf tx b (dev sh i))) (toread (dev sh i)) else [].
Definition fills (sh : stripe) : list reply := mjoin (map (fill_replies sh) (indices_down sh)).

Lemma bio_chain_map (f : bio -> bio) sec bs :
  (forall b, bi_sector (f b) = bi_sector b /\ bi_sectors (f b) = bi_sectors b) -> bio_chain conf sec (map f bs) = map f (bio_chain conf sec bs).
Proof.
  intros Hf. induction bs as [|b bs IH]; [done|]. cbn. unfold bio_end_sector. destruct (Hf b) as [-> ->]. destruct (_ <? _); [|done]. cbn. f_equal. destruct (_ <? _); done.
Qed.

Lemma biofill_eq sh :
  (forall i, in_stripe sh i -> chain_ok conf (dev_sector (dev sh i)) (toread (dev sh i)) /\ (test_bit R5_Wantfill (dev sh i) = true -> toread (dev sh i) <> [])) ->
  ops_run_biofill conf tx sh = Some (sset STRIPE_HANDLE (sclear STRIPE_BIOFILL_RUN (mapi (fun _ => fill_to) sh)), fills sh).
Proof.
  intros Hok. unfold ops_run_biofill, ops_complete_biofill. set (sh1 := with_devs (map (biofill_dev conf tx) (devs sh)) sh).
  pose proof (for_devs_eq (complete_biofill_dev conf) (fun i d => if test_bit R5_Wantfill d then with_reads (toread d) [] (clear_bit R5_Wantfill d) else d) sh1 (false, [])) as Heq.
  pose proof (for_devs_acc (complete_biofill_dev conf) sh1 (false, [])) as Hacc. destruct (for_devs _ sh1 _) as [sh2 [bug out]]. cbn [fst snd] in *.
  assert (mapi (fun i d => if test_bit R5_Wantfill d then with_reads (toread d) [] (clear_bit R5_Wantfill d) else d) sh1 = mapi (fun _ => fill_to) sh) as Hmap.
  { etrans; [apply (f_equal (fun l => with_devs l sh))|reflexivity]. unfold sh1. cbn. rewrite imap_fmap. apply imap_ext. intros i d _. cbn. unfold fill_to, biofill_dev. destruct (test_bit R5_Wantfill d) eqn:E; [|by rewrite E].
    change (test_bit R5_Wantfill (with_reads _ _ d)) with (test_bit R5_Wantfill d). by rewrite E. }
  rewrite Heq, Hmap by (intros i d [b o]; unfold complete_biofill_dev; by destruct (test_bit R5_Wantfill d)). clear Heq Hmap.
  assert (forall i, in_stripe sh i -> dev sh1 i = biofill_dev conf tx (dev sh i)) as Hdev.
  { intros i Hi. unfold dev at 1, sh1. cbn. apply list_lookup_total_correct. rewrite list_lookup_fmap, dev_lookup by done. done. }
  assert (forall l b o, (forall i, i ∈ l -> in_stripe sh i) ->
    foldr (fun i a => (complete_biofill_dev conf i (dev sh1 i) a).2) (b, o) l = (b, o ++ mjoin (map (fill_replies sh) (rev l)))) as Hfold.
  { intros l b o. induction l as [|i l IH]; intros Hl; [cbn; by rewrite app_nil_r|]. cbn [foldr rev]. rewrite IH by (intros j Hj; apply Hl; by right).
    rewrite map_app, (join_app (map _ (rev l))). cbn [map]. rewrite join_one. assert (in_stripe sh i) as Hi by (apply Hl; by left). rewrite Hdev by done.
    destruct (Hok i Hi) as [Hch Hne]. unfold complete_biofill_dev, biofill_dev, fill_replies. destruct (test_bit R5_Wantfill (dev sh i)) eqn:E; [|rewrite E; cbn; by rewrite app_nil_r].
    change (test_bit R5_Wantfill (with_reads _ _ (dev sh i))) with (test_bit R5_Wantfill (dev sh i)). rewrite E. cbn [snd read dev_sector with_reads].
    rewrite (chain_all conf) by done. rewrite drop_all, app_nil_r. rewrite bio_chain_map, (chain_all conf), map_map by done. specialize (Hne eq_refl).
    destruct (toread (dev sh i)) as [|b0 bs] eqn:Et; [done|]. cbn [map nonempty negb]. by rewrite orb_false_r, app_assoc. }
  assert (disks sh1 = disks sh) as Hn by (unfold disks, sh1; cbn; apply length_map). rewrite Hn in Hacc. rewrite Hfold in Hacc by (intros i; apply in_seqZ). injection Hacc as -> ->. done.
Qed.
End Fill.

(** * The steps of [raid_run_ops] *)

Section Steps.
Context (conf : r5conf) (w : world) (sy : bool).

(** The results of a write that was done: the parity is up to date. *)
Definition write_over (sh : stripe) : Prop :=
  (reconstruct_state sh = reconstruct_state_idle \/
    ((reconstruct_state sh = reconstruct_state_drain_result \/ reconstruct_state sh = reconstruct_state_prexor_drain_result) /\
      forall j, in_stripe sh j -> is_parity sh j = true -> test_bit R5_UPTODATE (dev sh j) = true)) /\
  forall i, in_stripe sh i -> test_bit R5_Wantdrain (dev sh i) = false.

(** The result of a check that was done. *)
Definition check_over (sh : stripe) : Prop :=
  (check_state sh = check_state_check_result \/ (check_state sh = check_state_compute_result /\ level conf = 6)) /\
  zero_sum_result sh = (false, false) /\ check_blocks conf w sh.

(** The stripe between the operations. *)
Record work (V : Z -> block) (s : stripe_head_state) (sh : stripe) : Prop := {
  wk_set : setting conf (with_sh sh w);
  wk_enc : encodes conf (geo sh) V;
  wk_dev i : in_stripe sh i -> exists st, dev_ok conf (V i) (is_parity sh i) (rdev (disk w i)) (sector sh) sy (busy_ops sh) st (dev sh i);
  wk_write : (exists rmw, write_plan conf V rmw sh s) \/ write_over sh;
  wk_check : check_done conf w V sh s \/ check_over sh;
  wk_idle : checking sh = true -> reconstruct_state sh = reconstruct_state_idle;
  wk_written i : in_stripe sh i -> written (dev sh i) <> [] ->
    test_bit R5_UPTODATE (dev sh i) = true /\ forall j, in_stripe sh j -> is_parity sh j = true -> test_bit R5_UPTODATE (dev sh j) = true;
  wk_overwrite i : in_stripe sh i -> test_bit R5_OVERWRITE (dev sh i) = true ->
    test_bit R5_UPTODATE (dev sh i) = true \/ is_covered conf (dev sh i) = true \/ test_bit R5_Wantdrain (dev sh i) = true;
}.

(** The flags that the operations change, writes apart. *)
Definition op_flag (f : r5dev_flag) : bool :=
  match f with R5_UPTODATE | R5_Wantfill | R5_Wantcompute | R5_Overlap => true | _ => false end.
Definition run_flag (f : stripe_flag) : bool :=
  match f with STRIPE_HANDLE | STRIPE_BIOFILL_RUN | STRIPE_COMPUTE_RUN => true | _ => false end.

(** An operation that is not part of a write. *)
Record carries (V : Z -> block) (sh sh' : stripe) : Prop := {
  ca_geo : geo sh' = geo sh;
  ca_disks : disks sh' = disks sh;
  ca_states : reconstruct_state sh' = reconstruct_state sh /\ check_state sh' = check_state sh /\ zero_sum_result sh' = zero_sum_result sh;
  ca_state f : run_flag f = false -> stest f sh' = stest f sh;
  ca_flag i f : in_stripe sh i -> op_flag f = false -> test_bit f (dev sh' i) = test_bit f (dev sh i);
  ca_uptodate i : in_stripe sh i -> test_bit R5_UPTODATE (dev sh i) = true -> test_bit R5_UPTODATE (dev sh' i) = true;
  ca_still : stest STRIPE_COMPUTE_RUN sh = false -> stest STRIPE_COMPUTE_RUN sh' = false /\ forall i, in_stripe sh i -> test_bit R5_UPTODATE (dev sh' i) = test_bit R5_UPTODATE (dev sh i);
  ca_page i : in_stripe sh i -> page (dev sh i) = V i -> page (dev sh' i) = V i;
  ca_compute i : in_stripe sh i -> test_bit R5_Wantcompute (dev sh i) = true -> test_bit R5_Wantcompute (dev sh' i) = true \/ page (dev sh' i) = V i;
  ca_fields i : in_stripe sh i -> towrite (dev sh' i) = towrite (dev sh i) /\ written (dev sh' i) = written (dev sh i) /\ dev_sector (dev sh' i) = dev_sector (dev sh i);
}.

Lemma carries_in V sh sh' i : carries V sh sh' -> in_stripe sh' i <-> in_stripe sh i.
Proof. intros H. unfold in_stripe. by rewrite (ca_disks _ _ _ H). Qed.

Lemma carries_parity V sh sh' i : carries V sh sh' -> is_parity sh' i = is_parity sh i.
Proof. intros H. unfold is_parity, pd, qd. by rewrite (ca_geo _ _ _ H). Qed.

Lemma carries_covered V sh sh' i : carries V sh sh' -> in_stripe sh i -> is_covered conf (dev sh' i) = is_covered conf (dev sh i).
Proof. intros H Hi. destruct (ca_fields _ _ _ H i Hi) as (E1 & _ & E2). unfold is_covered. by rewrite E1, E2. Qed.

Lemma carries_check_blocks V sh sh' : in_stripe sh (pd sh) -> carries V sh sh' -> check_blocks conf w sh -> check_blocks conf w sh'.
Proof.
  intros Hp Hc [C1 C2]. pose proof (ca_geo _ _ _ Hc) as Hg. assert (pd sh' = pd sh) as E by (unfold pd; by rewrite Hg). split.
  - intros i Hi%(carries_in _ _ _ _ Hc) Hne. apply (ca_uptodate _ _ _ Hc); [done|]. apply C1; [done|congruence].
  - rewrite E. destruct C2 as [C2|C2]; [left; by apply (ca_uptodate _ _ _ Hc)|right]. revert C2. unfold p_unneeded, disk, w_disks, w_sh, with_sh, sector.
    rewrite E, Hg. intros [C2|(m & C2 & C3 & C4)]; [by left|right]. exists m. rewrite !(ca_flag _ _ _ Hc) by done. done.
Qed.

Lemma carries_check_done V s sh sh' : in_stripe sh (pd sh) -> carries V sh sh' -> check_done conf w V sh s -> check_done conf w V sh' s.
Proof.
  intros Hpd Hc. pose proof Hc as [C1 C2 (C3 & C3' & C3'') C4 C5 C6 C6' C7 C8 C9]. intros [D|[D|D]].
  - left. by rewrite C3'.
  - right. left. rewrite C3', C3''. destruct D as (D1 & D2 & D3 & D4 & D5). repeat split; try done; by apply (carries_check_blocks V sh).
  - right. right. rewrite C3'. destruct D as (D1 & D2 & D3 & D4). split; [done|]. split.
    { destruct D2 as [(D2 & D5 & D6)|]; [left|by auto]. destruct (C6' D5) as [-> H]. unfold pd. rewrite C1. fold (pd sh). rewrite H by done. done. }
    split; [by apply (carries_check_blocks V sh)|].
    intros i Hi%(carries_in _ _ _ _ Hc). auto.
Qed.

Lemma work_carries V s sh sh' :
  work V s sh -> carries V sh sh' ->
  (forall i st, in_stripe sh i -> dev_ok conf (V i) (is_parity sh i) (rdev (disk w i)) (sector sh) sy (busy_ops sh) st (dev sh i) ->
    dev_ok conf (V i) (is_parity sh i) (rdev (disk w i)) (sector sh) sy (busy_ops sh) st (dev sh' i)) -> work V s sh'.
Proof.
  intros [W1 W2 W3 W4 W5 W6 W7 W8] Hc Hd. pose proof Hc as [C1 C2 (C3 & C3' & C3'') C4 C5 C6 C6' C7 C8 C9].
  pose proof (carries_in _ _ _ (pd sh) Hc) as Hp. pose proof (fun i => carries_in _ _ _ i Hc) as Hin.
  assert (in_stripe sh (pd sh)) as Hpd. { destruct W1 as [G1 G2 _ _]. unfold in_stripe. cbn in *. rewrite <- G2. apply (go_pd _ _ G1). }
  split.
  - destruct W1 as [G1 G2 G3 G4]. split; cbn in *; rewrite ?C1, ?C2; done.
  - by rewrite C1.
  - intros i Hi%Hin. destruct (W3 i Hi) as [st Hst]. exists st. unfold busy_ops, sector. rewrite (carries_parity _ _ _ _ Hc), C1, C3. by apply Hd.
  - destruct W4 as [(rmw & [P1 P2 P3 P4 (j & P5) P6 P7])|[O1 O2]]; [left|right].
    + exists rmw. split; try (by rewrite ?C3).
      * intros i Hi%Hin. rewrite (proj1 (proj2 (C9 i Hi))). by apply P3.
      * intros i Hi%Hin. rewrite C5, (proj1 (C9 i Hi)), (carries_parity _ _ _ _ Hc) by done. by apply P4.
      * exists j. rewrite Hin, C5 by (done || apply P5). done.
      * intros i Hr Hi%Hin. rewrite (carries_parity _ _ _ _ Hc), (C5 i R5_Wantdrain), (carries_covered _ _ _ _ Hc) by done. intros Hpar.
        destruct (P6 i Hr Hi Hpar) as [H|[H|H]]; [by auto| |by auto]. destruct (C8 i Hi H); auto.
      * intros i Hr Hi%Hin. rewrite (carries_parity _ _ _ _ Hc), (C5 i R5_Wantdrain) by done. intros Hor. destruct (P7 i Hr Hi Hor) as [H|H]; [by auto|]. destruct (C8 i Hi H); auto.
    + split.
      * rewrite C3. destruct O1 as [|[O1 O3]]; [by left|right]. split; [done|]. intros j Hj%Hin. rewrite (carries_parity _ _ _ _ Hc). intros Hpar. apply C6; auto.
      * intros i Hi%Hin. rewrite C5 by done. auto.
  - destruct W5 as [D|D]; [left; by apply (carries_check_done V s sh)|right].
    + unfold check_over. rewrite C3', C3''. destruct D as (D1 & D2 & D3). repeat split; try done; by apply (carries_check_blocks V sh).
  - unfold checking. rewrite C3', C3. exact W6.
  - intros i Hi%Hin. rewrite (proj1 (proj2 (C9 i Hi))). intros Hw. destruct (W7 i Hi Hw) as [U1 U2]. split; [auto|]. intros j Hj%Hin.
    rewrite (carries_parity _ _ _ _ Hc). auto.
  - intros i Hi%Hin. rewrite (C5 i R5_OVERWRITE), (C5 i R5_Wantdrain), (carries_covered _ _ _ _ Hc) by done. intros Ho. destruct (W8 i Hi Ho) as [|[|]]; auto.
Qed.

Context (tx : async_tx) {Htx : AsyncTx (size conf) tx}.

Lemma work_wf V s sh i : work V s sh -> in_stripe sh i -> device_wf conf (is_parity sh i) (dev sh i).
Proof. intros Hw Hi. destruct (wk_dev _ _ _ Hw i Hi) as [st [K _ _]]. apply (do_wf _ _ _ _ _ _ _ _ _ K). Qed.

Lemma fills_nil sh : (forall i, in_stripe sh i -> test_bit R5_Wantfill (dev sh i) = false) -> fills conf tx sh = [].
Proof.
  intros H. unfold fills. assert (forall i, i ∈ indices_down sh -> in_stripe sh i) as Hl by (intros i Hi; by apply in_indices).
  induction (indices_down sh) as [|i l IH]; [done|]. cbn [map]. change (mjoin (?a :: ?b)) with (a ++ mjoin b). rewrite IH by (intros j Hj; apply Hl; by right).
  unfold fill_replies. by rewrite H by (apply Hl; by left).
Qed.

(** The reads get the blocks. *)
Lemma fill_step V s sh :
  work V s sh -> compute_ready conf V sh s ->
  (ops_request s STRIPE_OP_BIOFILL = false -> stest STRIPE_BIOFILL_RUN sh = false /\ forall i, in_stripe sh i -> test_bit R5_Wantfill (dev sh i) = false) ->
  exists sh', (if ops_request s STRIPE_OP_BIOFILL then ops_run_biofill conf tx sh else Some (sh, [])) = Some (sh', fills conf tx sh) /\
    work V s sh' /\ compute_ready conf V sh' s /\ carries V sh sh' /\ stest STRIPE_BIOFILL_RUN sh' = false /\
    forall i, in_stripe sh i -> dev sh' i = fill_to (dev sh i).
Proof.
  intros Hw Hc Hno. destruct (ops_request s STRIPE_OP_BIOFILL) eqn:E.
  - rewrite biofill_eq.
    2:{ intros i Hi. destruct (wk_dev _ _ _ Hw i Hi) as [st [K _ _]]. split; [apply (dw_toread _ _ _ (do_wf _ _ _ _ _ _ _ _ _ K))|]. intros Hf. by apply (do_fill _ _ _ _ _ _ _ _ _ K). }
    set (sh' := sset _ _). exists sh'. assert (forall i, in_stripe sh i -> dev sh' i = fill_to (dev sh i)) as Hdev.
    { intros i Hi. unfold sh'. change (dev (sset _ (sclear _ ?x)) i) with (dev x i). by rewrite dev_mapi. }
    assert (disks sh' = disks sh) as Hn by apply disks_mapi.
    assert (forall i f, in_stripe sh i -> f <> R5_Wantfill -> test_bit f (dev sh' i) = test_bit f (dev sh i)) as Hf.
    { intros i f Hi Hne. rewrite Hdev by done. unfold fill_to. destruct (test_bit R5_Wantfill _); [by destruct f|done]. }
    assert (forall i, in_stripe sh i -> page (dev sh' i) = page (dev sh i)) as Hpg by (intros i Hi; rewrite Hdev by done; unfold fill_to; by destruct (test_bit R5_Wantfill _)).
    assert (carries V sh sh') as Hca.
    { split; try done.
      - intros f Hr. by destruct f.
      - intros i f Hi Ho. apply Hf; [done|]. by intros ->.
      - intros i Hi. by rewrite Hf.
      - intros Hr. split; [done|]. intros i Hi. by apply Hf.
      - intros i Hi. by rewrite Hpg.
      - intros i Hi. rewrite Hf by done. by left.
      - intros i Hi. rewrite Hdev by done. unfold fill_to. by destruct (test_bit R5_Wantfill _). }
    split; [done|]. split; [|split; [|done]].
    + apply (work_carries V s sh sh'); try done. intros i st Hi Hst. rewrite Hdev by done. by apply fill_to_ok.
    + unfold compute_ready, no_compute. destruct Hc as [(N1 & N2 & N3 & N4)|(C & T & [P1 P2 P3 P4 P5 P6])]; [left|right].
      * repeat split; try done. intros i Hi%(carries_in _ _ _ _ Hca). rewrite Hf by done. auto.
      * split; [done|]. exists T. split; try done.
        -- intros t Ht. apply (carries_in _ _ _ _ Hca). auto.
        -- intros i Hi%(carries_in _ _ _ _ Hca). rewrite Hf by done. auto.
        -- intros i Hi%(carries_in _ _ _ _ Hca). rewrite Hpg by done. auto.
  - destruct (Hno eq_refl) as [Hr Hf]. rewrite fills_nil by done. exists sh. split; [done|]. split; [done|]. split; [done|]. split; [by split; auto|]. split; [done|].
    intros i Hi. unfold fill_to. by rewrite Hf.
Qed.

(** The devices after a computation. *)
Lemma recovered_dev V T sh i :
  NoDup T -> (forall t, t ∈ T -> in_stripe sh t) -> in_stripe sh i ->
  disks (recovered V T sh) = disks sh /\ dev (recovered V T sh) i = if bool_decide (i ∈ T) then computed (set_page (V i) (dev sh i)) else dev sh i.
Proof.
  intros HT Hr Hi. assert (forall sh, disks (after_compute sh) = disks sh /\ dev (after_compute sh) i = dev sh i) as Hac.
  { intros x. unfold after_compute. by destruct (check_states_beq _ _). }
  unfold recovered. destruct (Hac (foldr (fun t s => upd t (fun d => computed (set_page (V t) d)) s) sh T)) as [-> ->]. clear Hac.
  induction HT as [|t T Ht HT IH]; [done|]. cbn [foldr]. destruct IH as [H1 H2]; [intros; apply Hr; by right|]. pose proof (Hr t ltac:(by left)) as Hrt. unfold in_stripe in *.
  rewrite disks_upd, dev_upd by (rewrite ?H1; lia). split; [done|]. destruct (Z.eqb_spec t i) as [->|Hne].
  - rewrite H2, (bool_decide_false (i ∈ T)), (bool_decide_true (i ∈ i :: T)) by (done || by left). done.
  - rewrite H2, (bool_decide_ext (i ∈ t :: T) (i ∈ T)); [done|]. rewrite elem_of_cons. naive_solver.
Qed.

Lemma recovered_rest V T sh :
  geo (recovered V T sh) = geo sh /\ reconstruct_state (recovered V T sh) = reconstruct_state sh /\
  (check_state sh <> check_state_compute_run -> check_state (recovered V T sh) = check_state sh) /\ zero_sum_result (recovered V T sh) = zero_sum_result sh /\
  stest STRIPE_COMPUTE_RUN (recovered V T sh) = false /\ forall f, f <> STRIPE_HANDLE -> f <> STRIPE_COMPUTE_RUN -> stest f (recovered V T sh) = stest f sh.
Proof.
  unfold recovered. set (sh1 := foldr _ sh T). assert (with_devs [] sh1 = with_devs [] sh) as H.
  { unfold sh1. clear. induction T as [|t T IH]; [done|]. cbn [foldr]. by rewrite <- IH. }
  assert (geo sh1 = geo sh /\ reconstruct_state sh1 = reconstruct_state sh /\ check_state sh1 = check_state sh /\ zero_sum_result sh1 = zero_sum_result sh /\ state sh1 = state sh) as (E1 & E2 & E3 & E4 & E5).
  { repeat split; [apply (f_equal geo H)|apply (f_equal reconstruct_state H)|apply (f_equal check_state H)|apply (f_equal zero_sum_result H)|apply (f_equal state H)]. }
  clearbody sh1. unfold after_compute. change (check_state (sclear _ ?x)) with (check_state x). rewrite E3. destruct (check_states_beq _ _) eqn:Eq.
  - repeat split; try done; [intros Hne; by destruct (check_state sh)|]. intros f H1 H2. unfold stest. cbn. rewrite E5. by destruct f.
  - repeat split; try done. intros f H1 H2. unfold stest. cbn. rewrite E5. by destruct f.
Qed.

Lemma run_compute_ok V s sh T : work V s sh -> compute_plan conf V sh s T -> run_compute conf tx sh = Some (recovered V T sh).
Proof.
  intros Hw [P1 P2 P3 P4 P5 P6]. destruct (wk_set _ _ _ Hw) as [G1 G2 _ _]. apply (compute_lost conf tx).
  apply (Build_lost_blocks conf sh V T G1 G2 (wk_enc _ _ _ Hw)); [|done| |done].
  - intros i Hi. apply (dw_page _ _ _ (work_wf _ _ _ i Hw Hi)).
  - intros t Ht. split; [by apply P4|]. apply P5; [by apply P4|done].
Qed.

(** The missing blocks are computed. *)
Lemma compute_step V s sh :
  work V s sh -> compute_ready conf V sh s ->
  exists sh', (if ops_request s STRIPE_OP_COMPUTE_BLK then run_compute conf tx sh else Some sh) = Some sh' /\
    work V s sh' /\ carries V sh sh' /\ stest STRIPE_COMPUTE_RUN sh' = false /\ stest STRIPE_BIOFILL_RUN sh' = stest STRIPE_BIOFILL_RUN sh /\
    forall i, in_stripe sh i -> test_bit R5_Wantcompute (dev sh' i) = false /\ test_bit R5_Wantfill (dev sh' i) = test_bit R5_Wantfill (dev sh i) /\
      toread (dev sh' i) = toread (dev sh i).
Proof.
  intros Hw [(N1 & N2 & N3 & N4)|(C & T & Hp)].
  - rewrite N2. exists sh. split; [done|]. split; [done|]. split; [by split; auto|]. auto.
  - rewrite (cp_ops _ _ _ _ _ Hp), (run_compute_ok V s sh T) by done. pose proof Hp as [P1 P2 P3 P4 P5 P6]. exists (recovered V T sh). split; [done|].
    assert (NoDup T) as HT.
    { destruct P3 as [(t & -> & _)|(t & t2 & -> & _ & _ & Hne & _)]; [apply NoDup_singleton|]. apply list.NoDup_cons. rewrite list_elem_of_singleton. split; [done|apply NoDup_singleton]. }
    assert (check_state sh <> check_state_compute_run) as Hck.
    { destruct (wk_check _ _ _ Hw) as [[[-> _]|[[-> _]|(_ & [[-> _]|(_ & [-> | ->])] & _)]]|[[-> |[-> _]] _]]; done. }
    destruct (recovered_rest V T sh) as (R1 & R2 & R3 & R4 & R5 & R6). pose proof (fun i => recovered_dev V T sh i HT P4) as Hd.
    assert (disks (recovered V T sh) = disks sh) as Hn. { destruct P3 as [(t & -> & _)|(t & t2 & -> & _)]; by destruct (Hd t ltac:(apply P4; by left)). }
    assert (carries V sh (recovered V T sh)) as Hca.
    { split; try done.
      - auto.
      - intros f Hr. apply R6; by intros ->.
      - intros i f Hi Ho. rewrite (proj2 (Hd i Hi)). case_bool_decide; [by destruct f|done].
      - intros i Hi Hu. rewrite (proj2 (Hd i Hi)). by case_bool_decide.
      - congruence.
      - intros i Hi Hu. rewrite (proj2 (Hd i Hi)). case_bool_decide; [|done]. apply (page_set_page (V i) (dev sh i)).
      - intros i Hi Hu. right. rewrite (proj2 (Hd i Hi)), bool_decide_true by (by apply P5). apply (page_set_page (V i) (dev sh i)).
      - intros i Hi. rewrite (proj2 (Hd i Hi)). by case_bool_decide. }
    split; [|split; [done|]].
    + apply (work_carries V s sh); try done. intros i st Hi Hst. rewrite (proj2 (Hd i Hi)). case_bool_decide; [|done]. apply computed_ok; [done|].
      apply (en_wf _ _ _ (wk_enc _ _ _ Hw)). destruct (wk_set _ _ _ Hw) as [_ G2 _ _]. cbn in G2. by rewrite G2.
    + split; [done|]. split; [by apply R6|]. intros i Hi. rewrite (proj2 (Hd i Hi)). case_bool_decide as Hin; [done|]. repeat split; try done.
      apply not_true_iff_false. by rewrite P5.
Qed.

Lemma sim_fields d d' : sim d d' -> toread d' = toread d /\ towrite d' = towrite d /\ written d' = written d /\ dev_sector d' = dev_sector d.
Proof. by intros (fl & -> & _). Qed.

Lemma data_or_not sh i : is_data (geo sh) i = negb (is_parity sh i).
Proof. done. Qed.

(** What a write makes of the stripe. *)
Record wrote (V V' : Z -> block) (sh sh' : stripe) : Prop := {
  wr_geo : geo sh' = geo sh;
  wr_disks : disks sh' = disks sh;
  wr_state f : f <> STRIPE_HANDLE -> stest f sh' = stest f sh;
  wr_data i : in_stripe sh i -> is_parity sh i = false -> V' i = new_data conf sh V i;
  wr_flag i f : in_stripe sh i -> f = R5_Wantcompute \/ f = R5_Wantfill -> test_bit f (dev sh' i) = test_bit f (dev sh i);
  wr_chains i : in_stripe sh i -> toread (dev sh' i) = toread (dev sh i) /\ dev_sector (dev sh' i) = dev_sector (dev sh i) /\
    (if test_bit R5_Wantdrain (dev sh i) then towrite (dev sh' i) = [] /\ written (dev sh' i) = towrite (dev sh i)
     else towrite (dev sh' i) = towrite (dev sh i) /\ written (dev sh' i) = written (dev sh i));
}.

Section Written.
Context (V : Z -> block) (s : stripe_head_state) (rmw : bool) (sh sh' : stripe).
Context (Hw : work V s sh) (Hp : write_plan conf V rmw sh s) (Hnc : forall i, in_stripe sh i -> test_bit R5_Wantcompute (dev sh i) = false).
Abbreviation V' := (encode conf (geo sh) (new_data conf sh V)).

Lemma plan_drainable : drainable conf sh.
Proof using Hw Hp.
  destruct (wk_set _ _ _ Hw) as [G1 G2 _ _]. cbn in G1, G2. pose proof Hp as [P1 P2 P3 P4 (j & Pj & P5) P6 P7]. pose proof (fun i => work_wf _ _ _ i Hw) as Hwf.
  split; rewrite ?G2.
  - intros i Hi. apply (dw_page _ _ _ (Hwf i Hi)).
  - intros i Hi. apply (dw_orig _ _ _ (Hwf i Hi)).
  - intros i Hi. split; by apply (dw_unused _ _ _ (Hwf i Hi)).
  - exact P3.
  - intros i Hi HS. rewrite data_or_not. by rewrite (proj2 (P4 i Hi HS)).
  - intros i Hi HS. split; [by apply P4|]. apply (ch_wf _ _ _ (dw_towrite _ _ _ (Hwf i Hi))).
  - by exists j.
Qed.

Lemma plan_rcw : rmw = false -> rcw_ready conf sh V.
Proof using Hw Hp Hnc.
  intros Hr i Hi Hd. destruct (wk_set _ _ _ Hw) as [_ G2 _ _]. cbn in G2. rewrite G2 in Hi. rewrite data_or_not in Hd. apply negb_true_iff in Hd.
  destruct (wp_rcw _ _ _ _ _ Hp i Hr Hi Hd) as [|[H|]]; [by left| |by right]. rewrite Hnc in H by done. done.
Qed.

Lemma plan_rmw : rmw = true -> rmw_ready sh V.
Proof using Hw Hp Hnc.
  intros Hr i Hi Hd. destruct (wk_set _ _ _ Hw) as [_ G2 _ _]. cbn in G2. rewrite G2 in Hi. rewrite data_or_not, negb_false_iff in Hd.
  destruct (wp_rmw _ _ _ _ _ Hp i Hr Hi Hd) as [|H]; [done|]. rewrite Hnc in H by done. done.
Qed.

Lemma busy_before : busy_ops sh = true /\ check_state sh = check_state_idle.
Proof using Hw Hp.
  pose proof (wp_state _ _ _ _ _ Hp) as P1. unfold busy_ops. rewrite P1. split; [by destruct rmw|]. pose proof (wk_idle _ _ _ Hw) as H. unfold checking in H.
  destruct (check_state sh); try done; specialize (H eq_refl); rewrite P1 in H; by destruct rmw.
Qed.

Context (Hn : disks sh' = disks sh) (Hrest : with_devs [] sh' = with_devs [] (sset STRIPE_HANDLE (with_reconstruct (if rmw then reconstruct_state_prexor_drain_result else reconstruct_state_drain_result) (with_overwrite 0 sh)))).
Context (Hdev : forall i, 0 <= i < sh_disks (geo sh) -> sim (after_write conf sh V i) (dev sh' i)).

Lemma written_dev i : in_stripe sh i -> sim (after_write conf sh V i) (dev sh' i).
Proof using Hdev Hw. intros Hi. apply Hdev. destruct (wk_set _ _ _ Hw) as [_ G2 _ _]. cbn in G2. by rewrite G2. Qed.

Lemma written_rest : geo sh' = geo sh /\ check_state sh' = check_state sh /\
  reconstruct_state sh' = (if rmw then reconstruct_state_prexor_drain_result else reconstruct_state_drain_result) /\
  forall f, f <> STRIPE_HANDLE -> stest f sh' = stest f sh.
Proof using Hrest.
  split; [apply (f_equal geo Hrest)|]. split; [apply (f_equal check_state Hrest)|]. split; [apply (f_equal reconstruct_state Hrest)|].
  intros f Hf. unfold stest. pose proof (f_equal state Hrest) as H. cbn in H. rewrite H. by destruct f.
Qed.

Lemma written_wrote : wrote V V' sh sh'.
Proof using All.
  destruct written_rest as (R1 & R2 & R3 & R4). split; try done.
  - intros i Hi Hpar. apply encode_data. by rewrite data_or_not, Hpar.
  - intros i f Hi Hf. rewrite (sim_flag f _ _ (written_dev i Hi)) by (by destruct Hf as [-> | ->]). unfold after_write.
    destruct (test_bit R5_Wantdrain (dev sh i)), (is_data (geo sh) i), Hf as [-> | ->]; done.
  - intros i Hi. destruct (sim_fields _ _ (written_dev i Hi)) as (-> & -> & -> & ->). unfold after_write.
    destruct (test_bit R5_Wantdrain (dev sh i)), (is_data (geo sh) i); done.
Qed.

Lemma written_flags i : in_stripe sh i ->
  test_bit R5_Wantdrain (dev sh' i) = false /\ test_bit R5_OVERWRITE (dev sh' i) = test_bit R5_OVERWRITE (dev sh i) /\
  test_bit R5_UPTODATE (dev sh' i) = test_bit R5_UPTODATE (dev sh i) || test_bit R5_Wantdrain (dev sh i) || is_parity sh i.
Proof using All.
  intros Hi. pose proof (written_dev i Hi) as Hs. rewrite !(sim_flag _ _ _ Hs) by done. unfold after_write. rewrite data_or_not.
  destruct (test_bit R5_Wantdrain (dev sh i)) eqn:E, (is_parity sh i); cbn [negb]; rewrite ?orb_true_r, ?orb_false_r; try done.
Qed.

Lemma written_work : work V' s sh' /\ write_over sh' /\ check_done conf w V' sh' s.
Proof using All.
  destruct written_rest as (R1 & R2 & R3 & R4). destruct busy_before as [B1 B2]. destruct (wk_set _ _ _ Hw) as [G1 G2 G3 G4]. cbn in G1, G2, G3, G4.
  assert (forall i, in_stripe sh' i <-> in_stripe sh i) as Hin by (intros i; unfold in_stripe; by rewrite Hn).
  assert (forall i, is_parity sh' i = is_parity sh i) as Hpar by (intros i; unfold is_parity, pd, qd; by rewrite R1).
  pose proof plan_drainable as Hdr. pose proof (new_encodes conf sh G1 V (wk_enc _ _ _ Hw) Hdr) as Henc'.
  assert (write_over sh') as Hov.
  { split; [|intros i Hi%Hin; by apply written_flags]. right. split; [rewrite R3; destruct rmw; by auto|]. intros j Hj%Hin. rewrite Hpar. intros Hpj.
    rewrite (proj2 (proj2 (written_flags j Hj))), Hpj. apply orb_true_r. }
  assert (check_done conf w V' sh' s) as Hcd.
  { left. rewrite R2. split; [done|]. destruct (wk_check _ _ _ Hw) as [[[_ H]|[[H _]|[_ [[[H _]|(_ & [H|H])] _]]]]|[[H|[H _]] _]]; done || by rewrite B2 in H. }
  split; [|done]. split.
  - split; cbn; rewrite ?R1, ?Hn; done.
  - by rewrite R1.
  - intros i Hi%Hin. destruct (wk_dev _ _ _ Hw i Hi) as [st Hst]. exists st. assert (busy_ops sh' = true) as -> by (unfold busy_ops; rewrite R3; by destruct rmw).
    unfold sector. rewrite Hpar, R1. fold (sector sh). rewrite B1 in Hst. apply (dev_ok_sim _ _ _ _ _ _ _ _ (after_write conf sh V i)); [|by apply written_dev]. unfold after_write.
    assert (wf_block (size conf) (V' i)) as Hv by (apply (en_wf _ _ _ Henc'); by rewrite G2). rewrite data_or_not.
    destruct (test_bit R5_Wantdrain (dev sh i)) eqn:E.
    + destruct (wp_drain _ _ _ _ _ Hp i Hi E) as [Ht Hpi]. rewrite Hpi in *. apply (drained_ok conf (V i)); try done. by apply (wp_written _ _ _ _ _ Hp).
    + destruct (is_parity sh i) eqn:Hpi; cbn [negb]; [by apply (parity_ok conf (V i))|]. rewrite encode_data by (by rewrite data_or_not, Hpi).
      unfold new_data. by rewrite E.
  - by right.
  - by left.
  - unfold checking. by rewrite R2, B2.
  - intros i Hi%Hin Hwr. split.
    + rewrite (proj2 (proj2 (written_flags i Hi))). destruct (wr_chains _ _ _ _ written_wrote i Hi) as (_ & _ & H). destruct (test_bit R5_Wantdrain (dev sh i)); [by rewrite orb_true_r|].
      rewrite (proj2 H), (wp_written _ _ _ _ _ Hp i Hi) in Hwr. done.
    + intros j Hj%Hin. rewrite Hpar. intros Hpj. rewrite (proj2 (proj2 (written_flags j Hj))), Hpj. apply orb_true_r.
  - intros i Hi%Hin. destruct (written_flags i Hi) as (-> & -> & ->). intros Ho. destruct (wr_chains _ _ _ _ written_wrote i Hi) as (_ & Es & H). unfold is_covered. rewrite Es.
    destruct (wk_overwrite _ _ _ Hw i Hi Ho) as [-> |[Hc| ->]]; [by left| |left; by rewrite orb_true_r].
    destruct (test_bit R5_Wantdrain (dev sh i)); [left; by rewrite orb_true_r|]. right. left. rewrite (proj1 H). exact Hc.
Qed.
End Written.

Context (Hskip : skip_copy conf = false).

Definition no_write (s : stripe_head_state) : Prop :=
  forall o, o = STRIPE_OP_PREXOR \/ o = STRIPE_OP_BIODRAIN \/ o = STRIPE_OP_RECONSTRUCT -> ops_request s o = false.

(** The blocks are written in memory, with the parity. *)
Lemma write_step V s sh :
  work V s sh -> check_done conf w V sh s -> (forall i, in_stripe sh i -> test_bit R5_Wantcompute (dev sh i) = false) ->
  (exists rmw, write_plan conf V rmw sh s) \/ (write_over sh /\ no_write s) ->
  exists sh1 sh' V',
    (if ops_request s STRIPE_OP_BIODRAIN
     then ops_run_biodrain conf tx (if ops_request s STRIPE_OP_PREXOR then if level conf <? 6 then ops_run_prexor5 conf tx sh else ops_run_prexor6 conf tx sh else sh)
     else Some (if ops_request s STRIPE_OP_PREXOR then if level conf <? 6 then ops_run_prexor5 conf tx sh else ops_run_prexor6 conf tx sh else sh)) = Some sh1 /\
    (if ops_request s STRIPE_OP_RECONSTRUCT then if level conf <? 6 then ops_run_reconstruct5 conf tx sh1 else ops_run_reconstruct6 conf tx sh1 else Some sh1) = Some sh' /\
    work V' s sh' /\ write_over sh' /\ check_done conf w V' sh' s /\ wrote V V' sh sh'.
Proof.
  intros Hw Hck Hnc [(rmw & Hp)|[Hov Hno]].
  - destruct (wk_set _ _ _ Hw) as [G1 G2 _ _]. cbn in G1, G2. destruct (wp_ops _ _ _ _ _ Hp) as (-> & -> & ->). pose proof (plan_drainable V s rmw sh Hw Hp) as Hdr.
    pose proof (wk_enc _ _ _ Hw) as He. pose proof (wp_state _ _ _ _ _ Hp) as Hst.
    assert (exists sh', (sx ← ops_run_biodrain conf tx (if rmw then if level conf <? 6 then ops_run_prexor5 conf tx sh else ops_run_prexor6 conf tx sh else sh);
        if level conf <? 6 then ops_run_reconstruct5 conf tx sx else ops_run_reconstruct6 conf tx sx) = Some sh' /\ disks sh' = disks sh /\
        with_devs [] sh' = with_devs [] (sset STRIPE_HANDLE (with_reconstruct (if rmw then reconstruct_state_prexor_drain_result else reconstruct_state_drain_result) (with_overwrite 0 sh))) /\
        forall i, 0 <= i < sh_disks (geo sh) -> sim (after_write conf sh V i) (dev sh' i)) as (sh' & Heq & Hn & Hrest & Hdev).
    { destruct rmw.
      - apply (write_rmw_ok conf tx sh Hskip G1 G2 V He Hdr); [by apply (plan_rmw V s true)|done].
      - apply (write_rcw_ok conf tx sh Hskip G1 G2 V He Hdr); [by apply (plan_rcw V s false)|done]. }
    destruct (ops_run_biodrain _ _ _) as [sh1|]; [|done]. cbn in Heq. exists sh1, sh', (encode conf (geo sh) (new_data conf sh V)).
    destruct (written_work V s rmw sh sh' Hw Hp Hnc Hn Hrest Hdev) as (? & ? & ?). do 5 (split; [done|]). by apply (written_wrote V s rmw sh sh').
  - rewrite !Hno by auto. exists sh, sh, V. split; [done|]. split; [done|]. split; [done|]. split; [done|]. split; [done|]. split; try done.
    + intros i Hi _. unfold new_data. by rewrite (proj2 Hov).
    + intros i Hi. by rewrite (proj2 Hov).
Qed.

(** The stripe when all operations are done. *)
Record operated (V : Z -> block) (sh : stripe) : Prop := {
  op_set : setting conf (with_sh sh w);
  op_enc : encodes conf (geo sh) V;
  op_dev i : in_stripe sh i -> exists st, dev_ok conf (V i) (is_parity sh i) (rdev (disk w i)) (sector sh) sy (busy_ops sh) st (dev sh i);
  op_write : write_over sh;
  op_check : checking sh = true -> reconstruct_state sh = reconstruct_state_idle /\ check_over sh;
  op_written i : in_stripe sh i -> written (dev sh i) <> [] ->
    test_bit R5_UPTODATE (dev sh i) = true /\ forall j, in_stripe sh j -> is_parity sh j = true -> test_bit R5_UPTODATE (dev sh j) = true;
  op_overwrite i : in_stripe sh i -> test_bit R5_OVERWRITE (dev sh i) = true -> test_bit R5_UPTODATE (dev sh i) = true \/ is_covered conf (dev sh i) = true;
  op_wants i f : in_stripe sh i -> f = R5_Wantcompute \/ f = R5_Wantdrain \/ f = R5_Wantfill -> test_bit f (dev sh i) = false;
}.

Definition idle_wants (sh : stripe) : Prop := forall i, in_stripe sh i -> test_bit R5_Wantcompute (dev sh i) = false /\ test_bit R5_Wantfill (dev sh i) = false.

(** A change of the page of P that nothing depends on. *)
Lemma operated_check V s sh sh' :
  work V s sh -> write_over sh -> idle_wants sh -> geo sh' = geo sh -> reconstruct_state sh' = reconstruct_state sh ->
  (reconstruct_state sh = reconstruct_state_idle \/ check_state sh' = check_state_idle) -> (checking sh' = true -> check_over sh') ->
  (devs sh' = devs sh \/ (test_bit R5_UPTODATE (dev sh (pd sh)) = false /\ exists p, wf_block (size conf) p /\ devs sh' = devs (upd (pd sh) (set_page p) sh))) -> operated V sh'.
Proof using conf.
  intros [W1 W2 W3 _ _ _ W7 W8] Hov Hid Hg Hr Hck Hco Hd. pose proof W1 as [G1 G2 G3 G4]. cbn in G1, G2, G3, G4.
  assert (in_stripe sh (pd sh)) as Hp by (unfold in_stripe; rewrite <- G2; apply (go_pd _ _ G1)).
  assert (disks sh' = disks sh) as Hn by (unfold disks; destruct Hd as [-> |(_ & p & _ & ->)]; [done|apply disks_upd]).
  assert (forall i, in_stripe sh' i <-> in_stripe sh i) as Hin by (intros i; unfold in_stripe; by rewrite Hn).
  assert (forall i, is_parity sh' i = is_parity sh i) as Hpar by (intros i; unfold is_parity, pd, qd; by rewrite Hg).
  assert (forall i, in_stripe sh i -> dev sh' i = dev sh i \/ (i = pd sh /\ test_bit R5_UPTODATE (dev sh i) = false /\ exists p, wf_block (size conf) p /\ dev sh' i = set_page p (dev sh i))) as Hdev.
  { intros i Hi. destruct Hd as [Hd|(Hu & p & Hwf & Hd)]; [left; unfold dev; by rewrite Hd|].
    assert (dev sh' i = dev (upd (pd sh) (set_page p) sh) i) as E by (unfold dev; by rewrite Hd). rewrite dev_upd in E by (apply Hi || apply Hp).
    destruct (Z.eqb_spec (pd sh) i) as [<-|]; [right|by left]. split; [done|]. split; [done|]. by exists p. }
  assert (forall i f, in_stripe sh i -> test_bit f (dev sh' i) = test_bit f (dev sh i)) as Hf.
  { intros i f Hi. destruct (Hdev i Hi) as [-> |(_ & _ & p & _ & ->)]; done. }
  assert (forall i, in_stripe sh i -> written (dev sh' i) = written (dev sh i) /\ is_covered conf (dev sh' i) = is_covered conf (dev sh i)) as Hfi.
  { intros i Hi. destruct (Hdev i Hi) as [-> |(_ & _ & p & _ & ->)]; done. }
  split.
  - split; cbn; rewrite ?Hg, ?Hn; done.
  - by rewrite Hg.
  - intros i Hi%Hin. destruct (W3 i Hi) as [st Hst]. exists st. unfold busy_ops, sector. rewrite Hpar, Hr, Hg. fold (busy_ops sh) (sector sh).
    destruct (Hdev i Hi) as [-> |(-> & Hu & p & Hwf & ->)]; [done|]. apply spoilt_ok; try done; [by apply Hid|]. destruct Hst as [K _ _].
    apply (dw_parity _ _ _ (do_wf _ _ _ _ _ _ _ _ _ K)). unfold is_parity. by rewrite Z.eqb_refl.
  - destruct Hov as [O1 O2]. split; [|intros i Hi%Hin; rewrite Hf by done; auto]. rewrite Hr. destruct O1 as [|[O1 O3]]; [by left|right]. split; [done|].
    intros j Hj%Hin. rewrite Hpar, Hf by done. auto.
  - intros Hc. split; [|auto]. rewrite Hr. destruct Hck as [|Hck]; [done|]. unfold checking in Hc. by rewrite Hck in Hc.
  - intros i Hi%Hin. rewrite (proj1 (Hfi i Hi)), Hf by done. intros Hw. destruct (W7 i Hi Hw) as [U1 U2]. split; [done|]. intros j Hj%Hin. rewrite Hpar, Hf by done. auto.
  - intros i Hi%Hin. rewrite (proj2 (Hfi i Hi)), !Hf by done. intros Ho. destruct (W8 i Hi Ho) as [|[|H]]; [by auto..|]. rewrite (proj2 Hov) in H by done. done.
  - intros i f Hi%Hin Hor. rewrite Hf by done. destruct Hor as [-> |[-> | ->]]; [by apply Hid|by apply Hov|by apply Hid].
Qed.

Lemma encodes_ext g V V' : encodes conf g V -> slots_ok g \/ level conf <> 6 -> (forall i, 0 <= i < sh_disks g -> V i = V' i) -> 0 <= pd_idx (sh_idx g) < sh_disks g ->
  (level conf = 6 -> 0 <= qd_idx (sh_idx g) < sh_disks g) -> encodes conf g V'.
Proof using conf.
  intros [E1 E2 E3] Hs Hv Hp Hq. split.
  - intros i Hi. rewrite <- Hv by done. auto.
  - intros b Hb. rewrite <- Hv, E2 by done. apply psum_ext. intros i Hi _. by rewrite Hv.
  - intros b Hl Hb. rewrite <- Hv, E3, !qsum_blocks by auto. destruct Hs; [|done]. apply qsum_ext; [done|]. intros i Hi _. by rewrite Hv.
Qed.

(** The parity is checked. *)
Lemma check_step V s sh :
  work V s sh -> write_over sh -> check_done conf w V sh s -> idle_wants sh ->
  exists sh', (if ops_request s STRIPE_OP_CHECK then run_check conf tx sh else Some sh) = Some sh' /\ operated V sh' /\ geo sh' = geo sh /\ disks sh' = disks sh /\
    (forall f, f <> STRIPE_HANDLE -> stest f sh' = stest f sh) /\ (forall i, in_stripe sh i -> toread (dev sh' i) = toread (dev sh i) /\ towrite (dev sh' i) = towrite (dev sh i) /\
      written (dev sh' i) = written (dev sh i) /\ dev_sector (dev sh' i) = dev_sector (dev sh i)).
Proof.
  intros Hw Hov Hck Hid. pose proof (wk_set _ _ _ Hw) as [G1 G2 G3 G4]. cbn in G1, G2, G3, G4.
  assert (in_stripe sh (pd sh)) as Hp by (unfold in_stripe; rewrite <- G2; apply (go_pd _ _ G1)).
  assert (forall i, 0 <= i < sh_disks (geo sh) -> wf_block (size conf) (page (dev sh i))) as Hwf.
  { intros i Hi. rewrite G2 in Hi. apply (dw_page _ _ _ (work_wf _ _ _ i Hw Hi)). }
  destruct Hck as [(C1 & C2)|[(C1 & C2 & C3 & C4 & C5)|(C1 & C2 & C3 & C4)]].
  - rewrite C2. exists sh. do 4 (split; [done || apply (operated_check V s sh); auto; unfold checking; by rewrite C1|]). auto.
  - rewrite C3. exists sh. pose proof (wk_idle _ _ _ Hw) as Hi. unfold checking in Hi. rewrite C1 in Hi.
    do 4 (split; [done || (apply (operated_check V s sh); auto; intros _; split; auto)|]). auto.
  - rewrite C1. pose proof (wk_idle _ _ _ Hw) as Hidle. unfold checking in Hidle. assert (reconstruct_state sh = reconstruct_state_idle) as Hi.
    { destruct C2 as [(E & _)|(_ & [E|E])]; rewrite E in Hidle; auto. }
    assert (encodes conf (geo sh) (fun i => page (dev sh i))) as He.
    { apply (encodes_ext (geo sh) V); [apply (wk_enc _ _ _ Hw)| |intros i Hj; rewrite G2 in Hj; by rewrite C4|apply (go_pd _ _ G1)|].
      - destruct (Z.eq_dec (level conf) 6); [left; by apply (go_slots conf)|by right].
      - intros Hl. apply (qd_range conf sh G1 Hl). }
    destruct (proj2 (checks_encode conf sh Hwf) He) as [Dp Dq].
    assert (forall sh', devs sh' = devs sh -> geo sh' = geo sh -> check_over (ops_complete_check (with_zero_sum (false, false) sh'))) as Hover.
    { intros sh' E1 E2. split; [by left|]. split; [done|]. by apply (check_blocks_ext conf w sh). }
    destruct C2 as [(E & E1 & E2)|(Hl & E)].
    + unfold run_check. rewrite E, (check_p_ok conf tx sh G1 G2 Hwf), Dp. eexists. split; [done|]. set (p := build _ _). set (sh' := ops_complete_check _).
      assert (forall i, in_stripe sh i -> dev sh' i = if pd sh =? i then set_page p (dev sh i) else dev sh i) as Hdev.
      { intros i Hj. change (dev sh' i) with (dev (upd (pd sh) (set_page p) sh) i). apply dev_upd; [apply Hp|apply Hj]. }
      split; [|split; [done|split; [apply disks_upd|split]]].
      * apply (operated_check V s sh); try done; [by left| |right].
        -- intros _. split; [by left|]. split; [done|]. destruct C3 as [B1 B2]. split.
           ++ intros i Hj Hne. unfold in_stripe in Hj. change (disks sh') with (disks (upd (pd sh) (set_page p) sh)) in Hj. rewrite disks_upd in Hj. rewrite Hdev by done.
              rewrite (proj2 (Z.eqb_neq _ _)) by (change (pd sh') with (pd sh) in Hne; congruence). by apply B1.
           ++ change (pd sh') with (pd sh). right. destruct B2 as [B2|B2]; [congruence|]. unfold p_unneeded in *. cbn in *. change (pd sh') with (pd sh). rewrite Hdev, Z.eqb_refl by done. exact B2.
        -- split; [done|]. exists p. split; [|done]. unfold p, build.
           rewrite (map_ext_in _ (fun _ => 0)); [apply wf_build; done|]. intros b Hb%in_seq. unfold byte_at, pd. rewrite (en_p _ _ _ He) by lia. apply Z.lxor_nilpotent.
      * intros f Hf. by destruct f.
      * intros i Hj. rewrite Hdev by done. by destruct (pd sh =? i).
    + assert (exists checkp, run_check conf tx sh = Some (ops_run_check_pq conf tx sh checkp)) as [checkp ->].
      { unfold run_check. destruct E as [-> | ->]; eauto. }
      rewrite (check_pq_ok conf tx sh G1 Hwf) by done. rewrite Dp, Dq, andb_false_r by done. eexists. split; [done|].
      split; [|split; [done|split; [done|split; [|done]]]].
      * apply (operated_check V s sh); try done; [by left| |by left]. intros _. by apply Hover.
      * intros f Hf. by destruct f.
Qed.

Lemma operated_sim V sh sh' :
  operated V sh -> geo sh' = geo sh -> disks sh' = disks sh -> reconstruct_state sh' = reconstruct_state sh -> check_state sh' = check_state sh ->
  zero_sum_result sh' = zero_sum_result sh -> (forall i, in_stripe sh i -> sim (dev sh i) (dev sh' i)) -> operated V sh'.
Proof using conf.
  intros [O1 O2 O3 [O4 O4'] O5 O6 O7 O8] Hg Hn Hr Hc Hz Hs. pose proof O1 as [G1 G2 G3 G4]. cbn in G1, G2, G3, G4.
  assert (in_stripe sh (pd sh)) as Hp by (unfold in_stripe; rewrite <- G2; apply (go_pd _ _ G1)).
  assert (forall i, in_stripe sh' i <-> in_stripe sh i) as Hin by (intros i; unfold in_stripe; by rewrite Hn).
  assert (forall i, is_parity sh' i = is_parity sh i) as Hpar by (intros i; unfold is_parity, pd, qd; by rewrite Hg).
  assert (forall i f, in_stripe sh i -> quiet f = false -> test_bit f (dev sh' i) = test_bit f (dev sh i)) as Hf.
  { intros i f Hi Hq. by apply (sim_flag f _ _ (Hs i Hi)). }
  split.
  - split; cbn; rewrite ?Hg, ?Hn; done.
  - by rewrite Hg.
  - intros i Hi%Hin. destruct (O3 i Hi) as [st Hst]. exists st. unfold busy_ops, sector. rewrite Hpar, Hr, Hg. fold (busy_ops sh) (sector sh). eapply dev_ok_sim; [done|by apply Hs].
  - split; [|intros i Hi%Hin; rewrite Hf by done; auto]. rewrite Hr. destruct O4 as [|[O4 O4'']]; [by left|right]. split; [done|].
    intros j Hj%Hin. rewrite Hpar, Hf by done. auto.
  - unfold checking. rewrite Hc, Hr. intros H. destruct (O5 H) as [E (D1 & D2 & D3)]. split; [done|]. unfold check_over. rewrite Hc, Hz. split; [done|]. split; [done|].
    destruct D3 as [B1 B2]. assert (pd sh' = pd sh) as Epd by (unfold pd; by rewrite Hg). split.
    + intros i Hi%Hin. rewrite Epd, Hf by done. auto.
    + rewrite Epd, Hf by done. destruct B2 as [|B2]; [by left|right]. unfold p_unneeded in *. cbn in *. rewrite Epd, !Hf by done. unfold sector in *. by rewrite Hg.
  - intros i Hi%Hin. rewrite Hf by done. destruct (sim_fields _ _ (Hs i Hi)) as (_ & _ & -> & _). intros Hw. destruct (O6 i Hi Hw) as [U1 U2].
    split; [done|]. intros j Hj%Hin. rewrite Hpar, Hf by done. auto.
  - intros i Hi%Hin. rewrite !Hf by done. unfold is_covered. destruct (sim_fields _ _ (Hs i Hi)) as (_ & -> & _ & ->). by apply O7.
  - intros i f Hi%Hin Hor. rewrite Hf by (done || by destruct Hor as [-> |[-> | ->]]). auto.
Qed.

(** What the operations do to the requests and the data of the stripe. *)
Record effects (V V' : Z -> block) (sh sh' : stripe) : Prop := {
  ef_geo : geo sh' = geo sh;
  ef_disks : disks sh' = disks sh;
  ef_state f : run_flag f = false -> stest f sh' = stest f sh;
  ef_runs : stest STRIPE_BIOFILL_RUN sh' = false /\ stest STRIPE_COMPUTE_RUN sh' = false;
  ef_data i : in_stripe sh i -> is_parity sh i = false -> V' i = new_data conf sh V i;
  ef_reads i : in_stripe sh i -> toread (dev sh' i) = if test_bit R5_Wantfill (dev sh i) then [] else toread (dev sh i);
  ef_sector i : in_stripe sh i -> dev_sector (dev sh' i) = dev_sector (dev sh i);
  ef_writes i : in_stripe sh i ->
    if test_bit R5_Wantdrain (dev sh i) then towrite (dev sh' i) = [] /\ written (dev sh' i) = towrite (dev sh i)
    else towrite (dev sh' i) = towrite (dev sh i) /\ written (dev sh' i) = written (dev sh i);
}.

Lemma run_ops_ok V s sh :
  work V s sh -> compute_ready conf V sh s -> check_done conf w V sh s -> (exists rmw, write_plan conf V rmw sh s) \/ (write_over sh /\ no_write s) ->
  (ops_request s STRIPE_OP_BIOFILL = false -> stest STRIPE_BIOFILL_RUN sh = false /\ forall i, in_stripe sh i -> test_bit R5_Wantfill (dev sh i) = false) ->
  exists sh' V', raid_run_ops conf tx (ops_request s) sh = Some (sh', fills conf tx sh) /\ operated V' sh' /\ effects V V' sh sh'.
Proof.
  intros Hw Hcr Hck Hwr Hfl. pose proof (wk_set _ _ _ Hw) as [G1 G2 _ _]. cbn in G1, G2.
  assert (in_stripe sh (pd sh)) as Hp by (unfold in_stripe; rewrite <- G2; apply (go_pd _ _ G1)).
  destruct (fill_step V s sh Hw Hcr Hfl) as (sh1 & E1 & W1 & R1 & C1 & B1 & D1).
  destruct (compute_step V s sh1 W1 R1) as (sh2 & E2 & W2 & C2 & K2 & B2 & D2).
  pose proof (fun i => carries_in _ _ _ i C1) as I1. pose proof (fun i => carries_in _ _ _ i C2) as I2.
  assert (check_done conf w V sh1 s) as Hck1 by (by apply (carries_check_done V s sh)).
  assert (check_done conf w V sh2 s) as Hck2.
  { apply (carries_check_done V s sh1); try done. unfold pd. rewrite (ca_geo _ _ _ C1). by apply I1. }
  assert (forall i f, in_stripe sh i -> op_flag f = false -> test_bit f (dev sh2 i) = test_bit f (dev sh i)) as Hf2.
  { intros i f Hi Hop. rewrite (ca_flag _ _ _ C2), (ca_flag _ _ _ C1) by (done || by apply I1). done. }
  assert (forall i, in_stripe sh i -> towrite (dev sh2 i) = towrite (dev sh i) /\ written (dev sh2 i) = written (dev sh i) /\ dev_sector (dev sh2 i) = dev_sector (dev sh i)) as Hfi2.
  { intros i Hi. destruct (ca_fields _ _ _ C1 i Hi) as (<- & <- & <-). apply (ca_fields _ _ _ C2). by apply I1. }
  assert (forall i, in_stripe sh i -> test_bit R5_Wantcompute (dev sh2 i) = false /\ test_bit R5_Wantfill (dev sh2 i) = false /\
    toread (dev sh2 i) = if test_bit R5_Wantfill (dev sh i) then [] else toread (dev sh i)) as Hd2.
  { intros i Hi. destruct (D2 i ltac:(by apply I1)) as (-> & -> & ->). rewrite D1 by done. unfold fill_to. destruct (test_bit R5_Wantfill (dev sh i)) eqn:E; [|by rewrite E]. done. }
  assert ((exists rmw, write_plan conf V rmw sh2 s) \/ (write_over sh2 /\ no_write s)) as Hwr2.
  { destruct (wk_write _ _ _ W2) as [|Hov]; [by left|]. destruct Hwr as [(rmw & Hpl)|[_ Hno]]; [|by right].
    destruct (wp_some _ _ _ _ _ Hpl) as (i & Hi & Hd). destruct Hov as [_ Hov]. rewrite <- Hf2 in Hd by done. rewrite Hov in Hd by (by apply I2, I1). done. }
  destruct (write_step V s sh2 W2 Hck2) as (shx & sh3 & V' & E3 & E3' & W3 & O3 & Hck3 & Wr); [intros i Hi%I2%I1; by apply Hd2|done|].
  assert (idle_wants sh3) as Hid.
  { intros i Hi. unfold in_stripe in Hi. rewrite (wr_disks _ _ _ _ Wr) in Hi. rewrite !(wr_flag _ _ _ _ Wr) by auto. split; by apply Hd2, I1, I2. }
  destruct (check_step V' s sh3 W3 O3 Hck3 Hid) as (sh4 & E4 & O4 & Q1 & Q2 & Q3 & Q4).
  unfold raid_run_ops. rewrite E1. cbn [mbind option_bind]. rewrite E2. cbn [mbind option_bind]. rewrite E3. cbn [mbind option_bind]. rewrite E3'. cbn [mbind option_bind]. rewrite E4. cbn [mbind option_bind].
  set (sh5 := if _ || _ then _ else sh4).
  assert (geo sh5 = geo sh4 /\ disks sh5 = disks sh4 /\ reconstruct_state sh5 = reconstruct_state sh4 /\ check_state sh5 = check_state sh4 /\ zero_sum_result sh5 = zero_sum_result sh4 /\ state sh5 = state sh4) as (S1 & S2 & S3 & S4 & S5 & S6).
  { unfold sh5. destruct (_ || _); [|done]. repeat split; try done. apply length_map. }
  assert (forall i, in_stripe sh4 i -> sim (dev sh4 i) (dev sh5 i)) as Hsim.
  { intros i Hi. unfold sh5. destruct (_ || _); [|apply sim_refl]. replace (dev (with_devs _ sh4) i) with (clear_bit R5_Overlap (dev sh4 i)); [by apply sim_quiet|].
    symmetry. unfold dev at 1. cbn. apply list_lookup_total_correct. by rewrite list_lookup_fmap, dev_lookup. }
  assert (geo sh5 = geo sh /\ disks sh5 = disks sh) as [Hg Hn].
  { by rewrite S1, S2, Q1, Q2, (wr_geo _ _ _ _ Wr), (wr_disks _ _ _ _ Wr), (ca_geo _ _ _ C2), (ca_disks _ _ _ C2), (ca_geo _ _ _ C1), (ca_disks _ _ _ C1). }
  clearbody sh5. exists sh5, V'. split; [done|]. split; [by apply (operated_sim V' sh4)|].
  assert (forall f, f <> STRIPE_HANDLE -> stest f sh5 = stest f sh2) as Hst.
  { intros f Hne. unfold stest at 1. rewrite S6. fold (stest f sh4). by rewrite Q3, (wr_state _ _ _ _ Wr). }
  assert (forall i, in_stripe sh i -> in_stripe sh2 i /\ in_stripe sh3 i /\ in_stripe sh4 i) as Hi.
  { intros i H. assert (in_stripe sh2 i) as H2 by (by apply I2, I1). split; [done|]. unfold in_stripe in *. rewrite Q2, (wr_disks _ _ _ _ Wr). done. }
  split; try done.
  - intros f Hr. rewrite Hst by (by intros ->). by rewrite (ca_state _ _ _ C2), (ca_state _ _ _ C1).
  - rewrite !Hst by done. by rewrite B2.
  - intros i H Hpar. destruct (Hi i H) as (H2 & _). rewrite (wr_data _ _ _ _ Wr) by (done || by rewrite (carries_parity _ _ _ _ C2), (carries_parity _ _ _ _ C1)).
    unfold new_data, drained_page, drains. destruct (Hfi2 i H) as (-> & _ & ->). by rewrite Hf2.
  - intros i H. destruct (Hi i H) as (H2 & H3 & H4). destruct (sim_fields _ _ (Hsim i H4)) as (-> & _). destruct (Q4 i H3) as (-> & _).
    destruct (wr_chains _ _ _ _ Wr i H2) as (-> & _). by apply Hd2.
  - intros i H. destruct (Hi i H) as (H2 & H3 & H4). destruct (sim_fields _ _ (Hsim i H4)) as (_ & _ & _ & ->). destruct (Q4 i H3) as (_ & _ & _ & ->).
    destruct (wr_chains _ _ _ _ Wr i H2) as (_ & -> & _). by apply Hfi2.
  - intros i H. destruct (Hi i H) as (H2 & H3 & H4). destruct (sim_fields _ _ (Hsim i H4)) as (_ & -> & -> & _). destruct (Q4 i H3) as (_ & -> & -> & _).
    destruct (wr_chains _ _ _ _ Wr i H2) as (_ & _ & Hx). rewrite Hf2 in Hx by done. destruct (Hfi2 i H) as (E & E' & _). by rewrite E, E' in Hx.
Qed.
End Steps.
