(* ===== verification/Raid5OpsTheorems.v ===== *)
(** The properties of the operations on the blocks of a stripe, [raid_run_ops] of md/raid5.c, with any
    async_tx that keeps its contract: lost blocks are computed, the two ways to write agree, and the
    checks of the parity find every difference. *)

From S2P Require Import Prelude GF256 PageMem Raid5Layout Raid5Stripe Raid5Dev Raid5Ops Raid5Handle Raid5Machine Raid5Data Raid5Soft Raid5Copy Raid5OpsCorrect Raid5Write Raid5Inv Raid5Init Raid5Decide Raid5Run Raid5Example.

(** * Requests for operations *)

Definition compute_ops (o : stripe_op) : bool := stripe_op_beq o STRIPE_OP_COMPUTE_BLK.
Definition rcw_ops (o : stripe_op) : bool := stripe_op_beq o STRIPE_OP_BIODRAIN || stripe_op_beq o STRIPE_OP_RECONSTRUCT.
Definition rmw_ops (o : stripe_op) : bool := rcw_ops o || stripe_op_beq o STRIPE_OP_PREXOR.
Definition check_ops (o : stripe_op) : bool := stripe_op_beq o STRIPE_OP_CHECK.

(** The pages of a stripe. *)
Definition pages (sh : stripe) (i : Z) : block := page (dev sh i).

(** What [raid_run_ops] leaves of [R5_Overlap]. *)
Definition woken (sh : stripe) : stripe := with_devs (map (clear_bit R5_Overlap) (devs sh)) sh.

Lemma woken_pages sh i : 0 <= i < Z.of_nat (disks sh) -> pages (woken sh) i = pages sh i.
Proof.
  intros Hi. unfold pages, dev, woken. cbn. destruct (lookup_lt_is_Some_2 (devs sh) (Z.to_nat i)) as [d Hd]; [unfold disks in Hi; lia|].
  rewrite (list_lookup_total_correct _ _ _ Hd). erewrite list_lookup_total_correct; [|by rewrite list_lookup_fmap, Hd]. done.
Qed.

Lemma disks_woken sh : disks (woken sh) = disks sh.
Proof. apply length_map. Qed.

(** The pages after a write. *)
Lemma after_write_page conf sh V i : test_bit R5_Wantdrain (dev sh i) = true \/ is_data (geo sh) i = false \/ page (dev sh i) = V i ->
  (test_bit R5_Wantdrain (dev sh i) = true -> is_data (geo sh) i = true) ->
  page (after_write conf sh V i) = encode conf (geo sh) (new_data conf sh V) i.
Proof.
  intros H Hd. unfold after_write. destruct (test_bit _ _) eqn:Es; [apply page_set_page|]. destruct (is_data (geo sh) i) eqn:Ed; [|apply page_set_page].
  rewrite encode_data by done. unfold new_data. rewrite Es. by destruct H as [|[|]].
Qed.

Lemma drainable_state conf r sh : drainable conf sh -> drainable conf (with_reconstruct r sh).
Proof. by intros []. Qed.

(** The writes with and without the old parity. *)
Lemma run_rcw conf tx sh sh' :
  (s ← ops_run_biodrain conf tx sh; if level conf <? 6 then ops_run_reconstruct5 conf tx s else ops_run_reconstruct6 conf tx s) = Some sh' ->
  raid_run_ops conf tx rcw_ops sh = Some (woken sh', []).
Proof. unfold raid_run_ops. cbn. destruct (ops_run_biodrain conf tx sh); cbn; [|done]. by intros ->. Qed.

Lemma run_rmw conf tx sh sh' :
  (s ← ops_run_biodrain conf tx (prexor conf tx sh); if level conf <? 6 then ops_run_reconstruct5 conf tx s else ops_run_reconstruct6 conf tx s) = Some sh' ->
  raid_run_ops conf tx rmw_ops sh = Some (woken sh', []).
Proof. unfold raid_run_ops. cbn. fold (prexor conf tx sh). destruct (ops_run_biodrain conf tx (prexor conf tx sh)); cbn; [|done]. by intros ->. Qed.

(** * Properties *)

Section Properties.
Context (conf : r5conf) (tx : async_tx) {Htx : AsyncTx (size conf) tx}.

(** C10. One lost block of a RAID-4/5/6 stripe, or any two of a RAID-6 stripe, P and Q among them, are
    computed from the others: the operation succeeds, the pages of the targets are those of the
    encoding and up to date, and no other page changes. *)
Theorem lost_blocks_computed sh V T :
  lost_blocks conf sh V T ->
  exists sh', raid_run_ops conf tx compute_ops sh = Some (sh', []) /\ disks sh' = disks sh /\
    forall i, 0 <= i < Z.of_nat (disks sh) -> pages sh' i = V i /\
      if bool_decide (i ∈ T) then test_bit R5_UPTODATE (dev sh' i) = true /\ test_bit R5_Wantcompute (dev sh' i) = false
      else dev sh' i = dev sh i.
Proof using Htx.
  intros HL. exists (recovered V T sh). unfold raid_run_ops. cbn. rewrite (compute_lost conf tx sh V T HL). split; [done|].
  pose proof (lost_nodup _ _ _ _ HL) as Hnd. pose proof HL as [G1 G2 _ _ _ L6 L7].
  assert (forall i, 0 <= i < Z.of_nat (disks sh) -> disks (recovered V T sh) = disks sh /\ dev (recovered V T sh) i = if bool_decide (i ∈ T) then computed (set_page (V i) (dev sh i)) else dev sh i) as Hdev.
  { intros i Hi. apply recovered_dev; [done| |done]. intros t Ht. by apply L6. }
  split; [apply (Hdev (pd sh)); rewrite <- G2; apply (go_pd _ _ G1)|]. intros i Hi. unfold pages. rewrite (proj2 (Hdev i Hi)). case_bool_decide as HT; [|auto].
  split; [|done]. by destruct (dev sh i) as [? ? [] ].
Qed.

(** C11. Read-modify-write and reconstruct-write agree: on a stripe whose blocks are known both succeed
    and leave the same pages, which are the blocks with the requests copied over them in their
    order, and the parity of these. *)
Theorem rmw_rcw_agree sh V :
  skip_copy conf = false -> geo_ok conf (geo sh) -> sh_disks (geo sh) = Z.of_nat (disks sh) -> encodes conf (geo sh) V -> drainable conf sh ->
  (forall i, 0 <= i < Z.of_nat (disks sh) -> pages sh i = V i) ->
  exists sh1 sh2,
    raid_run_ops conf tx rcw_ops (with_reconstruct reconstruct_state_drain_run sh) = Some (sh1, []) /\
    raid_run_ops conf tx rmw_ops (with_reconstruct reconstruct_state_prexor_drain_run sh) = Some (sh2, []) /\
    encodes conf (geo sh) (pages sh1) /\
    forall i, 0 <= i < Z.of_nat (disks sh) -> pages sh2 i = pages sh1 i /\
      (is_data (geo sh) i = true ->
       pages sh1 i = if test_bit R5_Wantdrain (dev sh i) then apply_bios conf (dev_sector (dev sh i)) (bio_chain conf (dev_sector (dev sh i)) (towrite (dev sh i))) (V i) else V i).
Proof using Htx.
  intros Hskip Hg Hn Henc Hdr Hk. set (V' := encode conf (geo sh) (new_data conf sh V)).
  destruct (write_rcw_ok conf tx (with_reconstruct reconstruct_state_drain_run sh) Hskip Hg Hn V Henc (drainable_state _ _ _ Hdr)) as (sh1 & E1 & D1 & _ & P1); [intros i Hi _; left; apply Hk; by rewrite <- Hn|done|].
  destruct (write_rmw_ok conf tx (with_reconstruct reconstruct_state_prexor_drain_run sh) Hskip Hg Hn V Henc (drainable_state _ _ _ Hdr)) as (sh2 & E2 & D2 & _ & P2); [intros i Hi _; apply Hk; by rewrite <- Hn|done|].
  assert (forall x, (forall i, 0 <= i < sh_disks (geo sh) -> sim (after_write conf sh V i) (dev x i)) -> disks x = disks sh -> forall i, 0 <= i < Z.of_nat (disks sh) -> pages (woken x) i = V' i) as HP.
  { intros x Hx Dx i Hi. rewrite woken_pages by (by rewrite Dx). unfold pages. rewrite (sim_page _ _ (Hx i ltac:(lia))). apply after_write_page; [right; right; by apply Hk|]. intros Hs. apply (dr_data _ _ Hdr); [lia|done]. }
  specialize (HP sh1 P1 D1) as HP1. specialize (HP sh2 P2 D2) as HP2. exists (woken sh1), (woken sh2).
  split; [by apply run_rcw|]. split; [by apply run_rmw|]. split.
  - apply (encodes_ext conf (geo sh) V'); [by apply new_encodes|destruct (decide (level conf = 6)); [left; by apply (go_slots conf)|by right]|intros i Hi; symmetry; apply HP1; lia|apply (go_pd _ _ Hg)|].
    intros Hl. pose proof (go_qd _ _ Hg) as Hq. rewrite Hl in Hq. apply Hq.
  - intros i Hi. rewrite HP1, HP2 by done. split; [done|]. intros Hd. unfold V'. by rewrite encode_data.
Qed.

(** C12. The check of the parity is exact: it finds no difference in P, nor in Q on level 6, exactly if
    the pages of the stripe are data with their parity. *)
Theorem parity_checked sh :
  geo_ok conf (geo sh) -> sh_disks (geo sh) = Z.of_nat (disks sh) -> (forall i, 0 <= i < Z.of_nat (disks sh) -> wf_block (size conf) (pages sh i)) ->
  check_state sh = (if level conf =? 6 then check_state_run_pq else check_state_run) ->
  exists sh', raid_run_ops conf tx check_ops sh = Some (sh', []) /\ check_state sh' = check_state_check_result /\
    (zero_sum_result sh' = (false, false) <-> encodes conf (geo sh) (pages sh)).
Proof using Htx.
  intros Hg Hn Hwf Hc. rewrite <- Hn in Hwf. pose proof (checks_encode conf sh Hwf) as Henc.
  unfold raid_run_ops. cbn. unfold run_check. rewrite Hc. destruct (Z.eqb_spec (level conf) 6) as [Hl|Hl].
  - rewrite (check_pq_ok conf tx sh Hg Hwf) by done. eexists. split; [reflexivity|]. split; [done|]. cbn. unfold pages. rewrite <- Henc. split; [intros [= -> ->]; done|]. intros [-> H]. by rewrite H.
  - rewrite (check_p_ok conf tx sh Hg Hn Hwf). eexists. split; [reflexivity|]. split; [done|]. cbn. unfold pages. rewrite <- Henc. split; [intros [= ->]; done|]. by intros [-> _].
Qed.
End Properties.

(** * Witnesses *)

(** The stripe with the blocks [W] in its pages and the flag [f] set on the devices in [l]. *)
Definition ex_loaded (W : Z -> block) (f : r5dev_flag) (l : list Z) : stripe :=
  mapi (fun i d => let d := set_page (W i) d in if existsb (Z.eqb i) l then set_bit f d else d) ex_stripe.

Lemma ex_loaded_page W f l i : 0 <= i < 4 -> pages (ex_loaded W f l) i = W i.
Proof. intros Hi. unfold pages, ex_loaded. rewrite dev_mapi by exact Hi. cbv zeta. destruct (existsb _ l); apply page_set_page. Qed.

Lemma ex_V_wf i : 0 <= i < 4 -> wf_block (size ex_conf) (ex_V i).
Proof. apply (en_wf _ _ _ ex_encodes). Qed.

(** The disks 1 and 2, both data disks, are lost. *)
Definition ex_lost : stripe := with_targets 1 2 (ex_loaded (fun i => if (i =? 1) || (i =? 2) then ex_block 0 else ex_V i) R5_Wantcompute [1; 2]).

Lemma lost_blocks_computed_witness : exists sh', raid_run_ops ex_conf soft_tx compute_ops ex_lost = Some (sh', []) /\ pages sh' 1 = ex_block 11.
Proof.
  destruct (lost_blocks_computed ex_conf soft_tx ex_lost ex_V [1; 2]) as (sh' & E & _ & H).
  - split; [apply ex_geo|done|apply ex_encodes| | | |].
    + intros i Hi. change (page (dev ex_lost i)) with (pages (ex_loaded (fun i => if (i =? 1) || (i =? 2) then ex_block 0 else ex_V i) R5_Wantcompute [1; 2]) i). rewrite ex_loaded_page by exact Hi.
      destruct (_ || _); [by apply ex_block_wf|by apply ex_V_wf].
    + right. by exists 1, 2.
    + intros t [-> |[-> |[]%not_elem_of_nil]%elem_of_cons]%elem_of_cons; done.
    + intros i Hi Hn. change (page (dev ex_lost i)) with (pages (ex_loaded (fun i => if (i =? 1) || (i =? 2) then ex_block 0 else ex_V i) R5_Wantcompute [1; 2]) i). rewrite ex_loaded_page by exact Hi.
      rewrite !(proj2 (Z.eqb_neq _ _)) by set_solver. done.
  - exists sh'. split; [exact E|]. destruct (H 1) as [-> _]; vm_compute; reflexivity || (split; [discriminate|reflexivity]).
Defined.

(** A write to the block of the disk 1. *)
Definition ex_dirty : stripe := upd 1 (with_writes [ex_bio 1 3 77] []) (ex_loaded ex_V R5_Wantdrain [1]).

Lemma ex_dirty_page i : 0 <= i < 4 -> pages ex_dirty i = ex_V i.
Proof. intros Hi. rewrite <- (ex_loaded_page ex_V R5_Wantdrain [1] i Hi). revert i Hi. by apply (below_4 (fun i => pages ex_dirty i = pages (ex_loaded ex_V R5_Wantdrain [1]) i)). Qed.

Lemma ex_dirty_drainable : drainable ex_conf ex_dirty.
Proof.
  split; change (sh_disks (geo ex_dirty)) with 4.
  - intros i Hi. change (page (dev ex_dirty i)) with (pages ex_dirty i). rewrite ex_dirty_page by done. by apply ex_V_wf.
  - by apply (below_4 (fun i => bio_page (dev ex_dirty i) = None)).
  - by apply (below_4 (fun i => test_bit R5_Discard (dev ex_dirty i) = false /\ test_bit R5_SkipCopy (dev ex_dirty i) = false)).
  - by apply (below_4 (fun i => written (dev ex_dirty i) = [])).
  - by apply (below_4 (fun i => test_bit R5_Wantdrain (dev ex_dirty i) = true -> is_data (geo ex_dirty) i = true)).
  - apply (below_4 (fun i => test_bit R5_Wantdrain (dev ex_dirty i) = true -> towrite (dev ex_dirty i) <> [] /\ Forall wf_bio (towrite (dev ex_dirty i)))); try done. intros _. split; [done|]. repeat constructor; by vm_compute.
  - by exists 1.
Qed.

Lemma rmw_rcw_agree_witness : exists sh1 sh2,
  raid_run_ops ex_conf soft_tx rcw_ops (with_reconstruct reconstruct_state_drain_run ex_dirty) = Some (sh1, []) /\
  raid_run_ops ex_conf soft_tx rmw_ops (with_reconstruct reconstruct_state_prexor_drain_run ex_dirty) = Some (sh2, []) /\
  pages sh2 1 = pages sh1 1.
Proof.
  destruct (rmw_rcw_agree ex_conf soft_tx ex_dirty ex_V) as (sh1 & sh2 & E1 & E2 & _ & H); [done|apply ex_geo|done|apply ex_encodes|apply ex_dirty_drainable|apply ex_dirty_page|].
  exists sh1, sh2. split; [exact E1|]. split; [exact E2|]. apply (H 1). split; [discriminate|reflexivity].
Defined.

(** A stripe whose Q differs. *)
Definition ex_broken : stripe := with_check check_state_run_pq (ex_loaded (fun i => if i =? 0 then ex_block 1 else ex_V i) R5_UPTODATE []).

Lemma parity_checked_witness : exists sh', raid_run_ops ex_conf soft_tx check_ops ex_broken = Some (sh', []) /\
  (zero_sum_result sh' = (false, false) <-> encodes ex_conf (geo ex_broken) (pages ex_broken)).
Proof.
  destruct (parity_checked ex_conf soft_tx ex_broken) as (sh' & E & _ & H); [apply ex_geo|done| |done|exists sh'; exact (conj E H)].
  intros i Hi. change (pages ex_broken i) with (pages (ex_loaded (fun i => if i =? 0 then ex_block 1 else ex_V i) R5_UPTODATE []) i). rewrite ex_loaded_page by exact Hi.
  destruct (i =? 0); [by apply ex_block_wf|by apply ex_V_wf].
Defined.
