(* ===== verification/Raid5Repair.v ===== *)
(** The check of a stripe of md/raid5.c whose parity is wrong: [handle_parity_checks5] and
    [handle_parity_checks6] with the operations they ask for find the difference, compute the parity
    and write it, or only report it. *)

From S2P Require Import Prelude GF256 Syndrome PageMem Raid5Layout Raid5Stripe Raid5Dev Raid5Ops Raid5Handle Raid5Machine Raid5Data Raid5Soft Raid5Copy Raid5OpsCorrect Raid5Write Raid5Inv Raid5Init Raid5Decide Raid5Run Raid5Example Raid5OpsTheorems.

(** * A round of a check *)







Section Repair.
Context (conf : r5conf) (tx : async_tx) {Htx : AsyncTx (size conf) tx} (w : world) (sh : stripe).
Context (Hg : geo_ok conf (geo sh)) (Hn : sh_disks (geo sh) = Z.of_nat (disks sh)).
Context (Hwf : forall i, 0 <= i < Z.of_nat (disks sh) -> wf_block (size conf) (pages sh i)).

(** The right blocks. *)
Abbreviation V := (encode conf (geo sh) (pages sh)).

























End Repair.

(** * Properties *)

Section Properties.
Context (conf : r5conf) (tx : async_tx) {Htx : AsyncTx (size conf) tx} (w : world) (sh : stripe).


End Properties.

(** * Witnesses *)









