(* ===== verification/Raid5Finish.v ===== *)
(** The rest of [handle_stripe] of md/raid5.c: the requests to the members are submitted
    ([ops_run_io]), and the invariant of the stripe holds again when it has been handled. *)

From S2P Require Import Prelude PageMem Raid5Layout Raid5Stripe Raid5Dev Raid5Ops Raid5Handle Raid5Machine Raid5Data Raid5Copy Raid5OpsCorrect Raid5Write Raid5Inv Raid5Analyse Raid5Decide Raid5Fill Raid5Dirty Raid5Check Raid5Plan Raid5Run.

(** * Submitting requests *)

Section Io.
Context (conf : r5conf).

Definition after_io (di : Z -> disk_info) (i : Z) (d : r5dev) : r5dev := (run_io_dev di i d (false, false, false)).1.

Lemma after_io_eq di i d a : (run_io_dev di i d a).1 = after_io di i d.
Proof.
  unfold after_io, run_io_dev. destruct (take_request d) as [[[o ro] d']|]; [|done]. destruct a as [[b1 b2] b3].
  destruct (targets _ _ _) as [[m|] [m'|]]; done.
Qed.

Definition io_flag (f : r5dev_flag) : bool :=
  match f with R5_LOCKED | R5_Wantread | R5_Wantwrite | R5_WantFUA | R5_SyncIO => true | _ => false end.

(** A device that a request is submitted for, or whose write is skipped. *)
Definition submitted (o : option io) (d d' : r5dev) : Prop :=
  exists fl, d' = with_req o (rreq d) (with_flags fl d) /\ (forall f, io_flag f = false -> fl f = flags d f) /\
    fl R5_LOCKED = match o with Some _ => test_bit R5_LOCKED d | None => false end /\ fl R5_Wantread = false /\ fl R5_Wantwrite = false.

Lemma after_io_cases v par rp sec sy st di i d :
  replacement (di i) = None -> device_ok conf v par rp (rdev (di i)) sec sy st d ->
  match st with
  | WantR => submitted (Some (READ false)) d (after_io di i d)
  | WantW => (submitted (Some WRITE) d (after_io di i d) /\ works (rdev (di i)) = true) \/
             (submitted None d (after_io di i d) /\ forall m, working (rdev (di i)) = Some m -> WriteErrorSeen m && is_bad (bad m) = true)
  | _ => after_io di i d = d
  end.
Proof.
  intros Hr [K1 K2 K3 K4 K5 K6 K7 K8 K9 K10 K11]. pose proof (dw_unused _ _ _ K1) as U. unfold after_io, run_io_dev, take_request.
  rewrite (U R5_Discard), (U R5_ReadRepl), (U R5_WantReplace) by done.
  destruct st as [|o| | |]; cbn [status_flags] in K5; injection K5 as E1 E2 E3 E4; rewrite E4, ?E3; try done; cbn [where_to andb targets member is_write].
  - destruct K6 as (m & Hm & _). rewrite Hm. cbn [fst]. exists (flags (clear_bit R5_SyncIO (clear_bit R5_Wantread d))).
    split; [done|]. split; [intros f Hf; by destruct f|]. split; [done|]. split; [done|exact E4].
  - rewrite Hr. cbn [working]. unfold works. destruct (working (rdev (di i))) as [m|] eqn:Hm; cbn [fst].
    + destruct (WriteErrorSeen m && is_bad (bad m)) eqn:Hb; cbn [andb]; [right|left]; (split; [|by try (intros ? [= <-])]).
      * exists (flags (clear_bit R5_LOCKED (clear_bit R5_SyncIO (clear_bit R5_WantFUA (clear_bit R5_Wantwrite d))))).
        split; [unfold clear_bit, with_flags, with_req; cbn; by rewrite E2|]. split; [intros f Hf; by destruct f|]. done.
      * exists (flags (clear_bit R5_SyncIO (clear_bit R5_WantFUA (clear_bit R5_Wantwrite d)))).
        split; [done|]. split; [intros f Hf; by destruct f|]. done.
    + right. split; [|done]. exists (flags (clear_bit R5_LOCKED (clear_bit R5_SyncIO (clear_bit R5_WantFUA (clear_bit R5_Wantwrite d))))).
      split; [unfold clear_bit, with_flags, with_req; cbn; by rewrite E2|]. split; [intros f Hf; by destruct f|]. done.
Qed.

(** The device with another status. *)
Lemma submitted_ok v par rp r sec sy st st' o d d' :
  dev_ok conf v par r sec sy rp st d -> submitted o d d' -> st <> Pend -> st' <> Pend -> test_bit R5_LOCKED d = true ->
  (match o with Some o => st' = Busy o | None => st' = Idle end) -> status_ok st' v r d ->
  (writing st = true -> writing st' = true \/ forall m, working r = Some m -> WriteErrorSeen m && is_bad (bad m) = true) ->
  device_ok conf v par rp r sec sy st' d'.
Proof.
  intros [[K1 K2 K3 K4 K5 K6 K7 K8 K9 K10 K11] [E1 E2] [L1 L2 L3 L4 L5]] (fl & -> & Hfl & Hlk & Hrd & Hwt) Hnp Hnp' Hl Ho Hs Hw.
  assert (forall f, io_flag f = false -> test_bit f (with_req o (rreq d) (with_flags fl d)) = test_bit f d) as Hf by exact Hfl.
  split; rewrite ?Hf by done; try done.
  - destruct K1 as [W1 W2 W3 W4 W5 W6 W7 W8 W9]. split; try done.
    + intros f Hu. rewrite Hf by (by destruct f). auto.
    + intros Hp. rewrite Hf by done. auto.
  - unfold test_bit at 1 2 3. cbn [flags with_req with_flags req]. rewrite Hlk, Hrd, Hwt, Hl. by destruct o; rewrite Ho.
  - destruct o as [o|]; rewrite Ho in *; [|done]. destruct o; cbn in *; try done. by rewrite Hf.
  - unfold takes_part. rewrite Hf by done. split; [done|]. intros H. by apply K7 in H.
  - intros m Hm _. intros Hor. destruct (K9 m Hm E1 Hor) as [|Hx]; [by left|]. destruct (Hw Hx) as [|Hb]; [by right|]. specialize (Hb m Hm).
    destruct Hor as [[[Hg|Hg] _]|Hre]; [rewrite Hg, andb_false_r in Hb; done|congruence|]. rewrite (L5 m) in Hb by auto. done.
Qed.

Lemma io_ok v par rp sec sy st di i d :
  replacement (di i) = None -> dev_ok conf v par (rdev (di i)) sec sy rp st d ->
  exists st', device_ok conf v par rp (rdev (di i)) sec sy st' (after_io di i d) /\ match st' with WantR | WantW => False | Pend => st = Pend | _ => True end.
Proof.
  intros Hr Hd. pose proof Hd as [K _ _]. pose proof (after_io_cases _ _ _ _ _ _ _ _ _ Hr K) as Hc. pose proof K as [K1 K2 K3 K4 K5 K6 K7 K8 K9 K10 K11].
  destruct st as [|o| | |]; cbn [status_flags] in K5; try (rewrite Hc; eexists; split; [exact K|done]); injection K5 as E1 E2 E3 E4.
  - exists (Busy (READ false)). split; [|done]. eapply (submitted_ok _ _ _ _ _ _ WantR); try done. destruct K6 as (m & Hm & Hst). split; [done|]. exists m. split; [|done].
    unfold working in Hm. destruct (rdev (di i)) as [m'|]; [|done]. destruct (Faulty m'); congruence.
  - destruct Hc as [[Hc Hw]|[Hc Hm]].
    + exists (Busy WRITE). split; [|done]. eapply (submitted_ok _ _ _ _ _ _ WantW); try done; [|by left]. unfold works, working in *. cbn in K6. destruct (rdev (di i)) as [m'|]; [|done].
      split; [|done]. destruct K6 as [|K6]; [done|]. unfold working in K6. by destruct (Faulty m').
    + exists Idle. split; [|done]. eapply (submitted_ok _ _ _ _ _ _ WantW); try done. intros _. by right.
Qed.

(** What is left as it is. *)
Lemma after_io_fields v par rp sec sy st di i d :
  replacement (di i) = None -> device_ok conf v par rp (rdev (di i)) sec sy st d ->
  (forall f, io_flag f = false -> test_bit f (after_io di i d) = test_bit f d) /\ page (after_io di i d) = page d /\ toread (after_io di i d) = toread d /\
  towrite (after_io di i d) = towrite d /\ written (after_io di i d) = written d /\ dev_sector (after_io di i d) = dev_sector d.
Proof.
  intros Hr K. pose proof (after_io_cases _ _ _ _ _ _ _ _ _ Hr K) as Hc.
  assert (forall o, submitted o d (after_io di i d) -> (forall f, io_flag f = false -> test_bit f (after_io di i d) = test_bit f d) /\ page (after_io di i d) = page d /\
    toread (after_io di i d) = toread d /\ towrite (after_io di i d) = towrite d /\ written (after_io di i d) = written d /\ dev_sector (after_io di i d) = dev_sector d) as H.
  { intros o (fl & -> & Hf & _). done. }
  destruct st as [|o| | |]; try (rewrite Hc; done); [by apply (H _ Hc)|]. destruct Hc as [[Hc _]|[Hc _]]; by apply (H _ Hc).
Qed.

(** No request is submitted twice. *)
Lemma not_resubmitted v par rp sec sy st di d :
  replacement di = None -> device_ok conf v par rp (rdev di) sec sy st d -> resubmits_dev di d = false.
Proof.
  intros Hr [K1 _ _ _ K5 _ _ _ _ _ _]. pose proof (dw_unused _ _ _ K1) as U. unfold resubmits_dev, take_request. rewrite (U R5_WantReplace), (U R5_Discard) by done.
  destruct st as [|o| | |]; injection K5 as E1 E2 E3 E4; rewrite E4, ?E3; try done; rewrite E2; unfold targets; cbn [where_to]; rewrite ?Hr; cbn [working].
  - by rewrite andb_false_r.
  - by rewrite andb_false_r.
Qed.

Lemma no_resubmits w sh :
  (forall i, in_stripe sh i -> replacement (disk w i) = None /\ exists v par rp sec sy st, device_ok conf v par rp (rdev (disk w i)) sec sy st (dev sh i)) -> resubmits w sh = false.
Proof.
  intros H. apply not_true_iff_false. unfold resubmits. rewrite existsb_exists. intros ([i d] & Hin%list_elem_of_In & Ht). rewrite devs_down_eq in Hin.
  apply list_elem_of_fmap in Hin as (j & [= -> ->] & Hj). apply list_elem_of_In, in_rev, list_elem_of_In, elem_of_seqZ in Hj. destruct (H j) as (Hr & v & par & rp & sec & sy & st & K); [unfold in_stripe; lia|].
  cbn [fst snd] in Ht. by rewrite (not_resubmitted v par rp sec sy st) in Ht.
Qed.

Lemma run_io_rest w sh : let sh' := ops_run_io w sh in
  devs sh' = devs (mapi (after_io (disk w)) sh) /\ geo sh' = geo sh /\ reconstruct_state sh' = reconstruct_state sh /\ check_state sh' = check_state sh /\
  zero_sum_result sh' = zero_sum_result sh /\ forall f, f <> STRIPE_IO_STARTED -> f <> STRIPE_DEGRADED -> f <> STRIPE_HANDLE -> stest f sh' = stest f sh.
Proof.
  unfold ops_run_io. pose proof (for_devs_eq (run_io_dev (disk w)) (after_io (disk w)) sh (false, false, false) (after_io_eq (disk w))) as Heq.
  destruct (for_devs _ sh _) as [sh1 [[b1 b2] b3]]. cbn in Heq. subst sh1. destruct b1, b2, b3; repeat split; try done; intros f H1 H2 H3; by destruct f.
Qed.
End Io.

(** * The invariant afterwards *)

Section Inv.
Context (conf : r5conf).

(** Blocks are being checked or written. *)
Definition holding (sh : stripe) : Prop := checking sh = true \/ exists i, in_stripe sh i /\ written (dev sh i) <> [].

(** The invariant carries over to a world with the same blocks. *)
Lemma inv_transfer w w' synced synced' V :
  inv conf w synced V -> setting conf w' -> geo (w_sh w') = geo (w_sh w) -> disks (w_sh w') = disks (w_sh w) ->
  reconstruct_state (w_sh w') = reconstruct_state (w_sh w) -> check_state (w_sh w') = check_state (w_sh w) -> zero_sum_result (w_sh w') = zero_sum_result (w_sh w) ->
  (forall f, f = STRIPE_ACTIVE \/ f = STRIPE_BIOFILL_RUN \/ f = STRIPE_COMPUTE_RUN \/ f = STRIPE_DISCARD -> stest f (w_sh w') = false) ->
  (forall i st, in_stripe (w_sh w) i ->
    device_inv conf (V i) (is_parity (w_sh w) i) (busy_ops (w_sh w)) (rdev (disk w i)) (sector (w_sh w)) (all_synced synced (w_sh w)) st (dev (w_sh w) i) ->
    exists st', device_inv conf (V i) (is_parity (w_sh w) i) (busy_ops (w_sh w)) (rdev (disk w' i)) (sector (w_sh w)) (all_synced synced' (w_sh w')) st' (dev (w_sh w') i)) ->
  (holding (w_sh w) -> forall i, in_stripe (w_sh w) i -> test_bit R5_UPTODATE (dev (w_sh w) i) = true -> test_bit R5_UPTODATE (dev (w_sh w') i) = true) ->
  (forall i, in_stripe (w_sh w) i -> written (dev (w_sh w') i) <> [] -> written (dev (w_sh w) i) <> []) ->
  (checking (w_sh w) = true -> p_unneeded conf w -> p_unneeded conf w') -> inv conf w' synced' V.
Proof.
  intros [I1 I2 I3 I4 I5 I6 I7] Hset Hg Hn Hr Hc Hz Hst Hdev Hup Hwr Hpu.
  assert (forall i, is_parity (w_sh w') i = is_parity (w_sh w) i) as Hpar by (intros i; unfold is_parity, pd, qd; by rewrite Hg).
  assert (pd (w_sh w') = pd (w_sh w)) as Epd by (unfold pd; by rewrite Hg).
  assert (in_stripe (w_sh w) (pd (w_sh w))) as Hp by (destruct I1 as [G1 G2 _ _]; unfold in_stripe; rewrite <- G2; apply (go_pd _ _ G1)).
  split; rewrite ?Hn; try done.
  - by rewrite Hg.
  - intros i Hi. destruct (I3 i Hi) as [st Hd]. destruct (Hdev i st Hi Hd) as [st' Hd']. exists st'. unfold busy_ops, sector. rewrite Hpar, Hr, Hg. exact Hd'.
  - by rewrite Hr.
  - unfold checking. rewrite Hc. intros Hck. destruct (I6 Hck) as [C1 C2 C3 C4 C5]. split; rewrite ?Hc, ?Hr, ?Hz, ?Hn, ?Epd; try done.
    + intros i Hi Hne. apply Hup; [by left|done|auto].
    + destruct C5; [left; apply Hup; [by left|done|done]|auto].
  - intros i j Hi Hw Hj. rewrite Hpar. intros Hpj. apply Hup; [right; exists i; auto|done|]. apply (I7 i j); auto.
Qed.

(** What is true of a member that was in sync, when it is in doubt whether all are. *)
Lemma device_inv_synced v par rp r sec sy sy' st d : (sy' = true -> sy = true) -> device_inv conf v par rp r sec sy st d -> device_inv conf v par rp r sec sy' st d.
Proof.
  intros Hsy [[K1 K2 K3 K4 K5 K6 K7 K8 K9 K10 K11] D1 D2 D3 D4 D5]. split; try done. split; try done. intros m Hm Hw Hor. apply (K9 m Hm Hw).
  destruct Hor as [[H1 [H2|H2]]|]; auto.
Qed.

Lemma io_inv w sh synced V :
  operated conf w (all_synced synced sh) V sh -> (forall f, f = STRIPE_BIOFILL_RUN \/ f = STRIPE_COMPUTE_RUN \/ f = STRIPE_DISCARD -> stest f sh = false) ->
  inv conf (with_sh (sclear STRIPE_ACTIVE (ops_run_io w sh)) w) synced V.
Proof.
  intros [O1 O2 O3 [O4 O4'] O5 O6 O7 O8] Hfl. destruct (run_io_rest w sh) as (R1 & R2 & R3 & R4 & R5 & R6). set (sh1 := ops_run_io w sh) in *. set (sh' := sclear STRIPE_ACTIVE sh1).
  pose proof O1 as [G1 G2 G3 G4]. cbn in G1, G2, G3, G4. assert (disks sh' = disks sh) as Hn by (unfold disks; change (devs sh') with (devs sh1); rewrite R1; apply disks_mapi).
  assert (forall i, in_stripe sh i -> dev sh' i = after_io (disk w) i (dev sh i)) as Hdev.
  { intros i Hi. unfold dev at 1. change (devs sh') with (devs sh1). rewrite R1. by apply dev_mapi. }
  assert (forall i, is_parity sh' i = is_parity sh i) as Hpar by (intros i; unfold is_parity, pd, qd; change (geo sh') with (geo sh1); by rewrite R2).
  assert (busy_ops sh' = busy_ops sh /\ checking sh' = checking sh) as [Hb Hc] by (unfold busy_ops, checking; change (reconstruct_state sh') with (reconstruct_state sh1); change (check_state sh') with (check_state sh1); by rewrite R3, R4).
  assert (forall i, in_stripe sh i -> replacement (disk w i) = None) as Hrepl by exact G4.
  assert (forall i, in_stripe sh i -> (forall f, io_flag f = false -> test_bit f (dev sh' i) = test_bit f (dev sh i)) /\ written (dev sh' i) = written (dev sh i) /\ is_covered conf (dev sh' i) = is_covered conf (dev sh i)) as Hf.
  { intros i Hi. destruct (O3 i Hi) as [st [K _ _]]. rewrite Hdev by done. destruct (after_io_fields conf _ _ _ _ _ _ (disk w) i _ (Hrepl i Hi) K) as (F1 & _ & _ & F2 & F3 & F4).
    split; [done|]. split; [done|]. unfold is_covered. by rewrite F2, F4. }
  assert (in_stripe sh (pd sh)) as Hp by (unfold in_stripe; rewrite <- G2; apply (go_pd _ _ G1)). assert (pd sh' = pd sh) as Epd by (unfold pd; change (geo sh') with (geo sh1); by rewrite R2).
  assert (all_synced synced sh' = all_synced synced sh) as Hsy.
  { unfold all_synced. change (stest STRIPE_INSYNC sh') with (stest STRIPE_INSYNC sh1). change (stest STRIPE_SYNCING sh') with (stest STRIPE_SYNCING sh1). by rewrite !R6. }
  split; cbn [w_sh with_sh]; change (disk (with_sh sh' w)) with (disk w); rewrite ?Hn.
  - split; cbn; change (geo sh') with (geo sh1); rewrite ?R2, ?Hn; done.
  - change (geo sh') with (geo sh1). by rewrite R2.
  - intros i Hi. destruct (O3 i Hi) as [st Hst]. unfold sector. rewrite Hpar, Hb, Hsy. change (geo sh') with (geo sh1). rewrite R2. fold (sector sh).
    destruct (io_ok conf _ _ _ _ _ _ (disk w) i _ (Hrepl i Hi) Hst) as (st' & K' & Hs'). exists st'. destruct (Hf i Hi) as (F1 & F2 & F3). rewrite <- Hdev in K' by done. split; try done.
    + destruct st'; try done. rewrite F1 by done. subst st. pose proof (dk_ok _ _ _ _ _ _ _ _ _ Hst) as K. pose proof (proj1 (do_pend _ _ _ _ _ _ _ _ _ K) eq_refl) as [Hbu Ht]%andb_true_iff.
      destruct O4 as [O4|[_ O4]]; [unfold busy_ops in Hbu; by rewrite O4 in Hbu|]. unfold takes_part in Ht. rewrite (O8 i R5_Wantdrain), orb_false_r in Ht by auto.
      apply orb_true_iff in Ht as [Ht|Ht]; [by apply O4|]. apply O6; [done|]. by destruct (written (dev sh i)).
    + rewrite !F1 by done. split; apply O8; auto.
    + rewrite !F1 by done. rewrite (O8 i R5_Wantfill) by auto. done.
    + rewrite !F1, F3 by done. by apply O7.
    + rewrite F1, F2 by done. intros Hw. by apply O6.
  - intros f Hf'. destruct Hf' as [-> |Hf']; [done|]. destruct Hf' as [-> |[-> | ->]]; [change (stest STRIPE_BIOFILL_RUN sh1 = false)|change (stest STRIPE_COMPUTE_RUN sh1 = false)|change (stest STRIPE_DISCARD sh1 = false)]; rewrite R6 by done; apply Hfl; auto.
  - change (reconstruct_state sh') with (reconstruct_state sh1). rewrite R3. destruct O4 as [|[[] _]]; auto.
  - rewrite Hc. intros Hck. destruct (O5 Hck) as [Hidle (D1 & D2 & [B1 B2])].
    split; cbn [w_sh with_sh]; change (check_state sh') with (check_state sh1); change (reconstruct_state sh') with (reconstruct_state sh1); change (zero_sum_result sh') with (zero_sum_result sh1); rewrite ?R3, ?R4, ?R5, ?Hn, ?Epd; try done.
    + intros i Hi Hne. rewrite (proj1 (Hf i Hi)) by done. by apply B1.
    + rewrite (proj1 (Hf _ Hp)) by done. destruct B2 as [|B2]; [by left|right]. unfold p_unneeded in *. cbn [w_sh with_sh] in *. change (disk (with_sh sh' w)) with (disk w). change (disk (with_sh sh w)) with (disk w) in B2.
      rewrite Epd. destruct B2 as [|(m & M1 & M2 & M3 & M4 & M5)]; [by left|right]. exists m. split; [done|]. split; [unfold sector; change (geo sh') with (geo sh1); by rewrite R2|]. rewrite !(proj1 (Hf _ Hp)) by done. do 2 (split; [done|]).
      destruct (O3 _ Hp) as [st [K _ _]]. rewrite Hdev by done. pose proof (after_io_cases conf _ _ _ _ _ _ (disk w) _ _ (Hrepl _ Hp) K) as Hcs. pose proof (do_status _ _ _ _ _ _ _ _ _ K) as Hs.
      rewrite M5 in Hs. destruct st; try done. by rewrite Hcs.
  - intros i j Hi Hw Hj. rewrite Hpar, (proj1 (Hf j Hj)) by done. rewrite (proj1 (proj2 (Hf i Hi))) in Hw. intros Hpj. by apply (O6 i).
Qed.
End Inv.
