(* ===== verification/Raid5Step.v ===== *)
(** [handle_stripe] of md/raid5.c as a whole: it takes a stripe that satisfies the invariant to one
    that does, it answers the requests that it returns from the blocks of the stripe, and the
    writes that it returns are on the members. *)

From S2P Require Import Prelude PageMem Raid5Layout Raid5Stripe Raid5Dev Raid5Ops Raid5Handle Raid5Machine Raid5Data Raid5Copy Raid5Spec Raid5OpsCorrect Raid5Write Raid5Inv Raid5Analyse Raid5Decide Raid5Fill Raid5Dirty Raid5Check Raid5Plan Raid5Run Raid5Finish.

Section Start.
Context (conf : r5conf).

(** The stripe that is analysed. *)
Definition begun (sh : stripe) : stripe := start_sync (sset STRIPE_ACTIVE (sclear STRIPE_BATCH_READY (sclear STRIPE_HANDLE sh))).

Lemma begun_rest sh :
  geo (begun sh) = geo sh /\ devs (begun sh) = devs sh /\ reconstruct_state (begun sh) = reconstruct_state sh /\ check_state (begun sh) = check_state sh /\
  zero_sum_result (begun sh) = zero_sum_result sh /\
  (forall f, f = STRIPE_BIOFILL_RUN \/ f = STRIPE_COMPUTE_RUN \/ f = STRIPE_DISCARD -> stest f (begun sh) = stest f sh) /\
  (forall synced, all_synced synced (begun sh) = true -> all_synced synced sh = true).
Proof.
  unfold begun, start_sync. destruct (_ && _).
  - repeat split; try done; [intros f [-> |[-> | ->]]; done|]. intros synced. unfold all_synced. cbn. by destruct synced.
  - repeat split; try done. intros f [-> |[-> | ->]]; done.
Qed.

Definition looked_at (w : world) : stripe := mapi (analysed conf (begun (w_sh w)) (disk w)) (begun (w_sh w)).

(** The analysis of a stripe between two events. *)
Record begins (w : world) (synced : bool) (V : Z -> block) (sh : stripe) (s : stripe_head_state) : Prop := {
  bg_inv : inv conf (with_sh (sclear STRIPE_ACTIVE sh) w) synced V;
  bg_analysis : analysis w sh s;
  bg_looked i : in_stripe sh i -> looked conf (rdev (disk w i)) (sector sh) (dev sh i);
  bg_failed : cnt s failed = lost conf w;
  bg_geo : geo sh = geo (w_sh w);
  bg_disks : disks sh = disks (w_sh w);
  bg_states : reconstruct_state sh = reconstruct_state (w_sh w) /\ check_state sh = check_state (w_sh w);
  bg_flags i f : in_stripe sh i -> test_bit f (dev sh i) = seen conf (sector (w_sh w)) (rdev (disk w i)) (dev (w_sh w) i) f;
  bg_fields i : in_stripe sh i -> exists fl, dev sh i = with_flags fl (dev (w_sh w) i);
}.

Lemma failed_lost w sh s sh' s' :
  analysis w sh s -> analysis w sh' s' -> disks sh' = disks sh -> (forall i, in_stripe sh i -> dev sh' i = dev sh i) -> cnt s' failed = cnt s failed.
Proof.
  intros H1 H2 Hn Hd. rewrite (an_cnt _ _ _ H1), (an_cnt _ _ _ H2), Hn. apply count_ext. intros i Hi%in_seqZ. by rewrite Hd.
Qed.

Lemma analysis_disks w w' sh s : analysis w sh s -> (forall i, disk w' i = disk w i) -> analysis w' sh s.
Proof. intros [A1 A2 A3 A4 A5 A6 A7 A8 A9] Hd. split; try done. intros i. rewrite Hd. apply A9. Qed.

Lemma begins_ok w synced V :
  inv conf w synced V -> exists s, analyse_stripe conf (with_sh (begun (w_sh w)) w) = Some (looked_at w, s) /\ begins w synced V (looked_at w) s.
Proof.
  intros Hinv. pose proof Hinv as [I1 I2 I3 I4 I5 I6 I7]. pose proof I1 as [G1 G2 G3 G4]. destruct (begun_rest (w_sh w)) as (B1 & B2 & B3 & B4 & B5 & B6 & B7).
  set (sh0 := begun (w_sh w)) in *. assert (disks sh0 = disks (w_sh w)) as Hn0 by (unfold disks; by rewrite B2). assert (forall i, dev sh0 i = dev (w_sh w) i) as Hd0 by (intros i; unfold dev; by rewrite B2).
  assert (stest STRIPE_BIOFILL_RUN sh0 = false) as Hbf by (rewrite B6 by auto; apply I4; auto).
  assert (forall i, in_stripe (w_sh w) i -> test_bit R5_Wantcompute (dev (w_sh w) i) = false) as Hwc.
  { intros i Hi. destruct (I3 i Hi) as [st [_ _ [H _] _ _ _]]. done. }
  assert (setting conf (with_sh sh0 w)) as Hset by (split; cbn [w_sh w_disks with_sh]; rewrite ?B1, ?Hn0; done).
  destruct (analyse_ok conf (with_sh sh0 w) Hset Hbf) as (s & Heq & Ha); [cbn [w_sh with_sh]; rewrite Hn0; intros i Hi; rewrite Hd0; by apply Hwc|].
  change (mapi (analysed conf (w_sh (with_sh sh0 w)) (disk (with_sh sh0 w))) (w_sh (with_sh sh0 w))) with (looked_at w) in *. exists s. split; [done|].
  set (sh1 := looked_at w) in *. assert (disks sh1 = disks (w_sh w)) as Hn1 by (unfold sh1, looked_at; fold sh0; by rewrite disks_mapi).
  assert (forall i, in_stripe (w_sh w) i -> dev sh1 i = analysed conf sh0 (disk w) i (dev (w_sh w) i)) as Hd1.
  { intros i Hi. unfold sh1, looked_at. fold sh0. rewrite dev_mapi by (by rewrite Hn0). by rewrite Hd0. }
  assert (forall i, in_stripe sh1 i <-> in_stripe (w_sh w) i) as Hin by (intros i; unfold in_stripe; by rewrite Hn1).
  assert (sector sh0 = sector (w_sh w)) as Hsec by (unfold sector; by rewrite B1).
  assert (forall i f, in_stripe (w_sh w) i -> test_bit f (dev sh1 i) = seen conf (sector (w_sh w)) (rdev (disk w i)) (dev (w_sh w) i) f) as Hfl.
  { intros i f Hi. rewrite Hd1 by done. rewrite (analysed_flags conf sh0 (disk w) i) by (done || by apply G4). by rewrite Hsec. }
  assert (forall i, in_stripe (w_sh w) i -> exists fl, dev sh1 i = with_flags fl (dev (w_sh w) i)) as Hfi by (intros i Hi; rewrite Hd1 by done; apply analysed_fields).
  split; try done.
  - apply (inv_transfer conf w _ synced synced V Hinv); cbn [w_sh with_sh]; try done.
    + split; cbn [w_sh w_disks with_sh]; change (disks (sclear STRIPE_ACTIVE sh1)) with (disks sh1); change (geo (sclear STRIPE_ACTIVE sh1)) with (geo sh0); rewrite ?B1, ?Hn1; done.
    + intros f [-> |[-> |[-> | ->]]]; [done| | |]; change (stest ?f (sclear STRIPE_ACTIVE sh1)) with (stest f sh0); rewrite B6 by auto; apply I4; auto.
    + intros i st Hi Hst. exists st. change (dev (sclear _ sh1) i) with (dev sh1 i). rewrite Hd1 by done. rewrite <- Hsec. apply (analysed_ok conf sh0 (disk w) i); [by apply G4|done|]. rewrite Hsec.
      apply (device_inv_synced conf _ _ _ _ _ (all_synced synced (w_sh w))); [|done]. exact (B7 synced).
    + intros _ i Hi Hu. change (dev (sclear _ sh1) i) with (dev sh1 i). rewrite Hfl by done. exact Hu.
    + intros i Hi. change (dev (sclear _ sh1) i) with (dev sh1 i). destruct (Hfi i Hi) as [fl ->]. done.
    + intros _. assert (in_stripe (w_sh w) (pd (w_sh w))) as Hp by (unfold in_stripe; rewrite <- G2; apply (go_pd _ _ G1)).
      unfold p_unneeded. cbn [w_sh with_sh]. change (pd (sclear STRIPE_ACTIVE sh1)) with (pd sh0). assert (pd sh0 = pd (w_sh w)) as -> by (unfold pd; by rewrite B1). change (disk (with_sh ?x w)) with (disk w).
      change (sector (sclear STRIPE_ACTIVE sh1)) with (sector sh0). rewrite Hsec. intros [|(m & M1 & M2 & M3 & M4 & M5)]; [by left|right]. exists m. change (dev (sclear _ sh1) ?i) with (dev sh1 i). rewrite !Hfl by done.
      split; [done|]. split; [done|]. cbn [seen]. unfold works. rewrite (has_not_fixable conf (sector (w_sh w))); [|unfold has_block; by rewrite M1]. rewrite M3, M4, M5. cbn. by rewrite andb_false_r.
  - by apply (analysis_disks (with_sh sh0 w)).
  - intros i Hi%Hin. rewrite Hd1 by done. apply (analysed_looked conf sh0 (disk w) i); [by apply G4|done].
  - unfold lost. destruct (analyse_ok conf w I1) as (s' & -> & Ha'); [apply I4; auto|done|].
    apply (failed_lost w (mapi (analysed conf (w_sh w) (disk w)) (w_sh w)) s' sh1 s); try done; [by apply (analysis_disks (with_sh sh0 w))|by rewrite disks_mapi|]. intros i Hi. unfold in_stripe in Hi. rewrite disks_mapi in Hi.
    rewrite dev_mapi, Hd1 by done. unfold analysed, analyse_dev, mark_wantfill. rewrite Hbf, (I4 STRIPE_BIOFILL_RUN) by auto.
    unfold use_replacement, read_rdev, mark_replacement, mark_insync, mark_errors, use_replacement. by rewrite Hsec.
  - intros i f Hi%Hin. by apply Hfl.
  - intros i Hi%Hin. by apply Hfi.
Qed.

(** Nothing stands in the way of handling the stripe. *)
Lemma begins_examined w synced V sh s :
  begins w synced V sh s -> cond s handle_bad_blocks = false -> lost conf w <= max_degraded conf ->
  check_states_beq (check_state (w_sh w)) check_state_compute_result && any_flag R5_LOCKED (w_sh w) = false -> examined conf w V synced sh s.
Proof.
  intros [[I1 I2 I3 I4 I5 I6 I7] B2 B3 B4 B5 B6 [B7 B7'] B8 B9] Hbad Hlost Hck. cbn [w_sh with_sh] in *. pose proof I1 as [G1 G2 G3 G4]. cbn in G1, G2, G3, G4. pose proof (go_degraded _ _ G1) as Hd.
  assert (max_degraded conf <= 2) as Hd2 by (destruct (level conf =? 6); lia).
  assert (forall i, in_stripe sh i -> exists st, device_inv conf (V i) (is_parity sh i) (busy_ops sh) (rdev (disk w i)) (sector sh) (all_synced synced sh) st (dev sh i)) as Hdev by exact I3.
  assert (mid conf w sh s V synced) as Hm.
  { split; try done.
    - intros i Hi. destruct (Hdev i Hi) as [st [K _ _ _ _ _]]. exists st. split; [done|by apply (an_bad _ _ _ B2)|auto].
    - rewrite (an_cnt _ _ _ B2) at 1. split; [apply count_nonneg|]. by rewrite B4.
    - intros i Hi. apply (an_failed _ _ _ B2); [lia|done].
    - apply (an_num0 _ _ _ B2).
    - apply (an_num1 _ _ _ B2).
    - rewrite (an_cnt _ _ _ B2). apply count_nonneg.
    - intros i H0 Hi. rewrite (an_cnt _ _ _ B2) in H0. by apply (count_zero _ _ i H0), in_seqZ. }
  split; try done.
  - split.
    + intros i Hi. by destruct (Hdev i Hi) as [st [_ _ K _ _ _]].
    + intros i Hi. by destruct (Hdev i Hi) as [st [_ _ _ _ _ K]].
    + intros i j Hi Hw Hj Hp. by apply (I7 i j).
    + intros i Hi Hb Ht. destruct (Hdev i Hi) as [st [K D _ _ _ _]]. assert (st = Pend) as ->; [|done]. apply (do_pend _ _ _ _ _ _ _ _ _ K). by rewrite Hb, Ht.
  - split; [apply (I4 STRIPE_COMPUTE_RUN); auto|]. split; [apply (I4 STRIPE_BIOFILL_RUN); auto|apply (I4 STRIPE_DISCARD); auto].
  - intros i Hi. by destruct (Hdev i Hi) as [st [_ _ _ _ K _]].
  - intros Hc. destruct (I6 Hc) as [C1 C2 C3 C4 C5]. cbn [w_sh with_sh] in *. split; [done|]. split; [done|]. split; [by split|]. destruct C1 as [|[C1 Hl]]; [by left|right]. split; [done|]. split; [done|].
    change (check_state (sclear STRIPE_ACTIVE sh)) with (check_state sh) in C1. rewrite <- B7', C1 in Hck. cbn in Hck. rewrite (an_cnt _ _ _ B2). apply count_none. intros i Hi%in_seqZ. cbn [counts]. rewrite B8 by done. cbn [seen].
    unfold any_flag in Hck. apply not_true_iff_false. intros Ht. apply not_true_iff_false in Hck. apply Hck, existsb_exists. exists (dev (w_sh w) i). split; [|done].
    apply list_elem_of_In. eapply list_elem_of_lookup_2. apply dev_lookup. unfold in_stripe in Hi. by rewrite <- B6.
Qed.
End Start.

(** * Carrying out the plan *)

Section Handled.
Context (conf : r5conf) (tx : async_tx) {Htx : AsyncTx (size conf) tx} (Hskip : skip_copy conf = false).

Lemma planned_work w V synced sh0 sh s out :
  planned conf w V synced sh0 sh s out -> work conf w (all_synced (synced || synced_by out) sh) V s sh.
Proof.
  intros [P1 P2 P3 P4 P5 [P6 P6'] P7 P8 P9 P10 P11]. pose proof P1 as [M1 M2 M3 M4 M5 M6 M7 M8 M9]. split; try done.
  - intros i Hi. destruct (M3 i Hi) as [st [K E L]]. exists st. by split.
  - destruct P5 as [|(Q1 & _ & Q2)]; [by left|right]. split; [by left|done].
  - by left.
Qed.

Lemma planned_runs w V synced sh0 s0 sh s out :
  examined conf w V synced sh0 s0 -> planned conf w V synced sh0 sh s out ->
  exists sh' V', raid_run_ops conf tx (ops_request s) sh = Some (sh', fills conf tx sh) /\
    operated conf w (all_synced (synced || synced_by out) sh) V' sh' /\ effects conf V V' sh sh'.
Proof.
  intros Hex Hp. apply (run_ops_ok conf w (all_synced (synced || synced_by out) sh) tx Hskip V s sh).
  - by apply (planned_work w V synced sh0).
  - apply (pn_compute _ _ _ _ _ _ _ _ Hp).
  - apply (pn_check _ _ _ _ _ _ _ _ Hp).
  - destruct (pn_write _ _ _ _ _ _ _ _ Hp) as [|(Q1 & Q2 & Q3)]; [by left|right]. split; [split; [by left|done]|exact Q2].
  - intros Hb. pose proof (pn_tracks _ _ _ _ _ _ _ _ Hp) as Ht. rewrite Hb in Ht. destruct (ex_runs _ _ _ _ _ _ Hex) as (_ & R & _). split; [by rewrite (tr_state _ _ Ht) by auto|].
    intros i Hi. apply (tracks_in _ _ i Ht) in Hi. rewrite (tr_flag _ _ Ht) by done. destruct (test_bit R5_Wantfill (dev sh0 i)) eqn:E; [|done].
    rewrite (pn_fill _ _ _ _ _ _ _ _ Hp i Hi E) in Hb. done.
Qed.

(** The stripe was handled: [V'] are its blocks afterwards. *)
Record handled (w : world) (synced : bool) (V : Z -> block) (w' : world) (V' : Z -> block) (out : list reply) : Prop := {
  hd_inv : inv conf w' (synced || synced_by out) V';
  hd_geo : geo (w_sh w') = geo (w_sh w);
  hd_disks : disks (w_sh w') = disks (w_sh w);
  hd_sector i : in_stripe (w_sh w) i -> dev_sector (dev (w_sh w') i) = dev_sector (dev (w_sh w) i);
  hd_spec : handles conf (disks (w_sh w)) (fun i => negb (is_parity (w_sh w) i)) (fun i => dev_sector (dev (w_sh w) i)) (contents_of V (w_sh w)) (contents_of V' (w_sh w')) out;
  hd_durable i b : Write_done i b ∈ out -> in_stripe (w_sh w) i /\ forall j m, in_stripe (w_sh w) j -> j = i \/ is_parity (w_sh w) j = true ->
    working (rdev (disk w j)) = Some m -> in_sync conf (sector (w_sh w)) m = true -> test_bit R5_ReadError (dev (w_sh w) j) = false -> stored m = V j;
  hd_synced : Sync_done true ∈ out -> forall i m, in_stripe (w_sh w) i -> working (rdev (disk w i)) = Some m -> is_bad (bad m) = false -> stored m = V i;
}.

Section Outcome.
Context (w : world) (synced : bool) (V V' : Z -> block) (sh0 sh sh1 : stripe) (s0 s : stripe_head_state) (out : list reply).
Context (Hb : begins conf w synced V sh0 s0) (Hbad : cond s0 handle_bad_blocks = false) (Hp : planned conf w V synced sh0 sh s out).
Context (Ho : operated conf w (all_synced (synced || synced_by out) sh) V' sh1) (He : effects conf V V' sh sh1).
Abbreviation sh2 := (sclear STRIPE_ACTIVE (ops_run_io w sh1)).

Lemma out_in i : (in_stripe sh0 i <-> in_stripe (w_sh w) i) /\ (in_stripe sh i <-> in_stripe (w_sh w) i) /\ (in_stripe sh1 i <-> in_stripe (w_sh w) i).
Proof using Hb Hp He.
  unfold in_stripe. pose proof (pn_tracks _ _ _ _ _ _ _ _ Hp) as Ht. rewrite (ef_disks _ _ _ _ _ He), (tr_disks _ _ Ht). destruct (ops_request s STRIPE_OP_BIOFILL); [change (disks (sset _ sh0)) with (disks sh0)|]; by rewrite (bg_disks _ _ _ _ _ _ Hb).
Qed.

Lemma out_track i : in_stripe (w_sh w) i -> toread (dev sh i) = toread (dev (w_sh w) i) /\ towrite (dev sh i) = towrite (dev (w_sh w) i) /\
  dev_sector (dev sh i) = dev_sector (dev (w_sh w) i) /\ written (dev sh0 i) = written (dev (w_sh w) i) /\ is_parity sh i = is_parity (w_sh w) i.
Proof using Hb Hp He.
  intros Hi. destruct (out_in i) as (I0 & _ & _). pose proof (pn_tracks _ _ _ _ _ _ _ _ Hp) as Ht. assert (in_stripe (if ops_request s STRIPE_OP_BIOFILL then sset STRIPE_BIOFILL_RUN sh0 else sh0) i) as Hi' by (destruct (ops_request s STRIPE_OP_BIOFILL); by apply I0).
  destruct (tr_fields _ _ Ht i Hi') as (_ & -> & -> & ->). destruct (bg_fields _ _ _ _ _ _ Hb i) as [fl E]; [by apply I0|].
  replace (dev (if ops_request s STRIPE_OP_BIOFILL then sset STRIPE_BIOFILL_RUN sh0 else sh0) i) with (dev sh0 i) by (by destruct (ops_request s STRIPE_OP_BIOFILL)). rewrite E. repeat split; try done.
  unfold is_parity, pd, qd. rewrite (tr_geo _ _ Ht). replace (geo (if ops_request s STRIPE_OP_BIOFILL then sset STRIPE_BIOFILL_RUN sh0 else sh0)) with (geo sh0) by (by destruct (ops_request s STRIPE_OP_BIOFILL)).
  by rewrite (bg_geo _ _ _ _ _ _ Hb).
Qed.

Lemma out_final i : in_stripe (w_sh w) i ->
  toread (dev sh2 i) = toread (dev sh1 i) /\ towrite (dev sh2 i) = towrite (dev sh1 i) /\ written (dev sh2 i) = written (dev sh1 i) /\ dev_sector (dev sh2 i) = dev_sector (dev sh1 i).
Proof using Hb Hp Ho He.
  intros Hi. apply (proj2 (proj2 (out_in i))) in Hi. destruct (run_io_rest w sh1) as (R1 & _). assert (dev sh2 i = after_io (disk w) i (dev sh1 i)) as ->.
  { unfold dev at 1. change (devs sh2) with (devs (ops_run_io w sh1)). rewrite R1. by apply dev_mapi. }
  destruct (op_dev _ _ _ _ _ Ho i Hi) as [st [K _ _]]. by destruct (after_io_fields conf _ _ _ _ _ _ (disk w) i _ (se_norepl _ _ (op_set _ _ _ _ _ Ho) i Hi) K) as (_ & _ & ? & ? & ? & ?).
Qed.

Definition returned_dev (i : Z) : bool := nonempty (written (dev sh0 i)) && negb (nonempty (written (dev sh i))).

(** What was returned is stored. *)
Lemma unlocked_stored j m :
  in_stripe (w_sh w) j -> test_bit R5_LOCKED (dev sh0 j) = false -> working (rdev (disk w j)) = Some m -> in_sync conf (sector (w_sh w)) m = true -> stored m = V j.
Proof using Hb Hbad.
  intros Hj Hl Hm Hs. assert (in_stripe sh0 j) as Hj0 by (unfold in_stripe; by rewrite (bg_disks _ _ _ _ _ _ Hb)). destruct (in_dev _ _ _ _ (bg_inv _ _ _ _ _ _ Hb) j Hj0) as [st [K _ _ _ _ _]]. cbn [w_sh with_sh] in K. change (disk (with_sh ?x w)) with (disk w) in K.
  change (dev (sclear STRIPE_ACTIVE sh0) j) with (dev sh0 j) in K. destruct K as [_ _ _ _ K5 _ _ _ K9 _ _]. rewrite Hl in K5. destruct st; try done.
  destruct (an_bad _ _ _ (bg_analysis _ _ _ _ _ _ Hb) j Hbad Hj0) as [E _]. destruct (K9 m Hm E) as [|?]; [left|done|done]. unfold in_sync in Hs. apply andb_true_iff in Hs as [S1%negb_true_iff S2].
  split; [by left|]. left. change (sector (sclear STRIPE_ACTIVE sh0)) with (sector sh0). unfold sector. by rewrite (bg_geo _ _ _ _ _ _ Hb).
Qed.

Lemma returned_durable i : in_stripe (w_sh w) i -> returned_dev i = true ->
  forall j m, in_stripe (w_sh w) j -> j = i \/ is_parity (w_sh w) j = true -> working (rdev (disk w j)) = Some m -> in_sync conf (sector (w_sh w)) m = true ->
  test_bit R5_ReadError (dev (w_sh w) j) = false -> stored m = V j.
Proof using Hb Hbad Hp He.
  intros Hi [R1 R2%negb_true_iff]%andb_true_iff j m Hj Hor Hm Hs Hre. apply unlocked_stored; try done. destruct (out_in i) as (I0 & I1 & _). destruct (out_in j) as (J0 & _).
  destruct (pn_acked _ _ _ _ _ _ _ _ Hp i) as [E|(E1 & E2 & E3)]; [by apply I1|rewrite E in R2; congruence|]. destruct Hor as [-> |Hpar]; [done|].
  destruct (E3 j) as [|E]; [by apply J0| |done|].
  - unfold is_parity, pd, qd in *. by rewrite (bg_geo _ _ _ _ _ _ Hb).
  - rewrite (bg_flags _ _ _ _ _ _ Hb) in E by (by apply J0). cbn [seen] in E. rewrite Hre in E. unfold has_block in E. rewrite Hm, Hs in E.
    destruct (an_bad _ _ _ (bg_analysis _ _ _ _ _ _ Hb) j Hbad (proj2 J0 Hj)) as [E' _]. rewrite (bg_flags _ _ _ _ _ _ Hb) in E' by (by apply J0). cbn [seen] in E'. unfold works in E'. rewrite Hm, andb_true_r in E'. by rewrite E' in E.
Qed.

Lemma out_answers i b : in_stripe (w_sh w) i -> test_bit R5_Wantfill (dev sh i) = true -> answers conf (fun i => dev_sector (dev (w_sh w) i)) i (V i) b (async_copy_to conf tx b (dev sh i)).
Proof using Htx Hb Hp He.
  intros Hi Hf. destruct (out_in i) as (_ & I1 & _). destruct (mi_dev _ _ _ _ _ _ (pn_mid _ _ _ _ _ _ _ _ Hp) i) as [st [K _ _]]; [by apply I1|].
  eexists. split; [reflexivity|]. destruct (do_fill _ _ _ _ _ _ _ _ _ K Hf) as [<- _]. pose proof (go_sectors _ _ (se_geo _ _ (mi_set _ _ _ _ _ _ (pn_mid _ _ _ _ _ _ _ _ Hp)))).
  rewrite (copy_to_ok conf tx) by (done || apply (dw_page _ _ _ (do_wf _ _ _ _ _ _ _ _ _ K))). rewrite page_offset_eq. by destruct (out_track i Hi) as (_ & _ & -> & _).
Qed.

Lemma replies_ext n (c c' : Z -> bool) f f' : (forall i, 0 <= i < Z.of_nat n -> (if c i then f i else []) = (if c' i then f' i else [])) -> replies n c f = replies n c' f'.
Proof using Type.
  intros H. unfold replies. f_equal. apply map_ext_in. intros i Hi. apply H. unfold devices in Hi. rewrite <- in_rev, <- list_elem_of_In, elem_of_seqZ in Hi. lia.
Qed.

Lemma replies_elem n (c : Z -> bool) f r : r ∈ replies n c f -> exists i, 0 <= i < Z.of_nat n /\ c i = true /\ r ∈ f i.
Proof using Type.
  unfold replies. intros (l & Hr & Hl)%list_elem_of_join. apply list_elem_of_fmap in Hl as (i & -> & Hi). destruct (c i) eqn:E; [|by apply not_elem_of_nil in Hr]. exists i. split; [|done].
  unfold devices in Hi. rewrite list_elem_of_In, <- in_rev, <- list_elem_of_In, elem_of_seqZ in Hi. lia.
Qed.

Lemma acked_replies : acked sh0 sh = replies (disks (w_sh w)) returned_dev (fun i => map (Write_done i) (written (dev (w_sh w) i))).
Proof using Hb Hp He.
  unfold acked, indices_down, replies, devices. rewrite (bg_disks _ _ _ _ _ _ Hb). f_equal. apply map_ext_in. intros i Hi. rewrite <- in_rev, <- list_elem_of_In, elem_of_seqZ in Hi.
  unfold acked_dev. fold (returned_dev i). by destruct (out_track i) as (_ & _ & _ & -> & _); [unfold in_stripe; lia|].
Qed.

Lemma fills_replies : fills conf tx sh =
  replies (disks (w_sh w)) (fun i => test_bit R5_Wantfill (dev sh i)) (fun i => map (fun b => Read_done i (async_copy_to conf tx b (dev sh i))) (toread (dev (w_sh w) i))).
Proof using Hb Hp He.
  unfold fills, indices_down, replies, devices. assert (disks sh = disks (w_sh w)) as ->.
  { pose proof (pn_tracks _ _ _ _ _ _ _ _ Hp) as Ht. rewrite (tr_disks _ _ Ht), <- (bg_disks _ _ _ _ _ _ Hb). by destruct (ops_request s STRIPE_OP_BIOFILL). }
  f_equal. apply map_ext_in. intros i Hi. rewrite <- in_rev, <- list_elem_of_In, elem_of_seqZ in Hi. unfold fill_replies.
  by destruct (out_track i) as (-> & _); [unfold in_stripe; lia|].
Qed.

Lemma out_handles : handles conf (disks (w_sh w)) (fun i => negb (is_parity (w_sh w) i)) (fun i => dev_sector (dev (w_sh w) i)) (contents_of V (w_sh w)) (contents_of V' sh2) (out ++ fills conf tx sh).
Proof using Htx Hb Hp Ho He.
  destruct (pn_out _ _ _ _ _ _ _ _ Hp) as (sync & Hout & Hsync).
  exists returned_dev, (fun i => test_bit R5_Wantfill (dev sh i)), (fun i => test_bit R5_Wantdrain (dev sh i)), (fun i b => async_copy_to conf tx b (dev sh i)), sync.
  split. { rewrite Hout, acked_replies, fills_replies. cbn [c_applied c_reads contents_of]. by rewrite app_assoc. }
  split. { destruct Hsync as [|[]]; auto. }
  intros i Hi Hpar%negb_true_iff. cbn [c_data c_reads c_writes c_applied contents_of]. assert (in_stripe (w_sh w) i) as Hi' by done. destruct (out_in i) as (I0 & I1 & I2). destruct (out_track i Hi') as (T1 & T2 & T3 & T4 & T5).
  destruct (out_final i Hi') as (F1 & F2 & F3 & F4). rewrite F1, F2, F3. pose proof (ef_writes _ _ _ _ _ He i (proj2 I1 Hi')) as Hw. rewrite T2 in Hw.
  assert (test_bit R5_Wantdrain (dev sh i) = true -> written (dev sh i) = []) as Hnw.
  { intros Hd. destruct (pn_write _ _ _ _ _ _ _ _ Hp) as [(rmw & Hpl)|(_ & _ & Hn)]; [by apply (wp_written _ _ _ _ _ Hpl), I1|]. rewrite Hn in Hd by (by apply I1). done. }
  assert (written (dev sh i) = if returned_dev i then [] else written (dev (w_sh w) i)) as Hret.
  { unfold returned_dev. rewrite <- T4. destruct (pn_acked _ _ _ _ _ _ _ _ Hp i (proj2 I1 Hi')) as [E|(E & _)]; rewrite E; [by destruct (written (dev sh0 i))|by destruct (written (dev sh0 i))]. }
  split; [intros Hf b _; by apply out_answers|]. split.
  { intros Hd. specialize (Hnw Hd). rewrite Hnw in Hret. destruct (returned_dev i); auto. }
  split; [by rewrite (ef_reads _ _ _ _ _ He), T1 by (by apply I1)|]. destruct (test_bit R5_Wantdrain (dev sh i)) eqn:Hd.
  - destruct Hw as [-> ->]. split; [done|]. split; [done|]. rewrite (ef_data _ _ _ _ _ He) by (by apply I1 || by rewrite T5). unfold new_data. rewrite Hd. unfold drained_page, drains.
    destruct (mi_dev _ _ _ _ _ _ (pn_mid _ _ _ _ _ _ _ _ Hp) i (proj2 I1 Hi')) as [st [K _ _]]. by rewrite (chain_all conf), T2, T3 by apply (dw_towrite _ _ _ (do_wf _ _ _ _ _ _ _ _ _ K)).
  - destruct Hw as [-> ->]. split; [done|]. split; [done|]. rewrite (ef_data _ _ _ _ _ He) by (by apply I1 || by rewrite T5). unfold new_data. by rewrite Hd.
Qed.

Lemma out_handled : examined conf w V synced sh0 s0 -> handled w synced V (with_sh sh2 w) V' (out ++ fills conf tx sh).
Proof using Htx Hskip Hb Hbad Hp Ho He.
  intros Hex. assert (forall r, r ∈ fills conf tx sh -> exists i b, r = Read_done i b) as Hfills.
  { intros r. rewrite fills_replies. intros (i & _ & _ & Hr)%replies_elem. apply list_elem_of_fmap in Hr as (b & -> & _). eauto. }
  assert (synced_by (out ++ fills conf tx sh) = synced_by out) as Hsb.
  { unfold synced_by. rewrite existsb_app. replace (existsb _ (fills conf tx sh)) with false; [apply orb_false_r|]. symmetry. apply not_true_iff_false. rewrite existsb_exists.
    intros (r & Hr%list_elem_of_In & Ht). destruct (Hfills r Hr) as (i & b & ->). done. }
  assert (all_synced (synced || synced_by out) sh = all_synced (synced || synced_by out) sh1) as Hsy.
  { unfold all_synced. by rewrite !(ef_state _ _ _ _ _ He). }
  destruct (run_io_rest w sh1) as (R1 & R2 & _). assert (geo (if ops_request s STRIPE_OP_BIOFILL then sset STRIPE_BIOFILL_RUN sh0 else sh0) = geo sh0) as Eg by (by destruct (ops_request s STRIPE_OP_BIOFILL)).
  split; cbn [w_sh with_sh]; change (disk (with_sh sh2 w)) with (disk w).
  - rewrite Hsb. rewrite Hsy in Ho. apply io_inv; [done|]. intros f [-> |[-> | ->]]; [apply (ef_runs _ _ _ _ _ He)|apply (ef_runs _ _ _ _ _ He)|]. rewrite (ef_state _ _ _ _ _ He) by done.
    rewrite (tr_state _ _ (pn_tracks _ _ _ _ _ _ _ _ Hp)) by auto. pose proof (ex_runs _ _ _ _ _ _ Hex) as (_ & _ & H). by destruct (ops_request s STRIPE_OP_BIOFILL).
  - change (geo sh2) with (geo (ops_run_io w sh1)). by rewrite R2, (ef_geo _ _ _ _ _ He), (tr_geo _ _ (pn_tracks _ _ _ _ _ _ _ _ Hp)), Eg, (bg_geo _ _ _ _ _ _ Hb).
  - unfold disks at 1. change (devs sh2) with (devs (ops_run_io w sh1)). rewrite R1. fold (disks (mapi (after_io (disk w)) sh1)). rewrite disks_mapi, (ef_disks _ _ _ _ _ He), (tr_disks _ _ (pn_tracks _ _ _ _ _ _ _ _ Hp)), <- (bg_disks _ _ _ _ _ _ Hb).
    by destruct (ops_request s STRIPE_OP_BIOFILL).
  - intros i Hi. destruct (out_final i Hi) as (_ & _ & _ & ->). rewrite (ef_sector _ _ _ _ _ He) by (by apply out_in). by destruct (out_track i Hi) as (_ & _ & -> & _).
  - apply out_handles.
  - intros i b [Hr|Hr]%elem_of_app; [|by destruct (Hfills _ Hr) as (? & ? & ?)]. destruct (pn_out _ _ _ _ _ _ _ _ Hp) as (sync & Hout & Hsync). rewrite Hout, acked_replies in Hr.
    apply elem_of_app in Hr as [Hr|Hr]; [|destruct Hsync as [-> |(-> & _)]; [by apply not_elem_of_nil in Hr|by apply list_elem_of_singleton in Hr]].
    apply replies_elem in Hr as (j & Hj & Hret & Hr). apply list_elem_of_fmap in Hr as (b' & [= -> ->] & _). split; [done|]. by apply returned_durable.
  - intros [Hr|Hr]%elem_of_app; [|by destruct (Hfills _ Hr) as (? & ? & ?)]. destruct (pn_out _ _ _ _ _ _ _ _ Hp) as (sync & Hout & Hsync). rewrite Hout, acked_replies in Hr.
    apply elem_of_app in Hr as [Hr|Hr]; [apply replies_elem in Hr as (j & _ & _ & Hr); by apply list_elem_of_fmap in Hr as (b' & ? & _)|].
    destruct Hsync as [-> |(-> & _ & H)]; [by apply not_elem_of_nil in Hr|]. intros i m Hi. apply H. by apply out_in.
Qed.
End Outcome.
End Handled.
