(* ===== verification/Raid5Event.v ===== *)
(** The events in the life of a stripe of md/raid5.c, apart from its handling, keep the invariant:
    requests are added, I/O completes, and members fail, go and come. *)

From S2P Require Import Prelude PageMem Raid5Layout Raid5Stripe Raid5Dev Raid5Ops Raid5Handle Raid5Machine Raid5Data Raid5Copy Raid5Spec Raid5OpsCorrect Raid5Write Raid5Inv Raid5Analyse Raid5Decide Raid5Fill Raid5Dirty Raid5Check Raid5Plan Raid5Run Raid5Finish Raid5Step.

(** * Changes of one member *)

(** [w'] has another member [i], [g] of the old one, and perhaps another stripe. *)
Record changes (i : Z) (g : option md_rdev -> option md_rdev) (w w' : world) : Prop := {
  cg_rdev j : 0 <= j -> rdev (disk w' j) = if i =? j then g (rdev (disk w j)) else rdev (disk w j);
  cg_repl j : 0 <= j -> replacement (disk w' j) = replacement (disk w j);
  cg_length : length (w_disks w') = length (w_disks w);
}.

Lemma changes_trans i g h w1 w2 w3 : changes i g w1 w2 -> changes i h w2 w3 -> changes i (fun r => h (g r)) w1 w3.
Proof.
  intros [A1 A2 A3] [B1 B2 B3]. split; [|intros j Hj; by rewrite B2, A2|congruence]. intros j Hj. rewrite B1, A1 by done. by destruct (i =? j).
Qed.

Lemma changes_id i w w' : w_disks w' = w_disks w -> changes i (fun r => r) w w'.
Proof. intros H. unfold disk. split; unfold disk; rewrite ?H; try done. intros j _. by destruct (i =? j). Qed.

Lemma changes_alter i (f : disk_info -> disk_info) g w : 0 <= i < Z.of_nat (length (w_disks w)) ->
  (forall di, rdev (f di) = g (rdev di) /\ replacement (f di) = replacement di) -> changes i g w (with_disks (alter f (Z.to_nat i) (w_disks w)) w).
Proof.
  intros Hi Hf. split; cbn; [| |apply length_alter].
  - intros j Hj. unfold disk. cbn. destruct (Z.eqb_spec i j) as [<-|Hne].
    + rewrite list_lookup_total_alter, decide_True by (split; [done|lia]). apply Hf.
    + by rewrite list_lookup_total_alter, decide_False by lia.
  - intros j Hj. unfold disk. cbn. destruct (Z.eq_dec i j) as [<-|Hne].
    + rewrite list_lookup_total_alter, decide_True by (split; [done|lia]). apply Hf.
    + by rewrite list_lookup_total_alter, decide_False by lia.
Qed.

Lemma changes_upd i f w : 0 <= i < Z.of_nat (length (w_disks w)) -> changes i (fmap f) w (upd_member i false f w).
Proof. intros Hi. by apply (changes_alter i). Qed.

(** A member that fails. *)
Definition failed_rdev (r : md_rdev) : md_rdev := if Faulty r then r else set_faulty r.

(** A member with a bad block, or failed when there is no room for another one. *)
Definition blamed_rdev (r : md_rdev) : md_rdev := if bb_room r then with_bad (if is_bad (bad r) then bad r else Unacked) r else failed_rdev r.

Lemma changes_md i g w w' md : changes i g w w' -> changes i g w (with_md md w').
Proof. intros [A1 A2 A3]. by split. Qed.

Lemma changes_sh i g w w' sh : changes i g w w' -> changes i g w (with_sh sh w').
Proof. intros [A1 A2 A3]. by split. Qed.

Lemma changes_ext i g h w w' : changes i g w w' -> (forall r, r = rdev (disk w i) -> g r = h r) -> 0 <= i -> changes i h w w'.
Proof.
  intros [A1 A2 A3] H Hi. split; try done. intros j Hj. rewrite A1 by done. destruct (Z.eqb_spec i j) as [<-|]; [|done]. by apply H.
Qed.

Lemma md_error_changes conf i w : 0 <= i < Z.of_nat (length (w_disks w)) -> changes i (fmap failed_rdev) w (md_error conf i false w) /\ w_sh (md_error conf i false w) = w_sh w.
Proof.
  intros Hi. unfold md_error. cbn [member]. destruct (rdev (disk w i)) as [r|] eqn:Hr.
  - destruct (Faulty r) eqn:Hf; (split; [|done]).
    + apply (changes_ext i (fun r => r)); [by apply changes_id| |lia]. intros r' ->. rewrite Hr. cbn. unfold failed_rdev. by rewrite Hf.
    + apply (changes_ext i (fmap set_faulty)); [| |lia].
      * apply changes_md. unfold raid5_error. apply changes_md. by apply changes_upd.
      * intros r' ->. rewrite Hr. cbn. unfold failed_rdev. by rewrite Hf.
  - split; [|done]. apply (changes_ext i (fun r => r)); [by apply changes_id| |lia]. intros r' ->. by rewrite Hr.
Qed.

Lemma set_badblocks_changes conf i w : 0 <= i < Z.of_nat (length (w_disks w)) ->
  changes i (fmap blamed_rdev) w (set_badblocks_or_error conf i false w) /\ w_sh (set_badblocks_or_error conf i false w) = w_sh w.
Proof.
  intros Hi. unfold set_badblocks_or_error, rdev_set_badblocks. cbn [member]. destruct (rdev (disk w i)) as [r|] eqn:Hr.
  - destruct (bb_room r) eqn:Hb.
    + split; [|done]. apply (changes_ext i (fmap (fun r => with_bad (if is_bad (bad r) then bad r else Unacked) r))); [| |lia].
      * apply changes_md. by apply changes_upd.
      * intros r' ->. rewrite Hr. cbn. unfold blamed_rdev. by rewrite Hb.
    + destruct (md_error_changes conf i w Hi) as [H E]. split; [|done]. apply (changes_ext i (fmap failed_rdev)); [done| |lia]. intros r' ->. rewrite Hr. cbn. unfold blamed_rdev. by rewrite Hb.
  - destruct (md_error_changes conf i w Hi) as [H E]. split; [|done]. apply (changes_ext i (fmap failed_rdev)); [done| |lia]. intros r' ->. by rewrite Hr.
Qed.

(** * Events at one device *)

Section Events.
Context (conf : r5conf).

(** The invariant when only the device [i] and its member have changed. *)
Lemma inv_local i g w w' synced synced' V :
  inv conf w synced V -> in_stripe (w_sh w) i -> changes i g w w' ->
  geo (w_sh w') = geo (w_sh w) -> disks (w_sh w') = disks (w_sh w) ->
  reconstruct_state (w_sh w') = reconstruct_state (w_sh w) -> check_state (w_sh w') = check_state (w_sh w) -> zero_sum_result (w_sh w') = zero_sum_result (w_sh w) ->
  (forall f, f = STRIPE_ACTIVE \/ f = STRIPE_BIOFILL_RUN \/ f = STRIPE_COMPUTE_RUN \/ f = STRIPE_DISCARD -> stest f (w_sh w') = stest f (w_sh w)) ->
  (all_synced synced' (w_sh w') = true -> all_synced synced (w_sh w) = true) ->
  (forall j, in_stripe (w_sh w) j -> j <> i -> dev (w_sh w') j = dev (w_sh w) j) ->
  (forall st, device_inv conf (V i) (is_parity (w_sh w) i) (busy_ops (w_sh w)) (rdev (disk w i)) (sector (w_sh w)) (all_synced synced (w_sh w)) st (dev (w_sh w) i) ->
    exists st', device_inv conf (V i) (is_parity (w_sh w) i) (busy_ops (w_sh w)) (g (rdev (disk w i))) (sector (w_sh w)) (all_synced synced' (w_sh w')) st' (dev (w_sh w') i)) ->
  (holding (w_sh w) -> test_bit R5_UPTODATE (dev (w_sh w) i) = true -> test_bit R5_UPTODATE (dev (w_sh w') i) = true) ->
  (written (dev (w_sh w') i) <> [] -> written (dev (w_sh w) i) <> []) ->
  (i = pd (w_sh w) -> checking (w_sh w) = true -> p_unneeded conf w -> p_unneeded conf w') -> inv conf w' synced' V.
Proof.
  intros Hinv Hi [C1 C2 C3] Hg Hn Hr Hc Hz Hst Hsy Hdev Hd Hu Hw Hp. pose proof (in_setting _ _ _ _ Hinv) as [G1 G2 G3 G4].
  apply (inv_transfer conf w w' synced synced' V Hinv); try done.
  - split; rewrite ?Hg, ?Hn, ?C3; try done. intros j Hj. rewrite C2 by lia. by apply G4.
  - intros f Hf. rewrite Hst by done. by apply (in_state _ _ _ _ Hinv).
  - intros j st Hj Hst'. rewrite C1 by apply Hj. destruct (Z.eqb_spec i j) as [<-|Hne]; [by apply (Hd st)|]. exists st. rewrite Hdev by (done || congruence).
    by apply (device_inv_synced conf _ _ _ _ _ (all_synced synced (w_sh w))).
  - intros Hh j Hj. destruct (Z.eq_dec j i) as [-> |Hne]; [by apply Hu|]. by rewrite Hdev.
  - intros j Hj. destruct (Z.eq_dec j i) as [-> |Hne]; [done|]. by rewrite Hdev.
  - intros Hck. destruct (Z.eq_dec i (pd (w_sh w))) as [->|Hne]; [auto|]. assert (in_stripe (w_sh w) (pd (w_sh w))) as Hpd by (unfold in_stripe; rewrite <- G2; apply (go_pd _ _ G1)).
    unfold p_unneeded. assert (pd (w_sh w') = pd (w_sh w)) as -> by (unfold pd; by rewrite Hg). unfold sector. rewrite C1, Hg, Hdev by (done || congruence || apply Hpd). by rewrite (proj2 (Z.eqb_neq _ _) Hne).
Qed.

(** ** Recording bad blocks *)

Definition recorded (d : r5dev) (r : md_rdev) : md_rdev :=
  let r := if test_bit R5_WriteError d then blamed_rdev r else r in
  if test_bit R5_MadeGood d then with_bad Good r else r.

Lemma fmap_same {A} (r : option A) : r = (fun x => x) <$> r.
Proof. by destruct r. Qed.

Lemma record_changes w sh i :
  0 <= i < Z.of_nat (length (w_disks w)) -> test_bit R5_MadeGoodRepl (dev sh i) = false ->
  changes i (fmap (recorded (dev sh i))) w (record_bad_blocks conf (w, sh) i).1 /\ w_sh (record_bad_blocks conf (w, sh) i).1 = w_sh w /\
  (record_bad_blocks conf (w, sh) i).2 = upd i (fun d => clear_bit R5_MadeGoodRepl (clear_bit R5_MadeGood (clear_bit R5_WriteError d))) sh.
Proof.
  intros Hi Hm. unfold record_bad_blocks. rewrite Hm. cbn [fst snd]. set (w1 := if test_bit R5_WriteError (dev sh i) then _ else w).
  assert (changes i (fmap (fun r => if test_bit R5_WriteError (dev sh i) then blamed_rdev r else r)) w w1 /\ w_sh w1 = w_sh w) as [H1 E1].
  { unfold w1. destruct (test_bit R5_WriteError (dev sh i)); [by apply set_badblocks_changes|]. split; [|done]. apply (changes_ext i (fun r => r)); [by apply changes_id|intros; apply fmap_same|lia]. }
  clearbody w1. split; [|split; [|done]].
  - apply (changes_ext i (fun r => (fun r => if test_bit R5_MadeGood (dev sh i) then with_bad Good <$> r else r) ((fun r => if test_bit R5_WriteError (dev sh i) then blamed_rdev r else r) <$> r))); [|intros [r|] _; unfold recorded; cbn; by destruct (test_bit R5_MadeGood (dev sh i))|lia].
    apply (changes_trans i (fmap (fun r => if test_bit R5_WriteError (dev sh i) then blamed_rdev r else r)) (fun r => if test_bit R5_MadeGood (dev sh i) then with_bad Good <$> r else r) w w1); [done|]. destruct (test_bit R5_MadeGood (dev sh i)); [|by apply changes_id]. apply changes_upd. by rewrite (cg_length _ _ _ _ H1).
  - rewrite <- E1. by destruct (test_bit R5_MadeGood (dev sh i)).
Qed.

Lemma blamed_working r m : working (blamed_rdev <$> r) = Some m -> is_bad (bad m) = true.
Proof.
  destruct r as [r|]; [|done]. cbn. unfold blamed_rdev, failed_rdev. destruct (bb_room r).
  - cbn. destruct (Faulty r); [done|]. intros [= <-]. cbn. by destruct (is_bad (bad r)) eqn:E.
  - destruct (Faulty r) eqn:E; [by rewrite E|done].
Qed.

Lemma good_working r m : working (with_bad Good <$> r) = Some m -> exists m0, working r = Some m0 /\ m = with_bad Good m0.
Proof. destruct r as [r|]; [|done]. cbn. destruct (Faulty r); [done|]. intros [= <-]. by exists r. Qed.

Lemma recorded_member d r : r <> None -> exists r', recorded d <$> r = Some r' /\ forall m, r = Some m -> stored r' = stored m.
Proof.
  destruct r as [m|]; [|done]. intros _. eexists. split; [done|]. intros m' [= <-]. unfold recorded, blamed_rdev, failed_rdev.
  destruct (test_bit R5_WriteError d), (test_bit R5_MadeGood d), (bb_room m), (Faulty m); done.
Qed.

Definition clean_errors (d : r5dev) : r5dev := clear_bit R5_MadeGoodRepl (clear_bit R5_MadeGood (clear_bit R5_WriteError d)).

Lemma recorded_ok v par rp r sec sy st d :
  device_inv conf v par rp r sec sy st d -> (test_bit R5_ReWrite d = true -> test_bit R5_WriteError d = false) ->
  device_inv conf v par rp (recorded d <$> r) sec sy st (clean_errors d).
Proof.
  intros [[K1 K2 K3 K4 K5 K6 K7 K8 K9 K10 K11] D1 D2 D3 D4 D5] Hre. split; try done. split; try done.
  - apply (device_wf_flags conf par d (flags (clean_errors d))); [done| |intros Hp; by apply (dw_parity _ _ _ K1)]. intros f Hu. pose proof (dw_unused _ _ _ K1 f Hu) as H. destruct f; try done; exact H.
  - destruct st as [|[]| | |]; try done; cbn in *.
    + destruct K6 as (-> & m & -> & Hst). split; [done|]. destruct (recorded_member d (Some m)) as (r' & E & Hs); [done|]. exists r'. split; [done|]. by rewrite (Hs m).
    + destruct K6 as [Hu [m ->]]. by split.
  - intros m Hm _ Hor. change (test_bit R5_MadeGood (clean_errors d)) with false in Hor. change (test_bit R5_ReWrite (clean_errors d)) with (test_bit R5_ReWrite d) in Hor.
    unfold recorded in Hm. destruct (test_bit R5_WriteError d) eqn:Hw.
    + destruct (test_bit R5_MadeGood d) eqn:Hg; [by destruct (K10 eq_refl)|]. pose proof (blamed_working r m Hm) as Hb. destruct Hor as [[[H|H] _]|H]; [congruence|done|]. by specialize (Hre H).
    + destruct (test_bit R5_MadeGood d) eqn:Hg.
      * destruct (good_working r m Hm) as (m0 & H0 & ->). change (stored (with_bad Good m0)) with (stored m0). apply (K9 m0 H0 eq_refl). destruct Hor as [[_ H]|H]; [left; by auto|by right].
      * rewrite <- fmap_same in Hm. apply (K9 m Hm eq_refl). destruct Hor as [[[H|H] H']|H]; [by auto|done|by auto].
Qed.

(** One device of the loop. *)
Lemma record_ok w sh i synced V :
  inv conf (with_sh (sclear STRIPE_ACTIVE sh) w) synced V -> in_stripe sh i ->
  (forall j, in_stripe sh j -> test_bit R5_ReWrite (dev sh j) = true -> test_bit R5_WriteError (dev sh j) = false) ->
  let '(w', sh') := record_bad_blocks conf (w, sh) i in
  inv conf (with_sh (sclear STRIPE_ACTIVE sh') w') synced V /\ with_devs [] sh' = with_devs [] sh /\ disks sh' = disks sh /\
  (forall j f, in_stripe sh j -> f <> R5_WriteError -> f <> R5_MadeGood -> f <> R5_MadeGoodRepl -> test_bit f (dev sh' j) = test_bit f (dev sh j)) /\
  (forall j, in_stripe sh j -> test_bit R5_WriteError (dev sh' j) = true -> test_bit R5_WriteError (dev sh j) = true) /\
  forall j, in_stripe sh j -> exists fl, dev sh' j = with_flags fl (dev sh j).
Proof.
  intros Hinv Hi Hre. pose proof (in_setting _ _ _ _ Hinv) as [G1 G2 G3 G4]. cbn in G1, G2, G3. change (disks (sclear STRIPE_ACTIVE sh)) with (disks sh) in G2, G3.
  destruct (in_dev _ _ _ _ Hinv i Hi) as [st0 [[K1 _ _ _ _ _ _ _ _ _ _] _ _ _ _ _]]. destruct (record_changes w sh i) as (Hch & Hsh & Hsh'); [unfold in_stripe in Hi; lia|by apply (dw_unused _ _ _ K1)|].
  destruct (record_bad_blocks conf (w, sh) i) as [w' sh'']. cbn [fst snd] in *. subst sh''. set (sh' := upd i _ sh).
  assert (disks sh' = disks sh) as Hn by apply disks_upd. assert (forall j, in_stripe sh j -> dev sh' j = if i =? j then clean_errors (dev sh j) else dev sh j) as Hdev by (intros j Hj; unfold sh'; apply dev_upd; [apply Hi|apply Hj]).
  split; [|split; [done|split; [done|split; [|split]]]].
  - apply (inv_local i (fmap (recorded (dev sh i))) (with_sh (sclear STRIPE_ACTIVE sh) w) _ synced synced V Hinv); cbn [w_sh with_sh]; try done.
    + destruct Hch as [A1 A2 A3]. by split.
    + intros j Hj Hne. change (dev (sclear _ sh') j) with (dev sh' j). rewrite Hdev by done. by rewrite (proj2 (Z.eqb_neq _ _)) by congruence.
    + intros st Hst. exists st. change (dev (sclear _ sh') i) with (dev sh' i). rewrite Hdev, Z.eqb_refl by done. apply recorded_ok; [done|]. by apply Hre.
    + change (dev (sclear _ sh') i) with (dev sh' i). by rewrite Hdev, Z.eqb_refl by done.
    + change (dev (sclear _ sh') i) with (dev sh' i). by rewrite Hdev, Z.eqb_refl by done.
    + intros -> _. change (pd (sclear STRIPE_ACTIVE sh)) with (pd sh) in *. unfold p_unneeded. cbn [w_sh with_sh]. change (pd (sclear _ sh')) with (pd sh). change (pd (sclear _ sh)) with (pd sh). change (dev (sclear _ sh') ?i) with (dev sh' i). change (dev (sclear _ sh) ?i) with (dev sh i).
      change (sector (sclear _ sh')) with (sector sh). change (sector (sclear _ sh)) with (sector sh). change (disk (with_sh ?x ?y)) with (disk y). rewrite (cg_rdev _ _ _ _ Hch), Z.eqb_refl, Hdev, Z.eqb_refl by (done || apply Hi).
      intros [H|(m & M1 & M2 & M3 & M4 & M5)].
      * left. destruct (rdev (disk w (pd sh))) as [r|]; [|done]. cbn in *. destruct (Faulty r) eqn:Hf; [|done]. unfold recorded, blamed_rdev, failed_rdev.
        destruct (test_bit R5_WriteError (dev sh (pd sh))), (test_bit R5_MadeGood (dev sh (pd sh))), (bb_room r); cbn; by rewrite ?Hf; cbn; rewrite ?Hf.
      * right. unfold recorded. rewrite M4. destruct (rdev (disk w (pd sh))) as [r|] eqn:Hr; [|done]. cbn in M1. destruct (Faulty r) eqn:Hf; [done|]. injection M1 as ->.
        exists (if test_bit R5_MadeGood (dev sh (pd sh)) then with_bad Good m else m). split; [by destruct (test_bit R5_MadeGood (dev sh (pd sh))); cbn; rewrite Hf|]. split; [|done].
        destruct (test_bit R5_MadeGood (dev sh (pd sh))); [|done]. unfold in_sync in *. apply andb_true_iff in M2 as [_ M2]. exact M2.
  - intros j f Hj F1 F2 F3. rewrite Hdev by done. destruct (i =? j); [|done]. by destruct f.
  - intros j Hj. rewrite Hdev by done. by destruct (i =? j).
  - intros j Hj. rewrite Hdev by done. destruct (i =? j); [by eexists|]. exists (flags (dev sh j)). by rewrite with_flags_id.
Qed.

(** What the loop leaves as it is. *)
Record recording (sh sh' : stripe) : Prop := {
  rc_rest : with_devs [] sh' = with_devs [] sh;
  rc_disks : disks sh' = disks sh;
  rc_rewrite i : in_stripe sh i -> test_bit R5_ReWrite (dev sh i) = true -> test_bit R5_WriteError (dev sh i) = false ->
    test_bit R5_WriteError (dev sh' i) = false;
  rc_fields i : in_stripe sh i -> exists fl, dev sh' i = with_flags fl (dev sh i) /\ fl R5_ReWrite = test_bit R5_ReWrite (dev sh i);
}.

Lemma records_ok l : forall w sh synced V,
  inv conf (with_sh (sclear STRIPE_ACTIVE sh) w) synced V -> (forall i, i ∈ l -> in_stripe sh i) ->
  (forall j, in_stripe sh j -> test_bit R5_ReWrite (dev sh j) = true -> test_bit R5_WriteError (dev sh j) = false) ->
  let '(w', sh') := fold_left (record_bad_blocks conf) l (w, sh) in inv conf (with_sh (sclear STRIPE_ACTIVE sh') w') synced V /\ recording sh sh'.
Proof.
  induction l as [|i l IH]; intros w sh synced V Hinv Hl Hre; [split; [done|]; split; auto; intros i Hi; exists (flags (dev sh i)); by rewrite with_flags_id|]. cbn [fold_left].
  pose proof (record_ok w sh i synced V Hinv ltac:(apply Hl; by left) Hre) as Hrec. destruct (record_bad_blocks conf (w, sh) i) as [w1 sh1]. destruct Hrec as (Hinv1 & E1 & E2 & E3 & E4 & E5).
  assert (forall j, in_stripe sh1 j <-> in_stripe sh j) as Hin by (intros j; unfold in_stripe; by rewrite E2).
  specialize (IH w1 sh1 synced V Hinv1). destruct (fold_left _ l (w1, sh1)) as [w2 sh2]. destruct IH as [Hinv2 [R1 R2 R3 R4]].
  { intros j Hj. apply Hin, Hl. by right. }
  { intros j Hj%Hin. rewrite E3 by done. intros Hr. destruct (test_bit R5_WriteError (dev sh1 j)) eqn:E; [|done]. pose proof (E4 j Hj E) as E'. by rewrite (Hre j Hj Hr) in E'. }
  split; [done|]. split; try congruence.
  - intros j Hj Hr Hw. apply R3; [by apply Hin|by rewrite E3|]. destruct (test_bit R5_WriteError (dev sh1 j)) eqn:E; [|done]. by rewrite (E4 j Hj E) in Hw.
  - intros j Hj. destruct (E5 j Hj) as [fl1 F1]. destruct (R4 j ltac:(by apply Hin)) as (fl2 & F2 & F3). exists fl2. rewrite F2, F1. split; [done|]. by rewrite F3, E3.
Qed.

Lemma idle_run_ops tx rq sh : (forall o, rq o = false) -> raid_run_ops conf tx rq sh = Some (sh, []).
Proof. intros H. unfold raid_run_ops. by rewrite !H. Qed.

(** No requests are submitted. *)
Lemma io_nothing w sh synced V :
  inv conf (with_sh (sclear STRIPE_ACTIVE sh) w) synced V -> forall i, in_stripe sh i -> dev (ops_run_io w sh) i = dev sh i.
Proof.
  intros Hinv i Hi. destruct (run_io_rest w sh) as (R1 & _). unfold dev at 1. rewrite R1. fold (dev (mapi (after_io (disk w)) sh) i). rewrite dev_mapi by done.
  destruct (in_dev _ _ _ _ Hinv i Hi) as [st [K D _ _ _ _]]. cbn [w_sh with_sh] in K, D. change (disk (with_sh ?x w)) with (disk w) in K. change (dev (sclear _ sh) i) with (dev sh i) in K.
  pose proof (after_io_cases conf _ _ _ _ _ _ (disk w) i _ (se_norepl _ _ (in_setting _ _ _ _ Hinv) i Hi) K) as Hc. by destruct st.
Qed.

Lemma io_nothing_inv w sh synced V :
  inv conf (with_sh (sclear STRIPE_ACTIVE sh) w) synced V -> inv conf (with_sh (sclear STRIPE_ACTIVE (ops_run_io w sh)) w) synced V.
Proof.
  intros Hinv. pose proof (io_nothing w sh synced V Hinv) as Hd. destruct (run_io_rest w sh) as (R1 & R2 & R3 & R4 & R5 & R6). set (sh' := ops_run_io w sh) in *. pose proof (in_setting _ _ _ _ Hinv) as [G1 G2 G3 G4]. cbn [w_sh with_sh w_disks] in G1, G2, G3, G4.
  assert (disks sh' = disks sh) as Hn by (unfold disks; rewrite R1; apply disks_mapi).
  apply (inv_transfer conf (with_sh (sclear STRIPE_ACTIVE sh) w) _ synced synced V Hinv); cbn [w_sh with_sh]; try done.
  - split; cbn [w_sh with_sh w_disks]; change (geo (sclear _ sh')) with (geo sh'); change (disks (sclear _ sh')) with (disks sh'); rewrite ?R2, ?Hn; done.
  - intros f Hf. pose proof (in_state _ _ _ _ Hinv f Hf) as H. cbn [w_sh with_sh] in H. destruct Hf as [-> |[-> |[-> | ->]]]; [done| | |]; rewrite <- H; by apply R6.
  - intros i st Hi Hst. exists st. change (dev (sclear _ sh') i) with (dev sh' i). rewrite Hd by done. assert (all_synced synced (sclear STRIPE_ACTIVE sh') = all_synced synced (sclear STRIPE_ACTIVE sh)) as ->; [|done].
    unfold all_synced. change (stest ?f (sclear STRIPE_ACTIVE sh')) with (stest f sh'). by rewrite !R6.
  - intros _ i Hi. change (dev (sclear _ sh') i) with (dev sh' i). by rewrite Hd.
  - intros i Hi. change (dev (sclear _ sh') i) with (dev sh' i). by rewrite Hd.
  - intros _. assert (in_stripe sh (pd sh)) as Hp by (unfold in_stripe; change (disks sh) with (disks (sclear STRIPE_ACTIVE sh)); rewrite <- G2; apply (go_pd _ _ G1)).
    unfold p_unneeded. cbn [w_sh with_sh]. change (pd (sclear _ sh')) with (pd sh'). assert (pd sh' = pd sh) as -> by (unfold pd; by rewrite R2). change (dev (sclear _ sh') (pd sh)) with (dev sh' (pd sh)). rewrite Hd by done.
    unfold sector. change (geo (sclear STRIPE_ACTIVE sh')) with (geo sh'). by rewrite R2.
Qed.

Context (tx : async_tx) {Htx : AsyncTx (size conf) tx} (Hskip : skip_copy conf = false).

(** The stripe that has to wait. *)
Lemma wait_ok w synced V sh s :
  begins conf w synced V sh s -> exists w', finish_stripe conf tx w (sset STRIPE_HANDLE sh) s [] = Some (w', []) /\ handled conf w synced V w' V [].
Proof.
  intros Hb. assert (inv conf (with_sh (sclear STRIPE_ACTIVE (sset STRIPE_HANDLE sh)) w) synced V) as Hinv.
  { apply (inv_transfer conf (with_sh (sclear STRIPE_ACTIVE sh) w) _ synced synced V (bg_inv _ _ _ _ _ _ Hb)); try done.
    - by destruct (in_setting _ _ _ _ (bg_inv _ _ _ _ _ _ Hb)).
    - intros f Hf. pose proof (in_state _ _ _ _ (bg_inv _ _ _ _ _ _ Hb) f Hf) as H. by destruct Hf as [-> |[-> |[-> | ->]]].
    - intros i st _ Hst. by exists st. }
  unfold finish_stripe. set (sh1 := sset STRIPE_HANDLE sh) in *. pose proof (records_ok (indices_down sh1) w sh1 synced V Hinv) as Hrec.
  assert (let '(w', sh') := if cond s handle_bad_blocks then fold_left (record_bad_blocks conf) (indices_down sh1) (w, sh1) else (w, sh1) in
    inv conf (with_sh (sclear STRIPE_ACTIVE sh') w') synced V /\ recording sh1 sh') as Hw.
  { destruct (cond s handle_bad_blocks).
    - destruct (fold_left _ _ _) as [w' sh']. apply Hrec; [intros i; by apply in_indices|]. intros j Hj. apply (lk_rewrite _ _ _ _ (bg_looked _ _ _ _ _ _ Hb j Hj)).
    - split; [done|]. split; auto. intros i Hi. exists (flags (dev sh1 i)). by rewrite with_flags_id. }
  clear Hrec. destruct (if cond s handle_bad_blocks then _ else _) as [w' sh']. destruct Hw as [Hinv' [R1 R2 R3 R4]]. rewrite idle_run_ops by apply (an_ops _ _ _ (bg_analysis _ _ _ _ _ _ Hb)).
  cbn [mbind option_bind app]. rewrite (no_resubmits conf).
  2: { intros i Hi. destruct (in_dev _ _ _ _ Hinv' i Hi) as [st [K _ _ _ _ _]]. split; [by apply (se_norepl _ _ (in_setting _ _ _ _ Hinv') i Hi)|]. eexists _, _, _, _, _, _. exact K. }
  eexists. split; [reflexivity|]. pose proof (io_nothing w' sh' synced V Hinv') as Hd. destruct (run_io_rest w' sh') as (S1 & S2 & _).
  assert (disks (ops_run_io w' sh') = disks sh') as Hn by (unfold disks; rewrite S1; apply disks_mapi). pose proof (bg_disks _ _ _ _ _ _ Hb) as Hn0.
  assert (forall i, in_stripe (w_sh w) i -> exists fl, dev (sclear STRIPE_ACTIVE (ops_run_io w' sh')) i = with_flags fl (dev (w_sh w) i)) as Hdev.
  { intros i Hi. change (dev (sclear _ ?x) i) with (dev x i). unfold in_stripe in *. rewrite Hd by (unfold in_stripe; rewrite R2; change (disks sh1) with (disks sh); by rewrite Hn0).
    destruct (R4 i) as (fl & -> & _); [unfold in_stripe; change (disks sh1) with (disks sh); by rewrite Hn0|]. change (dev sh1 i) with (dev sh i). destruct (bg_fields _ _ _ _ _ _ Hb i) as [fl' ->]; [unfold in_stripe; by rewrite Hn0|]. by exists fl. }
  split; cbn [w_sh with_sh]; try (intros; by apply not_elem_of_nil in H).
  - cbn [synced_by existsb]. rewrite orb_false_r. by apply io_nothing_inv.
  - change (geo (sclear _ ?x)) with (geo x). rewrite S2. rewrite <- (bg_geo _ _ _ _ _ _ Hb). apply (f_equal geo R1).
  - change (disks (sclear _ ?x)) with (disks x). rewrite Hn, R2. exact Hn0.
  - intros i Hi. by destruct (Hdev i Hi) as [fl ->].
  - exists (fun _ => false), (fun _ => false), (fun _ => false), (fun _ b => b), []. split; [|split; [by left|]].
    + unfold replies. assert (forall l : list Z, mjoin (map (fun _ => @nil reply) l) = []) as Hj by (induction l; done). cbn. by rewrite !Hj.
    + intros i Hi _. cbn [c_data c_reads c_writes c_applied contents_of]. destruct (Hdev i Hi) as [fl ->]. repeat split; done.
Qed.

Lemma handle_ok w synced V :
  inv conf w synced V -> lost conf w <= max_degraded conf -> check_states_beq (check_state (w_sh w)) check_state_compute_result && any_flag R5_LOCKED (w_sh w) = false ->
  exists w' V' out, handle_stripe conf tx w = Some (w', out) /\ handled conf w synced V w' V' out.
Proof.
  intros Hinv Hlost Hck. unfold handle_stripe. change (stest STRIPE_ACTIVE _) with (stest STRIPE_ACTIVE (w_sh w)). rewrite (in_state _ _ _ _ Hinv STRIPE_ACTIVE) by auto.
  fold (begun (w_sh w)). destruct (begins_ok conf w synced V Hinv) as (s & -> & Hb). cbn [mbind option_bind]. destruct (must_wait w s) eqn:Hw.
  - destruct (wait_ok w synced V (looked_at conf w) s Hb) as (w' & Heq & Hh). exists w', V, []. split; [exact Heq|done].
  - unfold must_wait in Hw. apply orb_false_iff in Hw as [[Hbad _]%orb_false_iff _]. pose proof (begins_examined conf w synced V _ s Hb Hbad Hlost Hck) as Hex.
    destruct (decide_ok conf w V synced _ s Hex Hbad) as (sh & s' & out & -> & Hp). cbn [mbind option_bind]. unfold finish_stripe. rewrite (pn_bad _ _ _ _ _ _ _ _ Hp).
    destruct (planned_runs conf tx Hskip w V synced _ s sh s' out Hex Hp) as (sh1 & V' & -> & Ho & He). cbn [mbind option_bind]. rewrite (no_resubmits conf).
    2: { intros i Hi. destruct (op_dev _ _ _ _ _ Ho i Hi) as [st [K _ _]]. split; [by apply (se_norepl _ _ (op_set _ _ _ _ _ Ho) i Hi)|]. eexists _, _, _, _, _, _. exact K. }
    eexists _, V', _. split; [reflexivity|].
    by apply (out_handled conf tx Hskip w synced V V' (looked_at conf w) sh sh1 s s' out).
Qed.
End Events.

(** * Requests *)

Section Add.
Context (conf : r5conf).

Lemma valid_bio_wf sh i b : valid_bio conf sh i b = true ->
  wf_bio b /\ bi_sector b < dev_sector (dev sh i) + RAID5_STRIPE_SECTORS conf /\ dev_sector (dev sh i) < bio_end_sector b /\
  (bi_next b <> None -> dev_sector (dev sh i) + RAID5_STRIPE_SECTORS conf <= bio_end_sector b).
Proof.
  unfold valid_bio. intros [[[[[[H1%negb_true_iff H2%Z.ltb_lt]%andb_true_iff H3%Z.eqb_eq]%andb_true_iff H4]%andb_true_iff H5%Z.ltb_lt]%andb_true_iff H6%Z.ltb_lt]%andb_true_iff H7]%andb_true_iff.
  split; [|split; [done|split; [done|]]]. 2: { destruct (bi_next b); [|done]. apply Z.ltb_lt in H7. lia. } split; [done|]. split; [done|]. split; [exact H3|]. revert H4. clear. induction (bi_vecs b) as [|v vs IH]; [constructor|]. cbn [map]. change (mjoin (?x :: ?y)) with (x ++ mjoin y).
  rewrite forallb_app. intros [H1 H2]%andb_true_iff. constructor; [|by apply IH]. apply List.Forall_forall. intros x Hx. rewrite forallb_forall in H1. specialize (H1 x Hx).
  apply andb_true_iff in H1 as [?%Z.leb_le ?%Z.ltb_lt]. done.
Qed.

(** The device with the request. *)
Definition added_dev (b : bio) (forwrite : bool) (d : r5dev) : r5dev :=
  if chain_overlaps b (if forwrite then towrite d else toread d) then set_bit R5_Overlap d
  else if forwrite then
    let d := with_writes (chain_insert b (towrite d)) (written d) d in
    if is_covered conf d && negb (test_bit R5_OVERWRITE d) then set_bit R5_OVERWRITE d else d
  else with_reads (chain_insert b (toread d)) (read d) d.

Lemma add_eq sh b i (forwrite : bool) : in_stripe sh i -> chain_ok conf (dev_sector (dev sh i)) (if forwrite then towrite (dev sh i) else toread (dev sh i)) -> valid_bio conf sh i b = true ->
  exists sh', add_stripe_bio conf sh b i forwrite false = Some (sh', negb (stripe_bio_overlaps sh b i forwrite)) /\
  geo sh' = geo sh /\ disks sh' = disks sh /\ reconstruct_state sh' = reconstruct_state sh /\ check_state sh' = check_state sh /\ zero_sum_result sh' = zero_sum_result sh /\
  (forall f, f <> STRIPE_BIT_DELAY -> f <> STRIPE_BATCH_READY -> stest f sh' = stest f sh) /\
  forall j, in_stripe sh j -> dev sh' j = if i =? j then added_dev b forwrite (dev sh j) else dev sh j.
Proof.
  intros Hi Hck Hv. pose proof (no_clash conf _ b _ Hck) as Hnc. destruct (valid_bio_wf _ _ _ Hv) as (_ & _ & _ & Hnx). unfold add_stripe_bio, stripe_bio_overlaps. cbv zeta. assert (forall j f x, in_stripe x j -> disks x = disks sh -> dev (upd i f x) j = if i =? j then f (dev x j) else dev x j) as Hu.
  { intros j f x Hj Hx. apply dev_upd; [unfold in_stripe in *; rewrite Hx; apply Hi|apply Hj]. }
  destruct (chain_overlaps _ _) eqn:Ho; cbn [negb].
  - eexists. split; [reflexivity|]. repeat split; try done; [apply disks_upd|]. intros j Hj. rewrite Hu by done. unfold added_dev. destruct (Z.eqb_spec i j) as [<-|]; [|done]. by rewrite Ho.
  - unfold __add_stripe_bio. rewrite Hnc by done. destruct forwrite; cbn [negb orb mbind option_bind]; (eexists; split; [reflexivity|]).
    + set (sh1 := upd i (fun d => with_writes (chain_insert b (towrite d)) (written d) d) sh). assert (disks sh1 = disks sh) as Hn1 by apply disks_upd.
      assert (forall j, in_stripe sh j -> dev sh1 j = if i =? j then with_writes (chain_insert b (towrite (dev sh j))) (written (dev sh j)) (dev sh j) else dev sh j) as Hd1 by (intros j Hj; unfold sh1; by rewrite Hu).
      assert (dev sh1 i = with_writes (chain_insert b (towrite (dev sh i))) (written (dev sh i)) (dev sh i)) as Hdi by (by rewrite Hd1, Z.eqb_refl).
      set (sh2 := if is_covered conf (dev sh1 i) && _ then _ else sh1).
      assert (geo sh2 = geo sh /\ disks sh2 = disks sh /\ reconstruct_state sh2 = reconstruct_state sh /\ check_state sh2 = check_state sh /\ zero_sum_result sh2 = zero_sum_result sh /\ state sh2 = state sh /\
        forall j, in_stripe sh j -> dev sh2 j = if i =? j then added_dev b true (dev sh j) else dev sh j) as (E1 & E2 & E3 & E4 & E5 & E6 & E7).
      { unfold sh2. destruct (is_covered conf (dev sh1 i) && negb (test_bit R5_OVERWRITE (dev sh1 i))) eqn:Ec.
        - do 6 (split; [done || (rewrite <- Hn1; apply disks_upd)|]). intros j Hj. change (dev (with_overwrite _ ?x) j) with (dev x j). rewrite Hu by (done || unfold in_stripe; by rewrite Hn1). rewrite Hd1 by done.
          destruct (Z.eqb_spec i j) as [<-|]; [|done]. unfold added_dev. rewrite Ho, <- Hdi, Ec. done.
        - do 6 (split; [done|]). intros j Hj. rewrite Hd1 by done. destruct (Z.eqb_spec i j) as [<-|]; [|done]. unfold added_dev. rewrite Ho, <- Hdi, Ec. done. }
      clearbody sh2. destruct (has_bitmap conf && _); repeat split; try done; intros f F1 F2; unfold stest; cbn; rewrite E6; by destruct f.
    + repeat split; try done; [apply (disks_upd i _ (sclear STRIPE_BATCH_READY sh))|intros f F1 F2; by destruct f|]. intros j Hj. rewrite (Hu j _ (sclear STRIPE_BATCH_READY sh) Hj eq_refl).
      change (dev (sclear _ sh) j) with (dev sh j). unfold added_dev. destruct (Z.eqb_spec i j) as [<-|]; [|done]. by rewrite Ho.
Qed.

Lemma added_flags b forwrite d f : f <> R5_Overlap -> f <> R5_OVERWRITE -> test_bit f (added_dev b forwrite d) = test_bit f d.
Proof.
  intros F1 F2. unfold added_dev. destruct (chain_overlaps _ _); [by destruct f|]. destruct forwrite; [|done]. cbv zeta. destruct (_ && _); [by destruct f|done].
Qed.

Lemma added_ok v rp r sec sy st d b forwrite :
  0 < RAID5_STRIPE_SECTORS conf -> wf_bio b -> bi_sector b < dev_sector d + RAID5_STRIPE_SECTORS conf -> dev_sector d < bio_end_sector b ->
  device_inv conf v false rp r sec sy st d -> device_inv conf v false rp r sec sy st (added_dev b forwrite d).
Proof.
  intros Hss Hb Hb1 Hb2 [[K1 K2 K3 K4 K5 K6 K7 K8 K9 K10 K11] D1 D2 D3 D4 D5]. pose proof K1 as [W1 W2 W3 W4 W5 W6 W7 W8 W9]. unfold added_dev. destruct (chain_overlaps b _) eqn:Ho.
  { split; try done. split; try done.
    apply (device_wf_flags conf false d (flags (set_bit R5_Overlap d))); [done| |done]. intros f Hu. specialize (W3 f Hu). destruct f; try done; exact W3. }
  destruct forwrite; cbv zeta.
  - pose proof (chain_insert_ok conf Hss (dev_sector d) b (towrite d) Hb Hb1 Hb2 W7 Ho) as Hch. set (d1 := with_writes (chain_insert b (towrite d)) (written d) d).
    assert (is_covered conf d = false) as Hnc.
    { apply not_true_iff_false. intros Hc. unfold is_covered in Hc. apply Z.leb_le in Hc. rewrite (covered_overlaps conf Hss (dev_sector d) b) in Ho; try done. apply Hb. }
    assert (test_bit R5_OVERWRITE d = true -> page d = v /\ test_bit R5_UPTODATE d = true) as Hov.
    { intros H. destruct (D4 H) as [H1|H1]; [by auto|congruence]. }
    assert (device_inv conf v false rp r sec sy st d1) as Hd1.
    { split; try done; [|intros H; left; by apply Hov]. split; try done. intros H. left. by apply Hov. }
    destruct (is_covered conf d1 && negb (test_bit R5_OVERWRITE d1)) eqn:Hc; [|done]. apply andb_true_iff in Hc as [Hc _]. destruct Hd1 as [[L1 L2 L3 L4 L5 L6 L7 L8 L9 L10 L11] M1 M2 M3 M4 M5].
    split; try done; [|by intros _; right]. split; try done; [|by intros _; right].
    apply (device_wf_flags conf false d1 (flags (set_bit R5_OVERWRITE d1))); [done| |done]. intros f Hu. pose proof (dw_unused _ _ _ L1 f Hu) as H. destruct f; try done; exact H.
  - pose proof (chain_insert_ok conf Hss (dev_sector d) b (toread d) Hb Hb1 Hb2 W6 Ho) as Hch. split; try done. split; try done. intros Hf. destruct (K3 Hf) as [H _]. split; [done|]. cbn.
    intros E. assert (b ∈ chain_insert b (toread d)) as Hin by (apply (proj2 (chain_insert_in conf Hss _ _ _)); by left). rewrite E in Hin. by apply not_elem_of_nil in Hin.
Qed.

Lemma inv_chain w i (forwrite : bool) synced V : inv conf w synced V -> in_stripe (w_sh w) i ->
  chain_ok conf (dev_sector (dev (w_sh w) i)) (if forwrite then towrite (dev (w_sh w) i) else toread (dev (w_sh w) i)).
Proof.
  intros Hinv Hi. destruct (in_dev _ _ _ _ Hinv i Hi) as [st [K _ _ _ _ _]]. pose proof (do_wf _ _ _ _ _ _ _ _ _ K) as Hwf. destruct forwrite; [apply (dw_towrite _ _ _ Hwf)|apply (dw_toread _ _ _ Hwf)].
Qed.

Lemma add_inv w i b forwrite synced V :
  inv conf w synced V -> in_stripe (w_sh w) i -> is_parity (w_sh w) i = false -> valid_bio conf (w_sh w) i b = true ->
  exists sh' ok, add_stripe_bio conf (w_sh w) b i forwrite false = Some (sh', ok) /\ inv conf (with_sh sh' w) synced V.
Proof.
  intros Hinv Hi Hpar Hv. destruct (valid_bio_wf _ _ _ Hv) as (Hb & Hb1 & Hb2 & _). destruct (add_eq (w_sh w) b i forwrite Hi) as (sh' & E0 & E1 & E2 & E3 & E4 & E5 & E6 & E7); [by apply (inv_chain w i forwrite synced V)|done|]. eexists sh', _. split; [exact E0|].
  pose proof (in_setting _ _ _ _ Hinv) as [G1 _ _ _]. pose proof (go_sectors _ _ G1) as Hss.
  apply (inv_local conf i (fun r => r) w (with_sh sh' w) synced synced V Hinv Hi); cbn [w_sh with_sh]; try done.
  - by apply changes_id.
  - intros f [-> |[-> |[-> | ->]]]; by apply E6.
  - unfold all_synced. by rewrite !E6.
  - intros j Hj Hne. rewrite E7 by done. by rewrite (proj2 (Z.eqb_neq _ _)) by congruence.
  - intros st Hst. exists st. rewrite E7, Z.eqb_refl by done. rewrite Hpar in *. unfold all_synced. rewrite !E6 by done. by apply added_ok.
  - rewrite E7, Z.eqb_refl by done. by rewrite added_flags.
  - rewrite E7, Z.eqb_refl by done. unfold added_dev. destruct (chain_overlaps _ _); [done|]. destruct forwrite; [|done]. cbv zeta. by destruct (_ && _).
  - intros ->. unfold is_parity in Hpar. by rewrite Z.eqb_refl in Hpar.
Qed.
End Add.

(** * Completion of I/O *)

Section Complete.
Context (conf : r5conf).

(** The flags that the end of a request changes. *)
Definition end_flag (f : r5dev_flag) : bool :=
  match f with R5_LOCKED | R5_UPTODATE | R5_ReadError | R5_ReadNoMerge | R5_ReWrite | R5_WriteError | R5_MadeGood => true | _ => false end.

(** The device whose request is done, with the page [p]. *)
Definition ended (p : block) (fl : r5dev_flag -> bool) (d : r5dev) : r5dev := with_req None (rreq d) (with_flags fl (set_page p d)).

(** A block that is not up to date any more is not relied on. *)
Definition keeps_page (d : r5dev) (up : bool) : Prop :=
  up = true \/ test_bit R5_UPTODATE d = false \/
  (test_bit R5_Wantfill d = false /\ (test_bit R5_OVERWRITE d = true -> is_covered conf d = true) /\ written d = []).

Lemma keeps_uptodate d up : keeps_page d up -> test_bit R5_UPTODATE d = true ->
  up = true \/ (test_bit R5_Wantfill d = false /\ (test_bit R5_OVERWRITE d = true -> is_covered conf d = true) /\ written d = []).
Proof. intros [|[|]]; [by left|congruence|by right]. Qed.

Lemma ended_ok v par rp r r' sec sy st d p fl :
  device_inv conf v par rp r sec sy st d -> req d <> None -> wf_block (size conf) p -> (forall f, end_flag f = false -> fl f = flags d f) -> fl R5_LOCKED = false ->
  (fl R5_UPTODATE = true -> p = v) -> keeps_page d (fl R5_UPTODATE) ->
  (forall m, working r' = Some m -> fl R5_WriteError = false ->
    ((is_bad (bad m) = false \/ fl R5_MadeGood = true) /\ (beyond conf sec m = true \/ sy = true)) \/ fl R5_ReWrite = true -> stored m = v) ->
  (fl R5_WriteError = true -> fl R5_MadeGood = true -> False) -> device_inv conf v par rp r' sec sy Idle (ended p fl d).
Proof.
  intros [[K1 K2 K3 K4 K5 K6 K7 K8 K9 K10 K11] D1 D2 D3 D4 D5] Hreq Hp Hfl Hl Hpv Hkp Hst Her. pose proof (keeps_uptodate d _ Hkp) as Hup. pose proof K1 as [W1 W2 W3 W4 W5 W6 W7 W8 W9].
  assert (forall f, end_flag f = false -> test_bit f (ended p fl d) = test_bit f d) as Hf by exact Hfl.
  assert (page (ended p fl d) = p) as Hpg by (unfold page, ended; cbn; by rewrite W2). assert (st <> Pend) as Hnp by (intros ->; by injection K5).
  assert (test_bit R5_Wantread d = false /\ test_bit R5_Wantwrite d = false) as [Hwr Hww] by (destruct st; try done; by injection K5).
  split; rewrite ?Hf by done; try done.
  - split; rewrite ?Hpg, ?Hf by done; try done.
    + split; try done; [by rewrite Hpg|unfold ended; cbn; by rewrite W2| |].
      * intros f Hu. rewrite Hf by (by destruct f). auto.
      * intros Hpar. rewrite Hf by done. by apply W9.
    + intros H. split; [|by apply K3]. destruct (Hup (D3 H)) as [|(H1 & _)]; [auto|congruence].
    + intros H. destruct (D4 H) as [H1|H1]; [|by right]. destruct (Hup H1) as [|(_ & H2 & _)]; [left; auto|right; by apply H2].
    + unfold test_bit in *. cbn [ended flags with_req with_flags req]. rewrite Hl, ?(Hfl R5_Wantread), ?(Hfl R5_Wantwrite) by done. by rewrite Hwr, Hww.
    + split; [done|]. unfold takes_part. rewrite Hf by done. intros H. by destruct Hnp; apply K7.
    + intros m Hm H1 H2. left. by apply (Hst m).
  - intros H. destruct (Hup (D3 H)) as [|(H1 & _)]; [done|congruence].
  - intros H. destruct (D4 H) as [H1|H1]; [|by right]. destruct (Hup H1) as [|(_ & H2 & _)]; [by left|right; by apply H2].
  - intros H. destruct (Hup (D5 H)) as [|(_ & _ & H1)]; done.
Qed.

(** What the loss of a member, or of a block on it, means. *)
Record worse (sec : Z) (r r' : option md_rdev) : Prop := {
  wo_working m' : working r' = Some m' -> exists m, working r = Some m /\ stored m' = stored m /\ beyond conf sec m' = beyond conf sec m /\ (is_bad (bad m') = false -> is_bad (bad m) = false);
  wo_some m : r = Some m -> exists m', r' = Some m' /\ stored m' = stored m;
}.

Lemma worse_fmap sec g r :
  (forall m, stored (g m) = stored m) -> (forall m, Faulty (g m) = false -> Faulty m = false /\ beyond conf sec (g m) = beyond conf sec m /\ (is_bad (bad (g m)) = false -> is_bad (bad m) = false)) ->
  worse sec r (g <$> r).
Proof.
  intros Hs Hw. split; [|intros m ->; by exists (g m)]. destruct r as [m|]; [|done]. cbn. intros m'. destruct (Faulty (g m)) eqn:Hf; [done|]. intros [= <-]. destruct (Hw m Hf) as (H1 & H2 & H3). exists m. by rewrite H1.
Qed.

Lemma worse_trans sec r1 r2 r3 : worse sec r1 r2 -> worse sec r2 r3 -> worse sec r1 r3.
Proof.
  intros [A1 A2] [B1 B2]. split.
  - intros m' Hm. destruct (B1 m' Hm) as (m1 & H1 & H2 & H3 & H4). destruct (A1 m1 H1) as (m & G1 & G2 & G3 & G4). exists m. split; [done|]. split; [congruence|]. split; [congruence|auto].
  - intros m Hm. destruct (A2 m Hm) as (m1 & H1 & H2). destruct (B2 m1 H1) as (m' & G1 & G2). exists m'. split; [done|congruence].
Qed.

Lemma worse_failed sec r : worse sec r (failed_rdev <$> r).
Proof. apply worse_fmap; intros m; unfold failed_rdev; destruct (Faulty m) eqn:E; try done. cbn. by rewrite E. Qed.

Lemma worse_blamed sec r : worse sec r (blamed_rdev <$> r).
Proof.
  apply worse_fmap; intros m; unfold blamed_rdev, failed_rdev; destruct (bb_room m), (Faulty m) eqn:E; try done; cbn; rewrite ?E; try done.
  intros _. split; [done|]. split; [done|]. by destruct (is_bad (bad m)) eqn:E'; rewrite ?E'.
Qed.

Lemma worse_counted sec n r : worse sec r (with_read_errors n <$> r).
Proof. by apply worse_fmap. Qed.

(** A device whose member is not what it was. *)
Lemma device_worse v par rp r r' sec sy st d : device_inv conf v par rp r sec sy st d -> worse sec r r' -> device_inv conf v par rp r' sec sy st d.
Proof.
  intros [[K1 K2 K3 K4 K5 K6 K7 K8 K9 K10 K11] D1 D2 D3 D4 D5] [A1 A2]. split; try done. split; try done.
  - destruct st as [|[]| | |]; try done; cbn in *.
    + destruct K6 as (-> & m & Hm & Hs). split; [done|]. destruct (A2 m Hm) as (m' & -> & H). exists m'. split; [done|congruence].
    + destruct K6 as [Hu [m Hm]]. destruct (A2 m Hm) as (m' & -> & H). by split.
  - intros m' Hm Hw Hor. destruct (A1 m' Hm) as (m & H1 & -> & H3 & H4). apply (K9 m H1 Hw). rewrite H3 in Hor. destruct Hor as [[[H|H] H']|H]; auto.
Qed.

(** The stripe when the request of the device [i] is done. *)
Record ends (i : Z) (p : block) (fl : r5dev_flag -> bool) (sh sh' : stripe) : Prop := {
  en_devs : devs sh' = devs (upd i (ended p fl) sh);
  en_geo : geo sh' = geo sh;
  en_states : reconstruct_state sh' = reconstruct_state sh /\ check_state sh' = check_state sh /\ zero_sum_result sh' = zero_sum_result sh;
  en_state f : f <> STRIPE_HANDLE -> f <> STRIPE_DEGRADED -> stest f sh' = stest f sh;
}.

Lemma ends_dev i p fl sh sh' j : ends i p fl sh sh' -> in_stripe sh i -> in_stripe sh j -> dev sh' j = if i =? j then ended p fl (dev sh j) else dev sh j.
Proof. intros H Hi Hj. unfold dev at 1. rewrite (en_devs _ _ _ _ _ H). fold (dev (upd i (ended p fl) sh) j). apply dev_upd; [apply Hi|apply Hj]. Qed.

Lemma ends_disks i p fl sh sh' : ends i p fl sh sh' -> disks sh' = disks sh.
Proof. intros H. unfold disks. rewrite (en_devs _ _ _ _ _ H). apply disks_upd. Qed.

Lemma busy_locked v par rp r sec sy st d : device_ok conf v par rp r sec sy st d -> req d <> None -> test_bit R5_LOCKED d = true /\ exists o, st = Busy o /\ req d = Some o.
Proof. intros [_ _ _ _ K _ _ _ _ _ _] Hr. destruct st; injection K as E1 E2 E3 E4; try done. split; [done|]. by exists o. Qed.

Lemma ends_inv i g w w' p fl synced V :
  inv conf w synced V -> in_stripe (w_sh w) i -> req (dev (w_sh w) i) <> None -> changes i g w w' -> ends i p fl (w_sh w) (w_sh w') ->
  wf_block (size conf) p -> (forall f, end_flag f = false -> fl f = flags (dev (w_sh w) i) f) -> fl R5_LOCKED = false ->
  (fl R5_UPTODATE = true -> p = V i) -> keeps_page (dev (w_sh w) i) (fl R5_UPTODATE) ->
  (holding (w_sh w) -> test_bit R5_UPTODATE (dev (w_sh w) i) = true -> fl R5_UPTODATE = true) ->
  (forall m, working (g (rdev (disk w i))) = Some m -> fl R5_WriteError = false ->
    ((is_bad (bad m) = false \/ fl R5_MadeGood = true) /\ (beyond conf (sector (w_sh w)) m = true \/ all_synced synced (w_sh w) = true)) \/ fl R5_ReWrite = true -> stored m = V i) ->
  (fl R5_WriteError = true -> fl R5_MadeGood = true -> False) -> (working (rdev (disk w i)) = None -> working (g (rdev (disk w i))) = None) -> inv conf w' synced V.
Proof.
  intros Hinv Hi Hreq Hch He Hp Hfl Hl Hpv Hkp Hup Hst Her Hno. pose proof (fun j => ends_dev i p fl _ _ j He Hi) as Hdev. pose proof He as [E1 E2 (E3 & E4 & E5) E6]. pose proof (ends_disks _ _ _ _ _ He) as Hn.
  assert (all_synced synced (w_sh w') = all_synced synced (w_sh w)) as Hsy by (unfold all_synced; by rewrite !E6).
  apply (inv_local conf i g w w' synced synced V Hinv Hi Hch); try done.
  - intros f [-> |[-> |[-> | ->]]]; by apply E6.
  - by rewrite Hsy.
  - intros j Hj Hne. rewrite Hdev by done. by rewrite (proj2 (Z.eqb_neq _ _)) by congruence.
  - intros st Hd. exists Idle. rewrite Hsy, Hdev, Z.eqb_refl by done. by apply (ended_ok _ _ _ (rdev (disk w i)) _ _ _ st).
  - rewrite Hdev, Z.eqb_refl by done. exact Hup.
  - by rewrite Hdev, Z.eqb_refl by done.
  - intros -> _. unfold p_unneeded. assert (pd (w_sh w') = pd (w_sh w)) as -> by (unfold pd; by rewrite E2). rewrite (cg_rdev _ _ _ _ Hch), Z.eqb_refl by apply Hi.
    intros [H|(m & _ & _ & _ & _ & H)]; [left; auto|]. destruct (in_dev _ _ _ _ Hinv _ Hi) as [st [K _ _ _ _ _]]. destruct (busy_locked _ _ _ _ _ _ _ _ K Hreq) as [H' _]. congruence.
Qed.

(** ** Reads *)

(** The flags of a device without [R5_LOCKED]. *)
Definition unlocked (fl : r5dev_flag -> bool) (f : r5dev_flag) : bool := if r5dev_flag_beq f R5_LOCKED then false else fl f.

Lemma read_succeeded_eq d : exists fl, read_succeeded d = with_flags fl d /\ fl R5_UPTODATE = true /\
  (forall f, end_flag f = false \/ f = R5_WriteError \/ f = R5_MadeGood -> fl f = flags d f) /\ (fl R5_ReWrite = true -> test_bit R5_ReWrite d = true).
Proof.
  exists (flags (read_succeeded d)). unfold read_succeeded. change (test_bit R5_ReadError (set_bit R5_UPTODATE d)) with (test_bit R5_ReadError d). change (test_bit R5_ReadNoMerge (set_bit R5_UPTODATE d)) with (test_bit R5_ReadNoMerge d).
  destruct (test_bit R5_ReadError d), (test_bit R5_ReadNoMerge d); (repeat split; try done); intros f [Hf|[-> | ->]]; try done; by destruct f.
Qed.

(** All that was done to one device. *)
Lemma alter_dev i sh f h : in_stripe sh i -> f (dev sh i) = h (dev sh i) -> devs (upd i f sh) = devs (upd i h sh).
Proof.
  intros Hi H. unfold upd. cbn. apply list_alter_ext; [|done]. intros d Hd. assert (d = dev sh i) as ->; [|done]. symmetry. by apply list_lookup_total_correct.
Qed.

Lemma end_read_ok w i synced V :
  inv conf w synced V -> in_stripe (w_sh w) i -> is_read (req (dev (w_sh w) i)) = true ->
  inv conf (raid5_end_read_request conf i BLK_STS_OK (stored_at i w) w) synced V.
Proof.
  intros Hinv Hi Hr. pose proof (in_setting _ _ _ _ Hinv) as [_ _ G3 _]. set (d := dev (w_sh w) i) in *. destruct (in_dev _ _ _ _ Hinv i Hi) as [st [K _ _ _ _ _]]. fold d in K.
  assert (req d <> None) as Hreq by (by intros E; rewrite E in Hr). destruct (busy_locked _ _ _ _ _ _ _ _ K Hreq) as (_ & o & -> & Eo). rewrite Eo in Hr. destruct o as [repl| |]; try done.
  pose proof (do_sem _ _ _ _ _ _ _ _ _ K) as (-> & m & Hm & Hs). pose proof (do_wf _ _ _ _ _ _ _ _ _ K) as Hwf. pose proof (do_req _ _ _ _ _ _ _ _ _ K Hreq) as [Hwe Hmg].
  assert (stored_at i w = V i) as Est by (unfold stored_at; by rewrite Hm). assert (0 <= i < sh_disks (geo (w_sh w))) as Hi' by (rewrite (se_disks _ _ (in_setting _ _ _ _ Hinv)); done).
  pose proof (en_wf _ _ _ (in_enc _ _ _ _ Hinv) i Hi') as Hv. unfold raid5_end_read_request.
  assert (test_bit R5_ReadRepl (dev (upd i (set_page (stored_at i w)) (w_sh w)) i) = false) as ->.
  { rewrite dev_upd_eq by done. apply (dw_unused _ _ _ Hwf R5_ReadRepl eq_refl). }
  destruct (read_succeeded_eq (set_page (V i) d)) as (fl & Efl & F1 & F2 & F3).
  cbn [andb]. apply (ends_inv i (fmap (with_read_errors 0)) w _ (V i) (unlocked fl) synced V Hinv Hi Hreq); try done.
  - apply changes_sh. destruct (changes_upd i (with_read_errors 0) w) as [A1 A2 A3]; [unfold in_stripe in Hi; lia|]. by split.
  - split; cbn [w_sh with_sh]; try done; [|intros f G1 G2; by destruct f]. cbn [devs sset with_state]. change (w_sh (upd_member _ _ _ ?x)) with (w_sh x). cbn [w_sh with_sh]. rewrite !upd_upd, Est.
    apply alter_dev; [done|]. fold d. unfold compose. by rewrite Efl.
  - intros f Hf. unfold unlocked. destruct (r5dev_flag_beq f R5_LOCKED) eqn:E; [by destruct f|]. rewrite F2 by auto. done.
  - by left.
  - intros m' Hm' _ _. rewrite Hm in Hm'. cbn in Hm'. destruct (Faulty m); [done|]. by injection Hm' as <-.
  - unfold unlocked. cbn. rewrite !F2 by auto. unfold test_bit in *. cbn. congruence.
  - rewrite Hm. cbn. by destruct (Faulty m).
Qed.

(** What a failed read may do to a device. *)
Definition fails_read (F : r5dev -> r5dev) : Prop := forall d, exists fl, F d = with_flags fl d /\ fl R5_UPTODATE = false /\
  (forall f, end_flag f = false \/ f = R5_WriteError \/ f = R5_MadeGood -> fl f = flags d f) /\ (fl R5_ReWrite = true -> test_bit R5_ReWrite d = true).

Lemma fails_retried sh i : fails_read (read_retried sh i ∘ clear_bit R5_UPTODATE).
Proof.
  intros d. unfold compose, read_retried. destruct (_ && _); [|destruct (test_bit R5_ReadNoMerge _)]; (eexists; split; [reflexivity|]; split; [done|]; split; [|done]); intros f [Hf|[-> | ->]]; try done; by destruct f.
Qed.

Lemma fails_given_up : fails_read ((fun d => clear_bit R5_ReWrite (clear_bit R5_ReadError d)) ∘ clear_bit R5_UPTODATE).
Proof. intros d. unfold compose. eexists; split; [reflexivity|]; split; [done|]; split; [|done]. intros f [Hf|[-> | ->]]; try done; by destruct f. Qed.

Lemma read_failed_eq i status w sec :
  0 <= i < Z.of_nat (length (w_disks w)) -> status <> BLK_STS_OK -> is_Some (rdev (disk w i)) ->
  exists g F, changes i g w (read_failed conf i false status w) /\ w_sh (read_failed conf i false status w) = upd i F (w_sh w) /\
    worse sec (rdev (disk w i)) (g (rdev (disk w i))) /\ fails_read F.
Proof.
  intros Hi Hs [m Hm]. unfold read_failed. set (sh1 := upd i (clear_bit R5_UPTODATE) (w_sh w)). set (w2 := match status with BLK_STS_PROTECTION => _ | _ => _ end).
  assert (exists n : bool, changes i (if n then fmap (fun r => with_read_errors (read_errors r + 1) r) else (fun r => r)) w w2 /\ w_sh w2 = sh1) as (n & H2 & E2).
  { unfold w2. destruct status; [done|exists false; split; [by apply changes_id|done]|exists true; split; [|done]]. destruct (changes_upd i (fun r => with_read_errors (read_errors r + 1) r) (with_sh sh1 w)) as [A1 A2 A3]; [done|]. by split. }
  clearbody w2. set (g2 := if n then _ else _) in H2. assert (worse sec (rdev (disk w i)) (g2 (rdev (disk w i)))) as Hw2.
  { unfold g2. destruct n; [by apply worse_fmap|]. split; [|intros m' ->; by exists m']. intros m' Hm'. by exists m'. }
  clearbody g2. cbn [member]. rewrite (cg_rdev _ _ _ _ H2), Z.eqb_refl by lia. destruct (wo_some _ _ _ Hw2 m Hm) as (r & -> & _). clear n.
  set (c := if test_bit R5_ReadRepl (dev sh1 i) then _ else _). destruct c as [retry set_bad]. assert (0 <= i < Z.of_nat (length (w_disks w2))) as Hi2 by (by rewrite (cg_length _ _ _ _ H2)).
  destruct (retry || _).
  - exists g2, (read_retried sh1 i ∘ clear_bit R5_UPTODATE). split; [by apply changes_sh|]. split; [cbn [w_sh with_sh]; unfold sh1 at 2; by rewrite upd_upd|]. split; [done|]. apply fails_retried.
  - set (w3 := with_sh _ w2). assert (changes i g2 w w3 /\ w_sh w3 = upd i ((fun d => clear_bit R5_ReWrite (clear_bit R5_ReadError d)) ∘ clear_bit R5_UPTODATE) (w_sh w)) as [H3 E3].
    { split; [by apply changes_sh|]. unfold w3. cbn [w_sh with_sh]. unfold sh1. by rewrite upd_upd. }
    assert (0 <= i < Z.of_nat (length (w_disks w3))) as Hi3 by exact Hi2. clearbody w3. destruct (set_bad && In_sync r).
    + destruct (set_badblocks_changes conf i w3 Hi3) as [H4 E4]. exists (fun r => blamed_rdev <$> g2 r), ((fun d => clear_bit R5_ReWrite (clear_bit R5_ReadError d)) ∘ clear_bit R5_UPTODATE).
      split; [exact (changes_trans i g2 (fmap blamed_rdev) w w3 _ H3 H4)|]. split; [by rewrite E4|]. split; [|apply fails_given_up]. eapply worse_trans; [done|apply worse_blamed].
    + destruct (md_error_changes conf i w3 Hi3) as [H4 E4]. exists (fun r => failed_rdev <$> g2 r), ((fun d => clear_bit R5_ReWrite (clear_bit R5_ReadError d)) ∘ clear_bit R5_UPTODATE).
      split; [exact (changes_trans i g2 (fmap failed_rdev) w w3 _ H3 H4)|]. split; [by rewrite E4|]. split; [|apply fails_given_up]. eapply worse_trans; [done|apply worse_failed].
Qed.

Lemma not_relied_on sh i : in_stripe sh i -> test_bit R5_UPTODATE (dev sh i) && relied_on conf sh i = false ->
  keeps_page (dev sh i) false /\ (holding sh -> test_bit R5_UPTODATE (dev sh i) = false).
Proof.
  intros Hi Hu. destruct (test_bit R5_UPTODATE (dev sh i)) eqn:E; [|split; [right; left; done|done]]. unfold relied_on in Hu. cbn [andb] in Hu. apply orb_false_iff in Hu as [[[H1 H2]%orb_false_iff H3]%orb_false_iff H4].
  assert (forall j, in_stripe sh j -> written (dev sh j) = []) as Hw.
  { intros j Hj. destruct (written (dev sh j)) eqn:Ew; [done|]. apply not_true_iff_false in H3. destruct H3. apply existsb_exists. exists (dev sh j). split; [|by rewrite Ew]. apply list_elem_of_In, (list_elem_of_lookup_2 _ (Z.to_nat j)). by apply dev_lookup. }
  split.
  - right. right. split; [done|]. split; [|by apply Hw]. intros Ho. rewrite Ho in H2. by apply negb_false_iff in H2.
  - intros [Hc|(j & Hj & Hn)]; [unfold checking in Hc; congruence|by rewrite Hw in Hn].
Qed.

Lemma end_read_failed w i status junk synced V :
  inv conf w synced V -> in_stripe (w_sh w) i -> is_read (req (dev (w_sh w) i)) = true -> status <> BLK_STS_OK -> wf_block (size conf) junk ->
  test_bit R5_UPTODATE (dev (w_sh w) i) && relied_on conf (w_sh w) i = false -> inv conf (raid5_end_read_request conf i status junk w) synced V.
Proof.
  intros Hinv Hi Hr Hs Hj Hu. destruct (not_relied_on _ _ Hi Hu) as [Hkp Hho]. pose proof (in_setting _ _ _ _ Hinv) as [_ _ G3 _]. set (d := dev (w_sh w) i) in *. destruct (in_dev _ _ _ _ Hinv i Hi) as [st [K _ _ _ _ _]]. fold d in K.
  assert (req d <> None) as Hreq by (by intros E; rewrite E in Hr). destruct (busy_locked _ _ _ _ _ _ _ _ K Hreq) as (_ & o & -> & Eo). rewrite Eo in Hr. destruct o as [repl| |]; try done.
  pose proof (do_sem _ _ _ _ _ _ _ _ _ K) as (-> & m & Hm & _). pose proof (do_wf _ _ _ _ _ _ _ _ _ K) as Hwf. pose proof (do_req _ _ _ _ _ _ _ _ _ K Hreq) as [Hwe Hmg].
  unfold raid5_end_read_request. assert (test_bit R5_ReadRepl (dev (upd i (set_page junk) (w_sh w)) i) = false) as ->.
  { rewrite dev_upd_eq by done. apply (dw_unused _ _ _ Hwf R5_ReadRepl eq_refl). }
  cbn [andb]. set (w0 := with_sh (upd i (set_page junk) (w_sh w)) w). destruct (read_failed_eq i status w0 (sector (w_sh w))) as (g & F & H1 & E1 & Hw & HF); [unfold w0; cbn; unfold in_stripe in Hi; lia|done|by exists m|].
  change (rdev (disk w0 i)) with (rdev (disk w i)) in *. assert (match status with BLK_STS_OK => upd_member i false (with_read_errors 0) (with_sh (upd i read_succeeded (upd i (set_page junk) (w_sh w))) w) | _ => read_failed conf i false status w0 end = read_failed conf i false status w0) as -> by (by destruct status).
  set (w1 := read_failed conf i false status w0) in *. destruct (HF (set_page junk d)) as (fl & Efl & F1 & F2 & F3).
  apply (ends_inv i g w _ junk (unlocked fl) synced V Hinv Hi Hreq); try done.
  - apply changes_sh. by destruct H1 as [A1 A2 A3].
  - split; cbn [w_sh with_sh]; [|by rewrite E1|by rewrite E1|intros f G1 G2; rewrite E1; by destruct f]. cbn [devs sset with_state]. rewrite E1. unfold w0. cbn [w_sh with_sh]. rewrite !upd_upd.
    apply alter_dev; [done|]. fold d. unfold compose. by rewrite Efl.
  - intros f Hf. unfold unlocked. destruct (r5dev_flag_beq f R5_LOCKED) eqn:E; [by destruct f|]. rewrite F2 by auto. done.
  - unfold unlocked. cbn. congruence.
  - unfold unlocked. cbn. rewrite F1. exact Hkp.
  - intros Hh H. fold d in H. pose proof (Hho Hh) as H'. fold d in H'. congruence.
  - intros m' Hm' _ Hor. destruct (wo_working _ _ _ Hw m' Hm') as (m0 & M1 & -> & M3 & M4). destruct (do_stored _ _ _ _ _ _ _ _ _ K m0 M1 Hwe) as [|?]; [|done|done].
    rewrite M3 in Hor. unfold unlocked in Hor. cbn in Hor. destruct Hor as [[[H|H] H']|H]; [left; by auto| |right; by apply F3]. rewrite F2 in H by auto. unfold test_bit in Hmg. cbn in H. congruence.
  - unfold unlocked. cbn. rewrite !F2 by auto. unfold test_bit in *. cbn. congruence.
  - intros Hn. destruct (working (g (rdev (disk w i)))) as [m'|] eqn:E; [|done]. destruct (wo_working _ _ _ Hw m' E) as (m0 & M1 & _). congruence.
Qed.

(** ** Writes *)

(** The flags of a device whose write went to a bad block. *)
Definition made_good (d : r5dev) : r5dev :=
  let d := set_bit R5_MadeGood d in if test_bit R5_ReadError d then set_bit R5_ReWrite d else d.

Lemma made_good_eq d : exists fl, made_good d = with_flags fl d /\ (forall f, f <> R5_MadeGood -> f <> R5_ReWrite -> fl f = flags d f).
Proof.
  exists (flags (made_good d)). unfold made_good. change (test_bit R5_ReadError (set_bit R5_MadeGood d)) with (test_bit R5_ReadError d).
  destruct (test_bit R5_ReadError d); (split; [done|]); intros f H1 H2; by destruct f.
Qed.

Lemma with_stored_rdev p i w : 0 <= i < Z.of_nat (length (w_disks w)) -> rdev (disk (upd_member i false (with_stored p) w) i) = with_stored p <$> rdev (disk w i).
Proof. intros Hi. rewrite (cg_rdev _ _ _ _ (changes_upd i (with_stored p) w Hi)) by lia. by rewrite Z.eqb_refl. Qed.

(** What the end of a write leaves of the flags. *)
Lemma end_write_flags i status w w0 m :
  in_stripe (w_sh w) i -> 0 <= i < Z.of_nat (length (w_disks w)) -> w_sh w0 = w_sh w -> rdev (disk w0 i) = Some m -> length (w_disks w0) = length (w_disks w) ->
  test_bit R5_DOUBLE_LOCKED (dev (w_sh w) i) = false -> bio_page (dev (w_sh w) i) = None ->
  exists g fl, changes i g w0 (raid5_end_write_request conf i false status w0) /\ ends i (page (dev (w_sh w) i)) (unlocked fl) (w_sh w) (w_sh (raid5_end_write_request conf i false status w0)) /\
    (forall f, f <> R5_MadeGood -> f <> R5_ReWrite -> f <> R5_WriteError -> fl f = flags (dev (w_sh w) i) f) /\
    match status with
    | BLK_STS_OK => g = (fun r => r) /\ fl R5_WriteError = test_bit R5_WriteError (dev (w_sh w) i)
    | _ => g = fmap write_error_seen /\ fl R5_WriteError = true /\ fl R5_MadeGood = test_bit R5_MadeGood (dev (w_sh w) i)
    end.
Proof.
  intros Hi Hlen Hsh Hm Hl0 Hdl Hbp. unfold raid5_end_write_request. cbn [andb member]. rewrite Hm. set (d := dev (w_sh w) i) in *.
  assert (forall fl, fl R5_DOUBLE_LOCKED = false -> unlock_written false (with_flags fl d) = ended (page d) (unlocked fl) d) as Hun.
  { intros fl Hfl. unfold unlock_written. change (test_bit R5_DOUBLE_LOCKED (with_flags fl d)) with (fl R5_DOUBLE_LOCKED). rewrite Hfl. unfold ended. rewrite set_page_same by done. done. }
  destruct status.
  - destruct (is_bad (bad m)).
    + destruct (made_good_eq d) as (fl & E & F). exists (fun r => r), fl. split; [by apply changes_id|]. split; [|split; [by auto|split; [done|by apply F]]].
      split; cbn [w_sh with_sh]; rewrite ?Hsh; try done; [|intros f F1 F2; by destruct f]. cbn [devs sset with_state]. fold made_good. rewrite upd_upd. apply alter_dev; [done|]. fold d. unfold compose.
      change (if test_bit R5_ReadError (set_bit R5_MadeGood d) then set_bit R5_ReWrite (set_bit R5_MadeGood d) else set_bit R5_MadeGood d) with (made_good d). rewrite E. apply Hun. by rewrite F.
    + exists (fun r => r), (flags d). split; [by apply changes_id|]. split; [|done]. split; cbn [w_sh with_sh]; rewrite ?Hsh; try done; [|intros f F1 F2; by destruct f].
      cbn [devs sset with_state]. apply alter_dev; [done|]. fold d. rewrite <- (Hun (flags d)) by done. by rewrite with_flags_id.
  - exists (fmap write_error_seen), (flags (set_bit R5_WriteError d)). split; [|split; [|split; [intros f F1 F2 F3; by destruct f|done]]].
    + apply changes_sh. destruct (changes_upd i write_error_seen w0) as [A1 A2 A3]; [lia|]. by split.
    + split; cbn [w_sh with_sh]; change (w_sh (upd_member _ _ _ ?x)) with (w_sh x); cbn [w_sh with_sh]; rewrite ?Hsh; try done; [|intros f F1 F2; by destruct f].
      cbn [devs sset with_state]. rewrite upd_upd. apply (alter_dev i (w_sh w)); [done|]. fold d. unfold compose. rewrite <- (Hun (flags (set_bit R5_WriteError d))) by done. done.
  - exists (fmap write_error_seen), (flags (set_bit R5_WriteError d)). split; [|split; [|split; [intros f F1 F2 F3; by destruct f|done]]].
    + apply changes_sh. destruct (changes_upd i write_error_seen w0) as [A1 A2 A3]; [lia|]. by split.
    + split; cbn [w_sh with_sh]; change (w_sh (upd_member _ _ _ ?x)) with (w_sh x); cbn [w_sh with_sh]; rewrite ?Hsh; try done; [|intros f F1 F2; by destruct f].
      cbn [devs sset with_state]. rewrite upd_upd. apply (alter_dev i (w_sh w)); [done|]. fold d. unfold compose. rewrite <- (Hun (flags (set_bit R5_WriteError d))) by done. done.
Qed.

Lemma end_write_inv w i status torn synced V :
  inv conf w synced V -> in_stripe (w_sh w) i -> is_wr (req (dev (w_sh w) i)) = true ->
  inv conf (raid5_end_write_request conf i false status (upd_member i false (with_stored (match status with BLK_STS_OK => page (dev (w_sh w) i) | _ => torn end)) w)) synced V.
Proof.
  intros Hinv Hi Hr. pose proof (in_setting _ _ _ _ Hinv) as [_ _ G3 _]. assert (0 <= i < Z.of_nat (length (w_disks w))) as Hlen by (unfold in_stripe in Hi; lia).
  destruct (in_dev _ _ _ _ Hinv i Hi) as [st [K _ _ _ _ _]]. assert (req (dev (w_sh w) i) <> None) as Hreq by (by intros E; rewrite E in Hr). destruct (busy_locked _ _ _ _ _ _ _ _ K Hreq) as (_ & o & -> & Eo).
  rewrite Eo in Hr. destruct o as [repl| |]; try done. pose proof (do_sem _ _ _ _ _ _ _ _ _ K) as [Hu [m Hm]]. pose proof (do_wf _ _ _ _ _ _ _ _ _ K) as Hwf. pose proof (do_req _ _ _ _ _ _ _ _ _ K Hreq) as [Hwe Hmg].
  pose proof (do_uptodate _ _ _ _ _ _ _ _ _ K Hu) as Hpg. set (p := match status with BLK_STS_OK => _ | _ => torn end). set (w0 := upd_member i false (with_stored p) w).
  pose proof (changes_upd i (with_stored p) w Hlen) as H0. fold w0 in H0. assert (rdev (disk w0 i) = Some (with_stored p m)) as Hm0 by (unfold w0; by rewrite with_stored_rdev, Hm).
  destruct (end_write_flags i status w w0 _ Hi Hlen eq_refl Hm0 (cg_length _ _ _ _ H0)) as (g & fl & H1 & He & Hfl & Hcase); [by apply (dw_unused _ _ _ Hwf)|apply Hwf|].
  pose proof (changes_trans i _ _ _ _ _ H0 H1) as Hch. cbn beta in Hch. assert (forall f, unlocked fl f = if r5dev_flag_beq f R5_LOCKED then false else fl f) as Hul by done.
  apply (ends_inv i _ w _ (page (dev (w_sh w) i)) (unlocked fl) synced V Hinv Hi Hreq Hch He); try done.
  - apply Hwf.
  - intros f Hf. rewrite Hul. destruct (r5dev_flag_beq f R5_LOCKED) eqn:E; [by destruct f|]. apply Hfl; by intros ->.
  - left. rewrite Hul. cbn. by rewrite Hfl.
  - intros _ _. rewrite Hul. cbn. by rewrite Hfl.
  - intros m' Hm' Hw' _. rewrite Hul in Hw'. cbn in Hw'. destruct status; destruct Hcase as [-> Hc]; [|destruct Hc; congruence..]. rewrite Hm in Hm'. cbn in Hm'. destruct (Faulty m); [done|]. by injection Hm' as <-.
  - rewrite !Hul. cbn. destruct status; destruct Hcase as [_ Hc]; [congruence|destruct Hc as [_ Hc]; congruence..].
  - rewrite Hm. cbn. destruct (Faulty m) eqn:Hf; [|done]. intros _. destruct status; destruct Hcase as [-> _]; cbn; by rewrite Hf.
Qed.

(** * Members *)

Lemma fail_inv w i synced V : inv conf w synced V -> in_stripe (w_sh w) i -> inv conf (md_error conf i false w) synced V.
Proof.
  intros Hinv Hi. pose proof (in_setting _ _ _ _ Hinv) as [_ _ G3 _]. destruct (md_error_changes conf i w) as [Hch E]; [unfold in_stripe in Hi; lia|].
  apply (inv_local conf i (fmap failed_rdev) w _ synced synced V Hinv Hi Hch); rewrite ?E; try done.
  - intros st Hst. exists st. apply (device_worse _ _ _ (rdev (disk w i))); [done|apply worse_failed].
  - intros -> _ _. unfold p_unneeded. rewrite E, (cg_rdev _ _ _ _ Hch), Z.eqb_refl by apply Hi. left. destruct (rdev (disk w (pd (w_sh w)))) as [m|]; [|done]. cbn. unfold failed_rdev. destruct (Faulty m) eqn:Hf; [by rewrite Hf|done].
Qed.

Lemma set_rdev_changes i r w : 0 <= i < Z.of_nat (length (w_disks w)) -> changes i (fun _ => r) w (set_rdev i r w).
Proof. intros Hi. by apply (changes_alter i). Qed.

Lemma remove_inv w i synced V :
  inv conf w synced V -> in_stripe (w_sh w) i -> req (dev (w_sh w) i) = None -> inv conf (set_rdev i None w) synced V.
Proof.
  intros Hinv Hi Hr. pose proof (in_setting _ _ _ _ Hinv) as [_ _ G3 _]. assert (0 <= i < Z.of_nat (length (w_disks w))) as Hlen by (unfold in_stripe in Hi; lia). pose proof (set_rdev_changes i None w Hlen) as Hch.
  apply (inv_local conf i _ w _ synced synced V Hinv Hi Hch); try done.
  - intros st [[K1 K2 K3 K4 K5 K6 K7 K8 K9 K10 K11] D1 D2 D3 D4 D5]. exists st. split; try done. split; try done. destruct st as [|o| | |]; try done. injection K5 as _ E. congruence.
  - intros -> _ _. unfold p_unneeded. change (w_sh (set_rdev _ _ w)) with (w_sh w). rewrite (cg_rdev _ _ _ _ Hch), Z.eqb_refl by apply Hi. by left.
Qed.

(** A spare is not in sync, so nothing is said about what it stores. *)
Lemma spare_inv w i r synced V :
  inv conf w synced V -> in_stripe (w_sh w) i -> rdev (disk w i) = None -> (i = pd (w_sh w) -> checking (w_sh w) = false) -> stest STRIPE_SYNCING (w_sh w) = false ->
  test_bit R5_ReWrite (dev (w_sh w) i) = false -> In_sync r = false -> recovery_offset r < sector (w_sh w) + RAID5_STRIPE_SECTORS conf -> inv conf (set_rdev i (Some r) w) false V.
Proof.
  intros Hinv Hi Hn Hck Hsy Hre Hin Hoff. pose proof (in_setting _ _ _ _ Hinv) as [_ _ G3 _]. assert (0 <= i < Z.of_nat (length (w_disks w))) as Hlen by (unfold in_stripe in Hi; lia).
  assert (all_synced false (w_sh w) = false) as Has by (unfold all_synced; rewrite Hsy; by rewrite andb_false_r).
  apply (inv_local conf i _ w _ synced false V Hinv Hi (set_rdev_changes i (Some r) w Hlen)); change (w_sh (set_rdev i (Some r) w)) with (w_sh w); rewrite ?Has; try done.
  - intros st [[K1 K2 K3 K4 K5 K6 K7 K8 K9 K10 K11] D1 D2 D3 D4 D5]. exists st. rewrite Hn in *. split; try done. split; try done.
    + destruct st as [|[]| | |]; try done; cbn in K6; [by destruct K6 as (_ & m & ? & _)|by destruct K6 as [_ [m ?]]].
    + intros m Hm _ [[_ [H|H]]|H]; [|done|congruence]. unfold working in Hm. destruct (Faulty r); [done|]. injection Hm as <-. unfold beyond in H. rewrite Hin in H. apply Z.leb_le in H. lia.
  - intros E. rewrite (Hck E). done.
Qed.

(** A synchronised stripe has the block of a member that is recovered. *)
Lemma recovered_inv w i synced V :
  inv conf w synced V -> in_stripe (w_sh w) i -> synced = true -> inv conf (upd_member i false recovered_rdev w) synced V.
Proof.
  intros Hinv Hi ->. pose proof (in_setting _ _ _ _ Hinv) as [_ _ G3 _]. assert (0 <= i < Z.of_nat (length (w_disks w))) as Hlen by (unfold in_stripe in Hi; lia). pose proof (changes_upd i recovered_rdev w Hlen) as Hch.
  apply (inv_local conf i _ w _ true true V Hinv Hi Hch); try done.
  - intros st [[K1 K2 K3 K4 K5 K6 K7 K8 K9 K10 K11] D1 D2 D3 D4 D5]. exists st. split; try done. split; try done.
    + destruct st as [|[]| | |]; try done; cbn in *.
      * destruct K6 as (-> & m & -> & Hs). split; [done|]. by exists (recovered_rdev m).
      * destruct K6 as [Hu [m ->]]. by split.
    + intros m' Hm Hw Hor. destruct (rdev (disk w i)) as [m|]; [|done]. cbn in Hm. destruct (Faulty m) eqn:Hf; [done|]. injection Hm as <-. cbn. apply (K9 m); [cbn; by rewrite Hf|done|].
      destruct Hor as [[H _]|H]; [left; by auto|by right].
  - intros -> _. unfold p_unneeded. change (w_sh (upd_member _ _ _ w)) with (w_sh w). rewrite (cg_rdev _ _ _ _ Hch), Z.eqb_refl by apply Hi. destruct (rdev (disk w (pd (w_sh w)))) as [m|]; [|by left]. cbn.
    destruct (Faulty m) eqn:Hf; [by left|]. intros [|(m' & [= <-] & M2 & M3)]; [by left|right]. exists (recovered_rdev m). split; [done|]. split; [|done]. unfold in_sync, beyond in *. cbn. rewrite Hf. cbn. by apply andb_true_iff in M2 as [-> _].
Qed.
End Complete.
