(* ===== verification/Raid5Refine.v ===== *)
(** The stripe of md/raid5.c against what it promises (Raid5Spec): every run of events takes a stripe
    that satisfies the invariant to one that does, without a [BUG()], and shows nothing but what the
    specification allows. *)

From S2P Require Import Prelude PageMem Raid5Layout Raid5Stripe Raid5Dev Raid5Ops Raid5Handle Raid5Machine Raid5Data Raid5Copy Raid5Spec Raid5OpsCorrect Raid5Write Raid5Inv Raid5Analyse Raid5Decide Raid5Fill Raid5Dirty Raid5Check Raid5Plan Raid5Run Raid5Finish Raid5Step Raid5Event.

(** * Events that do not show *)

(** The requests of the devices are the same. *)
Record hidden (sh sh' : stripe) : Prop := {
  hi_geo : geo sh' = geo sh;
  hi_disks : disks sh' = disks sh;
  hi_chains i : in_stripe sh i -> toread (dev sh' i) = toread (dev sh i) /\ towrite (dev sh' i) = towrite (dev sh i) /\
    written (dev sh' i) = written (dev sh i) /\ dev_sector (dev sh' i) = dev_sector (dev sh i);
}.

Lemma hidden_refl sh : hidden sh sh.
Proof. by split. Qed.

Lemma hidden_trans sh1 sh2 sh3 : hidden sh1 sh2 -> hidden sh2 sh3 -> hidden sh1 sh3.
Proof.
  intros [A1 A2 A3] [B1 B2 B3]. split; [congruence..|]. intros i Hi. destruct (A3 i Hi) as (<- & <- & <- & <-). apply B3. unfold in_stripe in *. by rewrite A2.
Qed.

Lemma hidden_state sh sh' : geo sh' = geo sh -> devs sh' = devs sh -> hidden sh sh'.
Proof. intros Hg Hd. unfold disks. split; unfold disks, dev; by rewrite ?Hd. Qed.

Lemma hidden_upd i F sh :
  in_stripe sh i -> (forall d, toread (F d) = toread d /\ towrite (F d) = towrite d /\ written (F d) = written d /\ dev_sector (F d) = dev_sector d) -> hidden sh (upd i F sh).
Proof.
  intros Hi HF. split; [done|apply disks_upd|]. intros j Hj. rewrite dev_upd by (apply Hi || apply Hj). destruct (i =? j); [apply HF|done].
Qed.

Lemma hidden_end_read conf i status data w :
  in_stripe (w_sh w) i -> 0 <= i < Z.of_nat (length (w_disks w)) -> hidden (w_sh w) (w_sh (raid5_end_read_request conf i status data w)).
Proof.
  intros Hi Hlen. unfold raid5_end_read_request. set (sh0 := upd i (set_page data) (w_sh w)). set (repl := _ && _). clearbody repl. set (w1 := match status with BLK_STS_OK => _ | _ => _ end).
  assert (hidden (w_sh w) sh0) as H0 by (by apply hidden_upd). assert (in_stripe sh0 i) as Hi0 by (unfold in_stripe in *; by rewrite (hi_disks _ _ H0)).
  assert (forall st, hidden sh0 (w_sh (read_failed conf i repl st (with_sh sh0 w)))) as Hrf.
  { intros st. unfold read_failed. cbn [w_sh with_sh]. set (sh1 := upd i (clear_bit R5_UPTODATE) sh0). assert (hidden sh0 sh1) as H1 by (by apply hidden_upd).
    assert (in_stripe sh1 i) as Hi1 by (unfold in_stripe in *; by rewrite (hi_disks _ _ H1)). set (w2 := match st with BLK_STS_PROTECTION => _ | _ => _ end). assert (w_sh w2 = sh1) as E2 by (by destruct st). clearbody w2.
    destruct (member repl (disk w2 i)) as [r|]; [|by rewrite E2]. set (c := if test_bit R5_ReadRepl (dev sh1 i) then _ else _). destruct c as [retry set_bad]. destruct (retry || _).
    - cbn [w_sh with_sh]. eapply hidden_trans; [exact H1|]. apply hidden_upd; [done|]. intros d. unfold read_retried. destruct (_ && _); [done|]. by destruct (test_bit R5_ReadNoMerge d).
    - set (w3 := with_sh _ w2). assert (hidden sh0 (w_sh w3)) as H3 by (unfold w3; cbn [w_sh with_sh]; eapply hidden_trans; [exact H1|by apply hidden_upd]). clearbody w3.
      assert (forall x, w_sh (md_error conf i repl x) = w_sh x) as Hmd. { intros x. unfold md_error. destruct (member repl (disk x i)) as [r'|]; [|done]. by destruct (Faulty r'). }
      destruct (set_bad && In_sync r); [|by rewrite Hmd]. unfold set_badblocks_or_error, rdev_set_badblocks. destruct (member repl (disk w3 i)) as [r'|]; [|by rewrite Hmd]. destruct (bb_room r'); [done|by rewrite Hmd]. }
  assert (hidden (w_sh w) (w_sh w1)) as H1.
  { eapply hidden_trans; [exact H0|]. unfold w1. destruct status; [|apply Hrf..]. change (w_sh (upd_member _ _ _ ?x)) with (w_sh x). cbn [w_sh with_sh]. apply hidden_upd; [done|]. intros d. unfold read_succeeded.
    destruct (test_bit R5_ReadError _); [done|]. by destruct (test_bit R5_ReadNoMerge _). }
  clearbody w1. cbn [w_sh with_sh]. eapply hidden_trans; [exact H1|]. eapply hidden_trans; [apply (hidden_upd i (fun d => with_req None (rreq d) (clear_bit R5_LOCKED d))); [|done]|by apply hidden_state]. unfold in_stripe in *. by rewrite (hi_disks _ _ H1).
Qed.

Lemma hidden_end_write conf i rreq status w :
  in_stripe (w_sh w) i -> hidden (w_sh w) (w_sh (raid5_end_write_request conf i rreq status w)).
Proof.
  intros Hi. unfold raid5_end_write_request. set (repl := _ && _). set (ok := match status with BLK_STS_OK => true | _ => false end). set (bh := match member repl (disk w i) with Some _ => _ | None => _ end).
  set (w1 := if repl then _ else _). assert (hidden (w_sh w) (w_sh w1)) as H1.
  { unfold w1. destruct repl.
    - destruct ok; [destruct bh; [cbn [w_sh with_sh]; by apply hidden_upd|apply hidden_refl]|]. unfold md_error. destruct (member true (disk w i)) as [r'|]; [|apply hidden_refl]. destruct (Faulty r'); apply hidden_refl.
    - destruct ok; [destruct bh; [|apply hidden_refl]|].
      + cbn [w_sh with_sh]. apply hidden_upd; [done|]. intros d. cbv zeta. by destruct (test_bit R5_ReadError _).
      + change (w_sh (upd_member _ _ _ ?x)) with (w_sh x). cbn [w_sh with_sh]. eapply hidden_trans; [apply (hidden_state _ (sset STRIPE_DEGRADED (w_sh w))); done|]. by apply hidden_upd. }
  clearbody w1. cbn [w_sh with_sh]. eapply hidden_trans; [exact H1|]. eapply hidden_trans; [apply (hidden_upd i (unlock_written rreq))|by apply hidden_state].
  - unfold in_stripe in *. by rewrite (hi_disks _ _ H1).
  - intros d. unfold unlock_written. destruct (test_bit R5_DOUBLE_LOCKED d), rreq; done.
Qed.

(** * Steps *)

Section Step.
Context (conf : r5conf).

Lemma rdev_update_sb w i : 0 <= i < Z.of_nat (length (w_disks w)) ->
  rdev (disk (update_sb w) i) = acknowledged <$> rdev (disk w i) /\ replacement (disk (update_sb w) i) = acknowledged <$> replacement (disk w i).
Proof.
  intros Hi. unfold update_sb, disk. cbn. destruct (lookup_lt_is_Some_2 (w_disks w) (Z.to_nat i)) as [di Hd]; [lia|].
  rewrite (list_lookup_total_correct _ _ _ Hd). erewrite list_lookup_total_correct; [|by rewrite list_lookup_fmap, Hd]. done.
Qed.

Lemma update_sb_inv w synced V : inv conf w synced V -> inv conf (update_sb w) synced V.
Proof.
  intros Hinv. pose proof (in_setting _ _ _ _ Hinv) as [G1 G2 G3 G4]. assert (forall i, in_stripe (w_sh w) i -> 0 <= i < Z.of_nat (length (w_disks w))) as Hlen by (intros i Hi; unfold in_stripe in Hi; lia).
  apply (inv_transfer conf w _ synced synced V Hinv); change (w_sh (update_sb w)) with (w_sh w); try done.
  - split; try done; [cbn; by rewrite length_map|]. intros i Hi. rewrite (proj2 (rdev_update_sb w i (Hlen i Hi))). by rewrite G4.
  - apply (in_state _ _ _ _ Hinv).
  - intros i st Hi Hst. exists st. rewrite (proj1 (rdev_update_sb w i (Hlen i Hi))). apply (device_worse conf _ _ _ (rdev (disk w i))); [done|]. apply worse_fmap; [done|]. intros m Hf. split; [done|]. split; [done|].
    cbn. by destruct (is_bad (bad m)).
  - intros _. assert (in_stripe (w_sh w) (pd (w_sh w))) as Hp by (unfold in_stripe; rewrite <- G2; apply (go_pd _ _ G1)). unfold p_unneeded. change (w_sh (update_sb w)) with (w_sh w). rewrite (proj1 (rdev_update_sb w _ (Hlen _ Hp))).
    destruct (rdev (disk w (pd (w_sh w)))) as [m|]; [|by left]. cbn. destruct (Faulty m) eqn:Hf; [by left|]. intros [|(m' & [= <-] & M2 & M3)]; [done|right]. exists (acknowledged m). split; [done|]. split; [|done].
    unfold in_sync in *. apply andb_true_iff in M2 as [M2%negb_true_iff M2']. cbn. rewrite M2. exact M2'.
Qed.

Lemma same_blocks_inv w w' synced V :
  inv conf w synced V -> w_disks w' = w_disks w -> devs (w_sh w') = devs (w_sh w) -> geo (w_sh w') = geo (w_sh w) -> reconstruct_state (w_sh w') = reconstruct_state (w_sh w) ->
  check_state (w_sh w') = check_state (w_sh w) -> zero_sum_result (w_sh w') = zero_sum_result (w_sh w) -> (forall f, outside f = false -> stest f (w_sh w') = stest f (w_sh w)) -> inv conf w' synced V.
Proof.
  intros Hinv Hd Hde Hg Hr Hc Hz Hst. pose proof (in_setting _ _ _ _ Hinv) as [G1 G2 G3 G4]. assert (forall i, disk w' i = disk w i) as Hdi by (intros i; unfold disk; by rewrite Hd).
  assert (disks (w_sh w') = disks (w_sh w)) as Hn by (unfold disks; by rewrite Hde). assert (forall i, dev (w_sh w') i = dev (w_sh w) i) as Hdev by (intros i; unfold dev; by rewrite Hde).
  apply (inv_transfer conf w w' synced synced V Hinv); try done.
  - split; rewrite ?Hg, ?Hn, ?Hd; try done. intros i Hi. rewrite Hdi. by apply G4.
  - intros f Hf. rewrite Hst by (by destruct Hf as [-> |[-> |[-> | ->]]]). by apply (in_state _ _ _ _ Hinv).
  - intros i st Hi Hs. exists st. rewrite Hdi, Hdev. unfold all_synced in *. by rewrite !Hst.
  - intros _ i Hi. by rewrite Hdev.
  - intros i Hi. by rewrite Hdev.
  - intros _. unfold p_unneeded, sector, pd. rewrite Hg, Hdi, Hdev. done.
Qed.

(** The shape of the stripe, which the specification refers to. *)
Record fits (n : nat) (data : Z -> bool) (sec : Z -> Z) (g : Raid5Layout.stripe_head) (sh : stripe) : Prop := {
  ft_geo : geo sh = g;
  ft_disks : disks sh = n;
  ft_data i : 0 <= i < Z.of_nat n -> data i = negb (is_parity sh i);
  ft_sec i : 0 <= i < Z.of_nat n -> sec i = dev_sector (dev sh i);
}.

Lemma fits_hidden n data sec g sh sh' : fits n data sec g sh -> hidden sh sh' -> fits n data sec g sh'.
Proof.
  intros [F0 F1 F2 F3] [H1 H2 H3]. split; [congruence..| |].
  - intros i Hi. rewrite F2 by done. unfold is_parity, pd, qd. by rewrite H1.
  - intros i Hi. rewrite F3 by done. symmetry. apply H3. unfold in_stripe. by rewrite F1.
Qed.

Lemma handles_ext n data data' sec sec' c c' out :
  (forall i, 0 <= i < Z.of_nat n -> data' i = data i /\ sec' i = sec i) -> handles conf n data sec c c' out -> handles conf n data' sec' c c' out.
Proof.
  intros He (r & sv & dr & an & sy & H1 & H2 & H3). exists r, sv, dr, an, sy. split; [done|]. split; [done|]. intros i Hi. destruct (He i Hi) as [E1 E2]. rewrite E1. intros Hd. destruct (H3 i Hi Hd) as (A & B & C & D & E & F).
  unfold answers. rewrite E2. done.
Qed.

Lemma hidden_spec n data sec g V sh sh' : fits n data sec g sh -> hidden sh sh' -> forall i, 0 <= i < Z.of_nat n -> data i = true -> unchanged (contents_of V sh) (contents_of V sh') i.
Proof.
  intros [F0 F1 F2 F3] [H1 H2 H3] i Hi _. unfold unchanged. cbn. destruct (H3 i) as (-> & -> & -> & _); [unfold in_stripe; by rewrite F1|]. done.
Qed.

Lemma adds_ok n data sec g V sh i b (forwrite : bool) :
  fits n data sec g sh -> in_stripe sh i -> chain_ok conf (dev_sector (dev sh i)) (if forwrite then towrite (dev sh i) else toread (dev sh i)) -> valid_bio conf sh i b = true ->
  forall sh' ok, add_stripe_bio conf sh b i forwrite false = Some (sh', ok) -> adds n data (contents_of V sh) (contents_of V sh') i b forwrite /\ fits n data sec g sh'.
Proof.
  intros [F0 F1 F2 F3] Hi Hch Hv sh' ok E0. destruct (add_eq conf sh b i forwrite Hi Hch Hv) as (sh'' & E0' & E1 & E2 & _ & _ & _ & _ & E7). rewrite E0 in E0'. injection E0' as <- _.
  assert (forall j, 0 <= j < Z.of_nat n -> in_stripe sh j) as Hin by (intros j Hj; unfold in_stripe; by rewrite F1). split; [split|].
  - intros j Hj _ Hne. unfold unchanged. cbn. rewrite E7 by auto. by rewrite (proj2 (Z.eqb_neq _ _)) by congruence.
  - cbn [c_data c_reads c_writes c_applied contents_of]. rewrite E7, Z.eqb_refl by done. unfold unchanged, added_dev. cbn [c_data c_reads c_writes c_applied contents_of]. rewrite E7, Z.eqb_refl by done. unfold added_dev.
    destruct (chain_overlaps _ _); [done|]. destruct forwrite; [|done]. cbv zeta. by destruct (_ && _).
  - split; [congruence..| |].
    + intros j Hj. rewrite F2 by done. unfold is_parity, pd, qd. by rewrite E1.
    + intros j Hj. rewrite F3, E7 by auto. destruct (i =? j); [|done]. unfold added_dev. destruct (chain_overlaps _ _); [done|]. destruct forwrite; [|done]. cbv zeta. by destruct (_ && _).
Qed.

Lemma in_range_in sh i : in_range sh i = true -> in_stripe sh i.
Proof. unfold in_range. intros [H1%Z.leb_le H2%Z.ltb_lt]%andb_true_iff. done. Qed.

Lemma byte_block_wf p : byte_block conf p = true -> wf_block (size conf) p.
Proof.
  unfold byte_block. intros [H1%Nat.eqb_eq H2]%andb_true_iff. split; [done|]. apply List.Forall_forall. intros x Hx. rewrite forallb_forall in H2. specialize (H2 x Hx). apply andb_true_iff in H2 as [?%Z.leb_le ?%Z.ltb_lt]. done.
Qed.
End Step.

Section Run.
Context (conf : r5conf) (tx : async_tx) {Htx : AsyncTx (size conf) tx} (Hskip : skip_copy conf = false).
Context (n : nat) (data : Z -> bool) (sec : Z -> Z) (g : Raid5Layout.stripe_head).

(** The machine with the blocks [V]. *)
Record sound (m : machine) (V : Z -> block) : Prop := {
  so_inv : inv conf (m_world m) (m_synced m) V;
  so_fits : fits n data sec g (w_sh (m_world m));
}.

Definition shows (m : machine) (V : Z -> block) : contents := contents_of V (w_sh (m_world m)).

(** An event that does not show. *)
Lemma hidden_step w w' synced synced' V :
  sound {| m_world := w; m_synced := synced |} V -> inv conf w' synced' V -> hidden (w_sh w) (w_sh w') ->
  sound {| m_world := w'; m_synced := synced' |} V /\ @nil reply = [] /\
  forall i, 0 <= i < Z.of_nat n -> data i = true -> unchanged (contents_of V (w_sh w)) (contents_of V (w_sh w')) i.
Proof. intros [S1 S2] Hinv Hh. split; [split; [done|by apply (fits_hidden n data sec g (w_sh w))]|]. split; [done|]. by apply (hidden_spec n data sec g). Qed.

Lemma handle_step m V :
  sound m V -> tolerable conf Handle m = true ->
  exists m' V' out, step conf tx Handle m = Some (m', out) /\ sound m' V' /\ handles conf n data sec (shows m V) (shows m' V') out.
Proof.
  intros [Hinv Hfit] [H1%Z.leb_le H2%negb_true_iff]%andb_true_iff. destruct (handle_ok conf tx Hskip (m_world m) (m_synced m) V Hinv H1 H2) as (w' & V' & out & Heq & [D1 D2 D3 D4 D5 _ _]).
  exists {| m_world := w'; m_synced := m_synced m || synced_by out |}, V', out. cbn [step]. rewrite Heq. split; [done|]. destruct Hfit as [F0 F1 F2 F3]. split.
  - split; [done|]. split; cbn [m_world]; [congruence..| |].
    + intros i Hi. rewrite F2 by done. unfold is_parity, pd, qd. by rewrite D2.
    + intros i Hi. rewrite F3 by done. symmetry. apply D4. unfold in_stripe. by rewrite F1.
  - rewrite F1 in D5. eapply handles_ext; [|exact D5]. intros i Hi. split; auto.
Qed.

Lemma step_ok e m V :
  sound m V -> enabled conf e m = true -> tolerable conf e m = true ->
  exists m' V' out, step conf tx e m = Some (m', out) /\ sound m' V' /\ spec_step conf n data sec e (shows m V) (shows m' V') out.
Proof.
  intros Hso Hen Hto. destruct e as [i b fw| |i status junk|i status torn|i|i|i r|i| |md|f v]; [|by apply handle_step|..]; destruct m as [w synced]; pose proof Hso as [Hinv Hfit]; cbn [m_world m_synced] in *;
    pose proof (in_setting _ _ _ _ Hinv) as [_ _ G3 _]; cbn [enabled m_world m_synced] in Hen; cbn [tolerable m_world m_synced] in Hto; unfold shows; cbn [step m_world m_synced spec_step].
  - apply andb_true_iff in Hen as [[Hi%in_range_in Hp%negb_true_iff]%andb_true_iff Hv]. destruct (add_inv conf w i b fw synced V Hinv Hi Hp Hv) as (sh' & ok & E & Hinv'). rewrite E. cbn [mbind option_bind]. eexists _, V, []. split; [reflexivity|].
    destruct (adds_ok conf n data sec g V (w_sh w) i b fw Hfit Hi (inv_chain conf w i fw synced V Hinv Hi) Hv sh' ok E) as [Ha Hf]. split; [by split|done].
  - apply andb_true_iff in Hen as [[Hi%in_range_in Hr]%andb_true_iff Hj%byte_block_wf]. eexists _, V, []. split; [reflexivity|]. apply (hidden_step w _ synced); [done| |apply hidden_end_read; [done|unfold in_stripe in Hi; lia]].
    destruct status; [by apply end_read_ok|apply negb_true_iff in Hto; by apply end_read_failed..].
  - apply andb_true_iff in Hen as [[Hi%in_range_in Hr]%andb_true_iff Hj]. eexists _, V, []. split; [reflexivity|]. apply (hidden_step w _ synced); [done|by apply end_write_inv|]. by apply (hidden_end_write conf i false status (upd_member i false _ w)).
  - eexists _, V, []. split; [reflexivity|]. apply in_range_in in Hen. apply (hidden_step w _ synced); [done|by apply fail_inv|]. destruct (md_error_changes conf i w) as [_ ->]; [unfold in_stripe in Hen; lia|apply hidden_refl].
  - apply andb_true_iff in Hen as [[Hi%in_range_in _]%andb_true_iff Hr]. eexists _, V, []. split; [reflexivity|]. apply (hidden_step w _ synced); [done|apply remove_inv; try done; by destruct (req (dev (w_sh w) i))|apply hidden_refl].
  - apply andb_true_iff in Hen as [[[[[[Hi%in_range_in Hrd]%andb_true_iff Hsy%negb_true_iff]%andb_true_iff _]%andb_true_iff Hin%negb_true_iff]%andb_true_iff Hoff%Z.ltb_lt]%andb_true_iff _].
    apply andb_true_iff in Hto as [Hck Hre%negb_true_iff]. eexists _, V, []. split; [reflexivity|]. apply (hidden_step w _ synced); [done| |apply hidden_refl].
    apply (spare_inv conf w i r synced); try done; [by destruct (rdev (disk w i))|intros ->; rewrite Z.eqb_refl, orb_false_r in Hck; unfold checking; by rewrite Hck].
  - apply andb_true_iff in Hen as [Hi%in_range_in Hs]. eexists _, V, []. split; [reflexivity|]. apply (hidden_step w _ synced); [done|by apply recovered_inv|apply hidden_refl].
  - eexists _, V, []. split; [reflexivity|]. apply (hidden_step w _ synced); [done|by apply update_sb_inv|apply hidden_refl].
  - eexists _, V, []. split; [reflexivity|]. apply (hidden_step w _ synced); [done|by apply (same_blocks_inv conf w)|apply hidden_refl].
  - eexists _, V, []. split; [reflexivity|]. apply (hidden_step w _ synced); [done| |by apply hidden_state; destruct v]. apply (same_blocks_inv conf w); try done; try (by destruct v).
    intros f' Hg. destruct v; destruct (stripe_flag_beq f' f) eqn:E; cbn [w_sh with_sh]; unfold stest; cbn; rewrite ?E; try done; exfalso; by destruct f', f.
Qed.
End Run.
