(* ===== verification/Raid5Theorems.v ===== *)
(** The properties of a stripe of md/raid5.c over any sequence of events, from a stripe that nothing
    happened to yet: no [BUG()] is reached, the stripe implements its specification, requests are
    neither lost nor duplicated, and writes are on the members when they are returned. *)

From S2P Require Import Prelude PageMem Raid5Layout Raid5Stripe Raid5Dev Raid5Ops Raid5Handle Raid5Machine Raid5Data Raid5Soft Raid5Copy Raid5Spec Raid5Promise Raid5OpsCorrect Raid5Write Raid5Inv Raid5Init Raid5Example Raid5Analyse Raid5Decide Raid5Step Raid5Event Raid5Refine.

(** * Runs *)

Definition start (w : world) : machine := {| m_world := w; m_synced := false |}.

(** The data devices of a stripe and the sectors of their blocks. *)
Definition data_of (sh : stripe) (i : Z) : bool := negb (is_parity sh i).
Definition sec_of (sh : stripe) (i : Z) : Z := dev_sector (dev sh i).

(** The request was added. *)
Definition taken_in (r : option (stripe * bool)) : bool := match r with Some (_, ok) => ok | None => false end.

(** The requests that the events add to the device [i] and that are not rejected. *)
Fixpoint accepted (conf : r5conf) (tx : async_tx) (forwrite : bool) (i : Z) (es : list event) (m : machine) : list bio :=
  match es with
  | [] => []
  | e :: es =>
    match e with
    | Add j b fw => if (j =? i) && Bool.eqb fw forwrite && taken_in (add_stripe_bio conf (w_sh (m_world m)) b j fw false) then [b] else []
    | _ => []
    end ++ match step conf tx e m with Some (m, _) => accepted conf tx forwrite i es m | None => [] end
  end.

Section Runs.
Context (conf : r5conf) (tx : async_tx) {Htx : AsyncTx (size conf) tx} (Hskip : skip_copy conf = false).
Context (n : nat) (data : Z -> bool) (sec : Z -> Z) (g : Raid5Layout.stripe_head).

Abbreviation good := (sound conf n data sec g).

Lemma accepted_taken fw i e es m V m' out :
  step conf tx e m = Some (m', out) -> accepted conf tx fw i (e :: es) m = taken fw i e (shows m V) ++ accepted conf tx fw i es m'.
Proof using Type.
  intros E. cbn [accepted]. rewrite E. f_equal. destruct e as [j b fw'| | | | | | | | | |]; try done. cbn [taken shows contents_of c_writes c_reads]. cbn [step] in E. revert E.
  unfold add_stripe_bio, stripe_bio_overlaps. cbv zeta. destruct (chain_overlaps b _); [done|]. by destruct (__add_stripe_bio _ _ _ _ _ _).
Qed.

Lemma run_sound es m V :
  good m V -> tolerable_run conf tx es m = true -> run conf tx es m = Stuck \/
  exists m' V' out, run conf tx es m = Done m' out /\ good m' V' /\ spec_run conf n data sec es (shows m V) (shows m' V') out /\
    forall i, 0 <= i < Z.of_nat n -> data i = true ->
      conserved conf sec i (shows m V) (shows m' V') (accepted conf tx true i es m) (accepted conf tx false i es m) out.
Proof using Htx Hskip.
  revert m V. induction es as [|e es IH]; intros m V Hm; cbn [run tolerable_run].
  - intros _. right. exists m, V, []. split; [done|]. split; [done|]. split; [constructor|]. intros i Hi Hd. by apply conserved_refl.
  - intros [Ht1 Ht2]%andb_true_iff. destruct (enabled conf e m) eqn:He; [|by left]. destruct (step_ok conf tx Hskip n data sec g e m V Hm He Ht1) as (m1 & V1 & out1 & E1 & H1 & S1). rewrite E1 in *.
    destruct (IH m1 V1 H1 Ht2) as [-> |(m2 & V2 & out2 & -> & H2 & S2 & C2)]; [by left|]. right. exists m2, V2, (out1 ++ out2). split; [done|]. split; [done|]. split; [by econstructor|].
    intros i Hi Hd. rewrite !(accepted_taken _ i e es m V m1 out1 E1). eapply conserved_trans; [|by apply C2]. by apply (step_conserved conf n data sec).
Qed.
End Runs.

(** The start of a run. *)
Lemma start_sound conf w V : starts conf w V -> sound conf (disks (w_sh w)) (data_of (w_sh w)) (sec_of (w_sh w)) (geo (w_sh w)) (start w) V.
Proof. intros [S1 S2 S3 S4]. split; [by apply fresh_inv|]. by split. Qed.

Section Reached.
Context (conf : r5conf) (tx : async_tx) {Htx : AsyncTx (size conf) tx} (Hskip : skip_copy conf = false).
Context (w : world) (V : Z -> block) (es : list event) (m : machine) (out : list reply).
Context (Hst : starts conf w V) (Htol : tolerable_run conf tx es (start w) = true) (Hrun : run conf tx es (start w) = Done m out).

Abbreviation sh := (w_sh w).
Abbreviation n := (disks sh).

Lemma reached : exists V', sound conf n (data_of sh) (sec_of sh) (geo sh) m V' /\
  spec_run conf n (data_of sh) (sec_of sh) es (contents_of V sh) (contents_of V' (w_sh (m_world m))) out /\
  forall i, 0 <= i < Z.of_nat n -> data_of sh i = true ->
    conserved conf (sec_of sh) i (contents_of V sh) (contents_of V' (w_sh (m_world m))) (accepted conf tx true i es (start w)) (accepted conf tx false i es (start w)) out.
Proof using Htx Hskip Hst Htol Hrun.
  destruct (run_sound conf tx Hskip n (data_of sh) (sec_of sh) (geo sh) es (start w) V (start_sound _ _ _ Hst) Htol) as [E|(m' & V' & out' & E & H)]; rewrite Hrun in E; [done|]. injection E as <- <-. by exists V'.
Qed.

(** The blocks are those of the start with the writes that were applied. *)
Lemma reached_data V' :
  (forall i, 0 <= i < Z.of_nat n -> data_of sh i = true ->
    conserved conf (sec_of sh) i (contents_of V sh) (contents_of V' (w_sh (m_world m))) (accepted conf tx true i es (start w)) (accepted conf tx false i es (start w)) out) ->
  forall i, 0 <= i < Z.of_nat n -> data_of sh i = true ->
  (exists ws, V' i = apply_bios conf (sec_of sh i) ws (V i) /\ accepted conf tx true i es (start w) ≡ₚ ws ++ towrite (dev (w_sh (m_world m)) i) /\
    ws ≡ₚ writes_in i out ++ written (dev (w_sh (m_world m)) i)) /\
  map bi_id (accepted conf tx false i es (start w)) ≡ₚ map bi_id (reads_in i out) ++ map bi_id (toread (dev (w_sh (m_world m)) i)).
Proof using Hst.
  intros H i Hi Hd. destruct (H i Hi Hd) as [(ws & D & W & A) R]. cbn [contents_of c_data c_reads c_writes c_applied] in *.
  destruct (fr_devs _ _ (st_fresh _ _ _ Hst) i Hi) as [[_ _ (U1 & _ & U3 & U4) _] _]. rewrite U3, app_nil_r in W. rewrite U4, app_nil_l in A. rewrite U1, app_nil_r in R. split; [|done]. by exists ws.
Qed.
End Reached.

(** [V'] are the blocks of the stripe of [m]: the data are those of the start with the writes that
    were returned or are being written, each applied once, and the parity is theirs. *)
Record current (conf : r5conf) (w : world) (V : Z -> block) (m : machine) (out : list reply) (V' : Z -> block) : Prop := {
  cu_enc : encodes conf (geo (w_sh w)) V';
  cu_data i : 0 <= i < Z.of_nat (disks (w_sh w)) -> data_of (w_sh w) i = true ->
    exists ws, V' i = apply_bios conf (sec_of (w_sh w) i) ws (V i) /\ ws ≡ₚ writes_in i out ++ written (dev (w_sh (m_world m)) i);
}.

(** The number of devices whose block cannot be had from their member. *)
Definition unavailable (conf : r5conf) (w : world) : Z :=
  count (fun i => negb (has_block conf (sector (w_sh w)) (rdev (disk w i))) || test_bit R5_WriteError (dev (w_sh w) i) || test_bit R5_ReadError (dev (w_sh w) i))
    (seqZ 0 (Z.of_nat (disks (w_sh w)))).

Lemma lost_unavailable conf w synced V : inv conf w synced V -> lost conf w = unavailable conf w.
Proof.
  intros Hinv. destruct (begins_ok conf w synced V Hinv) as (s & _ & Hb). rewrite <- (bg_failed _ _ _ _ _ _ Hb), (an_cnt _ _ _ (bg_analysis _ _ _ _ _ _ Hb)), (bg_disks _ _ _ _ _ _ Hb).
  apply count_ext. intros i Hi%elem_of_seqZ. cbn [counts]. rewrite (bg_flags _ _ _ _ _ _ Hb) by (unfold in_stripe; rewrite (bg_disks _ _ _ _ _ _ Hb); lia). cbn [seen]. by rewrite !negb_andb, !negb_involutive.
Qed.

Section Given.
Context (conf : r5conf) (tx : async_tx) {Htx : AsyncTx (size conf) tx} (Hskip : skip_copy conf = false).
Context (w : world) (V : Z -> block) (es : list event) (m : machine) (out : list reply).
Context (Hst : starts conf w V) (Htol : tolerable_run conf tx es (start w) = true) (Hrun : run conf tx es (start w) = Done m out).

Abbreviation sh := (w_sh w).
Abbreviation sh' := (w_sh (m_world m)).

Lemma reached_current : exists V', sound conf (disks sh) (data_of sh) (sec_of sh) (geo sh) m V' /\ current conf w V m out V'.
Proof using Htx Hskip Hst Htol Hrun.
  destruct (reached conf tx Hskip w V es m out Hst Htol Hrun) as (V' & Hs & _ & Hc). exists V'. split; [done|]. pose proof Hs as [Hinv [F0 F1 F2 F3]]. split; [rewrite <- F0; by apply (in_enc _ _ _ _ Hinv)|].
  intros i Hi Hd. destruct (reached_data conf tx w V es m out Hst V' Hc i Hi Hd) as [(ws & H1 & _ & H3) _]. by exists ws.
Qed.

End Given.

(** * Properties

    All of them are about one stripe of a RAID-4, 5 or 6 array without replacements.  [starts] says how
    it begins: [init_stripe] has just taken it, and the members that are in sync hold an encoding of some
    data.  Then any sequence of the events of Raid5Machine follows, which has no discards, with two
    conditions: [skip_copy] is off, which it is by default, and [tolerable_run] holds, so that whenever the
    stripe is handled no more blocks are lost than the level allows, and the orders of events that
    Raid5Defects is about do not occur. *)


Section Properties.
Context (conf : r5conf) (tx : async_tx) {Htx : AsyncTx (size conf) tx}.

(** C2. A stripe never reaches a [BUG()] nor submits a request that is in flight: with [skip_copy] off,
    from a stripe that nothing happened to yet and whose members in sync hold an encoding, no sequence
    of requests, completions with or without errors, failures, removals and additions of members,
    recoveries and calls of [handle_stripe], in any order in which the faults are [tolerable], ends in
    one. *)
Theorem stripe_safe w V es : skip_copy conf = false -> starts conf w V -> tolerable_run conf tx es (start w) = true -> run conf tx es (start w) <> Bug.
Proof using Htx.
  intros Hskip Hst Htol E. destruct (run_sound conf tx Hskip _ _ _ _ es (start w) V (start_sound _ _ _ Hst) Htol) as [E'|(m & V' & out & E' & _)]; by rewrite E in E'.
Qed.


(** C8. No request is lost or answered twice in a run with [tolerable] faults and [skip_copy] off: of each
    data device, the writes that were accepted are those returned, those applied and those waiting, each
    once, and the reads that were accepted are those answered and those waiting. *)
Theorem requests_conserved w V es m out i :
  skip_copy conf = false -> starts conf w V -> tolerable_run conf tx es (start w) = true -> run conf tx es (start w) = Done m out ->
  0 <= i < Z.of_nat (disks (w_sh w)) -> data_of (w_sh w) i = true ->
  accepted conf tx true i es (start w) ≡ₚ writes_in i out ++ written (dev (w_sh (m_world m)) i) ++ towrite (dev (w_sh (m_world m)) i) /\
  map bi_id (accepted conf tx false i es (start w)) ≡ₚ map bi_id (reads_in i out) ++ map bi_id (toread (dev (w_sh (m_world m)) i)).
Proof using Htx.
  intros Hskip Hst Htol Hrun Hi Hd. destruct (reached conf tx Hskip w V es m out Hst Htol Hrun) as (V' & _ & _ & Hc). destruct (reached_data conf tx w V es m out Hst V' Hc i Hi Hd) as [(ws & _ & H1 & H2) H3].
  split; [|done]. by rewrite H1, H2, app_assoc.
Qed.





(** C9. The stripe stays well formed: after any run with [tolerable] faults and [skip_copy] off the geometry
    is that of the start, every page is a block of bytes, the chains are requests that touch their block
    in the order of their sectors without overlaps, parity devices have no requests, and a device that
    is locked has a request to its member or is part of an operation. *)
Theorem stripe_well_formed w V es m out :
  skip_copy conf = false -> starts conf w V -> tolerable_run conf tx es (start w) = true -> run conf tx es (start w) = Done m out ->
  setting conf (m_world m) /\ geo (w_sh (m_world m)) = geo (w_sh w) /\ disks (w_sh (m_world m)) = disks (w_sh w) /\
  forall i, 0 <= i < Z.of_nat (disks (w_sh w)) -> let d := dev (w_sh (m_world m)) i in
    device_wf conf (is_parity (w_sh w) i) d /\ dev_sector d = dev_sector (dev (w_sh w) i) /\
    (test_bit R5_LOCKED d = true -> is_Some (req d) \/ busy_ops (w_sh (m_world m)) = true) /\ (is_Some (req d) -> test_bit R5_LOCKED d = true).
Proof using Htx.
  intros Hskip Hst Htol Hrun. destruct (reached_current conf tx Hskip w V es m out Hst Htol Hrun) as (V1 & [Hinv [F0 F1 F2 F3]] & _). split; [by apply (in_setting _ _ _ _ Hinv)|]. split; [done|]. split; [done|].
  intros i Hi. assert (is_parity (w_sh w) i = is_parity (w_sh (m_world m)) i) as -> by (unfold is_parity, pd, qd; by rewrite F0).
  destruct (in_dev _ _ _ _ Hinv i) as [st [[D1 _ _ _ D5 _ D7 _ _ _ _] I2 _ _ _ _]]; [by rewrite F1|]. cbv zeta. split; [done|]. split; [symmetry; by apply F3|].
  destruct st as [|o| | |]; try done; injection D5 as E1 E2 _ _; rewrite E1, E2.
  - by split; [|intros [? ?]].
  - split; [by left; eexists|done].
  - split; [|done]. intros _. right. destruct D7 as [D7 _]. specialize (D7 eq_refl). by apply andb_true_iff in D7 as [? _].
Qed.
End Properties.

(** C16. [init_stripe] starts a stripe: on an unused stripe of the cache it succeeds, P, Q and the data
    are on different disks, the sectors of its data devices are the sectors of the array that are
    placed there, and with members that hold an encoding of some data it is a stripe that nothing
    happened to yet. *)
Theorem init_stripe_starts conf lc previous sh sect :
  layout_of conf lc previous -> in_array conf lc previous sect -> unused_stripe conf sh -> conf_disks lc previous <= Z.of_nat (length (devs sh)) ->
  exists sh', init_stripe lc sh sect previous = Some sh' /\ sector sh' = sect /\
    (forall i, 0 <= i < Z.of_nat (disks sh') -> data_of sh' i = true ->
      exists idx, raid5_compute_sector lc (sec_of sh' i) previous = Some (sect, idx) /\ dd_idx idx = i /\ pd_idx idx = pd sh' /\ qd_idx idx = qd sh') /\
    forall w V, w_sh w = sh' -> members_of w -> encodes conf (geo sh') V -> holds conf w V -> starts conf w V.
Proof.
  intros Hl Hi Hu Hd. destruct (init_stripe_fresh conf lc previous sh sect Hl Hi Hu Hd) as (sh' & E & _ & _ & Hs & _ & _ & Hdat). exists sh'. split; [done|]. split; [done|]. split.
  - intros i Hr Hp. apply Hdat; [done|]. by apply negb_true_iff.
  - intros w V Hw Hm He Hh. by apply (init_starts conf lc previous sh sect sh').
Qed.

(** * Witnesses *)

Definition ex_run (es : list event) : outcome := run ex_conf soft_tx es (start ex_world).
Definition final (o : outcome) : machine := match o with Done m _ => m | _ => start ex_world end.
Definition replied (o : outcome) : list reply := match o with Done _ out => out | _ => [] end.
Definition is_done (o : outcome) : bool := match o with Done _ _ => true | _ => false end.

Lemma done_eq o : is_done o = true -> o = Done (final o) (replied o).
Proof. by destruct o. Qed.



(** The block of the disk 1 is written: the block of the disk 2 is read for it. *)
Definition ex_write : list event :=
  [Add 1 (ex_bio 1 3 77) true; Stripe_bit STRIPE_PREREAD_ACTIVE true; Handle; End_read 2 BLK_STS_OK (ex_block 0); Handle; Handle;
   End_write 0 BLK_STS_OK (ex_block 0); End_write 1 BLK_STS_OK (ex_block 0); End_write 3 BLK_STS_OK (ex_block 0)].


(** The disk 2 is replaced by a spare that is recovered. *)
Definition ex_spare : md_rdev :=
  {| Faulty := false; In_sync := false; WriteErrorSeen := false; WantReplacement := false; Blocked := false; bad := Good; bb_room := true;
     recovery_offset := 0; read_errors := 0; stored := ex_block 0 |}.

Definition ex_resync : list event :=
  [Fail 2; Update_sb; Remove 2; Spare 2 ex_spare; Stripe_bit STRIPE_SYNC_REQUESTED true; Handle; End_read 0 BLK_STS_OK (ex_block 0);
   End_read 1 BLK_STS_OK (ex_block 0); End_read 3 BLK_STS_OK (ex_block 0); Handle; Handle; Handle; Handle; End_write 2 BLK_STS_OK (ex_block 0)].

Lemma ex_write_tolerable : tolerable_run ex_conf soft_tx ex_write (start ex_world) = true.
Proof. by vm_compute. Qed.

Lemma ex_write_done : run ex_conf soft_tx ex_write (start ex_world) = Done (final (ex_run ex_write)) (replied (ex_run ex_write)).
Proof. unfold ex_run. apply done_eq. by vm_compute. Qed.



Lemma ex_resync_tolerable : tolerable_run ex_conf soft_tx ex_resync (start ex_world) = true.
Proof. by vm_compute. Qed.

Lemma ex_resync_done : run ex_conf soft_tx ex_resync (start ex_world) = Done (final (ex_run ex_resync)) (replied (ex_run ex_resync)).
Proof. unfold ex_run. apply done_eq. by vm_compute. Qed.




Lemma stripe_safe_witness : run ex_conf soft_tx ex_write (start ex_world) <> Bug.
Proof. apply (stripe_safe ex_conf soft_tx ex_world ex_V ex_write); [reflexivity|exact ex_starts|exact ex_write_tolerable]. Defined.


Lemma requests_conserved_witness :
  accepted ex_conf soft_tx true 1 ex_write (start ex_world) ≡ₚ writes_in 1 (replied (ex_run ex_write)) ++ written (dev (w_sh (m_world (final (ex_run ex_write)))) 1) ++ towrite (dev (w_sh (m_world (final (ex_run ex_write)))) 1).
Proof.
  destruct (requests_conserved ex_conf soft_tx ex_world ex_V ex_write (final (ex_run ex_write)) (replied (ex_run ex_write)) 1 eq_refl ex_starts ex_write_tolerable ex_write_done) as [H _]; [split; [discriminate|reflexivity]|reflexivity|exact H].
Defined.





Lemma stripe_well_formed_witness : setting ex_conf (m_world (final (ex_run ex_resync))).
Proof. exact (proj1 (stripe_well_formed ex_conf soft_tx ex_world ex_V ex_resync (final (ex_run ex_resync)) (replied (ex_run ex_resync)) eq_refl ex_starts ex_resync_tolerable ex_resync_done)). Defined.

Lemma init_stripe_starts_witness : exists sh', init_stripe ex_layout ex_unused 3 false = Some sh' /\ sector sh' = 3.
Proof.
  destruct (init_stripe_starts ex_conf ex_layout false ex_unused 3 ex_layout_of ex_in_array ex_unused_ok) as (sh' & H1 & H2 & _); [discriminate|]. exists sh'. exact (conj H1 H2).
Defined.
