(* ===== verification/Raid5Defects.v ===== *)
(** What the stripe of md/raid5.c does outside of what its properties assume (Raid5Theorems): runs that
    [tolerable] of Raid5Machine leaves out, and writes without a copy. *)

From S2P Require Import Prelude PageMem Raid5Layout Raid5Stripe Raid5Dev Raid5Ops Raid5Handle Raid5Machine Raid5Data Raid5Soft Raid5Copy Raid5Init Raid5Example Raid5Theorems.

(** * A repair while the rewrite is in flight *)

(** The requests that the next [handle_stripe] is going to submit. *)
Definition next_resubmits (conf : r5conf) (w : world) : option bool :=
  let sh := start_sync (sset STRIPE_ACTIVE (sclear STRIPE_BATCH_READY (sclear STRIPE_HANDLE (w_sh w)))) in
  '(sh, s) ← analyse_stripe conf (with_sh sh w);
  '(w, sh, s, _) ← decide_stripe conf w sh s;
  Some (resubmits w sh).

Definition ex_requested : mddev :=
  {| recovery_cp := MaxSector; MD_SB_CHANGE_PENDING := false; MD_RECOVERY_REQUESTED := true; MD_RECOVERY_CHECK := false;
     MD_RECOVERY_RECOVER := false; MD_RECOVERY_INTR := false; MD_BROKEN := false; ro := false; degraded := 0 |}.

(** The stripe is synchronised, and Q cannot be read. *)
Definition ex_q_unread : list event :=
  [Array ex_requested; Stripe_bit STRIPE_SYNC_REQUESTED true; Handle; End_read 0 BLK_STS_IOERR (ex_block 0); Handle; End_read 0 BLK_STS_IOERR (ex_block 0);
   End_read 1 BLK_STS_OK (ex_block 0); End_read 2 BLK_STS_OK (ex_block 0); End_read 3 BLK_STS_OK (ex_block 0); Handle; Handle; Handle].

(** A RAID-6 stripe whose Q cannot be read is synchronised: Q is computed and rewritten, the check of P
    ends with [check_state_compute_result], and the next [handle_stripe] decides to write Q once more
    and submits its request while the rewrite is in flight. *)
Theorem repair_resubmits :
  exists m out, run ex_conf soft_tx ex_q_unread (start ex_world) = Done m out /\ check_state (w_sh (m_world m)) = check_state_compute_result /\
    req (dev (w_sh (m_world m)) 0) = Some WRITE /\ next_resubmits ex_conf (m_world m) = Some true.
Proof.
  set (o := run ex_conf soft_tx ex_q_unread (start ex_world)). exists (final o), (replied o). split; [apply done_eq; by vm_compute|]. split; [by vm_compute|]. split; by vm_compute.
Qed.

(** * A block that is read back *)

(** The block of the disk 1 cannot be read.  It is written, which the read error has to wait for. *)
Definition ex_unread : list event :=
  [Add 1 (ex_bio 1 3 0) false; Handle; End_read 1 BLK_STS_IOERR (ex_block 0); Handle; End_read 1 BLK_STS_IOERR (ex_block 0);
   Add 1 (ex_bio 2 3 77) true; Stripe_bit STRIPE_PREREAD_ACTIVE true; Handle; End_read 2 BLK_STS_OK (ex_block 0); End_read 3 BLK_STS_OK (ex_block 0);
   End_read 0 BLK_STS_OK (ex_block 0); Handle; Handle].

(** The write is over, the block is rewritten and read back, which fails.  Then the block of the disk 2
    is written. *)
Definition ex_stale_overwrite : list event :=
  ex_unread ++ [End_write 0 BLK_STS_OK (ex_block 0); End_write 1 BLK_STS_OK (ex_block 0); End_write 3 BLK_STS_OK (ex_block 0); Handle; End_write 1 BLK_STS_OK (ex_block 0);
   Handle; End_read 1 BLK_STS_IOERR (ex_block 99); Add 2 (ex_bio 3 11 55) true; Handle; Handle; End_write 0 BLK_STS_OK (ex_block 0); End_write 2 BLK_STS_OK (ex_block 0);
   End_write 3 BLK_STS_OK (ex_block 0); Handle].

(** A page that a failing read has spoilt goes into the parity: [R5_OVERWRITE] is still set from a write
    that was returned, so that the block is not read, or computed, when another block is written.  All
    writes are returned without an error, and P is not the sum of the data. *)
Theorem reread_spoils_parity :
  exists m out, run ex_conf soft_tx ex_stale_overwrite (start ex_world) = Done m out /\
    out = [Read_done 1 (ex_bio 1 3 77); Write_done 1 (ex_bio 2 3 77); Write_done 2 (ex_bio 3 11 55)] /\
    stored_at 1 (m_world m) = ex_block 77 /\ stored_at 2 (m_world m) = ex_block 55 /\ stored_at 3 (m_world m) = ex_block (99 ⊕ 55).
Proof.
  set (o := run ex_conf soft_tx ex_stale_overwrite (start ex_world)). exists (final o), (replied o). split; [apply done_eq; by vm_compute|].
  split; [by vm_compute|]. split; [by vm_compute|]. split; by vm_compute.
Qed.

(** The block is on its member before the parity is, it is rewritten and read back, which fails.  Then
    it is written again. *)
Definition ex_stuck : list event :=
  ex_unread ++ [End_write 1 BLK_STS_OK (ex_block 0); Handle; End_write 1 BLK_STS_OK (ex_block 0); Handle; End_read 1 BLK_STS_IOERR (ex_block 99);
   End_write 0 BLK_STS_OK (ex_block 0); End_write 3 BLK_STS_OK (ex_block 0); Handle; Add 1 (ex_bio 3 3 55) true].

(** A write whose block is not up to date any more is not returned, though it is on all members, and the
    next write to the block ends in [BUG_ON(dev->written)]. *)
Theorem reread_strands_write :
  (exists m out, run ex_conf soft_tx ex_stuck (start ex_world) = Done m out /\ out = [Read_done 1 (ex_bio 1 3 77)] /\
    written (dev (w_sh (m_world m)) 1) = [ex_bio 2 3 77] /\ any_flag R5_LOCKED (w_sh (m_world m)) = false) /\
  run ex_conf soft_tx (ex_stuck ++ [Handle]) (start ex_world) = Bug.
Proof.
  split; [|by vm_compute]. set (o := run ex_conf soft_tx ex_stuck (start ex_world)). exists (final o), (replied o). split; [apply done_eq; by vm_compute|]. split; [by vm_compute|]. split; by vm_compute.
Qed.

(** * Writing without a copy *)

Definition ex_skip : r5conf :=
  {| level := 6; max_degraded := 2; conf_rmw_level := PARITY_ENABLE_RMW; skip_copy := true; max_nr_stripes := 256;
     has_bitmap := false; RAID5_STRIPE_SECTORS := 1 |}.

(** The block of the disk 1 is written from the page of the request.  It is read after its own write
    is done and before those of the parity are, and once more after the write is returned. *)
Definition ex_stale : list event :=
  [Add 1 (ex_bio 1 3 77) true; Stripe_bit STRIPE_PREREAD_ACTIVE true; Handle; End_read 2 BLK_STS_OK (ex_block 0); Handle; Handle;
   End_write 1 BLK_STS_OK (ex_block 0); Add 1 (ex_bio 2 3 0) false; Handle; End_read 1 BLK_STS_OK (ex_block 0); Handle;
   End_write 0 BLK_STS_OK (ex_block 0); End_write 3 BLK_STS_OK (ex_block 0); Handle; Add 1 (ex_bio 3 3 0) false; Handle].

(** With [skip_copy] a read can return what the stripe cache held before a write: the block is read
    into the page of the request while the parity is being written, which makes it up to date; the
    write is returned and the device goes back to its own page, whose old content is then served,
    though the member stores the new one. *)
Theorem skip_copy_stale :
  exists m out, run ex_skip soft_tx ex_stale (start ex_world) = Done m out /\
    out = [Read_done 1 (ex_bio 2 3 77); Write_done 1 (ex_bio 1 3 77); Read_done 1 (ex_bio 3 3 0)] /\ stored_at 1 (m_world m) = ex_block 77.
Proof.
  set (o := run ex_skip soft_tx ex_stale (start ex_world)). exists (final o), (replied o). split; [apply done_eq; by vm_compute|]. split; by vm_compute.
Qed.
