(* ===== verification/Raid5Cache.v ===== *)
(** The stripe cache of md/raid5.c: the reference counts of the stripes, the lists they are on and
    the locks that protect the lists, with the threads that look stripes up, release them, plug
    them and handle them interleaved at every access that is not covered by a lock.

    A stripe is a number; [lru] says which list the node [sh->lru] is linked into.  Linking a node
    that is on a list, using a stripe that is freed, changing a list or the counters of a worker
    group without the lock that protects it, and every [BUG_ON] of the code end in [Bug].

    The sections of [release_inactive_stripe_list], [find_get_stripe], [get_free_stripe] and of the
    functions that run under [device_lock] are atomic steps where all they touch is covered by the
    locks they hold; the updates of [count] and the flags that other threads change concurrently
    are steps of their own.  What the handlers do with a stripe they hold is arbitrary ([Work]), and
    so are the counters and flags in [misc], which may change at any time ([Config_change]): the
    increment of [max_nr_stripes] that follows the release in [grow_one_stripe] is made with the
    allocation.  A function that its callers call under [device_lock] takes and drops the lock here,
    which allows more interleavings than the code has.  The releases that [raid5_get_active_stripe] (of
    [ctx->batch_last]) and [r5c_flush_stripe] make with a lock held are [Release] steps of their own;
    [release_lockless] of Raid5CacheTheorems shows that they need no lock.

    Outside of the model: the assertions on what the handlers leave in a stripe
    ([stripe_operations_active], [batch_head], pending requests), wake-ups of threads and wait
    queues, and the journal's reclaim. *)

From S2P Require Import Prelude.

Definition NR_STRIPE_HASH_LOCKS : nat := 32.
Definition STRIPE_HASH_LOCKS_MASK : Z := Z.of_nat NR_STRIPE_HASH_LOCKS - 1.
Definition IO_THRESHOLD : Z := 1.
Definition MAX_STRIPE_BATCH : Z := 8.

(** * Outcomes *)

(** A step goes on, has to wait, or is an error that the kernel reports or does not survive. *)
Inductive outcome (A : Type) :=
| Next (a : A)
| Block
| Bug.
Arguments Next {A} a.
Arguments Block {A}.
Arguments Bug {A}.

Definition obind {A B} (o : outcome A) (f : A -> outcome B) : outcome B :=
  match o with Next a => f a | Block => Block | Bug => Bug end.

Declare Scope outcome_scope.
Notation "x <- o ; k" := (obind o (fun x => k)) (at level 100, o at next level, right associativity) : outcome_scope.
Notation "'bug_on' c ; k" := (if c then Bug else k) (at level 100, c at next level, right associativity) : outcome_scope.
Open Scope outcome_scope.

(** * Stripes *)

Inductive stripe_bit :=
| STRIPE_HANDLE | STRIPE_SYNC_REQUESTED | STRIPE_PREREAD_ACTIVE | STRIPE_DELAYED | STRIPE_BIT_DELAY
| STRIPE_EXPANDING | STRIPE_IO_STARTED | STRIPE_ON_UNPLUG_LIST | STRIPE_ON_RELEASE_LIST
| STRIPE_ON_INACTIVE_LIST | STRIPE_BATCH_READY | STRIPE_R5C_CACHING | STRIPE_R5C_PARTIAL_STRIPE
| STRIPE_R5C_FULL_STRIPE.

#[global] Instance stripe_bit_eq : EqDecision stripe_bit.
Proof. solve_decision. Defined.

(** The lists that [sh->lru] can be on.  [temp_inactive_list t h] is the one of a thread for a hash,
    [local_list] the list on the stack of [raid5_release_stripe], [plug_list] the one of a plug,
    and [bit_head] the list on the stack of [activate_bit_delay]. *)
Inductive lru_list :=
| handle_list | loprio_list | hold_list | delayed_list | bitmap_list | bit_head
| r5c_full_stripe_list | r5c_partial_stripe_list
| group_handle (g : nat) | group_loprio (g : nat)
| inactive_list (h : nat)
| temp_inactive_list (t h : nat)
| local_list (t h : nat)
| plug_list (t : nat).

#[global] Instance lru_list_eq : EqDecision lru_list.
Proof. solve_decision. Defined.

Record stripe_head := StripeHead {
  sector : Z;
  generation : Z;
  hashed : bool;
  hash_lock_index : nat;
  count : nat;
  lru : option lru_list;
  state : stripe_bit -> bool;
  cpu : nat;
  group : option nat;
  bm_seq : Z;
  injournal : nat;
}.

Definition set_count (n : nat) (s : stripe_head) : stripe_head :=
  StripeHead (sector s) (generation s) (hashed s) (hash_lock_index s) n (lru s) (state s) (cpu s) (group s) (bm_seq s) (injournal s).
Definition set_lru (l : option lru_list) (s : stripe_head) : stripe_head :=
  StripeHead (sector s) (generation s) (hashed s) (hash_lock_index s) (count s) l (state s) (cpu s) (group s) (bm_seq s) (injournal s).
Definition set_state (f : stripe_bit -> bool) (s : stripe_head) : stripe_head :=
  StripeHead (sector s) (generation s) (hashed s) (hash_lock_index s) (count s) (lru s) f (cpu s) (group s) (bm_seq s) (injournal s).
Definition set_group (g : option nat) (s : stripe_head) : stripe_head :=
  StripeHead (sector s) (generation s) (hashed s) (hash_lock_index s) (count s) (lru s) (state s) (cpu s) g (bm_seq s) (injournal s).
Definition set_cpu (c : nat) (s : stripe_head) : stripe_head :=
  StripeHead (sector s) (generation s) (hashed s) (hash_lock_index s) (count s) (lru s) (state s) c (group s) (bm_seq s) (injournal s).
Definition set_hash (sect gen : Z) (h : bool) (s : stripe_head) : stripe_head :=
  StripeHead sect gen h (hash_lock_index s) (count s) (lru s) (state s) (cpu s) (group s) (bm_seq s) (injournal s).
Definition set_work (seq : Z) (n : nat) (s : stripe_head) : stripe_head :=
  StripeHead (sector s) (generation s) (hashed s) (hash_lock_index s) (count s) (lru s) (state s) (cpu s) (group s) seq n.

Definition put_bit (b : stripe_bit) (v : bool) (s : stripe_head) : stripe_head :=
  set_state (fun b' => if decide (b' = b) then v else state s b') s.
Abbreviation set_bit b := (put_bit b true).
Abbreviation clear_bit b := (put_bit b false).

Definition stripe_is_lowprio (s : stripe_head) : bool :=
  (state s STRIPE_R5C_FULL_STRIPE || state s STRIPE_R5C_PARTIAL_STRIPE) && negb (state s STRIPE_R5C_CACHING).

(** * Threads *)

(** What a thread that holds [device_lock] does after the stripe at hand: nothing more, the rest of
    the stripes that [release_stripe_list] took, the rest of [bit_head], or, in the slow path of
    [raid5_release_stripe], the release of its list for the hash lock [h]. *)
Inductive cont :=
| KDone
| KDrain (todo : list nat)
| KBit
| KSlow (h : nat).

(** The flags of [raid5_get_active_stripe]. *)
Record gas := Gas { gas_previous : bool; gas_noblock : bool; gas_noquiesce : bool }.

Inductive pc :=
| Idle
| RelStart (sh : nat)                (* raid5_release_stripe: before atomic_add_unless *)
| RelLast (sh : nat)                 (* atomic_add_unless left the last reference *)
| RelAdd (sh : nat)                  (* STRIPE_ON_RELEASE_LIST is set: before llist_add *)
| RelSlow (sh : nat)                 (* slow_path: before atomic_dec_and_lock *)
| Locked (k : cont)                  (* device_lock is held *)
| Put (sh : nat) (k : cont)          (* __release_stripe: before atomic_dec_and_test *)
| Do (sh : nat) (k : cont)           (* the count is zero: before do_release_stripe *)
| Splice (hashes : list nat)         (* release_inactive_stripe_list for the temp_inactive_list *)
| SpliceLocal (h : nat)              (* the same for the list on the stack *)
| FindZero (sh h : nat)              (* find_get_stripe: atomic_inc_not_zero found 0 *)
| FindFast (sh h : nat)              (* STRIPE_ON_INACTIVE_LIST was set and the count 0 *)
| FindSlow (sh h : nat)              (* before spin_lock(&conf->device_lock) *)
| WaitStripe (sect : Z) (flags : gas) (quiescing : bool)
                                     (* waits for an inactive stripe, or for the end of quiesce *)
| PlugAdd (sh : nat)                 (* release_stripe_plug: STRIPE_ON_UNPLUG_LIST is set *)
| UnplugClear (sh : nat).            (* raid5_unplug: off the list, STRIPE_ON_UNPLUG_LIST still set *)

(** * State *)

(** The counters and flags of [struct r5conf] that no list depends on. *)
Record misc := Misc {
  preread_active_stripes : Z;
  r5c_cached_full_stripes : Z;
  r5c_cached_partial_stripes : Z;
  r5c_flushing_full_stripes : Z;
  r5c_flushing_partial_stripes : Z;
  working : nat -> nat -> bool;      (* of worker [i] of group [g] *)
  max_nr_stripes : nat;
  conf_generation : Z;
  seq_write : Z;
  quiesce : bool;
  pending_full_writes : Z;
  bypass_count : Z;
  last_hold : option nat;
  R5_INACTIVE_BLOCKED : bool;
  R5_ALLOC_MORE : bool;
  R5_DID_ALLOC : bool;
  R5C_LOG_TIGHT : bool;
}.

(** [users sh] is the number of references to [sh] that requests, handlers and batches hold. *)
Record cache := Cache {
  stripes : gmap nat stripe_head;
  lists : lru_list -> list nat;
  released_stripes : list nat;
  active_stripes : Z;
  empty_inactive_list_nr : Z;
  stripes_cnt : nat -> Z;
  device_lock : option nat;
  hash_locks : nat -> option nat;
  threads : list pc;
  users : nat -> nat;
  other : misc;
}.

Definition with_stripes (v : gmap nat stripe_head) (st : cache) : cache :=
  Cache v (lists st) (released_stripes st) (active_stripes st) (empty_inactive_list_nr st) (stripes_cnt st) (device_lock st) (hash_locks st) (threads st) (users st) (other st).
Definition with_lists (v : lru_list -> list nat) (st : cache) : cache :=
  Cache (stripes st) v (released_stripes st) (active_stripes st) (empty_inactive_list_nr st) (stripes_cnt st) (device_lock st) (hash_locks st) (threads st) (users st) (other st).
Definition with_released (v : list nat) (st : cache) : cache :=
  Cache (stripes st) (lists st) v (active_stripes st) (empty_inactive_list_nr st) (stripes_cnt st) (device_lock st) (hash_locks st) (threads st) (users st) (other st).
Definition with_active (v : Z) (st : cache) : cache :=
  Cache (stripes st) (lists st) (released_stripes st) v (empty_inactive_list_nr st) (stripes_cnt st) (device_lock st) (hash_locks st) (threads st) (users st) (other st).
Definition with_empty_nr (v : Z) (st : cache) : cache :=
  Cache (stripes st) (lists st) (released_stripes st) (active_stripes st) v (stripes_cnt st) (device_lock st) (hash_locks st) (threads st) (users st) (other st).
Definition with_stripes_cnt (v : nat -> Z) (st : cache) : cache :=
  Cache (stripes st) (lists st) (released_stripes st) (active_stripes st) (empty_inactive_list_nr st) v (device_lock st) (hash_locks st) (threads st) (users st) (other st).
Definition with_device_lock (v : option nat) (st : cache) : cache :=
  Cache (stripes st) (lists st) (released_stripes st) (active_stripes st) (empty_inactive_list_nr st) (stripes_cnt st) v (hash_locks st) (threads st) (users st) (other st).
Definition with_hash_locks (v : nat -> option nat) (st : cache) : cache :=
  Cache (stripes st) (lists st) (released_stripes st) (active_stripes st) (empty_inactive_list_nr st) (stripes_cnt st) (device_lock st) v (threads st) (users st) (other st).
Definition with_threads (v : list pc) (st : cache) : cache :=
  Cache (stripes st) (lists st) (released_stripes st) (active_stripes st) (empty_inactive_list_nr st) (stripes_cnt st) (device_lock st) (hash_locks st) v (users st) (other st).
Definition with_users (v : nat -> nat) (st : cache) : cache :=
  Cache (stripes st) (lists st) (released_stripes st) (active_stripes st) (empty_inactive_list_nr st) (stripes_cnt st) (device_lock st) (hash_locks st) (threads st) v (other st).
Definition with_other (v : misc) (st : cache) : cache :=
  Cache (stripes st) (lists st) (released_stripes st) (active_stripes st) (empty_inactive_list_nr st) (stripes_cnt st) (device_lock st) (hash_locks st) (threads st) (users st) v.
Definition add_preread (n : Z) (st : cache) : cache :=
  let o := other st in
  with_other (Misc (preread_active_stripes o + n) (r5c_cached_full_stripes o) (r5c_cached_partial_stripes o)
    (r5c_flushing_full_stripes o) (r5c_flushing_partial_stripes o) (working o) (max_nr_stripes o)
    (conf_generation o) (seq_write o) (quiesce o) (pending_full_writes o) (bypass_count o) (last_hold o)
    (R5_INACTIVE_BLOCKED o) (R5_ALLOC_MORE o) (R5_DID_ALLOC o) (R5C_LOG_TIGHT o)) st.
Definition add_r5c_cached (n k : Z) (st : cache) : cache :=
  let o := other st in
  with_other (Misc (preread_active_stripes o) (r5c_cached_full_stripes o + n) (r5c_cached_partial_stripes o + k)
    (r5c_flushing_full_stripes o) (r5c_flushing_partial_stripes o) (working o) (max_nr_stripes o)
    (conf_generation o) (seq_write o) (quiesce o) (pending_full_writes o) (bypass_count o) (last_hold o)
    (R5_INACTIVE_BLOCKED o) (R5_ALLOC_MORE o) (R5_DID_ALLOC o) (R5C_LOG_TIGHT o)) st.
Definition add_r5c_flushing (n k : Z) (st : cache) : cache :=
  let o := other st in
  with_other (Misc (preread_active_stripes o) (r5c_cached_full_stripes o) (r5c_cached_partial_stripes o)
    (r5c_flushing_full_stripes o + n) (r5c_flushing_partial_stripes o + k) (working o) (max_nr_stripes o)
    (conf_generation o) (seq_write o) (quiesce o) (pending_full_writes o) (bypass_count o) (last_hold o)
    (R5_INACTIVE_BLOCKED o) (R5_ALLOC_MORE o) (R5_DID_ALLOC o) (R5C_LOG_TIGHT o)) st.
Definition with_working (v : nat -> nat -> bool) (st : cache) : cache :=
  let o := other st in
  with_other (Misc (preread_active_stripes o) (r5c_cached_full_stripes o) (r5c_cached_partial_stripes o)
    (r5c_flushing_full_stripes o) (r5c_flushing_partial_stripes o) v (max_nr_stripes o) (conf_generation o)
    (seq_write o) (quiesce o) (pending_full_writes o) (bypass_count o) (last_hold o) (R5_INACTIVE_BLOCKED o)
    (R5_ALLOC_MORE o) (R5_DID_ALLOC o) (R5C_LOG_TIGHT o)) st.
Definition with_max_nr_stripes (v : nat) (st : cache) : cache :=
  let o := other st in
  with_other (Misc (preread_active_stripes o) (r5c_cached_full_stripes o) (r5c_cached_partial_stripes o)
    (r5c_flushing_full_stripes o) (r5c_flushing_partial_stripes o) (working o) v (conf_generation o)
    (seq_write o) (quiesce o) (pending_full_writes o) (bypass_count o) (last_hold o) (R5_INACTIVE_BLOCKED o)
    (R5_ALLOC_MORE o) (R5_DID_ALLOC o) (R5C_LOG_TIGHT o)) st.
Definition with_bypass (v : Z) (l : option nat) (st : cache) : cache :=
  let o := other st in
  with_other (Misc (preread_active_stripes o) (r5c_cached_full_stripes o) (r5c_cached_partial_stripes o)
    (r5c_flushing_full_stripes o) (r5c_flushing_partial_stripes o) (working o) (max_nr_stripes o)
    (conf_generation o) (seq_write o) (quiesce o) (pending_full_writes o) v l (R5_INACTIVE_BLOCKED o)
    (R5_ALLOC_MORE o) (R5_DID_ALLOC o) (R5C_LOG_TIGHT o)) st.
Definition with_inactive_blocked (v : bool) (st : cache) : cache :=
  let o := other st in
  with_other (Misc (preread_active_stripes o) (r5c_cached_full_stripes o) (r5c_cached_partial_stripes o)
    (r5c_flushing_full_stripes o) (r5c_flushing_partial_stripes o) (working o) (max_nr_stripes o)
    (conf_generation o) (seq_write o) (quiesce o) (pending_full_writes o) (bypass_count o) (last_hold o) v
    (R5_ALLOC_MORE o) (R5_DID_ALLOC o) (R5C_LOG_TIGHT o)) st.
Definition with_alloc_more (v : bool) (st : cache) : cache :=
  let o := other st in
  with_other (Misc (preread_active_stripes o) (r5c_cached_full_stripes o) (r5c_cached_partial_stripes o)
    (r5c_flushing_full_stripes o) (r5c_flushing_partial_stripes o) (working o) (max_nr_stripes o)
    (conf_generation o) (seq_write o) (quiesce o) (pending_full_writes o) (bypass_count o) (last_hold o)
    (R5_INACTIVE_BLOCKED o) v (R5_DID_ALLOC o) (R5C_LOG_TIGHT o)) st.

Definition fupd {A} (f : nat -> A) (i : nat) (v : A) : nat -> A := fun j => if (j =? i)%nat then v else f j.

Definition add_active (n : Z) (st : cache) : cache := with_active (active_stripes st + n) st.
Definition add_empty_nr (n : Z) (st : cache) : cache := with_empty_nr (empty_inactive_list_nr st + n) st.
Definition add_stripes_cnt (g : nat) (n : Z) (st : cache) : cache :=
  with_stripes_cnt (fupd (stripes_cnt st) g (stripes_cnt st g + n)) st.
Definition go (t : nat) (p : pc) (st : cache) : cache := with_threads (<[t := p]> (threads st)) st.
Definition lock_hash (t h : nat) (st : cache) : cache := with_hash_locks (fupd (hash_locks st) h (Some t)) st.
Definition unlock_hash (h : nat) (st : cache) : cache := with_hash_locks (fupd (hash_locks st) h None) st.
Definition upd_list (f : lru_list -> list nat) (L : lru_list) (l : list nat) : lru_list -> list nat :=
  fun L' => if decide (L' = L) then l else f L'.

(** A stripe in use; a freed one must not be touched. *)
Definition stripe (st : cache) (sh : nat) : outcome stripe_head :=
  match stripes st !! sh with Some s => Next s | None => Bug end.
Definition upd_stripe (sh : nat) (f : stripe_head -> stripe_head) (st : cache) : cache :=
  with_stripes (alter f sh (stripes st)) st.

(** A reference is taken by, and given up by, a user. *)
Definition get_ref (sh : nat) (st : cache) : cache :=
  with_users (fupd (users st) sh (S (users st sh))) (upd_stripe sh (fun s => set_count (S (count s)) s) st).
Definition drop_user (sh : nat) (st : cache) : cache := with_users (fupd (users st) sh (users st sh - 1)%nat) st.

(** * Lists *)

(** The locks that a thread needs to change a list.  To a [temp_inactive_list] its owner adds under
    [device_lock] and takes from it under the hash lock; another thread needs both. *)
Definition may_write (st : cache) (t : nat) (L : lru_list) : bool :=
  let dev := bool_decide (device_lock st = Some t) in
  let hash h := bool_decide (hash_locks st h = Some t) in
  match L with
  | inactive_list h => hash h
  | temp_inactive_list t' h | local_list t' h => if (t =? t')%nat then dev || hash h else dev && hash h
  | plug_list t' => (t =? t')%nat
  | _ => dev
  end.

Definition list_add_tail (t sh : nat) (L : lru_list) (st : cache) : outcome cache :=
  s <- stripe st sh;
  bug_on bool_decide (is_Some (lru s));
  bug_on negb (may_write st t L);
  Next (upd_stripe sh (set_lru (Some L)) (with_lists (upd_list (lists st) L (lists st L ++ [sh])) st)).

(** Of a node that is on no list it does nothing. *)
Definition list_del_init (t sh : nat) (st : cache) : outcome cache :=
  s <- stripe st sh;
  match lru s with
  | None => Next st
  | Some L =>
      bug_on negb (may_write st t L);
      Next (upd_stripe sh (set_lru None) (with_lists (upd_list (lists st) L (filter (fun i => i <> sh) (lists st L))) st))
  end.

Definition is_empty (l : list nat) : bool := match l with [] => true | _ => false end.

(** * Operations *)

(** The configuration: [struct r5conf] and the processors. *)
Record config := Config {
  worker_cnt_per_group : nat;
  group_cnt : nat;
  r5c_is_writeback : bool;
  r5l_log_disk_error : bool;
  raid_disks : nat;
  max_degraded : nat;
  has_thread : bool;                 (* conf->mddev->thread *)
  RAID5_STRIPE_SHIFT : Z;
  bypass_threshold : Z;
  cpu_online : nat -> bool;
  any_online_cpu : nat;
  cpu_to_group : nat -> nat;
}.

Section Operations.
Context (conf : config).

Definition stripe_hash_locks_hash (sect : Z) : nat :=
  Z.to_nat (Z.land (Z.shiftr sect (RAID5_STRIPE_SHIFT conf)) STRIPE_HASH_LOCKS_MASK).

(** The workers [i], [i + 1], ... of a group that are woken up beside the first. *)
Fixpoint wake_workers (n i : nat) (thread_cnt : Z) (w : nat -> bool) : nat -> bool :=
  match n with
  | O => w
  | S n =>
      if thread_cnt <=? 0 then w
      else if w i then wake_workers n (S i) thread_cnt w
      else wake_workers n (S i) (thread_cnt - 1) (fupd w i true)
  end.

Definition raid5_wakeup_stripe_thread (t sh : nat) (st : cache) : outcome cache :=
  s <- stripe st sh;
  let c := if cpu_online conf (cpu s) then cpu s else any_online_cpu conf in
  let g := cpu_to_group conf c in
  let st := upd_stripe sh (set_cpu c) st in
  st <- (match lru s with
         | None =>
             st <- list_add_tail t sh (if stripe_is_lowprio s then group_loprio g else group_handle g) st;
             Next (upd_stripe sh (set_group (Some g)) (add_stripes_cnt g 1 st))
         | Some _ => Next st
         end);
  if (worker_cnt_per_group conf =? 0)%nat then Next st
  else
    let w := fupd (working (other st) g) 0 true in
    let thread_cnt := Z.quot (stripes_cnt st g) MAX_STRIPE_BATCH - 1 in
    Next (with_working (fupd (working (other st)) g (wake_workers (worker_cnt_per_group conf - 1) 1 thread_cnt w)) st).

(** raid5-cache.c. *)
Definition r5c_make_stripe_write_out (sh : nat) (st : cache) : outcome cache :=
  s <- stripe st sh;
  bug_on negb (r5c_is_writeback conf);
  let st := if state s STRIPE_PREREAD_ACTIVE then st else add_preread 1 st in
  Next (upd_stripe sh (fun s => set_bit STRIPE_PREREAD_ACTIVE (clear_bit STRIPE_R5C_CACHING s)) st).

(** The first part of [do_release_stripe]: a stripe that must be written out is to be handled. *)
Definition release_write_out (sh : nat) (injournal : nat) (st : cache) : outcome cache :=
  s <- stripe st sh;
  if state s STRIPE_SYNC_REQUESTED ||
     (quiesce (other st) && r5c_is_writeback conf && negb (state s STRIPE_HANDLE) && negb (injournal =? 0)%nat)
  then
    st <- (if state s STRIPE_R5C_CACHING then r5c_make_stripe_write_out sh st else Next st);
    Next (upd_stripe sh (set_bit STRIPE_HANDLE) st)
  else Next st.

(** The value of an [int]. *)
Definition seq_int (z : Z) : Z := (z + 2 ^ 31) mod 2 ^ 32 - 2 ^ 31.

(** A stripe with [STRIPE_HANDLE]. *)
Definition release_handle (t sh : nat) (st : cache) : outcome cache :=
  s <- stripe st sh;
  if state s STRIPE_DELAYED && negb (state s STRIPE_PREREAD_ACTIVE) then list_add_tail t sh delayed_list st
  else if state s STRIPE_BIT_DELAY && (0 <? seq_int (bm_seq s - seq_write (other st))) then list_add_tail t sh bitmap_list st
  else
    let st := upd_stripe sh (fun s => clear_bit STRIPE_BIT_DELAY (clear_bit STRIPE_DELAYED s)) st in
    if (worker_cnt_per_group conf =? 0)%nat
    then list_add_tail t sh (if stripe_is_lowprio s then loprio_list else handle_list) st
    else raid5_wakeup_stripe_thread t sh st.

(** A stripe without it. *)
Definition release_idle (t sh : nat) (temp : lru_list) (injournal : nat) (st : cache) : outcome cache :=
  s <- stripe st sh;
  let st := if state s STRIPE_PREREAD_ACTIVE
    then add_preread (-1) (upd_stripe sh (clear_bit STRIPE_PREREAD_ACTIVE) st) else st in
  let st := add_active (-1) st in
  if state s STRIPE_EXPANDING then Next st
  else if negb (r5c_is_writeback conf) || (injournal =? 0)%nat then list_add_tail t sh temp st
  else if (injournal =? raid_disks conf - max_degraded conf)%nat then
    let st := if state s STRIPE_R5C_FULL_STRIPE then st else add_r5c_cached 1 0 st in
    let st := if state s STRIPE_R5C_PARTIAL_STRIPE then add_r5c_cached 0 (-1) st else st in
    let st := upd_stripe sh (fun s => clear_bit STRIPE_R5C_PARTIAL_STRIPE (set_bit STRIPE_R5C_FULL_STRIPE s)) st in
    list_add_tail t sh r5c_full_stripe_list st
  else list_add_tail t sh r5c_partial_stripe_list st.

Definition do_release_stripe (t sh : nat) (temp : lru_list) (st : cache) : outcome cache :=
  s <- stripe st sh;
  bug_on bool_decide (is_Some (lru s));
  bug_on active_stripes st =? 0;
  let injournal := if r5c_is_writeback conf then injournal s else O in
  st <- release_write_out sh injournal st;
  s <- stripe st sh;
  if state s STRIPE_HANDLE then release_handle t sh st else release_idle t sh temp injournal st.

(** [release_inactive_stripe_list] for one list. *)
Definition splice_inactive (t : nat) (src : lru_list) (h : nat) (st : cache) : outcome cache :=
  if is_empty (lists st src) then Next st
  else
    match hash_locks st h with
    | Some _ => Block
    | None =>
        let st := lock_hash t h st in
        let ids := lists st src in
        bug_on negb (may_write st t src) || negb (may_write st t (inactive_list h));
        let st := if is_empty (lists st (inactive_list h)) then add_empty_nr (-1) st else st in
        let st := with_stripes
          (fold_left (fun m sh => alter (fun s => set_lru (Some (inactive_list h)) (set_bit STRIPE_ON_INACTIVE_LIST s)) sh m)
             ids (stripes st)) st in
        let st := with_lists (upd_list (upd_list (lists st) (inactive_list h) (lists st (inactive_list h) ++ ids)) src []) st in
        Next (unlock_hash h st)
    end.

Definition get_free_stripe (t h : nat) (st : cache) : outcome (option nat * cache) :=
  match lists st (inactive_list h) with
  | [] => Next (None, st)
  | sh :: _ =>
      st <- list_del_init t sh st;
      s <- stripe st sh;
      let st := upd_stripe sh (fun s => set_hash (sector s) (generation s) false (clear_bit STRIPE_ON_INACTIVE_LIST s)) st in
      let st := add_active 1 st in
      bug_on negb (h =? hash_lock_index s)%nat;
      let st := if is_empty (lists st (inactive_list h)) then add_empty_nr 1 st else st in
      Next (Some sh, st)
  end.

(** [conf->generation - previous], as the [short] that a stripe has for it. *)
Definition stripe_generation (o : misc) (previous : bool) : Z :=
  (conf_generation o - Z.b2z previous + 2 ^ 15) mod 2 ^ 16 - 2 ^ 15.

(** On the processor [c]. *)
Definition init_stripe (c sh : nat) (sect : Z) (previous : bool) (st : cache) : outcome cache :=
  s <- stripe st sh;
  bug_on negb (count s =? 0)%nat;
  bug_on state s STRIPE_HANDLE;
  let gen := stripe_generation (other st) previous in
  Next (upd_stripe sh (fun s =>
    set_bit STRIPE_BATCH_READY (set_cpu c (set_hash sect gen true (set_state (fun _ => false) s)))) st).

Definition __find_stripe (sect gen : Z) (st : cache) : option nat :=
  option_map fst (List.find (fun '(_, s) => hashed s && (sector s =? sect) && (generation s =? gen)) (map_to_list (stripes st))).

(** [if (sh->group) { sh->group->stripes_cnt--; sh->group = NULL; }]. *)
Definition leave_group (t sh : nat) (st : cache) : outcome cache :=
  s <- stripe st sh;
  match group s with
  | None => Next st
  | Some g =>
      bug_on negb (bool_decide (device_lock st = Some t));
      Next (upd_stripe sh (set_group None) (add_stripes_cnt g (-1) st))
  end.

(** [find_get_stripe] on a stripe of count zero: the fast path and the slow one. *)
Definition find_fast (t sh h : nat) (st : cache) : outcome cache :=
  let st := add_active 1 st in
  let st := if (length (lists st (inactive_list h)) =? 1)%nat then add_empty_nr 1 st else st in
  st <- list_del_init t sh st;
  let st := upd_stripe sh (clear_bit STRIPE_ON_INACTIVE_LIST) st in
  st <- leave_group t sh st;
  Next (unlock_hash h (get_ref sh st)).

Definition find_slow (t sh h : nat) (st : cache) : outcome cache :=
  match device_lock st with
  | Some _ => Block
  | None =>
      let st := with_device_lock (Some t) st in
      s <- stripe st sh;
      st <- (if (count s =? 0)%nat then
          let st := if state s STRIPE_HANDLE then st else add_active 1 st in
          bug_on bool_decide (lru s = None) && negb (state s STRIPE_EXPANDING);
          let nonempty := negb (is_empty (lists st (inactive_list h))) in
          st <- list_del_init t sh st;
          let st := upd_stripe sh (clear_bit STRIPE_ON_INACTIVE_LIST) st in
          let st := if is_empty (lists st (inactive_list h)) && nonempty then add_empty_nr 1 st else st in
          leave_group t sh st
        else Next st);
      Next (unlock_hash h (with_device_lock None (get_ref sh st)))
  end.

Definition is_inactive_blocked (h : nat) (st : cache) : bool :=
  if is_empty (lists st (inactive_list h)) then false
  else if negb (R5_INACTIVE_BLOCKED (other st)) then true
  else active_stripes st <? Z.of_nat (max_nr_stripes (other st) * 3 / 4).

(** One pass of the loop of [raid5_get_active_stripe], from taking the hash lock on. *)
Definition raid5_get_active_stripe (t c : nat) (sect : Z) (flags : gas) (st : cache) : outcome cache :=
  let h := stripe_hash_locks_hash sect in
  match hash_locks st h with
  | Some _ => Block
  | None =>
      if negb (gas_noquiesce flags) && quiesce (other st) then Next (go t (WaitStripe sect flags true) st)
      else
        match __find_stripe sect (stripe_generation (other st) (gas_previous flags)) st with
        | Some sh =>
            s <- stripe st sh;
            if (count s =? 0)%nat then Next (go t (FindZero sh h) (lock_hash t h st))
            else Next (go t Idle (get_ref sh st))
        | None =>
            let st := lock_hash t h st in
            r <- (if R5_INACTIVE_BLOCKED (other st) then Next (None, st) else
                  r <- get_free_stripe t h st;
                  match r with
                  | (Some sh, st) =>
                      st <- init_stripe c sh sect (gas_previous flags) st;
                      Next (Some sh, get_ref sh st)
                  | (None, st) => Next (None, if R5_DID_ALLOC (other st) then st else with_alloc_more true st)
                  end);
            match r with
            | (Some _, st) => Next (go t Idle (unlock_hash h st))
            | (None, st) =>
                if gas_noblock flags then Next (go t Idle (unlock_hash h st))
                else Next (go t (WaitStripe sect flags false) (unlock_hash h (with_inactive_blocked true st)))
            end
        end
  end.

(** Woken up with the hash lock. *)
Definition wake_stripe (t c : nat) (sect : Z) (flags : gas) (quiescing : bool) (st : cache) : outcome cache :=
  if quiescing then if quiesce (other st) then Block else raid5_get_active_stripe t c sect flags st
  else if is_inactive_blocked (stripe_hash_locks_hash sect) st
  then raid5_get_active_stripe t c sect flags (with_inactive_blocked false st) else Block.

(** [raid5_release_stripe] up to and with [atomic_add_unless(&sh->count, -1, 1)]. *)
Definition raid5_release_stripe (t sh : nat) (st : cache) : outcome cache :=
  s <- stripe st sh;
  bug_on (count s =? 0)%nat;
  if (count s =? 1)%nat then Next (go t (RelLast sh) st)
  else Next (go t Idle (upd_stripe sh (set_count (count s - 1)) st)).

(** [!conf->mddev->thread || test_and_set_bit(STRIPE_ON_RELEASE_LIST, &sh->state)]. *)
Definition release_last (t sh : nat) (st : cache) : outcome cache :=
  s <- stripe st sh;
  if negb (has_thread conf) then Next (go t (RelSlow sh) st)
  else if state s STRIPE_ON_RELEASE_LIST then Next (go t (RelSlow sh) st)
  else Next (go t (RelAdd sh) (upd_stripe sh (set_bit STRIPE_ON_RELEASE_LIST) st)).

(** [atomic_dec_and_lock_irqsave]: the count reaches zero under [device_lock] only. *)
Definition release_slow (t sh : nat) (st : cache) : outcome cache :=
  s <- stripe st sh;
  bug_on (count s =? 0)%nat;
  if negb (count s =? 1)%nat then Next (go t Idle (upd_stripe sh (set_count (count s - 1)) st))
  else
    match device_lock st with
    | Some _ => Block
    | None => Next (go t (Do sh (KSlow (hash_lock_index s))) (with_device_lock (Some t) (upd_stripe sh (set_count 0) st)))
    end.

(** The list that [do_release_stripe] is given. *)
Definition temp_list (t : nat) (k : cont) (s : stripe_head) : lru_list :=
  match k with KSlow h => local_list t h | _ => temp_inactive_list t (hash_lock_index s) end.

(** [atomic_dec_and_test(&sh->count)] in [__release_stripe]. *)
Definition __release_stripe (t sh : nat) (k : cont) (st : cache) : outcome cache :=
  s <- stripe st sh;
  bug_on (count s =? 0)%nat;
  let st := upd_stripe sh (set_count (count s - 1)) st in
  if (count s =? 1)%nat then Next (go t (Do sh k) st) else Next (go t (Locked k) st).

(** The thread holds [device_lock] and takes the next stripe, or drops the lock. *)
Definition locked_step (t : nat) (k : cont) (st : cache) : outcome cache :=
  match k with
  | KDone | KDrain [] => Next (go t Idle (with_device_lock None st))
  | KDrain (sh :: todo) =>
      s <- stripe st sh;
      Next (go t (Put sh (KDrain todo)) (upd_stripe sh (clear_bit STRIPE_ON_RELEASE_LIST) st))
  | KBit =>
      match lists st bit_head with
      | [] => Next (go t Idle (with_device_lock None st))
      | sh :: _ =>
          st <- list_del_init t sh st;
          Next (go t (Put sh KBit) (upd_stripe sh (fun s => set_count (S (count s)) s) st))
      end
  | KSlow h => Next (go t (SpliceLocal h) (with_device_lock None st))
  end.

(** The list that [__get_priority_stripe] looks at first, with its worker group. *)
Definition priority_list (grp : option nat) (loprio : bool) (st : cache) : lru_list * option nat :=
  let of_group g := if loprio then group_loprio g else group_handle g in
  if (worker_cnt_per_group conf =? 0)%nat then (if loprio then loprio_list else handle_list, None)
  else
    match grp with
    | Some g => (of_group g, Some g)
    | None =>
        let g := default (group_cnt conf - 1)%nat
          (List.find (fun g => negb (is_empty (lists st (of_group g)))) (seq 0 (group_cnt conf))) in
        (of_group g, Some g)
    end.

Definition decay_bypass (l : option nat) (st : cache) : cache :=
  with_bypass (Z.max 0 (bypass_count (other st) - bypass_threshold conf)) l st.

(** One try: the stripe, the worker group whose list it is on, and the counters of the bypass. *)
Definition priority_try (grp : option nat) (loprio : bool) (st : cache) : option (nat * option nat) * cache :=
  let '(hl, wg) := priority_list grp loprio st in
  let o := other st in
  match lists st hl, lists st hold_list with
  | sh :: _, [] => (Some (sh, wg), with_bypass 0 (last_hold o) st)
  | sh :: _, held :: _ =>
      if match stripes st !! sh with Some s => state s STRIPE_IO_STARTED | None => false end then (Some (sh, wg), st)
      else if bool_decide (last_hold o = Some held) then (Some (sh, wg), with_bypass (bypass_count o + 1) (last_hold o) st)
      else (Some (sh, wg), decay_bypass (Some held) st)
  | [], [] => (None, st)
  | [], held =>
      if (negb (bypass_threshold conf =? 0) && (bypass_threshold conf <? bypass_count o)) || (pending_full_writes o =? 0) then
        match List.find (fun sh => match stripes st !! sh with
            | Some s =>
                (worker_cnt_per_group conf =? 0)%nat || negb (bool_decide (is_Some grp)) || negb (cpu_online conf (cpu s)) ||
                bool_decide (Some (cpu_to_group conf (cpu s)) = grp)
            | None => false end) held with
        | Some sh => (Some (sh, None), decay_bypass (last_hold o) st)
        | None => (None, st)
        end
      else (None, st)
  end.

Definition __get_priority_stripe (t : nat) (grp : option nat) (st : cache) : outcome cache :=
  match device_lock st with
  | Some _ => Block
  | None =>
      let st := with_device_lock (Some t) st in
      let second_try := negb (r5c_is_writeback conf) && negb (r5l_log_disk_error conf) in
      let try_loprio := R5C_LOG_TIGHT (other st) || r5l_log_disk_error conf in
      let '(r, st) := match priority_try grp try_loprio st with
        | (Some r, st) => (Some r, st)
        | (None, st) => if second_try then (None, st) else priority_try grp (negb try_loprio) st
        end in
      match r with
      | None => Next (with_device_lock None st)
      | Some (sh, wg) =>
          let st := match wg with
            | Some g => upd_stripe sh (set_group None) (add_stripes_cnt g (-1) st)
            | None => st
            end in
          st <- list_del_init t sh st;
          s <- stripe st sh;
          bug_on negb (S (count s) =? 1)%nat;
          Next (with_device_lock None (get_ref sh st))
      end
  end.

(** [raid5_activate_delayed]. *)
Fixpoint activate_delayed_loop (t : nat) (ids : list nat) (st : cache) : outcome cache :=
  match ids with
  | [] => Next st
  | sh :: ids =>
      st <- list_del_init t sh st;
      s <- stripe st sh;
      let st := if state s STRIPE_PREREAD_ACTIVE then st else add_preread 1 st in
      let st := upd_stripe sh (fun s => set_bit STRIPE_PREREAD_ACTIVE (clear_bit STRIPE_DELAYED s)) st in
      st <- list_add_tail t sh hold_list st;
      st <- raid5_wakeup_stripe_thread t sh st;
      activate_delayed_loop t ids st
  end.

Definition raid5_activate_delayed (t : nat) (st : cache) : outcome cache :=
  match device_lock st with
  | Some _ => Block
  | None =>
      if preread_active_stripes (other st) <? IO_THRESHOLD then
        st <- activate_delayed_loop t (lists st delayed_list) (with_device_lock (Some t) st);
        Next (with_device_lock None st)
      else Next st
  end.

(** [activate_bit_delay] moves [bitmap_list] to the list on its stack. *)
Definition activate_bit_delay (t : nat) (st : cache) : outcome cache :=
  match device_lock st with
  | Some _ => Block
  | None =>
      let ids := lists st bitmap_list in
      let st := with_device_lock (Some t) st in
      let st := with_stripes (fold_left (fun m sh => alter (set_lru (Some bit_head)) sh m) ids (stripes st)) st in
      Next (go t (Locked KBit) (with_lists (upd_list (upd_list (lists st) bit_head ids) bitmap_list []) st))
  end.

(** [release_stripe_list] takes all of [released_stripes], oldest first. *)
Definition release_stripe_list (t : nat) (st : cache) : outcome cache :=
  match device_lock st with
  | Some _ => Block
  | None => Next (go t (Locked (KDrain (rev (released_stripes st)))) (with_device_lock (Some t) (with_released [] st)))
  end.

(** [release_stripe_plug], where the task has a plug. *)
Definition release_stripe_plug (t sh : nat) (st : cache) : outcome cache :=
  s <- stripe st sh;
  if state s STRIPE_ON_UNPLUG_LIST then Next (go t (RelStart sh) st)
  else Next (go t (PlugAdd sh) (upd_stripe sh (set_bit STRIPE_ON_UNPLUG_LIST) st)).

(** One pass of the loop of [raid5_unplug]: the stripe leaves the list, then its bit is cleared,
    then it is released. *)
Definition raid5_unplug (t : nat) (st : cache) : outcome cache :=
  match lists st (plug_list t) with
  | [] => Next st
  | sh :: _ => st <- list_del_init t sh st; Next (go t (UnplugClear sh) st)
  end.

Definition unplug_clear (t sh : nat) (st : cache) : outcome cache :=
  s <- stripe st sh;
  Next (go t (RelStart sh) (upd_stripe sh (clear_bit STRIPE_ON_UNPLUG_LIST) st)).

(** [grow_one_stripe] with the new stripe [sh], and [drop_one_stripe]. *)
Definition grow_one_stripe (t sh : nat) (st : cache) : outcome cache :=
  match stripes st !! sh with
  | Some _ => Block
  | None =>
      let s := StripeHead 0 0 false (max_nr_stripes (other st) mod NR_STRIPE_HASH_LOCKS) 1 None (fun _ => false) 0 None 0 0 in
      let st := with_stripes (<[sh := s]> (stripes st)) (add_active 1 st) in
      Next (go t (RelStart sh) (with_max_nr_stripes (S (max_nr_stripes (other st))) st))
  end.

Definition drop_one_stripe (t : nat) (st : cache) : outcome cache :=
  let h := Z.to_nat (Z.land (Z.of_nat (max_nr_stripes (other st)) - 1) STRIPE_HASH_LOCKS_MASK) in
  match hash_locks st h with
  | Some _ => Block
  | None =>
      r <- get_free_stripe t h (lock_hash t h st);
      match r with
      | (None, st) => Next (unlock_hash h st)
      | (Some sh, st) =>
          s <- stripe st sh;
          bug_on negb (count s =? 0)%nat;
          let st := with_stripes (delete sh (stripes st)) (add_active (-1) (unlock_hash h st)) in
          Next (with_max_nr_stripes (max_nr_stripes (other st) - 1) st)
      end
  end.

(** [r5c_flush_stripe] of raid5-cache.c, under [device_lock]; its callers hand it stripes in the
    caching phase.  The release that ends it is a step of the user. *)
Definition r5c_flush_stripe (t sh : nat) (st : cache) : outcome cache :=
  match device_lock st with
  | Some _ => Block
  | None =>
      let st := with_device_lock (Some t) st in
      s <- stripe st sh;
      bug_on bool_decide (lru s = None);
      bug_on negb (state s STRIPE_R5C_CACHING);
      bug_on state s STRIPE_HANDLE;
      bug_on state s STRIPE_ON_RELEASE_LIST;
      st <- list_del_init t sh st;
      let st := add_active 1 (get_ref sh (upd_stripe sh (set_bit STRIPE_HANDLE) st)) in
      st <- r5c_make_stripe_write_out sh st;
      let st := if state s STRIPE_R5C_PARTIAL_STRIPE then add_r5c_flushing 0 1 st else add_r5c_flushing 1 0 st in
      Next (with_device_lock None st)
  end.

(** * Steps *)

(** The bits that only the code above changes. *)
Definition cache_bit (b : stripe_bit) : bool :=
  match b with STRIPE_ON_UNPLUG_LIST | STRIPE_ON_RELEASE_LIST | STRIPE_ON_INACTIVE_LIST => true | _ => false end.

Inductive action :=
| Get (c : nat) (sect : Z) (flags : gas)
| Release (sh : nat)
| Handled (sh : nat)                 (* __release_stripe at the end of handle_active_stripes *)
| Drain
| SpliceAll
| Priority (grp : option nat)
| Delayed
| BitDelay
| Plug (sh : nat)
| Unplug
| Ref (sh : nat)                     (* atomic_inc(&sh->count) by a user *)
| Work (sh : nat) (bits : stripe_bit -> bool) (seq : Z) (n : nat)
| Grow (sh : nat)
| DropOne
| Flush (sh : nat)
| Config_change (o : misc)
| Continue (c : nat).

Definition as_user (sh : nat) (f : cache -> outcome cache) (st : cache) : outcome cache :=
  if (users st sh =? 0)%nat then Block else f (drop_user sh st).

(** The end of [handle_active_stripes]: [__release_stripe] of a stripe it has handled. *)
Definition release_handled (t sh : nat) (st : cache) : outcome cache :=
  match device_lock st with
  | Some _ => Block
  | None => as_user sh (fun st => Next (go t (Put sh KDone) (with_device_lock (Some t) st))) st
  end.

(** What an idle thread can start. *)
Definition start (t : nat) (a : action) (st : cache) : outcome cache :=
  match a with
  | Get c sect flags => raid5_get_active_stripe t c sect flags st
  | Release sh => as_user sh (raid5_release_stripe t sh) st
  | Handled sh => release_handled t sh st
  | Drain => release_stripe_list t st
  | SpliceAll => Next (go t (Splice (rev (seq 0 NR_STRIPE_HASH_LOCKS))) st)
  | Priority grp => __get_priority_stripe t grp st
  | Delayed => raid5_activate_delayed t st
  | BitDelay => activate_bit_delay t st
  | Plug sh => as_user sh (release_stripe_plug t sh) st
  | Unplug => raid5_unplug t st
  | Ref sh => if (users st sh =? 0)%nat then Block else Next (get_ref sh st)
  | Work sh bits seq n =>
      if (users st sh =? 0)%nat || (bits STRIPE_R5C_CACHING && negb (r5c_is_writeback conf)) then Block
      else Next (upd_stripe sh (fun s =>
        set_work seq n (set_state (fun b => if cache_bit b then state s b else bits b) s)) st)
  | Grow sh => grow_one_stripe t sh st
  | DropOne => drop_one_stripe t st
  | Flush sh =>
      match stripes st !! sh with
      | Some s =>
          if state s STRIPE_R5C_CACHING &&
             (bool_decide (lru s = Some r5c_full_stripe_list) || bool_decide (lru s = Some r5c_partial_stripe_list))
          then r5c_flush_stripe t sh st else Block
      | None => Block
      end
  | Config_change o => Next (with_other o st)
  | Continue _ => Block
  end.

(** What a thread at [p] does next. *)
Definition continue (t c : nat) (p : pc) (st : cache) : outcome cache :=
  match p with
  | Idle => Block
  | RelStart sh => raid5_release_stripe t sh st
  | RelLast sh => release_last t sh st
  | RelAdd sh => Next (go t Idle (with_released (sh :: released_stripes st) st))
  | RelSlow sh => release_slow t sh st
  | Locked k => locked_step t k st
  | Put sh k => __release_stripe t sh k st
  | Do sh k =>
      s <- stripe st sh;
      st <- do_release_stripe t sh (temp_list t k s) st;
      Next (go t (Locked k) st)
  | Splice [] => Next (go t Idle st)
  | Splice (h :: hs) => st <- splice_inactive t (temp_inactive_list t h) h st; Next (go t (Splice hs) st)
  | SpliceLocal h => st <- splice_inactive t (local_list t h) h st; Next (go t Idle st)
  | FindZero sh h =>
      s <- stripe st sh;
      if state s STRIPE_ON_INACTIVE_LIST && (count s =? 0)%nat then Next (go t (FindFast sh h) st)
      else Next (go t (FindSlow sh h) st)
  | FindFast sh h => st <- find_fast t sh h st; Next (go t Idle st)
  | FindSlow sh h => st <- find_slow t sh h st; Next (go t Idle st)
  | WaitStripe sect flags quiescing => wake_stripe t c sect flags quiescing st
  | PlugAdd sh => st <- list_add_tail t sh (plug_list t) st; Next (go t Idle st)
  | UnplugClear sh => unplug_clear t sh st
  end.

Definition exec (t : nat) (a : action) (st : cache) : outcome cache :=
  match threads st !! t with
  | None => Block
  | Some Idle => start t a st
  | Some p => match a with Continue c => continue t c p st | _ => Block end
  end.

(** An array that starts: no stripes, [n] threads. *)
Definition cache_init (n : nat) (o : misc) : cache :=
  Cache ∅ (fun _ => []) [] 0 (Z.of_nat NR_STRIPE_HASH_LOCKS) (fun _ => 0) None (fun _ => None) (replicate n Idle) (fun _ => O) o.

Inductive reachable (n : nat) (o : misc) : cache -> Prop :=
| reach_init : reachable n o (cache_init n o)
| reach_step t a st st' : reachable n o st -> exec t a st = Next st' -> reachable n o st'.
End Operations.
