(* ===== verification/Raid5CacheInv.v ===== *)
(** The invariant of the stripe cache of md/raid5.c: where a stripe is, who holds the references
    that its count counts, and what the counters count; and the lemmas by which the steps preserve
    it. *)

From S2P Require Import Prelude.
From S2P Require Import Raid5Cache.

(** * Sums over the threads *)

Definition one (x y : nat) : nat := if decide (x = y) then 1 else 0.
Definition occ (x : nat) (l : list nat) : nat := sum_list_with (one x) l.
#[global] Arguments one : simpl never.
#[global] Arguments occ : simpl never.
Definition tok (f : pc -> nat) (l : list pc) : nat := sum_list_with f l.

Lemma one_same x : one x x = 1%nat.
Proof. unfold one. by rewrite decide_True. Qed.

Lemma one_ne x y : x <> y -> one x y = O.
Proof. intros. unfold one. by rewrite decide_False. Qed.

Lemma occ_app x l k : occ x (l ++ k) = (occ x l + occ x k)%nat.
Proof. apply sum_list_with_app. Qed.

Lemma occ_rev x l : occ x (rev l) = occ x l.
Proof. induction l as [|y l IH]; [done|]. cbn [rev]. rewrite occ_app, IH. unfold occ. cbn. lia. Qed.

(** A thread moves from [p] to [p']. *)
Lemma tok_insert f l t p p' : l !! t = Some p -> (tok f (<[t := p']> l) + f p = tok f l + f p')%nat.
Proof.
  unfold tok. revert t. induction l as [|q l IH]; intros [|t] H; [done..| |].
  - injection H as ->. cbn. lia.
  - specialize (IH t H). change (<[S t := p']> (q :: l)) with (q :: <[t := p']> l). cbn [sum_list_with]. lia.
Qed.

Lemma tok_lookup f l t p : l !! t = Some p -> (f p <= tok f l)%nat.
Proof.
  unfold tok. revert t. induction l as [|q l IH]; intros [|t] H; cbn in *; [done..| |].
  - injection H as ->. lia.
  - specialize (IH t H). lia.
Qed.

Lemma tok_mono f g l : (forall q, (f q <= g q)%nat) -> (tok f l <= tok g l)%nat.
Proof. intros H. unfold tok. induction l as [|q l IH]; cbn; [done|]. specialize (H q). lia. Qed.

(** Each of the other threads counts no more in [f] than in [g]. *)
Lemma tok_le f g l t p : (forall q, (f q <= g q)%nat) -> l !! t = Some p -> (tok f l + g p <= tok g l + f p)%nat.
Proof.
  intros Hle. unfold tok. revert t. induction l as [|q l IH]; intros [|t] H; cbn in *; [done..| |].
  - injection H as ->. pose proof (tok_mono f g l Hle). unfold tok in *. lia.
  - specialize (IH t H). specialize (Hle q). lia.
Qed.

Lemma tok_zero f l : (forall t p, l !! t = Some p -> f p = O) -> tok f l = O.
Proof.
  unfold tok. induction l as [|q l IH]; intros H; cbn; [done|].
  rewrite (H O q eq_refl), IH; [done|]. intros t p Hp. exact (H (S t) p Hp).
Qed.

(** * What the threads hold *)

Definition refs_k (x : nat) (k : cont) : nat := match k with KDrain todo => occ x todo | _ => O end.

(** References to [x]. *)
Definition refs_pc (x : nat) (p : pc) : nat :=
  match p with
  | RelStart y | RelLast y | RelAdd y | RelSlow y | PlugAdd y | UnplugClear y => one x y
  | Locked k | Do _ k => refs_k x k
  | Put y k => one x y + refs_k x k
  | _ => O
  end.

(** [STRIPE_ON_UNPLUG_LIST] of [x] is set on behalf of the thread. *)
Definition unplug_pc (x : nat) (p : pc) : nat :=
  match p with PlugAdd y | UnplugClear y => one x y | _ => O end.

(** The same for [STRIPE_ON_RELEASE_LIST]. *)
Definition flag_pc (x : nat) (p : pc) : nat :=
  match p with RelAdd y => one x y | Locked k | Put _ k | Do _ k => refs_k x k | _ => O end.

(** The thread has taken its reference for the last one, or releases one that was. *)
Definition last_pc (x : nat) (p : pc) : nat :=
  match p with
  | RelLast y | RelAdd y | RelSlow y => one x y
  | Locked k | Do _ k => refs_k x k
  | Put y k => match k with KDrain _ => one x y | _ => O end + refs_k x k
  | _ => O
  end.

Lemma last_refs x q : (last_pc x q <= refs_pc x q)%nat.
Proof. destruct q as [| | | | |k|y k|y k| | | | | | | |]; cbn; try lia. destruct k; cbn; lia. Qed.

Lemma unplug_refs x q : (unplug_pc x q <= refs_pc x q)%nat.
Proof. destruct q; cbn; lia. Qed.

Lemma flag_last x q : (flag_pc x q <= last_pc x q)%nat.
Proof. destruct q as [| | | | |k|y k|y k| | | | | | | |]; cbn; lia. Qed.

Definition doing_pc (x : nat) (p : pc) : nat := match p with Do y _ => one x y | _ => O end.

Definition refs (st : cache) (x : nat) : nat := users st x + tok (refs_pc x) (threads st) + occ x (released_stripes st).
Definition unplugs (st : cache) (x : nat) : nat := tok (unplug_pc x) (threads st).
Definition flags (st : cache) (x : nat) : nat := tok (flag_pc x) (threads st) + occ x (released_stripes st).
Definition lasts (st : cache) (x : nat) : nat := tok (last_pc x) (threads st) + occ x (released_stripes st).
Definition doing (st : cache) (x : nat) : nat := tok (doing_pc x) (threads st).
#[global] Arguments refs : simpl never.
#[global] Arguments unplugs : simpl never.
#[global] Arguments flags : simpl never.
#[global] Arguments lasts : simpl never.
#[global] Arguments doing : simpl never.

Lemma tokens_le st x : (unplugs st x <= refs st x /\ flags st x <= lasts st x /\ lasts st x <= refs st x)%nat.
Proof.
  pose proof (tok_mono _ _ (threads st) (unplug_refs x)). pose proof (tok_mono _ _ (threads st) (flag_last x)).
  pose proof (tok_mono _ _ (threads st) (last_refs x)). unfold unplugs, refs, flags, lasts. lia.
Qed.

(** The locks of a thread. *)
Definition has_dev (p : pc) : bool := match p with Locked _ | Put _ _ | Do _ _ => true | _ => false end.
Definition hash_of (p : pc) : option nat :=
  match p with FindZero _ h | FindFast _ h | FindSlow _ h => Some h | _ => None end.
Definition cont_of (p : pc) : option cont := match p with Locked k | Put _ k | Do _ k => Some k | _ => None end.

(** * A stripe *)

Definition on_plug (l : option lru_list) : nat := match l with Some (plug_list _) => 1 | _ => 0 end.

(** The lists of stripes that are to be handled. *)
Definition to_handle (L : lru_list) : bool :=
  match L with
  | handle_list | loprio_list | hold_list | delayed_list | bitmap_list | bit_head | group_handle _ | group_loprio _ => true
  | _ => false
  end.

Definition list_group (l : option lru_list) : option nat :=
  match l with Some (group_handle g) | Some (group_loprio g) => Some g | _ => None end.

Definition list_hash (l : option lru_list) : option nat :=
  match l with Some (inactive_list h) | Some (temp_inactive_list _ h) | Some (local_list _ h) => Some h | _ => None end.

(** Where a stripe without references is. *)
Definition home (s : stripe_head) : Prop :=
  match lru s with
  | None => state s STRIPE_HANDLE = false /\ state s STRIPE_EXPANDING = true
  | Some (plug_list _) => False
  | Some L => state s STRIPE_HANDLE = to_handle L
  end.

Section Inv.
Context (conf : config).

(** A stripe with [r] references beside the one of a plug, [u] threads that plug or unplug it, [f]
    that put it on the release list, [l] that release its last reference, [d] in
    [do_release_stripe]. *)
Record stripe_ok (s : stripe_head) (r u f l d : nat) : Prop := {
  ok_count : count s = (r + on_plug (lru s))%nat;
  ok_unplug : Nat.b2n (state s STRIPE_ON_UNPLUG_LIST) = (u + on_plug (lru s))%nat;
  ok_flag : Nat.b2n (state s STRIPE_ON_RELEASE_LIST) = f;
  ok_last : (l <= 1)%nat;
  ok_index : (hash_lock_index s < NR_STRIPE_HASH_LOCKS)%nat;
  ok_hash : hashed s = true -> stripe_hash_locks_hash conf (sector s) = hash_lock_index s;
  ok_inactive : state s STRIPE_ON_INACTIVE_LIST = true <-> lru s = Some (inactive_list (hash_lock_index s));
  ok_list_hash : forall h, list_hash (lru s) = Some h -> h = hash_lock_index s;
  ok_busy : (0 < count s)%nat -> lru s = None \/ on_plug (lru s) = 1%nat;
  ok_doing : (d <= 1)%nat /\ ((0 < d)%nat -> count s = O /\ lru s = None);
  ok_home : count s = O -> d = O -> home s;
  ok_group : group s = list_group (lru s);
  ok_caching : state s STRIPE_R5C_CACHING = true -> r5c_is_writeback conf = true;
}.

Definition lists_ok (m : gmap nat stripe_head) (ls : lru_list -> list nat) : Prop :=
  forall L, NoDup (ls L) /\ forall x, x ∈ ls L <-> exists s, m !! x = Some s /\ lru s = Some L.

Definition thread_ok (st : cache) (t : nat) (p : pc) : Prop :=
  (has_dev p = true -> device_lock st = Some t) /\
  (forall h, hash_of p = Some h -> hash_locks st h = Some t) /\
  match p with
  | FindZero x h | FindSlow x h | Put x (KSlow h) | Do x (KSlow h) => exists s, stripes st !! x = Some s /\ hash_lock_index s = h
  | FindFast x h => exists s, stripes st !! x = Some s /\ hash_lock_index s = h /\ count s = O /\
      state s STRIPE_ON_INACTIVE_LIST = true
  | _ => True
  end.

Definition same_key (s s' : stripe_head) : Prop :=
  hashed s = true /\ hashed s' = true /\ sector s = sector s' /\ generation s = generation s'.

(** A stripe that [active_stripes] counts, where [d] threads are in [do_release_stripe]. *)
Definition active (s : stripe_head) (d : nat) : bool := negb (count s =? 0)%nat || state s STRIPE_HANDLE || negb (d =? 0)%nat.

Definition count_active (m : gmap nat stripe_head) (d : nat -> nat) : nat :=
  size (filter (fun '(x, s) => active s (d x) = true) m).

Definition count_empty (ls : lru_list -> list nat) : nat :=
  length (List.filter (fun h => is_empty (ls (inactive_list h))) (seq 0 NR_STRIPE_HASH_LOCKS)).

#[global] Arguments count_active : simpl never.
#[global] Arguments count_empty : simpl never.

Definition group_length (ls : lru_list -> list nat) (g : nat) : Z :=
  Z.of_nat (length (ls (group_handle g)) + length (ls (group_loprio g))).

#[global] Arguments group_length : simpl never.

Record inv (st : cache) : Prop := {
  inv_lists : lists_ok (stripes st) (lists st);
  inv_stripe : forall x s, stripes st !! x = Some s ->
    stripe_ok s (refs st x) (unplugs st x) (flags st x) (lasts st x) (doing st x);
  inv_dead : forall x, stripes st !! x = None -> refs st x = O /\ doing st x = O;
  inv_thread : forall t p, threads st !! t = Some p -> thread_ok st t p;
  inv_dev : forall t, device_lock st = Some t -> exists p, threads st !! t = Some p /\ has_dev p = true;
  inv_hash : forall h t, hash_locks st h = Some t -> exists p, threads st !! t = Some p /\ hash_of p = Some h;
  inv_unique : forall x y s s', stripes st !! x = Some s -> stripes st !! y = Some s' -> same_key s s' -> x = y;
  inv_active : active_stripes st = Z.of_nat (count_active (stripes st) (doing st));
  inv_empty : empty_inactive_list_nr st = Z.of_nat (count_empty (lists st));
  inv_group : forall g, stripes_cnt st g = group_length (lists st) g;
  inv_bit : lists st bit_head = [] \/ exists t p, threads st !! t = Some p /\ cont_of p = Some KBit;
}.

(** * Lists *)

Lemma upd_list_same ls L l : upd_list ls L l L = l.
Proof. unfold upd_list. by rewrite decide_True. Qed.

Lemma upd_list_ne ls L l L' : L' <> L -> upd_list ls L l L' = ls L'.
Proof. intros. unfold upd_list. by rewrite decide_False. Qed.

Lemma lists_ok_same m ls x s s' :
  lists_ok m ls -> m !! x = Some s -> lru s' = lru s -> lists_ok (<[x := s']> m) ls.
Proof.
  intros H Hx E L. destruct (H L) as [Hn Hi]. split; [done|]. intros y. rewrite Hi.
  destruct (decide (x = y)) as [<-|Hne].
  - rewrite lookup_insert_eq. split; intros (s0 & E0 & El); simplify_eq; eexists; split; eauto; congruence.
  - by rewrite lookup_insert_ne.
Qed.

Lemma lists_ok_add m ls x s s' L :
  lists_ok m ls -> m !! x = Some s -> lru s = None -> lru s' = Some L ->
  lists_ok (<[x := s']> m) (upd_list ls L (ls L ++ [x])).
Proof.
  intros H Hx En El L'. destruct (H L') as [Hn Hi].
  assert (forall l, x ∉ ls l) as Hout.
  { intros l Hin. apply (H l) in Hin as (s0 & ? & ?). simplify_eq. }
  assert (forall y, y <> x -> (exists s0, <[x := s']> m !! y = Some s0 /\ lru s0 = Some L') <-> y ∈ ls L') as Hy.
  { intros y Hne. rewrite lookup_insert_ne by done. by rewrite Hi. }
  destruct (decide (L' = L)) as [->|HL]; [rewrite upd_list_same|rewrite upd_list_ne by done].
  - split; [apply list.NoDup_app; split_and!; [done| |apply NoDup_singleton]; intros y Hy' ->%list_elem_of_singleton; by apply (Hout L)|].
    intros y. rewrite elem_of_app, list_elem_of_singleton. destruct (decide (y = x)) as [->|Hne].
    + rewrite lookup_insert_eq. split; [intros _; eauto|auto].
    + rewrite Hy by done. naive_solver.
  - split; [done|]. intros y. destruct (decide (y = x)) as [->|Hne]; [|by rewrite Hy].
    rewrite lookup_insert_eq. split; [intros Hin; by apply Hout in Hin|]. intros (s0 & ? & ?). simplify_eq.
Qed.

Lemma lists_ok_del m ls x s s' L :
  lists_ok m ls -> m !! x = Some s -> lru s = Some L -> lru s' = None ->
  lists_ok (<[x := s']> m) (upd_list ls L (filter (fun i => i <> x) (ls L))).
Proof.
  intros H Hx El En L'. destruct (H L') as [Hn Hi].
  assert (forall y, y <> x -> (exists s0, <[x := s']> m !! y = Some s0 /\ lru s0 = Some L') <-> y ∈ ls L') as Hy.
  { intros y Hne. rewrite lookup_insert_ne by done. by rewrite Hi. }
  assert (~ exists s0, <[x := s']> m !! x = Some s0 /\ lru s0 = Some L') as Hx'.
  { rewrite lookup_insert_eq. intros (s0 & ? & ?). simplify_eq. }
  destruct (decide (L' = L)) as [->|HL]; [rewrite upd_list_same|rewrite upd_list_ne by done].
  - split; [by apply list.NoDup_filter|]. intros y. rewrite list_elem_of_filter.
    destruct (decide (y = x)) as [->|Hne]; [naive_solver|]. rewrite Hy by done. naive_solver.
  - split; [done|]. intros y. destruct (decide (y = x)) as [->|Hne]; [|by rewrite Hy].
    split; [|done]. intros (s0 & ? & ?)%Hi. simplify_eq.
Qed.

(** * Counters *)

Lemma count_active_insert m d d' x s s' :
  m !! x = Some s -> (forall y, y <> x -> d' y = d y) ->
  (count_active (<[x := s']> m) d' + Nat.b2n (active s (d x)) = count_active m d + Nat.b2n (active s' (d' x)))%nat.
Proof.
  intros Hx Hd. unfold count_active. set (m0 := delete x m).
  assert (filter (fun '(y, s) => active s (d' y) = true) m0 = filter (fun '(y, s) => active s (d y) = true) m0) as E0.
  { apply map_filter_ext. intros y s0 Hy. destruct (decide (y = x)) as [->|Hne]; [|by rewrite Hd].
    unfold m0 in Hy. by rewrite lookup_delete_eq in Hy. }
  assert (forall (d : nat -> nat) s0, size (filter (fun '(y, s) => active s (d y) = true) (<[x := s0]> m0)) =
    (size (filter (fun '(y, s) => active s (d y) = true) m0) + Nat.b2n (active s0 (d x)))%nat) as Hsz.
  { intros d0 s0. destruct (active s0 (d0 x)) eqn:Ea.
    - rewrite map_filter_insert_True by done. rewrite map_size_insert_None; [cbn; lia|].
      apply map_lookup_filter_None. left. apply lookup_delete_eq.
    - rewrite map_filter_insert_False by (by rewrite Ea). unfold m0. rewrite delete_delete_eq. cbn. lia. }
  rewrite <- (insert_delete_id m x s Hx) at 2. fold m0. rewrite <- (insert_delete_eq m x s'). fold m0.
  rewrite !Hsz, E0. lia.
Qed.

Lemma count_active_pos m d x s : m !! x = Some s -> active s (d x) = true -> (0 < count_active m d)%nat.
Proof.
  intros Hx Ha. unfold count_active. destruct (size _) as [|n] eqn:E; [|lia]. apply map_size_empty_inv in E.
  assert (filter (fun '(y, s) => active s (d y) = true) m !! x = Some s) as H by (by apply map_lookup_filter_Some).
  rewrite E in H. by rewrite lookup_empty in H.
Qed.

Lemma count_active_empty d : count_active ∅ d = O.
Proof. unfold count_active. by rewrite map_filter_empty, map_size_empty. Qed.

Lemma count_empty_none : count_empty (fun _ => []) = NR_STRIPE_HASH_LOCKS.
Proof. vm_compute. reflexivity. Qed.

Lemma count_active_new m d d' x s :
  m !! x = None -> active s (d' x) = true -> (forall y, y <> x -> d' y = d y) ->
  count_active (<[x := s]> m) d' = S (count_active m d).
Proof.
  intros Hx Ha Hd. unfold count_active. rewrite map_filter_insert_True by done.
  rewrite map_size_insert_None by (apply map_lookup_filter_None; by left). do 2 f_equal. apply map_filter_ext. intros y s0 Hy.
  by rewrite Hd by congruence.
Qed.

Lemma count_active_delete m d x s :
  m !! x = Some s -> active s (d x) = false -> count_active (delete x m) d = count_active m d.
Proof.
  intros Hx Ea. unfold count_active. rewrite <- (insert_delete_id m x s Hx) at 2.
  rewrite map_filter_insert_False by (by rewrite Ea). by rewrite delete_delete_eq.
Qed.

Lemma count_active_ext m d d' : (forall x, is_Some (m !! x) -> d' x = d x) -> count_active m d' = count_active m d.
Proof. intros H. unfold count_active. f_equal. apply map_filter_ext. intros y s Hy. by rewrite H by eauto. Qed.

Lemma count_seq_change (f g : nat -> bool) h l :
  NoDup l -> h ∈ l -> (forall i, i <> h -> f i = g i) ->
  (length (List.filter f l) + Nat.b2n (g h) = length (List.filter g l) + Nat.b2n (f h))%nat.
Proof.
  intros Hn Hin E. induction Hn as [|i l Hi Hn IH]; [by apply not_elem_of_nil in Hin|]. cbn.
  destruct (decide (i = h)) as [->|Hne].
  - assert (List.filter f l = List.filter g l) as ->.
    { apply List.filter_ext_in. intros j Hj. apply E. intros ->. by apply Hi, list_elem_of_In. }
    destruct (f h), (g h); cbn; lia.
  - apply list_elem_of_In in Hin as [?|Hin]; [done|]. rewrite (E i Hne). apply list_elem_of_In in Hin. specialize (IH Hin). destruct (g i); cbn; lia.
Qed.

(** One of the inactive lists changes. *)
Lemma count_empty_change ls ls' h :
  (h < NR_STRIPE_HASH_LOCKS)%nat -> (forall i, i <> h -> ls' (inactive_list i) = ls (inactive_list i)) ->
  (count_empty ls' + Nat.b2n (is_empty (ls (inactive_list h))) = count_empty ls + Nat.b2n (is_empty (ls' (inactive_list h))))%nat.
Proof.
  intros Hh E. apply (count_seq_change (fun i => is_empty (ls' (inactive_list i))) (fun i => is_empty (ls (inactive_list i)))).
  - apply NoDup_seq.
  - apply elem_of_seq. lia.
  - intros i Hi. by rewrite E.
Qed.

Lemma count_empty_ext ls ls' : (forall i, ls' (inactive_list i) = ls (inactive_list i)) -> count_empty ls' = count_empty ls.
Proof. intros E. unfold count_empty. f_equal. apply List.filter_ext. intros i. by rewrite E. Qed.

Lemma length_filter_ne x (l : list nat) : NoDup l -> x ∈ l -> (S (length (filter (fun i => i <> x) l)) = length l)%nat.
Proof.
  induction 1 as [|y l Hy Hn IH]; intros Hx; [by apply not_elem_of_nil in Hx|].
  destruct (decide (y = x)) as [->|Hne].
  - rewrite filter_cons_False by auto. cbn. f_equal. clear IH Hx Hn. induction l as [|z l IH]; [done|].
    apply not_elem_of_cons in Hy as [Hz Hy]. rewrite filter_cons_True by done. cbn. by rewrite IH.
  - rewrite filter_cons_True by done. cbn. rewrite IH; [done|]. apply elem_of_cons in Hx as [|]; [congruence|done].
Qed.

(** The counter of the empty inactive lists, when a stripe leaves a list. *)
Definition emptied (ls : lru_list -> list nat) (L : lru_list) : Z :=
  match L with inactive_list _ => Z.b2z (length (ls L) =? 1)%nat | _ => 0 end.

Lemma count_empty_del ls x L :
  NoDup (ls L) -> x ∈ ls L -> (forall h, L = inactive_list h -> (h < NR_STRIPE_HASH_LOCKS)%nat) ->
  Z.of_nat (count_empty (upd_list ls L (filter (fun i => i <> x) (ls L)))) = Z.of_nat (count_empty ls) + emptied ls L.
Proof.
  intros Hn Hx Hh. pose proof (length_filter_ne x (ls L) Hn Hx) as Hl. set (ls' := upd_list _ _ _).
  assert ((forall i, L <> inactive_list i) \/ exists h, L = inactive_list h) as [HL|[h ->]].
  { destruct L; try (by left; intros i); by right; eexists. }
  - rewrite (count_empty_ext ls ls'); [destruct L; cbn; try lia; by destruct (HL h)|]. intros i. apply upd_list_ne. auto.
  - pose proof (count_empty_change ls ls' h (Hh h eq_refl)) as Hc.
    assert (ls' (inactive_list h) = filter (fun i => i <> x) (ls (inactive_list h))) as E0 by apply upd_list_same.
    rewrite E0 in Hc. cbn [emptied].
    assert (is_empty (ls (inactive_list h)) = false) as E1 by (destruct (ls (inactive_list h)); [by cbn in Hl|done]).
    assert (is_empty (filter (fun i => i <> x) (ls (inactive_list h))) = (length (ls (inactive_list h)) =? 1)%nat) as E2.
    { rewrite <- Hl. by destruct (filter _ (ls (inactive_list h))). }
    rewrite E1, E2 in Hc.
    assert (forall i, i <> h -> ls' (inactive_list i) = ls (inactive_list i)) as Hne by (intros i Hi; apply upd_list_ne; congruence).
    specialize (Hc Hne).
    destruct (length _ =? 1)%nat; cbn in *; lia.
Qed.

Lemma emptied_eq ls x L h : NoDup (ls L) -> x ∈ ls L -> (forall h', list_hash (Some L) = Some h' -> h' = h) ->
  Z.b2z (is_empty (upd_list ls L (filter (fun i => i <> x) (ls L)) (inactive_list h)) && negb (is_empty (ls (inactive_list h)))) =
  emptied ls L.
Proof.
  intros Hn Hx Hh. pose proof (length_filter_ne x (ls L) Hn Hx) as Hl.
  destruct (decide (L = inactive_list h)) as [->|Hne].
  - rewrite upd_list_same. cbn [emptied]. rewrite <- Hl. destruct (ls (inactive_list h)); [done|].
    by destruct (filter _ _).
  - rewrite upd_list_ne by done. rewrite andb_negb_r. destruct L; try done. destruct Hne. f_equal. by apply Hh.
Qed.

(** The stripes of [src], one at least, join an inactive list. *)
Lemma count_empty_splice ls src h :
  (h < NR_STRIPE_HASH_LOCKS)%nat -> (forall i, src <> inactive_list i) -> ls src <> [] ->
  Z.of_nat (count_empty (upd_list (upd_list ls (inactive_list h) (ls (inactive_list h) ++ ls src)) src [])) =
  Z.of_nat (count_empty ls) - Z.b2z (is_empty (ls (inactive_list h))).
Proof.
  intros Hh Hs Hn. set (ls' := upd_list _ src []).
  assert (ls' (inactive_list h) = ls (inactive_list h) ++ ls src) as El by (unfold ls'; rewrite upd_list_ne, upd_list_same by auto; done).
  assert (forall i, i <> h -> ls' (inactive_list i) = ls (inactive_list i)) as Hne by (intros i Hi; unfold ls'; rewrite !upd_list_ne by congruence; done).
  pose proof (count_empty_change ls ls' h Hh Hne) as Hc. rewrite El in Hc.
  replace (is_empty (ls (inactive_list h) ++ ls src)) with false in Hc by (by destruct (ls (inactive_list h)), (ls src)).
  destruct (is_empty (ls (inactive_list h))); cbn in *; lia.
Qed.

Lemma group_length_change ls L l g :
  group_length (upd_list ls L l) g =
  group_length ls g + (if decide (list_group (Some L) = Some g) then Z.of_nat (length l) - Z.of_nat (length (ls L)) else 0).
Proof.
  unfold group_length. destruct (decide (list_group (Some L) = Some g)) as [E|E].
  - destruct L; cbn in E; try done; injection E as ->; rewrite upd_list_same, upd_list_ne by done; lia.
  - rewrite !upd_list_ne by (by intros <-). lia.
Qed.

Lemma group_length_add ls L x g :
  group_length (upd_list ls L (ls L ++ [x])) g = group_length ls g + (if decide (list_group (Some L) = Some g) then 1 else 0).
Proof. rewrite group_length_change, length_app. cbn [length]. destruct (decide _); lia. Qed.

Lemma group_length_del ls L x g : NoDup (ls L) -> x ∈ ls L ->
  group_length (upd_list ls L (filter (fun i => i <> x) (ls L))) g =
  group_length ls g - (if decide (list_group (Some L) = Some g) then 1 else 0).
Proof.
  intros Hn Hx. rewrite group_length_change. pose proof (length_filter_ne x (ls L) Hn Hx). destruct (decide _); lia.
Qed.

(** * Steps *)

(** What thread [t] at [p] counts for [y], with the users and the release list. *)
Definition tok_refs (st : cache) (p : pc) (y : nat) : nat := users st y + refs_pc y p + occ y (released_stripes st).
Definition tok_flags (st : cache) (p : pc) (y : nat) : nat := flag_pc y p + occ y (released_stripes st).
Definition tok_lasts (st : cache) (p : pc) (y : nat) : nat := last_pc y p + occ y (released_stripes st).

Section Step.
Context (st st' : cache) (t : nat) (p p' : pc).
Context (Hinv : inv st) (Hp : threads st !! t = Some p) (Ht : threads st' = <[t := p']> (threads st)).

Lemma refs_step y : (refs st' y + tok_refs st p y = refs st y + tok_refs st' p' y)%nat.
Proof. unfold refs, tok_refs. rewrite Ht. pose proof (tok_insert (refs_pc y) _ t p p' Hp). lia. Qed.

Lemma unplugs_step y : (unplugs st' y + unplug_pc y p = unplugs st y + unplug_pc y p')%nat.
Proof. unfold unplugs. rewrite Ht. apply (tok_insert (unplug_pc y) _ t p p' Hp). Qed.

Lemma flags_step y : (flags st' y + tok_flags st p y = flags st y + tok_flags st' p' y)%nat.
Proof. unfold flags, tok_flags. rewrite Ht. pose proof (tok_insert (flag_pc y) _ t p p' Hp). lia. Qed.

Lemma lasts_step y : (lasts st' y + tok_lasts st p y = lasts st y + tok_lasts st' p' y)%nat.
Proof. unfold lasts, tok_lasts. rewrite Ht. pose proof (tok_insert (last_pc y) _ t p p' Hp). lia. Qed.

Lemma doing_step y : (doing st' y + doing_pc y p = doing st y + doing_pc y p')%nat.
Proof. unfold doing. rewrite Ht. apply (tok_insert (doing_pc y) _ t p p' Hp). Qed.

(** The tokens of [y] are the same. *)
Definition same_tokens (y : nat) : Prop :=
  tok_refs st' p' y = tok_refs st p y /\ unplug_pc y p' = unplug_pc y p /\ tok_flags st' p' y = tok_flags st p y /\
  tok_lasts st' p' y = tok_lasts st p y /\ doing_pc y p' = doing_pc y p.

Lemma same_tokens_eq y : same_tokens y ->
  refs st' y = refs st y /\ unplugs st' y = unplugs st y /\ flags st' y = flags st y /\ lasts st' y = lasts st y /\
  doing st' y = doing st y.
Proof.
  intros (E1 & E2 & E3 & E4 & E5). pose proof (refs_step y). pose proof (unplugs_step y). pose proof (flags_step y).
  pose proof (lasts_step y). pose proof (doing_step y). lia.
Qed.

(** Only thread [t] takes and drops locks. *)
Definition locks_step : Prop :=
  (forall t', t' <> t -> device_lock st' = Some t' <-> device_lock st = Some t') /\
  (forall h t', t' <> t -> hash_locks st' h = Some t' <-> hash_locks st h = Some t') /\
  (device_lock st' = Some t <-> has_dev p' = true) /\ (forall h, hash_locks st' h = Some t <-> hash_of p' = Some h).

Definition find_ok (st : cache) (p : pc) : Prop :=
  match p with
  | FindZero x h | FindSlow x h | Put x (KSlow h) | Do x (KSlow h) => exists s, stripes st !! x = Some s /\ hash_lock_index s = h
  | FindFast x h => exists s, stripes st !! x = Some s /\ hash_lock_index s = h /\ count s = O /\
      state s STRIPE_ON_INACTIVE_LIST = true
  | _ => True
  end.

Lemma locks_step_dev : locks_step -> forall t0, device_lock st' = Some t0 -> exists q, threads st' !! t0 = Some q /\ has_dev q = true.
Proof.
  intros (Hd & _ & Hd' & _) t0 E. rewrite Ht. destruct (decide (t0 = t)) as [->|Hne].
  - exists p'. rewrite list_lookup_insert_eq by (by apply lookup_lt_Some in Hp). split; [done|by apply Hd'].
  - rewrite list_lookup_insert_ne by done. by apply Hinv, Hd.
Qed.

Lemma locks_step_hash : locks_step -> forall h t0, hash_locks st' h = Some t0 -> exists q, threads st' !! t0 = Some q /\ hash_of q = Some h.
Proof.
  intros (_ & Hh & _ & Hh') h t0 E. rewrite Ht. destruct (decide (t0 = t)) as [->|Hne].
  - exists p'. rewrite list_lookup_insert_eq by (by apply lookup_lt_Some in Hp). split; [done|by apply Hh'].
  - rewrite list_lookup_insert_ne by done. by apply Hinv, Hh.
Qed.

(** The threads, where what a thread knows about its stripe stays true. *)
Lemma threads_step :
  locks_step -> find_ok st' p' ->
  (forall t0 q, t0 <> t -> threads st !! t0 = Some q -> thread_ok st t0 q -> find_ok st' q) ->
  forall t0 q, threads st' !! t0 = Some q -> thread_ok st' t0 q.
Proof.
  intros (Hd & Hh & Hd' & Hh') Hf Hfr t0 q E. rewrite Ht in E. destruct (decide (t0 = t)) as [->|Hne].
  - rewrite list_lookup_insert_eq in E by (by apply lookup_lt_Some in Hp). injection E as <-.
    split_and!; [by apply Hd'|intros h; apply Hh'|exact Hf].
  - rewrite list_lookup_insert_ne in E by done. pose proof (inv_thread _ Hinv t0 q E) as Hq. pose proof Hq as (Hq1 & Hq2 & _).
    split_and!; [intros; apply Hd; auto|intros; apply Hh; auto|]. by apply (Hfr t0).
Qed.
End Step.

(** A step of thread [t] that changes the stripe [x]. *)
Lemma inv_step st st' t p p' x s s' :
  inv st -> threads st !! t = Some p -> threads st' = <[t := p']> (threads st) ->
  stripes st !! x = Some s -> stripes st' = <[x := s']> (stripes st) ->
  (forall y, y <> x -> same_tokens st st' p p' y) ->
  (forall r u f l d r' u' f' l' d', stripe_ok s r u f l d ->
     (tok_refs st p x <= r)%nat -> (unplug_pc x p <= u)%nat -> (tok_flags st p x <= f)%nat -> (tok_lasts st p x <= l)%nat ->
     (doing_pc x p <= d)%nat ->
     (u + tok_refs st p x <= r + unplug_pc x p)%nat -> (l + tok_refs st p x <= r + tok_lasts st p x)%nat -> (f + tok_lasts st p x <= l + tok_flags st p x)%nat ->
     (r' + tok_refs st p x = r + tok_refs st' p' x)%nat -> (u' + unplug_pc x p = u + unplug_pc x p')%nat ->
     (f' + tok_flags st p x = f + tok_flags st' p' x)%nat -> (l' + tok_lasts st p x = l + tok_lasts st' p' x)%nat ->
     (d' + doing_pc x p = d + doing_pc x p')%nat -> d = doing st x ->
     stripe_ok s' r' u' f' l' d' /\
     active_stripes st' + Z.b2z (active s d) = active_stripes st + Z.b2z (active s' d')) ->
  lists_ok (<[x := s']> (stripes st)) (lists st') ->
  hash_lock_index s' = hash_lock_index s ->
  (forall y s0, y <> x -> stripes st !! y = Some s0 -> ~ same_key s' s0) ->
  locks_step st st' t p' -> find_ok st' p' ->
  (count s = O -> state s STRIPE_ON_INACTIVE_LIST = true ->
     count s' = O /\ state s' STRIPE_ON_INACTIVE_LIST = true \/ forall t', hash_locks st (hash_lock_index s) = Some t' -> t' = t) ->
  empty_inactive_list_nr st' - Z.of_nat (count_empty (lists st')) = empty_inactive_list_nr st - Z.of_nat (count_empty (lists st)) ->
  (forall g, stripes_cnt st' g - group_length (lists st') g = stripes_cnt st g - group_length (lists st) g) ->
  (lists st' bit_head = [] \/ exists t p, threads st' !! t = Some p /\ cont_of p = Some KBit) ->
  inv st'.
Proof.
  intros Hinv Hp Ht Hx Es Htok Hloc Hl Hidx Hkey Hlk Hf Hfr He Hg Hb.
  pose proof (fun y Hy => same_tokens_eq st st' t p p' Hp Ht y (Htok y Hy)) as Heq.
  destruct (Hloc (refs st x) (unplugs st x) (flags st x) (lasts st x) (doing st x)
    (refs st' x) (unplugs st' x) (flags st' x) (lasts st' x) (doing st' x)) as [Hs' Hact].
  { by apply Hinv. }
  { unfold tok_refs, refs. pose proof (tok_lookup (refs_pc x) _ _ _ Hp). lia. }
  { apply (tok_lookup (unplug_pc x) _ _ _ Hp). }
  { unfold tok_flags, flags. pose proof (tok_lookup (flag_pc x) _ _ _ Hp). lia. }
  { unfold tok_lasts, lasts. pose proof (tok_lookup (last_pc x) _ _ _ Hp). lia. }
  { apply (tok_lookup (doing_pc x) _ _ _ Hp). }
  { pose proof (tok_le _ _ _ _ _ (unplug_refs x) Hp). unfold tok_refs, refs, unplugs. lia. }
  { pose proof (tok_le _ _ _ _ _ (last_refs x) Hp). unfold tok_refs, tok_lasts, refs, lasts. lia. }
  { pose proof (tok_le _ _ _ _ _ (flag_last x) Hp). unfold tok_flags, tok_lasts, flags, lasts. lia. }
  { by eapply refs_step. } { by eapply unplugs_step. } { by eapply flags_step. } { by eapply lasts_step. } { by eapply doing_step. } { done. }
  assert (forall y s0, stripes st' !! y = Some s0 -> y = x /\ s0 = s' \/ y <> x /\ stripes st !! y = Some s0) as Hlook.
  { intros y s0. rewrite Es. destruct (decide (y = x)) as [->|]; [rewrite lookup_insert_eq; naive_solver|rewrite lookup_insert_ne by done; naive_solver]. }
  split.
  - by rewrite Es.
  - intros y s0 [[-> ->]|[Hne Hy]]%Hlook; [done|]. destruct (Heq y Hne) as (-> & -> & -> & -> & ->). by apply Hinv.
  - intros y Hy. rewrite Es in Hy. destruct (decide (y = x)) as [->|Hne]; [by rewrite lookup_insert_eq in Hy|].
    rewrite lookup_insert_ne in Hy by done. destruct (Heq y Hne) as (-> & _ & _ & _ & ->). by apply Hinv.
  - apply (threads_step st st' t p p' Hinv Hp Ht Hlk Hf). intros t0 q Hne Hq (_ & Hq2 & Hq3).
    destruct q as [| | | | | |sh k|sh k| | |sh h|sh h|sh h| | |]; try done; [destruct k; try done|destruct k; try done|..]; cbn [find_ok hash_of] in *; rewrite Es; destruct (decide (sh = x)) as [->|Hns];
      rewrite ?lookup_insert_eq, ?(lookup_insert_ne _ x sh) by done; try done;
      destruct Hq3 as (s0 & Hs0 & Hq3); rewrite Hx in Hs0; injection Hs0 as <-; exists s'; (split; [done|]); try congruence.
    destruct Hq3 as (<- & Hc & Hi). destruct (Hfr Hc Hi) as [[? ?]|H]; [done|]. destruct Hne. apply H. auto.
  - by apply (locks_step_dev st st' t p p').
  - by apply (locks_step_hash st st' t p p').
  - intros y z s0 s1 [[-> ->]|[Hny Hy]]%Hlook [[-> ->]|[Hnz Hz]]%Hlook Hk; [done|..|].
    + by destruct (Hkey z s1 Hnz Hz).
    + destruct (Hkey y s0 Hny Hy). destruct Hk as (? & ? & ? & ?). by split_and!.
    + by apply (inv_unique _ Hinv y z s0 s1).
  - rewrite Es. pose proof (count_active_insert (stripes st) (doing st) (doing st') x s s' Hx) as Hc.
    rewrite (inv_active _ Hinv) in Hact. specialize (Hc (fun y Hy => proj2 (proj2 (proj2 (proj2 (Heq y Hy)))))).
    clear - Hact Hc. destruct (active s _), (active s' _); cbn [Z.b2z Nat.b2n] in *; lia.
  - rewrite (inv_empty _ Hinv) in He. lia.
  - intros g. specialize (Hg g). rewrite (inv_group _ Hinv) in Hg. lia.
  - done.
Qed.

(** A step of thread [t] that takes the stripe [x] from the list [L]. *)
Lemma inv_unlink st st' t p p' x s s' L :
  inv st -> threads st !! t = Some p -> threads st' = <[t := p']> (threads st) ->
  stripes st !! x = Some s -> lru s = Some L -> lru s' = None ->
  stripes st' = <[x := s']> (stripes st) -> lists st' = upd_list (lists st) L (filter (fun i => i <> x) (lists st L)) ->
  (forall y, y <> x -> same_tokens st st' p p' y) ->
  (forall r u f l d r' u' f' l' d', stripe_ok s r u f l d ->
     (tok_refs st p x <= r)%nat -> (unplug_pc x p <= u)%nat -> (tok_flags st p x <= f)%nat -> (tok_lasts st p x <= l)%nat ->
     (doing_pc x p <= d)%nat ->
     (u + tok_refs st p x <= r + unplug_pc x p)%nat -> (l + tok_refs st p x <= r + tok_lasts st p x)%nat -> (f + tok_lasts st p x <= l + tok_flags st p x)%nat ->
     (r' + tok_refs st p x = r + tok_refs st' p' x)%nat -> (u' + unplug_pc x p = u + unplug_pc x p')%nat ->
     (f' + tok_flags st p x = f + tok_flags st' p' x)%nat -> (l' + tok_lasts st p x = l + tok_lasts st' p' x)%nat ->
     (d' + doing_pc x p = d + doing_pc x p')%nat -> d = doing st x ->
     stripe_ok s' r' u' f' l' d' /\
     active_stripes st' + Z.b2z (active s d) = active_stripes st + Z.b2z (active s' d')) ->
  hash_lock_index s' = hash_lock_index s ->
  (forall y s0, y <> x -> stripes st !! y = Some s0 -> ~ same_key s' s0) ->
  locks_step st st' t p' -> find_ok st' p' ->
  (forall h, L = inactive_list h -> forall t', hash_locks st h = Some t' -> t' = t) ->
  empty_inactive_list_nr st' = empty_inactive_list_nr st + emptied (lists st) L ->
  (forall g, stripes_cnt st' g = stripes_cnt st g - (if decide (list_group (Some L) = Some g) then 1 else 0)) ->
  (cont_of p = Some KBit -> cont_of p' = Some KBit) -> inv st'.
Proof.
  intros Hinv Hp Ht Hx HL HL' Es El Htok Hloc Hidx Hkey Hlk Hf Hfr He Hg Hb.
  pose proof (inv_stripe _ Hinv x s Hx) as Hok. destruct (inv_lists _ Hinv L) as [Hn Hin].
  assert (x ∈ lists st L) as HxL by (apply Hin; eauto).
  apply (inv_step st st' t p p' x s s'); try done.
  - rewrite El. by apply (lists_ok_del _ _ x s); [apply Hinv|..].
  - intros _ Hi. right. intros t' Ht'. apply (ok_inactive _ _ _ _ _ _ Hok) in Hi. apply (Hfr (hash_lock_index s)); [congruence|done].
  - rewrite He, El, count_empty_del; [lia|done|done|]. intros h ->. rewrite (ok_list_hash _ _ _ _ _ _ Hok h) by (by rewrite HL). apply Hok.
  - intros g. rewrite Hg, El, group_length_del by done. lia.
  - rewrite El, Ht. destruct (inv_bit _ Hinv) as [Hnil|(t0 & q & Hq & Hc)].
    + left. unfold upd_list. destruct (decide _) as [<-|]; [by rewrite Hnil|done].
    + right. destruct (decide (t0 = t)) as [->|Hne].
      * exists t, p'. rewrite list_lookup_insert_eq by (by apply lookup_lt_Some in Hp). simplify_eq. auto.
      * exists t0, q. by rewrite list_lookup_insert_ne.
Qed.

(** A step that changes no stripe and no list. *)
Lemma inv_frame st st' t p p' :
  inv st -> threads st !! t = Some p -> threads st' = <[t := p']> (threads st) ->
  stripes st' = stripes st -> lists st' = lists st ->
  (forall y, same_tokens st st' p p' y) ->
  locks_step st st' t p' -> find_ok st' p' ->
  active_stripes st' = active_stripes st -> empty_inactive_list_nr st' = empty_inactive_list_nr st ->
  stripes_cnt st' = stripes_cnt st ->
  (lists st' bit_head = [] \/ exists t p, threads st' !! t = Some p /\ cont_of p = Some KBit) ->
  inv st'.
Proof.
  intros Hinv Hp Ht Es El Htok Hlk Hf Ea Ee Ec Hb.
  pose proof (fun y => same_tokens_eq st st' t p p' Hp Ht y (Htok y)) as Heq.
  split.
  - rewrite Es, El. apply Hinv.
  - intros y s. rewrite Es. intros Hy. destruct (Heq y) as (-> & -> & -> & -> & ->). by apply Hinv.
  - intros y. rewrite Es. intros Hy. destruct (Heq y) as (-> & _ & _ & _ & ->). by apply Hinv.
  - apply (threads_step st st' t p p' Hinv Hp Ht Hlk Hf). intros t0 q Hne Hq (_ & _ & Hq3). destruct q; cbn in *; by rewrite ?Es.
  - by apply (locks_step_dev st st' t p p').
  - by apply (locks_step_hash st st' t p p').
  - rewrite Es. apply Hinv.
  - rewrite Ea, Es, (inv_active _ Hinv). f_equal. symmetry. apply count_active_ext. intros y _. apply Heq.
  - rewrite Ee, El. apply Hinv.
  - rewrite Ec, El. apply Hinv.
  - done.
Qed.

(** * Steps that move a whole list *)

Definition moved (fn : stripe_head -> stripe_head) (ids : list nat) (m : gmap nat stripe_head) : gmap nat stripe_head :=
  fold_left (fun m sh => alter fn sh m) ids m.

Lemma lookup_moved fn ids m y : NoDup ids -> moved fn ids m !! y = if decide (y ∈ ids) then fn <$> m !! y else m !! y.
Proof.
  unfold moved. intros Hn. revert m. induction Hn as [|x rest Hx Hn IH]; intros m; cbn [fold_left].
  - by rewrite decide_False by apply not_elem_of_nil.
  - rewrite IH. destruct (decide (y = x)) as [->|Hne].
    + rewrite decide_False, decide_True by (done || by left). by rewrite lookup_alter_eq.
    + rewrite lookup_alter_ne by done. destruct (decide (y ∈ rest)) as [Hy|Hy]; [rewrite decide_True by (by right)|rewrite decide_False by (by intros [|]%elem_of_cons)]; done.
Qed.

Lemma count_active_fmap (m m' : gmap nat stripe_head) (g : nat -> stripe_head -> stripe_head) d d' :
  (forall y, m' !! y = g y <$> m !! y) -> (forall y s, m !! y = Some s -> active (g y s) (d' y) = active s (d y)) ->
  count_active m' d' = count_active m d.
Proof.
  intros Hm Ha. unfold count_active. rewrite <- !size_dom. f_equal. apply set_eq. intros y. rewrite !elem_of_dom.
  split; intros [s Hs]; apply map_lookup_filter_Some in Hs as [Hs Hp]; cbn in Hp.
  - rewrite Hm in Hs. apply fmap_Some in Hs as (s0 & Hs0 & ->). exists s0. apply map_lookup_filter_Some. split; [done|]. by rewrite <- Ha.
  - exists (g y s). apply map_lookup_filter_Some. rewrite Hm, Hs. split; [done|]. cbn. by rewrite Ha.
Qed.

Lemma lists_ok_move m ls fn src dst :
  lists_ok m ls -> src <> dst -> (forall s, lru (fn s) = Some dst) ->
  lists_ok (moved fn (ls src) m) (upd_list (upd_list ls dst (ls dst ++ ls src)) src []).
Proof.
  intros H Hne Hfn L. destruct (H src) as [Hs His]. destruct (H dst) as [Hd Hid]. destruct (H L) as [HL HiL].
  unfold upd_list. destruct (decide (L = src)) as [->|Hns].
  { split; [apply NoDup_nil_2|]. intros x. rewrite lookup_moved by done. split; [by intros ?%not_elem_of_nil|].
    intros (s & Hx & El). destruct (decide _) as [Hin|Hin]; [|by destruct Hin; apply His; eauto].
    apply fmap_Some in Hx as (s0 & _ & ->). rewrite Hfn in El. congruence. }
  assert (forall x, x ∈ ls src -> x ∉ ls L) as Hdis.
  { intros x (s & Hx & E1)%His (s' & Hx' & E2)%HiL. congruence. }
  destruct (decide (L = dst)) as [->|Hnd].
  - split; [apply list.NoDup_app; split_and!; [done|intros x ? ?; by apply (Hdis x)|done]|].
    intros x. rewrite elem_of_app, lookup_moved by done. destruct (decide (x ∈ ls src)) as [Hin|Hin].
    + split; [|auto]. intros _. apply His in Hin as (s & Hx & _). rewrite Hx. cbn. eauto.
    + rewrite Hid. naive_solver.
  - split; [done|]. intros x. rewrite lookup_moved by done. destruct (decide (x ∈ ls src)) as [Hin|Hin].
    + split; [by intros ?%Hdis|]. intros (s & Hx & El). apply fmap_Some in Hx as (s0 & _ & ->). rewrite Hfn in El. congruence.
    + apply HiL.
Qed.

(** A step of thread [t] that moves the stripes of [src] to the end of [dst]. *)
Lemma inv_move st st' t p p' fn src dst :
  inv st -> threads st !! t = Some p -> threads st' = <[t := p']> (threads st) ->
  stripes st' = moved fn (lists st src) (stripes st) ->
  lists st' = upd_list (upd_list (lists st) dst (lists st dst ++ lists st src)) src [] ->
  src <> dst -> (forall s, lru (fn s) = Some dst) -> list_group (Some src) = None -> list_group (Some dst) = None ->
  (forall h, src <> inactive_list h) ->
  (forall s, hashed (fn s) = hashed s /\ sector (fn s) = sector s /\ generation (fn s) = generation s /\
    hash_lock_index (fn s) = hash_lock_index s) ->
  (forall y, same_tokens st st' p p' y) ->
  (forall x s r u f l d, stripes st !! x = Some s -> lru s = Some src -> stripe_ok s r u f l d ->
    stripe_ok (fn s) r u f l d /\ active (fn s) d = active s d) ->
  active_stripes st' = active_stripes st ->
  locks_step st st' t p' -> find_ok st' p' ->
  empty_inactive_list_nr st' - Z.of_nat (count_empty (lists st')) = empty_inactive_list_nr st - Z.of_nat (count_empty (lists st)) ->
  stripes_cnt st' = stripes_cnt st ->
  (lists st' bit_head = [] \/ exists t p, threads st' !! t = Some p /\ cont_of p = Some KBit) ->
  inv st'.
Proof.
  intros Hinv Hp Ht Es El Hne Hfn Hgs Hgd Hsi Hkey Htok Hok Ha Hlk Hf He Hg Hb.
  pose proof (fun y => same_tokens_eq st st' t p p' Hp Ht y (Htok y)) as Heq.
  destruct (inv_lists _ Hinv src) as [Hn Hin].
  set (gn := fun y s => if decide (y ∈ lists st src) then fn s else s).
  assert (forall y, stripes st' !! y = gn y <$> stripes st !! y) as Hlook.
  { intros y. rewrite Es, lookup_moved by done. unfold gn. destruct (decide _); [done|]. by destruct (stripes st !! y). }
  assert (forall y s, stripes st !! y = Some s -> hash_lock_index (gn y s) = hash_lock_index s) as Hidx.
  { intros y s _. unfold gn. destruct (decide _); [apply Hkey|done]. }
  assert (forall y s r u f l d, stripes st !! y = Some s -> stripe_ok s r u f l d ->
    stripe_ok (gn y s) r u f l d /\ active (gn y s) d = active s d) as Hgn.
  { intros y s r u f l d Hy Hs. unfold gn. destruct (decide _) as [Hi|]; [|done]. apply Hin in Hi as (s0 & Hs0 & Hl). simplify_eq. eauto. }
  split.
  - rewrite Es, El. by apply lists_ok_move; [apply Hinv|..].
  - intros y s. rewrite Hlook. intros (s0 & Hy & ->)%fmap_Some. destruct (Heq y) as (-> & -> & -> & -> & ->). apply Hgn; [done|]. by apply Hinv.
  - intros y. rewrite Hlook. intros Hy%fmap_None. destruct (Heq y) as (-> & _ & _ & _ & ->). by apply Hinv.
  - apply (threads_step st st' t p p' Hinv Hp Ht Hlk Hf). intros t0 q Hnt Hq (_ & _ & Hq3).
    destruct q as [| | | | | |sh k|sh k| | |sh h|sh h|sh h| | |]; try done; [destruct k; try done|destruct k; try done|..]; cbn [find_ok] in *; rewrite Hlook;
      destruct Hq3 as (s0 & Hs0 & Hq3); rewrite Hs0; exists (gn sh s0); (split; [done|]); rewrite Hidx by done; try done.
    destruct Hq3 as (Hh & Hc & Hi). unfold gn. rewrite decide_False; [done|]. intros (s1 & Hs1 & Hl)%Hin. simplify_eq.
    apply (ok_inactive _ _ _ _ _ _ (inv_stripe _ Hinv _ _ Hs0)) in Hi. rewrite Hl in Hi. injection Hi as Hi. by apply Hsi in Hi.
  - by apply (locks_step_dev st st' t p p').
  - by apply (locks_step_hash st st' t p p').
  - intros x y s s'. rewrite !Hlook. intros (s0 & Hx & ->)%fmap_Some (s1 & Hy & ->)%fmap_Some Hk.
    apply (inv_unique _ Hinv x y s0 s1 Hx Hy). unfold same_key, gn in *.
    destruct (Hkey s0) as (? & ? & ? & _), (Hkey s1) as (? & ? & ? & _). destruct Hk as (? & ? & ? & ?).
    destruct (decide _), (decide _); split_and!; congruence.
  - rewrite Ha, (inv_active _ Hinv). f_equal. symmetry. apply (count_active_fmap _ _ gn _ _ Hlook). intros y s Hy.
    destruct (Heq y) as (_ & _ & _ & _ & ->). exact (proj2 (Hgn y s _ _ _ _ _ Hy (inv_stripe _ Hinv y s Hy))).
  - rewrite (inv_empty _ Hinv) in He. lia.
  - intros g. rewrite Hg, El, !group_length_change, (inv_group _ Hinv g), !decide_False by congruence. lia.
  - done.
Qed.


(** What no list depends on may change at any time. *)
Lemma inv_other st o : inv st -> inv (with_other o st).
Proof. intros [H1 H2 H3 H4 H5 H6 H7 H8 H9 H10 H11]. by split. Qed.
End Inv.
