(* ===== verification/Raid5CacheCorrect.v ===== *)
(** The steps of the stripe cache of md/raid5.c preserve its invariant and never go wrong. *)

From S2P Require Import Prelude.
From S2P Require Import Raid5Cache.
From S2P Require Import Raid5CacheInv.

Lemma fupd_same {A} (f : nat -> A) i v : fupd f i v i = v.
Proof. unfold fupd. by rewrite Nat.eqb_refl. Qed.

Lemma fupd_ne {A} (f : nat -> A) i v j : j <> i -> fupd f i v j = f j.
Proof. intros. unfold fupd. by rewrite (proj2 (Nat.eqb_neq j i)). Qed.

Lemma alter_insert_eq (m : gmap nat stripe_head) f x s : m !! x = Some s -> alter f x m = <[x := f s]> m.
Proof.
  intros H. apply map_eq. intros y. destruct (decide (y = x)) as [->|Hne].
  - by rewrite lookup_alter_eq, lookup_insert_eq, H.
  - by rewrite lookup_alter_ne, lookup_insert_ne.
Qed.

Lemma lookup_alter_upd (m : gmap nat stripe_head) f x s : m !! x = Some s -> alter f x m !! x = Some (f s).
Proof. intros H. by rewrite lookup_alter_eq, H. Qed.

Lemma alter_insert_same (m : gmap nat stripe_head) f x s : alter f x (<[x := s]> m) = <[x := f s]> m.
Proof.
  apply map_eq. intros y. destruct (decide (y = x)) as [->|Hne].
  - by rewrite lookup_alter_eq, !lookup_insert_eq.
  - by rewrite lookup_alter_ne, !lookup_insert_ne.
Qed.

Lemma occ_cons x y l : occ x (y :: l) = (one x y + occ x l)%nat.
Proof. done. Qed.

#[local] Opaque count_empty count_active group_length.

Section Correct.
Context (conf : config).
Abbreviation inv := (inv conf).
Abbreviation stripe_ok := (stripe_ok conf).

Definition safe (o : outcome cache) : Prop := match o with Next st => inv st | Block => True | Bug => False end.

Lemma ref_alive st x : inv st -> (0 < refs st x)%nat ->
  exists s, stripes st !! x = Some s /\ stripe_ok s (refs st x) (unplugs st x) (flags st x) (lasts st x) (doing st x) /\ (0 < count s)%nat.
Proof.
  intros Hinv Hr. destruct (stripes st !! x) as [s|] eqn:Hx; [|by destruct (inv_dead _ _ Hinv x Hx); lia].
  exists s. pose proof (inv_stripe _ _ Hinv x s Hx) as Hok. split_and!; [done..|]. rewrite (ok_count _ _ _ _ _ _ _ Hok). lia.
Qed.

Lemma refs_pos st t p x : threads st !! t = Some p -> (0 < users st x + refs_pc x p)%nat -> (0 < refs st x)%nat.
Proof. intros Hp H. unfold refs. pose proof (tok_lookup (refs_pc x) _ _ _ Hp). lia. Qed.

Lemma keys_kept st x s s' : inv st -> stripes st !! x = Some s ->
  hashed s' = hashed s -> sector s' = sector s -> generation s' = generation s ->
  forall y s0, y <> x -> stripes st !! y = Some s0 -> ~ same_key s' s0.
Proof.
  intros Hinv Hx E1 E2 E3 y s0 Hne Hy (H1 & H2 & H3 & H4). apply Hne. symmetry.
  apply (inv_unique _ _ Hinv x y s s0 Hx Hy). split_and!; congruence.
Qed.

(** The locks stay, and [p'] holds what [p] held. *)
Lemma locks_kept st st' t p p' : inv st -> threads st !! t = Some p ->
  device_lock st' = device_lock st -> (forall h, hash_locks st' h = hash_locks st h) -> has_dev p' = has_dev p ->
  hash_of p' = hash_of p -> locks_step st st' t p'.
Proof.
  intros Hinv Hp Ed Eh Hd Hh. pose proof (inv_thread _ _ Hinv t p Hp) as (Hd' & Hh' & _).
  unfold locks_step. rewrite Ed, Hd, Hh. split_and!; [done|intros h t' _; by rewrite Eh| |].
  - split; [|done]. intros E. apply Hinv in E as (q & Hq & ?). by simplify_eq.
  - intros h. rewrite Eh. split; [|apply Hh']. intros E. apply Hinv in E as (q & Hq & ?). by simplify_eq.
Qed.

(** Thread [t] takes or drops [device_lock]. *)
Lemma locks_take_dev st st' t p p' : inv st -> threads st !! t = Some p -> device_lock st = None ->
  device_lock st' = Some t -> hash_locks st' = hash_locks st -> has_dev p' = true -> hash_of p' = hash_of p ->
  locks_step st st' t p'.
Proof.
  intros Hinv Hp Hd Ed Eh Hd' Hh. pose proof (inv_thread _ _ Hinv t p Hp) as (_ & Hh' & _).
  unfold locks_step. rewrite Ed, Eh, Hd, Hd', Hh. split_and!; [naive_solver..|].
  intros h. split; [|apply Hh']. intros E. apply Hinv in E as (q & Hq & ?). by simplify_eq.
Qed.

Lemma locks_drop_dev st st' t p p' : inv st -> threads st !! t = Some p -> has_dev p = true ->
  device_lock st' = None -> hash_locks st' = hash_locks st -> has_dev p' = false -> hash_of p' = hash_of p ->
  locks_step st st' t p'.
Proof.
  intros Hinv Hp Hd Ed Eh Hd' Hh. pose proof (inv_thread _ _ Hinv t p Hp) as (Hd0 & Hh' & _). specialize (Hd0 Hd).
  unfold locks_step. rewrite Ed, Eh, Hd0, Hd', Hh. split_and!; [naive_solver..|].
  intros h. split; [|apply Hh']. intros E. apply Hinv in E as (q & Hq & ?). by simplify_eq.
Qed.

(** The same for a hash lock, while it does not hold [device_lock]. *)
Lemma locks_take_hash st st' t p p' h : inv st -> threads st !! t = Some p -> hash_locks st h = None -> hash_of p = None ->
  device_lock st' = device_lock st -> hash_locks st' = fupd (hash_locks st) h (Some t) -> has_dev p' = has_dev p ->
  hash_of p' = Some h -> locks_step st st' t p'.
Proof.
  intros Hinv Hp Hh Hn Ed Eh Hd Hh'. pose proof (inv_thread _ _ Hinv t p Hp) as (Hd0 & _ & _).
  unfold locks_step. rewrite Ed, Eh, Hd, Hh'. split_and!; [done| | |].
  - intros h' t' Hne. destruct (decide (h' = h)) as [->|Hnh]; [rewrite fupd_same, Hh; naive_solver|by rewrite fupd_ne].
  - split; [|done]. intros E. apply Hinv in E as (q & Hq & ?). by simplify_eq.
  - intros h'. destruct (decide (h' = h)) as [->|Hnh]; [by rewrite fupd_same|]. rewrite fupd_ne by done.
    split; [|naive_solver]. intros E. apply Hinv in E as (q & Hq & ?). by simplify_eq.
Qed.

Lemma locks_drop_hash st st' t p p' h : inv st -> threads st !! t = Some p -> hash_of p = Some h ->
  device_lock st' = device_lock st -> hash_locks st' = fupd (hash_locks st) h None -> has_dev p' = has_dev p ->
  hash_of p' = None -> locks_step st st' t p'.
Proof.
  intros Hinv Hp Hn Ed Eh Hd Hh'. pose proof (inv_thread _ _ Hinv t p Hp) as (Hd0 & Hh0 & _). specialize (Hh0 h Hn).
  unfold locks_step. rewrite Ed, Eh, Hd, Hh'. split_and!; [done| | |].
  - intros h' t' Hne. destruct (decide (h' = h)) as [->|Hnh]; [rewrite fupd_same, Hh0; naive_solver|by rewrite fupd_ne].
  - split; [|done]. intros E. apply Hinv in E as (q & Hq & ?). by simplify_eq.
  - intros h'. destruct (decide (h' = h)) as [->|Hnh]; [by rewrite fupd_same|]. rewrite fupd_ne by done.
    split; [|done]. intros E. apply Hinv in E as (q & Hq & ?). by simplify_eq.
Qed.

Lemma bit_kept st st' t p p' : inv st -> threads st !! t = Some p -> threads st' = <[t := p']> (threads st) ->
  lists st' bit_head = lists st bit_head -> (cont_of p = Some KBit -> cont_of p' = Some KBit) ->
  lists st' bit_head = [] \/ exists t p, threads st' !! t = Some p /\ cont_of p = Some KBit.
Proof.
  intros Hinv Hp Ht El Hk. rewrite El, Ht. destruct (inv_bit _ _ Hinv) as [|(t0 & q & Hq & Hc)]; [auto|right].
  destruct (decide (t0 = t)) as [->|Hne].
  - exists t, p'. rewrite list_lookup_insert_eq by (by apply lookup_lt_Some in Hp). simplify_eq. auto.
  - exists t0, q. by rewrite list_lookup_insert_ne.
Qed.

Ltac tokens := unfold same_tokens, tok_refs, tok_flags, tok_lasts; cbn;
  repeat (rewrite one_same || (rewrite one_ne by congruence) || rewrite fupd_same || (rewrite fupd_ne by congruence) || rewrite occ_cons);
  rewrite ?one_same, ?Nat.add_0_r; try (split_and!; try done; lia).

Ltac bits := repeat first [rewrite decide_True by done|rewrite decide_False by done].

Ltac active_tac := try done; unfold active; cbn; bits;
  repeat match goal with |- context [(?a =? ?b)%nat] => destruct (Nat.eqb_spec a b) end;
  cbn; repeat match goal with |- context [state ?s STRIPE_HANDLE] => destruct (state s STRIPE_HANDLE) end; cbn; try lia.

Ltac local_tac s0 :=
  intros r u f l d r' u' f' l' d' [Kcount Kunplug Kflag Klast Kindex Khash Kinactive Klh Kbusy Kdoing Khome Kgroup Kcaching];
  unfold tok_refs, tok_flags, tok_lasts; cbn; rewrite ?one_same, ?fupd_same, ?occ_cons, ?one_same; intros;
  repeat match goal with E : state s0 ?b = _ |- _ => progress rewrite E in * end; cbn [Nat.b2n] in *;
  try (assert (d' = d) as -> by lia);
  split; [split; cbn; bits; cbn [Nat.b2n]; rewrite ?Nat.add_0_r; try done; try lia; try (intros; apply Kbusy; lia); try (intros; exfalso; lia)|active_tac].

(** The obligations of [inv_step], each with the lemma that settles it in the common case. *)
Ltac use_step t p p' x s s' :=
  match goal with Hinv : Raid5CacheInv.inv _ ?st, Hp : threads ?st !! t = Some p, Hx : stripes ?st !! x = Some s |- _ =>
    eapply (inv_step conf st _ t p p' x s s' Hinv Hp);
    [ try reflexivity
    | exact Hx
    | cbn; rewrite ?(alter_insert_eq _ _ _ _ Hx), ?alter_insert_same; first [reflexivity|by rewrite insert_id|idtac]
    | intros y Hy; tokens
    | local_tac s
    | cbn; try (by apply (lists_ok_same _ _ x s); [apply Hinv|..])
    | try reflexivity
    | try (by apply (keys_kept st x s))
    | try (by apply (locks_kept st _ t p))
    | try exact I
    | cbn; try (intros; lia); try (by intros; left); try (intros; congruence)
    | try reflexivity
    | try reflexivity
    | try (by apply (bit_kept st _ t p p')) ]
  end.

Lemma release_ok st t p w x :
  inv st -> threads st !! t = Some p -> (p = Idle /\ users st x = S (w x) \/ p = RelStart x /\ users st x = w x) ->
  (forall y, y <> x -> w y = users st y) -> safe (raid5_release_stripe t x (with_users w st)).
Proof.
  intros Hinv Hp Hw Hne.
  destruct (ref_alive st x Hinv) as (s & Hx & Hok & Hc).
  { apply (refs_pos st t p x Hp). destruct Hw as [[-> ?]|[-> ?]]; cbn; rewrite ?one_same; lia. }
  unfold raid5_release_stripe, stripe. cbn. rewrite Hx. cbn.
  rewrite (proj2 (Nat.eqb_neq (count s) 0)) by lia.
  destruct (Nat.eqb_spec (count s) 1) as [E1|E1]; cbn [safe]; destruct Hw as [[-> ?]|[-> ?]].
  - use_step t Idle (RelLast x) x s s. rewrite Hne by done. tokens.
  - use_step t (RelStart x) (RelLast x) x s s. rewrite Hne by done. tokens.
  - use_step t Idle Idle x s (set_count (count s - 1) s). rewrite Hne by done. tokens.
  - use_step t (RelStart x) Idle x s (set_count (count s - 1) s). rewrite Hne by done. tokens.
Qed.

Lemma release_last_ok st t x : inv st -> threads st !! t = Some (RelLast x) -> safe (release_last conf t x st).
Proof.
  intros Hinv Hp. destruct (ref_alive st x Hinv) as (s & Hx & Hok & Hc).
  { apply (refs_pos st t _ x Hp). cbn. rewrite one_same. lia. }
  unfold release_last, stripe. rewrite Hx. cbn.
  destruct (has_thread conf); cbn [negb]; [destruct (state s STRIPE_ON_RELEASE_LIST) eqn:Ef|]; cbn [safe].
  - use_step t (RelLast x) (RelSlow x) x s s.
  - use_step t (RelLast x) (RelAdd x) x s (put_bit STRIPE_ON_RELEASE_LIST true s).
  - use_step t (RelLast x) (RelSlow x) x s s.
Qed.

Lemma release_add_ok st t x : inv st -> threads st !! t = Some (RelAdd x) ->
  inv (go t Idle (with_released (x :: released_stripes st) st)).
Proof.
  intros Hinv Hp. destruct (ref_alive st x Hinv) as (s & Hx & Hok & Hc).
  { apply (refs_pos st t _ x Hp). cbn. rewrite one_same. lia. }
  use_step t (RelAdd x) Idle x s s.
Qed.

Lemma release_slow_ok st t x : inv st -> threads st !! t = Some (RelSlow x) -> safe (release_slow t x st).
Proof.
  intros Hinv Hp. destruct (ref_alive st x Hinv) as (s & Hx & Hok & Hc).
  { apply (refs_pos st t _ x Hp). cbn. rewrite one_same. lia. }
  unfold release_slow, stripe. rewrite Hx. cbn.
  rewrite (proj2 (Nat.eqb_neq (count s) 0)) by lia.
  destruct (Nat.eqb_spec (count s) 1) as [E1|E1]; cbn [negb].
  - destruct (device_lock st) eqn:Hd; cbn [safe]; [done|].
    use_step t (RelSlow x) (Do x (KSlow (hash_lock_index s))) x s (set_count 0 s).
    + split; [lia|]. intros _. split; [done|]. destruct Kbusy as [?|Hpl]; [lia|done|lia].
    + by apply (locks_take_dev st _ t (RelSlow x)).
    + exists (set_count 0 s). cbn. by rewrite (lookup_alter_upd _ _ _ _ Hx).
  - use_step t (RelSlow x) Idle x s (set_count (count s - 1) s).
Qed.

Lemma put_ok st t x k : inv st -> threads st !! t = Some (Put x k) -> safe (__release_stripe t x k st).
Proof.
  intros Hinv Hp. destruct (ref_alive st x Hinv) as (s & Hx & Hok & Hc).
  { apply (refs_pos st t _ x Hp). cbn. rewrite one_same. lia. }
  unfold __release_stripe, stripe. rewrite Hx. cbn.
  rewrite (proj2 (Nat.eqb_neq (count s) 0)) by lia.
  destruct (Nat.eqb_spec (count s) 1) as [E1|E1]; cbn [safe].
  - use_step t (Put x k) (Do x k) x s (set_count (count s - 1) s).
    + by destruct k; tokens.
    + split; [lia|]. intros _. split; [lia|]. destruct Kbusy as [?|Hpl]; [lia|done|lia].
    + pose proof (proj2 (proj2 (inv_thread _ _ Hinv t _ Hp))) as Hk. destruct k as [| | |h]; try exact I.
      destruct Hk as (s0 & Hs0 & Hh). exists (set_count (count s - 1) s). cbn. rewrite (lookup_alter_upd _ _ _ _ Hx). split; [done|]. by simplify_eq.
  - use_step t (Put x k) (Locked k) x s (set_count (count s - 1) s).
    by destruct k; tokens.
Qed.

(** * do_release_stripe *)

(** The stripe [x] goes from [s] to [s'] and, if [oL] is a list, to its end. *)
Record placed (st st' : cache) (x : nat) (s s' : stripe_head) (temp : lru_list) (oL : option lru_list) (da : Z) : Prop := {
  pl_stripes : stripes st' = <[x := s']> (stripes st);
  pl_lists : lists st' = match oL with Some L => upd_list (lists st) L (lists st L ++ [x]) | None => lists st end;
  pl_threads : threads st' = threads st;
  pl_users : users st' = users st;
  pl_released : released_stripes st' = released_stripes st;
  pl_device : device_lock st' = device_lock st;
  pl_hash : hash_locks st' = hash_locks st;
  pl_empty : empty_inactive_list_nr st' = empty_inactive_list_nr st;
  pl_active : active_stripes st' = active_stripes st + da;
  pl_cnt : forall g, stripes_cnt st' g = stripes_cnt st g + (if decide (list_group oL = Some g) then 1 else 0);
  pl_key : hashed s' = hashed s /\ sector s' = sector s /\ generation s' = generation s;
  pl_index : hash_lock_index s' = hash_lock_index s;
  pl_count : count s' = count s;
  pl_bits : forall b, cache_bit b = true -> state s' b = state s b;
  pl_caching : state s' STRIPE_R5C_CACHING = true -> state s STRIPE_R5C_CACHING = true;
  pl_lru : lru s' = oL;
  pl_group : group s' = list_group oL;
  pl_home : match oL with
    | None => state s' STRIPE_HANDLE = false /\ state s' STRIPE_EXPANDING = true
    | Some L => state s' STRIPE_HANDLE = to_handle L /\ (L = temp \/ list_hash oL = None) /\ on_plug oL = O /\ L <> bit_head
    end;
}.

Lemma list_add_tail_eq st t x s L : stripes st !! x = Some s -> lru s = None -> may_write st t L = true ->
  list_add_tail t x L st =
  Next (upd_stripe x (set_lru (Some L)) (with_lists (upd_list (lists st) L (lists st L ++ [x])) st)).
Proof. intros Hx El Hm. unfold list_add_tail, stripe. rewrite Hx. cbn. by rewrite El, Hm. Qed.

Lemma may_write_dev st t L : device_lock st = Some t ->
  match L with inactive_list _ | plug_list _ => False | temp_inactive_list t' _ | local_list t' _ => t' = t | _ => True end ->
  may_write st t L = true.
Proof.
  intros Hd HL. unfold may_write. rewrite Hd, bool_decide_eq_true_2 by done.
  destruct L; try done; subst; by rewrite Nat.eqb_refl.
Qed.


Lemma write_out_ok st x s n : stripes st !! x = Some s -> (state s STRIPE_R5C_CACHING = true -> r5c_is_writeback conf = true) ->
  exists st1 s1, release_write_out conf x n st = Next st1 /\ stripes st1 = <[x := s1]> (stripes st) /\
    lists st1 = lists st /\ threads st1 = threads st /\ users st1 = users st /\ released_stripes st1 = released_stripes st /\
    device_lock st1 = device_lock st /\ hash_locks st1 = hash_locks st /\
    empty_inactive_list_nr st1 = empty_inactive_list_nr st /\ active_stripes st1 = active_stripes st /\
    stripes_cnt st1 = stripes_cnt st /\
    hashed s1 = hashed s /\ sector s1 = sector s /\ generation s1 = generation s /\ hash_lock_index s1 = hash_lock_index s /\
    count s1 = count s /\ lru s1 = lru s /\ group s1 = group s /\ (forall b, cache_bit b = true -> state s1 b = state s b) /\
    (state s1 STRIPE_R5C_CACHING = true -> state s STRIPE_R5C_CACHING = true).
Proof.
  intros Hx Hc. unfold release_write_out, stripe. rewrite Hx. cbn.
  destruct (state s STRIPE_SYNC_REQUESTED || _).
  - destruct (state s STRIPE_R5C_CACHING) eqn:Ec; cbn.
    + unfold r5c_make_stripe_write_out, stripe. rewrite Hx. cbn. rewrite Hc by done. cbn.
      eexists _, _. split; [reflexivity|]. destruct (state s STRIPE_PREREAD_ACTIVE); cbn;
        rewrite (alter_insert_eq _ _ _ _ Hx), alter_insert_same; split_and!; try done; intros b Hb; cbn; by destruct b.
    + eexists _, _. split; [reflexivity|]. cbn. rewrite (alter_insert_eq _ _ _ _ Hx).
      split_and!; try done; [intros b Hb; by destruct b|]. cbn. bits. congruence.
  - exists st, s. by rewrite insert_id.
Qed.

Ltac placed_tac :=
  split; cbn; try done; try (intros b Hb; by destruct b); try (intros g; rewrite decide_False by done; lia); try lia.

Lemma wakeup_placed st t x s temp : stripes st !! x = Some s -> lru s = None -> device_lock st = Some t ->
  state s STRIPE_HANDLE = true ->
  exists st' s' L, raid5_wakeup_stripe_thread conf t x st = Next st' /\ state s' STRIPE_HANDLE = true /\
    placed st st' x s s' temp (Some L) 0.
Proof.
  intros Hx El Hd Hh. unfold raid5_wakeup_stripe_thread, stripe. rewrite Hx. cbn. rewrite El.
  set (c := if cpu_online conf (cpu s) then _ else _). set (g := cpu_to_group conf c).
  set (L := if stripe_is_lowprio s then group_loprio g else group_handle g).
  erewrite (list_add_tail_eq _ t x (set_cpu c s)); [|cbn; by apply lookup_alter_upd|done|apply may_write_dev; [done|by unfold L; destruct (stripe_is_lowprio s)]].
  cbn. exists (if (worker_cnt_per_group conf =? 0)%nat then
      upd_stripe x (set_group (Some g)) (add_stripes_cnt g 1 (upd_stripe x (set_lru (Some L))
        (with_lists (upd_list (lists st) L (lists st L ++ [x])) (upd_stripe x (set_cpu c) st))))
    else with_working (fupd (working (other st)) g (wake_workers (worker_cnt_per_group conf - 1) 1
        (Z.quot (fupd (stripes_cnt st) g (stripes_cnt st g + 1) g) MAX_STRIPE_BATCH - 1) (fupd (working (other st) g) 0%nat true)))
      (upd_stripe x (set_group (Some g)) (add_stripes_cnt g 1 (upd_stripe x (set_lru (Some L))
        (with_lists (upd_list (lists st) L (lists st L ++ [x])) (upd_stripe x (set_cpu c) st)))))),
    (set_group (Some g) (set_lru (Some L) (set_cpu c s))), L.
  assert (list_group (Some L) = Some g) as EL by (unfold L; by destruct (stripe_is_lowprio s)).
  destruct (worker_cnt_per_group conf =? 0)%nat; (split; [reflexivity|]; split; [exact Hh|]).
  all: split; try done; try (cbn; by rewrite (alter_insert_eq _ _ _ _ Hx), !alter_insert_same); try (cbn; lia).
  all: try (intros g'; cbn -[list_group]; rewrite EL; unfold fupd; destruct (Nat.eqb_spec g' g) as [->|]; [by rewrite decide_True by done|rewrite decide_False by congruence; lia]).
  all: cbn; rewrite Hh; unfold L; destruct (stripe_is_lowprio s); split_and!; try done; by right.
Qed.

Lemma handle_placed st t x s temp : stripes st !! x = Some s -> lru s = None -> group s = None -> device_lock st = Some t ->
  state s STRIPE_HANDLE = true ->
  exists st' s' L, release_handle conf t x st = Next st' /\ state s' STRIPE_HANDLE = true /\
    placed st st' x s s' temp (Some L) 0.
Proof.
  intros Hx El Eg Hd Hh. unfold release_handle, stripe. rewrite Hx. cbn.
  destruct (state s STRIPE_DELAYED && _); [|destruct (state s STRIPE_BIT_DELAY && _)].
  - rewrite (list_add_tail_eq st t x s) by (done || by apply may_write_dev). eexists _, (set_lru (Some delayed_list) s), _.
    split; [reflexivity|]. split; [exact Hh|]. placed_tac. { by rewrite (alter_insert_eq _ _ _ _ Hx). } split_and!; auto.
  - rewrite (list_add_tail_eq st t x s) by (done || by apply may_write_dev). eexists _, (set_lru (Some bitmap_list) s), _.
    split; [reflexivity|]. split; [exact Hh|]. placed_tac. { by rewrite (alter_insert_eq _ _ _ _ Hx). } split_and!; auto.
  - set (s1 := put_bit STRIPE_BIT_DELAY false (put_bit STRIPE_DELAYED false s)).
    destruct (worker_cnt_per_group conf =? 0)%nat.
    + set (L := if stripe_is_lowprio s then loprio_list else handle_list).
      rewrite (list_add_tail_eq _ t x s1); [|cbn; by rewrite (lookup_alter_upd _ _ _ _ Hx)|done|apply may_write_dev; [done|by unfold L; destruct (stripe_is_lowprio s)]].
      eexists _, (set_lru (Some L) s1), L. split; [reflexivity|]. split; [cbn; by bits|]. unfold L, s1.
      destruct (stripe_is_lowprio s); placed_tac; try (by rewrite (alter_insert_eq _ _ _ _ Hx), alter_insert_same); bits; split_and!; auto.
    + destruct (wakeup_placed (upd_stripe x (fun s => put_bit STRIPE_BIT_DELAY false (put_bit STRIPE_DELAYED false s)) st) t x s1 temp)
        as (st' & s' & L & E & Hh' & []); [cbn; by rewrite (lookup_alter_upd _ _ _ _ Hx)|done..|].
      exists st', s', L. split; [done|]. split; [done|]. split; try done.
      * rewrite pl_stripes0. cbn. by rewrite (alter_insert_eq _ _ _ _ Hx), insert_insert_eq.
      * intros b Hb. rewrite pl_bits0 by done. by destruct b.
Qed.

Lemma idle_placed st t x s h temp n : stripes st !! x = Some s -> lru s = None -> group s = None -> device_lock st = Some t ->
  state s STRIPE_HANDLE = false -> (temp = temp_inactive_list t h \/ temp = local_list t h) ->
  exists st' s' oL, release_idle conf t x temp n st = Next st' /\ state s' STRIPE_HANDLE = false /\
    placed st st' x s s' temp oL (-1).
Proof.
  intros Hx El Eg Hd Hh Ht. unfold release_idle, stripe. rewrite Hx. cbn.
  set (st1 := if state s STRIPE_PREREAD_ACTIVE then _ else _).
  set (s1 := if state s STRIPE_PREREAD_ACTIVE then put_bit STRIPE_PREREAD_ACTIVE false s else s).
  assert (stripes st1 = <[x := s1]> (stripes st)) as Es.
  { unfold st1, s1. destruct (state s STRIPE_PREREAD_ACTIVE); cbn; [by rewrite (alter_insert_eq _ _ _ _ Hx)|by rewrite insert_id]. }
  assert (stripes st1 !! x = Some s1) as Hx1 by (by rewrite Es, lookup_insert_eq).
  assert (lists st1 = lists st /\ threads st1 = threads st /\ users st1 = users st /\ released_stripes st1 = released_stripes st /\
    device_lock st1 = device_lock st /\ hash_locks st1 = hash_locks st /\
    empty_inactive_list_nr st1 = empty_inactive_list_nr st /\ active_stripes st1 = active_stripes st /\
    stripes_cnt st1 = stripes_cnt st) as (E1 & E2 & E3 & E4 & E5 & E6 & E7 & E8 & E9) by (unfold st1; by destruct (state s STRIPE_PREREAD_ACTIVE)).
  assert (lru s1 = None /\ group s1 = None /\ state s1 STRIPE_HANDLE = false /\ count s1 = count s /\
    hash_lock_index s1 = hash_lock_index s /\ (hashed s1 = hashed s /\ sector s1 = sector s /\ generation s1 = generation s) /\
    (forall b, cache_bit b = true -> state s1 b = state s b) /\ state s1 STRIPE_R5C_CACHING = state s STRIPE_R5C_CACHING /\
    state s1 STRIPE_EXPANDING = state s STRIPE_EXPANDING)
    as (F1 & F2 & F3 & F4 & F5 & F6 & F7 & F8 & F9).
  { unfold s1. destruct (state s STRIPE_PREREAD_ACTIVE); split_and!; try done; intros b Hb; by destruct b. }
  clearbody st1 s1.

  destruct (state s STRIPE_EXPANDING) eqn:Ex.
  { exists (add_active (-1) st1), s1, None. split; [done|]. split; [done|]. split; cbn; rewrite ?E8, ?E9; try done; try lia; try congruence.
    intros g. rewrite decide_False by done. lia. }
  destruct (negb (r5c_is_writeback conf) || _).
  { rewrite (list_add_tail_eq _ t x s1); [|done..|apply may_write_dev; [cbn; congruence|by destruct Ht as [-> | ->]]].
    eexists _, (set_lru (Some temp) s1), (Some temp). split; [reflexivity|]. split; [done|].
    split; cbn; rewrite ?E1, ?E8, ?E9, ?(alter_insert_eq _ _ _ _ Hx1), ?Es, ?insert_insert_eq; try done; try congruence.
    all: try (by destruct Ht as [-> | ->]; cbn; intros; rewrite ?decide_False by done; lia).
    all: try (by destruct Ht as [-> | ->]).
    rewrite F3. destruct Ht as [-> | ->]; split_and!; auto. }
  destruct (n =? _)%nat.
  - set (s2 := put_bit STRIPE_R5C_PARTIAL_STRIPE false (put_bit STRIPE_R5C_FULL_STRIPE true s1)).
    set (st2 := if state s STRIPE_R5C_PARTIAL_STRIPE then _ else _).
    assert (stripes st2 = stripes st1 /\ lists st2 = lists st /\ threads st2 = threads st /\ users st2 = users st /\
      released_stripes st2 = released_stripes st /\ device_lock st2 = device_lock st /\ hash_locks st2 = hash_locks st /\
      empty_inactive_list_nr st2 = empty_inactive_list_nr st /\ active_stripes st2 = active_stripes st - 1 /\
      stripes_cnt st2 = stripes_cnt st) as (G0 & G1 & G2 & G3 & G4 & G5 & G6 & G7 & G8 & G9).
    { unfold st2. destruct (state s STRIPE_R5C_PARTIAL_STRIPE), (state s STRIPE_R5C_FULL_STRIPE); cbn; split_and!; try done; lia. }
    clearbody st2. rewrite (list_add_tail_eq _ t x s2); [|cbn; by rewrite G0, (lookup_alter_upd _ _ _ _ Hx1)|done|apply may_write_dev; [cbn; congruence|done]].
    eexists _, (set_lru (Some r5c_full_stripe_list) s2), (Some r5c_full_stripe_list). split; [reflexivity|].
    split; [unfold s2; cbn; by bits|].
    split; cbn; rewrite ?G0, ?G1, ?G8, ?G9, ?(alter_insert_eq _ _ _ _ Hx1), ?alter_insert_same, ?Es, ?insert_insert_eq; try done; try congruence; try lia.
    + intros g. rewrite decide_False by done. lia.
    + intros b Hb. rewrite <- F7 by done. by destruct b.
    + unfold s2. cbn. bits. congruence.
    + unfold s2. cbn. bits. rewrite F3. split_and!; auto.
  - rewrite (list_add_tail_eq _ t x s1); [|done..|apply may_write_dev; [cbn; congruence|done]].
    eexists _, (set_lru (Some r5c_partial_stripe_list) s1), (Some r5c_partial_stripe_list). split; [reflexivity|]. split; [done|].
    split; cbn; rewrite ?E1, ?E8, ?E9, ?(alter_insert_eq _ _ _ _ Hx1), ?Es, ?insert_insert_eq; try done; try congruence; try lia.
    + intros g. rewrite decide_False by done. lia.
    + rewrite F3. split_and!; auto.
Qed.

Lemma do_release_placed st t x s h temp : stripes st !! x = Some s -> lru s = None -> group s = None -> device_lock st = Some t ->
  active_stripes st <> 0 -> (state s STRIPE_R5C_CACHING = true -> r5c_is_writeback conf = true) ->
  (temp = temp_inactive_list t h \/ temp = local_list t h) ->
  exists st' s' oL, do_release_stripe conf t x temp st = Next st' /\
    placed st st' x s s' temp oL (if state s' STRIPE_HANDLE then 0 else -1).
Proof.
  intros Hx El Eg Hd Ha Hc Ht. unfold do_release_stripe, stripe. rewrite Hx. cbn. rewrite El.
  rewrite bool_decide_eq_false_2 by (by intros [? ?]). rewrite (proj2 (Z.eqb_neq _ _)) by done.
  destruct (write_out_ok st x s (if r5c_is_writeback conf then injournal s else 0%nat) Hx Hc)
    as (st1 & s1 & E & E0 & E1 & E2 & E3 & E4 & E5 & E6 & E7 & E8 & E9 & F0 & F1 & F2 & F3 & F4 & F5 & F6 & F7 & F8).
  rewrite E. cbn. assert (stripes st1 !! x = Some s1) as Hx1 by (by rewrite E0, lookup_insert_eq). rewrite Hx1. cbn.
  assert (forall st' s' oL da, placed st1 st' x s1 s' temp oL da -> placed st st' x s s' temp oL da) as Hpl.
  { intros st' s' oL da []. split; try congruence; try done.
    - by rewrite pl_stripes0, E0, insert_insert_eq.
    - rewrite pl_lists0. by destruct oL; rewrite ?E1.
    - intros g. by rewrite pl_cnt0, E9.
    - intros b Hb. by rewrite pl_bits0, F7.
    - auto. }
  destruct (state s1 STRIPE_HANDLE) eqn:Hh.
  - destruct (handle_placed st1 t x s1 temp) as (st' & s' & L & E' & Eh & P); [congruence..|].
    exists st', s', (Some L). rewrite Eh. auto.
  - destruct (idle_placed st1 t x s1 h temp (if r5c_is_writeback conf then injournal s else 0%nat))
      as (st' & s' & oL & E' & Eh & P); [congruence..|]. exists st', s', oL. rewrite Eh. auto.
Qed.

(** What [do_release_stripe] finds and does. *)
Lemma doing_placed st t x k : inv st -> threads st !! t = Some (Do x k) ->
  exists s st' s' oL, stripes st !! x = Some s /\ stripe_ok s (refs st x) (unplugs st x) (flags st x) (lasts st x) (doing st x) /\
    count s = O /\ lru s = None /\ device_lock st = Some t /\ do_release_stripe conf t x (temp_list t k s) st = Next st' /\
    placed st st' x s s' (temp_list t k s) oL (if state s' STRIPE_HANDLE then 0 else -1).
Proof.
  intros Hinv Hp. assert (0 < doing st x)%nat as Hd.
  { unfold doing. pose proof (tok_lookup (doing_pc x) _ _ _ Hp) as H. cbn in H. rewrite one_same in H. lia. }
  destruct (stripes st !! x) as [s|] eqn:Hx; [|by destruct (inv_dead _ _ Hinv x Hx); lia].
  pose proof (inv_stripe _ _ Hinv x s Hx) as Hok. destruct (proj2 (ok_doing _ _ _ _ _ _ _ Hok) Hd) as [Hc Hl].
  pose proof (inv_thread _ _ Hinv t _ Hp) as (Hdev & _ & _). specialize (Hdev eq_refl).
  destruct (do_release_placed st t x s (match k with KSlow h => h | _ => hash_lock_index s end) (temp_list t k s))
    as (st' & s' & oL & E & P); try done; [..|by exists s, st', s', oL].
  - by rewrite (ok_group _ _ _ _ _ _ _ Hok), Hl.
  - rewrite (inv_active _ _ Hinv). pose proof (count_active_pos (stripes st) (doing st) x s Hx) as Hpos.
    enough (0 < count_active (stripes st) (doing st))%nat by lia. apply Hpos. unfold active.
    rewrite (proj2 (Nat.eqb_neq (doing st x) 0)) by lia. by rewrite orb_true_r.
  - apply Hok.
  - destruct k; auto.
Qed.

Lemma do_ok st t x k : inv st -> threads st !! t = Some (Do x k) -> safe (continue conf t 0 (Do x k) st).
Proof.
  intros Hinv Hp. destruct (doing_placed st t x k Hinv Hp) as (s & st' & s' & oL & Hx & Hok & Hc & Hl & Hdev & E & P).
  pose proof (proj2 (proj2 (inv_thread _ _ Hinv t _ Hp))) as Hfind.
  cbn [continue]. unfold stripe at 1. rewrite Hx. cbn [obind].
  rewrite E. cbn [obind safe]. destruct P as [P1 P2 P3 P4 P5 P6 P7 P8 P9 P10 P11 P12 P13 P14 P15 P16 P17 P18].
  apply (inv_step conf st (go t (Locked k) st') t (Do x k) (Locked k) x s s' Hinv Hp).
  - cbn. by rewrite P3.
  - done.
  - done.
  - intros y Hy. unfold same_tokens, tok_refs, tok_flags, tok_lasts. cbn. rewrite P4, P5, one_ne by done. split_and!; lia.
  - intros r u f l d r' u' f' l' d' K. unfold tok_refs, tok_flags, tok_lasts. cbn. rewrite P4, P5, one_same. intros.
    destruct K as [Kcount Kunplug Kflag Klast Kindex Khash Kinactive Klh Kbusy Kdoing Khome Kgroup Kcaching].
    assert (d = 1%nat /\ d' = O) as [-> ->] by lia. rewrite Hc, Hl in *.
    assert (on_plug oL = O) as Hop by (by destruct oL; [apply P18|]).
    split.
    + split; rewrite ?P13, ?P16, ?Hop, ?P12, ?(P14 STRIPE_ON_UNPLUG_LIST eq_refl), ?(P14 STRIPE_ON_RELEASE_LIST eq_refl),
        ?(P14 STRIPE_ON_INACTIVE_LIST eq_refl); cbn in *; try done; try lia; auto.
      * by destruct P11 as (-> & -> & _).
      * split; [by intros ?%Kinactive|]. intros ->. destruct P18 as (_ & [Ht|Ht] & _); [by destruct k|done].
      * intros h Hh. destruct oL as [L|]; [|done]. destruct P18 as (_ & [-> |Ht] & _); [|cbn in *; congruence].
        destruct k; cbn in Hh; try congruence. destruct Hfind as (s0 & Hs0 & Hh0). congruence.
      * intros _ _. unfold home. rewrite P16. destruct oL as [L|]; [|done]. destruct P18 as (P18 & _ & P18' & _). by destruct L.
    + rewrite P9. unfold active. rewrite P13, Hc. cbn. destruct (state s' STRIPE_HANDLE), (state s STRIPE_HANDLE); cbn; lia.
  - cbn. rewrite P2. destruct oL as [L|]; [by apply (lists_ok_add _ _ x s); [apply Hinv|..]|].
    apply (lists_ok_same _ _ x s); [apply Hinv|done|congruence].
  - done.
  - apply (keys_kept st x s); [done|done|apply P11..].
  - apply (locks_kept st _ t (Do x k)); try done. intros h. cbn. by rewrite P7.
  - exact I.
  - intros _ Hi. left. rewrite P13, P14 by done. done.
  - cbn. rewrite P8, P2. destruct oL as [L|]; [|done]. rewrite (count_empty_ext (lists st)); [done|]. intros i.
    apply upd_list_ne. intros <-. destruct P18 as (_ & [Ht|Ht] & _); [by destruct k|done].
  - intros g. cbn. rewrite P10, P2. destruct oL as [L|]; [|rewrite decide_False by done; lia].
    rewrite group_length_add. lia.
  - apply (bit_kept st _ t (Do x k) (Locked k)); try done.
    + cbn. by rewrite P3.
    + cbn. rewrite P2. destruct oL as [L|]; [|done]. apply upd_list_ne. intros <-. by apply P18.
Qed.

(** * The other steps under [device_lock] *)

Lemma list_del_eq st t x s L : stripes st !! x = Some s -> lru s = Some L -> may_write st t L = true ->
  list_del_init t x st =
  Next (upd_stripe x (set_lru None) (with_lists (upd_list (lists st) L (filter (fun i => i <> x) (lists st L))) st)).
Proof. intros Hx El Hm. unfold list_del_init, stripe. rewrite Hx. cbn. by rewrite El, Hm. Qed.

(** A stripe on a list of stripes without references. *)
Lemma listed st x L : inv st -> x ∈ lists st L -> on_plug (Some L) = O ->
  exists s, stripes st !! x = Some s /\ lru s = Some L /\ count s = O /\ doing st x = O /\ NoDup (lists st L) /\
    stripe_ok s (refs st x) (unplugs st x) (flags st x) (lasts st x) (doing st x).
Proof.
  intros Hinv Hin Hpl. destruct (inv_lists _ _ Hinv L) as [Hn Hi]. apply Hi in Hin as (s & Hx & El).
  pose proof (inv_stripe _ _ Hinv x s Hx) as Hok. exists s. split_and!; try done.
  - destruct (decide (count s = O)) as [|Hc]; [done|]. destruct (ok_busy _ _ _ _ _ _ _ Hok); [lia|congruence|].
    rewrite El in *. lia.
  - destruct (decide (doing st x = O)) as [|Hd]; [done|]. destruct (proj2 (ok_doing _ _ _ _ _ _ _ Hok)); [lia|congruence].
Qed.

Ltac use_frame t p p' :=
  match goal with Hinv : Raid5CacheInv.inv _ ?st, Hp : threads ?st !! t = Some p |- _ =>
    eapply (inv_frame conf st _ t p p' Hinv Hp);
    [ reflexivity | reflexivity | reflexivity | intros y; tokens | try (by apply (locks_kept st _ t p)) | try exact I
    | reflexivity | reflexivity | reflexivity | try (by apply (bit_kept st _ t p p')) ]
  end.

(** A stripe [s0] that is on a list, and one without references. *)
Ltac unlink_tac s0 :=
  intros r u f l d r' u' f' l' d' [Kcount Kunplug Kflag Klast Kindex Khash Kinactive Klh Kbusy Kdoing Khome Kgroup Kcaching];
  unfold home in Khome; repeat match goal with E : lru s0 = _ |- _ => rewrite E in Kcount, Kunplug, Kinactive, Kbusy, Kdoing, Khome, Kgroup; clear E end;
  repeat match goal with E : count s0 = _ |- _ => rewrite E in Kcount, Kdoing, Khome; revert E end;
  assert (d = O) as -> by (destruct (decide (d = O)); [done|by destruct (proj2 Kdoing ltac:(lia))]);
  unfold tok_refs, tok_flags, tok_lasts; cbn; rewrite ?one_same, ?fupd_same, ?occ_cons, ?one_same; intros;
  assert (d' = O) as -> by lia;
  repeat match goal with E : state s0 ?b = _ |- _ => progress rewrite E in * end; cbn in Kcount, Kunplug, Khome, Kgroup;
  split; [split; cbn; bits; cbn [Nat.b2n]; rewrite ?Nat.add_0_r; try done; try lia; try (by left); try (intros; exfalso; lia);
    try (split; [lia|]; intros ?; exfalso; lia); try (split; [by intros ?%Kinactive|done])|active_tac; try (rewrite Khome by done; done)].

(** The obligations of [inv_unlink]. *)
Ltac use_unlink t p p' x s s' L :=
  match goal with Hinv : Raid5CacheInv.inv _ ?st, Hp : threads ?st !! t = Some p, Hx : stripes ?st !! x = Some s, Hl : lru s = Some L |- _ =>
    eapply (inv_unlink conf st _ t p p' x s s' L Hinv Hp);
    [ try reflexivity
    | exact Hx
    | exact Hl
    | try reflexivity
    | cbn; rewrite ?(alter_insert_eq _ _ _ _ Hx), ?alter_insert_same; first [reflexivity|idtac]
    | try reflexivity
    | intros y Hy; tokens
    | unlink_tac s
    | try reflexivity
    | try (by apply (keys_kept st x s))
    | try (by apply (locks_kept st _ t p))
    | try exact I
    | try (by intros ? [=])
    | cbn; try lia
    | try (intros g; cbn; rewrite ?decide_False by done; lia)
    | try done ]
  end.

Lemma locked_ok st t k : inv st -> threads st !! t = Some (Locked k) -> safe (locked_step t k st).
Proof.
  intros Hinv Hp. pose proof (inv_thread _ _ Hinv t _ Hp) as (Hdev & _ & _). specialize (Hdev eq_refl).
  destruct k as [|[|x todo]| |h]; cbn [locked_step].
  - use_frame t (Locked KDone) Idle. by apply (locks_drop_dev st _ t (Locked KDone)).
  - use_frame t (Locked (KDrain [])) Idle. by apply (locks_drop_dev st _ t (Locked (KDrain []))).
  - destruct (ref_alive st x Hinv) as (s & Hx & Hok & Hc).
    { apply (refs_pos st t _ x Hp). cbn. rewrite occ_cons, one_same. lia. }
    unfold stripe. rewrite Hx. cbn.
    use_step t (Locked (KDrain (x :: todo))) (Put x (KDrain todo)) x s (put_bit STRIPE_ON_RELEASE_LIST false s).
  - destruct (lists st bit_head) as [|x rest] eqn:El; cbn [safe].
    { use_frame t (Locked KBit) Idle; [by apply (locks_drop_dev st _ t (Locked KBit))|]. left. cbn. by rewrite El. }
    destruct (listed st x bit_head Hinv) as (s & Hx & Hl & Hc & Hd & Hn & Hok); [rewrite El; by left|done|].
    rewrite (list_del_eq st t x s bit_head) by (done || by apply may_write_dev). cbn [obind safe].
    use_unlink t (Locked KBit) (Put x KBit) x s (set_count (S (count s)) (set_lru None s)) bit_head.
  - use_frame t (Locked (KSlow h)) (SpliceLocal h). by apply (locks_drop_dev st _ t (Locked (KSlow h))).
Qed.

Lemma drain_ok st t : inv st -> threads st !! t = Some Idle -> safe (release_stripe_list t st).
Proof.
  intros Hinv Hp. unfold release_stripe_list. destruct (device_lock st) eqn:Hd; [done|]. cbn [safe].
  use_frame t Idle (Locked (KDrain (rev (released_stripes st)))).
  - rewrite !occ_rev. split_and!; try done; cbn; lia.
  - by apply (locks_take_dev st _ t Idle).
Qed.

Lemma handled_ok st t x : inv st -> threads st !! t = Some Idle -> safe (start conf t (Handled x) st).
Proof.
  intros Hinv Hp. cbn [start]. unfold release_handled. destruct (device_lock st) eqn:Hd; [done|]. unfold as_user.
  destruct (Nat.eqb_spec (users st x) 0) as [|Hu]; [done|]. cbn [safe].
  use_frame t Idle (Put x KDone); [|by apply (locks_take_dev st _ t Idle)].
  destruct (decide (y = x)) as [->|Hne]; tokens.
Qed.

(** * Lists that are moved *)

Lemma fupd_fupd_id {A} (f : nat -> A) i v j : fupd (fupd f i v) i (f i) j = f j.
Proof. unfold fupd. by destruct (Nat.eqb_spec j i) as [->|]. Qed.

(** A stripe that is spliced to its inactive list. *)
Lemma spliced_ok s r u f l d src h : stripe_ok s r u f l d -> lru s = Some src -> list_hash (Some src) = Some h ->
  (forall h', src <> inactive_list h') ->
  let s' := set_lru (Some (inactive_list h)) (put_bit STRIPE_ON_INACTIVE_LIST true s) in
  stripe_ok s' r u f l d /\ active s' d = active s d.
Proof.
  intros [Kcount Kunplug Kflag Klast Kindex Khash Kinactive Klh Kbusy Kdoing Khome Kgroup Kcaching] Hl Hh Hs.
  rewrite Hl in *. pose proof (Klh h Hh) as Eh. assert (on_plug (Some src) = O /\ to_handle src = false /\ list_group (Some src) = None) as (P1 & P2 & P3) by (by destruct src).
  split; [|unfold active; cbn; by bits]. split; cbn; bits; try done.
  - by rewrite Kcount, P1.
  - by rewrite Kunplug, P1.
  - by rewrite Eh.
  - by intros ? [= <-].
  - intros Hc. destruct (Kbusy Hc) as [|]; [done|lia].
  - split; [apply Kdoing|]. intros Hd. by destruct (proj2 Kdoing Hd).
  - intros Hc Hd. specialize (Khome Hc Hd). unfold home in *. rewrite Hl in Khome. cbn. bits. by destruct src.
  - by rewrite Kgroup, P3.
Qed.

(** What [release_inactive_stripe_list] is called for. *)
Definition splicing (t : nat) (p p' : pc) (src : lru_list) (h : nat) : Prop :=
  (exists hs, p = Splice (h :: hs) /\ src = temp_inactive_list t h /\ p' = Splice hs) \/
  p = SpliceLocal h /\ src = local_list t h /\ p' = Idle.

Lemma splice_ok st t p p' src h : inv st -> threads st !! t = Some p -> splicing t p p' src h ->
  safe (st <- splice_inactive t src h st; Next (go t p' st)).
Proof.
  intros Hinv Hp Hpc.
  assert (has_dev p' = has_dev p /\ hash_of p' = hash_of p /\ cont_of p <> Some KBit /\ forall st, find_ok st p') as (D1 & D2 & D3 & D4)
    by (by destruct Hpc as [(hs & -> & _ & ->)|(-> & _ & ->)]).
  assert (forall st', users st' = users st -> released_stripes st' = released_stripes st -> forall y, same_tokens st st' p p' y) as Htok.
  { intros st' Eu Er y. unfold same_tokens, tok_refs, tok_flags, tok_lasts. rewrite Eu, Er.
    by destruct Hpc as [(hs & -> & _ & ->)|(-> & _ & ->)]. }
  assert (list_hash (Some src) = Some h /\ list_group (Some src) = None /\ (forall h', src <> inactive_list h') /\ src <> bit_head /\
    on_plug (Some src) = O) as (S1 & S2 & S3 & S4 & S5) by (by destruct Hpc as [(hs & -> & -> & ->)|(-> & -> & ->)]).
  assert (may_write (lock_hash t h st) t src = true) as Hw.
  { destruct Hpc as [(hs & _ & -> & _)|(_ & -> & _)]; cbn; rewrite Nat.eqb_refl, fupd_same, (bool_decide_eq_true_2 (Some t = Some t)) by done; by rewrite orb_true_r. }
  unfold splice_inactive. destruct (lists st src) as [|x0 rest] eqn:Esrc; cbn [is_empty obind safe].
  { apply (inv_frame conf st _ t p p' Hinv Hp); try done; [by apply Htok|by apply (locks_kept st _ t p)|by apply (bit_kept st _ t p p')]. }
  destruct (hash_locks st h) eqn:Hh; [done|]. rewrite Hw. cbn [negb orb].
  replace (may_write (lock_hash t h st) t (inactive_list h)) with true by (cbn; by rewrite fupd_same, bool_decide_eq_true_2).
  cbn [negb orb obind safe].
  set (fn := fun s => set_lru (Some (inactive_list h)) (put_bit STRIPE_ON_INACTIVE_LIST true s)).
  set (st1 := if is_empty (lists (lock_hash t h st) (inactive_list h)) then _ else _).
  assert (stripes st1 = stripes st /\ lists st1 = lists st /\ threads st1 = threads st /\ users st1 = users st /\
    released_stripes st1 = released_stripes st /\ device_lock st1 = device_lock st /\ hash_locks st1 = fupd (hash_locks st) h (Some t) /\
    empty_inactive_list_nr st1 = empty_inactive_list_nr st - Z.b2z (is_empty (lists st (inactive_list h))) /\
    active_stripes st1 = active_stripes st /\ stripes_cnt st1 = stripes_cnt st)
    as (E1 & E2 & E3 & E4 & E5 & E6 & E7 & E8 & E9 & E10).
  { unfold st1. cbn [lock_hash with_hash_locks lists]. destruct (is_empty _); cbn; split_and!; try done; lia. }
  clearbody st1. apply (inv_move conf st _ t p p' fn src (inactive_list h) Hinv Hp); cbn; try done.
  - by rewrite E3.
  - by rewrite E1.
  - by rewrite E2.
  - by apply Htok.
  - intros x s r u f l d _ Hl Hok. by apply (spliced_ok s r u f l d src h).
  - apply (locks_kept st _ t p); try done. intros h'. cbn. rewrite E7, <- Hh. apply fupd_fupd_id.
  - destruct (listed st x0 src Hinv) as (s0 & _ & Hl0 & _ & _ & _ & Hok0); [rewrite Esrc; by left|done|].
    rewrite E8, E2, count_empty_splice; [lia|..|done|by rewrite Esrc].
    rewrite (ok_list_hash _ _ _ _ _ _ _ Hok0 h); [apply Hok0|by rewrite Hl0].
  - rewrite E2, E3, !upd_list_ne by auto. by apply (bit_kept st (go t p' st) t p p').
Qed.

Lemma bit_nodev st : inv st -> device_lock st = None -> lists st bit_head = [].
Proof.
  intros Hinv Hd. destruct (inv_bit _ _ Hinv) as [|(t & p & Hp & Hc)]; [done|].
  destruct (inv_thread _ _ Hinv t p Hp) as [H _]. rewrite Hd in H. by destruct p; cbn in *; try done; specialize (H eq_refl).
Qed.

Lemma doing_nodev st x : inv st -> device_lock st = None -> doing st x = O.
Proof.
  intros Hinv Hd. apply tok_zero. intros t p Hp. destruct (inv_thread _ _ Hinv t p Hp) as [H _]. rewrite Hd in H.
  by destruct p; cbn in *; try done; specialize (H eq_refl).
Qed.

Lemma bit_delay_ok st t : inv st -> threads st !! t = Some Idle -> safe (activate_bit_delay t st).
Proof.
  intros Hinv Hp. unfold activate_bit_delay. destruct (device_lock st) eqn:Hd; [done|]. cbn [safe].
  pose proof (bit_nodev st Hinv Hd) as Hb.
  apply (inv_move conf st _ t Idle (Locked KBit) (set_lru (Some bit_head)) bitmap_list bit_head Hinv Hp); [done|done|cbn; by rewrite Hb|done..| |done| |done| |done|].
  - intros x s r u f l d _ Hl [Kcount Kunplug Kflag Klast Kindex Khash Kinactive Klh Kbusy Kdoing Khome Kgroup Kcaching].
    rewrite Hl in *. split; [|done]. split; try done.
    + cbn. split; [by intros ?%Kinactive|done].
    + intros Hc. by destruct (Kbusy Hc).
    + cbn. split; [apply Kdoing|]. intros Hdo. by destruct (proj2 Kdoing Hdo).
    + intros Hc Hdo. specialize (Khome Hc Hdo). unfold home in *. by rewrite Hl in Khome.
  - by apply (locks_take_dev st _ t Idle).
  - cbn. rewrite (count_empty_ext (lists st)); [done|]. intros i. by rewrite !upd_list_ne by done.
  - right. exists t, (Locked KBit). cbn. by rewrite list_lookup_insert_eq by (by apply lookup_lt_Some in Hp).
Qed.

(** * find_get_stripe *)

Lemma find_zero_ok st t c x h : inv st -> threads st !! t = Some (FindZero x h) -> safe (continue conf t c (FindZero x h) st).
Proof.
  intros Hinv Hp. destruct (inv_thread _ _ Hinv t _ Hp) as (_ & _ & s & Hx & Hi). cbn [continue]. unfold stripe. rewrite Hx. cbn [obind].
  destruct (state s STRIPE_ON_INACTIVE_LIST) eqn:Es, (Nat.eqb_spec (count s) 0) as [Ec|Ec]; cbn [andb safe].
  - use_frame t (FindZero x h) (FindFast x h). exists s. by split_and!.
  - use_frame t (FindZero x h) (FindSlow x h). by exists s.
  - use_frame t (FindZero x h) (FindSlow x h). by exists s.
  - use_frame t (FindZero x h) (FindSlow x h). by exists s.
Qed.

Lemma find_fast_ok st t x h : inv st -> threads st !! t = Some (FindFast x h) ->
  safe (st <- find_fast t x h st; Next (go t Idle st)).
Proof.
  intros Hinv Hp. destruct (inv_thread _ _ Hinv t _ Hp) as (_ & Hh & s & Hx & Hi & Hc & Hs). specialize (Hh h eq_refl).
  pose proof (inv_stripe _ _ Hinv x s Hx) as Hok. pose proof (proj1 (ok_inactive _ _ _ _ _ _ _ Hok) Hs) as Hl. rewrite Hi in Hl.
  pose proof (ok_group _ _ _ _ _ _ _ Hok) as Hg. rewrite Hl in Hg.
  unfold find_fast. set (st1 := if (length (lists (add_active 1 st) (inactive_list h)) =? 1)%nat then _ else _).
  assert (exists n, st1 = with_empty_nr n (add_active 1 st) /\ n = empty_inactive_list_nr st + emptied (lists st) (inactive_list h))
    as (n & -> & En).
  { unfold st1. cbn. destruct (length _ =? 1)%nat; eexists; (split; [reflexivity|]); cbn; lia. }
  rewrite (list_del_eq _ t x s (inactive_list h)); [|done..|cbn; by rewrite Hh, bool_decide_eq_true_2].
  cbn [obind]. unfold leave_group, stripe. cbn [stripes upd_stripe with_stripes with_lists with_empty_nr add_active with_active].
  rewrite (alter_insert_eq _ _ _ _ Hx), alter_insert_same, lookup_insert_eq. cbn [obind group put_bit set_state set_lru]. rewrite Hg. cbn [obind safe list_group].
  use_unlink t (FindFast x h) Idle x s (set_count (S (count s)) (put_bit STRIPE_ON_INACTIVE_LIST false (set_lru None s))) (inactive_list h).
  - by apply (locks_drop_hash st _ t (FindFast x h) Idle h).
  - intros ? [= <-] t' Ht'. congruence.
  - done.
Qed.

(** The slow path on a stripe without references, with both locks held. *)
Lemma may_write_home st t L h : device_lock st = Some t -> hash_locks st h = Some t ->
  (forall h', list_hash (Some L) = Some h' -> h' = h) -> on_plug (Some L) = O -> may_write st t L = true.
Proof.
  intros Hd Hh HL Hp. unfold may_write. rewrite Hd, bool_decide_eq_true_2 by done.
  destruct L as [| | | | | | | | | |h'|t' h'|t' h'|]; try done; rewrite (HL h' eq_refl), Hh, bool_decide_eq_true_2 by done; [done|by destruct (t =? t')%nat..].
Qed.

(** The part of [find_slow] for a stripe [s] without references. *)
Definition find_slow_zero (t x h : nat) (s : stripe_head) (st : cache) : outcome cache :=
  st <- (let st := if state s STRIPE_HANDLE then st else add_active 1 st in
    bug_on bool_decide (lru s = None) && negb (state s STRIPE_EXPANDING);
    let nonempty := negb (is_empty (lists st (inactive_list h))) in
    st <- list_del_init t x st;
    let st := upd_stripe x (clear_bit STRIPE_ON_INACTIVE_LIST) st in
    let st := if is_empty (lists st (inactive_list h)) && nonempty then add_empty_nr 1 st else st in
    leave_group t x st);
  Next (go t Idle (unlock_hash h (with_device_lock None (get_ref x st)))).

Lemma leave_group_eq st t x s : stripes st !! x = Some s -> device_lock st = Some t ->
  exists st', leave_group t x st = Next st' /\ stripes st' = <[x := set_group None s]> (stripes st) /\ lists st' = lists st /\
    threads st' = threads st /\ users st' = users st /\ released_stripes st' = released_stripes st /\
    device_lock st' = device_lock st /\ hash_locks st' = hash_locks st /\
    empty_inactive_list_nr st' = empty_inactive_list_nr st /\ active_stripes st' = active_stripes st /\
    forall g, stripes_cnt st' g = stripes_cnt st g - (if decide (group s = Some g) then 1 else 0).
Proof.
  intros Hx Hd. unfold leave_group, stripe. rewrite Hx. cbn. destruct (group s) as [g|] eqn:Hg.
  - rewrite Hd, bool_decide_eq_true_2 by done. cbn. eexists. split; [done|]. cbn. rewrite (alter_insert_eq _ _ _ _ Hx). split_and!; try done.
    intros g'. unfold fupd. destruct (Nat.eqb_spec g' g) as [->|]; [rewrite decide_True by done|rewrite decide_False by congruence]; lia.
  - exists st. split_and!; try done; [|intros g; rewrite decide_False by done; lia]. rewrite insert_id; [done|]. rewrite Hx. f_equal. destruct s. cbn in *. by subst.
Qed.

Lemma leave_group_none st t x s : stripes st !! x = Some s -> group s = None -> leave_group t x st = Next st.
Proof. intros Hx Hg. unfold leave_group, stripe. rewrite Hx. cbn. by rewrite Hg. Qed.

Lemma obind_assoc {A B C} (o : outcome A) (f : A -> outcome B) (g : B -> outcome C) :
  obind (obind o f) g = obind o (fun x => obind (f x) g).
Proof. by destruct o. Qed.

Lemma list_del_none st t x s : stripes st !! x = Some s -> lru s = None -> list_del_init t x st = Next st.
Proof. intros Hx El. unfold list_del_init, stripe. rewrite Hx. cbn. by rewrite El. Qed.

Section FindSlow.
Context (st : cache) (t x h : nat) (s : stripe_head).
Context (Hinv : inv st) (Hp : threads st !! t = Some (FindSlow x h)) (Hd : device_lock st = None).
Context (Hh : hash_locks st h = Some t) (Hx : stripes st !! x = Some s) (Hi : hash_lock_index s = h) (Ec : count s = O).

(** The stripe is on a list. *)
Lemma find_slow_listed L : lru s = Some L -> safe (find_slow_zero t x h s (with_device_lock (Some t) st)).
Proof.
  intros Hl. pose proof (inv_stripe _ _ Hinv x s Hx) as Hok. pose proof (doing_nodev st x Hinv Hd) as Hdo.
  pose proof (ok_home _ _ _ _ _ _ _ Hok Ec Hdo) as Hhome. pose proof (ok_group _ _ _ _ _ _ _ Hok) as Hg.
  unfold find_slow_zero, home in *. rewrite Hl in *.
  assert (on_plug (Some L) = O /\ state s STRIPE_HANDLE = to_handle L) as [Hpl Hha] by (by destruct L).
  assert (forall h', list_hash (Some L) = Some h' -> h' = h) as HLh
    by (intros h' Hh'; rewrite <- Hl in Hh'; rewrite <- Hi; by apply (ok_list_hash _ _ _ _ _ _ _ Hok)).
  rewrite bool_decide_eq_false_2 by done. cbn [andb].
  set (st1 := if state s STRIPE_HANDLE then _ else _).
  assert (st1 = with_active (active_stripes st + if to_handle L then 0 else 1) (with_device_lock (Some t) st)) as ->.
  { unfold st1. rewrite Hha. destruct (to_handle L); [|done]. rewrite Z.add_0_r. by destruct st. }
  rewrite (list_del_eq _ t x s L); [|done..|by apply (may_write_home _ t L h)].
  cbn [obind lists upd_stripe with_stripes with_lists with_active with_device_lock stripes].
  set (st2 := if is_empty _ && _ then _ else _).
  destruct (inv_lists _ _ Hinv L) as [Hn Hin]. assert (x ∈ lists st L) as HxL by (apply Hin; eauto).
  assert (st2 = with_empty_nr (empty_inactive_list_nr st + emptied (lists st) L) (upd_stripe x (clear_bit STRIPE_ON_INACTIVE_LIST)
    (upd_stripe x (set_lru None) (with_lists (upd_list (lists st) L (filter (fun i => i <> x) (lists st L)))
      (with_active (active_stripes st + if to_handle L then 0 else 1) (with_device_lock (Some t) st)))))) as ->.
  { unfold st2. rewrite <- (emptied_eq (lists st) x L h) by done. destruct (is_empty _ && _); [done|]. cbn [Z.b2z]. rewrite Z.add_0_r. by destruct st. }
  edestruct leave_group_eq as (st3 & -> & E1 & E2 & E3 & E4 & E5 & E6 & E7 & E8 & E9 & E10);
    [cbn; by rewrite (alter_insert_eq _ _ _ _ Hx), alter_insert_same, lookup_insert_eq|done|].
  cbn [stripes lists threads users released_stripes device_lock hash_locks empty_inactive_list_nr active_stripes stripes_cnt
    with_empty_nr upd_stripe with_stripes with_lists with_active with_device_lock group put_bit set_state set_lru obind safe] in *.
  rewrite Hg in E10. rewrite (alter_insert_eq _ _ _ _ Hx), alter_insert_same, insert_insert_eq in E1.
  eapply (inv_unlink conf st _ t (FindSlow x h) Idle x s (set_count (S (count s)) (set_group None (put_bit STRIPE_ON_INACTIVE_LIST false (set_lru None s)))) L Hinv Hp); try done; cbn.
  - by rewrite E3.
  - by rewrite E1, alter_insert_same.
  - intros y Hy. tokens. rewrite E4, E5. tokens.
  - rewrite E9, E4, E5. destruct (to_handle L); unlink_tac s.
  - by apply (keys_kept st x s).
  - apply (locks_drop_hash st _ t (FindSlow x h) Idle h); try done. cbn. by rewrite E7.
  - intros h' -> t'. rewrite (HLh h') by done. congruence.
Qed.

(** A stripe that expands is on no list. *)
Lemma find_slow_expanding : lru s = None -> safe (find_slow_zero t x h s (with_device_lock (Some t) st)).
Proof.
  intros Hl. pose proof (inv_stripe _ _ Hinv x s Hx) as Hok. pose proof (doing_nodev st x Hinv Hd) as Hdo.
  pose proof (ok_home _ _ _ _ _ _ _ Hok Ec Hdo) as Hhome. pose proof (ok_group _ _ _ _ _ _ _ Hok) as Hg.
  unfold find_slow_zero, home in *. rewrite Hl in *. destruct Hhome as [H1 H2]. rewrite H1, H2, andb_false_r, (list_del_none _ t x s) by done.
  cbn [obind lists upd_stripe with_stripes add_active with_active with_device_lock]. rewrite andb_negb_r.
  erewrite leave_group_none; [|cbn; by rewrite (alter_insert_eq _ _ _ _ Hx), lookup_insert_eq|done]. cbn [obind safe].
  use_step t (FindSlow x h) Idle x s (set_count (S (count s)) (put_bit STRIPE_ON_INACTIVE_LIST false s)).
  - split; [done|]. intros Hin. congruence.
  - auto.
  - by apply (locks_drop_hash st _ t (FindSlow x h) Idle h).
  - intros _ Hin%(ok_inactive _ _ _ _ _ _ _ Hok). congruence.
Qed.
End FindSlow.

Lemma find_slow_ok st t x h : inv st -> threads st !! t = Some (FindSlow x h) ->
  safe (st <- find_slow t x h st; Next (go t Idle st)).
Proof.
  intros Hinv Hp. destruct (inv_thread _ _ Hinv t _ Hp) as (_ & Hh & s & Hx & Hi). specialize (Hh h eq_refl).
  pose proof (inv_stripe _ _ Hinv x s Hx) as Hok. unfold find_slow. destruct (device_lock st) eqn:Hd; [done|].
  unfold stripe at 1. cbn [stripes with_device_lock]. rewrite Hx. cbn [obind].
  destruct (Nat.eqb_spec (count s) 0) as [Ec|Ec]; cbn [obind safe].
  2:{ use_step t (FindSlow x h) Idle x s (set_count (S (count s)) s). apply (locks_drop_hash st _ t (FindSlow x h) Idle h); done. }
  destruct (lru s) as [L|] eqn:Hl.
  - pose proof (find_slow_listed st t x h s Hinv Hp Hd Hh Hx Hi Ec L Hl) as H. unfold find_slow_zero in H. rewrite Hl in H. rewrite obind_assoc. exact H.
  - pose proof (find_slow_expanding st t x h s Hinv Hp Hd Hx Hi Ec Hl) as H. unfold find_slow_zero in H. rewrite Hl in H. rewrite obind_assoc. exact H.
Qed.

(** * raid5_get_active_stripe *)

Lemma find_stripe_some st sect gen x : __find_stripe sect gen st = Some x ->
  exists s, stripes st !! x = Some s /\ hashed s = true /\ sector s = sect /\ generation s = gen.
Proof.
  unfold __find_stripe. destruct (List.find _ _) as [[y s]|] eqn:E; [|done]. intros [= ->].
  apply List.find_some in E as [Hin Hk]. apply list_elem_of_In, elem_of_map_to_list in Hin.
  apply andb_prop in Hk as [Hk ?%Z.eqb_eq]. apply andb_prop in Hk as [? ?%Z.eqb_eq]. eauto.
Qed.

Lemma find_stripe_none st sect gen y s : __find_stripe sect gen st = None -> stripes st !! y = Some s ->
  hashed s = true -> sector s = sect -> generation s = gen -> False.
Proof.
  unfold __find_stripe. destruct (List.find _ _) as [[z s']|] eqn:E; [done|]. intros _ Hy H1 H2 H3.
  apply elem_of_map_to_list, list_elem_of_In in Hy. apply (List.find_none _ _ E) in Hy. cbn in Hy.
  rewrite H1, H2, H3, !Z.eqb_refl in Hy. done.
Qed.

(** A thread that holds nothing. *)
Definition quiet (p : pc) : Prop := p = Idle \/ exists sect flags b, p = WaitStripe sect flags b.

(** [get_free_stripe] with the hash lock. *)
Lemma get_free_eq st t h : inv st -> hash_locks st h = None ->
  match lists st (inactive_list h) with
  | [] => get_free_stripe t h (lock_hash t h st) = Next (None, lock_hash t h st)
  | x :: _ => exists s, stripes st !! x = Some s /\ lru s = Some (inactive_list h) /\ hash_lock_index s = h /\ count s = O /\
      state s STRIPE_HANDLE = false /\ group s = None /\
      get_free_stripe t h (lock_hash t h st) = Next (Some x,
        with_empty_nr (empty_inactive_list_nr st + emptied (lists st) (inactive_list h))
          (with_active (active_stripes st + 1)
            (with_stripes (<[x := set_hash (sector s) (generation s) false (clear_bit STRIPE_ON_INACTIVE_LIST (set_lru None s))]> (stripes st))
              (with_lists (upd_list (lists st) (inactive_list h) (filter (fun i => i <> x) (lists st (inactive_list h)))) (lock_hash t h st)))))
  end.
Proof.
  intros Hinv Hh. unfold get_free_stripe. cbn [lists lock_hash with_hash_locks].
  destruct (lists st (inactive_list h)) as [|x rest] eqn:El; [done|].
  destruct (listed st x (inactive_list h) Hinv) as (s & Hx & Hl & Hc & Hdo & Hn & Hok); [rewrite El; by left|done|].
  pose proof (ok_home _ _ _ _ _ _ _ Hok Hc Hdo) as Hhome. unfold home in Hhome. rewrite Hl in Hhome.
  pose proof (ok_list_hash _ _ _ _ _ _ _ Hok h) as Hi. rewrite Hl in Hi. specialize (Hi eq_refl).
  exists s. split_and!; try done. { by rewrite (ok_group _ _ _ _ _ _ _ Hok), Hl. }
  rewrite (list_del_eq _ t x s (inactive_list h)); [|done..|cbn; by rewrite fupd_same, bool_decide_eq_true_2].
  cbn [obind]. unfold stripe. cbn [stripes upd_stripe with_stripes with_lists]. rewrite (alter_insert_eq _ _ _ _ Hx), lookup_insert_eq.
  cbn [obind hash_lock_index set_lru]. rewrite <- Hi, Nat.eqb_refl. cbn [negb].
  pose proof (emptied_eq (lists st) x (inactive_list h) h) as He. rewrite El in *. specialize (He Hn ltac:(by left) ltac:(by intros ? [= <-])).
  cbn [is_empty negb] in He. rewrite andb_true_r in He. rewrite <- He.
  cbn [lists add_active with_active upd_stripe with_stripes with_lists lock_hash with_hash_locks]. rewrite El.
  destruct (is_empty _); cbn [Z.b2z]; rewrite ?Z.add_0_r; unfold upd_stripe, add_empty_nr, add_active; cbn; by rewrite (alter_insert_eq _ _ _ _ Hx), alter_insert_same.
Qed.

Lemma get_found_ok st t p h x s : inv st -> threads st !! t = Some p -> quiet p -> hash_locks st h = None ->
  stripes st !! x = Some s -> hash_lock_index s = h ->
  safe (if (count s =? 0)%nat then Next (go t (FindZero x h) (lock_hash t h st)) else Next (go t Idle (get_ref x st))).
Proof.
  intros Hinv Hp Hq Hh Hx Hi. destruct (Nat.eqb_spec (count s) 0) as [Ec|Ec]; cbn [safe]; destruct Hq as [->|(sect & flags & b & ->)].
  - use_frame t Idle (FindZero x h); [by apply (locks_take_hash st _ t Idle _ h)|by exists s].
  - use_frame t (WaitStripe sect flags b) (FindZero x h); [by apply (locks_take_hash st _ t (WaitStripe sect flags b) _ h)|by exists s].
  - use_step t Idle Idle x s (set_count (S (count s)) s).
  - use_step t (WaitStripe sect flags b) Idle x s (set_count (S (count s)) s).
Qed.

Section Free.
Context (st : cache) (t : nat) (p : pc) (c : nat) (sect : Z) (previous : bool).
Context (Hinv : inv st) (Hp : threads st !! t = Some p) (Hq : quiet p).

Abbreviation h := (stripe_hash_locks_hash conf sect).
Context (Hh : hash_locks st h = None) (Hf : __find_stripe sect (stripe_generation (other st) previous) st = None).

(** A free stripe is taken and gets the key that no stripe has. *)
Definition taken (s : stripe_head) : stripe_head :=
  set_count 1 (set_bit STRIPE_BATCH_READY (set_cpu c (set_hash sect (stripe_generation (other st) previous) true
    (set_state (fun _ => false) (set_lru None s))))).

Lemma get_free_state x rest : lists st (inactive_list h) = x :: rest ->
  exists s, stripes st !! x = Some s /\ lru s = Some (inactive_list h) /\ hash_lock_index s = h /\ count s = O /\
  (r <- get_free_stripe t h (lock_hash t h st);
    match r with
    | (Some sh, st) => st <- init_stripe c sh sect previous st; Next (Some sh, get_ref sh st)
    | (None, st) => Next (None, if R5_DID_ALLOC (other st) then st else with_alloc_more true st)
    end) = Next (Some x, with_users (fupd (users st) x (S (users st x)))
      (with_empty_nr (empty_inactive_list_nr st + emptied (lists st) (inactive_list h)) (with_active (active_stripes st + 1)
        (with_stripes (<[x := taken s]> (stripes st))
          (with_lists (upd_list (lists st) (inactive_list h) (filter (fun i => i <> x) (lists st (inactive_list h)))) (lock_hash t h st)))))).
Proof.
  intros El. pose proof (get_free_eq st t h Hinv Hh) as Hg. rewrite El in Hg.
  destruct Hg as (s & Hx & Hl & Hi & Hc & Hha & Hgr & E). exists s. split_and!; [done..|]. rewrite E. cbn [obind].
  unfold init_stripe, stripe. cbn [stripes with_empty_nr with_active with_stripes]. rewrite lookup_insert_eq. cbn [obind].
  cbn [count state set_hash put_bit set_state set_lru]. rewrite Hc. cbn [Nat.eqb negb]. rewrite decide_False, Hha by done.
  rewrite <- El. unfold get_ref, upd_stripe. cbn. rewrite !alter_insert_same. unfold taken. cbn. by rewrite Hc.
Qed.

Lemma get_free_ok x rest : lists st (inactive_list h) = x :: rest ->
  exists st', (r <- get_free_stripe t h (lock_hash t h st);
    match r with
    | (Some sh, st) => st <- init_stripe c sh sect previous st; Next (Some sh, get_ref sh st)
    | (None, st) => Next (None, if R5_DID_ALLOC (other st) then st else with_alloc_more true st)
    end) = Next (Some x, st') /\ inv (go t Idle (unlock_hash h st')).
Proof.
  intros El. destruct (get_free_state x rest El) as (s & Hx & Hl & Hi & Hc & E). rewrite E. eexists. split; [reflexivity|].
  set (s' := taken s).
  assert (forall y s0, y <> x -> stripes st !! y = Some s0 -> ~ same_key s' s0) as Hkey.
  { intros y s0 _ Hy (_ & K2 & K3 & K4). by apply (find_stripe_none st _ _ y s0 Hf). }
  assert (forall h', inactive_list h = inactive_list h' -> forall t', hash_locks st h' = Some t' -> t' = t) as Hlk by (intros h' [= <-]; congruence).
  destruct Hq as [->|(sect' & flags' & b & ->)].
  - use_unlink t Idle Idle x s s' (inactive_list h); try done.
    apply (locks_kept st _ t Idle); try done. intros h'. cbn. rewrite <- Hh. apply fupd_fupd_id.
  - use_unlink t (WaitStripe sect' flags' b) Idle x s s' (inactive_list h); try done.
    apply (locks_kept st _ t (WaitStripe sect' flags' b)); try done. intros h'. cbn. rewrite <- Hh. apply fupd_fupd_id.
Qed.

(** No stripe is taken. *)
Lemma get_none_ok st' p' : quiet p' -> (exists o, st' = with_other o (lock_hash t h st)) -> inv (go t p' (unlock_hash h st')).
Proof.
  intros Hq' [o ->]. assert (forall y, same_tokens st (go t p' (unlock_hash h (with_other o (lock_hash t h st)))) p p' y /\ find_ok st p' /\
    has_dev p' = has_dev p /\ hash_of p' = hash_of p /\ cont_of p = None) as Hpc.
  { intros y. by destruct Hq as [->|(? & ? & ? & ->)], Hq' as [->|(? & ? & ? & ->)]. }
  apply (inv_frame conf st _ t p p' Hinv Hp); try done.
  - intros y. apply Hpc.
  - apply (locks_kept st _ t p); try done; try apply (Hpc 0%nat). intros h'. cbn. rewrite <- Hh. apply fupd_fupd_id.
  - by destruct Hq' as [->|(? & ? & ? & ->)].
  - apply (bit_kept st _ t p p'); try done. destruct (Hpc 0%nat) as (_ & _ & _ & _ & ->). done.
Qed.
End Free.

(** A thread that holds nothing starts to wait. *)
Lemma quiet_ok st t p p' : inv st -> threads st !! t = Some p -> quiet p -> quiet p' -> inv (go t p' st).
Proof.
  intros Hinv Hp Hq Hq'. apply (inv_frame conf st _ t p p' Hinv Hp); try done.
  - intros y. by destruct Hq as [->|(? & ? & ? & ->)], Hq' as [->|(? & ? & ? & ->)].
  - by apply (locks_kept st _ t p); destruct Hq as [->|(? & ? & ? & ->)], Hq' as [->|(? & ? & ? & ->)].
  - by destruct Hq' as [->|(? & ? & ? & ->)].
  - apply (bit_kept st _ t p p'); try done. by destruct Hq as [->|(? & ? & ? & ->)].
Qed.

Lemma get_active_ok st t c p sect flags : inv st -> threads st !! t = Some p -> quiet p ->
  safe (raid5_get_active_stripe conf t c sect flags st).
Proof.
  intros Hinv Hp Hq. unfold raid5_get_active_stripe. set (h := stripe_hash_locks_hash conf sect).
  destruct (hash_locks st h) eqn:Hh; [done|]. destruct (negb _ && _). { apply (quiet_ok st t p); [done..|right; eauto]. }
  destruct (__find_stripe _ _ _) as [x|] eqn:Ef.
  - apply find_stripe_some in Ef as (s & Hx & Hs & Hsect & Hgen). unfold stripe. rewrite Hx. cbn [obind].
    apply (get_found_ok st t p h x s); try done. unfold h. rewrite <- Hsect. symmetry.
    by apply (ok_hash _ _ _ _ _ _ _ (inv_stripe _ _ Hinv x s Hx)).
  - assert (forall p' st', quiet p' -> (exists o, st' = with_other o (lock_hash t h st)) -> inv (go t p' (unlock_hash h st'))) as Hnone
      by (intros p' st'; by apply (get_none_ok st t p)).
    cbn [other lock_hash with_hash_locks]. destruct (R5_INACTIVE_BLOCKED (other st)).
    { cbn [obind]. destruct (gas_noblock flags); cbn [safe]; apply Hnone; [by left|by exists (other st); destruct st|by right; eauto|by eexists]. }
    destruct (lists st (inactive_list h)) as [|x rest] eqn:El.
    + pose proof (get_free_eq st t h Hinv Hh) as Hg. rewrite El in Hg. rewrite Hg. cbn [obind].
      destruct (R5_DID_ALLOC _), (gas_noblock flags); cbn [safe]; apply Hnone; try (by left); try (by right; eauto); try (by eexists); by exists (other st); destruct st.
    + destruct (get_free_ok st t p c sect (gas_previous flags) Hinv Hp Hq Hh Ef x rest El) as (st' & E & Hi).
      fold h in E. cbn [other lock_hash with_hash_locks] in E. rewrite E. done.
Qed.

Lemma wake_ok st t c sect flags b : inv st -> threads st !! t = Some (WaitStripe sect flags b) -> safe (wake_stripe conf t c sect flags b st).
Proof.
  intros Hinv Hp. assert (quiet (WaitStripe sect flags b)) as Hq by (right; eauto). unfold wake_stripe. destruct b.
  - destruct (quiesce _); [done|]. by apply (get_active_ok _ t c (WaitStripe sect flags true)).
  - destruct (is_inactive_blocked _ _); [|done]. by apply (get_active_ok _ t c (WaitStripe sect flags false)); [apply inv_other|..].
Qed.

(** * The stripes that are handled next *)

(** A list of stripes to handle, of the group [wg]. *)
Definition handled_list (L : lru_list) (wg : option nat) : Prop :=
  to_handle L = true /\ list_group (Some L) = wg /\ list_hash (Some L) = None /\ on_plug (Some L) = O.

Lemma priority_try_spec st grp loprio r st' : priority_try conf grp loprio st = (r, st') ->
  (exists o, st' = with_other o st) /\
  match r with Some (x, wg) => exists L, x ∈ lists st L /\ handled_list L wg | None => True end.
Proof.
  unfold priority_try. destruct (priority_list conf grp loprio st) as [hl wg] eqn:Epl.
  assert (handled_list hl wg) as Hhl.
  { revert Epl. unfold priority_list. destruct (_ =? 0)%nat; [|destruct grp as [g|]]; intros [= <- <-]; by destruct loprio. }
  assert (exists o, st = with_other o st) as Hst by (exists (other st); by destruct st).
  destruct (lists st hl) as [|x xs] eqn:El, (lists st hold_list) as [|y ys] eqn:Eh.
  - intros [= <- <-]. auto.
  - destruct (_ || _); [|intros [= <- <-]; auto]. destruct (List.find _ _) as [z|] eqn:Ef; intros [= <- <-]; [|auto].
    split; [by eexists|]. exists hold_list. rewrite Eh. split; [|done]. apply list_elem_of_In. by apply List.find_some in Ef as [? _].
  - intros [= <- <-]. split; [by eexists|]. exists hl. rewrite El. split; [by left|done].
  - destruct (match _ with Some s => _ | None => false end); [|destruct (bool_decide _)]; intros [= <- <-];
      (split; [done || by eexists|exists hl; rewrite El; split; [by left|done]]).
Qed.

(** A stripe to handle is taken under [device_lock]. *)
Lemma take_ok st t o x L wg : inv st -> threads st !! t = Some Idle -> device_lock st = None -> x ∈ lists st L -> handled_list L wg ->
  safe (let st := with_other o (with_device_lock (Some t) st) in
    let st := match wg with Some g => upd_stripe x (set_group None) (add_stripes_cnt g (-1) st) | None => st end in
    st <- list_del_init t x st;
    s <- stripe st x;
    bug_on negb (S (count s) =? 1)%nat;
    Next (with_device_lock None (get_ref x st))).
Proof.
  intros Hinv Hp Hd Hin (L1 & L2 & L3 & L4). destruct (listed st x L Hinv Hin L4) as (s & Hx & Hl & Hc & Hdo & Hn & Hok).
  pose proof (ok_home _ _ _ _ _ _ _ Hok Hc Hdo) as Hhome. unfold home in Hhome. rewrite Hl in Hhome.
  assert (state s STRIPE_HANDLE = true) as Hha by (by destruct L; rewrite <- ?L1). clear Hhome.
  pose proof (ok_group _ _ _ _ _ _ _ Hok) as Hg. rewrite Hl, L2 in Hg.
  cbn zeta. match goal with |- context [list_del_init t x ?S] => set (st1 := S) end.
  assert (stripes st1 = <[x := set_group None s]> (stripes st) /\ lists st1 = lists st /\ threads st1 = threads st /\ users st1 = users st /\
    released_stripes st1 = released_stripes st /\ device_lock st1 = Some t /\ hash_locks st1 = hash_locks st /\
    empty_inactive_list_nr st1 = empty_inactive_list_nr st /\ active_stripes st1 = active_stripes st /\
    forall g, stripes_cnt st1 g = stripes_cnt st g - (if decide (wg = Some g) then 1 else 0)) as (E1 & E2 & E3 & E4 & E5 & E6 & E7 & E8 & E9 & E10).
  { unfold st1. destruct wg as [g|]; cbn; rewrite ?(alter_insert_eq _ _ _ _ Hx); split_and!; try done.
    - intros g'. unfold fupd. destruct (Nat.eqb_spec g' g) as [->|]; [rewrite decide_True by done|rewrite decide_False by congruence]; lia.
    - rewrite insert_id; [done|]. rewrite Hx. f_equal. destruct s. cbn in *. by subst.
    - intros g. rewrite decide_False by done. lia. }
  clearbody st1. rewrite (list_del_eq _ t x (set_group None s) L); [|by rewrite E1, lookup_insert_eq|done|apply may_write_dev; [done|by destruct L]].
  cbn [obind]. unfold stripe. cbn [stripes upd_stripe with_stripes with_lists]. rewrite E1, alter_insert_same, lookup_insert_eq. cbn [obind count set_lru set_group].
  rewrite Hc. cbn [Nat.eqb negb safe].
  eapply (inv_unlink conf st _ t Idle Idle x s (set_count (S (count s)) (set_group None (set_lru None s))) L Hinv Hp); try done; cbn.
  - by rewrite E3, list_insert_id.
  - by rewrite E1, !alter_insert_same.
  - by rewrite E2.
  - intros y Hy. tokens. rewrite E4, E5. tokens.
  - rewrite E9, E4, E5. unlink_tac s. split; [|done]. intros [= ->]%Kinactive. done.
  - by apply (keys_kept st x s).
  - apply (locks_kept st _ t Idle); try done. intros h'. cbn. by rewrite E7.
  - intros h ->. done.
  - rewrite E8. destruct L; try done; cbn; lia.
  - intros g. by rewrite E10, <- L2.
Qed.

Lemma priority_ok st t grp : inv st -> threads st !! t = Some Idle -> safe (__get_priority_stripe conf t grp st).
Proof.
  intros Hinv Hp. unfold __get_priority_stripe. destruct (device_lock st) eqn:Hd; [done|]. cbn zeta.
  match goal with |- context [let '(r, st) := ?R in _] => set (r := R) end.
  assert (exists o, snd r = with_other o (with_device_lock (Some t) st) /\
    match fst r with Some (x, wg) => exists L, x ∈ lists st L /\ handled_list L wg | None => True end) as (o & Er & Hr).
  { unfold r. destruct (priority_try _ _ _ _) as [[w|] st1] eqn:E; apply priority_try_spec in E as [[o ->] Hw].
    - by exists o.
    - destruct (_ && _); [by exists o|]. destruct (priority_try _ _ _ (with_other _ _)) as [w st2] eqn:E2.
      apply priority_try_spec in E2 as [[o2 ->] Hw2]. by exists o2. }
  clearbody r. destruct r as [[[x wg]|] st1]; cbn in Er, Hr; subst st1.
  - destruct Hr as (L & HxL & HL). by apply (take_ok st t o x L wg).
  - cbn [safe]. replace (with_device_lock None (with_other o (with_device_lock (Some t) st))) with (with_other o st); [by apply inv_other|].
    destruct st. cbn in *. by subst.
Qed.

(** One pass of the loop of [raid5_activate_delayed]: from [delayed_list] to [hold_list]. *)
Lemma delayed_pass st t x s : stripes st !! x = Some s -> lru s = Some delayed_list -> device_lock st = Some t ->
  exists o c f, (forall b, cache_bit b = true -> f b = state s b) /\ (f STRIPE_HANDLE = state s STRIPE_HANDLE) /\
    f STRIPE_R5C_CACHING = state s STRIPE_R5C_CACHING /\ f STRIPE_EXPANDING = state s STRIPE_EXPANDING /\
  (st <- list_del_init t x st;
   s <- stripe st x;
   let st := if state s STRIPE_PREREAD_ACTIVE then st else add_preread 1 st in
   let st := upd_stripe x (fun s => set_bit STRIPE_PREREAD_ACTIVE (clear_bit STRIPE_DELAYED s)) st in
   st <- list_add_tail t x hold_list st;
   raid5_wakeup_stripe_thread conf t x st) =
  Next (with_other o (with_stripes (<[x := set_cpu c (set_lru (Some hold_list) (set_state f s))]> (stripes st))
    (with_lists (let ls := upd_list (lists st) delayed_list (filter (fun i => i <> x) (lists st delayed_list)) in
      upd_list ls hold_list (ls hold_list ++ [x])) st))).
Proof.
  intros Hx Hl Hd. rewrite (list_del_eq _ t x s delayed_list) by (done || by apply may_write_dev). cbn [obind].
  unfold stripe at 1. cbn [stripes upd_stripe with_stripes with_lists]. rewrite (alter_insert_eq _ _ _ _ Hx), lookup_insert_eq.
  cbn [obind state set_lru]. set (st1 := if state s STRIPE_PREREAD_ACTIVE then _ else _).
  assert (exists o, st1 = with_other o (with_stripes (<[x := set_lru None s]> (stripes st))
    (with_lists (upd_list (lists st) delayed_list (filter (fun i => i <> x) (lists st delayed_list))) st))) as [o ->].
  { unfold st1, upd_stripe, add_preread. cbn. rewrite (alter_insert_eq _ _ _ _ Hx). destruct (state s STRIPE_PREREAD_ACTIVE); [exists (other st)|eexists]; done. }
  cbn zeta. erewrite list_add_tail_eq; [|cbn; by rewrite alter_insert_same, lookup_insert_eq|done|by apply may_write_dev].
  cbn [obind]. unfold raid5_wakeup_stripe_thread, stripe. cbn [stripes upd_stripe with_stripes with_lists with_other].
  rewrite !alter_insert_same, lookup_insert_eq. cbn [obind lru set_lru].
  set (f := state (put_bit STRIPE_PREREAD_ACTIVE true (put_bit STRIPE_DELAYED false s))).
  assert ((forall b, cache_bit b = true -> f b = state s b) /\ f STRIPE_HANDLE = state s STRIPE_HANDLE /\
    f STRIPE_R5C_CACHING = state s STRIPE_R5C_CACHING /\ f STRIPE_EXPANDING = state s STRIPE_EXPANDING) as (F1 & F2 & F3 & F4).
  { split_and!; try done. intros b Hb. by destruct b. }
  destruct (worker_cnt_per_group conf =? 0)%nat; eexists _, _, f; (split_and!; [done..|]);
    unfold upd_stripe, with_working; cbn; rewrite !alter_insert_same; reflexivity.
Qed.

(** A stripe that changes from one list of stripes to handle to another. *)
Lemma delayed_pass_ok st t x s o c f : inv (go t (Locked KDone) st) -> (t < length (threads st))%nat ->
  stripes st !! x = Some s -> lru s = Some delayed_list -> 
  (forall b, cache_bit b = true -> f b = state s b) -> f STRIPE_HANDLE = state s STRIPE_HANDLE ->
  f STRIPE_R5C_CACHING = state s STRIPE_R5C_CACHING ->
  inv (go t (Locked KDone) (with_other o (with_stripes (<[x := set_cpu c (set_lru (Some hold_list) (set_state f s))]> (stripes st))
    (with_lists (let ls := upd_list (lists st) delayed_list (filter (fun i => i <> x) (lists st delayed_list)) in
      upd_list ls hold_list (ls hold_list ++ [x])) st)))).
Proof.
  intros Hinv Ht Hx Hl F1 F2 F3. set (st0 := go t (Locked KDone) st) in *.
  assert (threads st0 !! t = Some (Locked KDone)) as Hp by (cbn; by rewrite list_lookup_insert_eq).
  assert (count s = O) as Hc.
  { destruct (listed st0 x delayed_list Hinv) as (s0 & Hx0 & _ & Hc & _); [|done|]; [|cbn in Hx0; congruence].
    apply (inv_lists _ _ Hinv delayed_list). by exists s. }
  eapply (inv_step conf st0 _ t (Locked KDone) (Locked KDone) x s (set_cpu c (set_lru (Some hold_list) (set_state f s))) Hinv Hp); cbn -[upd_list].
  - by rewrite list_insert_insert_eq.
  - done.
  - done.
  - intros y Hy. tokens.
  - intros r u f' l d r' u' f'' l' d' [Kcount Kunplug Kflag Klast Kindex Khash Kinactive Klh Kbusy Kdoing Khome Kgroup Kcaching].
    unfold tok_refs, tok_flags, tok_lasts. cbn. intros. rewrite Hl in Kcount, Kunplug, Kinactive, Kbusy, Kdoing, Kgroup.
    assert (r' = r /\ u' = u /\ f'' = f' /\ l' = l /\ d' = d) as (-> & -> & -> & -> & ->) by lia.
    split; [|unfold active; cbn; rewrite F2; lia].
    split; cbn; rewrite ?F1, ?F3 by done; try done.
    + split; [by intros ?%Kinactive|done].
    + intros Hc'. lia.
    + split; [apply Kdoing|]. intros Hd. by destruct (proj2 Kdoing Hd).
    + intros _ Hd. specialize (Khome Hc Hd). unfold home in *. rewrite Hl in Khome. cbn. by rewrite F2.
  - rewrite <- (insert_insert_eq (stripes st) x _ (set_lru None s)).
    apply (lists_ok_add _ _ x (set_lru None s)); [|by rewrite lookup_insert_eq|done..].
    by apply (lists_ok_del _ _ x s); [apply Hinv|..].
  - done.
  - by apply (keys_kept st0 x s).
  - by apply (locks_kept st0 _ t (Locked KDone)).
  - done.
  - intros _ Hi. left. by rewrite F1.
  - rewrite (count_empty_ext (lists st)); [done|]. intros i. by rewrite !upd_list_ne by done.
  - intros g. rewrite !group_length_change, !decide_False by done. lia.
  - rewrite !upd_list_ne by done. apply (inv_bit _ _ Hinv).
Qed.

Lemma delayed_loop_ok t ids : forall st, inv (go t (Locked KDone) st) -> (t < length (threads st))%nat -> NoDup ids ->
  (forall x, x ∈ ids -> x ∈ lists st delayed_list) ->
  exists st', activate_delayed_loop conf t ids st = Next st' /\ inv (go t (Locked KDone) st') /\ threads st' = threads st.
Proof.
  induction ids as [|x rest IH]; intros st Hinv Ht Hn Hin; [by exists st|]. cbn [activate_delayed_loop].
  apply list.NoDup_cons in Hn as [Hx Hn]. set (st0 := go t (Locked KDone) st) in *.
  assert (threads st0 !! t = Some (Locked KDone)) as Hp by (cbn; by rewrite list_lookup_insert_eq).
  pose proof (proj1 (inv_thread _ _ Hinv t _ Hp) eq_refl) as Hd.
  destruct (proj1 (proj2 (inv_lists _ _ Hinv delayed_list) x) (Hin x ltac:(by left))) as (s & Hs & Hl).
  destruct (delayed_pass st t x s Hs Hl Hd) as (o & c & f & F1 & F2 & F3 & F4 & E).
  pose proof (delayed_pass_ok st t x s o c f Hinv Ht Hs Hl F1 F2 F3) as Hinv'.
  match type of E with _ = Next ?S => set (st1 := S) in * end.
  destruct (IH st1 Hinv') as (st' & E' & Hi & Et); [done|done| |].
  { intros y Hy. cbn. rewrite upd_list_ne, upd_list_same by done. apply list_elem_of_filter. split; [by intros ->|]. apply Hin. by right. }
  exists st'. split; [|done]. rewrite <- E'.
  transitivity (obind (Next st1) (activate_delayed_loop conf t rest)); [|done]. rewrite <- E. clear.
  destruct (list_del_init t x st) as [a| |]; [cbn|done..]. destruct (stripe a x) as [s1| |]; [cbn|done..]. by destruct (list_add_tail _ _ _ _).
Qed.

Lemma delayed_ok st t : inv st -> threads st !! t = Some Idle -> safe (raid5_activate_delayed conf t st).
Proof.
  intros Hinv Hp. unfold raid5_activate_delayed. destruct (device_lock st) eqn:Hd; [done|]. destruct (_ <? _); [|done].
  assert (inv (go t (Locked KDone) (with_device_lock (Some t) st))) as H1.
  { use_frame t Idle (Locked KDone). by apply (locks_take_dev st _ t Idle). }
  destruct (delayed_loop_ok t (lists st delayed_list) (with_device_lock (Some t) st) H1) as (st' & -> & H2 & Et);
    [by apply lookup_lt_Some in Hp|apply Hinv|done|].
  cbn [obind safe]. set (st0 := go t (Locked KDone) st') in *.
  assert (threads st0 !! t = Some (Locked KDone)) as Hp0 by (cbn; rewrite list_lookup_insert_eq; [done|rewrite Et; by apply lookup_lt_Some in Hp]).
  assert (threads (with_device_lock None st') = <[t := Idle]> (threads st0)) as Et'.
  { cbn. rewrite list_insert_insert_eq, Et. cbn. by rewrite list_insert_id. }
  apply (inv_frame conf st0 _ t (Locked KDone) Idle H2 Hp0); try done.
  - by apply (locks_drop_dev st0 _ t (Locked KDone)).
  - by apply (bit_kept st0 _ t (Locked KDone) Idle).
Qed.

(** * Plugs *)

Lemma plug_ok st t x : inv st -> threads st !! t = Some Idle -> safe (start conf t (Plug x) st).
Proof.
  intros Hinv Hp. cbn [start]. unfold as_user. destruct (Nat.eqb_spec (users st x) 0) as [|Hu]; [done|].
  destruct (ref_alive st x Hinv) as (s & Hx & Hok & Hc). { apply (refs_pos st t _ x Hp). cbn. lia. }
  unfold release_stripe_plug, stripe. cbn [stripes drop_user with_users]. rewrite Hx. cbn [obind].
  destruct (state s STRIPE_ON_UNPLUG_LIST) eqn:Es; cbn [safe].
  - use_step t Idle (RelStart x) x s s. rewrite Es. cbn. lia.
  - use_step t Idle (PlugAdd x) x s (put_bit STRIPE_ON_UNPLUG_LIST true s).
Qed.

Lemma plug_add_ok st t x : inv st -> threads st !! t = Some (PlugAdd x) ->
  safe (st <- list_add_tail t x (plug_list t) st; Next (go t Idle st)).
Proof.
  intros Hinv Hp. destruct (ref_alive st x Hinv) as (s & Hx & Hok & Hc). { apply (refs_pos st t _ x Hp). cbn. rewrite one_same. lia. }
  assert (lru s = None) as Hl.
  { pose proof (tok_lookup (unplug_pc x) _ _ _ Hp) as Hu. cbn in Hu. rewrite one_same in Hu.
    pose proof (ok_unplug _ _ _ _ _ _ _ Hok) as Hk. unfold unplugs in Hk. destruct (ok_busy _ _ _ _ _ _ _ Hok Hc) as [|Hpl]; [done|].
    destruct (state s STRIPE_ON_UNPLUG_LIST); cbn in Hk; lia. }
  rewrite (list_add_tail_eq st t x s) by (done || (cbn; by rewrite Nat.eqb_refl)). cbn [obind safe].
  apply (inv_step conf st _ t (PlugAdd x) Idle x s (set_lru (Some (plug_list t)) s) Hinv Hp).
  - done.
  - done.
  - cbn. by rewrite (alter_insert_eq _ _ _ _ Hx).
  - intros y Hy. tokens.
  - local_tac s; rewrite Hl in *; cbn in *; [lia|lia| |done]. split; [by intros ?%Kinactive|done].
  - by apply (lists_ok_add _ _ x s); [apply Hinv|..].
  - done.
  - by apply (keys_kept st x s).
  - by apply (locks_kept st _ t (PlugAdd x)).
  - exact I.
  - intros E. lia.
  - cbn. rewrite (count_empty_ext (lists st)); [done|]. intros i. by apply upd_list_ne.
  - intros g. cbn. rewrite group_length_add, decide_False by done. lia.
  - by apply (bit_kept st _ t (PlugAdd x) Idle).
Qed.

Lemma unplug_ok st t : inv st -> threads st !! t = Some Idle -> safe (raid5_unplug t st).
Proof.
  intros Hinv Hp. unfold raid5_unplug. destruct (lists st (plug_list t)) as [|x rest] eqn:El; [done|].
  destruct (proj1 (proj2 (inv_lists _ _ Hinv (plug_list t)) x)) as (s & Hx & Hl); [rewrite El; by left|].
  rewrite (list_del_eq st t x s (plug_list t)) by (done || (cbn; by rewrite Nat.eqb_refl)). cbn [obind safe].
  pose proof (inv_stripe _ _ Hinv x s Hx) as Hok. pose proof (ok_count _ _ _ _ _ _ _ Hok) as Hc. rewrite Hl in Hc. cbn in Hc.
  use_unlink t Idle (UnplugClear x) x s (set_lru None s) (plug_list t).
Qed.

Lemma unplug_clear_ok st t x : inv st -> threads st !! t = Some (UnplugClear x) -> safe (unplug_clear t x st).
Proof.
  intros Hinv Hp. destruct (ref_alive st x Hinv) as (s & Hx & Hok & Hc). { apply (refs_pos st t _ x Hp). cbn. rewrite one_same. lia. }
  unfold unplug_clear, stripe. rewrite Hx. cbn [obind safe].
  use_step t (UnplugClear x) (RelStart x) x s (put_bit STRIPE_ON_UNPLUG_LIST false s).
  destruct (state s STRIPE_ON_UNPLUG_LIST); cbn in Kunplug; lia.
Qed.

(** * Users *)

Lemma ref_ok st t x : inv st -> threads st !! t = Some Idle -> safe (start conf t (Ref x) st).
Proof.
  intros Hinv Hp. cbn [start]. destruct (Nat.eqb_spec (users st x) 0) as [|Hu]; [done|]. cbn [safe].
  destruct (ref_alive st x Hinv) as (s & Hx & Hok & Hc). { apply (refs_pos st t _ x Hp). cbn. lia. }
  use_step t Idle Idle x s (set_count (S (count s)) s); [cbn; by rewrite list_insert_id|apply (inv_bit _ _ Hinv)].
Qed.

Lemma work_ok st t x bits seq n : inv st -> threads st !! t = Some Idle -> safe (start conf t (Work x bits seq n) st).
Proof.
  intros Hinv Hp. cbn [start]. destruct (Nat.eqb_spec (users st x) 0) as [|Hu]; [done|]. cbn [orb].
  destruct (bits STRIPE_R5C_CACHING && _) eqn:Eb; [done|]. cbn [safe].
  destruct (ref_alive st x Hinv) as (s & Hx & Hok & Hc). { apply (refs_pos st t _ x Hp). cbn. lia. }
  use_step t Idle Idle x s (set_work seq n (set_state (fun b => if cache_bit b then state s b else bits b) s));
    [cbn; by rewrite list_insert_id| |apply (inv_bit _ _ Hinv)].
  intros Eb'. rewrite Eb' in Eb. by destruct (r5c_is_writeback conf).
Qed.

(** A stripe without references is not on the release list. *)
Lemma idle_flags st x s : inv st -> stripes st !! x = Some s -> count s = O -> state s STRIPE_ON_RELEASE_LIST = false.
Proof.
  intros Hinv Hx Hc. pose proof (inv_stripe _ _ Hinv x s Hx) as Hok. pose proof (ok_count _ _ _ _ _ _ _ Hok) as H1.
  pose proof (ok_flag _ _ _ _ _ _ _ Hok) as H2. destruct (state s STRIPE_ON_RELEASE_LIST); [|done]. cbn in H2.
  pose proof (tokens_le st x). lia.
Qed.

(** What [r5c_flush_stripe] leaves, but for the counters. *)
Definition flushed (x : nat) (L : lru_list) (st : cache) : cache :=
  with_device_lock None (upd_stripe x (fun s => set_bit STRIPE_PREREAD_ACTIVE (clear_bit STRIPE_R5C_CACHING s))
    (add_active 1 (get_ref x (upd_stripe x (set_bit STRIPE_HANDLE) (upd_stripe x (set_lru None)
      (with_lists (upd_list (lists st) L (filter (fun i => i <> x) (lists st L))) st)))))).

Lemma flushed_ok st t x s L : inv st -> threads st !! t = Some Idle -> stripes st !! x = Some s -> lru s = Some L ->
  L = r5c_full_stripe_list \/ L = r5c_partial_stripe_list -> count s = O -> state s STRIPE_HANDLE = false -> device_lock st = None ->
  inv (flushed x L st).
Proof.
  intros Hinv Hp Hx Hl HL Hc Hha Hd. unfold flushed.
  set (s' := put_bit STRIPE_PREREAD_ACTIVE true (put_bit STRIPE_R5C_CACHING false (set_count (S (count s)) (put_bit STRIPE_HANDLE true (set_lru None s))))).
  destruct HL as [-> | ->].
  - use_unlink t Idle Idle x s s' r5c_full_stripe_list. cbn. by rewrite list_insert_id.
  - use_unlink t Idle Idle x s s' r5c_partial_stripe_list. cbn. by rewrite list_insert_id.
Qed.

Lemma flush_ok st t x : inv st -> threads st !! t = Some Idle -> safe (start conf t (Flush x) st).
Proof.
  intros Hinv Hp. cbn [start]. destruct (stripes st !! x) as [s|] eqn:Hx; [|done].
  destruct (state s STRIPE_R5C_CACHING) eqn:Ec; [|done]. cbn [andb].
  destruct (bool_decide (lru s = Some r5c_full_stripe_list) || bool_decide (lru s = Some r5c_partial_stripe_list)) eqn:Eb; [|done].
  assert (exists L, lru s = Some L /\ (L = r5c_full_stripe_list \/ L = r5c_partial_stripe_list)) as (L & Hl & HL).
  { apply orb_prop in Eb as [?%bool_decide_eq_true|?%bool_decide_eq_true]; eauto. }
  destruct (listed st x L Hinv) as (s' & Hx' & _ & Hc & Hdo & Hn & Hok); [apply (inv_lists _ _ Hinv); eauto|by destruct HL as [-> | ->]|].
  rewrite Hx in Hx'. injection Hx' as <-.
  pose proof (ok_home _ _ _ _ _ _ _ Hok Hc Hdo) as Hhome. unfold home in Hhome. rewrite Hl in Hhome.
  assert (state s STRIPE_HANDLE = false) as Hha by (by destruct HL as [-> | ->]).
  unfold r5c_flush_stripe. destruct (device_lock st) eqn:Hd; [done|]. cbn zeta.
  unfold stripe at 1. cbn [stripes with_device_lock]. rewrite Hx. cbn [obind]. rewrite bool_decide_eq_false_2 by congruence.
  rewrite Ec, Hha, (idle_flags st x s) by done. cbn [negb].
  rewrite (list_del_eq _ t x s L); [|done..|apply may_write_dev; [done|by destruct HL as [-> | ->]]]. cbn [obind].
  unfold r5c_make_stripe_write_out, stripe. cbn [stripes add_active with_active get_ref with_users upd_stripe with_stripes with_lists with_device_lock].
  rewrite (alter_insert_eq _ _ _ _ Hx), !alter_insert_same, lookup_insert_eq. cbn [obind].
  rewrite (ok_caching _ _ _ _ _ _ _ Hok Ec). cbn [negb].
  cbn [obind safe]. match goal with |- Raid5CacheInv.inv _ ?S => assert (exists o, S = with_other o (flushed x L st)) as [o ->] end.
  { destruct (state _ STRIPE_PREREAD_ACTIVE), (state s STRIPE_R5C_PARTIAL_STRIPE); by eexists. }
  apply inv_other. by apply (flushed_ok st t x s).
Qed.

(** * grow_one_stripe and drop_one_stripe *)

Lemma grow_ok st t x : inv st -> threads st !! t = Some Idle -> safe (grow_one_stripe t x st).
Proof.
  intros Hinv Hp. unfold grow_one_stripe. destruct (stripes st !! x) eqn:Hx; [done|]. cbn [safe].
  set (s := StripeHead 0 0 false _ 1 None (fun _ => false) 0 None 0 0).
  match goal with |- inv ?S => set (st' := S) end.
  destruct (inv_dead _ _ Hinv x Hx) as [Hr Hd].
  assert (threads st' = <[t := RelStart x]> (threads st)) as Ht by done.
  assert (forall y, y <> x -> same_tokens st st' Idle (RelStart x) y) as Htok by (intros y Hy; tokens).
  pose proof (fun y Hy => same_tokens_eq st st' t Idle (RelStart x) Hp Ht y (Htok y Hy)) as Heq.
  assert (forall L, x ∉ lists st L) as Hout by (intros L (s0 & Hs0 & _)%(inv_lists _ _ Hinv L); congruence).
  assert (locks_step st st' t (RelStart x)) as Hlk by (by apply (locks_kept st _ t Idle)).
  assert (forall y s0, stripes st' !! y = Some s0 -> y = x /\ s0 = s \/ y <> x /\ stripes st !! y = Some s0) as Hlook.
  { intros y s0. cbn. destruct (decide (y = x)) as [->|]; [rewrite lookup_insert_eq; naive_solver|rewrite lookup_insert_ne by done; naive_solver]. }
  assert (refs st' x = 1 /\ unplugs st' x = O /\ flags st' x = O /\ lasts st' x = O /\ doing st' x = O)%nat as (R1 & R2 & R3 & R4 & R5).
  { pose proof (refs_step st st' t Idle (RelStart x) Hp Ht x) as H1. pose proof (unplugs_step st st' t Idle (RelStart x) Hp Ht x) as H2.
    pose proof (flags_step st st' t Idle (RelStart x) Hp Ht x) as H3. pose proof (lasts_step st st' t Idle (RelStart x) Hp Ht x) as H4.
    pose proof (doing_step st st' t Idle (RelStart x) Hp Ht x) as H5. pose proof (tokens_le st x).
    unfold tok_refs, tok_flags, tok_lasts in *. cbn in H1, H2, H3, H4, H5. rewrite one_same in H1. lia. }
  split.
  - intros L. destruct (inv_lists _ _ Hinv L) as [Hn Hi]. split; [done|]. intros y. cbn. rewrite Hi.
    destruct (decide (y = x)) as [->|Hne]; [|by rewrite lookup_insert_ne]. rewrite lookup_insert_eq, Hx. split; intros (s0 & E & El); [done|by injection E as <-].
  - intros y s0 [[-> ->]|[Hne Hy]]%Hlook; [|destruct (Heq y Hne) as (-> & -> & -> & -> & ->); by apply Hinv].
    rewrite R1, R2, R3, R4, R5. split; cbn -[Nat.modulo]; try done; try lia; [|auto].
    by apply Nat.mod_upper_bound.
  - intros y. cbn. intros [Hy Hne]%lookup_insert_None. destruct (Heq y) as (-> & _ & _ & _ & ->); [done|]. by apply Hinv.
  - apply (threads_step conf st st' t Idle (RelStart x) Hinv Hp Ht Hlk I). intros t0 q Hnt Hq (_ & _ & Hq3).
    destruct q as [| | | | | |sh k|sh k| | |sh h|sh h|sh h| | |]; try done; [destruct k; try done|destruct k; try done|..]; cbn [find_ok] in *;
      destruct Hq3 as (s0 & Hs0 & Hq3); exists s0; (split; [cbn; rewrite lookup_insert_ne by congruence|]); done.
  - by apply (locks_step_dev conf st st' t Idle (RelStart x)).
  - by apply (locks_step_hash conf st st' t Idle (RelStart x)).
  - intros y z s0 s1 [[-> ->]|[Hny Hy]]%Hlook [[-> ->]|[Hnz Hz]]%Hlook (K1 & K2 & K3 & K4); try done.
    apply (inv_unique _ _ Hinv y z s0 s1 Hy Hz). by split_and!.
  - cbn -[count_active]. rewrite (count_active_new (stripes st) (doing st) (doing st') x s Hx eq_refl) by (intros y Hy; apply Heq, Hy).
    rewrite (inv_active _ _ Hinv). lia.
  - apply (inv_empty _ _ Hinv).
  - apply (inv_group _ _ Hinv).
  - by apply (bit_kept st st' t Idle (RelStart x)).
Qed.

(** The stripe [x] of the inactive list [h] is freed. *)
Lemma freed_ok st st' h x s : inv st -> hash_locks st h = None -> stripes st !! x = Some s -> lru s = Some (inactive_list h) ->
  hash_lock_index s = h -> count s = O -> state s STRIPE_HANDLE = false ->
  stripes st' = delete x (stripes st) -> lists st' = upd_list (lists st) (inactive_list h) (filter (fun i => i <> x) (lists st (inactive_list h))) ->
  threads st' = threads st -> users st' = users st -> released_stripes st' = released_stripes st -> device_lock st' = device_lock st ->
  (forall h', hash_locks st' h' = hash_locks st h') -> active_stripes st' = active_stripes st -> stripes_cnt st' = stripes_cnt st ->
  empty_inactive_list_nr st' = empty_inactive_list_nr st + emptied (lists st) (inactive_list h) -> inv st'.
Proof.
  intros Hinv Hh Hx Hl Hi Hc Hha E1 E2 E3 E4 E5 E6 E7 E8 E9 E10.
  destruct (listed st x (inactive_list h) Hinv) as (s0 & Hx0 & _ & _ & Hdo & Hn & Hok); [apply (inv_lists _ _ Hinv); eauto|done|].
  rewrite Hx in Hx0. injection Hx0 as <-.
  assert (forall y, refs st' y = refs st y /\ unplugs st' y = unplugs st y /\ flags st' y = flags st y /\ lasts st' y = lasts st y /\ doing st' y = doing st y) as Heq.
  { intros y. unfold refs, unplugs, flags, lasts, doing. by rewrite E3, E4, E5. }
  assert (refs st x = O) as Hr by (pose proof (ok_count _ _ _ _ _ _ _ Hok); lia).
  assert (forall y s0, stripes st' !! y = Some s0 -> y <> x /\ stripes st !! y = Some s0) as Hlook.
  { intros y s0. rewrite E1. intros [? ?]%lookup_delete_Some. auto. }
  assert (x ∈ lists st (inactive_list h)) as HxL by (apply (inv_lists _ _ Hinv); eauto).
  split.
  - intros L. destruct (inv_lists _ _ Hinv L) as [HnL HiL]. rewrite E1, E2. unfold upd_list. destruct (decide (L = inactive_list h)) as [->|HL].
    + split; [by apply list.NoDup_filter|]. intros y. rewrite list_elem_of_filter, HiL. setoid_rewrite lookup_delete_Some. naive_solver.
    + split; [done|]. intros y. rewrite HiL. setoid_rewrite lookup_delete_Some. split; [|naive_solver].
      intros (s0 & Hy & El). exists s0. split_and!; try done. intros <-. congruence.
  - intros y s0 [_ Hy]%Hlook. destruct (Heq y) as (-> & -> & -> & -> & ->). by apply Hinv.
  - intros y. rewrite E1. intros [->|Hy]%lookup_delete_None; destruct (Heq y) as (-> & _ & _ & _ & ->); [done|by apply Hinv].
  - intros t q. rewrite E3. intros Hq. destruct (inv_thread _ _ Hinv t q Hq) as (Q1 & Q2 & Q3). unfold thread_ok. rewrite E6.
    split_and!; [done|intros h'; rewrite E7; apply Q2|].
    assert (0 < refs_pc x q -> False)%nat as Hnr by (pose proof (tok_lookup (refs_pc x) _ _ _ Hq); unfold refs in Hr; lia).
    assert (0 < doing_pc x q -> False)%nat as Hnd by (pose proof (tok_lookup (doing_pc x) _ _ _ Hq); unfold doing in Hdo; lia).
    assert (forall h', hash_of q = Some h' -> h' <> h) as Hnh by (intros h' Hq' ->; apply Q2 in Hq'; congruence).
    rewrite E1. destruct q as [| | | | | |sh k|sh k| | |sh h'|sh h'|sh h'| | |]; try done; [destruct k; try done|destruct k; try done|..]; cbn in Hnr, Hnd, Hnh;
      destruct Q3 as (s0 & Hs0 & Q3); exists s0; (split; [apply lookup_delete_Some; split; [intros <-|done]|done]).
    + rewrite one_same in Hnr. lia.
    + rewrite one_same in Hnd. lia.
    + simplify_eq. by apply (Hnh (hash_lock_index s)).
    + simplify_eq. by apply (Hnh h'); [|destruct Q3].
    + simplify_eq. by apply (Hnh (hash_lock_index s)).
  - intros t. rewrite E6, E3. apply Hinv.
  - intros h' t. rewrite E7, E3. apply Hinv.
  - intros y z s0 s1 [_ Hy]%Hlook [_ Hz]%Hlook. by apply (inv_unique _ _ Hinv y z s0 s1).
  - rewrite E8, E1, (inv_active _ _ Hinv), (count_active_delete _ _ x s) by (done || (unfold active; rewrite Hc, Hha; destruct (Heq x) as (_ & _ & _ & _ & ->); by rewrite Hdo)).
    f_equal. symmetry. apply count_active_ext. intros y _. apply Heq.
  - rewrite E10, E2, count_empty_del, (inv_empty _ _ Hinv); [done|done|done|]. intros h' [= <-]. rewrite <- Hi. apply Hok.
  - intros g. rewrite E9, E2, group_length_change, decide_False, Z.add_0_r by done. apply Hinv.
  - rewrite E3, E2, upd_list_ne by done. apply Hinv.
Qed.

Lemma drop_ok st t : inv st -> threads st !! t = Some Idle -> safe (drop_one_stripe t st).
Proof.
  intros Hinv Hp. unfold drop_one_stripe. set (h := Z.to_nat _). destruct (hash_locks st h) eqn:Hh; [done|].
  pose proof (get_free_eq st t h Hinv Hh) as Hg. destruct (lists st (inactive_list h)) as [|x rest] eqn:El.
  - rewrite Hg. cbn [obind safe]. apply (inv_frame conf st _ t Idle Idle Hinv Hp); try done; [cbn; by rewrite list_insert_id| |apply (inv_bit _ _ Hinv)].
    apply (locks_kept st _ t Idle); try done. intros h'. cbn. rewrite <- Hh. apply fupd_fupd_id.
  - destruct Hg as (s & Hx & Hl & Hi & Hc & Hha & Hgr & E). rewrite E. cbn [obind].
    unfold stripe. cbn [stripes with_empty_nr with_active with_stripes]. rewrite lookup_insert_eq. cbn [obind count set_hash put_bit set_state set_lru].
    rewrite Hc. cbn [Nat.eqb negb safe]. apply (freed_ok st _ h x s); try done; cbn -[emptied].
    + by rewrite delete_insert_eq.
    + by rewrite El.
    + intros h'. rewrite <- Hh. apply fupd_fupd_id.
    + lia.
Qed.

(** * All steps *)

Lemma start_ok st t a : inv st -> threads st !! t = Some Idle -> safe (start conf t a st).
Proof.
  intros Hinv Hp. destruct a as [c sect flags|x|x| | |grp| | |x| |x|x bits seq n|x| |x|o|c].
  - by apply (get_active_ok st t c Idle); [..|left].
  - cbn [start]. unfold as_user. destruct (Nat.eqb_spec (users st x) 0) as [|Hu]; [done|]. apply (release_ok st t Idle); [done..| |].
    + left. split; [done|]. rewrite fupd_same. lia.
    + intros y Hy. by apply fupd_ne.
  - by apply handled_ok.
  - by apply drain_ok.
  - cbn [start safe]. by use_frame t Idle (Splice (rev (seq 0 NR_STRIPE_HASH_LOCKS))).
  - by apply priority_ok.
  - by apply delayed_ok.
  - by apply bit_delay_ok.
  - by apply plug_ok.
  - by apply unplug_ok.
  - by apply (ref_ok st t).
  - by apply (work_ok st t).
  - by apply grow_ok.
  - by apply drop_ok.
  - by apply (flush_ok st t).
  - by apply inv_other.
  - done.
Qed.

Lemma continue_ok st t c p : inv st -> threads st !! t = Some p -> safe (continue conf t c p st).
Proof.
  intros Hinv Hp. destruct p as [|x|x|x|x|k|x k|x k|hs|h|x h|x h|x h|sect flags b|x|x].
  - done.
  - apply (release_ok st t (RelStart x) (users st) x); auto.
  - by apply release_last_ok.
  - by apply release_add_ok.
  - by apply release_slow_ok.
  - by apply locked_ok.
  - by apply put_ok.
  - by apply (do_ok st t x k).
  - destruct hs as [|h hs]; [by use_frame t (Splice []) Idle|]. apply (splice_ok st t _ _ _ h Hinv Hp). left. by exists hs.
  - apply (splice_ok st t _ _ _ h Hinv Hp). by right.
  - by apply find_zero_ok.
  - by apply find_fast_ok.
  - by apply find_slow_ok.
  - by apply wake_ok.
  - by apply plug_add_ok.
  - by apply unplug_clear_ok.
Qed.

Lemma exec_ok st t a : inv st -> safe (exec conf t a st).
Proof.
  intros Hinv. unfold exec. destruct (threads st !! t) as [p|] eqn:Hp; [|done].
  destruct p; try (by apply start_ok); destruct a; try done; by apply continue_ok.
Qed.

Lemma init_ok n o : inv (cache_init n o).
Proof.
  assert (forall f : pc -> nat, f Idle = O -> tok f (replicate n Idle) = O) as Ht.
  { intros f E. apply tok_zero. intros t p Hp. apply lookup_replicate in Hp as [-> _]. done. }
  split; cbn.
  - intros L. split; [apply NoDup_nil_2|]. intros x. split; [by intros ?%not_elem_of_nil|]. intros (s & Hs & _). by rewrite lookup_empty in Hs.
  - intros x s Hs. by rewrite lookup_empty in Hs.
  - intros x _. unfold refs, doing. cbn. by rewrite !Ht.
  - intros t p Hp. by apply lookup_replicate in Hp as [-> _].
  - done.
  - done.
  - intros x y s s' Hs. by rewrite lookup_empty in Hs.
  - by rewrite count_active_empty.
  - by rewrite count_empty_none.
  - done.
  - by left.
Qed.

Lemma reachable_inv n o st : reachable conf n o st -> inv st.
Proof.
  induction 1 as [|t a st st' _ IH E]; [apply init_ok|]. pose proof (exec_ok st t a IH) as H. by rewrite E in H.
Qed.
End Correct.
