(* ===== verification/Raid5CacheSpec.v ===== *)
(** The stripe cache of md/raid5.c as a store of keyed stripes with references: an abstract
    specification, and the simulation that the threads of Raid5Cache implement it.

    The specification has no locks, lists or threads: a stripe has a key (sector and generation) or
    none, and a number of users.  A stripe gets another key, or is freed, only while it has no
    user, and no two stripes ever have the same key. *)

From S2P Require Import Prelude.
From S2P Require Import Raid5Cache.
From S2P Require Import Raid5CacheInv.
From S2P Require Import Raid5CacheCorrect.

(** * The specification *)

(** [keys x] is [None] where there is no stripe [x], and [Some None] where it has no key. *)
Record store := Store {
  keys : nat -> option (option (Z * Z));
  held : nat -> nat;
}.

Definition is_at {A} (f g : nat -> A) (x : nat) (v : A) : Prop := g x = v /\ forall y, y <> x -> g y = f y.

Inductive store_step (a b : store) : Prop :=
| store_same : (forall y, keys b y = keys a y) -> (forall y, held b y = held a y) -> store_step a b
| store_get x k : keys a x = Some k -> (forall y, keys b y = keys a y) -> is_at (held a) (held b) x (S (held a x)) -> store_step a b
| store_put x : (forall y, keys b y = keys a y) -> held a x = S (held b x) -> (forall y, y <> x -> held b y = held a y) -> store_step a b
| store_assign x old k : keys a x = Some old -> held a x = O -> (forall y, keys a y <> Some (Some k)) ->
    is_at (keys a) (keys b) x (Some (Some k)) -> is_at (held a) (held b) x 1%nat -> store_step a b
| store_new x : keys a x = None -> is_at (keys a) (keys b) x (Some None) -> (forall y, held b y = held a y) -> store_step a b
| store_free x old : keys a x = Some old -> held a x = O -> is_at (keys a) (keys b) x None -> (forall y, held b y = held a y) ->
    store_step a b.

(** * The abstraction *)

Definition key_of (s : stripe_head) : option (Z * Z) := if hashed s then Some (sector s, generation s) else None.
Definition abs (st : cache) : store := Store (fun x => key_of <$> stripes st !! x) (users st).

(** No key changes, and the users are [u]. *)
Definition eff (u : nat -> nat) (st st' : cache) : Prop :=
  (forall x, key_of <$> stripes st' !! x = key_of <$> stripes st !! x) /\ (forall x, users st' x = u x).
Definition eff_o (u : nat -> nat) (st : cache) (o : outcome cache) : Prop := match o with Next st' => eff u st st' | _ => True end.

Lemma eff_refl st : eff (users st) st st.
Proof. done. Qed.

Lemma eff_upd u st st' x f : (forall s, key_of (f s) = key_of s) -> eff u st st' -> eff u st (upd_stripe x f st').
Proof.
  intros Hf [H1 H2]. split; [|done]. intros y. rewrite <- H1. cbn. destruct (decide (y = x)) as [->|Hne].
  - rewrite lookup_alter_eq. destruct (stripes st' !! x); [cbn; by rewrite Hf|done].
  - by rewrite lookup_alter_ne.
Qed.

Lemma eff_bind u u' st (o : outcome cache) f :
  eff_o u st o -> (forall st1, eff u st st1 -> eff_o u' st (f st1)) -> eff_o u' st (obind o f).
Proof. destruct o; cbn; auto. Qed.

Lemma eff_stripe u st st1 x f : (forall s, eff_o u st (f s)) -> eff_o u st (obind (stripe st1 x) f).
Proof. intros H. unfold stripe. destruct (stripes st1 !! x); cbn; auto. Qed.

Lemma eff_list_del u st st1 t x : eff u st st1 -> eff_o u st (list_del_init t x st1).
Proof.
  intros H. unfold list_del_init. apply eff_stripe. intros s. destruct (lru s); [|done]. destruct (negb _); [done|].
  by apply (eff_upd u st (with_lists _ st1)).
Qed.

Lemma eff_list_add u st st1 t x L : eff u st st1 -> eff_o u st (list_add_tail t x L st1).
Proof.
  intros H. unfold list_add_tail. apply eff_stripe. intros s. destruct (bool_decide _); [done|]. destruct (negb _); [done|].
  by apply (eff_upd u st (with_lists _ st1)).
Qed.

(** Splits an operation into the accesses it is made of. *)
Ltac eff_tac := repeat first
  [ assumption
  | exact I
  | match goal with
    | |- eff_o _ _ (obind (stripe _ _) _) => apply eff_stripe; intros ?
    | |- eff_o _ _ (list_del_init _ _ _) => apply eff_list_del
    | |- eff_o _ _ (list_add_tail _ _ _ _) => apply eff_list_add
    end
  | match goal with
    | |- eff_o _ _ (if ?b then _ else _) => destruct b
    | |- eff_o _ _ (match ?x with _ => _ end) => destruct x
    | |- eff_o ?u _ (obind _ _) => apply (eff_bind u u); [|intros ? ?]
    | |- eff_o _ _ (Next _) => cbn [eff_o]
    | |- eff _ _ (if ?b then _ else _) => destruct b
    | |- eff _ _ (match ?x with _ => _ end) => destruct x
    | |- eff _ _ (upd_stripe _ _ _) => apply eff_upd; [done|]
    | |- eff ?u ?st (add_active _ ?s) => change (eff u st s)
    | |- eff ?u ?st (add_preread _ ?s) => change (eff u st s)
    | |- eff ?u ?st (add_r5c_cached _ _ ?s) => change (eff u st s)
    | |- eff ?u ?st (add_r5c_flushing _ _ ?s) => change (eff u st s)
    | |- eff ?u ?st (add_stripes_cnt _ _ ?s) => change (eff u st s)
    | |- eff ?u ?st (add_empty_nr _ ?s) => change (eff u st s)
    | |- eff ?u ?st (with_device_lock _ ?s) => change (eff u st s)
    | |- eff ?u ?st (with_lists _ ?s) => change (eff u st s)
    | |- eff ?u ?st (with_other _ ?s) => change (eff u st s)
    | |- eff ?u ?st (with_working _ ?s) => change (eff u st s)
    | |- eff ?u ?st (with_released _ ?s) => change (eff u st s)
    | |- eff ?u ?st (lock_hash _ _ ?s) => change (eff u st s)
    | |- eff ?u ?st (unlock_hash _ ?s) => change (eff u st s)
    | |- eff ?u ?st (go _ _ ?s) => change (eff u st s)
    | H : eff ?u ?st ?s |- eff ?u ?st _ => exact H
    end ].

Section Refines.
Context (conf : config).

Lemma eff_wakeup u st st1 t x : eff u st st1 -> eff_o u st (raid5_wakeup_stripe_thread conf t x st1).
Proof. intros H. unfold raid5_wakeup_stripe_thread. eff_tac. Qed.

Lemma eff_do_release u st st1 t x temp : eff u st st1 -> eff_o u st (do_release_stripe conf t x temp st1).
Proof.
  intros H. unfold do_release_stripe. apply eff_stripe. intros s. eff_tac.
  - unfold release_write_out, r5c_make_stripe_write_out. eff_tac.
  - unfold release_handle. eff_tac. apply eff_wakeup. eff_tac.
  - unfold release_idle. eff_tac.
Qed.

Lemma eff_moved u st st1 f ids : (forall s, key_of (f s) = key_of s) -> eff u st st1 ->
  eff u st (with_stripes (fold_left (fun m sh => alter f sh m) ids (stripes st1)) st1).
Proof.
  intros Hf. revert st1. induction ids as [|x ids IH]; intros st1 H; [exact H|]. exact (IH _ (eff_upd u st st1 x f Hf H)).
Qed.

Lemma eff_splice u st st1 t src h : eff u st st1 -> eff_o u st (splice_inactive t src h st1).
Proof.
  intros H. unfold splice_inactive. destruct (is_empty (lists st1 src)); [done|]. destruct (hash_locks st1 h); [done|].
  cbn zeta. destruct (_ || _); [done|]. cbn [eff_o]. set (st2 := if is_empty _ then _ else _).
  assert (eff u st st2) as H2 by (unfold st2; by destruct (is_empty _)).
  apply (eff_moved u st st2 (fun s => set_lru (Some (inactive_list h)) (set_bit STRIPE_ON_INACTIVE_LIST s)) (lists (lock_hash t h st1) src)); done.
Qed.

Lemma eff_delayed u st t ids : forall st1, eff u st st1 -> eff_o u st (activate_delayed_loop conf t ids st1).
Proof. induction ids as [|x ids IH]; intros st1 H; cbn [activate_delayed_loop]; [exact H|]. eff_tac; [apply eff_wakeup; eff_tac|by apply IH]. Qed.

Lemma eff_locked st t k : eff_o (users st) st (locked_step t k st).
Proof. pose proof (eff_refl st) as H. unfold locked_step. destruct k as [|[|x todo]| |h]; eff_tac. Qed.

(** * The steps of a thread under way *)

(** A step that gives a reference to [x] to a user. *)
Lemma eff_get_ref u st st1 x : eff u st st1 -> eff (fupd u x (S (u x))) st (get_ref x st1).
Proof.
  intros H. destruct (eff_upd u st st1 x (fun s => set_count (S (count s)) s) ltac:(done) H) as [H1 H2]. split; [exact H1|].
  intros y. cbn. unfold fupd. destruct (y =? x)%nat; by rewrite (proj2 H).
Qed.

Abbreviation one_more st x := (fupd (users st) x (S (users st x))).
Abbreviation one_less st x := (fupd (users st) x (users st x - 1)%nat).

Lemma eff_find_fast st t x h : eff_o (one_more st x) st (find_fast t x h st).
Proof.
  pose proof (eff_refl st) as H. unfold find_fast. cbn zeta. apply (eff_bind (users st)); [eff_tac|]. intros st1 H1.
  apply (eff_bind (users st)); [unfold leave_group; eff_tac|]. intros st2 H2. by apply eff_get_ref.
Qed.

Lemma eff_find_slow st t x h : eff_o (one_more st x) st (find_slow t x h st).
Proof.
  pose proof (eff_refl st) as H. unfold find_slow. destruct (device_lock st); [done|]. cbn zeta. apply eff_stripe. intros s.
  apply (eff_bind (users st)); [unfold leave_group; eff_tac|]. intros st2 H2. by apply eff_get_ref.
Qed.

Lemma eff_priority st t grp : match __get_priority_stripe conf t grp st with
  | Next st' => eff (users st) st st' \/ exists x, eff (one_more st x) st st' | _ => True end.
Proof.
  unfold __get_priority_stripe. destruct (device_lock st); [done|]. cbn zeta.
  match goal with |- context [let '(r, st) := ?R in _] => set (r := R) end.
  assert (eff (users st) st (snd r)) as Hr.
  { unfold r. destruct (priority_try _ _ _ _) as [[w|] st1] eqn:E; apply priority_try_spec in E as [[o ->] Hw]; [done|].
    destruct (_ && _); [done|]. destruct (priority_try _ _ _ (with_other _ _)) as [w st2] eqn:E2. by apply priority_try_spec in E2 as [[o2 ->] _]. }
  destruct r as [[[x wg]|] st1]; [|by left]. cbn [snd] in Hr.
  match goal with |- match ?o with Next _ => _ | Block => _ | Bug => _ end => assert (eff_o (one_more st x) st o) as Ho end.
  { apply (eff_bind (users st)); [eff_tac|]. intros st2 H2. apply eff_stripe. intros s. destruct (negb _); [done|]. by apply eff_get_ref. }
  match goal with |- match ?o with Next _ => _ | Block => _ | Bug => _ end => destruct o; [right; by exists x|done..] end.
Qed.

Lemma eff_flush st t x : eff_o (one_more st x) st (r5c_flush_stripe conf t x st).
Proof.
  pose proof (eff_refl st) as H. unfold r5c_flush_stripe. destruct (device_lock st); [done|]. cbn zeta. apply eff_stripe. intros s.
  do 4 (match goal with |- eff_o _ _ (if ?b then _ else _) => destruct b; [done|] end).
  apply (eff_bind (users st)); [eff_tac|]. intros st1 H1. apply (eff_bind (one_more st x)).
  - unfold r5c_make_stripe_write_out. pose proof (eff_get_ref (users st) st _ x (eff_upd _ _ _ x (set_bit STRIPE_HANDLE) ltac:(done) H1)) as H2. eff_tac.
  - intros st2 H2. eff_tac.
Qed.

(** * The simulation *)

Lemma sim_same st st' : eff (users st) st st' -> store_step (abs st) (abs st').
Proof. intros [H1 H2]. by apply store_same. Qed.

Lemma sim_get st st' x : inv conf st' -> eff (one_more st x) st st' -> store_step (abs st) (abs st').
Proof.
  intros Hinv [H1 H2]. destruct (ref_alive conf st' x Hinv) as (s & Hs & _ & _).
  { unfold refs. rewrite H2, fupd_same. lia. }
  apply (store_get _ _ x (key_of s)); cbn; [by rewrite <- H1, Hs|done|]. split; [by rewrite H2, fupd_same|].
  intros y Hy. by rewrite H2, fupd_ne.
Qed.

Lemma sim_put st st' x : users st x <> O -> eff (one_less st x) st st' -> store_step (abs st) (abs st').
Proof.
  intros Hx [H1 H2]. apply (store_put _ _ x); cbn; [done|rewrite H2, fupd_same; lia|]. intros y Hy. by rewrite H2, fupd_ne.
Qed.

Lemma no_users st x s : inv conf st -> stripes st !! x = Some s -> count s = O -> users st x = O.
Proof. intros Hinv Hx Hc. pose proof (ok_count _ _ _ _ _ _ _ (inv_stripe _ _ Hinv x s Hx)) as H. unfold refs in H. lia. Qed.

Lemma sim_assign st t p c sect flags st' : inv conf st -> threads st !! t = Some p -> quiet p ->
  raid5_get_active_stripe conf t c sect flags st = Next st' -> store_step (abs st) (abs st').
Proof.
  intros Hinv Hp Hq E. pose proof (get_active_ok conf st t c p sect flags Hinv Hp Hq) as Hs. rewrite E in Hs. cbn in Hs. revert E.
  unfold raid5_get_active_stripe. set (h := stripe_hash_locks_hash conf sect).
  destruct (hash_locks st h) eqn:Hh; [done|]. destruct (negb _ && _); [intros [= <-]; by apply sim_same|].
  destruct (__find_stripe _ _ _) as [x|] eqn:Ef.
  { unfold stripe. destruct (stripes st !! x) as [s|] eqn:Hx; [|done]. cbn [obind]. destruct (count s =? 0)%nat; intros [= <-].
    - by apply sim_same.
    - apply (sim_get st _ x Hs). exact (eff_get_ref (users st) st st x (eff_refl st)). }
  cbn [other lock_hash with_hash_locks]. destruct (R5_INACTIVE_BLOCKED (other st)).
  { cbn [obind]. destruct (gas_noblock flags); intros [= <-]; by apply sim_same. }
  destruct (lists st (inactive_list h)) as [|x rest] eqn:El.
  { pose proof (get_free_eq conf st t h Hinv Hh) as Hg. rewrite El in Hg. rewrite Hg. cbn [obind].
    destruct (R5_DID_ALLOC _), (gas_noblock flags); intros [= <-]; by apply sim_same. }
  destruct (get_free_state conf st t c sect (gas_previous flags) Hinv Hh x rest El) as (s & Hx & Hl & Hi & Hc & E).
  fold h in E. cbn [other lock_hash with_hash_locks] in E. rewrite E. intros [= <-].
  apply (store_assign _ _ x (key_of s) (sect, stripe_generation (other st) (gas_previous flags))); cbn.
  - by rewrite Hx.
  - by apply (no_users st x s).
  - intros y Hy. destruct (stripes st !! y) as [sy|] eqn:Hsy; [|done]. cbn in Hy. unfold key_of in Hy. destruct (hashed sy) eqn:Hhy; [|done].
    injection Hy as Hy1 Hy2. by apply (find_stripe_none st _ _ y sy Ef).
  - split; [by rewrite lookup_insert_eq|]. intros y Hy. by rewrite lookup_insert_ne.
  - rewrite (no_users st x s) by done. split; [by rewrite fupd_same|]. intros y Hy. by rewrite fupd_ne.
Qed.

Lemma sim_grow st t x st' : grow_one_stripe t x st = Next st' -> store_step (abs st) (abs st').
Proof.
  unfold grow_one_stripe. destruct (stripes st !! x) eqn:Hx; [done|]. intros [= <-]. apply (store_new _ _ x); cbn; [by rewrite Hx| |done].
  split; [by rewrite lookup_insert_eq|]. intros y Hy. by rewrite lookup_insert_ne.
Qed.

Lemma sim_drop st t st' : inv conf st -> drop_one_stripe t st = Next st' -> store_step (abs st) (abs st').
Proof.
  intros Hinv. unfold drop_one_stripe. set (h := Z.to_nat _). destruct (hash_locks st h) eqn:Hh; [done|].
  pose proof (get_free_eq conf st t h Hinv Hh) as Hg. destruct (lists st (inactive_list h)) as [|x rest] eqn:El.
  { rewrite Hg. intros [= <-]. by apply sim_same. }
  destruct Hg as (s & Hx & Hl & Hi & Hc & Hha & Hgr & E). rewrite E. cbn [obind]. unfold stripe.
  cbn [stripes with_empty_nr with_active with_stripes]. rewrite lookup_insert_eq. cbn [obind count set_hash put_bit set_state set_lru].
  rewrite Hc. cbn [Nat.eqb negb]. intros [= <-]. apply (store_free _ _ x (key_of s)); cbn.
  - by rewrite Hx.
  - by apply (no_users st x s).
  - split; [by rewrite lookup_delete_eq|]. intros y Hy. by rewrite lookup_delete_ne, lookup_insert_ne.
  - done.
Qed.

(** From the effect of an operation to the step of the store. *)
Lemma sim_eff st o st' : eff_o (users st) st o -> o = Next st' -> store_step (abs st) (abs st').
Proof. intros H ->. by apply sim_same. Qed.

Lemma sim_eff_get st o st' x : inv conf st' -> eff_o (one_more st x) st o -> o = Next st' -> store_step (abs st) (abs st').
Proof. intros Hinv H ->. by apply (sim_get st st' x). Qed.

Lemma sim_user st x f st' : (forall st1, eff (one_less st x) st st1 -> eff_o (one_less st x) st (f st1)) ->
  as_user x f st = Next st' -> store_step (abs st) (abs st').
Proof.
  intros Hf. unfold as_user. destruct (Nat.eqb_spec (users st x) 0) as [|Hu]; [done|]. intros E.
  assert (eff (one_less st x) st (drop_user x st)) as H1 by done. specialize (Hf _ H1). rewrite E in Hf. by apply (sim_put st st' x).
Qed.

Lemma sim_start st t a st' : inv conf st -> inv conf st' -> threads st !! t = Some Idle -> start conf t a st = Next st' ->
  store_step (abs st) (abs st').
Proof.
  intros Hinv Hinv' Hp. pose proof (eff_refl st) as H0. destruct a as [c sect flags|x|x| | |grp| | |x| |x|x bits seq n|x| |x|o|c]; cbn [start].
  - by apply (sim_assign st t Idle c); [..|left].
  - apply sim_user. intros st1 H. unfold raid5_release_stripe. eff_tac.
  - unfold release_handled. destruct (device_lock st); [done|]. by apply sim_user.
  - apply sim_eff. unfold release_stripe_list. eff_tac.
  - by apply sim_eff.
  - intros E. pose proof (eff_priority st t grp) as H. rewrite E in H. destruct H as [H|[x H]]; [by apply sim_same|by apply (sim_get st st' x)].
  - apply sim_eff. unfold raid5_activate_delayed. destruct (device_lock st); [done|]. destruct (_ <? _); [|done].
    apply (eff_bind (users st)); [by apply eff_delayed|]. intros st1 H1. eff_tac.
  - apply sim_eff. unfold activate_bit_delay. destruct (device_lock st); [done|]. cbn [eff_o].
    by apply (eff_moved (users st) st (with_device_lock (Some t) st) (set_lru (Some bit_head)) (lists st bitmap_list)).
  - apply sim_user. intros st1 H. unfold release_stripe_plug. eff_tac.
  - apply sim_eff. unfold raid5_unplug. eff_tac.
  - destruct (users st x =? 0)%nat; [done|]. apply (sim_eff_get st (Next (get_ref x st)) st' x Hinv'). by apply eff_get_ref.
  - destruct (_ || _); [done|]. apply sim_eff. eff_tac.
  - apply sim_grow.
  - by apply sim_drop.
  - destruct (stripes st !! x) as [s|]; [|done]. destruct (_ && _); [|done]. apply (sim_eff_get st _ st' x Hinv'). apply eff_flush.
  - by apply sim_eff.
  - done.
Qed.

Lemma sim_continue st t c p st' : inv conf st -> inv conf st' -> threads st !! t = Some p -> continue conf t c p st = Next st' ->
  store_step (abs st) (abs st').
Proof.
  intros Hinv Hinv' Hp. pose proof (eff_refl st) as H0. destruct p as [|x|x|x|x|k|x k|x k|hs|h|x h|x h|x h|sect flags b|x|x]; cbn [continue].
  - done.
  - apply sim_eff. unfold raid5_release_stripe. eff_tac.
  - apply sim_eff. unfold release_last. eff_tac.
  - by apply sim_eff.
  - apply sim_eff. unfold release_slow. eff_tac.
  - apply sim_eff, eff_locked.
  - apply sim_eff. unfold __release_stripe. eff_tac.
  - apply sim_eff. apply eff_stripe. intros s. apply (eff_bind (users st)); [by apply eff_do_release|]. intros st1 H1. eff_tac.
  - destruct hs as [|h hs]; [by apply sim_eff|]. apply sim_eff, (eff_bind (users st)); [by apply eff_splice|]. intros st1 H1. eff_tac.
  - apply sim_eff, (eff_bind (users st)); [by apply eff_splice|]. intros st1 H1. eff_tac.
  - apply sim_eff. eff_tac.
  - apply (sim_eff_get st _ st' x Hinv'), (eff_bind (one_more st x)); [apply eff_find_fast|]. intros st1 H1. eff_tac.
  - apply (sim_eff_get st _ st' x Hinv'), (eff_bind (one_more st x)); [apply eff_find_slow|]. intros st1 H1. eff_tac.
  - assert (quiet (WaitStripe sect flags b)) as Hq by (right; eauto). unfold wake_stripe. destruct b.
    + destruct (quiesce _); [done|]. by apply (sim_assign st t (WaitStripe sect flags true)).
    + destruct (is_inactive_blocked _ _); [|done]. by apply (sim_assign (with_inactive_blocked false st) t (WaitStripe sect flags false)); [apply inv_other|..].
  - apply sim_eff, (eff_bind (users st)); [by apply eff_list_add|]. intros st1 H1. eff_tac.
  - apply sim_eff. unfold unplug_clear. eff_tac.
Qed.

Lemma sim_exec st t a st' : inv conf st -> exec conf t a st = Next st' -> store_step (abs st) (abs st').
Proof.
  intros Hinv E. pose proof (exec_ok conf st t a Hinv) as Hinv'. rewrite E in Hinv'. cbn in Hinv'. revert E. unfold exec.
  destruct (threads st !! t) as [p|] eqn:Hp; [|done].
  destruct p; try (by apply (sim_start st t)); destruct a; try done; by apply (sim_continue st t).
Qed.
End Refines.
