(* ===== verification/Raid5CacheTheorems.v ===== *)
(** What the invariant of the stripe cache of md/raid5.c gives for every state that the threads
    can reach: nothing goes wrong, nothing deadlocks, no stripe is lost or freed while it is used,
    and the counters count what their names say. *)

From S2P Require Import Prelude.
From S2P Require Import Raid5Cache.
From S2P Require Import Raid5CacheInv.
From S2P Require Import Raid5CacheCorrect.
From S2P Require Import Raid5CacheSpec.

Lemma NoDup_occ l : (forall x, occ x l <= 1)%nat -> NoDup l.
Proof.
  induction l as [|y l IH]; intros H; [apply NoDup_nil_2|]. apply list.NoDup_cons. split.
  - intros Hin. specialize (H y). rewrite occ_cons, one_same in H. enough (0 < occ y l)%nat by lia. clear - Hin.
    induction l as [|z l IH]; [by apply not_elem_of_nil in Hin|]. rewrite occ_cons. apply elem_of_cons in Hin as [->|Hin]; [rewrite one_same; lia|specialize (IH Hin); lia].
  - apply IH. intros x. specialize (H x). rewrite occ_cons in H. lia.
Qed.

Section Theorems.
Context (conf : config).

(** * Progress *)

Definition moves (o : outcome cache) : Prop := o <> Block.

(** Splits the conditions of an operation that takes no lock. *)
Ltac moves_tac := repeat first
  [ done
  | progress cbn [obind]
  | rewrite obind_assoc
  | match goal with |- moves (if ?b then _ else _) => destruct b end
  | match goal with |- moves (match ?x with _ => _ end) => destruct x eqn:? end
  | match goal with |- moves (obind (if ?b then _ else _) _) => destruct b end
  | match goal with |- moves (obind (match ?x with _ => _ end) _) => destruct x eqn:? end ].

Lemma list_del_moves t x st f : (forall st', moves (f st')) -> moves (obind (list_del_init t x st) f).
Proof. intros Hf. unfold list_del_init, stripe. moves_tac; apply Hf. Qed.

(** The holder of [device_lock] never waits. *)
Lemma dev_moves st t c p : inv conf st -> threads st !! t = Some p -> has_dev p = true -> moves (continue conf t c p st).
Proof.
  intros Hinv Hp Hd. destruct p as [| | | | |k|x k|x k| | | | | | | |]; try done; cbn [continue].
  - destruct k as [|[|x todo]| |h]; cbn [locked_step]; try done; [unfold stripe; moves_tac|].
    destruct (lists st bit_head) as [|x rest]; [done|]. by apply list_del_moves.
  - unfold __release_stripe, stripe. moves_tac.
  - destruct (doing_placed conf st t x k Hinv Hp) as (s & st' & s' & oL & Hx & _ & _ & _ & _ & E & _).
    unfold stripe. rewrite Hx. cbn [obind]. by rewrite E.
Qed.

(** Nor does the holder of a hash lock, while [device_lock] is free. *)
Lemma find_moves st t c p h : device_lock st = None -> hash_of p = Some h -> moves (continue conf t c p st).
Proof.
  intros Hd Hh. destruct p as [| | | | | | | | | |x h'|x h'|x h'| | |]; try done; cbn [continue].
  - unfold stripe. moves_tac.
  - unfold find_fast. cbn zeta. rewrite obind_assoc. apply list_del_moves. intros st'. unfold leave_group, stripe. moves_tac.
  - unfold find_slow. rewrite Hd. cbn zeta. unfold stripe at 1. destruct (_ !! x) as [s|]; [|done]. cbn [obind].
    destruct (count s =? 0)%nat; [|done]. destruct (bool_decide _ && _); [done|]. rewrite !obind_assoc. apply list_del_moves.
    intros st'. unfold leave_group, stripe. moves_tac.
Qed.
  
Lemma progress st t c p : inv conf st -> threads st !! t = Some p -> p <> Idle -> (forall sect flags b, p <> WaitStripe sect flags b) ->
  exists t' q, threads st !! t' = Some q /\ q <> Idle /\ moves (continue conf t' c q st).
Proof.
  intros Hinv Hp Hi Hw. destruct (device_lock st) as [t'|] eqn:Hd.
  { destruct (inv_dev _ _ Hinv t' Hd) as (q & Hq & Hd'). exists t', q. split_and!; [done|by intros ->|by apply dev_moves]. }
  destruct (hash_of p) as [h|] eqn:Eh; [exists t, p; split_and!; [done..|by apply (find_moves st t c p h)]|].
  assert (has_dev p = true -> moves (continue conf t c p st)) as Hdev by (by apply dev_moves).
  assert (forall h, (hash_locks st h = None -> moves (continue conf t c p st)) ->
    exists t' q, threads st !! t' = Some q /\ q <> Idle /\ moves (continue conf t' c q st)) as Hwait.
  { intros h H. destruct (hash_locks st h) as [t'|] eqn:Hh; [|exists t, p; split_and!; [done..|by apply H]].
    destruct (inv_hash _ _ Hinv h t' Hh) as (q & Hq & Hh'). exists t', q. split_and!; [done|by intros ->|by apply (find_moves st t' c q h)]. }
  assert (moves (continue conf t c p st) -> exists t' q, threads st !! t' = Some q /\ q <> Idle /\ moves (continue conf t' c q st)) as Hself by (intros H; by exists t, p).
  destruct p as [|x|x|x|x|k|x k|x k|[|h hs]|h| | | |sect flags b|x|x]; try done; try (by apply Hself, Hdev).
  - apply Hself. cbn [continue]. unfold raid5_release_stripe, stripe. moves_tac.
  - apply Hself. cbn [continue]. unfold release_last, stripe. moves_tac.
  - by apply Hself.
  - apply Hself. cbn [continue]. unfold release_slow, stripe. rewrite Hd. moves_tac.
  - by apply Hself.
  - apply (Hwait h). intros Hh. cbn [continue]. unfold splice_inactive. rewrite Hh. moves_tac.
  - apply (Hwait h). intros Hh. cbn [continue]. unfold splice_inactive. rewrite Hh. moves_tac.
  - by destruct (Hw sect flags b).
  - apply Hself. cbn [continue]. unfold list_add_tail, stripe. moves_tac.
  - apply Hself. cbn [continue]. unfold unplug_clear, stripe. moves_tac.
Qed.

(** * Reachable states *)

(** The state that the steps [acts] lead to, where a step that has to wait is left out. *)
Definition run (acts : list (nat * action)) (st : cache) : cache :=
  fold_left (fun st '(t, a) => match exec conf t a st with Next st' => st' | _ => st end) acts st.

Lemma run_reachable n o acts : forall st, reachable conf n o st -> reachable conf n o (run acts st).
Proof.
  induction acts as [|[t a] acts IH]; intros st H; [done|]. cbn [run fold_left]. apply IH.
  destruct (exec conf t a st) eqn:E; [by apply (reach_step _ _ _ t a st)|done..].
Qed.

(** C24. In every state that the threads can reach, no step of any of them ends in a [BUG_ON], links
    a stripe that is on a list or touches a freed one, changes a list or a counter of a worker group
    without the lock that protects it, or drops a reference that does not exist. *)
Theorem cache_safe n o st t a : reachable conf n o st -> exec conf t a st <> Bug.
Proof. intros H E. pose proof (exec_ok conf st t a (reachable_inv conf n o st H)) as Hs. by rewrite E in Hs. Qed.

(** C26. The locks of the cache cannot deadlock: in every state that can be reached with a thread in
    the middle of an operation, other than waiting for a free stripe, some thread in the middle of
    one can take its next step. *)
Theorem cache_progress n o st t p c : reachable conf n o st ->
  threads st !! t = Some p -> p <> Idle -> (forall sect flags b, p <> WaitStripe sect flags b) ->
  exists t' q st', threads st !! t' = Some q /\ q <> Idle /\ exec conf t' (Continue c) st = Next st'.
Proof.
  intros H Hp Hi Hw. pose proof (reachable_inv conf n o st H) as Hinv.
  destruct (progress st t c p Hinv Hp Hi Hw) as (t' & q & Hq & Hqi & Hm). exists t', q.
  assert (exec conf t' (Continue c) st = continue conf t' c q st) as E by (unfold exec; rewrite Hq; by destruct q).
  pose proof (exec_ok conf st t' (Continue c) Hinv) as Hs. rewrite E in *. destruct (continue conf t' c q st) as [st'| |]; [by exists st'|done..].
Qed.

(** C25. The stripe cache implements the store of keyed stripes: it starts as the empty store, and
    every step of a thread is a step of the store, or none. *)
Theorem cache_refines n o st t a st' : reachable conf n o st -> exec conf t a st = Next st' ->
  (forall x, keys (abs (cache_init n o)) x = None /\ held (abs (cache_init n o)) x = O) /\ store_step (abs st) (abs st').
Proof. intros H E. split; [done|]. by apply (sim_exec conf st t a), E; apply (reachable_inv conf n o). Qed.

(** While the md thread runs, [raid5_release_stripe] takes no lock: when a thread finds that it
    has the last reference, [STRIPE_ON_RELEASE_LIST] is not set, its next step sets it and goes on
    to the lockless list, and the slow path is never taken.  So the release is safe with [device_lock] or a hash
    lock held, as [r5c_flush_stripe] and [raid5_get_active_stripe] call it. *)
Theorem release_lockless n o st t c x : reachable conf n o st -> threads st !! t = Some (RelLast x) -> has_thread conf = true ->
  exists st', exec conf t (Continue c) st = Next st' /\ threads st' !! t = Some (RelAdd x) /\
    device_lock st' = device_lock st /\ (forall h, hash_locks st' h = hash_locks st h).
Proof.
  intros H Hp Ht. pose proof (reachable_inv conf n o st H) as Hinv.
  destruct (ref_alive conf st x Hinv) as (s & Hx & Hok & Hc).
  { apply (refs_pos st t _ x Hp). cbn. rewrite one_same. lia. }
  assert (state s STRIPE_ON_RELEASE_LIST = false) as Hf.
  { pose proof (tok_le _ _ _ _ _ (flag_last x) Hp) as Hle. cbn in Hle. rewrite one_same in Hle.
    pose proof (ok_last _ _ _ _ _ _ _ Hok). pose proof (ok_flag _ _ _ _ _ _ _ Hok). unfold lasts, flags in *.
    destruct (state s STRIPE_ON_RELEASE_LIST); [cbn in *; lia|done]. }
  unfold exec. rewrite Hp. cbn [continue]. unfold release_last, stripe. rewrite Hx, Ht. cbn [obind negb]. rewrite Hf.
  eexists. split; [reflexivity|]. split; [|done]. cbn. apply list_lookup_insert_eq. by apply lookup_lt_Some in Hp.
Qed.

(** A stripe that a request holds a reference to stays: it exists, its count is no less than the
    references, it is on no list but that of a plug, it is the only stripe with its key, and no step
    of any thread frees it or gives it another key. *)
Theorem stripe_in_use n o st x : reachable conf n o st -> users st x <> O ->
  exists s, stripes st !! x = Some s /\ (users st x <= count s)%nat /\
    (forall L, x ∈ lists st L -> exists t, L = plug_list t) /\
    (forall y s', stripes st !! y = Some s' -> key_of s' = key_of s -> key_of s <> None -> y = x) /\
    (forall t a st', exec conf t a st = Next st' -> exists s', stripes st' !! x = Some s' /\ key_of s' = key_of s).
Proof.
  intros H Hu. pose proof (reachable_inv conf n o st H) as Hinv.
  destruct (ref_alive conf st x Hinv) as (s & Hs & Hok & Hc); [unfold refs; lia|]. exists s. split_and!.
  - done.
  - rewrite (ok_count _ _ _ _ _ _ _ Hok). unfold refs. lia.
  - intros L (s' & Hs' & HL)%(inv_lists _ _ Hinv L). simplify_eq. destruct (ok_busy _ _ _ _ _ _ _ Hok Hc) as [|Hpl]; [congruence|].
    rewrite HL in Hpl. destruct L; cbn in Hpl; try lia. eauto.
  - intros y s' Hy Hk Hn. apply (inv_unique _ _ Hinv y x s' s Hy Hs). unfold key_of in *. destruct (hashed s) eqn:E1, (hashed s') eqn:E2; try done.
    injection Hk as ? ?. by split_and!.
  - intros t a st' E. assert (keys (abs st') x = keys (abs st) x) as Hk.
    { destruct (sim_exec conf st t a st' Hinv E) as [Hk _|y k _ Hk _|y Hk _ _|y old k _ Hy _ [_ Hk] _|y Hy [_ Hk] _|y old _ Hy [_ Hk] _]; try done.
      - apply Hk. intros ->. by cbn in Hy.
      - apply Hk. intros ->. cbn in Hy. by rewrite Hs in Hy.
      - apply Hk. intros ->. by cbn in Hy. }
    cbn in Hk. rewrite Hs in Hk. destruct (stripes st' !! x) as [s'|]; [|done]. injection Hk as Hk. by exists s'.
Qed.

(** C27. No stripe is lost.  A stripe is on one list at most, once.  While it is referenced that is
    the list of a plug.  Without references, unless a thread is just releasing it, it is on a list, but
    for one with [STRIPE_EXPANDING] set and [STRIPE_HANDLE] clear, which may be on none; the list is one
    of stripes to handle exactly if [STRIPE_HANDLE] is set, no list of a plug, and that of the stripe's
    hash where the list has one.  [STRIPE_ON_INACTIVE_LIST] is set exactly on the inactive list of its
    hash. *)
Theorem stripe_located n o st x s : reachable conf n o st -> stripes st !! x = Some s ->
  (forall L, NoDup (lists st L) /\ (x ∈ lists st L <-> lru s = Some L)) /\
  ((0 < count s)%nat -> lru s = None \/ exists t, lru s = Some (plug_list t)) /\
  (state s STRIPE_ON_INACTIVE_LIST = true <-> lru s = Some (inactive_list (hash_lock_index s))) /\
  (count s = O -> (forall t k, threads st !! t <> Some (Do x k)) ->
    match lru s with
    | None => state s STRIPE_EXPANDING = true /\ state s STRIPE_HANDLE = false
    | Some L => state s STRIPE_HANDLE = to_handle L /\ (forall t, L <> plug_list t) /\
        (forall h, list_hash (Some L) = Some h -> h = hash_lock_index s)
    end).
Proof.
  intros H Hs. pose proof (reachable_inv conf n o st H) as Hinv. pose proof (inv_stripe _ _ Hinv x s Hs) as Hok. split_and!.
  - intros L. destruct (inv_lists _ _ Hinv L) as [Hn Hi]. split; [done|]. rewrite Hi, Hs. naive_solver.
  - intros Hc. destruct (ok_busy _ _ _ _ _ _ _ Hok Hc) as [|Hpl]; [auto|]. right. destruct (lru s) as [[]|]; cbn in Hpl; try lia. eauto.
  - apply Hok.
  - intros Hc Hdo. assert (doing st x = O) as Hd.
    { apply tok_zero. intros t p Hp. destruct p as [| | | | | | |y k| | | | | | | |]; try done. cbn. apply one_ne. intros <-. by apply (Hdo t k). }
    pose proof (ok_home _ _ _ _ _ _ _ Hok Hc Hd) as Hh. unfold home in Hh. pose proof (ok_list_hash _ _ _ _ _ _ _ Hok) as Hl.
    destruct (lru s) as [L|]; [|naive_solver]. split_and!; [by destruct L|by intros t ->|done].
Qed.

(** C28. The counters are exact: [active_stripes] is the number of stripes that are referenced, to
    be handled or just being released, [empty_inactive_list_nr] the number of empty inactive lists,
    [stripes_cnt] of a worker group the length of its lists, a stripe's [count] the references to
    it; and no stripe is on the release list twice. *)
Theorem cache_counters n o st : reachable conf n o st ->
  active_stripes st = Z.of_nat (count_active (stripes st) (doing st)) /\
  empty_inactive_list_nr st = Z.of_nat (count_empty (lists st)) /\
  (forall g, stripes_cnt st g = group_length (lists st) g) /\
  (forall x s, stripes st !! x = Some s -> count s = (refs st x + on_plug (lru s))%nat) /\
  NoDup (released_stripes st).
Proof.
  intros H. pose proof (reachable_inv conf n o st H) as Hinv. split_and!; [apply Hinv..|intros x s Hs; by apply (inv_stripe _ _ Hinv x s Hs)|].
  apply NoDup_occ. intros x. destruct (decide (occ x (released_stripes st) = O)) as [|Hx]; [lia|].
  destruct (ref_alive conf st x Hinv) as (s & _ & Hok & _); [unfold refs; lia|].
  pose proof (ok_last _ _ _ _ _ _ _ Hok). unfold lasts in *. lia.
Qed.
End Theorems.

(** * A run *)

(** Two threads; worker groups of two workers; no write-back. *)
Definition conf_ex : config := Config 2 2 false false 5 2 true 3 1 (fun _ => true) 0 (fun c => (c mod 2)%nat).
Definition misc_ex : misc := Misc 0 0 0 0 0 (fun _ _ => false) 0 0 0 false 0 0 None false false false false.
Definition flags_ex : gas := Gas false false false.

Definition on (t n : nat) : list (nat * action) := replicate n (t, Continue 0).

(** Thread 0 allocates the stripe 5 and releases it; thread 1 takes it from the release list and
    makes it inactive; thread 0 gets it for the sector 256. *)
Definition acts_ex : list (nat * action) :=
  [(0, Grow 5)]%nat ++ on 0 3 ++ [(1, Drain)]%nat ++ on 1 5 ++ [(1, SpliceAll)]%nat ++ on 1 33 ++ [(0, Get 0 256 flags_ex)]%nat.
Definition idle_ex : cache := run conf_ex (removelast acts_ex) (cache_init 2 misc_ex).
Definition used_ex : cache := run conf_ex acts_ex (cache_init 2 misc_ex).
Definition grown_ex : cache := run conf_ex [(0, Grow 5)]%nat (cache_init 2 misc_ex).

Lemma idle_reachable : reachable conf_ex 2 misc_ex idle_ex.
Proof. apply run_reachable, reach_init. Qed.

Lemma used_reachable : reachable conf_ex 2 misc_ex used_ex.
Proof. apply run_reachable, reach_init. Qed.

Lemma grown_reachable : reachable conf_ex 2 misc_ex grown_ex.
Proof. apply run_reachable, reach_init. Qed.

Definition last_ex : cache := run conf_ex ([(0, Grow 5)]%nat ++ on 0 1) (cache_init 2 misc_ex).

Lemma last_reachable : reachable conf_ex 2 misc_ex last_ex.
Proof. apply run_reachable, reach_init. Qed.

Lemma cache_safe_witness : exec conf_ex 0 (Release 5) used_ex <> Bug.
Proof. exact (cache_safe conf_ex 2 misc_ex used_ex 0 (Release 5) used_reachable). Defined.

Lemma cache_progress_witness :
  exists t' q st', threads grown_ex !! t' = Some q /\ q <> Idle /\ exec conf_ex t' (Continue 0) grown_ex = Next st'.
Proof.
  apply (cache_progress conf_ex 2 misc_ex grown_ex 0 (RelStart 5) 0 grown_reachable); [vm_compute; reflexivity|discriminate|discriminate].
Defined.

Lemma release_lockless_witness : exists st', exec conf_ex 0 (Continue 0) last_ex = Next st' /\ threads st' !! 0%nat = Some (RelAdd 5).
Proof.
  destruct (release_lockless conf_ex 2 misc_ex last_ex 0 0 5 last_reachable) as (st' & E & Ht & _); [vm_compute; reflexivity|reflexivity|].
  exists st'. exact (conj E Ht).
Defined.

Lemma stripe_in_use_witness : users used_ex 5 = 1%nat /\ exists s, stripes used_ex !! 5%nat = Some s /\ key_of s = Some (256, 0) /\
  forall t a st', exec conf_ex t a used_ex = Next st' -> exists s', stripes st' !! 5%nat = Some s' /\ key_of s' = key_of s.
Proof.
  split; [vm_compute; reflexivity|].
  destruct (stripe_in_use conf_ex 2 misc_ex used_ex 5 used_reachable ltac:(vm_compute; discriminate)) as (s & Hs & _ & _ & _ & Hk).
  exists s. split; [exact Hs|]. split; [|exact Hk].
  assert (option_map key_of (stripes used_ex !! 5%nat) = Some (Some (256, 0))) as E by (vm_compute; reflexivity).
  rewrite Hs in E. by injection E.
Defined.

Lemma cache_refines_witness : exists st', exec conf_ex 0 (Release 5) used_ex = Next st' /\ store_step (abs used_ex) (abs st') /\
  held (abs used_ex) 5 = 1%nat /\ held (abs st') 5 = O.
Proof.
  destruct (exec conf_ex 0 (Release 5) used_ex) as [st'| |] eqn:E.
  - exists st'. split; [reflexivity|]. split; [apply (cache_refines conf_ex 2 misc_ex used_ex 0 (Release 5) st' used_reachable E)|].
    assert (match exec conf_ex 0 (Release 5) used_ex with Next st' => users st' 5%nat | _ => 7%nat end = O) as Eu by (vm_compute; reflexivity).
    rewrite E in Eu. split; [vm_compute; reflexivity|exact Eu].
  - assert (match exec conf_ex 0 (Release 5) used_ex with Block => false | _ => true end = true) as Eb by (vm_compute; reflexivity).
    rewrite E in Eb. discriminate.
  - assert (match exec conf_ex 0 (Release 5) used_ex with Bug => false | _ => true end = true) as Eb by (vm_compute; reflexivity).
    rewrite E in Eb. discriminate.
Defined.

(** The stripe without references, and in use. *)
Lemma stripe_located_witness :
  (exists s L, stripes idle_ex !! 5%nat = Some s /\ count s = O /\ lru s = Some L /\ state s STRIPE_HANDLE = to_handle L) /\
  exists s, stripes used_ex !! 5%nat = Some s /\ (lru s = None \/ exists t, lru s = Some (plug_list t)).
Proof.
  split.
  - assert (match stripes idle_ex !! 5%nat with Some s => (count s =? 0)%nat && bool_decide (is_Some (lru s)) | None => false end = true) as Ec by (vm_compute; reflexivity).
    destruct (stripes idle_ex !! 5%nat) as [s|] eqn:E; [|discriminate]. apply andb_true_iff in Ec as [Ec%Nat.eqb_eq [L El]%bool_decide_eq_true].
    destruct (stripe_located conf_ex 2 misc_ex idle_ex 5 s idle_reachable E) as (_ & _ & _ & H). specialize (H Ec). rewrite El in H. exists s, L.
    split; [reflexivity|]. split; [exact Ec|]. split; [exact El|]. apply H. intros t k.
    assert (threads idle_ex = [Idle; Idle]) as -> by (vm_compute; reflexivity). destruct t as [|[|t]]; discriminate.
  - destruct (stripes used_ex !! 5%nat) as [s|] eqn:E.
    + exists s. split; [reflexivity|]. apply (stripe_located conf_ex 2 misc_ex used_ex 5 s used_reachable E).
      assert (match stripes used_ex !! 5%nat with Some s => count s | None => O end = 1%nat) as Ec by (vm_compute; reflexivity).
      rewrite E in Ec. rewrite Ec. lia.
    + assert (match stripes used_ex !! 5%nat with Some s => true | None => false end = true) as Eb by (vm_compute; reflexivity).
      rewrite E in Eb. discriminate.
Defined.

Lemma cache_counters_witness : active_stripes used_ex = 1 /\ empty_inactive_list_nr used_ex = 32 /\
  active_stripes used_ex = Z.of_nat (count_active (stripes used_ex) (doing used_ex)) /\
  empty_inactive_list_nr used_ex = Z.of_nat (count_empty (lists used_ex)).
Proof.
  split; [vm_compute; reflexivity|]. split; [vm_compute; reflexivity|].
  destruct (cache_counters conf_ex 2 misc_ex used_ex used_reachable) as (H1 & H2 & _). exact (conj H1 H2).
Defined.
