(* ===== verification/Raid10Layout.v ===== *)
(** The layout of raid10 (md/raid10.c, md/raid10.h): the geometry decoded from the layout
    word, the size of the array, the places of the copies of a sector ([__raid10_find_phys]),
    the reverse map used by resync and recovery ([raid10_find_virt]) and the test that enough
    devices are left ([_enough]).

    Sectors are 64-bit and wrap; the C ints (devices, copies) are small, bounded by twice the
    number of devices, and are plain integers with C's division ([Z.quot], [Z.rem]). *)

From S2P Require Import Prelude.
From S2P Require Import Sectors.

(** * State *)

(** [struct geom] of raid10.h. *)
Record geom := {
  raid_disks : Z;
  near_copies : Z;
  far_copies : Z;
  far_offset : Z;
  stride : Z;
  far_set_size : Z;
  chunk_shift : Z;
  chunk_mask : Z
}.

(** The fields of [struct r10conf] that the layout reads; [mirrors] holds for every slot no
    device or a device with its [In_sync] flag. *)
Record r10conf := {
  prev : geom;
  geo : geom;
  copies : Z;
  dev_sectors : Z;
  mirrors : list (option bool);
  reshape_progress : Z
}.

(** The fields of [struct mddev] that the set-up reads. *)
Record mddev := {
  m_layout : Z;
  m_new_layout : Z;
  m_chunk_sectors : Z;
  m_new_chunk_sectors : Z;
  m_raid_disks : Z;
  m_delta_disks : Z;
  m_dev_sectors : Z;
  m_reshape_position : Z
}.

Definition MaxSector := 2 ^ 64 - 1.

(** * The geometry *)

Inductive geo_type := geo_new | geo_old | geo_start.

(** The geometry a zeroed [struct geom] holds. *)
Definition geom0 : geom := Build_geom 0 0 0 0 0 0 0 0.

(** The result, and [*geo] after the call. [PAGE_SIZE >> 9] is 8. *)
Definition setup_geo (g : geom) (m : mddev) (new : geo_type) : Z * geom :=
  let '(layout, chunk, disks) :=
    match new with
    | geo_old => (m_layout m, m_chunk_sectors m, m_raid_disks m - m_delta_disks m)
    | geo_new => (m_new_layout m, m_new_chunk_sectors m, m_raid_disks m)
    | geo_start => (m_new_layout m, m_new_chunk_sectors m, m_raid_disks m + m_delta_disks m)
    end in
  if negb (Z.shiftr layout 19 =? 0) then (-1, g) else
  if (u64 chunk <? 8) || negb (is_power_of_2 (u64 chunk)) then (-2, g) else
  let nc := Z.land layout 255 in
  let fc := Z.land (Z.shiftr layout 8) 255 in
  let fo := Z.land layout (Z.shiftl 1 16) in
  let g := Build_geom disks nc fc fo (stride g) (far_set_size g) (chunk_shift g) (chunk_mask g) in
  match (match Z.shiftr layout 17 with
         | 0 => Some disks
         | 1 => Some (Z.quot disks fc)
         | 2 => Some (fc * nc)
         | _ => None
         end) with
  | None => (-1, g)
  | Some fss => (nc * fc, Build_geom disks nc fc fo (stride g) fss (ffz (u64 (Z.lnot chunk))) (u64 (chunk - 1)))
  end.

(** [DIV_ROUND_UP_SECTOR_T]. *)
Definition DIV_ROUND_UP_SECTOR_T (ll d : Z) : Z := u64 (ll + d - 1) / d.

Definition calc_sectors (conf : r10conf) (size : Z) : r10conf :=
  let g := geo conf in
  let size := Z.shiftr size (chunk_shift g) in
  let size := (sector_div size (far_copies g)).1 in
  let size := u64 (size * raid_disks g) in
  let size := (sector_div size (near_copies g)).1 in
  let size := u64 (size * copies conf) in
  let size := DIV_ROUND_UP_SECTOR_T size (raid_disks g) in
  let dev_sectors := u64 (Z.shiftl size (chunk_shift g)) in
  let stride :=
    if negb (far_offset g =? 0) then Z.shiftl 1 (chunk_shift g)
    else u64 (Z.shiftl (sector_div size (far_copies g)).1 (chunk_shift g)) in
  {| prev := prev conf;
     geo := Build_geom (raid_disks g) (near_copies g) (far_copies g) (far_offset g) stride
              (far_set_size g) (chunk_shift g) (chunk_mask g);
     copies := copies conf; dev_sectors := dev_sectors; mirrors := mirrors conf;
     reshape_progress := reshape_progress conf |}.

Definition raid10_size (conf : r10conf) (sectors disks : Z) : Z :=
  let disks := if disks =? 0 then Z.min (raid_disks (geo conf)) (raid_disks (prev conf)) else disks in
  let sectors := if sectors =? 0 then dev_sectors conf else sectors in
  let size := Z.shiftr sectors (chunk_shift (geo conf)) in
  let size := (sector_div size (far_copies (geo conf))).1 in
  let size := u64 (size * disks) in
  let size := (sector_div size (near_copies (geo conf))).1 in
  u64 (Z.shiftl size (chunk_shift (geo conf))).

Definition set_stride (g : geom) (s : Z) : geom :=
  Build_geom (raid_disks g) (near_copies g) (far_copies g) (far_offset g) s (far_set_size g) (chunk_shift g) (chunk_mask g).

(** The geometry part of [setup_conf]; [enomem] says that one of its allocations fails. *)
Definition setup_conf (enomem : bool) (m : mddev) : Z + r10conf :=
  let '(cps, g) := setup_geo geom0 m geo_new in
  if cps =? -2 then inl (- EINVAL) else
  if (cps <? 2) || (m_raid_disks m <? cps) then inl (- EINVAL) else
  if enomem then inl (- ENOMEM) else
  let conf := {| prev := geom0; geo := g; copies := cps; dev_sectors := 0;
                 mirrors := replicate (Z.to_nat (m_raid_disks m + Z.max 0 (- m_delta_disks m))) None;
                 reshape_progress := 0 |} in
  let conf := calc_sectors conf (m_dev_sectors m) in
  if m_reshape_position m =? MaxSector then
    inr {| prev := geo conf; geo := geo conf; copies := cps; dev_sectors := dev_sectors conf;
           mirrors := mirrors conf; reshape_progress := MaxSector |}
  else
    let '(cps', p) := setup_geo geom0 m geo_old in
    if negb (cps' =? cps) then inl (- EINVAL) else
    let p := set_stride p (if negb (far_offset p =? 0) then Z.shiftl 1 (chunk_shift p) else dev_sectors conf) in
    inr {| prev := p; geo := geo conf; copies := cps; dev_sectors := dev_sectors conf;
           mirrors := mirrors conf; reshape_progress := m_reshape_position m |}.

(** * Virtual sector to devices *)

(** The body of the loop over the far copies: the next device. *)
Definition far_next (g : geom) (d : Z) : Z :=
  let last_far_set_start := (Z.quot (raid_disks g) (far_set_size g) - 1) * far_set_size g in
  let last_far_set_size := far_set_size g + Z.rem (raid_disks g) (far_set_size g) in
  let set := Z.quot d (far_set_size g) in
  let d := d + near_copies g in
  if negb (Z.rem (raid_disks g) (far_set_size g) =? 0) && (last_far_set_start <? d)
  then Z.rem (d - last_far_set_start) last_far_set_size + last_far_set_start
  else Z.rem d (far_set_size g) + far_set_size g * set.

Fixpoint far_loop (g : geom) (n : nat) (d s : Z) : list (Z * Z) :=
  match n with
  | O => []
  | S n => let d := far_next g d in
           let s := u64 (s + stride g) in
           (d, s) :: far_loop g n d s
  end.

Fixpoint near_loop (g : geom) (n : nat) (dev sector : Z) : list (Z * Z) :=
  match n with
  | O => []
  | S n =>
      (dev, sector) :: far_loop g (Z.to_nat (far_copies g - 1)) dev sector ++
      (if raid_disks g <=? dev + 1 then near_loop g n 0 (u64 (sector + (chunk_mask g + 1)))
       else near_loop g n (dev + 1) sector)
  end.

(** The entries [(devnum, addr)] of [r10bio->devs], from slot 0. *)
Definition __raid10_find_phys (g : geom) (r_sector : Z) : list (Z * Z) :=
  let chunk := Z.shiftr r_sector (chunk_shift g) in
  let sector := Z.land r_sector (chunk_mask g) in
  let chunk := u64 (chunk * near_copies g) in
  let '(stripe, dev) := sector_div chunk (raid_disks g) in
  let stripe := if negb (far_offset g =? 0) then u64 (stripe * far_copies g) else stripe in
  let sector := u64 (sector + u64 (Z.shiftl stripe (chunk_shift g))) in
  near_loop g (Z.to_nat (near_copies g)) dev sector.

(** Whether the previous geometry is used ([R10BIO_Previous]), and the copies. *)
Definition raid10_find_phys (conf : r10conf) (reshape_backwards : bool) (r_sector : Z) : bool * list (Z * Z) :=
  if negb (reshape_progress conf =? MaxSector) &&
     negb (Bool.eqb (reshape_progress conf <=? r_sector) reshape_backwards)
  then (true, __raid10_find_phys (prev conf) r_sector)
  else (false, __raid10_find_phys (geo conf) r_sector).

(** * Device sector to virtual sector *)

(** The [while (sector >= geo->stride)] loop. *)
Fixpoint virt_loop (g : geom) (far_set_start far_set_size : Z) (fuel : nat) (sector dev : Z) : option (Z * Z) :=
  if sector <? stride g then Some (sector, dev) else
  match fuel with
  | O => None
  | S fuel =>
      virt_loop g far_set_start far_set_size fuel (sector - stride g)
        (if dev <? near_copies g + far_set_start then dev + (far_set_size - near_copies g)
         else dev - near_copies g)
  end.

(** The far set of device [dev]: its first device and its size. *)
Definition far_set (g : geom) (dev : Z) : Z * Z :=
  let far_set_start := Z.quot dev (far_set_size g) * far_set_size g in
  if negb (Z.rem (raid_disks g) (far_set_size g) =? 0) then
    let last_far_set_start := (Z.quot (raid_disks g) (far_set_size g) - 1) * far_set_size g in
    if last_far_set_start <=? dev
    then (last_far_set_start, far_set_size g + Z.rem (raid_disks g) (far_set_size g))
    else (far_set_start, far_set_size g)
  else (far_set_start, far_set_size g).

(** [None]: the loop does not end (a zero stride). *)
Definition raid10_find_virt (g : geom) (sector dev : Z) : option Z :=
  let '(far_set_start, far_set_size) := far_set g dev in
  let offset := Z.land sector (chunk_mask g) in
  let found :=
    if negb (far_offset g =? 0) then
      let '(chunk, fc) := sector_div (Z.shiftr sector (chunk_shift g)) (far_copies g) in
      let dev := dev - fc * near_copies g in
      Some (chunk, if dev <? far_set_start then dev + far_set_size else dev)
    else
      match virt_loop g far_set_start far_set_size (Z.to_nat (sector / stride g)) sector dev with
      | Some (sector, dev) => Some (Z.shiftr sector (chunk_shift g), dev)
      | None => None
      end in
  match found with
  | Some (chunk, dev) =>
      let vchunk := u64 (u64 (chunk * raid_disks g) + dev) in
      let vchunk := (sector_div vchunk (near_copies g)).1 in
      Some (u64 (u64 (Z.shiftl vchunk (chunk_shift g)) + offset))
  | None => None
  end.

(** * Enough devices *)

(** [conf->mirrors[this].rdev] is there and in sync, and is not [ignore]. *)
Definition in_sync (mirrors : list (option bool)) (ignore this : Z) : bool :=
  negb (this =? ignore) && match mirrors !! Z.to_nat this with Some (Some true) => true | _ => false end.

(** The [while (n--)] loop. *)
Fixpoint count_in_sync (mirrors : list (option bool)) (ignore disks : Z) (n : nat) (this cnt : Z) : Z :=
  match n with
  | O => cnt
  | S n => count_in_sync mirrors ignore disks n (Z.rem (this + 1) disks)
             (if in_sync mirrors ignore this then cnt + 1 else cnt)
  end.

(** The [do ... while (first != 0)] loop; [None]: out of fuel. *)
Fixpoint enough_loop (mirrors : list (option bool)) (ignore disks ncopies : Z) (copies : nat) (fuel : nat) (first : Z)
    : option bool :=
  match fuel with
  | O => None
  | S fuel =>
      if count_in_sync mirrors ignore disks copies first 0 =? 0 then Some false
      else let first := Z.rem (first + ncopies) disks in
           if first =? 0 then Some true else enough_loop mirrors ignore disks ncopies copies fuel first
  end.

Definition _enough (conf : r10conf) (previous : bool) (ignore : Z) : option bool :=
  let g := if previous then prev conf else geo conf in
  enough_loop (mirrors conf) ignore (raid_disks g) (near_copies g) (Z.to_nat (copies conf))
    (Z.to_nat (raid_disks g)) 0.

Definition enough (conf : r10conf) (ignore : Z) : option bool :=
  match _enough conf false ignore with
  | Some true => _enough conf true ignore
  | r => r
  end.
