(* ===== verification/Raid10Correct.v ===== *)
(** Correctness of the raid10 layout: the copies of a sector are on distinct devices, the
    reverse map finds the sector from each of them, all of them lie within the devices, and
    [_enough] decides that every block has a copy left. *)

From S2P Require Import Prelude.
From S2P Require Import Sectors.
From S2P Require Import Raid10Layout.

(** * The geometries the theorems are about *)

(** What [setup_geo] and the test of [setup_conf] establish (except for the "improved layout
    which was buggy", where a far set may be too small for the copies). *)
Record geom_ok (g : geom) : Prop := {
  near_pos : 0 < near_copies g;
  far_pos : 0 < far_copies g;
  copies_le : near_copies g * far_copies g <= far_set_size g;
  set_le : far_set_size g <= raid_disks g;
  shift_ok : 0 <= chunk_shift g < 64;
  mask_ok : chunk_mask g = 2 ^ chunk_shift g - 1
}.

(** Near copies and far copies are not mixed, or far sets divide the devices evenly and, in
    the offset layout, so do the near copies. *)
Definition unmixed (g : geom) : Prop :=
  near_copies g = 1 \/ far_copies g = 1 \/
  raid_disks g mod far_set_size g = 0 /\ (far_offset g = 0 \/ raid_disks g mod near_copies g = 0).

#[global] Instance unmixed_dec g : Decision (unmixed g).
Proof. unfold unmixed. apply _. Defined.

Lemma rem_mod a b : 0 <= a -> 0 < b -> Z.rem a b = a mod b.
Proof. intros Ha Hb. apply Z.rem_mod_nonneg; lia. Qed.

Section Geometry.
Context (g : geom) (Hok : geom_ok g).
Let disks := raid_disks g.
Let near := near_copies g.
Let far := far_copies g.
Let fss := far_set_size g.
Let C := 2 ^ chunk_shift g.

Lemma geom_pos : 0 < near /\ 0 < far /\ 0 < fss /\ 0 < disks /\ near <= fss /\ fss <= disks /\ 0 < C.
Proof. destruct Hok. unfold near, far, fss, disks, C. repeat split; nia. Qed.

(** ** Far sets *)

Lemma quot_div a : 0 <= a -> Z.quot a fss = a / fss.
Proof. intros Ha. pose proof geom_pos. apply Z.quot_div_nonneg; lia. Qed.

(** The devices [st .. st + sz - 1] are one far set. *)
Record is_far_set (d st sz : Z) : Prop := {
  set_start : 0 <= st <= d;
  set_end : d < st + sz <= disks;
  set_copies : near * far <= sz;
  set_whole : sz = disks \/ sz + fss <= disks
}.

(** ** [far_set] without C's division. *)
Lemma far_set_eq d :
  0 <= d ->
  far_set g d =
    if decide (disks mod fss <> 0 /\ (disks / fss - 1) * fss <= d)
    then ((disks / fss - 1) * fss, fss + disks mod fss) else (d / fss * fss, fss).
Proof.
  intros Hd. pose proof geom_pos. unfold far_set. fold fss disks.
  rewrite !quot_div, !rem_mod by lia.
  destruct (Z.eqb_spec (disks mod fss) 0); cbn [negb]; [by rewrite decide_False by lia|].
  destruct (Z.leb_spec ((disks / fss - 1) * fss) d); case_decide; lia || done.
Qed.

Lemma far_set_spec d st sz : 0 <= d < disks -> far_set g d = (st, sz) -> is_far_set d st sz.
Proof.
  intros Hd. rewrite far_set_eq by lia. pose proof geom_pos. pose proof (copies_le g Hok) as Hc. fold near far fss in Hc.
  pose proof (Z.div_mod disks fss ltac:(lia)). pose proof (Z.mod_pos_bound disks fss ltac:(lia)).
  pose proof (Z.div_mod d fss ltac:(lia)). pose proof (Z.mod_pos_bound d fss ltac:(lia)).
  assert (1 <= disks / fss) by (apply Z.div_le_lower_bound; lia).
  assert (0 <= d / fss) by (apply Z.div_pos; lia).
  case_decide as Hcase; intros [= <- <-].
  - split; [nia|nia|lia|]. destruct (decide (disks / fss = 1)); [left|right]; nia.
  - assert (d / fss < disks / fss) as Hlt.
    { apply Z.nle_gt. intros Hle. destruct (decide (disks mod fss = 0)) as [He|He]; [nia|]. apply Hcase. split; [done|nia]. }
    destruct (decide (disks mod fss = 0)) as [He|He].
    + split; [nia|nia|lia|]. destruct (decide (disks / fss = 1)); [left|right]; nia.
    + assert (d / fss < disks / fss - 1) by (apply Z.nle_gt; intros Hle; apply Hcase; split; [done|nia]).
      split; [nia|nia|lia|]. right. nia.
Qed.

Lemma far_set_stable d st sz d' :
  0 <= d < disks -> far_set g d = (st, sz) -> st <= d' < st + sz -> far_set g d' = (st, sz).
Proof.
  intros Hd Hset Hd'. pose proof (far_set_spec d st sz Hd Hset) as [Hst Hend _ _]. revert Hset.
  rewrite !far_set_eq by lia. pose proof geom_pos.
  pose proof (Z.div_mod disks fss ltac:(lia)). pose proof (Z.mod_pos_bound disks fss ltac:(lia)).
  pose proof (Z.div_mod d fss ltac:(lia)). pose proof (Z.mod_pos_bound d fss ltac:(lia)).
  case_decide as Hcase; intros [= <- <-]; [rewrite decide_True by lia; done|].
  assert (d' / fss = d / fss) as -> by (symmetry; apply Z.div_unique_pos with (d' - d / fss * fss); lia).
  rewrite decide_False; [done|]. intros [He Hle]. apply Hcase. split; [done|].
  assert (disks / fss - 1 < d / fss + 1) by nia. nia.
Qed.

(** The device of far copy [f] of a block whose first copy is on [d]. *)
Definition copy_dev (d f : Z) : Z :=
  let '(st, sz) := far_set g d in st + (d - st + f * near) mod sz.

Lemma copy_dev_0 d : 0 <= d < disks -> copy_dev d 0 = d.
Proof.
  intros Hd. unfold copy_dev. destruct (far_set g d) as [st sz] eqn:E.
  destruct (far_set_spec d st sz Hd E). rewrite Z.mod_small; lia.
Qed.

Lemma copy_dev_in_set d f st sz :
  0 <= d < disks -> far_set g d = (st, sz) -> st <= copy_dev d f < st + sz /\ copy_dev d f = st + (d - st + f * near) mod sz.
Proof.
  intros Hd E. destruct (far_set_spec d st sz Hd E). unfold copy_dev. rewrite E.
  pose proof (Z.mod_pos_bound (d - st + f * near) sz ltac:(lia)). lia.
Qed.

Lemma copy_dev_bound d f : 0 <= d < disks -> 0 <= copy_dev d f < disks.
Proof.
  intros Hd. destruct (far_set g d) as [st sz] eqn:E. destruct (far_set_spec d st sz Hd E).
  pose proof (copy_dev_in_set d f st sz Hd E). lia.
Qed.

Lemma far_next_spec d :
  near = 1 \/ disks mod fss = 0 -> 0 <= d < disks -> far_next g d = copy_dev d 1.
Proof.
  intros Hmix Hd. pose proof geom_pos. unfold far_next, copy_dev. fold disks fss near.
  rewrite far_set_eq by lia. rewrite !quot_div, !(rem_mod disks) by lia.
  pose proof (Z.div_mod disks fss ltac:(lia)). pose proof (Z.mod_pos_bound disks fss ltac:(lia)).
  assert (1 <= disks / fss) by (apply Z.div_le_lower_bound; lia).
  set (last := (disks / fss - 1) * fss) in *.
  assert ((d - d / fss * fss + 1 * near) mod fss = (d + near) mod fss) as Hmod.
  { replace (d - d / fss * fss + 1 * near) with (d + near + (- (d / fss)) * fss) by lia. by rewrite Z.mod_add by lia. }
  destruct (Z.eqb_spec (disks mod fss) 0) as [He|He]; cbn [negb andb].
  - rewrite decide_False by lia. rewrite Hmod, rem_mod by lia. lia.
  - assert (near = 1) as Hn by lia. destruct (Z.ltb_spec last (d + near)).
    + rewrite decide_True by lia. rewrite rem_mod by lia. replace (d + near - last) with (d - last + 1 * near) by lia. lia.
    + rewrite decide_False by lia. rewrite Hmod, rem_mod by lia. lia.
Qed.

Lemma copy_dev_next d f : 0 <= d < disks -> copy_dev (copy_dev d f) 1 = copy_dev d (f + 1).
Proof.
  intros Hd. destruct (far_set g d) as [st sz] eqn:E. destruct (far_set_spec d st sz Hd E).
  destruct (copy_dev_in_set d f st sz Hd E) as [Hin Heq].
  unfold copy_dev at 1 3. rewrite (far_set_stable d st sz _ Hd E Hin), E, Heq. f_equal.
  replace (st + (d - st + f * near) mod sz - st + 1 * near) with ((d - st + f * near) mod sz + near) by lia.
  rewrite Z.add_mod_idemp_l by lia. f_equal. lia.
Qed.

(** ** The places of the copies *)

(** Rows of chunks that one row of blocks occupies on its devices. *)
Definition row_height : Z := if far_offset g =? 0 then 1 else far.

(** Near copy number [q] of the array (near copy [n] of chunk [c] is number [c * near + n]),
    far copy [f], at offset [off] of the chunk. *)
Definition place (off q f : Z) : Z * Z :=
  (copy_dev (q mod disks) f, u64 (off + q / disks * row_height * C + f * stride g)).

Lemma u64_add_l a b : u64 (u64 a + b) = u64 (a + b).
Proof. apply Z.add_mod_idemp_l. lia. Qed.

Lemma u64_add_r a b : u64 (a + u64 b) = u64 (a + b).
Proof. apply Z.add_mod_idemp_r. lia. Qed.

Lemma far_loop_spec d s n k :
  near = 1 \/ disks mod fss = 0 -> 0 <= d < disks ->
  far_loop g n (copy_dev d (Z.of_nat k)) (u64 (s + Z.of_nat k * stride g)) =
  map (fun f => (copy_dev d (Z.of_nat f), u64 (s + Z.of_nat f * stride g))) (seq (S k) n).
Proof.
  intros Hmix Hd. revert k. induction n as [|n IH]; intros k; [done|].
  cbn [far_loop seq map]. rewrite far_next_spec by (done || by apply copy_dev_bound).
  rewrite copy_dev_next, u64_add_l by done.
  replace (Z.of_nat k + 1) with (Z.of_nat (S k)) by lia.
  replace (s + Z.of_nat k * stride g + stride g) with (s + Z.of_nat (S k) * stride g) by lia.
  by rewrite IH.
Qed.

(** All the copies of a near copy. *)
Lemma far_copies_spec off q :
  unmixed g ->
  let '(d, s) := place off q 0 in
  (d, s) :: far_loop g (Z.to_nat (far - 1)) d s = map (fun f => place off q (Z.of_nat f)) (seq 0 (Z.to_nat far)).
Proof.
  intros Hmix. pose proof geom_pos. pose proof (Z.mod_pos_bound q disks ltac:(lia)) as Hd. cbn.
  replace (Z.to_nat far) with (S (Z.to_nat (far - 1))) by lia. cbn [seq map]. f_equal.
  destruct (decide (far = 1)) as [->|Hfar]; [done|].
  apply (far_loop_spec _ _ _ 0); [|done]. destruct Hmix as [?|[?|[? _]]]; [by left|done|by right].
Qed.

(** No near copy but the last is on the last device, unless rows are one chunk high. *)
Definition wraps_ok (q : Z) (n : nat) : Prop :=
  row_height = 1 \/ forall i, (S i < n)%nat -> (q + Z.of_nat i) mod disks + 1 < disks.

Lemma mod_succ q : 0 < disks ->
  (q mod disks + 1 < disks -> (q + 1) mod disks = q mod disks + 1 /\ (q + 1) / disks = q / disks) /\
  (disks <= q mod disks + 1 -> (q + 1) mod disks = 0 /\ (q + 1) / disks = q / disks + 1).
Proof.
  intros Hpos. pose proof (Z.div_mod q disks ltac:(lia)). pose proof (Z.mod_pos_bound q disks ltac:(lia)). split; intros Hlt.
  - assert ((q + 1) / disks = q / disks) as Hdiv by (symmetry; apply Z.div_unique with (q mod disks + 1); lia).
    split; [|done]. rewrite Z.mod_eq by lia. lia.
  - assert ((q + 1) / disks = q / disks + 1) as Hdiv by (symmetry; apply Z.div_unique with 0; lia).
    split; [|done]. rewrite Z.mod_eq by lia. lia.
Qed.

Lemma list_prod_shift {A} (l : list nat) (k : list A) :
  list_prod (map S l) k = map (fun p => (S p.1, p.2)) (list_prod l k).
Proof. induction l as [|x l IH]; [done|]. cbn. rewrite map_app, IH, map_map. done. Qed.

Lemma near_loop_spec off n q :
  unmixed g -> wraps_ok q n ->
  near_loop g n (q mod disks) (u64 (off + q / disks * row_height * C)) =
  map (fun p => place off (q + Z.of_nat p.1) (Z.of_nat p.2)) (list_prod (seq 0 n) (seq 0 (Z.to_nat far))).
Proof.
  intros Hmix. pose proof geom_pos as Hpos. revert q. induction n as [|n IH]; intros q Hwrap; [done|].
  cbn [seq list_prod near_loop]. rewrite map_app, map_map. cbn [fst snd].
  rewrite <- (seq_shift n 0), list_prod_shift, map_map. cbn [fst snd].
  pose proof (far_copies_spec off q Hmix) as Hfar. unfold place at 1 in Hfar.
  rewrite copy_dev_0, Z.mul_0_l, !Z.add_0_r in Hfar by (apply Z.mod_pos_bound; lia).
  rewrite (app_comm_cons (far_loop _ _ _ _)). fold far. rewrite Hfar. rewrite Z.add_0_r. f_equal.
  destruct n as [|n]; [by destruct (_ <=? _)|].
  assert (wraps_ok (q + 1) (S n)) as Hwrap'.
  { destruct Hwrap as [?|Hw]; [by left|right]. intros i Hi.
    replace (q + 1 + Z.of_nat i) with (q + Z.of_nat (S i)) by lia. apply Hw. lia. }
  transitivity (near_loop g (S n) ((q + 1) mod disks) (u64 (off + (q + 1) / disks * row_height * C))).
  - fold disks. destruct (mod_succ q ltac:(lia)) as [Hstay Hover]. destruct (Z.leb_spec disks (q mod disks + 1)) as [Hle|Hlt].
    + destruct (Hover Hle) as [-> ->]. f_equal. rewrite u64_add_l, (mask_ok g Hok). fold C.
      destruct Hwrap as [->|Hw]; [f_equal; lia|]. specialize (Hw 0%nat ltac:(lia)). rewrite Z.add_0_r in Hw. lia.
    + by destruct (Hstay Hlt) as [-> ->].
  - rewrite (IH _ Hwrap'). apply map_ext. intros [a b]. cbn [fst snd]. by replace (q + 1 + Z.of_nat a) with (q + Z.of_nat (S a)) by lia.
Qed.

Lemma unmixed_wraps chunk : unmixed g -> wraps_ok (chunk * near) (Z.to_nat near).
Proof.
  intros Hmix. pose proof geom_pos as Hpos. unfold wraps_ok, row_height.
  destruct (Z.eqb_spec (far_offset g) 0) as [?|Hoff]; [by left|].
  destruct Hmix as [Hn|[Hf|[_ [?|Hdiv]]]]; [right|by left|done|right]; intros i Hi; [unfold near in Hi; lia|].
  fold disks near in Hdiv. apply Z.nle_gt. intros Hle.
  destruct (proj2 (mod_succ (chunk * near + Z.of_nat i) ltac:(lia)) Hle) as [Hmod _].
  apply Z.mod_divide in Hmod, Hdiv; [|lia..].
  assert (near | chunk * near + Z.of_nat i + 1) as Hd by (by etransitivity).
  assert (near | Z.of_nat i + 1) as Hd'.
  { replace (Z.of_nat i + 1) with (chunk * near + Z.of_nat i + 1 - chunk * near) by lia. apply Z.divide_sub_r; [done|]. by apply Z.divide_factor_r. }
  apply Z.divide_pos_le in Hd'; lia.
Qed.

Lemma find_phys_spec r :
  unmixed g -> 0 <= r -> r / C * near < 2 ^ 64 ->
  __raid10_find_phys g r =
  map (fun p => place (r mod C) (r / C * near + Z.of_nat p.1) (Z.of_nat p.2))
    (list_prod (seq 0 (Z.to_nat near)) (seq 0 (Z.to_nat far))).
Proof.
  intros Hmix Hr Hmax. pose proof geom_pos as Hpos. destruct (shift_ok g Hok) as [Hs0 _].
  assert (0 <= r / C) by (apply Z.div_pos; lia).
  rewrite <- (near_loop_spec _ _ _ Hmix (unmixed_wraps _ Hmix)).
  unfold __raid10_find_phys, sector_div. rewrite (mask_ok g Hok), land_ones_mod, Z.shiftr_div_pow2 by lia.
  fold C near disks far. rewrite (u64_id (r / C * near)) by nia.
  rewrite Z.shiftl_mul_pow2, u64_add_r by lia. fold C. f_equal. unfold row_height.
  destruct (far_offset g =? 0); cbn [negb]; [f_equal; lia|].
  unfold u64 at 1. rewrite <- Z.add_mod_idemp_r, <- Z.mul_mod_idemp_l by lia.
  change (u64 (r / C * near / disks * far) mod 2 ^ 64) with (u64 (u64 (r / C * near / disks * far))).
  unfold u64. by rewrite Z.mod_mod, Z.mul_mod_idemp_l, Z.add_mod_idemp_r by lia.
Qed.

(** ** Distinct devices *)

Lemma small_multiple a b : 0 < b -> (b | a) -> - b < a < b -> a = 0.
Proof. intros Hb [k ->] Hlt. assert (k = 0) by nia. lia. Qed.

Lemma mixed_radix n f n' f' :
  0 <= n < near -> 0 <= n' < near -> n - n' + (f - f') * near = 0 -> n = n' /\ f = f'.
Proof. intros Hn Hn' H. assert (f - f' = 0) by nia. lia. Qed.

Lemma copy_dev_inj q n f n' f' :
  0 <= n < near -> 0 <= n' < near -> 0 <= f < far -> 0 <= f' < far ->
  copy_dev ((q + n) mod disks) f = copy_dev ((q + n') mod disks) f' -> n = n' /\ f = f'.
Proof.
  intros Hn Hn' Hf Hf' E. pose proof geom_pos as Hpos.
  pose proof (Z.mod_pos_bound (q + n) disks ltac:(lia)) as Hd. pose proof (Z.mod_pos_bound (q + n') disks ltac:(lia)) as Hd'.
  pose proof (Z.div_mod (q + n) disks ltac:(lia)) as Hq. pose proof (Z.div_mod (q + n') disks ltac:(lia)) as Hq'.
  set (d := (q + n) mod disks) in *. set (d' := (q + n') mod disks) in *.
  destruct (far_set g d) as [st sz] eqn:Hset. destruct (far_set_spec d st sz Hd Hset) as [Hst Hend Hcop Hwhole].
  destruct (far_set g d') as [st' sz'] eqn:Hset'. destruct (far_set_spec d' st' sz' Hd' Hset') as [Hst' Hend' _ _].
  destruct (copy_dev_in_set d f st sz Hd Hset) as [Hin Heq]. destruct (copy_dev_in_set d' f' st' sz' Hd' Hset') as [Hin' Heq'].
  assert ((st', sz') = (st, sz)) as [= -> ->].
  { rewrite <- (far_set_stable d st sz (copy_dev d f) Hd Hset Hin). symmetry. rewrite E. by apply (far_set_stable d' st' sz'). }
  assert ((d - st + f * near) mod sz = (d' - st + f' * near) mod sz) as Hmod by lia.
  assert (sz | d - st + f * near - (d' - st + f' * near)) as Hdv.
  { exists ((d - st + f * near) / sz - (d' - st + f' * near) / sz).
    pose proof (Z.div_mod (d - st + f * near) sz ltac:(lia)). pose proof (Z.div_mod (d' - st + f' * near) sz ltac:(lia)). lia. }
  assert (- near < n - n' < near) as Hnn by lia.
  assert (n - n' + (f - f') * near = 0) as Hz; [|by apply mixed_radix].
  apply (small_multiple _ sz); [lia| |nia]. destruct Hdv as [k Hk].
  destruct (decide ((q + n) / disks = (q + n') / disks)) as [Hrow|Hrow]; [exists k; nia|].
  destruct Hwhole as [->|Hsplit].
  - exists (k + ((q + n) / disks - (q + n') / disks)). lia.
  - exfalso. assert (disks <= Z.abs (d - d') + Z.abs (n - n')) by nia. lia.
Qed.

Lemma list_prod_NoDup {A B} (l : list A) (k : list B) : NoDup l -> NoDup k -> NoDup (list_prod l k).
Proof.
  intros Hl Hk. induction Hl as [|x l Hx Hl IH]; [constructor|]. cbn. apply list.NoDup_app. split_and!; [|..|done].
  - apply (NoDup_fmap_2_strong (fun y => (x, y))); [|done]. by intros y y' _ _ [= ->].
  - intros [a b] Ha Hin. apply list_elem_of_In, in_prod_iff in Hin as [Hin _]. apply list_elem_of_fmap in Ha as (y & [= -> ->] & _).
    by apply Hx, list_elem_of_In.
Qed.

Lemma find_phys_devices r :
  unmixed g -> 0 <= r -> r / C * near < 2 ^ 64 ->
  NoDup (map fst (__raid10_find_phys g r)) /\ length (__raid10_find_phys g r) = Z.to_nat (near * far) /\
  Forall (fun d => 0 <= d < disks) (map fst (__raid10_find_phys g r)).
Proof.
  intros Hmix Hr Hmax. pose proof geom_pos as Hpos. rewrite find_phys_spec by done. rewrite map_map. split_and!.
  - apply NoDup_fmap_2_strong.
    + intros [n f] [n' f'] Hin Hin' E. apply list_elem_of_In, in_prod_iff in Hin, Hin'. rewrite !in_seq in Hin, Hin'. cbn in E.
      apply copy_dev_inj in E; [|lia..]. f_equal; lia.
    + apply list_prod_NoDup; apply NoDup_seq.
  - rewrite length_map, length_prod, !length_seq. lia.
  - rewrite Forall_map. apply Forall_true. intros p. cbn. apply copy_dev_bound, Z.mod_pos_bound. lia.
Qed.

(** ** The reverse map *)

(** The stride of an array of [rows] rows per copy. *)
Definition stride_ok (rows : Z) : Prop := stride g = if far_offset g =? 0 then rows * C else C.







End Geometry.

(** * The array [setup_conf] builds *)

Lemma set_stride_ok g s : geom_ok g -> geom_ok (set_stride g s).
Proof. intros []. by split. Qed.

(** The usable size of a device in rows of chunks, one per far copy. *)
Definition rows_of (g : geom) (size : Z) : Z := size / 2 ^ chunk_shift g / far_copies g.

(** Rounding up the chunks of the array to whole rows loses nothing that rounding down the
    device to [far_copies] chunks had kept. *)
Lemma round_trip_rows T disks near far :
  0 <= T -> 0 < near -> 0 < far -> near * far <= disks ->
  0 <= T * disks / near * (near * far) <= T * far * disks /\
  (T * disks / near * (near * far) + disks - 1) / disks = T * far.
Proof.
  intros HT Hn Hf Hle. assert (0 < disks) by nia.
  pose proof (Z.div_mod (T * disks) near ltac:(lia)) as Hdm. pose proof (Z.mod_pos_bound (T * disks) near ltac:(lia)) as Hb.
  set (N := T * disks / near) in *. set (e := (T * disks) mod near) in *.
  assert (N * (near * far) = T * far * disks - e * far) as -> by (replace (N * (near * far)) with ((near * N) * far) by lia; nia).
  assert (0 <= e * far <= disks - 1) by nia. assert (0 <= N) by (unfold N; apply Z.div_pos; nia). split; [nia|].
  symmetry. apply Z.div_unique with (disks - 1 - e * far); lia.
Qed.

Lemma calc_sectors_spec conf size :
  geom_ok (geo conf) -> copies conf = near_copies (geo conf) * far_copies (geo conf) -> 0 <= size ->
  (size + 2 ^ chunk_shift (geo conf)) * raid_disks (geo conf) <= 2 ^ 64 ->
  let rows := rows_of (geo conf) size in
  dev_sectors (calc_sectors conf size) = rows * far_copies (geo conf) * 2 ^ chunk_shift (geo conf) /\
  exists s, geo (calc_sectors conf size) = set_stride (geo conf) s /\ stride_ok (set_stride (geo conf) s) rows.
Proof.
  intros Hok Hcop Hsize Hmax rows. destruct (geom_pos _ Hok) as (Hn & Hf & Hs & Hd & _ & Hsd & HC).
  pose proof (copies_le _ Hok) as Hcl. destruct (shift_ok _ Hok) as [Hs0 _].
  unfold calc_sectors. cbn [dev_sectors geo]. unfold sector_div, DIV_ROUND_UP_SECTOR_T. cbn [fst]. rewrite Hcop.
  rewrite Z.shiftr_div_pow2 by lia. fold (rows_of (geo conf) size). fold rows.
  set (g := geo conf) in *. set (C := 2 ^ chunk_shift g) in *.
  assert (0 <= size / C) by (apply Z.div_pos; lia). assert (0 <= rows) by (unfold rows, rows_of; fold C; apply Z.div_pos; lia).
  assert (rows * far_copies g * C <= size) as Hrc.
  { pose proof (Z.mul_div_le size C ltac:(lia)). pose proof (Z.mul_div_le (size / C) (far_copies g) ltac:(lia)).
    unfold rows, rows_of. fold C. nia. }
  assert (0 <= rows * far_copies g) by nia.
  assert (rows * far_copies g * raid_disks g + raid_disks g <= 2 ^ 64) as Hall by nia.
  destruct (round_trip_rows rows (raid_disks g) (near_copies g) (far_copies g)) as [Hr1 Hr2]; [lia..|].
  rewrite (u64_id (rows * raid_disks g)) by nia. rewrite (u64_id (_ * (near_copies g * far_copies g))) by nia.
  rewrite (u64_id (_ + raid_disks g - 1)) by lia. rewrite Hr2, !Z.shiftl_mul_pow2 by lia. fold C.
  rewrite Z.div_mul, (u64_id (rows * far_copies g * C)) by nia. split; [done|].
  eexists. split; [done|]. unfold stride_ok. cbn [stride set_stride far_offset chunk_shift]. fold C.
  destruct (far_offset g =? 0); cbn [negb]; [|lia]. apply u64_id. nia.
Qed.

(** What the layout of an array is set up to: [rows] rows of chunks for every far copy. *)
Record array_ok (conf : r10conf) (rows : Z) : Prop := {
  arr_geom : geom_ok (geo conf);
  arr_prev : prev conf = geo conf;
  arr_stride : stride_ok (geo conf) rows;
  arr_rows : 0 <= rows;
  arr_dev : dev_sectors conf = rows * far_copies (geo conf) * 2 ^ chunk_shift (geo conf);
  arr_max : (dev_sectors conf + 2 ^ chunk_shift (geo conf)) * raid_disks (geo conf) <= 2 ^ 64;
  arr_copies : copies conf = near_copies (geo conf) * far_copies (geo conf);
  arr_stable : reshape_progress conf = MaxSector
}.

Lemma array_size conf rows :
  array_ok conf rows ->
  raid10_size conf 0 0 = rows * raid_disks (geo conf) / near_copies (geo conf) * 2 ^ chunk_shift (geo conf).
Proof.
  intros [Hok Hprev _ Hrows Hdev Hmax _ _]. destruct (geom_pos _ Hok) as (Hn & Hf & _ & Hd & _ & _ & HC).
  destruct (shift_ok _ Hok) as [Hs0 _]. unfold raid10_size. rewrite Hprev, Z.min_id. cbn [Z.eqb]. unfold sector_div. cbn [fst].
  rewrite Hdev in *. rewrite Z.shiftr_div_pow2, Z.shiftl_mul_pow2, !Z.div_mul by lia.
  set (g := geo conf) in *. set (C := 2 ^ chunk_shift g) in *.
  set (N := rows * raid_disks g) in *. assert (0 <= N) by (unfold N; nia). assert (0 < C * raid_disks g) by nia.
  assert (N * C <= N * C * far_copies g) by (assert (0 <= N * C) by nia; nia). assert (N <= N * C) by nia.
  assert (rows * far_copies g * C * raid_disks g = N * C * far_copies g) by (unfold N; lia).
  rewrite (u64_id N) by lia.
  assert (0 <= N / near_copies g <= N) as Hq by (split; [apply Z.div_pos; nia|apply Z.div_le_upper_bound; nia]).
  apply u64_id. pose proof (Z.mul_le_mono_nonneg_r (N / near_copies g) N C ltac:(lia) ltac:(lia)). nia.
Qed.

Section Array.
Context (conf : r10conf) (rows : Z) (Harr : array_ok conf rows) (Hmix : unmixed (geo conf)).
Let g := geo conf.
Let C := 2 ^ chunk_shift g.

(** The facts about a sector of the array that the lemmas on the geometry need. *)
Lemma array_sector r :
  0 <= r < raid10_size conf 0 0 ->
  r < 2 ^ 64 /\ rows * far_copies g * C <= 2 ^ 64 /\ r / C * near_copies g < 2 ^ 64 /\
  forall n, 0 <= n < near_copies g ->
    0 <= r / C * near_copies g + n < 2 ^ 64 /\ (r / C * near_copies g + n) / raid_disks g < rows.
Proof.
  intros Hr. pose proof Harr as [Hok _ _ Hrows Hdev Hmax _ _]. destruct (geom_pos _ Hok) as (Hn & Hf & _ & Hd & _ & _ & HC).
  assert (raid10_size conf 0 0 < 2 ^ 64) as Hsz by (unfold raid10_size; apply Z.mod_pos_bound; lia).
  rewrite (array_size conf rows Harr) in Hr, Hsz. fold g in Hr, Hsz, Hdev, Hmax, Hn, Hf, Hd, HC. fold C in Hr, Hsz, Hdev, Hmax, HC. rewrite Hdev in Hmax.
  set (N := rows * raid_disks g) in *. assert (0 <= N) by (unfold N; nia). assert (0 <= N * C) by nia.
  assert (N * C <= N * C * far_copies g) by nia. assert (0 < C * raid_disks g) by nia.
  assert (rows * far_copies g * C * raid_disks g = N * C * far_copies g) as Hperm by (unfold N; lia).
  assert (0 <= rows * far_copies g * C) by nia.
  assert (rows * far_copies g * C <= rows * far_copies g * C * raid_disks g) by nia.
  assert (0 <= r / C) by (apply Z.div_pos; lia).
  assert (r / C < N / near_copies g) as Hchunk by (apply Z.div_lt_upper_bound; lia).
  pose proof (Z.mul_div_le N (near_copies g) ltac:(lia)) as Hmd.
  assert ((r / C + 1) * near_copies g <= N) as Hcn by nia. assert (N <= N * C) by nia.
  split; [lia|]. split; [lia|]. split; [nia|]. intros n Hnn. assert (0 <= r / C * near_copies g) by nia. split; [lia|].
  apply Z.div_lt_upper_bound; [lia|]. unfold N in *. nia.
Qed.


End Array.

(** ** From the superblock *)

(** Ranges of the fields; no reshape is in progress. *)
Record mddev_ok (m : mddev) : Prop := {
  md_chunk : 0 < m_new_chunk_sectors m < 2 ^ 31;
  md_size : 0 <= m_dev_sectors m;
  md_max : (m_dev_sectors m + m_new_chunk_sectors m) * m_raid_disks m <= 2 ^ 64;
  md_stable : m_reshape_position m = MaxSector
}.

Lemma land_255 x : 0 <= Z.land x 255 < 256.
Proof. rewrite Z.land_comm. apply (land_bound 8); lia. Qed.

Lemma setup_geo_fields g0 m ret g :
  0 < m_new_chunk_sectors m < 2 ^ 31 -> setup_geo g0 m geo_new = (ret, g) -> 0 < ret <= m_raid_disks m ->
  ret = near_copies g * far_copies g /\ raid_disks g = m_raid_disks m /\
  m_new_chunk_sectors m = 2 ^ chunk_shift g /\
  (ret <= far_set_size g -> geom_ok g) /\ (Z.shiftr (m_new_layout m) 17 <> 1 -> ret <= far_set_size g).
Proof.
  intros Hchunk. unfold setup_geo. set (layout := m_new_layout m). set (chunk := m_new_chunk_sectors m) in *.
  rewrite (u64_id chunk) by lia.
  destruct (negb (Z.shiftr layout 19 =? 0)); [intros [= <- <-]; lia|].
  destruct ((chunk <? 8) || negb (is_power_of_2 chunk)) eqn:Hp; [intros [= <- <-]; lia|].
  apply orb_false_iff in Hp as [_ Hp]. apply negb_false_iff in Hp.
  destruct (is_power_of_2_spec chunk ltac:(lia) Hp) as (c & Hc & Hchunk2).
  assert (c < 31) by (apply (Z.pow_lt_mono_r_iff 2); lia).
  pose proof (land_255 layout). pose proof (land_255 (Z.shiftr layout 8)).
  rewrite Hchunk2, ffz_lnot_pow2, (u64_id (2 ^ c - 1)) by lia.
  set (nc := Z.land layout 255) in *. set (fc := Z.land (Z.shiftr layout 8) 255) in *. intros E Hret.
  assert (forall fss, (nc * fc, Build_geom (m_raid_disks m) nc fc (Z.land layout (Z.shiftl 1 16)) (stride g0) fss c (2 ^ c - 1)) = (ret, g) ->
    fss <= m_raid_disks m -> (Z.shiftr layout 17 <> 1 -> nc * fc <= fss) ->
    ret = near_copies g * far_copies g /\ raid_disks g = m_raid_disks m /\ 2 ^ c = 2 ^ chunk_shift g /\
    (ret <= far_set_size g -> geom_ok g) /\ (Z.shiftr layout 17 <> 1 -> ret <= far_set_size g)) as Hgoal.
  { intros fss [= <- <-] Hfss Hsafe. cbn. repeat split; cbn; nia || done. }
  assert (0 < nc /\ 0 < fc) as [Hnc Hfc].
  { destruct (Z.shiftr layout 17) as [|[p|p|]|p]; try destruct p; cbn in E; injection E as <- <-; nia. }
  destruct (Z.shiftr layout 17) as [|[p|p|]|p] eqn:Hl; try (destruct p); cbn [stride] in E;
    try (injection E as <- <-; lia);
    (eapply Hgoal; [exact E| |]; [|intros ?]); injection E as <- <-; try nia.
  rewrite Z.quot_div_nonneg by nia. apply Z.div_le_upper_bound; nia.
Qed.

Lemma setup_conf_ok m conf :
  mddev_ok m -> setup_conf false m = inr conf ->
  (Z.shiftr (m_new_layout m) 17 = 1 -> near_copies (geo conf) * far_copies (geo conf) <= far_set_size (geo conf)) ->
  array_ok conf (rows_of (geo conf) (m_dev_sectors m)) /\ raid_disks (geo conf) = m_raid_disks m /\
  2 ^ chunk_shift (geo conf) = m_new_chunk_sectors m.
Proof.
  intros [Hchunk Hsize Hmax Hstable] E Hsafe. unfold setup_conf in E.
  destruct (setup_geo geom0 m geo_new) as [ret g] eqn:Hgeo. rewrite Hstable, Z.eqb_refl in E.
  destruct (ret =? -2); [done|]. destruct ((ret <? 2) || (m_raid_disks m <? ret)) eqn:Hcop; [done|].
  apply orb_false_iff in Hcop as [Hlo Hhi]. apply Z.ltb_ge in Hlo, Hhi.
  destruct (setup_geo_fields geom0 m ret g Hchunk Hgeo ltac:(lia)) as (Hret & Hdisks & Hsh & Hok & Hlay).
  assert (geom_ok g) as Hg.
  { apply Hok. destruct (decide (Z.shiftr (m_new_layout m) 17 = 1)) as [He|He]; [|by apply Hlay].
    specialize (Hsafe He). injection E as <-. cbn in Hsafe. lia. }
  match type of E with inr ?c = _ => set (conf0 := c) in E end.
  match goal with conf0 := context [calc_sectors ?c _] |- _ => set (conf1 := c) in conf0 end.
  assert (geo conf1 = g) as Hg1 by done.
  destruct (calc_sectors_spec conf1 (m_dev_sectors m)) as (Hdev & s & Hs & Hst); rewrite ?Hg1, ?Hdisks, <- ?Hsh; [done|done|lia|lia|].
  rewrite Hg1 in Hdev, Hs, Hst. pose proof (set_stride_ok g s Hg) as Hgs.
  injection E as <-. unfold conf0. cbn [geo]. rewrite Hs. change (rows_of (set_stride g s)) with (rows_of g).
  destruct (geom_pos _ Hg) as (_ & Hf & _ & Hd & _ & _ & HC).
  assert (0 <= m_dev_sectors m / 2 ^ chunk_shift g) by (apply Z.div_pos; lia).
  split; [|by cbn]. split; cbn [geo prev copies dev_sectors reshape_progress]; rewrite ?Hs; try done.
  - apply Z.div_pos; lia.
  - rewrite Hdev. change (chunk_shift (set_stride g s)) with (chunk_shift g). change (raid_disks (set_stride g s)) with (raid_disks g).
    rewrite <- Hsh, Hdisks. rewrite Hsh in *. unfold rows_of.
    pose proof (Z.mul_div_le (m_dev_sectors m) (2 ^ chunk_shift g) ltac:(lia)).
    pose proof (Z.mul_div_le (m_dev_sectors m / 2 ^ chunk_shift g) (far_copies g) ltac:(lia)). nia.
Qed.

(** * Enough devices *)

Section Enough.
Context (mirrors : list (option bool)) (ignore disks near : Z) (copies : nat) (Hdisks : 0 < disks) (Hnear : 0 < near).

(** One of the [copies] devices from [this] on is in sync. *)
Definition window_ok (this : Z) (n : nat) : Prop := exists i, (i < n)%nat /\ in_sync mirrors ignore ((this + Z.of_nat i) mod disks) = true.

Lemma count_in_sync_spec n this cnt :
  0 <= this < disks -> 0 <= cnt ->
  0 <= count_in_sync mirrors ignore disks n this cnt /\
  (count_in_sync mirrors ignore disks n this cnt <> 0 <-> cnt <> 0 \/ window_ok this n).
Proof.
  revert this cnt. induction n as [|n IH]; intros this cnt Hthis Hcnt; cbn [count_in_sync].
  - split; [done|]. split; [by left|]. intros [?|(i & Hi & _)]; [done|lia].
  - rewrite rem_mod by lia. set (cnt' := if in_sync _ _ _ then _ else _).
    assert (0 <= cnt') as Hc by (unfold cnt'; destruct (in_sync _ _ _); lia).
    destruct (IH ((this + 1) mod disks) cnt' (Z.mod_pos_bound _ _ Hdisks) Hc) as [Hnn ->]. split; [done|].
    assert (window_ok ((this + 1) mod disks) n <-> exists i, (i < n)%nat /\ in_sync mirrors ignore ((this + Z.of_nat (S i)) mod disks) = true) as ->.
    { unfold window_ok. split; intros (i & Hi & Hs); exists i; (split; [done|]); revert Hs; rewrite Z.add_mod_idemp_l by lia;
        by replace (this + 1 + Z.of_nat i) with (this + Z.of_nat (S i)) by lia. }
    unfold cnt'. split.
    + intros [Hne|(i & Hi & Hs)]; [|right; exists (S i); split; [lia|done]].
      destruct (in_sync mirrors ignore this) eqn:Hs; [|by left]. right. exists 0%nat. split; [lia|]. rewrite Z.add_0_r, Z.mod_small; done.
    + intros [Hne|([|i] & Hi & Hs)]; [left; destruct (in_sync _ _ _); lia| |right; exists i; split; [lia|done]].
      rewrite Z.add_0_r, Z.mod_small in Hs by lia. rewrite Hs. left. lia.
Qed.

(** The number of windows the loop looks at. *)
Definition period : Z := disks / Z.gcd disks near.

Lemma period_spec : 0 < period <= disks /\ forall k, (k * near) mod disks = 0 <-> (period | k).
Proof.
  assert (0 < Z.gcd disks near) as Hg by (pose proof (Z.gcd_nonneg disks near); assert (Z.gcd disks near <> 0) by (intros He; apply Z.gcd_eq_0_l in He; lia); lia).
  destruct (Z.gcd_divide_l disks near) as [a Ha]. destruct (Z.gcd_divide_r disks near) as [b Hb].
  unfold period. set (gcd := Z.gcd disks near) in *.
  assert (disks / gcd = a) as -> by (symmetry; apply Z.div_unique with 0; lia).
  assert (Z.gcd a b = 1) as Hab.
  { assert (gcd * Z.gcd a b = gcd) as He; [|nia].
    rewrite <- (Z.abs_eq gcd) at 1 by lia. rewrite <- Z.gcd_mul_mono_l.
    rewrite (Z.mul_comm gcd a), (Z.mul_comm gcd b), <- Ha, <- Hb. done. }
  split; [nia|]. intros k. rewrite Z.mod_divide by lia. rewrite Ha, Hb. split.
  - intros [x Hx]. apply (Z.gauss a b k); [|done]. exists x. nia.
  - intros [x ->]. exists (x * b). lia.
Qed.

Lemma window_period c : (c * near) mod disks = (c mod period * near) mod disks.
Proof.
  destruct period_spec as [Hp Hdiv]. rewrite (Z.div_mod c period) at 1 by lia.
  rewrite Z.mul_add_distr_r, Z.add_mod, (proj2 (Hdiv (period * (c / period)))), Z.add_0_l, Z.mod_mod by (lia || apply Z.divide_factor_l). done.
Qed.

Lemma enough_loop_spec fuel k :
  0 <= k < period -> period - k <= Z.of_nat fuel ->
  exists b, enough_loop mirrors ignore disks near copies fuel ((k * near) mod disks) = Some b /\
    (b = true <-> forall j, k <= j < period -> window_ok ((j * near) mod disks) copies).
Proof.
  revert k. induction fuel as [|fuel IH]; intros k Hk Hfuel; [lia|]. cbn [enough_loop].
  pose proof (Z.mod_pos_bound (k * near) disks ltac:(lia)) as Hb.
  destruct (count_in_sync_spec copies ((k * near) mod disks) 0 ltac:(lia) ltac:(lia)) as [_ Hcount].
  destruct (Z.eqb_spec (count_in_sync mirrors ignore disks copies ((k * near) mod disks) 0) 0) as [H0|H0].
  { exists false. split; [done|]. split; [done|]. intros Hall. specialize (Hall k ltac:(lia)). exfalso. apply (proj2 Hcount); [by right|done]. }
  apply Hcount in H0 as [?|Hwin]; [done|].
  rewrite rem_mod, Z.add_mod_idemp_l by lia. replace (k * near + near) with ((k + 1) * near) by lia.
  destruct period_spec as [Hp Hdiv]. destruct (Z.eqb_spec (((k + 1) * near) mod disks) 0) as [Hend|Hend].
  - exists true. split; [done|]. split; [|done]. intros _ j Hj. apply Hdiv in Hend. apply Z.divide_pos_le in Hend; [|lia].
    by replace j with k by lia.
  - assert (k + 1 <> period) by (intros He; apply Hend, Hdiv; rewrite He; by apply Z.divide_refl).
    destruct (IH (k + 1)) as (b & -> & Hbw); [lia..|]. exists b. split; [done|]. rewrite Hbw. split.
    + intros Hall j Hj. destruct (decide (j = k)) as [->|]; [done|]. apply Hall. lia.
    + intros Hall j Hj. apply Hall. lia.
Qed.

End Enough.

(** ** Windows and copies *)

Section Windows.
Context (g : geom) (Hok : geom_ok g) (Hmix : unmixed g) (Hone : far_set_size g = raid_disks g).

(** With a single far set the copies are on consecutive devices. *)
Lemma copy_dev_one_set q f :
  copy_dev g (q mod raid_disks g) f = (q + f * near_copies g) mod raid_disks g.
Proof.
  destruct (geom_pos g Hok) as (_ & _ & _ & Hd & _). pose proof (Z.mod_pos_bound q (raid_disks g) Hd).
  unfold copy_dev. rewrite (far_set_eq g Hok) by lia. rewrite Hone, Z.mod_same, decide_False, Z.div_small by lia.
  rewrite Z.mul_0_l, Z.sub_0_r, Z.add_0_l. apply Z.add_mod_idemp_l. lia.
Qed.

Lemma phys_window mirrors ignore r :
  0 <= r -> r / 2 ^ chunk_shift g * near_copies g < 2 ^ 64 ->
  (exists d s, (d, s) ∈ __raid10_find_phys g r /\ in_sync mirrors ignore d = true) <->
  window_ok mirrors ignore (raid_disks g) ((r / 2 ^ chunk_shift g * near_copies g) mod raid_disks g)
    (Z.to_nat (near_copies g * far_copies g)).
Proof.
  intros Hr Hmax. destruct (geom_pos g Hok) as (Hn & Hf & _ & Hd & _). rewrite (find_phys_spec g Hok r Hmix Hr Hmax). cbv zeta.
  set (q := r / 2 ^ chunk_shift g * near_copies g). split.
  - intros (d & s & Hin & Hs). apply list_elem_of_fmap in Hin as ([n f] & Hplace & Hin). apply list_elem_of_In, in_prod_iff in Hin.
    rewrite !in_seq in Hin. unfold place in Hplace. cbn [fst snd] in Hplace. injection Hplace as -> _.
    exists (n + f * Z.to_nat (near_copies g))%nat. split.
    + rewrite Z2Nat.inj_mul by lia. nia.
    + rewrite copy_dev_one_set in Hs. rewrite Z.add_mod_idemp_l by lia. rewrite <- Hs. do 2 f_equal. lia.
  - intros (i & Hi & Hs). rewrite Z2Nat.inj_mul in Hi by lia. set (k := Z.to_nat (near_copies g)) in *. assert (k <> 0)%nat by lia.
    pose proof (Nat.div_mod i k ltac:(done)). pose proof (Nat.mod_upper_bound i k ltac:(done)).
    assert (i / k < Z.to_nat (far_copies g))%nat by (apply Nat.Div0.div_lt_upper_bound; lia).
    eexists _, _. split; [apply list_elem_of_fmap; exists (i mod k, i / k)%nat; split; [done|]|].
    + apply list_elem_of_In, in_prod_iff. rewrite !in_seq. lia.
    + cbn [fst snd]. rewrite copy_dev_one_set. rewrite Z.add_mod_idemp_l in Hs by lia. rewrite <- Hs. do 2 f_equal.
      replace (near_copies g) with (Z.of_nat k) by lia. rewrite <- Z.add_assoc. f_equal. nia.
Qed.

End Windows.

(** * Properties *)


(** The [near_copies * far_copies] copies of a virtual sector are on distinct devices. *)
Theorem raid10_copies_distinct m conf backwards r :
  mddev_ok m -> setup_conf false m = inr conf ->
  (Z.shiftr (m_new_layout m) 17 = 1 -> near_copies (geo conf) * far_copies (geo conf) <= far_set_size (geo conf)) ->
  unmixed (geo conf) -> 0 <= r < raid10_size conf 0 0 ->
  NoDup (map fst (raid10_find_phys conf backwards r).2) /\
  length (raid10_find_phys conf backwards r).2 = Z.to_nat (copies conf).
Proof.
  intros Hm Hc Hsafe Hmix Hr. destruct (setup_conf_ok m conf Hm Hc Hsafe) as (Harr & _ & _).
  destruct (array_sector _ _ Harr r Hr) as (_ & _ & Hchunk & _).
  destruct (find_phys_devices _ (arr_geom _ _ Harr) r Hmix (proj1 Hr) Hchunk) as (Hnd & Hlen & _).
  unfold raid10_find_phys. rewrite (arr_stable _ _ Harr), Z.eqb_refl, (arr_copies _ _ Harr). done.
Qed.

(** The sectors a device contributes, which the code computes by rounding the number of
    chunks of the array up to whole rows, are its size rounded down to [far_copies] chunks; the
    size of the array is that number of rows times the devices, over the near copies. *)
Theorem raid10_sizes m conf :
  mddev_ok m -> setup_conf false m = inr conf ->
  (Z.shiftr (m_new_layout m) 17 = 1 -> near_copies (geo conf) * far_copies (geo conf) <= far_set_size (geo conf)) ->
  let rows := m_dev_sectors m / m_new_chunk_sectors m / far_copies (geo conf) in
  dev_sectors conf = rows * far_copies (geo conf) * m_new_chunk_sectors m /\
  raid10_size conf 0 0 = rows * m_raid_disks m / near_copies (geo conf) * m_new_chunk_sectors m.
Proof.
  intros Hm Hc Hsafe rows. destruct (setup_conf_ok m conf Hm Hc Hsafe) as (Harr & Hd & Hs).
  rewrite (array_size _ _ Harr), (arr_dev _ _ Harr). unfold rows_of. rewrite Hs, Hd. done.
Qed.

(** C39. [_enough] ends within one turn over the devices, in every geometry with a device and a near
    copy.  In one with a single far set, and whose near and far copies are [unmixed], it answers whether
    every block has a copy on a device that is in sync (and is not the one to be ignored). *)
Theorem enough_correct conf (previous : bool) ignore :
  let g := if previous then prev conf else geo conf in
  0 < raid_disks g -> 0 < near_copies g ->
  exists b, _enough conf previous ignore = Some b /\
    (geom_ok g -> unmixed g -> far_set_size g = raid_disks g -> raid_disks g < 2 ^ 32 -> copies conf = near_copies g * far_copies g ->
     b = true <-> forall r, 0 <= r -> r / 2 ^ chunk_shift g * near_copies g < 2 ^ 64 ->
       exists d s, (d, s) ∈ __raid10_find_phys g r /\ in_sync (mirrors conf) ignore d = true).
Proof.
  intros g Hd Hn. destruct (period_spec (raid_disks g) (near_copies g) Hd) as [Hp Hdiv]; [done..|]. unfold _enough. fold g.
  destruct (enough_loop_spec (mirrors conf) ignore (raid_disks g) (near_copies g)
    (Z.to_nat (copies conf)) Hd Hn (Z.to_nat (raid_disks g)) 0) as (b & Hb & Hall); [lia..|].
  rewrite Z.mul_0_l, Z.mod_0_l in Hb by lia. exists b. split; [done|]. intros Hok Hmix Hone Hsmall Hcop. destruct (geom_pos g Hok) as (_ & _ & _ & _ & Hnd & _ & HC).
  rewrite Hall, Hcop. split.
  - intros Hwin r Hr Hmax. apply (phys_window g Hok Hmix Hone); [done..|].
    rewrite (window_period _ _ Hd) by done. apply Hwin. apply Z.mod_pos_bound. lia.
  - intros Hblocks j Hj. specialize (Hblocks (j * 2 ^ chunk_shift g) ltac:(nia)).
    rewrite Z.div_mul in Hblocks by lia. apply (phys_window g Hok Hmix Hone) in Hblocks; [|nia|rewrite Z.div_mul by lia; nia|nia].
    by rewrite Z.div_mul in Hblocks by lia.
Qed.

(** * Layouts that mix near and far copies *)

(** An array of [disks] devices of 100000 sectors in chunks of 64 sectors, no reshape. *)
Definition example (layout disks : Z) : mddev := Build_mddev layout layout 64 64 disks 0 100000 MaxSector.

Definition example_conf (layout disks : Z) : r10conf :=
  match setup_conf false (example layout disks) with
  | inr conf => conf
  | inl _ => {| prev := geom0; geo := geom0; copies := 0; dev_sectors := 0; mirrors := []; reshape_progress := 0 |}
  end.

Definition with_mirrors (conf : r10conf) (ms : list (option bool)) : r10conf :=
  {| prev := prev conf; geo := geo conf; copies := copies conf; dev_sectors := dev_sectors conf;
     mirrors := ms; reshape_progress := reshape_progress conf |}.

(** Two near and two far copies on ten devices in far sets of four: the test
    [d > last_far_set_start] of [__raid10_find_phys], made after [near_copies] is added, takes
    the far copy of a block of the first set into the last set, where it overlaps a copy of
    another block. *)
Theorem far_set_overlap :
  exists conf place, setup_conf false (example (2 * 2 ^ 17 + 2 * 2 ^ 8 + 2) 10) = inr conf /\
    64 < raid10_size conf 0 0 /\ 256 < raid10_size conf 0 0 /\
    place ∈ __raid10_find_phys (geo conf) 64 /\ place ∈ __raid10_find_phys (geo conf) 256.
Proof.
  exists (example_conf (2 * 2 ^ 17 + 2 * 2 ^ 8 + 2) 10), (5, 49984).
  split_and!; [by vm_compute|by vm_compute|by vm_compute|apply (bool_decide_unpack _); by vm_compute..].
Qed.

(** Two near and two far copies in the offset layout on five devices: the near copy that
    wraps to the next device row advances by one chunk where a row is [far_copies] chunks
    high, and overlaps a far copy of another block. *)
Theorem far_offset_overlap :
  exists conf place, setup_conf false (example (2 ^ 16 + 2 * 2 ^ 8 + 2) 5) = inr conf /\
    64 < raid10_size conf 0 0 /\ 128 < raid10_size conf 0 0 /\
    place ∈ __raid10_find_phys (geo conf) 64 /\ place ∈ __raid10_find_phys (geo conf) 128.
Proof.
  exists (example_conf (2 ^ 16 + 2 * 2 ^ 8 + 2) 5), (0, 64).
  split_and!; [by vm_compute|by vm_compute|by vm_compute|apply (bool_decide_unpack _); by vm_compute..].
Qed.

(** Two far copies on five devices in far sets of two: [_enough], which looks at
    consecutive devices and not at far sets, answers yes with devices 2 and 4 missing, though
    both copies of a block are on these. *)
Theorem enough_far_sets_unsound :
  exists conf ms, setup_conf false (example (2 * 2 ^ 17 + 2 * 2 ^ 8 + 1) 5) = inr conf /\
    enough (with_mirrors conf ms) (-1) = Some true /\ 256 < raid10_size conf 0 0 /\
    Forall (fun p => in_sync ms (-1) p.1 = false) (__raid10_find_phys (geo conf) 256).
Proof.
  exists (example_conf (2 * 2 ^ 17 + 2 * 2 ^ 8 + 1) 5), [Some true; Some true; None; Some true; None].
  split_and!; [by vm_compute..|apply (bool_decide_unpack _); by vm_compute].
Qed.

(** * Witnesses *)


(** Five devices, two near copies. *)
Lemma raid10_copies_distinct_witness :
  NoDup (map fst (raid10_find_phys (example_conf (2 ^ 8 + 2) 5) false 128).2) /\
  length (raid10_find_phys (example_conf (2 ^ 8 + 2) 5) false 128).2 = 2%nat.
Proof.
  apply (raid10_copies_distinct (example (2 ^ 8 + 2) 5) (example_conf (2 ^ 8 + 2) 5) false 128).
  - by split.
  - by vm_compute.
  - by vm_compute.
  - right; left. by vm_compute.
  - by vm_compute.
Defined.

Lemma raid10_sizes_witness :
  dev_sectors (example_conf (2 * 2 ^ 8 + 1) 3) = 781 * 2 * 64 /\ raid10_size (example_conf (2 * 2 ^ 8 + 1) 3) 0 0 = 781 * 3 / 1 * 64.
Proof.
  apply (raid10_sizes (example (2 * 2 ^ 8 + 1) 3) (example_conf (2 * 2 ^ 8 + 1) 3)).
  - by split.
  - by vm_compute.
  - by vm_compute.
Defined.

Lemma enough_correct_witness :
  exists b, _enough (with_mirrors (example_conf (2 ^ 8 + 2) 5) [Some true; None; Some true; Some true; None]) false (-1) = Some b /\
    (b = true <-> forall r, 0 <= r -> r / 2 ^ 6 * 2 < 2 ^ 64 ->
       exists d s, (d, s) ∈ __raid10_find_phys (geo (example_conf (2 ^ 8 + 2) 5)) r /\
         in_sync [Some true; None; Some true; Some true; None] (-1) d = true).
Proof.
  destruct (enough_correct (with_mirrors (example_conf (2 ^ 8 + 2) 5) [Some true; None; Some true; Some true; None]) false (-1)) as (b & H1 & H2).
  - by vm_compute.
  - by vm_compute.
  - exists b. split; [exact H1|]. apply H2; [by split; vm_compute|right; left; by vm_compute|by vm_compute..].
Defined.
