(* ===== verification/Raid0.v ===== *)
(** RAID-0, md/raid0.c: the zones of an array of devices of different sizes
    ([create_strip_zones]), the map from sectors to devices ([find_zone], [map_sector] and the
    address computed by [raid0_map_submit_bio]) and the size of the array.

    A device is a position in the list of devices of the array, in the order of
    [rdev_for_each]; the list holds the fields the code reads and writes. *)

From S2P Require Import Prelude.
From S2P Require Import Sectors.

(** * State *)

(** The fields of [struct md_rdev], and the logical block size of its queue. *)
Record md_rdev := {
  raid_disk : Z;
  new_raid_disk : Z;
  sectors : Z;
  data_offset : Z;
  logical_block_size : Z;
}.

(** The fields of [struct mddev]. *)
Record mddev := {
  rdevs : list md_rdev;
  level : Z;
  md_layout : Z;
  chunk_sectors : Z;
  raid_disks : Z;
}.

Record strip_zone := {
  zone_end : Z;
  dev_start : Z;
  nb_dev : Z;
  disk_shift : Z;
}.

(** [devlist] has [raid_disks] entries for every zone. *)
Record r0conf := {
  strip_zones : list strip_zone;
  devlist : list (option nat);
  nr_strip_zones : nat;
  layout : Z;
}.

Definition RAID0_ORIG_LAYOUT := 1.
Definition RAID0_ALT_MULTIZONE_LAYOUT := 2.
Definition EOPNOTSUPP := 95.

Definition no_rdev : md_rdev := Build_md_rdev 0 0 0 0 0.
Definition rdev_at (rs : list md_rdev) (i : nat) : md_rdev := default no_rdev (rs !! i).
Definition zone0 : strip_zone := Build_strip_zone 0 0 0 0.
Definition zone_at (zs : list strip_zone) (i : nat) : strip_zone := default zone0 (zs !! i).

Definition set_sectors (r : md_rdev) (s : Z) : md_rdev :=
  Build_md_rdev (raid_disk r) (new_raid_disk r) s (data_offset r) (logical_block_size r).
Definition set_new_raid_disk (r : md_rdev) (j : Z) : md_rdev :=
  Build_md_rdev (raid_disk r) j (sectors r) (data_offset r) (logical_block_size r).

(** * [create_strip_zones] *)

(** The first loop: round the size of a device to chunks, and count it as a new zone unless a
    device before it has the same size. *)
Definition round_step (chunk : Z) (st : list md_rdev * nat * Z) (i : nat) : list md_rdev * nat * Z :=
  let '(rs, nr, blksize) := st in
  let r := rdev_at rs i in
  let s := (sector_div (sectors r) chunk).1 in
  let rs := <[i := set_sectors r (u64 (s * chunk))]> rs in
  let blksize := Z.max blksize (logical_block_size r) in
  let c := existsb (fun r2 => sectors r2 =? sectors (rdev_at rs i)) (take i rs) in
  (rs, if c then nr else S nr, blksize).

(** The index of a device in the first zone, with the device as the loop leaves it. *)
Definition zone0_index (level : Z) (r : md_rdev) : Z * md_rdev :=
  let j := raid_disk r in
  let '(j, r) := if level =? 10 then (Z.quot j 2, set_new_raid_disk r (Z.quot j 2)) else (j, r) in
  if level =? 1 then (0, set_new_raid_disk r 0) else (j, r).

(** [if (!smallest || rdev->sectors < smallest->sectors) smallest = rdev]. *)
Definition smaller (rs : list md_rdev) (smallest : option nat) (i : nat) : option nat :=
  match smallest with
  | None => Some i
  | Some s => if sectors (rdev_at rs i) <? sectors (rdev_at rs s) then Some i else smallest
  end.

(** The loop over the devices that fills the first row of [devlist]; [None] is [goto abort]. *)
Fixpoint zone0_loop (level raid_disks : Z) (todo : list nat) (rs : list md_rdev) (dev : list (option nat))
    (smallest : option nat) (cnt : nat) : list md_rdev * option (list (option nat) * option nat * nat) :=
  match todo with
  | [] => (rs, Some (dev, smallest, cnt))
  | i :: todo =>
      let '(j, r) := zone0_index level (rdev_at rs i) in
      let rs := <[i := r]> rs in
      if (j <? 0) || (raid_disks <=? j) then (rs, None)
      else
        match dev !! Z.to_nat j with
        | Some (Some _) => (rs, None)
        | _ => zone0_loop level raid_disks todo rs (<[Z.to_nat j := Some i]> dev) (smaller rs smallest i) (S cnt)
        end
  end.

(** The devices of a zone: [dev[c]] from position [base] of [devlist]; [None]: an entry of the
    first row is [NULL] and is read. *)
Fixpoint zone_dev_loop (rs : list md_rdev) (start : Z) (base : nat) (js : list nat)
    (devs : list (option nat)) (c : nat) (smallest : option nat) : option (list (option nat) * nat * option nat) :=
  match js with
  | [] => Some (devs, c, smallest)
  | j :: js =>
      match mjoin (devs !! j) with
      | Some i =>
          if sectors (rdev_at rs i) <=? start then zone_dev_loop rs start base js devs c smallest
          else zone_dev_loop rs start base js (<[(base + c)%nat := Some i]> devs) (S c) (smaller rs smallest i)
      | None => None
      end
  end.

(** The loop over the other zones; [None]: a [NULL] pointer is read. *)
Fixpoint zones_loop (rs : list md_rdev) (raid_disks cnt : nat) (todo : list nat) (zs : list strip_zone)
    (devs : list (option nat)) (smallest : nat) (curr_zone_end : Z) : option (list strip_zone * list (option nat)) :=
  match todo with
  | [] => Some (zs, devs)
  | i :: todo =>
      let start := sectors (rdev_at rs smallest) in
      match zone_dev_loop rs start (i * raid_disks) (seq 0 cnt) devs 0 None with
      | Some (devs, c, Some s) =>
          let curr_zone_end := u64 (curr_zone_end + u64 ((sectors (rdev_at rs s) - start) * Z.of_nat c)) in
          zones_loop rs raid_disks cnt todo (<[i := Build_strip_zone curr_zone_end start (Z.of_nat c) 0]> zs) devs s curr_zone_end
      | _ => None
      end
  end.

(** The loop that sets [disk_shift] for the original layout. *)
Definition shift_zones (chunk : Z) (zs : list strip_zone) (nr : nat) : list strip_zone :=
  fold_left (fun zs i =>
      let first_sector := (sector_div (zone_end (zone_at zs (i - 1))) chunk).1 in
      let z := zone_at zs i in
      <[i := Build_strip_zone (zone_end z) (dev_start z) (nb_dev z) (sector_div first_sector (nb_dev z)).2]> zs)
    (seq 1 (nr - 1)) zs.

(** The layout of the array, from the superblock or the module parameter. *)
Definition choose_layout (default_layout md_layout : Z) (zs : list strip_zone) (nr : nat) : option Z :=
  if (nr =? 1)%nat || (nb_dev (zone_at zs 1) =? 1) then Some RAID0_ORIG_LAYOUT
  else if (md_layout =? RAID0_ORIG_LAYOUT) || (md_layout =? RAID0_ALT_MULTIZONE_LAYOUT) then Some md_layout
  else if (default_layout =? RAID0_ORIG_LAYOUT) || (default_layout =? RAID0_ALT_MULTIZONE_LAYOUT) then Some default_layout
  else None.

Inductive outcome :=
| Crash                      (* a NULL pointer is read *)
| Failed (err : Z)
| Created (conf : r0conf).

(** The devices after the call and its outcome; [enomem] says that an allocation fails. *)
Definition create_strip_zones (default_layout : Z) (enomem : bool) (m : mddev) : list md_rdev * outcome :=
  let '(rs, nr, blksize) := fold_left (round_step (chunk_sectors m)) (seq 0 (length (rdevs m))) (rdevs m, 0%nat, 512) in
  if negb (Z.shiftl (chunk_sectors m) 9 mod blksize =? 0) then (rs, Failed (- EINVAL)) else
  if enomem then (rs, Failed (- ENOMEM)) else
  let zs := replicate nr zone0 in
  let devs := replicate (nr * Z.to_nat (raid_disks m)) None in
  let '(rs, r) := zone0_loop (level m) (raid_disks m) (seq 0 (length rs)) rs devs None 0 in
  (rs,
   match r with
   | None => Failed (- EINVAL)
   | Some (devs, smallest, cnt) =>
       if negb (Z.of_nat cnt =? raid_disks m) then Failed (- EINVAL) else
       match smallest with
       | None => Crash
       | Some s =>
           let zone_end := u64 (sectors (rdev_at rs s) * Z.of_nat cnt) in
           let zs := <[0%nat := Build_strip_zone zone_end 0 (Z.of_nat cnt) 0]> zs in
           match zones_loop rs (Z.to_nat (raid_disks m)) cnt (seq 1 (nr - 1)) zs devs s zone_end with
           | None => Crash
           | Some (zs, devs) =>
               match choose_layout default_layout (md_layout m) zs nr with
               | None => Failed (- EOPNOTSUPP)
               | Some l =>
                   let zs := if l =? RAID0_ORIG_LAYOUT then shift_zones (chunk_sectors m) zs nr else zs in
                   Created {| strip_zones := zs; devlist := devs; nr_strip_zones := nr; layout := l |}
               end
           end
       end
   end).

(** * Mapping *)

(** The zone of a sector and the offset in the zone; [None] is [BUG()]. *)
Fixpoint find_zone_loop (zs : list strip_zone) (i : nat) (prev_end sector : Z) : option (nat * Z) :=
  match zs with
  | [] => None
  | z :: zs =>
      if sector <? zone_end z then Some (i, if (i =? 0)%nat then sector else u64 (sector - prev_end))
      else find_zone_loop zs (S i) (zone_end z) sector
  end.

Definition find_zone (conf : r0conf) (sector : Z) : option (nat * Z) :=
  find_zone_loop (take (nr_strip_zones conf) (strip_zones conf)) 0 0 sector.

(** The device and the new [*sector_offset]. *)
Definition map_sector (chunk_sects : Z) (conf : r0conf) (zone : nat) (sector sector_offset : Z) : option nat * Z :=
  let z := zone_at (strip_zones conf) zone in
  let raid_disks := nb_dev (zone_at (strip_zones conf) 0) in
  let '(sect_in_chunk, sector, chunk) :=
    if is_power_of_2 chunk_sects then
      let chunksect_bits := ffz (u64 (Z.lnot chunk_sects)) in
      (Z.land sector (chunk_sects - 1), Z.shiftr sector chunksect_bits,
       (sector_div sector_offset (u32 (Z.shiftl (nb_dev z) chunksect_bits))).1)
    else
      ((sector_div sector chunk_sects).2, (sector_div sector chunk_sects).1,
       (sector_div sector_offset (u32 (chunk_sects * nb_dev z))).1) in
  (mjoin (devlist conf !! Z.to_nat (Z.of_nat zone * raid_disks + (sector_div sector (nb_dev z)).2)),
   u64 (chunk * chunk_sects + sect_in_chunk)).

(** The device and the sector that [raid0_map_submit_bio] sends a bio at [bio_sector] to;
    [None] for an invalid layout (the bio fails) and for [BUG()]. *)
Definition raid0_map (chunk_sects : Z) (rs : list md_rdev) (conf : r0conf) (bio_sector : Z) : option (nat * Z) :=
  match find_zone conf bio_sector with
  | None => None
  | Some (zone, sector) =>
      let mapped :=
        if layout conf =? RAID0_ORIG_LAYOUT then Some (map_sector chunk_sects conf zone bio_sector sector)
        else if layout conf =? RAID0_ALT_MULTIZONE_LAYOUT then Some (map_sector chunk_sects conf zone sector sector)
        else None in
      match mapped with
      | Some (Some dev, sector) =>
          Some (dev, u64 (sector + dev_start (zone_at (strip_zones conf) zone) + data_offset (rdev_at rs dev)))
      | _ => None
      end
  end.

(** [raid0_size]. *)
Definition raid0_size (chunk_sects : Z) (rs : list md_rdev) : Z :=
  fold_left (fun n r => u64 (n + Z.land (sectors r) (u64 (Z.lnot (chunk_sects - 1))))) rs 0.
