(* ===== verification/Raid0Correct.v ===== *)
(** Correctness of the zones of RAID-0: [create_strip_zones] cuts the devices at their distinct
    sizes, the sectors of the array are mapped to the devices one to one and within their
    sizes, and the zones end at the size of the array. *)

From S2P Require Import Prelude.
From S2P Require Import Sectors.
From S2P Require Import Raid0.

Definition sz (rs : list md_rdev) (i : nat) : Z := sectors (rdev_at rs i).

(** * Sizes and boundaries *)

Section Sizes.
Context (sizes : list Z).

Definition above (x : Z) : list Z := filter (fun s => x < s) sizes.

(** The next larger size. *)
Definition nxt (x : Z) : Z := match above x with [] => x | s :: l => foldr Z.min s l end.

Lemma foldr_min s l : (foldr Z.min s l ∈ s :: l) /\ forall t, t ∈ s :: l -> foldr Z.min s l <= t.
Proof.
  induction l as [|u l [IHin IHle]]; cbn [foldr]; [split; [set_solver|]; intros t ->%list_elem_of_singleton; lia|]. split.
  - destruct (Z.min_spec u (foldr Z.min s l)) as [[_ ->]|[_ ->]]; set_solver.
  - intros t [->|[->|Ht]%elem_of_cons]%elem_of_cons.
    + pose proof (IHle s ltac:(set_solver)). lia.
    + lia.
    + pose proof (IHle t ltac:(set_solver)). lia.
Qed.

Lemma nxt_spec x :
  above x <> [] -> nxt x ∈ sizes /\ x < nxt x /\ forall s, s ∈ sizes -> x < s -> nxt x <= s.
Proof.
  unfold nxt. intros Hne. destruct (above x) as [|s l] eqn:E; [done|].
  destruct (foldr_min s l) as [Hin Hle]. rewrite <- E in Hin, Hle. unfold above in Hin, Hle.
  apply list_elem_of_filter in Hin as [Hx Hin]. split; [done|]. split; [done|].
  intros t Ht Hxt. apply Hle. by apply list_elem_of_filter.
Qed.

(** The boundaries: zone [i] reaches from [bnd i] (from 0 for the first) to [bnd (S i)]. *)
Definition bnd (i : nat) : Z := Nat.iter i nxt (-1).

(** The number of distinct sizes above [x]. *)
Definition distinct (x : Z) : nat := size (list_to_set (above x) : gset Z).

Lemma distinct_nxt x : above x <> [] -> distinct x = S (distinct (nxt x)).
Proof.
  intros Hne. destruct (nxt_spec x Hne) as (Hin & Hlt & Hle). unfold distinct.
  assert (list_to_set (above x) = ({[nxt x]} ∪ list_to_set (above (nxt x)) : gset Z)) as ->.
  { apply set_eq. intros s. rewrite elem_of_union, elem_of_singleton, !elem_of_list_to_set. unfold above.
    rewrite !list_elem_of_filter. split.
    - intros [Hx Hs]. specialize (Hle s Hs Hx). destruct (decide (s = nxt x)) as [|]; [by left|right]. split; [lia|done].
    - intros [->|[Hx Hs]]; (split; [lia|done]). }
  rewrite size_union, size_singleton; [done|].
  apply disjoint_singleton_l. rewrite elem_of_list_to_set. unfold above. rewrite list_elem_of_filter. lia.
Qed.

Lemma distinct_pos x : (0 < distinct x)%nat -> above x <> [].
Proof. unfold distinct. intros H E. rewrite E, list_to_set_nil, size_empty in H. lia. Qed.

Lemma distinct_0 x s : distinct x = 0%nat -> s ∈ sizes -> s <= x.
Proof.
  unfold distinct. intros H Hs. apply size_empty_inv in H. apply Z.nlt_ge. intros Hx.
  apply (not_elem_of_empty (C := gset Z) s), H, elem_of_list_to_set, list_elem_of_filter. done.
Qed.

Let nr := distinct (-1).

Lemma bnd_distinct i : (i <= nr)%nat -> distinct (bnd i) = (nr - i)%nat.
Proof.
  induction i as [|i IH]; intros Hi; [cbn; lia|]. specialize (IH ltac:(lia)).
  assert (above (bnd i) <> []) as Hne by (apply distinct_pos; lia).
  apply distinct_nxt in Hne. change (nxt (bnd i)) with (bnd (S i)) in Hne. lia.
Qed.

(** What the boundaries are. *)
Lemma bnd_spec i :
  (i < nr)%nat -> bnd (S i) ∈ sizes /\ bnd i < bnd (S i) /\ forall s, s ∈ sizes -> bnd i < s -> bnd (S i) <= s.
Proof. intros Hi. apply nxt_spec, distinct_pos. rewrite bnd_distinct; lia. Qed.

Lemma bnd_mono i j : (i <= j <= nr)%nat -> bnd i <= bnd j.
Proof.
  intros [Hij Hj]. induction Hij as [|j Hij IH]; [lia|]. destruct (bnd_spec j) as (_ & ? & _); [lia|].
  specialize (IH ltac:(lia)). lia.
Qed.

Lemma bnd_top s : s ∈ sizes -> s <= bnd nr.
Proof. apply distinct_0. rewrite bnd_distinct; lia. Qed.

(** The sectors below [x] on all devices. *)
Definition below (x : Z) : Z := foldr (fun s acc => Z.min s x + acc) 0 sizes.

Lemma below_step x y :
  x <= y -> (forall s, s ∈ sizes -> x < s -> y <= s) -> below y = below x + (y - x) * Z.of_nat (length (above x)).
Proof.
  intros Hxy Hgap. unfold below, above. clear nr. induction sizes as [|s l IH]; [cbn; lia|].
  cbn [foldr]. rewrite IH by (intros; apply Hgap; set_solver). rewrite filter_cons.
  specialize (Hgap s ltac:(set_solver)). case_decide; cbn [length]; lia.
Qed.

Lemma below_top : below (bnd nr) = foldr Z.add 0 sizes.
Proof.
  pose proof bnd_top as Htop. unfold below. revert Htop. generalize (bnd nr). clear nr. intros x Htop.
  induction sizes as [|s l IH]; [done|]. cbn [foldr]. rewrite IH by (intros; apply Htop; set_solver).
  specialize (Htop s ltac:(set_solver)). lia.
Qed.

Lemma below_mono x y : x <= y -> below x <= below y.
Proof. intros Hxy. unfold below. clear nr. induction sizes as [|s l IH]; cbn [foldr]; lia. Qed.

Context (Hpos : forall s, s ∈ sizes -> 0 <= s).

Lemma above_start : above (-1) = sizes.
Proof.
  unfold above. clear nr. induction sizes as [|s l IH]; [done|]. rewrite filter_cons.
  rewrite decide_True by (specialize (Hpos s ltac:(set_solver)); lia). f_equal. apply IH. intros; apply Hpos; set_solver.
Qed.

(** Where zone [i] ends on the array. *)
Definition end_of (i : nat) : Z := below (bnd (S i)).

Lemma end_of_0 : (0 < nr)%nat -> end_of 0 = bnd 1 * Z.of_nat (length sizes).
Proof.
  intros Hnr. unfold end_of. destruct (bnd_spec 0 Hnr) as (_ & Hlt & Hgap). rewrite (below_step (-1)); [|cbn in *; lia|done].
  rewrite above_start. assert (below (-1) = - Z.of_nat (length sizes)) as ->; [|nia].
  unfold below. clear nr Hnr Hlt Hgap. induction sizes as [|s l IH]; [done|]. cbn [foldr length]. rewrite IH by (intros; apply Hpos; set_solver).
  specialize (Hpos s ltac:(set_solver)). lia.
Qed.

Lemma end_of_S i :
  (S i < nr)%nat -> end_of (S i) = end_of i + (bnd (S (S i)) - bnd (S i)) * Z.of_nat (length (above (bnd (S i)))).
Proof. intros Hi. destruct (bnd_spec (S i) Hi) as (_ & Hlt & Hgap). apply below_step; [lia|done]. Qed.

End Sizes.

(** * The rounding loop *)

Definition rounded (chunk : Z) (r : md_rdev) : md_rdev := set_sectors r (u64 (sectors r / chunk * chunk)).

Lemma existsb_sectors (l : list md_rdev) s :
  existsb (fun r => sectors r =? s) l = bool_decide (s ∈ (list_to_set (map sectors l) : gset Z)).
Proof.
  apply Bool.eq_iff_eq_true. rewrite bool_decide_eq_true, elem_of_list_to_set, existsb_exists, list_elem_of_fmap. split.
  - intros (r & Hin & Hr%Z.eqb_eq). exists r. split; [done|]. by apply list_elem_of_In.
  - intros (r & -> & Hin). exists r. split; [by apply list_elem_of_In|apply Z.eqb_refl].
Qed.

Lemma round_loop chunk rs b0 :
  exists b, fold_left (round_step chunk) (seq 0 (length rs)) (rs, 0%nat, b0) =
    (map (rounded chunk) rs, size (list_to_set (map sectors (map (rounded chunk) rs)) : gset Z), b).
Proof.
  pose (P := fun (n : nat) (st : list md_rdev * nat * Z) =>
    st.1.1 = map (rounded chunk) (take n rs) ++ drop n rs /\
    st.1.2 = size (list_to_set (map sectors (map (rounded chunk) (take n rs))) : gset Z)).
  assert (P (length rs) (fold_left (round_step chunk) (seq 0 (length rs)) (rs, 0%nat, b0))) as [H1 H2].
  { apply (fold_left_inv P); [by split|]. intros n [[rs' nr] b] Hn [Hrs Hnr]. cbn [fst snd] in Hrs, Hnr. subst rs' nr.
    destruct (lookup_lt_is_Some_2 rs n Hn) as [r Hr].
    set (done_ := map (rounded chunk) (take n rs)). assert (length done_ = n) as Hlen by (unfold done_; rewrite length_map, length_take; lia).
    unfold round_step, sector_div. cbn [fst snd].
    assert (rdev_at (done_ ++ drop n rs) n = r) as Hat by (unfold rdev_at; rewrite lookup_app_r, Hlen, lookup_drop by lia; rewrite Nat.sub_diag, Nat.add_0_r, Hr; done).
    rewrite Hat. fold (rounded chunk r).
    assert (<[n := rounded chunk r]> (done_ ++ drop n rs) = (done_ ++ [rounded chunk r]) ++ drop (S n) rs) as Hins.
    { rewrite (drop_S rs r n Hr), insert_app_r_alt, Hlen, Nat.sub_diag by lia. cbn. by rewrite <- app_assoc. }
    rewrite Hins. assert (rdev_at ((done_ ++ [rounded chunk r]) ++ drop (S n) rs) n = rounded chunk r) as ->.
    { unfold rdev_at. rewrite <- app_assoc, lookup_app_r, Hlen, Nat.sub_diag by lia. done. }
    assert (take n ((done_ ++ [rounded chunk r]) ++ drop (S n) rs) = done_) as -> by (rewrite <- app_assoc; by apply take_app_length').
    rewrite existsb_sectors. unfold P. cbn [fst snd]. rewrite (take_S_r rs n r Hr), !map_app. fold done_. split; [done|].
    cbn [map]. rewrite list_to_set_app_L, list_to_set_singleton_L. case_bool_decide as Hin.
    - f_equal. set_solver.
    - rewrite size_union, size_singleton; [lia|]. set_solver. }
  unfold P in H1, H2. rewrite firstn_all in H2. rewrite firstn_all, drop_all, app_nil_r in H1.
  destruct (fold_left _ _ _) as [[rs' nr] b]. cbn [fst snd] in H1, H2. subst. by exists b.
Qed.

(** * The first zone *)

(** Devices with the same sizes and offsets. *)
Definition same_devs (rs rs' : list md_rdev) : Prop :=
  length rs = length rs' /\ forall i, sz rs i = sz rs' i /\ data_offset (rdev_at rs i) = data_offset (rdev_at rs' i).

Lemma same_devs_insert rs rs' i r :
  same_devs rs rs' -> sectors r = sz rs i -> data_offset r = data_offset (rdev_at rs i) -> same_devs (<[i := r]> rs) rs'.
Proof.
  intros [Hl Hs] H1 H2. split; [by rewrite length_insert|]. intros j. rewrite <- (proj1 (Hs j)), <- (proj2 (Hs j)). unfold sz, rdev_at.
  destruct (decide (i = j)) as [<-|]; [|by rewrite list_lookup_insert_ne].
  destruct (decide (i < length rs)%nat); [rewrite list_lookup_insert_eq by done; done|].
  rewrite list_insert_ge by lia. done.
Qed.

Lemma zone0_index_same level r : let '(_, r') := zone0_index level r in sectors r' = sectors r /\ data_offset r' = data_offset r.
Proof. unfold zone0_index. destruct (level =? 10), (level =? 1); done. Qed.

(** [o] is a device of least size among [l]. *)
Definition is_min (rs : list md_rdev) (l : list nat) (o : option nat) : Prop :=
  match o with None => l = [] | Some s => s ∈ l /\ forall i, i ∈ l -> sz rs s <= sz rs i end.

Lemma smaller_min rs rs' l o i :
  same_devs rs rs' -> is_min rs' l o -> is_min rs' (l ++ [i]) (smaller rs o i).
Proof.
  intros [_ Hs] Hm. unfold smaller. fold (sz rs i). destruct o as [s|]; cbn in Hm |- *.
  - fold (sz rs s). rewrite !(proj1 (Hs _)). destruct Hm as [Hin Hle]. destruct (Z.ltb_spec (sz rs' i) (sz rs' s)); cbn.
    + split; [set_solver|]. intros j [Hj| ->%list_elem_of_singleton]%elem_of_app; [|lia]. specialize (Hle j Hj). lia.
    + split; [set_solver|]. intros j [Hj| ->%list_elem_of_singleton]%elem_of_app; [|lia]. by apply Hle.
  - subst l. split; [set_solver|]. intros j ->%list_elem_of_singleton. lia.
Qed.

(** After [k] devices: device [i] is in slot [σ !! i]. *)
Record zone0_inv (rs0 : list md_rdev) (rd : Z) (k : nat) (rs : list md_rdev) (dev : list (option nat)) (o : option nat) (cnt : nat) : Prop := {
  z0_cnt : cnt = k;
  z0_same : same_devs rs rs0;
  z0_min : is_min rs0 (seq 0 k) o;
  z0_slots : exists σ : list nat, length σ = k /\ NoDup σ /\ (forall j, j ∈ σ -> Z.of_nat j < rd) /\
    (forall i j, σ !! i = Some j -> dev !! j = Some (Some i)) /\
    (forall j, (j < length dev)%nat -> j ∉ σ -> dev !! j = Some None);
}.

Lemma zone0_step rs0 rd k rs dev o cnt j r :
  zone0_inv rs0 rd k rs dev o cnt -> rd <= Z.of_nat (length dev) -> 0 <= j < rd -> mjoin (dev !! Z.to_nat j) = None ->
  sectors r = sz rs k -> data_offset r = data_offset (rdev_at rs k) ->
  zone0_inv rs0 rd (S k) (<[k := r]> rs) (<[Z.to_nat j := Some k]> dev) (smaller (<[k := r]> rs) o k) (S cnt).
Proof.
  intros [-> Hsame Hmin (σ & Hlen & Hnd & Hlt & Hin & Hout)] Hd Hj Hnone H1 H2.
  pose proof (same_devs_insert rs rs0 k r Hsame H1 H2) as Hsame'.
  split; [done|done|rewrite seq_S; by apply smaller_min|].
  assert (Z.to_nat j < length dev)%nat as Hjl by lia.
  assert (Z.to_nat j ∉ σ) as Hfree.
  { intros [i Hi]%list_elem_of_lookup_1. by rewrite (Hin _ _ Hi) in Hnone. }
  exists (σ ++ [Z.to_nat j]). split; [rewrite length_app; cbn; lia|]. split; [|split; [|split]].
  - apply list.NoDup_app. split; [done|]. split; [set_solver|apply NoDup_singleton].
  - intros j' [Hj'| ->%list_elem_of_singleton]%elem_of_app; [by apply Hlt|lia].
  - intros i j' [Hi|[Hi Hs]]%lookup_app_Some.
    + rewrite list_lookup_insert_ne; [by apply Hin|]. intros <-. apply Hfree. by eapply list_elem_of_lookup_2.
    + destruct (i - length σ)%nat eqn:E; [|done]. cbn in Hs. injection Hs as <-.
      rewrite list_lookup_insert_eq by done. do 2 f_equal. lia.
  - intros j' Hj' Hni. rewrite length_insert in Hj'. rewrite list_lookup_insert_ne by set_solver. apply Hout; set_solver.
Qed.

Lemma zone0_loop_spec level rs0 rd n k rs dev o cnt rs' dev' o' cnt' :
  zone0_inv rs0 rd k rs dev o cnt -> rd <= Z.of_nat (length dev) ->
  zone0_loop level rd (seq k n) rs dev o cnt = (rs', Some (dev', o', cnt')) ->
  zone0_inv rs0 rd (k + n) rs' dev' o' cnt' /\ length dev' = length dev.
Proof.
  revert k rs dev o cnt. induction n as [|n IH]; intros k rs dev o cnt Hinv Hd; cbn [seq zone0_loop].
  { intros [= <- <- <- <-]. by rewrite Nat.add_0_r. }
  pose proof (zone0_index_same level (rdev_at rs k)) as Hsame. destruct (zone0_index level (rdev_at rs k)) as [j r].
  destruct Hsame as [H1 H2]. destruct ((j <? 0) || (rd <=? j)) eqn:Hj; [done|].
  intros Hrest. assert (mjoin (dev !! Z.to_nat j) = None /\
    zone0_loop level rd (seq (S k) n) (<[k:=r]> rs) (<[Z.to_nat j:=Some k]> dev) (smaller (<[k:=r]> rs) o k) (S cnt) = (rs', Some (dev', o', cnt')))
    as [Hnone Hloop] by (destruct (dev !! Z.to_nat j) as [[?|]|]; done).
  destruct (IH (S k) _ _ _ _ (zone0_step rs0 rd k rs dev o cnt j r Hinv Hd ltac:(lia) Hnone H1 H2)
    ltac:(by rewrite length_insert) Hloop) as [Hinv' Hlen].
  rewrite length_insert in Hlen. by replace (k + S n)%nat with (S k + n)%nat by lia.
Qed.

Lemma zone0_init rs0 rd n : zone0_inv rs0 rd 0 rs0 (replicate n None) None 0.
Proof.
  split; [done|by split|done|]. exists []. split; [done|]. split; [constructor|]. split; [set_solver|]. split; [done|].
  intros j Hj _. rewrite length_replicate in Hj. by apply lookup_replicate_2.
Qed.

(** The first row of [devlist], when every slot is taken. *)
Lemma zone0_row rs0 n rs dev o cnt :
  zone0_inv rs0 (Z.of_nat n) n rs dev o cnt -> (n <= length dev)%nat ->
  exists row, row ≡ₚ seq 0 n /\ (forall j i, row !! j = Some i -> dev !! j = Some (Some i)) /\
    (forall j, (n <= j < length dev)%nat -> dev !! j = Some None).
Proof.
  intros [_ _ _ (σ & Hlen & Hnd & Hlt & Hin & Hout)] Hd.
  assert (σ ≡ₚ seq 0 n) as Hperm.
  { apply submseteq_length_Permutation; [|rewrite length_seq; lia]. apply NoDup_submseteq; [done|].
    intros j Hj. apply elem_of_seq. specialize (Hlt j Hj). lia. }
  assert (forall j, (j < n)%nat -> exists i, (i < n)%nat /\ dev !! j = Some (Some i)) as Hall.
  { intros j Hj. assert (j ∈ σ) as [i Hi]%list_elem_of_lookup_1 by (rewrite Hperm; apply elem_of_seq; lia).
    exists i. split; [apply lookup_lt_Some in Hi; lia|by apply Hin]. }
  pose (row := map (fun j => default 0%nat (mjoin (dev !! j))) (seq 0 n)).
  assert (forall j i, row !! j = Some i -> (j < n)%nat /\ dev !! j = Some (Some i)) as Hrow.
  { intros j i Hji. unfold row in Hji. rewrite list_lookup_fmap in Hji. destruct (decide (j < n)%nat) as [Hj|Hj].
    - rewrite lookup_seq_lt in Hji by done. destruct (Hall j Hj) as (i' & _ & Hi'). cbn in Hji. rewrite Hi' in Hji.
      cbn in Hji. injection Hji as <-. done.
    - by rewrite lookup_seq_ge in Hji by lia. }
  exists row. split; [|split].
  - apply submseteq_length_Permutation; [|unfold row; rewrite length_map; lia]. apply NoDup_submseteq.
    + apply NoDup_alt. intros j1 j2 i H1 H2. apply Hrow in H1 as [Hj1 H1], H2 as [Hj2 H2].
      assert (forall j, (j < n)%nat -> dev !! j = Some (Some i) -> σ !! i = Some j) as Hinv.
      { intros j Hj Hdj. assert (j ∈ σ) as [i' Hi']%list_elem_of_lookup_1 by (rewrite Hperm; apply elem_of_seq; lia).
        rewrite (Hin _ _ Hi') in Hdj. by injection Hdj as ->. }
      apply Hinv in H1, H2; [|done..]. congruence.
    + intros i [j Hj]%list_elem_of_lookup_1. apply Hrow in Hj as [Hj Hdj]. destruct (Hall j Hj) as (i' & Hi' & Hdj').
      rewrite Hdj in Hdj'. injection Hdj' as ->. apply elem_of_seq. lia.
  - intros j i Hji. by apply Hrow.
  - intros j Hj. apply Hout; [lia|]. intros Hjs. specialize (Hlt j Hjs). lia.
Qed.

(** * The other zones *)

Section Zones.
Context (rs : list md_rdev) (row : list nat) (Hpos : forall i, 0 <= sz rs i).
Let rd := length row.
Let sizes := map (sz rs) row.
Let nr := distinct sizes (-1).

Lemma sizes_pos s : s ∈ sizes -> 0 <= s.
Proof. intros (i & -> & _)%list_elem_of_fmap. apply Hpos. Qed.

(** The devices of the zone that starts at [x]. *)
Definition members (x : Z) : list nat := filter (fun i => x < sz rs i) row.

Lemma members_above x : map (sz rs) (members x) = above sizes x.
Proof.
  unfold members, above, sizes. induction row as [|i l IH]; [done|]. cbn [map]. rewrite !filter_cons.
  destruct (decide (x < sz rs i)); cbn [map]; by rewrite IH.
Qed.

Lemma length_members x : length (members x) = length (above sizes x).
Proof. by rewrite <- members_above, length_map. Qed.

Lemma length_members_le x : (length (members x) <= rd)%nat.
Proof. apply length_filter. Qed.

Lemma members_min i o :
  (i < nr)%nat -> is_min rs (members (bnd sizes i)) o -> exists s, o = Some s /\ sz rs s = bnd sizes (S i).
Proof.
  intros Hi Hmin. destruct (bnd_spec sizes i Hi) as (Hin & Hlt & Hgap). apply list_elem_of_fmap in Hin as (d & Hd & Hin).
  assert (d ∈ members (bnd sizes i)) as Hdm by (apply list_elem_of_filter; split; [lia|done]).
  destruct o as [s|]; cbn in Hmin; [|rewrite Hmin in Hdm; set_solver].
  destruct Hmin as [Hs Hle]. exists s. split; [done|]. apply list_elem_of_filter in Hs as [Hs Hsr].
  specialize (Hle d Hdm). assert (sz rs s ∈ sizes) as Hss by (apply list_elem_of_fmap; by exists s).
  specialize (Hgap _ Hss Hs). lia.
Qed.

Definition row_in (devs : list (option nat)) : Prop := forall j i, row !! j = Some i -> devs !! j = Some (Some i).

Lemma zone_dev_loop_spec x base devs0 :
  (rd <= base)%nat -> (base + rd <= length devs0)%nat -> row_in devs0 ->
  exists devs o, zone_dev_loop rs x base (seq 0 rd) devs0 0 None = Some (devs, length (members x), o) /\
    is_min rs (members x) o /\ length devs = length devs0 /\
    (forall t i, members x !! t = Some i -> devs !! (base + t)%nat = Some (Some i)) /\
    (forall j, (j < base \/ base + rd <= j)%nat -> devs !! j = devs0 !! j).
Proof.
  intros Hbase Hlen Hrow.
  assert (forall n k devs c o, (k + n = rd)%nat -> length devs = length devs0 ->
    c = length (filter (fun i => x < sz rs i) (take k row)) -> is_min rs (filter (fun i => x < sz rs i) (take k row)) o ->
    (forall t i, filter (fun i => x < sz rs i) (take k row) !! t = Some i -> devs !! (base + t)%nat = Some (Some i)) ->
    (forall j, (j < base \/ base + rd <= j)%nat -> devs !! j = devs0 !! j) ->
    exists devs' o', zone_dev_loop rs x base (seq k n) devs c o = Some (devs', length (members x), o') /\
    is_min rs (members x) o' /\ length devs' = length devs0 /\
    (forall t i, members x !! t = Some i -> devs' !! (base + t)%nat = Some (Some i)) /\
    (forall j, (j < base \/ base + rd <= j)%nat -> devs' !! j = devs0 !! j)) as Hloop.
  { induction n as [|n IH]; intros k devs c o Hk Hl -> Hmin Hin Hout.
    { rewrite take_ge in * by (fold rd; lia). exists devs, o. by split_and!. }
    destruct (lookup_lt_is_Some_2 row k) as [i Hi]; [fold rd; lia|].
    cbn [seq zone_dev_loop]. assert (mjoin (devs !! k) = Some i) as ->.
    { rewrite Hout by lia. by rewrite (Hrow k i Hi). }
    set (m := filter (fun i => x < sz rs i) (take k row)) in *.
    assert (length m <= k)%nat as Hmk by (unfold m; etransitivity; [apply length_filter|rewrite length_take; lia]).
    assert (filter (fun i => x < sz rs i) (take (S k) row) = m ++ (if decide (x < sz rs i) then [i] else [])) as Hm.
    { rewrite (take_S_r row k i Hi), list.filter_app, filter_cons. fold m. by destruct (decide (x < sz rs i)). }
    fold (sz rs i). destruct (Z.leb_spec (sz rs i) x) as [Hle|Hgt].
    - rewrite decide_False, app_nil_r in Hm by lia. apply IH; rewrite ?Hm; try done. lia.
    - rewrite decide_True in Hm by lia. apply IH; rewrite ?Hm; [lia|by rewrite length_insert|rewrite length_app; cbn; lia|by apply smaller_min; [split|]|..].
      + intros t i' [Ht|[Hge Ht]]%lookup_app_Some.
        * rewrite list_lookup_insert_ne; [by apply Hin|]. apply lookup_lt_Some in Ht. lia.
        * destruct (t - length m)%nat eqn:E; [|done]. cbn in Ht. injection Ht as <-.
          replace (base + t)%nat with (base + length m)%nat by lia. apply list_lookup_insert_eq. lia.
      + intros j Hj. rewrite list_lookup_insert_ne by lia. by apply Hout. }
  by apply Hloop.
Qed.

(** What zone [i] must be. *)
Definition zone_ok (zs : list strip_zone) (devs : list (option nat)) (i : nat) : Prop :=
  (i < length zs)%nat /\
  zone_end (zone_at zs i) = end_of sizes i /\ dev_start (zone_at zs i) = Z.max 0 (bnd sizes i) /\
  nb_dev (zone_at zs i) = Z.of_nat (length (members (bnd sizes i))) /\
  forall t d, members (bnd sizes i) !! t = Some d -> devs !! (i * rd + t)%nat = Some (Some d).

Context (Hmax : foldr Z.add 0 sizes < 2 ^ 64).

Lemma end_of_le i : (i < nr)%nat -> 0 <= end_of sizes i < 2 ^ 64.
Proof.
  intros Hi. split.
  - unfold end_of. transitivity (below sizes 0).
    + unfold below. pose proof sizes_pos as Hp. revert Hp. generalize sizes. intros l Hp. induction l as [|s l IH]; [done|].
      cbn [foldr]. pose proof (Hp s ltac:(set_solver)). specialize (IH ltac:(intros; apply Hp; set_solver)). lia.
    + apply below_mono. pose proof (bnd_spec sizes i Hi) as (Hin & _ & _). by apply sizes_pos.
  - eapply Z.le_lt_trans; [|exact Hmax]. rewrite <- below_top. apply below_mono. apply bnd_mono. fold nr. lia.
Qed.

Lemma zones_loop_spec n i zs devs s :
  (1 <= i)%nat -> (i + n = nr)%nat -> length zs = nr -> length devs = (nr * rd)%nat -> row_in devs ->
  sz rs s = bnd sizes i -> (forall j, (j < i)%nat -> zone_ok zs devs j) ->
  exists zs' devs', zones_loop rs rd rd (seq i n) zs devs s (end_of sizes (i - 1)) = Some (zs', devs') /\
    length zs' = nr /\ forall j, (j < nr)%nat -> zone_ok zs' devs' j.
Proof.
  revert i zs devs s. induction n as [|n IH]; intros i zs devs s Hi Hn Hzl Hdl Hrow Hs Hok.
  { exists zs, devs. split; [done|]. split; [done|]. intros j Hj. apply Hok. lia. }
  cbn [seq zones_loop]. fold (sz rs s). rewrite Hs.
  destruct (zone_dev_loop_spec (bnd sizes i) (i * rd) devs) as (devs1 & o & -> & Hmin & Hdl1 & Hin & Hout); [nia|nia|done|].
  destruct (members_min i o ltac:(lia) Hmin) as (s' & -> & Hs'). fold (sz rs s'). rewrite Hs'.
  destruct i as [|i]; [lia|]. replace (S i - 1)%nat with i by lia.
  pose proof (end_of_S sizes i ltac:(fold nr; lia)) as Hend. rewrite <- length_members in Hend.
  pose proof (end_of_le i ltac:(lia)). pose proof (end_of_le (S i) ltac:(lia)).
  destruct (bnd_spec sizes (S i) ltac:(fold nr; lia)) as (_ & Hlt & _).
  rewrite (u64_id ((_ - _) * _)) by nia. rewrite <- Hend, u64_id by done.
  replace (end_of sizes (S i)) with (end_of sizes (S (S i) - 1)) at 2 by (f_equal; lia).
  apply IH; [lia|lia|by rewrite length_insert|lia| |done|].
  - intros j d Hj. pose proof (lookup_lt_Some _ _ _ Hj) as Hjr. fold rd in Hjr. rewrite Hout by nia. by apply Hrow.
  - intros j Hj. destruct (decide (j = S i)) as [->|Hne].
    + split; [rewrite length_insert; lia|]. unfold zone_at. rewrite list_lookup_insert_eq by lia. cbn [default].
      split; [done|]. split; [|by split].
      destruct (bnd_spec sizes i ltac:(fold nr; lia)) as (Hb & _ & _). symmetry. by apply Z.max_r, sizes_pos.
    + destruct (Hok j ltac:(lia)) as (Hj1 & Hj2 & Hj3 & Hj4 & Hj5). unfold zone_ok, zone_at in *. rewrite length_insert, list_lookup_insert_ne by done.
      split_and!; try done. intros t d Ht. rewrite Hout; [by apply Hj5|]. left.
      pose proof (lookup_lt_Some _ _ _ Ht). pose proof (length_members_le (bnd sizes j)). nia.
Qed.
End Zones.

(** * The array *)

Lemma zone_at_insert zs i j z :
  zone_at (<[j := z]> zs) i = if decide (i = j /\ (j < length zs)%nat) then z else zone_at zs i.
Proof.
  unfold zone_at. case_decide as Hij.
  - destruct Hij as [-> Hj]. by rewrite list_lookup_insert_eq.
  - destruct (decide (i = j)) as [->|]; [|by rewrite list_lookup_insert_ne]. rewrite list_insert_ge; [done|]. lia.
Qed.

Lemma shift_zones_same chunk zs nr :
  length (shift_zones chunk zs nr) = length zs /\
  forall i, zone_end (zone_at (shift_zones chunk zs nr) i) = zone_end (zone_at zs i) /\
    dev_start (zone_at (shift_zones chunk zs nr) i) = dev_start (zone_at zs i) /\
    nb_dev (zone_at (shift_zones chunk zs nr) i) = nb_dev (zone_at zs i).
Proof.
  unfold shift_zones. generalize (seq 1 (nr - 1)) as l. intros l. revert zs. induction l as [|j l IH]; intros zs; [done|].
  cbn [fold_left]. match goal with |- context [fold_left ?f l ?z] => destruct (IH z) as [Hl Hf] end.
  split; [by rewrite Hl, length_insert|]. intros i. destruct (Hf i) as (-> & -> & ->).
  rewrite zone_at_insert. case_decide as Hij; [|done]. by destruct Hij as [-> _].
Qed.

(** The devices and chunk size of an array. *)
Record mddev_ok (m : mddev) : Prop := {
  mo_chunk : 0 < chunk_sectors m;
  mo_disks : 0 < raid_disks m;
  mo_sizes : forall r, r ∈ rdevs m -> 0 <= sectors r;
  mo_total : foldr (fun r n => sectors r + n) 0 (rdevs m) < 2 ^ 64;
}.

(** What [create_strip_zones] builds from the devices [rs], the first row of which is [row]. *)
Record conf_ok (chunk : Z) (rs : list md_rdev) (row : list nat) (conf : r0conf) : Prop := {
  co_row : row ≡ₚ seq 0 (length rs);
  co_len : (0 < length row)%nat;
  co_pos : forall i, 0 <= sz rs i;
  co_chunks : forall i, (chunk | sz rs i);
  co_max : foldr Z.add 0 (map (sz rs) row) < 2 ^ 64;
  co_nr : nr_strip_zones conf = distinct (map (sz rs) row) (-1);
  co_zones : length (strip_zones conf) = nr_strip_zones conf;
  co_layout : layout conf = RAID0_ORIG_LAYOUT \/ layout conf = RAID0_ALT_MULTIZONE_LAYOUT;
  co_zone : forall i, (i < nr_strip_zones conf)%nat -> zone_ok rs row (strip_zones conf) (devlist conf) i;
}.

Lemma list_to_set_sizes rs row :
  row ≡ₚ seq 0 (length rs) -> (forall i, 0 <= sz rs i) ->
  size (list_to_set (map sectors rs) : gset Z) = distinct (map (sz rs) row) (-1).
Proof.
  intros Hrow Hpos. unfold distinct. rewrite above_start by (intros s (i & -> & _)%list_elem_of_fmap; apply Hpos).
  f_equal. apply set_eq. intros s. rewrite !elem_of_list_to_set, !list_elem_of_fmap. split.
  - intros (r & -> & [i Hi]%list_elem_of_lookup_1). exists i. split; [unfold sz, rdev_at; by rewrite Hi|].
    rewrite Hrow. apply elem_of_seq. apply lookup_lt_Some in Hi. lia.
  - intros (i & -> & Hi). rewrite Hrow in Hi. apply elem_of_seq in Hi. destruct (lookup_lt_is_Some_2 rs i) as [r Hr]; [lia|].
    exists r. split; [unfold sz, rdev_at; by rewrite Hr|by eapply list_elem_of_lookup_2].
Qed.

Lemma sum_sizes rs row :
  row ≡ₚ seq 0 (length rs) -> foldr Z.add 0 (map (sz rs) row) = foldr Z.add 0 (map sectors rs).
Proof.
  intros Hrow. assert (map (sz rs) row ≡ₚ map sectors rs) as Hp.
  { rewrite Hrow. assert (map (sz rs) (seq 0 (length rs)) = map sectors rs) as ->; [|done]. apply list_eq. intros i. rewrite !list_lookup_fmap.
    destruct (decide (i < length rs)%nat) as [Hi|Hi].
    - rewrite lookup_seq_lt by done. cbn. unfold sz, rdev_at. by destruct (lookup_lt_is_Some_2 rs i Hi) as [r ->].
    - rewrite lookup_seq_ge, lookup_ge_None_2 by lia. done. }
  induction Hp; cbn [foldr]; lia.
Qed.

Lemma rounded_spec chunk r :
  0 < chunk -> 0 <= sectors r < 2 ^ 64 -> 0 <= sectors (rounded chunk r) <= sectors r /\ (chunk | sectors (rounded chunk r)).
Proof.
  intros Hc Hr. cbn. pose proof (Z.mul_div_le (sectors r) chunk Hc). assert (0 <= sectors r / chunk) by (apply Z.div_pos; lia).
  rewrite u64_id by nia. split; [nia|]. by exists (sectors r / chunk).
Qed.

(** The rounded devices. *)
Lemma rounded_devices m :
  mddev_ok m ->
  let rs := map (rounded (chunk_sectors m)) (rdevs m) in
  (forall i, 0 <= sz rs i) /\ (forall i, (chunk_sectors m | sz rs i)) /\ foldr Z.add 0 (map sectors rs) < 2 ^ 64.
Proof.
  intros [Hc _ Hs Ht] rs. unfold rs. clear rs.
  assert (forall r, r ∈ rdevs m -> 0 <= sectors r < 2 ^ 64) as Hr.
  { assert (0 <= foldr (fun r n => sectors r + n) 0 (rdevs m) /\ forall r, r ∈ rdevs m -> sectors r <= foldr (fun r n => sectors r + n) 0 (rdevs m)) as [_ Hle].
    { revert Hs. clear. induction (rdevs m) as [|r l IH]; intros Hs; cbn [foldr]; [set_solver|].
      destruct IH as [IH1 IH2]; [set_solver|]. specialize (Hs r ltac:(set_solver)) as Hr. split; [lia|].
      intros r' [->|Hr']%elem_of_cons; [lia|]. specialize (IH2 r' Hr'). lia. }
    intros r Hin. specialize (Hs r Hin). specialize (Hle r Hin). lia. }
  assert (forall i, 0 <= sz (map (rounded (chunk_sectors m)) (rdevs m)) i /\ (chunk_sectors m | sz (map (rounded (chunk_sectors m)) (rdevs m)) i)) as Hsz.
  { intros i. unfold sz, rdev_at. rewrite list_lookup_fmap. destruct (rdevs m !! i) as [r|] eqn:E; cbn [fmap option_fmap option_map default].
    - pose proof (rounded_spec _ r Hc (Hr r ltac:(by eapply list_elem_of_lookup_2))) as [? ?]. cbn. split; [apply H|done].
    - cbn. split; [lia|apply Z.divide_0_r]. }
  split; [apply Hsz|]. split; [apply Hsz|]. eapply Z.le_lt_trans; [|exact Ht]. revert Hr. clear -Hc.
  induction (rdevs m) as [|r l IH]; intros Hr; cbn [map foldr]; [lia|].
  pose proof (rounded_spec _ r Hc (Hr r ltac:(set_solver))) as [[_ ?] _]. specialize (IH ltac:(intros; apply Hr; set_solver)). lia.
Qed.

Lemma zone0_first rs row s zs devs :
  (forall i, 0 <= sz rs i) -> row_in row devs -> (0 < distinct (map (sz rs) row) (-1))%nat -> (0 < length zs)%nat ->
  sz rs s = bnd (map (sz rs) row) 1 ->
  sz rs s * Z.of_nat (length row) = end_of (map (sz rs) row) 0 /\
  zone_ok rs row (<[0%nat := Build_strip_zone (end_of (map (sz rs) row) 0) 0 (Z.of_nat (length row)) 0]> zs) devs 0.
Proof.
  intros Hpos Hrow Hnr Hz Hs. assert (forall s, s ∈ map (sz rs) row -> 0 <= s) as Hp by (by apply sizes_pos).
  split; [by rewrite end_of_0, Hs, length_map|].
  assert (members rs row (bnd (map (sz rs) row) 0) = row) as Hall.
  { unfold members. change (bnd (map (sz rs) row) 0) with (-1). clear -Hpos. induction row as [|i l IH]; [done|].
    rewrite filter_cons, decide_True by (specialize (Hpos i); lia). by f_equal. }
  split; [rewrite length_insert; lia|]. rewrite zone_at_insert, decide_True by (split; [done|lia]). rewrite Hall. by split_and!.
Qed.

Lemma is_min_perm rs rs' l l' o : same_devs rs rs' -> l ≡ₚ l' -> is_min rs' l' o -> is_min rs l o.
Proof.
  intros [_ Hs] Hl. destruct o as [s|]; cbn.
  - intros [Hin Hle]. split; [by rewrite Hl|]. intros i Hi. rewrite Hl in Hi. rewrite !(proj1 (Hs _)). by apply Hle.
  - intros ->. by apply Permutation_nil_r in Hl.
Qed.

(** The part of [create_strip_zones] behind the first row. *)
Lemma zones_built rs row devs o :
  row ≡ₚ seq 0 (length rs) -> (0 < length row)%nat -> (forall i, 0 <= sz rs i) -> foldr Z.add 0 (map (sz rs) row) < 2 ^ 64 ->
  let nr := distinct (map (sz rs) row) (-1) in
  length devs = (nr * length row)%nat -> row_in row devs -> is_min rs row o ->
  exists s zs' devs', o = Some s /\
    zones_loop rs (length row) (length row) (seq 1 (nr - 1))
      (<[0%nat := Build_strip_zone (u64 (sz rs s * Z.of_nat (length row))) 0 (Z.of_nat (length row)) 0]> (replicate nr zone0))
      devs s (u64 (sz rs s * Z.of_nat (length row))) = Some (zs', devs') /\
    length zs' = nr /\ forall i, (i < nr)%nat -> zone_ok rs row zs' devs' i.
Proof.
  intros Hrow Hlen Hpos Hmax nr Hdl Hin Hmin. assert (forall s, s ∈ map (sz rs) row -> 0 <= s) as Hp by (by apply sizes_pos).
  assert (0 < nr)%nat as Hnr.
  { unfold nr. destruct row as [|i l]; [cbn in Hlen; lia|]. unfold distinct. rewrite above_start by done.
    apply Nat.neq_0_lt_0. intros H0%size_empty_inv. set_solver. }
  assert (members rs row (bnd (map (sz rs) row) 0) = row) as Hall.
  { unfold members. change (bnd (map (sz rs) row) 0) with (-1). clear -Hpos. induction row as [|i l IH]; [done|].
    rewrite filter_cons, decide_True by (specialize (Hpos i); lia). by f_equal. }
  destruct (members_min rs row Hpos 0 o Hnr) as (s & -> & Hs); [by rewrite Hall|].
  destruct (zone0_first rs row s (replicate nr zone0) devs Hpos Hin Hnr) as [Hend Hz0]; [by rewrite length_replicate|done|].
  exists s. rewrite Hend, u64_id by (by apply end_of_le).
  destruct (zones_loop_spec rs row Hpos Hmax (nr - 1) 1 (<[0%nat := Build_strip_zone (end_of (map (sz rs) row) 0) 0 (Z.of_nat (length row)) 0]> (replicate nr zone0)) devs s)
    as (zs' & devs' & Hl & Hzl & Hzok); [lia|fold nr; lia|by rewrite length_insert, length_replicate|done|done|done| |].
  - intros j Hj. by replace j with 0%nat by lia.
  - exists zs', devs'. by split_and!.
Qed.

Lemma sizes_nonempty (rs : list md_rdev) : rs <> [] -> (0 < size (list_to_set (map sectors rs) : gset Z))%nat.
Proof. intros Hne. destruct rs as [|r l]; [done|]. apply Nat.neq_0_lt_0. intros H0%size_empty_inv. set_solver. Qed.

Lemma create_spec default_layout enomem m rs out :
  mddev_ok m -> create_strip_zones default_layout enomem m = (rs, out) ->
  out <> Crash /\ forall conf, out = Created conf ->
    same_devs rs (map (rounded (chunk_sectors m)) (rdevs m)) /\
    exists row, conf_ok (chunk_sectors m) rs row conf /\ Z.of_nat (length row) = raid_disks m.
Proof.
  intros Hok. destruct (rounded_devices m Hok) as (Hpos & Hdiv & Hmax). pose proof (mo_disks m Hok) as Hrd.
  unfold create_strip_zones. destruct (round_loop (chunk_sectors m) (rdevs m) 512) as [blk ->].
  set (rs0 := map (rounded (chunk_sectors m)) (rdevs m)) in *. set (nr := size (list_to_set (map sectors rs0) : gset Z)).
  destruct (negb _); [intros [= <- <-]; done|]. destruct enomem; [intros [= <- <-]; done|].
  destruct (zone0_loop _ _ _ _ _ _ _) as [rs1 [[[devs o] cnt]|]] eqn:E0; intros [= <- <-]; [|done].
  destruct (Z.eqb_spec (Z.of_nat cnt) (raid_disks m)) as [Hcnt|Hcnt]; cbn [negb]; [|done].
  destruct (decide (rs0 = [])) as [Hnil|Hne]; [rewrite Hnil in E0; cbn in E0; injection E0 as <- <- <- <-; lia|].
  pose proof (sizes_nonempty rs0 Hne) as Hnr. fold nr in Hnr.
  apply (zone0_loop_spec _ rs0) in E0 as [Hinv Hdl]; [|apply zone0_init|rewrite length_replicate; nia].
  rewrite length_replicate in Hdl. cbn [plus] in Hinv. pose proof Hinv as [-> Hsame Hmin _].
  rewrite <- Hcnt in Hinv, Hdl |- *. rewrite Nat2Z.id in Hdl |- *.
  destruct (zone0_row rs0 (length rs0) rs1 devs o _ Hinv) as (row & Hrow & Hin & _); [nia|].
  assert (length row = length rs0) as Hlrow by (by rewrite Hrow, length_seq).
  pose proof Hsame as [Hlen Hsz].
  assert (map (sz rs1) row = map (sz rs0) row) as Hmap by (apply map_ext; intros; apply Hsz).
  assert (nr = distinct (map (sz rs1) row) (-1)) as Hnr' by (rewrite Hmap; by apply list_to_set_sizes).
  assert (foldr Z.add 0 (map (sz rs1) row) < 2 ^ 64) as Hmax1 by (by rewrite Hmap, (sum_sizes rs0 row Hrow)).
  assert (forall i, 0 <= sz rs1 i) as Hpos1 by (intros i; by rewrite (proj1 (Hsz i))).
  destruct (zones_built rs1 row devs o) as (s & zs & devs' & -> & Hloop & Hzl & Hzok);
    [by rewrite Hlen|lia|done|done|by rewrite <- Hnr', Hlrow|done|by eapply is_min_perm|].
  rewrite <- Hnr', Hlrow in Hloop. fold (sz rs1 s). rewrite Hloop.
  destruct (choose_layout _ _ _ _) as [l|] eqn:Hlay; [|done]. split; [done|]. intros conf [= <-]. split; [done|]. exists row.
  split; [|lia]. destruct (shift_zones_same (chunk_sectors m) zs nr) as [Hsl Hsf].
  split; cbn [nr_strip_zones strip_zones layout devlist]; try done; [by rewrite Hlen|lia|intros i; by rewrite (proj1 (Hsz i))|..].
  - rewrite Hnr' at 2. rewrite <- Hzl. by destruct (l =? _).
  - unfold choose_layout in Hlay. destruct (_ || _); [left; congruence|].
    destruct ((md_layout m =? _) || _) eqn:H1; [injection Hlay as <-; lia|].
    destruct ((default_layout =? _) || _) eqn:H2; [injection Hlay as <-; lia|done].
  - intros i Hi. rewrite Hnr' in Hi. destruct (l =? _); [|by apply Hzok].
    destruct (Hzok i Hi) as (? & ? & ? & ? & ?). unfold zone_ok. destruct (Hsf i) as (-> & -> & ->). rewrite Hsl. by split_and!.
Qed.

(** * The map *)

Section Map.
Context (chunk : Z) (rs : list md_rdev) (row : list nat) (conf : r0conf).
Context (Hchunk : 0 < chunk) (Hok : conf_ok chunk rs row conf).
Let sizes := map (sz rs) row.
Let nr := nr_strip_zones conf.

(** The number of sectors of the array. *)
Definition total : Z := foldr Z.add 0 sizes.

(** Where zone [i] begins on the array. *)
Definition begin_of (i : nat) : Z := match i with O => 0 | S i => end_of sizes i end.

Lemma map_sizes_pos s : s ∈ sizes -> 0 <= s.
Proof. apply sizes_pos, (co_pos _ _ _ _ Hok). Qed.

Lemma nr_distinct : nr = distinct sizes (-1).
Proof. apply (co_nr _ _ _ _ Hok). Qed.

Lemma end_of_last : (0 < nr)%nat -> end_of sizes (nr - 1) = total.
Proof.
  intros Hnr. unfold end_of, total. replace (S (nr - 1)) with nr by lia. rewrite nr_distinct. apply below_top.
Qed.

Lemma nr_pos : (0 < nr)%nat.
Proof.
  rewrite nr_distinct. unfold distinct. rewrite above_start by apply map_sizes_pos.
  pose proof (co_len _ _ _ _ Hok). unfold sizes. destruct row as [|i l]; [cbn in *; lia|].
  apply Nat.neq_0_lt_0. intros H0%size_empty_inv. set_solver.
Qed.

Lemma last_zone_end : zone_end (zone_at (strip_zones conf) (nr_strip_zones conf - 1)) = total.
Proof.
  pose proof nr_pos. destruct (co_zone _ _ _ _ Hok (nr - 1)%nat ltac:(fold nr; lia)) as (_ & He & _).
  fold nr. rewrite He. by apply end_of_last.
Qed.
Context (Hsmall : chunk * Z.of_nat (length row) < 2 ^ 32).

Lemma end_of_range i : (i < nr)%nat -> 0 <= end_of sizes i < 2 ^ 64.
Proof. intros Hi. apply end_of_le; [apply Hok|apply Hok|]. fold sizes. by rewrite <- nr_distinct. Qed.

Lemma begin_end i : (i < nr)%nat -> 0 <= begin_of i <= end_of sizes i.
Proof.
  intros Hi. pose proof (end_of_range i Hi). destruct i as [|i]; cbn [begin_of]; [lia|].
  pose proof (end_of_range i ltac:(lia)). split; [lia|]. apply below_mono, bnd_mono. rewrite <- nr_distinct. lia.
Qed.

(** ** [find_zone] *)

Lemma find_zone_spec r :
  0 <= r < total -> exists i, (i < nr)%nat /\ begin_of i <= r < end_of sizes i /\ find_zone conf r = Some (i, r - begin_of i).
Proof.
  intros Hr. pose proof nr_pos as Hnr. pose proof (co_zones _ _ _ _ Hok) as Hzl. fold nr in Hzl.
  assert (forall n i, (i + n = nr)%nat -> begin_of i <= r -> exists j, (j < nr)%nat /\ begin_of j <= r < end_of sizes j /\
    find_zone_loop (drop i (strip_zones conf)) i (begin_of i) r = Some (j, r - begin_of j)) as Hloop.
  { induction n as [|n IH]; intros i Hi Hb.
    - destruct i as [|i]; [lia|]. cbn [begin_of] in Hb. replace i with (nr - 1)%nat in Hb by lia. rewrite end_of_last in Hb by done. lia.
    - destruct (lookup_lt_is_Some_2 (strip_zones conf) i) as [z Hz]; [lia|]. rewrite (drop_S _ z i Hz). cbn [find_zone_loop].
      destruct (co_zone _ _ _ _ Hok i ltac:(fold nr; lia)) as (_ & Hend & _). unfold zone_at in Hend. rewrite Hz in Hend. cbn in Hend. fold sizes in Hend.
      rewrite Hend. destruct (Z.ltb_spec r (end_of sizes i)).
      + exists i. split; [lia|]. split; [lia|]. do 2 f_equal. pose proof (end_of_range i ltac:(lia)).
        destruct i as [|i]; cbn [Nat.eqb begin_of] in *; [lia|]. pose proof (end_of_range i ltac:(lia)). apply u64_id. lia.
      + apply (IH (S i)); [lia|done]. }
  unfold find_zone. fold nr. rewrite take_ge by lia. destruct (Hloop nr 0%nat) as (j & ? & ? & H); [lia|cbn; lia|].
  exists j. split; [done|]. split; [done|]. exact H.
Qed.

(** ** [map_sector] *)

(** The devices of zone [i]. *)
Definition zone_members (i : nat) : list nat := members rs row (bnd sizes i).

Lemma zone_members_pos i : (i < nr)%nat -> (0 < length (zone_members i) <= length row)%nat.
Proof.
  intros Hi. split; [|apply length_members_le]. rewrite nr_distinct in Hi.
  destruct (bnd_spec sizes i Hi) as (Hin & Hlt & _). apply list_elem_of_fmap in Hin as (d & Hd & Hin).
  assert (d ∈ zone_members i) as Hm by (apply list_elem_of_filter; split; [fold sizes; lia|done]).
  apply list_elem_of_lookup_1 in Hm as [t Ht]. apply lookup_lt_Some in Ht. lia.
Qed.

Lemma members_row : zone_members 0 = row.
Proof.
  unfold zone_members, members. change (bnd sizes 0) with (-1). pose proof (co_pos _ _ _ _ Hok) as Hpos. clear -Hpos.
  induction row as [|i l IH]; [done|]. rewrite filter_cons, decide_True by (specialize (Hpos i); lia). by f_equal.
Qed.

(** The chunk arithmetic is the same for powers of two and for other chunk sizes. *)
Lemma map_sector_arith i sector off :
  (i < nr)%nat ->
  map_sector chunk conf i sector off =
  let n := Z.of_nat (length (zone_members i)) in
  (zone_members i !! Z.to_nat (sector / chunk mod n), u64 (off / (chunk * n) * chunk + sector mod chunk)).
Proof.
  intros Hi. pose proof (zone_members_pos i Hi) as Hn. destruct (co_zone _ _ _ _ Hok i Hi) as (_ & _ & _ & Hnb & Hdev).
  destruct (co_zone _ _ _ _ Hok 0%nat nr_pos) as (_ & _ & _ & Hnb0 & _). fold sizes in Hnb, Hnb0, Hdev. fold (zone_members i) in Hnb, Hdev. fold (zone_members 0) in Hnb0.
  rewrite members_row in Hnb0. unfold map_sector, sector_div. rewrite Hnb, Hnb0. cbn [fst snd]. set (n := Z.of_nat (length (zone_members i))).
  assert (0 < chunk * n < 2 ^ 32) as Hcn by (unfold n; nia).
  assert ((if is_power_of_2 chunk
    then (Z.land sector (chunk - 1), Z.shiftr sector (ffz (u64 (Z.lnot chunk))), off / u32 (Z.shiftl n (ffz (u64 (Z.lnot chunk)))))
    else (sector mod chunk, sector / chunk, off / u32 (chunk * n))) = (sector mod chunk, sector / chunk, off / (chunk * n))) as ->.
  { destruct (is_power_of_2 chunk) eqn:Hp.
    - destruct (is_power_of_2_spec chunk ltac:(lia) Hp) as (c & Hc & ->).
      assert (c < 32) by (apply (Z.pow_lt_mono_r_iff 2); nia).
      rewrite ffz_lnot_pow2, land_ones_mod, Z.shiftr_div_pow2, Z.shiftl_mul_pow2 by lia.
      unfold u32. by rewrite (Z.mul_comm n), (Z.mod_small (2 ^ c * n)) by lia.
    - unfold u32. by rewrite (Z.mod_small (chunk * n)) by lia. }
  f_equal. pose proof (Z.mod_pos_bound (sector / chunk) n ltac:(lia)) as Hb.
  destruct (lookup_lt_is_Some_2 (zone_members i) (Z.to_nat (sector / chunk mod n))) as [d Hd]; [unfold n in *; lia|].
  rewrite Hd. replace (Z.to_nat (Z.of_nat i * Z.of_nat (length row) + sector / chunk mod n))
    with (i * length row + Z.to_nat (sector / chunk mod n))%nat by lia. by rewrite (Hdev _ _ Hd).
Qed.

(** ** The place of a sector *)

Lemma chunk_sizes s : s ∈ sizes -> (chunk | s).
Proof. intros (i & -> & _)%list_elem_of_fmap. apply (co_chunks _ _ _ _ Hok). Qed.

Lemma chunk_bnd i : (i < nr)%nat -> (chunk | bnd sizes (S i)).
Proof. intros Hi. rewrite nr_distinct in Hi. destruct (bnd_spec sizes i Hi) as (Hin & _). by apply chunk_sizes. Qed.

Lemma chunk_end i : (i < nr)%nat -> (chunk | end_of sizes i).
Proof.
  intros Hi. pose proof (chunk_bnd i Hi) as Hb. unfold end_of, below. pose proof chunk_sizes as Hs. revert Hs Hb.
  generalize (bnd sizes (S i)) as x. generalize sizes as l. clear. intros l x Hs Hb.
  induction l as [|s l IH]; [apply Z.divide_0_r|]. cbn [foldr]. apply Z.divide_add_r; [|apply IH; intros; apply Hs; set_solver].
  destruct (Z.min_spec s x) as [[_ ->]|[_ ->]]; [apply Hs; set_solver|done].
Qed.

Lemma chunk_begin i : (i < nr)%nat -> (chunk | begin_of i).
Proof. intros Hi. destruct i as [|i]; [apply Z.divide_0_r|]. apply chunk_end. lia. Qed.

(** The zone reaches from [zone_from i] to [bnd sizes (S i)] on its devices. *)
Definition zone_from (i : nat) : Z := Z.max 0 (bnd sizes i).

Lemma zone_from_spec i :
  (i < nr)%nat -> 0 <= zone_from i <= bnd sizes (S i) /\ (chunk | zone_from i) /\
  end_of sizes i = begin_of i + (bnd sizes (S i) - zone_from i) * Z.of_nat (length (zone_members i)).
Proof.
  intros Hi. pose proof Hi as Hi'. rewrite nr_distinct in Hi'. destruct (bnd_spec sizes i Hi') as (Hin & Hlt & _).
  pose proof (map_sizes_pos _ Hin). unfold zone_from. destruct i as [|i].
  - change (Z.max 0 (bnd sizes 0)) with 0. split; [lia|]. split; [apply Z.divide_0_r|].
    rewrite members_row. cbn [begin_of]. rewrite (end_of_0 sizes map_sizes_pos Hi'). unfold sizes at 2. rewrite length_map. lia.
  - destruct (bnd_spec sizes i ltac:(lia)) as (Hin' & _). pose proof (map_sizes_pos _ Hin'). rewrite Z.max_r by lia.
    split; [lia|]. split; [by apply chunk_sizes|]. cbn [begin_of]. rewrite (end_of_S sizes i Hi').
    unfold zone_members. by rewrite length_members.
Qed.

(** The shift of the device index: the original layout counts chunks from the start of the
    array, the alternative one from the start of the zone. *)
Definition index_shift (i : nat) : Z := if layout conf =? RAID0_ORIG_LAYOUT then begin_of i / chunk else 0.

Lemma begin_shift i r : (i < nr)%nat -> begin_of i <= r ->
  r / chunk = begin_of i / chunk + (r - begin_of i) / chunk /\ r mod chunk = (r - begin_of i) mod chunk.
Proof.
  intros Hi Hr. destruct (chunk_begin i Hi) as [k Hk]. rewrite Hk in *. rewrite Z.div_mul by lia.
  replace (r - k * chunk) with (r + (- k) * chunk) by lia. rewrite Z.div_add, Z.mod_add by lia. lia.
Qed.

Lemma sum_ge (l : list Z) x : (forall s, s ∈ l -> 0 <= s) -> x ∈ l -> 0 <= x <= foldr Z.add 0 l.
Proof.
  intros Hp Hin. split; [by apply Hp|].
  induction l as [|s l IH]; [set_solver|]. cbn [foldr]. pose proof (Hp s ltac:(set_solver)).
  assert (0 <= foldr Z.add 0 l).
  { clear -Hp. induction l as [|u l IH]; [done|]. cbn [foldr]. pose proof (Hp u ltac:(set_solver)). specialize (IH ltac:(set_solver)). lia. }
  apply elem_of_cons in Hin as [->|Hin]; [lia|]. specialize (IH ltac:(set_solver) Hin). lia.
Qed.

Lemma bnd_small i : (i < nr)%nat -> bnd sizes (S i) < 2 ^ 64.
Proof.
  intros Hi. rewrite nr_distinct in Hi. destruct (bnd_spec sizes i Hi) as (Hin & _).
  eapply Z.le_lt_trans; [|apply (co_max _ _ _ _ Hok)]. fold sizes. apply sum_ge; [apply map_sizes_pos|done].
Qed.

Lemma raid0_map_spec r :
  0 <= r < total -> exists i d, (i < nr)%nat /\ begin_of i <= r < end_of sizes i /\
    let n := Z.of_nat (length (zone_members i)) in
    let x := zone_from i + (r - begin_of i) / (chunk * n) * chunk + r mod chunk in
    zone_members i !! Z.to_nat ((index_shift i + (r - begin_of i) / chunk) mod n) = Some d /\
    zone_from i <= x < bnd sizes (S i) /\
    raid0_map chunk rs conf r = Some (d, u64 (x + data_offset (rdev_at rs d))).
Proof.
  intros Hr. destruct (find_zone_spec r Hr) as (i & Hi & Hb & Hfind). exists i.
  pose proof (zone_members_pos i Hi) as Hn. set (n := Z.of_nat (length (zone_members i))) in *.
  destruct (begin_shift i r Hi ltac:(lia)) as [Hdiv Hmod].
  pose proof (Z.mod_pos_bound (index_shift i + (r - begin_of i) / chunk) n ltac:(lia)) as Hpos.
  destruct (lookup_lt_is_Some_2 (zone_members i) (Z.to_nat ((index_shift i + (r - begin_of i) / chunk) mod n))) as [d Hd]; [lia|].
  exists d. split; [done|]. split; [done|]. split; [done|].
  destruct (zone_from_spec i Hi) as (Hf & [kf Hkf] & Hend). destruct (chunk_bnd i Hi) as [kb Hkb].
  set (off := r - begin_of i) in *. assert (0 <= off / (chunk * n)) by (apply Z.div_pos; nia).
  pose proof (Z.mod_pos_bound r chunk Hchunk).
  assert (off / (chunk * n) < kb - kf) as Hrow by (apply Z.div_lt_upper_bound; [nia|]; unfold off; fold n in Hend; nia).
  assert (off / (chunk * n) * chunk + r mod chunk < bnd sizes (S i) - zone_from i) as Hx by (rewrite Hkb, Hkf; nia).
  assert (0 <= off / (chunk * n) * chunk) by (apply Z.mul_nonneg_nonneg; lia).
  split; [lia|]. pose proof (bnd_small i Hi).
  unfold raid0_map. rewrite Hfind. destruct (co_zone _ _ _ _ Hok i Hi) as (_ & _ & Hds & _). fold sizes in Hds. fold (zone_from i) in Hds. rewrite Hds.
  unfold index_shift in Hd. destruct (co_layout _ _ _ _ Hok) as [Hl|Hl]; rewrite Hl in Hd |- *.
  - cbn [Z.eqb RAID0_ORIG_LAYOUT Pos.eqb] in Hd |- *. rewrite (map_sector_arith i r off Hi). cbv zeta. fold n. rewrite Hdiv, Hd.
    rewrite (u64_id (off / (chunk * n) * chunk + r mod chunk)) by lia. do 3 f_equal. lia.
  - cbn [Z.eqb RAID0_ORIG_LAYOUT RAID0_ALT_MULTIZONE_LAYOUT Pos.eqb] in Hd |- *. rewrite (map_sector_arith i off off Hi). cbv zeta. fold n.
    rewrite Z.add_0_l in Hd. rewrite Hd, <- Hmod, (u64_id (off / (chunk * n) * chunk + r mod chunk)) by lia. do 3 f_equal. lia.
Qed.

Lemma u64_add_cancel a b o : 0 <= a < 2 ^ 64 -> 0 <= b < 2 ^ 64 -> u64 (a + o) = u64 (b + o) -> a = b.
Proof.
  intros Ha Hb H. unfold u64 in H. pose proof (Z.div_mod (a + o) (2 ^ 64)). pose proof (Z.div_mod (b + o) (2 ^ 64)). lia.
Qed.

(** Row, device and offset determine the position in a zone. *)
Lemma zone_position n K a b :
  0 < n -> 0 <= a -> 0 <= b -> a / (chunk * n) = b / (chunk * n) -> (K + a / chunk) mod n = (K + b / chunk) mod n ->
  a mod chunk = b mod chunk -> a = b.
Proof.
  intros Hn Ha Hb Hrow Hdev Hoff. rewrite <- !Z.div_div in Hrow by lia.
  assert (a / chunk = b / chunk) as Hq; [|rewrite (Z.div_mod a chunk), (Z.div_mod b chunk), Hq, Hoff; lia].
  set (p := a / chunk) in *. set (q := b / chunk) in *.
  pose proof (Z.div_mod p n ltac:(lia)). pose proof (Z.div_mod q n ltac:(lia)).
  pose proof (Z.mod_pos_bound p n Hn). pose proof (Z.mod_pos_bound q n Hn).
  assert (n | p - q) as [k Hk].
  { replace (p - q) with (K + p - (K + q)) by lia. apply Z.mod_divide; [lia|]. rewrite Zminus_mod, Hdev, Z.sub_diag. apply Z.mod_0_l. lia. }
  assert (k = 0) by nia. lia.
Qed.

Lemma zone_members_nodup i : NoDup (zone_members i).
Proof. apply list.NoDup_filter. rewrite (co_row _ _ _ _ Hok). apply NoDup_seq. Qed.

Lemma zones_apart i j : (i < j < nr)%nat -> bnd sizes (S i) <= zone_from j.
Proof.
  intros Hij. unfold zone_from. pose proof (bnd_mono sizes (S i) j ltac:(rewrite <- nr_distinct; lia)). lia.
Qed.

Lemma raid0_map_inj r1 r2 p :
  0 <= r1 < total -> 0 <= r2 < total -> raid0_map chunk rs conf r1 = Some p -> raid0_map chunk rs conf r2 = Some p -> r1 = r2.
Proof.
  intros Hr1 Hr2 E1 E2.
  destruct (raid0_map_spec r1 Hr1) as (i1 & d1 & Hi1 & Hb1 & Hd1 & Hx1 & Hm1).
  destruct (raid0_map_spec r2 Hr2) as (i2 & d2 & Hi2 & Hb2 & Hd2 & Hx2 & Hm2).
  rewrite E1 in Hm1. rewrite E2, Hm1 in Hm2. clear E1 E2 Hm1. injection Hm2 as -> Hx.
  destruct (zone_from_spec i1 Hi1) as (Hf1 & _). destruct (zone_from_spec i2 Hi2) as (Hf2 & _).
  pose proof (bnd_small i1 Hi1). pose proof (bnd_small i2 Hi2).
  apply u64_add_cancel in Hx; [|lia..].
  assert (i1 = i2) as <-.
  { destruct (Nat.lt_trichotomy i1 i2) as [Hlt|[?|Hlt]]; [|done|].
    - pose proof (zones_apart i1 i2 (conj Hlt Hi2)). lia.
    - pose proof (zones_apart i2 i1 (conj Hlt Hi1)). lia. }
  pose proof (zone_members_pos i1 Hi1) as Hn. set (n := Z.of_nat (length (zone_members i1))) in *.
  pose proof (NoDup_lookup _ _ _ _ (zone_members_nodup i1) Hd1 Hd2) as Hpos.
  destruct (begin_shift i1 r1 Hi1 ltac:(lia)) as [_ Hmod1]. destruct (begin_shift i1 r2 Hi1 ltac:(lia)) as [_ Hmod2].
  pose proof (Z.mod_pos_bound r1 chunk Hchunk). pose proof (Z.mod_pos_bound r2 chunk Hchunk).
  assert ((r1 - begin_of i1) / (chunk * n) = (r2 - begin_of i1) / (chunk * n) /\ r1 mod chunk = r2 mod chunk) as [Hrow Hoff].
  { apply (Z.div_mod_unique chunk); [by left|by left|]. lia. }
  assert (r1 - begin_of i1 = r2 - begin_of i1); [|lia].
  apply (zone_position n (index_shift i1)); [lia|lia|lia|done| |congruence].
  pose proof (Z.mod_pos_bound (index_shift i1 + (r1 - begin_of i1) / chunk) n ltac:(lia)).
  pose proof (Z.mod_pos_bound (index_shift i1 + (r2 - begin_of i1) / chunk) n ltac:(lia)). lia.
Qed.

Lemma raid0_map_in_device r :
  0 <= r < total -> exists d x, raid0_map chunk rs conf r = Some (d, u64 (x + data_offset (rdev_at rs d))) /\
    (d < length rs)%nat /\ 0 <= x < sz rs d.
Proof.
  intros Hr. destruct (raid0_map_spec r Hr) as (i & d & Hi & Hb & Hd & Hx & Hm). exists d. eexists. split; [exact Hm|].
  apply list_elem_of_lookup_2, list_elem_of_filter in Hd as [Hbd Hin]. split.
  - rewrite (co_row _ _ _ _ Hok) in Hin. apply elem_of_seq in Hin. lia.
  - destruct (zone_from_spec i Hi) as (Hf & _). rewrite nr_distinct in Hi. destruct (bnd_spec sizes i Hi) as (_ & _ & Hgap).
    specialize (Hgap (sz rs d) ltac:(apply list_elem_of_fmap; by exists d) Hbd). lia.
Qed.

End Map.

(** * The size *)

Lemma raid0_size_sum c rs :
  0 <= c < 64 -> (forall i, 0 <= sz rs i) -> (forall i, (2 ^ c | sz rs i)) -> foldr Z.add 0 (map sectors rs) < 2 ^ 64 ->
  raid0_size (2 ^ c) rs = foldr Z.add 0 (map sectors rs).
Proof.
  intros Hc Hpos Hdiv Hmax. unfold raid0_size.
  assert (forall r, r ∈ rs -> 0 <= sectors r /\ (2 ^ c | sectors r)) as Hr.
  { intros r [i Hi]%list_elem_of_lookup_1. specialize (Hpos i). specialize (Hdiv i). unfold sz, rdev_at in *. by rewrite Hi in *. }
  assert (forall acc, 0 <= acc -> acc + foldr Z.add 0 (map sectors rs) < 2 ^ 64 ->
    fold_left (fun n r => u64 (n + Z.land (sectors r) (u64 (Z.lnot (2 ^ c - 1))))) rs acc = acc + foldr Z.add 0 (map sectors rs)) as Hfold;
    [|by rewrite Hfold].
  clear Hpos Hdiv Hmax. induction rs as [|r l IH]; intros acc Ha Hm; cbn [fold_left map foldr] in *; [lia|].
  destruct (Hr r ltac:(set_solver)) as [Hp Hd].
  assert (0 <= foldr Z.add 0 (map sectors l)) as Hl.
  { clear -Hr. induction l as [|u l IH]; [done|]. cbn [map foldr]. destruct (Hr u ltac:(set_solver)). specialize (IH ltac:(set_solver)). lia. }
  assert (2 ^ c < 2 ^ 64) by (apply Z.pow_lt_mono_r; lia).
  assert (Z.land (sectors r) (u64 (Z.lnot (2 ^ c - 1))) = sectors r) as ->.
  { rewrite <- (u64_id (2 ^ c - 1)), land_round_down by lia.
    by rewrite (proj2 (Z.mod_divide (sectors r) (2 ^ c) ltac:(lia)) Hd), Z.sub_0_r. }
  rewrite (u64_id (acc + sectors r)) by lia.
  rewrite IH; [lia|set_solver|lia|lia].
Qed.

(** * Properties *)

(** [create_strip_zones] never reads through a [NULL] pointer, neither an empty slot of the
    first zone nor a smallest device that was not found: every zone it counts has a device that
    reaches beyond the zone before. *)
Theorem raid0_create_safe default_layout enomem m :
  mddev_ok m -> (create_strip_zones default_layout enomem m).2 <> Crash.
Proof.
  intros Hm. destruct (create_strip_zones default_layout enomem m) as [rs out] eqn:E.
  by destruct (create_spec default_layout enomem m rs out Hm E).
Qed.

(** Every sector below the end of the last zone is mapped to a sector of a device of the
    array within the (rounded) size of the device. *)
Theorem raid0_in_device default_layout enomem m rs conf r :
  mddev_ok m -> chunk_sectors m * raid_disks m < 2 ^ 32 -> create_strip_zones default_layout enomem m = (rs, Created conf) ->
  0 <= r < zone_end (zone_at (strip_zones conf) (nr_strip_zones conf - 1)) ->
  exists d x, raid0_map (chunk_sectors m) rs conf r = Some (d, u64 (x + data_offset (rdev_at rs d))) /\
    (d < length rs)%nat /\ 0 <= x < sectors (rdev_at rs d).
Proof.
  intros Hm Hs E Hr. destruct (create_spec _ _ _ _ _ Hm E) as [_ H]. destruct (H conf eq_refl) as (_ & row & Hok & Hlen).
  rewrite <- Hlen in Hs. pose proof (mo_chunk m Hm) as Hc. rewrite (last_zone_end _ _ _ _ Hc Hok) in Hr.
  by apply (raid0_map_in_device _ _ _ _ Hc Hok Hs).
Qed.

(** C40. No two sectors of the array share a place on a device, in the original layout and in the
    alternative one for several zones, and whether or not the chunk size is a power of two. *)
Theorem raid0_injective default_layout enomem m rs conf r1 r2 place :
  mddev_ok m -> chunk_sectors m * raid_disks m < 2 ^ 32 -> create_strip_zones default_layout enomem m = (rs, Created conf) ->
  0 <= r1 < zone_end (zone_at (strip_zones conf) (nr_strip_zones conf - 1)) ->
  0 <= r2 < zone_end (zone_at (strip_zones conf) (nr_strip_zones conf - 1)) ->
  raid0_map (chunk_sectors m) rs conf r1 = Some place -> raid0_map (chunk_sectors m) rs conf r2 = Some place -> r1 = r2.
Proof.
  intros Hm Hs E Hr1 Hr2. destruct (create_spec _ _ _ _ _ Hm E) as [_ H]. destruct (H conf eq_refl) as (_ & row & Hok & Hlen).
  rewrite <- Hlen in Hs. pose proof (mo_chunk m Hm) as Hc. rewrite (last_zone_end _ _ _ _ Hc Hok) in Hr1, Hr2.
  by apply (raid0_map_inj _ _ _ _ Hc Hok Hs).
Qed.

(** For a chunk size that is a power of two, the size of the array is the end of its last
    zone, and the sum of the rounded sizes of the devices: nothing is lost between the zones. *)
Theorem raid0_size_last_zone default_layout enomem m rs conf :
  mddev_ok m -> is_power_of_2 (chunk_sectors m) = true -> chunk_sectors m < 2 ^ 31 ->
  create_strip_zones default_layout enomem m = (rs, Created conf) ->
  raid0_size (chunk_sectors m) rs = zone_end (zone_at (strip_zones conf) (nr_strip_zones conf - 1)) /\
  raid0_size (chunk_sectors m) rs = foldr (fun r n => sectors r / chunk_sectors m * chunk_sectors m + n) 0 (rdevs m).
Proof.
  intros Hm Hp Hc31 E. destruct (create_spec _ _ _ _ _ Hm E) as [_ H]. destruct (H conf eq_refl) as (Hsame & row & Hok & _).
  pose proof (mo_chunk m Hm) as Hc. destruct (is_power_of_2_spec (chunk_sectors m) ltac:(lia) Hp) as (c & Hc0 & Hc2).
  assert (c < 31) by (rewrite Hc2 in Hc31; apply (Z.pow_lt_mono_r_iff 2) in Hc31; lia).
  pose proof (sum_sizes rs row (co_row _ _ _ _ Hok)) as Hsum. pose proof (co_max _ _ _ _ Hok) as Hmax. rewrite Hsum in Hmax.
  rewrite (last_zone_end _ _ _ _ Hc Hok). unfold total. rewrite Hsum, Hc2.
  rewrite (raid0_size_sum c rs) by (lia || apply Hok || (intros i; rewrite <- Hc2; apply Hok)). split; [done|].
  rewrite <- Hc2. destruct (rounded_devices m Hm) as (_ & _ & Hmax'). rewrite <- Hsum.
  transitivity (foldr Z.add 0 (map sectors (map (rounded (chunk_sectors m)) (rdevs m)))).
  - destruct Hsame as [Hl Hs]. rewrite <- (sum_sizes _ row) by (rewrite <- Hl; apply Hok). f_equal. apply map_ext. intros i. apply Hs.
  - pose proof (mo_sizes m Hm) as Hpos. pose proof (mo_total m Hm) as Htot. revert Hpos Htot. clear -Hc.
    induction (rdevs m) as [|r l IH]; intros Hpos Htot; [done|]. cbn [map foldr] in *. pose proof (Hpos r ltac:(set_solver)).
    assert (0 <= foldr (fun r n => sectors r + n) 0 l).
    { clear -Hpos. induction l as [|u l IH]; [done|]. cbn [foldr]. pose proof (Hpos u ltac:(set_solver)). specialize (IH ltac:(set_solver)). lia. }
    rewrite IH by (try lia; set_solver). cbn [rounded set_sectors sectors]. pose proof (Z.mul_div_le (sectors r) (chunk_sectors m) Hc).
    rewrite u64_id; [done|]. assert (0 <= sectors r / chunk_sectors m) by (apply Z.div_pos; lia). nia.
Qed.

(** ** Witnesses

    Four devices of three sizes, 64-sector chunks, the alternative layout. *)

Definition example_mddev : mddev :=
  Build_mddev [Build_md_rdev 0 0 1000 0 512; Build_md_rdev 1 1 500 0 512; Build_md_rdev 2 2 1000 0 512; Build_md_rdev 3 3 700 0 512] 0 2 64 4.

Definition example_devices : list md_rdev := (create_strip_zones 0 false example_mddev).1.

Definition example_r0conf : r0conf :=
  match (create_strip_zones 0 false example_mddev).2 with Created conf => conf | _ => Build_r0conf [] [] 0 0 end.

Lemma example_mddev_ok : mddev_ok example_mddev.
Proof.
  split; [done|done| |done]. cbn. intros r Hr. rewrite !elem_of_cons in Hr. destruct Hr as [->|[->|[->|[->|Hr]]]]; [done..|].
  by apply not_elem_of_nil in Hr.
Qed.

Lemma example_created : create_strip_zones 0 false example_mddev = (example_devices, Created example_r0conf).
Proof. vm_compute. reflexivity. Qed.

Lemma raid0_create_safe_witness : mddev_ok example_mddev /\ (create_strip_zones 0 false example_mddev).2 <> Crash.
Proof. split; [exact example_mddev_ok|]. exact (raid0_create_safe 0 false example_mddev example_mddev_ok). Defined.

Lemma example_end : zone_end (zone_at (strip_zones example_r0conf) (nr_strip_zones example_r0conf - 1)) = 3008.
Proof. vm_compute. reflexivity. Qed.

Lemma raid0_in_device_witness :
  exists d x, raid0_map (chunk_sectors example_mddev) example_devices example_r0conf 2000 = Some (d, u64 (x + data_offset (rdev_at example_devices d))) /\
    (d < length example_devices)%nat /\ 0 <= x < sectors (rdev_at example_devices d).
Proof.
  apply (raid0_in_device 0 false example_mddev example_devices example_r0conf 2000 example_mddev_ok); [done|exact example_created|].
  rewrite example_end. lia.
Defined.

Lemma raid0_injective_witness :
  raid0_map (chunk_sectors example_mddev) example_devices example_r0conf 2000 = Some (0%nat, 528) /\ 2000 = 2000.
Proof.
  split; [vm_compute; reflexivity|].
  apply (raid0_injective 0 false example_mddev example_devices example_r0conf 2000 2000 (0%nat, 528) example_mddev_ok);
    [done|exact example_created|rewrite example_end; lia..|vm_compute; reflexivity|vm_compute; reflexivity].
Defined.

Lemma raid0_size_last_zone_witness : raid0_size (chunk_sectors example_mddev) example_devices = 3008.
Proof.
  destruct (raid0_size_last_zone 0 false example_mddev example_devices example_r0conf example_mddev_ok) as [H _];
    [vm_compute; reflexivity|done|exact example_created|]. rewrite example_end in H. exact H.
Defined.

(** ** A chunk size that is not a power of two

    [raid0_run] accepts any chunk size ([map_sector] divides when it is not a power of two), but
    [raid0_size] rounds with a mask. *)

Definition odd_chunk_mddev : mddev := Build_mddev [Build_md_rdev 0 0 504 0 512; Build_md_rdev 1 1 504 0 512] 0 2 24 2.

(** With chunks of 24 sectors on two devices of 504 sectors, whose rounded size is a multiple
    of the chunk size, [raid0_size] masks with [~(24 - 1)] and reports fewer sectors than the
    only zone has. *)
Theorem raid0_size_odd_chunk :
  match create_strip_zones 0 false odd_chunk_mddev with
  | (rs, Created conf) => raid0_size 24 rs = 976 /\ zone_end (zone_at (strip_zones conf) (nr_strip_zones conf - 1)) = 1008
  | _ => False
  end.
Proof. vm_compute. split; reflexivity. Qed.
